(* ===== verification/_CoqProject ===== *)
-Q . S2P
Prelude.v
CTypes.v
Heap.v
ListSort.v
SchedTypes.v
SchedMaster.v
SchedTable.v
SchedApi.v
SchedBuild.v
SchedLoop.v
SchedSafe.v
SchedDemo.v
SchedProps.v
SchedTiming.v
SchedEdge.v
Blowfish.v
BlowfishProofs.v
BlowfishMessage.v
BlowfishProps.v
TrapQueue.v
UtilList.v
JobTime.v
JobList.v
SchedIface.v
JobSched.v
JobTrap.v
JobProps.v
TrapProps.v
FileNet.v
FileSend.v
FileRecv.v
FilePlan.v
FileSendProofs.v
FileRecvProofs.v
FileShake.v
FileProps.v
FileFaults.v
CText.v
JobTable.v
JobTableProofs.v
JobTableProps.v
JobTableTrap.v
JobTableJobs.v
JobTableFlow.v
JobTableChange.v
JobTableDemo.v
Walk.v
JobStart.v
JobStartProps.v
JobRun.v
JobRunProps.v
JobRunUsage.v
JobLog.v
JobLogProps.v
PolicyRow.v
Policy.v
PolicyRead.v
PolicySpec.v
PolicyProofs.v
PolicyDecide.v
PolicyProps.v
Collect.v
CollectSpec.v
CollectCalc.v
CollectForm.v
CollectRefine.v
CollectProps.v
CollectDemo.v
Master.v
MasterProofs.v
MasterProps.v
MasterXml.v
MasterDemo.v
Firewall.v
FirewallTrap.v
FirewallSpec.v
FirewallProofs.v
FirewallProps.v
FirewallDemo.v
FirewallStart.v
