(* ===== verification/Prelude.v ===== *)
(** * NASCenter agent: a verification development

    The agent of src/ runs on a managed host and is driven by SNMP.  This
    library models the C code of it that computes: the task scheduler, the job
    scheduler that feeds it from SNMP traps, the master agent that forwards
    requests to sub-agents with its cipher, the file transfer between agents, the
    monitor of policies, the collector that samples variables at set times, the
    access control by rules of a packet filter, and the table through which jobs
    are created, changed and destroyed over SNMP.  Each function of the code is
    a Rocq function of the same name, executable, with its state passed
    explicitly; each theorem named below is a statement about those functions.

    ** Conventions

    A C function that may perform an undefined access (null, freed or
    out-of-range) returns an [outcome]: [Ret] of a value, [Crash], or [OutOfFuel]
    when a loop has not ended within the iterations the model gives it
    (Prelude.v).  Machine words are integers with their wrap-around written out
    ([UI8], [UI16], [UI32], [I16], [I32] of CTypes.v; widths of Common/ctypes.h).
    Linked lists live on a heap, a finite map from addresses to nodes (Heap.v);
    [malloc] is any function that gives 0 or an address that is not live, the
    class [Allocator], with an instance that always succeeds and one that never
    does.  Clock readings, results of system calls, events of sockets and
    contents of uninitialised variables are arguments.

    ** The scheduler (Common/NASCenter_Scheduler.c)

    SchedTypes, SchedMaster and SchedLoop translate the file.  [sched] holds the
    globals: the master table of 25 lists, the execution list, and the two flags.
    [thread_step] runs the thread function Scheduler from one blocking point to the
    next; [place_step] does the same, but goes through BuildExecutionList, which
    reads the master table without its mutex, node by node, a [place] of the walk
    at a time.  [system_step] interleaves it with calls of clients, and [reachable]
    is what can come of SCH_StartScheduler.  The mutexes are not state: every
    operation of a client holds the table's mutex throughout, so it is one step; the
    lock operations of the execution loop are events of the step.  The calls of
    clients are those that return and that leave alone the node at which the walk
    stands ([walk_over_deleted_task] shows the other case, and
    [task_added_during_rebuild_missed] a task that is added behind the walk).
    SchedTable holds the abstract table (25 lists of identifier and task) and the
    lemmas on the loops; SchedApi the representation [sched_rep] and the
    refinement of every operation; SchedBuild the same for the rebuild
    and the sort, whose loops, which the collector has as well, are in ListSort;
    SchedSafe the invariant of the reachable states; SchedDemo the
    concrete states that the witnesses use.  SchedProps states memory safety
    along every interleaving and the refinement of the client calls to a finite
    map; SchedTiming that a rebuild makes exactly the calls of a timetable that is
    written down without the code, that sorting is stable
    insertion sort and that calls are made in their second; SchedEdge the
    intervals, validation, cleaning, stopping, and what goes wrong there.
    The loops of the code over a list have as fuel the size of the heap plus one,
    which the refinement lemmas prove to be enough; the inner loop of the sort
    has one more for its temporary node.  SCH_AutoCleanTask has its fuel as an
    argument, because it need not end ([SCH_AutoCleanTask_stuck]).

    ** The cipher (Group1/MasterAgent/src/blowfish.c)

    Blowfish translates the file for any width of unsigned long
    of at least 32 bits and hosts of either byte order (class [HostOrder]; the code
    takes words apart as on a little-endian one, since no build defines
    WORDS_BIGENDIAN), with the sign extension of int expressions and the bytes
    of uninitialised locals as arguments.  BlowfishProofs shows that only the low
    32 bits matter (a relation with [Proper] instances for the operations) and
    that a Feistel network is undone by running it backwards; BlowfishMessage
    reasons on messages of several blocks; BlowfishProps states the round trips,
    and which hosts they hold on: the others refuse every key.

    ** The list of the master agent (NASCenter_Util_List.c): UtilList

    ** The job scheduler (Group2/Unix/JobSched)

    TrapQueue is the circular buffer between the SNMP callback and the parser
    thread, a step relation refined to a FIFO, with wake-ups that nobody signalled,
    of which it shows the harm; the backup manager, the access
    control and the application metering have the same code with other sizes, and
    are instances of it.  JobTime reads DateAndTime octets,
    with mktime and localtime written out for a zone at a fixed offset from UTC;
    the calendar is checked by computation for the years a UI32 can count.
    JobList is NASCenter_JS_List.c.  SchedIface is the class [TaskScheduler], what
    the job scheduler relies on of the task scheduler; its instance is proved
    from SchedApi.  JobSched translates the functions that add, modify and delete
    jobs, against the class, and JobTrap the parser of traps.  JobProps states
    that scheduler, job heap and job list stay in step ([js_inv]) and what each
    operation does on every branch; TrapProps what a trap is decoded to.  Walk
    has what the readers of tables share: the class [Session] of answers to GETBULK
    requests, and agents that serve a table row by row.  JobStart translates the walk
    over the table of jobs when the program starts, against it; JobStartProps shows that the jobs
    of a table that is served are registered, all of them.  JobRun translates the
    action of a job, the thread JS_SpawnJobSched with all it calls: what it does to
    others are events, what it meets of the system is a [host].  JobRunProps shows
    that exactly the scripts of the job are run, and when that goes wrong, as when a
    script is missing and a pointer that was not set is freed;
    JobRunUsage composes it with the table of jobs, which records the usage of a
    script without a trap.  JobLog translates the sending of the log, whose task
    schedules itself anew, and the start of the program; JobLogProps shows that there
    is at most one task for the log beside those of the jobs ([log_inv]), what each run of it
    does, and that the program starts with all jobs of the table and the log, and how
    the log gets lost.  The fuel of the list loops is again the size of the heap,
    that of the walks one request for each row; the loop around waitpid takes a round
    of the list of rounds it is given.

    ** The file transfer (Group2/Unix/common/src)

    FileNet has the messages as the bytes of a datagram, on a host of either byte
    order, and the functions that send and receive one; a socket is the list of
    events its select and recvfrom will give.  FileSend and FileRecv translate
    the sender and the receiver, FilePlan, FileSendProofs, FileRecvProofs
    and FileShake hold the lemmas (FileNet the round trip of messages): cutting
    of a file, rounds of a map on each side, handshake.  FileProps composes the
    two sides: under any losses that leave the acknowledgements alone, and however
    often the sender tires of waiting and repeats a round (it waits 5 s, the receiver
    7), the file arrives if no packet of a map comes twice.  FileFaults states what
    duplicates, a lost acknowledgement, strange datagrams and an unsuitable message
    size do.  The loops have a fuel argument
    and the theorems say that every fuel from some number on gives the result;
    the handshake sends at most six packets and its fuel of seven is enough.

    ** The policy monitor (Group1/RBM/src/rbm.c)

    CText has text in memory: C strings in a buffer, strcpy, the numbers that
    printf and atoi convert, and their round trip.  PolicyRow translates the
    reading of a row of the policy table over SNMP into an array of RBM_List,
    which is modelled as the bytes of the whole array because the code copies
    strings without regard to its fields; Policy translates the callback
    snmp_input and all it calls, and the options.  The class [SnmpLib] is what the
    monitor uses of net-snmp and of the agent (read_objid and the response to a
    request), [SnmpLaws] what the documentation says of read_objid; the datagrams,
    requests and child processes are events in the state.  PolicyRead has the
    lemmas on fields of 128 bytes and what each step makes of an array;
    PolicySpec says what a policy means and PolicyProofs and PolicyDecide show
    that each step does that.  PolicyProps has the library and agent of the examples, and
    states that a trap is
    answered as the policy says, from the trap to the datagram and the command
    line, and what other traps, unknown types, long messages and long
    identifiers do.  The loop
    on the conditions has the number of conditions as fuel, plus one for the last
    test; the other loops are bounded by constants of the code.

    ** The collector (Group1/RTCM/src/collectDataTable.c)

    Collect translates the arithmetic: dates, hours and periods of a row, and the
    length of the interval for which samples are planned; the list of samples in the
    heap, RTC_callback, RTC_Collect_Store_Variables and the end of
    collectDataTable_set_commit; the reading of a variable, its line in the log file
    and the sending of the file, RTC_Retrieve_Log_Variable with all it calls, whose
    thread runs in two steps, before and after the transmission; and the alarms of
    the SNMP library; over the globals [rtc] and [logging].  The modules that own the
    variables, the settings and whether files and threads can be had are the class
    [Agent].  CollectSpec says what a plan is and CollectCalc that the search for its
    length ends; CollectForm reasons on the list; CollectRefine has the collector
    without pointers, idle or working through a plan, which it shows the code to
    refine ([rep]): beside the alarms that send the log there is one alarm.
    CollectProps has sequences of alarms, steps of the thread and changes of rows and
    states the refinement, that plans are carried out, their size, and the two
    ways in which samples are taken at other times than the row says.
    CollectDemo is a table with one row, and shows how lines of the log are lost, how
    alarms multiply and how sending ends for good.  The loops over the list have the
    size of the heap as fuel; the search for an interval has thirteen iterations for
    each row and for the end of the table, one more than the twelve lengths from
    an hour to a second.  The readings of the clock are arguments; the theorems
    suppose that they do not change during a call, that an alarm goes off in its
    second, that time_t holds the dates of the rows, that fewer than 2^32 alarms
    are ever set, that texts fit their buffers, that the default log file opens (else
    RTC_Check_LogFile_Name sets an alarm of its own, [no_file_makes_plan]) and that
    the thread does not run in the middle of a call of the collector.  The contents
    of the transmission are those of FileTrans_SendFile and not looked at here.

    ** The access control (Group2/Unix/UC, the Linux program)

    Firewall translates NASCenter_UM_Linux_List.c and the rules of
    NASCenter_UM_Linux_Firewall.c: the list of rows in the heap, whose positions
    are the numbers of the rules in the kernel, and the requests to the kernel,
    which is the class [PacketFilter].  What memory held before it was written is an
    argument of every call; the flags of a rule are never set and lie in it.
    FirewallTrap translates the reading of
    traps at either width of oid.  FirewallSpec has the laws of the kernel
    ([FilterLaws]), the packets a chain of rules lets through, with the interface and
    the flags a rule has, and the table of rows that is meant, each row with its rule
    in the kernel and the program's copy of it; FirewallProofs shows that the list follows the chain
    ([um_rep]) through every operation, and what a trap is decoded to.  FirewallProps
    states both for sequences of traps, that a row opens its port and only that, that
    rows come and go, and where the code fails: the
    protocols of mail rows, long addresses, rows set active twice or alone,
    modifications without a port, stray flags, and 64-bit hosts.  FirewallDemo has a
    kernel that grants every request, and one that refuses to replace rules.  FirewallStart translates the first reading of the four
    tables and shows that it asks for exactly the rows in service, so that a started
    host serves their clients of telnet and FTP and denies its services to all others;
    a walk needs no more requests than the table has rows, plus one, which is the fuel.
    The positions are numbers of 16 bits, so the theorems suppose fewer than 32768
    rows; the loops have the size of the heap plus one as fuel.  The lists of the collector and of this program own all
    nodes of their heap, which is the predicate [chain] of ListSort.v; CTypes.v has
    the variables of a trap, for this program and the job scheduler.

    ** The master agent (Group1/MasterAgent)

    Master translates the callback of the session, MA_Receiver, and the thread
    that forwards, sendPDU and senderThread of NASCenter_MA_Fw.c with
    MA_NASSAReadConfig, over the list of UtilList and the requests in memory; the
    agents behind the session are the class [Network].  [sender_step] and
    [receive_step] are the steps between which the two threads interleave: the
    lock of the list makes taking a request one step, and the test of the count
    and the wait for the condition are two, since the thread does not hold the
    lock in between.  MasterProofs has the proxy that is meant, with its table of
    agents and queue, and the refinement of every operation ([ma_rep]); it
    supposes that a table the main agent sends has all its entries
    ([whole_tables], what the code relies on; [short_table_crashes] says why) and
    that memory does not run out.  MasterProps states that the events of every
    interleaving are those of the proxy on the requests served so far, that an
    awake thread serves all of them, where a request goes, and what goes wrong:
    a wake-up lost between test and wait, a request for an unknown enterprise that
    follows the last one, a table read only once after a change.  MasterXml
    translates the SET documents of NASCenter_MA_Set.c, on the tree that the XML
    library gives, and states that a document is read as the request it writes;
    it has the configuration file as well.  MasterDemo has a network with one agent.
    The only unbounded loop, over the list, has the size of the heap as fuel.

    ** The table of jobs (Group1/G2Configure/src/jobProcessMasterTable.c)

    JobTable translates the handlers of the table and the code of net-snmp that
    calls them: the grouping of the variables of a SET by rows and the phases
    reserve, action, commit, free and undo of table_array.c and snmp_agent.c,
    composed to [handle_set].  A row has its buffers, the container of rows is
    the sorted list of them, the file is a list of rows or not there, and a trap
    that is sent is an event.  Memory, the clock, the room on the disk and the
    session are arguments ([env]), and so is what the second container, by name,
    answers: its order is a function of the code without a return statement, so it
    may refuse any row.  Reading a dotted name and making a variable of a text are
    the class [TableLib].
    JobTableProofs has the well-formed rows and tables and shows that the phases
    keep them and undo what they did; JobTableProps that a failed SET changes
    nothing, and that a restart finds the table in the file, less the rows the second container
    refuses.  JobTableTrap says
    what fits a column ([fits]) and, with the laws [TrapLaws] of the library, that
    a trap conveys the values of a request; JobTableJobs follows a request that
    creates or destroys one row to the end.  JobTableFlow and JobTableChange
    compose the table with the job scheduler of Group2: the trap of a row that is
    created, destroyed or changed makes JS_ParseTrap ask for exactly that job; the
    last also says which texts and indices overrun their buffers.  JobTableDemo
    has a library that keeps the laws, and requests.  All loops are over the
    variables of the request or over the rows.

    ** Not modelled

    net-snmp (Group1/net-snmp-5.8) is third-party code, of which
    netsnmp_oid_is_subtree, the alarms and the phases of a SET on a table are
    translated; its PDUs are lists of variables.  The other SNMP tables of the
    sub-agents (the rest of G2Configure, ProcMon, PortMon, LogMon, FileMon,
    NetAppMon, TransMon, LogCol, sysStats, and the handlers of the collector's
    table) are skeletons that mib2c generates, filled with reads of system files;
    of the table of jobs the registration and the search by name are left out.
    NetAppMon has a near copy of the collector.  Of the job scheduler the
    interleaving of the threads is left out, by which the job of a running thread may
    be freed by another thread; the backup manager is
    a near copy of the job scheduler, of which only the queue is modelled.  The rest
    of Group2 (AM, FD, ICP)
    starts processes and talks to SNMP sessions; so do the start-up of the master
    agent and the socket on which it gets documents; the
    access control of other systems writes the rules with system commands.  Of the file
    transfer, the round-trip measurement, whose call is commented out, the
    set-up of sockets and the Windows branches are left out.  Of the policy
    monitor the select loop, the daemon start and the log file are left out, and
    monitorPolicyTable.c, which mib2c generated.

    ** This file

    The [outcome] type with its monad, the tactics and the lemmas on lists and
    options that the files share. *)

From Stdlib Require Export ZArith Lia.
From stdpp Require Export base tactics option numbers list fin_maps gmap.
#[export] Set Default Proof Using "Type".
#[global] Open Scope Z_scope.

#[global] Arguments Z.eqb _ _ : simpl never.
#[global] Arguments Z.ltb _ _ : simpl never.
#[global] Arguments Z.leb _ _ : simpl never.

(** ** Outcomes of C code

    A C function either returns a value, or performs an access that C leaves
    undefined (a null or freed pointer, an index outside an array, ...), or
    has not finished within the fuel the model gave its loops. *)
Inductive outcome (A : Type) : Type :=
| Ret (a : A)
| Crash
| OutOfFuel.
Arguments Ret {A} a.
Arguments Crash {A}.
Arguments OutOfFuel {A}.

#[export] Instance outcome_ret : MRet outcome := @Ret.
#[export] Instance outcome_bind : MBind outcome := fun A B f m =>
  match m with
  | Ret a => f a
  | Crash => Crash
  | OutOfFuel => OutOfFuel
  end.
#[export] Instance outcome_fmap : FMap outcome := fun A B f m =>
  match m with
  | Ret a => Ret (f a)
  | Crash => Crash
  | OutOfFuel => OutOfFuel
  end.

Lemma outcome_bind_ret {A B} (a : A) (f : A -> outcome B) :
  (Ret a ≫= f) = f a.
Proof. reflexivity. Qed.

Lemma outcome_bind_Ret_inv {A B} (m : outcome A) (f : A -> outcome B) b :
  (m ≫= f) = Ret b -> exists a, m = Ret a /\ f a = Ret b.
Proof. destruct m; simpl; intros; try discriminate; eauto. Qed.

(** ** Automation *)

(** Split the boolean tests of the code into facts [lia] can use. *)
Ltac boolify :=
  repeat match goal with
  | H : _ && _ = true |- _ => apply andb_true_iff in H as [??]
  | H : _ || _ = false |- _ => apply orb_false_iff in H as [??]
  | H : negb _ = true |- _ => apply negb_true_iff in H
  | H : negb _ = false |- _ => apply negb_false_iff in H
  end.

Ltac zbool :=
  repeat match goal with
  | |- context [?a =? ?b] => destruct (Z.eqb_spec a b)
  | |- context [?a <? ?b] => destruct (Z.ltb_spec a b)
  | |- context [?a <=? ?b] => destruct (Z.leb_spec a b)
  end.

(** ** Lists *)
Lemma filter_all {A} (P : A -> Prop) `{!forall x, Decision (P x)} (l : list A) :
  (forall x, x ∈ l -> P x) -> filter P l = l.
Proof.
  induction l as [|x l IH]; [done|]. intros Hl.
  rewrite filter_cons, decide_True by (apply Hl; by left). f_equal.
  apply IH. intros y Hy. apply Hl. by right.
Qed.

(** ** Association lists keyed by integers *)
Section Assoc.
Context {A : Type}.
Implicit Types l : list (Z * A).

Fixpoint assoc (k : Z) l : option A :=
  match l with
  | [] => None
  | (a, v) :: l => if k =? a then Some v else assoc k l
  end.

(** Drop every pair with key [k]. *)
Definition del (k : Z) l : list (Z * A) := filter (fun x => x.1 <> k) l.

Lemma assoc_app k l1 l2 :
  assoc k (l1 ++ l2) = match assoc k l1 with Some v => Some v | None => assoc k l2 end.
Proof. induction l1 as [|[a v] l1 IH]; simpl; [done|]. by destruct (k =? a). Qed.

Lemma assoc_None k l : assoc k l = None <-> k ∉ l.*1.
Proof.
  induction l as [|[a v] l IH]; csimpl; [set_solver|].
  destruct (Z.eqb_spec k a); set_solver.
Qed.

Lemma assoc_split k l v :
  assoc k l = Some v -> exists l1 l2, l = l1 ++ (k, v) :: l2 /\ k ∉ l1.*1.
Proof.
  induction l as [|[a w] l IH]; simpl; [done|].
  destruct (Z.eqb_spec k a) as [->|Hne].
  - intros [= ->]. exists [], l. split; [done|]. apply not_elem_of_nil.
  - intros (l1 & l2 & -> & Hl1)%IH. exists ((a, w) :: l1), l2. split; [done|]. csimpl. set_solver.
Qed.

Lemma assoc_list_to_map k l : (list_to_map l : gmap Z A) !! k = assoc k l.
Proof.
  induction l as [|[a v] l IH]; simpl; [done|].
  destruct (Z.eqb_spec k a) as [->|Hne].
  - by rewrite lookup_insert_eq.
  - by rewrite lookup_insert_ne.
Qed.

Lemma del_notin k l : k ∉ l.*1 -> del k l = l.
Proof.
  unfold del. induction l as [|[a v] l IH]; csimpl; [done|].
  intros [Hne Hl]%not_elem_of_cons. rewrite filter_cons_True by auto.
  by rewrite IH.
Qed.

Lemma del_split k v l1 l2 :
  NoDup (l1 ++ (k, v) :: l2).*1 -> del k (l1 ++ (k, v) :: l2) = l1 ++ l2.
Proof.
  rewrite fmap_app. csimpl. intros (_ & Hd & [Hk _]%NoDup_cons)%NoDup_app.
  unfold del. rewrite filter_app, filter_cons_False by (simpl; tauto).
  fold (del k l1) (del k l2). rewrite !del_notin by set_solver. done.
Qed.

Lemma del_keys k l : forall x, x ∈ (del k l).*1 <-> x ∈ l.*1 /\ x <> k.
Proof.
  intros x. unfold del. rewrite !list_elem_of_fmap. split.
  - intros ([a v] & -> & [? ?]%list_elem_of_filter).
    simpl in *. split; [by exists (a, v)|done].
  - intros (([a v] & -> & ?) & ?). exists (a, v). split; [done|].
    by apply list_elem_of_filter.
Qed.

Lemma del_NoDup k l : NoDup l.*1 -> NoDup (del k l).*1.
Proof.
  unfold del. induction l as [|[a v] l IH]; csimpl; [done|].
  intros [Ha Hl]%NoDup_cons. rewrite filter_cons. case_decide; csimpl; [|auto].
  apply NoDup_cons. split; [|auto]. intros [Hin _]%del_keys. done.
Qed.
End Assoc.
