(* ===== verification/CTypes.v ===== *)
(** * C types of the agent (src/Common/ctypes.h, NASCenter_Errors.h)

    Values of the fixed-width typedefs are integers; storing into one of them
    applies the conversion below.  [unsigned long] is given for both the LP64
    and the 32-bit data models the agent is built for. *)

From S2P Require Import Prelude.

(** ** Conversions to the typedefs of ctypes.h *)
Definition UI8 (x : Z) : Z := x mod 2 ^ 8.
Definition UI16 (x : Z) : Z := x mod 2 ^ 16.
Definition UI32 (x : Z) : Z := x mod 2 ^ 32.
Definition I16 (x : Z) : Z := (x + 2 ^ 15) mod 2 ^ 16 - 2 ^ 15.
Definition I32 (x : Z) : Z := (x + 2 ^ 31) mod 2 ^ 32 - 2 ^ 31.

Lemma UI16_range x : 0 <= UI16 x < 65536.
Proof. unfold UI16. apply Z.mod_pos_bound. lia. Qed.
Lemma UI32_range x : 0 <= UI32 x < 4294967296.
Proof. unfold UI32. apply Z.mod_pos_bound. lia. Qed.
Lemma I16_range x : -32768 <= I16 x < 32768.
Proof. unfold I16. pose proof (Z.mod_pos_bound (x + 2 ^ 15) (2 ^ 16)). lia. Qed.

Lemma UI8_id x : 0 <= x < 256 -> UI8 x = x.
Proof. intros. apply Z.mod_small. lia. Qed.
Lemma UI16_id x : 0 <= x < 65536 -> UI16 x = x.
Proof. intros. apply Z.mod_small. lia. Qed.
Lemma UI32_id x : 0 <= x < 4294967296 -> UI32 x = x.
Proof. intros. apply Z.mod_small. lia. Qed.
Lemma I16_id x : -32768 <= x < 32768 -> I16 x = x.
Proof. intros. unfold I16. rewrite Z.mod_small; lia. Qed.
Lemma I32_id x : -2147483648 <= x < 2147483648 -> I32 x = x.
Proof. intros. unfold I32. rewrite Z.mod_small; lia. Qed.

Create HintDb ctypes.
#[export] Hint Rewrite UI8_id UI16_id UI32_id I16_id I32_id using lia : ctypes.

(** ** Error codes (NASCenter_Errors.h) *)
Inductive ENASCenterError :=
| NASC_FAILURE | NASC_SUCCESS | NASC_INVALID_PARAM | NASC_INSUFFICIENT_MEMORY
| NASC_TIMEOUT | NASC_ILLEGAL_OPERATION | NASC_SOCK_CREATION_FAILED
| NASC_FILE_TRANS_IGNORE_ERROR | NASC_FILE_TRANS_CONN_CLOSED
| NASC_FILE_TRANS_TIME_OUT.

#[export] Instance error_eq_dec : EqDecision ENASCenterError.
Proof. solve_decision. Defined.

(** The enumeration read as a [BOOL]: failure is 0, everything else true. *)
Definition error_bool (e : ENASCenterError) : bool :=
  match e with NASC_FAILURE => false | _ => true end.

(** ** Broken-down time, [struct tm] of <time.h> *)
Record tm := Tm {
  tm_sec : Z; tm_min : Z; tm_hour : Z;
  tm_mday : Z; tm_mon : Z; tm_year : Z; tm_wday : Z
}.

(** What [localtime] guarantees of its result (leap seconds aside). *)
Definition tm_ok (t : tm) : Prop :=
  0 <= tm_sec t < 60 /\ 0 <= tm_min t < 60 /\ 0 <= tm_hour t < 24 /\
  1 <= tm_mday t <= 31 /\ 0 <= tm_mon t < 12 /\ 0 <= tm_wday t < 7.

#[export] Instance tm_ok_dec t : Decision (tm_ok t).
Proof. unfold tm_ok. solve_decision. Defined.

(** ** C strings

    A buffer is the list of its bytes, from a pointer to the end of the object. *)

(** A byte of a buffer the code knows to be long enough. *)
Definition at_ (l : list Z) (i : nat) : Z := nth i l 0.

(** [strlen]; a buffer without a terminator is read past its end. *)
Fixpoint strlen (b : list Z) : outcome nat :=
  match b with
  | [] => Crash
  | c :: b => if c =? 0 then mret O else n ← strlen b; mret (S n)
  end.

Lemma strlen_app m rest : Forall (fun b => b <> 0) m -> strlen (m ++ 0 :: rest) = Ret (length m).
Proof.
  induction 1 as [|b m Hb Hm IH]; simpl; [done|].
  by rewrite (proj2 (Z.eqb_neq _ _) Hb), IH.
Qed.

(** * Variables of SNMP messages

    What the programs that act on traps see of a trap: a list of variables with
    their names, which they compare with the identifiers of tables and columns
    (netsnmp_oid_is_subtree of src/Group1/net-snmp-5.8/snmplib/snmp_api.c). *)

#[local] Open Scope Z_scope.

(** [netsnmp_variable_list]: the union [val] is seen as a string and as a
    [long]; [None] is a null pointer. *)
Record variable := MkVariable {
  name : list Z;
  val_len : Z;
  val_string : list Z;
  val_integer : option Z
}.

(** 0 if the first identifier is a prefix of the second, else 1. *)
Definition netsnmp_oid_is_subtree (in_name1 in_name2 : list Z) : Z :=
  if bool_decide (length in_name2 < length in_name1)%nat then 1
  else if bool_decide (in_name1 = take (length in_name1) in_name2) then 0 else 1.

Definition under (oid : list Z) (v : variable) : bool :=
  netsnmp_oid_is_subtree oid (name v) =? 0.

Lemma under_take oid v :
  under oid v = bool_decide (take (length oid) (name v) = oid).
Proof.
  unfold under, netsnmp_oid_is_subtree. case_bool_decide as Hl.
  - rewrite bool_decide_eq_false_2; [done|]. intros Heq. apply (f_equal length) in Heq.
    rewrite length_take in Heq. lia.
  - destruct (decide (take (length oid) (name v) = oid)) as [Heq|Hne].
    + by rewrite !bool_decide_eq_true_2.
    + by rewrite !bool_decide_eq_false_2.
Qed.
