(* ===== verification/Heap.v ===== *)
(** * Linked nodes in the process heap

    The agent's tables are singly linked lists of [malloc]ed nodes.  This file
    has the store they live in (addresses are integers, [NULL] is 0), the
    allocator interface, the list-segment predicate that relates a chain of
    nodes to a Rocq list, and the pointer surgery (append after a tail, unlink
    a node) the components share. *)

From S2P Require Import Prelude.

Definition NULL : Z := 0.

(** ** The allocator

    [malloc] is given the addresses in use and answers a fresh one, or [NULL]
    when no memory is left. *)
Class Allocator := {
  malloc : gset Z -> Z;
  malloc_spec live : malloc live = NULL \/ 0 < malloc live /\ malloc live ∉ live
}.

(** An allocator that never fails: one above the highest address in use. *)
Definition bump (live : gset Z) : Z := 1 + set_fold Z.max 0 live.

Lemma bump_above live a : a ∈ live -> a < bump live.
Proof.
  unfold bump. revert a.
  apply (set_fold_ind_L (fun r X => forall a, a ∈ X -> a < 1 + r)).
  - set_solver.
  - intros x X r Hx IH a [->%elem_of_singleton | Ha]%elem_of_union; [lia|].
    specialize (IH a Ha). lia.
Qed.

Lemma bump_pos live : 0 < bump live.
Proof.
  unfold bump. enough (0 <= set_fold Z.max 0 live) by lia.
  apply (set_fold_ind_L (fun r _ => 0 <= r)); [lia|]. intros. lia.
Qed.

Definition bump_allocator : Allocator.
Proof.
  refine {| malloc := bump |}. intros live. right. split; [apply bump_pos|].
  intros Hin%bump_above. lia.
Defined.

(** Memory never runs out. *)
Definition malloc_total `{Allocator} : Prop := forall live, malloc live <> NULL.

Lemma bump_total : @malloc_total bump_allocator.
Proof. intros live. pose proof (bump_pos live). change (bump live <> 0). lia. Qed.

(** An allocator with no memory left. *)
Definition oom_allocator : Allocator.
Proof. refine {| malloc := fun _ => NULL |}. intros. by left. Defined.

(** ** Nodes *)
Section Nodes.
Context {V : Type}.

Record node := Node { val : V; next : Z }.
Abbreviation heap := (gmap Z node).

Definition load (h : heap) (a : Z) : outcome node :=
  if a =? NULL then Crash else
  match h !! a with Some nd => Ret nd | None => Crash end.

Definition set_next (h : heap) (a n : Z) : outcome heap :=
  nd ← load h a; mret (<[a := Node (val nd) n]> h).

Definition dispose (h : heap) (a : Z) : outcome heap :=
  _ ← load h a; mret (delete a h).

(** ** List segments

    [lseg h a l e]: following [next] from [a] visits the addresses and values
    of [l] in order and then arrives at [e]. *)
Fixpoint lseg (h : heap) (a : Z) (l : list (Z * V)) (e : Z) : Prop :=
  match l with
  | [] => a = e
  | (b, v) :: l' =>
      a = b /\ a <> NULL /\ exists n, h !! a = Some (Node v n) /\ lseg h n l' e
  end.

Lemma load_Some h a nd : a <> NULL -> h !! a = Some nd -> load h a = Ret nd.
Proof. unfold load. intros Ha ->. by destruct (Z.eqb_spec a NULL). Qed.

Lemma set_next_Some h a v k n :
  a <> NULL -> h !! a = Some (Node v k) -> set_next h a n = Ret (<[a := Node v n]> h).
Proof. intros Ha Hk. unfold set_next. by rewrite (load_Some _ _ _ Ha Hk). Qed.

Lemma lseg_app h a l1 l2 e :
  lseg h a (l1 ++ l2) e <-> exists m, lseg h a l1 m /\ lseg h m l2 e.
Proof.
  revert a. induction l1 as [|[b v] l1 IH]; intros a; simpl.
  - split; [by exists a | by intros (m & -> & ?)].
  - split.
    + intros (-> & Hb & n & Hn & (m & ? & ?)%IH). eauto 8.
    + intros (m & (-> & Hb & n & Hn & Hl) & ?).
      repeat split; auto. exists n. split; [done|]. apply IH; eauto.
Qed.

Lemma lseg_insert h a l e x nd :
  x ∉ l.*1 -> lseg h a l e -> lseg (<[x := nd]> h) a l e.
Proof.
  revert a. induction l as [|[b v] l IH]; intros a; simpl; [done|].
  intros [Hxb Hx]%not_elem_of_cons (-> & Hb & n & Hn & Hl).
  repeat split; auto. exists n. rewrite lookup_insert_ne by done. auto.
Qed.

Lemma lseg_delete h a l e x :
  x ∉ l.*1 -> lseg h a l e -> lseg (delete x h) a l e.
Proof.
  revert a. induction l as [|[b v] l IH]; intros a; simpl; [done|].
  intros [Hxb Hx]%not_elem_of_cons (-> & Hb & n & Hn & Hl).
  repeat split; auto. exists n. rewrite lookup_delete_ne by done. auto.
Qed.

(** A chain only depends on its own nodes. *)
Lemma lseg_agree h h' a l e :
  (forall x, x ∈ l.*1 -> h' !! x = h !! x) -> lseg h a l e -> lseg h' a l e.
Proof.
  revert a. induction l as [|[b v] l IH]; intros a; csimpl; [done|].
  intros Hag (-> & Hb & n & Hn & Hl).
  repeat split; auto. exists n. rewrite Hag by set_solver.
  split; [done|]. apply IH; set_solver.
Qed.

Lemma lseg_in h a l e x v :
  lseg h a l e -> (x, v) ∈ l -> x <> NULL /\ exists n, h !! x = Some (Node v n).
Proof.
  revert a. induction l as [|[b w] l IH]; intros a; simpl; [set_solver|].
  intros (-> & Hb & n & Hn & Hl) [[= -> ->]|Hin]%elem_of_cons; eauto.
Qed.

Lemma lseg_dom h a l e x : lseg h a l e -> x ∈ l.*1 -> x ∈ dom h.
Proof.
  intros Hl ([? v] & -> & Hin)%list_elem_of_fmap.
  destruct (lseg_in _ _ _ _ _ _ Hl Hin) as (_ & n & Hn).
  apply elem_of_dom. eauto.
Qed.

Lemma lseg_nonnull h a l e x : lseg h a l e -> x ∈ l.*1 -> x <> NULL.
Proof.
  intros Hl ([? v] & -> & Hin)%list_elem_of_fmap.
  by destruct (lseg_in _ _ _ _ _ _ Hl Hin).
Qed.

(** The head pointer of a null-terminated chain is [NULL] exactly when the
    chain is empty. *)
Lemma lseg_null_nil h l : lseg h NULL l NULL -> l = [].
Proof. destruct l as [|[b v] l]; simpl; [done|]. by intros (_ & ? & _). Qed.

Lemma lseg_cons_inv h a l e :
  a <> e -> lseg h a l e ->
  exists v l' n, l = (a, v) :: l' /\ a <> NULL /\ h !! a = Some (Node v n) /\
    lseg h n l' e.
Proof. destruct l as [|[b v] l]; simpl; [done|]. intros _ (-> & ? & n & ? & ?). eauto 8. Qed.

Lemma lseg_size h a l e :
  lseg h a l e -> NoDup l.*1 -> (length l <= size h)%nat.
Proof.
  intros Hl Hnd.
  rewrite <- (length_fmap fst), <- (size_list_to_set (C := gset Z)) by done.
  rewrite <- size_dom. apply subseteq_size.
  intros x Hx%elem_of_list_to_set. by eapply lseg_dom.
Qed.

(** ** Appending behind the tail *)
Lemma lseg_snoc h a l p v n w :
  lseg h a (l ++ [(p, v)]) NULL -> NoDup (l ++ [(p, v)]).*1 ->
  n <> NULL -> n ∉ dom h ->
  lseg (<[p := Node v n]> (<[n := Node w NULL]> h)) a
       (l ++ [(p, v); (n, w)]) NULL.
Proof.
  intros Hl Hnd Hn Hfresh.
  assert (Hpn : p <> n).
  { intros ->. apply Hfresh. eapply lseg_dom; [exact Hl|].
    rewrite fmap_app, elem_of_app. right. by left. }
  apply lseg_app in Hl as (m & Hl & (-> & Hp & k & Hk & ->)).
  rewrite fmap_app in Hnd. apply NoDup_app in Hnd as (_ & Hdisj & _). csimpl in *.
  apply lseg_app. exists p. split.
  - apply lseg_insert; [set_solver|]. apply lseg_insert; [|done].
    intros Hin. apply Hfresh. by eapply lseg_dom.
  - simpl. repeat split; auto. exists n. rewrite lookup_insert_eq. split; [done|].
    repeat split; auto. exists NULL. rewrite lookup_insert_ne by done.
    by rewrite lookup_insert_eq.
Qed.

(** ** Unlinking a node *)
Lemma lseg_unlink h a l1 p v c w n l2 :
  lseg h a (l1 ++ (p, v) :: (c, w) :: l2) NULL ->
  NoDup (l1 ++ (p, v) :: (c, w) :: l2).*1 ->
  h !! c = Some (Node w n) ->
  lseg (delete c (<[p := Node v n]> h)) a (l1 ++ (p, v) :: l2) NULL.
Proof.
  intros Hl Hnd Hc. rewrite fmap_app in Hnd. csimpl in *.
  apply NoDup_app in Hnd as (_ & Hdisj & Hnd).
  apply NoDup_cons in Hnd as [Hp Hnd]. apply NoDup_cons in Hnd as [Hc2 _].
  apply lseg_app in Hl as (m & Hl & (-> & Hpn & k & Hk & (-> & Hcn & k' & Hk' & Hl2))).
  simplify_eq.
  apply lseg_app. exists p. split.
  - apply lseg_delete; [set_solver|]. apply lseg_insert; [set_solver|done].
  - simpl. repeat split; auto. exists k'.
    rewrite lookup_delete_ne by set_solver. rewrite lookup_insert_eq. split; [done|].
    apply lseg_delete; [set_solver|]. apply lseg_insert; [set_solver|done].
Qed.

Lemma lseg_unlink_head h a c w n l2 :
  lseg h a ((c, w) :: l2) NULL -> NoDup ((c, w) :: l2).*1 ->
  h !! c = Some (Node w n) -> lseg (delete c h) n l2 NULL.
Proof.
  simpl. intros (-> & _ & k & Hk & Hl) [Hc _]%NoDup_cons ?. simplify_eq.
  by apply lseg_delete.
Qed.

(** The address after a node, by position. *)
Lemma lseg_next h a l1 c w l2 e :
  lseg h a (l1 ++ (c, w) :: l2) e ->
  c <> NULL /\ exists n, h !! c = Some (Node w n) /\ lseg h n l2 e.
Proof. intros (m & _ & (-> & ? & n & ? & ?))%lseg_app. eauto. Qed.

End Nodes.
Arguments node : clear implicits.
Arguments Node {V} val next.

(** The address of the last node. *)
Definition last_addr {V} (l : list (Z * V)) : Z :=
  match last l with Some (a, _) => a | None => NULL end.

Lemma last_addr_snoc {V} (l : list (Z * V)) a v : last_addr (l ++ [(a, v)]) = a.
Proof. unfold last_addr. by rewrite last_snoc. Qed.

#[export] Instance node_eq_dec {V} `{EqDecision V} : EqDecision (node V).
Proof. solve_decision. Defined.

Create HintDb heap.
#[export] Hint Resolve lseg_insert lseg_delete : heap.
