(* ===== verification/ListSort.v ===== *)
(** * Bubble sort of a chain of nodes (the sort of NASCenter_Scheduler.c and
      of collectDataTable.c)

    Two components sort a linked list behind a temporary node with the same
    loops, which exchange neighbours by their links.  The sort ends and leaves
    the chain that stable insertion sort ([isort]) gives. *)

From S2P Require Import Prelude Heap.
From stdpp Require Import list.
From Stdlib Require Import Sorted.
#[local] Open Scope Z_scope.

Section Chains.
Context {V : Type}.

(** ** Chains of nodes *)
Definition hd_addr (l : list (Z * V)) : Z := match l with [] => NULL | (a, _) :: _ => a end.

Lemma lseg_hd h a l : lseg h a l NULL -> a = hd_addr l.
Proof. destruct l as [|[b v] l]; [done|]. by intros [-> _]. Qed.

Lemma lseg_at h a l1 c w l2 :
  lseg h a (l1 ++ (c, w) :: l2) NULL -> c <> NULL /\ h !! c = Some (Node w (hd_addr l2)).
Proof.
  intros Hl. destruct (lseg_next _ _ _ _ _ _ _ Hl) as (Hc & n & Hn & Hl2).
  by rewrite (lseg_hd _ _ _ Hl2) in Hn.
Qed.

Lemma hd_addr_notin l : hd_addr l = NULL \/ hd_addr l ∈ l.*1.
Proof. destruct l as [|[a v] l]; [by left|right; left]. Qed.

(** The end of the unsorted part is not one of its nodes. *)
Lemma before_end h a l1 p v l2 B :
  lseg h a (l1 ++ (p, v) :: l2 ++ B) NULL -> NoDup (l1 ++ (p, v) :: l2 ++ B).*1 ->
  p <> hd_addr B.
Proof.
  intros Hl Hnd ->. destruct (lseg_at _ _ _ _ _ _ Hl) as [Hp _].
  destruct (hd_addr_notin B) as [?|Hin]; [done|].
  rewrite fmap_app in Hnd. csimpl in *. rewrite fmap_app in Hnd.
  apply NoDup_app in Hnd as (_ & _ & [Hn _]%NoDup_cons). set_solver.
Qed.

Lemma NoDup_three (l1 : list Z) r p q l2 :
  NoDup (l1 ++ r :: p :: q :: l2) ->
  r <> p /\ r <> q /\ p <> q /\ (forall x, x ∈ l1 -> x <> r /\ x <> p /\ x <> q) /\
  (forall x, x ∈ l2 -> x <> r /\ x <> p /\ x <> q).
Proof.
  intros (_ & Hd & (Hr & (Hp & (Hq & _)%NoDup_cons)%NoDup_cons)%NoDup_cons)%NoDup_app.
  set_solver.
Qed.

Lemma lseg_swap h a l1 r u p v q w l2 :
  lseg h a (l1 ++ (r, u) :: (p, v) :: (q, w) :: l2) NULL ->
  NoDup (l1 ++ (r, u) :: (p, v) :: (q, w) :: l2).*1 ->
  lseg (<[r := Node u q]> (<[p := Node v (hd_addr l2)]> (<[q := Node w p]> h))) a
       (l1 ++ (r, u) :: (q, w) :: (p, v) :: l2) NULL.
Proof.
  intros Hl Hnd. rewrite fmap_app in Hnd. csimpl in *.
  apply NoDup_three in Hnd as (? & ? & ? & Hd1 & Hd2).
  apply lseg_app in Hl as (m & Hl & Hl2). simpl in Hl2.
  destruct Hl2 as (-> & Hr0 & nr & _ & -> & Hp0 & np & _ & -> & Hq0 & n & Hn & Hl2).
  rewrite <- (lseg_hd _ _ _ Hl2).
  apply lseg_app. exists r. split.
  { repeat (apply lseg_insert; [intros Hin; by apply Hd1 in Hin as (? & ? & ?)|]). done. }
  simpl. split_and!; [done..|]. exists q. rewrite lookup_insert_eq. split_and!; [done..|].
  exists p. rewrite !lookup_insert_ne, lookup_insert_eq by done. split_and!; [done..|].
  exists n. rewrite lookup_insert_ne, lookup_insert_eq by done. split; [done|].
  repeat (apply lseg_insert; [intros Hin; by apply Hd2 in Hin as (? & ? & ?)|]). done.
Qed.

Lemma NoDup_swap {A} (l1 : list A) x y l2 : NoDup (l1 ++ x :: y :: l2) -> NoDup (l1 ++ y :: x :: l2).
Proof.
  intros H. eapply (NoDup_Permutation_proper); [|exact H].
  apply Permutation_app_head. constructor.
Qed.

Lemma end_test h a l1 p v l2 B :
  lseg h a (l1 ++ (p, v) :: l2 ++ B) NULL -> NoDup (l1 ++ (p, v) :: l2 ++ B).*1 ->
  (if hd_addr (l2 ++ B) =? hd_addr B then p else hd_addr B) =
  match l2 with [] => p | _ => hd_addr B end.
Proof.
  destruct l2 as [|[q w] l2]; intros Hl Hnd; simpl; [by rewrite Z.eqb_refl|].
  rewrite cons_middle, app_assoc in Hl, Hnd.
  apply before_end in Hl; [|done]. by rewrite (proj2 (Z.eqb_neq _ _) Hl).
Qed.

End Chains.

Section ListSort.
Context {V : Type}.
(** The value by which nodes are compared. *)
Variable k_of : V -> Z.

(** ** The loops *)
Fixpoint sort_inner (fuel : nat) (h : gmap Z (node V)) (start p q r s : Z)
    : outcome (gmap Z (node V) * Z * Z) :=
  match fuel with
  | O => OutOfFuel
  | S fuel =>
      if p =? s then mret (h, start, s) else
      np ← load h p;
      nq ← load h q;
      '(h1, start1, p1, r1) ←
        (if k_of (val nq) <? k_of (val np) then
           let temp := next nq in
           ha ← set_next h q p;
           hb ← set_next ha p temp;
           if p =? start then mret (hb, q, p, q)
           else hc ← set_next hb r q; mret (hc, start, p, q)
         else mret (h, start, next np, p));
      np1 ← load h1 p1;
      sort_inner fuel h1 start1 p1 (next np1) r1 (if next np1 =? s then p1 else s)
  end.

Fixpoint sort_outer (fuel : nat) (h : gmap Z (node V)) (start s : Z)
    : outcome (gmap Z (node V) * Z) :=
  match fuel with
  | O => OutOfFuel
  | S fuel =>
      ns ← load h start;
      if s =? next ns then mret (h, start) else
      '(h1, start1, s1) ← sort_inner (S (S (size h))) h start start (next ns) start s;
      sort_outer fuel h1 start1 s1
  end.

Abbreviation item := (Z * V)%type.
Definition key (x : item) : Z := k_of x.2.
Definition key_le (x y : item) : Prop := key x <= key y.

(** ** The reference: stable insertion sort *)
Fixpoint insert_item (x : item) (l : list item) : list item :=
  match l with
  | [] => [x]
  | y :: l' => if key x <=? key y then x :: l else y :: insert_item x l'
  end.
Definition isort (l : list item) : list item := foldr insert_item [] l.

(** The elements with a given interval, in order. *)
Definition class (k : Z) (l : list item) : list item := filter (fun x => key x = k) l.

Lemma class_app k l1 l2 : class k (l1 ++ l2) = class k l1 ++ class k l2.
Proof. apply filter_app. Qed.

Lemma class_insert k x l : class k (insert_item x l) = class k (x :: l).
Proof.
  induction l as [|y l IH]; simpl; [done|]. destruct (Z.leb_spec (key x) (key y)); [done|].
  unfold class in *. rewrite filter_cons, IH, !filter_cons.
  repeat case_decide; simplify_eq; done || lia.
Qed.

Lemma class_isort k l : class k (isort l) = class k l.
Proof.
  induction l as [|x l IH]; [done|]. change (isort (x :: l)) with (insert_item x (isort l)).
  rewrite class_insert. unfold class in *. rewrite !filter_cons. case_decide; congruence.
Qed.

Lemma insert_Permutation x l : insert_item x l ≡ₚ x :: l.
Proof.
  induction l as [|y l IH]; simpl; [done|]. case_match; [done|]. rewrite IH. constructor.
Qed.

Lemma isort_Permutation l : isort l ≡ₚ l.
Proof.
  induction l as [|x l IH]; [done|]. change (isort (x :: l)) with (insert_item x (isort l)).
  by rewrite insert_Permutation, IH.
Qed.

Lemma Forall_perm {A} (P : A -> Prop) l1 l2 : l1 ≡ₚ l2 -> Forall P l1 -> Forall P l2.
Proof. intros Hp. by rewrite Hp. Qed.

Lemma isort_sorted l : StronglySorted key_le (isort l).
Proof.
  induction l as [|x l IH]; [constructor|]. change (isort (x :: l)) with (insert_item x (isort l)).
  induction IH as [|y l' Hs IHs Hall]; simpl; [repeat constructor|].
  destruct (Z.leb_spec (key x) (key y)).
  - constructor; [by constructor|]. constructor; [done|].
    eapply Forall_impl; [exact Hall|]. unfold key_le. simpl. lia.
  - constructor; [done|]. eapply Forall_perm; [symmetry; apply insert_Permutation|].
    constructor; [unfold key_le; lia|done].
Qed.

(** A sorted list is determined by its classes. *)
Lemma class_above k l : Forall (fun y => k < key y) l -> class k l = [].
Proof.
  induction 1; [done|]. unfold class in *. rewrite filter_cons_False; [done|lia].
Qed.

Lemma class_head x l1 y l2 :
  StronglySorted key_le (y :: l2) -> class (key x) (x :: l1) = class (key x) (y :: l2) ->
  key y <= key x.
Proof.
  intros [_ Hall]%StronglySorted_inv Hc. apply Znot_gt_le. intros Hlt.
  rewrite (class_above _ (y :: l2)) in Hc.
  - unfold class in Hc. by rewrite filter_cons_True in Hc.
  - constructor; [lia|]. eapply Forall_impl; [exact Hall|]. unfold key_le. simpl. lia.
Qed.

Lemma sorted_unique l1 l2 :
  StronglySorted key_le l1 -> StronglySorted key_le l2 ->
  (forall k, class k l1 = class k l2) -> l1 = l2.
Proof.
  revert l2. induction l1 as [|x l1 IH]; intros [|y l2] H1 H2 Hc; [done| | |].
  - specialize (Hc (key y)). unfold class in Hc. by rewrite filter_cons_True in Hc.
  - specialize (Hc (key x)). unfold class in Hc. by rewrite filter_cons_True in Hc.
  - pose proof (class_head _ _ _ _ H2 (Hc (key x))).
    pose proof (class_head _ _ _ _ H1 (eq_sym (Hc (key y)))).
    assert (key x = key y) as Hk by lia.
    pose proof (Hc (key x)) as Hx. unfold class in Hx.
    rewrite !filter_cons_True in Hx by congruence. injection Hx as -> Hx.
    apply StronglySorted_inv in H1 as [H1 _], H2 as [H2 _].
    f_equal. apply IH; [done..|]. intros k. specialize (Hc k). unfold class in *.
    rewrite !filter_cons in Hc. case_decide; congruence.
Qed.

(** ** One pass of the code, on lists *)
Fixpoint bubble (x : item) (l : list item) : list item :=
  match l with
  | [] => [x]
  | y :: l => if key y <? key x then y :: bubble x l else x :: bubble y l
  end.

Lemma bubble_class k x l : class k (bubble x l) = class k (x :: l).
Proof.
  revert x. induction l as [|y l IH]; intros x; simpl; [done|].
  destruct (Z.ltb_spec (key y) (key x)); unfold class in *; rewrite filter_cons, IH;
    rewrite !filter_cons; repeat case_decide; simplify_eq; done || lia.
Qed.

Lemma bubble_Permutation x l : bubble x l ≡ₚ x :: l.
Proof.
  revert x. induction l as [|y l IH]; intros x; simpl; [done|].
  case_match; rewrite IH; [constructor|done].
Qed.

Lemma bubble_last x l : exists l' m, bubble x l = l' ++ [m] /\ length l' = length l /\
  Forall (fun y => key_le y m) l' /\ key_le x m.
Proof.
  revert x. induction l as [|y l IH]; intros x; simpl.
  - exists [], x. split_and!; [done..|]. unfold key_le. lia.
  - destruct (Z.ltb_spec (key y) (key x)).
    + destruct (IH x) as (l' & m & -> & Hl & Hf & Hx). exists (y :: l'), m.
      split_and!; [done|simpl; lia| |done]. constructor; [unfold key_le in *; lia|done].
    + destruct (IH y) as (l' & m & -> & Hl & Hf & Hx). exists (x :: l'), m.
      split_and!; [done|simpl; lia| |unfold key_le in *; lia].
      constructor; [unfold key_le in *; lia|done].
Qed.

Lemma last_addr_bubble x y l : last_addr (x :: bubble y l) = last_addr (bubble y l).
Proof.
  destruct (bubble_last y l) as (l' & [a w] & -> & _).
  by rewrite app_comm_cons, !last_addr_snoc.
Qed.

(** ** One pass of the code, in the heap *)
Lemma sort_inner_spec l2 fuel h start l1 r u p v B :
  lseg h start (l1 ++ (r, u) :: (p, v) :: l2 ++ B) NULL ->
  NoDup (l1 ++ (r, u) :: (p, v) :: l2 ++ B).*1 -> (length l2 < fuel)%nat ->
  exists h', sort_inner fuel h start p (hd_addr (l2 ++ B)) r
               (match l2 with [] => p | _ => hd_addr B end) =
             Ret (h', start, last_addr (bubble (p, v) l2)) /\
    lseg h' start (l1 ++ (r, u) :: bubble (p, v) l2 ++ B) NULL /\ dom h' = dom h.
Proof.
  revert fuel h l1 r u p v. induction l2 as [|[q w] l2 IH]; intros [|fuel] h l1 r u p v Hl Hnd Hf;
    [simpl in Hf; lia| |simpl in Hf; lia|].
  { cbn [sort_inner]. rewrite Z.eqb_refl. by exists h. }
  cbn [sort_inner length] in *.
  assert (Hps : p <> hd_addr B).
  { rewrite cons_middle, app_assoc in Hl, Hnd. by apply (before_end _ _ _ _ _ ((q, w) :: l2)) in Hl. }
  rewrite (proj2 (Z.eqb_neq _ _) Hps).
  assert (Hl' := Hl). rewrite (cons_middle (r, u)), app_assoc in Hl'.
  destruct (lseg_at _ _ _ _ _ _ Hl') as [Hp0 Hp].
  rewrite <- app_comm_cons, (cons_middle (p, v)), app_assoc in Hl'.
  destruct (lseg_at _ _ _ _ _ _ Hl') as [Hq0 Hq]. cbn [app hd_addr] in Hp |- *.
  rewrite (load_Some _ _ _ Hp0 Hp), outcome_bind_ret, (load_Some _ _ _ Hq0 Hq), outcome_bind_ret.
  cbn [val next bubble].
  change (k_of w <? k_of v) with (key (q, w) <? key (p, v)).
  assert (Hst : p <> start).
  { intros ->. rewrite fmap_app in Hnd. csimpl in *. apply lseg_hd in Hl.
    destruct l1 as [|[x y] l1]; simpl in *; subst; apply NoDup_cons in Hnd as [Hn _]; set_solver. }
  destruct (key (q, w) <? key (p, v)).
  - rewrite <- app_comm_cons in Hl, Hnd.
    pose proof (lseg_swap _ _ _ _ _ _ _ _ _ _ Hl Hnd) as Hsw.
    destruct (lseg_at _ _ _ _ _ _ Hl) as [Hr0 Hr].
    assert (Hnd' := Hnd). rewrite fmap_app in Hnd'. csimpl in Hnd'.
    apply NoDup_three in Hnd' as (? & ? & ? & _).
    rewrite (set_next_Some _ _ _ _ _ Hq0 Hq), outcome_bind_ret.
    erewrite set_next_Some; [|done|by rewrite lookup_insert_ne]. rewrite outcome_bind_ret.
    rewrite (proj2 (Z.eqb_neq _ _) Hst).
    erewrite set_next_Some; [|done|by rewrite !lookup_insert_ne]. rewrite !outcome_bind_ret.
    erewrite load_Some; [|done|by rewrite lookup_insert_ne, lookup_insert_eq].
    rewrite outcome_bind_ret. cbn [next].
    rewrite (cons_middle (r, u)), app_assoc in Hsw.
    assert (Hnd2 : NoDup ((l1 ++ [(r, u)]) ++ (q, w) :: (p, v) :: l2 ++ B).*1).
    { eapply (NoDup_Permutation_proper); [|exact Hnd]. rewrite <- app_assoc.
      apply fmap_Permutation, Permutation_app_head, Permutation_skip. constructor. }
    assert (Hsw2 := Hsw). assert (Hnd3 := Hnd2).
    rewrite cons_middle, app_assoc in Hsw2, Hnd3. rewrite (end_test _ _ _ _ _ _ _ Hsw2 Hnd3).
    destruct (IH fuel _ (l1 ++ [(r, u)]) q w p v Hsw Hnd2) as (h' & -> & Hl3 & Hd); [lia|].
    exists h'. rewrite <- app_assoc in Hl3. split_and!; [|done|].
    + by rewrite last_addr_bubble.
    + rewrite Hd, !dom_insert_L. apply elem_of_dom_2 in Hr, Hp, Hq. set_solver.
  - rewrite outcome_bind_ret. cbn [fst snd].
    rewrite <- app_comm_cons in Hl, Hnd.
    erewrite load_Some; [|done|exact Hq]. rewrite outcome_bind_ret. cbn [next].
    rewrite (cons_middle (r, u)), app_assoc in Hl, Hnd.
    assert (Hl2 := Hl). assert (Hnd2 := Hnd). rewrite cons_middle, app_assoc in Hl2, Hnd2.
    rewrite (end_test _ _ _ _ _ _ _ Hl2 Hnd2).
    destruct (IH fuel h (l1 ++ [(r, u)]) p v q w Hl Hnd) as (h' & -> & Hl3 & Hd); [lia|].
    exists h'. rewrite <- app_assoc in Hl3. split_and!; [|done|done].
    by rewrite last_addr_bubble.
Qed.

(** A pass from the temporary node [d], whose interval is not above the others'. *)
Lemma sort_pass fuel h d z q w l B :
  lseg h d ((d, z) :: (q, w) :: l ++ B) NULL -> NoDup ((d, z) :: (q, w) :: l ++ B).*1 ->
  k_of z <= k_of w -> (length l + 1 < fuel)%nat ->
  exists h', sort_inner fuel h d d q d (hd_addr B) =
             Ret (h', d, last_addr (bubble (q, w) l)) /\
    lseg h' d ((d, z) :: bubble (q, w) l ++ B) NULL /\ dom h' = dom h.
Proof.
  intros Hl Hnd Hz Hf. destruct fuel as [|fuel]; [lia|]. cbn [sort_inner].
  pose proof (before_end h d [] d z ((q, w) :: l) B Hl Hnd) as Hds.
  rewrite (proj2 (Z.eqb_neq _ _) Hds).
  destruct (lseg_at h d [] d z _ Hl) as [Hd0 Hd].
  destruct (lseg_at h d [(d, z)] q w _ Hl) as [Hq0 Hq].
  rewrite (load_Some _ _ _ Hd0 Hd), outcome_bind_ret, (load_Some _ _ _ Hq0 Hq), outcome_bind_ret.
  cbn [val next]. destruct (Z.ltb_spec (k_of w) (k_of z)); [lia|].
  rewrite outcome_bind_ret. cbn [hd_addr].
  rewrite (load_Some _ _ _ Hq0 Hq), outcome_bind_ret. cbn [next].
  rewrite (end_test h d [(d, z)] q w l B Hl Hnd).
  apply (sort_inner_spec l fuel h d [] d z q w B Hl Hnd). lia.
Qed.

Lemma class_perm_app l1 l2 B k :
  class k l1 = class k l2 -> class k (l1 ++ B) = class k (l2 ++ B).
Proof. intros Hc. by rewrite !class_app, Hc. Qed.

Lemma sort_outer_spec fuel h d z A B :
  lseg h d ((d, z) :: A ++ B) NULL -> NoDup ((d, z) :: A ++ B).*1 ->
  Forall (fun x => k_of z <= key x) A ->
  StronglySorted key_le B -> Forall (fun x => Forall (key_le x) B) A ->
  (length A < fuel)%nat ->
  exists h' L, sort_outer fuel h d (hd_addr B) = Ret (h', d) /\
    lseg h' d ((d, z) :: L) NULL /\ dom h' = dom h /\
    L ≡ₚ A ++ B /\ StronglySorted key_le L /\ (forall k, class k L = class k (A ++ B)).
Proof.
  revert h A B. induction fuel as [|fuel IH]; intros h A B Hl Hnd Hz HB HAB Hf; [lia|].
  cbn [sort_outer]. destruct (lseg_at h d [] d z _ Hl) as [Hd0 Hd].
  rewrite (load_Some _ _ _ Hd0 Hd), outcome_bind_ret. cbn [next].
  destruct A as [|[q w] A].
  { cbn [app]. rewrite Z.eqb_refl. by exists h, B. }
  pose proof (before_end h d [(d, z)] q w A B Hl Hnd) as Hqs.
  cbn [app hd_addr] in *. destruct (Z.eqb_spec (hd_addr B) q); [congruence|].
  apply Forall_cons in Hz as [Hz0 Hz]. apply Forall_cons in HAB as [HqB HAB].
  pose proof (lseg_size _ _ _ _ Hl Hnd) as Hsz. csimpl in Hsz. rewrite length_app in Hsz.
  destruct (sort_pass (S (S (size h))) h d z q w A B Hl Hnd Hz0) as (h1 & -> & Hl1 & Hd1); [lia|].
  rewrite outcome_bind_ret.
  destruct (bubble_last (q, w) A) as (A' & [m mw] & Hb & Hlen & Hle & Hqm).
  rewrite Hb, last_addr_snoc in *. rewrite <- app_assoc in Hl1. cbn [app] in Hl1.
  pose proof (bubble_Permutation (q, w) A) as Hp. rewrite Hb in Hp.
  assert (Hall : Forall (fun x => Forall (key_le x) B) (A' ++ [(m, mw)])).
  { eapply Forall_perm; [symmetry; exact Hp|]. by constructor. }
  apply Forall_app in Hall as [HA' Hm]. apply Forall_cons in Hm as [Hm _].
  assert (Hp' : A' ++ (m, mw) :: B ≡ₚ (q, w) :: A ++ B).
  { rewrite app_comm_cons, <- Hp, <- app_assoc. done. }
  destruct (IH h1 A' ((m, mw) :: B)) as (h2 & L & Heq & Hl2 & Hd2 & HpL & HsL & HcL); try done.
  - eapply NoDup_Permutation_proper; [|exact Hnd]. apply fmap_Permutation. by constructor.
  - eapply Forall_perm in Hz; [|reflexivity].
    assert (Hz' : Forall (fun x => k_of z <= key x) (A' ++ [(m, mw)])).
    { eapply Forall_perm; [symmetry; exact Hp|]. by constructor. }
    by apply Forall_app in Hz' as [? _].
  - constructor; [done|]. done.
  - rewrite Forall_forall in HA', Hle |- *. intros x Hx. constructor; auto.
  - simpl in Hf. lia.
  - exists h2, L. split_and!; [done..|congruence|by rewrite HpL| |]; [done|].
    intros k. rewrite HcL. rewrite (cons_middle (m, mw)), app_assoc, app_comm_cons.
    apply class_perm_app. rewrite <- Hb. apply bubble_class.
Qed.
End ListSort.

(** * Lists that own the heap

    [chain h a l]: the live nodes of [h] are exactly those of the list that
    starts at [a], and hold the values of [l].  Components whose nodes are all
    in one list state their invariants with it. *)

Section Chain.
Context {V : Type}.
Abbreviation heap := (gmap Z (node V)).

Definition chain (h : heap) (a : Z) (l : list (Z * V)) : Prop :=
  lseg h a l NULL /\ NoDup l.*1 /\ dom h = list_to_set l.*1.

Lemma chain_nil a : chain ∅ a [] <-> a = NULL.
Proof.
  unfold chain. simpl. rewrite dom_empty_L. split; [by intros [? _]|].
  intros ->. by split_and!; [|constructor|].
Qed.

Lemma chain_empty h a : chain h a [] -> h = ∅ /\ a = NULL.
Proof.
  intros (Ha & _ & Hd). simpl in *. split; [|done]. by apply dom_empty_inv_L.
Qed.

Lemma chain_size h a l : chain h a l -> size h = length l.
Proof.
  intros (_ & Hnd & Hd). rewrite <- size_dom, Hd, size_list_to_set by done. apply length_fmap.
Qed.

Lemma chain_at h a l1 p v l2 : chain h a (l1 ++ (p, v) :: l2) ->
  p <> NULL /\ h !! p = Some (Node v (hd_addr l2)).
Proof. intros (Hl & _ & _). by apply (lseg_at _ a l1). Qed.

Lemma chain_load h a l1 p v l2 : chain h a (l1 ++ (p, v) :: l2) ->
  load h p = Ret (Node v (hd_addr l2)).
Proof. intros Hc. destruct (chain_at _ _ _ _ _ _ Hc). by apply load_Some. Qed.

(** A node that is not the last has a successor. *)
Lemma chain_next h a l1 p v q w l2 : chain h a (l1 ++ (p, v) :: (q, w) :: l2) -> q <> NULL.
Proof.
  intros Hc. rewrite cons_middle, app_assoc in Hc. by destruct (chain_at _ _ _ _ _ _ Hc).
Qed.

Lemma chain_singleton a v : a <> NULL -> chain (<[a := Node v NULL]> ∅) a [(a, v)].
Proof.
  intros Ha. rewrite insert_empty. split_and!; [|apply NoDup_singleton|].
  - simpl. split_and!; [done..|]. eexists. by rewrite lookup_singleton_eq.
  - rewrite dom_singleton_L. csimpl. set_solver.
Qed.

(** ** A node is written *)
Lemma chain_update h a l1 p v w l2 : chain h a (l1 ++ (p, v) :: l2) ->
  chain (<[p := Node w (hd_addr l2)]> h) a (l1 ++ (p, w) :: l2).
Proof.
  intros (Hl & Hnd & Hd). rewrite fmap_app in *. csimpl in *.
  pose proof Hnd as (_ & Hdisj & (Hp2 & _)%NoDup_cons)%NoDup_app. split_and!.
  - apply lseg_app in Hl as (m & Hl1 & Hl2). apply lseg_app. exists m. split.
    + apply lseg_insert; [|done]. intros Hin. apply (Hdisj p Hin). by left.
    + simpl in *. destruct Hl2 as (-> & ? & n & Hn & Hl2). split_and!; [done..|].
      rewrite <- (lseg_hd _ _ _ Hl2). exists n. rewrite lookup_insert_eq. split; [done|].
      by apply lseg_insert.
  - by rewrite fmap_app.
  - rewrite dom_insert_L, Hd, fmap_app. csimpl. set_solver.
Qed.

(** ** A node is freed *)
Lemma chain_dispose h a p v l : chain h a ((p, v) :: l) ->
  dispose h p = Ret (delete p h) /\ chain (delete p h) (hd_addr l) l.
Proof.
  intros Hc. pose proof (chain_at _ _ [] _ _ _ Hc) as [Hp Hh]. unfold dispose.
  rewrite (load_Some _ _ _ Hp Hh). split; [done|]. destruct Hc as (Hl & Hnd & Hd). split_and!.
  - by apply (lseg_unlink_head _ _ _ _ _ _ Hl Hnd).
  - by apply NoDup_cons in Hnd as [_ ?].
  - rewrite dom_delete_L, Hd. csimpl. apply NoDup_cons in Hnd as [? _]. set_solver.
Qed.

Lemma chain_unlink h a l1 p v c w l2 : chain h a (l1 ++ (p, v) :: (c, w) :: l2) ->
  chain (delete c (<[p := Node v (hd_addr l2)]> h)) a (l1 ++ (p, v) :: l2).
Proof.
  intros Hc. pose proof Hc as Hc'. rewrite cons_middle, app_assoc in Hc'.
  destruct (chain_at _ _ _ _ _ _ Hc') as [_ Hn]. destruct Hc as (Hl & Hnd & Hd). split_and!.
  - by apply (lseg_unlink _ _ _ _ _ _ w).
  - rewrite fmap_app in *. csimpl in *.
    apply NoDup_app in Hnd as (H1 & Hdisj & [Hp [Hc2 Hn2]%NoDup_cons]%NoDup_cons).
    apply NoDup_app. split_and!; [done|set_solver|]. apply NoDup_cons. split; [set_solver|done].
  - rewrite dom_delete_L, dom_insert_L, Hd, !fmap_app. rewrite fmap_app in Hnd. csimpl in *.
    apply NoDup_app in Hnd as (H1 & Hdisj & [Hp [Hc2 Hn2]%NoDup_cons]%NoDup_cons).
    assert (c ∉ l1.*1) by set_solver. set_solver.
Qed.

(** ** A new node *)
Lemma chain_insert h a l1 p v b w l2 : chain h a (l1 ++ (p, v) :: l2) -> b <> NULL -> b ∉ dom h ->
  chain (<[p := Node v b]> (<[b := Node w (hd_addr l2)]> h)) a (l1 ++ (p, v) :: (b, w) :: l2).
Proof.
  intros (Hl & Hnd & Hd) Hb Hfresh. rewrite Hd, fmap_app in Hfresh. rewrite fmap_app in Hnd.
  csimpl in *. pose proof Hnd as (_ & Hdisj & (Hp2 & Hn2)%NoDup_cons)%NoDup_app.
  assert (b ∉ l1.*1 /\ b <> p /\ b ∉ l2.*1) as (Hb1 & Hbp & Hb2) by set_solver.
  assert (p ∉ l1.*1) by set_solver. split_and!.
  - apply lseg_app in Hl as (m & Hl1 & Hl2). apply lseg_app. exists m. split.
    + by repeat (apply lseg_insert; [done|]).
    + simpl in *. destruct Hl2 as (-> & ? & n & Hn & Hl2). split_and!; [done..|]. exists b.
      rewrite lookup_insert_eq. split_and!; [done..|]. exists (hd_addr l2).
      rewrite lookup_insert_ne, lookup_insert_eq by done. rewrite <- (lseg_hd _ _ _ Hl2).
      split; [done|]. by repeat (apply lseg_insert; [done|]).
  - rewrite fmap_app. csimpl. apply NoDup_app in Hnd as (H1 & _ & _). apply NoDup_app.
    split_and!; [done|set_solver|]. apply NoDup_cons. split; [set_solver|]. by apply NoDup_cons.
  - rewrite !dom_insert_L, Hd, !fmap_app. csimpl. set_solver.
Qed.
End Chain.
