(* ===== verification/SchedTypes.v ===== *)
(** * Scheduler data (src/Common/NASCenter_Scheduler.h, NASCenter_Scheduler.c)

    The task record a client fills in, the enumerations it uses, and the global
    state of the scheduler: the master table of 25 linked lists (one per hour
    and one for the interval tasks), the execution list of the current hour and
    the two flags the threads share; then the validation of tasks. *)

From S2P Require Import Prelude Heap CTypes.

(** ** Enumerations

    A C enumeration holds any integer, and [ValidateTask] tests for values
    outside it, so the fields are integers and the constants are named. *)
Definition SCH_ONE_SHOT : Z := 0.
Definition SCH_PERIODIC : Z := 1.

Definition SCH_SEC_MIN_HOUR : Z := 0.
Definition SCH_DAY : Z := 1.
Definition SCH_WEEK : Z := 2.
Definition SCH_MONTH : Z := 3.

Definition SCH_SUN : Z := 0.
Definition SCH_SAT : Z := 6.
Definition SCH_ALL_DAYS : Z := 7.

Record stDate := MkDate { ui16Day : Z; ui16Month : Z; ui16Year : Z }.
Record stTime := MkTime { ui16Hour : Z; ui16Minute : Z; ui16Second : Z }.

Record stTask := MkTask {
  StartDate : stDate; EndDate : stDate;
  StartTime : stTime; EndTime : stTime;
  eType : Z; ePCity : Z; ui32Interval : Z; eWeekDay : Z;
  fp : Z; vpArg : Z
}.

#[export] Instance stDate_eq_dec : EqDecision stDate.
Proof. solve_decision. Defined.
#[export] Instance stTime_eq_dec : EqDecision stTime.
Proof. solve_decision. Defined.
#[export] Instance stTask_eq_dec : EqDecision stTask.
Proof. solve_decision. Defined.

(** ** Constants *)
Definition MASTER_ARR_SIZE : Z := 25.
Definition EVERY_HOUR_TASK : Z := 24.
Definition NO_SECS_IN_HOUR : Z := 3600.
Definition NO_SECS_IN_MIN : Z := 60.
Definition NO_SECS_IN_DAY : Z := 86400.
Definition NO_HOUR_IN_DAY : Z := 24.
Definition NO_MINS_IN_HOUR : Z := 60.
Definition CHECK_STATUS_TIME : Z := 6.

(** ** Lists: head, tail and length of one of the scheduler's lists *)
Record slot := Slot { pHead : Z; pTail : Z; nSize : Z }.
Definition empty_slot : slot := Slot NULL NULL 0.

#[export] Instance slot_eq_dec : EqDecision slot.
Proof. solve_decision. Defined.

(** [stExecuteTask] *)
Record execTask := MkExec { ex_fp : Z; ex_arg : Z; ex_interval : Z }.

#[export] Instance execTask_eq_dec : EqDecision execTask.
Proof. solve_decision. Defined.

(** ** The scheduler's globals

    [st_mheap] and [st_eheap] are the live [stMasterNode]s and [stExecNode]s of
    the process heap; [st_live] is every address [malloc] must avoid. *)
Record sched := MkSched {
  st_mheap : gmap Z (node stTask);
  gSchMasterTable : list slot;
  st_eheap : gmap Z (node execTask);
  gExecList : slot;
  gbTaskChanged : bool;
  gbStopScheduler : bool
}.

Definition st_live (s : sched) : gset Z := dom (st_mheap s) ∪ dom (st_eheap s).

Definition set_master (s : sched) h tbl :=
  MkSched h tbl (st_eheap s) (gExecList s) (gbTaskChanged s) (gbStopScheduler s).
Definition set_exec (s : sched) h el :=
  MkSched (st_mheap s) (gSchMasterTable s) h el (gbTaskChanged s) (gbStopScheduler s).
Definition set_changed (s : sched) b :=
  MkSched (st_mheap s) (gSchMasterTable s) (st_eheap s) (gExecList s) b
          (gbStopScheduler s).
Definition set_stop (s : sched) b :=
  MkSched (st_mheap s) (gSchMasterTable s) (st_eheap s) (gExecList s)
          (gbTaskChanged s) b.

(** ** Lists in the heap

    [slot_rep h sl l]: the slot holds exactly the chain [l]. *)
Definition slot_rep {V} (h : gmap Z (node V)) (sl : slot) (l : list (Z * V)) : Prop :=
  lseg h (pHead sl) l NULL /\ pTail sl = last_addr l /\
  nSize sl = Z.of_nat (length l).

Lemma slot_rep_empty {V} (h : gmap Z (node V)) : slot_rep h empty_slot [].
Proof. by repeat split. Qed.

Lemma slot_rep_agree {V} (h h' : gmap Z (node V)) sl l :
  (forall x, x ∈ l.*1 -> h' !! x = h !! x) -> slot_rep h sl l -> slot_rep h' sl l.
Proof. intros ? (? & ? & ?). repeat split; auto. by eapply lseg_agree. Qed.

Lemma slot_rep_head {V} (h : gmap Z (node V)) sl l :
  slot_rep h sl l -> pHead sl = NULL <-> l = [].
Proof.
  intros (Hl & _). split.
  - intros He. rewrite He in Hl. by eapply lseg_null_nil.
  - by intros ->.
Qed.

(** ** Code the lists share

    [append_node] is the tail insertion of [SCH_AddTask] and
    [AddToExecutionList]; [n] is the address [malloc] returned. *)
Definition append_node {V} (h : gmap Z (node V)) (sl : slot) (n : Z) (v : V)
    : outcome (gmap Z (node V) * slot) :=
  let h1 := <[n := Node v NULL]> h in
  if pHead sl =? NULL then mret (h1, Slot n n (nSize sl + 1))
  else h2 ← set_next h1 (pTail sl) n; mret (h2, Slot (pHead sl) n (nSize sl + 1)).

Lemma append_node_spec {V} (h : gmap Z (node V)) sl l n v :
  slot_rep h sl l -> NoDup l.*1 -> n <> NULL -> n ∉ dom h ->
  exists h' sl', append_node h sl n v = Ret (h', sl') /\
    slot_rep h' sl' (l ++ [(n, v)]) /\ dom h' = {[n]} ∪ dom h /\
    (forall x, x <> n -> x ∉ l.*1 -> h' !! x = h !! x).
Proof.
  intros Hrep Hnd Hn Hfresh. unfold append_node.
  pose proof (slot_rep_head _ _ _ Hrep) as Hhd.
  destruct Hrep as (Hl & Htl & Hsz).
  destruct (Z.eqb_spec (pHead sl) NULL) as [He|He].
  - apply Hhd in He as ->. eexists _, _. split; [reflexivity|]. repeat split; simpl.
    + done.
    + exists NULL. by rewrite lookup_insert_eq.
    + rewrite Hsz. reflexivity.
    + by rewrite dom_insert_L.
    + intros x Hx _. by rewrite lookup_insert_ne.
  - destruct l as [|x l _] using rev_ind; [tauto|]. destruct x as [p w].
    rewrite last_addr_snoc in Htl.
    destruct (lseg_next _ _ _ _ _ _ _ Hl) as (Hp & k & Hk & _).
    assert (p <> n) by (intros ->; apply Hfresh, elem_of_dom; eauto).
    unfold set_next. rewrite Htl. erewrite load_Some; [|done|by rewrite lookup_insert_ne].
    simpl. eexists _, _. split; [reflexivity|]. repeat split; simpl.
    + rewrite <- app_assoc. apply (lseg_snoc _ _ _ _ _ _ _ Hl); auto.
    + by rewrite last_addr_snoc.
    + rewrite Hsz, !length_app; simpl. lia.
    + rewrite !dom_insert_L. apply elem_of_dom_2 in Hk. set_solver.
    + intros x Hx Hxl. rewrite fmap_app in Hxl. csimpl in *.
      rewrite !lookup_insert_ne by set_solver. done.
Qed.

(** [unlink_node] takes [cur] out of a list; [prev] is the node before it, or
    [NULL] at the head ([SCH_DeleteTask], [SCH_AutoCleanTask]). *)
Definition unlink_node {V} (h : gmap Z (node V)) (sl : slot) (prev cur : Z)
    : outcome (gmap Z (node V) * slot) :=
  nc ← load h cur;
  '(h1, sl1) ←
    (if negb (prev =? NULL) then
       h1 ← set_next h prev (next nc);
       np ← load h1 prev;
       mret (h1, if next np =? NULL then Slot (pHead sl) prev (nSize sl) else sl)
     else if next nc =? NULL then mret (h, Slot NULL NULL (nSize sl))
     else mret (h, Slot (next nc) (pTail sl) (nSize sl)));
  h2 ← dispose h1 cur;
  mret (h2, Slot (pHead sl1) (pTail sl1) (nSize sl1 - 1)).

Lemma last_addr_cons_snoc {V} (l1 : list (Z * V)) p v c w l2 :
  l2 <> [] -> last_addr (l1 ++ (p, v) :: (c, w) :: l2) = last_addr (l1 ++ (p, v) :: l2).
Proof.
  intros Hne. destruct l2 as [|x l2 _] using rev_ind; [done|]. destruct x.
  rewrite !app_comm_cons, !app_assoc, !last_addr_snoc. done.
Qed.

Lemma unlink_node_spec {V} (h : gmap Z (node V)) sl l1 c w l2 :
  slot_rep h sl (l1 ++ (c, w) :: l2) -> NoDup (l1 ++ (c, w) :: l2).*1 ->
  exists h' sl', unlink_node h sl (last_addr l1) c = Ret (h', sl') /\
    slot_rep h' sl' (l1 ++ l2) /\ dom h' = dom h ∖ {[c]} /\
    (forall x, x ∉ l1.*1 -> x <> c -> h' !! x = h !! x).
Proof.
  intros (Hl & Htl & Hsz) Hnd.
  destruct (lseg_next _ _ _ _ _ _ _ Hl) as (Hc & n & Hn & Hl2).
  unfold unlink_node. rewrite (load_Some _ _ _ Hc Hn). simpl.
  destruct l1 as [|x l1 _] using rev_ind; [clear Hl2|destruct x as [p v]].
  - simpl. destruct (Z.eqb_spec n NULL) as [->|Hn0]; simpl.
    + pose proof (lseg_unlink_head _ _ _ _ _ _ Hl Hnd Hn) as Hl2.
      pose proof (lseg_null_nil _ _ Hl2) as ->. unfold dispose.
      rewrite (load_Some _ _ _ Hc Hn). simpl. eexists _, _. split; [reflexivity|].
      repeat split; simpl in *; [lia|by rewrite dom_delete_L|].
      intros x _ Hx. by rewrite lookup_delete_ne.
    + pose proof (lseg_unlink_head _ _ _ _ _ _ Hl Hnd Hn) as Hl2. unfold dispose.
      rewrite (load_Some _ _ _ Hc Hn). simpl. eexists _, _. split; [reflexivity|].
      repeat split; simpl in *; [done| |lia|by rewrite dom_delete_L|].
      * destruct l2 as [|y l2 _] using rev_ind; [by simpl in Hl2|]. destruct y.
        by rewrite Htl, app_comm_cons, !last_addr_snoc.
      * intros x _ Hx. by rewrite lookup_delete_ne.
  - rewrite last_addr_snoc. rewrite <- !app_assoc in *. simpl in *.
    destruct (lseg_next _ _ _ _ _ _ _ Hl) as (Hp & k & Hk & _).
    pose proof (lseg_unlink _ _ _ _ _ _ _ _ _ Hl Hnd Hn) as Hl'.
    assert (p <> c).
    { intros ->. rewrite fmap_app in Hnd. csimpl in *.
      apply NoDup_app in Hnd as (_ & _ & [Hin _]%NoDup_cons). apply Hin. by left. }
    destruct (Z.eqb_spec p NULL) as [|_]; [done|]. simpl.
    unfold set_next. rewrite (load_Some _ _ _ Hp Hk). simpl.
    erewrite load_Some; [|done|apply lookup_insert_eq]. simpl.
    unfold dispose. erewrite load_Some; [|done|by rewrite lookup_insert_ne].
    simpl. eexists _, _. split; [reflexivity|]. repeat split.
    + by destruct (n =? NULL).
    + simpl. destruct (Z.eqb_spec n NULL) as [->|Hn0]; simpl.
      * apply lseg_null_nil in Hl2 as ->. by rewrite last_addr_snoc.
      * rewrite Htl. apply last_addr_cons_snoc. intros ->. by simpl in Hl2.
    + destruct (n =? NULL); simpl; rewrite Hsz, !length_app; simpl; lia.
    + rewrite dom_delete_L, dom_insert_L. apply elem_of_dom_2 in Hk. set_solver.
    + intros x Hx Hxc. rewrite !fmap_app in Hx. csimpl in *.
      rewrite lookup_delete_ne, lookup_insert_ne by set_solver. done.
Qed.

(** * Validation of tasks (ValidateTask, ValidateDateTime)

    Both functions compare the task with the broken-down local time they read
    on entry; the reading is the argument [now]. *)

(** The date test both functions share: strictly before today. *)
Definition date_expired (d : stDate) (now : tm) : bool :=
  (ui16Year d <? tm_year now + 1900) ||
  ((ui16Year d =? tm_year now + 1900) && (ui16Month d <? tm_mon now)) ||
  ((ui16Year d =? tm_year now + 1900) && (ui16Month d =? tm_mon now) &&
   (ui16Day d <? tm_mday now)).

Definition ValidateTask (now : tm) (task : stTask) : ENASCenterError :=
  if date_expired (StartDate task) now && negb (eType task =? SCH_PERIODIC)
  then NASC_FAILURE else
  if ((NO_HOUR_IN_DAY - 1 <? ui16Hour (StartTime task)) ||
      (NO_MINS_IN_HOUR - 1 <? ui16Minute (StartTime task)) ||
      (NO_SECS_IN_MIN - 1 <? ui16Second (StartTime task))) &&
     negb (eType task =? SCH_PERIODIC)
  then NASC_FAILURE else
  if negb (eType task =? SCH_ONE_SHOT) && negb (eType task =? SCH_PERIODIC)
  then NASC_FAILURE else
  if (ePCity task =? SCH_SEC_MIN_HOUR) &&
     ((ui32Interval task =? 0) || (NO_SECS_IN_DAY <? ui32Interval task))
  then NASC_FAILURE else
  if (ePCity task =? SCH_SEC_MIN_HOUR) &&
     ((eWeekDay task <? SCH_SUN) || (SCH_ALL_DAYS <? eWeekDay task))
  then NASC_FAILURE else
  if (ePCity task =? SCH_SEC_MIN_HOUR) && negb (eType task =? SCH_PERIODIC)
  then NASC_FAILURE else
  if (ePCity task =? SCH_DAY) &&
     ((eWeekDay task <? SCH_SUN) || (SCH_ALL_DAYS <? eWeekDay task))
  then NASC_FAILURE else
  if ((ePCity task =? SCH_WEEK) || (ePCity task =? SCH_MONTH)) &&
     ((eWeekDay task <? SCH_SUN) || (SCH_SAT <? eWeekDay task))
  then NASC_FAILURE else
  NASC_SUCCESS.

Inductive eValidateDateTime := SCH_DATE_ONLY | SCH_TIME_ONLY | SCH_BOTH.

Definition seconds_of_day (h m s : Z) : Z :=
  h * NO_SECS_IN_HOUR + m * NO_SECS_IN_MIN + s.

Definition ValidateDateTime (now : tm) (inDate : stDate) (inTime : stTime)
    (eVDTFlag : eValidateDateTime) : ENASCenterError :=
  let bValidDate :=
    match eVDTFlag with
    | SCH_DATE_ONLY | SCH_BOTH => negb (date_expired inDate now)
    | SCH_TIME_ONLY => true
    end in
  let bValidTime :=
    match eVDTFlag with
    | SCH_TIME_ONLY | SCH_BOTH =>
        negb (I32 (seconds_of_day (ui16Hour inTime) (ui16Minute inTime)
                                  (ui16Second inTime)) <?
              I32 (seconds_of_day (tm_hour now) (tm_min now) (tm_sec now)))
    | SCH_DATE_ONLY => true
    end in
  match eVDTFlag with
  | SCH_DATE_ONLY => if bValidDate then NASC_SUCCESS else NASC_FAILURE
  | SCH_TIME_ONLY => if bValidTime then NASC_SUCCESS else NASC_FAILURE
  | SCH_BOTH =>
      if negb bValidDate && negb bValidTime then NASC_FAILURE else NASC_SUCCESS
  end.

(** ** What the tests mean *)

(** A day as one number, so that "before" is one comparison. *)
Definition date_key (y m d : Z) : Z := (y * 12 + m) * 32 + d.
Definition day_before (d : stDate) (now : tm) : Prop :=
  date_key (ui16Year d) (ui16Month d) (ui16Day d) <
  date_key (tm_year now + 1900) (tm_mon now) (tm_mday now).

(** The fields of a date are in the ranges its comments give. *)
Definition date_ok (d : stDate) : Prop :=
  1 <= ui16Day d <= 31 /\ 0 <= ui16Month d < 12.

Lemma date_expired_spec d now :
  date_ok d -> tm_ok now -> date_expired d now = true <-> day_before d now.
Proof.
  unfold date_ok, tm_ok, day_before, date_key, date_expired. intros Hd Hn.
  rewrite !orb_true_iff, !andb_true_iff, !Z.ltb_lt, !Z.eqb_eq. lia.
Qed.

(** The clock fields of a start time are in range. *)
Definition time_ok (t : stTime) : Prop :=
  ui16Hour t < 24 /\ ui16Minute t < 60 /\ ui16Second t < 60.

(** The day of week the periodicity allows. *)
Definition weekday_ok (task : stTask) : Prop :=
  (ePCity task = SCH_SEC_MIN_HOUR \/ ePCity task = SCH_DAY ->
     SCH_SUN <= eWeekDay task <= SCH_ALL_DAYS) /\
  (ePCity task = SCH_WEEK \/ ePCity task = SCH_MONTH ->
     SCH_SUN <= eWeekDay task <= SCH_SAT).

Lemma ValidateTask_success now task :
  ValidateTask now task = NASC_SUCCESS <->
  ((eType task = SCH_PERIODIC \/
    eType task = SCH_ONE_SHOT /\ date_expired (StartDate task) now = false /\
    time_ok (StartTime task)) /\
   (ePCity task = SCH_SEC_MIN_HOUR ->
      eType task = SCH_PERIODIC /\ ui32Interval task <> 0 /\
      ui32Interval task <= NO_SECS_IN_DAY) /\
   weekday_ok task).
Proof.
  unfold ValidateTask, time_ok, weekday_ok, NO_HOUR_IN_DAY, NO_MINS_IN_HOUR,
    NO_SECS_IN_MIN, NO_SECS_IN_DAY, SCH_PERIODIC, SCH_ONE_SHOT,
    SCH_SEC_MIN_HOUR, SCH_DAY, SCH_WEEK, SCH_MONTH, SCH_SUN, SCH_SAT, SCH_ALL_DAYS.
  destruct (date_expired _ _); simpl;
  repeat match goal with
  | |- context [if ?b then _ else _] => destruct b eqn:?
  end; split; intros H; try discriminate; try reflexivity; try (exfalso; lia); lia.
Qed.

Lemma ValidateTask_total now task :
  ValidateTask now task = NASC_SUCCESS \/ ValidateTask now task = NASC_FAILURE.
Proof. unfold ValidateTask. repeat case_match; auto. Qed.

Lemma ValidateDateTime_date now d t :
  ValidateDateTime now d t SCH_DATE_ONLY =
  if date_expired d now then NASC_FAILURE else NASC_SUCCESS.
Proof. unfold ValidateDateTime. by destruct (date_expired d now). Qed.
