(* ===== verification/SchedMaster.v ===== *)
(** * The master table (SCH_AddTask, SCH_GetTask, SCH_DeleteTask,
      SCH_ModifyTask, SCH_AutoCleanTask, ClearMasterTable)

    The table is an array of 25 linked lists of [stMasterNode]: entry [h] holds
    the daily, weekly and monthly tasks of hour [h], entry 24 the interval
    tasks.  A task's identifier is the address of its node. *)

From S2P Require Import Prelude Heap CTypes SchedTypes ListSort.

Section Operations.
Context `{Allocator}.

Definition InitMasterTable (s : sched) : sched :=
  set_master s (st_mheap s) (replicate (Z.to_nat MASTER_ARR_SIZE) empty_slot).

Definition InitExecutionList (s : sched) : sched :=
  set_exec s (st_eheap s) empty_slot.

(** The thread itself is [Scheduler] (SchedLoop.v). *)
Definition SCH_StartScheduler (s : sched) : sched :=
  set_changed (set_stop (InitExecutionList (InitMasterTable s)) false) false.

(** ** SCH_AddTask *)

(** The [switch]: the entry of the table the task goes to. *)
Definition slot_index (task : stTask) : option Z :=
  if ePCity task =? SCH_SEC_MIN_HOUR then Some EVERY_HOUR_TASK
  else if (ePCity task =? SCH_DAY) || (ePCity task =? SCH_WEEK) ||
          (ePCity task =? SCH_MONTH)
  then Some (ui16Hour (StartTime task))
  else None.

(** Indexing [gSchMasterTable]; outside the array C is undefined. *)
Definition table_get (tbl : list slot) (i : Z) : outcome slot :=
  if i <? 0 then Crash else
  match tbl !! Z.to_nat i with Some sl => Ret sl | None => Crash end.

Definition SCH_AddTask (now : tm) (task : stTask) (s : sched) : outcome (Z * sched) :=
  if negb (bool_decide (ValidateTask now task = NASC_SUCCESS)) then mret (-1, s) else
  match slot_index task with
  | None => mret (-1, s)
  | Some i =>
      let newNode := malloc (st_live s) in
      if newNode =? NULL then mret (-1, s) else
      sl ← table_get (gSchMasterTable s) i;
      '(h, sl') ← append_node (st_mheap s) sl newNode task;
      mret (newNode,
            set_changed (set_master s h (<[Z.to_nat i := sl']> (gSchMasterTable s))) true)
  end.

(** ** SCH_GetTask: a copy of the task, and the status *)
Fixpoint get_loop (fuel : nat) (h : gmap Z (node stTask)) (lTaskId cur : Z)
    : outcome (option stTask) :=
  match fuel with
  | O => OutOfFuel
  | S fuel =>
      if cur =? NULL then mret None else
      nd ← load h cur;
      if lTaskId =? cur then mret (Some (val nd))
      else get_loop fuel h lTaskId (next nd)
  end.

Fixpoint get_table (h : gmap Z (node stTask)) (tbl : list slot) (lTaskId : Z)
    : outcome (option stTask) :=
  match tbl with
  | [] => mret None
  | sl :: tbl =>
      if pHead sl =? NULL then get_table h tbl lTaskId else
      r ← get_loop (S (size h)) h lTaskId (pHead sl);
      match r with
      | Some t => mret (Some t)
      | None => get_table h tbl lTaskId
      end
  end.

Definition SCH_GetTask (lTaskId : Z) (s : sched)
    : outcome (ENASCenterError * option stTask) :=
  r ← get_table (st_mheap s) (gSchMasterTable s) lTaskId;
  mret (match r with Some _ => NASC_SUCCESS | None => NASC_FAILURE end, r).

(** ** SCH_DeleteTask *)
Fixpoint delete_loop (fuel : nat) (h : gmap Z (node stTask)) (sl : slot)
    (lTaskId prev cur : Z) : outcome (option (gmap Z (node stTask) * slot)) :=
  match fuel with
  | O => OutOfFuel
  | S fuel =>
      if cur =? NULL then mret None else
      if lTaskId =? cur then r ← unlink_node h sl prev cur; mret (Some r)
      else nd ← load h cur; delete_loop fuel h sl lTaskId cur (next nd)
  end.

Fixpoint delete_table (h : gmap Z (node stTask)) (tbl : list slot) (lTaskId : Z)
    : outcome (bool * gmap Z (node stTask) * list slot) :=
  match tbl with
  | [] => mret (false, h, [])
  | sl :: tbl =>
      if pHead sl =? NULL then
        '(b, h', tbl') ← delete_table h tbl lTaskId; mret (b, h', sl :: tbl')
      else
        r ← delete_loop (S (size h)) h sl lTaskId NULL (pHead sl);
        match r with
        | Some (h', sl') => mret (true, h', sl' :: tbl)
        | None => '(b, h', tbl') ← delete_table h tbl lTaskId; mret (b, h', sl :: tbl')
        end
  end.

Definition SCH_DeleteTask (lTaskId : Z) (s : sched) : outcome (ENASCenterError * sched) :=
  '(bFound, h, tbl) ← delete_table (st_mheap s) (gSchMasterTable s) lTaskId;
  mret (if (bFound : bool) then NASC_SUCCESS else NASC_FAILURE, set_master s h tbl).

(** ** SCH_ModifyTask: delete, then add *)
Definition SCH_ModifyTask (now : tm) (lTaskId : Z) (task : stTask) (s : sched)
    : outcome (Z * sched) :=
  '(bFound, s1) ← SCH_DeleteTask lTaskId s;
  if error_bool bFound then SCH_AddTask now task s1 else mret (-1, s1).

(** ** SCH_AutoCleanTask

    Every call of [ValidateDateTime] reads the clock again: [clock k] is the
    [k]-th reading of this call, and the loops count their readings in [k]. *)
Fixpoint clean_loop (fuel : nat) (clock : nat -> tm) (k : nat)
    (h : gmap Z (node stTask)) (sl : slot) (prev cur : Z)
    : outcome (nat * gmap Z (node stTask) * slot) :=
  match fuel with
  | O => OutOfFuel
  | S fuel =>
      if cur =? NULL then mret (k, h, sl) else
      nd ← load h cur;
      if eType (val nd) =? SCH_ONE_SHOT then
        if bool_decide (ValidateDateTime (clock k) (StartDate (val nd))
             (StartTime (val nd)) SCH_DATE_ONLY = NASC_FAILURE)
        then
          '(h', sl') ← unlink_node h sl prev cur;
          clean_loop fuel clock (S k) h' sl' prev (next nd)
        else clean_loop fuel clock (S k) h sl prev cur
      else clean_loop fuel clock k h sl cur (next nd)
  end.

Fixpoint clean_table (fuel : nat) (clock : nat -> tm) (k : nat)
    (h : gmap Z (node stTask)) (tbl : list slot)
    : outcome (gmap Z (node stTask) * list slot) :=
  match tbl with
  | [] => mret (h, [])
  | sl :: tbl =>
      if pHead sl =? NULL then
        '(h', tbl') ← clean_table fuel clock k h tbl; mret (h', sl :: tbl')
      else
        '(k', h1, sl') ← clean_loop fuel clock k h sl NULL (pHead sl);
        '(h', tbl') ← clean_table fuel clock k' h1 tbl;
        mret (h', sl' :: tbl')
  end.

Definition SCH_AutoCleanTask (fuel : nat) (clock : nat -> tm) (s : sched)
    : outcome sched :=
  '(h, tbl) ← clean_table fuel clock 0 (st_mheap s) (gSchMasterTable s);
  mret (set_master s h tbl).

(** ** ClearMasterTable *)
Fixpoint clear_loop {V} (fuel : nat) (h : gmap Z (node V)) (sl : slot)
    : outcome (gmap Z (node V) * slot) :=
  match fuel with
  | O => OutOfFuel
  | S fuel =>
      if pHead sl =? NULL then mret (h, Slot NULL NULL (nSize sl)) else
      nd ← load h (pHead sl);
      h' ← dispose h (pHead sl);
      clear_loop fuel h' (Slot (next nd) (pTail sl) (nSize sl - 1))
  end.

Fixpoint clear_table (h : gmap Z (node stTask)) (tbl : list slot)
    : outcome (gmap Z (node stTask) * list slot) :=
  match tbl with
  | [] => mret (h, [])
  | sl :: tbl =>
      if pHead sl =? NULL then '(h', tbl') ← clear_table h tbl; mret (h', sl :: tbl')
      else
        '(h1, sl') ← clear_loop (S (size h)) h sl;
        '(h', tbl') ← clear_table h1 tbl;
        mret (h', sl' :: tbl')
  end.

Definition ClearMasterTable (s : sched) : outcome sched :=
  '(h, tbl) ← clear_table (st_mheap s) (gSchMasterTable s); mret (set_master s h tbl).

End Operations.

(** * The execution list (BuildExecutionList, AddToExecutionList,
      SortExecutionList, ClearExecutionList)

    Every hour, and whenever a task was added, the scheduler rebuilds the list
    of calls due in the current hour from two entries of the master table. *)

Section ExecutionList.
Context `{Allocator}.

Definition AddToExecutionList (MTask : stTask) (ui32Interval : Z) (s : sched)
    : outcome (ENASCenterError * sched) :=
  let newExecNode := malloc (st_live s) in
  if newExecNode =? NULL then mret (NASC_FAILURE, s) else
  '(h, el) ← append_node (st_eheap s) (gExecList s) newExecNode
               (MkExec (fp MTask) (vpArg MTask) ui32Interval);
  mret (NASC_SUCCESS, set_exec s h el).

(** ** BuildExecutionList *)

(** The [for] loop; [n] iterations are left of the count, [count] are done.
    The status of [AddToExecutionList] is dropped. *)
Fixpoint add_execs (n : nat) (count : Z) (t : stTask) (interval : Z) (s : sched)
    : outcome sched :=
  match n with
  | O => mret s
  | S n =>
      '(_, s1) ← AddToExecutionList t (UI32 (interval * UI32 (count + 1))) s;
      add_execs n (count + 1) t interval s1
  end.

(** [ui16EndHrInSec] *)
Definition end_hour_in_sec (now : tm) : Z :=
  UI16 (UI16 (tm_hour now * NO_SECS_IN_HOUR) + NO_SECS_IN_HOUR).

Definition day_matches (now : tm) (t : stTask) : bool :=
  (eWeekDay t =? tm_wday now) || (eWeekDay t =? SCH_ALL_DAYS).

(** One interval task: the values [ui32Interval] and [ui32NoOfExec] have when
    the [for] loop starts, [n] being the count the previous task left behind;
    [None] is the [return] of the last branch. *)
Definition exec_count (now : tm) (t : stTask) (n : Z) : option (Z * Z) :=
  let iv := ui32Interval t in
  if (ePCity t =? SCH_SEC_MIN_HOUR) && day_matches now t then
    if (0 <? iv) && (iv <=? NO_SECS_IN_HOUR) then Some (iv, NO_SECS_IN_HOUR / iv)
    else if (NO_SECS_IN_HOUR <? iv) && (iv <=? NO_SECS_IN_DAY) then
      let ui32Mod := end_hour_in_sec now mod iv in
      if ui32Mod <? NO_SECS_IN_HOUR
      then Some (if ui32Mod =? 0 then NO_SECS_IN_HOUR else ui32Mod, 1)
      else Some (iv, n)
    else if NO_SECS_IN_DAY <? iv then None
    else Some (iv, n)
  else Some (iv, n).

Fixpoint build_interval (fuel : nat) (now : tm) (n cur : Z) (s : sched)
    : outcome (bool * sched) :=
  match fuel with
  | O => OutOfFuel
  | S fuel =>
      if cur =? NULL then mret (true, s) else
      nd ← load (st_mheap s) cur;
      match exec_count now (val nd) n with
      | None => mret (false, s)
      | Some (iv, n1) =>
          s1 ← add_execs (Z.to_nat n1) 0 (val nd) iv s;
          build_interval fuel now n1 (next nd) s1
      end
  end.

(** Seconds after the hour at which a daily, weekly or monthly task starts. *)
Definition start_offset (t : stTask) : Z :=
  ui16Minute (StartTime t) * NO_SECS_IN_MIN + ui16Second (StartTime t).

(** A hourly-table task due in this hour; the three tests of the code are on
    distinct periodicities, so at most one of them adds the task. *)
Definition add_if (b : bool) (t : stTask) (s : sched) : outcome sched :=
  if b then '(_, s1) ← AddToExecutionList t (UI32 (start_offset t)) s; mret s1
  else mret s.

Fixpoint build_hour (fuel : nat) (now : tm) (cur : Z) (s : sched) : outcome sched :=
  match fuel with
  | O => OutOfFuel
  | S fuel =>
      if cur =? NULL then mret s else
      nd ← load (st_mheap s) cur;
      let t := val nd in
      s1 ← add_if ((ePCity t =? SCH_DAY) && day_matches now t) t s;
      s2 ← add_if ((ePCity t =? SCH_WEEK) && (eWeekDay t =? tm_wday now)) t s1;
      s3 ← add_if ((ePCity t =? SCH_MONTH) &&
                   (ui16Day (StartDate t) =? tm_mday now)) t s2;
      build_hour fuel now (next nd) s3
  end.

(** The test that the two entries are empty compares addresses of array
    elements with [NULL], so it never holds and is left out. *)
Definition BuildExecutionList (now : tm) (s : sched) : outcome sched :=
  every ← table_get (gSchMasterTable s) EVERY_HOUR_TASK;
  '(go, s1) ← build_interval (S (size (st_mheap s))) now 0 (pHead every) s;
  if negb go then mret s1 else
  hour ← table_get (gSchMasterTable s) (UI16 (tm_hour now));
  build_hour (S (size (st_mheap s))) now (pHead hour) s1.

(** ** SortExecutionList *)
(** The temporary head has interval 0; the code writes through the result of
    [calloc] without testing it. *)
Definition SortExecutionList (s : sched) : outcome sched :=
  let el := gExecList s in
  if pHead el =? NULL then mret s else
  let pstNewHead := malloc (st_live s) in
  if pstNewHead =? NULL then Crash else
  let h := <[pstNewHead := Node (MkExec 0 0 0) (pHead el)]> (st_eheap s) in
  '(h1, start) ← sort_outer ex_interval (S (size h)) h pstNewHead NULL;
  ns ← load h1 start;
  h2 ← dispose h1 start;
  mret (set_exec s h2 (Slot (next ns) (pTail el) (nSize el))).

(** ** ClearExecutionList *)
Definition ClearExecutionList (s : sched) : outcome sched :=
  '(h, el) ← clear_loop (S (size (st_eheap s))) (st_eheap s) (gExecList s);
  mret (set_exec s h el).

End ExecutionList.
