(* ===== verification/SchedTable.v ===== *)
(** * The master table refines 25 buckets of tasks

    [master_rep h tbl bks] relates the array of list heads and the heap to the
    buckets [bks], lists of (identifier, task) in order of insertion.  Every
    operation of SchedMaster.v terminates on a represented table, never touches
    a null or freed pointer, and acts on the buckets as the functions
    [spec_add], [spec_lookup], [spec_delete] and [spec_clean] say. *)

From S2P Require Import Prelude Heap CTypes SchedTypes SchedMaster.

Abbreviation bucket := (list (Z * stTask)).

Definition addrs (bks : list bucket) : list Z := (concat bks).*1.

Record master_rep (h : gmap Z (node stTask)) (tbl : list slot)
    (bks : list bucket) : Prop := {
  mr_slots : Forall2 (slot_rep h) tbl bks;
  mr_nodup : NoDup (addrs bks);
  mr_dom : dom h = list_to_set (addrs bks)
}.

(** ** The abstract operations *)
Definition spec_lookup (id : Z) (bks : list bucket) : option stTask :=
  assoc id (concat bks).
Definition spec_add (i : nat) (id : Z) (t : stTask) (bks : list bucket) : list bucket :=
  alter (fun b => b ++ [(id, t)]) i bks.
Definition spec_delete (id : Z) (bks : list bucket) : list bucket := del id <$> bks.
Definition spec_clean (bks : list bucket) : list bucket :=
  (fun b => filter (fun x : Z * stTask => eType x.2 <> SCH_ONE_SHOT) b) <$> bks.

Lemma addrs_cons b bks : addrs (b :: bks) = b.*1 ++ addrs bks.
Proof. unfold addrs. simpl. by rewrite fmap_app. Qed.

Lemma addrs_app b1 b2 : addrs (b1 ++ b2) = addrs b1 ++ addrs b2.
Proof. unfold addrs. by rewrite concat_app, fmap_app. Qed.

Lemma in_addrs x b bks : b ∈ bks -> x ∈ b.*1 -> x ∈ addrs bks.
Proof.
  intros Hb Hx. induction Hb; rewrite addrs_cons, elem_of_app; auto.
Qed.

(** The nodes of one bucket are not those of the others. *)
Lemma slots_agree h h' tbl bks :
  (forall x, x ∈ addrs bks -> h' !! x = h !! x) ->
  Forall2 (slot_rep h) tbl bks -> Forall2 (slot_rep h') tbl bks.
Proof.
  intros Hag Hall. induction Hall as [|sl b tbl bks Hsl Hall IH]; constructor.
  - eapply slot_rep_agree; [|done]. intros x Hx. apply Hag.
    rewrite addrs_cons, elem_of_app. auto.
  - apply IH. intros x Hx. apply Hag. rewrite addrs_cons, elem_of_app. auto.
Qed.

Lemma slot_rep_size {V} (h : gmap Z (node V)) sl (l : list (Z * V)) :
  slot_rep h sl l -> NoDup l.*1 -> (length l < S (size h))%nat.
Proof. intros (Hl & _) Hnd. pose proof (lseg_size _ _ _ _ Hl Hnd). lia. Qed.

Lemma del_addrs id bks x : x ∈ addrs (spec_delete id bks) <-> x ∈ addrs bks /\ x <> id.
Proof.
  induction bks as [|b bks IH]; [set_solver|].
  unfold spec_delete in *. csimpl. rewrite !addrs_cons, !elem_of_app, del_keys, IH. tauto.
Qed.

Lemma spec_delete_notin id bks : id ∉ addrs bks -> spec_delete id bks = bks.
Proof.
  induction bks as [|b bks IH]; [done|]. rewrite addrs_cons, not_elem_of_app.
  intros [Hb Hbks]. unfold spec_delete in *. csimpl. by rewrite del_notin, IH.
Qed.

(** ** SCH_GetTask *)
Lemma get_loop_spec fuel h id l cur :
  lseg h cur l NULL -> (length l < fuel)%nat ->
  get_loop fuel h id cur = Ret (assoc id l).
Proof.
  revert l cur. induction fuel as [|fuel IH]; intros l cur Hl Hf; [lia|].
  simpl. destruct (Z.eqb_spec cur NULL) as [->|Hc].
  - by rewrite (lseg_null_nil _ _ Hl).
  - destruct (lseg_cons_inv _ _ _ _ Hc Hl) as (v & l' & n & -> & _ & Hn & Hl').
    rewrite (load_Some _ _ _ Hc Hn). simpl in *. destruct (id =? cur); [done|].
    apply IH; [done|lia].
Qed.

Lemma get_table_spec h tbl bks id :
  Forall2 (slot_rep h) tbl bks -> NoDup (addrs bks) ->
  get_table h tbl id = Ret (spec_lookup id bks).
Proof.
  unfold spec_lookup. induction 1 as [|sl b tbl bks Hsl Hall IH]; [done|].
  rewrite addrs_cons. intros (Hb & _ & Hbks)%NoDup_app.
  cbn [get_table concat]. rewrite assoc_app. destruct (Z.eqb_spec (pHead sl) NULL) as [He|He].
  - apply (slot_rep_head _ _ _ Hsl) in He as ->. simpl. auto.
  - erewrite get_loop_spec by (try apply Hsl; by eapply slot_rep_size).
    rewrite outcome_bind_ret. destruct (assoc id b); auto.
Qed.

(** ** SCH_DeleteTask *)
Lemma delete_loop_spec fuel h sl id l1 l2 cur :
  slot_rep h sl (l1 ++ l2) -> NoDup (l1 ++ l2).*1 -> lseg h cur l2 NULL ->
  (length l2 < fuel)%nat ->
  match assoc id l2 with
  | None => delete_loop fuel h sl id (last_addr l1) cur = Ret None
  | Some _ =>
      exists h' sl', delete_loop fuel h sl id (last_addr l1) cur = Ret (Some (h', sl')) /\
        slot_rep h' sl' (l1 ++ del id l2) /\ dom h' = dom h ∖ {[id]} /\
        (forall x, x ∉ (l1 ++ l2).*1 -> h' !! x = h !! x)
  end.
Proof.
  revert l1 l2 cur. induction fuel as [|fuel IH]; intros l1 l2 cur Hrep Hnd Hl Hf; [lia|].
  simpl. destruct (Z.eqb_spec cur NULL) as [->|Hc].
  - by rewrite (lseg_null_nil _ _ Hl).
  - destruct (lseg_cons_inv _ _ _ _ Hc Hl) as (v & l' & n & -> & _ & Hn & Hl').
    simpl. destruct (Z.eqb_spec id cur) as [->|Hne].
    + destruct (unlink_node_spec _ _ _ _ _ _ Hrep Hnd) as (h' & sl' & -> & Hr & Hd & Ha).
      eexists _, _. split; [reflexivity|].
      rewrite fmap_app in Hnd |- *. apply NoDup_app in Hnd as (_ & _ & Hnd).
      rewrite (del_split cur v [] l' Hnd : del cur ((cur, v) :: l') = l').
      split_and!; try done. intros x Hx. apply Ha; set_solver.
    + rewrite (load_Some _ _ _ Hc Hn), outcome_bind_ret. simpl.
      rewrite (cons_middle (cur, v)), app_assoc in Hrep, Hnd.
      specialize (IH (l1 ++ [(cur, v)]) l' n Hrep Hnd Hl' ltac:(simpl in *; lia)).
      rewrite last_addr_snoc in IH. unfold del. rewrite filter_cons_True by auto.
      rewrite (cons_middle (cur, v)), app_assoc.
      rewrite (cons_middle (cur, v) _ l'), (app_assoc l1). exact IH.
Qed.

Lemma delete_table_spec h tbl bks id :
  Forall2 (slot_rep h) tbl bks -> NoDup (addrs bks) ->
  exists b h' tbl', delete_table h tbl id = Ret (b, h', tbl') /\
    b = bool_decide (id ∈ addrs bks) /\
    Forall2 (slot_rep h') tbl' (spec_delete id bks) /\
    dom h' = (if b then dom h ∖ {[id]} else dom h) /\
    (forall x, x ∉ addrs bks -> h' !! x = h !! x).
Proof.
  induction 1 as [|sl b tbl bks Hsl Hall IH].
  { intros _. by exists false, h, []. }
  rewrite addrs_cons. intros (Hb & Hdisj & Hbks)%NoDup_app.
  destruct (IH Hbks) as (r & h' & tbl' & Hdel & -> & Hrep & Hdom & Hag). clear IH.
  pose proof (delete_loop_spec (S (size h)) h sl id [] b (pHead sl) Hsl Hb
    ltac:(apply Hsl) ltac:(by eapply slot_rep_size)) as Hloop.
  unfold spec_delete. rewrite fmap_cons. destruct (assoc id b) as [t|] eqn:Has.
  - destruct Hloop as (h1 & sl1 & Heq & Hr1 & Hd1 & Ha1). rewrite app_nil_l in Hr1, Ha1.
    change (last_addr []) with NULL in Heq.
    assert (Hin : id ∈ b.*1).
    { destruct (decide (id ∈ b.*1)) as [|Hn]; [done|]. by apply assoc_None in Hn; congruence. }
    destruct (Z.eqb_spec (pHead sl) NULL) as [He|He].
    { apply (slot_rep_head _ _ _ Hsl) in He as ->. done. }
    cbn [delete_table]. rewrite (proj2 (Z.eqb_neq _ _) He), Heq, outcome_bind_ret. exists true, h1, (sl1 :: tbl). split_and!; [done| | |done|].
    + symmetry. apply bool_decide_eq_true. set_solver.
    + constructor; [done|]. fold (spec_delete id bks).
      rewrite spec_delete_notin by set_solver.
      eapply slots_agree; [|done]. intros x Hx. apply Ha1. set_solver.
    + intros x [Hx _]%not_elem_of_app. auto.
  - apply assoc_None in Has.
    assert (Hgo : delete_table h (sl :: tbl) id =
      Ret (bool_decide (id ∈ addrs bks), h', sl :: tbl')).
    { cbn [delete_table]. destruct (pHead sl =? NULL).
      - by rewrite Hdel.
      - change (last_addr []) with NULL in Hloop. rewrite Hloop, outcome_bind_ret, Hdel. done. }
    exists (bool_decide (id ∈ addrs bks)), h', (sl :: tbl'). split_and!; [done| | |done|].
    + apply bool_decide_ext. set_solver.
    + constructor; [|done]. rewrite del_notin by done.
      eapply slot_rep_agree; [|done]. intros x Hx. apply Hag. set_solver.
    + intros x [_ Hx]%not_elem_of_app. auto.
Qed.

Lemma master_delete h tbl bks id :
  master_rep h tbl bks ->
  exists h' tbl', delete_table h tbl id = Ret (bool_decide (id ∈ addrs bks), h', tbl') /\
    master_rep h' tbl' (spec_delete id bks) /\ dom h' ⊆ dom h.
Proof.
  intros [Hs Hn Hd].
  destruct (delete_table_spec _ _ _ id Hs Hn) as (b & h' & tbl' & Heq & -> & Hs' & Hd' & _).
  eexists h', tbl'. split; [exact Heq|]. split; [split|].
  - done.
  - clear -Hn. unfold spec_delete, addrs in *.
    replace (concat (del id <$> bks)) with (del id (concat bks)); [by apply del_NoDup|].
    induction bks as [|b bks IH]; [done|]. csimpl. unfold del at 1.
    rewrite filter_app. fold (del id b) (del id (concat bks)). rewrite IH; [done|].
    cbn [concat] in Hn. rewrite fmap_app in Hn. by apply NoDup_app in Hn as (_ & _ & ?).
  - apply set_eq. intros x. rewrite elem_of_list_to_set, del_addrs.
    rewrite Hd'. case_bool_decide; rewrite ?elem_of_difference, Hd, elem_of_list_to_set;
      set_solver.
  - rewrite Hd'. case_bool_decide; set_solver.
Qed.

(** ** SCH_AddTask *)
Lemma addrs_add b1 b b2 n t :
  addrs (b1 ++ (b ++ [(n, t)]) :: b2) ≡ₚ n :: addrs (b1 ++ b :: b2).
Proof.
  rewrite !addrs_app, !addrs_cons, fmap_app. csimpl.
  rewrite <- !app_assoc. csimpl.
  by rewrite (app_assoc _ b.*1 (n :: _)), <- Permutation_middle, <- app_assoc.
Qed.

Lemma spec_add_middle b1 b b2 n t :
  spec_add (length b1) n t (b1 ++ b :: b2) = b1 ++ (b ++ [(n, t)]) :: b2.
Proof.
  unfold spec_add. rewrite <- (Nat.add_0_r (length b1)), alter_app_r. done.
Qed.

Lemma master_add h tbl bks i sl n t :
  master_rep h tbl bks -> tbl !! i = Some sl -> n <> NULL -> n ∉ dom h ->
  exists h' sl', append_node h sl n t = Ret (h', sl') /\
    master_rep h' (<[i := sl']> tbl) (spec_add i n t bks) /\ dom h' = {[n]} ∪ dom h.
Proof.
  intros [Hs Hnd Hd] Hi Hn Hfresh.
  destruct (list_elem_of_split_length _ _ _ Hi) as (t1 & t2 & -> & ->).
  apply Forall2_app_inv_l in Hs as (b1 & k & Hs1 & Hs2 & ->).
  inversion Hs2 as [|? b ? b2 Hsl Hs2']; subst. clear Hs2 Hi.
  pose proof Hnd as Hnd0. rewrite addrs_app, addrs_cons in Hnd0.
  apply NoDup_app in Hnd0 as (_ & Hd1 & (Hb & Hd2 & _)%NoDup_app).
  destruct (append_node_spec _ _ _ _ t Hsl Hb Hn Hfresh) as (h' & sl' & Heq & Hr & Hd' & Hag).
  assert (Hnaddr : n ∉ addrs (b1 ++ b :: b2)).
  { intros Hin. apply Hfresh. rewrite Hd. by apply elem_of_list_to_set. }
  rewrite addrs_app, addrs_cons in Hnaddr.
  exists h', sl'. split; [done|]. split; [|done].
  rewrite (Forall2_length _ _ _ Hs1), spec_add_middle, <- (Forall2_length _ _ _ Hs1).
  rewrite <- (Nat.add_0_r (length t1)), insert_app_r. split.
  - apply Forall2_app; [|constructor; [done|]]; (eapply slots_agree; [|done]);
      intros x Hx; apply Hag; set_solver.
  - rewrite addrs_add. apply NoDup_cons. split; [|done].
    by rewrite addrs_app, addrs_cons.
  - rewrite Hd', Hd, addrs_add. set_solver.
Qed.

(** ** ClearMasterTable, ClearExecutionList *)
Lemma clear_loop_spec {V} fuel (h : gmap Z (node V)) sl l :
  lseg h (pHead sl) l NULL -> NoDup l.*1 -> (length l < fuel)%nat ->
  exists h', clear_loop fuel h sl = Ret (h', Slot NULL NULL (nSize sl - Z.of_nat (length l))) /\
    dom h' = dom h ∖ list_to_set l.*1 /\ (forall x, x ∉ l.*1 -> h' !! x = h !! x).
Proof.
  revert h sl l. induction fuel as [|fuel IH]; intros h sl l Hl Hnd Hf; [lia|].
  cbn [clear_loop]. destruct (Z.eqb_spec (pHead sl) NULL) as [He|He].
  - rewrite He in Hl. rewrite (lseg_null_nil _ _ Hl) in *. exists h.
    rewrite Z.sub_0_r. split_and!; [done|set_solver|done].
  - destruct (lseg_cons_inv _ _ _ _ He Hl) as (v & l' & n & -> & _ & Hn & Hl').
    rewrite (load_Some _ _ _ He Hn), outcome_bind_ret. unfold dispose.
    rewrite (load_Some _ _ _ He Hn), outcome_bind_ret.
    pose proof (lseg_unlink_head _ _ _ _ _ _ Hl Hnd Hn) as Hl2. csimpl in *.
    destruct (IH (delete (pHead sl) h) (Slot n (pTail sl) (nSize sl - 1)) l')
      as (h' & Heq & Hd & Hag); [done|by apply NoDup_cons in Hnd as [_ ?]|lia|].
    exists h'. split; [|split].
    + rewrite Heq. simpl. do 3 f_equal. lia.
    + rewrite Hd, dom_delete_L. set_solver.
    + intros x Hx. rewrite Hag by set_solver. by rewrite lookup_delete_ne by set_solver.
Qed.

Lemma clear_table_spec h tbl bks :
  Forall2 (slot_rep h) tbl bks -> NoDup (addrs bks) ->
  exists h' tbl', clear_table h tbl = Ret (h', tbl') /\
    Forall (fun sl => sl = empty_slot) tbl' /\ length tbl' = length tbl /\
    dom h' = dom h ∖ list_to_set (addrs bks).
Proof.
  revert h bks. induction tbl as [|sl tbl IH]; intros h bks Hall Hnd.
  { inversion Hall; subst. exists h, []. split_and!; try done. set_solver. }
  inversion Hall as [|? b ? bks' Hsl Hall']; subst.
  rewrite addrs_cons in Hnd |- *. apply NoDup_app in Hnd as (Hb & Hdisj & Hbks).
  cbn [clear_table]. destruct (Z.eqb_spec (pHead sl) NULL) as [He|He].
  - apply (slot_rep_head _ _ _ Hsl) in He as ->.
    destruct (IH _ _ Hall' Hbks) as (h' & tbl' & -> & Hf & Hlen & Hd).
    exists h', (sl :: tbl'). split; [done|]. split_and!; simpl; [|lia|set_solver].
    constructor; [|done]. destruct sl, Hsl as (? & ? & ?); simpl in *. by subst.
  - destruct (clear_loop_spec (S (size h)) h sl b (proj1 Hsl) Hb
      ltac:(by eapply slot_rep_size)) as (h1 & -> & Hd1 & Hag). rewrite outcome_bind_ret.
    replace (nSize sl - Z.of_nat (length b)) with 0 by (destruct Hsl as (_ & _ & ?); lia).
    assert (Hall1 : Forall2 (slot_rep h1) tbl bks').
    { eapply slots_agree; [|done]. intros x Hx. apply Hag. set_solver. }
    destruct (IH _ _ Hall1 Hbks) as (h' & tbl' & -> & Hf & Hlen & Hd).
    exists h', (empty_slot :: tbl'). split; [done|]. split_and!; simpl; [by constructor|lia|].
    rewrite Hd, Hd1. set_solver.
Qed.

(** ** SCH_AutoCleanTask *)
Abbreviation keep l := (filter (fun x : Z * stTask => eType x.2 <> SCH_ONE_SHOT) l).

(** Every one-shot task of the list is past its date, whenever the clock is read. *)
Definition all_expired (clock : nat -> tm) (l : bucket) : Prop :=
  forall a t, (a, t) ∈ l -> eType t = SCH_ONE_SHOT ->
  forall k, date_expired (StartDate t) (clock k) = true.

Lemma keep_keys (l : bucket) x : x ∈ (keep l).*1 -> x ∈ l.*1.
Proof.
  intros ([a v] & -> & [? ?]%list_elem_of_filter)%list_elem_of_fmap.
  apply list_elem_of_fmap. by exists (a, v).
Qed.

Lemma keep_NoDup (l : bucket) : NoDup l.*1 -> NoDup (keep l).*1.
Proof.
  induction l as [|[a v] l IH]; csimpl; [done|].
  intros [Ha Hl]%NoDup_cons. rewrite filter_cons. case_decide; csimpl; [|auto].
  apply NoDup_cons. split; [|auto]. intros Hin%keep_keys. done.
Qed.

(** The state in which the inner loop of [SCH_AutoCleanTask] reaches [cur]. *)
Definition at_node (h : gmap Z (node stTask)) sl (l1 l2 : bucket) cur : Prop :=
  slot_rep h sl (l1 ++ l2) /\ NoDup (l1 ++ l2).*1 /\ lseg h cur l2 NULL.

Lemma at_node_next h sl l1 c w l2 n :
  at_node h sl l1 ((c, w) :: l2) c -> h !! c = Some (Node w n) ->
  at_node h sl (l1 ++ [(c, w)]) l2 n.
Proof.
  intros (Hr & Hnd & Hl) Hn. unfold at_node. rewrite <- app_assoc. split_and!; [done..|].
  destruct Hl as (_ & _ & k & Hk & Hl). by simplify_eq.
Qed.

Lemma at_node_unlink h sl l1 c w l2 n :
  at_node h sl l1 ((c, w) :: l2) c -> h !! c = Some (Node w n) ->
  exists h' sl', unlink_node h sl (last_addr l1) c = Ret (h', sl') /\
    at_node h' sl' l1 l2 n /\ dom h' = dom h ∖ {[c]} /\
    (forall x, x ∉ l1.*1 -> x <> c -> h' !! x = h !! x).
Proof.
  intros (Hr & Hnd & Hl) Hn.
  destruct (unlink_node_spec _ _ _ _ _ _ Hr Hnd) as (h' & sl' & Heq & Hr' & Hd & Hag).
  exists h', sl'. split_and!; try done.
  destruct Hl as (_ & _ & k & Hk & Hl). simplify_eq.
  rewrite fmap_app in Hnd. apply NoDup_app in Hnd as (Hn1 & Hd1 & Hn2). csimpl in *.
  apply NoDup_cons in Hn2 as [Hc Hn2]. split_and!; [done| |].
  - rewrite fmap_app. apply NoDup_app. split_and!; set_solver.
  - eapply lseg_agree; [|done]. intros x Hx. apply Hag; set_solver.
Qed.

(** Whatever the clock says, the loop is memory safe and leaves the other lists
    alone; when it ends, it has removed exactly the one-shot tasks, and has read
    the clock at most once per iteration. *)
Lemma clean_loop_safe fuel clock k h sl l1 l2 cur :
  at_node h sl l1 l2 cur ->
  match clean_loop fuel clock k h sl (last_addr l1) cur with
  | Ret (k', h', sl') =>
      (k' <= k + fuel)%nat /\ slot_rep h' sl' (l1 ++ keep l2) /\
      (forall x, x ∈ dom h' <-> x ∈ dom h /\ (x ∈ l2.*1 -> x ∈ (keep l2).*1)) /\
      (forall x, x ∉ (l1 ++ l2).*1 -> h' !! x = h !! x)
  | OutOfFuel => True
  | Crash => False
  end.
Proof.
  revert k h sl l1 l2 cur.
  induction fuel as [|fuel IH]; intros k h sl l1 l2 cur Hat; [done|].
  cbn [clean_loop]. destruct (Z.eqb_spec cur NULL) as [->|Hc].
  { destruct Hat as (Hr & Hnd & Hl). rewrite (lseg_null_nil _ _ Hl) in *.
    split_and!; [lia|done| |done]. set_solver. }
  pose proof Hat as (Hr & Hnd & Hl).
  destruct (lseg_cons_inv _ _ _ _ Hc Hl) as (v & l' & n & -> & _ & Hn & Hl').
  rewrite (load_Some _ _ _ Hc Hn), outcome_bind_ret. cbn [val next].
  rewrite fmap_app in Hnd. csimpl in Hnd.
  apply NoDup_app in Hnd as (_ & Hdj & [Hcur _]%NoDup_cons).
  assert (Hcl1 : cur ∉ l1.*1) by set_solver.
  destruct (Z.eqb_spec (eType v) SCH_ONE_SHOT) as [He|He]; [case_bool_decide|].
  - destruct (at_node_unlink _ _ _ _ _ _ _ Hat Hn) as (h1 & sl1 & -> & Hat1 & Hd1 & Hag1).
    rewrite outcome_bind_ret. specialize (IH (S k) h1 sl1 l1 l' n Hat1).
    destruct (clean_loop _ _ _ _ _ _ _) as [[[k' h'] sl']| |]; [|done..].
    destruct IH as (Hk & Hr' & Hd' & Hag'). rewrite filter_cons_False by (simpl; tauto).
    split_and!; [lia|done| |].
    + intros x. rewrite Hd', Hd1. csimpl. pose proof (keep_keys l' x).
      rewrite elem_of_difference, elem_of_singleton, elem_of_cons.
      destruct (decide (x = cur)) as [->|]; tauto.
    + intros x. rewrite !fmap_app. csimpl. intros Hx. rewrite Hag' by set_solver.
      apply Hag1; set_solver.
  - specialize (IH (S k) h sl l1 _ cur Hat).
    destruct (clean_loop _ _ _ _ _ _ _) as [[[k' h'] sl']| |]; [|done..].
    destruct IH as (? & ? & ? & ?). split_and!; [lia|done..].
  - specialize (IH k h sl _ _ _ (at_node_next _ _ _ _ _ _ _ Hat Hn)).
    rewrite last_addr_snoc in IH.
    destruct (clean_loop _ _ _ _ _ _ _) as [[[k' h'] sl']| |]; [|done..].
    destruct IH as (Hk & Hr' & Hd' & Hag'). rewrite filter_cons_True by (simpl; tauto).
    rewrite <- app_assoc in Hr', Hag'. split_and!; [lia|done| |done].
    intros x. rewrite Hd'. csimpl. rewrite !elem_of_cons.
    destruct (decide (x = cur)) as [->|]; tauto.
Qed.

(** When every one-shot task is past its date the loop ends. *)
Lemma clean_loop_ends fuel clock k h sl l1 l2 cur :
  at_node h sl l1 l2 cur -> all_expired clock l2 -> (length l2 < fuel)%nat ->
  clean_loop fuel clock k h sl (last_addr l1) cur <> OutOfFuel.
Proof.
  revert k h sl l1 l2 cur. induction fuel as [|fuel IH]; intros k h sl l1 l2 cur Hat Hex Hf; [lia|].
  cbn [clean_loop]. destruct (Z.eqb_spec cur NULL) as [->|Hc]; [done|].
  pose proof Hat as (Hr & Hnd & Hl).
  destruct (lseg_cons_inv _ _ _ _ Hc Hl) as (v & l' & n & -> & _ & Hn & Hl').
  rewrite (load_Some _ _ _ Hc Hn), outcome_bind_ret. cbn [val next].
  assert (Hex' : all_expired clock l') by (intros a t Hin; eapply Hex; by right).
  simpl in Hf. destruct (Z.eqb_spec (eType v) SCH_ONE_SHOT) as [He|He].
  - rewrite ValidateDateTime_date, (Hex cur v) by (done || by left).
    rewrite bool_decide_eq_true_2 by done.
    destruct (at_node_unlink _ _ _ _ _ _ _ Hat Hn) as (h1 & sl1 & -> & Hat1 & _).
    rewrite outcome_bind_ret. apply (IH _ _ _ _ _ _ Hat1 Hex'). lia.
  - rewrite <- (last_addr_snoc l1 cur v).
    apply (IH _ _ _ _ _ _ (at_node_next _ _ _ _ _ _ _ Hat Hn) Hex'). lia.
Qed.

Lemma spec_clean_addrs bks x : x ∈ addrs (spec_clean bks) -> x ∈ addrs bks.
Proof.
  induction bks as [|b bks IH]; [done|]. unfold spec_clean in *. csimpl.
  rewrite !addrs_cons, !elem_of_app. intros [?%keep_keys|?]; auto.
Qed.

Lemma spec_clean_NoDup bks : NoDup (addrs bks) -> NoDup (addrs (spec_clean bks)).
Proof.
  induction bks as [|b bks IH]; [done|]. unfold spec_clean in *. csimpl.
  rewrite !addrs_cons, !NoDup_app. intros (Hb & Hd & Hbks).
  split_and!; [by apply keep_NoDup| |auto].
  intros x Hx%keep_keys Hx2%spec_clean_addrs. by apply (Hd x).
Qed.

Lemma clean_table_safe fuel clock k h tbl bks :
  Forall2 (slot_rep h) tbl bks -> NoDup (addrs bks) ->
  match clean_table fuel clock k h tbl with
  | Ret (h', tbl') =>
      Forall2 (slot_rep h') tbl' (spec_clean bks) /\
      (forall x, x ∈ dom h' <->
         x ∈ dom h /\ (x ∈ addrs bks -> x ∈ addrs (spec_clean bks))) /\
      (forall x, x ∉ addrs bks -> h' !! x = h !! x)
  | OutOfFuel => True
  | Crash => False
  end.
Proof.
  revert k h bks. induction tbl as [|sl tbl IH]; intros k h bks Hall Hnd.
  { inversion Hall; subst. simpl. split_and!; try done. set_solver. }
  inversion Hall as [|? b ? bks' Hsl Hall']; subst. clear Hall.
  rewrite addrs_cons in Hnd |- *. apply NoDup_app in Hnd as (Hb & Hdisj & Hbks).
  unfold spec_clean. rewrite fmap_cons, addrs_cons. fold (spec_clean bks').
  cbn [clean_table]. destruct (Z.eqb_spec (pHead sl) NULL) as [He|He].
  - apply (slot_rep_head _ _ _ Hsl) in He as ->. specialize (IH k h bks' Hall' Hbks).
    destruct (clean_table _ _ _ _ _) as [[h' tbl']| |]; [|done..].
    rewrite outcome_bind_ret. destruct IH as (Hr & Hd & Hag). split_and!; [|done|].
    + constructor; [|done]. eapply slot_rep_agree; [|done]. set_solver.
    + intros x Hx. apply Hag. set_solver.
  - assert (Hat : at_node h sl [] b (pHead sl)) by (split_and!; [done..|apply Hsl]).
    pose proof (clean_loop_safe fuel clock k h sl [] b (pHead sl) Hat) as Hs.
    change (last_addr []) with NULL in Hs.
    destruct (clean_loop _ _ _ _ _ _ _) as [[[k1 h1] sl1]| |]; [|done..].
    destruct Hs as (_ & Hr1 & Hd1 & Hag1). rewrite outcome_bind_ret.
    rewrite app_nil_l in Hr1, Hag1. specialize (IH k1 h1 bks').
    destruct (clean_table _ _ _ _ _) as [[h' tbl']| |].
    + rewrite outcome_bind_ret. destruct IH as (Hr & Hd & Hag); [|done|].
      { eapply slots_agree; [|done]. intros x Hx. apply Hag1. set_solver. }
      split_and!.
      * constructor; [|done]. eapply slot_rep_agree; [|done].
        intros x Hx%keep_keys. apply Hag. by apply Hdisj.
      * intros x. rewrite Hd, Hd1, !elem_of_app.
        pose proof (keep_keys b x). pose proof (spec_clean_addrs bks' x).
        specialize (Hdisj x). tauto.
      * intros x Hx. rewrite Hag, Hag1; set_solver.
    + apply IH; [|done]. eapply slots_agree; [|done]. intros x Hx. apply Hag1. set_solver.
    + done.
Qed.

Lemma clean_table_ends fuel clock k h tbl bks :
  Forall2 (slot_rep h) tbl bks -> NoDup (addrs bks) ->
  all_expired clock (concat bks) -> (length (concat bks) < fuel)%nat ->
  clean_table fuel clock k h tbl <> OutOfFuel.
Proof.
  revert k h bks. induction tbl as [|sl tbl IH]; intros k h bks Hall Hnd Hex Hf; [done|].
  inversion Hall as [|? b ? bks' Hsl Hall']; subst. clear Hall.
  rewrite addrs_cons in Hnd. apply NoDup_app in Hnd as (Hb & Hdisj & Hbks).
  cbn [concat] in Hf. rewrite length_app in Hf.
  assert (Hex1 : all_expired clock b).
  { intros a t Hin. eapply Hex. apply elem_of_app. by left. }
  assert (Hex2 : all_expired clock (concat bks')).
  { intros a t Hin. eapply Hex. apply elem_of_app. by right. }
  cbn [clean_table]. destruct (Z.eqb_spec (pHead sl) NULL) as [He|He].
  - specialize (IH k h bks' Hall' Hbks Hex2 ltac:(lia)).
    by destruct (clean_table _ _ _ _ _) as [[]| |].
  - assert (Hat : at_node h sl [] b (pHead sl)) by (split_and!; [done..|apply Hsl]).
    pose proof (clean_loop_safe fuel clock k h sl [] b (pHead sl) Hat) as Hs.
    pose proof (clean_loop_ends fuel clock k h sl [] b (pHead sl) Hat Hex1 ltac:(lia)) as He1.
    change (last_addr []) with NULL in Hs, He1.
    destruct (clean_loop _ _ _ _ _ _ _) as [[[k1 h1] sl1]| |]; [|done..].
    destruct Hs as (_ & _ & _ & Hag1). rewrite outcome_bind_ret.
    specialize (IH k1 h1 bks'). rewrite app_nil_l in Hag1.
    destruct (clean_table _ _ _ _ _) as [[]| |]; [done..|]. apply IH; [|done|done|lia].
    eapply slots_agree; [|done]. intros x Hx. apply Hag1. set_solver.
Qed.

Lemma addrs_length bks : length (addrs bks) = length (concat bks).
Proof. unfold addrs. by rewrite length_fmap. Qed.

(** *** The two together, on the table *)
Lemma master_clean fuel clock h tbl bks :
  master_rep h tbl bks ->
  match clean_table fuel clock 0 h tbl with
  | Ret (h', tbl') => master_rep h' tbl' (spec_clean bks) /\ dom h' ⊆ dom h
  | OutOfFuel => True
  | Crash => False
  end.
Proof.
  intros [Hs Hn Hd]. pose proof (clean_table_safe fuel clock 0 _ _ _ Hs Hn) as Hc.
  destruct (clean_table _ _ _ _ _) as [[h' tbl']| |]; [|done..].
  destruct Hc as (Hs' & Hd' & _). split; [split|].
  - done.
  - by apply spec_clean_NoDup.
  - apply set_eq. intros x. rewrite Hd', elem_of_list_to_set, Hd, elem_of_list_to_set.
    pose proof (spec_clean_addrs bks x). tauto.
  - intros x. rewrite Hd'. tauto.
Qed.

Lemma master_clean_ends fuel clock h tbl bks :
  master_rep h tbl bks -> all_expired clock (concat bks) -> (size h < fuel)%nat ->
  clean_table fuel clock 0 h tbl <> OutOfFuel.
Proof.
  intros [Hs Hn Hd] Hex Hf. apply (clean_table_ends _ _ _ _ _ _ Hs Hn Hex).
  rewrite <- addrs_length. enough (size h = length (addrs bks)) by lia.
  rewrite <- size_dom, Hd. by apply size_list_to_set.
Qed.

(** *** A one-shot task that is not due yet stops the loop from advancing *)

Definition not_expired_until (clock : nat -> tm) (n : nat) (t : stTask) : Prop :=
  forall k, (k < n)%nat -> date_expired (StartDate t) (clock k) = false.

Lemma clean_loop_stuck fuel clock k h sl l1 l2 cur a t :
  at_node h sl l1 l2 cur -> (a, t) ∈ l2 -> eType t = SCH_ONE_SHOT ->
  not_expired_until clock (k + fuel) t ->
  clean_loop fuel clock k h sl (last_addr l1) cur = OutOfFuel.
Proof.
  revert k h sl l1 l2 cur.
  induction fuel as [|fuel IH]; intros k h sl l1 l2 cur Hat Hin Ht Hne; [done|].
  cbn [clean_loop]. destruct (Z.eqb_spec cur NULL) as [->|Hc].
  { destruct Hat as (_ & _ & Hl). rewrite (lseg_null_nil _ _ Hl) in Hin. by apply not_elem_of_nil in Hin. }
  pose proof Hat as (Hr & Hnd & Hl).
  destruct (lseg_cons_inv _ _ _ _ Hc Hl) as (v & l' & n & -> & _ & Hn & Hl').
  rewrite (load_Some _ _ _ Hc Hn), outcome_bind_ret. cbn [val next].
  assert (Hk : forall j, (j <= 1)%nat -> not_expired_until clock (k + j + fuel) t).
  { intros j Hj i Hi. apply Hne. lia. }
  destruct (Z.eqb_spec (eType v) SCH_ONE_SHOT) as [He|He].
  - rewrite ValidateDateTime_date. destruct (date_expired (StartDate v) (clock k)) eqn:Hd.
    + rewrite bool_decide_eq_true_2 by done.
      destruct (at_node_unlink _ _ _ _ _ _ _ Hat Hn) as (h1 & sl1 & -> & Hat1 & _).
      rewrite outcome_bind_ret. apply (IH _ _ _ _ l'); try done.
      * apply elem_of_cons in Hin as [[= -> ->]|Hin]; [|done].
        rewrite Hne in Hd by lia. done.
      * intros i Hi. apply (Hk 1%nat); lia.
    + rewrite bool_decide_eq_false_2 by done. eapply IH; try done.
      intros i Hi. apply (Hk 1%nat); lia.
  - rewrite <- (last_addr_snoc l1 cur v). eapply IH.
    + eapply at_node_next; done.
    + apply elem_of_cons in Hin as [[= -> ->]|Hin]; done.
    + done.
    + intros i Hi. apply (Hk 0%nat); lia.
Qed.

Lemma clean_table_stuck fuel clock k h tbl bks a t :
  Forall2 (slot_rep h) tbl bks -> NoDup (addrs bks) ->
  (a, t) ∈ concat bks -> eType t = SCH_ONE_SHOT ->
  not_expired_until clock (k + length bks * fuel) t ->
  clean_table fuel clock k h tbl = OutOfFuel.
Proof.
  revert k h bks. induction tbl as [|sl tbl IH]; intros k h bks Hall Hnd Hin Ht Hne.
  { inversion Hall; subst. by apply not_elem_of_nil in Hin. }
  inversion Hall as [|? b ? bks' Hsl Hall']; subst. clear Hall.
  rewrite addrs_cons in Hnd. apply NoDup_app in Hnd as (Hb & Hdisj & Hbks).
  cbn [concat clean_table] in *.
  destruct (Z.eqb_spec (pHead sl) NULL) as [He|He].
  { apply (slot_rep_head _ _ _ Hsl) in He as ->.
    rewrite (IH k h bks'); try done. intros i Hi. apply Hne. simpl. lia. }
  assert (Hat : at_node h sl [] b (pHead sl)) by (split_and!; [done..|apply Hsl]).
  apply elem_of_app in Hin as [Hin|Hin].
  - pose proof (clean_loop_stuck fuel clock k h sl [] b (pHead sl) a t Hat Hin Ht) as Hs.
    change (last_addr []) with NULL in Hs. rewrite Hs; [done|].
    intros i Hi. apply Hne. simpl. lia.
  - pose proof (clean_loop_safe fuel clock k h sl [] b (pHead sl) Hat) as Hs.
    change (last_addr []) with NULL in Hs.
    destruct (clean_loop _ _ _ _ _ _ _) as [[[k' h'] sl']| |]; [|done..].
    destruct Hs as (Hk & _ & _ & Hag). rewrite outcome_bind_ret. rewrite app_nil_l in Hag.
    rewrite (IH k' h' bks'); try done.
    + eapply slots_agree; [|done]. intros x Hx. apply Hag. set_solver.
    + intros i Hi. apply Hne. simpl. lia.
Qed.
