(* ===== verification/SchedApi.v ===== *)
(** * The scheduler's interface against its specification

    [sched_rep s bks es]: the globals of NASCenter_Scheduler.c hold the buckets
    [bks] in the master table and the chain [es] in the execution list, in
    disjoint parts of the heap.  Each SCH_ function is related to a function on
    the buckets; the witnesses run on a small scheduler. *)

From S2P Require Import Prelude Heap CTypes SchedTypes SchedMaster SchedTable.

(** The execution list, its tail pointer aside (sorting leaves it stale). *)
Definition exec_rep (h : gmap Z (node execTask)) (sl : slot) (es : list (Z * execTask)) : Prop :=
  lseg h (pHead sl) es NULL /\ NoDup es.*1 /\ dom h = list_to_set es.*1 /\
  nSize sl = Z.of_nat (length es).

Record sched_rep (s : sched) (bks : list bucket) (es : list (Z * execTask)) : Prop := {
  sr_master : master_rep (st_mheap s) (gSchMasterTable s) bks;
  sr_length : length bks = Z.to_nat MASTER_ARR_SIZE;
  sr_exec : exec_rep (st_eheap s) (gExecList s) es;
  sr_disjoint : dom (st_mheap s) ## dom (st_eheap s)
}.

(** The tasks a client sees: a finite map from identifiers. *)
Definition tasks (bks : list bucket) : gmap Z stTask := list_to_map (concat bks).

(** Same execution list and same stop flag: the master-table calls leave them alone. *)
Definition same_exec (s s' : sched) : Prop :=
  st_eheap s' = st_eheap s /\ gExecList s' = gExecList s /\
  gbStopScheduler s' = gbStopScheduler s.

(** The entry a task is accepted into, or [None] when [SCH_AddTask] refuses it. *)
Definition accepts (now : tm) (t : stTask) : option Z :=
  if bool_decide (ValidateTask now t = NASC_SUCCESS) then slot_index t else None.

Lemma tasks_lookup id bks : tasks bks !! id = spec_lookup id bks.
Proof. apply assoc_list_to_map. Qed.

Lemma spec_delete_concat id bks : concat (spec_delete id bks) = del id (concat bks).
Proof.
  induction bks as [|b bks IH]; [done|]. unfold spec_delete, del in *. csimpl.
  by rewrite filter_app, IH.
Qed.

Lemma assoc_del (l : list (Z * stTask)) id k :
  assoc k (del id l) = if k =? id then None else assoc k l.
Proof.
  unfold del. induction l as [|[a v] l IH]; simpl; [by destruct (k =? id)|].
  rewrite filter_cons. case_decide as Ha; simpl in *; rewrite IH;
    destruct (Z.eqb_spec k id); destruct (Z.eqb_spec k a); congruence || by subst.
Qed.

Lemma tasks_delete id bks : tasks (spec_delete id bks) = delete id (tasks bks).
Proof.
  apply map_eq. intros k. rewrite tasks_lookup. unfold spec_lookup.
  rewrite spec_delete_concat, assoc_del. destruct (Z.eqb_spec k id) as [->|Hne].
  - by rewrite lookup_delete_eq.
  - by rewrite lookup_delete_ne, tasks_lookup.
Qed.

Lemma tasks_add i id t bks :
  (i < length bks)%nat -> id ∉ addrs bks ->
  tasks (spec_add i id t bks) = <[id := t]> (tasks bks).
Proof.
  intros Hi Hid. apply lookup_lt_is_Some in Hi as [b Hb].
  destruct (list_elem_of_split_length _ _ _ Hb) as (b1 & b2 & -> & ->). clear Hb.
  rewrite spec_add_middle. apply map_eq. intros k. rewrite tasks_lookup. unfold spec_lookup.
  rewrite addrs_app, addrs_cons in Hid. rewrite !not_elem_of_app in Hid.
  destruct Hid as (H1 & Hb & H2). apply assoc_None in H1, Hb, H2.
  destruct (Z.eqb_spec k id) as [->|Hne].
  - rewrite lookup_insert_eq, concat_app, concat_cons, !assoc_app, H1, Hb. simpl.
    by rewrite Z.eqb_refl.
  - rewrite lookup_insert_ne, tasks_lookup by done. unfold spec_lookup.
    rewrite !concat_app, !concat_cons, !assoc_app. simpl.
    rewrite (proj2 (Z.eqb_neq k id) Hne). destruct (assoc k (concat b1)), (assoc k b); done.
Qed.

Lemma tasks_None id bks : tasks bks !! id = None <-> id ∉ addrs bks.
Proof. rewrite tasks_lookup. apply assoc_None. Qed.

Section Api.
Context `{Allocator}.

Lemma slot_index_range t i :
  slot_index t = Some i -> 0 <= ui16Hour (StartTime t) < 25 -> 0 <= i < 25.
Proof. unfold slot_index. repeat case_match; intros; simplify_eq; unfold EVERY_HOUR_TASK; lia. Qed.

Lemma table_get_Some tbl i sl :
  0 <= i -> tbl !! Z.to_nat i = Some sl -> table_get tbl i = Ret sl.
Proof. intros Hi Hs. unfold table_get. destruct (Z.ltb_spec i 0); [lia|]. by rewrite Hs. Qed.

Lemma StartScheduler_rep s :
  st_mheap s = ∅ -> st_eheap s = ∅ ->
  sched_rep (SCH_StartScheduler s) (replicate 25 []) [].
Proof.
  intros Hm He. unfold SCH_StartScheduler. split; simpl; rewrite ?Hm, ?He; [|done| |set_solver].
  - split; [|constructor|by rewrite dom_empty_L].
    repeat constructor.
  - split_and!; try done. constructor.
Qed.

(** ** SCH_AddTask *)
Lemma AddTask_refused now t s :
  accepts now t = None -> SCH_AddTask now t s = Ret (-1, s).
Proof.
  unfold accepts, SCH_AddTask. case_bool_decide; simpl; [|done]. by intros ->.
Qed.

Lemma AddTask_accepted now t s bks es i :
  sched_rep s bks es -> accepts now t = Some i -> 0 <= i < 25 ->
  let n := malloc (st_live s) in
  exists s', SCH_AddTask now t s = Ret (if n =? NULL then (-1, s) else (n, s')) /\
    (n <> NULL -> sched_rep s' (spec_add (Z.to_nat i) n t bks) es /\
       same_exec s s' /\ gbTaskChanged s' = true /\ n ∉ addrs bks).
Proof.
  intros [Hm Hlen He Hd] Hac Hi n. unfold accepts, SCH_AddTask in *.
  case_bool_decide; simplify_eq/=. rewrite Hac. fold n.
  destruct (Z.eqb_spec n NULL) as [Hn|Hn]; [by exists s|].
  destruct (malloc_spec (st_live s)) as [|Hfresh]; [done|]. fold n in Hfresh.
  assert (is_Some (gSchMasterTable s !! Z.to_nat i)) as [sl Hsl].
  { apply lookup_lt_is_Some. rewrite (Forall2_length _ _ _ (mr_slots _ _ _ Hm)), Hlen.
    unfold MASTER_ARR_SIZE. lia. }
  rewrite (table_get_Some _ _ _ (proj1 Hi) Hsl), outcome_bind_ret.
  unfold st_live in Hfresh.
  destruct (master_add _ _ _ _ _ n t Hm Hsl Hn) as (h' & sl' & -> & Hm' & Hd'); [set_solver|].
  eexists. split; [reflexivity|]. intros _. split_and!; [|done|done|].
  - split; simpl; [done| |done|rewrite Hd'; set_solver].
    unfold spec_add. by rewrite length_alter.
  - pose proof (mr_dom _ _ _ Hm). set_solver.
Qed.

(** ** SCH_GetTask *)
Lemma GetTask_spec id s bks es :
  sched_rep s bks es ->
  SCH_GetTask id s =
  Ret (match tasks bks !! id with Some _ => NASC_SUCCESS | None => NASC_FAILURE end,
       tasks bks !! id).
Proof.
  intros [[Hs Hn _] _ _ _]. unfold SCH_GetTask.
  rewrite (get_table_spec _ _ _ id Hs Hn), tasks_lookup. done.
Qed.

(** ** SCH_DeleteTask *)
Lemma DeleteTask_spec id s bks es :
  sched_rep s bks es ->
  exists s', SCH_DeleteTask id s =
    Ret (if bool_decide (id ∈ addrs bks) then NASC_SUCCESS else NASC_FAILURE, s') /\
    sched_rep s' (spec_delete id bks) es /\ same_exec s s' /\
    gbTaskChanged s' = gbTaskChanged s.
Proof.
  intros [Hm Hlen He Hd]. unfold SCH_DeleteTask.
  destruct (master_delete _ _ _ id Hm) as (h' & tbl' & -> & Hm' & Hsub).
  rewrite outcome_bind_ret. eexists. split; [by case_bool_decide|].
  split_and!; [|done..]. split; simpl; [done| |done|set_solver].
  unfold spec_delete. by rewrite length_fmap.
Qed.

(** ** SCH_AutoCleanTask, ClearMasterTable *)
Lemma AutoClean_safe fuel clock s bks es :
  sched_rep s bks es ->
  match SCH_AutoCleanTask fuel clock s with
  | Ret s' => sched_rep s' (spec_clean bks) es /\ same_exec s s' /\
              gbTaskChanged s' = gbTaskChanged s
  | OutOfFuel => True
  | Crash => False
  end.
Proof.
  intros [Hm Hlen He Hd]. unfold SCH_AutoCleanTask.
  pose proof (master_clean fuel clock _ _ _ Hm) as Hc.
  destruct (clean_table _ _ _ _ _) as [[h' tbl']| |]; [|done..].
  rewrite outcome_bind_ret. destruct Hc as [Hm' Hsub]. split; [|done].
  split; simpl; [done| |done|set_solver]. unfold spec_clean. by rewrite length_fmap.
Qed.

Lemma AutoClean_spec fuel clock s bks es :
  sched_rep s bks es -> all_expired clock (concat bks) -> (size (st_mheap s) < fuel)%nat ->
  exists s', SCH_AutoCleanTask fuel clock s = Ret s' /\
    sched_rep s' (spec_clean bks) es /\ same_exec s s'.
Proof.
  intros Hr Hex Hf. pose proof (AutoClean_safe fuel clock s bks es Hr) as Hs.
  pose proof (master_clean_ends fuel clock _ _ _ (sr_master _ _ _ Hr) Hex Hf) as He.
  unfold SCH_AutoCleanTask in *. destruct (clean_table _ _ _ _ _) as [[]| |]; [|done..].
  eexists. split; [done|]. by destruct Hs as (? & ? & _).
Qed.

Lemma Forall_empty_rep (h : gmap Z (node stTask)) tbl :
  Forall (fun sl => sl = empty_slot) tbl -> Forall2 (slot_rep h) tbl (replicate (length tbl) []).
Proof. induction 1 as [|? ? -> _ IH]; constructor; [apply slot_rep_empty|done]. Qed.

Lemma concat_replicate_nil {A} n : concat (replicate n (@nil A)) = [].
Proof. by induction n. Qed.

Lemma ClearMasterTable_spec s bks es :
  sched_rep s bks es ->
  exists s', ClearMasterTable s = Ret s' /\ st_mheap s' = ∅ /\
    sched_rep s' (replicate 25 []) es /\ same_exec s s'.
Proof.
  intros [[Hs Hn Hdom] Hlen He Hd]. unfold ClearMasterTable.
  destruct (clear_table_spec _ _ _ Hs Hn) as (h' & tbl' & -> & Hf & Hl & Hd').
  rewrite outcome_bind_ret. assert (h' = ∅) as ->.
  { apply dom_empty_inv_L. rewrite Hd', Hdom. set_solver. }
  eexists. split; [done|]. split_and!; [done| |done].
  assert (Hl25 : length tbl' = 25%nat).
  { rewrite Hl, (Forall2_length _ _ _ Hs), Hlen. done. }
  rewrite <- Hl25. split; cbn [st_mheap gSchMasterTable st_eheap set_master];
    [split|by rewrite length_replicate|done|rewrite dom_empty_L; set_solver].
  - by apply Forall_empty_rep.
  - unfold addrs. rewrite concat_replicate_nil. constructor.
  - unfold addrs. rewrite concat_replicate_nil. by rewrite dom_empty_L.
Qed.
End Api.
