(* ===== verification/SchedBuild.v ===== *)
(** * What BuildExecutionList builds, and its sorting

    [plan now bks] is the list of calls, in order, that the code derives from
    the two entries of the master table.  The heap-manipulating code appends
    exactly the plan when [malloc] succeeds, and a sublist of it otherwise. *)

From S2P Require Import Prelude Heap CTypes SchedTypes SchedMaster SchedTable SchedApi.
From S2P Require Import ListSort.
From Stdlib Require Import Sorted.

(** ** The plan *)
Definition calls (t : stTask) (iv n : Z) : list execTask :=
  (fun k => MkExec (fp t) (vpArg t) (UI32 (iv * UI32 (k + 1)))) <$> seqZ 0 n.

Fixpoint plan_interval (now : tm) (n : Z) (b : bucket) : list execTask * bool :=
  match b with
  | [] => ([], true)
  | (_, t) :: b =>
      match exec_count now t n with
      | None => ([], false)
      | Some (iv, n1) =>
          let '(l, go) := plan_interval now n1 b in (calls t iv n1 ++ l, go)
      end
  end.

Definition due_this_hour (now : tm) (t : stTask) : bool :=
  ((ePCity t =? SCH_DAY) && day_matches now t) ||
  ((ePCity t =? SCH_WEEK) && (eWeekDay t =? tm_wday now)) ||
  ((ePCity t =? SCH_MONTH) && (ui16Day (StartDate t) =? tm_mday now)).

Definition hour_call (now : tm) (t : stTask) : list execTask :=
  if due_this_hour now t then [MkExec (fp t) (vpArg t) (UI32 (start_offset t))] else [].

Definition plan_hour (now : tm) (b : bucket) : list execTask :=
  mjoin ((fun x : Z * stTask => hour_call now x.2) <$> b).

Definition plan (now : tm) (every hour : bucket) : list execTask :=
  let '(l, go) := plan_interval now 0 every in
  if go then l ++ plan_hour now hour else l.

(** ** The code follows the plan *)

(** A state whose execution list also has its tail pointer right. *)
Definition sched_full (s : sched) (bks : list bucket) (es : list (Z * execTask)) : Prop :=
  sched_rep s bks es /\ slot_rep (st_eheap s) (gExecList s) es.

Definition same_master (s s' : sched) : Prop :=
  st_mheap s' = st_mheap s /\ gSchMasterTable s' = gSchMasterTable s /\
  gbTaskChanged s' = gbTaskChanged s /\ gbStopScheduler s' = gbStopScheduler s.

Lemma same_master_refl s : same_master s s.
Proof. done. Qed.

Lemma same_master_trans s1 s2 s3 :
  same_master s1 s2 -> same_master s2 s3 -> same_master s1 s3.
Proof. intros (?&?&?&?) (?&?&?&?). repeat split; congruence. Qed.

Section Build.
Context `{Allocator}.

(** [s'] is [s] with the calls [ts] appended to the execution list, those whose
    node could be allocated. *)
Record grown (bks : list bucket) (ts : list execTask) s es s' es' : Prop := {
  gr_full : sched_full s' bks es';
  gr_master : same_master s s';
  gr_new : exists new, es' = es ++ new /\ new.*2 `sublist_of` ts /\
             (malloc_total -> new.*2 = ts)
}.

Lemma grown_nil s bks es : sched_full s bks es -> grown bks [] s es s es.
Proof.
  intros Hs. split; [done..|]. exists []. rewrite app_nil_r. split_and!; [done|constructor|done].
Qed.

Lemma grown_app bks ts1 ts2 s es s1 es1 s2 es2 :
  grown bks ts1 s es s1 es1 -> grown bks ts2 s1 es1 s2 es2 ->
  grown bks (ts1 ++ ts2) s es s2 es2.
Proof.
  intros [? Hm1 (n1 & -> & Hs1 & Ht1)] [? Hm2 (n2 & -> & Hs2 & Ht2)]. split; [done| |].
  - by eapply same_master_trans.
  - exists (n1 ++ n2). rewrite app_assoc, fmap_app. split_and!; [done|by apply sublist_app|].
    intros Ht. by rewrite Ht1, Ht2.
Qed.

Lemma AddToExecutionList_grown t iv s bks es :
  sched_full s bks es ->
  exists r s' es', AddToExecutionList t iv s = Ret (r, s') /\
    grown bks [MkExec (fp t) (vpArg t) iv] s es s' es'.
Proof.
  intros [[Hm Hlen (Hl & Hnd & Hdom & Hsz) Hdisj] Hslot]. unfold AddToExecutionList.
  set (n := malloc (st_live s)). destruct (Z.eqb_spec n NULL) as [Hn|Hn].
  - exists NASC_FAILURE, s, es. split; [done|]. split; [done..|]. exists [].
    rewrite app_nil_r. split_and!; [done|apply sublist_nil_l|].
    intros Ht. by destruct (Ht (st_live s)).
  - destruct (malloc_spec (st_live s)) as [|Hfresh]; [done|]. fold n in Hfresh.
    unfold st_live in Hfresh.
    destruct (append_node_spec _ _ _ n (MkExec (fp t) (vpArg t) iv) Hslot Hnd Hn)
      as (h' & sl' & -> & Hslot' & Hdom' & _); [set_solver|].
    rewrite !outcome_bind_ret. exists NASC_SUCCESS. eexists _, (es ++ [(n, _)]).
    split; [reflexivity|]. split; [split; [|done]|done|by exists [(n, MkExec (fp t) (vpArg t) iv)]].
    split; simpl; [done|done| |rewrite Hdom'; set_solver].
    destruct Hslot' as (? & ? & ?). split_and!; [done| | |done].
    + rewrite fmap_app. csimpl. apply NoDup_app. split_and!; [done| |apply NoDup_singleton].
      intros x Hx ->%list_elem_of_singleton. set_solver.
    + rewrite Hdom', Hdom, fmap_app. csimpl. set_solver.
Qed.

Lemma add_execs_grown n c t iv s bks es :
  sched_full s bks es ->
  exists s' es', add_execs n c t iv s = Ret s' /\
    grown bks ((fun k => MkExec (fp t) (vpArg t) (UI32 (iv * UI32 (k + 1)))) <$>
                 seqZ c (Z.of_nat n)) s es s' es'.
Proof.
  revert c s es. induction n as [|n IH]; intros c s es Hs.
  { exists s, es. split; [done|]. by apply grown_nil. }
  rewrite seqZ_cons, fmap_cons by lia.
  replace (Z.pred (Z.of_nat (S n))) with (Z.of_nat n) by lia. cbn [add_execs].
  destruct (AddToExecutionList_grown t (UI32 (iv * UI32 (c + 1))) s bks es Hs)
    as (r & s1 & es1 & -> & Hg1). rewrite outcome_bind_ret.
  destruct (IH (c + 1) s1 es1 (gr_full _ _ _ _ _ _ Hg1)) as (s2 & es2 & -> & Hg2).
  exists s2, es2. split; [done|]. exact (grown_app _ [_] _ _ _ _ _ _ _ Hg1 Hg2).
Qed.

Lemma calls_grown t iv n s bks es :
  0 <= n -> sched_full s bks es ->
  exists s' es', add_execs (Z.to_nat n) 0 t iv s = Ret s' /\
    grown bks (calls t iv n) s es s' es'.
Proof.
  intros Hn Hs. pose proof (add_execs_grown (Z.to_nat n) 0 t iv s bks es Hs) as Hg.
  by rewrite Z2Nat.id in Hg.
Qed.

Lemma exec_count_nonneg now t n iv n1 :
  exec_count now t n = Some (iv, n1) -> 0 <= n -> 0 <= n1.
Proof.
  unfold exec_count. repeat case_match; intros; simplify_eq; try lia.
  boolify. apply Z.div_pos; unfold NO_SECS_IN_HOUR; lia.
Qed.

Lemma build_interval_grown fuel now n cur s bks es b :
  sched_full s bks es -> lseg (st_mheap s) cur b NULL -> (length b < fuel)%nat -> 0 <= n ->
  exists s' es',
    build_interval fuel now n cur s = Ret ((plan_interval now n b).2, s') /\
    grown bks (plan_interval now n b).1 s es s' es'.
Proof.
  revert n cur s es b. induction fuel as [|fuel IH]; intros n cur s es b Hs Hl Hf Hn; [lia|].
  cbn [build_interval]. destruct (Z.eqb_spec cur NULL) as [->|Hc].
  { rewrite (lseg_null_nil _ _ Hl). exists s, es. split; [done|]. by apply grown_nil. }
  destruct (lseg_cons_inv _ _ _ _ Hc Hl) as (t & b' & nx & -> & _ & Hnx & Hl').
  rewrite (load_Some _ _ _ Hc Hnx), outcome_bind_ret. cbn [val next plan_interval].
  destruct (exec_count now t n) as [[iv n1]|] eqn:He.
  2:{ exists s, es. split; [done|]. by apply grown_nil. }
  pose proof (exec_count_nonneg _ _ _ _ _ He Hn) as Hn1.
  destruct (calls_grown t iv n1 s bks es Hn1 Hs) as (s1 & es1 & -> & Hg1).
  rewrite outcome_bind_ret.
  destruct (IH n1 nx s1 es1 b' (gr_full _ _ _ _ _ _ Hg1)) as (s2 & es2 & -> & Hg2);
    [|simpl in Hf; lia|done|].
  { by rewrite (proj1 (gr_master _ _ _ _ _ _ Hg1)). }
  exists s2, es2. destruct (plan_interval now n1 b') as [l go]. split; [done|].
  by eapply grown_app.
Qed.

Lemma add_if_grown (b : bool) t s bks es :
  sched_full s bks es ->
  exists s' es', add_if b t s = Ret s' /\
    grown bks (if b then [MkExec (fp t) (vpArg t) (UI32 (start_offset t))] else []) s es s' es'.
Proof.
  intros Hs. destruct b; simpl.
  - destruct (AddToExecutionList_grown t (UI32 (start_offset t)) s bks es Hs)
      as (r & s1 & es1 & -> & Hg1). by exists s1, es1.
  - exists s, es. split; [done|]. by apply grown_nil.
Qed.

Lemma build_hour_grown fuel now cur s bks es b :
  sched_full s bks es -> lseg (st_mheap s) cur b NULL -> (length b < fuel)%nat ->
  exists s' es', build_hour fuel now cur s = Ret s' /\ grown bks (plan_hour now b) s es s' es'.
Proof.
  revert cur s es b. induction fuel as [|fuel IH]; intros cur s es b Hs Hl Hf; [lia|].
  cbn [build_hour]. destruct (Z.eqb_spec cur NULL) as [->|Hc].
  { rewrite (lseg_null_nil _ _ Hl). exists s, es. split; [done|]. by apply grown_nil. }
  destruct (lseg_cons_inv _ _ _ _ Hc Hl) as (t & b' & nx & -> & _ & Hnx & Hl').
  rewrite (load_Some _ _ _ Hc Hnx), outcome_bind_ret. cbn [val next].
  destruct (add_if_grown ((ePCity t =? SCH_DAY) && day_matches now t) t s bks es Hs)
    as (s1 & es1 & -> & Hg1). rewrite outcome_bind_ret.
  destruct (add_if_grown ((ePCity t =? SCH_WEEK) && (eWeekDay t =? tm_wday now)) t s1 bks es1
    (gr_full _ _ _ _ _ _ Hg1)) as (s2 & es2 & -> & Hg2). rewrite outcome_bind_ret.
  destruct (add_if_grown ((ePCity t =? SCH_MONTH) && (ui16Day (StartDate t) =? tm_mday now))
    t s2 bks es2 (gr_full _ _ _ _ _ _ Hg2)) as (s3 & es3 & -> & Hg3). rewrite outcome_bind_ret.
  pose proof (grown_app _ _ _ _ _ _ _ _ _ Hg1 (grown_app _ _ _ _ _ _ _ _ _ Hg2 Hg3)) as Hg.
  destruct (IH nx s3 es3 b' (gr_full _ _ _ _ _ _ Hg3)) as (s4 & es4 & -> & Hg4);
    [|simpl in Hf; lia|].
  { by rewrite (proj1 (gr_master _ _ _ _ _ _ Hg)). }
  exists s4, es4. split; [done|]. unfold plan_hour. rewrite fmap_cons. cbn [snd].
  apply (grown_app bks (hour_call now t) _ s es s3 es3); [|done].
  replace (hour_call now t) with
    ((if (ePCity t =? SCH_DAY) && day_matches now t
      then [MkExec (fp t) (vpArg t) (UI32 (start_offset t))] else []) ++
     (if (ePCity t =? SCH_WEEK) && (eWeekDay t =? tm_wday now)
      then [MkExec (fp t) (vpArg t) (UI32 (start_offset t))] else []) ++
     (if (ePCity t =? SCH_MONTH) && (ui16Day (StartDate t) =? tm_mday now)
      then [MkExec (fp t) (vpArg t) (UI32 (start_offset t))] else [])); [done|].
  unfold hour_call, due_this_hour, SCH_DAY, SCH_WEEK, SCH_MONTH.
  destruct (Z.eqb_spec (ePCity t) 1), (Z.eqb_spec (ePCity t) 2),
    (Z.eqb_spec (ePCity t) 3); try lia;
    destruct (day_matches now t), (eWeekDay t =? tm_wday now), (_ =? tm_mday now); done.
Qed.

Lemma slot_at s bks es i b :
  sched_rep s bks es -> bks !! Z.to_nat i = Some b -> 0 <= i ->
  exists sl, table_get (gSchMasterTable s) i = Ret sl /\ slot_rep (st_mheap s) sl b /\
    (length b < S (size (st_mheap s)))%nat.
Proof.
  intros [[Hs Hnd _] _ _ _] Hb Hi.
  destruct (Forall2_lookup_r _ _ _ _ _ Hs Hb) as (sl & Hsl & Hr).
  exists sl. split_and!; [by apply table_get_Some|done|].
  eapply slot_rep_size; [done|].
  apply list_elem_of_split_length in Hb as (b1 & b2 & -> & _).
  rewrite addrs_app, addrs_cons in Hnd. by apply NoDup_app in Hnd as (_ & _ & (? & _ & _)%NoDup_app).
Qed.

Lemma BuildExecutionList_grown now s bks es every hour :
  sched_full s bks es -> tm_ok now ->
  bks !! Z.to_nat EVERY_HOUR_TASK = Some every ->
  bks !! Z.to_nat (tm_hour now) = Some hour ->
  exists s' es', BuildExecutionList now s = Ret s' /\
    grown bks (plan now every hour) s es s' es'.
Proof.
  intros Hs Hok He Hh. unfold BuildExecutionList, plan.
  destruct (slot_at _ _ _ _ _ (proj1 Hs) He) as (sle & -> & Hre & Hse); [done|].
  rewrite outcome_bind_ret.
  destruct (build_interval_grown _ now 0 _ s bks es every Hs (proj1 Hre) Hse)
    as (s1 & es1 & -> & Hg1); [lia|]. rewrite outcome_bind_ret.
  destruct (plan_interval now 0 every) as [l [|]]; simpl in Hg1; cbn [snd negb].
  2:{ by exists s1, es1. }
  destruct Hok as (_ & _ & Hhr & _). rewrite UI16_id by lia.
  destruct (slot_at _ _ _ _ _ (proj1 Hs) Hh) as (slh & -> & Hrh & Hsh); [lia|].
  rewrite outcome_bind_ret.
  destruct (build_hour_grown (S (size (st_mheap s))) now (pHead slh) s1 bks es1 hour
    (gr_full _ _ _ _ _ _ Hg1)) as (s2 & es2 & -> & Hg2); [|done|].
  { rewrite (proj1 (gr_master _ _ _ _ _ _ Hg1)). apply Hrh. }
  exists s2, es2. split; [done|]. by eapply grown_app.
Qed.
End Build.

(** * SortExecutionList is a stable sort

    The execution list is sorted by the loops of ListSort behind a temporary
    node, which is freed again. *)

Abbreviation exec := (Z * execTask)%type.
Abbreviation key := (ListSort.key ex_interval).
Abbreviation key_le := (ListSort.key_le ex_interval).
Abbreviation isort := (ListSort.isort ex_interval).
Abbreviation isort_Permutation := (ListSort.isort_Permutation ex_interval).
Abbreviation isort_sorted := (ListSort.isort_sorted ex_interval).
Abbreviation class_isort := (ListSort.class_isort ex_interval).
Abbreviation class := (ListSort.class ex_interval).

Section Sort.
Context `{Allocator}.

Lemma SortExecutionList_spec s bks es :
  sched_rep s bks es -> Forall (fun x => 0 <= key x) es ->
  es = [] \/ malloc (st_live s) <> NULL ->
  exists s', SortExecutionList s = Ret s' /\ sched_rep s' bks (isort es) /\ same_master s s'.
Proof.
  intros Hrep Hpos Hm. pose proof Hrep as [Hmr Hlen (Hl & Hnd & Hdom & Hsz) Hdisj].
  unfold SortExecutionList. destruct (Z.eqb_spec (pHead (gExecList s)) NULL) as [He|He].
  { rewrite He in Hl. apply lseg_null_nil in Hl as ->. by exists s. }
  destruct Hm as [->|Hm]; [done|]. set (n := malloc (st_live s)) in *.
  destruct (malloc_spec (st_live s)) as [|Hfresh]; [done|]. fold n in Hfresh.
  unfold st_live in Hfresh. rewrite (proj2 (Z.eqb_neq _ _) Hm).
  set (h := <[n := Node (MkExec 0 0 0) (pHead (gExecList s))]> (st_eheap s)).
  assert (Hn : n ∉ es.*1) by (rewrite Hdom in Hfresh; set_solver).
  assert (Hl0 : lseg h n ((n, MkExec 0 0 0) :: es) NULL).
  { simpl. split_and!; [done..|]. eexists. unfold h. rewrite lookup_insert_eq. split; [done|].
    by apply lseg_insert. }
  assert (Hnd0 : NoDup ((n, MkExec 0 0 0) :: es).*1) by (csimpl; by apply NoDup_cons).
  destruct (sort_outer_spec ex_interval (S (size h)) h n (MkExec 0 0 0) es [])
    as (h1 & L & Heq & Hl1 & Hd1 & HpL & HsL & HcL); rewrite ?app_nil_r; try done.
  - constructor.
  - by apply Forall_true.
  - pose proof (lseg_size _ _ _ _ Hl0 Hnd0) as Hs0. csimpl in Hs0. lia.
  - rewrite app_nil_r in HpL. cbn [hd_addr] in Heq. rewrite Heq, outcome_bind_ret.
    assert (L = isort es) as ->.
    { apply (sorted_unique ex_interval); [done|apply isort_sorted|].
      intros k. by rewrite HcL, app_nil_r, class_isort. }
    assert (Hnd1 : NoDup ((n, MkExec 0 0 0) :: isort es).*1).
    { eapply NoDup_Permutation_proper; [|exact Hnd0]. apply fmap_Permutation. by constructor. }
    destruct (lseg_at h1 n [] n _ _ Hl1) as [_ Hn1].
    rewrite (load_Some _ _ _ Hm Hn1), outcome_bind_ret. unfold dispose.
    rewrite (load_Some _ _ _ Hm Hn1), outcome_bind_ret. cbn [next].
    eexists. split; [reflexivity|]. split; [|done].
    pose proof (lseg_unlink_head _ _ _ _ _ _ Hl1 Hnd1 Hn1) as Hl2.
    assert (Hd2 : dom (delete n h1) = dom (st_eheap s)).
    { rewrite dom_delete_L, Hd1. unfold h. rewrite dom_insert_L. set_solver. }
    split; simpl; [done|done| |by rewrite Hd2]. split_and!; [done| | |].
    + by apply NoDup_cons in Hnd1 as [_ ?].
    + rewrite Hd2, Hdom. apply set_eq. intros x. rewrite !elem_of_list_to_set.
      by rewrite HpL.
    + simpl. rewrite Hsz. by rewrite HpL.
Qed.
End Sort.
