(* ===== verification/SchedLoop.v ===== *)
(** * The scheduler thread (Scheduler, SCH_StopScheduler)

    The thread is a machine whose steps run from one blocking point of
    [Scheduler] to the next: the head of the outer loop, the end of the sleep
    before an hourly rebuild, the head of the execution loop, and the wake-up
    after its sleep.  The rebuild of the execution list is refined further, to one
    step for each access to the master table.  Clients of the scheduler act between
    two steps.  A step reports what the outside sees of it: calls, sleeps, and the operations on
    the execution list's mutex in the execution loop. *)

From S2P Require Import Prelude Heap CTypes SchedTypes SchedMaster.

Inductive event :=
| EvExec (f a : Z)
| EvSleep (n : Z)
| EvLock
| EvUnlock.

#[export] Instance event_eq_dec : EqDecision event.
Proof. solve_decision. Defined.

(** Where the thread is; the boolean is [bHourlySchedule], the time the one
    [pCurrTime] points to. *)
Inductive point :=
| PTop (bHourly : bool)
| PRebuild (pCurrTime : tm)
| PInner (bHourly : bool)
| PWoken (bHourly : bool)
| PStopped.

#[export] Instance tm_eq_dec : EqDecision tm.
Proof. solve_decision. Defined.
#[export] Instance point_eq_dec : EqDecision point.
Proof. solve_decision. Defined.

(** The readings of the clock a step may make: [rd1] and [rd2] in the order
    the code makes them, [rd_clean] those of [SCH_AutoCleanTask], whose loop
    runs for [rd_fuel] iterations at most. *)
Record readings := Readings {
  rd1 : tm; rd2 : tm; rd_clean : nat -> tm; rd_fuel : nat
}.

(** [ui32Seconds] *)
Definition seconds_in_hour (t : tm) : Z := UI32 (tm_min t * NO_SECS_IN_MIN + tm_sec t).

Definition SCH_StopScheduler (s : sched) : sched := set_stop s true.

Section Thread.
Context `{Allocator}.

(** Drop the first entry of the execution list. *)
Definition pop_exec (s : sched) : outcome sched :=
  nd ← load (st_eheap s) (pHead (gExecList s));
  h ← dispose (st_eheap s) (pHead (gExecList s));
  mret (set_exec s h (Slot (next nd) (pTail (gExecList s)) (nSize (gExecList s) - 1))).

(** The head of the outer loop, up to the rebuild. *)
Definition top_step (r : readings) (bHourly : bool) (s : sched)
    : outcome (point * sched * list event) :=
  if gbStopScheduler s then
    s1 ← ClearExecutionList (set_stop s false);
    s2 ← ClearMasterTable s1;
    mret (PStopped, s2, [])
  else
    let ui32Seconds := seconds_in_hour (rd1 r) in
    if negb bHourly && negb (gbTaskChanged s) then
      if UI32 (NO_SECS_IN_HOUR - ui32Seconds) <=? CHECK_STATUS_TIME
      then mret (PRebuild (rd1 r), s, [EvSleep (UI32 (NO_SECS_IN_HOUR - ui32Seconds))])
      else mret (PTop false, s, [EvSleep CHECK_STATUS_TIME])
    else mret (PRebuild (rd1 r), s, []).

(** The test that precedes [SCH_AutoCleanTask]. *)
Definition midnight (t : tm) : bool :=
  (tm_hour t =? 0) && (seconds_in_hour t <=? CHECK_STATUS_TIME).

Definition rebuild_step (r : readings) (pCurrTime : tm) (s : sched)
    : outcome (point * sched * list event) :=
  s1 ← (if midnight pCurrTime then SCH_AutoCleanTask (rd_fuel r) (rd_clean r) s
        else mret s);
  s2 ← ClearExecutionList s1;
  s3 ← BuildExecutionList (rd1 r) (InitExecutionList s2);
  s4 ← SortExecutionList (set_changed s3 false);
  if pHead (gExecList s4) =? NULL
  then mret (PTop false, s4, [EvLock; EvUnlock; EvSleep CHECK_STATUS_TIME])
  else mret (PInner false, s4, [EvLock]).

(** The sleep before the next call; [exec_now] is the branch that calls it
    instead. *)
Inductive wait := WSleep (n : Z) | WExec.

Definition choose_wait (ui32SleepTime ui32Seconds : Z) : wait :=
  if (ui32SleepTime =? CHECK_STATUS_TIME) &&
     (ui32Seconds =? NO_SECS_IN_HOUR - CHECK_STATUS_TIME)
  then WSleep (UI32 (ui32SleepTime - 1))
  else if (ui32SleepTime <? CHECK_STATUS_TIME) &&
          (NO_SECS_IN_HOUR - CHECK_STATUS_TIME <? ui32Seconds)
  then WSleep (UI32 (ui32SleepTime - 1))
  else if (ui32SleepTime =? 1) &&
          (NO_SECS_IN_HOUR - CHECK_STATUS_TIME <? ui32Seconds)
  then WExec
  else WSleep (if ui32SleepTime <? CHECK_STATUS_TIME then ui32SleepTime
               else CHECK_STATUS_TIME).

Definition inner_step (r : readings) (bHourly : bool) (s : sched)
    : outcome (point * sched * list event) :=
  if pHead (gExecList s) =? NULL then mret (PTop bHourly, s, [EvUnlock]) else
  let ui32Seconds := seconds_in_hour (rd1 r) in
  if gbStopScheduler s then mret (PTop bHourly, s, [EvUnlock; EvUnlock]) else
  nd ← load (st_eheap s) (pHead (gExecList s));
  let e := val nd in
  if ex_interval e <? ui32Seconds then
    s1 ← pop_exec s; mret (PInner bHourly, s1, [])
  else if ui32Seconds =? ex_interval e then
    s1 ← pop_exec s; mret (PInner bHourly, s1, [EvExec (ex_fp e) (ex_arg e)])
  else if (ui32Seconds =? NO_SECS_IN_HOUR - 1) && (ex_interval e =? NO_SECS_IN_HOUR) then
    s1 ← pop_exec s;
    if nSize (gExecList s1) =? 0
    then mret (PTop true, s1, [EvExec (ex_fp e) (ex_arg e); EvSleep 1; EvUnlock])
    else mret (PInner true, s1, [EvExec (ex_fp e) (ex_arg e)])
  else
    let ui32Seconds2 := seconds_in_hour (rd2 r) in
    let ui32SleepTime := UI32 (ex_interval e - ui32Seconds2) in
    match choose_wait ui32SleepTime ui32Seconds2 with
    | WSleep n => mret (PWoken bHourly, s, [EvUnlock; EvSleep n])
    | WExec =>
        s1 ← pop_exec s;
        if nSize (gExecList s1) =? 0
        then mret (PTop true, s1,
                   [EvUnlock; EvExec (ex_fp e) (ex_arg e); EvSleep 1; EvUnlock])
        else mret (PWoken true, s1, [EvUnlock; EvExec (ex_fp e) (ex_arg e)])
    end.

Definition thread_step (r : readings) (p : point) (s : sched)
    : outcome (point * sched * list event) :=
  match p with
  | PTop bHourly => top_step r bHourly s
  | PRebuild t => rebuild_step r t s
  | PInner bHourly => inner_step r bHourly s
  | PWoken bHourly =>
      if gbTaskChanged s then mret (PTop bHourly, s, [EvUnlock])
      else mret (PInner bHourly, s, [EvLock])
  | PStopped => mret (PStopped, s, [])
  end.

(** ** The rebuild at the grain of the table's nodes

    [BuildExecutionList] takes the execution list's mutex but not the master
    table's, so that clients may call between any two of its reads of the table.
    [place] refines [point]: [At p] is a blocking point; the others are between
    two accesses of the rebuild to the table.  [SCH_AutoCleanTask] holds the
    table's mutex, and no client touches the execution list. *)
Inductive place :=
| At (p : point)
| Cleared                                  (* before BuildExecutionList *)
| EveryNode (now : tm) (n pTemp : Z)       (* head of the first while loop *)
| EveryCall (now : tm) (n pTemp ui32Interval ui32Count : Z)  (* its for loop *)
| HourNode (now : tm) (pTemp : Z)          (* head of the second while loop *)
| HourNext (now : tm) (pTemp : Z)          (* at its end *)
| Built.                                   (* after BuildExecutionList *)

(** The node of the master table the thread points to. *)
Definition stands_at (pl : place) : Z :=
  match pl with
  | EveryNode _ _ a | EveryCall _ _ a _ _ | HourNode _ a | HourNext _ a => a
  | _ => NULL
  end.

Definition place_step (r : readings) (pl : place) (s : sched)
    : outcome (place * sched * list event) :=
  match pl with
  | At (PRebuild pCurrTime) =>
      s1 ← (if midnight pCurrTime then SCH_AutoCleanTask (rd_fuel r) (rd_clean r) s
            else mret s);
      s2 ← ClearExecutionList s1;
      mret (Cleared, InitExecutionList s2, [])
  | At p => '(p', s', evs) ← thread_step r p s; mret (At p', s', evs)
  | Cleared =>
      every ← table_get (gSchMasterTable s) EVERY_HOUR_TASK;
      mret (EveryNode (rd1 r) 0 (pHead every), s, [])
  | EveryNode now n pTemp =>
      if pTemp =? NULL then
        hour ← table_get (gSchMasterTable s) (UI16 (tm_hour now));
        mret (HourNode now (pHead hour), s, [])
      else
        nd ← load (st_mheap s) pTemp;
        match exec_count now (val nd) n with
        | None => mret (Built, s, [])
        | Some (iv, n1) => mret (EveryCall now n1 pTemp iv 0, s, [])
        end
  | EveryCall now n pTemp iv count =>
      nd ← load (st_mheap s) pTemp;
      if count <? n then
        '(_, s1) ← AddToExecutionList (val nd) (UI32 (iv * UI32 (count + 1))) s;
        mret (EveryCall now n pTemp iv (count + 1), s1, [])
      else mret (EveryNode now n (next nd), s, [])
  | HourNode now pTemp =>
      if pTemp =? NULL then mret (Built, s, []) else
      nd ← load (st_mheap s) pTemp;
      let t := val nd in
      s1 ← add_if ((ePCity t =? SCH_DAY) && day_matches now t) t s;
      s2 ← add_if ((ePCity t =? SCH_WEEK) && (eWeekDay t =? tm_wday now)) t s1;
      s3 ← add_if ((ePCity t =? SCH_MONTH) && (ui16Day (StartDate t) =? tm_mday now)) t s2;
      mret (HourNext now pTemp, s3, [])
  | HourNext now pTemp =>
      nd ← load (st_mheap s) pTemp; mret (HourNode now (next nd), s, [])
  | Built =>
      s4 ← SortExecutionList (set_changed s false);
      if pHead (gExecList s4) =? NULL
      then mret (At (PTop false), s4, [EvLock; EvUnlock; EvSleep CHECK_STATUS_TIME])
      else mret (At (PInner false), s4, [EvLock])
  end.

(** ** The thread among its clients

    The calls that return; [spares pl id]: the task the walk stands at is not the
    one that is deleted or replaced. *)
Definition spares (pl : place) (id : Z) : Prop := stands_at pl = NULL \/ id <> stands_at pl.

Inductive client_step (pl : place) (s : sched) : sched -> Prop :=
| client_add now t id s' : SCH_AddTask now t s = Ret (id, s') -> client_step pl s s'
| client_delete id r s' :
    spares pl id -> SCH_DeleteTask id s = Ret (r, s') -> client_step pl s s'
| client_modify now id t r s' :
    spares pl id -> SCH_ModifyTask now id t s = Ret (r, s') -> client_step pl s s'
| client_stop : client_step pl s (SCH_StopScheduler s).

Inductive system_step : place * sched -> place * sched -> Prop :=
| system_thread r pl s pl' s' evs :
    tm_ok (rd1 r) -> place_step r pl s = Ret (pl', s', evs) ->
    system_step (pl, s) (pl', s')
| system_client pl s s' : client_step pl s s' -> system_step (pl, s) (pl, s').

(** Every state of a process that has just called [SCH_StartScheduler]. *)
Definition start_state (c : place * sched) : Prop :=
  exists s, st_mheap s = ∅ /\ st_eheap s = ∅ /\ c = (At (PTop false), SCH_StartScheduler s).

Definition reachable (c : place * sched) : Prop :=
  exists c0, start_state c0 /\ rtc system_step c0 c.

(** The steps of one rebuild when no client calls during it: the configurations
    and the events. *)
Inductive rebuild_run (r : readings) : place * sched -> list event -> place * sched -> Prop :=
| rebuild_done c : rebuild_run r c [] c
| rebuild_more pl s pl' s' evs evs' c :
    place_step r pl s = Ret (pl', s', evs) -> rebuild_run r (pl', s') evs' c ->
    rebuild_run r (pl, s) (evs ++ evs') c.

End Thread.
