(* ===== verification/SchedSafe.v ===== *)
(** * The scheduler thread is safe among its clients

    [thread_inv]: the globals represent some buckets and some execution list
    with non-negative offsets.  Every client call and every step of the thread
    keeps it, and no step of the thread touches a bad pointer. *)

From S2P Require Import Prelude Heap ListSort CTypes SchedTypes SchedMaster SchedTable.
From S2P Require Import SchedApi SchedBuild SchedLoop.
From stdpp Require Import relations.
#[local] Open Scope Z_scope.

Definition offsets_ok (es : list (Z * execTask)) : Prop := Forall (fun x => 0 <= key x) es.

Definition thread_inv (s : sched) : Prop :=
  exists bks es, sched_rep s bks es /\ offsets_ok es.

Lemma UI32_nonneg x : 0 <= UI32 x.
Proof. apply UI32_range. Qed.

Lemma calls_nonneg t iv n : Forall (fun e => 0 <= ex_interval e) (calls t iv n).
Proof.
  unfold calls. apply Forall_fmap, Forall_true. intros k. apply UI32_nonneg.
Qed.

Lemma plan_interval_nonneg now n b :
  Forall (fun e => 0 <= ex_interval e) (plan_interval now n b).1.
Proof.
  revert n. induction b as [|[a t] b IH]; intros n; simpl; [constructor|].
  destruct (exec_count now t n) as [[iv n1]|]; [|constructor].
  specialize (IH n1). destruct (plan_interval now n1 b) as [l go].
  apply Forall_app. split; [apply calls_nonneg|done].
Qed.

Lemma plan_hour_nonneg now b : Forall (fun e => 0 <= ex_interval e) (plan_hour now b).
Proof.
  unfold plan_hour. apply Forall_join, Forall_fmap, Forall_true. intros [a t]. simpl.
  unfold hour_call. case_match; repeat constructor. apply UI32_nonneg.
Qed.

Lemma plan_nonneg now every hour : Forall (fun e => 0 <= ex_interval e) (plan now every hour).
Proof.
  unfold plan. pose proof (plan_interval_nonneg now 0 every).
  destruct (plan_interval now 0 every) as [l [|]]; simpl in *; [|done].
  apply Forall_app. split; [done|apply plan_hour_nonneg].
Qed.

Lemma offsets_sublist (new : list (Z * execTask)) ts :
  new.*2 `sublist_of` ts -> Forall (fun e => 0 <= ex_interval e) ts -> offsets_ok new.
Proof.
  intros Hs Hts. apply Forall_forall. intros x Hx.
  apply (proj1 (Forall_forall _ _) Hts x.2). eapply elem_of_sublist; [|exact Hs].
  apply list_elem_of_fmap. eauto.
Qed.

Section Safety.
Context `{Allocator}.

(** ** The heap operations of the thread *)
Lemma ClearExecutionList_spec s bks es :
  sched_rep s bks es ->
  exists s', ClearExecutionList s = Ret s' /\ sched_full s' bks [] /\
    st_eheap s' = ∅ /\ same_master s s'.
Proof.
  intros [Hm Hlen (Hl & Hnd & Hdom & Hsz) Hdisj]. unfold ClearExecutionList.
  destruct (clear_loop_spec (S (size (st_eheap s))) (st_eheap s) (gExecList s) es Hl Hnd)
    as (h' & -> & Hd & _). { pose proof (lseg_size _ _ _ _ Hl Hnd). lia. }
  rewrite outcome_bind_ret. rewrite Hsz, Z.sub_diag.
  assert (h' = ∅) as ->. { apply dom_empty_inv_L. rewrite Hd, Hdom. set_solver. }
  eexists. split; [reflexivity|]. split_and!; [|done|done].
  split; [|apply slot_rep_empty].
  split; simpl; [done|done| |rewrite dom_empty_L; set_solver].
  split_and!; [done|constructor|by rewrite dom_empty_L|done].
Qed.

Lemma InitExecutionList_full s bks :
  sched_full s bks [] -> st_eheap s = ∅ -> sched_full (InitExecutionList s) bks [].
Proof.
  intros [[Hm Hlen He Hd] _] Hemp. split; [|apply slot_rep_empty]. split; try done.
  split_and!; [done|constructor| |done]. simpl. by rewrite Hemp, dom_empty_L.
Qed.

Lemma pop_exec_spec s bks a e es :
  sched_rep s bks ((a, e) :: es) ->
  exists s', pop_exec s = Ret s' /\ sched_rep s' bks es /\ same_master s s' /\
    pHead (gExecList s) = a /\ load (st_eheap s) a = Ret (Node e (hd_addr es)).
Proof.
  intros [Hm Hlen (Hl & Hnd & Hdom & Hsz) Hdisj]. unfold pop_exec.
  pose proof (lseg_hd _ _ _ Hl) as Hhd. cbn [hd_addr] in Hhd. rewrite Hhd in *.
  destruct (lseg_at _ a [] a e es Hl) as [Ha Hla].
  pose proof (lseg_unlink_head _ _ _ _ _ _ Hl Hnd Hla) as Hl'.
  unfold dispose. rewrite (load_Some _ _ _ Ha Hla), outcome_bind_ret, outcome_bind_ret.
  eexists. split; [reflexivity|]. split_and!; [|done..]. csimpl in *.
  apply NoDup_cons in Hnd as [Hna Hnd].
  split; simpl; [done|done| |rewrite dom_delete_L; set_solver].
  split_and!; [done|done| |simpl; lia].
  rewrite dom_delete_L, Hdom. set_solver.
Qed.

(** ** Client calls *)
Lemma addrs_in a bks :
  a ∈ addrs bks <-> exists (i : nat) (b : bucket) t, bks !! i = Some b /\ (a, t) ∈ b.
Proof.
  unfold addrs. rewrite list_elem_of_fmap. split.
  - intros ([x t] & -> & Hin%list_elem_of_In%in_concat). destruct Hin as (b & Hb & Hin).
    apply list_elem_of_In, list_elem_of_lookup in Hb as [i Hi].
    exists i, b, t. by rewrite list_elem_of_In.
  - intros (i & b & t & Hi & Hin). exists (a, t). split; [done|].
    apply list_elem_of_In, in_concat. exists b. rewrite <- !list_elem_of_In.
    split; [by eapply list_elem_of_lookup_2|done].
Qed.

(** The chain a task's node is in. *)
Lemma addrs_chain s bks es a :
  sched_rep s bks es -> a ∈ addrs bks ->
  exists (i : nat) (sl : slot) (l1 l2 : bucket) t, bks !! i = Some (l1 ++ (a, t) :: l2) /\
    lseg (st_mheap s) (pHead sl) (l1 ++ (a, t) :: l2) NULL.
Proof.
  intros Hr (i & b & t & Hi & Hin)%addrs_in.
  destruct (Forall2_lookup_r _ _ _ _ _ (mr_slots _ _ _ (sr_master _ _ _ Hr)) Hi) as (sl & _ & Hl & _).
  apply list_elem_of_split in Hin as (l1 & l2 & ->). by exists i, sl, l1, l2, t.
Qed.

Lemma addrs_nonnull s bks es : sched_rep s bks es -> NULL ∉ addrs bks.
Proof.
  intros Hr Hin. destruct (addrs_chain _ _ _ _ Hr Hin) as (i & sl & l1 & l2 & t & _ & Hl).
  by destruct (lseg_at _ _ _ _ _ _ Hl).
Qed.

Lemma table_get_range tbl i sl : table_get tbl i = Ret sl -> 0 <= i < Z.of_nat (length tbl).
Proof.
  unfold table_get. destruct (Z.ltb_spec i 0); [done|].
  destruct (tbl !! Z.to_nat i) eqn:Hl; [|done]. intros _. apply lookup_lt_Some in Hl. lia.
Qed.

(** What a call leaves: the execution list as it was, and the task the walk
    stands at in the table. *)
Definition client_keeps (cur : Z) (s s' : sched) : Prop :=
  forall bks es, sched_rep s bks es ->
  exists bks', sched_rep s' bks' es /\ st_eheap s' = st_eheap s /\ gExecList s' = gExecList s /\
    (cur ∈ addrs bks -> cur ∈ addrs bks').

Lemma addrs_tasks id bks : id ∈ addrs bks <-> tasks bks !! id <> None.
Proof. rewrite tasks_None. destruct (decide (id ∈ addrs bks)); tauto. Qed.

Lemma AddTask_keeps now t s id s' cur :
  SCH_AddTask now t s = Ret (id, s') -> client_keeps cur s s'.
Proof.
  intros Hadd bks es Hr.
  destruct (accepts now t) as [i|] eqn:Hac.
  2:{ rewrite AddTask_refused in Hadd by done. simplify_eq. by exists bks. }
  destruct (decide (malloc (st_live s) = NULL)) as [Hn|Hn].
  - unfold accepts, SCH_AddTask in *. case_bool_decide; simplify_eq/=.
    cbv zeta in Hadd. rewrite Hac, Hn, Z.eqb_refl in Hadd. inv Hadd. by exists bks.
  - assert (Hi : 0 <= i < 25).
    { unfold accepts, SCH_AddTask in *. case_bool_decide; simplify_eq/=.
      rewrite Hac, (proj2 (Z.eqb_neq _ _) Hn) in Hadd.
      apply outcome_bind_Ret_inv in Hadd as (sl & Hsl & _). apply table_get_range in Hsl.
      rewrite (Forall2_length _ _ _ (mr_slots _ _ _ (sr_master _ _ _ Hr))),
        (sr_length _ _ _ Hr) in Hsl. unfold MASTER_ARR_SIZE in Hsl. lia. }
    destruct (AddTask_accepted now t s bks es i Hr Hac Hi) as (s1 & Heq & Hok).
    rewrite Heq, (proj2 (Z.eqb_neq _ _) Hn) in Hadd. simplify_eq.
    destruct (Hok Hn) as (Hr' & (He1 & He2 & _) & _ & Hfresh).
    exists (spec_add (Z.to_nat i) (malloc (st_live s)) t bks). split_and!; [done..|].
    rewrite !addrs_tasks, tasks_add; [|rewrite (sr_length _ _ _ Hr); unfold MASTER_ARR_SIZE; lia|done].
    destruct (decide (malloc (st_live s) = cur)) as [->|Hne];
      [by rewrite lookup_insert_eq|by rewrite lookup_insert_ne].
Qed.

Lemma DeleteTask_keeps id s r s' cur :
  SCH_DeleteTask id s = Ret (r, s') -> cur = NULL \/ id <> cur -> client_keeps cur s s'.
Proof.
  intros Hdel Hne bks es Hr.
  destruct (DeleteTask_spec id s bks es Hr) as (s1 & Heq & Hr1 & (He1 & He2 & _) & _).
  rewrite Heq in Hdel. simplify_eq. exists (spec_delete id bks). split_and!; [done..|].
  destruct Hne as [->|Hne].
  - intros Hin. by destruct (addrs_nonnull _ _ _ Hr).
  - rewrite !addrs_tasks, tasks_delete, lookup_delete_ne; done.
Qed.

Lemma client_keeps_trans cur s1 s2 s3 :
  client_keeps cur s1 s2 -> client_keeps cur s2 s3 -> client_keeps cur s1 s3.
Proof.
  intros H12 H23 bks es Hr. destruct (H12 _ _ Hr) as (bks2 & Hr2 & He2 & Hg2 & Hc2).
  destruct (H23 _ _ Hr2) as (bks3 & Hr3 & He3 & Hg3 & Hc3).
  exists bks3. split_and!; [done|congruence|congruence|auto].
Qed.

Lemma client_step_keeps pl s s' : client_step pl s s' -> client_keeps (stands_at pl) s s'.
Proof.
  intros [now t id s1 Hadd|id r s1 Hsp Hdel|now id t r s1 Hsp Hmod|].
  - by eapply AddTask_keeps.
  - by eapply DeleteTask_keeps.
  - unfold SCH_ModifyTask in Hmod.
    apply outcome_bind_Ret_inv in Hmod as ([b s2] & Hdel & Hmod).
    eapply client_keeps_trans; [by eapply DeleteTask_keeps|].
    destruct (error_bool b); [by eapply AddTask_keeps|]. inv Hmod.
    intros bks es Hr. by exists bks.
  - intros bks es []. exists bks. by split.
Qed.

(** ** Steps of the thread *)
Lemma thread_inv_pop s bks a e es :
  sched_rep s bks ((a, e) :: es) -> offsets_ok ((a, e) :: es) ->
  exists s', pop_exec s = Ret s' /\ thread_inv s'.
Proof.
  intros Hr [_ Ho]%Forall_cons. destruct (pop_exec_spec _ _ _ _ _ Hr) as (s' & -> & Hr' & _).
  exists s'. split; [done|]. by exists bks, es.
Qed.

(** A step leaves the invariant in place, unless it does not return because
    of [SCH_AutoCleanTask]. *)
Definition good_step (m : outcome (point * sched * list event)) : Prop :=
  match m with
  | Ret (_, s', _) => thread_inv s'
  | Crash => False
  | OutOfFuel => True
  end.

Lemma top_step_good r b s : thread_inv s -> good_step (top_step r b s).
Proof.
  intros (bks & es & Hr & Hes). unfold top_step.
  destruct (gbStopScheduler s).
  - assert (Hr0 : sched_rep (set_stop s false) bks es) by (by destruct Hr; split).
    destruct (ClearExecutionList_spec _ _ _ Hr0) as (s1 & -> & [Hr1 _] & _).
    rewrite outcome_bind_ret.
    destruct (ClearMasterTable_spec _ _ _ Hr1) as (s2 & -> & _ & Hr2 & _).
    rewrite outcome_bind_ret. simpl. exists (replicate 25 []), []. split; [exact Hr2|constructor].
  - assert (thread_inv s) by (by exists bks, es). by repeat case_match.
Qed.

(** The rebuild up to [BuildExecutionList]. *)
Lemma clear_phase r t s bks es :
  sched_rep s bks es ->
  midnight t = false \/
    SCH_AutoCleanTask (rd_fuel r) (rd_clean r) s <> OutOfFuel ->
  exists s1 s2 s3, (if midnight t then SCH_AutoCleanTask (rd_fuel r) (rd_clean r) s
      else mret s) = Ret s1 /\ ClearExecutionList s1 = Ret s2 /\ s3 = InitExecutionList s2 /\
    sched_full s3 (if midnight t then spec_clean bks else bks) [] /\
    gbStopScheduler s3 = gbStopScheduler s.
Proof.
  intros Hr Hfin.
  assert (exists s1, (if midnight t then SCH_AutoCleanTask (rd_fuel r) (rd_clean r) s
      else mret s) = Ret s1 /\ sched_rep s1 (if midnight t then spec_clean bks else bks) es /\
      gbStopScheduler s1 = gbStopScheduler s) as (s1 & Heq1 & Hr1 & Hst1).
  { destruct (midnight t); [|by exists s].
    pose proof (AutoClean_safe (rd_fuel r) (rd_clean r) s bks es Hr) as Hs.
    destruct Hfin as [|Hfin]; [done|].
    destruct (SCH_AutoCleanTask _ _ s) as [s1| |]; [|done..].
    destruct Hs as (? & (_ & _ & ?) & _). by exists s1. }
  destruct (ClearExecutionList_spec _ _ _ Hr1) as (s2 & Heq2 & Hf2 & Hemp & Hm2).
  exists s1, s2, (InitExecutionList s2). split_and!; [done..|by apply InitExecutionList_full|].
  destruct Hm2 as (_ & _ & _ & E2). simpl. congruence.
Qed.

Lemma rebuild_step_spec r t s bks es :
  sched_rep s bks es -> malloc_total -> tm_ok (rd1 r) ->
  midnight t = false \/
    SCH_AutoCleanTask (rd_fuel r) (rd_clean r) s <> OutOfFuel ->
  exists p s' evs bks' every hour new,
    rebuild_step r t s = Ret (p, s', evs) /\
    bks' = (if midnight t then spec_clean bks else bks) /\
    bks' !! Z.to_nat EVERY_HOUR_TASK = Some every /\
    bks' !! Z.to_nat (tm_hour (rd1 r)) = Some hour /\
    new.*2 = plan (rd1 r) every hour /\ sched_rep s' bks' (isort new) /\
    gbTaskChanged s' = false /\ gbStopScheduler s' = gbStopScheduler s /\
    p = (if bool_decide (new = []) then PTop false else PInner false) /\
    (forall f a, EvExec f a ∉ evs).
Proof.
  intros Hr Ht Hok Hfin. unfold rebuild_step.
  destruct (clear_phase r t s bks es Hr Hfin) as (s1 & s2 & s3 & -> & Hcl & Hs3 & Hf3 & Hst3).
  rewrite outcome_bind_ret, Hcl, outcome_bind_ret, <- Hs3.
  remember (if midnight t then spec_clean bks else bks) as bks1 eqn:Hb1.
  assert (Hlen : length bks1 = 25%nat) by apply Hf3.
  destruct (lookup_lt_is_Some_2 bks1 (Z.to_nat EVERY_HOUR_TASK)) as [every He].
  { rewrite Hlen. unfold EVERY_HOUR_TASK. lia. }
  destruct (lookup_lt_is_Some_2 bks1 (Z.to_nat (tm_hour (rd1 r)))) as [hour Hh].
  { rewrite Hlen. destruct Hok as (_ & _ & ? & _). lia. }
  destruct (BuildExecutionList_grown (rd1 r) _ _ _ _ _ Hf3 Hok He Hh) as (s4 & new & -> & Hg).
  rewrite outcome_bind_ret.
  destruct Hg as [[Hr4 _] Hm4 (new' & Heq & Hsub & Htot)]. cbn [app] in Heq. subst new'.
  specialize (Htot Ht).
  assert (Hr5 : sched_rep (set_changed s4 false) bks1 new) by (by destruct Hr4; split).
  assert (Hpos : offsets_ok new) by (eapply offsets_sublist; [exact Hsub|apply plan_nonneg]).
  destruct (SortExecutionList_spec _ _ _ Hr5 Hpos (or_intror (Ht _))) as (s6 & -> & Hr6 & Hm6).
  rewrite outcome_bind_ret.
  assert (Hhd : pHead (gExecList s6) = NULL <-> new = []).
  { destruct Hr6 as [_ _ (Hl & _) _]. split.
    - intros Hn. rewrite Hn in Hl. apply lseg_null_nil in Hl.
      pose proof (isort_Permutation new) as Hp. rewrite Hl in Hp.
      by apply Permutation_nil_l in Hp.
    - intros ->. exact Hl. }
  assert (Hst : gbStopScheduler s6 = gbStopScheduler s).
  { destruct Hm6 as (_ & _ & _ & E6), Hm4 as (_ & _ & _ & E4).
    simpl in *. congruence. }
  assert (Hch : gbTaskChanged s6 = false) by (destruct Hm6 as (_ & _ & E6 & _); exact E6).
  destruct (Z.eqb_spec (pHead (gExecList s6)) NULL) as [Hn|Hn];
    eexists _, s6, _, bks1, every, hour, new; (split; [reflexivity|]);
    split_and!; try done; [| set_solver | |set_solver].
  - by rewrite bool_decide_eq_true_2 by (by apply Hhd).
  - rewrite bool_decide_eq_false_2; [done|]. intros ?%Hhd. done.
Qed.

Lemma rebuild_step_good r t s :
  thread_inv s -> malloc_total -> tm_ok (rd1 r) -> good_step (rebuild_step r t s).
Proof.
  intros (bks & es & Hr & Hes) Ht Hok.
  assert (midnight t = true /\ SCH_AutoCleanTask (rd_fuel r) (rd_clean r) s = OutOfFuel \/
    (midnight t = false \/ SCH_AutoCleanTask (rd_fuel r) (rd_clean r) s <> OutOfFuel))
    as [[Hm Ho]|Hfin].
  { destruct (midnight t); [|by right; left].
    destruct (SCH_AutoCleanTask (rd_fuel r) (rd_clean r) s); auto. }
  - unfold rebuild_step. by rewrite Hm, Ho.
  - destruct (rebuild_step_spec r t s bks es Hr Ht Hok) as
      (p & s' & evs & bks' & every & hour & new & -> & _ & _ & _ & Hnew & Hr' & _).
    { exact Hfin. }
    exists bks', (isort new). split; [done|]. unfold offsets_ok.
    eapply Forall_perm; [symmetry; apply isort_Permutation|].
    eapply offsets_sublist; [by rewrite Hnew|apply plan_nonneg].
Qed.

Lemma inner_step_good r b s : thread_inv s -> good_step (inner_step r b s).
Proof.
  intros (bks & es & Hr & Hes). assert (Hinv : thread_inv s) by (by exists bks, es).
  unfold inner_step. destruct (Z.eqb_spec (pHead (gExecList s)) NULL) as [Hn|Hn]; [done|].
  destruct (gbStopScheduler s); [done|].
  destruct es as [|[a e] es]; [by destruct Hr as [_ _ (Hl & _) _]|].
  destruct (pop_exec_spec _ _ _ _ _ Hr) as (s1 & Hpop & Hr1 & _ & -> & ->).
  rewrite outcome_bind_ret, Hpop. cbn [val].
  assert (Hinv1 : thread_inv s1).
  { exists bks, es. split; [done|]. by apply Forall_cons in Hes as [_ ?]. }
  repeat (case_match || rewrite outcome_bind_ret); done.
Qed.

Lemma thread_step_good r p s :
  thread_inv s -> malloc_total -> tm_ok (rd1 r) -> good_step (thread_step r p s).
Proof.
  intros Hinv Ht Hok. destruct p as [b|t|b|b|]; simpl.
  - by apply top_step_good.
  - by apply rebuild_step_good.
  - by apply inner_step_good.
  - by case_match.
  - done.
Qed.

(** ** The rebuild among clients

    [place_inv]: in the middle of a rebuild the tail of the execution list is
    right, and the node the walk stands at is in the table. *)
Definition walking (now : tm) (n cur : Z) (s : sched) (bks : list bucket)
    (es : list (Z * execTask)) : Prop :=
  slot_rep (st_eheap s) (gExecList s) es /\ tm_ok now /\ 0 <= n /\
  (cur = NULL \/ cur ∈ addrs bks).

Definition place_inv (pl : place) (s : sched) : Prop :=
  exists bks es, sched_rep s bks es /\ offsets_ok es /\
  match pl with
  | At _ => True
  | Cleared | Built => slot_rep (st_eheap s) (gExecList s) es
  | EveryNode now n cur => walking now n cur s bks es
  | EveryCall now n cur _ _ => walking now n cur s bks es /\ cur <> NULL
  | HourNode now cur => walking now 0 cur s bks es
  | HourNext now cur => walking now 0 cur s bks es /\ cur <> NULL
  end.

Lemma place_inv_rep pl s : place_inv pl s -> thread_inv s.
Proof. intros (bks & es & ? & ? & _). by exists bks, es. Qed.

Lemma client_step_inv pl s s' : client_step pl s s' -> place_inv pl s -> place_inv pl s'.
Proof.
  intros Hc (bks & es & Hr & Hes & Hpl).
  destruct (client_step_keeps _ _ _ Hc _ _ Hr) as (bks' & Hr' & He & Hg & Hcur).
  exists bks', es. split_and!; [done..|].
  destruct pl; unfold walking in *; rewrite ?He, ?Hg; cbn [stands_at] in Hcur; tauto.
Qed.

Definition good_place (m : outcome (place * sched * list event)) : Prop :=
  match m with Ret (pl, s', _) => place_inv pl s' | Crash => False | OutOfFuel => True end.

Lemma node_in s bks es a :
  sched_rep s bks es -> a ∈ addrs bks ->
  exists nd, load (st_mheap s) a = Ret nd /\ (next nd = NULL \/ next nd ∈ addrs bks).
Proof.
  intros Hr Hin. destruct (addrs_chain _ _ _ _ Hr Hin) as (i & sl & l1 & l2 & t & Hi & Hl).
  destruct (lseg_at _ _ _ _ _ _ Hl) as [Ha Hla].
  exists (Node t (hd_addr l2)). split; [by apply load_Some|].
  destruct l2 as [|[x u] l2]; [by left|right]. apply addrs_in. eexists i, _, u.
  split; [exact Hi|]. apply elem_of_app. right. right. by left.
Qed.

Lemma slot_head s bks es i :
  sched_rep s bks es -> 0 <= i < 25 ->
  exists sl, table_get (gSchMasterTable s) i = Ret sl /\ (pHead sl = NULL \/ pHead sl ∈ addrs bks).
Proof.
  intros Hr Hi. destruct (lookup_lt_is_Some_2 bks (Z.to_nat i)) as [b Hb].
  { rewrite (sr_length _ _ _ Hr). unfold MASTER_ARR_SIZE. lia. }
  destruct (slot_at _ _ _ _ _ Hr Hb) as (sl & -> & (Hl & _) & _); [lia|].
  exists sl. split; [done|]. rewrite (lseg_hd _ _ _ Hl).
  destruct b as [|[x u] b]; [by left|right]. apply addrs_in. eexists _, _, u.
  split; [exact Hb|by left].
Qed.

(** What one more call in the execution list leaves of the walk. *)
Lemma grown_walking bks ts s es s' es' now n cur :
  grown bks ts s es s' es' -> offsets_ok es -> Forall (fun e => 0 <= ex_interval e) ts ->
  walking now n cur s bks es ->
  sched_rep s' bks es' /\ offsets_ok es' /\ walking now n cur s' bks es'.
Proof.
  intros [[Hr Hs] _ (new & -> & Hsub & _)] Hes Hts (_ & Hw).
  split_and!; [done| |by split]. apply Forall_app. split; [done|]. by eapply offsets_sublist.
Qed.

Lemma at_step_good r p s :
  thread_inv s -> malloc_total -> tm_ok (rd1 r) -> good_place (place_step r (At p) s).
Proof.
  intros Hti Ht Hok.
  assert (Hw : good_place ('(p', s', evs) ← thread_step r p s; mret (At p', s', evs))).
  { pose proof (thread_step_good r p s Hti Ht Hok) as Hg.
    destruct (thread_step r p s) as [[[p' s'] evs]| |]; [|done..].
    rewrite outcome_bind_ret. destruct Hg as (bks & es & ? & ?). by exists bks, es. }
  destruct p as [b|t|b|b|]; [exact Hw| |exact Hw..]. clear Hw.
  destruct Hti as (bks & es & Hr & _). cbn [place_step].
  assert (midnight t = true /\ SCH_AutoCleanTask (rd_fuel r) (rd_clean r) s = OutOfFuel \/
    (midnight t = false \/ SCH_AutoCleanTask (rd_fuel r) (rd_clean r) s <> OutOfFuel))
    as [[-> ->]|Hfin]; [|done|].
  { destruct (midnight t); [|by right; left].
    destruct (SCH_AutoCleanTask (rd_fuel r) (rd_clean r) s); auto. }
  destruct (clear_phase r t s bks es Hr Hfin) as (s1 & s2 & s3 & -> & Hcl & -> & [Hr3 Hs3] & _).
  rewrite outcome_bind_ret, Hcl, outcome_bind_ret.
  eexists _, []. split_and!; [exact Hr3|constructor|exact Hs3].
Qed.

Lemma every_node_good r now n a s bks es :
  sched_rep s bks es -> offsets_ok es -> walking now n a s bks es ->
  good_place (place_step r (EveryNode now n a) s).
Proof.
  intros Hr Hes (Hs & Hn & Hz & Ha). cbn [place_step]. destruct (Z.eqb_spec a NULL) as [->|Hne].
  - destruct (slot_head s bks es (UI16 (tm_hour now)) Hr) as (sl & -> & Hsl).
    { destruct Hn as (_ & _ & Hh & _). rewrite UI16_id; lia. }
    exists bks, es. by split_and!.
  - destruct (node_in s bks es a Hr) as (nd & -> & Hnx); [tauto|]. rewrite outcome_bind_ret.
    destruct (exec_count now (val nd) n) as [[iv n1]|] eqn:He; [|by exists bks, es].
    pose proof (exec_count_nonneg _ _ _ _ _ He Hz). exists bks, es. by split_and!.
Qed.

Lemma every_call_good r now n a iv k s bks es :
  sched_rep s bks es -> offsets_ok es -> walking now n a s bks es -> a <> NULL ->
  good_place (place_step r (EveryCall now n a iv k) s).
Proof.
  intros Hr Hes Hw Hne. pose proof Hw as (Hs & Hn & Hz & Ha). cbn [place_step].
  destruct (node_in s bks es a Hr) as (nd & -> & Hnx); [tauto|]. rewrite outcome_bind_ret.
  destruct (k <? n); [|exists bks, es; by split_and!].
  destruct (AddToExecutionList_grown (val nd) (UI32 (iv * UI32 (k + 1))) s bks es (conj Hr Hs))
    as (q & s1 & es1 & -> & Hg). rewrite outcome_bind_ret.
  destruct (grown_walking _ _ _ _ _ _ now n a Hg Hes) as (Hr1 & Hes1 & Hw1); [|done|].
  { repeat constructor. apply UI32_nonneg. }
  by exists bks, es1.
Qed.

Lemma hour_node_good r now a s bks es :
  sched_rep s bks es -> offsets_ok es -> walking now 0 a s bks es ->
  good_place (place_step r (HourNode now a) s).
Proof.
  intros Hr Hes Hw. pose proof Hw as (Hs & Hn & Hz & Ha). cbn [place_step].
  destruct (Z.eqb_spec a NULL) as [->|Hne]; [by exists bks, es|].
  destruct (node_in s bks es a Hr) as (nd & -> & Hnx); [tauto|]. rewrite outcome_bind_ret.
  set (t := val nd). cbv zeta.
  assert (Hadd : forall (b : bool) s0 es0, sched_rep s0 bks es0 -> offsets_ok es0 ->
    walking now 0 a s0 bks es0 -> exists s1 es1, add_if b t s0 = Ret s1 /\
      sched_rep s1 bks es1 /\ offsets_ok es1 /\ walking now 0 a s1 bks es1).
  { intros b s0 es0 Hr0 Hes0 Hw0.
    destruct (add_if_grown b t s0 bks es0) as (s1 & es1 & -> & Hg); [by split; [|apply Hw0]|].
    exists s1, es1. split; [done|]. eapply grown_walking; [done..| |done].
    destruct b; repeat constructor. apply UI32_nonneg. }
  destruct (Hadd ((ePCity t =? SCH_DAY) && day_matches now t) s es Hr Hes Hw)
    as (s1 & es1 & -> & Hr1 & Hes1 & Hw1). rewrite outcome_bind_ret.
  destruct (Hadd ((ePCity t =? SCH_WEEK) && (eWeekDay t =? tm_wday now)) s1 es1 Hr1 Hes1 Hw1)
    as (s2 & es2 & -> & Hr2 & Hes2 & Hw2). rewrite outcome_bind_ret.
  destruct (Hadd ((ePCity t =? SCH_MONTH) && (ui16Day (StartDate t) =? tm_mday now)) s2 es2 Hr2 Hes2 Hw2)
    as (s3 & es3 & -> & Hr3 & Hes3 & Hw3). rewrite outcome_bind_ret.
  by exists bks, es3.
Qed.

Lemma built_good r s bks es :
  sched_rep s bks es -> offsets_ok es -> slot_rep (st_eheap s) (gExecList s) es -> malloc_total ->
  good_place (place_step r Built s).
Proof.
  intros Hr Hes Hs Ht. cbn [place_step].
  assert (Hr0 : sched_rep (set_changed s false) bks es) by (by destruct Hr; split).
  destruct (SortExecutionList_spec _ _ _ Hr0 Hes (or_intror (Ht _))) as (s1 & -> & Hr1 & _).
  rewrite outcome_bind_ret.
  assert (offsets_ok (isort es)).
  { unfold offsets_ok. eapply Forall_perm; [symmetry; apply isort_Permutation|done]. }
  destruct (_ =? NULL); by exists bks, (isort es).
Qed.

Lemma place_step_good r pl s :
  place_inv pl s -> malloc_total -> tm_ok (rd1 r) -> good_place (place_step r pl s).
Proof.
  intros Hinv Ht Hok. pose proof (place_inv_rep _ _ Hinv) as Hti.
  destruct Hinv as (bks & es & Hr & Hes & Hpl). destruct pl as [p| |now n a|now n a iv k|now a|now a|].
  - by apply at_step_good.
  - cbn [place_step]. destruct (slot_head s bks es EVERY_HOUR_TASK Hr) as (sl & -> & Hsl); [done|].
    exists bks, es. by split_and!.
  - by eapply every_node_good.
  - destruct Hpl. by eapply every_call_good.
  - by eapply hour_node_good.
  - cbn [place_step]. destruct Hpl as [(Hs & Hn & Hz & Ha) Ha0].
    destruct (node_in s bks es a Hr) as (nd & -> & Hnx); [tauto|]. exists bks, es. by split_and!.
  - by eapply built_good.
Qed.

Lemma start_inv c : start_state c -> place_inv c.1 c.2.
Proof.
  intros (s & Hm & He & ->). exists (replicate 25 []), [].
  split; [by apply StartScheduler_rep|]. split; [constructor|done].
Qed.

Lemma system_step_inv c c' :
  malloc_total -> system_step c c' -> place_inv c.1 c.2 -> place_inv c'.1 c'.2.
Proof.
  intros Ht [r p s p' s' evs Hok Hs|p s s' Hs] Hinv; simpl in *.
  - pose proof (place_step_good r p s Hinv Ht Hok) as Hg. by rewrite Hs in Hg.
  - by eapply client_step_inv.
Qed.

Lemma reachable_inv c : malloc_total -> reachable c -> place_inv c.1 c.2.
Proof.
  intros Ht (c0 & Hs%start_inv & Hrtc). induction Hrtc as [|c1 c2 c3 Hstep _ IH]; [done|].
  apply IH. by eapply system_step_inv.
Qed.
(** ** The steps of a rebuild make up [rebuild_step] *)
Definition same_table (s s' : sched) : Prop :=
  st_mheap s' = st_mheap s /\ gSchMasterTable s' = gSchMasterTable s.

Lemma same_table_trans s1 s2 s3 : same_table s1 s2 -> same_table s2 s3 -> same_table s1 s3.
Proof. intros [? ?] [? ?]. split; congruence. Qed.

Lemma rebuild_one r pl s pl' s' evs c evs' :
  place_step r pl s = Ret (pl', s', []) -> rebuild_run r (pl', s') evs c -> evs' = evs ->
  rebuild_run r (pl, s) evs' c.
Proof. intros Hs Hr ->. exact (rebuild_more r _ _ _ _ _ _ _ Hs Hr). Qed.

Lemma AddTo_table t iv s q s' : AddToExecutionList t iv s = Ret (q, s') -> same_table s s'.
Proof.
  unfold AddToExecutionList. destruct (_ =? NULL); [by intros [= <- <-]|].
  intros ([h el] & _ & Heq)%outcome_bind_Ret_inv. by injection Heq as <- <-.
Qed.

Lemma add_if_table b t s s' : add_if b t s = Ret s' -> same_table s s'.
Proof.
  destruct b; simpl; [|by intros [= <-]].
  intros ([q s1] & Ha & [= <-])%outcome_bind_Ret_inv. by eapply AddTo_table.
Qed.

Lemma calls_run r now k c a iv nd s s' :
  load (st_mheap s) a = Ret nd -> add_execs k c (val nd) iv s = Ret s' ->
  same_table s s' /\ forall evs d,
    rebuild_run r (EveryNode now (c + Z.of_nat k) (next nd), s') evs d ->
    rebuild_run r (EveryCall now (c + Z.of_nat k) a iv c, s) evs d.
Proof.
  revert c s. induction k as [|k IH]; intros c s Hl Hadd.
  - injection Hadd as <-. split; [done|]. intros evs d Hrun.
    eapply rebuild_one; [|exact Hrun|done]. cbn [place_step]. rewrite Hl, outcome_bind_ret.
    by rewrite Z.add_0_r, Z.ltb_irrefl.
  - cbn [add_execs] in Hadd. apply outcome_bind_Ret_inv in Hadd as ([q s1] & Ha & Hadd).
    pose proof (AddTo_table _ _ _ _ _ Ha) as Hst1.
    destruct (IH (c + 1) s1) as [Hst Hrun1]; [by rewrite (proj1 Hst1)|done|].
    replace (c + 1 + Z.of_nat k) with (c + Z.of_nat (S k)) in Hrun1 by lia.
    split; [by eapply same_table_trans|]. intros evs d Hrun.
    eapply rebuild_one; [|exact (Hrun1 _ _ Hrun)|done]. cbn [place_step].
    rewrite Hl, outcome_bind_ret. destruct (Z.ltb_spec c (c + Z.of_nat (S k))); [|lia].
    by rewrite Ha, outcome_bind_ret.
Qed.

Lemma interval_run r fuel now n a s go s' :
  0 <= n -> build_interval fuel now n a s = Ret (go, s') ->
  same_table s s' /\ forall evs d,
    (forall m, rebuild_run r (if go : bool then EveryNode now m NULL else Built, s') evs d) ->
    rebuild_run r (EveryNode now n a, s) evs d.
Proof.
  revert n a s. induction fuel as [|fuel IH]; intros n a s Hn Hb; [done|].
  cbn [build_interval] in Hb. destruct (Z.eqb_spec a NULL) as [->|Ha].
  { injection Hb as <- <-. split; [done|]. intros evs d Hrun. apply Hrun. }
  apply outcome_bind_Ret_inv in Hb as (nd & Hl & Hb).
  destruct (exec_count now (val nd) n) as [[iv n1]|] eqn:He.
  - apply outcome_bind_Ret_inv in Hb as (s1 & Hadd & Hb).
    pose proof (exec_count_nonneg _ _ _ _ _ He Hn) as Hn1.
    destruct (IH n1 _ _ Hn1 Hb) as [Hst1 Hrun1].
    destruct (calls_run r now (Z.to_nat n1) 0 a iv nd s s1 Hl Hadd) as [Hst Hrun2].
    rewrite Z2Nat.id, Z.add_0_l in Hrun2 by done.
    split; [by eapply same_table_trans|]. intros evs d Hrun.
    eapply rebuild_one; [|exact (Hrun2 _ _ (Hrun1 _ _ Hrun))|done].
    cbn [place_step]. by rewrite (proj2 (Z.eqb_neq _ _) Ha), Hl, outcome_bind_ret, He.
  - injection Hb as <- <-. split; [done|]. intros evs d Hrun.
    eapply rebuild_one; [|apply (Hrun 0)|done].
    cbn [place_step]. by rewrite (proj2 (Z.eqb_neq _ _) Ha), Hl, outcome_bind_ret, He.
Qed.

Lemma hour_run r fuel now a s s' evs d :
  build_hour fuel now a s = Ret s' -> rebuild_run r (Built, s') evs d ->
  rebuild_run r (HourNode now a, s) evs d.
Proof.
  revert a s. induction fuel as [|fuel IH]; intros a s Hb Hrun; [done|].
  cbn [build_hour] in Hb. destruct (Z.eqb_spec a NULL) as [->|Ha].
  { injection Hb as <-. by eapply rebuild_one. }
  apply outcome_bind_Ret_inv in Hb as (nd & Hl & Hb). cbv zeta in Hb.
  apply outcome_bind_Ret_inv in Hb as (s1 & H1 & Hb).
  apply outcome_bind_Ret_inv in Hb as (s2 & H2 & Hb).
  apply outcome_bind_Ret_inv in Hb as (s3 & H3 & Hb).
  assert (Hm : st_mheap s3 = st_mheap s).
  { pose proof (add_if_table _ _ _ _ H1) as [E1 _]. pose proof (add_if_table _ _ _ _ H2) as [E2 _].
    pose proof (add_if_table _ _ _ _ H3) as [E3 _]. congruence. }
  eapply rebuild_one; [|eapply rebuild_one; [|exact (IH _ _ Hb Hrun)|done]|done].
  - cbn [place_step]. rewrite (proj2 (Z.eqb_neq _ _) Ha), Hl, outcome_bind_ret. cbv zeta.
    by rewrite H1, outcome_bind_ret, H2, outcome_bind_ret, H3.
  - cbn [place_step]. by rewrite Hm, Hl.
Qed.

Lemma build_run r s s' evs d :
  BuildExecutionList (rd1 r) s = Ret s' -> rebuild_run r (Built, s') evs d ->
  rebuild_run r (Cleared, s) evs d.
Proof.
  unfold BuildExecutionList. intros (sle & Hsle & Hb)%outcome_bind_Ret_inv Hrun.
  apply outcome_bind_Ret_inv in Hb as ([go s1] & Hi & Hb).
  eapply rebuild_one; [cbn [place_step]; by rewrite Hsle| |done].
  destruct (interval_run r _ _ _ _ _ _ _ (Z.le_refl 0) Hi) as [Hst Hrun1].
  apply Hrun1. intros m. destruct go; cbn [negb] in Hb; [|by injection Hb as <-].
  apply outcome_bind_Ret_inv in Hb as (slh & Hslh & Hb).
  eapply rebuild_one; [|exact (hour_run _ _ _ _ _ _ _ _ Hb Hrun)|done].
  cbn [place_step]. by rewrite Z.eqb_refl, (proj2 Hst), Hslh.
Qed.

(** Without calls of clients in between, the steps of a rebuild do what
    [rebuild_step] does. *)
Lemma rebuild_step_runs r t s p s' evs :
  rebuild_step r t s = Ret (p, s', evs) -> rebuild_run r (At (PRebuild t), s) evs (At p, s').
Proof.
  unfold rebuild_step. intros (s1 & Hc & Hb)%outcome_bind_Ret_inv.
  apply outcome_bind_Ret_inv in Hb as (s2 & Hcl & Hb).
  apply outcome_bind_Ret_inv in Hb as (s3 & Hbuild & Hb).
  apply outcome_bind_Ret_inv in Hb as (s4 & Hsort & Hb).
  eapply rebuild_one; [cbn [place_step]; by rewrite Hc, outcome_bind_ret, Hcl| |done].
  eapply build_run; [exact Hbuild|]. rewrite <- (app_nil_r evs).
  eapply rebuild_more; [|apply rebuild_done]. cbn [place_step]. rewrite Hsort, outcome_bind_ret.
  destruct (_ =? NULL); by injection Hb as <- <- <-.
Qed.
End Safety.
