(* ===== verification/SchedDemo.v ===== *)
(** * A small scheduler

    A concrete state of the globals, for the examples that run the operations:
    an interval task and a daily task, added by [SCH_AddTask] with the bump
    allocator, and the calls built from them. *)

From S2P Require Import Prelude Heap ListSort CTypes SchedTypes SchedMaster SchedTable.
From S2P Require Import SchedApi SchedBuild SchedLoop SchedSafe.

#[local] Existing Instance bump_allocator.

Definition no_date : stDate := MkDate 1 0 0.
Definition no_time : stTime := MkTime 0 0 0.

(** Every half hour, every day. *)
Definition half_hourly : stTask :=
  MkTask no_date no_date no_time no_time SCH_PERIODIC SCH_SEC_MIN_HOUR 1800 SCH_ALL_DAYS 501 601.
(** Every Sunday, each 100 seconds. *)
Definition sunday_100 : stTask :=
  MkTask no_date no_date no_time no_time SCH_PERIODIC SCH_SEC_MIN_HOUR 100 SCH_SUN 502 602.
(** Daily at 9:30:15. *)
Definition daily_0930 : stTask :=
  MkTask no_date no_date (MkTime 9 30 15) no_time SCH_PERIODIC SCH_DAY 0 SCH_ALL_DAYS 503 603.
(** Once, on the third of May 2005 at 9:45:00. *)
Definition once_2005 : stTask :=
  MkTask (MkDate 3 4 2005) no_date (MkTime 9 45 0) no_time SCH_ONE_SHOT SCH_DAY 0
    SCH_ALL_DAYS 504 604.
(** Daily, at an hour outside the day. *)
Definition bad_hour : stTask :=
  MkTask no_date no_date (MkTime 25 0 0) no_time SCH_PERIODIC SCH_DAY 0 SCH_ALL_DAYS 505 605.
(** An interval of one day. *)
Definition every_day : stTask :=
  MkTask no_date no_date no_time no_time SCH_PERIODIC SCH_SEC_MIN_HOUR 86400 SCH_ALL_DAYS 506 606.

(** Tuesday 3 May 2005, 9:20:10. *)
Definition morning : tm := Tm 10 20 9 3 4 105 2.

Definition blank : sched := MkSched ∅ [] ∅ (Slot 7 7 7) false false.
Lemma morning_ok : tm_ok morning.
Proof. unfold tm_ok. simpl. lia. Qed.

Definition demo0 : sched := SCH_StartScheduler blank.

(** Run a call and keep the state it leaves. *)
Definition state_of {A} (m : outcome (A * sched)) : sched :=
  match m with Ret (_, s) => s | _ => blank end.

Definition demo1 : sched := state_of (SCH_AddTask morning half_hourly demo0).
Definition demo2 : sched := state_of (SCH_AddTask morning once_2005 demo1).

Definition demo1_bks : list bucket := spec_add 24 1 half_hourly (replicate 25 []).
Definition demo2_bks : list bucket := spec_add 9 2 once_2005 demo1_bks.

Lemma demo0_rep : sched_rep demo0 (replicate 25 []) [].
Proof. by apply StartScheduler_rep. Qed.

Lemma demo1_rep : sched_rep demo1 demo1_bks [].
Proof.
  destruct (AddTask_accepted morning half_hourly demo0 _ _ 24 demo0_rep eq_refl ltac:(lia))
    as (s' & Heq & Hok).
  replace demo1 with s'; [by apply Hok|]. vm_compute in Heq. injection Heq as <-. reflexivity.
Qed.

Lemma demo2_rep : sched_rep demo2 demo2_bks [].
Proof.
  destruct (AddTask_accepted morning once_2005 demo1 _ _ 9 demo1_rep eq_refl ltac:(lia))
    as (s' & Heq & Hok).
  replace demo2 with s'; [by apply Hok|]. vm_compute in Heq. injection Heq as <-. reflexivity.
Qed.

(** The same state after the rebuild of the hour. *)
Definition demo_clock : readings := Readings morning morning (fun _ => morning) 100.
Definition demo3 : sched :=
  match rebuild_step demo_clock morning demo2 with Ret (_, s, _) => s | _ => blank end.
Definition demo3_es : list (Z * execTask) :=
  [(3, MkExec 501 601 1800); (5, MkExec 504 604 2700); (4, MkExec 501 601 3600)].

Lemma demo3_rep : sched_rep demo3 demo2_bks demo3_es.
Proof.
  destruct (rebuild_step_spec demo_clock morning demo2 _ _ demo2_rep bump_total)
    as (p & s' & evs & bks & every & hour & new & Heq & -> & _ & _ & Hnew & Hr & _);
    [exact morning_ok|by left|].
  replace demo3 with s'; [|vm_compute in Heq; injection Heq as _ <- _; reflexivity].
  vm_compute in Heq. injection Heq as _ <- _.
  destruct Hr as [Hm Hlen (Hl & Hnd & Hd & Hsz) Hdj]. split; [done|done| |done].
  split_and!; [|by apply (bool_decide_unpack _)|done|done].
  cbn [lseg demo3_es].
  repeat (split; [reflexivity|]; split; [done|]; eexists; split; [vm_compute; reflexivity|]).
  reflexivity.
Qed.
