(* ===== verification/SchedProps.v ===== *)
(** * What the scheduler guarantees

    The properties of NASCenter_Scheduler.c: its interface as operations on a
    finite map of tasks, the contents of the execution list, the behaviour of
    the thread, and the cases in which the code does less than it means to. *)

From S2P Require Import Prelude Heap ListSort CTypes SchedTypes SchedMaster SchedTable.
From S2P Require Import SchedApi SchedBuild SchedLoop SchedSafe SchedDemo.
From stdpp Require Import relations.
#[local] Open Scope Z_scope.

Section Properties.
Context `{Allocator}.

(** C1: in every state the process can reach from [SCH_StartScheduler], under
    any interleaving of the thread with calls of its clients - also in the middle
    of [BuildExecutionList], which reads the master table node by node without
    the table's mutex -, the globals represent a master table of 25 well-formed
    lists and a well-formed execution list, in disjoint heaps, and the next step of
    the thread does not touch a null, freed or out-of-range location.  The calls
    are those that return (a start hour of 25 or more makes [SCH_AddTask] write
    outside the table) and that do not delete or replace the very task the walk
    stands at ([walk_over_deleted_task] shows what such a call does); [malloc]
    never fails (the sort writes through a failed one). *)
Theorem scheduler_memory_safe c r :
  malloc_total -> reachable c -> tm_ok (rd1 r) ->
  (exists bks es, sched_rep c.2 bks es /\ offsets_ok es) /\
  place_step r c.1 c.2 <> Crash.
Proof.
  intros Ht Hc Hok. pose proof (reachable_inv c Ht Hc) as Hinv.
  split; [exact (place_inv_rep _ _ Hinv)|].
  pose proof (place_step_good r c.1 c.2 Hinv Ht Hok) as Hg.
  by destruct (place_step r c.1 c.2).
Qed.

(** A client that deletes the task the walk of [BuildExecutionList] stands at
    succeeds, and the next access of the thread is to the node it freed: the walk
    does not hold the mutex of the table. *)
Theorem walk_over_deleted_task r now n iv k id s bks es :
  sched_rep s bks es -> id ∈ addrs bks ->
  exists s', SCH_DeleteTask id s = Ret (NASC_SUCCESS, s') /\
    place_step r (EveryNode now n id) s' = Crash /\
    place_step r (EveryCall now n id iv k) s' = Crash /\
    place_step r (HourNode now id) s' = Crash /\
    place_step r (HourNext now id) s' = Crash.
Proof.
  intros Hr Hin. pose proof (addrs_nonnull _ _ _ Hr) as Hnull.
  destruct (DeleteTask_spec id s bks es Hr) as (s' & -> & Hr' & _).
  exists s'. split; [by rewrite bool_decide_eq_true_2|].
  assert (Hid : id <> NULL) by (intros ->; done).
  assert (Hl : load (st_mheap s') id = Crash).
  { unfold load. rewrite (proj2 (Z.eqb_neq _ _) Hid).
    destruct (st_mheap s' !! id) eqn:He; [|done]. exfalso.
    apply elem_of_dom_2 in He. rewrite (mr_dom _ _ _ (sr_master _ _ _ Hr')) in He.
    apply elem_of_list_to_set, addrs_tasks in He. by rewrite tasks_delete, lookup_delete_eq in He. }
  cbn [place_step]. by rewrite (proj2 (Z.eqb_neq _ _) Hid), Hl.
Qed.

(** A task added after the walk has passed the end of its list is accepted and
    announced, but the thread then clears [gbTaskChanged] itself: the task is not
    in the execution list and nothing tells the thread before the next rebuild. *)
Theorem task_added_during_rebuild_missed r now t i s bks es :
  malloc_total -> sched_rep s bks es -> offsets_ok es -> accepts now t = Some i -> 0 <= i < 25 ->
  exists id s1 pl s2 evs, SCH_AddTask now t s = Ret (id, s1) /\ gbTaskChanged s1 = true /\
    place_step r Built s1 = Ret (pl, s2, evs) /\ gbTaskChanged s2 = false /\
    sched_rep s2 (spec_add (Z.to_nat i) id t bks) (isort es).
Proof.
  intros Ht Hr Hes Hac Hi. destruct (AddTask_accepted now t s bks es i Hr Hac Hi) as (s1 & -> & Hok).
  pose proof (Ht (st_live s)) as Hn. rewrite (proj2 (Z.eqb_neq _ _) Hn).
  destruct (Hok Hn) as (Hr1 & _ & Hch & _).
  assert (Hr2 : sched_rep (set_changed s1 false) (spec_add (Z.to_nat i) (malloc (st_live s)) t bks) es)
    by (by destruct Hr1; split).
  destruct (SortExecutionList_spec _ _ _ Hr2 Hes (or_intror (Ht _))) as (s2 & Hs2 & Hr3 & Hm).
  assert (exists pl evs, place_step r Built s1 = Ret (pl, s2, evs)) as (pl & evs & Hp).
  { cbn [place_step]. rewrite Hs2, outcome_bind_ret. destruct (_ =? NULL); by eexists _, _. }
  eexists _, s1, pl, s2, evs. split_and!; [done|done|exact Hp|by destruct Hm as (_ & _ & -> & _)|done].
Qed.

(** C2: [SCH_AddTask] refines insertion into a finite map: a refused task gives
    -1 and changes nothing, as does a failed [malloc]; an accepted one is bound
    to a fresh, non-zero identifier, appended to the list of its hour (or of the
    interval tasks), and the thread is told. *)
Theorem SCH_AddTask_refines now t s bks es :
  sched_rep s bks es -> 0 <= ui16Hour (StartTime t) < 25 ->
  let id := malloc (st_live s) in
  exists r s', SCH_AddTask now t s = Ret (r, s') /\
  match accepts now t with
  | Some i =>
      if id =? NULL then r = -1 /\ s' = s else
      r = id /\ id ∉ dom (tasks bks) /\ gbTaskChanged s' = true /\ same_exec s s' /\
      sched_rep s' (spec_add (Z.to_nat i) id t bks) es /\
      tasks (spec_add (Z.to_nat i) id t bks) = <[id := t]> (tasks bks)
  | None => r = -1 /\ s' = s
  end.
Proof.
  intros Hr Hh id. destruct (accepts now t) as [i|] eqn:Hac.
  2:{ rewrite AddTask_refused by done. by eexists _, _. }
  assert (Hi : 0 <= i < 25).
  { unfold accepts in Hac. case_bool_decide; [|done]. by eapply slot_index_range. }
  destruct (AddTask_accepted now t s bks es i Hr Hac Hi) as (s' & -> & Hok).
  fold id in Hok |- *. destruct (Z.eqb_spec id NULL); [by eexists _, _|].
  destruct (Hok ltac:(done)) as (Hr' & He & Hch & Hfresh).
  eexists _, _. split; [done|]. split_and!; try done.
  - by rewrite not_elem_of_dom, tasks_None.
  - apply tasks_add; [|done]. rewrite (sr_length _ _ _ Hr). unfold MASTER_ARR_SIZE. lia.
Qed.

(** C29: [SCH_GetTask] refines lookup and [SCH_DeleteTask] refines deletion: the
    status says whether the identifier is known, a copy of the task is returned,
    deletion frees the node of that task only, and neither disturbs the
    execution list. *)
Theorem SCH_Get_Delete_refine id s bks es :
  sched_rep s bks es ->
  SCH_GetTask id s =
    Ret (if bool_decide (id ∈ dom (tasks bks)) then NASC_SUCCESS else NASC_FAILURE,
         tasks bks !! id) /\
  exists s', SCH_DeleteTask id s =
    Ret (if bool_decide (id ∈ dom (tasks bks)) then NASC_SUCCESS else NASC_FAILURE, s') /\
    sched_rep s' (spec_delete id bks) es /\
    tasks (spec_delete id bks) = delete id (tasks bks) /\
    same_exec s s' /\ gbTaskChanged s' = gbTaskChanged s.
Proof.
  intros Hr. split.
  - rewrite (GetTask_spec id s bks es Hr). do 2 f_equal.
    case_bool_decide as Hd; [apply elem_of_dom in Hd as [t ->]|apply not_elem_of_dom in Hd as ->]; done.
  - destruct (DeleteTask_spec id s bks es Hr) as (s' & -> & Hr' & He & Hch).
    exists s'. split_and!; try done; [|apply tasks_delete].
    do 2 f_equal. rewrite (bool_decide_ext _ (id ∈ dom (tasks bks))); [done|].
    rewrite elem_of_dom, <- not_eq_None_Some, tasks_None.
    destruct (decide (id ∈ addrs bks)); tauto.
Qed.

(** C30: [SCH_ModifyTask] deletes before it adds: with an acceptable task the
    identifier is replaced by a fresh one, an unknown identifier changes
    nothing, but a task that [SCH_AddTask] refuses costs the old task: -1 is
    returned and the old task is no longer in the table. *)
Theorem SCH_ModifyTask_refines now id t s bks es :
  sched_rep s bks es -> 0 <= ui16Hour (StartTime t) < 25 -> malloc_total ->
  exists r s' bks', SCH_ModifyTask now id t s = Ret (r, s') /\ sched_rep s' bks' es /\
  match tasks bks !! id, accepts now t with
  | None, _ => r = -1 /\ tasks bks' = tasks bks
  | Some _, None => r = -1 /\ tasks bks' = delete id (tasks bks)
  | Some _, Some _ =>
      r <> -1 /\ r ∉ dom (delete id (tasks bks)) /\
      tasks bks' = <[r := t]> (delete id (tasks bks))
  end.
Proof.
  intros Hr Hh Ht. unfold SCH_ModifyTask.
  destruct (DeleteTask_spec id s bks es Hr) as (s1 & -> & Hr1 & _).
  rewrite outcome_bind_ret. pose proof (tasks_delete id bks) as Htd.
  pose proof (tasks_None id bks) as Hno.
  case_bool_decide as Hin; simpl.
  - destruct (tasks bks !! id) as [t0|]; [|tauto].
    destruct (accepts now t) as [i|] eqn:Hac.
    2:{ rewrite AddTask_refused by done. by eexists _, _, _. }
    assert (Hi : 0 <= i < 25).
    { unfold accepts in Hac. case_bool_decide; [|done]. by eapply slot_index_range. }
    destruct (AddTask_accepted now t s1 _ es i Hr1 Hac Hi) as (s2 & -> & Hok).
    set (n := malloc (st_live s1)) in *.
    assert (Hn : n <> NULL) by apply Ht. rewrite (proj2 (Z.eqb_neq _ _) Hn).
    destruct (Hok Hn) as (Hr2 & _ & _ & Hfresh). rewrite <- Htd.
    eexists _, _, _. split_and!; [done|done| | |].
    + intros He. destruct (malloc_spec (st_live s1)) as [|[Hp _]]; [done|]. fold n in Hp. lia.
    + by rewrite not_elem_of_dom, tasks_None.
    + apply tasks_add; [|done]. rewrite (sr_length _ _ _ Hr1). unfold MASTER_ARR_SIZE. lia.
  - apply Hno in Hin as Hnone. rewrite Hnone.
    eexists _, _, _. split_and!; [done|done|done|]. rewrite Htd. by apply delete_id.
Qed.
End Properties.

(** ** Examples on the small scheduler *)
Section Witnesses.
#[local] Existing Instance bump_allocator.

(** Two tasks are added, the second while the walk stands at the first. *)
Definition at_first : place := EveryNode morning 0 1.

Lemma demo2_reachable : reachable (at_first, demo2).
Proof.
  exists (At (PTop false), demo0). split; [by exists blank|].
  apply rtc_l with (At (PTop false), demo1).
  { apply system_client, (client_add _ _ morning half_hourly 1). by vm_compute. }
  apply rtc_l with (At (PRebuild morning), demo1).
  { by apply (system_thread demo_clock _ _ _ _ [] morning_ok). }
  apply rtc_l with (Cleared, demo1).
  { by apply (system_thread demo_clock _ _ _ _ [] morning_ok). }
  apply rtc_l with (at_first, demo1).
  { by apply (system_thread demo_clock _ _ _ _ [] morning_ok). }
  apply rtc_l with (at_first, demo2).
  { apply system_client, (client_add _ _ morning once_2005 2). by vm_compute. }
  apply rtc_refl.
Qed.

Lemma scheduler_memory_safe_witness :
  reachable (at_first, demo2) /\ place_step demo_clock at_first demo2 <> Crash.
Proof.
  split; [exact demo2_reachable|].
  exact (proj2 (scheduler_memory_safe (at_first, demo2) demo_clock
    bump_total demo2_reachable morning_ok)).
Defined.

Lemma walk_over_deleted_task_witness :
  exists s', SCH_DeleteTask 1 demo2 = Ret (NASC_SUCCESS, s') /\
    place_step demo_clock at_first s' = Crash.
Proof.
  destruct (walk_over_deleted_task demo_clock morning 0 0 0 1 demo2 demo2_bks [] demo2_rep)
    as (s' & Hd & Hc & _); [by apply (bool_decide_unpack _)|].
  exists s'. exact (conj Hd Hc).
Defined.

Lemma SCH_AddTask_refines_witness :
  exists s', SCH_AddTask morning daily_0930 demo2 = Ret (3, s') /\
    accepts morning daily_0930 = Some 9 /\
    tasks (spec_add 9 3 daily_0930 demo2_bks) = <[3 := daily_0930]> (tasks demo2_bks).
Proof.
  destruct (SCH_AddTask_refines morning daily_0930 demo2 demo2_bks [] demo2_rep
    ltac:(simpl; lia)) as (r & s' & Heq & Hr).
  exists s'. vm_compute in Hr |- *. split; [|split].
  - vm_compute in Heq. destruct Hr as (-> & _). exact Heq.
  - reflexivity.
  - reflexivity.
Defined.

Lemma SCH_Get_Delete_refine_witness :
  SCH_GetTask 2 demo2 = Ret (NASC_SUCCESS, Some once_2005).
Proof.
  rewrite (proj1 (SCH_Get_Delete_refine 2 demo2 demo2_bks [] demo2_rep)).
  vm_compute. reflexivity.
Defined.

(** Replacing the half-hourly task by one with no interval loses it. *)
Definition no_interval : stTask :=
  MkTask no_date no_date no_time no_time SCH_PERIODIC SCH_SEC_MIN_HOUR 0 SCH_ALL_DAYS 501 601.

Lemma SCH_ModifyTask_refines_witness :
  tasks demo2_bks !! 1 = Some half_hourly /\ accepts morning no_interval = None /\
  exists s' bks', SCH_ModifyTask morning 1 no_interval demo2 = Ret (-1, s') /\
    sched_rep s' bks' [] /\ tasks bks' = delete 1 (tasks demo2_bks).
Proof.
  split; [reflexivity|]. split; [reflexivity|].
  destruct (SCH_ModifyTask_refines morning 1 no_interval demo2 demo2_bks [] demo2_rep
    ltac:(simpl; lia) bump_total) as (r & s' & bks' & Heq & Hr & Hm).
  change (tasks demo2_bks !! 1) with (Some half_hourly) in Hm.
  change (accepts morning no_interval) with (@None Z) in Hm. destruct Hm as [-> Hm].
  by exists s', bks'.
Defined.
End Witnesses.
