(* ===== verification/SchedTiming.v ===== *)
(** * What the scheduler thread runs, and when

    The properties of validation, clean-up, the hourly rebuild and the execution
    loop of NASCenter_Scheduler.c. *)

From S2P Require Import Prelude Heap ListSort CTypes SchedTypes SchedMaster SchedTable.
From S2P Require Import SchedApi SchedBuild SchedLoop SchedSafe SchedDemo.
From Stdlib Require Import Sorted.
#[local] Open Scope Z_scope.

(** ** Facts about the plan *)
Lemma calls_spec t iv e :
  0 < iv <= NO_SECS_IN_HOUR ->
  e ∈ calls t iv (NO_SECS_IN_HOUR / iv) <->
  exists k, 1 <= k /\ k * iv <= NO_SECS_IN_HOUR /\ e = MkExec (fp t) (vpArg t) (k * iv).
Proof.
  unfold NO_SECS_IN_HOUR. intros Hiv. unfold calls. rewrite list_elem_of_fmap. split.
  - intros (k & -> & Hk%elem_of_seqZ). exists (k + 1).
    pose proof (Z.mul_div_le 3600 iv ltac:(lia)).
    assert ((k + 1) * iv <= 3600) by nia. split_and!; [lia|done|].
    rewrite (UI32_id (k + 1)) by nia. rewrite UI32_id by nia. f_equal. lia.
  - intros (k & Hk1 & Hk2 & ->). exists (k - 1). split.
    + rewrite Z.sub_add, (UI32_id k), UI32_id by nia. f_equal. lia.
    + apply elem_of_seqZ. pose proof (Z.div_le_lower_bound 3600 iv k). lia.
Qed.

(** ** The timetable of an hour

    What the hour [now] is in asks for, said without the code's counts and
    offsets: a task of the interval entry runs at every multiple of its interval
    from the first to the 3600th second, a task of the hour's entry at its start
    minute and second if its day has come. *)
Definition at_second (t : stTask) (k : Z) : execTask := MkExec (fp t) (vpArg t) k.

Definition interval_calls (t : stTask) : list execTask :=
  at_second t <$> filter (fun k => k mod ui32Interval t = 0) (seqZ 1 3600).

Definition due_today (now : tm) (t : stTask) : Prop :=
  ePCity t = SCH_DAY /\ (eWeekDay t = tm_wday now \/ eWeekDay t = SCH_ALL_DAYS) \/
  ePCity t = SCH_WEEK /\ eWeekDay t = tm_wday now \/
  ePCity t = SCH_MONTH /\ ui16Day (StartDate t) = tm_mday now.
#[export] Instance due_today_dec now t : Decision (due_today now t).
Proof. unfold due_today. apply _. Defined.

Definition hour_calls (now : tm) (t : stTask) : list execTask :=
  if decide (due_today now t)
  then [at_second t (UI32 (60 * ui16Minute (StartTime t) + ui16Second (StartTime t)))] else [].

Definition timetable (now : tm) (every hour : bucket) : list execTask :=
  (every.*2 ≫= interval_calls) ++ (hour.*2 ≫= hour_calls now).

(** An interval task for today, of at most an hour. *)
Definition short_today (now : tm) (t : stTask) : Prop :=
  ePCity t = SCH_SEC_MIN_HOUR /\ (eWeekDay t = tm_wday now \/ eWeekDay t = SCH_ALL_DAYS) /\
  0 < ui32Interval t <= 3600.

Lemma calls_interval t :
  0 < ui32Interval t <= 3600 -> calls t (ui32Interval t) (3600 / ui32Interval t) ≡ₚ interval_calls t.
Proof.
  intros Hiv. set (iv := ui32Interval t) in *. apply NoDup_Permutation.
  - unfold calls. apply NoDup_fmap_2_strong; [|apply NoDup_seqZ].
    intros x y Hx%elem_of_seqZ Hy%elem_of_seqZ [= He].
    pose proof (Z.mul_div_le 3600 iv ltac:(lia)).
    rewrite (UI32_id (x + 1)), (UI32_id (y + 1)), !UI32_id in He by nia. nia.
  - unfold interval_calls. apply (NoDup_fmap_2_strong (at_second t)).
    + by intros x y _ _ [= ->].
    + apply NoDup_filter, NoDup_seqZ.
  - intros e. rewrite calls_spec by done. unfold interval_calls. rewrite list_elem_of_fmap.
    fold iv. unfold NO_SECS_IN_HOUR. split.
    + intros (k & Hk1 & Hk2 & ->). exists (k * iv). split; [done|].
      apply list_elem_of_filter. rewrite elem_of_seqZ. split; [by apply Z_mod_mult|nia].
    + intros (x & -> & [Hx Hs%elem_of_seqZ]%list_elem_of_filter).
      apply Z.mod_divide in Hx as [k ->]; [|lia]. exists k. split; [nia|split; [lia|done]].
Qed.

Lemma exec_count_short now t n :
  short_today now t -> exec_count now t n = Some (ui32Interval t, 3600 / ui32Interval t).
Proof.
  intros (Hp & Hd & Hiv). unfold exec_count, NO_SECS_IN_HOUR.
  assert (day_matches now t = true) as ->.
  { unfold day_matches. apply orb_true_iff. rewrite !Z.eqb_eq. done. }
  rewrite Hp, Z.eqb_refl. destruct (Z.ltb_spec 0 (ui32Interval t)); [|lia].
  destruct (Z.leb_spec (ui32Interval t) 3600); [done|lia].
Qed.

Lemma plan_interval_timetable now n b :
  Forall (fun x : Z * stTask => short_today now x.2) b ->
  exists l, plan_interval now n b = (l, true) /\ l ≡ₚ b.*2 ≫= interval_calls.
Proof.
  intros Hall. revert n. induction Hall as [|[a t] b Ht Hall IH]; intros n; [by exists []|].
  cbn [plan_interval]. simpl in Ht. rewrite (exec_count_short _ _ _ Ht).
  destruct (IH (3600 / ui32Interval t)) as (l & -> & Hl).
  exists (calls t (ui32Interval t) (3600 / ui32Interval t) ++ l). split; [done|].
  csimpl. rewrite Hl, calls_interval; [done|apply Ht].
Qed.

Lemma due_today_spec now t : due_this_hour now t = bool_decide (due_today now t).
Proof.
  assert (due_this_hour now t = true <-> due_today now t) as Hd.
  { unfold due_this_hour, due_today, day_matches.
    rewrite !orb_true_iff, !andb_true_iff, !orb_true_iff, !Z.eqb_eq. tauto. }
  case_bool_decide; [by apply Hd|]. apply not_true_iff_false. by rewrite Hd.
Qed.

Lemma plan_hour_timetable now b : plan_hour now b = b.*2 ≫= hour_calls now.
Proof.
  unfold plan_hour. induction b as [|[a t] b IH]; [done|]. csimpl. rewrite <- IH. f_equal.
  unfold hour_call, hour_calls, at_second, start_offset, NO_SECS_IN_MIN.
  rewrite due_today_spec, (Z.mul_comm 60). unfold bool_decide, decide.
  by destruct (due_today_dec now t).
Qed.

Section Timing.
Context `{Allocator}.

(** C3: the rebuild of the execution list is sound and complete: run by the
    thread's own steps, with no call of a client in between, it ends with a list
    that holds exactly the calls of the timetable of the hour, sorted by offset -
    a task with an interval at each multiple of the interval, a daily, weekly or
    monthly one at its start minute and second if its day has come -, takes
    [gbTaskChanged] back, and goes on to run the list, if there is one.  At
    midnight the timetable is that of the table after [SCH_AutoCleanTask], which
    must end.  [malloc] must not fail, and the tasks of the interval entry must
    be for today and have intervals of at most an hour: the others are run at
    wrong times ([wrong_day_task_scheduled], [long_interval_hours],
    [daily_interval_runs_at_18_47_44]). *)
Theorem rebuild_schedules_due_tasks r t s bks es every hour :
  sched_rep s bks es -> malloc_total -> tm_ok (rd1 r) ->
  midnight t = false \/ SCH_AutoCleanTask (rd_fuel r) (rd_clean r) s <> OutOfFuel ->
  let bks' := if midnight t then spec_clean bks else bks in
  bks' !! Z.to_nat EVERY_HOUR_TASK = Some every ->
  bks' !! Z.to_nat (tm_hour (rd1 r)) = Some hour ->
  Forall (fun x : Z * stTask => short_today (rd1 r) x.2) every ->
  exists s' evs es',
    rebuild_run r (At (PRebuild t), s) evs
      (At (if bool_decide (es' = []) then PTop false else PInner false), s') /\
    sched_rep s' bks' es' /\ StronglySorted key_le es' /\
    es'.*2 ≡ₚ timetable (rd1 r) every hour /\ gbTaskChanged s' = false.
Proof.
  intros Hr Ht Hok Hmid bks' He Hh Hiv.
  destruct (rebuild_step_spec r t s bks es Hr Ht Hok Hmid)
    as (p & s' & evs & b & every' & hour' & new & Heq & Hb & He' & Hh' & Hnew & Hr' & Hch & _ & Hp & _).
  fold bks' in Hb. subst b. simplify_eq.
  exists s', evs, (isort new). split_and!; [|done|apply isort_sorted| |done].
  - apply rebuild_step_runs. rewrite Heq. do 3 f_equal.
    assert (isort new = [] <-> new = []) as Hnil.
    { pose proof (isort_Permutation new) as Hperm. split; intros Hn; rewrite Hn in Hperm.
      - by apply Permutation_nil_l in Hperm.
      - by rewrite Hn. }
    by rewrite (bool_decide_ext _ _ Hnil).
  - transitivity (plan (rd1 r) every hour).
    { rewrite <- Hnew. apply fmap_Permutation, isort_Permutation. }
    unfold plan, timetable. destruct (plan_interval_timetable (rd1 r) 0 every Hiv) as (l & -> & Hl).
    by rewrite Hl, plan_hour_timetable.
Qed.

(** C27: [SortExecutionList] is stable insertion sort: it terminates on every
    list, keeps the calls, orders them by offset, leaves calls of one offset in
    the order they were added, and frees its temporary node. *)
Theorem SortExecutionList_stable_sort s bks es :
  sched_rep s bks es -> offsets_ok es -> malloc (st_live s) <> NULL ->
  exists s', SortExecutionList s = Ret s' /\ sched_rep s' bks (isort es) /\
    StronglySorted key_le (isort es) /\ isort es ≡ₚ es /\
    (forall k, class k (isort es) = class k es) /\
    dom (st_eheap s') = dom (st_eheap s).
Proof.
  intros Hr Hpos Hm.
  destruct (SortExecutionList_spec s bks es Hr Hpos (or_intror Hm)) as (s' & -> & Hr' & _).
  exists s'. split_and!; [done|done|apply isort_sorted|apply isort_Permutation|intros; apply class_isort|].
  destruct Hr as [_ _ (_ & _ & -> & _) _], Hr' as [_ _ (_ & _ & -> & _) _].
  apply set_eq. intros x. rewrite !elem_of_list_to_set. by rewrite isort_Permutation.
Qed.

(** C28: the execution loop calls only the head of the execution list, and only
    in the second its offset names (an offset of a full hour in the last second
    of the hour); the call is removed as it is made. *)
Theorem inner_step_on_time r b s bks es p s' evs f a :
  sched_rep s bks es -> inner_step r b s = Ret (p, s', evs) -> EvExec f a ∈ evs ->
  exists x iv es', es = (x, MkExec f a iv) :: es' /\ sched_rep s' bks es' /\
    (seconds_in_hour (rd1 r) = iv \/
     iv = NO_SECS_IN_HOUR /\ seconds_in_hour (rd1 r) = NO_SECS_IN_HOUR - 1).
Proof.
  intros Hr. unfold inner_step.
  destruct (Z.eqb_spec (pHead (gExecList s)) NULL) as [Hn|Hn]; [intros [= <- <- <-]; set_solver|].
  destruct (gbStopScheduler s); [intros [= <- <- <-]; set_solver|].
  destruct es as [|[x e] es]; [by destruct Hr as [_ _ (Hl & _) _]|].
  destruct (pop_exec_spec _ _ _ _ _ Hr) as (s1 & Hpop & Hr1 & _ & -> & ->).
  rewrite outcome_bind_ret, Hpop. cbn [val].
  assert (Hdead : forall u v, choose_wait u v <> WExec).
  { intros u v. unfold choose_wait, CHECK_STATUS_TIME. zbool; simpl; done || lia. }
  repeat (case_match || rewrite outcome_bind_ret); intros [= <- <- <-] Hin; boolify;
    try (by set_solver); try (by edestruct Hdead);
    assert (EvExec f a = EvExec (ex_fp e) (ex_arg e)) as [= -> ->] by set_solver;
    exists x, (ex_interval e), es; (split; [by destruct e|]; split; [done|]); lia.
Qed.

(** A sleep of the execution loop lasts at most six seconds, except that
    it lasts 2^32 - 1 seconds when the clock reaches the offset of the next call
    between the two readings, in the last five seconds of the hour. *)
Theorem inner_step_sleep_bound r b s bks es p s' evs n :
  sched_rep s bks es -> inner_step r b s = Ret (p, s', evs) -> EvSleep n ∈ evs ->
  0 <= n <= CHECK_STATUS_TIME \/
  n = 2 ^ 32 - 1 /\ exists x e es', es = (x, e) :: es' /\
    UI32 (ex_interval e) = seconds_in_hour (rd2 r) /\
    NO_SECS_IN_HOUR - CHECK_STATUS_TIME < seconds_in_hour (rd2 r).
Proof.
  intros Hr. unfold inner_step.
  destruct (Z.eqb_spec (pHead (gExecList s)) NULL) as [Hn|Hn]; [intros [= <- <- <-]; set_solver|].
  destruct (gbStopScheduler s); [intros [= <- <- <-]; set_solver|].
  destruct es as [|[x e] es]; [by destruct Hr as [_ _ (Hl & _) _]|].
  destruct (pop_exec_spec _ _ _ _ _ Hr) as (s1 & Hpop & Hr1 & _ & -> & ->).
  rewrite outcome_bind_ret, Hpop. cbn [val].
  set (iv := ex_interval e). set (now2 := seconds_in_hour (rd2 r)).
  assert (Hrange : 0 <= UI32 (iv - now2) < 2 ^ 32) by apply UI32_range.
  assert (Hzero : UI32 (iv - now2) = 0 -> UI32 iv = now2).
  { intros Hz. pose proof (UI32_range (tm_min (rd2 r) * NO_SECS_IN_MIN + tm_sec (rd2 r))) as Hb.
    fold (seconds_in_hour (rd2 r)) in Hb. fold now2 in Hb. unfold UI32 in *.
    apply Z.mod_divide in Hz as [k Hk]; [|lia].
    replace iv with (now2 + k * 2 ^ 32) by lia. rewrite Z.mod_add by lia.
    apply Z.mod_small. lia. }
  assert (Hw : forall m, choose_wait (UI32 (iv - now2)) now2 = WSleep m ->
    0 <= m <= CHECK_STATUS_TIME \/
    m = 2 ^ 32 - 1 /\ UI32 (iv - now2) = 0 /\ NO_SECS_IN_HOUR - CHECK_STATUS_TIME < now2).
  { intros m. unfold choose_wait, CHECK_STATUS_TIME in *.
    set (u := UI32 (iv - now2)) in *. clearbody u.
    zbool; simpl; intros [= <-]; try lia;
      try (left; rewrite UI32_id; lia);
      (destruct (Z.eq_dec u 0) as [->|Hu]; [right; split_and!; [reflexivity|lia|lia]|left; rewrite UI32_id; lia]). }
  destruct (iv <? seconds_in_hour (rd1 r)); [intros [= <- <- <-]; set_solver|].
  destruct (seconds_in_hour (rd1 r) =? iv); [intros [= <- <- <-]; set_solver|].
  destruct (_ && _).
  { rewrite outcome_bind_ret. destruct (_ =? 0); intros [= <- <- <-] Hin; [|by set_solver].
    assert (EvSleep n = EvSleep 1) as [= ->] by set_solver. left. unfold CHECK_STATUS_TIME. lia. }
  destruct (choose_wait (UI32 (iv - now2)) now2) as [m|] eqn:Hc.
  - intros [= <- <- <-] Hin. assert (EvSleep n = EvSleep m) as [= ->] by set_solver.
    destruct (Hw m eq_refl) as [?|(-> & Hz & ?)]; [by left|right].
    split; [done|]. exists x, e, es. auto.
  - rewrite outcome_bind_ret. destruct (_ =? 0); intros [= <- <- <-] Hin; [|by set_solver].
    assert (EvSleep n = EvSleep 1) as [= ->] by set_solver. left. unfold CHECK_STATUS_TIME. lia.
Qed.
End Timing.

(** ** Examples on the small scheduler *)
Section Witnesses.
#[local] Existing Instance bump_allocator.

Lemma rebuild_schedules_due_tasks_witness :
  timetable morning [(1, half_hourly)] [(2, once_2005)] =
    [MkExec 501 601 1800; MkExec 501 601 3600; MkExec 504 604 2700] /\
  exists s' evs (es' : list (Z * execTask)),
    rebuild_run demo_clock (At (PRebuild morning), demo2) evs
      (At (if bool_decide (es' = []) then PTop false else PInner false), s') /\
    es'.*2 ≡ₚ timetable morning [(1, half_hourly)] [(2, once_2005)].
Proof.
  split; [by vm_compute|].
  destruct (rebuild_schedules_due_tasks demo_clock morning demo2 demo2_bks []
    [(1, half_hourly)] [(2, once_2005)] demo2_rep bump_total morning_ok
    (or_introl eq_refl) eq_refl eq_refl)
    as (s' & evs & es' & Hrun & _ & _ & Hp & _).
  - apply Forall_singleton. split; [reflexivity|]. split; [by right|]. by vm_compute.
  - exists s', evs, es'. exact (conj Hrun Hp).
Defined.

Lemma SortExecutionList_stable_sort_witness :
  isort demo3_es = demo3_es /\
  exists s', SortExecutionList demo3 = Ret s' /\ sched_rep s' demo2_bks (isort demo3_es).
Proof.
  split; [reflexivity|].
  destruct (SortExecutionList_stable_sort demo3 demo2_bks demo3_es demo3_rep) as (s' & Hs & Hr & _).
  - by repeat constructor.
  - apply bump_total.
  - exists s'. exact (conj Hs Hr).
Defined.

(** Half past nine. *)
Definition half_past : tm := Tm 0 30 9 3 4 105 2.
Definition at_half_past : readings := Readings half_past half_past (fun _ => half_past) 100.

Definition demo4 : sched :=
  match inner_step at_half_past false demo3 with Ret (_, s, _) => s | _ => blank end.

Lemma demo4_step :
  inner_step at_half_past false demo3 = Ret (PInner false, demo4, [EvExec 501 601]).
Proof. vm_compute. reflexivity. Qed.

Lemma inner_step_on_time_witness :
  exists x iv es', demo3_es = (x, MkExec 501 601 iv) :: es' /\
    (seconds_in_hour half_past = iv \/
     iv = NO_SECS_IN_HOUR /\ seconds_in_hour half_past = NO_SECS_IN_HOUR - 1).
Proof.
  destruct (inner_step_on_time at_half_past false demo3 demo2_bks demo3_es (PInner false)
    demo4 [EvExec 501 601] 501 601 demo3_rep demo4_step (list_elem_of_here _ _))
    as (x & iv & es' & Heq & _ & Ht).
  by exists x, iv, es'.
Defined.

(** The list of one call at 3598 seconds; the clock moves from 3597 to 3598
    between the two readings. *)
Definition late_task : stTask :=
  MkTask no_date no_date (MkTime 9 59 58) no_time SCH_PERIODIC SCH_DAY 0 SCH_ALL_DAYS 507 607.
Definition late1 : sched := state_of (SCH_AddTask morning late_task demo0).
Definition late2 : sched := state_of (AddToExecutionList late_task 3598 late1).
Definition at_59_57 : readings :=
  Readings (Tm 57 59 9 3 4 105 2) (Tm 58 59 9 3 4 105 2) (fun _ => morning) 0.

Lemma late2_rep : sched_rep late2 (spec_add 9 1 late_task (replicate 25 [])) [(2, MkExec 507 607 3598)].
Proof.
  destruct (AddTask_accepted morning late_task demo0 _ _ 9 demo0_rep eq_refl ltac:(lia))
    as (s' & Heq & Hok).
  assert (Hr : sched_rep late1 (spec_add 9 1 late_task (replicate 25 [])) []).
  { replace late1 with s'; [by apply Hok|]. vm_compute in Heq. injection Heq as <-. reflexivity. }
  destruct (AddToExecutionList_grown late_task 3598 late1 _ []
    (conj Hr (slot_rep_empty _))) as (st & s2 & es & Heq2 & Hg).
  pose proof (f_equal state_of Heq2) as Hs. cbn [state_of] in Hs.
  destruct Hg as [[Hr2 _] _ (new & -> & _ & Hnew)]. specialize (Hnew bump_total).
  rewrite <- Hs in Hr2. fold late2 in Hr2. cbn [app] in Hr2.
  destruct new as [|[x e] [|]]; try done. injection Hnew as ->.
  destruct Hr2 as [Hm Hl He Hd]. split; [done|done| |done].
  pose proof He as ((Hx & _) & _). vm_compute in Hx. subst x. exact He.
Qed.

Lemma late2_step :
  inner_step at_59_57 false late2 = Ret (PWoken false, late2, [EvUnlock; EvSleep 4294967295]).
Proof. vm_compute. reflexivity. Qed.

Lemma inner_step_sleep_bound_witness : UI32 3598 = seconds_in_hour (rd2 at_59_57).
Proof.
  destruct (inner_step_sleep_bound at_59_57 false late2 _ _ (PWoken false) late2
    [EvUnlock; EvSleep 4294967295] 4294967295 late2_rep late2_step)
    as [Hn|(_ & x & e & es' & Heq & Hu & _)].
  - right. left.
  - unfold CHECK_STATUS_TIME in Hn. lia.
  - injection Heq as <- <- <-. exact Hu.
Defined.
End Witnesses.
