(* ===== verification/SchedEdge.v ===== *)
(** * Edge cases of the scheduler

    Interval tasks over the hour, the clean-up of one-shot tasks, stopping, and
    the inputs on which NASCenter_Scheduler.c departs from what its comments
    say. *)

From S2P Require Import Prelude Heap ListSort CTypes SchedTypes SchedMaster SchedTable.
From S2P Require Import SchedApi SchedBuild SchedLoop SchedSafe SchedDemo.
From S2P Require Import SchedTiming.
#[local] Open Scope Z_scope.

(** The thread alone, for [n] steps. *)
Fixpoint run_thread `{Allocator} (n : nat) (rd : nat -> readings) (p : point) (s : sched)
    : outcome (point * sched * list event) :=
  match n with
  | O => mret (p, s, [])
  | S n =>
      '(p1, s1, e1) ← thread_step (rd 0%nat) p s;
      '(p2, s2, e2) ← run_thread n (fun k => rd (S k)) p1 s1;
      mret (p2, s2, e1 ++ e2)
  end.

(** The weekday and periodicity tests of an interval task. *)
Definition interval_day (now : tm) (t : stTask) : bool :=
  (ePCity t =? SCH_SEC_MIN_HOUR) && day_matches now t.

Lemma exec_count_skip now t n :
  interval_day now t = false -> exec_count now t n = Some (ui32Interval t, n).
Proof. unfold exec_count, interval_day. by intros ->. Qed.

(** An interval of at most an hour is scheduled at each of its multiples
    in the hour, and nowhere else, whatever tasks precede it in the table. *)
Theorem short_interval_calls now t n :
  interval_day now t = true -> 0 < ui32Interval t <= NO_SECS_IN_HOUR ->
  exists iv m, exec_count now t n = Some (iv, m) /\
  forall e, e ∈ calls t iv m <->
    exists k, 1 <= k /\ k * ui32Interval t <= NO_SECS_IN_HOUR /\
      e = MkExec (fp t) (vpArg t) (k * ui32Interval t).
Proof.
  intros Hday Hiv. unfold exec_count. unfold interval_day in Hday. rewrite Hday.
  destruct (Z.ltb_spec 0 (ui32Interval t)); [|lia].
  destruct (Z.leb_spec (ui32Interval t) NO_SECS_IN_HOUR); [|lia]. simpl.
  eexists _, _. split; [done|]. intros e. by apply calls_spec.
Qed.

Lemma end_hour_early now : 0 <= tm_hour now <= 17 ->
  end_hour_in_sec now = (tm_hour now + 1) * 3600.
Proof.
  intros Hh. unfold end_hour_in_sec, NO_SECS_IN_HOUR.
  rewrite (UI16_id (tm_hour now * 3600)) by lia. rewrite UI16_id by lia. lia.
Qed.

Lemma end_hour_late now : 18 <= tm_hour now <= 23 ->
  end_hour_in_sec now = (tm_hour now + 1) * 3600 - 65536.
Proof.
  intros Hh. unfold end_hour_in_sec, NO_SECS_IN_HOUR, UI16.
  rewrite Zplus_mod_idemp_l. symmetry. apply Z.mod_unique with 1; lia.
Qed.

(** For the hours 0 to 17, an interval of more than an hour is scheduled,
    once, exactly in the hours whose second half-open range (start, end] holds a
    multiple of it; but the offset is the mirror image of the multiple in the
    hour (an offset x where the multiple is x seconds before the end), except at
    the end of the hour. *)
Theorem long_interval_hours now t :
  interval_day now t = true -> 0 <= tm_hour now <= 17 ->
  NO_SECS_IN_HOUR < ui32Interval t <= NO_SECS_IN_DAY ->
  let start := tm_hour now * NO_SECS_IN_HOUR in
  let due k := start < k * ui32Interval t <= start + NO_SECS_IN_HOUR in
  (forall k, due k ->
     exec_count now t 0 =
     Some (let off := start + NO_SECS_IN_HOUR - k * ui32Interval t in
           if off =? 0 then NO_SECS_IN_HOUR else off, 1)) /\
  ((forall k, ~ due k) -> exec_count now t 0 = Some (ui32Interval t, 0)).
Proof.
  intros Hday Hh Hiv start due. unfold exec_count. unfold interval_day in Hday. rewrite Hday.
  unfold due, start, NO_SECS_IN_HOUR, NO_SECS_IN_DAY in *. clear due start.
  set (iv := ui32Interval t) in *. clearbody iv.
  destruct (Z.ltb_spec 0 iv); [|lia]. destruct (Z.leb_spec iv 3600); [lia|].
  destruct (Z.ltb_spec 3600 iv); [|lia]. destruct (Z.leb_spec iv 86400); [|lia]. cbn [andb].
  rewrite end_hour_early by done.
  set (h := tm_hour now) in *. clearbody h. split.
  - intros k Hk.
    assert (((h + 1) * 3600) mod iv = h * 3600 + 3600 - k * iv) as ->.
    { symmetry. apply Z.mod_unique with k; lia. }
    destruct (Z.ltb_spec (h * 3600 + 3600 - k * iv) 3600); [done|lia].
  - intros Hno. pose proof (Z.div_mod ((h + 1) * 3600) iv ltac:(lia)) as Hdm.
    pose proof (Z.mod_pos_bound ((h + 1) * 3600) iv ltac:(lia)) as Hb.
    destruct (Z.ltb_spec (((h + 1) * 3600) mod iv) 3600) as [Hlt|]; [|done].
    exfalso. apply (Hno (((h + 1) * 3600) / iv)). lia.
Qed.

(** A task with an interval of exactly one day, which should run at
    midnight, is scheduled in one hour of the day only: at 18:47:44, because
    the 16-bit end of the hour wraps from hour 18 on. *)
Theorem daily_interval_runs_at_18_47_44 now t :
  interval_day now t = true -> tm_ok now -> ui32Interval t = NO_SECS_IN_DAY ->
  exec_count now t 0 =
  if tm_hour now =? 18 then Some (47 * NO_SECS_IN_MIN + 44, 1) else Some (NO_SECS_IN_DAY, 0).
Proof.
  intros Hday (_ & _ & Hh & _) Hiv. unfold exec_count. unfold interval_day in Hday.
  rewrite Hday, Hiv. unfold NO_SECS_IN_HOUR, NO_SECS_IN_DAY, NO_SECS_IN_MIN. cbn [andb].
  change ((0 <? 86400) && (86400 <=? 3600)) with false.
  change ((3600 <? 86400) && (86400 <=? 86400)) with true. cbv iota.
  destruct (Z.le_gt_cases (tm_hour now) 17).
  - rewrite end_hour_early by lia. rewrite Z.mod_small by lia.
    destruct (Z.ltb_spec ((tm_hour now + 1) * 3600) 3600); [lia|].
    destruct (Z.eqb_spec (tm_hour now) 18); [lia|]. done.
  - rewrite end_hour_late by lia. rewrite Z.mod_small by lia.
    destruct (Z.eqb_spec (tm_hour now) 18) as [->|]; [reflexivity|].
    destruct (Z.ltb_spec ((tm_hour now + 1) * 3600 - 65536) 3600); [lia|done].
Qed.

(** An interval task that is not for today is scheduled all the same when
    one that is precedes it in the table: the count of calls of the first is
    still in [ui32NoOfExec], and the second is run at its own interval. *)
Theorem wrong_day_task_scheduled now a1 t1 a2 t2 rest hour :
  interval_day now t1 = true -> 0 < ui32Interval t1 <= NO_SECS_IN_HOUR ->
  day_matches now t2 = false ->
  MkExec (fp t2) (vpArg t2) (UI32 (ui32Interval t2))
    ∈ plan now ((a1, t1) :: (a2, t2) :: rest) hour.
Proof.
  intros Hday Hiv H2. unfold plan. cbn [plan_interval].
  assert (exec_count now t1 0 = Some (ui32Interval t1, NO_SECS_IN_HOUR / ui32Interval t1)) as ->.
  { unfold exec_count. unfold interval_day in Hday. rewrite Hday.
    destruct (Z.ltb_spec 0 (ui32Interval t1)); [|lia].
    destruct (Z.leb_spec (ui32Interval t1) NO_SECS_IN_HOUR); [done|lia]. }
  rewrite exec_count_skip by (unfold interval_day; by rewrite H2, andb_false_r).
  destruct (plan_interval now _ rest) as [l go].
  assert (Hin : MkExec (fp t2) (vpArg t2) (UI32 (ui32Interval t2)) ∈
    calls t2 (ui32Interval t2) (NO_SECS_IN_HOUR / ui32Interval t1)).
  { unfold calls. apply list_elem_of_fmap. exists 0. split.
    - by rewrite (UI32_id (0 + 1)), Z.mul_1_r by lia.
    - apply elem_of_seqZ. pose proof (Z.div_le_lower_bound NO_SECS_IN_HOUR (ui32Interval t1) 1).
      lia. }
  destruct go; rewrite !elem_of_app; auto.
Qed.

(** [ValidateTask] accepts exactly the tasks that satisfy the rules at the
    head of NASCenter_Scheduler.h, except that of a periodic task neither the
    start date nor the start time is examined. *)
Theorem ValidateTask_accepts now t :
  tm_ok now -> date_ok (StartDate t) ->
  ValidateTask now t = NASC_SUCCESS <->
  (eType t = SCH_PERIODIC \/
   eType t = SCH_ONE_SHOT /\ ~ day_before (StartDate t) now /\ time_ok (StartTime t)) /\
  (ePCity t = SCH_SEC_MIN_HOUR ->
     eType t = SCH_PERIODIC /\ ui32Interval t <> 0 /\ ui32Interval t <= NO_SECS_IN_DAY) /\
  weekday_ok t.
Proof.
  intros Hok Hd. rewrite ValidateTask_success, <- (date_expired_spec _ _ Hd Hok).
  destruct (date_expired (StartDate t) now); intuition congruence.
Qed.

Section Edge.
Context `{Allocator}.

(** A daily task with an hour of 25 or more passes validation, and
    [SCH_AddTask] then indexes the master table outside its 25 entries. *)
Theorem SCH_AddTask_out_of_range now t s bks es :
  sched_rep s bks es -> malloc (st_live s) <> NULL ->
  eType t = SCH_PERIODIC -> ePCity t = SCH_DAY -> SCH_SUN <= eWeekDay t <= SCH_ALL_DAYS ->
  25 <= ui16Hour (StartTime t) ->
  ValidateTask now t = NASC_SUCCESS /\ SCH_AddTask now t s = Crash.
Proof.
  intros Hr Hm Hty Hp Hw Hh.
  assert (Hv : ValidateTask now t = NASC_SUCCESS).
  { apply ValidateTask_success. unfold weekday_ok. rewrite Hp, Hty.
    unfold SCH_PERIODIC, SCH_DAY, SCH_SEC_MIN_HOUR, SCH_WEEK, SCH_MONTH in *.
    split; [by left|]. split; [lia|]. split; intros; lia. }
  split; [done|]. unfold SCH_AddTask, slot_index. rewrite bool_decide_eq_true_2 by done.
  rewrite Hp. cbn [negb]. change (SCH_DAY =? SCH_SEC_MIN_HOUR) with false.
  change ((SCH_DAY =? SCH_DAY) || (SCH_DAY =? SCH_WEEK) || (SCH_DAY =? SCH_MONTH)) with true.
  cbv iota zeta. rewrite (proj2 (Z.eqb_neq _ _) Hm). unfold table_get.
  destruct (Z.ltb_spec (ui16Hour (StartTime t)) 0); [lia|].
  rewrite lookup_ge_None_2; [done|].
  rewrite (Forall2_length _ _ _ (mr_slots _ _ _ (sr_master _ _ _ Hr))), (sr_length _ _ _ Hr).
  unfold MASTER_ARR_SIZE. lia.
Qed.

(** C39: when every one-shot task is past its date, [SCH_AutoCleanTask] ends,
    removes exactly those tasks from the table and frees their nodes. *)
Theorem SCH_AutoCleanTask_removes_one_shots fuel clock s bks es :
  sched_rep s bks es -> all_expired clock (concat bks) -> (size (st_mheap s) < fuel)%nat ->
  exists s', SCH_AutoCleanTask fuel clock s = Ret s' /\ sched_rep s' (spec_clean bks) es /\
    (forall id t, (id, t) ∈ concat (spec_clean bks) <->
       (id, t) ∈ concat bks /\ eType t <> SCH_ONE_SHOT) /\ same_exec s s'.
Proof.
  intros Hr Hex Hf.
  destruct (AutoClean_spec fuel clock s bks es Hr Hex Hf) as (s' & -> & Hr' & He).
  exists s'. split_and!; [done|done| |done]. intros id t. clear.
  induction bks as [|b bks IH]; [set_solver|]. unfold spec_clean in *. cbn [fmap list_fmap concat].
  rewrite !elem_of_app, list_elem_of_filter, IH. simpl. tauto.
Qed.

(** A one-shot task that is not past its date stops [SCH_AutoCleanTask]
    for good: the loop stays on its node, holding the master table's mutex, for
    as many iterations as the clock keeps the task current. *)
Theorem SCH_AutoCleanTask_stuck fuel clock s bks es id t :
  sched_rep s bks es -> (id, t) ∈ concat bks -> eType t = SCH_ONE_SHOT ->
  not_expired_until clock (25 * fuel) t ->
  SCH_AutoCleanTask fuel clock s = OutOfFuel.
Proof.
  intros [[Hs Hn _] Hlen _ _] Hin Ht Hne. unfold SCH_AutoCleanTask.
  by rewrite (clean_table_stuck fuel clock 0 _ _ bks id t); rewrite ?Hlen.
Qed.

(** Steps of a thread that has been told to stop. *)
Lemma top_stops r b s bks es :
  sched_rep s bks es -> gbStopScheduler s = true ->
  exists s', thread_step r (PTop b) s = Ret (PStopped, s', []) /\
    st_mheap s' = ∅ /\ st_eheap s' = ∅.
Proof.
  intros Hr Hst. assert (Hr0 : sched_rep (set_stop s false) bks es) by (by destruct Hr; split).
  cbn [thread_step]. unfold top_step. rewrite Hst.
  destruct (ClearExecutionList_spec _ _ _ Hr0) as (s1 & -> & [Hr1 _] & He1 & _).
  rewrite outcome_bind_ret.
  destruct (ClearMasterTable_spec _ _ _ Hr1) as (s2 & -> & Hm2 & _ & He2 & _).
  rewrite outcome_bind_ret. exists s2. by rewrite He2.
Qed.

Lemma inner_stops r b s :
  gbStopScheduler s = true ->
  exists evs, thread_step r (PInner b) s = Ret (PTop b, s, evs) /\ (forall f a, EvExec f a ∉ evs).
Proof.
  intros Hst. cbn [thread_step]. unfold inner_step. rewrite Hst.
  destruct (_ =? NULL); eexists; (split; [reflexivity|]); set_solver.
Qed.

Lemma run_stopped n rd s : run_thread n rd PStopped s = Ret (PStopped, s, []).
Proof. revert rd. induction n as [|n IH]; intros rd; [done|]. cbn. by rewrite IH. Qed.

(** From the head of either loop two steps are enough. *)
Lemma loops_stop n rd p s bks es b :
  sched_rep s bks es -> gbStopScheduler s = true -> p = PTop b \/ p = PInner b ->
  exists s' evs, run_thread (2 + n) rd p s = Ret (PStopped, s', evs) /\
    st_mheap s' = ∅ /\ st_eheap s' = ∅ /\ (forall f a, EvExec f a ∉ evs).
Proof.
  intros Hr Hst [->| ->].
  - destruct (top_stops (rd 0%nat) b s bks es Hr Hst) as (s1 & Ht & Hm & He).
    exists s1, []. change (2 + n)%nat with (S (S n)). cbn [run_thread].
    rewrite Ht, outcome_bind_ret. change (thread_step (rd 1%nat) PStopped s1) with
      (Ret (PStopped, s1, []) : outcome (point * sched * list event)).
    rewrite outcome_bind_ret, run_stopped. set_solver.
  - destruct (inner_stops (rd 0%nat) b s Hst) as (e1 & Hi & Hno).
    destruct (top_stops (rd 1%nat) b s bks es Hr Hst) as (s1 & Ht & Hm & He).
    exists s1, (e1 ++ [] ++ []). change (2 + n)%nat with (S (S n)). cbn [run_thread].
    rewrite Hi, outcome_bind_ret, Ht, outcome_bind_ret, run_stopped. set_solver.
Qed.

(** C38: once [SCH_StopScheduler] has set the flag, the thread, at whatever
    blocking point it is woken, ends within three steps without making another
    call, and every node of both tables has been freed.  If it was asleep before
    an hourly rebuild it builds the list first: then [malloc] must not fail, and
    the clean-up, if it is midnight, must end. *)
Theorem SCH_StopScheduler_frees p s bks es rd :
  sched_rep s bks es -> p <> PStopped ->
  (forall t, p = PRebuild t -> malloc_total /\ tm_ok (rd1 (rd 0%nat)) /\
    (midnight t = false \/ SCH_AutoCleanTask (rd_fuel (rd 0%nat)) (rd_clean (rd 0%nat))
                             (SCH_StopScheduler s) <> OutOfFuel)) ->
  exists s' evs, run_thread 3 rd p (SCH_StopScheduler s) = Ret (PStopped, s', evs) /\
    st_mheap s' = ∅ /\ st_eheap s' = ∅ /\ (forall f a, EvExec f a ∉ evs).
Proof.
  intros Hr Hp Hre. set (s0 := SCH_StopScheduler s) in *.
  assert (Hr0 : sched_rep s0 bks es) by (by destruct Hr; split).
  assert (Hmore : forall p1 s1 e1 b bks1 es1, thread_step (rd 0%nat) p s0 = Ret (p1, s1, e1) ->
    sched_rep s1 bks1 es1 -> gbStopScheduler s1 = true -> p1 = PTop b \/ p1 = PInner b ->
    (forall f a, EvExec f a ∉ e1) ->
    exists s' evs, run_thread 3 rd p s0 = Ret (PStopped, s', evs) /\
      st_mheap s' = ∅ /\ st_eheap s' = ∅ /\ (forall f a, EvExec f a ∉ evs)).
  { intros p1 s1 e1 b bks1 es1 Hs Hr1 Hst Hp1 Hno.
    destruct (loops_stop 0 (fun k => rd (S k)) p1 s1 bks1 es1 b Hr1 Hst Hp1)
      as (s' & e2 & Hrun & Hm & He & Hno2).
    exists s', (e1 ++ e2). change 3%nat with (S (2 + 0)). cbn [run_thread Nat.add] in *.
    rewrite Hs, outcome_bind_ret, Hrun. set_solver. }
  destruct p as [b|t|b|b|]; [by eapply (loops_stop 1); auto| |by eapply (loops_stop 1); auto| |done].
  - destruct (Hre t eq_refl) as (Ht & Hok & Hmid).
    destruct (rebuild_step_spec (rd 0%nat) t s0 bks es Hr0 Ht Hok Hmid)
      as (p1 & s1 & e1 & bks1 & every & hour & new & Hs & _ & _ & _ & _ & Hr1 & _ & Hst & Hp1 & Hno).
    eapply (Hmore p1 s1 e1 false); [exact Hs|exact Hr1|by rewrite Hst| |exact Hno].
    rewrite Hp1. destruct (bool_decide _); auto.
  - destruct (gbTaskChanged s0) eqn:Hch.
    + eapply (Hmore (PTop b) s0 [EvUnlock] b); [cbn [thread_step]; by rewrite Hch|done|done|by left|set_solver].
    + eapply (Hmore (PInner b) s0 [EvLock] b); [cbn [thread_step]; by rewrite Hch|done|done|by right|set_solver].
Qed.

(** [SCH_DeleteTask] does not withdraw a call that is already in the
    execution list: the deleted task's function is still called, with the
    argument its owner may have freed, when its offset comes. *)
Theorem deleted_task_still_called id s bks x e es r b :
  sched_rep s bks ((x, e) :: es) -> gbStopScheduler s = false ->
  seconds_in_hour (rd1 r) = ex_interval e ->
  exists st s' s'', SCH_DeleteTask id s = Ret (st, s') /\ id ∉ dom (tasks (spec_delete id bks)) /\
    sched_rep s' (spec_delete id bks) ((x, e) :: es) /\
    gbTaskChanged s' = gbTaskChanged s /\
    inner_step r b s' = Ret (PInner b, s'', [EvExec (ex_fp e) (ex_arg e)]).
Proof.
  intros Hr Hst Hsec.
  destruct (DeleteTask_spec id s bks _ Hr) as (s' & -> & Hr' & (He1 & He2 & He3) & Hch).
  destruct (pop_exec_spec _ _ _ _ _ Hr') as (s'' & Hpop & _ & _ & Hhd & Hld).
  eexists _, s', s''. split_and!; [done| |done|done|].
  - rewrite tasks_delete, dom_delete_L. set_solver.
  - assert (Hx : x <> NULL).
    { destruct Hr' as [_ _ (Hl & _) _]. eapply (lseg_nonnull _ _ _ _ x Hl). by left. }
    unfold inner_step. rewrite Hhd, (proj2 (Z.eqb_neq _ _) Hx), He3, Hst, Hld.
    rewrite outcome_bind_ret. cbn [val]. rewrite Hsec, Z.ltb_irrefl, Z.eqb_refl, Hpop. done.
Qed.
End Edge.

(** ** Examples on the small scheduler *)
Section Witnesses.
#[local] Existing Instance bump_allocator.

Lemma short_interval_calls_witness :
  MkExec 501 601 3600 ∈ calls half_hourly 1800 2.
Proof.
  destruct (short_interval_calls morning half_hourly 7 eq_refl ltac:(by vm_compute))
    as (iv & m & Heq & Hin).
  vm_compute in Heq. injection Heq as <- <-. apply Hin. exists 2. by vm_compute.
Defined.

(** Every 4000 seconds: the second run of the day is due at 4000, 400 seconds
    into hour 1, but is scheduled at 3200 seconds into it. *)
Definition every_4000 : stTask :=
  MkTask no_date no_date no_time no_time SCH_PERIODIC SCH_SEC_MIN_HOUR 4000 SCH_ALL_DAYS 508 608.
Definition one_oclock : tm := Tm 0 0 1 3 4 105 2.

Lemma long_interval_hours_witness : exec_count one_oclock every_4000 0 = Some (3200, 1).
Proof.
  destruct (long_interval_hours one_oclock every_4000) as [Hk _].
  - reflexivity.
  - simpl. lia.
  - by vm_compute.
  - rewrite (Hk 1); [reflexivity|]. by vm_compute.
Defined.

Definition six_pm : tm := Tm 0 0 18 3 4 105 2.

Lemma daily_interval_witness : exec_count six_pm every_day 0 = Some (2864, 1).
Proof.
  rewrite (daily_interval_runs_at_18_47_44 six_pm every_day); try reflexivity.
  unfold tm_ok. simpl. lia.
Defined.

Lemma wrong_day_task_scheduled_witness :
  day_matches morning sunday_100 = false /\
  MkExec 502 602 100 ∈ plan morning [(1, half_hourly); (2, sunday_100)] [].
Proof.
  split; [reflexivity|].
  apply (wrong_day_task_scheduled morning 1 half_hourly 2 sunday_100 [] []); by vm_compute.
Defined.

Lemma ValidateTask_accepts_witness : ValidateTask morning once_2005 = NASC_SUCCESS.
Proof.
  apply (proj2 (ValidateTask_accepts morning once_2005 morning_ok ltac:(unfold date_ok; simpl; lia))).
  split; [|split].
  - right. split; [reflexivity|]. split; [vm_compute; discriminate|].
    unfold time_ok. simpl. lia.
  - discriminate.
  - split; intros [|]; vm_compute; intuition discriminate.
Defined.

Lemma SCH_AddTask_out_of_range_witness : SCH_AddTask morning bad_hour demo2 = Crash.
Proof.
  apply (SCH_AddTask_out_of_range morning bad_hour demo2 demo2_bks [] demo2_rep); try reflexivity.
  - apply bump_total.
  - by vm_compute.
Defined.

(** Wednesday 4 May 2005. *)
Definition next_day : tm := Tm 1 0 0 4 4 105 3.

Lemma demo2_tasks id t : (id, t) ∈ concat demo2_bks -> t = half_hourly \/ t = once_2005.
Proof.
  change (concat demo2_bks) with [(2, once_2005); (1, half_hourly)].
  intros [[= -> ->]|[[= -> ->]|[]%not_elem_of_nil]%elem_of_cons]%elem_of_cons; auto.
Qed.

Lemma SCH_AutoCleanTask_removes_one_shots_witness :
  exists s', SCH_AutoCleanTask 3 (fun _ => next_day) demo2 = Ret s' /\
    sched_rep s' demo1_bks [].
Proof.
  destruct (SCH_AutoCleanTask_removes_one_shots 3 (fun _ => next_day) demo2 demo2_bks [] demo2_rep)
    as (s' & Heq & Hr & _).
  - intros id t [->| ->]%demo2_tasks Ht k; [discriminate|reflexivity].
  - vm_compute. lia.
  - exists s'. exact (conj Heq Hr).
Defined.

Lemma SCH_AutoCleanTask_stuck_witness :
  SCH_AutoCleanTask 1000 (fun _ => morning) demo2 = OutOfFuel.
Proof.
  apply (SCH_AutoCleanTask_stuck 1000 (fun _ => morning) demo2 demo2_bks [] 2 once_2005 demo2_rep);
    [by left|reflexivity|by intros k _].
Defined.

Lemma SCH_StopScheduler_frees_witness :
  exists s' evs,
    run_thread 3 (fun _ => demo_clock) (PWoken false) (SCH_StopScheduler demo3) =
      Ret (PStopped, s', evs) /\ st_mheap s' = ∅ /\ st_eheap s' = ∅.
Proof.
  destruct (SCH_StopScheduler_frees (PWoken false) demo3 demo2_bks demo3_es
    (fun _ => demo_clock) demo3_rep) as (s' & evs & Heq & Hm & He & _); [done|done|].
  exists s', evs. exact (conj Heq (conj Hm He)).
Defined.

Lemma deleted_task_still_called_witness :
  exists s' s'', SCH_DeleteTask 1 demo3 = Ret (NASC_SUCCESS, s') /\
    inner_step at_half_past false s' = Ret (PInner false, s'', [EvExec 501 601]).
Proof.
  destruct (deleted_task_still_called 1 demo3 demo2_bks 3 (MkExec 501 601 1800)
    [(5, MkExec 504 604 2700); (4, MkExec 501 601 3600)] at_half_past false demo3_rep)
    as (st & s' & s'' & Hd & _ & _ & _ & Hi); [reflexivity|reflexivity|].
  exists s', s''. split; [|exact Hi].
  rewrite Hd. do 2 f_equal. vm_compute in Hd. by injection Hd.
Defined.
End Witnesses.
