(* ===== verification/BlowfishProofs.v ===== *)
(** * The cipher decrypts what it encrypts, at either width of [u32]

    Two words are [low_eq] when they agree in their 32 low bits.  Every operation
    of Blowfish.v respects it, so the width of [unsigned long], the sign
    extension of input words and the uninitialised bytes of [data] never reach
    an output byte of a little-endian host.  A big-endian host of 32 bits has no
    such bits to ignore.  The rounds of [decrypt] undo those of [do_encrypt]. *)

From S2P Require Import Prelude CTypes Blowfish.
From Stdlib Require Import Setoid Morphisms.
#[local] Set Default Proof Using "All".

Definition low_eq (x y : Z) : Prop := x mod 2 ^ 32 = y mod 2 ^ 32.
Infix "≈" := low_eq (at level 70) : Z_scope.

#[export] Instance low_eq_equiv : Equivalence low_eq.
Proof. split; unfold low_eq; [intros x|intros x y|intros x y z]; congruence. Qed.

Lemma low_bits x y : x ≈ y <-> forall i, 0 <= i < 32 -> Z.testbit x i = Z.testbit y i.
Proof.
  unfold low_eq. split.
  - intros He i Hi. apply (f_equal (fun z => Z.testbit z i)) in He.
    by rewrite !Z.mod_pow2_bits_low in He by lia.
  - intros Hb. apply Z.bits_inj'. intros i Hi. destruct (Z.lt_ge_cases i 32).
    + rewrite !Z.mod_pow2_bits_low by lia. by apply Hb.
    + by rewrite !Z.mod_pow2_bits_high by lia.
Qed.

#[export] Instance lxor_low : Proper (low_eq ==> low_eq ==> low_eq) Z.lxor.
Proof.
  intros x x' Hx y y' Hy. apply low_bits. intros i Hi.
  rewrite !Z.lxor_spec, (proj1 (low_bits _ _) Hx i Hi), (proj1 (low_bits _ _) Hy i Hi). done.
Qed.

#[export] Instance add_low : Proper (low_eq ==> low_eq ==> low_eq) Z.add.
Proof.
  unfold low_eq. intros x x' Hx y y' Hy.
  rewrite Z.add_mod, Hx, Hy, <- Z.add_mod; lia.
Qed.

Lemma U_low w x : 32 <= w -> U w x ≈ x.
Proof.
  intros Hw. apply low_bits. intros i Hi. unfold U.
  apply Z.mod_pow2_bits_low. lia.
Qed.

(** The first four bytes of a word are its low ones, on both hosts alike. *)
Definition low_bytes_first {order : HostOrder} (w w' : Z) : Prop :=
  big_endian = false \/ w = 32 /\ w' = 32.

Lemma byte_of_low {order : HostOrder} w w' n x y :
  low_bytes_first w w' -> 0 <= n <= 3 -> x ≈ y -> byte_of w x n = byte_of w' y n.
Proof.
  intros Ho Hn Hxy. unfold byte_of.
  assert (exists k, 0 <= k <= 24 /\ byte_pos w n = k /\ byte_pos w' n = k) as (k & Hk & -> & ->).
  { unfold byte_pos. destruct Ho as [->|[-> ->]]; [|destruct big_endian].
    - exists (8 * n). lia.
    - exists (32 - 8 * (n + 1)). lia.
    - exists (8 * n). lia. }
  f_equal. apply Z.bits_inj'. intros i Hi.
  change 255 with (Z.ones 8). rewrite !Z.land_spec, !Z.shiftr_spec by lia.
  destruct (Z.lt_ge_cases i 8).
  - f_equal. apply (proj1 (low_bits _ _) Hxy). lia.
  - rewrite Z.ones_spec_high by lia. by rewrite !andb_false_r.
Qed.

(** ** Tables and contexts *)
Definition tab_eq (l l' : list Z) : Prop := Forall2 low_eq l l'.

Record ctx_eq (c c' : BLOWFISH_context) : Prop := {
  ce0 : tab_eq (s0 c) (s0 c'); ce1 : tab_eq (s1 c) (s1 c');
  ce2 : tab_eq (s2 c) (s2 c'); ce3 : tab_eq (s3 c) (s3 c');
  cep : tab_eq (p c) (p c')
}.

Lemma tab_eq_refl l : tab_eq l l.
Proof. induction l; constructor; [reflexivity|done]. Qed.

Lemma at_low l l' i : tab_eq l l' -> at_ l i ≈ at_ l' i.
Proof.
  intros Hl. revert i. induction Hl as [|x y l l' Hxy Hl IH]; intros [|i]; simpl;
    [reflexivity..|done|apply IH].
Qed.

Lemma tab_eq_insert l l' i v v' : tab_eq l l' -> v ≈ v' -> tab_eq (<[i := v]> l) (<[i := v']> l').
Proof. intros. by apply Forall2_insert. Qed.

(** One round, with the halves exchanged afterwards. *)
Definition round {order : HostOrder} (v : Z) (c : BLOWFISH_context) (x : Z * Z) (i : nat) : Z * Z :=
  let '(l, r) := R v c x.1 x.2 i in (r, l).

Section Widths.
Context {order : HostOrder}.
Variables w w' : Z.
Hypothesis Hw : 32 <= w.
Hypothesis Hw' : 32 <= w'.
Hypothesis Ho : low_bytes_first w w'.

Lemma F_low c c' x x' : ctx_eq c c' -> x ≈ x' -> F w c x ≈ F w' c' x'.
Proof.
  intros [H0 H1 H2 H3 _] Hx. unfold F. rewrite !U_low by done.
  rewrite !(byte_of_low w w' _ x x') by (done || lia).
  by repeat (apply add_low || apply lxor_low || apply at_low).
Qed.

Definition pair_eq (a b : Z * Z) : Prop := a.1 ≈ b.1 /\ a.2 ≈ b.2.

Lemma R_low c c' l l' r r' i :
  ctx_eq c c' -> l ≈ l' -> r ≈ r' -> pair_eq (R w c l r i) (R w' c' l' r' i).
Proof.
  intros Hc Hl Hr. pose proof (at_low _ _ i (cep _ _ Hc)) as Hp.
  assert (Hl2 : Z.lxor l (at_ (p c) i) ≈ Z.lxor l' (at_ (p c') i)) by by apply lxor_low.
  split; [done|]. apply lxor_low; [done|]. by apply F_low.
Qed.

Lemma round_low c c' x x' i :
  ctx_eq c c' -> pair_eq x x' -> pair_eq (round w c x i) (round w' c' x' i).
Proof.
  intros Hc [H1 H2]. destruct (R_low c c' x.1 x'.1 x.2 x'.2 i Hc H1 H2) as [Hl Hr].
  unfold round. destruct (R w c x.1 x.2 i), (R w' c' x'.1 x'.2 i). by split.
Qed.

Lemma rounds_low c c' ns x x' :
  ctx_eq c c' -> pair_eq x x' ->
  pair_eq (foldl (round w c) x ns) (foldl (round w' c') x' ns).
Proof.
  intros Hc. revert x x'. induction ns as [|i ns IH]; intros x x' Hx; simpl; [done|].
  apply IH. by apply round_low.
Qed.
End Widths.

Lemma foldl_step {A B} (f : A -> B -> A) x i l : foldl f x (i :: l) = foldl f (f x i) l.
Proof. reflexivity. Qed.

Section Rounds.
Context {order : HostOrder}.

Lemma round_R w c l r i a b : R w c l r i = (a, b) -> round w c (l, r) i = (b, a).
Proof. unfold round. cbn [fst snd]. by intros ->. Qed.

(** Run the two sides round by round. *)
Ltac run_rounds :=
  repeat (match goal with |- context [R ?w ?c ?a ?b ?i] =>
    is_var a; is_var b;
    let E := fresh "E" in
    destruct (R w c a b i) eqn:E; rewrite foldl_step, (round_R _ _ _ _ _ _ _ E); clear E end);
  reflexivity.

Lemma do_encrypt_rounds w c xl xr :
  do_encrypt w c xl xr =
  let '(l, r) := foldl (round w c) (xl, xr) (seq 0 16) in
  (Z.lxor r (at_ (p c) 17), Z.lxor l (at_ (p c) 16)).
Proof. unfold do_encrypt. cbn [seq]. run_rounds. Qed.

Lemma decrypt_rounds w c xl xr :
  decrypt w c xl xr =
  let '(l, r) := foldl (round w c) (xl, xr) (rev (seq 2 16)) in
  (Z.lxor r (at_ (p c) 0), Z.lxor l (at_ (p c) 1)).
Proof. unfold decrypt. cbn [seq rev app]. run_rounds. Qed.
End Rounds.

(** ** The rounds of [decrypt] undo those of [do_encrypt] *)
Section Inverse.
Context {order : HostOrder}.
Variables (w : Z) (c : BLOWFISH_context).

(** The state from which round [k + 1] of [decrypt] goes back to [x]. *)
Definition back (k : nat) (x : Z * Z) : Z * Z :=
  (Z.lxor x.2 (at_ (p c) (S k)), Z.lxor x.1 (at_ (p c) k)).

Lemma lxor_cancel x y : Z.lxor (Z.lxor x y) y = x.
Proof. by rewrite Z.lxor_assoc, Z.lxor_nilpotent, Z.lxor_0_r. Qed.

Lemma round_back k x :
  round w c (back (S k) (round w c x k)) (S (S k)) = back k x.
Proof.
  destruct x as [l r]. unfold round, back, R. cbn [fst snd].
  rewrite lxor_cancel. f_equal.
  rewrite Z.lxor_assoc, (Z.lxor_comm (at_ (p c) (S k))), <- Z.lxor_assoc, lxor_cancel. done.
Qed.

Lemma rounds_back n x :
  foldl (round w c) (back n (foldl (round w c) x (seq 0 n))) (rev (seq 2 n)) = back 0 x.
Proof.
  induction n as [|n IH]; [done|].
  rewrite !seq_S, rev_app_distr, !foldl_app. cbn [rev app foldl].
  change (2 + n)%nat with (S (S n)). change (0 + n)%nat with n.
  by rewrite round_back.
Qed.

Lemma decrypt_encrypt xl xr :
  let '(a, b) := do_encrypt w c xl xr in decrypt w c a b = (xl, xr).
Proof.
  rewrite do_encrypt_rounds. pose proof (rounds_back 16 (xl, xr)) as Hb.
  destruct (foldl (round w c) (xl, xr) (seq 0 16)) as [l r].
  rewrite decrypt_rounds. unfold back at 1 in Hb. cbn [fst snd] in Hb. rewrite Hb.
  unfold back. cbn [fst snd]. by rewrite !lxor_cancel.
Qed.
End Inverse.

Lemma bytes_low x y : x ≈ y -> bytes_of_word x = bytes_of_word y.
Proof.
  intros Hxy. assert (Hb : forall n, 0 <= n <= 24 ->
    Z.land (Z.shiftr x n) 255 = Z.land (Z.shiftr y n) 255).
  { intros n Hn. apply Z.bits_inj'. intros i Hi.
    change 255 with (Z.ones 8). rewrite !Z.land_spec, !Z.shiftr_spec by lia.
    destruct (Z.lt_ge_cases i 8).
    - f_equal. apply (proj1 (low_bits _ _) Hxy). lia.
    - rewrite Z.ones_spec_high by lia. by rewrite !andb_false_r. }
  unfold bytes_of_word. pose proof (Hb 0 ltac:(lia)) as H0. rewrite !Z.shiftr_0_r in H0.
  by rewrite H0, !Hb by lia.
Qed.

Section Widths2.
Context {order : HostOrder}.
Variables w w' : Z.
Hypothesis Hw : 32 <= w.
Hypothesis Hw' : 32 <= w'.
Hypothesis Ho : low_bytes_first w w'.

Lemma do_encrypt_low c c' l l' r r' :
  ctx_eq c c' -> l ≈ l' -> r ≈ r' ->
  pair_eq (do_encrypt w c l r) (do_encrypt w' c' l' r').
Proof.
  intros Hc Hl Hr. rewrite !do_encrypt_rounds.
  destruct (rounds_low w w' Hw Hw' Ho c c' (seq 0 16) (l, r) (l', r') Hc (conj Hl Hr)) as [H1 H2].
  destruct (foldl _ (l, r) _), (foldl _ (l', r') _). simpl in *.
  pose proof (at_low _ _ 17 (cep _ _ Hc)). pose proof (at_low _ _ 16 (cep _ _ Hc)).
  split; by apply lxor_low.
Qed.

Lemma decrypt_low c c' l l' r r' :
  ctx_eq c c' -> l ≈ l' -> r ≈ r' -> pair_eq (decrypt w c l r) (decrypt w' c' l' r').
Proof.
  intros Hc Hl Hr. rewrite !decrypt_rounds.
  destruct (rounds_low w w' Hw Hw' Ho c c' (rev (seq 2 16)) (l, r) (l', r') Hc (conj Hl Hr)) as [H1 H2].
  destruct (foldl _ (l, r) _), (foldl _ (l', r') _). simpl in *.
  pose proof (at_low _ _ 0 (cep _ _ Hc)). pose proof (at_low _ _ 1 (cep _ _ Hc)).
  split; by apply lxor_low.
Qed.

Lemma word_low b : word_of_bytes w b ≈ word_of_bytes w' b.
Proof. unfold word_of_bytes. by rewrite !U_low by done. Qed.

Lemma encrypt_block_low c c' b :
  ctx_eq c c' -> encrypt_block w c b = encrypt_block w' c' b.
Proof.
  intros Hc. unfold encrypt_block.
  destruct (do_encrypt_low c c' _ _ _ _ Hc (word_low b) (word_low (drop 4 b))) as [H1 H2].
  destruct (do_encrypt w c _ _), (do_encrypt w' c' _ _). cbn [fst snd] in *.
  by rewrite (bytes_low _ _ H1), (bytes_low _ _ H2).
Qed.

Lemma decrypt_block_low c c' b :
  ctx_eq c c' -> decrypt_block w c b = decrypt_block w' c' b.
Proof.
  intros Hc. unfold decrypt_block.
  destruct (decrypt_low c c' _ _ _ _ Hc (word_low b) (word_low (drop 4 b))) as [H1 H2].
  destruct (decrypt w c _ _), (decrypt w' c' _ _). cbn [fst snd] in *.
  by rewrite (bytes_low _ _ H1), (bytes_low _ _ H2).
Qed.

(** ** Key setup *)
Lemma unwritten_low v j i :
  big_endian = false \/ v = 32 -> 0 <= i < 32 -> Z.testbit (unwritten v j) i = false.
Proof.
  intros Hv Hi. unfold unwritten. destruct Hv as [->| ->].
  - apply Z.shiftl_spec_low. lia.
  - destruct big_endian; [|apply Z.shiftl_spec_low; lia].
    rewrite Z.sub_diag, Z.pow_0_r, Z.mod_1_r. apply Z.testbit_0_l.
Qed.

Lemma key_data_low j1 j2 key j : key_data w j1 key j ≈ key_data w' j2 key j.
Proof.
  unfold key_data. rewrite !U_low by done. apply low_bits. intros i Hi.
  rewrite !(Z.lor_spec (unwritten _ _)), !unwritten_low by (lia || by destruct Ho as [|[]]; [left|right]).
  unfold byte_pos. destruct Ho as [->|[-> ->]]; done.
Qed.

Lemma mix_key_low j1 j2 key j l : tab_eq (mix_key w j1 key j l) (mix_key w' j2 key j l).
Proof.
  revert j. induction l as [|x l IH]; intros j; simpl; constructor; [|apply IH].
  apply lxor_low; [reflexivity|apply key_data_low].
Qed.

Lemma fill_low upd n i c c' l l' r r' :
  (forall i v v' c c', ctx_eq c c' -> v ≈ v' -> ctx_eq (upd i v c) (upd i v' c')) ->
  ctx_eq c c' -> l ≈ l' -> r ≈ r' ->
  let a := fill w upd n i c l r in let b := fill w' upd n i c' l' r' in
  ctx_eq a.1.1 b.1.1 /\ a.1.2 ≈ b.1.2 /\ a.2 ≈ b.2.
Proof.
  intros Hupd. revert i c c' l l' r r'. induction n as [|n IH]; intros i c c' l l' r r' Hc Hl Hr.
  { by split_and!. }
  cbn [fill]. destruct (do_encrypt_low c c' _ _ _ _ Hc Hl Hr) as [H1 H2].
  destruct (do_encrypt w c l r), (do_encrypt w' c' l' r'). simpl in *. apply IH; auto.
Qed.

Lemma fill_step upd n c c' x x' :
  (forall i v v' c c', ctx_eq c c' -> v ≈ v' -> ctx_eq (upd i v c) (upd i v' c')) ->
  ctx_eq c c' -> x.1 ≈ x'.1 -> x.2 ≈ x'.2 ->
  exists d d' y y', fill w upd n 0 c x.1 x.2 = (d, y.1, y.2) /\
    fill w' upd n 0 c' x'.1 x'.2 = (d', y'.1, y'.2) /\
    ctx_eq d d' /\ y.1 ≈ y'.1 /\ y.2 ≈ y'.2.
Proof.
  intros Hu Hc H1 H2. destruct (fill_low upd n 0 c c' _ _ _ _ Hu Hc H1 H2) as (Ha & Hb & Hd).
  destruct (fill w upd n 0 c x.1 x.2) as [[d a] b], (fill w' upd n 0 c' x'.1 x'.2) as [[d' a'] b'].
  by exists d, d', (a, b), (a', b').
Qed.

Definition upd_low (upd : nat -> Z -> BLOWFISH_context -> BLOWFISH_context) : Prop :=
  forall i v v' c c', ctx_eq c c' -> v ≈ v' -> ctx_eq (upd i v c) (upd i v' c').

Ltac upd_low :=
  intros i v v' c c' [] Hv; split; cbn [s0 s1 s2 s3 p upd_p upd_s0 upd_s1 upd_s2 upd_s3];
  first [assumption | by apply tab_eq_insert].

Lemma upd_p_low : upd_low upd_p.
Proof. upd_low. Qed.
Lemma upd_s0_low : upd_low upd_s0.
Proof. upd_low. Qed.
Lemma upd_s1_low : upd_low upd_s1.
Proof. upd_low. Qed.
Lemma upd_s2_low : upd_low upd_s2.
Proof. upd_low. Qed.
Lemma upd_s3_low : upd_low upd_s3.
Proof. upd_low. Qed.

(** The key setup after the key was mixed in, from either context. *)
Lemma setkey_low j1 j2 key : ctx_eq (setkey w j1 key) (setkey w' j2 key).
Proof.
  unfold setkey.
  assert (H0 : ctx_eq (Bf ks0 ks1 ks2 ks3 (mix_key w j1 key 0 ps))
                      (Bf ks0 ks1 ks2 ks3 (mix_key w' j2 key 0 ps))).
  { split; [apply tab_eq_refl..|apply mix_key_low]. }
  generalize dependent (Bf ks0 ks1 ks2 ks3 (mix_key w j1 key 0 ps)). intros c0.
  generalize (Bf ks0 ks1 ks2 ks3 (mix_key w' j2 key 0 ps)). intros c0' H0. cbv zeta.
  destruct (fill_step upd_p 9 c0 c0' (0, 0) (0, 0) upd_p_low H0 (reflexivity _) (reflexivity _))
    as (d1 & e1 & y1 & z1 & H1 & H1' & Hc1 & Hl1 & Hr1).
  cbn [fst snd] in H1, H1'. rewrite H1, H1'. clear H1 H1'.
  destruct (fill_step upd_s0 128 d1 e1 y1 z1 upd_s0_low Hc1 Hl1 Hr1)
    as (d2 & e2 & y2 & z2 & H1 & H1' & Hc2 & Hl2 & Hr2). rewrite H1, H1'. clear H1 H1'.
  destruct (fill_step upd_s1 128 d2 e2 y2 z2 upd_s1_low Hc2 Hl2 Hr2)
    as (d3 & e3 & y3 & z3 & H1 & H1' & Hc3 & Hl3 & Hr3). rewrite H1, H1'. clear H1 H1'.
  destruct (fill_step upd_s2 128 d3 e3 y3 z3 upd_s2_low Hc3 Hl3 Hr3)
    as (d4 & e4 & y4 & z4 & H1 & H1' & Hc4 & Hl4 & Hr4). rewrite H1, H1'. clear H1 H1'.
  destruct (fill_step upd_s3 128 d4 e4 y4 z4 upd_s3_low Hc4 Hl4 Hr4)
    as (d5 & e5 & y5 & z5 & H1 & H1' & Hc5 & _). rewrite H1, H1'. exact Hc5.
Qed.
End Widths2.

(** The self test gives the same answer on every little-endian host. *)
Lemma selftest_low {order : HostOrder} w w' j1 j2 :
  32 <= w -> 32 <= w' -> low_bytes_first w w' -> selftest w j1 = selftest w' j2.
Proof.
  intros Hw Hw' Ho. unfold selftest.
  pose proof (setkey_low w w' Hw Hw' Ho j1 j2 alphabet) as H1.
  pose proof (setkey_low w w' Hw Hw' Ho j1 j2 key3) as H2.
  revert H1 H2.
  generalize (setkey w j1 alphabet) (setkey w' j2 alphabet) (setkey w j1 key3) (setkey w' j2 key3).
  intros c1 c1' c3 c3' H1 H2.
  generalize (fun b => encrypt_block_low w w' Hw Hw' Ho c1 c1' b H1)
    (fun b => decrypt_block_low w w' Hw Hw' Ho c1 c1' b H1)
    (fun b => encrypt_block_low w w' Hw Hw' Ho c3 c3' b H2)
    (fun b => decrypt_block_low w w' Hw Hw' Ho c3 c3' b H2).
  generalize (encrypt_block w c1) (decrypt_block w c1) (encrypt_block w c3) (decrypt_block w c3).
  intros e1 d1 e3 d3 E1 D1 E3 D3. by rewrite E1, D1, E3, D3.
Qed.
