(* ===== verification/BlowfishMessage.v ===== *)
(** * Blocks and messages: encrypt_block, NAS_Encrypt, NAS_Decrypt

    A block decrypts to itself, for every key and width of [u32], on the hosts
    where the first bytes of a word are its low ones; a message does
    as long as no block of its ciphertext but the last ends in a zero byte,
    which is what [NAS_Decrypt] takes for the end. *)

From S2P Require Import Prelude CTypes Blowfish BlowfishProofs.

Definition is_byte (b : Z) : Prop := 0 <= b < 256.

(** ** Words and bytes *)
Lemma byte_high b i : is_byte b -> 8 <= i -> Z.testbit b i = false.
Proof.
  intros Hb Hi. rewrite <- (Z.mod_small b (2 ^ 8)) by (unfold is_byte in Hb; lia).
  apply Z.mod_pow2_bits_high. lia.
Qed.

Lemma byte_bit d n i :
  0 <= n -> 0 <= i ->
  Z.testbit (Z.land (Z.shiftr d n) 255) i = (i <? 8) && Z.testbit d (i + n).
Proof.
  intros Hn Hi. change 255 with (Z.ones 8).
  rewrite Z.land_spec, Z.shiftr_spec, andb_comm by lia.
  destruct (Z.ltb_spec i 8); [by rewrite Z.ones_spec_low by lia|by rewrite Z.ones_spec_high by lia].
Qed.

Lemma byte_is_byte d n : is_byte (Z.land (Z.shiftr d n) 255).
Proof.
  unfold is_byte. change 255 with (Z.ones 8). rewrite Z.land_ones by lia.
  apply Z.mod_pos_bound. lia.
Qed.

Lemma I32_low x : I32 x ≈ x.
Proof.
  unfold low_eq, I32. rewrite (Z.mod_eq (x + 2 ^ 31)) by lia.
  set (q := (x + 2 ^ 31) / 2 ^ 32).
  replace (x + 2 ^ 31 - 2 ^ 32 * q - 2 ^ 31) with (x + - q * 2 ^ 32) by lia.
  apply Z_mod_plus_full.
Qed.

Lemma word_val w b0 b1 b2 b3 t :
  32 <= w ->
  word_of_bytes w (b0 :: b1 :: b2 :: b3 :: t) ≈
  Z.lor (Z.lor (Z.lor (Z.shiftl b0 24) (Z.shiftl b1 16)) (Z.shiftl b2 8)) b3.
Proof. intros Hw. unfold word_of_bytes. by rewrite (U_low w _ Hw), I32_low. Qed.

Lemma word_of_bytes_of_word w d t : 32 <= w -> word_of_bytes w (bytes_of_word d ++ t) ≈ d.
Proof.
  intros Hw. unfold bytes_of_word. cbn [app]. rewrite word_val by done.
  rewrite <- (Z.shiftr_0_r d) at 4. apply low_bits. intros i Hi.
  rewrite !Z.lor_spec, !Z.shiftl_spec, (byte_bit d 0 i) by lia.
  assert (Hb : forall n, 0 <= n -> Z.testbit (Z.land (Z.shiftr d n) 255) (i - n) =
    (0 <=? i - n) && (i - n <? 8) && Z.testbit d i).
  { intros n Hn. destruct (Z.leb_spec 0 (i - n)).
    - rewrite byte_bit by lia. by rewrite Z.sub_add.
    - by rewrite Z.testbit_neg_r by lia. }
  rewrite !Hb, Z.add_0_r by lia.
  zbool; try lia; by destruct (Z.testbit d i).
Qed.

Lemma bytes_of_word_of_bytes w b0 b1 b2 b3 t :
  32 <= w -> is_byte b0 -> is_byte b1 -> is_byte b2 -> is_byte b3 ->
  bytes_of_word (word_of_bytes w (b0 :: b1 :: b2 :: b3 :: t)) = [b0; b1; b2; b3].
Proof.
  intros Hw H0 H1 H2 H3. rewrite (bytes_low _ _ (word_val w b0 b1 b2 b3 t Hw)).
  set (x := Z.lor _ b3).
  assert (Hx : forall n b, 0 <= n -> is_byte b ->
    (forall i, 0 <= i < 8 -> Z.testbit x (i + n) = Z.testbit b i) ->
    Z.land (Z.shiftr x n) 255 = b).
  { intros n b Hn Hb He. apply Z.bits_inj'. intros i Hi. rewrite byte_bit by lia.
    destruct (Z.ltb_spec i 8); [by apply He|]. symmetry. by apply byte_high. }
  unfold bytes_of_word. rewrite <- (Z.shiftr_0_r x) at 4.
  rewrite (Hx 0 b3), (Hx 8 b2), (Hx 16 b1), (Hx 24 b0); try done; intros i Hi; unfold x;
    rewrite !Z.lor_spec, !Z.shiftl_spec by lia.
  - rewrite (byte_high b1), (byte_high b2), (byte_high b3) by (done || lia).
    rewrite !orb_false_r. f_equal. lia.
  - rewrite (Z.testbit_neg_r b0), (byte_high b2), (byte_high b3) by (done || lia).
    rewrite !orb_false_r, orb_false_l. f_equal. lia.
  - rewrite (Z.testbit_neg_r b0), (Z.testbit_neg_r b1), (byte_high b3) by (done || lia).
    rewrite !orb_false_r, orb_false_l. f_equal. lia.
  - rewrite (Z.testbit_neg_r b0), (Z.testbit_neg_r b1), (Z.testbit_neg_r b2) by lia.
    rewrite !orb_false_l. f_equal. lia.
Qed.

(** ** Blocks *)
Section Blocks.
Context {order : HostOrder}.

Lemma encrypt_block_length w c b : length (encrypt_block w c b) = 8%nat.
Proof. unfold encrypt_block. by destruct (do_encrypt w c _ _). Qed.

Lemma decrypt_block_length w c b : length (decrypt_block w c b) = 8%nat.
Proof. unfold decrypt_block. by destruct (decrypt w c _ _). Qed.

Lemma ctx_eq_refl c : ctx_eq c c.
Proof. split; apply tab_eq_refl. Qed.

Lemma block_roundtrip w c b :
  32 <= w -> low_bytes_first w w -> length b = 8%nat -> Forall is_byte b ->
  decrypt_block w c (encrypt_block w c b) = b.
Proof.
  intros Hw Ho Hlen Hb.
  do 8 (destruct b as [|? b]; [done|]). destruct b; [|done]. clear Hlen.
  repeat match goal with H : Forall _ (_ :: _) |- _ => apply Forall_cons in H as [? H] end.
  unfold encrypt_block. cbn [drop].
  set (x := word_of_bytes w _). set (y := word_of_bytes w [_; _; _; _]).
  pose proof (decrypt_encrypt w c x y) as Hde. destruct (do_encrypt w c x y) as [d1 d2].
  unfold decrypt_block. change (drop 4 (bytes_of_word d1 ++ bytes_of_word d2)) with (bytes_of_word d2).
  destruct (decrypt_low w w Hw Hw Ho c c _ _ _ _ (ctx_eq_refl c)
    (word_of_bytes_of_word w d1 (bytes_of_word d2) Hw)
    (word_of_bytes_of_word w d2 [] Hw)) as [E1 E2].
  rewrite app_nil_r in E2. rewrite Hde in E1, E2.
  rewrite app_nil_r in E1.
  destruct (decrypt w c (word_of_bytes w (bytes_of_word d1 ++ bytes_of_word d2))
    (word_of_bytes w (bytes_of_word d2))) as [a1 a2]. cbn [fst snd] in E1, E2.
  rewrite (bytes_low _ _ E1), (bytes_low _ _ E2). unfold x, y.
  by rewrite !bytes_of_word_of_bytes.
Qed.
End Blocks.

(** ** Buffers

    [block b i]: the eight bytes of a buffer at [i]. *)
Definition block (b : list Z) (i : nat) : list Z := take 8 (drop i b).

Lemma block_ext k a b :
  (8 * k <= length a)%nat -> (8 * k <= length b)%nat ->
  (forall j, (j < k)%nat -> block a (8 * j) = block b (8 * j)) ->
  take (8 * k) a = take (8 * k) b.
Proof.
  induction k as [|k IH]; intros Ha Hb He; [done|].
  replace (8 * S k)%nat with (8 * k + 8)%nat by lia.
  rewrite <- !take_take_drop, IH by (lia || intros; apply He; lia).
  f_equal. apply He. lia.
Qed.

Lemma get_block_Ret b i : (i + 8 <= length b)%nat -> get_block b i = Ret (block b i).
Proof. intros Hi. unfold get_block. by rewrite bool_decide_eq_true_2. Qed.

Lemma put_block_Ret b i blk :
  length blk = 8%nat -> (i + 8 <= length b)%nat ->
  put_block b i blk = Ret (take i b ++ blk ++ drop (i + 8) b).
Proof. intros Hl Hi. unfold put_block. rewrite Hl. by rewrite bool_decide_eq_true_2. Qed.

(** What a block store leaves of the buffer. *)
Lemma put_length b i (blk : list Z) :
  length blk = 8%nat -> (i + 8 <= length b)%nat ->
  length (take i b ++ blk ++ drop (i + 8) b) = length b.
Proof. intros Hl Hi. rewrite !length_app, length_take, length_drop. lia. Qed.

Lemma put_take b i (blk : list Z) :
  (i <= length b)%nat -> take i (take i b ++ blk ++ drop (i + 8) b) = take i b.
Proof. intros Hi. apply take_app_length'. rewrite length_take. lia. Qed.

Lemma put_drop b i (blk : list Z) :
  length blk = 8%nat -> (i + 8 <= length b)%nat ->
  drop (i + 8) (take i b ++ blk ++ drop (i + 8) b) = drop (i + 8) b.
Proof.
  intros Hl Hi. rewrite app_assoc. apply drop_app_length'.
  rewrite length_app, length_take. lia.
Qed.

Lemma put_here b i (blk : list Z) :
  length blk = 8%nat -> (i + 8 <= length b)%nat ->
  block (take i b ++ blk ++ drop (i + 8) b) i = blk.
Proof.
  intros Hl Hi. unfold block. rewrite drop_app_length' by (rewrite length_take; lia).
  apply take_app_length'. lia.
Qed.

Lemma block_take b c i k :
  (i + 8 <= k)%nat -> take k b = take k c -> block b i = block c i.
Proof.
  intros Hi He. unfold block.
  assert (Hd : forall l : list Z, take 8 (drop i l) = take 8 (drop i (take k l))).
  { intros l. by rewrite !take_drop_commute, take_take, Nat.min_l by lia. }
  by rewrite (Hd b), (Hd c), He.
Qed.

Section Messages.
Context {order : HostOrder}.
Variables (w : Z) (c : BLOWFISH_context).

(** *** Encryption *)
Lemma encrypt_blocks_spec k i out inb :
  (i + 8 * k <= length out)%nat -> (i + 8 * k <= length inb)%nat ->
  exists o, encrypt_blocks w c k i out inb = Ret o /\ length o = length out /\
    take i o = take i out /\
    forall j, (j < k)%nat ->
      block o (i + 8 * j) = encrypt_block w c (block inb (i + 8 * j)).
Proof.
  revert i out. induction k as [|k IH]; intros i out Ho Hi.
  { exists out. split_and!; [done..|lia]. }
  cbn [encrypt_blocks]. rewrite get_block_Ret, outcome_bind_ret by lia.
  set (e := encrypt_block w c (block inb i)).
  assert (He : length e = 8%nat) by apply encrypt_block_length.
  rewrite put_block_Ret, outcome_bind_ret by (done || lia).
  destruct (IH (i + 8)%nat (take i out ++ e ++ drop (i + 8) out))
    as (o & -> & Hlen & Htake & Hblk); [rewrite put_length by (done || lia); lia|lia|].
  rewrite put_length in Hlen by (done || lia).
  exists o. split_and!; [done|done| |].
  - apply (f_equal (take i)) in Htake. rewrite !take_take, Nat.min_l in Htake by lia.
    rewrite Htake. apply put_take. lia.
  - intros [|j] Hj.
    + rewrite Nat.add_0_r. rewrite (block_take _ _ i (i + 8) ltac:(lia) Htake).
      apply put_here; [done|lia].
    + replace (i + 8 * S j)%nat with (i + 8 + 8 * j)%nat by lia. apply Hblk. lia.
Qed.

(** *** Decryption *)

(** The loop decrypts blocks up to and including the first that ends in zero,
    and leaves the rest of the output buffer alone. *)
Lemma decrypt_blocks_spec k i out inb :
  (i + 8 * k <= length out)%nat -> (i + 8 * k <= length inb)%nat ->
  exists o, decrypt_blocks w c k i out inb = Ret o /\ length o = length out /\
    take i o = take i out /\
    (forall j, (j < k)%nat ->
       (forall j', (j' < j)%nat -> at_ inb (i + 8 * j' + 7) <> 0) ->
       block o (i + 8 * j) = decrypt_block w c (block inb (i + 8 * j))) /\
    (forall j, (j < k)%nat -> at_ inb (i + 8 * j + 7) = 0 ->
       drop (i + 8 * j + 8) o = drop (i + 8 * j + 8) out).
Proof.
  revert i out. induction k as [|k IH]; intros i out Ho Hi.
  { exists out. split_and!; [done..|lia|lia]. }
  cbn [decrypt_blocks]. rewrite get_block_Ret, outcome_bind_ret by lia.
  set (e := decrypt_block w c (block inb i)).
  assert (He : length e = 8%nat) by apply decrypt_block_length.
  rewrite put_block_Ret, outcome_bind_ret by (done || lia).
  replace (i + 8 - 1)%nat with (i + 8 * 0 + 7)%nat by lia.
  set (out1 := take i out ++ e ++ drop (i + 8) out).
  assert (Hl1 : length out1 = length out) by (apply put_length; [done|lia]).
  assert (Hd1 : forall n, (i + 8 <= n)%nat -> drop n out1 = drop n out).
  { intros n Hn. replace n with (i + 8 + (n - (i + 8)))%nat by lia.
    rewrite <- !(drop_drop _ _ (i + 8)). f_equal. apply put_drop; [done|lia]. }
  destruct (Z.eqb_spec (at_ inb (i + 8 * 0 + 7)) 0) as [Hz|Hz].
  - exists out1. split_and!; [done|done|apply put_take; lia| |].
    + intros [|j] Hj Hno; [|by specialize (Hno 0%nat ltac:(lia))].
      rewrite Nat.add_0_r. apply put_here; [done|lia].
    + intros j Hj _. apply Hd1. lia.
  - destruct (IH (i + 8)%nat out1) as (o & -> & Hlen & Htake & Hblk & Hdrop); [lia|lia|].
    exists o. split_and!; [done|lia| | |].
    + apply (f_equal (take i)) in Htake. rewrite !take_take, Nat.min_l in Htake by lia.
      rewrite Htake. apply put_take. lia.
    + intros [|j] Hj Hno.
      * rewrite Nat.add_0_r. rewrite (block_take _ _ i (i + 8) ltac:(lia) Htake).
        apply put_here; [done|lia].
      * replace (i + 8 * S j)%nat with (i + 8 + 8 * j)%nat by lia. apply Hblk; [lia|].
        intros j' Hj'. replace (i + 8 + 8 * j' + 7)%nat with (i + 8 * S j' + 7)%nat by lia.
        apply Hno. lia.
    + intros [|j] Hj Hz'; [done|].
      replace (i + 8 * S j + 8)%nat with (i + 8 + 8 * j + 8)%nat by lia.
      rewrite Hdrop; [apply Hd1; lia|lia|].
      by replace (i + 8 + 8 * j + 7)%nat with (i + 8 * S j + 7)%nat by lia.
Qed.
End Messages.

(** *** The padding of NAS_Encrypt *)
Lemma pad_zero_spec k i b :
  (i + k <= length b)%nat ->
  pad_zero k i b = Ret (take i b ++ replicate k 0 ++ drop (i + k) b).
Proof.
  revert i b. induction k as [|k IH]; intros i b Hb.
  { cbn. by rewrite Nat.add_0_r, take_drop. }
  cbn [pad_zero]. unfold put_at. rewrite bool_decide_eq_true_2, outcome_bind_ret by lia.
  rewrite IH by (rewrite length_insert; lia). f_equal.
  rewrite drop_insert_lt by lia. replace (S i + k)%nat with (i + S k)%nat by lia.
  rewrite (take_S_r _ i 0) by (apply list_lookup_insert_eq; lia).
  rewrite take_insert_ge by lia. by rewrite <- app_assoc.
Qed.

(** The number of bytes NAS_Encrypt produces for a message. *)
Definition padded (m : list Z) : nat := (length m / 8 * 8 + 8)%nat.

Lemma padded_bounds m :
  (length m < padded m)%nat /\ padded m = (8 * (padded m / 8))%nat.
Proof.
  unfold padded. pose proof (Nat.div_mod (length m) 8 ltac:(lia)).
  pose proof (Nat.mod_upper_bound (length m) 8 ltac:(lia)). split; [lia|].
  replace (length m / 8 * 8 + 8)%nat with ((length m / 8 + 1) * 8)%nat by lia.
  rewrite Nat.div_mul by lia. lia.
Qed.

Lemma NAS_Encrypt_spec {order : HostOrder} w c (m rest out : list Z) :
  Forall (fun b => b <> 0) m -> (padded m <= length (m ++ 0%Z :: rest))%nat ->
  (padded m <= length out)%nat ->
  exists o inb, NAS_Encrypt w c out (m ++ 0 :: rest) = Ret (o, inb) /\
    take (padded m) inb = m ++ replicate (padded m - length m) 0 /\
    length inb = length (m ++ 0 :: rest) /\ length o = length out /\
    forall j, (j < padded m / 8)%nat -> block o (8 * j) = encrypt_block w c (block inb (8 * j)).
Proof.
  intros Hm Hin Hout. unfold NAS_Encrypt.
  rewrite strlen_app, outcome_bind_ret by done. fold (padded m).
  destruct (padded_bounds m) as [Hlt H8].
  rewrite pad_zero_spec, outcome_bind_ret by lia.
  rewrite (take_app_length' m) by done.
  set (inb := m ++ replicate (padded m - length m) 0 ++ _).
  assert (Hlen : length inb = length (m ++ 0 :: rest)).
  { unfold inb. rewrite !length_app, length_replicate, length_drop, length_app. simpl.
    rewrite length_app in Hin. simpl in Hin. lia. }
  destruct (encrypt_blocks_spec w c (padded m / 8) 0 out inb) as (o & -> & Ho & _ & Hb); [lia|lia|].
  rewrite outcome_bind_ret. exists o, inb. split_and!; try done.
  unfold inb. rewrite app_assoc. apply take_app_length'.
  rewrite length_app, length_replicate. lia.
Qed.
