(* ===== verification/BlowfishProps.v ===== *)
(** * What the cipher guarantees

    The properties of blowfish.c; the examples use the key "TESTKEY" of its
    commented-out [main]. *)

From S2P Require Import Prelude CTypes Blowfish BlowfishProofs BlowfishMessage.

Section Hosts.
Context {order : HostOrder}.

(** C25: whatever the key, the width of [unsigned long] and the uninitialised
    bytes of [data], [decrypt_block] undoes [encrypt_block] on every block, on
    little-endian hosts and on big-endian ones of 32 bits.
    [wide_big_endian_loses_blocks] is a block that a big-endian host of 64 bits
    does not get back. *)
Theorem decrypt_block_encrypt_block w junk key b :
  32 <= w -> low_bytes_first w w -> length b = 8%nat -> Forall is_byte b ->
  decrypt_block w (setkey w junk key) (encrypt_block w (setkey w junk key) b) = b.
Proof. apply block_roundtrip. Qed.

(** C35: on a little-endian host the output does not depend on the width of
    [u32], 32 bits or more, on the sign extension of input words, or on
    uninitialised memory: each such build computes the blocks of the 32-bit one,
    and the self test, so [bf_setkey], succeeds on all of them.  The code tests a
    macro for the byte order that no build defines: for big-endian hosts see
    [big_endian_refuses_keys]. *)
Theorem output_independent_of_width w junk key b :
  big_endian = false -> 32 <= w ->
  encrypt_block w (setkey w junk key) b = encrypt_block 32 (setkey 32 0 key) b /\
  decrypt_block w (setkey w junk key) b = decrypt_block 32 (setkey 32 0 key) b /\
  selftest w junk = None /\
  bf_setkey w junk None key = (0, Some (setkey w junk key), Some None).
Proof.
  intros Ho Hw. assert (H32 : 32 <= 32) by lia.
  assert (Hb : low_bytes_first w 32) by by left.
  pose proof (setkey_low w 32 Hw H32 Hb junk 0 key) as Hk.
  assert (Hs : selftest w junk = None).
  { rewrite (selftest_low w 32 junk 0 Hw H32 Hb). unfold big_endian in Ho. subst order.
    vm_compute. reflexivity. }
  split_and!.
  - exact (encrypt_block_low w 32 Hw H32 Hb _ _ b Hk).
  - exact (decrypt_block_low w 32 Hw H32 Hb _ _ b Hk).
  - exact Hs.
  - unfold bf_setkey. rewrite Hs. reflexivity.
Qed.

(** C36: a message that fits the buffers comes back: [NAS_Encrypt] pads it with
    zeros to whole blocks, and if no block of the ciphertext before the last
    ends in a zero byte, [NAS_Decrypt] restores the padded message, so the
    receiver's string is the sender's.  The hosts are those of C25. *)
Theorem NAS_Decrypt_NAS_Encrypt w c (m rest out out2 : list Z) :
  32 <= w -> low_bytes_first w w -> Forall is_byte m -> Forall (fun b => b <> 0) m -> (padded m <= 2048)%nat ->
  (2048 <= length (m ++ 0%Z :: rest))%nat -> (2048 <= length out)%nat ->
  (2048 <= length out2)%nat ->
  exists o inb, NAS_Encrypt w c out (m ++ 0%Z :: rest) = Ret (o, inb) /\
    ((forall j, (j + 1 < padded m / 8)%nat -> at_ o (8 * j + 7) <> 0) ->
     exists o2, NAS_Decrypt w c out2 o = Ret o2 /\
       take (padded m) o2 = m ++ replicate (padded m - length m) 0 /\
       strlen o2 = Ret (length m)).
Proof.
  intros Hw Ho Hb Hnz Hfit Hin Hout Hout2.
  destruct (NAS_Encrypt_spec w c m rest out Hnz) as (o & inb & -> & Hpad & Hli & Hlo & Henc); [lia|lia|].
  exists o, inb. split; [done|]. intros Hno. destruct (padded_bounds m) as [Hlt H8].
  assert (Hb8 : Forall is_byte (take (padded m) inb)).
  { rewrite Hpad. apply Forall_app. split; [done|]. apply Forall_replicate. unfold is_byte. lia. }
  destruct (decrypt_blocks_spec w c 256 0 out2 o) as (o2 & Heq & Hlen & _ & Hdec & _); [lia|lia|].
  assert (Htake : take (padded m) o2 = take (padded m) inb).
  { rewrite H8. apply block_ext; [lia|lia|]. intros j Hj.
    specialize (Hdec j). rewrite !Nat.add_0_l in Hdec. rewrite Hdec; [|lia|intros; apply Hno; lia].
    rewrite Henc by done. apply block_roundtrip; [done|done| |].
    - unfold block. rewrite length_take, length_drop. lia.
    - rewrite (block_take inb (take (padded m) inb) (8 * j) (padded m)) by
        (lia || by rewrite take_take, Nat.min_id).
      unfold block. by apply Forall_take, Forall_drop. }
  exists o2. split; [exact Heq|]. rewrite Htake, Hpad. split; [done|].
  replace o2 with (take (padded m) o2 ++ drop (padded m) o2) by apply take_drop.
  rewrite Htake, Hpad, <- app_assoc.
  destruct (padded m - length m)%nat eqn:Hk; [lia|]. cbn [replicate app].
  by apply strlen_app.
Qed.

(** A ciphertext block that happens to end in a zero byte ends decryption:
    everything after it is left as the output buffer had it, so the rest of the
    message is lost. *)
Theorem NAS_Decrypt_stops_early w c (out inb : list Z) j :
  (2048 <= length out)%nat -> (2048 <= length inb)%nat -> (j < 256)%nat ->
  at_ inb (8 * j + 7) = 0 ->
  exists o2, NAS_Decrypt w c out inb = Ret o2 /\
    drop (8 * j + 8) o2 = drop (8 * j + 8) out.
Proof.
  intros Ho Hi Hj Hz.
  destruct (decrypt_blocks_spec w c 256 0 out inb) as (o2 & Heq & _ & _ & _ & Hd); [lia|lia|].
  exists o2. split; [exact Heq|]. by apply (Hd j).
Qed.

End Hosts.

(** ** Examples *)
Definition TESTKEY : list Z := [84; 69; 83; 84; 75; 69; 89].
#[local] Existing Instance little_endian.
Definition test_context : BLOWFISH_context := setkey 64 7 TESTKEY.

(** A big-endian host of 32 bits reads the bytes of words backwards: its blocks
    are not those of Blowfish, the self test notices, and [bf_setkey] refuses
    every key; without the self test it would decrypt its own blocks. *)
Theorem big_endian_refuses_keys key :
  selftest (order := BIG_ENDIAN) 32 0 = Some 1 /\
  (bf_setkey (order := BIG_ENDIAN) 32 0 None key).1.1 = -1.
Proof.
  assert (H : selftest (order := BIG_ENDIAN) 32 0 = Some 1) by (vm_compute; reflexivity).
  split; [exact H|]. unfold bf_setkey. by rewrite H.
Qed.

(** On a big-endian host of 64 bits [F] reads the upper halves of its words,
    which a block does not carry. *)
Example wide_big_endian_loses_blocks :
  let c := setkey (order := BIG_ENDIAN) 64 7 TESTKEY in
  decrypt_block (order := BIG_ENDIAN) 64 c (encrypt_block (order := BIG_ENDIAN) 64 c plain3) <> plain3 /\
  selftest (order := BIG_ENDIAN) 64 7 = Some 1.
Proof. vm_compute. split; congruence. Qed.

(** "TEST", and "MBCDEFGZ!", whose first block is encrypted to one that ends in
    zero. *)
Definition short_message : list Z := [84; 69; 83; 84].
Definition unlucky_message : list Z := [77; 66; 67; 68; 69; 70; 71; 90; 33].
Definition zeros : list Z := replicate 2048 0.

Lemma decrypt_block_encrypt_block_witness :
  decrypt_block 64 (setkey 64 7 TESTKEY) (encrypt_block 64 (setkey 64 7 TESTKEY) cipher3) = cipher3.
Proof.
  apply decrypt_block_encrypt_block; [lia|by left|reflexivity|].
  unfold cipher3, is_byte. repeat (apply Forall_cons; split; [lia|]). constructor.
Defined.

Lemma output_independent_of_width_witness : selftest 64 12345 = None.
Proof.
  exact (proj1 (proj2 (proj2 (output_independent_of_width 64 12345 TESTKEY plain3 eq_refl ltac:(lia))))).
Defined.

Lemma NAS_Decrypt_NAS_Encrypt_witness :
  exists o inb o2, NAS_Encrypt 64 test_context zeros (short_message ++ 0%Z :: zeros) = Ret (o, inb) /\
    NAS_Decrypt 64 test_context zeros o = Ret o2 /\ strlen o2 = Ret 4%nat.
Proof.
  assert (Hz : length zeros = 2048%nat) by apply length_replicate.
  destruct (NAS_Decrypt_NAS_Encrypt 64 test_context short_message zeros zeros zeros)
    as (o & inb & He & Hd).
  - lia.
  - by left.
  - unfold short_message, is_byte. repeat (apply Forall_cons; split; [lia|]). constructor.
  - unfold short_message. repeat (apply Forall_cons; split; [lia|]). constructor.
  - change (padded short_message) with 8%nat. lia.
  - rewrite length_app. simpl length at 2. lia.
  - lia.
  - lia.
  - destruct Hd as (o2 & Hd & _ & Hs).
    + intros j Hj. change (padded short_message / 8)%nat with 1%nat in Hj. lia.
    + exists o, inb, o2. exact (conj He (conj Hd Hs)).
Defined.

Definition unlucky_cipher : list Z :=
  match NAS_Encrypt 64 test_context zeros (unlucky_message ++ 0%Z :: zeros) with
  | Ret (o, _) => o
  | _ => []
  end.

Lemma NAS_Decrypt_stops_early_witness :
  at_ unlucky_cipher 7 = 0 /\
  exists o2, NAS_Decrypt 64 test_context zeros unlucky_cipher = Ret o2 /\
    drop 8 o2 = drop 8 zeros.
Proof.
  assert (Hz : at_ unlucky_cipher 7 = 0) by (vm_compute; reflexivity).
  split; [exact Hz|].
  apply (NAS_Decrypt_stops_early 64 test_context zeros unlucky_cipher 0).
  - replace (length zeros) with 2048%nat by (symmetry; apply length_replicate). lia.
  - replace (length unlucky_cipher) with 2048%nat by (vm_compute; reflexivity). lia.
  - lia.
  - exact Hz.
Defined.
