(* ===== verification/TrapQueue.v ===== *)
(** * The trap queues
      (the functions InitCBuffer, IsQueueEmpty, IsQueue_Full, ListenTrap and
      ProcessTrapMsg of the job scheduler, the backup manager, the access control
      and the application metering of src/Group2/Unix)

    A circular buffer between the SNMP callback that stores traps and the thread
    that parses them.  The programs have the same code up to the size of the
    buffer, [MAX_ELEMENT], and to what the callback does when the buffer is full:
    only that of the application metering returns ([drops]).  [PDU] is the type of
    trap messages, which the queue copies and never looks into. *)

From S2P Require Import Prelude CTypes.
From stdpp Require Import relations.
#[local] Open Scope Z_scope.

Section Queue.
Context {PDU : Type}.
Variables (MAX_ELEMENT : Z) (drops : bool).

(** [SCBuffer]; an entry the code set to [NULL] or never wrote is [None]. *)
Record SCBuffer := MkBuffer { iQRear : Z; iQFront : Z; queueEntry : list (option PDU) }.

Definition InitCBuffer (entries : list (option PDU)) : SCBuffer := MkBuffer (-1) 0 entries.

(** [%] of C, whose sign is that of the dividend. *)
Definition IsQueueEmpty (b : SCBuffer) : bool :=
  Z.rem (iQRear b + 1) MAX_ELEMENT =? iQFront b.
Definition IsQueue_Full (b : SCBuffer) : bool :=
  Z.rem (iQRear b + 2) MAX_ELEMENT =? iQFront b.

(** Whether the callback found the queue full, and the queue with the copy of
    the trap stored in it.  Unless it drops the trap, the callback goes on after
    it has unlocked a full queue. *)
Definition ListenTrap (pdu : PDU) (b : SCBuffer) : bool * SCBuffer :=
  let dropping := IsQueue_Full b in
  if dropping && drops then (true, b) else
  let rear := Z.rem (iQRear b + 1) MAX_ELEMENT in
  (dropping, MkBuffer rear (iQFront b) (<[Z.to_nat rear := Some pdu]> (queueEntry b))).

(** The part of the thread after its test for an empty queue: the entry handed
    to the parser, and the queue without it. *)
Definition take_trap (b : SCBuffer) : option PDU * SCBuffer :=
  (mjoin (queueEntry b !! Z.to_nat (iQFront b)),
   MkBuffer (iQRear b) (Z.rem (iQFront b + 1) MAX_ELEMENT)
            (<[Z.to_nat (iQFront b) := None]> (queueEntry b))).

(** ** The two threads *)

(** Where the parsing thread is: before the lock, in [pthread_cond_wait], or
    returned from it, after which it does not test again.  [pthread_cond_wait]
    may return without a signal ([Spurious]). *)
Inductive consumer := Idle | Waiting | Woken.

Inductive trap_event :=
| Stored (pdu : PDU) | Refused (pdu : PDU) | Parsed (pdu : option PDU) | Spurious | Silent.

(** [pthread_cond_signal] wakes the thread if it is waiting. *)
Definition signal (c : consumer) : consumer :=
  match c with Waiting => Woken | _ => c end.

Inductive queue_step : consumer * SCBuffer -> trap_event -> consumer * SCBuffer -> Prop :=
| step_listen c b pdu : IsQueue_Full b && drops = false ->
    queue_step (c, b) (Stored pdu) (signal c, (ListenTrap pdu b).2)
| step_refuse c b pdu : IsQueue_Full b && drops = true ->
    queue_step (c, b) (Refused pdu) (c, (ListenTrap pdu b).2)
| step_wait b :
    IsQueueEmpty b = true -> queue_step (Idle, b) Silent (Waiting, b)
| step_spurious b : queue_step (Waiting, b) Spurious (Woken, b)
| step_take b :
    IsQueueEmpty b = false ->
    queue_step (Idle, b) (Parsed (take_trap b).1) (Idle, (take_trap b).2)
| step_take_woken b :
    queue_step (Woken, b) (Parsed (take_trap b).1) (Idle, (take_trap b).2).

(** ** The abstract queue *)

(** [queue_rep b q]: the buffer holds [q], oldest first. *)
Record queue_rep (b : SCBuffer) (q : list PDU) : Prop := {
  qr_len : length (queueEntry b) = Z.to_nat MAX_ELEMENT;
  qr_front : 0 <= iQFront b < MAX_ELEMENT;
  qr_rear : -1 <= iQRear b < MAX_ELEMENT;
  qr_size : Z.of_nat (length q) <= MAX_ELEMENT - 1;
  qr_span : (iQRear b + 1) mod MAX_ELEMENT =
            (iQFront b + Z.of_nat (length q)) mod MAX_ELEMENT;
  qr_entry i x : q !! i = Some x ->
    queueEntry b !! Z.to_nat ((iQFront b + Z.of_nat i) mod MAX_ELEMENT) = Some (Some x)
}.

(** What the callback means for the queue: a full queue stays as it is, or
    becomes empty. *)
Definition full (q : list PDU) : Prop := Z.of_nat (length q) = MAX_ELEMENT - 1.
#[local] Instance full_dec q : Decision (full q) := Z.eq_dec _ _.
Definition spec_listen (pdu : PDU) (q : list PDU) : list PDU :=
  if bool_decide (full q) then (if drops then q else []) else q ++ [pdu].

Hypothesis Hmax : 2 <= MAX_ELEMENT.

Lemma rem_mod x : -1 < x -> Z.rem x MAX_ELEMENT = x mod MAX_ELEMENT.
Proof using Hmax. intros. apply Z.rem_mod_nonneg; lia. Qed.

(** Two offsets from the front agree modulo MAX_ELEMENT only if they are equal. *)
Lemma mod_offset f i j :
  0 <= i < MAX_ELEMENT -> 0 <= j < MAX_ELEMENT ->
  (f + i) mod MAX_ELEMENT = (f + j) mod MAX_ELEMENT -> i = j.
Proof using Hmax.
  intros Hi Hj He. pose proof (Z.div_mod (f + i) MAX_ELEMENT ltac:(lia)).
  pose proof (Z.div_mod (f + j) MAX_ELEMENT ltac:(lia)).
  assert ((f + i) / MAX_ELEMENT = (f + j) / MAX_ELEMENT) by nia. nia.
Qed.

Lemma at_front f i : 0 <= f < MAX_ELEMENT -> 0 <= i < MAX_ELEMENT -> (f + i) mod MAX_ELEMENT = f -> i = 0.
Proof using Hmax.
  intros Hf Hi He. apply (mod_offset f); [done|lia|].
  rewrite Z.add_0_r, (Z.mod_small f) by lia. done.
Qed.

Lemma init_rep entries :
  length entries = Z.to_nat MAX_ELEMENT -> queue_rep (InitCBuffer entries) [].
Proof using Hmax. intros He. by split; simpl; try lia. Qed.

Lemma empty_spec b q : queue_rep b q -> IsQueueEmpty b = bool_decide (q = []).
Proof using Hmax.
  intros [_ Hf Hr Hs Hsp _]. unfold IsQueueEmpty. rewrite rem_mod by lia. rewrite Hsp.
  case_bool_decide as Hq.
  - subst q. simpl. apply Z.eqb_eq. by rewrite Z.add_0_r, Z.mod_small.
  - apply Z.eqb_neq. intros He. apply at_front in He; [|lia|lia].
    destruct q; [done|simpl in He; lia].
Qed.

Lemma full_spec b q : queue_rep b q -> IsQueue_Full b = bool_decide (full q).
Proof using Hmax.
  intros [_ Hf Hr Hs Hsp _]. unfold IsQueue_Full. rewrite rem_mod by lia.
  replace (iQRear b + 2) with (iQRear b + 1 + 1) by lia.
  rewrite <- Z.add_mod_idemp_l, Hsp, Z.add_mod_idemp_l by lia.
  replace (iQFront b + Z.of_nat (length q) + 1) with (iQFront b + (Z.of_nat (length q) + 1)) by lia.
  case_bool_decide as Hq.
  - rewrite Hq. apply Z.eqb_eq. replace (MAX_ELEMENT - 1 + 1) with (1 * MAX_ELEMENT) by lia.
    by rewrite Z_mod_plus_full, Z.mod_small.
  - apply Z.eqb_neq. intros He. unfold full in Hq. apply at_front in He; lia.
Qed.

Lemma listen_full b q pdu : queue_rep b q -> (ListenTrap pdu b).1 = bool_decide (full q).
Proof using Hmax.
  intros Hq. rewrite <- (full_spec _ _ Hq). unfold ListenTrap.
  by destruct (IsQueue_Full b), drops.
Qed.

(** What is written when the callback does not return early. *)
Lemma store_rep pdu b q :
  queue_rep b q -> ~ full q ->
  let rear := Z.rem (iQRear b + 1) MAX_ELEMENT in
  queue_rep (MkBuffer rear (iQFront b) (<[Z.to_nat rear := Some pdu]> (queueEntry b)))
            (q ++ [pdu]).
Proof using Hmax.
  unfold full. intros [Hl Hf Hr Hs Hsp He] Hfull. cbv zeta. rewrite rem_mod by lia.
  rewrite Hsp. set (n := Z.of_nat (length q)) in *.
  pose proof (Z.mod_pos_bound (iQFront b + n) MAX_ELEMENT ltac:(lia)) as Hb.
  split; cbn [iQRear iQFront queueEntry]; rewrite ?length_insert, ?length_app;
    simpl; try done; try lia.
  - rewrite Z.add_mod_idemp_l by lia. f_equal. lia.
  - intros i x [Hi|[Hi Hx]]%lookup_app_Some.
    + rewrite list_lookup_insert_ne; [by apply He|].
      apply lookup_lt_Some in Hi. intros Heq.
      pose proof (Z.mod_pos_bound (iQFront b + Z.of_nat i) MAX_ELEMENT ltac:(lia)).
      apply Z2Nat.inj in Heq; [|lia|lia]. apply mod_offset in Heq; lia.
    + apply list_lookup_singleton_Some in Hx as [Hx ->].
      assert (Z.of_nat i = n) as -> by lia.
      apply list_lookup_insert_eq. rewrite Hl. lia.
Qed.

(** A callback that goes on when the queue is full makes it read as empty. *)
Lemma overrun_rep pdu b q :
  queue_rep b q -> full q ->
  let rear := Z.rem (iQRear b + 1) MAX_ELEMENT in
  queue_rep (MkBuffer rear (iQFront b) (<[Z.to_nat rear := Some pdu]> (queueEntry b))) [].
Proof using Hmax.
  unfold full. intros [Hl Hf Hr Hs Hsp He] Hfull. cbv zeta. rewrite rem_mod by lia.
  rewrite Hsp, Hfull.
  pose proof (Z.mod_pos_bound (iQFront b + (MAX_ELEMENT - 1)) MAX_ELEMENT ltac:(lia)) as Hb.
  split; cbn [iQRear iQFront queueEntry]; rewrite ?length_insert; simpl; try done; try lia.
  rewrite Z.add_mod_idemp_l, Z.add_0_r by lia.
  replace (iQFront b + (MAX_ELEMENT - 1) + 1) with (iQFront b + 1 * MAX_ELEMENT) by lia.
  apply Z_mod_plus_full.
Qed.

Lemma listen_rep pdu b q :
  queue_rep b q -> queue_rep (ListenTrap pdu b).2 (spec_listen pdu q).
Proof using Hmax.
  intros Hq. pose proof (full_spec b q Hq) as Hfull. unfold ListenTrap, spec_listen.
  rewrite Hfull. case_bool_decide; [|by apply store_rep].
  destruct drops; [done|by apply (overrun_rep _ _ q)].
Qed.

Lemma take_rep b x q :
  queue_rep b (x :: q) -> (take_trap b).1 = Some x /\ queue_rep (take_trap b).2 q.
Proof using Hmax.
  intros [Hl Hf Hr Hs Hsp He]. unfold take_trap. rewrite rem_mod by lia.
  simpl length in *. split.
  - specialize (He 0%nat x eq_refl). simpl in He. rewrite Z.add_0_r, Z.mod_small in He by lia.
    cbn [fst]. by rewrite He.
  - pose proof (Z.mod_pos_bound (iQFront b + 1) MAX_ELEMENT ltac:(lia)).
    split; cbn [snd iQRear iQFront queueEntry];
      rewrite ?length_insert; try done; try lia.
    + rewrite Hsp, Z.add_mod_idemp_l by lia. f_equal. lia.
    + intros i y Hi. rewrite Z.add_mod_idemp_l by lia.
      replace (iQFront b + 1 + Z.of_nat i) with (iQFront b + Z.of_nat (S i)) by lia.
      rewrite list_lookup_insert_ne; [by apply (He (S i))|].
      apply lookup_lt_Some in Hi. intros Heq.
      pose proof (Z.mod_pos_bound (iQFront b + Z.of_nat (S i)) MAX_ELEMENT ltac:(lia)).
      apply Z2Nat.inj in Heq; [|lia|lia].
      rewrite <- (Z.mod_small (iQFront b) MAX_ELEMENT) in Heq at 1 by lia.
      rewrite <- (Z.add_0_r (iQFront b)) in Heq at 1.
      apply mod_offset in Heq; lia.
Qed.

(** ** Runs *)

(** The traps stored, and those parsed, by a run. *)
Definition stored (evs : list trap_event) : list PDU :=
  omap (fun e => match e with Stored x => Some x | _ => None end) evs.
Definition parsed (evs : list trap_event) : list (option PDU) :=
  omap (fun e => match e with Parsed x => Some x | _ => None end) evs.

Inductive queue_run : consumer * SCBuffer -> list trap_event -> consumer * SCBuffer -> Prop :=
| run_nil s : queue_run s [] s
| run_step s e s1 evs s2 :
    queue_step s e s1 -> queue_run s1 evs s2 -> queue_run s (e :: evs) s2.

(** The callback refuses what does not fit, or the run never has more traps
    outstanding than fit, [n] being outstanding at its start. *)
Fixpoint within_capacity (n : nat) (evs : list trap_event) : Prop :=
  match evs with
  | [] => True
  | Stored _ :: evs => Z.of_nat n < MAX_ELEMENT - 1 /\ within_capacity (S n) evs
  | Parsed _ :: evs => within_capacity (pred n) evs
  | (Refused _ | Spurious | Silent) :: evs => within_capacity n evs
  end.

(** After each spurious wake-up a trap is stored before the thread has the lock
    again and reads; [pending] says that a spurious wake-up is outstanding. *)
Fixpoint wakes_served (pending : bool) (evs : list trap_event) : Prop :=
  match evs with
  | [] => True
  | Spurious :: evs => wakes_served true evs
  | Stored _ :: evs => wakes_served false evs
  | Parsed _ :: evs => pending = false /\ wakes_served false evs
  | (Refused _ | Silent) :: evs => wakes_served pending evs
  end.

(** A thread that waits has nothing to parse, and one that was signalled has. *)
Definition consumer_ok (c : consumer) (pending : bool) (q : list PDU) : Prop :=
  match c with
  | Idle => pending = false
  | Waiting => pending = false /\ q = []
  | Woken => pending = true \/ q <> []
  end.

Lemma room_tail n e evs (m : nat) :
  drops = true \/ within_capacity n (e :: evs) ->
  match e with Stored _ => m = S n | Parsed _ => m = pred n | _ => m = n end ->
  drops = true \/ within_capacity m evs.
Proof. intros [|Hc] Hm; [by left|right]. destruct e; simpl in Hc; subst m; tauto. Qed.

Lemma stored_fits b q pdu evs :
  queue_rep b q -> IsQueue_Full b && drops = false ->
  drops = true \/ within_capacity (length q) (Stored pdu :: evs) -> ~ full q.
Proof using Hmax.
  intros Hrep Hb [->|[Hlt _]]; [|by unfold full; lia].
  rewrite andb_true_r, (full_spec _ _ Hrep) in Hb. by apply bool_decide_eq_false in Hb.
Qed.

(** One step keeps the representation, and what it stores or parses is at the
    ends of the queue. *)
Lemma step_fifo c b e c1 b1 w evs q :
  queue_step (c, b) e (c1, b1) -> queue_rep b q -> consumer_ok c w q ->
  drops = true \/ within_capacity (length q) (e :: evs) -> wakes_served w (e :: evs) ->
  exists w1 q1, queue_rep b1 q1 /\ consumer_ok c1 w1 q1 /\ wakes_served w1 evs /\
    (drops = true \/ within_capacity (length q1) evs) /\
    (Some <$> (q ++ stored [e])) = parsed [e] ++ (Some <$> q1).
Proof using Hmax.
  intros Hstep Hrep Hok Hcap Hserved.
  assert (Htake : q <> [] -> w = false -> (c1, b1) = (Idle, (take_trap b).2) ->
    e = Parsed (take_trap b).1 ->
    exists w1 q1, queue_rep b1 q1 /\ consumer_ok c1 w1 q1 /\ wakes_served w1 evs /\
      (drops = true \/ within_capacity (length q1) evs) /\
      (Some <$> (q ++ stored [e])) = parsed [e] ++ (Some <$> q1)).
  { intros Hne -> [= -> ->] ->. destruct q as [|x q]; [done|].
    destruct (take_rep _ _ _ Hrep) as [Hx Hrep']. destruct Hserved as [_ Hserved].
    exists false, q. split_and!; [done|done|done|by eapply room_tail|].
    cbn [stored parsed omap list_omap]. by rewrite app_nil_r, Hx. }
  inversion Hstep as [? ? pdu Hb|? ? pdu Hb|? He| |? He|]; subst; simpl in Hok.
  - pose proof (stored_fits _ _ _ _ Hrep Hb Hcap) as Hnf.
    pose proof (listen_rep pdu b q Hrep) as Hrep'.
    unfold spec_listen in Hrep'. rewrite bool_decide_eq_false_2 in Hrep' by done.
    exists false, (q ++ [pdu]). split_and!; [done| |done| |done].
    + destruct c; simpl; try right; by destruct q.
    + eapply room_tail; [done|]. rewrite length_app. simpl. lia.
  - apply andb_true_iff in Hb as [Hf Hd]. exists w, q.
    split_and!; [|done|done|by left|cbn; by rewrite app_nil_r].
    unfold ListenTrap. by rewrite Hf, Hd.
  - rewrite (empty_spec _ _ Hrep) in He. apply bool_decide_eq_true in He as ->.
    exists w, []. by split_and!; [done|done|done|eapply room_tail|].
  - destruct Hok as [-> ->]. exists true, []. split_and!; [done|by left|done|by eapply room_tail|done].
  - rewrite (empty_spec _ _ Hrep) in He. apply bool_decide_eq_false in He. by apply Htake.
  - pose proof Hserved as [-> _]. destruct Hok; [done|]. by apply Htake.
Qed.

Lemma run_fifo s evs s' w q :
  queue_run s evs s' -> queue_rep s.2 q -> consumer_ok s.1 w q ->
  drops = true \/ within_capacity (length q) evs -> wakes_served w evs ->
  exists q', queue_rep s'.2 q' /\ (Some <$> (q ++ stored evs)) = parsed evs ++ (Some <$> q').
Proof using Hmax.
  intros Hrun. revert w q.
  induction Hrun as [s|[c b] e [c1 b1] evs s2 Hstep _ IH]; intros w q Hrep Hok Hcap Hserved.
  { exists q. by rewrite app_nil_r. }
  destruct (step_fifo _ _ _ _ _ _ _ _ Hstep Hrep Hok Hcap Hserved)
    as (w1 & q1 & Hrep1 & Hok1 & Hserved1 & Hcap1 & Heq1).
  destruct (IH w1 q1 Hrep1 Hok1 Hcap1 Hserved1) as (q' & Hrep' & Heq).
  exists q'. split; [done|]. unfold stored, parsed in *.
  change (e :: evs) with ([e] ++ evs). rewrite !omap_app, app_assoc, fmap_app, Heq1.
  rewrite <- !app_assoc, <- Heq. by rewrite fmap_app.
Qed.

(** ** Properties *)

(** C26: the queue of traps is a FIFO, whatever its size, when the callback
    refuses traps that do not fit, or as long as no trap arrives that does not
    fit, and as long as [pthread_cond_wait] does not return to a queue that is
    still empty (a wake-up nobody signalled, with no trap stored before the
    thread reads; the code tests with [if], and [unsignalled_wakeup_fills_queue]
    shows what such a wake-up does): along every interleaving of the callback and
    the parser thread, the traps parsed, followed by those still in the buffer,
    are the traps stored, in order, none lost, repeated or read from an unwritten
    entry. *)
Theorem trap_queue_fifo entries evs c b :
  length entries = Z.to_nat MAX_ELEMENT ->
  queue_run (Idle, InitCBuffer entries) evs (c, b) ->
  drops = true \/ within_capacity 0 evs ->
  wakes_served false evs ->
  exists q, queue_rep b q /\ (Some <$> stored evs) = parsed evs ++ (Some <$> q).
Proof using Hmax.
  intros Hlen Hrun Hcap Hserved.
  exact (run_fifo _ _ _ false [] Hrun (init_rep entries Hlen) eq_refl Hcap Hserved).
Qed.

(** A thread that waits on an empty queue and is woken by nobody reads the entry
    at the front, which nobody wrote since it was last read, and moves the front
    past the rear: the queue then reads as full. *)
Theorem unsignalled_wakeup_fills_queue b :
  queue_rep b [] ->
  exists b', queue_run (Waiting, b) [Spurious; Parsed (mjoin (queueEntry b !! Z.to_nat (iQFront b)))]
                       (Idle, b') /\
    IsQueue_Full b' = true /\ IsQueueEmpty b' = false.
Proof using Hmax.
  intros Hrep. exists (take_trap b).2. split.
  - eapply run_step; [apply step_spurious|]. eapply run_step; [apply step_take_woken|apply run_nil].
  - destruct Hrep as [_ Hf Hr _ Hsp _]. unfold IsQueue_Full, IsQueueEmpty, take_trap.
    cbn [snd iQRear iQFront length] in *. rewrite !rem_mod, Hsp by lia.
    rewrite Z.add_0_r, (Z.mod_small (iQFront b)) in * by lia.
    split; [apply Z.eqb_eq|apply Z.eqb_neq].
    + rewrite <- Hsp, Z.add_mod_idemp_l by lia. f_equal. lia.
    + intros He. symmetry in He. apply at_front in He; lia.
Qed.

(** Where the callback goes on, a trap that arrives at a full queue is announced
    as dropped but stored all the same, and the write index catches up with the
    read index: the queue then reads as empty and all its traps are lost. *)
Theorem full_queue_loses_everything b q pdu :
  drops = false -> queue_rep b q -> full q ->
  (ListenTrap pdu b).1 = true /\
  queue_rep (ListenTrap pdu b).2 [] /\
  IsQueueEmpty (ListenTrap pdu b).2 = true.
Proof using Hmax.
  intros Hdrops Hrep Hfull. pose proof (listen_rep pdu b q Hrep) as Hrep'.
  unfold spec_listen in Hrep'. rewrite bool_decide_eq_true_2, Hdrops in Hrep' by done.
  split_and!; [|done|].
  - rewrite (listen_full _ _ _ Hrep). by apply bool_decide_eq_true.
  - by rewrite (empty_spec _ _ Hrep').
Qed.
End Queue.

Arguments SCBuffer : clear implicits.
Arguments trap_event : clear implicits.

(** ** The programs *)

Section Programs.
Context {PDU : Type}.

(** The job scheduler. *)
Definition JS_MAX_ELEMENT : Z := 14.
Definition JS_InitCBuffer : list (option PDU) -> SCBuffer PDU := InitCBuffer.
Definition JS_IsQueueEmpty : SCBuffer PDU -> bool := IsQueueEmpty JS_MAX_ELEMENT.
Definition JS_IsQueue_Full : SCBuffer PDU -> bool := IsQueue_Full JS_MAX_ELEMENT.
Definition JS_ListenTrap : PDU -> SCBuffer PDU -> bool * SCBuffer PDU :=
  ListenTrap JS_MAX_ELEMENT false.
Definition JS_ProcessTrapMsg := @queue_step PDU JS_MAX_ELEMENT false.

(** The backup manager. *)
Definition BM_MAX_ELEMENT : Z := 10.
Definition BM_InitCBuffer : list (option PDU) -> SCBuffer PDU := InitCBuffer.
Definition BM_IsQueueEmpty : SCBuffer PDU -> bool := IsQueueEmpty BM_MAX_ELEMENT.
Definition BM_IsQueue_Full : SCBuffer PDU -> bool := IsQueue_Full BM_MAX_ELEMENT.
Definition BM_ListenTrap : PDU -> SCBuffer PDU -> bool * SCBuffer PDU :=
  ListenTrap BM_MAX_ELEMENT false.
Definition BM_ProcessTrapMsg := @queue_step PDU BM_MAX_ELEMENT false.

(** The access control, whose thread takes the trap without the lock when it has
    waited; the entry it takes is not the one a callback writes as long as the
    queue is not overrun. *)
Definition UM_MAX_ELEMENT : Z := 10.
Definition UM_InitCBuffer : list (option PDU) -> SCBuffer PDU := InitCBuffer.
Definition UM_IsQueueEmpty : SCBuffer PDU -> bool := IsQueueEmpty UM_MAX_ELEMENT.
Definition UM_IsQueue_Full : SCBuffer PDU -> bool := IsQueue_Full UM_MAX_ELEMENT.
Definition UM_ListenTrap : PDU -> SCBuffer PDU -> bool * SCBuffer PDU :=
  ListenTrap UM_MAX_ELEMENT false.
Definition UM_ProcessTrapMsg := @queue_step PDU UM_MAX_ELEMENT false.

(** The application metering, which clears the entries and whose callback
    returns when it is given no message or finds the queue full. *)
Definition MAX_ELEMENT : Z := 5.
Definition AM_init_CBuffer : SCBuffer PDU := InitCBuffer (replicate (Z.to_nat MAX_ELEMENT) None).
Definition AM_IsQueue_Empty : SCBuffer PDU -> bool := IsQueueEmpty MAX_ELEMENT.
Definition AM_IsQueue_Full : SCBuffer PDU -> bool := IsQueue_Full MAX_ELEMENT.

(** The value returned, and the queue. *)
Definition AM_ListenTrap (pdu : option PDU) (b : SCBuffer PDU) : Z * SCBuffer PDU :=
  match pdu with
  | None => (0, b)
  | Some pdu =>
      let r := ListenTrap MAX_ELEMENT true pdu b in
      (if r.1 then -1 else 1, r.2)
  end.
Definition AM_ProcessTrapMsg := @queue_step PDU MAX_ELEMENT true.
End Programs.

(** ** Examples *)
Definition blank_buffer : list (option Z) := replicate 14 None.

Lemma trap_queue_fifo_witness :
  exists (b : SCBuffer Z) q,
    queue_run JS_MAX_ELEMENT false (Idle, JS_InitCBuffer blank_buffer)
      [Silent; Stored 7; Stored 8; Parsed (Some 7)] (Idle, b) /\
    queue_rep JS_MAX_ELEMENT b q /\ [Some 7; Some 8] = [Some 7] ++ (Some <$> q).
Proof.
  assert (Hrun : queue_run JS_MAX_ELEMENT false (Idle, JS_InitCBuffer blank_buffer)
    [Silent; Stored 7; Stored 8; Parsed (Some 7)]
    (Idle, MkBuffer 1 1 [None; Some 8; None; None; None; None; None; None; None; None; None;
                         None; None; None])).
  { eapply run_step; [by apply step_wait|]. eapply run_step; [by apply step_listen|].
    eapply run_step; [by apply step_listen|]. eapply run_step; [apply step_take_woken|].
    apply run_nil. }
  eexists. destruct (trap_queue_fifo JS_MAX_ELEMENT false ltac:(done) blank_buffer _ _ _ eq_refl Hrun)
    as (q & Hr & Heq).
  - right. unfold JS_MAX_ELEMENT. simpl. lia.
  - by simpl.
  - exists q. exact (conj Hrun (conj Hr Heq)).
Defined.

(** Nobody wrote to the queue of the job scheduler, whose thread is woken all the
    same: it parses fourteen entries that hold no trap before it waits again. *)
Example woken_for_nothing :
  exists b, queue_run JS_MAX_ELEMENT false (Waiting, JS_InitCBuffer blank_buffer)
    (Spurious :: replicate 14 (Parsed None) ++ [Silent]) (Waiting, b).
Proof.
  eexists. eapply run_step; [apply step_spurious|].
  eapply run_step; [apply step_take_woken|].
  do 13 (eapply run_step; [by apply step_take|]).
  eapply run_step; [by apply step_wait|]. apply run_nil.
Qed.

(** Four traps in a row fill the queue of the application metering, and a fifth
    is refused. *)
Example metering_refuses :
  let b := foldl (fun b x => (AM_ListenTrap (Some x) b).2) AM_init_CBuffer (seqZ 1 4) in
  AM_IsQueue_Full b = true /\ AM_ListenTrap (Some 5) b = (-1, b).
Proof. by vm_compute. Qed.

(** Thirteen traps in a row. *)
Definition full_buffer : SCBuffer Z :=
  foldl (fun b x => (JS_ListenTrap x b).2) (JS_InitCBuffer blank_buffer) (seqZ 1 13).

Lemma full_buffer_rep : queue_rep JS_MAX_ELEMENT full_buffer (seqZ 1 13).
Proof.
  unfold full_buffer. change (seqZ 1 13) with [1; 2; 3; 4; 5; 6; 7; 8; 9; 10; 11; 12; 13].
  change [1; 2; 3; 4; 5; 6; 7; 8; 9; 10; 11; 12; 13] with
    (foldl (fun q x => spec_listen JS_MAX_ELEMENT false x q) []
       [1; 2; 3; 4; 5; 6; 7; 8; 9; 10; 11; 12; 13]) at 2.
  cbn [foldl]. do 13 (apply listen_rep; [done|]). by apply init_rep.
Qed.

Lemma full_queue_loses_everything_witness :
  JS_IsQueue_Full full_buffer = true /\
  JS_IsQueueEmpty (JS_ListenTrap 99 full_buffer).2 = true.
Proof.
  split; [reflexivity|].
  exact (proj2 (proj2 (full_queue_loses_everything JS_MAX_ELEMENT false ltac:(done)
                         full_buffer _ 99 eq_refl full_buffer_rep eq_refl))).
Defined.
