(* ===== verification/UtilList.v ===== *)
(** * The master agent's list (src/Group1/MasterAgent/src/NASCenter_Util_List.c)

    A singly linked list of pointers with a head, a tail and a count; the queue
    of requests between the reader of XML requests and the sender of PDUs is one.
    A [List] has the fields of a [slot]: [start], [end] and [size]. *)

From S2P Require Import Prelude Heap CTypes SchedTypes SchedTable.

Section UtilList.
Context `{Allocator}.

Abbreviation uheap := (gmap Z (node Z)).

Definition initList : slot := Slot NULL NULL 0.

Definition addToList (h : uheap) (L : slot) (elementValue : Z)
    : outcome (Z * uheap * slot) :=
  let element := malloc (dom h) in
  if element =? NULL then mret (-1, h, L) else
  '(h1, L1) ← append_node h L element elementValue;
  mret (0, h1, L1).

(** The loop of [deleteFromList]; [nextElement] is read one element ahead. *)
Fixpoint delete_walk (fuel : nat) (h : uheap) (L : slot)
    (elementValue previousElement current nextElement : Z) : outcome (Z * uheap * slot) :=
  match fuel with
  | O => OutOfFuel
  | S fuel =>
      nd ← load h current;
      if val nd =? elementValue then
        h1 ← (if negb (previousElement =? NULL)
              then set_next h previousElement nextElement else mret h);
        let start1 := if current =? pHead L then nextElement else pHead L in
        let end1 := if current =? pTail L then previousElement else pTail L in
        h2 ← dispose h1 current;
        mret (1, h2, Slot start1 end1 (nSize L - 1))
      else
        nn ← load h nextElement;
        delete_walk fuel h L elementValue current nextElement (next nn)
  end.

Definition deleteFromList (h : uheap) (L : slot) (elementValue : Z)
    : outcome (Z * uheap * slot) :=
  if pHead L =? NULL then mret (-1, h, L) else
  nd ← load h (pHead L);
  delete_walk (S (size h)) h L elementValue NULL (pHead L) (next nd).

Fixpoint advance (n : nat) (h : uheap) (current : Z) : outcome Z :=
  match n with
  | O => mret current
  | S n => nd ← load h current; advance n h (next nd)
  end.

(** Neither the count nor the tail is updated. *)
Definition insertIntoList (h : uheap) (L : slot) (index elementValue : Z)
    : outcome (Z * uheap * slot) :=
  if nSize L <=? index then mret (-1, h, L) else
  current ← advance (Z.to_nat index) h (pHead L);
  let newElement := malloc (dom h) in
  if newElement =? NULL then mret (-1, h, L) else
  nd ← load h current;
  h1 ← set_next (<[newElement := Node elementValue (next nd)]> h) current newElement;
  mret (0, h1, L).

(** ** Specification

    [ulist h L l]: the list holds the elements [l], pairs of address and
    value. *)
Definition ulist (h : uheap) (L : slot) (l : list (Z * Z)) : Prop :=
  slot_rep h L l /\ NoDup l.*1.

Definition uvals (l : list (Z * Z)) : list Z := l.*2.

(** The list without the first element of value [v]. *)
Fixpoint remove_first (v : Z) (l : list (Z * Z)) : list (Z * Z) :=
  match l with
  | [] => []
  | x :: l => if x.2 =? v then l else x :: remove_first v l
  end.

Lemma remove_first_sublist v l : remove_first v l `sublist_of` l.
Proof.
  induction l as [|x l IH]; simpl; [constructor|]. case_match; by constructor.
Qed.

Lemma ulist_size h L l : ulist h L l -> (length l < S (size h))%nat.
Proof. intros [Hr Hn]. by eapply slot_rep_size. Qed.

Lemma last_addr_mid (l1 l2 : list (Z * Z)) c w :
  NoDup (l1 ++ (c, w) :: l2).*1 -> (c = last_addr (l1 ++ (c, w) :: l2) <-> l2 = []).
Proof.
  intros Hnd. destruct l2 as [|[y v] l2 _] using rev_ind.
  - by rewrite last_addr_snoc.
  - rewrite app_comm_cons, app_assoc, last_addr_snoc. split.
    + intros ->. rewrite fmap_app in Hnd. csimpl in Hnd. rewrite fmap_app in Hnd. csimpl in Hnd.
      apply NoDup_app in Hnd as (_ & _ & [Hn _]%NoDup_cons). set_solver.
    + intros Hl. by destruct l2.
Qed.

(** Taking out the node the loop stands on. *)
Lemma take_out h L l1 c w l2 n :
  ulist h L (l1 ++ (c, w) :: l2) -> h !! c = Some (Node w n) ->
  exists h2 L2,
    (h1 ← (if negb (last_addr l1 =? NULL) then set_next h (last_addr l1) n else mret h);
     let start1 := if c =? pHead L then n else pHead L in
     let end1 := if c =? pTail L then last_addr l1 else pTail L in
     h2 ← dispose h1 c; mret (1, h2, Slot start1 end1 (nSize L - 1))) =
      Ret (1, h2, L2) /\ ulist h2 L2 (l1 ++ l2).
Proof.
  intros [(Hl & Htl & Hsz) Hnd] Hc. pose proof (last_addr_mid _ _ _ _ Hnd) as Hlast.
  destruct (lseg_next _ _ _ _ _ _ _ Hl) as (Hc0 & n' & Hn' & Hl2). simplify_eq.
  assert (Hnd2 : NoDup (l1 ++ l2).*1).
  { eapply sublist_NoDup; [exact Hnd|]. apply fmap_sublist, sublist_app; [done|]. by constructor. }
  assert (Hlen : nSize L - 1 = Z.of_nat (length (l1 ++ l2))).
  { rewrite Hsz, !length_app. simpl. lia. }
  unfold dispose.
  destruct l1 as [|[q v] l1 _] using rev_ind.
  - simpl in Hl. destruct Hl as (Hhd & Hrest). change (last_addr []) with NULL.
    rewrite (Z.eqb_refl NULL), Hhd, Z.eqb_refl. cbn [negb].
    rewrite outcome_bind_ret. cbv zeta. rewrite (load_Some _ _ _ Hc0 Hc), outcome_bind_ret, outcome_bind_ret.
    eexists _, _. split; [reflexivity|]. split; [split_and!|]; simpl; try done.
    + eapply (lseg_unlink_head h c c w n l2); [|done|done].
      rewrite Hhd in Hrest. exact (conj eq_refl Hrest).
    + rewrite Htl. simpl in *. destruct (Z.eqb_spec c (last_addr ((c, w) :: l2))) as [He|He].
      * apply Hlast in He as ->. done.
      * destruct l2 as [|y l2]; [tauto|]. unfold last_addr. by rewrite last_cons_cons.
  - rewrite last_addr_snoc. rewrite <- app_assoc in Hl, Hnd. cbn [app] in Hl, Hnd.
    destruct (lseg_next _ _ _ _ _ _ _ Hl) as (Hq & k & Hk & _).
    pose proof (lseg_unlink _ _ _ _ _ _ _ _ _ Hl Hnd Hc) as Hl'.
    rewrite (proj2 (Z.eqb_neq q NULL) Hq). cbn [negb].
    rewrite (set_next_Some _ _ _ _ _ Hq Hk), outcome_bind_ret.
    assert (Hqc : q <> c).
    { intros ->. rewrite fmap_app in Hnd. csimpl in *.
      apply NoDup_app in Hnd as (_ & _ & [Hin _]%NoDup_cons). apply Hin. by left. }
    assert (Hch : c <> pHead L).
    { intros Heq. rewrite fmap_app in Hnd. csimpl in *.
      apply NoDup_app in Hnd as (_ & Hd & [Hin _]%NoDup_cons).
      destruct l1 as [|[y vy] l1]; simpl in Hl; destruct Hl as (Hhd & _); [congruence|].
      assert (c = y) as -> by congruence. apply (Hd y); set_solver. }
    rewrite (proj2 (Z.eqb_neq _ _) Hch). cbv zeta.
    erewrite load_Some; [|done|by rewrite lookup_insert_ne].
    rewrite !outcome_bind_ret. eexists _, _. split; [reflexivity|].
    split; [split_and!|]; cbn [pHead pTail nSize]; try done.
    + by rewrite <- app_assoc.
    + rewrite Htl. destruct (Z.eqb_spec c (last_addr ((l1 ++ [(q, v)]) ++ (c, w) :: l2))) as [He|He].
      * apply Hlast in He as ->. by rewrite app_nil_r, last_addr_snoc.
      * assert (l2 <> []) by tauto. rewrite <- !app_assoc. cbn [app].
        by apply last_addr_cons_snoc.
Qed.

Lemma delete_walk_spec fuel h L v l1 c w l2 n :
  ulist h L (l1 ++ (c, w) :: l2) -> h !! c = Some (Node w n) ->
  (length l2 < fuel)%nat ->
  if bool_decide (v ∈ w :: uvals l2) then
    exists h2 L2, delete_walk fuel h L v (last_addr l1) c n = Ret (1, h2, L2) /\
      ulist h2 L2 (l1 ++ remove_first v ((c, w) :: l2))
  else delete_walk fuel h L v (last_addr l1) c n = Crash.
Proof.
  revert l1 c w l2 n. induction fuel as [|fuel IH]; intros l1 c w l2 n Hu Hc Hf; [lia|].
  pose proof Hu as [(Hl & _ & _) Hnd].
  destruct (lseg_next _ _ _ _ _ _ _ Hl) as (Hc0 & n' & Hn' & Hl2). simplify_eq.
  cbn [delete_walk]. rewrite (load_Some _ _ _ Hc0 Hc), outcome_bind_ret. cbn [val].
  cbn [remove_first snd]. destruct (Z.eqb_spec w v) as [->|Hwv].
  - rewrite bool_decide_eq_true_2 by left. by apply take_out with v.
  - destruct l2 as [|[c2 w2] l2].
    + simpl in Hl2. subst n. rewrite bool_decide_eq_false_2 by (unfold uvals; set_solver).
      unfold load. by rewrite Z.eqb_refl.
    + simpl in Hl2. destruct Hl2 as (-> & Hc20 & n2 & Hn2 & _).
      rewrite (load_Some _ _ _ Hc20 Hn2), outcome_bind_ret. cbn [next].
      rewrite (cons_middle (c, w)), app_assoc in Hu.
      specialize (IH (l1 ++ [(c, w)]) c2 w2 l2 n2 Hu Hn2 ltac:(simpl in *; lia)).
      rewrite last_addr_snoc in IH.
      rewrite (bool_decide_ext _ (v ∈ w2 :: uvals l2)) by (unfold uvals; csimpl; set_solver).
      case_bool_decide; [|done]. destruct IH as (h2 & L2 & Heq & Hu2).
      exists h2, L2. split; [exact Heq|]. by rewrite <- app_assoc in Hu2.
Qed.

(** Appending, and taking the first element out, as a queue does. *)
Lemma addToList_spec h L l v :
  ulist h L l -> malloc (dom h) <> NULL ->
  exists h1 L1, addToList h L v = Ret (0, h1, L1) /\ ulist h1 L1 (l ++ [(malloc (dom h), v)]) /\
    dom h1 = {[malloc (dom h)]} ∪ dom h.
Proof.
  intros [Hr Hnd] Hn. unfold addToList. rewrite (proj2 (Z.eqb_neq _ _) Hn).
  destruct (malloc_spec (dom h)) as [|[_ Hfresh]]; [done|].
  destruct (append_node_spec h L l _ v Hr Hnd Hn Hfresh) as (h1 & L1 & -> & Hr1 & Hd & _).
  rewrite outcome_bind_ret. exists h1, L1. split; [done|]. split; [|done]. split; [done|].
  rewrite fmap_app. csimpl. apply NoDup_app. split_and!; [done| |apply NoDup_singleton].
  intros x Hx ->%list_elem_of_singleton. apply Hfresh. eapply lseg_dom; [apply Hr|done].
Qed.

Lemma deleteFromList_head h L c v l :
  ulist h L ((c, v) :: l) ->
  exists L1, deleteFromList h L v = Ret (1, delete c h, L1) /\ ulist (delete c h) L1 l.
Proof.
  intros Hu. pose proof Hu as [(Hl & _) _]. simpl in Hl. destruct Hl as (<- & Hc0 & n & Hn & _).
  destruct (take_out h L [] (pHead L) v l n Hu Hn) as (h2 & L2 & Heq & Hu2).
  change (last_addr []) with NULL in Heq. rewrite (Z.eqb_refl NULL) in Heq. cbn [negb] in Heq.
  rewrite outcome_bind_ret in Heq. unfold dispose in Heq. rewrite (load_Some _ _ _ Hc0 Hn) in Heq.
  rewrite !outcome_bind_ret in Heq. injection Heq as <- <-. eexists. split; [|exact Hu2].
  unfold deleteFromList. rewrite (proj2 (Z.eqb_neq _ _) Hc0), (load_Some _ _ _ Hc0 Hn), outcome_bind_ret.
  cbn [delete_walk next]. rewrite (load_Some _ _ _ Hc0 Hn), outcome_bind_ret. cbn [val].
  rewrite Z.eqb_refl, (Z.eqb_refl NULL). cbn [negb]. rewrite outcome_bind_ret. unfold dispose.
  rewrite (load_Some _ _ _ Hc0 Hn), !outcome_bind_ret. done.
Qed.

(** ** Properties *)

(** [addToList] appends and [deleteFromList] removes the first element of
    the given value, keeping head, tail and count; but asked for a value that is
    not there, [deleteFromList] gives -1 only on an empty list, and on any other
    runs past the end of the list into a null pointer. *)
Theorem util_list_operations h L l v :
  ulist h L l ->
  (let n := malloc (dom h) in n <> NULL ->
   exists h1 L1, addToList h L v = Ret (0, h1, L1) /\ ulist h1 L1 (l ++ [(n, v)])) /\
  (v ∈ uvals l ->
   exists h1 L1, deleteFromList h L v = Ret (1, h1, L1) /\ ulist h1 L1 (remove_first v l)) /\
  (v ∉ uvals l ->
   deleteFromList h L v = if bool_decide (l = []) then Ret (-1, h, L) else Crash).
Proof.
  intros Hu. pose proof Hu as [Hr Hnd]. split.
  - intros n Hn. destruct (addToList_spec h L l v Hu Hn) as (h1 & L1 & ? & ? & _). by exists h1, L1.
  - unfold deleteFromList. pose proof (slot_rep_head _ _ _ Hr) as Hhd.
    destruct l as [|[c w] l].
    { rewrite (proj2 Hhd eq_refl). split; [by intros ?%not_elem_of_nil|done]. }
    assert (Hne : pHead L <> NULL) by (intros He; by apply Hhd in He).
    rewrite (proj2 (Z.eqb_neq _ _) Hne).
    pose proof (ulist_size _ _ _ Hu) as Hsz.
    destruct Hr as (Hl & _). simpl in Hl. destruct Hl as (Hc & _ & n & Hn & _).
    rewrite (load_Some _ _ _ Hne Hn), outcome_bind_ret. cbn [next]. rewrite Hc in *.
    pose proof (delete_walk_spec (S (size h)) h L v [] c w l n Hu Hn ltac:(simpl in Hsz; lia)) as Hw.
    change (last_addr []) with NULL in Hw. unfold uvals. csimpl.
    split; intros Hv; [rewrite bool_decide_eq_true_2 in Hw by done; exact Hw|].
    rewrite bool_decide_eq_false_2 in Hw by done. done.
Qed.

Lemma advance_spec h l1 c w l2 cur :
  lseg h cur (l1 ++ (c, w) :: l2) NULL -> advance (length l1) h cur = Ret c.
Proof.
  revert cur. induction l1 as [|[a v] l1 IH]; intros cur Hl; simpl in *.
  - by destruct Hl as (-> & _).
  - destruct Hl as (-> & Ha & n & Hn & Hl). rewrite (load_Some _ _ _ Ha Hn). simpl. by apply IH.
Qed.

(** [insertIntoList] puts the new element behind the one at the index, so
    nothing can be inserted at the head; it leaves the count and the tail as
    they were, and after an insertion behind the last element the next
    [addToList] unlinks the inserted element again. *)
Theorem insertIntoList_loses_last h L l c w v x :
  ulist h L (l ++ [(c, w)]) ->
  let n := malloc (dom h) in n <> NULL ->
  exists h1, insertIntoList h L (Z.of_nat (length l)) v = Ret (0, h1, L) /\
    lseg h1 (pHead L) (l ++ [(c, w); (n, v)]) NULL /\ dom h1 = {[n]} ∪ dom h /\
    let m := malloc (dom h1) in m <> NULL ->
    exists h2 L2, addToList h1 L x = Ret (0, h2, L2) /\
      lseg h2 (pHead L2) (l ++ [(c, w); (m, x)]) NULL.
Proof.
  intros [(Hl & Htl & Hsz) Hnd] n Hn. rewrite last_addr_snoc in Htl.
  destruct (malloc_spec (dom h)) as [|[_ Hfresh]]; [done|]. fold n in Hfresh.
  unfold insertIntoList. destruct (Z.leb_spec (nSize L) (Z.of_nat (length l))) as [Hle|_].
  { rewrite length_app in Hsz. simpl in Hsz. lia. }
  rewrite Nat2Z.id, (advance_spec _ _ _ _ _ _ Hl), outcome_bind_ret. fold n.
  rewrite (proj2 (Z.eqb_neq _ _) Hn).
  destruct (lseg_next _ _ _ _ _ _ _ Hl) as (Hc & k & Hk & Hnil). simpl in Hnil. subst k.
  rewrite (load_Some _ _ _ Hc Hk), outcome_bind_ret. cbn [next].
  assert (Hcn : c <> n). { intros ->. apply Hfresh, elem_of_dom. eauto. }
  erewrite set_next_Some; [|done|by rewrite lookup_insert_ne]. rewrite outcome_bind_ret.
  set (h1 := <[c := Node w n]> (<[n := Node v NULL]> h)).
  assert (Hl1 : lseg h1 (pHead L) (l ++ [(c, w); (n, v)]) NULL) by by apply lseg_snoc.
  assert (Hd1 : dom h1 = {[n]} ∪ dom h).
  { unfold h1. rewrite !dom_insert_L. apply elem_of_dom_2 in Hk. set_solver. }
  exists h1. split_and!; [done..|]. set (m := malloc (dom h1)). intros Hm.
  destruct (malloc_spec (dom h1)) as [|[_ Hfm]]; [done|]. fold m in Hfm.
  unfold addToList. fold m. rewrite (proj2 (Z.eqb_neq _ _) Hm). unfold append_node.
  assert (Hhd : pHead L <> NULL).
  { intros He. rewrite He in Hl. apply lseg_null_nil in Hl. by destruct l. }
  rewrite (proj2 (Z.eqb_neq _ _) Hhd), Htl.
  assert (Hcm : c <> m). { intros He. apply Hfm. rewrite <- He, Hd1. apply elem_of_dom_2 in Hk. set_solver. }
  erewrite set_next_Some; [|done|by unfold h1; rewrite lookup_insert_ne, lookup_insert_eq].
  rewrite !outcome_bind_ret. eexists _, _. split; [reflexivity|]. cbn [pHead].
  assert (Hag : forall y, y ∈ l.*1 -> y <> c /\ y <> m /\ y <> n).
  { intros y Hy. rewrite fmap_app in Hnd. csimpl in Hnd. apply NoDup_app in Hnd as (_ & Hd & _).
    assert (y ∈ dom h). { eapply lseg_dom; [exact Hl|]. rewrite fmap_app. set_solver. }
    split_and!; [|intros He; apply Hfm; rewrite <- He, Hd1; set_solver|by intros ->].
    intros ->. apply (Hd c Hy). by left. }
  apply lseg_app in Hl as (e & Hl & (He & _)). subst e.
  apply lseg_app. exists c. split.
  - eapply lseg_agree; [|exact Hl]. intros y Hy. destruct (Hag y Hy) as (? & ? & ?).
    unfold h1. by rewrite !lookup_insert_ne.
  - simpl. split_and!; [done..|]. exists m. rewrite lookup_insert_eq. split_and!; [done..|].
    exists NULL. by rewrite lookup_insert_ne, lookup_insert_eq.
Qed.
End UtilList.

(** ** Examples: a list of two elements *)
Section Witnesses.
#[local] Existing Instance bump_allocator.

Definition two_heap : gmap Z (node Z) := {[1 := Node 10 2; 2 := Node 20 NULL]}.
Definition two_list : slot := Slot 1 2 2.

Lemma two_rep : ulist two_heap two_list ([(1, 10)] ++ [(2, 20)]).
Proof.
  split; [|by apply (bool_decide_unpack _)]. split_and!; [|done|done]. cbn [lseg app].
  repeat (split; [reflexivity|]; split; [done|]; eexists; split; [vm_compute; reflexivity|]).
  reflexivity.
Qed.

Lemma util_list_operations_witness :
  deleteFromList two_heap two_list 30 = Crash /\
  exists h1 L1, deleteFromList two_heap two_list 10 = Ret (1, h1, L1) /\
    ulist h1 L1 [(2, 20)].
Proof.
  split.
  - apply (proj2 (proj2 (util_list_operations two_heap two_list _ 30 two_rep))).
    by apply (bool_decide_unpack _).
  - apply (proj1 (proj2 (util_list_operations two_heap two_list _ 10 two_rep))).
    by apply (bool_decide_unpack _).
Defined.

Lemma insertIntoList_loses_last_witness :
  exists h1, insertIntoList two_heap two_list 1 25 = Ret (0, h1, two_list) /\
    exists h2 L2, addToList h1 two_list 30 = Ret (0, h2, L2) /\
      lseg h2 (pHead L2) [(1, 10); (2, 20); (4, 30)] NULL.
Proof.
  assert (Hn : malloc (dom two_heap) <> NULL).
  { change (bump (dom two_heap) <> 0). pose proof (bump_pos (dom two_heap)). lia. }
  destruct (insertIntoList_loses_last two_heap two_list [(1, 10)] 2 20 25 30 two_rep Hn) as (h1 & Hi & _ & Hd & Ha).
  exists h1. split; [exact Hi|]. rewrite Hd in Ha.
  change (malloc ({[malloc (dom two_heap)]} ∪ dom two_heap)) with (bump {[3; 1; 2]}) in Ha.
  replace (bump {[3; 1; 2]}) with 4 in Ha by (vm_compute; reflexivity). apply Ha. discriminate.
Defined.
End Witnesses.
