(* ===== verification/JobTime.v ===== *)
(** * Times of the job scheduler (JS_FillTimeStruct, JS_GetDay, JS_GetDayNum)

    A job's times arrive as SNMP DateAndTime octets.  [mktime] and [localtime]
    are those of a zone at a fixed offset of [tz] seconds from UTC, in the
    proleptic Gregorian calendar. *)

From S2P Require Import Prelude CTypes.
From Stdlib Require Import String.
From stdpp Require Import strings.
#[local] Open Scope Z_scope.

(** ** The calendar of <time.h> *)

(** Days from 1 January 1970 to a date; [m] counts from 1. *)
Definition days_from_civil (y m d : Z) : Z :=
  let y := if m <=? 2 then y - 1 else y in
  let era := y / 400 in
  let yoe := y - era * 400 in
  let mp := if 2 <? m then m - 3 else m + 9 in
  let doy := (153 * mp + 2) / 5 + d - 1 in
  let doe := yoe * 365 + yoe / 4 - yoe / 100 + doy in
  era * 146097 + doe - 719468.

Definition civil_from_days (z : Z) : Z * Z * Z :=
  let z := z + 719468 in
  let era := z / 146097 in
  let doe := z - era * 146097 in
  let yoe := (doe - doe / 1460 + doe / 36524 - doe / 146096) / 365 in
  let y := yoe + era * 400 in
  let doy := doe - (365 * yoe + yoe / 4 - yoe / 100) in
  let mp := (5 * doy + 2) / 153 in
  let d := doy - (153 * mp + 2) / 5 + 1 in
  let m := if mp <? 10 then mp + 3 else mp - 9 in
  (if m <=? 2 then y + 1 else y, m, d).

Definition localtime (tz t : Z) : tm :=
  let s := t + tz in
  let days := s / 86400 in
  let rem := s mod 86400 in
  let '(y, m, d) := civil_from_days days in
  Tm (rem mod 60) (rem / 60 mod 60) (rem / 3600) d (m - 1) (y - 1900) ((days + 4) mod 7).

(** The time, and the structure with its fields brought into range. *)
Definition mktime (tz : Z) (t : tm) : Z * tm :=
  let y := tm_year t + 1900 + tm_mon t / 12 in
  let days := days_from_civil y (tm_mon t mod 12 + 1) 1 + (tm_mday t - 1) in
  let time := days * 86400 + tm_hour t * 3600 + tm_min t * 60 + tm_sec t - tz in
  (time, localtime tz time).

Definition leap (y : Z) : bool :=
  (y mod 4 =? 0) && (negb (y mod 100 =? 0) || (y mod 400 =? 0)).
Definition days_in_month (y m : Z) : Z :=
  if m =? 2 then (if leap y then 29 else 28)
  else if (m =? 4) || (m =? 6) || (m =? 9) || (m =? 11) then 30 else 31.

(** ** JS_FillTimeStruct *)

(** The eight octets of DateAndTime and what follows them in memory. *)
Definition JS_FillTimeStruct (tz : Z) (pstTime : list Z) : outcome (Z * tm) :=
  n ← strlen pstTime;
  if bool_decide (n < 80)%nat then
    let szStr i := at_ (take n pstTime) i in
    let iYear := Z.lor (Z.shiftl (szStr 0%nat) 8) (szStr 1%nat) in
    let pstTm := Tm (szStr 6%nat) (szStr 5%nat) (szStr 4%nat) (szStr 3%nat)
                    (szStr 2%nat - 1) (iYear - 1900) 0 in
    let '(iTime, t) := mktime tz pstTm in
    mret (UI32 iTime,
          Tm (tm_sec t) (tm_min t) (tm_hour t) (tm_mday t) (tm_mon t) iYear (tm_wday t))
  else Crash.

(** ** JS_GetDay *)
Definition Days : list string := ["Sun"; "Mon"; "Tue"; "Wed"; "Thu"; "Fri"; "Sat"]%string.
Definition JS_DAY_CNT : nat := 7.

(** The [for] loop of [JS_GetDayNum]: the index of the name, 0 if it is none. *)
Fixpoint day_loop (k : nat) (iCount : nat) (pcDay : string) : Z :=
  match k with
  | O => 0
  | S k => if String.eqb pcDay (nth iCount Days ""%string) then Z.of_nat iCount
           else day_loop k (S iCount) pcDay
  end.
Definition JS_GetDayNum (pcDay : string) : Z := day_loop JS_DAY_CNT 0 pcDay.

(** The first word [ctime] prints. *)
Definition ctime_day (tz t : Z) : string :=
  match tm_wday (localtime tz t) with
  | 0 => "Sun" | 1 => "Mon" | 2 => "Tue" | 3 => "Wed" | 4 => "Thu" | 5 => "Fri" | _ => "Sat"
  end%string.

Definition JS_GetDay (tz t : Z) : Z := JS_GetDayNum (ctime_day tz t).

(** ** The calendar round trip

    Every date a [UI32] can count the seconds to, in the years 1970 to 2105, is
    computed. *)
Definition civil_ok (y m d : Z) : bool :=
  let '(y1, m1, d1) := civil_from_days (days_from_civil y m d) in
  (y1 =? y) && (m1 =? m) && (d1 =? d).
Definition year_ok (y : Z) : bool :=
  forallb (fun m => forallb (civil_ok y m) (seqZ 1 (days_in_month y m))) (seqZ 1 12).

Lemma years_ok : forallb year_ok (seqZ 1970 136) = true.
Proof. vm_cast_no_check (eq_refl true). Qed.

Definition valid_date (y m d : Z) : Prop :=
  1970 <= y < 2106 /\ 1 <= m <= 12 /\ 1 <= d <= days_in_month y m.

Lemma forallb_seqZ f a n i : forallb f (seqZ a n) = true -> a <= i < a + n -> f i = true.
Proof.
  intros Hf Hi. rewrite forallb_forall in Hf. apply Hf.
  apply list_elem_of_In, elem_of_seqZ. lia.
Qed.

Lemma civil_roundtrip y m d :
  valid_date y m d -> civil_from_days (days_from_civil y m d) = (y, m, d).
Proof.
  intros (Hy & Hm & Hd). pose proof (forallb_seqZ _ _ _ y years_ok ltac:(lia)) as H.
  pose proof (forallb_seqZ _ _ _ m H ltac:(lia)) as H2. simpl in H2.
  pose proof (forallb_seqZ _ _ _ d H2 ltac:(lia)) as H3.
  unfold civil_ok in H3. destruct (civil_from_days _) as [[y1 m1] d1].
  repeat f_equal; lia.
Qed.

Lemma days_from_civil_day y m d : days_from_civil y m 1 + (d - 1) = days_from_civil y m d.
Proof. unfold days_from_civil. lia. Qed.

(** [mktime] leaves a date and time in range alone. *)
Lemma mktime_valid tz h mi s y m d wd :
  valid_date y m d -> 0 <= h < 24 -> 0 <= mi < 60 -> 0 <= s < 60 ->
  mktime tz (Tm s mi h d (m - 1) (y - 1900) wd) =
  (days_from_civil y m d * 86400 + h * 3600 + mi * 60 + s - tz,
   Tm s mi h d (m - 1) (y - 1900) ((days_from_civil y m d + 4) mod 7)).
Proof.
  intros Hv Hh Hmi Hs. unfold mktime. cbn [tm_sec tm_min tm_hour tm_mday tm_mon tm_year].
  pose proof Hv as (Hy & Hm & Hd).
  rewrite (Z.div_small (m - 1)), (Z.mod_small (m - 1)) by lia.
  replace (y - 1900 + 1900 + 0) with y by lia. rewrite Z.sub_add, days_from_civil_day.
  f_equal. unfold localtime.
  set (days := days_from_civil y m d) in *. set (sod := h * 3600 + mi * 60 + s).
  replace (days * 86400 + h * 3600 + mi * 60 + s - tz + tz) with (sod + days * 86400) by lia.
  assert (0 <= sod < 86400) by lia.
  rewrite Z_div_plus, Z_mod_plus, (Z.div_small sod), (Z.mod_small sod) by lia.
  rewrite Z.add_0_l. unfold days. rewrite civil_roundtrip by done. f_equal.
  - symmetry. apply Z.mod_unique with (h * 60 + mi); lia.
  - replace (sod / 60) with (h * 60 + mi) by (apply Z.div_unique with s; lia).
    symmetry. apply Z.mod_unique with h; lia.
  - symmetry. apply Z.div_unique with (mi * 60 + s); lia.
Qed.

Lemma wday_range tz t : 0 <= tm_wday (localtime tz t) < 7.
Proof.
  unfold localtime. destruct (civil_from_days _) as [[y m] d]. cbn [tm_wday].
  apply Z.mod_pos_bound. lia.
Qed.

Lemma JS_GetDay_wday tz t : JS_GetDay tz t = tm_wday (localtime tz t).
Proof.
  unfold JS_GetDay, ctime_day. pose proof (wday_range tz t) as Hw.
  destruct (tm_wday (localtime tz t)) as [|p|p]; [reflexivity| |lia].
  do 3 (destruct p as [p|p|]; try reflexivity; try lia).
Qed.

(** ** What the string copy loses

    The octets from the first zero on, as the code reads them. *)
Definition cut (b : list Z) (i : nat) : Z :=
  if existsb (fun c => c =? 0) (take i b) then 0 else at_ b i.

Lemma strlen_cut b n i : strlen b = Ret n -> at_ (take n b) i = cut b i.
Proof.
  unfold cut. revert n i. induction b as [|c b IH]; intros n i; simpl; [done|].
  destruct (Z.eqb_spec c 0) as [->|Hc].
  - intros [= <-]. destruct i; [done|]. by destruct i.
  - destruct (strlen b) as [k| |]; simpl; [|done..]. intros [= <-].
    destruct i as [|i]; simpl; [done|]. rewrite (proj2 (Z.eqb_neq c 0) Hc). simpl.
    unfold at_ in *. simpl. by apply IH.
Qed.

Lemma strlen_total b : 0 ∈ b -> exists n, strlen b = Ret n /\ (n < length b)%nat.
Proof.
  induction b as [|c b IH]; [by intros ?%not_elem_of_nil|]. simpl. intros Hin.
  destruct (Z.eqb_spec c 0) as [->|Hc]; [exists 0%nat; split; [done|lia]|].
  apply elem_of_cons in Hin as [Hin|Hin]; [done|].
  destruct (IH Hin) as (n & -> & Hn). exists (S n). split; [done|lia].
Qed.

Lemma year_bytes yh yl : 0 <= yh < 256 -> 0 <= yl < 256 ->
  Z.lor (Z.shiftl yh 8) yl = yh * 256 + yl.
Proof.
  intros Hh Hl. assert (Hland : Z.land (Z.shiftl yh 8) yl = 0).
  { apply Z.bits_inj'. intros i Hi. rewrite Z.land_spec, Z.shiftl_spec, Z.bits_0 by lia.
    destruct (Z.lt_ge_cases i 8).
    - rewrite Z.testbit_neg_r by lia. done.
    - rewrite <- (Z.mod_small yl (2 ^ 8)), Z.mod_pow2_bits_high by lia. apply andb_false_r. }
  rewrite <- Z.lxor_lor, <- Z.add_nocarry_lxor by done.
  rewrite Z.shiftl_mul_pow2 by lia. done.
Qed.

(** The octets of a DateAndTime are read back as the date and time they
    encode and the corresponding [time_t], in every zone, for the years 1970 to
    2105, except that the copy with [strcpy] ends at the first zero octet: at
    midnight the minutes and seconds are lost, and on the hour the seconds. *)
Theorem JS_FillTimeStruct_reads tz yh yl mo d h mi s ds :
  0 < yh < 256 -> 0 < yl < 256 -> valid_date (yh * 256 + yl) mo d ->
  0 <= h < 24 -> 0 <= mi < 60 -> 0 <= s < 60 ->
  let y := yh * 256 + yl in
  let mi' := if h =? 0 then 0 else mi in
  let s' := if (h =? 0) || (mi =? 0) then 0 else s in
  JS_FillTimeStruct tz [yh; yl; mo; d; h; mi; s; ds; 0] =
  Ret (UI32 (days_from_civil y mo d * 86400 + h * 3600 + mi' * 60 + s' - tz),
       Tm s' mi' h d (mo - 1) y ((days_from_civil y mo d + 4) mod 7)).
Proof.
  intros Hyh Hyl Hv Hh Hmi Hs y mi' s'. unfold JS_FillTimeStruct.
  set (b := [yh; yl; mo; d; h; mi; s; ds; 0]).
  destruct (strlen_total b) as (n & Hn & Hlt); [unfold b; set_solver|].
  rewrite Hn, outcome_bind_ret. rewrite bool_decide_eq_true_2 by (simpl in Hlt; lia).
  rewrite !(strlen_cut b n _ Hn). pose proof Hv as (_ & Hm & Hd).
  assert (Hc : cut b 0 = yh /\ cut b 1 = yl /\ cut b 2 = mo /\ cut b 3 = d /\ cut b 4 = h /\
    cut b 5 = mi' /\ cut b 6 = s').
  { unfold cut, b, at_, mi', s'. cbn [take existsb nth].
    rewrite !(proj2 (Z.eqb_neq _ 0)) by lia. cbn [orb].
    by destruct (h =? 0), (mi =? 0). }
  destruct Hc as (-> & -> & -> & -> & -> & -> & ->). rewrite year_bytes by lia. fold y in Hv |- *.
  rewrite mktime_valid; [done|done|lia|unfold mi'; case_match; lia|unfold s'; case_match; lia].
Qed.

(** [JS_GetDay] gives the weekday of a time, Sunday being 0, in the zone
    of [ctime]. *)
Theorem JS_GetDay_weekday tz t :
  JS_GetDay tz t = ((t + tz) / 86400 + 4) mod 7 /\ 0 <= JS_GetDay tz t <= 6.
Proof.
  rewrite JS_GetDay_wday. pose proof (wday_range tz t). split; [|lia].
  unfold localtime. by destruct (civil_from_days _) as [[y m] d].
Qed.

(** Half past midnight on 29 February 2004, in Tokyo. *)
Lemma JS_FillTimeStruct_reads_witness :
  JS_FillTimeStruct 32400 [7; 212; 2; 29; 0; 30; 15; 0; 0] =
  Ret (1077980400, Tm 0 0 0 29 1 2004 0).
Proof.
  rewrite (JS_FillTimeStruct_reads 32400 7 212 2 29 0 30 15 0);
    [reflexivity|lia|lia|unfold valid_date; simpl; vm_compute; intuition discriminate|lia|lia|lia].
Defined.
