(* ===== verification/JobList.v ===== *)
(** * The list of scheduled jobs
      (src/Group2/Unix/JobSched/src/NASCenter_JS_List.c)

    A singly linked list behind a header node.  It maps the index of a job's row
    in the MIB table to the identifier of its task in the scheduler; the newest
    entry of an index hides older ones. *)

From S2P Require Import Prelude Heap CTypes.

Abbreviation jlheap := (gmap Z (node (Z * Z))).

(** A call that may end the process, in [JS_FatalError]: [None]. *)
Abbreviation exits A := (outcome (option A)).

Section JobList.
Context `{Allocator}.

(** [JS_DeleteList]: every node but the header. *)
Fixpoint free_nodes (fuel : nat) (h : jlheap) (cur : Z) : outcome jlheap :=
  match fuel with
  | O => OutOfFuel
  | S fuel =>
      if cur =? NULL then mret h else
      nd ← load h cur;
      h1 ← dispose h cur;
      free_nodes fuel h1 (next nd)
  end.

Definition JS_DeleteList (h : jlheap) (stListPtr : Z) : outcome jlheap :=
  hd ← load h stListPtr;
  h1 ← set_next h stListPtr NULL;
  free_nodes (S (size h1)) h1 (next hd).

(** The header of an existing list is not freed. *)
Definition JS_MakeEmpty (h : jlheap) (stListPtr : Z) : exits (jlheap * Z) :=
  h1 ← (if negb (stListPtr =? NULL) then JS_DeleteList h stListPtr else mret h);
  let p := malloc (dom h1) in
  if p =? NULL then mret None
  else mret (Some (<[p := Node (0, 0) NULL]> h1, p)).

Definition JS_AddNodeInJobList (h : jlheap) (taskID iIndex stListPtr : Z) : exits jlheap :=
  let TmpCell := malloc (dom h) in
  if TmpCell =? NULL then mret None else
  let h1 := <[TmpCell := Node (I16 iIndex, taskID) NULL]> h in
  tempPtr ← load h1 stListPtr;
  h2 ← set_next h1 TmpCell (next tempPtr);
  h3 ← set_next h2 stListPtr TmpCell;
  mret (Some h3).

Fixpoint find_node (fuel : nat) (h : jlheap) (iIndex taskID prev cur : Z)
    : outcome (option (Z * Z)) :=
  match fuel with
  | O => OutOfFuel
  | S fuel =>
      if cur =? NULL then mret None else
      nd ← load h cur;
      if ((val nd).1 =? I16 iIndex) && ((val nd).2 =? taskID) then mret (Some (prev, cur))
      else find_node fuel h iIndex taskID cur (next nd)
  end.

Definition JS_DeleteNodeFromList (h : jlheap) (stListPtr iIndex taskID : Z)
    : outcome (Z * jlheap) :=
  hd ← load h stListPtr;
  r ← find_node (S (size h)) h iIndex taskID stListPtr (next hd);
  match r with
  | Some (prev, cur) =>
      nd ← load h cur;
      h1 ← set_next h prev (next nd);
      h2 ← dispose h1 cur;
      mret (1, h2)
  | None => mret (0, h)
  end.

Fixpoint find_task (fuel : nat) (h : jlheap) (iIndex cur : Z) : outcome Z :=
  match fuel with
  | O => OutOfFuel
  | S fuel =>
      if cur =? NULL then mret (-1) else
      nd ← load h cur;
      if (val nd).1 =? I16 iIndex then mret (val nd).2
      else find_task fuel h iIndex (next nd)
  end.

Definition JS_GetTaskID (h : jlheap) (iIndex stListPtr : Z) : outcome Z :=
  hd ← load h stListPtr;
  find_task (S (size h)) h iIndex (next hd).

(** ** Specification: the entries, newest first *)
Definition jl_get (i : Z) (l : list (Z * Z)) : Z :=
  match assoc i l with Some t => t | None => -1 end.

Fixpoint jl_del (i t : Z) (l : list (Z * Z)) : list (Z * Z) :=
  match l with
  | [] => []
  | x :: l => if (x.1 =? i) && (x.2 =? t) then l else x :: jl_del i t l
  end.

(** [jl_rep h p l]: the list at [p] has the entries [l] at the addresses [a]. *)
Definition jl_rep (h : jlheap) (p : Z) (l : list (Z * Z)) : Prop :=
  exists (hv : Z * Z) (ns : list (Z * (Z * Z))),
    lseg h p ((p, hv) :: ns) NULL /\ NoDup (p :: ns.*1) /\ ns.*2 = l.

Lemma jl_size (h : jlheap) p hv (ns : list (Z * (Z * Z))) :
  lseg h p ((p, hv) :: ns) NULL -> NoDup (p :: ns.*1) -> (length ns < size h)%nat.
Proof. intros Hl Hn. pose proof (lseg_size _ _ _ _ Hl Hn). simpl in *. lia. Qed.

Lemma find_task_spec fuel (h : jlheap) i (ns : list (Z * (Z * Z))) cur :
  lseg h cur ns NULL -> (length ns < fuel)%nat ->
  find_task fuel h i cur = Ret (jl_get (I16 i) ns.*2).
Proof.
  revert ns cur. induction fuel as [|fuel IH]; intros ns cur Hl Hf; [lia|]. cbn [find_task].
  destruct (Z.eqb_spec cur NULL) as [->|Hc]; [by rewrite (lseg_null_nil _ _ Hl)|].
  destruct (lseg_cons_inv _ _ _ _ Hc Hl) as ([j t] & ns' & n & -> & _ & Hn & Hl').
  rewrite (load_Some _ _ _ Hc Hn), outcome_bind_ret. unfold jl_get. csimpl.
  rewrite Z.eqb_sym. destruct (I16 i =? j); [done|]. apply IH; [done|simpl in Hf; lia].
Qed.

Lemma JS_GetTaskID_spec h p l i : jl_rep h p l -> JS_GetTaskID h i p = Ret (jl_get (I16 i) l).
Proof.
  intros (hv & ns & Hl & Hnd & <-). unfold JS_GetTaskID.
  pose proof (jl_size _ _ _ _ Hl Hnd). simpl in Hl. destruct Hl as (_ & Hp & n & Hn & Hl).
  rewrite (load_Some _ _ _ Hp Hn), outcome_bind_ret. apply find_task_spec; [done|lia].
Qed.

Lemma JS_AddNode_spec h p l t i :
  jl_rep h p l ->
  if malloc (dom h) =? NULL then JS_AddNodeInJobList h t i p = Ret None
  else exists h', JS_AddNodeInJobList h t i p = Ret (Some h') /\ jl_rep h' p ((I16 i, t) :: l).
Proof.
  intros (hv & ns & Hl & Hnd & <-). unfold JS_AddNodeInJobList.
  set (c := malloc (dom h)). destruct (Z.eqb_spec c NULL) as [Hc|Hc]; [done|].
  destruct (malloc_spec (dom h)) as [|[_ Hfresh]]; [done|]. fold c in Hfresh.
  assert (Hns : forall x, x ∈ p :: ns.*1 -> x <> c).
  { intros x Hx ->. apply Hfresh. by eapply (lseg_dom h p ((p, hv) :: ns)). }
  simpl in Hl. destruct Hl as (_ & Hp & n & Hn & Hl).
  assert (Hpc : p <> c) by (apply Hns; by left).
  erewrite load_Some; [|done|by rewrite lookup_insert_ne]. rewrite outcome_bind_ret.
  erewrite set_next_Some; [|done|by rewrite lookup_insert_eq]. rewrite outcome_bind_ret.
  erewrite set_next_Some; [|done|by rewrite !lookup_insert_ne]. rewrite outcome_bind_ret.
  eexists. split; [done|]. exists hv, ((c, (I16 i, t)) :: ns). split_and!; [|csimpl|done].
  - simpl. split_and!; [done..|]. exists c. rewrite lookup_insert_eq. split_and!; [done..|].
    exists n. rewrite lookup_insert_ne, lookup_insert_eq by done. split; [done|].
    eapply lseg_agree; [|exact Hl]. intros x Hx.
    apply NoDup_cons in Hnd as [Hpn _].
    assert (x <> c) by (apply Hns; by right).
    assert (x <> p) by (by intros ->). by rewrite !lookup_insert_ne by congruence.
  - apply NoDup_cons in Hnd as [Hpn Hnd]. rewrite !NoDup_cons, elem_of_cons.
    split_and!; [|by intros Hin; eapply Hns; [right|]|done]. tauto.
Qed.

Lemma find_node_spec fuel (h : jlheap) i t prev pv l1 (ns : list (Z * (Z * Z))) cur :
  lseg h cur ns NULL -> (length ns < fuel)%nat ->
  match find_node fuel h i t prev cur with
  | Ret (Some (q, c)) =>
      exists l2 qv n2 l3, (prev, pv) :: ns = l2 ++ (q, qv) :: (c, (I16 i, t)) :: l3 /\
        h !! c = Some (Node (I16 i, t) n2) /\
        l1 ++ l2.*2 ++ qv :: l3.*2 = l1 ++ pv :: jl_del (I16 i) t ns.*2 /\
        (I16 i, t) ∈ ns.*2
  | Ret None => (I16 i, t) ∉ ns.*2
  | _ => False
  end.
Proof.
  revert prev pv l1 ns cur. induction fuel as [|fuel IH]; intros prev pv l1 ns cur Hl Hf; [lia|].
  cbn [find_node]. destruct (Z.eqb_spec cur NULL) as [->|Hc].
  { rewrite (lseg_null_nil _ _ Hl). apply not_elem_of_nil. }
  destruct (lseg_cons_inv _ _ _ _ Hc Hl) as ([j u] & ns' & n & -> & _ & Hn & Hl').
  rewrite (load_Some _ _ _ Hc Hn), outcome_bind_ret. csimpl.
  destruct ((j =? I16 i) && (u =? t)) eqn:Hm.
  - boolify. assert (j = I16 i) as -> by lia. assert (u = t) as -> by lia.
    exists [], pv, n, ns'. split_and!; try done. by left.
  - specialize (IH cur (j, u) (l1 ++ [pv]) ns' n Hl' ltac:(simpl in Hf; lia)).
    destruct (find_node fuel h i t cur n) as [[[q c]|]| |]; [| |done..].
    + destruct IH as (l2 & qv & n2 & l3 & He & Hh & Hd & Hin).
      exists ((prev, pv) :: l2), qv, n2, l3. split_and!; [by rewrite He|done| |by right].
      csimpl. rewrite <- !app_assoc in Hd. exact Hd.
    + intros [He|]%elem_of_cons; [|done]. injection He as <- <-. rewrite !Z.eqb_refl in Hm. done.
Qed.

Lemma JS_DeleteNode_spec h p l i t :
  jl_rep h p l ->
  exists r h', JS_DeleteNodeFromList h p i t = Ret (r, h') /\
    jl_rep h' p (jl_del (I16 i) t l) /\
    r = (if bool_decide ((I16 i, t) ∈ l) then 1 else 0).
Proof.
  intros (hv & ns & Hl & Hnd & <-). unfold JS_DeleteNodeFromList.
  pose proof (jl_size _ _ _ _ Hl Hnd) as Hsz. pose proof Hl as Hl0.
  simpl in Hl. destruct Hl as (_ & Hp & n & Hn & Hl).
  rewrite (load_Some _ _ _ Hp Hn), outcome_bind_ret. cbn [next].
  pose proof (find_node_spec (S (size h)) h i t p hv [] ns n Hl ltac:(lia)) as Hf.
  destruct (find_node _ h i t p n) as [[[q c]|]| |]; [| |done..]; rewrite outcome_bind_ret.
  - destruct Hf as (l2 & qv & n2 & l3 & He & Hc & Hd & Hin). rewrite !app_nil_l in Hd.
    rewrite He in Hl0. assert (Hnd2 : NoDup (l2 ++ (q, qv) :: (c, (I16 i, t)) :: l3).*1).
    { rewrite <- He. exact Hnd. }
    assert (Hl1 := Hl0). rewrite cons_middle, app_assoc in Hl1.
    destruct (lseg_next _ _ _ _ _ _ _ Hl1) as (Hc0 & _).
    destruct (lseg_next _ _ _ _ _ _ _ Hl0) as (Hq0 & k & Hq & _).
    rewrite (load_Some _ _ _ Hc0 Hc), outcome_bind_ret. cbn [next].
    rewrite (set_next_Some _ _ _ _ _ Hq0 Hq), outcome_bind_ret.
    assert (Hqc : q <> c).
    { intros ->. rewrite fmap_app in Hnd2. csimpl in *.
      apply NoDup_app in Hnd2 as (_ & _ & [Hx _]%NoDup_cons). apply Hx. by left. }
    unfold dispose. erewrite load_Some; [|done|by rewrite lookup_insert_ne].
    rewrite !outcome_bind_ret. eexists _, _. split; [reflexivity|].
    rewrite bool_decide_eq_true_2 by done. split; [|done].
    pose proof (lseg_unlink _ _ _ _ _ _ _ _ _ Hl0 Hnd2 Hc) as Hl'.
    assert (exists hv' ns', l2 ++ (q, qv) :: l3 = (p, hv') :: ns' /\ hv' = hv) as (hv' & ns' & He' & ->).
    { destruct l2 as [|[a va] l2]; injection He as <- <- He; by eexists _, _. }
    exists hv, ns'. rewrite He' in Hl'. split_and!; [done| |].
    + change (p :: ns'.*1) with ((p, hv) :: ns').*1. rewrite <- He'.
      eapply sublist_NoDup; [exact Hnd2|]. apply fmap_sublist, sublist_app; [done|].
      do 2 constructor. done.
    + apply (f_equal (fmap snd)) in He'. rewrite fmap_app in He'. csimpl in He'.
      rewrite Hd in He'. by injection He'.
  - eexists _, _. split; [reflexivity|]. rewrite bool_decide_eq_false_2 by done. split; [|done].
    exists hv, ns. split_and!; [done..|]. clear -Hf. revert Hf. generalize ns.*2. intros l Hf.
    induction l as [|[j u] l IH]; [done|]. cbn [jl_del fst snd].
    destruct (Z.eqb_spec j (I16 i)) as [->|]; destruct (Z.eqb_spec u t) as [->|];
      simpl; try (f_equal; apply IH; set_solver). exfalso. apply Hf. by left.
Qed.

Lemma JS_MakeEmpty_fresh h :
  malloc (dom h) <> NULL ->
  exists h' p, JS_MakeEmpty h NULL = Ret (Some (h', p)) /\ jl_rep h' p [].
Proof.
  intros Hm. unfold JS_MakeEmpty. rewrite (Z.eqb_refl NULL). cbn [negb]. rewrite outcome_bind_ret.
  rewrite (proj2 (Z.eqb_neq _ _) Hm). eexists _, _. split; [reflexivity|].
  exists (0, 0), []. split_and!; [|by repeat constructor; intros ?%not_elem_of_nil|done].
  simpl. split_and!; [done..|]. exists NULL. by rewrite lookup_insert_eq.
Qed.
End JobList.
