(* ===== verification/SchedIface.v ===== *)
(** * The scheduler as its clients see it

    [TaskScheduler] is what a client of NASCenter_Scheduler.h relies on: four
    operations on a finite map from identifiers to tasks.  The job scheduler is
    proved against it; [sched_scheduler] discharges it for the real one. *)

From S2P Require Import Prelude Heap CTypes SchedTypes SchedMaster SchedTable.
From S2P Require Import SchedApi SchedBuild.

Class TaskScheduler := {
  ts_state : Type;
  ts_add : tm -> stTask -> ts_state -> outcome (Z * ts_state);
  ts_get : Z -> ts_state -> outcome (ENASCenterError * option stTask);
  ts_delete : Z -> ts_state -> outcome (ENASCenterError * ts_state);
  ts_modify : tm -> Z -> stTask -> ts_state -> outcome (Z * ts_state);

  (** The state holds these tasks; a task is acceptable; memory suffices. *)
  ts_rel : ts_state -> gmap Z stTask -> Prop;
  ts_accepts : tm -> stTask -> bool;
  ts_memory : Prop;

  ts_add_spec now t s m :
    ts_rel s m -> 0 <= ui16Hour (StartTime t) < 25 ->
    exists r s', ts_add now t s = Ret (r, s') /\
      (r = -1 /\ ts_rel s' m /\ (ts_memory -> ts_accepts now t = false) \/
       ts_accepts now t = true /\ 0 < r /\ m !! r = None /\ ts_rel s' (<[r := t]> m));
  ts_get_spec id s m :
    ts_rel s m ->
    ts_get id s = Ret (match m !! id with Some _ => NASC_SUCCESS | None => NASC_FAILURE end,
                       m !! id);
  ts_delete_spec id s m :
    ts_rel s m ->
    exists s', ts_delete id s =
      Ret (match m !! id with Some _ => NASC_SUCCESS | None => NASC_FAILURE end, s') /\
      ts_rel s' (delete id m);
  ts_modify_spec now id t s m :
    ts_rel s m -> 0 <= ui16Hour (StartTime t) < 25 -> is_Some (m !! id) ->
    exists r s', ts_modify now id t s = Ret (r, s') /\
      (r = -1 /\ ts_rel s' (delete id m) /\ (ts_memory -> ts_accepts now t = false) \/
       ts_accepts now t = true /\ 0 < r /\ delete id m !! r = None /\
       ts_rel s' (<[r := t]> (delete id m)))
}.

Section Instance_.
Context `{Allocator}.

Definition sched_rel (s : sched) (m : gmap Z stTask) : Prop :=
  exists bks es, sched_rep s bks es /\ tasks bks = m.

Definition sched_accepts (now : tm) (t : stTask) : bool :=
  bool_decide (is_Some (accepts now t)).

Lemma sched_add now t s m :
  sched_rel s m -> 0 <= ui16Hour (StartTime t) < 25 ->
  exists r s', SCH_AddTask now t s = Ret (r, s') /\
    (r = -1 /\ sched_rel s' m /\ (malloc_total -> sched_accepts now t = false) \/
     sched_accepts now t = true /\ 0 < r /\ m !! r = None /\ sched_rel s' (<[r := t]> m)).
Proof.
  intros (bks & es & Hr & <-) Hh. unfold sched_accepts.
  destruct (accepts now t) as [i|] eqn:Hac.
  - assert (Hi : 0 <= i < 25).
    { unfold accepts in Hac. case_bool_decide; [|done]. by eapply slot_index_range. }
    destruct (AddTask_accepted now t s bks es i Hr Hac Hi) as (s' & -> & Hok).
    set (n := malloc (st_live s)) in *. destruct (Z.eqb_spec n NULL) as [Hn|Hn].
    + eexists _, _. split; [done|]. left. split_and!; [done|by exists bks, es|].
      intros Ht. by destruct (Ht (st_live s)).
    + destruct (Hok Hn) as (Hr' & _ & _ & Hfresh). eexists _, _. split; [done|]. right.
      split_and!; [done| |by apply tasks_None|].
      * destruct (malloc_spec (st_live s)) as [|[? _]]; done.
      * eexists _, _. split; [exact Hr'|]. apply tasks_add; [|done].
        rewrite (sr_length _ _ _ Hr). unfold MASTER_ARR_SIZE. lia.
  - rewrite AddTask_refused by done. eexists _, _. split; [done|]. left.
    split_and!; [done|by exists bks, es|done].
Qed.

Lemma sched_delete id s m :
  sched_rel s m ->
  exists s', SCH_DeleteTask id s =
    Ret (match m !! id with Some _ => NASC_SUCCESS | None => NASC_FAILURE end, s') /\
    sched_rel s' (delete id m).
Proof.
  intros (bks & es & Hr & <-). destruct (DeleteTask_spec id s bks es Hr) as (s' & -> & Hr' & _).
  exists s'. split; [|exists (spec_delete id bks), es; split; [done|apply tasks_delete]].
  case_bool_decide as Hd.
  - destruct (tasks bks !! id) eqn:Ht; [done|]. by apply tasks_None in Ht.
  - apply tasks_None in Hd. by rewrite Hd.
Qed.

Lemma sched_get id s m :
  sched_rel s m ->
  SCH_GetTask id s =
  Ret (match m !! id with Some _ => NASC_SUCCESS | None => NASC_FAILURE end, m !! id).
Proof. intros (bks & es & Hr & <-). by eapply GetTask_spec. Qed.

Lemma sched_modify now id t s m :
  sched_rel s m -> 0 <= ui16Hour (StartTime t) < 25 -> is_Some (m !! id) ->
  exists r s', SCH_ModifyTask now id t s = Ret (r, s') /\
    (r = -1 /\ sched_rel s' (delete id m) /\ (malloc_total -> sched_accepts now t = false) \/
     sched_accepts now t = true /\ 0 < r /\ delete id m !! r = None /\
     sched_rel s' (<[r := t]> (delete id m))).
Proof.
  intros Hs Hh [t0 Ht0]. unfold SCH_ModifyTask.
  destruct (sched_delete id s m Hs) as (s1 & -> & Hs1).
  rewrite outcome_bind_ret, Ht0. cbn [error_bool]. by apply sched_add.
Qed.

#[export] Instance sched_scheduler : TaskScheduler := {|
  ts_state := sched;
  ts_add := SCH_AddTask;
  ts_get := SCH_GetTask;
  ts_delete := SCH_DeleteTask;
  ts_modify := SCH_ModifyTask;
  ts_rel := sched_rel;
  ts_accepts := sched_accepts;
  ts_memory := malloc_total;
  ts_add_spec := sched_add;
  ts_get_spec := sched_get;
  ts_delete_spec := sched_delete;
  ts_modify_spec := sched_modify
|}.
End Instance_.
