(* ===== verification/JobSched.v ===== *)
(** * Jobs in the scheduler (JS_FreeJobMaster, JS_FillStruct, JS_AddJobToSched,
      JS_ModifyJobToSched, JS_DeleteFromSched, JS_UpdateJobToScheduler of
      src/Group2/Unix/JobSched/src/NASCenter_JS.c)

    A job is a [stJobMaster] on the heap; the scheduler's task points to it
    through [vpArg] and the job list maps its row index to the task. *)

From S2P Require Import Prelude Heap CTypes SchedTypes SchedIface JobTime JobList.
#[local] Open Scope Z_scope.

(** A character pointer is [None] for [NULL], else the buffer it points to. *)
Record stJobMaster := MkJob {
  iJobMasIndex : Z;
  pcJobMasId : option (list Z);
  pcJobMasName : option (list Z);
  iJobMasInterval : Z;
  pcJobMasStartTime : option (list Z);
  pcJobMasFinishTime : option (list Z);
  uiEndTimeinNum : Z;
  iJobMasMemoryUsage : Z;
  iJobMasCPUUsage : Z;
  iJobMasStatus : Z
}.

Definition set_end (e : Z) (j : stJobMaster) : stJobMaster :=
  MkJob (iJobMasIndex j) (pcJobMasId j) (pcJobMasName j) (iJobMasInterval j)
        (pcJobMasStartTime j) (pcJobMasFinishTime j) e (iJobMasMemoryUsage j)
        (iJobMasCPUUsage j) (iJobMasStatus j).

(** The job with these strings. *)
Definition set_strings (i n st fi : option (list Z)) (j : stJobMaster) : stJobMaster :=
  MkJob (iJobMasIndex j) i n (iJobMasInterval j) st fi (uiEndTimeinNum j)
        (iJobMasMemoryUsage j) (iJobMasCPUUsage j) (iJobMasStatus j).

Section JobSched.
Context `{TaskScheduler} `{Allocator}.

(** The zone of the local time, and the address of [JS_PerformJobSchedAction]. *)
Variable tz : Z.
Variable JS_PerformJobSchedAction : Z.

(** The globals: the scheduler, the jobs on the heap and the job list. *)
Record js := MkJs {
  js_sched : ts_state;
  js_jobs : gmap Z stJobMaster;
  js_list : jlheap;
  stListPtr : Z
}.

Definition with_sched (s : js) x := MkJs x (js_jobs s) (js_list s) (stListPtr s).
Definition with_jobs (s : js) x := MkJs (js_sched s) x (js_list s) (stListPtr s).
Definition with_list (s : js) x := MkJs (js_sched s) (js_jobs s) x (stListPtr s).

Definition load_job (s : js) (p : Z) : outcome stJobMaster :=
  if p =? NULL then Crash else
  match js_jobs s !! p with Some j => Ret j | None => Crash end.

(** The strings go with the record. *)
Definition JS_FreeJobMaster (s : js) (p : Z) : outcome js :=
  if p =? NULL then mret s else
  _ ← load_job s p; mret (with_jobs s (delete p (js_jobs s))).

(** [JS_FillStruct]: the new string for the octets of a variable, [mem] telling
    whether [malloc] succeeds.  A length of 32768 or more is negative in [iLen]:
    [malloc] then refuses the huge size, but for -1, where [memcpy] gets it. *)
Definition JS_FillStruct (mem : bool) (val_len : Z) (val : list Z)
    : outcome (ENASCenterError * option (list Z)) :=
  let iLen := I16 val_len in
  if iLen =? 0 then mret (NASC_FAILURE, None)
  else if (iLen <? -1) || negb mem then mret (NASC_INSUFFICIENT_MEMORY, None)
  else if (0 <=? iLen) && (iLen <=? Z.of_nat (length val))
  then mret (NASC_SUCCESS, Some (take (Z.to_nat iLen) val ++ [0]))
  else Crash.

Definition time_of (t : tm) : stTime :=
  MkTime (UI16 (tm_hour t)) (UI16 (tm_min t)) (UI16 (tm_sec t)).
Definition date_of (t : tm) : stDate :=
  MkDate (UI16 (tm_mday t)) (UI16 (tm_mon t)) (UI16 (tm_year t)).

Definition set_start (t : tm) (k : stTask) : stTask :=
  MkTask (date_of t) (EndDate k) (time_of t) (EndTime k) (eType k) (ePCity k)
         (ui32Interval k) (eWeekDay k) (fp k) (vpArg k).
Definition set_finish (t : tm) (k : stTask) : stTask :=
  MkTask (StartDate k) (date_of t) (StartTime k) (time_of t) (eType k) (ePCity k)
         (ui32Interval k) (eWeekDay k) (fp k) (vpArg k).
Definition set_kind (ty pc wd : Z) (k : stTask) : stTask :=
  MkTask (StartDate k) (EndDate k) (StartTime k) (EndTime k) ty pc
         (ui32Interval k) wd (fp k) (vpArg k).
Definition set_call (f a : Z) (k : stTask) : stTask :=
  MkTask (StartDate k) (EndDate k) (StartTime k) (EndTime k) (eType k) (ePCity k)
         (ui32Interval k) (eWeekDay k) f a.
Definition set_end_date (d : stDate) (k : stTask) : stTask :=
  MkTask (StartDate k) d (StartTime k) (EndTime k) (eType k) (ePCity k)
         (ui32Interval k) (eWeekDay k) (fp k) (vpArg k).

(** The [switch] on the interval; [day] is the weekday of the start. *)
Definition set_interval (interval day : Z) (tend : tm) (k : stTask) : stTask :=
  if interval =? 0 then set_kind SCH_ONE_SHOT SCH_DAY SCH_ALL_DAYS k
  else if interval =? 1 then
    set_end_date (date_of tend) (set_kind SCH_PERIODIC SCH_DAY SCH_ALL_DAYS k)
  else if interval =? 2 then
    set_end_date (date_of tend) (set_kind SCH_PERIODIC SCH_WEEK day k)
  else if interval =? 3 then
    set_end_date (date_of tend) (set_kind SCH_PERIODIC SCH_MONTH day k)
  else k.

Definition zero_tm : tm := Tm 0 0 0 0 0 0 0.

(** The status a function returns, the state it leaves, or the end of the process. *)
Definition js_ret (r : ENASCenterError) (s : js) : exits (ENASCenterError * js) :=
  mret (Some (r, s)).

(** ** JS_AddJobToSched

    [junk] is what the uninitialised local [task] holds. *)
Definition JS_AddJobToSched (now : tm) (junk : stTask) (p : Z) (s : js) : exits (ENASCenterError * js) :=
  if p =? NULL then js_ret NASC_FAILURE s else
  job ← load_job s p;
  match pcJobMasStartTime job with
  | None => js_ret NASC_FAILURE s
  | Some start =>
      '(ulTime, pstTmStart) ← JS_FillTimeStruct tz start;
      if ulTime =? 0 then js_ret NASC_FAILURE s else
      let task := set_start pstTmStart junk in
      let iRetCount := JS_GetDay tz ulTime in
      if bool_decide (pcJobMasFinishTime job = None) && negb (iJobMasInterval job =? 0)
      then js_ret NASC_FAILURE s else
      (* the finish time, of jobs that have an interval *)
      r ← (if negb (iJobMasInterval job =? 0) then
             '(ulEnd, pstTmEnd) ← JS_FillTimeStruct tz (default [] (pcJobMasFinishTime job));
             mret (if ulEnd =? 0 then None
                   else Some (set_finish pstTmEnd task, pstTmEnd,
                              with_jobs s (<[p := set_end ulEnd job]> (js_jobs s))))
           else mret (Some (task, zero_tm, s)));
      match r with
      | None => js_ret NASC_FAILURE s
      | Some (task, pstTmEnd, s) =>
          if iJobMasInterval job =? -1 then js_ret NASC_FAILURE s else
          let task := set_call JS_PerformJobSchedAction p
                        (set_interval (iJobMasInterval job) iRetCount pstTmEnd task) in
          '(lTaskId, sc) ← ts_add now task (js_sched s);
          let s := with_sched s sc in
          if lTaskId =? -1 then js_ret NASC_FAILURE s else
          l ← JS_AddNodeInJobList (js_list s) lTaskId (iJobMasIndex job) (stListPtr s);
          match l with
          | None => mret None
          | Some l => js_ret NASC_SUCCESS (with_list s l)
          end
      end
  end.

(** ** JS_ModifyJobToSched *)

(** A copy of a string in fresh memory, up to its terminator. *)
Definition copy_str (b : list Z) : outcome (list Z) :=
  n ← strlen b; mret (take n b ++ [0]).

(** Replace a string of [pstJSMod] when the request has a new one; [None] when
    [malloc] fails. *)
Definition replace_str (mem : bool) (new old : option (list Z))
    : outcome (bool * option (list Z)) :=
  match new with
  | None => mret (true, old)
  | Some b => c ← copy_str b; mret (if mem then (true, Some c) else (false, None))
  end.

(** The four strings, in order; the flag tells whether the function goes on. *)
Definition replace_strings (mem : nat -> bool) (new old : stJobMaster)
    : outcome (bool * stJobMaster) :=
  '(b1, i) ← replace_str (mem 1%nat) (pcJobMasId new) (pcJobMasId old);
  let j1 := set_strings i (pcJobMasName old) (pcJobMasStartTime old) (pcJobMasFinishTime old) old in
  if negb b1 then mret (false, j1) else
  '(b2, n) ← replace_str (mem 2%nat) (pcJobMasName new) (pcJobMasName old);
  let j2 := set_strings i n (pcJobMasStartTime old) (pcJobMasFinishTime old) old in
  if negb b2 then mret (false, j2) else
  '(b3, st) ← replace_str (mem 3%nat) (pcJobMasStartTime new) (pcJobMasStartTime old);
  let j3 := set_strings i n st (pcJobMasFinishTime old) old in
  if negb b3 then mret (false, j3) else
  '(b4, fi) ← replace_str (mem 4%nat) (pcJobMasFinishTime new) (pcJobMasFinishTime old);
  mret (b4, set_strings i n st fi old).

(** The new times and kind; [day0] is what the uninitialised local [iDayCount]
    holds.  [None] is a time that reads as 0. *)
Definition modify_times (day0 : Z) (job : stJobMaster) (k : stTask)
    : outcome (option (stTask * stJobMaster)) :=
  r ← match pcJobMasStartTime job with
      | None => mret (Some (k, day0))
      | Some b =>
          '(ulTime, t) ← JS_FillTimeStruct tz b;
          mret (if ulTime =? 0 then None else Some (set_start t k, JS_GetDay tz ulTime))
      end;
  match r with
  | None => mret None
  | Some (k, iDayCount) =>
      match pcJobMasFinishTime job with
      | None => mret (Some (k, job))
      | Some b =>
          '(ulTime, t) ← JS_FillTimeStruct tz b;
          if ulTime =? 0 then mret None else
          let k := set_finish t k in
          let k := if negb (iJobMasInterval job =? -1)
                   then set_interval (iJobMasInterval job) iDayCount t k else k in
          mret (Some (k, set_end ulTime job))
      end
  end.

(** [mem] tells which of the calls of [malloc] succeed; the first is for the
    copy of the task, and [SCH_GetTask] writes through its result. *)
Definition JS_ModifyJobToSched (now : tm) (mem : nat -> bool) (day0 : Z) (p : Z) (s : js)
    : exits (ENASCenterError * js) :=
  job ← load_job s p;
  lTaskId ← JS_GetTaskID (js_list s) (iJobMasIndex job) (stListPtr s);
  if lTaskId =? -1 then s1 ← JS_FreeJobMaster s p; js_ret NASC_FAILURE s1 else
  '(st, found) ← ts_get lTaskId (js_sched s);
  match found with
  | None => js_ret NASC_FAILURE s
  | Some k0 =>
      if negb (mem 0%nat) then Crash else
      r ← modify_times day0 job k0;
      match r with
      | None => js_ret NASC_FAILURE s
      | Some (k, job) =>
          let s := with_jobs s (<[p := job]> (js_jobs s)) in
          old ← load_job s (vpArg k0);
          '(go, new) ← replace_strings mem job old;
          let s1 := with_jobs s (<[vpArg k0 := new]> (js_jobs s)) in
          if negb go then js_ret NASC_FAILURE s1 else
          let s1 := with_jobs s (<[vpArg k0 := set_end (uiEndTimeinNum job) new]> (js_jobs s)) in
          let k := set_call JS_PerformJobSchedAction (vpArg k0) k in
          '(newTaskID, sc) ← ts_modify now lTaskId k (js_sched s1);
          let s2 := with_sched s1 sc in
          if negb (newTaskID =? -1) then
            '(iResult, l1) ← JS_DeleteNodeFromList (js_list s2) (stListPtr s2)
                               (iJobMasIndex job) lTaskId;
            let s3 := with_list s2 l1 in
            if iResult =? 0 then js_ret NASC_FAILURE s3 else
            l ← JS_AddNodeInJobList (js_list s3) newTaskID (iJobMasIndex job) (stListPtr s3);
            match l with
            | None => mret None
            | Some l => s4 ← JS_FreeJobMaster (with_list s3 l) p; js_ret NASC_SUCCESS s4
            end
          else s3 ← JS_FreeJobMaster s2 p; js_ret NASC_SUCCESS s3
      end
  end.

(** ** JS_DeleteFromSched *)
Definition JS_DeleteFromSched (mem : nat -> bool) (p : Z) (s : js) : exits (ENASCenterError * js) :=
  if p =? NULL then js_ret NASC_FAILURE s else
  job ← load_job s p;
  lDelTaskId ← JS_GetTaskID (js_list s) (iJobMasIndex job) (stListPtr s);
  if lDelTaskId =? -1 then s1 ← JS_FreeJobMaster s p; js_ret NASC_FAILURE s1 else
  '(st, found) ← ts_get lDelTaskId (js_sched s);
  match found with
  | None => js_ret NASC_FAILURE s
  | Some k0 =>
      if negb (mem 0%nat) then Crash else
      '(iResult, sc) ← ts_delete lDelTaskId (js_sched s);
      let s1 := with_sched s sc in
      if negb (error_bool iResult) then js_ret NASC_FAILURE s1 else
      s2 ← (if negb (vpArg k0 =? NULL) then JS_FreeJobMaster s1 (vpArg k0) else mret s1);
      (* reads [pstJSStruct] again, which must not be the job just freed *)
      job ← load_job s2 p;
      '(iResult, l) ← JS_DeleteNodeFromList (js_list s2) (stListPtr s2)
                        (iJobMasIndex job) lDelTaskId;
      let s3 := with_list s2 l in
      if iResult =? 0 then js_ret NASC_SUCCESS s3
      else s4 ← JS_FreeJobMaster s3 p; js_ret NASC_SUCCESS s4
  end.

(** ** JS_UpdateJobToScheduler: the status of the operation is not returned *)
Definition JS_ADD : Z := 1.
Definition JS_MODIFY : Z := 2.
Definition JS_DELETE : Z := 3.

Definition JS_UpdateJobToScheduler (now : tm) (mem : nat -> bool) (junk : stTask) (day0 : Z)
    (p iDecisionFlag : Z) (s : js) : exits (Z * js) :=
  if p =? NULL then mret (Some (0, s)) else
  r ← (if iDecisionFlag =? JS_ADD then JS_AddJobToSched now junk p s
       else if iDecisionFlag =? JS_MODIFY then JS_ModifyJobToSched now mem day0 p s
       else if iDecisionFlag =? JS_DELETE then JS_DeleteFromSched mem p s
       else js_ret NASC_SUCCESS s);
  match r with
  | None => mret None
  | Some (_, s1) => mret (Some (1, s1))
  end.

End JobSched.
