(* ===== verification/JobTrap.v ===== *)
(** * Traps of the job table (JS_ParseTrap, JS_CheckTable, JS_CheckField and
      JS_GetIndex of src/Group2/Unix/JobSched/src/NASCenter_JS.c)

    A trap is a list of variables.  The variables of the columns of
    jobProcessMasterTable fill a [stJobMaster], the row status decides what the
    scheduler does with it. *)

From S2P Require Import Prelude CTypes Heap SchedTypes SchedIface JobTime JobList JobSched.
#[local] Open Scope Z_scope.

(** ** Object identifiers *)
Definition jobProcessMasterTable_variables_oid : list Z := [1;3;6;1;4;1;3204;1;3;34;1;1].
Definition jobProcessMasterID_variables_oid : list Z := [1;3;6;1;4;1;3204;1;3;34;1;1;1;2].
Definition jobProcessMasterName_variables_oid : list Z := [1;3;6;1;4;1;3204;1;3;34;1;1;1;3].
Definition jobProcessMasterPeriodicInterval_variables_oid : list Z :=
  [1;3;6;1;4;1;3204;1;3;34;1;1;1;8].
Definition jobProcessMasterStartTime_variables_oid : list Z := [1;3;6;1;4;1;3204;1;3;34;1;1;1;9].
Definition jobProcessMasterFinishTime_variables_oid : list Z :=
  [1;3;6;1;4;1;3204;1;3;34;1;1;1;10].
Definition jobProcessMasterCPUPercentUsage_variables_oid : list Z :=
  [1;3;6;1;4;1;3204;1;3;34;1;1;1;11].
Definition jobProcessMasterMemoryPercentUsage_variables_oid : list Z :=
  [1;3;6;1;4;1;3204;1;3;34;1;1;1;12].
Definition jobProcessMasterStatus_variables_oid : list Z := [1;3;6;1;4;1;3204;1;3;34;1;1;1;13].

Definition JS_MASTER_ID : Z := 1.
Definition JS_MASTER_NAME : Z := 2.
Definition JS_PERIODIC_INTERVAL : Z := 3.
Definition JS_START_TIME : Z := 4.
Definition JS_FINISH_TIME : Z := 5.
Definition JS_CPUUSAGE : Z := 6.
Definition JS_MEMORYUSAGE : Z := 7.
Definition JS_ROW_STATUS : Z := 8.

(** The first variable is read before the caller tests for an empty trap. *)
Definition JS_CheckTable (vars : list variable) : outcome Z :=
  match vars with
  | [] => Crash
  | v :: _ => mret (if under jobProcessMasterTable_variables_oid v then 1 else -1)
  end.

(** The last sub-identifier. *)
Definition JS_GetIndex (v : variable) : outcome Z :=
  let iLen := I16 (Z.of_nat (length (name v)) - 1) in
  if iLen <? 0 then Crash else
  match name v !! Z.to_nat iLen with Some x => mret (I16 x) | None => Crash end.

Definition JS_CheckField (v : variable) : Z :=
  let r := -1 in
  let r := if under jobProcessMasterID_variables_oid v then JS_MASTER_ID else r in
  let r := if under jobProcessMasterName_variables_oid v then JS_MASTER_NAME else r in
  let r := if under jobProcessMasterPeriodicInterval_variables_oid v
           then JS_PERIODIC_INTERVAL else r in
  let r := if under jobProcessMasterStartTime_variables_oid v then JS_START_TIME else r in
  let r := if under jobProcessMasterFinishTime_variables_oid v then JS_FINISH_TIME else r in
  let r := if under jobProcessMasterCPUPercentUsage_variables_oid v then JS_CPUUSAGE else r in
  let r := if under jobProcessMasterMemoryPercentUsage_variables_oid v
           then JS_MEMORYUSAGE else r in
  if under jobProcessMasterStatus_variables_oid v then JS_ROW_STATUS else r.

(** ** Reading the variables *)
Definition set_row (interval status : Z) (j : stJobMaster) : stJobMaster :=
  MkJob (iJobMasIndex j) (pcJobMasId j) (pcJobMasName j) interval (pcJobMasStartTime j)
        (pcJobMasFinishTime j) (uiEndTimeinNum j) (iJobMasMemoryUsage j) (iJobMasCPUUsage j)
        status.

Definition read_long (v : variable) : outcome Z :=
  match val_integer v with Some x => mret x | None => Crash end.

(** A string field filled from a variable; [None] is the early return. *)
Definition fill_string (mem : bool) (v : variable) (old : option (list Z))
    : outcome (option (option (list Z))) :=
  '(r, str) ← JS_FillStruct mem (val_len v) (val_string v);
  mret (match r with
        | NASC_INSUFFICIENT_MEMORY => None
        | NASC_SUCCESS => Some str
        | _ => Some old
        end).

(** The body of the [switch]. *)
Definition read_var (mem : bool) (v : variable) (j : stJobMaster)
    : outcome (option stJobMaster) :=
  let f := JS_CheckField v in
  if f =? JS_MASTER_ID then
    r ← fill_string mem v (pcJobMasId j);
    mret (x ← r; Some (set_strings x (pcJobMasName j) (pcJobMasStartTime j)
                                   (pcJobMasFinishTime j) j))
  else if f =? JS_MASTER_NAME then
    r ← fill_string mem v (pcJobMasName j);
    mret (x ← r; Some (set_strings (pcJobMasId j) x (pcJobMasStartTime j)
                                   (pcJobMasFinishTime j) j))
  else if f =? JS_PERIODIC_INTERVAL then
    x ← read_long v; mret (Some (set_row (I16 x) (iJobMasStatus j) j))
  else if f =? JS_START_TIME then
    r ← fill_string mem v (pcJobMasStartTime j);
    mret (x ← r; Some (set_strings (pcJobMasId j) (pcJobMasName j) x
                                   (pcJobMasFinishTime j) j))
  else if f =? JS_FINISH_TIME then
    r ← fill_string mem v (pcJobMasFinishTime j);
    mret (x ← r; Some (set_strings (pcJobMasId j) (pcJobMasName j) (pcJobMasStartTime j) x j))
  else if f =? JS_ROW_STATUS then
    x ← read_long v; mret (Some (set_row (iJobMasInterval j) (I16 x) j))
  else mret (Some j).

Fixpoint read_vars (mem : nat -> bool) (vars : list variable) (j : stJobMaster)
    : outcome (option stJobMaster) :=
  match vars with
  | [] => mret (Some j)
  | v :: vars =>
      r ← read_var (mem (length vars)) v j;
      match r with None => mret None | Some j => read_vars mem vars j end
  end.

Definition decision (iJobMasStatus : Z) : Z :=
  if (iJobMasStatus =? 4) || (iJobMasStatus =? 1) then JS_ADD
  else if (iJobMasStatus =? 6) || (iJobMasStatus =? 2) then JS_DELETE
  else JS_MODIFY.

Section JobTrap.
Context `{TaskScheduler} `{Allocator}.
Variables (tz perform : Z).
Abbreviation state := js.

(** The record [malloc] gives, with the fields the function sets; [junk] is
    what is in the memory. *)
Definition fresh_job (junk : stJobMaster) (index : Z) : stJobMaster :=
  MkJob (UI16 index) None None (-1) None None (uiEndTimeinNum junk) (iJobMasMemoryUsage junk)
        (iJobMasCPUUsage junk) 0.

(** The flag tells whether the trap itself has been freed. *)
Definition JS_ParseTrap (now : tm) (memf mem : nat -> bool) (task : stTask) (day0 : Z)
    (junk : stJobMaster) (vars : list variable) (s : state) : exits (bool * state) :=
  iOperFlag ← JS_CheckTable vars;
  if iOperFlag =? -1 then mret (Some (false, s)) else
  let p := malloc (dom (js_jobs s)) in
  if p =? NULL then mret (Some (false, s)) else
  match vars with
  | [] => mret (Some (false, s))
  | v :: _ =>
      iIndex ← JS_GetIndex v;
      r ← read_vars memf vars (fresh_job junk iIndex);
      match r with
      | None => mret (Some (false, s))
      | Some job =>
          r ← JS_UpdateJobToScheduler tz perform now mem task day0 p (decision (iJobMasStatus job))
                (with_jobs s (<[p := job]> (js_jobs s)));
          match r with
          | None => mret None
          | Some (_, s) => mret (Some (true, s))
          end
      end
  end.

End JobTrap.
