(* ===== verification/JobProps.v ===== *)
(** * The job scheduler keeps its tables in step

    [js_inv s m l]: the scheduler holds the tasks [m], the job list the entries
    [l], and every entry names a task that calls [JS_PerformJobSchedAction] on a
    live job of its own.  The properties of adding, modifying and deleting jobs
    are proved against the interface [TaskScheduler]. *)

From S2P Require Import Prelude Heap CTypes SchedTypes SchedIface JobTime JobList JobSched.
From S2P Require Import SchedTable SchedApi SchedBuild SchedDemo.
#[local] Open Scope Z_scope.

Lemma FillTime_hour tz b u t : JS_FillTimeStruct tz b = Ret (u, t) -> 0 <= tm_hour t < 24.
Proof.
  unfold JS_FillTimeStruct. destruct (strlen b) as [n| |]; [|done..].
  rewrite outcome_bind_ret. case_bool_decide; [|done].
  destruct (mktime tz _) as [i t0] eqn:Hm. intros [= _ <-]. cbn [tm_hour].
  unfold mktime in Hm. injection Hm as <- <-. unfold localtime.
  destruct (civil_from_days _) as [[y mo] d]. cbn [tm_hour].
  set (x := _ + tz). pose proof (Z.mod_pos_bound x 86400 ltac:(lia)).
  split; [apply Z.div_pos; lia|]. apply Z.div_lt_upper_bound; lia.
Qed.

Section JobProps.
Context `{TaskScheduler} `{Allocator}.
Variables (tz perform : Z).
Abbreviation state := js.

Record js_inv (s : state) (m : gmap Z stTask) (l : list (Z * Z)) : Prop := {
  ji_rel : ts_rel (js_sched s) m;
  ji_list : jl_rep (js_list s) (stListPtr s) l;
  ji_ids : NoDup l.*2;
  ji_pos i id : (i, id) ∈ l -> 0 < id;
  ji_task i id : (i, id) ∈ l ->
    exists t, m !! id = Some t /\ fp t = perform /\ vpArg t <> NULL /\
      vpArg t ∈ dom (js_jobs s) /\ 0 <= ui16Hour (StartTime t) < 25;
  ji_args id1 id2 t1 t2 : id1 ∈ l.*2 -> id2 ∈ l.*2 -> m !! id1 = Some t1 ->
    m !! id2 = Some t2 -> vpArg t1 = vpArg t2 -> id1 = id2
}.

(** A job no task of the list points to: that of a request. *)
Definition request (s : state) (m : gmap Z stTask) (l : list (Z * Z)) (p : Z)
    (job : stJobMaster) : Prop :=
  p <> NULL /\ js_jobs s !! p = Some job /\
  forall id t, id ∈ l.*2 -> m !! id = Some t -> vpArg t <> p.

(** The task [JS_AddJobToSched] builds over the uninitialised [junk]. *)
Definition job_task (junk : stTask) (p interval : Z) (u : Z) (tstart tend : tm) : stTask :=
  set_call perform p
    (set_interval interval (JS_GetDay tz u) tend
       (if interval =? 0 then set_start tstart junk
        else set_finish tend (set_start tstart junk))).

Lemma load_job_Some (s : state) p job :
  p <> NULL -> js_jobs s !! p = Some job -> load_job s p = Ret job.
Proof. intros Hp Hj. unfold load_job. by rewrite (proj2 (Z.eqb_neq _ _) Hp), Hj. Qed.

Lemma set_interval_time i day te k : StartTime (set_interval i day te k) = StartTime k.
Proof. unfold set_interval. by repeat case_match. Qed.

Lemma job_task_time junk p i u ts te : StartTime (job_task junk p i u ts te) = time_of ts.
Proof. unfold job_task. simpl. rewrite set_interval_time. by case_match. Qed.

Lemma in_snd {A B} (l : list (A * B)) (y : B) : y ∈ l.*2 -> exists x, (x, y) ∈ l.
Proof. intros ([x y'] & -> & Hin)%list_elem_of_fmap. eauto. Qed.

(** Registering a new task for a job. *)
Lemma inv_insert (s s' : state) m l p t r i :
  js_inv s m l -> m !! r = None -> 0 < r -> fp t = perform -> vpArg t = p -> p <> NULL ->
  0 <= ui16Hour (StartTime t) < 25 ->
  p ∈ dom (js_jobs s') -> (forall id t, id ∈ l.*2 -> m !! id = Some t -> vpArg t <> p) ->
  dom (js_jobs s) ⊆ dom (js_jobs s') ->
  ts_rel (js_sched s') (<[r := t]> m) -> jl_rep (js_list s') (stListPtr s') ((i, r) :: l) ->
  js_inv s' (<[r := t]> m) ((i, r) :: l).
Proof.
  intros [Hrel Hjl Hids Hpos Htask Hargs] Hr Hr0 Hfp Hv Hp Hh Hdom Hun Hd Hrel' Hjl'.
  assert (Hnr : r ∉ l.*2).
  { intros (j & Hj)%in_snd. destruct (Htask j r Hj) as (t0 & Ht0 & _). congruence. }
  split; [done|done| | | |].
  - csimpl. by apply NoDup_cons.
  - intros j id [[= -> ->]|Hin]%elem_of_cons; [done|by eapply Hpos].
  - intros j id [[= -> ->]|Hin]%elem_of_cons.
    + exists t. rewrite lookup_insert_eq, Hv. split_and!; done || lia.
    + destruct (Htask j id Hin) as (t0 & Ht0 & ? & ? & ? & ?). exists t0.
      rewrite lookup_insert_ne by (intros ->; congruence). split_and!; auto; lia.
  - intros id1 id2 t1 t2 H1 H2. csimpl in *. rewrite !elem_of_cons in *.
    destruct H1 as [->|H1], H2 as [->|H2]; try done.
    + rewrite lookup_insert_eq, lookup_insert_ne by (intros ->; done).
      intros [= <-] Ht2 Heq. exfalso. eapply Hun; [exact H2|exact Ht2|congruence].
    + rewrite lookup_insert_eq, lookup_insert_ne by (intros ->; done).
      intros Ht1 [= <-] Heq. exfalso. eapply Hun; [exact H1|exact Ht1|congruence].
    + rewrite !lookup_insert_ne by (intros ->; done). by apply Hargs.
Qed.

Lemma inv_same (s s' : state) m l :
  js_inv s m l -> ts_rel (js_sched s') m -> dom (js_jobs s') = dom (js_jobs s) ->
  js_list s' = js_list s -> stListPtr s' = stListPtr s -> js_inv s' m l.
Proof.
  intros [Hrel Hjl Hids Hpos Htask Hargs] Hrel' Hd Hl Hp.
  split; try done; [by rewrite Hl, Hp|]. intros i id Hin.
  destruct (Htask i id Hin) as (t & ? & ? & ? & ? & ?). exists t. by rewrite Hd.
Qed.

Lemma jl_del_in i t l x : x ∈ jl_del i t l -> x ∈ l.
Proof.
  induction l as [|y l IH]; simpl; [done|]. case_match; [by right|].
  intros [->|Hin]%elem_of_cons; [by left|right; auto].
Qed.

Lemma jl_del_ids i t l : (i, t) ∈ l -> NoDup l.*2 -> NoDup (jl_del i t l).*2 /\ t ∉ (jl_del i t l).*2.
Proof.
  induction l as [|[j u] l IH]; simpl; [by intros ?%not_elem_of_nil|].
  intros Hin [Hu Hl]%NoDup_cons.
  destruct ((j =? i) && (u =? t)) eqn:Hm.
  - boolify. assert (u = t) as -> by lia. done.
  - apply elem_of_cons in Hin as [[= -> ->]|Hin]; [by rewrite !Z.eqb_refl in Hm|].
    destruct (IH Hin Hl) as [Hn Ht]. csimpl. split.
    + apply NoDup_cons. split; [|done]. intros (x & Hx%jl_del_in)%in_snd. apply Hu.
      apply list_elem_of_fmap. by exists (x, u).
    + apply not_elem_of_cons. split; [|done]. intros ->. apply Hu.
      apply list_elem_of_fmap. by exists (i, u).
Qed.

(** Dropping an entry and its task; the jobs of the others stay. *)
Lemma inv_remove (s s' : state) m l i id :
  js_inv s m l -> (i, id) ∈ l ->
  (forall id2 t2, id2 ∈ l.*2 -> id2 <> id -> m !! id2 = Some t2 ->
     vpArg t2 ∈ dom (js_jobs s) -> vpArg t2 ∈ dom (js_jobs s')) ->
  ts_rel (js_sched s') (delete id m) -> jl_rep (js_list s') (stListPtr s') (jl_del i id l) ->
  js_inv s' (delete id m) (jl_del i id l).
Proof.
  intros [Hrel Hjl Hids Hpos Htask Hargs] Hin Hkeep Hrel' Hjl'.
  destruct (jl_del_ids i id l Hin Hids) as [Hn Hid].
  assert (Hne : forall j k, (j, k) ∈ jl_del i id l -> k <> id /\ (j, k) ∈ l /\ k ∈ l.*2).
  { intros j k Hjk. split_and!.
    - intros ->. apply Hid, list_elem_of_fmap. by exists (j, id).
    - by eapply jl_del_in.
    - apply list_elem_of_fmap. exists (j, k). split; [done|]. by eapply jl_del_in. }
  split; [done|done|done| | |].
  - intros j k Hjk%Hne. destruct Hjk as (_ & Hjk & _). by eapply Hpos.
  - intros j k Hjk%Hne. destruct Hjk as (Hk & Hjk & Hk2).
    destruct (Htask j k Hjk) as (t & Ht & ? & ? & ? & ?). exists t.
    rewrite lookup_delete_ne by done. split_and!; try done; [by eapply Hkeep|lia..].
  - intros id1 id2 t1 t2 (j1 & H1%Hne)%in_snd (j2 & H2%Hne)%in_snd.
    destruct H1 as (Hk1 & _ & H1), H2 as (Hk2 & _ & H2).
    rewrite !lookup_delete_ne by done. by apply Hargs.
Qed.

(** Freeing a job no task of the list points to. *)
Lemma inv_free (s s' : state) m l p :
  js_inv s m l -> (forall id t, id ∈ l.*2 -> m !! id = Some t -> vpArg t <> p) ->
  ts_rel (js_sched s') m -> js_jobs s' = delete p (js_jobs s) ->
  js_list s' = js_list s -> stListPtr s' = stListPtr s -> js_inv s' m l.
Proof.
  intros [Hrel Hjl Hids Hpos Htask Hargs] Hun Hrel' Hj Hl Hp.
  split; try done; [by rewrite Hl, Hp|]. intros i id Hin.
  destruct (Htask i id Hin) as (t & Ht & ? & ? & ? & ?). exists t. rewrite Hj.
  split_and!; try done; [|lia..]. rewrite dom_delete_L, elem_of_difference, elem_of_singleton.
  split; [done|]. eapply Hun; [|exact Ht]. apply list_elem_of_fmap. by exists (i, id).
Qed.

(** A new task for the job of a dropped entry. *)
Lemma inv_replace (s s' : state) m l i id k0 t r sd p :
  js_inv s m l -> (i, id) ∈ l -> m !! id = Some k0 -> ts_rel sd (delete id m) ->
  (forall id t, id ∈ l.*2 -> m !! id = Some t -> vpArg t <> p) ->
  js_jobs s !! p <> None -> dom (js_jobs s') = dom (js_jobs s) ∖ {[p]} ->
  delete id m !! r = None -> 0 < r -> fp t = perform -> vpArg t = vpArg k0 ->
  0 <= ui16Hour (StartTime t) < 25 ->
  ts_rel (js_sched s') (<[r := t]> (delete id m)) ->
  (exists h, jl_rep h (stListPtr s) (jl_del i id l)) ->
  jl_rep (js_list s') (stListPtr s') ((i, r) :: jl_del i id l) ->
  js_inv s' (<[r := t]> (delete id m)) ((i, r) :: jl_del i id l).
Proof.
  intros Hinv Hin Hk0 Hrel Hun Hp Hd Hr Hr0 Hfp Hv Hh Hrel' (h & Hh1) Hjl.
  destruct (ji_task _ _ _ Hinv _ _ Hin) as (k0' & Hk0' & _ & Hnn & Hdom & _).
  assert (k0' = k0) as -> by congruence.
  assert (Hid2 : id ∈ l.*2) by (apply list_elem_of_fmap; by exists (i, id)).
  assert (Hin2 : forall id2, id2 ∈ (jl_del i id l).*2 -> id2 ∈ l.*2).
  { intros id2 (j & Hj)%in_snd. apply list_elem_of_fmap. exists (j, id2).
    split; [done|]. by eapply jl_del_in. }
  assert (Hmid : js_inv (MkJs sd (delete p (js_jobs s)) h (stListPtr s)) (delete id m) (jl_del i id l)).
  { apply (inv_free (MkJs sd (js_jobs s) h (stListPtr s)) _ _ _ p); try done.
    - by apply (inv_remove s).
    - intros id2 t2 H2%Hin2 Ht2. apply lookup_delete_Some in Ht2 as [_ Ht2]. by eapply Hun. }
  apply (inv_insert _ s' _ _ (vpArg k0) t r i Hmid); try done.
  - rewrite Hd, elem_of_difference, elem_of_singleton. split; [done|]. by eapply Hun.
  - intros id2 t2 H2%Hin2 Ht2 Heq. apply lookup_delete_Some in Ht2 as [Hne Ht2].
    apply Hne. symmetry. by eapply (ji_args _ _ _ Hinv).
  - rewrite Hd. simpl. by rewrite dom_delete_L.
Qed.

Lemma FreeJob_Some (s : state) p job :
  p <> NULL -> js_jobs s !! p = Some job ->
  JS_FreeJobMaster s p = Ret (with_jobs s (delete p (js_jobs s))).
Proof.
  intros Hp Hj. unfold JS_FreeJobMaster. rewrite (load_job_Some _ _ _ Hp Hj).
  by rewrite (proj2 (Z.eqb_neq _ _) Hp).
Qed.

(** The entry [JS_GetTaskID] finds. *)
Lemma entry_found s m l i id :
  js_inv s m l -> assoc i l = Some id ->
  jl_get i l = id /\ (i, id) ∈ l /\ id <> -1 /\ id ∈ l.*2.
Proof.
  intros Hinv Ha. unfold jl_get. rewrite Ha. apply assoc_split in Ha as (l1 & l2 & -> & _).
  assert ((i, id) ∈ l1 ++ (i, id) :: l2) as Hin by set_solver.
  pose proof (ji_pos _ _ _ Hinv i id Hin). split_and!; [done|done|lia|].
  apply list_elem_of_fmap. by exists (i, id).
Qed.

(** What the finish time contributes. *)
Definition finish_ok (job : stJobMaster) (tend : tm) : Prop :=
  iJobMasInterval job = 0 \/
  exists b u, pcJobMasFinishTime job = Some b /\ JS_FillTimeStruct tz b = Ret (u, tend) /\ u <> 0.

Lemma finish_step p (s : state) job junk u tstart tend :
  js_jobs s !! p = Some job -> finish_ok job tend ->
  exists s1 te e, js_jobs s1 = <[p := set_end e job]> (js_jobs s) /\ js_sched s1 = js_sched s /\
    js_list s1 = js_list s /\ stListPtr s1 = stListPtr s /\ exists k,
  (if negb (iJobMasInterval job =? 0) then
     '(ulEnd, pstTmEnd) ← JS_FillTimeStruct tz (default [] (pcJobMasFinishTime job));
     mret (if ulEnd =? 0 then None
           else Some (set_finish pstTmEnd (set_start tstart junk), pstTmEnd,
                      with_jobs s (<[p := set_end ulEnd job]> (js_jobs s))))
   else mret (Some (set_start tstart junk, zero_tm, s))) = Ret (Some (k, te, s1)) /\
  set_call perform p (set_interval (iJobMasInterval job) (JS_GetDay tz u) te k) =
  job_task junk p (iJobMasInterval job) u tstart tend.
Proof.
  intros Hjob Hfin. unfold job_task. destruct (Z.eqb_spec (iJobMasInterval job) 0) as [Hz|Hz].
  - exists s, zero_tm, (uiEndTimeinNum job). split_and!; [|done..|].
    { rewrite insert_id; [done|]. rewrite Hjob. by destruct job. }
    eexists. split; [done|]. by rewrite Hz.
  - destruct Hfin as [|(b2 & u2 & -> & Hf2 & Hu2)]; [done|]. simpl default. rewrite Hf2.
    exists (with_jobs s (<[p := set_end u2 job]> (js_jobs s))), tend, u2.
    split_and!; [done..|]. eexists. split; [|done]. cbn [negb].
    by rewrite outcome_bind_ret, (proj2 (Z.eqb_neq _ _) Hu2).
Qed.

Lemma AddJob_registers now junk p s m l job b u tstart tend :
  js_inv s m l -> request s m l p job ->
  pcJobMasStartTime job = Some b -> JS_FillTimeStruct tz b = Ret (u, tstart) -> u <> 0 ->
  finish_ok job tend -> iJobMasInterval job <> -1 ->
  ts_memory -> malloc (dom (js_list s)) <> NULL ->
  let t := job_task junk p (iJobMasInterval job) u tstart tend in
  if ts_accepts now t then
    exists r s', JS_AddJobToSched tz perform now junk p s = Ret (Some (NASC_SUCCESS, s')) /\
      js_inv s' (<[r := t]> m) ((I16 (iJobMasIndex job), r) :: l) /\ m !! r = None /\
      exists e, js_jobs s' = <[p := set_end e job]> (js_jobs s)
  else
    exists s', JS_AddJobToSched tz perform now junk p s = Ret (Some (NASC_FAILURE, s')) /\
      js_inv s' m l /\ exists e, js_jobs s' = <[p := set_end e job]> (js_jobs s).
Proof.
  intros Hinv (Hp & Hjob & Hun) Hb Hfill Hu Hfin Hint Hmem Hmal t.
  unfold JS_AddJobToSched. rewrite (proj2 (Z.eqb_neq _ _) Hp).
  rewrite (load_job_Some _ _ _ Hp Hjob), outcome_bind_ret, Hb, Hfill, outcome_bind_ret.
  rewrite (proj2 (Z.eqb_neq _ _) Hu). cbv zeta.
  set (i := iJobMasIndex job). set (iv := iJobMasInterval job) in *.
  assert (Hthere : bool_decide (pcJobMasFinishTime job = None) && negb (iv =? 0) = false).
  { destruct Hfin as [Hz|(b2 & u2 & -> & _)]; [fold iv in Hz; by rewrite Hz, andb_false_r|done]. }
  rewrite Hthere.
  destruct (finish_step p s job junk u tstart tend Hjob Hfin)
    as (s1 & te & e & Hj1 & Hs1 & Hl1 & Hp1 & k & Heq & Hte).
  assert (Hd1 : dom (js_jobs s1) = dom (js_jobs s)).
  { rewrite Hj1, dom_insert_L. apply elem_of_dom_2 in Hjob. set_solver. }
  fold iv in Heq, Hte. rewrite Heq, outcome_bind_ret.
  rewrite (proj2 (Z.eqb_neq _ _) Hint), Hte. fold t. rewrite Hs1.
  assert (Hhour : 0 <= ui16Hour (StartTime t) < 25).
  { unfold t. rewrite job_task_time. simpl. pose proof (FillTime_hour _ _ _ _ Hfill).
    rewrite UI16_id; lia. }
  destruct (ts_add_spec now t (js_sched s) m (ji_rel _ _ _ Hinv) Hhour)
    as (r & sc & -> & [(-> & Hrel & Hno)|(Hyes & Hr0 & Hfresh & Hrel)]); rewrite outcome_bind_ret.
  - rewrite (Hno Hmem), Z.eqb_refl. eexists. split; [done|]. split; [by eapply inv_same|by exists e].
  - rewrite Hyes. destruct (Z.eqb_spec r (-1)); [lia|]. simpl.
    pose proof (JS_AddNode_spec _ _ _ r i (ji_list _ _ _ Hinv)) as Hadd.
    rewrite (proj2 (Z.eqb_neq _ _) Hmal) in Hadd. destruct Hadd as (h' & Hadd & Hjl).
    rewrite Hl1, Hp1, Hadd, outcome_bind_ret. eexists r, _. split; [done|]. split; [|by split; [|exists e]].
    apply (inv_insert s _ m l p t r); try done.
    + simpl. rewrite Hd1. by apply elem_of_dom_2 in Hjob.
    + simpl. by rewrite Hd1.
    + simpl. by rewrite Hp1.
Qed.


(** The kind of task depends on the job's interval as the comments say for
    the intervals 0 to 3 (once, daily, weekly, monthly); for any other interval,
    which the code only logs, the kind is whatever the uninitialised local
    variable held. *)
Theorem job_task_kind junk p iv u ts te :
  let t := job_task junk p iv u ts te in
  StartDate t = date_of ts /\ StartTime t = time_of ts /\ fp t = perform /\ vpArg t = p /\
  (iv = 0 -> eType t = SCH_ONE_SHOT /\ ePCity t = SCH_DAY /\ eWeekDay t = SCH_ALL_DAYS) /\
  (iv = 1 -> eType t = SCH_PERIODIC /\ ePCity t = SCH_DAY /\ eWeekDay t = SCH_ALL_DAYS /\
             EndDate t = date_of te) /\
  (iv = 2 -> eType t = SCH_PERIODIC /\ ePCity t = SCH_WEEK /\ eWeekDay t = JS_GetDay tz u /\
             EndDate t = date_of te) /\
  (iv = 3 -> eType t = SCH_PERIODIC /\ ePCity t = SCH_MONTH /\ eWeekDay t = JS_GetDay tz u /\
             EndDate t = date_of te) /\
  (iv < 0 \/ 3 < iv -> eType t = eType junk /\ ePCity t = ePCity junk /\
             eWeekDay t = eWeekDay junk).
Proof.
  unfold job_task, set_interval. cbv zeta. zbool; subst; try lia;
    repeat split; intros; try lia; try done.
Qed.

(** C32: [JS_DeleteFromSched] undoes the registration of the newest entry of
    the index: the task leaves the scheduler, the entry the list, and both the
    job and the request are freed, each once; for an index without an entry only
    the request is freed.  The tables stay in step. *)
Theorem JS_DeleteFromSched_unregisters mem p s m l job :
  js_inv s m l -> request s m l p job -> mem 0%nat = true ->
  let i := I16 (iJobMasIndex job) in
  match assoc i l with
  | Some id =>
      exists s' t, m !! id = Some t /\
        JS_DeleteFromSched mem p s = Ret (Some (NASC_SUCCESS, s')) /\
        js_inv s' (delete id m) (jl_del i id l) /\
        js_jobs s' = delete p (delete (vpArg t) (js_jobs s))
  | None =>
      exists s', JS_DeleteFromSched mem p s = Ret (Some (NASC_FAILURE, s')) /\
        js_inv s' m l /\ js_jobs s' = delete p (js_jobs s)
  end.
Proof.
  intros Hinv (Hp & Hjob & Hun) Hmem i. unfold JS_DeleteFromSched.
  rewrite (proj2 (Z.eqb_neq _ _) Hp), (load_job_Some _ _ _ Hp Hjob), outcome_bind_ret.
  rewrite (JS_GetTaskID_spec _ _ _ _ (ji_list _ _ _ Hinv)), outcome_bind_ret. fold i.
  destruct (assoc i l) as [id|] eqn:Ha.
  - destruct (entry_found _ _ _ _ _ Hinv Ha) as (-> & Hin & Hid & Hid2).
    rewrite (proj2 (Z.eqb_neq _ _) Hid).
    destruct (ji_task _ _ _ Hinv _ _ Hin) as (t & Ht & Hfp & Hv & Hdom & Hh).
    rewrite (ts_get_spec id _ m (ji_rel _ _ _ Hinv)), outcome_bind_ret, Ht, Hmem. cbn [negb].
    destruct (ts_delete_spec id _ m (ji_rel _ _ _ Hinv)) as (sc & -> & Hrel).
    rewrite outcome_bind_ret, Ht. cbn [error_bool negb].
    rewrite (proj2 (Z.eqb_neq _ _) Hv). cbn [negb].
    apply elem_of_dom in Hdom as [jt Hjt].
    rewrite (FreeJob_Some _ _ jt) by done. rewrite outcome_bind_ret.
    assert (Hvp : vpArg t <> p) by by eapply Hun.
    rewrite (load_job_Some _ p job) by (done || simpl; by rewrite lookup_delete_ne).
    rewrite outcome_bind_ret. cbn [js_list stListPtr with_jobs with_sched].
    destruct (JS_DeleteNode_spec _ _ _ (iJobMasIndex job) id (ji_list _ _ _ Hinv))
      as (r & h' & -> & Hjl & ->). fold i in Hjl |- *.
    rewrite outcome_bind_ret, bool_decide_eq_true_2 by done. cbn [Z.eqb].
    change (1 =? 0) with false. cbv iota.
    rewrite (FreeJob_Some _ p job) by (done || simpl; by rewrite lookup_delete_ne).
    rewrite outcome_bind_ret. eexists _, t. split_and!; [done|done| |done].
    apply (inv_remove s); try done. intros id2 t2 Hin2 Hne Ht2 Hd2. simpl.
    rewrite !dom_delete_L, !elem_of_difference, !elem_of_singleton. split_and!; [done| |].
    + intros Heq. apply Hne. by eapply (ji_args _ _ _ Hinv).
    + by eapply Hun.
  - assert (jl_get i l = -1) as -> by (unfold jl_get; by rewrite Ha).
    rewrite Z.eqb_refl, (FreeJob_Some _ _ _ Hp Hjob), outcome_bind_ret.
    eexists. split_and!; [done| |done].
    by apply (inv_free s _ _ _ p Hinv Hun); [apply Hinv|..].
Qed.

Lemma modify_times_hour day0 job k k' job' :
  modify_times tz day0 job k = Ret (Some (k', job')) ->
  0 <= ui16Hour (StartTime k) < 25 -> 0 <= ui16Hour (StartTime k') < 25.
Proof.
  unfold modify_times. intros Hm Hh.
  assert (Hfin : forall k1 d, 0 <= ui16Hour (StartTime k1) < 25 ->
    match pcJobMasFinishTime job with
    | None => mret (Some (k1, job))
    | Some b =>
        '(ulTime, t) ← JS_FillTimeStruct tz b;
        if ulTime =? 0 then mret None else
        mret (Some (if negb (iJobMasInterval job =? -1)
                    then set_interval (iJobMasInterval job) d t (set_finish t k1)
                    else set_finish t k1, set_end ulTime job))
    end = Ret (Some (k', job')) -> 0 <= ui16Hour (StartTime k') < 25).
  { intros k1 d H1. destruct (pcJobMasFinishTime job) as [b|].
    - destruct (JS_FillTimeStruct tz b) as [[u t]| |]; [|done..]. rewrite outcome_bind_ret.
      destruct (u =? 0); [done|]. intros [= <- _].
      destruct (negb _); rewrite ?set_interval_time; done.
    - by intros [= <- _]. }
  destruct (pcJobMasStartTime job) as [b|].
  - destruct (JS_FillTimeStruct tz b) as [[u t]| |] eqn:Hf; [|done..].
    rewrite !outcome_bind_ret in Hm. destruct (u =? 0); [done|].
    eapply Hfin; [|exact Hm]. simpl. pose proof (FillTime_hour _ _ _ _ Hf).
    rewrite UI16_id; lia.
  - rewrite outcome_bind_ret in Hm. eapply Hfin; [exact Hh|exact Hm].
Qed.

Lemma modify_times_index day0 job k k' job' :
  modify_times tz day0 job k = Ret (Some (k', job')) -> iJobMasIndex job' = iJobMasIndex job.
Proof.
  unfold modify_times. intros ([[k1 d]|] & _ & Hm)%outcome_bind_Ret_inv; [|done].
  destruct (pcJobMasFinishTime job) as [b|]; [|by injection Hm as _ <-].
  apply outcome_bind_Ret_inv in Hm as ([u t] & _ & Hm).
  destruct (u =? 0); [done|]. by injection Hm as _ <-.
Qed.

(** An entry whose task the scheduler does not know cannot be deleted. *)
Lemma stale_entry s s' m m' l i id :
  js_inv s m l -> assoc i l = Some id -> js_list s' = js_list s -> stListPtr s' = stListPtr s ->
  ts_rel (js_sched s') m' -> m' !! id = None ->
  forall mem p job, p <> NULL -> js_jobs s' !! p = Some job -> I16 (iJobMasIndex job) = i ->
  JS_DeleteFromSched mem p s' = Ret (Some (NASC_FAILURE, s')).
Proof.
  intros Hinv Ha Hl Hlp Hrel Hno mem p job Hp Hj Hi. unfold JS_DeleteFromSched.
  destruct (entry_found _ _ _ _ _ Hinv Ha) as (Hget & _ & Hid & _).
  rewrite (proj2 (Z.eqb_neq _ _) Hp), (load_job_Some _ _ _ Hp Hj), outcome_bind_ret, Hl, Hlp.
  rewrite (JS_GetTaskID_spec _ _ _ _ (ji_list _ _ _ Hinv)), outcome_bind_ret, Hi, Hget.
  by rewrite (proj2 (Z.eqb_neq _ _) Hid), (ts_get_spec id _ _ Hrel), outcome_bind_ret, Hno.
Qed.

(** C33: [JS_ModifyJobToSched], given readable times and strings, replaces the
    task of the newest entry of the index and enters the new identifier in the
    list.  If the scheduler refuses the new task, however, the old one is gone
    from the scheduler, the function still reports success, and the list keeps
    the old identifier: from then on deleting the job fails at every attempt. *)
Theorem JS_ModifyJobToSched_replaces now mem day0 p s m l job id k0 k job' old new :
  js_inv s m l -> request s m l p job -> mem 0%nat = true ->
  assoc (I16 (iJobMasIndex job)) l = Some id -> m !! id = Some k0 ->
  modify_times tz day0 job k0 = Ret (Some (k, job')) ->
  js_jobs s !! vpArg k0 = Some old ->
  replace_strings mem job' old = Ret (true, new) ->
  ts_memory -> (forall h, malloc h <> NULL) ->
  let i := I16 (iJobMasIndex job) in
  let t := set_call perform (vpArg k0) k in
  exists s', JS_ModifyJobToSched tz perform now mem day0 p s = Ret (Some (NASC_SUCCESS, s')) /\
  if ts_accepts now t then
    exists r, js_inv s' (<[r := t]> (delete id m)) ((i, r) :: jl_del i id l)
  else
    ts_rel (js_sched s') (delete id m) /\ jl_rep (js_list s') (stListPtr s') l /\
    forall mem2 p2 job2, p2 <> NULL -> js_jobs s' !! p2 = Some job2 ->
      iJobMasIndex job2 = iJobMasIndex job ->
      JS_DeleteFromSched mem2 p2 s' = Ret (Some (NASC_FAILURE, s')).
Proof.
  intros Hinv (Hp & Hjob & Hun) Hmem Ha Hk0 Hmod Hold Hrep Hts Hmal i t.
  destruct (entry_found _ _ _ _ _ Hinv Ha) as (Hget & Hin & Hid & Hid2).
  destruct (ji_task _ _ _ Hinv _ _ Hin) as (k0' & Hk0' & Hfp & Hv & Hdom & Hh).
  assert (k0' = k0) as -> by congruence.
  assert (Hvp : vpArg k0 <> p) by by eapply Hun.
  unfold JS_ModifyJobToSched.
  rewrite (load_job_Some _ _ _ Hp Hjob), outcome_bind_ret.
  rewrite (JS_GetTaskID_spec _ _ _ _ (ji_list _ _ _ Hinv)), outcome_bind_ret, Hget.
  rewrite (proj2 (Z.eqb_neq _ _) Hid), (ts_get_spec id _ m (ji_rel _ _ _ Hinv)), outcome_bind_ret.
  rewrite Hk0, Hmem. cbn [negb]. rewrite Hmod, outcome_bind_ret.
  rewrite (load_job_Some _ _ old Hv) by (simpl; by rewrite lookup_insert_ne by congruence).
  rewrite outcome_bind_ret, Hrep, outcome_bind_ret. cbn [negb]. fold t.
  assert (Hth : 0 <= ui16Hour (StartTime t) < 25) by (simpl; by eapply modify_times_hour).
  assert (Hindex : iJobMasIndex job' = iJobMasIndex job).
  { by eapply modify_times_index. }
  cbn [js_sched with_jobs].
  destruct (ts_modify_spec now id t (js_sched s) m (ji_rel _ _ _ Hinv) Hth (ltac:(by rewrite Hk0)))
    as (r & sc & -> & [(-> & Hrel & Hno)|(Hyes & Hr0 & Hfresh & Hrel)]); rewrite outcome_bind_ret.
  - rewrite (Hno Hts). rewrite Z.eqb_refl. cbn [negb].
    rewrite (FreeJob_Some _ p job') by
      (done || simpl; by rewrite lookup_insert_ne, lookup_insert_eq).
    rewrite outcome_bind_ret. eexists. split; [done|]. split; [exact Hrel|]. split; [apply Hinv|].
    intros mem2 p2 job2 Hp2 Hj2 Hi2.
    apply (stale_entry s _ m (delete id m) l i id) with (job := job2); try done.
    + by rewrite lookup_delete_eq.
    + by rewrite Hi2.
  - rewrite Hyes. rewrite (proj2 (Z.eqb_neq r (-1))) by lia. cbn [negb].
    cbn [js_list stListPtr with_jobs with_sched]. rewrite Hindex.
    destruct (JS_DeleteNode_spec _ _ _ (iJobMasIndex job) id (ji_list _ _ _ Hinv))
      as (r2 & h' & -> & Hjl & ->). rewrite outcome_bind_ret, bool_decide_eq_true_2 by done.
    change (1 =? 0) with false. cbv iota. cbn [with_list with_sched with_jobs js_list stListPtr js_jobs].
    pose proof (JS_AddNode_spec _ _ _ r (iJobMasIndex job) Hjl) as Hadd.
    rewrite (proj2 (Z.eqb_neq _ _) (Hmal _)) in Hadd. destruct Hadd as (h2 & -> & Hjl2).
    rewrite outcome_bind_ret.
    rewrite (FreeJob_Some _ p job') by
      (done || simpl; by rewrite lookup_insert_ne, lookup_insert_eq).
    rewrite outcome_bind_ret. eexists. split; [done|]. exists r.
    destruct (ts_delete_spec id (js_sched s) m (ji_rel _ _ _ Hinv)) as (sd & _ & Hreld).
    apply (inv_replace s _ m l i id k0 t r sd p); try done; [by rewrite Hjob| |by eexists].
    simpl. rewrite dom_delete_L, !dom_insert_L. apply elem_of_dom_2 in Hold, Hjob.
    apply set_eq. intros x. set_solver.
Qed.
End JobProps.

(** ** A small job scheduler

    The scheduler of [SchedDemo], whose task 2 belongs to the job at 604, in
    row 3; the request at 700 is for the same row, that at 701 for a new one. *)
#[local] Existing Instance bump_allocator.

Definition at_0945 : list Z := [7; 213; 5; 3; 9; 45; 30; 1; 0].
Definition at_2008 : list Z := [7; 216; 5; 3; 9; 45; 30; 1; 0].
Definition job3 : stJobMaster :=
  MkJob 3 (Some [74; 0]) (Some [78; 0]) 0 (Some at_0945) None 0 0 0 1.
Definition request3 (start : list Z) : stJobMaster :=
  MkJob 3 None (Some [77; 0]) (-1) (Some start) None 0 0 0 1.
Definition request4 : stJobMaster :=
  MkJob 4 (Some [75; 0]) (Some [78; 0]) 1 (Some at_0945) (Some at_2008) 0 0 0 1.
Definition demo_list : jlheap := {[100 := Node (0, 0) 101; 101 := Node (3, 2) NULL]}.
Definition demo_js (start : list Z) : js :=
  MkJs (H := sched_scheduler) demo2
    {[604 := job3; 700 := request3 start; 701 := request4]} demo_list 100.

Lemma demo_js_inv start : js_inv 504 (demo_js start) (tasks demo2_bks) [(3, 2)].
Proof.
  split.
  - by exists demo2_bks, []; split; [exact demo2_rep|].
  - exists (0, 0), [(101, (3, 2))]. split_and!; [|by apply (bool_decide_unpack _)|done].
    cbn [lseg]. split_and!; [done..|]. exists 101. split; [done|].
    split_and!; [done..|]. by exists NULL.
  - by apply (bool_decide_unpack _).
  - intros i id [= -> ->]%list_elem_of_singleton. lia.
  - intros i id [= -> ->]%list_elem_of_singleton. exists once_2005.
    split; [vm_compute; reflexivity|]. split_and!; [done..| |simpl; lia|simpl; lia].
    apply elem_of_dom. by exists job3.
  - intros id1 id2 t1 t2 ->%list_elem_of_singleton ->%list_elem_of_singleton. done.
Qed.

Lemma demo_request start p job :
  js_jobs (demo_js start) !! p = Some job -> p <> 604 -> p <> NULL ->
  request (demo_js start) (tasks demo2_bks) [(3, 2)] p job.
Proof.
  intros Hj Hp Hn. split_and!; [done..|]. intros id t ->%list_elem_of_singleton Ht.
  assert (Some once_2005 = Some t) as [= <-]; [|done].
  rewrite <- Ht. vm_compute. reflexivity.
Qed.

Lemma demo_request3 start :
  request (demo_js start) (tasks demo2_bks) [(3, 2)] 700 (request3 start).
Proof. by apply demo_request. Qed.
Lemma demo_request4 start :
  request (demo_js start) (tasks demo2_bks) [(3, 2)] 701 request4.
Proof. by apply demo_request. Qed.

Definition rich : nat -> bool := fun _ => true.
Definition reading (b : list Z) : Z * tm :=
  match JS_FillTimeStruct 0 b with Ret x => x | _ => (0, zero_tm) end.
Definition modified (start : list Z) : stTask * stJobMaster :=
  match modify_times 0 0 (request3 start) once_2005 with
  | Ret (Some x) => x | _ => (once_2005, job3) end.
Definition replaced (start : list Z) : stJobMaster :=
  match replace_strings rich (modified start).2 job3 with Ret x => x.2 | _ => job3 end.
Definition modified_task (start : list Z) : stTask := set_call 504 604 (modified start).1.
Definition task4 : stTask :=
  job_task 0 504 once_2005 701 1 (reading at_0945).1 (reading at_0945).2 (reading at_2008).2.


Lemma JS_DeleteFromSched_unregisters_witness :
  exists s', JS_DeleteFromSched rich 700 (demo_js at_2008) = Ret (Some (NASC_SUCCESS, s')) /\
    js_inv 504 s' (delete 2 (tasks demo2_bks)) [].
Proof.
  destruct (JS_DeleteFromSched_unregisters 504 rich 700 (demo_js at_2008) _ _
    (request3 at_2008) (demo_js_inv _) (demo_request3 _)
    eq_refl) as (s' & t & _ & H1 & H2 & _).
  exact (ex_intro _ s' (conj H1 H2)).
Defined.

Lemma JS_ModifyJobToSched_replaces_witness :
  ts_accepts morning (modified_task at_2008) = true /\
  (exists r s', JS_ModifyJobToSched 0 504 morning rich 0 700 (demo_js at_2008) =
      Ret (Some (NASC_SUCCESS, s')) /\
    js_inv 504 s' (<[r := modified_task at_2008]> (delete 2 (tasks demo2_bks))) [(3, r)]) /\
  ts_accepts (Tm 0 0 0 1 0 110 5) (modified_task at_2008) = false.
Proof.
  split; [vm_compute; reflexivity|]. split; [|vm_compute; reflexivity].
  pose proof (JS_ModifyJobToSched_replaces 0 504 morning rich 0 700 (demo_js at_2008) _ _
    (request3 at_2008) 2 once_2005 (modified at_2008).1 (modified at_2008).2 job3
    (replaced at_2008) (demo_js_inv _) (demo_request3 _)
    eq_refl eq_refl) as H.
  specialize (H ltac:(vm_compute; reflexivity) ltac:(vm_compute; reflexivity) eq_refl).
  specialize (H ltac:(vm_compute; reflexivity) bump_total ltac:(intros; apply bump_total)).
  cbv zeta in H. replace (ts_accepts _ _) with true in H by (vm_compute; reflexivity).
  destruct H as (s' & H1 & r & H2). exact (ex_intro _ r (ex_intro _ s' (conj H1 H2))).
Defined.
