(* ===== verification/TrapProps.v ===== *)
(** * What a trap asks for

    The job [JS_ParseTrap] hands to the scheduler is the row of the table the
    trap describes: per column, the last variable of it. *)

From S2P Require Import Prelude CTypes Heap SchedTypes SchedIface JobTime JobList JobSched JobTrap.
From S2P Require Import SchedDemo JobProps.
#[local] Open Scope Z_scope.

(** The row entry of jobProcessMasterTable, and its columns. *)
Definition column_oid (c : Z) : list Z := jobProcessMasterTable_variables_oid ++ [1; c].
Definition in_column (c : Z) (v : variable) : bool :=
  bool_decide (take 14 (name v) = column_oid c).

Definition last_in (c : Z) (vars : list variable) : option variable :=
  last (filter (in_column c) vars).
Definition string_of (v : variable) : list Z := take (Z.to_nat (val_len v)) (val_string v) ++ [0].
Definition string_in (c : Z) (vars : list variable) : option (list Z) :=
  string_of <$> last_in c vars.
Definition long_in (c : Z) (vars : list variable) : option Z :=
  (fun v => I16 (default 0 (val_integer v))) <$> last_in c vars.

(** A variable an agent sends: strings of 1 to 32767 octets, integers present. *)
Definition well_formed (v : variable) : Prop :=
  0 < val_len v < 32768 /\ val_len v <= Z.of_nat (length (val_string v)) /\
  is_Some (val_integer v).

(** [JS_CheckField] looks at the first fourteen sub-identifiers only. *)
Lemma CheckField_spec v :
  JS_CheckField v =
  if in_column 13 v then JS_ROW_STATUS
  else if in_column 12 v then JS_MEMORYUSAGE
  else if in_column 11 v then JS_CPUUSAGE
  else if in_column 10 v then JS_FINISH_TIME
  else if in_column 9 v then JS_START_TIME
  else if in_column 8 v then JS_PERIODIC_INTERVAL
  else if in_column 3 v then JS_MASTER_NAME
  else if in_column 2 v then JS_MASTER_ID else -1.
Proof.
  unfold JS_CheckField. rewrite !under_take. unfold in_column, column_oid.
  change (length _) with 14%nat. cbn [app jobProcessMasterTable_variables_oid].
  unfold jobProcessMasterID_variables_oid, jobProcessMasterName_variables_oid,
    jobProcessMasterPeriodicInterval_variables_oid, jobProcessMasterStartTime_variables_oid,
    jobProcessMasterFinishTime_variables_oid, jobProcessMasterCPUPercentUsage_variables_oid,
    jobProcessMasterMemoryPercentUsage_variables_oid, jobProcessMasterStatus_variables_oid.
  generalize (take 14 (name v)). intros l. by repeat case_bool_decide.
Qed.

(** The fields of [j] overwritten by those the variables give. *)
Definition row_of (vars : list variable) (j : stJobMaster) : stJobMaster :=
  set_row (default (iJobMasInterval j) (long_in 8 vars)) (default (iJobMasStatus j) (long_in 13 vars))
    (set_strings (string_in 2 vars ∪ pcJobMasId j) (string_in 3 vars ∪ pcJobMasName j)
       (string_in 9 vars ∪ pcJobMasStartTime j) (string_in 10 vars ∪ pcJobMasFinishTime j) j).

Lemma last_in_cons c v vars :
  last_in c (v :: vars) =
  match last_in c vars with
  | Some w => Some w
  | None => if in_column c v then Some v else None
  end.
Proof.
  unfold last_in. rewrite filter_cons. case_decide as Hc.
  - apply Is_true_true in Hc. rewrite Hc, last_cons. by destruct (last _).
  - destruct (in_column c v); [by destruct Hc|]. by destruct (last _).
Qed.

Lemma in_column_other c d v : in_column c v = true -> c <> d -> in_column d v = false.
Proof.
  unfold in_column. rewrite bool_decide_eq_true, bool_decide_eq_false.
  intros -> Hne Heq. apply Hne. by injection Heq.
Qed.

Lemma FillStruct_wf v :
  well_formed v -> JS_FillStruct true (val_len v) (val_string v) = Ret (NASC_SUCCESS, Some (string_of v)).
Proof.
  intros (Hl & Hs & _). unfold JS_FillStruct. rewrite I16_id by lia.
  rewrite (proj2 (Z.eqb_neq _ _)) by lia. rewrite (proj2 (Z.ltb_ge _ _)) by lia.
  rewrite !(proj2 (Z.leb_le _ _)) by lia. done.
Qed.

Lemma string_in_cons c v vars (x : option (list Z)) :
  string_in c (v :: vars) ∪ x = string_in c vars ∪ (string_in c [v] ∪ x).
Proof.
  unfold string_in. rewrite !last_in_cons. destruct (last_in c vars); simpl.
  - unfold union, option_union, union_with, option_union_with.
    by repeat case_match; simplify_eq/=.
  - case_match; simpl; by destruct x.
Qed.

Lemma long_in_cons c v vars x :
  default x (long_in c (v :: vars)) = default (default x (long_in c [v])) (long_in c vars).
Proof. unfold long_in. rewrite !last_in_cons. by destruct (last_in c vars). Qed.

Lemma row_of_cons v vars j : row_of (v :: vars) j = row_of vars (row_of [v] j).
Proof.
  unfold row_of, set_row, set_strings.
  cbn [iJobMasIndex pcJobMasId pcJobMasName iJobMasInterval pcJobMasStartTime pcJobMasFinishTime
       uiEndTimeinNum iJobMasMemoryUsage iJobMasCPUUsage iJobMasStatus].
  by rewrite <- !string_in_cons, <- !long_in_cons.
Qed.

Lemma string_in_one c v (x : option (list Z)) :
  string_in c [v] ∪ x = if in_column c v then Some (string_of v) else x.
Proof.
  unfold string_in. rewrite last_in_cons. simpl. case_match; simpl; by destruct x.
Qed.

Lemma long_in_one c v x :
  default x (long_in c [v]) = if in_column c v then I16 (default 0 (val_integer v)) else x.
Proof. unfold long_in. rewrite last_in_cons. simpl. by case_match. Qed.

Lemma read_var_spec v j : well_formed v -> read_var true v j = Ret (Some (row_of [v] j)).
Proof.
  intros Hwf. destruct (Hwf) as (_ & _ & [n Hn]).
  assert (Hrow : row_of [v] j =
    set_row (if in_column 8 v then I16 n else iJobMasInterval j)
            (if in_column 13 v then I16 n else iJobMasStatus j)
      (set_strings (if in_column 2 v then Some (string_of v) else pcJobMasId j)
         (if in_column 3 v then Some (string_of v) else pcJobMasName j)
         (if in_column 9 v then Some (string_of v) else pcJobMasStartTime j)
         (if in_column 10 v then Some (string_of v) else pcJobMasFinishTime j) j)).
  { unfold row_of. rewrite !string_in_one, !long_in_one, Hn. by repeat case_match. }
  rewrite Hrow. unfold read_var, fill_string, read_long. rewrite CheckField_spec, Hn, FillStruct_wf by done.
  destruct j.
  destruct (in_column 13 v) eqn:H13; [by rewrite !(in_column_other _ _ _ H13)|].
  destruct (in_column 12 v) eqn:H12; [by rewrite !(in_column_other _ _ _ H12)|].
  destruct (in_column 11 v) eqn:H11; [by rewrite !(in_column_other _ _ _ H11)|].
  destruct (in_column 10 v) eqn:H10; [by rewrite !(in_column_other _ _ _ H10)|].
  destruct (in_column 9 v) eqn:H9; [by rewrite !(in_column_other _ _ _ H9)|].
  destruct (in_column 8 v) eqn:H8; [by rewrite !(in_column_other _ _ _ H8)|].
  destruct (in_column 3 v) eqn:H3; [by rewrite !(in_column_other _ _ _ H3)|].
  by destruct (in_column 2 v).
Qed.

Lemma read_vars_spec mem vars j :
  (forall k, mem k = true) -> Forall well_formed vars ->
  read_vars mem vars j = Ret (Some (row_of vars j)).
Proof.
  intros Hmem Hwf. revert j. induction Hwf as [|v vars Hv Hwf IH]; intros j; simpl.
  - destruct j as [? a b ? st fi]. by destruct a, b, st, fi.
  - rewrite Hmem, (read_var_spec _ _ Hv). simpl. rewrite IH. f_equal. f_equal. symmetry. apply row_of_cons.
Qed.

Section TrapProps.
Context `{TaskScheduler} `{Allocator}.
Variables (tz perform : Z).
Abbreviation state := js.

(** The row a trap describes, in memory that held [junk]. *)
Definition trap_job (junk : stJobMaster) (index : Z) (vars : list variable) : stJobMaster :=
  MkJob (UI16 (I16 index)) (string_in 2 vars) (string_in 3 vars) (default (-1) (long_in 8 vars))
        (string_in 9 vars) (string_in 10 vars) (uiEndTimeinNum junk) (iJobMasMemoryUsage junk)
        (iJobMasCPUUsage junk) (default 0 (long_in 13 vars)).

(** What is asked for: add for row status active and createAndGo, delete for
    notInService and destroy, modify for the rest, in particular no status. *)
Definition requested (status : option Z) : Z :=
  match status with
  | Some 4 | Some 1 => JS_ADD
  | Some 6 | Some 2 => JS_DELETE
  | _ => JS_MODIFY
  end.

Lemma decision_requested (status : option Z) : decision (default 0 status) = requested status.
Proof.
  destruct status as [x|]; [|done]. unfold decision. simpl.
  zbool; subst; try done. destruct x as [|q|q]; try done.
  do 3 (destruct q as [q|q|]; try done; try lia).
Qed.

Lemma GetIndex_last v x oid :
  name v = oid ++ [x] -> Z.of_nat (length (name v)) < 32768 -> JS_GetIndex v = Ret (I16 x).
Proof.
  intros Hn Hl. unfold JS_GetIndex. rewrite Hn, length_app in *. cbn [length] in *.
  rewrite I16_id by lia. rewrite (proj2 (Z.ltb_ge _ _)) by lia.
  replace (Z.to_nat _) with (length oid) by lia. by rewrite list_lookup_middle.
Qed.

Lemma ParseTrap_decodes now memf mem task day0 junk v vars (s : state) oid x :
  (forall k, memf k = true) -> Forall well_formed (v :: vars) ->
  name v = oid ++ [x] -> Z.of_nat (length (name v)) < 32768 ->
  malloc (dom (js_jobs s)) <> NULL ->
  let p := malloc (dom (js_jobs s)) in
  let job := trap_job junk x (v :: vars) in
  JS_ParseTrap tz perform now memf mem task day0 junk (v :: vars) s =
    (if bool_decide (take 12 (name v) = jobProcessMasterTable_variables_oid) then
       r ← JS_UpdateJobToScheduler tz perform now mem task day0 p
             (requested (long_in 13 (v :: vars))) (with_jobs s (<[p := job]> (js_jobs s)));
       mret (match r with Some (_, s') => Some (true, s') | None => None end)
     else mret (Some (false, s))).
Proof.
  intros Hmem Hwf Hn Hl Hp p job. unfold JS_ParseTrap, JS_CheckTable.
  rewrite under_take. change (length jobProcessMasterTable_variables_oid) with 12%nat.
  case_bool_decide; [|done]. rewrite outcome_bind_ret. change (1 =? -1) with false. cbv iota.
  rewrite (proj2 (Z.eqb_neq _ _) Hp), (GetIndex_last v x oid Hn Hl), outcome_bind_ret.
  rewrite read_vars_spec by done. rewrite outcome_bind_ret.
  assert (row_of (v :: vars) (fresh_job junk (I16 x)) = job) as ->.
  { unfold job, trap_job, row_of, fresh_job, set_row, set_strings. cbn -[string_in long_in].
    f_equal; try done; by destruct (string_in _ _). }
  unfold job at 1. cbn [iJobMasStatus trap_job]. rewrite decision_requested. fold p.
  by destruct (JS_UpdateJobToScheduler _ _ _ _ _ _ _ _ _) as [[[]|]| |].
Qed.

(** C34: a trap whose first variable lies in the job table is turned into the row
    it describes: the index is the last sub-identifier of the first variable,
    each field comes from the last variable of its column, and a field without a
    variable keeps its default; the row status decides whether the job is added,
    modified or deleted.  A trap of another table changes nothing, and an empty
    one makes the agent read through a null pointer. *)
Theorem JS_ParseTrap_decodes now memf mem task day0 junk v vars (s : state) oid x :
  (forall k, memf k = true) -> Forall well_formed (v :: vars) ->
  name v = oid ++ [x] -> Z.of_nat (length (name v)) < 32768 ->
  malloc (dom (js_jobs s)) <> NULL ->
  let p := malloc (dom (js_jobs s)) in
  let job := trap_job junk x (v :: vars) in
  JS_ParseTrap tz perform now memf mem task day0 junk (v :: vars) s =
    (if bool_decide (take 12 (name v) = jobProcessMasterTable_variables_oid) then
       r ← JS_UpdateJobToScheduler tz perform now mem task day0 p
             (requested (long_in 13 (v :: vars))) (with_jobs s (<[p := job]> (js_jobs s)));
       mret (match r with Some (_, s') => Some (true, s') | None => None end)
     else mret (Some (false, s))) /\
  JS_ParseTrap tz perform now memf mem task day0 junk [] s = Crash.
Proof. intros. split; [|done]. by apply (ParseTrap_decodes _ _ _ _ _ _ _ _ _ oid). Qed.
End TrapProps.

(** ** A trap that creates row 4 *)
#[local] Existing Instance bump_allocator.

Definition long_var (c i x : Z) : variable := MkVariable (column_oid c ++ [i]) 8 (replicate 8 0) (Some x).
Definition string_var (c i : Z) (b : list Z) : variable :=
  MkVariable (column_oid c ++ [i]) (Z.of_nat (length b)) b (Some 0).
Definition create4 : list variable :=
  [long_var 13 4 4; string_var 2 4 [75]; string_var 3 4 [78]; long_var 8 4 1;
   string_var 9 4 at_0945; string_var 10 4 at_2008].

Lemma JS_ParseTrap_decodes_witness :
  string_in 9 create4 = Some (at_0945 ++ [0]) /\
  JS_ParseTrap 0 504 morning rich rich once_2005 0 job3 create4 (demo_js at_2008) =
    (r ← JS_UpdateJobToScheduler 0 504 morning rich once_2005 0 702 JS_ADD
           (with_jobs (demo_js at_2008)
              (<[702 := MkJob 4 (Some [75; 0]) (Some [78; 0]) 1 (Some (at_0945 ++ [0]))
                          (Some (at_2008 ++ [0])) 0 0 0 4]> (js_jobs (demo_js at_2008))));
     mret (match r with Some (_, s') => Some (true, s') | None => None end)).
Proof.
  split; [reflexivity|].
  destruct (JS_ParseTrap_decodes 0 504 morning rich rich once_2005 0 job3 (long_var 13 4 4)
    (tail create4) (demo_js at_2008) (column_oid 13) 4) as [Hp _].
  - done.
  - repeat (constructor; [split_and!; [simpl; lia..|by eexists]|]). constructor.
  - reflexivity.
  - vm_compute. reflexivity.
  - apply bump_total.
  - rewrite bool_decide_eq_true_2 in Hp by reflexivity. exact Hp.
Defined.
