(* ===== verification/FileNet.v ===== *)
(** * Messages of the file transfer (FileTrans_SendPkt, FileTrans_SendAck,
      FileTrans_RecvAck, FileTrans_RecvPkt and
      FileTrans_ConvertPktHdrToHostForm of src/Group2/Unix/common/src)

    A datagram is the memory image of a [StMsg]: six words in network byte order
    and a data area.  [be] tells whether the host is big-endian.  The second part
    has the round trip of messages between hosts. *)

From S2P Require Import Prelude CTypes.

#[local] Open Scope Z_scope.

(** ** Words *)
Definition bytes_be (x : Z) : list Z :=
  [x / 2 ^ 24 mod 2 ^ 8; x / 2 ^ 16 mod 2 ^ 8; x / 2 ^ 8 mod 2 ^ 8; x mod 2 ^ 8].
Definition of_be (l : list Z) : Z := foldl (fun a b => a * 2 ^ 8 + b) 0 l.

(** An [I32] in memory, and [htonl]/[ntohl] of one stored in an [I32]. *)
Definition store (be : bool) (x : Z) : list Z :=
  if be then bytes_be (UI32 x) else reverse (bytes_be (UI32 x)).
Definition load32 (be : bool) (l : list Z) : Z := I32 (of_be (if be then l else reverse l)).
Definition htonl (be : bool) (x : Z) : Z :=
  if be then x else I32 (of_be (reverse (bytes_be (UI32 x)))).
Definition ntohl : bool -> Z -> Z := htonl.

(** ** Headers and messages *)
Definition HND_SHAKE : Z := 0.
Definition HND_SHAKE_ACK : Z := 1.
Definition DATA : Z := 4.
Definition DATA_ACK : Z := 5.
Definition DATA_NEG_ACK : Z := 6.
Definition MAX_DATA_SIZE : Z := 1100.

Record stPacketHeader := MkHdr {
  ePktType : Z; eModuleId : Z; iPktNo : Z; iMmapNo : Z; iCorrelater : Z
}.
Definition zero_hdr : stPacketHeader := MkHdr 0 0 0 0 0.

Record StMsg := MkMsg { stHeader : stPacketHeader; iDataLen : Z; cData : list Z }.

Record stSequence := MkSeq { seqMmapNo : Z; seqCorrelater : Z }.

Definition FileTrans_ConvertPktHdrToHostForm (be : bool) (h : stPacketHeader) : stPacketHeader :=
  MkHdr (ntohl be (ePktType h)) (ntohl be (eModuleId h)) (ntohl be (iPktNo h))
        (ntohl be (iMmapNo h)) (ntohl be (iCorrelater h)).

(** The memory image of a message, and the message a datagram leaves in a
    [StMsg] that was cleared. *)
Definition SIZEOF_StMsg : Z := 24 + MAX_DATA_SIZE.
Definition msg_bytes (be : bool) (m : StMsg) : list Z :=
  store be (ePktType (stHeader m)) ++ store be (eModuleId (stHeader m)) ++
  store be (iPktNo (stHeader m)) ++ store be (iMmapNo (stHeader m)) ++
  store be (iCorrelater (stHeader m)) ++ store be (iDataLen m) ++ cData m.

Definition cleared (n : Z) (d : list Z) : list Z :=
  take (Z.to_nat n) (d ++ replicate (Z.to_nat n) 0).
Definition word (be : bool) (d : list Z) (i : nat) : Z := load32 be (take 4 (drop (4 * i) d)).
Definition msg_of (be : bool) (d : list Z) : StMsg :=
  let d := cleared SIZEOF_StMsg d in
  MkMsg (MkHdr (word be d 0) (word be d 1) (word be d 2) (word be d 3) (word be d 4))
        (word be d 5) (drop 24 d).

(** [memcpy] of [n] bytes into a cleared data area. *)
Definition put_data (src : list Z) (n : Z) : outcome (list Z) :=
  if (0 <=? n) && (n <=? MAX_DATA_SIZE) && (n <=? Z.of_nat (length src))
  then mret (cleared MAX_DATA_SIZE (take (Z.to_nat n) src)) else Crash.

(** ** The sockets

    What the next [select] and [recvfrom] answer, in order; a datagram of length
    0 is the answer 0 of [recvfrom].  A function that needs an answer beyond the
    list is still blocked.  [sendto_ok k] tells whether the [k]-th call of
    [sendto] succeeds. *)
Inductive net_event :=
| TimedOut
| SelectFailed (eintr : bool)
| RecvFailed (eintr : bool)
| Datagram (from : Z) (d : list Z).

Record net := MkNet { inbox : list net_event; sent : list (list Z); attempts : nat }.
Definition with_inbox (w : net) (l : list net_event) : net := MkNet l (sent w) (attempts w).

Section Messages.
Variable be : bool.
Variable sendto_ok : nat -> bool.

Definition sendto (d : list Z) (w : net) : ENASCenterError * net :=
  if sendto_ok (attempts w) then (NASC_SUCCESS, MkNet (inbox w) (sent w ++ [d]) (S (attempts w)))
  else (NASC_FAILURE, MkNet (inbox w) (sent w) (S (attempts w))).

Definition FileTrans_SendPkt (pvHeader : stPacketHeader) (pvData : list Z) (iDataLen : Z) (w : net)
    : outcome (ENASCenterError * net) :=
  data ← put_data pvData iDataLen;
  mret (sendto (msg_bytes be (MkMsg pvHeader (htonl be iDataLen) data)) w).

(** [None] is a null [pvData]. *)
Definition FileTrans_SendAck (pvHeader : stPacketHeader) (pvData : option (list Z)) (iDataLen : Z)
    (w : net) : outcome (ENASCenterError * net) :=
  match pvData with
  | None =>
      mret (sendto (msg_bytes be (MkMsg pvHeader 0 (cleared MAX_DATA_SIZE []))) w)
  | Some b =>
      data ← put_data b iDataLen;
      mret (sendto (msg_bytes be (MkMsg pvHeader (htonl be iDataLen) data)) w)
  end.

(** [memcpy] of the data of a message over the start of a buffer, with the
    length the peer sent. *)
Definition copy_data (m : StMsg) (buf : list Z) : outcome (list Z) :=
  let n := ntohl be (iDataLen m) in
  if (0 <=? n) && (n <=? MAX_DATA_SIZE) && (n <=? Z.of_nat (length buf))
  then mret (take (Z.to_nat n) (cData m) ++ drop (Z.to_nat n) buf) else Crash.

(** The status, the header (as it was if no packet came), the data buffer and
    the address a packet came from. *)
Record ack := MkAck {
  ack_status : ENASCenterError; ack_header : stPacketHeader; ack_data : option (list Z);
  ack_from : option Z
}.

Fixpoint recv_ack (iMapNo iCorrelarter : Z) (h : stPacketHeader) (pvData : option (list Z))
    (from : option Z) (events : list net_event) : outcome (ack * list net_event) :=
  match events with
  | [] => OutOfFuel
  | TimedOut :: events => mret (MkAck NASC_FILE_TRANS_TIME_OUT h pvData from, events)
  | SelectFailed _ :: events => mret (MkAck NASC_FAILURE h pvData from, events)
  | RecvFailed eintr :: events =>
      if eintr then recv_ack iMapNo iCorrelarter h pvData from events
      else mret (MkAck NASC_FAILURE h pvData from, events)
  | Datagram a d :: events =>
      if bool_decide (d = []) then mret (MkAck NASC_FILE_TRANS_CONN_CLOSED h pvData (Some a), events)
      else
        let m := msg_of be d in
        let h := FileTrans_ConvertPktHdrToHostForm be (stHeader m) in
        pvData ← match pvData with
                 | None => mret None
                 | Some buf => Some <$> copy_data m buf
                 end;
        if (iMmapNo h =? iMapNo) && (iCorrelater h =? iCorrelarter)
        then mret (MkAck NASC_SUCCESS h pvData (Some a), events)
        else recv_ack iMapNo iCorrelarter h pvData (Some a) events
  end.

Definition FileTrans_RecvAck (h : stPacketHeader) (iMapNo iCorrelarter : Z)
    (pvData : option (list Z)) (w : net) : outcome (ack * net) :=
  '(a, l) ← recv_ack iMapNo iCorrelarter h pvData None (inbox w);
  mret (a, with_inbox w l).

(** [FileTrans_RecvPkt]: the header is read into a local variable and never
    stored through [pvHeader]; [n] bytes of the data area are copied. *)
Fixpoint recv_pkt (pvData : list Z) (n : Z) (from : Z) (events : list net_event)
    : outcome (ENASCenterError * list Z * Z * list net_event) :=
  match events with
  | [] => OutOfFuel
  | TimedOut :: events => mret (NASC_FILE_TRANS_TIME_OUT, pvData, from, events)
  | SelectFailed eintr :: events =>
      if eintr then recv_pkt pvData n from events
      else mret (NASC_FAILURE, pvData, from, events)
  | RecvFailed _ :: events => mret (NASC_FAILURE, pvData, from, events)
  | Datagram a d :: events =>
      if bool_decide (d = []) then mret (NASC_FILE_TRANS_CONN_CLOSED, pvData, a, events)
      else mret (NASC_SUCCESS, take (Z.to_nat n) (cData (msg_of be d)), a, events)
  end.

Definition FileTrans_RecvPkt (pvHeader : stPacketHeader) (pvData : list Z) (n from : Z) (w : net)
    : outcome (ENASCenterError * stPacketHeader * list Z * Z * net) :=
  '(r, d, a, l) ← recv_pkt pvData n from (inbox w);
  mret (r, pvHeader, d, a, with_inbox w l).

End Messages.

(** * Messages on the wire

    What a host of either byte order sends is [wire], and a host of either byte
    order reads it back. *)

#[local] Open Scope Z_scope.

Definition is_I32 (x : Z) : Prop := -2147483648 <= x < 2147483648.
Definition is_byte8 (b : Z) : Prop := 0 <= b < 2 ^ 8.

Lemma of_be_bytes x : 0 <= x < 2 ^ 32 -> of_be (bytes_be x) = x.
Proof. intros Hx. unfold of_be, bytes_be. simpl. Z.div_mod_to_equations. lia. Qed.

Lemma bytes_of_be l : length l = 4%nat -> Forall is_byte8 l -> bytes_be (of_be l) = l.
Proof.
  destruct l as [|a [|b [|c [|d [|]]]]]; try done. intros _ Hl.
  repeat apply Forall_cons in Hl as [? Hl]. unfold is_byte8, bytes_be, of_be in *. simpl.
  f_equal; [|f_equal; [|f_equal; [|f_equal]]]; Z.div_mod_to_equations; lia.
Qed.

Lemma bytes_be_byte x : Forall is_byte8 (bytes_be x).
Proof. unfold bytes_be. repeat constructor; apply Z.mod_pos_bound; lia. Qed.

Lemma of_be_range l : length l = 4%nat -> Forall is_byte8 l -> 0 <= of_be l < 2 ^ 32.
Proof.
  destruct l as [|a [|b [|c [|d [|]]]]]; try done. intros _ Hl.
  repeat apply Forall_cons in Hl as [? Hl]. unfold is_byte8, of_be in *. simpl. lia.
Qed.

Lemma UI32_I32 y : 0 <= y < 2 ^ 32 -> UI32 (I32 y) = y.
Proof. intros. unfold UI32, I32. Z.div_mod_to_equations. lia. Qed.
Lemma I32_UI32 x : I32 (UI32 x) = I32 x.
Proof. unfold UI32, I32. Z.div_mod_to_equations. lia. Qed.

Lemma reversed_word x :
  bytes_be (UI32 (I32 (of_be (reverse (bytes_be x))))) = reverse (bytes_be x).
Proof.
  assert (Forall is_byte8 (reverse (bytes_be x))) by apply Forall_reverse, bytes_be_byte.
  rewrite UI32_I32 by (by apply of_be_range). by apply bytes_of_be.
Qed.

Lemma store_htonl be x : store be (htonl be x) = bytes_be (UI32 x).
Proof.
  unfold store, htonl. destruct be; [done|]. by rewrite reversed_word, reverse_involutive.
Qed.

Lemma ntohl_load be x : ntohl be (load32 be (bytes_be (UI32 x))) = I32 x.
Proof.
  pose proof (UI32_range x). unfold ntohl, htonl, load32. destruct be.
  - by rewrite of_be_bytes, I32_UI32 by lia.
  - by rewrite reversed_word, reverse_involutive, of_be_bytes, I32_UI32 by lia.
Qed.

(** ** Messages *)
Definition net_hdr (be : bool) (h : stPacketHeader) : stPacketHeader :=
  MkHdr (htonl be (ePktType h)) (htonl be (eModuleId h)) (htonl be (iPktNo h))
        (htonl be (iMmapNo h)) (htonl be (iCorrelater h)).
Definition hdr_ok (h : stPacketHeader) : Prop :=
  is_I32 (ePktType h) /\ is_I32 (eModuleId h) /\ is_I32 (iPktNo h) /\
  is_I32 (iMmapNo h) /\ is_I32 (iCorrelater h).

(** The datagram with these fields, whatever the sender's byte order. *)
Definition wire (h : stPacketHeader) (len : Z) (data : list Z) : list Z :=
  bytes_be (UI32 (ePktType h)) ++ bytes_be (UI32 (eModuleId h)) ++ bytes_be (UI32 (iPktNo h)) ++
  bytes_be (UI32 (iMmapNo h)) ++ bytes_be (UI32 (iCorrelater h)) ++ bytes_be (UI32 len) ++
  cleared MAX_DATA_SIZE data.

Lemma length_cleared n d : length (cleared n d) = Z.to_nat n.
Proof. unfold cleared. rewrite length_take, length_app, length_replicate. lia. Qed.

Lemma msg_bytes_wire be h len data :
  msg_bytes be (MkMsg (net_hdr be h) (htonl be len) (cleared MAX_DATA_SIZE data)) = wire h len data.
Proof. unfold msg_bytes, wire. simpl. rewrite !store_htonl. reflexivity. Qed.

Lemma wire_nonempty h len data : wire h len data <> [].
Proof. done. Qed.

Lemma cleared_all n d : length d = Z.to_nat n -> cleared n d = d.
Proof. intros Hd. unfold cleared. rewrite take_app_le by lia. by apply take_ge; lia. Qed.

Lemma length_wire h len data : length (wire h len data) = Z.to_nat SIZEOF_StMsg.
Proof. unfold wire. by rewrite !length_app, length_cleared. Qed.

Lemma msg_of_wire be h len data :
  hdr_ok h -> is_I32 len ->
  let m := msg_of be (wire h len data) in
  FileTrans_ConvertPktHdrToHostForm be (stHeader m) = h /\
  ntohl be (iDataLen m) = len /\ cData m = cleared MAX_DATA_SIZE data.
Proof.
  intros (Ht & He & Hp & Hm & Hc) Hlen. unfold msg_of.
  rewrite cleared_all by apply length_wire. unfold wire. cbn [stHeader iDataLen cData].
  unfold FileTrans_ConvertPktHdrToHostForm, word. simpl.
  fold (bytes_be (UI32 (ePktType h))) (bytes_be (UI32 (eModuleId h)))
    (bytes_be (UI32 (iPktNo h))) (bytes_be (UI32 (iMmapNo h)))
    (bytes_be (UI32 (iCorrelater h))) (bytes_be (UI32 len)).
  rewrite !take_0, drop_0. fold (bytes_be (UI32 len)).
  rewrite !ntohl_load, !I32_id by assumption. split; [by destruct h|done].
Qed.

(** A short message ends its [cleared] data area. *)
Lemma take_cleared n data :
  0 <= n <= MAX_DATA_SIZE -> length data = Z.to_nat n ->
  take (Z.to_nat n) (cleared MAX_DATA_SIZE data) = data.
Proof.
  intros Hn Hd. unfold cleared. rewrite take_take, Nat.min_l by lia.
  by rewrite take_app_le, take_ge by lia.
Qed.

Lemma put_data_ok data n :
  0 <= n <= MAX_DATA_SIZE -> n <= Z.of_nat (length data) ->
  put_data data n = Ret (cleared MAX_DATA_SIZE (take (Z.to_nat n) data)).
Proof. intros Hn Hd. unfold put_data. by rewrite !(proj2 (Z.leb_le _ _)) by lia. Qed.

Lemma SendPkt_wire be ok h data n w :
  0 <= n <= MAX_DATA_SIZE -> n <= Z.of_nat (length data) ->
  FileTrans_SendPkt be ok (net_hdr be h) data n w =
  Ret (sendto ok (wire h n (take (Z.to_nat n) data)) w).
Proof.
  intros Hn Hd. unfold FileTrans_SendPkt. rewrite put_data_ok by done.
  by rewrite outcome_bind_ret, msg_bytes_wire.
Qed.

Lemma SendAck_wire be ok h w :
  FileTrans_SendAck be ok (net_hdr be h) None 0 w = Ret (sendto ok (wire h 0 []) w).
Proof.
  unfold FileTrans_SendAck. replace 0 with (htonl be 0) at 1 by by destruct be.
  by rewrite msg_bytes_wire.
Qed.

Lemma sendto_all ok d w :
  (forall k, ok k = true) -> sendto ok d w = (NASC_SUCCESS, MkNet (inbox w) (sent w ++ [d]) (S (attempts w))).
Proof. intros Hok. unfold sendto. by rewrite Hok. Qed.

(** ** Acknowledgements *)
Lemma copy_wire be h n data buf :
  hdr_ok h -> 0 <= n <= MAX_DATA_SIZE -> n <= Z.of_nat (length buf) -> length data = Z.to_nat n ->
  copy_data be (msg_of be (wire h n data)) buf = Ret (data ++ drop (Z.to_nat n) buf).
Proof.
  intros Hh Hn Hb Hd. destruct (msg_of_wire be h n data Hh) as (_ & Hl & Hc).
  { unfold is_I32, MAX_DATA_SIZE in *. lia. }
  unfold copy_data. rewrite Hl, Hc, !(proj2 (Z.leb_le _ _)) by lia. cbn [andb].
  by rewrite take_cleared.
Qed.

(** The acknowledgement that is waited for. *)
Lemma RecvAck_hit be h0 h n data buf a rest w :
  hdr_ok h -> 0 <= n <= MAX_DATA_SIZE -> n <= Z.of_nat (length buf) -> length data = Z.to_nat n ->
  inbox w = Datagram a (wire h n data) :: rest ->
  FileTrans_RecvAck be h0 (iMmapNo h) (iCorrelater h) (Some buf) w =
  Ret (MkAck NASC_SUCCESS h (Some (data ++ drop (Z.to_nat n) buf)) (Some a), with_inbox w rest).
Proof.
  intros Hh Hn Hb Hd Hw. unfold FileTrans_RecvAck. rewrite Hw. cbn [recv_ack].
  rewrite bool_decide_eq_false_2 by apply wire_nonempty.
  rewrite copy_wire by done. cbn [fmap outcome_fmap]. rewrite outcome_bind_ret.
  destruct (msg_of_wire be h n data Hh) as (-> & _); [unfold is_I32, MAX_DATA_SIZE in *; lia|].
  by rewrite !Z.eqb_refl.
Qed.
