(* ===== verification/FileSend.v ===== *)
(** * Sending a file (FileTrans_SendFile, FileTransfer_InitHandshake,
      FileTransfer_SendData and FileTrans_SendActualData of
      src/Group2/Unix/common/src)

    The file is mapped a page at a time; the packets of a map are sent in one go
    and acknowledged together.  This is the POSIX build. *)

From S2P Require Import Prelude CTypes FileNet.
#[local] Open Scope Z_scope.

Definition MAX_NO_OF_RETRIES : Z := 5.
Definition DEF_MSG_SIZE : Z := 512.
Definition MAX_FILE_NAME_LEN : Z := 500.
Definition MAX_PATH_LEN : Z := 500.

(** The characters ['0'] and ['1'] of the packet status. *)
Definition missing : Z := 48.
Definition received : Z := 49.

Record stCntrlData := MkCntrl {
  dRtt : Z; iTotNoPkts : Z; iTotNoMaps : Z; iNoPktsPerMMap : Z; iNoExtraMapPackets : Z;
  iMesgSizePerPkt : Z; iMesgSizeForLastPkt : Z; pcDestPath : list Z; pcFileName : list Z
}.
Definition SIZEOF_stCntrlData : Z := 28 + MAX_PATH_LEN + MAX_FILE_NAME_LEN.
Definition cntrl_bytes (be : bool) (c : stCntrlData) : list Z :=
  store be (dRtt c) ++ store be (iTotNoPkts c) ++ store be (iTotNoMaps c) ++
  store be (iNoPktsPerMMap c) ++ store be (iNoExtraMapPackets c) ++
  store be (iMesgSizePerPkt c) ++ store be (iMesgSizeForLastPkt c) ++ pcDestPath c ++ pcFileName c.

(** ** The plan of a transfer *)
Record plan := MkPlan {
  iTotNoOfPkts : Z; iNoOfMappingNeeded : Z; planPktsPerMMap : Z; iExtraPktsPerMap : Z;
  iLastPktSize : Z
}.

Definition quot_up (a b : Z) : Z :=
  if negb (Z.rem a b =? 0) then I32 (Z.quot a b) + 1 else I32 (Z.quot a b).

Definition message_size (iMsgSize : Z) : Z :=
  let m := if iMsgSize =? 0 then DEF_MSG_SIZE else iMsgSize in
  if MAX_DATA_SIZE <? m then MAX_DATA_SIZE else m.

Definition make_plan (st_size iPageSize iMsgSize : Z) : plan :=
  let total := quot_up st_size iMsgSize in
  let iExtraFileSize := I32 (Z.rem st_size iPageSize) in
  let one := st_size <=? iPageSize in
  MkPlan total (quot_up st_size iPageSize)
    (if one then total else quot_up iPageSize iMsgSize)
    (if one then 0 else quot_up iExtraFileSize iMsgSize)
    (Z.rem iExtraFileSize iMsgSize).

(** The bytes of the [k]-th page of the file, as [mmap] shows them. *)
Definition page_of (iPageSize : Z) (file : list Z) (k : Z) : list Z :=
  cleared iPageSize (drop (Z.to_nat (k * iPageSize)) file).

Section Send.
Variable be : bool.
Variable sendto_ok : nat -> bool.
(** Whether the [malloc] of a packet buffer succeeds after so many sends, that
    of the status array, and the [mmap] of a page. *)
Variable mem : nat -> bool.
Variable mem_status : bool.
Variable mmap_ok : Z -> bool.

(** ** FileTrans_SendActualData

    [off] is how far [pvTempScratchFile] is into the page. *)
Definition data_hdr (seq : stSequence) (iPktNo : Z) : stPacketHeader :=
  MkHdr (htonl be DATA) 0 (htonl be iPktNo) (htonl be (seqMmapNo seq))
        (htonl be (seqCorrelater seq)).

Fixpoint send_packets (k : nat) (page : list Z) (piPktStatus : list Z) (seq : stSequence)
    (iMsgSize iLastPacketSize iTotNoOfPkts iPktNo off iLastPktNo : Z) (w : net)
    : outcome (ENASCenterError * net) :=
  match k with
  | O => mret (NASC_SUCCESS, w)
  | S k =>
      let iLastPktNo := iLastPktNo + 1 in
      let len := if (iLastPktNo =? iTotNoOfPkts) && negb (iLastPacketSize =? 0)
                 then iLastPacketSize else iMsgSize in
      match piPktStatus !! Z.to_nat (iPktNo - 1) with
      | None => Crash
      | Some c =>
          if c =? missing then
            if (0 <=? len) && (len <=? iMsgSize + 1) && (off + len <=? Z.of_nat (length page)) then
              let data := take (Z.to_nat len) (drop (Z.to_nat off) page) in
              '(r, w) ← FileTrans_SendPkt be sendto_ok (data_hdr seq iLastPktNo) data len w;
              if negb (bool_decide (r = NASC_SUCCESS)) then mret (r, w)
              else send_packets k page piPktStatus seq iMsgSize iLastPacketSize iTotNoOfPkts
                     (iPktNo + 1) (off + len) iLastPktNo w
            else Crash
          else send_packets k page piPktStatus seq iMsgSize iLastPacketSize iTotNoOfPkts
                 (iPktNo + 1) (off + len) iLastPktNo w
      end
  end.

Definition FileTrans_SendActualData (page piPktStatus : list Z) (seq : stSequence)
    (iMsgSize iNoPktsPerMMap iLastPacketSize iTotNoOfPkts iLastPktNo : Z) (w : net)
    : outcome (ENASCenterError * net) :=
  if (iMsgSize + 1 <? 0) || negb (mem (attempts w)) then mret (NASC_INSUFFICIENT_MEMORY, w)
  else send_packets (Z.to_nat iNoPktsPerMMap) page piPktStatus seq iMsgSize iLastPacketSize
         iTotNoOfPkts 1 0 iLastPktNo w.

(** ** FileTransfer_SendData *)
Record send_state := MkSend {
  iNoOfRetries : Z; iMmapCntr : Z; iLastPktNo : Z; curPktsPerMMap : Z;
  sendStatus : list Z; sendSeq : stSequence
}.

(** [memset] of the status, of the length it is given. *)
Definition reset_status (n : Z) (status : list Z) : list Z :=
  replicate (Z.to_nat (n + 1)) missing ++ drop (Z.to_nat (n + 1)) status.

Definition with_status (st : send_state) (retries : Z) (seq : stSequence) (status : list Z) : send_state :=
  MkSend retries (iMmapCntr st) (iLastPktNo st) (curPktsPerMMap st) status seq.

(** The map after an acknowledged one. *)
Definition next_map (pl : plan) (st : send_state) (status : list Z) : send_state :=
  let n := curPktsPerMMap st in
  let m := iMmapCntr st + 1 in
  MkSend 0 m (iLastPktNo st + n)
    (if (m + 1 =? iNoOfMappingNeeded pl) && negb (iExtraPktsPerMap pl =? 0)
     then iExtraPktsPerMap pl else n)
    (reset_status n status) (MkSeq (seqMmapNo (sendSeq st) + 1) 1).

Fixpoint send_maps (fuel : nat) (file : list Z) (iPageSize iMsgSize : Z) (pl : plan)
    (st : send_state) (w : net) : outcome (ENASCenterError * net) :=
  match fuel with
  | O => OutOfFuel
  | S fuel =>
      if negb (iMmapCntr st <? iNoOfMappingNeeded pl) then mret (NASC_SUCCESS, w) else
      if MAX_NO_OF_RETRIES <? iNoOfRetries st then mret (NASC_FAILURE, w) else
      '(r, w) ← FileTrans_SendActualData (page_of iPageSize file (iMmapCntr st)) (sendStatus st)
                  (sendSeq st) iMsgSize (curPktsPerMMap st) (iLastPktSize pl) (iTotNoOfPkts pl)
                  (iLastPktNo st) w;
      if negb (bool_decide (r = NASC_SUCCESS)) then mret (r, w) else
      '(a, w) ← FileTrans_RecvAck be zero_hdr (seqMmapNo (sendSeq st)) (seqCorrelater (sendSeq st))
                  (Some (sendStatus st)) w;
      let status := default (sendStatus st) (ack_data a) in
      match ack_status a with
      | NASC_SUCCESS =>
          if ePktType (ack_header a) =? DATA_ACK then
            if iNoOfMappingNeeded pl <=? iMmapCntr st + 1 then mret (NASC_SUCCESS, w)
            else if mmap_ok (iMmapCntr st + 1)
            then send_maps fuel file iPageSize iMsgSize pl (next_map pl st status) w
            else mret (NASC_FAILURE, w)
          else if ePktType (ack_header a) =? DATA_NEG_ACK then
            send_maps fuel file iPageSize iMsgSize pl
              (with_status st (iNoOfRetries st + 1)
                 (MkSeq (seqMmapNo (sendSeq st)) (seqCorrelater (sendSeq st) + 1)) status) w
          else send_maps fuel file iPageSize iMsgSize pl
                 (with_status st (iNoOfRetries st) (sendSeq st) status) w
      | NASC_FILE_TRANS_TIME_OUT =>
          send_maps fuel file iPageSize iMsgSize pl
            (with_status st (iNoOfRetries st + 1) (sendSeq st) status) w
      | r => mret (r, w)
      end
  end.

Definition start_send (pl : plan) : send_state :=
  MkSend 0 0 0 (planPktsPerMMap pl) (replicate (Z.to_nat (planPktsPerMMap pl + 1)) missing)
         (MkSeq 1 1).

Definition FileTransfer_SendData (fuel : nat) (file : list Z) (iPageSize iMsgSize : Z) (pl : plan)
    (w : net) : outcome (ENASCenterError * net) :=
  if negb (mmap_ok 0) then mret (NASC_FAILURE, w) else
  if (planPktsPerMMap pl + 1 <? 0) || negb mem_status then mret (NASC_INSUFFICIENT_MEMORY, w) else
  send_maps fuel file iPageSize iMsgSize pl (start_send pl) w.

(** ** FileTransfer_InitHandshake

    At most six packets are sent: every round counts as a retry. *)
Definition handshake_hdr : stPacketHeader :=
  MkHdr (htonl be HND_SHAKE) 0 (htonl be 1) (htonl be 0) (htonl be 1).

Definition control (pl : plan) (iMsgSize : Z) (name path : list Z) : stCntrlData :=
  MkCntrl (htonl be 0) (htonl be (iTotNoOfPkts pl)) (htonl be (iNoOfMappingNeeded pl))
    (htonl be (planPktsPerMMap pl)) (htonl be (iExtraPktsPerMap pl)) (htonl be iMsgSize)
    (htonl be (iLastPktSize pl)) (cleared MAX_PATH_LEN path) (cleared MAX_FILE_NAME_LEN name).

Fixpoint shake (fuel : nat) (data : list Z) (retries : Z) (from : option Z) (w : net)
    : outcome (ENASCenterError * option Z * net) :=
  match fuel with
  | O => OutOfFuel
  | S fuel =>
      if MAX_NO_OF_RETRIES <? retries then mret (NASC_FAILURE, from, w) else
      '(r, w) ← FileTrans_SendPkt be sendto_ok handshake_hdr data SIZEOF_stCntrlData w;
      if negb (bool_decide (r = NASC_SUCCESS)) then mret (r, from, w) else
      '(a, w) ← FileTrans_RecvAck be zero_hdr 0 1 None w;
      let from := match ack_from a with Some x => Some x | None => from end in
      match ack_status a with
      | NASC_SUCCESS =>
          if ePktType (ack_header a) =? HND_SHAKE_ACK then mret (NASC_SUCCESS, from, w)
          else shake fuel data (retries + 1) from w
      | NASC_FILE_TRANS_TIME_OUT => shake fuel data (retries + 2) from w
      | _ => shake fuel data (retries + 1) from w
      end
  end.

Definition FileTransfer_InitHandshake (pl : plan) (iMsgSize : Z) (name : list Z)
    (path : option (list Z)) (w : net) : outcome (ENASCenterError * option Z * net) :=
  if MAX_FILE_NAME_LEN <? Z.of_nat (length name) then mret (NASC_FAILURE, None, w) else
  let p := default [] path in
  if MAX_PATH_LEN <? Z.of_nat (length p) then mret (NASC_FAILURE, None, w) else
  shake 7 (cntrl_bytes be (control pl iMsgSize name p)) 0 None w.

(** ** FileTrans_SendFile *)

(** What is behind the last ['/']; [None] is the null pointer [strtok_r] gives
    when there is nothing. *)
Definition base_name (name : list Z) : option (list Z) :=
  let b := reverse (take (default (length name) (fst <$> list_find (fun c => c = 47) (reverse name)))
                         (reverse name)) in
  if bool_decide (b = []) && bool_decide (47 ∈ name) then None else Some b.

(** [bind_ok], [file], [stat_ok], [connect_ok]: what the system calls give. *)
Definition FileTrans_SendFile (fuel : nat) (bind_ok dest_ok : bool) (file : option (list Z))
    (stat_ok connect_ok : bool) (iPageSize : Z) (pcFileName : list Z) (pcDestPath : option (list Z))
    (iMsgSize : Z) (w : net) : outcome (ENASCenterError * net) :=
  let iMsgSize := message_size iMsgSize in
  if negb bind_ok || negb dest_ok then mret (NASC_FAILURE, w) else
  match file with
  | None => mret (NASC_FAILURE, w)
  | Some bytes =>
      if negb stat_ok then mret (NASC_FAILURE, w) else
      let pl := make_plan (Z.of_nat (length bytes)) iPageSize iMsgSize in
      match base_name pcFileName with
      | None => Crash
      | Some name =>
          '(r, _, w) ← FileTransfer_InitHandshake pl iMsgSize name pcDestPath w;
          if negb connect_ok || negb (bool_decide (r = NASC_SUCCESS)) then mret (NASC_FAILURE, w)
          else FileTransfer_SendData fuel bytes iPageSize iMsgSize pl w
      end
  end.

End Send.
