(* ===== verification/FileRecv.v ===== *)
(** * Receiving a file (FileTrans_ProcessRecvMsg, FileTrans_HandleRequest,
      FileTrans_HandleDataPkt, FileTrans_RecvDataPkt, FileTrans_SendDataAck and
      FileTrans_FreeScratch of src/Group2/Unix/common/src)

    The packets of a map are collected in memory by their number and written
    when as many as expected have come; the sender is told which are missing
    when they do not come in time.  This is the POSIX build. *)

From S2P Require Import Prelude CTypes FileNet FileSend.
#[local] Open Scope Z_scope.

(** [stRecvData]; [None] is a null [pvData]. *)
Record stRecvData := MkRecv { pvData : option (list Z); recvLen : Z }.
Definition no_data : stRecvData := MkRecv None 0.

(** The control data in a data area, and its conversion to host form. *)
Definition cntrl_of (be : bool) (d : list Z) : stCntrlData :=
  MkCntrl (word be d 0) (word be d 1) (word be d 2) (word be d 3) (word be d 4) (word be d 5)
          (word be d 6) (take (Z.to_nat MAX_PATH_LEN) (drop 28 d))
          (take (Z.to_nat MAX_FILE_NAME_LEN) (drop (28 + Z.to_nat MAX_PATH_LEN) d)).

(** [write] at an offset of a file. *)
Definition write_at (file : list Z) (pos : nat) (data : list Z) : list Z :=
  take pos file ++ data ++ drop (pos + length data) file.

Section Recv.
Variable be : bool.
Variable sendto_ok : nat -> bool.
(** Whether the [malloc] of a packet succeeds with so many events left. *)
Variable mem : nat -> bool.

(** ** FileTrans_RecvDataPkt

    The status, the scratch area and the total are output parameters. *)
Record scratch := MkScratch { piPktStatus : list Z; area : list stRecvData; iToNoOfPktsRecvd : Z }.

Definition put_packet (sc : scratch) (i : nat) (data : list Z) : scratch :=
  MkScratch (<[i := received]> (piPktStatus sc))
            (<[i := MkRecv (Some data) (Z.of_nat (length data))]> (area sc))
            (iToNoOfPktsRecvd sc + 1).

(** The copy of the data of a message in fresh memory; [None] without memory. *)
Definition take_data (m : StMsg) (ok : bool) : outcome (option (list Z)) :=
  let n := ntohl be (iDataLen m) in
  if (n <? -1) || negb ok then mret None
  else if (0 <=? n) && (n <=? MAX_DATA_SIZE) then mret (Some (take (Z.to_nat n) (cData m)))
  else Crash.

Fixpoint recv_data (loopCntr : Z) (iNoOfPktsExpected iNoPktsPerMMap : Z) (seq : stSequence)
    (sc : scratch) (events : list net_event)
    : outcome (ENASCenterError * scratch * list net_event) :=
  if iNoOfPktsExpected <=? loopCntr then mret (NASC_SUCCESS, sc, events) else
  match events with
  | [] => OutOfFuel
  | TimedOut :: events => mret (NASC_FILE_TRANS_TIME_OUT, sc, events)
  | SelectFailed eintr :: events =>
      if eintr then recv_data loopCntr iNoOfPktsExpected iNoPktsPerMMap seq sc events
      else mret (NASC_FAILURE, sc, events)
  | RecvFailed _ :: events => mret (NASC_FAILURE, sc, events)
  | Datagram _ d :: events =>
      if bool_decide (d = []) then mret (NASC_FILE_TRANS_CONN_CLOSED, sc, events) else
      let m := msg_of be d in
      let h := FileTrans_ConvertPktHdrToHostForm be (stHeader m) in
      u ← take_data m (mem (length events));
      match u with
      | None => mret (NASC_INSUFFICIENT_MEMORY, sc, events)
      | Some uData =>
          if (ePktType h =? DATA) && (iMmapNo h =? seqMmapNo seq) &&
             (iCorrelater h =? seqCorrelater seq) then
            let i := iPktNo h - (seqMmapNo seq - 1) * iNoPktsPerMMap - 1 in
            if (0 <=? i) && (i <? Z.of_nat (length (piPktStatus sc))) &&
               (i <? Z.of_nat (length (area sc))) then
              recv_data (loopCntr + 1) iNoOfPktsExpected iNoPktsPerMMap seq
                (put_packet sc (Z.to_nat i) uData) events
            else Crash
          else recv_data loopCntr iNoOfPktsExpected iNoPktsPerMMap seq sc events
      end
  end.

Definition FileTrans_RecvDataPkt (iNoOfPktsExpected iNoPktsPerMMap : Z) (seq : stSequence)
    (sc : scratch) (w : net) : outcome (ENASCenterError * scratch * net) :=
  '(r, sc, l) ← recv_data 0 iNoOfPktsExpected iNoPktsPerMMap seq sc (inbox w);
  mret (r, sc, with_inbox w l).

(** ** FileTrans_SendDataAck *)
Definition count_missing (iNoPktsPerMMap : Z) (status : list Z) : Z :=
  Z.of_nat (length (filter (fun c => c = missing) (take (Z.to_nat iNoPktsPerMMap) status))).

Definition ack_hdr (ePktType eModuleId : Z) (seq : stSequence) : stPacketHeader :=
  MkHdr (htonl be ePktType) (htonl be eModuleId) 0 (htonl be (seqMmapNo seq))
        (htonl be (seqCorrelater seq)).

(** The status, and the number of packets now expected. *)
Definition FileTrans_SendDataAck (status : option (list Z)) (iNoPktsPerMMap expected : Z)
    (seq : stSequence) (ePktType eModuleId : Z) (w : net) : outcome (ENASCenterError * Z * net) :=
  let expected := match status with Some l => count_missing iNoPktsPerMMap l | None => expected end in
  let h := ack_hdr ePktType eModuleId seq in
  data ← put_data (default [] status) iNoPktsPerMMap;
  let '(r, w) := sendto sendto_ok (msg_bytes be (MkMsg h (htonl be iNoPktsPerMMap) data)) w in
  mret (r, expected, w).

Definition FileTrans_FreeScratch (a : list stRecvData) (n : Z) : list stRecvData :=
  ((fun r => MkRecv None (recvLen r)) <$> take (Z.to_nat n) a) ++ drop (Z.to_nat n) a.

(** ** FileTrans_HandleDataPkt *)
Record recv_state := MkRs {
  iNoOfTimeOuts : Z; iNoOfPktsExpected : Z; iNoOfPktsPerMap : Z; rs_scratch : scratch;
  rs_seq : stSequence; rs_file : list Z; rs_pos : nat
}.

(** The writes of a map: the data of its packets, in order. *)
Definition map_data (n : Z) (a : list stRecvData) : list Z :=
  mjoin ((fun r => default [] (pvData r)) <$> take (Z.to_nat n) a).

Definition clear_scratch (n : Z) (sc : scratch) : scratch :=
  MkScratch (reset_status n (piPktStatus sc))
            (replicate (Z.to_nat n) no_data ++ drop (Z.to_nat n) (area sc)) (iToNoOfPktsRecvd sc).

(** After an acknowledged map that is not the end: the next one. *)
Definition next_expected (c : stCntrlData) (seq : stSequence) (per : Z) : Z * Z :=
  if (seqMmapNo seq =? iTotNoMaps c) && negb (iNoExtraMapPackets c =? 0)
  then (iNoExtraMapPackets c, iNoExtraMapPackets c)
  else (iNoPktsPerMMap c, per).

Fixpoint recv_maps (fuel : nat) (c : stCntrlData) (eModuleId : Z) (st : recv_state) (w : net)
    : outcome (ENASCenterError * list Z * net) :=
  match fuel with
  | O => OutOfFuel
  | S fuel =>
      '(r, sc, w) ← FileTrans_RecvDataPkt (iNoOfPktsExpected st) (iNoPktsPerMMap c) (rs_seq st)
                      (rs_scratch st) w;
      match r with
      | NASC_FILE_TRANS_TIME_OUT =>
          let timeouts := iNoOfTimeOuts st + 1 in
          if MAX_NO_OF_RETRIES <? timeouts then mret (NASC_FILE_TRANS_TIME_OUT, rs_file st, w) else
          '(_, expected, w) ← FileTrans_SendDataAck (Some (piPktStatus sc)) (iNoOfPktsPerMap st)
                                (iNoOfPktsExpected st) (rs_seq st) DATA_NEG_ACK eModuleId w;
          recv_maps fuel c eModuleId
            (MkRs timeouts expected (iNoOfPktsPerMap st) sc
               (MkSeq (seqMmapNo (rs_seq st)) (seqCorrelater (rs_seq st) + 1))
               (rs_file st) (rs_pos st)) w
      | NASC_SUCCESS =>
          '(r, _, w) ← FileTrans_SendDataAck None 0 0 (rs_seq st) DATA_ACK eModuleId w;
          if bool_decide (r = NASC_SUCCESS) then
            let data := map_data (iNoOfPktsPerMap st) (area sc) in
            let file := write_at (rs_file st) (rs_pos st) data in
            let sc := clear_scratch (iNoPktsPerMMap c) 
                        (MkScratch (piPktStatus sc) (FileTrans_FreeScratch (area sc) (iNoOfPktsPerMap st))
                           (iToNoOfPktsRecvd sc)) in
            if iToNoOfPktsRecvd sc =? iTotNoPkts c then mret (NASC_SUCCESS, file, w) else
            let seq := MkSeq (seqMmapNo (rs_seq st) + 1) 1 in
            let '(expected, per) := next_expected c seq (iNoOfPktsPerMap st) in
            recv_maps fuel c eModuleId
              (MkRs (iNoOfTimeOuts st) expected per sc seq file (rs_pos st + length data)) w
          else mret (r, rs_file st, w)
      | r => mret (r, rs_file st, w)
      end
  end.

Definition host_cntrl (c : stCntrlData) : stCntrlData :=
  MkCntrl (ntohl be (dRtt c)) (ntohl be (iTotNoPkts c)) (ntohl be (iTotNoMaps c))
    (ntohl be (iNoPktsPerMMap c)) (ntohl be (iNoExtraMapPackets c)) 0
    (ntohl be (iMesgSizeForLastPkt c)) (pcDestPath c) (pcFileName c).

(** [dir_ok] tells whether the directory exists or can be made, [old] is the
    file as [open] finds or creates it, [mem_ok] whether each of the three
    [malloc]s succeeds. *)
Definition target (dir_ok : bool) (c : stCntrlData) : outcome (list Z) :=
  np ← strlen (pcDestPath c);
  nf ← strlen (pcFileName c);
  let dir := take np (pcDestPath c) in
  let dir := if bool_decide (np = 0%nat) || negb dir_ok then [46] else dir in
  mret (dir ++ [47] ++ take nf (pcFileName c)).

Definition start_recv (c : stCntrlData) (old : list Z) : recv_state :=
  MkRs 0 (iNoPktsPerMMap c) (iNoPktsPerMMap c)
    (MkScratch (replicate (Z.to_nat (iNoPktsPerMMap c + 1)) missing)
               (replicate (Z.to_nat (iNoPktsPerMMap c)) no_data) 0)
    (MkSeq 1 1) old 0.

Definition FileTrans_HandleDataPkt (fuel : nat) (mem_ok : Z -> bool) (dir_ok : bool)
    (old : list Z -> option (list Z)) (pstData : stCntrlData) (eModuleId : Z) (w : net)
    : outcome (ENASCenterError * option (list Z) * net) :=
  let c := host_cntrl pstData in
  path ← target dir_ok c;
  if negb (mem_ok 0) then mret (NASC_FAILURE, None, w) else
  match old path with
  | None => mret (NASC_FAILURE, None, w)
  | Some file =>
      let n := iNoPktsPerMMap c in
      if (n + 1 <? 0) || negb (mem_ok 1) then mret (NASC_INSUFFICIENT_MEMORY, Some file, w) else
      if (n <? 0) || negb (mem_ok 2) then mret (NASC_INSUFFICIENT_MEMORY, Some file, w) else
      '(r, file, w) ← recv_maps fuel c eModuleId (start_recv c file) w;
      mret (r, Some file, w)
  end.

(** ** FileTrans_HandleRequest: the new thread of a request *)
Record stThreadArg := MkArg { stClientAddr : Z; stPktHdr : stPacketHeader; argData : stCntrlData }.

Definition FileTrans_HandleRequest (fuel : nat) (mem_ok : Z -> bool) (dir_ok : bool)
    (old : list Z -> option (list Z)) (a : stThreadArg) (w : net)
    : outcome (ENASCenterError * option (list Z) * net) :=
  let h := MkHdr (htonl be HND_SHAKE_ACK) (eModuleId (stPktHdr a)) (iPktNo (stPktHdr a))
                 (htonl be 0) (htonl be 1) in
  '(r, w) ← FileTrans_SendAck be sendto_ok h None 0 w;
  if bool_decide (r = NASC_SUCCESS)
  then FileTrans_HandleDataPkt fuel mem_ok dir_ok old (argData a) (eModuleId (stPktHdr a)) w
  else mret (r, None, w).

(** ** FileTrans_ProcessRecvMsg

    The threads started while the events last; the header, the control data and
    the address are those the previous rounds left. *)
Fixpoint process_msgs (fuel : nat) (h : stPacketHeader) (data : list Z) (from : Z) (w : net)
    : outcome (list stThreadArg) :=
  match fuel with
  | O => mret []
  | S fuel =>
      '(_, h, data, from, w) ← FileTrans_RecvPkt be h data SIZEOF_stCntrlData from w;
      rest ← process_msgs fuel h data from w;
      mret (if negb (ePktType h =? HND_SHAKE) then rest else MkArg from h (cntrl_of be data) :: rest)
  end.

Definition FileTrans_ProcessRecvMsg (rounds : nat) (w : net) : outcome (list stThreadArg) :=
  process_msgs rounds zero_hdr (replicate (Z.to_nat SIZEOF_stCntrlData) 0) 0 w.

End Recv.
