(* ===== verification/FilePlan.v ===== *)
(** * How a file is cut into maps and packets

    For a message size that divides the page size: packet [j] carries the chunk
    [j] of the file, map [k] the chunks [k * q] and following. *)

From S2P Require Import Prelude CTypes FileNet FileSend.
#[local] Open Scope Z_scope.

(** ** The chunks of a list *)
Section Chunks.
Variable m : nat.
Hypothesis Hm : (0 < m)%nat.
#[local] Set Default Proof Using "All".
Implicit Types F : list Z.

Definition chunk F (j : nat) : list Z := take m (drop (j * m) F).
Definition chunks F (a n : nat) : list Z := mjoin (chunk F <$> seq a n).

(** [T] chunks: as many as it takes. *)
Definition covers (T : nat) F : Prop := ((T - 1) * m < length F <= T * m)%nat.

Lemma chunks_app F a n1 n2 : chunks F a (n1 + n2) = chunks F a n1 ++ chunks F (a + n1) n2.
Proof. unfold chunks. by rewrite seq_app, fmap_app, join_app. Qed.

Lemma chunks_take F n : chunks F 0 n = take (n * m) F.
Proof.
  induction n as [|n IH]; [done|]. replace (S n) with (n + 1)%nat by lia.
  rewrite chunks_app, IH. unfold chunks. simpl. rewrite app_nil_r. unfold chunk.
  replace ((n + 1) * m)%nat with (n * m + m)%nat by lia. by rewrite take_take_drop.
Qed.

Lemma chunks_all F T : covers T F -> chunks F 0 T = F.
Proof. intros [_ H]. rewrite chunks_take. by apply take_ge. Qed.

Lemma chunk_length F j : (length (chunk F j) <= m)%nat.
Proof. unfold chunk. rewrite length_take. lia. Qed.
End Chunks.

Lemma quot_up_spec a b :
  0 <= a < 2147483647 -> 0 < b ->
  0 <= quot_up a b < 2147483648 /\ (quot_up a b - 1) * b < a <= quot_up a b * b.
Proof.
  intros Ha Hb. unfold quot_up. rewrite Z.rem_mod_nonneg, Z.quot_div_nonneg by lia.
  pose proof (Z.div_mod a b ltac:(lia)). pose proof (Z.mod_pos_bound a b Hb).
  assert (0 <= a / b <= a) by (split; [apply Z.div_pos; lia|apply Z.div_le_upper_bound; nia]).
  rewrite I32_id by lia. destruct (Z.eqb_spec (a mod b) 0); simpl; [split; [lia|nia]|].
  split; [|nia]. split; [lia|]. assert (a / b < 2147483647) by lia. lia.
Qed.

Lemma between x c n D : (0 < n) -> (x - 1) * n < D <= x * n -> (c - 1) * n < D <= c * n -> x = c.
Proof. nia. Qed.

(** ** The plan *)
Section Plan.
Variables (q m : nat) (F : list Z).
Hypotheses (Hq : (0 < q)%nat) (Hm : (0 < m)%nat) (HF : (0 < length F)%nat).
Hypothesis Hsize : Z.of_nat (length F) < 2147483647.
Hypothesis Hpage : Z.of_nat (q * m) < 2147483647.
#[local] Set Default Proof Using "All".

Definition page_size : nat := q * m.
Definition thePlan : plan :=
  make_plan (Z.of_nat (length F)) (Z.of_nat page_size) (Z.of_nat m).
Definition nPkts : nat := Z.to_nat (iTotNoOfPkts thePlan).
Definition nMaps : nat := Z.to_nat (iNoOfMappingNeeded thePlan).
(** The packets of map [k]. *)
Definition cnt (k : nat) : nat := Nat.min q (nPkts - k * q).

Lemma nPkts_spec : covers m nPkts F /\ iTotNoOfPkts thePlan = Z.of_nat nPkts /\ (0 < nPkts)%nat.
Proof.
  destruct (quot_up_spec (Z.of_nat (length F)) (Z.of_nat m)) as [? ?]; [lia..|].
  unfold covers, nPkts. simpl. set (T := quot_up _ _) in *. nia.
Qed.

Lemma nMaps_spec :
  covers page_size nMaps F /\ iNoOfMappingNeeded thePlan = Z.of_nat nMaps /\ (0 < nMaps)%nat.
Proof.
  destruct (quot_up_spec (Z.of_nat (length F)) (Z.of_nat page_size)) as [? ?];
    [lia|unfold page_size; lia|].
  unfold covers, nMaps. simpl. set (T := quot_up _ _) in *. unfold page_size in *. nia.
Qed.

(** A map that exists has packets, and the first and last are known. *)
Lemma maps_pkts k : (k < nMaps)%nat -> (k * q < nPkts)%nat.
Proof.
  intros Hk. destruct nPkts_spec as ([? ?] & _ & ?), nMaps_spec as ([? ?] & _ & ?).
  unfold page_size in *. apply (Nat.mul_lt_mono_pos_r m); [lia|].
  assert (k * (q * m) <= (nMaps - 1) * (q * m))%nat by (apply Nat.mul_le_mono_r; lia). lia.
Qed.

Lemma pkts_maps : (nPkts <= nMaps * q)%nat.
Proof.
  destruct nPkts_spec as ([? ?] & _ & ?), nMaps_spec as ([? ?] & _ & ?).
  unfold page_size in *. enough (nPkts - 1 < nMaps * q)%nat by lia.
  apply (Nat.mul_lt_mono_pos_r m); [lia|]. rewrite <- Nat.mul_assoc. lia.
Qed.

Lemma cnt_last : ((nMaps - 1) * q + cnt (nMaps - 1) = nPkts)%nat /\ (0 < cnt (nMaps - 1))%nat.
Proof.
  pose proof pkts_maps. pose proof nMaps_spec as (_ & _ & ?).
  pose proof (maps_pkts (nMaps - 1) ltac:(lia)).
  assert (nMaps * q = (nMaps - 1) * q + q)%nat by (destruct nMaps; lia). unfold cnt. lia.
Qed.

Lemma cnt_full k : (k + 1 < nMaps)%nat -> cnt k = q /\ (k * q + q < nPkts)%nat.
Proof. intros Hk. pose proof (maps_pkts (k + 1) Hk). unfold cnt. lia. Qed.

(** More than one page: the packets of a full map, and of the last one if it is
    not full; otherwise all in one map. *)
Lemma plan_one : nMaps = 1%nat ->
  planPktsPerMMap thePlan = Z.of_nat (cnt 0) /\ iExtraPktsPerMap thePlan = 0.
Proof.
  intros H1. pose proof cnt_last as [Hl _]. destruct nPkts_spec as (_ & HT & _).
  destruct nMaps_spec as ([_ Hle] & _ & _). rewrite H1 in Hle, Hl. simpl. unfold page_size in *.
  rewrite (proj2 (Z.leb_le _ _)) by lia. split; [|done].
  change (quot_up _ _) with (iTotNoOfPkts thePlan). rewrite HT. f_equal. simpl in Hl. lia.
Qed.

(** The same bounds on integers. *)
Lemma pkts_Z :
  (Z.of_nat nPkts - 1) * Z.of_nat m < Z.of_nat (length F) <= Z.of_nat nPkts * Z.of_nat m /\
  (Z.of_nat nMaps - 1) * (Z.of_nat q * Z.of_nat m) < Z.of_nat (length F)
    <= Z.of_nat nMaps * (Z.of_nat q * Z.of_nat m).
Proof.
  destruct nPkts_spec as ([H1 H2] & _ & ?), nMaps_spec as ([H3 H4] & _ & ?).
  unfold page_size in *.
  rewrite Nat2Z.inj_lt, Nat2Z.inj_mul, Nat2Z.inj_sub in H1 by lia.
  rewrite Nat2Z.inj_le, Nat2Z.inj_mul in H2.
  rewrite Nat2Z.inj_lt, !Nat2Z.inj_mul, Nat2Z.inj_sub in H3 by lia.
  rewrite Nat2Z.inj_le, !Nat2Z.inj_mul in H4. lia.
Qed.

Lemma extra_size :
  let D := Z.of_nat (length F) - (Z.of_nat nMaps - 1) * (Z.of_nat q * Z.of_nat m) in
  I32 (Z.rem (Z.of_nat (length F)) (Z.of_nat page_size)) = D /\ D < Z.of_nat page_size \/
  I32 (Z.rem (Z.of_nat (length F)) (Z.of_nat page_size)) = 0 /\ D = Z.of_nat page_size.
Proof.
  pose proof pkts_Z as [_ HK]. unfold page_size. rewrite Nat2Z.inj_mul.
  rewrite Nat2Z.inj_mul in Hpage. set (P := Z.of_nat q * Z.of_nat m) in *.
  set (L := Z.of_nat (length F)) in *. assert (0 < P) by (unfold P; nia). set (D := L - (Z.of_nat nMaps - 1) * P).
  rewrite Z.rem_mod_nonneg by lia. destruct (decide (D = P)) as [HD|HD].
  - right. split; [|done]. assert (L = Z.of_nat nMaps * P) as -> by (unfold D in HD; lia).
    by rewrite Z_mod_mult.
  - left. rewrite <- (Z.mod_unique_pos L P (Z.of_nat nMaps - 1) D) by (unfold D in *; lia).
    rewrite I32_id by (unfold D in *; lia). unfold D in *. lia.
Qed.

Lemma plan_many : (1 < nMaps)%nat ->
  planPktsPerMMap thePlan = Z.of_nat q /\
  (iExtraPktsPerMap thePlan = 0 /\ cnt (nMaps - 1) = q \/
   iExtraPktsPerMap thePlan <> 0 /\ iExtraPktsPerMap thePlan = Z.of_nat (cnt (nMaps - 1))).
Proof.
  intros H1. pose proof cnt_last as [Hl Hl0]. pose proof pkts_Z as [HT HK].
  assert (HlZ : (Z.of_nat nMaps - 1) * Z.of_nat q + Z.of_nat (cnt (nMaps - 1)) = Z.of_nat nPkts).
  { rewrite <- Hl, Nat2Z.inj_add, Nat2Z.inj_mul, Nat2Z.inj_sub by lia. lia. }
  assert (Hb : (page_size < length F)%nat).
  { destruct nMaps_spec as ([? _] & _ & _). unfold page_size in *. nia. }
  simpl. rewrite (proj2 (Z.leb_gt _ _)) by lia.
  destruct (quot_up_spec (Z.of_nat page_size) (Z.of_nat m)) as [_ Hqm];
    [(unfold page_size; lia)..|]. split.
  { apply (between _ _ (Z.of_nat m) (Z.of_nat page_size)); [lia|done|].
    unfold page_size. rewrite Nat2Z.inj_mul. lia. }
  pose proof extra_size as Hx. cbv zeta in Hx.
  destruct Hx as [[-> HD]|[-> HD]].
  - right. set (D := Z.of_nat (length F) - (Z.of_nat nMaps - 1) * (Z.of_nat q * Z.of_nat m)) in *.
    destruct (quot_up_spec D (Z.of_nat m)) as [_ Hc]; [(unfold D, page_size in *; lia)..|].
    assert (quot_up D (Z.of_nat m) = Z.of_nat (cnt (nMaps - 1))) as ->; [|lia].
    apply (between _ _ (Z.of_nat m) D); [lia|done|]. unfold D. lia.
  - left. split; [done|].
    enough (Z.of_nat (cnt (nMaps - 1)) = Z.of_nat q) by lia.
    apply (between _ _ (Z.of_nat m) (Z.of_nat page_size)); [lia| |];
      unfold page_size in *; rewrite Nat2Z.inj_mul in *; lia.
Qed.

(** ** The length of a packet *)
Definition last_len : nat := length F - (nPkts - 1) * m.

Lemma last_len_Z : Z.of_nat last_len = Z.of_nat (length F) - (Z.of_nat nPkts - 1) * Z.of_nat m /\
  (0 < last_len <= m)%nat.
Proof.
  destruct nPkts_spec as ([H1 H2] & _ & ?). unfold last_len.
  rewrite Nat2Z.inj_sub, Nat2Z.inj_mul, Nat2Z.inj_sub by lia. split; [lia|].
  assert (nPkts * m = (nPkts - 1) * m + m)%nat by (destruct nPkts; lia). lia.
Qed.

Lemma last_size : iLastPktSize thePlan = if bool_decide (last_len = m) then 0 else Z.of_nat last_len.
Proof.
  destruct last_len_Z as [Hd Hr]. pose proof extra_size as Hx. simpl.
  pose proof pkts_Z as [HT HK].
  assert (Hm2 : 0 < Z.of_nat m) by lia. set (M := Z.of_nat m) in *.
  destruct Hx as [[-> HD]|[-> HD]].
  - set (D := Z.of_nat (length F) - (Z.of_nat nMaps - 1) * (Z.of_nat q * M)) in *.
    rewrite Z.rem_mod_nonneg by (unfold D; lia).
    assert (HDm : D = M * (Z.of_nat nPkts - 1 - (Z.of_nat nMaps - 1) * Z.of_nat q) + Z.of_nat last_len)
      by (unfold D; lia).
    case_bool_decide as He.
    + rewrite HDm, He. symmetry. apply (Z.mod_unique_pos _ _
        (Z.of_nat nPkts - (Z.of_nat nMaps - 1) * Z.of_nat q)); unfold M; lia.
    + symmetry. eapply Z.mod_unique_pos; [|exact HDm]. unfold M. lia.
  - unfold page_size in HD. rewrite Nat2Z.inj_mul in HD. rewrite bool_decide_eq_true_2; [done|].
    apply Nat2Z.inj. fold M in HD |- *. clearbody M.
    assert (Z.of_nat (length F) = Z.of_nat nMaps * Z.of_nat q * M) as HL by lia.
    assert (Z.of_nat nPkts = Z.of_nat nMaps * Z.of_nat q) as HTq; [|rewrite Hd, HL, HTq; lia].
    apply (between _ _ M (Z.of_nat (length F))); [done|done|]. rewrite HL. lia.
Qed.

Lemma chunk_len j : (j < nPkts)%nat ->
  length (chunk m F j) = if bool_decide (j + 1 = nPkts)%nat then last_len else m.
Proof.
  intros Hj. unfold chunk, last_len. rewrite length_take, length_drop.
  destruct nPkts_spec as ([H1 H2] & _ & ?). case_bool_decide as He.
  - replace (nPkts - 1)%nat with j in * by lia.
    assert (nPkts * m = j * m + m)%nat by (rewrite <- He; lia). lia.
  - assert ((j + 1) * m <= (nPkts - 1) * m)%nat by (apply Nat.mul_le_mono_r; lia). lia.
Qed.

(** What [send_packets] copies for packet [i] of map [k]. *)
Definition packet_len (k i : nat) : Z :=
  if (Z.of_nat (k * q + i) + 1 =? iTotNoOfPkts thePlan) && negb (iLastPktSize thePlan =? 0)
  then iLastPktSize thePlan else Z.of_nat m.

Lemma packet_len_chunk k i : (k * q + i < nPkts)%nat ->
  packet_len k i = Z.of_nat (length (chunk m F (k * q + i))).
Proof.
  intros Hj. destruct nPkts_spec as (_ & HT & _), last_len_Z as [_ Hr]. unfold packet_len.
  rewrite chunk_len, HT, last_size by done.
  destruct (Z.eqb_spec (Z.of_nat (k * q + i) + 1) (Z.of_nat nPkts)) as [He|He].
  - rewrite (bool_decide_eq_true_2 (k * q + i + 1 = nPkts)%nat) by lia. case_bool_decide as Hm3; [by rewrite Hm3|].
    rewrite (proj2 (Z.eqb_neq _ _)) by lia. done.
  - by rewrite (bool_decide_eq_false_2 (k * q + i + 1 = nPkts)%nat) by lia.
Qed.

Lemma page_chunk k i : (i < q)%nat -> (k * q + i < nPkts)%nat ->
  take (Z.to_nat (packet_len k i))
       (drop (i * m) (page_of (Z.of_nat page_size) F (Z.of_nat k))) = chunk m F (k * q + i) /\
  Z.of_nat (i * m) + packet_len k i <= Z.of_nat page_size.
Proof.
  intros Hi Hj. rewrite packet_len_chunk, Nat2Z.id by done.
  pose proof (chunk_length m Hm F (k * q + i)) as Hc.
  assert (Hle : (i * m + m <= page_size)%nat).
  { unfold page_size. replace (i * m + m)%nat with ((i + 1) * m)%nat by lia.
    apply Nat.mul_le_mono_r. lia. }
  split; [|lia]. unfold page_of, cleared. rewrite <- Nat2Z.inj_mul, !Nat2Z.id.
  set (n := length (chunk m F (k * q + i))) in *.
  assert (Hn : (i * m + n <= length (drop (k * page_size) F))%nat).
  { unfold n, chunk. rewrite length_take, !length_drop. unfold page_size.
    destruct nPkts_spec as ([H1 H2] & _ & ?).
    assert ((k * q + i) * m = k * (q * m) + i * m)%nat by lia.
    assert ((k * q + i) * m <= (nPkts - 1) * m)%nat by (apply Nat.mul_le_mono_r; lia). lia. }
  rewrite take_drop_commute, take_take, Nat.min_l by lia.
  rewrite take_app_le by done. rewrite <- take_drop_commute, drop_drop.
  replace (k * page_size + i * m)%nat with ((k * q + i) * m)%nat by (unfold page_size; lia).
  unfold n, chunk. rewrite length_take, <- take_take. by rewrite (take_ge (drop _ F)) by done.
Qed.
End Plan.
