(* ===== verification/FileSendProofs.v ===== *)
(** * What the sender puts on the wire

    [packet k c i] is the datagram of packet [i] of map [k] in round [c]; a round
    sends the packets whose status is ['0'], and an acknowledged map is followed
    by the next. *)

From S2P Require Import Prelude CTypes FileNet FileSend FilePlan.
#[local] Open Scope Z_scope.

Definition sent_more (w : net) (l : list (list Z)) : net :=
  MkNet (inbox w) (sent w ++ l) (attempts w + length l).

Lemma sent_more_nil w : sent_more w [] = w.
Proof. destruct w. unfold sent_more. simpl. by rewrite app_nil_r, Nat.add_0_r. Qed.

Lemma sent_more_app w l1 l2 : sent_more (sent_more w l1) l2 = sent_more w (l1 ++ l2).
Proof. unfold sent_more. simpl. by rewrite <- app_assoc, length_app, Nat.add_assoc. Qed.

Lemma htonl0 b : htonl b 0 = 0.
Proof. by destruct b. Qed.

(** The status with these packets received. *)
Definition mark (l : list nat) (status : list Z) : list Z :=
  foldl (fun s i => <[i := received]> s) status l.

Lemma mark_app l1 l2 status : mark (l1 ++ l2) status = mark l2 (mark l1 status).
Proof. apply foldl_app. Qed.

Lemma length_mark l status : length (mark l status) = length status.
Proof.
  revert status. induction l as [|i l IH]; intros status; simpl; [done|].
  by rewrite IH, length_insert.
Qed.

(** The receiver's view of the packets of a map, the sender's of the rest. *)
Lemma mark_splice n l status :
  Forall (fun i => (i < n)%nat) l -> take n (mark l status) ++ drop n status = mark l status.
Proof.
  intros Hl. rewrite <- (take_drop n (mark l status)) at 2. f_equal.
  revert status. induction Hl as [|i l Hi Hl IH]; intros status; simpl; [done|].
  rewrite <- IH. by rewrite drop_insert_lt by lia.
Qed.

(** A round: [touts] is how often the sender's wait ends before the answer is
    there, whereupon it sends the packets of the round again; [got] are the
    packets that reach the receiver, by map, correlator and number. *)
Abbreviation tagged := (nat * Z * nat)%type.
Record round := MkRound { touts : nat; got : list tagged }.

Section SendProofs.
Variables (q m : nat) (F : list Z).
Hypotheses (Hq : (0 < q)%nat) (Hm : (0 < m)%nat) (HF : (0 < length F)%nat).
Hypothesis Hsize : Z.of_nat (length F) < 2147483647.
Hypothesis Hpage : Z.of_nat (q * m) < 2147483647.
Hypothesis Hmax : Z.of_nat m <= MAX_DATA_SIZE.
Variables (be : bool) (ok mem : nat -> bool) (mmap_ok : Z -> bool).
Hypotheses (Hok : forall k, ok k = true) (Hmem : forall k, mem k = true).
Hypothesis Hmmap : forall k, mmap_ok k = true.
#[local] Set Default Proof Using "All".

Abbreviation T := (nPkts q m F).
Abbreviation K := (nMaps q m F).
Abbreviation cnt := (cnt q m F).
Abbreviation pl := (thePlan q m F).

Definition packet (k : nat) (c : Z) (i : nat) : list Z :=
  wire (MkHdr DATA 0 (Z.of_nat (k * q + i) + 1) (Z.of_nat k + 1) c)
       (Z.of_nat (length (chunk m F (k * q + i)))) (chunk m F (k * q + i)).

(** The packets of map [k] a round with this status sends. *)
Definition round_packets (k : nat) (c : Z) (status : list Z) (a n : nat) : list (list Z) :=
  packet k c <$> filter (fun i => status !! i = Some missing) (seq a n).

Lemma sendto_more d w : sendto ok d w = (NASC_SUCCESS, sent_more w [d]).
Proof. rewrite sendto_all by done. unfold sent_more. simpl. by rewrite Nat.add_1_r. Qed.

Lemma send_packets_spec r k c status i w :
  (i + r <= cnt k)%nat -> (i + r <= length status)%nat ->
  send_packets be ok r (page_of (Z.of_nat (page_size q m)) F (Z.of_nat k)) status
    (MkSeq (Z.of_nat k + 1) c) (Z.of_nat m) (iLastPktSize pl) (iTotNoOfPkts pl)
    (Z.of_nat i + 1) (Z.of_nat (i * m)) (Z.of_nat (k * q + i)) w =
  Ret (NASC_SUCCESS, sent_more w (round_packets k c status i r)).
Proof.
  revert i w. induction r as [|r IH]; intros i w Hc Hs.
  { cbn [send_packets]. unfold round_packets. simpl. by rewrite sent_more_nil. }
  assert (Hi : (i < q)%nat /\ (k * q + i < T)%nat) by (unfold FilePlan.cnt in Hc; lia).
  destruct Hi as [Hi Hj]. cbn [send_packets].
  replace (Z.to_nat (Z.of_nat i + 1 - 1)) with i by lia.
  destruct (lookup_lt_is_Some_2 status i) as [x Hx]; [lia|]. rewrite Hx.
  fold (packet_len q m F k i).
  destruct (page_chunk q m F Hq Hm HF Hsize Hpage k i Hi Hj) as [Hd Hfit].
  pose proof (packet_len_chunk q m F Hq Hm HF Hsize Hpage k i Hj) as Hlen.
  pose proof (chunk_length m Hm F (k * q + i)) as Hcl.
  assert (Hnext : forall w', send_packets be ok r (page_of (Z.of_nat (page_size q m)) F (Z.of_nat k))
      status (MkSeq (Z.of_nat k + 1) c) (Z.of_nat m) (iLastPktSize pl) (iTotNoOfPkts pl)
      (Z.of_nat i + 1 + 1) (Z.of_nat (i * m) + packet_len q m F k i) (Z.of_nat (k * q + i) + 1) w' =
      Ret (NASC_SUCCESS, sent_more w' (round_packets k c status (S i) r))).
  { intros w'. destruct r as [|r].
    { cbn [send_packets]. unfold round_packets. simpl. by rewrite sent_more_nil. }
    assert (packet_len q m F k i = Z.of_nat m) as ->.
    { rewrite Hlen, (chunk_len q m F Hq Hm HF Hsize Hpage) by done. rewrite bool_decide_eq_false_2; [done|].
      unfold FilePlan.cnt in Hc. lia. }
    rewrite <- IH by lia. f_equal; lia. }
  unfold round_packets in *. cbn [seq]. rewrite filter_cons.
  destruct (Z.eqb_spec x missing) as [->|Hxm].
  - rewrite decide_True by done. rewrite (proj2 (Z.leb_le 0 _)) by lia.
    rewrite (proj2 (Z.leb_le _ (Z.of_nat m + 1))) by lia.
    replace (Z.of_nat (length (page_of _ _ _))) with (Z.of_nat (page_size q m))
      by (unfold page_of; rewrite length_cleared; lia).
    rewrite (proj2 (Z.leb_le _ _)) by lia. cbn [andb]. rewrite Nat2Z.id, Hd.
    change (data_hdr be (MkSeq (Z.of_nat k + 1) c) (Z.of_nat (k * q + i) + 1)) with
      (MkHdr (htonl be DATA) 0 (htonl be (Z.of_nat (k * q + i) + 1))
         (htonl be (Z.of_nat k + 1)) (htonl be c)).
    replace (MkHdr _ 0 _ _ _) with
      (net_hdr be (MkHdr DATA 0 (Z.of_nat (k * q + i) + 1) (Z.of_nat k + 1) c))
      by (unfold net_hdr; simpl; by rewrite htonl0).
    rewrite SendPkt_wire by lia. rewrite outcome_bind_ret, sendto_more.
    rewrite bool_decide_eq_true_2 by done. cbn [negb]. rewrite Hnext, sent_more_app.
    rewrite Hlen, Nat2Z.id, (take_ge (chunk _ _ _)) by done. done.
  - rewrite decide_False by congruence. apply Hnext.
Qed.

Lemma SendActualData_spec k c status w :
  (cnt k <= length status)%nat ->
  FileTrans_SendActualData be ok mem (page_of (Z.of_nat (page_size q m)) F (Z.of_nat k)) status
    (MkSeq (Z.of_nat k + 1) c) (Z.of_nat m) (Z.of_nat (cnt k)) (iLastPktSize pl) (iTotNoOfPkts pl)
    (Z.of_nat (k * q)) w =
  Ret (NASC_SUCCESS, sent_more w (round_packets k c status 0 (cnt k))).
Proof.
  intros Hs. unfold FileTrans_SendActualData. rewrite Hmem, (proj2 (Z.ltb_ge _ _)) by lia.
  cbn [orb negb]. rewrite Nat2Z.id.
  pose proof (send_packets_spec (cnt k) k c status 0 w ltac:(lia) ltac:(lia)) as H.
  by rewrite Nat.add_0_r in H.
Qed.

(** ** The rounds of a map

    A round ends with an answer of the receiver, the last one when it completes
    the map.  Of the packets that arrive, those of the round are [fresh]; the
    others are of an earlier round or map. *)
Definition tag (x : tagged) : list Z := packet x.1.1 x.1.2 x.2.
Definition fresh (k : nat) (c : Z) (g : list tagged) : list nat :=
  snd <$> filter (fun x : tagged => x.1 = (k, c)) g.

Definition ack_msg (k : nat) (c : Z) : list Z := wire (MkHdr DATA_ACK 0 0 (Z.of_nat k + 1) c) 0 [].
Definition nack_msg (k : nat) (c : Z) (status : list Z) : list Z :=
  wire (MkHdr DATA_NEG_ACK 0 0 (Z.of_nat k + 1) c) (Z.of_nat (cnt k)) (take (cnt k) status).

(** The receiver's answers, what the sender's waits give, and what it sends. *)
Fixpoint replies (k : nat) (c : Z) (status : list Z) (rounds : list round) : list (list Z) :=
  match rounds with
  | [] => []
  | r :: rounds =>
      let status := mark (fresh k c (got r)) status in
      match rounds with
      | [] => [ack_msg k c]
      | _ => nack_msg k c status :: replies k (c + 1) status rounds
      end
  end.

Fixpoint waits (b : Z) (k : nat) (c : Z) (status : list Z) (rounds : list round) : list net_event :=
  match rounds with
  | [] => []
  | r :: rounds =>
      let status := mark (fresh k c (got r)) status in
      replicate (touts r) TimedOut ++
      match rounds with
      | [] => [Datagram b (ack_msg k c)]
      | _ => Datagram b (nack_msg k c status) :: waits b k (c + 1) status rounds
      end
  end.

Fixpoint sends (k : nat) (c : Z) (status : list Z) (rounds : list round) : list (list Z) :=
  match rounds with
  | [] => []
  | r :: rounds =>
      mjoin (replicate (S (touts r)) (round_packets k c status 0 (cnt k))) ++
      sends k (c + 1) (mark (fresh k c (got r)) status) rounds
  end.

(** How often the sender repeats a map: for its own time-outs and for the
    receiver's requests; and the rounds of its loop. *)
Definition late (rounds : list round) : nat := sum_list (touts <$> rounds).
Definition repeats (rounds : list round) : nat := late rounds + (length rounds - 1).

(** The numbers of fresh packets are those of the map. *)
Definition fresh_ok (k : nat) (rounds : list round) : Prop :=
  forall c r, r ∈ rounds -> Forall (fun i => (i < cnt k)%nat) (fresh k c (got r)).

Definition nPlan : nat := Z.to_nat (planPktsPerMMap pl).

Lemma nPlan_spec : planPktsPerMMap pl = Z.of_nat nPlan /\
  (forall k, (k < K)%nat -> (cnt k <= nPlan)%nat) /\ ((1 < K)%nat -> nPlan = q) /\
  (K = 1%nat -> nPlan = cnt 0).
Proof.
  pose proof (nMaps_spec q m F Hq Hm HF Hsize Hpage) as (_ & _ & HK). unfold nPlan.
  destruct (decide (K = 1%nat)) as [H1|H1].
  - destruct (plan_one q m F Hq Hm HF Hsize Hpage H1) as [-> _]. rewrite Nat2Z.id.
    split_and!; [done| |lia|done]. intros k Hk. by replace k with 0%nat by lia.
  - destruct (plan_many q m F Hq Hm HF Hsize Hpage) as [-> _]; [lia|]. rewrite Nat2Z.id.
    split_and!; [done| |done|lia]. intros k _. unfold FilePlan.cnt. lia.
Qed.

Definition all_missing : list Z := replicate (nPlan + 1) missing.
Definition state_at (k : nat) : send_state :=
  MkSend 0 (Z.of_nat k) (Z.of_nat (k * q)) (Z.of_nat (cnt k)) all_missing
         (MkSeq (Z.of_nat k + 1) 1).

Lemma start_state_at : start_send pl = state_at 0.
Proof.
  destruct nPlan_spec as (Hn & _ & H1 & H2).
  pose proof (nMaps_spec q m F Hq Hm HF Hsize Hpage) as (_ & _ & HK).
  unfold start_send, state_at, all_missing. rewrite Hn.
  assert (nPlan = cnt 0) as Hc.
  { destruct (decide (K = 1%nat)) as [Hk|Hk]; [by apply H2|].
    rewrite H1 by lia. symmetry. by apply cnt_full; try done; lia. }
  rewrite Hc. f_equal. f_equal. lia.
Qed.

Lemma next_state_at k status :
  (k + 1 < K)%nat -> length status = (nPlan + 1)%nat ->
  forall r c, next_map pl (MkSend r (Z.of_nat k) (Z.of_nat (k * q)) (Z.of_nat (cnt k)) status
                   (MkSeq (Z.of_nat k + 1) c)) status = state_at (k + 1).
Proof.
  intros Hk Hs r c. destruct nPlan_spec as (_ & _ & H1 & _).
  destruct (cnt_full q m F Hq Hm HF Hsize Hpage k Hk) as [Hck _].
  pose proof (nMaps_spec q m F Hq Hm HF Hsize Hpage) as (_ & HK & _).
  destruct (plan_many q m F Hq Hm HF Hsize Hpage) as [_ He]; [lia|].
  unfold next_map, state_at. cbn [curPktsPerMMap iMmapCntr iLastPktNo sendSeq seqMmapNo].
  rewrite HK, Hck. f_equal; try lia.
  - destruct (decide (k + 2 = K)%nat) as [Hk2|Hk2].
    + rewrite (proj2 (Z.eqb_eq _ _)) by lia. cbn [andb].
      replace (k + 1)%nat with (K - 1)%nat by lia.
      destruct He as [[-> ->]|[Hne He]]; [done|].
      by rewrite (proj2 (Z.eqb_neq _ _) Hne).
    + rewrite (proj2 (Z.eqb_neq _ _)) by lia. cbn [andb]. f_equal. symmetry.
      apply cnt_full; try done. lia.
  - unfold reset_status, all_missing. rewrite H1 in Hs |- * by lia.
    rewrite drop_ge by lia. rewrite app_nil_r. f_equal. lia.
  - f_equal. lia.
Qed.

Lemma small_hdr ty k c : 0 <= ty < 7 -> (k < K)%nat -> is_I32 c ->
  hdr_ok (MkHdr ty 0 0 (Z.of_nat k + 1) c).
Proof.
  intros Ht Hk Hc. unfold hdr_ok, is_I32 in *. simpl.
  pose proof (maps_pkts q m F Hq Hm HF Hsize Hpage k Hk) as Hkp.
  destruct (nPkts_spec q m F Hq Hm HF Hsize Hpage) as ([H1 _] & _ & _). nia.
Qed.

(** Waits that end in a time-out: the round is sent again. *)
Lemma send_late n k fuel c retries status rest w :
  (k < K)%nat -> 0 <= retries -> retries + Z.of_nat n <= 6 -> length status = (nPlan + 1)%nat ->
  inbox w = replicate n TimedOut ++ rest ->
  send_maps be ok mem mmap_ok (n + fuel) F (Z.of_nat (page_size q m)) (Z.of_nat m) pl
    (MkSend retries (Z.of_nat k) (Z.of_nat (k * q)) (Z.of_nat (cnt k)) status
            (MkSeq (Z.of_nat k + 1) c)) w =
  send_maps be ok mem mmap_ok fuel F (Z.of_nat (page_size q m)) (Z.of_nat m) pl
    (MkSend (retries + Z.of_nat n) (Z.of_nat k) (Z.of_nat (k * q)) (Z.of_nat (cnt k)) status
            (MkSeq (Z.of_nat k + 1) c))
    (sent_more (with_inbox w rest) (mjoin (replicate n (round_packets k c status 0 (cnt k))))).
Proof.
  intros Hk. revert retries w. induction n as [|n IH]; intros retries w Hr0 Hr Hs Hw.
  { cbn [replicate mjoin list_join app Nat.add] in *. rewrite sent_more_nil, Z.add_0_r.
    destruct w as [i1 s1 t1]. cbn [inbox] in Hw. by subst i1. }
  pose proof (nMaps_spec q m F Hq Hm HF Hsize Hpage) as (_ & HK & _).
  destruct nPlan_spec as (_ & Hnp & _). specialize (Hnp k Hk).
  cbn [Nat.add send_maps iMmapCntr iNoOfRetries sendStatus sendSeq curPktsPerMMap iLastPktNo].
  rewrite HK, (proj2 (Z.ltb_lt _ _)) by lia.
  rewrite (proj2 (Z.ltb_ge _ _)) by (unfold MAX_NO_OF_RETRIES; lia). cbn [negb].
  rewrite SendActualData_spec by lia. rewrite outcome_bind_ret.
  rewrite bool_decide_eq_true_2 by done. cbn [negb seqMmapNo seqCorrelater].
  unfold FileTrans_RecvAck. cbn [sent_more inbox]. rewrite Hw. cbn [replicate app recv_ack].
  rewrite !outcome_bind_ret. cbn [ack_status ack_data default]. unfold id, with_status.
  cbn [iMmapCntr iLastPktNo curPktsPerMMap iNoOfRetries sendSeq].
  rewrite (IH (retries + 1)); [|lia|lia|done|reflexivity].
  replace (retries + 1 + Z.of_nat n) with (retries + Z.of_nat (S n)) by lia. f_equal.
  cbn [mjoin list_join]. rewrite <- sent_more_app. done.
Qed.

(** The answers to a round: the map has arrived, or what is missing of it. *)
Lemma ack_arrives k c status a rest w : (k < K)%nat -> is_I32 c ->
  inbox w = Datagram a (ack_msg k c) :: rest ->
  FileTrans_RecvAck be zero_hdr (Z.of_nat k + 1) c (Some status) w =
  Ret (MkAck NASC_SUCCESS (MkHdr DATA_ACK 0 0 (Z.of_nat k + 1) c) (Some status) (Some a), with_inbox w rest).
Proof.
  intros Hk Hc Hw.
  exact (RecvAck_hit be zero_hdr (MkHdr DATA_ACK 0 0 (Z.of_nat k + 1) c) 0 [] status a rest w
    (small_hdr DATA_ACK k c ltac:(done) Hk Hc) ltac:(done) ltac:(lia) eq_refl Hw).
Qed.

Lemma nack_arrives k c status st a rest w : (k < K)%nat -> is_I32 c -> (cnt k <= 1100)%nat ->
  length status = (nPlan + 1)%nat -> length st = (nPlan + 1)%nat -> (cnt k <= nPlan)%nat ->
  inbox w = Datagram a (nack_msg k c st) :: rest ->
  FileTrans_RecvAck be zero_hdr (Z.of_nat k + 1) c (Some status) w =
  Ret (MkAck NASC_SUCCESS (MkHdr DATA_NEG_ACK 0 0 (Z.of_nat k + 1) c)
         (Some (take (cnt k) st ++ drop (cnt k) status)) (Some a), with_inbox w rest).
Proof.
  intros Hk Hc Hcnt Hs Hst Hn Hw.
  pose proof (RecvAck_hit be zero_hdr (MkHdr DATA_NEG_ACK 0 0 (Z.of_nat k + 1) c)
    (Z.of_nat (cnt k)) (take (cnt k) st) status a rest w
    (small_hdr DATA_NEG_ACK k c ltac:(done) Hk Hc)) as Hack.
  rewrite Nat2Z.id in Hack. apply Hack; [unfold MAX_DATA_SIZE; lia|lia|rewrite length_take; lia|exact Hw].
Qed.

(** A map, round by round. *)
Lemma send_rounds rounds k fuel c retries status a rest w :
  (k < K)%nat -> rounds <> [] -> fresh_ok k rounds ->
  0 <= retries -> retries + Z.of_nat (repeats rounds) <= 5 -> 0 <= c <= 1 + retries ->
  length status = (nPlan + 1)%nat -> (cnt k <= 1100)%nat ->
  inbox w = waits a k c status rounds ++ rest ->
  send_maps be ok mem mmap_ok (late rounds + length rounds + fuel) F (Z.of_nat (page_size q m))
    (Z.of_nat m) pl
    (MkSend retries (Z.of_nat k) (Z.of_nat (k * q)) (Z.of_nat (cnt k)) status
            (MkSeq (Z.of_nat k + 1) c)) w =
  let w' := sent_more (with_inbox w rest) (sends k c status rounds) in
  if bool_decide (k + 1 = K)%nat then Ret (NASC_SUCCESS, w')
  else send_maps be ok mem mmap_ok fuel F (Z.of_nat (page_size q m)) (Z.of_nat m) pl
         (state_at (k + 1)) w'.
Proof.
  revert c retries status w. induction rounds as [|[n g] rounds IH]; [done|].
  intros c retries status w Hk _ Hrs Hr0 Hr Hc Hs Hcnt Hw.
  pose proof (Hrs c _ ltac:(by left)) as Hl. cbn [got] in Hl. set (l := fresh k c g) in *.
  assert (Hlate : late (MkRound n g :: rounds) = (n + late rounds)%nat) by done.
  unfold repeats in *. rewrite Hlate in *. cbn [length] in *.
  cbn [waits sends touts got] in *. fold l in Hw |- *. rewrite <- app_assoc in Hw.
  pose proof (nMaps_spec q m F Hq Hm HF Hsize Hpage) as (_ & HK & _).
  destruct nPlan_spec as (_ & Hnp & _). specialize (Hnp k Hk).
  replace (n + late rounds + S (length rounds) + fuel)%nat with
    (n + S (late rounds + length rounds + fuel))%nat by lia.
  rewrite (send_late n k _ c retries status _ w Hk Hr0 ltac:(lia) Hs Hw).
  cbn [send_maps iMmapCntr iNoOfRetries sendStatus sendSeq curPktsPerMMap iLastPktNo].
  rewrite HK, (proj2 (Z.ltb_lt _ _)) by lia.
  rewrite (proj2 (Z.ltb_ge _ _)) by (unfold MAX_NO_OF_RETRIES; lia). cbn [negb].
  rewrite SendActualData_spec by lia. rewrite outcome_bind_ret, sent_more_app.
  rewrite bool_decide_eq_true_2 by done. cbn [negb seqMmapNo seqCorrelater].
  set (pk := round_packets k c status 0 (cnt k)).
  assert (Hpk : mjoin (replicate n pk) ++ pk = mjoin (replicate (S n) pk)).
  { rewrite replicate_S_end, join_app. cbn [mjoin list_join]. by rewrite app_nil_r. }
  rewrite Hpk. assert (Hc32 : is_I32 c) by (unfold is_I32; lia).
  destruct rounds as [|r2 rounds].
  - cbn [app] in Hw |- *.
    rewrite (ack_arrives k c status a rest) by done.
    rewrite outcome_bind_ret. cbn [ack_status ack_header ack_data default ePktType].
    change (DATA_ACK =? DATA_ACK) with true.
    cbn [sends late sum_list_with]. rewrite app_nil_r. case_bool_decide as Hlast.
    + by rewrite (proj2 (Z.leb_le _ _)) by lia.
    + rewrite (proj2 (Z.leb_gt _ _)) by lia. rewrite Hmmap.
      rewrite (next_state_at k status); [done|lia|exact Hs].
  - set (rounds' := r2 :: rounds) in *. cbn [app].
    set (rest' := waits a k (c + 1) (mark l status) rounds' ++ rest) in *.
    rewrite (nack_arrives k c status (mark l status) a rest') by (done || lia || by rewrite length_mark).
    rewrite outcome_bind_ret. cbn [ack_status ack_header ack_data default ePktType].
    rewrite mark_splice by done.
    change (DATA_NEG_ACK =? DATA_ACK) with false. change (DATA_NEG_ACK =? DATA_NEG_ACK) with true.
    unfold with_status. cbn [iMmapCntr iLastPktNo curPktsPerMMap iNoOfRetries sendSeq seqMmapNo
      seqCorrelater]. cbv iota. unfold id.
    rewrite (IH (c + 1) (retries + Z.of_nat n + 1) (mark l status));
      [|first [done|by rewrite length_mark|cbn [length rounds'] in *; lia|idtac]..].
    + cbv zeta. by rewrite <- sent_more_app.
    + intros c' r Hin. apply Hrs. by right.
Qed.

(** All maps. *)
Lemma send_maps_spec (rs : nat -> list round) d k a rest w :
  (forall j, (j < K)%nat -> rs j <> [] /\ fresh_ok j (rs j) /\ (repeats (rs j) <= 5)%nat) ->
  (q <= 1100)%nat -> (k + d = K)%nat -> (0 < d)%nat ->
  inbox w = mjoin ((fun j => waits a j 1 all_missing (rs j)) <$> seq k d) ++ rest ->
  exists more, forall f, (more <= f)%nat ->
  send_maps be ok mem mmap_ok f F (Z.of_nat (page_size q m)) (Z.of_nat m) pl (state_at k) w =
  Ret (NASC_SUCCESS, sent_more (with_inbox w rest)
         (mjoin ((fun j => sends j 1 all_missing (rs j)) <$> seq k d))).
Proof.
  intros Hrs Hq2. revert k w. induction d as [|d IH]; intros k w Hk Hd Hw; [lia|].
  destruct (Hrs k) as (Hne & Hall & Hlen); [lia|].
  cbn [seq fmap list_fmap mjoin list_join] in Hw |- *. rewrite <- app_assoc in Hw.
  set (rest1 := _ ++ rest) in Hw.
  set (w' := sent_more (with_inbox w rest1) (sends k 1 all_missing (rs k))).
  set (n := (late (rs k) + length (rs k))%nat).
  assert (Hone : forall f, send_maps be ok mem mmap_ok (n + f) F
      (Z.of_nat (page_size q m)) (Z.of_nat m) pl (state_at k) w =
      if bool_decide (k + 1 = K)%nat then Ret (NASC_SUCCESS, w')
      else send_maps be ok mem mmap_ok f F (Z.of_nat (page_size q m)) (Z.of_nat m) pl
             (state_at (k + 1)) w').
  { intros f. apply (send_rounds (rs k) k f 1 0 all_missing a); try done; try lia.
    - unfold all_missing. by rewrite length_replicate.
    - unfold FilePlan.cnt. lia. }
  destruct d as [|d].
  - exists n. intros f Hf. replace f with (n + (f - n))%nat by lia.
    rewrite Hone, bool_decide_eq_true_2 by lia. unfold w', rest1.
    cbn [seq fmap list_fmap mjoin list_join]. by rewrite app_nil_r.
  - destruct (IH (S k) w') as (more & Hmore); [lia|lia|done|].
    exists (n + more)%nat. intros f Hf.
    replace f with (n + (f - n))%nat by lia.
    rewrite Hone, bool_decide_eq_false_2 by lia. replace (k + 1)%nat with (S k) by lia.
    rewrite Hmore by lia. f_equal. f_equal. unfold w', sent_more, with_inbox. simpl.
    f_equal; [by rewrite <- app_assoc|]. rewrite !length_app. lia.
Qed.

Lemma SendData_spec (rs : nat -> list round) a rest w :
  (forall j, (j < K)%nat -> rs j <> [] /\ fresh_ok j (rs j) /\ (repeats (rs j) <= 5)%nat) ->
  (q <= 1100)%nat ->
  inbox w = mjoin ((fun j => waits a j 1 all_missing (rs j)) <$> seq 0 K) ++ rest ->
  exists more, forall f, (more <= f)%nat ->
  FileTransfer_SendData be ok mem true mmap_ok f F (Z.of_nat (page_size q m)) (Z.of_nat m) pl w =
  Ret (NASC_SUCCESS, sent_more (with_inbox w rest)
         (mjoin ((fun j => sends j 1 all_missing (rs j)) <$> seq 0 K))).
Proof.
  intros Hrs Hq2 Hw. destruct nPlan_spec as (Hn & _).
  pose proof (nMaps_spec q m F Hq Hm HF Hsize Hpage) as (_ & _ & HK).
  destruct (send_maps_spec rs K 0 a rest w) as (more & Hmore); try done.
  exists more. intros f Hf. unfold FileTransfer_SendData.
  rewrite Hmmap, Hn, (proj2 (Z.ltb_ge _ _)) by lia. cbn [negb orb].
  rewrite start_state_at. by apply Hmore.
Qed.
End SendProofs.
