(* ===== verification/FileRecvProofs.v ===== *)
(** * What the receiver makes of the packets

    The packets of a map fill the status and the scratch area at their numbers;
    as many packets as expected end the round, whichever they are. *)

From S2P Require Import Prelude CTypes FileNet FileSend FileRecv FilePlan FileSendProofs.
#[local] Open Scope Z_scope.

Lemma sent_more_inbox w l evs : with_inbox (sent_more w l) evs = sent_more (with_inbox w evs) l.
Proof. done. Qed.
Lemma inbox_inbox w l1 l2 : with_inbox (with_inbox w l1) l2 = with_inbox w l2.
Proof. done. Qed.

(** A write at the end of what is written so far. *)
Lemma write_next A old D :
  write_at (A ++ drop (length A) old) (length A) D = (A ++ D) ++ drop (length (A ++ D)) old.
Proof.
  unfold write_at. rewrite take_app_length, <- app_assoc. do 2 f_equal.
  by rewrite length_app, <- !drop_drop, drop_app_length.
Qed.

Section RecvProofs.
Variables (q m : nat) (F : list Z).
Hypotheses (Hq : (0 < q)%nat) (Hm : (0 < m)%nat) (HF : (0 < length F)%nat).
Hypothesis Hsize : Z.of_nat (length F) < 2147483647.
Hypothesis Hpage : Z.of_nat (q * m) < 2147483647.
Hypothesis Hmax : Z.of_nat m <= MAX_DATA_SIZE.
Variables (be : bool) (ok mem : nat -> bool).
Hypotheses (Hok : forall k, ok k = true) (Hmem : forall k, mem k = true).
#[local] Set Default Proof Using "All".

Abbreviation T := (nPkts q m F).
Abbreviation K := (nMaps q m F).
Abbreviation cnt := (cnt q m F).
Abbreviation pl := (thePlan q m F).
Abbreviation packet := (packet q m F).
Abbreviation nPlan := (nPlan q m F).

(** The data of packet [i] of map [k]. *)
Definition piece (k i : nat) : list Z := chunk m F (k * q + i).
Definition entry (k i : nat) : stRecvData :=
  MkRecv (Some (piece k i)) (Z.of_nat (length (piece k i))).
Definition put_all (k : nat) (l : list nat) (sc : scratch) : scratch :=
  foldl (fun sc i => put_packet sc i (piece k i)) sc l.

Lemma put_all_cons k i l sc : put_all k (i :: l) sc = put_all k l (put_packet sc i (piece k i)).
Proof. reflexivity. Qed.

Lemma put_all_app k l1 l2 sc : put_all k (l1 ++ l2) sc = put_all k l2 (put_all k l1 sc).
Proof. unfold put_all. by rewrite foldl_app. Qed.

Lemma put_all_status k l sc : piPktStatus (put_all k l sc) = mark l (piPktStatus sc).
Proof. revert sc. induction l as [|i l IH]; intros sc; [done|]. by rewrite put_all_cons, IH. Qed.

Lemma put_all_total k l sc :
  iToNoOfPktsRecvd (put_all k l sc) = iToNoOfPktsRecvd sc + Z.of_nat (length l).
Proof.
  revert sc. induction l as [|i l IH]; intros sc; [simpl; lia|]. rewrite put_all_cons, IH. cbn. lia.
Qed.

Lemma put_all_area k l sc i : (i < length (area sc))%nat ->
  area (put_all k l sc) !! i = if decide (i ∈ l) then Some (entry k i) else area sc !! i.
Proof.
  revert sc. induction l as [|j l IH]; intros sc Hi; rewrite ?put_all_cons.
  { rewrite decide_False by apply not_elem_of_nil. done. }
  rewrite IH by (cbn; by rewrite length_insert).
  cbn. case_decide as Hl; [by rewrite decide_True by by right|].
  destruct (decide (j = i)) as [->|Hne].
  - rewrite decide_True by by left. by apply list_lookup_insert_eq.
  - rewrite decide_False by (intros [->|?]%elem_of_cons; done). by apply list_lookup_insert_ne.
Qed.

Lemma put_all_length k l sc : length (area (put_all k l sc)) = length (area sc).
Proof.
  revert sc. induction l as [|i l IH]; intros sc; [done|]. rewrite put_all_cons, IH. cbn.
  by rewrite length_insert.
Qed.

Lemma packet_hdr_ok k c i : is_I32 c -> (i < cnt k)%nat -> (k < K)%nat ->
  hdr_ok (MkHdr DATA 0 (Z.of_nat (k * q + i) + 1) (Z.of_nat k + 1) c).
Proof.
  intros Hc Hi Hk. unfold hdr_ok, is_I32 in *. simpl. unfold FilePlan.cnt in Hi.
  destruct (nPkts_spec q m F Hq Hm HF Hsize Hpage) as ([H1 _] & _ & _).
  assert (T <= length F)%nat by nia. assert (k <= k * q)%nat by nia. unfold DATA. lia.
Qed.

(** Packets of the file. *)
Abbreviation tag := (tag q m F).
Definition tagged_ok (x : tagged) : Prop :=
  (x.1.1 < K)%nat /\ is_I32 x.1.2 /\ (x.2 < cnt x.1.1)%nat.

(** One packet: it counts if it is of this map and round, and leaves no trace
    otherwise. *)
Lemma recv_data_one k c n a x loop expected sc rest :
  tagged_ok x -> loop < expected ->
  (cnt k <= length (piPktStatus sc))%nat -> (cnt k <= length (area sc))%nat ->
  n * Z.of_nat k = Z.of_nat (k * q) ->
  recv_data be mem loop expected n (MkSeq (Z.of_nat k + 1) c) sc (Datagram a (tag x) :: rest) =
  if bool_decide (x.1 = (k, c))
  then recv_data be mem (loop + 1) expected n (MkSeq (Z.of_nat k + 1) c)
         (put_packet sc x.2 (piece k x.2)) rest
  else recv_data be mem loop expected n (MkSeq (Z.of_nat k + 1) c) sc rest.
Proof.
  destruct x as [[k1 c1] i]. intros (Hk1 & Hc1 & Hi) Hlt Hs Ha Hn. cbn [fst snd] in *.
  cbn [recv_data]. rewrite (proj2 (Z.leb_gt _ _)) by lia.
  rewrite bool_decide_eq_false_2 by apply wire_nonempty.
  pose proof (chunk_length m Hm F (k1 * q + i)) as Hcl. unfold MAX_DATA_SIZE in Hmax.
  destruct (msg_of_wire be (MkHdr DATA 0 (Z.of_nat (k1 * q + i) + 1) (Z.of_nat k1 + 1) c1)
    (Z.of_nat (length (chunk m F (k1 * q + i)))) (chunk m F (k1 * q + i))) as (Hh & Hlen & Hdata);
    [by apply packet_hdr_ok|unfold is_I32; lia|].
  change (tag (k1, c1, i)) with (wire (MkHdr DATA 0 (Z.of_nat (k1 * q + i) + 1) (Z.of_nat k1 + 1) c1)
    (Z.of_nat (length (chunk m F (k1 * q + i)))) (chunk m F (k1 * q + i))).
  rewrite Hh. unfold take_data. rewrite Hlen, Hdata, Hmem.
  rewrite (proj2 (Z.ltb_ge _ (-1))) by lia. rewrite (proj2 (Z.leb_le 0 (Z.of_nat _))) by lia.
  rewrite (proj2 (Z.leb_le _ MAX_DATA_SIZE)) by (unfold MAX_DATA_SIZE; lia).
  cbn [orb negb andb]. rewrite outcome_bind_ret, take_cleared by (unfold MAX_DATA_SIZE; lia).
  cbn [ePktType iMmapNo iCorrelater iPktNo seqMmapNo seqCorrelater].
  rewrite Z.eqb_refl. cbn [andb]. case_bool_decide as Hx.
  - injection Hx as -> ->. rewrite !Z.eqb_refl. cbn [andb].
    replace (Z.of_nat (k * q + i) + 1 - (Z.of_nat k + 1 - 1) * n - 1) with (Z.of_nat i) by lia.
    rewrite (proj2 (Z.leb_le 0 (Z.of_nat i))), !(proj2 (Z.ltb_lt (Z.of_nat i) _)) by lia.
    cbn [andb]. by rewrite Nat2Z.id.
  - destruct (Z.eqb_spec (Z.of_nat k1 + 1) (Z.of_nat k + 1)) as [He|]; [|done].
    destruct (Z.eqb_spec c1 c) as [->|]; [|done]. exfalso. apply Hx. f_equal. lia.
Qed.

Lemma fresh_cons k c x g :
  fresh k c (x :: g) = if bool_decide (x.1 = (k, c)) then x.2 :: fresh k c g else fresh k c g.
Proof. unfold fresh. rewrite filter_cons. by repeat case_match; boolify; case_bool_decide. Qed.

Lemma fresh_app k c g1 g2 : fresh k c (g1 ++ g2) = fresh k c g1 ++ fresh k c g2.
Proof. unfold fresh. by rewrite filter_app, fmap_app. Qed.

Lemma fresh_lt k c g : (k < K)%nat -> Forall tagged_ok g -> Forall (fun i => (i < cnt k)%nat) (fresh k c g).
Proof.
  intros Hk Hg. unfold fresh. apply Forall_fmap, Forall_forall. intros x [Hx Hin]%list_elem_of_filter.
  rewrite Forall_forall in Hg. destruct (Hg x Hin) as (_ & _ & Hi). by rewrite Hx in Hi.
Qed.

(** The packets of a round that leaves some missing. *)
Lemma recv_data_packets k c n a g : (k < K)%nat -> Forall tagged_ok g ->
  forall loop expected sc rest,
  (cnt k <= length (piPktStatus sc))%nat -> (cnt k <= length (area sc))%nat ->
  n * Z.of_nat k = Z.of_nat (k * q) -> loop + Z.of_nat (length (fresh k c g)) < expected ->
  recv_data be mem loop expected n (MkSeq (Z.of_nat k + 1) c) sc ((Datagram a <$> (tag <$> g)) ++ rest) =
  recv_data be mem (loop + Z.of_nat (length (fresh k c g))) expected n (MkSeq (Z.of_nat k + 1) c)
    (put_all k (fresh k c g) sc) rest.
Proof.
  intros Hk. induction 1 as [|x g Hx Hg IH]; intros loop expected sc rest Hs Ha Hn Hle.
  { simpl. by rewrite Z.add_0_r. }
  rewrite fresh_cons in *. cbn [fmap list_fmap app].
  rewrite recv_data_one by (done || lia). case_bool_decide as Hkc.
  - cbn [length] in *. rewrite IH; [|cbn; rewrite ?length_insert; lia..].
    rewrite put_all_cons. f_equal. lia.
  - by apply IH.
Qed.

(** The packet that completes a map is the last that is read. *)
Definition ends_fresh (k : nat) (c : Z) (g : list tagged) : Prop :=
  match last g with Some x => x.1 = (k, c) | None => True end.

Lemma recv_round k c n a g sc rest expected :
  (k < K)%nat -> Forall tagged_ok g ->
  (cnt k <= length (piPktStatus sc))%nat -> (cnt k <= length (area sc))%nat ->
  n * Z.of_nat k = Z.of_nat (k * q) ->
  let evs := Datagram a <$> (tag <$> g) in
  (Z.of_nat (length (fresh k c g)) = expected -> ends_fresh k c g ->
   recv_data be mem 0 expected n (MkSeq (Z.of_nat k + 1) c) sc (evs ++ rest) =
   Ret (NASC_SUCCESS, put_all k (fresh k c g) sc, rest)) /\
  (Z.of_nat (length (fresh k c g)) < expected ->
   recv_data be mem 0 expected n (MkSeq (Z.of_nat k + 1) c) sc (evs ++ TimedOut :: rest) =
   Ret (NASC_FILE_TRANS_TIME_OUT, put_all k (fresh k c g) sc, rest)).
Proof.
  intros Hk Hg Hs Ha Hn evs. split; unfold evs.
  - intros He Hend. destruct g as [|x g _] using rev_ind.
    { cbn in He |- *. subst. by destruct rest. }
    unfold ends_fresh in Hend. rewrite last_snoc in Hend.
    apply Forall_app in Hg as [Hg [Hx _]%Forall_cons].
    rewrite fresh_app, fresh_cons, bool_decide_eq_true_2 in He |- * by done.
    change (fresh k c []) with (@nil nat) in *. rewrite length_app in He. cbn [length] in He.
    rewrite !fmap_app, <- app_assoc, recv_data_packets by (done || lia). cbn [fmap list_fmap app].
    rewrite recv_data_one; [|done|lia|rewrite ?put_all_status, ?put_all_length, ?length_mark; lia..|done].
    rewrite bool_decide_eq_true_2 by done. rewrite put_all_app.
    destruct rest; cbn [recv_data]; by rewrite (proj2 (Z.leb_le _ _)) by lia.
  - intros Hle. rewrite recv_data_packets by (done || lia). rewrite Z.add_0_l.
    cbn [recv_data]. by rewrite (proj2 (Z.leb_gt _ _)) by lia.
Qed.

(** A round in which only its own packets arrive. *)
Definition tags (k : nat) (c : Z) (l : list nat) : list tagged := (fun i => (k, c, i)) <$> l.

Lemma tags_fresh k c l : fresh k c (tags k c l) = l.
Proof.
  induction l as [|i l IH]; [done|]. unfold tags in *. cbn [fmap list_fmap].
  by rewrite fresh_cons, bool_decide_eq_true_2, IH.
Qed.

Lemma tags_packets k c l : tag <$> tags k c l = packet k c <$> l.
Proof. unfold tags. by rewrite <- list_fmap_compose. Qed.

Lemma tags_end k c l : ends_fresh k c (tags k c l).
Proof. unfold ends_fresh, tags. rewrite fmap_last. by destruct (last l). Qed.

Lemma tags_ok k c l : (k < K)%nat -> is_I32 c -> Forall (fun i => (i < cnt k)%nat) l ->
  Forall tagged_ok (tags k c l).
Proof. intros Hk Hc Hl. apply Forall_fmap. eapply Forall_impl; [exact Hl|]. by intros i Hi. Qed.

(** ** The data of a map *)
Definition no_area : list stRecvData := replicate nPlan no_data.

Lemma map_data_put k (l : list nat) sc : (cnt k <= length (area sc))%nat ->
  (forall i, (i < cnt k)%nat -> area sc !! i = Some no_data) ->
  map_data (Z.of_nat (cnt k)) (area (put_all k l sc)) =
  mjoin ((fun i => if decide (i ∈ l) then piece k i else []) <$> seq 0 (cnt k)).
Proof.
  intros Hlen Hsc. unfold map_data. rewrite Nat2Z.id. f_equal. apply list_eq. intros i.
  rewrite !list_lookup_fmap. destruct (decide (i < cnt k)%nat) as [Hi|Hi].
  - rewrite lookup_take_lt, put_all_area, lookup_seq_lt by lia. simpl.
    case_decide; [done|]. by rewrite Hsc.
  - rewrite !lookup_ge_None_2 by (rewrite ?length_take, ?length_seq; lia). done.
Qed.

Lemma pieces_all k (l : list nat) : (forall i, (i < cnt k)%nat -> i ∈ l) ->
  mjoin ((fun i => if decide (i ∈ l) then piece k i else []) <$> seq 0 (cnt k)) =
  chunks m F (k * q) (cnt k).
Proof.
  intros Hl. unfold chunks. f_equal. rewrite <- (Nat.add_0_r (k * q)) at 1.
  rewrite <- fmap_add_seq, <- list_fmap_compose. apply list_fmap_ext.
  intros j i Hi%lookup_seq. simpl. rewrite decide_True by (apply Hl; lia).
  unfold piece. done.
Qed.

Lemma count_missing_mark k l :
  (cnt k <= nPlan)%nat -> NoDup l -> Forall (fun i => (i < cnt k)%nat) l ->
  count_missing (Z.of_nat (cnt k)) (mark l (all_missing q m F)) = Z.of_nat (cnt k) - Z.of_nat (length l).
Proof.
  intros Hk Hnd Hl. unfold count_missing. rewrite Nat2Z.id.
  assert (Hgen : forall n s, NoDup l -> Forall (fun i => (i < n)%nat) l -> (n <= length s)%nat ->
    (forall i, i ∈ l -> s !! i = Some missing) ->
    (length (filter (fun c => c = missing) (take n (mark l s))) + length l)%nat =
    length (filter (fun c => c = missing) (take n s))).
  { clear. induction l as [|i l IH]; intros n s; [simpl; lia|].
    intros [Hi Hnd]%NoDup_cons [Hin Hl]%Forall_cons Hn Hs. cbn [mark foldl length].
    fold (mark l (<[i:=received]> s)).
    assert (Hsi : s !! i = Some missing) by (apply Hs; by left).
    enough (length (filter (fun c => c = missing) (take n (<[i:=received]> s))) + 1 =
            length (filter (fun c => c = missing) (take n s)))%nat as Hone.
    { rewrite <- Hone, <- (IH n (<[i:=received]> s)); [lia|done|done|by rewrite length_insert|].
      intros j Hj. rewrite list_lookup_insert_ne by (intros ->; done). apply Hs. by right. }
    rewrite take_insert_lt by done.
    assert (Ht : take n s !! i = Some missing) by by rewrite lookup_take_lt.
    rewrite (insert_take_drop _ _ _ (lookup_lt_Some _ _ _ Ht)).
    rewrite <- (take_drop_middle _ _ _ Ht) at 3.
    rewrite !filter_app, !length_app, !filter_cons. simpl.
    lia. }
  specialize (Hgen (cnt k) (all_missing q m F) Hnd Hl).
  unfold all_missing in *. rewrite length_replicate in Hgen.
  assert (Hall : length (filter (fun c => c = missing) (take (cnt k) (replicate (nPlan + 1) missing))) = cnt k).
  { rewrite filter_all; [rewrite length_take, length_replicate; lia|].
    intros x Hx. apply elem_of_take in Hx as (i & Hx & _). by apply lookup_replicate in Hx as [-> _]. }
  rewrite Hall in Hgen. enough (Hin : forall i, i ∈ l -> replicate (nPlan + 1) missing !! i = Some missing).
  { specialize (Hgen ltac:(lia) Hin). lia. }
  intros i Hi. apply lookup_replicate_2. rewrite Forall_forall in Hl. specialize (Hl i Hi). lia.
Qed.

(** ** A map, round by round *)
Fixpoint arrivals (a : Z) (rounds : list round) : list net_event :=
  match rounds with
  | [] => []
  | r :: rounds =>
      (Datagram a <$> (tag <$> got r)) ++
      match rounds with [] => [] | _ => TimedOut :: arrivals a rounds end
  end.

(** The numbers of the fresh packets of the rounds, and that the last packet of
    the last round is one of them. *)
Fixpoint freshes (k : nat) (c : Z) (rounds : list round) : list (list nat) :=
  match rounds with
  | [] => []
  | r :: rounds => fresh k c (got r) :: freshes k (c + 1) rounds
  end.
Fixpoint finishes (k : nat) (c : Z) (rounds : list round) : Prop :=
  match rounds with
  | [] => False
  | [r] => exists i, last (got r) = Some (k, c, i)
  | _ :: rounds => finishes k (c + 1) rounds
  end.

Abbreviation all_missing := (all_missing q m F).
Definition start_scratch (k : nat) : scratch :=
  MkScratch all_missing no_area (Z.of_nat (k * q)).
Definition recv_at (k : nat) (t : Z) (file : list Z) (pos : nat) : recv_state :=
  MkRs t (Z.of_nat (cnt k)) (Z.of_nat (cnt k)) (start_scratch k) (MkSeq (Z.of_nat k + 1) 1) file pos.

(** The control data of the plan, in host form. *)
Definition agrees (c : stCntrlData) : Prop :=
  iTotNoPkts c = iTotNoOfPkts pl /\ iTotNoMaps c = iNoOfMappingNeeded pl /\
  iNoPktsPerMMap c = planPktsPerMMap pl /\ iNoExtraMapPackets c = iExtraPktsPerMap pl.

Lemma all_sent d w : sendto ok d w = (NASC_SUCCESS, sent_more w [d]).
Proof. rewrite sendto_all by done. unfold sent_more. simpl. by rewrite Nat.add_1_r. Qed.

Lemma SendDataAck_spec ty k c status n expected w :
  0 <= n <= MAX_DATA_SIZE -> n <= Z.of_nat (length (default [] status)) ->
  FileTrans_SendDataAck be ok status n expected (MkSeq (Z.of_nat k + 1) c) ty 0 w =
  Ret (NASC_SUCCESS, match status with Some l => count_missing n l | None => expected end,
       sent_more w [wire (MkHdr ty 0 0 (Z.of_nat k + 1) c) n (take (Z.to_nat n) (default [] status))]).
Proof.
  intros Hn Hl. unfold FileTrans_SendDataAck. rewrite put_data_ok, outcome_bind_ret by done.
  replace (ack_hdr _ _ _ _) with (net_hdr be (MkHdr ty 0 0 (Z.of_nat k + 1) c))
    by (unfold net_hdr, ack_hdr; simpl; by destruct be).
  by rewrite msg_bytes_wire, all_sent.
Qed.

Lemma clear_scratch_spec k n sc :
  length (piPktStatus sc) = (nPlan + 1)%nat -> length (area sc) = nPlan ->
  iToNoOfPktsRecvd sc = Z.of_nat (k * q) ->
  clear_scratch (Z.of_nat nPlan)
    (MkScratch (piPktStatus sc) (FileTrans_FreeScratch (area sc) n)
       (iToNoOfPktsRecvd sc)) = start_scratch k.
Proof.
  intros Hs Ha Ht. unfold clear_scratch, start_scratch, reset_status. cbn [piPktStatus area iToNoOfPktsRecvd].
  rewrite Ht. f_equal.
  - rewrite drop_ge by lia. rewrite app_nil_r. unfold FileSendProofs.all_missing. f_equal. lia.
  - rewrite Nat2Z.id, drop_ge; [by rewrite app_nil_r|]. unfold FileTrans_FreeScratch.
    rewrite length_app, length_fmap, length_take, length_drop. lia.
Qed.

Lemma nPlan_facts : planPktsPerMMap pl = Z.of_nat nPlan /\
  (forall k, (k < K)%nat -> (cnt k <= nPlan)%nat) /\ ((1 < K)%nat -> nPlan = q) /\
  (K = 1%nat -> nPlan = cnt 0).
Proof.
  by apply (nPlan_spec q m F) with (mem := mem) (be := be) (ok := ok) (mmap_ok := fun _ : Z => true).
Qed.

Lemma nPlan_mul k : (k < K)%nat -> Z.of_nat nPlan * Z.of_nat k = Z.of_nat (k * q).
Proof.
  intros Hk. destruct nPlan_facts as (_ & _ & H1 & _).
  destruct (decide (k = 0%nat)) as [->|Hk0]; [lia|]. rewrite H1 by lia. lia.
Qed.

Lemma next_expected_spec c k : (k + 1 < K)%nat -> agrees c ->
  next_expected c (MkSeq (Z.of_nat k + 1 + 1) 1) (Z.of_nat (cnt k)) =
  (Z.of_nat (cnt (k + 1)), Z.of_nat (cnt (k + 1))).
Proof.
  intros Hk (_ & Hc1 & Hc2 & Hc3). unfold next_expected. cbn [seqMmapNo].
  rewrite Hc1, Hc2, Hc3.
  destruct (cnt_full q m F Hq Hm HF Hsize Hpage k Hk) as [Hck _].
  pose proof (nMaps_spec q m F Hq Hm HF Hsize Hpage) as (_ & HK & _).
  destruct (plan_many q m F Hq Hm HF Hsize Hpage) as [Hp He]; [lia|].
  rewrite HK, Hck, Hp. destruct (decide (k + 2 = K)%nat) as [Hk2|Hk2].
  - rewrite (proj2 (Z.eqb_eq _ _)) by lia. cbn [andb].
    replace (k + 1)%nat with (K - 1)%nat by lia.
    destruct He as [[-> ->]|[Hne He]]; [done|]. by rewrite (proj2 (Z.eqb_neq _ _) Hne), He.
  - rewrite (proj2 (Z.eqb_neq _ _)) by lia. cbn [andb].
    assert (cnt (k + 1) = q) as -> by (apply cnt_full; try done; lia). done.
Qed.

(** The state within a map: [acc] have come so far. *)
Definition recv_in (k : nat) (c t : Z) (acc : list nat) (file : list Z) (pos : nat) : recv_state :=
  MkRs t (Z.of_nat (cnt k) - Z.of_nat (length acc)) (Z.of_nat (cnt k))
    (put_all k acc (start_scratch k)) (MkSeq (Z.of_nat k + 1) c) file pos.

Lemma start_lengths k l :
  length (piPktStatus (put_all k l (start_scratch k))) = (nPlan + 1)%nat /\
  length (area (put_all k l (start_scratch k))) = nPlan.
Proof.
  rewrite put_all_status, put_all_length, length_mark. cbn.
  unfold no_area, FileSendProofs.all_missing. by rewrite !length_replicate.
Qed.

Lemma packets_of_map k acc l : acc ++ l ≡ₚ seq 0 (cnt k) ->
  NoDup (acc ++ l) /\ Forall (fun i => (i < cnt k)%nat) (acc ++ l) /\
  (length acc + length l = cnt k)%nat /\ forall i, (i < cnt k)%nat -> i ∈ acc ++ l.
Proof.
  intros Hp. split_and!.
  - rewrite Hp. apply NoDup_seq.
  - rewrite Hp. apply Forall_forall. intros i Hi%elem_of_seq. lia.
  - rewrite <- length_app, Hp. apply length_seq.
  - intros i Hi. rewrite Hp. apply elem_of_seq. lia.
Qed.

Lemma total_end k : (k < K)%nat ->
  ((k * q + cnt k)%nat = T <-> (k + 1)%nat = K) /\ ((k + 1 < K)%nat -> (k * q + cnt k = (k + 1) * q)%nat).
Proof.
  intros Hk. pose proof (cnt_last q m F Hq Hm HF Hsize Hpage) as [Hl _].
  destruct (decide (k + 1 = K)%nat) as [He|He].
  - replace (K - 1)%nat with k in Hl by lia. lia.
  - destruct (cnt_full q m F Hq Hm HF Hsize Hpage k) as [Hc ?]; [lia|]. lia.
Qed.

(** The round that completes a map: as many packets as it has, whichever they
    are. *)
Lemma finish_round fuel a cc k c t acc g file pos rest w :
  let l := fresh k c g in
  agrees cc -> (k < K)%nat -> Forall tagged_ok g -> ends_fresh k c g ->
  (length acc + length l = cnt k)%nat ->
  inbox w = (Datagram a <$> (tag <$> g)) ++ rest ->
  recv_maps be ok mem (S fuel) cc 0 (recv_in k c t acc file pos) w =
  let data := mjoin ((fun i => if decide (i ∈ acc ++ l) then piece k i else []) <$> seq 0 (cnt k)) in
  let w' := sent_more (with_inbox w rest) [ack_msg k c] in
  if bool_decide (k + 1 = K)%nat then Ret (NASC_SUCCESS, write_at file pos data, w')
  else recv_maps be ok mem fuel cc 0
         (recv_at (k + 1) t (write_at file pos data) (pos + length data)) w'.
Proof.
  intros l Hcc Hk Hg Hend1 Hlen Hw. destruct (Hcc) as (HT & _ & Hn & _).
  destruct nPlan_facts as (HnP & Hle & _). specialize (Hle k Hk). rewrite HnP in Hn.
  destruct (start_lengths k acc) as [Hs1 Ha1]. destruct (start_lengths k (acc ++ l)) as [Hs2 Ha2].
  cbn [recv_maps]. unfold FileTrans_RecvDataPkt. rewrite Hw, Hn.
  cbn [recv_in iNoOfPktsExpected rs_seq rs_scratch iNoOfPktsPerMap rs_file rs_pos iNoOfTimeOuts].
  destruct (recv_round k c (Z.of_nat nPlan) a g (put_all k acc (start_scratch k)) rest
    (Z.of_nat (cnt k) - Z.of_nat (length acc))) as [-> _]; try done; try (fold l; lia).
  { by apply nPlan_mul. }
  rewrite !outcome_bind_ret, <- put_all_app. fold l.
  rewrite SendDataAck_spec by (done || (unfold MAX_DATA_SIZE; simpl; lia)).
  rewrite outcome_bind_ret, bool_decide_eq_true_2 by done.
  rewrite map_data_put; [|rewrite put_all_length in Ha2; lia|].
  2:{ intros i Hi. cbn. unfold no_area. apply lookup_replicate_2. lia. }
  cbv zeta. destruct (total_end k Hk) as [Hend Hnext].
  destruct (nPkts_spec q m F Hq Hm HF Hsize Hpage) as (_ & HTn & _).
  assert (Htot : iToNoOfPktsRecvd (put_all k (acc ++ l) (start_scratch k)) = Z.of_nat (k * q + cnt k)).
  { rewrite put_all_total, length_app. cbn. lia. }
  set (sc := put_all k (acc ++ l) (start_scratch k)) in *.
  set (cl := clear_scratch _ _).
  assert (iToNoOfPktsRecvd cl = Z.of_nat (k * q + cnt k)) as -> by exact Htot.
  rewrite HT, HTn. case_bool_decide as He.
  - rewrite (proj2 (Z.eqb_eq _ _)) by lia. done.
  - rewrite (proj2 (Z.eqb_neq _ _)) by lia.
    assert (cl = start_scratch (k + 1)) as ->.
    { apply clear_scratch_spec; [done|done|]. rewrite Htot. f_equal. apply Hnext. lia. }
    cbn [seqMmapNo]. rewrite next_expected_spec by (done || lia). cbv beta iota.
    unfold recv_at. by replace (Z.of_nat (k + 1)) with (Z.of_nat k + 1) by lia.
Qed.

Lemma recv_finish fuel a cc k c t acc l file pos rest w :
  agrees cc -> (k < K)%nat -> is_I32 c -> Forall (fun i => (i < cnt k)%nat) l ->
  (length acc + length l = cnt k)%nat ->
  inbox w = (Datagram a <$> (packet k c <$> l)) ++ rest ->
  recv_maps be ok mem (S fuel) cc 0 (recv_in k c t acc file pos) w =
  let data := mjoin ((fun i => if decide (i ∈ acc ++ l) then piece k i else []) <$> seq 0 (cnt k)) in
  let w' := sent_more (with_inbox w rest) [ack_msg k c] in
  if bool_decide (k + 1 = K)%nat then Ret (NASC_SUCCESS, write_at file pos data, w')
  else recv_maps be ok mem fuel cc 0
         (recv_at (k + 1) t (write_at file pos data) (pos + length data)) w'.
Proof.
  intros Hcc Hk Hc Hl Hlen Hw.
  pose proof (finish_round fuel a cc k c t acc (tags k c l) file pos rest w) as Hf.
  rewrite tags_fresh, tags_packets in Hf. apply Hf; [done|done|by apply tags_ok|apply tags_end|done..].
Qed.

Lemma last_round fuel a cc k c t acc g file pos rest w :
  agrees cc -> (k < K)%nat -> Forall tagged_ok g -> ends_fresh k c g ->
  acc ++ fresh k c g ≡ₚ seq 0 (cnt k) ->
  inbox w = (Datagram a <$> (tag <$> g)) ++ rest ->
  recv_maps be ok mem (S fuel) cc 0 (recv_in k c t acc file pos) w =
  let data := chunks m F (k * q) (cnt k) in
  let w' := sent_more (with_inbox w rest) [ack_msg k c] in
  if bool_decide (k + 1 = K)%nat then Ret (NASC_SUCCESS, write_at file pos data, w')
  else recv_maps be ok mem fuel cc 0
         (recv_at (k + 1) t (write_at file pos data) (pos + length data)) w'.
Proof.
  intros Hcc Hk Hg Hend Hp Hw.
  destruct (packets_of_map k acc _ Hp) as (_ & _ & Hlen & Hall).
  rewrite (finish_round fuel a cc k c t acc g file pos rest w) by done.
  by rewrite pieces_all.
Qed.

Lemma recv_last fuel a cc k c t acc l file pos rest w :
  agrees cc -> (k < K)%nat -> is_I32 c -> acc ++ l ≡ₚ seq 0 (cnt k) ->
  inbox w = (Datagram a <$> (packet k c <$> l)) ++ rest ->
  recv_maps be ok mem (S fuel) cc 0 (recv_in k c t acc file pos) w =
  let data := chunks m F (k * q) (cnt k) in
  let w' := sent_more (with_inbox w rest) [ack_msg k c] in
  if bool_decide (k + 1 = K)%nat then Ret (NASC_SUCCESS, write_at file pos data, w')
  else recv_maps be ok mem fuel cc 0
         (recv_at (k + 1) t (write_at file pos data) (pos + length data)) w'.
Proof.
  intros Hcc Hk Hc Hp Hw.
  destruct (packets_of_map k acc l Hp) as (_ & [_ Hl]%Forall_app & _).
  apply (last_round fuel a cc k c t acc (tags k c l)); rewrite ?tags_fresh, ?tags_packets;
    [done|done|by apply tags_ok|apply tags_end|done..].
Qed.

(** The last round brings a packet. *)
Lemma finishes_more k c rounds : finishes k c rounds -> (0 < length (mjoin (freshes k c rounds)))%nat.
Proof.
  revert c. induction rounds as [|r rounds IH]; intros c; [done|].
  change (mjoin (freshes k c (r :: rounds))) with
    (fresh k c (got r) ++ mjoin (freshes k (c + 1) rounds)). rewrite length_app.
  destruct rounds as [|r2 rounds].
  - intros (i & (g & ->)%last_Some). rewrite fresh_app, length_app, fresh_cons.
    rewrite bool_decide_eq_true_2 by done. simpl. lia.
  - intros Hf. specialize (IH (c + 1) Hf). lia.
Qed.

Lemma finishes_end k c r i : last (got r) = Some (k, c, i) -> ends_fresh k c (got r).
Proof. intros Hl. unfold ends_fresh. by rewrite Hl. Qed.

(** A round that leaves packets missing. *)
Lemma more_round fuel a cc k c t acc g more file pos rest w :
  let l := fresh k c g in
  agrees cc -> (k < K)%nat -> is_I32 c -> Forall tagged_ok g -> acc ++ l ++ more ≡ₚ seq 0 (cnt k) ->
  (0 < length more)%nat -> 0 <= t < 5 -> (q <= 1100)%nat ->
  inbox w = (Datagram a <$> (tag <$> g)) ++ TimedOut :: rest ->
  recv_maps be ok mem (S fuel) cc 0 (recv_in k c t acc file pos) w =
  recv_maps be ok mem fuel cc 0 (recv_in k (c + 1) (t + 1) (acc ++ l) file pos)
    (sent_more (with_inbox w rest) [nack_msg q m F k c (mark (acc ++ l) all_missing)]).
Proof.
  intros l Hcc Hk Hc Hg Hp Hmore Ht Hq2 Hw. destruct (Hcc) as (_ & _ & Hn & _).
  rewrite app_assoc in Hp.
  destruct (packets_of_map k (acc ++ l) more Hp) as (Hnd & [Hal _]%Forall_app & Hlen & _).
  pose proof Hal as [_ Hl]%Forall_app. apply NoDup_app in Hnd as (Hnd & _).
  rewrite length_app in Hlen.
  destruct nPlan_facts as (HnP & Hle & _). specialize (Hle k Hk). rewrite HnP in Hn.
  destruct (start_lengths k acc) as [Hs1 Ha1]. destruct (start_lengths k (acc ++ l)) as [Hs2 Ha2].
  assert (Hc2 : (cnt k <= 1100)%nat) by (unfold FilePlan.cnt; lia).
  cbn [recv_maps]. unfold FileTrans_RecvDataPkt. rewrite Hw, Hn.
  cbn [recv_in iNoOfPktsExpected rs_seq rs_scratch iNoOfPktsPerMap rs_file rs_pos iNoOfTimeOuts].
  destruct (recv_round k c (Z.of_nat nPlan) a g (put_all k acc (start_scratch k)) rest
    (Z.of_nat (cnt k) - Z.of_nat (length acc))) as [_ ->]; try done; try (fold l; lia).
  { by apply nPlan_mul. }
  rewrite !outcome_bind_ret, <- put_all_app. fold l.
  rewrite (proj2 (Z.ltb_ge _ _)) by (unfold MAX_NO_OF_RETRIES; lia).
  rewrite SendDataAck_spec by (simpl; unfold MAX_DATA_SIZE; lia).
  rewrite outcome_bind_ret. simpl default. rewrite put_all_status. cbn [piPktStatus start_scratch].
  rewrite count_missing_mark by done. rewrite length_app. unfold recv_in.
  rewrite Nat2Z.id. by rewrite length_app.
Qed.

Lemma recv_more fuel a cc k c t acc l more file pos rest w :
  agrees cc -> (k < K)%nat -> is_I32 c -> acc ++ l ++ more ≡ₚ seq 0 (cnt k) ->
  (0 < length more)%nat -> 0 <= t < 5 -> (q <= 1100)%nat ->
  inbox w = (Datagram a <$> (packet k c <$> l)) ++ TimedOut :: rest ->
  recv_maps be ok mem (S fuel) cc 0 (recv_in k c t acc file pos) w =
  recv_maps be ok mem fuel cc 0 (recv_in k (c + 1) (t + 1) (acc ++ l) file pos)
    (sent_more (with_inbox w rest) [nack_msg q m F k c (mark (acc ++ l) all_missing)]).
Proof.
  intros Hcc Hk Hc Hp Hmore Ht Hq2 Hw.
  pose proof (more_round fuel a cc k c t acc (tags k c l) more file pos rest w) as Hf.
  rewrite tags_fresh, tags_packets in Hf. apply Hf; try done. apply tags_ok; [done..|].
  pose proof Hp as Hp2. rewrite app_assoc in Hp2.
  by destruct (packets_of_map k (acc ++ l) more Hp2) as (_ & [[_ ?]%Forall_app _]%Forall_app & _).
Qed.

Lemma recv_rounds rounds fuel a cc k c t acc file pos rest w :
  agrees cc -> (k < K)%nat -> 0 <= c <= 1 + t -> finishes k c rounds ->
  Forall (fun r => Forall tagged_ok (got r)) rounds ->
  acc ++ mjoin (freshes k c rounds) ≡ₚ seq 0 (cnt k) -> 0 <= t ->
  t + Z.of_nat (length rounds) <= 6 ->
  (q <= 1100)%nat -> inbox w = arrivals a rounds ++ rest ->
  recv_maps be ok mem (length rounds + fuel) cc 0 (recv_in k c t acc file pos) w =
  let data := chunks m F (k * q) (cnt k) in
  let w' := sent_more (with_inbox w rest) (replies q m F k c (mark acc all_missing) rounds) in
  if bool_decide (k + 1 = K)%nat then Ret (NASC_SUCCESS, write_at file pos data, w')
  else recv_maps be ok mem fuel cc 0
         (recv_at (k + 1) (t + Z.of_nat (length rounds) - 1) (write_at file pos data)
            (pos + length data)) w'.
Proof.
  intros Hcc Hk Hc Hlast Hok1 Hp Ht Hr Hq2 Hw. revert c t acc w Hc Hlast Hp Ht Hr Hw.
  induction rounds as [|r rounds IH]; [done|]. apply Forall_cons in Hok1 as [Hg Hok1].
  intros c t acc w Hc Hlast Hp Ht Hr Hw. cbn [length] in Hr.
  assert (Hc32 : is_I32 c) by (unfold is_I32; lia).
  destruct rounds as [|r2 rounds].
  - destruct Hlast as (i & Hlast). cbn [freshes mjoin list_join] in Hp. rewrite app_nil_r in Hp.
    cbn [arrivals] in Hw. rewrite app_nil_r in Hw. cbn [length Nat.add].
    rewrite (last_round fuel a cc k c t acc (got r) file pos rest w) by
      (done || by eapply finishes_end). cbn [replies].
    by replace (t + Z.of_nat 1 - 1) with t by lia.
  - set (rounds' := r2 :: rounds) in *. change (finishes k (c + 1) rounds') in Hlast.
    cbn [arrivals] in Hw. rewrite <- app_assoc in Hw. cbn [freshes mjoin list_join] in Hp.
    change ((length (r :: rounds') + fuel)%nat) with (S (length rounds' + fuel)).
    rewrite (more_round _ a cc k c t acc (got r) (mjoin (freshes k (c + 1) rounds')) file pos
      (arrivals a rounds' ++ rest) w);
      [|done..|exact Hp|by apply finishes_more|unfold rounds' in Hr; cbn [length] in Hr; lia|done|exact Hw].
    rewrite IH; [|done|lia|done|by rewrite <- app_assoc|lia|lia|reflexivity].
    cbv zeta. rewrite !mark_app, sent_more_inbox, sent_more_app.
    change (replies q m F k c (mark acc all_missing) (r :: rounds')) with
      ([nack_msg q m F k c (mark (fresh k c (got r)) (mark acc all_missing))] ++
       replies q m F k (c + 1) (mark (fresh k c (got r)) (mark acc all_missing)) rounds').
    replace (t + 1 + Z.of_nat (length rounds') - 1) with (t + Z.of_nat (length (r :: rounds')) - 1)
      by (cbn [length]; lia). done.
Qed.

(** ** All maps *)
Definition all_arrive (rs : nat -> list round) : Prop :=
  forall j, (j < K)%nat -> finishes j 1 (rs j) /\
    Forall (fun r => Forall tagged_ok (got r)) (rs j) /\
    mjoin (freshes j 1 (rs j)) ≡ₚ seq 0 (cnt j).

(** The rounds that time out. *)
Fixpoint timeouts (rs : nat -> list round) (k d : nat) : nat :=
  match d with O => O | S d => (length (rs k) - 1) + timeouts rs (S k) d end.

Definition so_far (k : nat) (old : list Z) : list Z :=
  let A := chunks m F 0 (k * q) in A ++ drop (length A) old.

Lemma recv_maps_spec rs d k t a cc old rest w :
  agrees cc -> all_arrive rs -> (q <= 1100)%nat -> (k + d = K)%nat -> (0 < d)%nat -> 0 <= t ->
  t + Z.of_nat (timeouts rs k d) <= 5 ->
  inbox w = mjoin ((fun j => arrivals a (rs j)) <$> seq k d) ++ rest ->
  exists more, forall f, (more <= f)%nat ->
  recv_maps be ok mem f cc 0
    (recv_at k t (so_far k old) (length (chunks m F 0 (k * q)))) w =
  Ret (NASC_SUCCESS, F ++ drop (length F) old,
       sent_more (with_inbox w rest)
         (mjoin ((fun j => replies q m F j 1 all_missing (rs j)) <$> seq k d))).
Proof.
  intros Hcc Hrs Hq2. revert k t w. induction d as [|d IH]; intros k t w Hk Hd Ht Hto Hw; [lia|].
  destruct (Hrs k) as (Hlast & Hgot & Hperm); [lia|].
  cbn [seq fmap list_fmap mjoin list_join timeouts] in Hw, Hto |- *. rewrite <- app_assoc in Hw.
  set (rest1 := _ ++ rest) in Hw.
  assert (Hlen : (0 < length (rs k))%nat) by (destruct (rs k); [done|simpl; lia]).
  assert (Hat : forall file pos, recv_at k t file pos = recv_in k 1 t [] file pos).
  { intros file pos. unfold recv_at, recv_in. simpl. by rewrite Z.sub_0_r. }
  assert (Hdata : write_at (so_far k old) (length (chunks m F 0 (k * q))) (chunks m F (k * q) (cnt k)) =
    chunks m F 0 (k * q + cnt k) ++ drop (length (chunks m F 0 (k * q + cnt k))) old).
  { unfold so_far. rewrite write_next, (chunks_app m Hm F 0). done. }
  assert (Hlen2 : (length (chunks m F 0 (k * q)) + length (chunks m F (k * q) (cnt k)))%nat =
    length (chunks m F 0 (k * q + cnt k))) by by rewrite (chunks_app m Hm F 0), length_app.
  pose proof (fun f => recv_rounds (rs k) f a cc k 1 t [] (so_far k old)
    (length (chunks m F 0 (k * q))) rest1 w Hcc ltac:(lia) ltac:(lia) Hlast Hgot Hperm Ht
    ltac:(lia) Hq2 Hw) as Hone.
  cbv zeta in Hone. setoid_rewrite <- Hat in Hone. setoid_rewrite Hdata in Hone. setoid_rewrite Hlen2 in Hone.
  destruct (total_end k) as [Hend Hnext]; [lia|].
  destruct d as [|d].
  - exists (length (rs k)). intros f Hf. replace f with (length (rs k) + (f - length (rs k)))%nat by lia.
    rewrite Hone, bool_decide_eq_true_2 by lia. rewrite (proj2 Hend) by lia.
    rewrite (chunks_all m Hm F T) by by apply nPkts_spec.
    unfold rest1. cbn [seq fmap list_fmap mjoin list_join]. rewrite app_nil_r. done.
  - destruct (IH (S k) (t + Z.of_nat (length (rs k)) - 1)
      (sent_more (with_inbox w rest1) (replies q m F k 1 all_missing (rs k)))) as (more & Hmore);
      [lia|lia|lia|lia|reflexivity|].
    exists (length (rs k) + more)%nat. intros f Hf.
    replace f with (length (rs k) + (f - length (rs k)))%nat by lia.
    rewrite Hone, bool_decide_eq_false_2 by lia. rewrite ?Hdata, ?Hlen2, Hnext by lia.
    change (so_far (S k) old) with (chunks m F 0 (S k * q) ++ drop (length (chunks m F 0 (S k * q))) old)
      in Hmore.
    replace (k + 1)%nat with (S k) by lia. unfold so_far. change (mark [] all_missing) with all_missing.
    rewrite Hmore by lia. by rewrite sent_more_inbox, sent_more_app.
Qed.

(** What is behind the checks of FileTrans_HandleDataPkt. *)
Lemma HandleDataPkt_start f fuel_ok dir_ok old path oldb c w :
  agrees (host_cntrl be c) -> (forall k, fuel_ok k = true) ->
  target dir_ok (host_cntrl be c) = Ret path -> old path = Some oldb ->
  FileTrans_HandleDataPkt be ok mem f fuel_ok dir_ok old c 0 w =
  '(r, file, w) ← recv_maps be ok mem f (host_cntrl be c) 0 (recv_at 0 0 oldb 0) w;
  mret (r, Some file, w).
Proof.
  intros Hcc Hmok Hpath Hold. destruct nPlan_facts as (HnP & Hle & Hn1 & Hn2).
  destruct (nMaps_spec q m F Hq Hm HF Hsize Hpage) as (_ & _ & HK).
  unfold FileTrans_HandleDataPkt. rewrite Hpath, outcome_bind_ret, !Hmok, Hold. cbn [negb orb].
  destruct (Hcc) as (_ & _ & Hn & _). rewrite Hn, HnP.
  rewrite !(proj2 (Z.ltb_ge _ _)) by lia. cbn [orb].
  assert (start_recv (host_cntrl be c) oldb = recv_at 0 0 oldb 0) as ->; [|done].
  unfold start_recv, recv_at, start_scratch, no_area, FileSendProofs.all_missing.
  rewrite Hn, HnP. cbn. replace (Z.to_nat (Z.of_nat nPlan + 1)) with (nPlan + 1)%nat by lia.
  rewrite Nat2Z.id. assert (nPlan = cnt 0) as ->; [|done].
  destruct (decide (K = 1%nat)) as [H1|H1]; [by apply Hn2|]. rewrite Hn1 by lia.
  symmetry. apply cnt_full; try done; lia.
Qed.

Lemma HandleDataPkt_spec rs a fuel_ok dir_ok old path oldb c rest w :
  agrees (host_cntrl be c) -> all_arrive rs -> (q <= 1100)%nat ->
  (timeouts rs 0 K <= 5)%nat -> (forall k, fuel_ok k = true) ->
  target dir_ok (host_cntrl be c) = Ret path -> old path = Some oldb ->
  inbox w = mjoin ((fun j => arrivals a (rs j)) <$> seq 0 K) ++ rest ->
  exists more, forall f, (more <= f)%nat ->
  FileTrans_HandleDataPkt be ok mem f fuel_ok dir_ok old c 0 w =
  Ret (NASC_SUCCESS, Some (F ++ drop (length F) oldb),
       sent_more (with_inbox w rest)
         (mjoin ((fun j => replies q m F j 1 all_missing (rs j)) <$> seq 0 K))).
Proof.
  intros Hcc Hrs Hq2 Hto Hmok Hpath Hold Hw.
  destruct (nMaps_spec q m F Hq Hm HF Hsize Hpage) as (_ & _ & HK).
  destruct (recv_maps_spec rs K 0 0 a (host_cntrl be c) oldb rest w) as (more & Hmore);
    [done|done|done|lia|done|lia|lia|done|].
  exists more. intros f Hf. rewrite (HandleDataPkt_start f fuel_ok dir_ok old path oldb) by done.
  change (so_far 0 oldb) with (drop 0 oldb) in Hmore. rewrite drop_0 in Hmore.
  change (length (chunks m F 0 (0 * q))) with 0%nat in Hmore. by rewrite Hmore.
Qed.
End RecvProofs.
