(* ===== verification/FileShake.v ===== *)
(** * The handshake of a transfer

    The control data cross from a host of either byte order to one of either
    byte order, and the handshake ends with the first acknowledgement. *)

From S2P Require Import Prelude CTypes FileNet FileSend FileRecv FilePlan FileSendProofs.
#[local] Open Scope Z_scope.

(** A string a [char] array of 500 holds with its terminator. *)
Definition c_string (s : list Z) : Prop := Forall (fun b => b <> 0) s /\ (length s < 500)%nat.

Lemma cleared_string s : c_string s ->
  cleared 500 s = s ++ 0 :: replicate (499 - length s) 0.
Proof.
  intros [_ Hl]. unfold cleared. rewrite take_app. f_equal; [by apply take_ge; lia|].
  rewrite take_replicate. replace (Z.to_nat 500 `min` Z.to_nat 500)%nat with 500%nat by lia.
  replace (Nat.min _ _) with (S (499 - length s)) by lia. done.
Qed.

Lemma strlen_field s : c_string s -> strlen (cleared 500 s) = Ret (length s).
Proof. intros Hs. rewrite cleared_string by done. apply strlen_app, Hs. Qed.

Lemma take_field s : c_string s -> take (length s) (cleared 500 s) = s.
Proof. intros Hs. rewrite cleared_string by done. apply take_app_length. Qed.

(** The control data as they travel. *)
Definition control_wire (pl : plan) (m : Z) (name path : list Z) : list Z :=
  bytes_be (UI32 0) ++ bytes_be (UI32 (iTotNoOfPkts pl)) ++ bytes_be (UI32 (iNoOfMappingNeeded pl)) ++
  bytes_be (UI32 (planPktsPerMMap pl)) ++ bytes_be (UI32 (iExtraPktsPerMap pl)) ++
  bytes_be (UI32 m) ++ bytes_be (UI32 (iLastPktSize pl)) ++
  cleared MAX_PATH_LEN path ++ cleared MAX_FILE_NAME_LEN name.

Lemma control_bytes be pl m name path :
  cntrl_bytes be (control be pl m name path) = control_wire pl m name path.
Proof. unfold cntrl_bytes, control, control_wire. simpl. by rewrite !store_htonl. Qed.

Lemma length_control pl m name path : length (control_wire pl m name path) = 1028%nat.
Proof. unfold control_wire. by rewrite !length_app, !length_cleared. Qed.

Definition plan_ok (pl : plan) : Prop :=
  is_I32 (iTotNoOfPkts pl) /\ is_I32 (iNoOfMappingNeeded pl) /\ is_I32 (planPktsPerMMap pl) /\
  is_I32 (iExtraPktsPerMap pl) /\ is_I32 (iLastPktSize pl).

Lemma control_read be pl m name path :
  plan_ok pl ->
  host_cntrl be (cntrl_of be (control_wire pl m name path)) =
  MkCntrl 0 (iTotNoOfPkts pl) (iNoOfMappingNeeded pl) (planPktsPerMMap pl) (iExtraPktsPerMap pl)
          0 (iLastPktSize pl) (cleared 500 path) (cleared 500 name).
Proof.
  intros (H1 & H2 & H3 & H4 & H5). unfold cntrl_of, host_cntrl, word.
  cbn [dRtt iTotNoPkts iTotNoMaps iNoPktsPerMMap iNoExtraMapPackets iMesgSizeForLastPkt
       pcDestPath pcFileName].
  assert (Hp : take (Z.to_nat MAX_PATH_LEN) (drop 28 (control_wire pl m name path)) = cleared 500 path).
  { unfold control_wire, MAX_PATH_LEN. change (drop 28 _) with (cleared 500 path ++ cleared MAX_FILE_NAME_LEN name).
    rewrite take_app_le by (rewrite length_cleared; lia).
    apply take_ge. rewrite length_cleared. lia. }
  assert (Hn : take (Z.to_nat MAX_FILE_NAME_LEN)
      (drop (28 + Z.to_nat MAX_PATH_LEN) (control_wire pl m name path)) = cleared 500 name).
  { rewrite <- drop_drop. unfold control_wire, MAX_PATH_LEN, MAX_FILE_NAME_LEN.
    change (drop 28 _) with (cleared 500 path ++ cleared 500 name).
    rewrite drop_app_ge by (rewrite length_cleared; lia). rewrite length_cleared, Nat.sub_diag, drop_0.
    apply take_ge. rewrite length_cleared. lia. }
  rewrite Hp, Hn. unfold control_wire. simpl. rewrite !take_0.
  fold (bytes_be (UI32 0)) (bytes_be (UI32 (iTotNoOfPkts pl)))
    (bytes_be (UI32 (iNoOfMappingNeeded pl))) (bytes_be (UI32 (planPktsPerMMap pl)))
    (bytes_be (UI32 (iExtraPktsPerMap pl))) (bytes_be (UI32 (iLastPktSize pl))).
  rewrite !ntohl_load, !I32_id by (assumption || lia). done.
Qed.

(** ** The datagram, and what the listener makes of it *)
Definition shake_msg (pl : plan) (m : Z) (name path : list Z) : list Z :=
  wire (MkHdr HND_SHAKE 0 1 0 1) SIZEOF_stCntrlData (control_wire pl m name path).
Definition shake_ack : list Z := wire (MkHdr HND_SHAKE_ACK 0 0 0 1) 0 [].

Lemma shake_data be pl m name path :
  take (Z.to_nat SIZEOF_stCntrlData) (cData (msg_of be (shake_msg pl m name path))) =
  control_wire pl m name path.
Proof.
  destruct (msg_of_wire be (MkHdr HND_SHAKE 0 1 0 1) SIZEOF_stCntrlData
    (control_wire pl m name path)) as (_ & _ & Hc); [by vm_compute; repeat split|by vm_compute|].
  unfold shake_msg. rewrite Hc. apply take_cleared; [by vm_compute|apply length_control].
Qed.

Lemma InitHandshake_spec be ok pl m name path a rest w :
  (forall k, ok k = true) -> c_string name -> c_string (default [] path) ->
  inbox w = Datagram a shake_ack :: rest ->
  FileTransfer_InitHandshake be ok pl m name path w =
  Ret (NASC_SUCCESS, Some a, sent_more (with_inbox w rest) [shake_msg pl m name (default [] path)]).
Proof.
  intros Hok [_ Hn] [_ Hp] Hw. unfold FileTransfer_InitHandshake.
  rewrite !(proj2 (Z.ltb_ge _ _)) by (unfold MAX_FILE_NAME_LEN, MAX_PATH_LEN; lia).
  generalize 6%nat. intros fuel. cbn [shake]. change (MAX_NO_OF_RETRIES <? 0) with false. cbv iota.
  rewrite control_bytes.
  replace (handshake_hdr be) with (net_hdr be (MkHdr HND_SHAKE 0 1 0 1))
    by (unfold net_hdr, handshake_hdr; simpl; by destruct be).
  rewrite SendPkt_wire by (rewrite ?length_control; by vm_compute).
  rewrite outcome_bind_ret, sendto_all by done.
  rewrite bool_decide_eq_true_2 by done. cbn [negb].
  unfold FileTrans_RecvAck. cbn [inbox]. rewrite Hw. cbn [recv_ack].
  rewrite bool_decide_eq_false_2 by apply wire_nonempty. rewrite outcome_bind_ret.
  destruct (msg_of_wire be (MkHdr HND_SHAKE_ACK 0 0 0 1) 0 []) as (Hh & _);
    [by vm_compute; repeat split|by vm_compute|].
  fold shake_ack in Hh. rewrite Hh. cbn [iMmapNo iCorrelater].
  change ((0 =? 0) && (1 =? 1)) with true. cbv iota. rewrite !outcome_bind_ret.
  cbn [ack_from ack_status ack_header ePktType]. change (HND_SHAKE_ACK =? HND_SHAKE_ACK) with true.
  cbv iota. rewrite take_ge by by rewrite length_control.
  unfold sent_more, with_inbox, shake_msg. simpl. by rewrite Nat.add_1_r.
Qed.
