(* ===== verification/FileProps.v ===== *)
(** * Properties of the file transfer *)

From S2P Require Import Prelude CTypes FileNet FileSend FileRecv FilePlan.
From S2P Require Import FileSendProofs FileRecvProofs FileShake.
#[local] Open Scope Z_scope.

(** The datagrams among the answers of [select] and [recvfrom]. *)
Definition answered (events : list net_event) : list (list Z) :=
  omap (fun e => match e with Datagram _ d => Some d | _ => None end) events.

(** Where a request is to be stored. *)
Definition target_path (dir_ok : bool) (path : option (list Z)) (name : list Z) : list Z :=
  (if bool_decide (default [] path = []) || negb dir_ok then [46] else default [] path) ++ 47 :: name.

Lemma target_spec dir_ok path name c :
  c_string (default [] path) -> c_string name ->
  pcDestPath c = cleared 500 (default [] path) -> pcFileName c = cleared 500 name ->
  target dir_ok c = Ret (target_path dir_ok path name).
Proof.
  intros Hp Hn Hcp Hcn. unfold target, target_path.
  rewrite Hcp, Hcn, !strlen_field, !outcome_bind_ret by done. rewrite !take_field by done.
  destruct (default [] path); done.
Qed.

Section Transfer.
Variables (q m : nat) (F : list Z).
Hypotheses (Hq : (0 < q)%nat) (Hm : (0 < m)%nat) (HF : (0 < length F)%nat).
Hypothesis Hsize : Z.of_nat (length F) < 2147483647.
Hypothesis Hpage : Z.of_nat (q * m) < 2147483647.
Hypothesis Hmax : Z.of_nat m <= MAX_DATA_SIZE.
#[local] Set Default Proof Using "All".
Abbreviation T := (nPkts q m F).
Abbreviation K := (nMaps q m F).
Abbreviation cnt := (cnt q m F).
Abbreviation pl := (thePlan q m F).

Lemma plan_is_ok : plan_ok pl.
Proof.
  destruct (nPkts_spec q m F Hq Hm HF Hsize Hpage) as ([HT _] & HTe & HT0).
  destruct (nMaps_spec q m F Hq Hm HF Hsize Hpage) as ([HK _] & HKe & HK0).
  destruct (last_len_Z q m F Hq Hm HF Hsize Hpage) as [_ Hll].
  assert (T <= length F)%nat by nia.
  assert (K <= length F)%nat by (unfold page_size in HK; nia).
  unfold plan_ok, is_I32. rewrite HTe, HKe, (last_size q m F Hq Hm HF Hsize Hpage).
  assert (forall k, cnt k <= T)%nat as Hct by (intros k; unfold FilePlan.cnt; lia).
  assert (planPktsPerMMap pl = Z.of_nat (cnt 0) /\ iExtraPktsPerMap pl = 0 \/
    planPktsPerMMap pl = Z.of_nat q /\ (q < T)%nat /\
    0 <= iExtraPktsPerMap pl <= Z.of_nat T) as Hpl.
  { destruct (decide (K = 1%nat)) as [H1|H1]; [left; by apply plan_one|right].
    destruct (plan_many q m F Hq Hm HF Hsize Hpage) as [Hp He]; [lia|].
    destruct (cnt_full q m F Hq Hm HF Hsize Hpage 0) as [_ Hc]; [lia|].
    pose proof (Hct (K - 1)%nat). split_and!; [done|lia|lia|].
    destruct He as [[-> _]|[_ ->]]; lia. }
  pose proof (Hct 0%nat). unfold MAX_DATA_SIZE in Hmax. case_bool_decide; destruct Hpl as [[-> ->]|(-> & ? & ?)];
    split_and!; lia.
Qed.

Abbreviation tag := (tag q m F).
Abbreviation all_missing := (all_missing q m F).

(** The packets of earlier rounds or maps that arrive. *)
Fixpoint stale (k : nat) (c : Z) (rounds : list round) : list tagged :=
  match rounds with
  | [] => []
  | r :: rounds => filter (fun x : tagged => x.1 <> (k, c)) (got r) ++ stale k (c + 1) rounds
  end.

Lemma fresh_sent j c acc g more i :
  acc ++ fresh j c g ++ more ≡ₚ seq 0 (cnt j) -> (cnt j <= nPlan q m F)%nat -> i ∈ fresh j c g ->
  packet q m F j c i ∈ round_packets q m F j c (mark acc all_missing) 0 (cnt j).
Proof.
  intros Hp Hn Hi. unfold round_packets. apply list_elem_of_fmap. exists i. split; [done|].
  assert (Hic : (i < cnt j)%nat).
  { assert (i ∈ acc ++ fresh j c g ++ more) as Hx by set_solver.
    rewrite Hp in Hx. apply elem_of_seq in Hx. lia. }
  apply list_elem_of_filter. split; [|apply elem_of_seq; lia].
  assert (Hnd : NoDup (acc ++ fresh j c g ++ more)) by (rewrite Hp; apply NoDup_seq).
  apply NoDup_app in Hnd as (_ & Hdisj & _).
  assert (i ∉ acc) as Hacc by (intros Hx; apply (Hdisj i Hx); set_solver).
  clear -Hacc Hic Hn. induction acc as [|x acc IH] using rev_ind.
  - apply lookup_replicate_2. lia.
  - rewrite mark_app. cbn. rewrite list_lookup_insert_ne by set_solver. apply IH. set_solver.
Qed.

(** What arrives is stale or has been sent in its round. *)
Lemma arrivals_sent a j c acc rounds d :
  acc ++ mjoin (freshes j c rounds) ≡ₚ seq 0 (cnt j) -> (cnt j <= nPlan q m F)%nat ->
  Datagram a d ∈ arrivals q m F a rounds ->
  (exists x, x ∈ stale j c rounds /\ d = tag x) \/ d ∈ sends q m F j c (mark acc all_missing) rounds.
Proof.
  intros Hp Hn. revert c acc Hp. induction rounds as [|r rounds IH]; intros c acc Hp.
  { by intros ?%not_elem_of_nil. }
  change (mjoin (freshes j c (r :: rounds))) with
    (fresh j c (got r) ++ mjoin (freshes j (c + 1) rounds)) in Hp.
  cbn [arrivals sends stale]. rewrite elem_of_app.
  intros [(d' & [= ->] & (x & -> & Hx)%list_elem_of_fmap)%list_elem_of_fmap|Hin].
  - destruct (decide (x.1 = (j, c))) as [He|He].
    + right. apply elem_of_app. left. apply list_elem_of_join.
      eexists. split; [|by left]. destruct x as [kc i]. cbn [fst] in He. subst kc.
      eapply fresh_sent; [exact Hp|done|]. unfold fresh. apply list_elem_of_fmap.
      exists (j, c, i). split; [done|]. by apply list_elem_of_filter.
    + left. exists x. split; [|done]. apply elem_of_app. left. by apply list_elem_of_filter.
  - destruct rounds as [|r2 rounds]; [by apply not_elem_of_nil in Hin|].
    apply elem_of_cons in Hin as [|Hin]; [done|].
    destruct (IH (c + 1) (acc ++ fresh j c (got r))) as [(x & Hx & ->)|Hs];
      [by rewrite <- app_assoc|exact Hin| |].
    + left. exists x. split; [|done]. apply elem_of_app. by right.
    + right. rewrite mark_app in Hs. apply elem_of_app. by right.
Qed.

Lemma answered_app l1 l2 : answered (l1 ++ l2) = answered l1 ++ answered l2.
Proof. apply omap_app. Qed.

Lemma answered_waits b j c status rounds :
  answered (waits q m F b j c status rounds) = replies q m F j c status rounds.
Proof.
  revert c status. induction rounds as [|r rounds IH]; intros c status; [done|].
  cbn [waits replies]. cbv zeta. rewrite answered_app.
  assert (answered (replicate (touts r) TimedOut) = []) as -> by by induction (touts r).
  destruct rounds as [|r2 rounds]; [done|]. cbn [app]. unfold answered in *. by rewrite <- IH.
Qed.

(** All that arrives, all the sender sends after its handshake, and what its
    waits give. *)
Definition arrive (rs : nat -> list round) (a : Z) : list net_event :=
  mjoin ((fun j => arrivals q m F a (rs j)) <$> seq 0 K).
Definition all_sends (rs : nat -> list round) : list (list Z) :=
  mjoin ((fun j => sends q m F j 1 all_missing (rs j)) <$> seq 0 K).
Definition all_replies (rs : nat -> list round) : list (list Z) :=
  mjoin ((fun j => replies q m F j 1 all_missing (rs j)) <$> seq 0 K).
Definition all_waits (rs : nat -> list round) (b : Z) : list net_event :=
  mjoin ((fun j => waits q m F b j 1 all_missing (rs j)) <$> seq 0 K).

(** The stale packets are packets the sender sent. *)
Definition stale_sent (rs : nat -> list round) : Prop :=
  forall j x, (j < K)%nat -> x ∈ stale j 1 (rs j) -> tag x ∈ all_sends rs.

Lemma answered_all rs b : answered (all_waits rs b) = all_replies rs.
Proof.
  unfold all_waits, all_replies. induction (seq 0 K) as [|j l IH]; [done|].
  cbn [fmap list_fmap mjoin list_join]. rewrite answered_app, answered_waits. by f_equal.
Qed.

Lemma all_arrivals_sent rs a d :
  all_arrive q m F rs -> stale_sent rs -> Datagram a d ∈ arrive rs a -> d ∈ all_sends rs.
Proof.
  intros Hrs Hst. unfold arrive. rewrite list_elem_of_join.
  intros (l & Hd & (j & -> & Hj)%list_elem_of_fmap). apply elem_of_seq in Hj as Hjr.
  destruct (Hrs j) as (_ & _ & Hp); [lia|].
  destruct (nPlan_spec q m F Hq Hm HF Hsize Hpage Hmax true (fun _ => true) (fun _ => true)
    (fun _ => true)) as (_ & Hle & _); [done..|].
  destruct (arrivals_sent a j 1 [] (rs j) d Hp) as [(x & Hx & ->)|Hs]; [apply Hle; lia|done| |].
  - apply (Hst j); [lia|done].
  - apply list_elem_of_join. eexists. split; [exact Hs|].
    apply list_elem_of_fmap. exists j. by split.
Qed.

Lemma fresh_ok_arrive rs j :
  all_arrive q m F rs -> (j < K)%nat -> rs j <> [] /\ fresh_ok q m F j (rs j).
Proof.
  intros Hrs Hj. destruct (Hrs j Hj) as (Hf & Hg & _). split; [by destruct (rs j)|].
  intros c r Hin. rewrite Forall_forall in Hg.
  by apply (fresh_lt q m F Hq Hm HF Hsize Hpage Hmax true (fun _ => true) (fun _ => true)), Hg.
Qed.

End Transfer.

(** A file of five bytes in packets of two and pages of four: three packets in
    two maps.  The first packet is lost; the sender's wait ends, it sends both
    again, and the first now completes the map.  Its second copy of the second
    packet arrives when the next map has begun, which is asked for once more. *)
Definition demo_rounds (k : nat) : list round :=
  match k with
  | O => [MkRound 1 [(0%nat, 1, 1%nat); (0%nat, 1, 0%nat)]]
  | _ => [MkRound 0 [(0%nat, 1, 1%nat)]; MkRound 0 [(1%nat, 2, 0%nat)]]
  end.
Definition demo_file : list Z := [1; 2; 3; 4; 5].
Definition demo_old (path : list Z) : option (list Z) :=
  if bool_decide (path = [46; 47; 98]) then Some [9; 9; 9; 9; 9; 9; 9] else None.

Lemma demo_arrive : all_arrive 2 2 demo_file demo_rounds.
Proof.
  intros j Hj. change (nMaps 2 2 demo_file) with 2%nat in Hj.
  destruct j as [|[|j]]; [| |lia]; split_and!.
  - by exists 0%nat.
  - repeat constructor; unfold tagged_ok, is_I32; cbn [fst snd];
      change (nMaps 2 2 demo_file) with 2%nat; change (cnt 2 2 demo_file 0) with 2%nat; lia.
  - change (mjoin (freshes 0 1 (demo_rounds 0))) with [1%nat; 0%nat].
    change (seq 0 (cnt 2 2 demo_file 0)) with [0%nat; 1%nat]. apply Permutation_swap.
  - by exists 0%nat.
  - repeat constructor; unfold tagged_ok, is_I32; cbn [fst snd];
      change (nMaps 2 2 demo_file) with 2%nat; change (cnt 2 2 demo_file 0) with 2%nat;
      change (cnt 2 2 demo_file 1) with 1%nat; lia.
  - reflexivity.
Qed.

Lemma demo_stale : stale_sent 2 2 demo_file demo_rounds.
Proof.
  intros j x Hj. change (nMaps 2 2 demo_file) with 2%nat in Hj.
  destruct j as [|[|j]]; [| |lia].
  - change (stale 0 1 (demo_rounds 0)) with (@nil tagged). by intros ?%not_elem_of_nil.
  - change (stale 1 1 (demo_rounds 1)) with [(0%nat, 1, 1%nat)].
    intros ->%list_elem_of_singleton. unfold all_sends. apply list_elem_of_join.
    eexists. split; [|apply list_elem_of_fmap; exists 0%nat; split; [reflexivity|]].
    + apply (bool_decide_unpack _). by vm_compute.
    + by left.
Qed.

