(* ===== verification/FileFaults.v ===== *)
(** * What goes wrong in a file transfer

    Duplicated packets, a lost acknowledgement, strange datagrams at the
    listener and a message size that does not divide the page. *)

From S2P Require Import Prelude CTypes FileNet FileSend FileRecv FilePlan.
From S2P Require Import FileSendProofs FileRecvProofs.
#[local] Open Scope Z_scope.

(** ** Lists *)
Lemma length_join_le {A B} (g h : A -> list B) l :
  (forall x, x ∈ l -> (length (g x) <= length (h x))%nat) ->
  (length (mjoin (g <$> l)) <= length (mjoin (h <$> l)))%nat.
Proof.
  induction l as [|x l IH]; intros Hle; [done|]. cbn [fmap list_fmap mjoin list_join].
  rewrite !length_app. apply Nat.add_le_mono; [apply Hle; by left|].
  apply IH. intros y Hy. apply Hle. by right.
Qed.

Lemma length_join_lt {A B} (g h : A -> list B) l x0 :
  (forall x, x ∈ l -> (length (g x) <= length (h x))%nat) ->
  x0 ∈ l -> (length (g x0) < length (h x0))%nat ->
  (length (mjoin (g <$> l)) < length (mjoin (h <$> l)))%nat.
Proof.
  intros Hle Hin Hlt. apply list_elem_of_split in Hin as (l1 & l2 & ->).
  rewrite !fmap_app, !join_app, !length_app. cbn [fmap list_fmap mjoin list_join].
  rewrite !length_app. apply Nat.add_le_lt_mono; [|apply Nat.add_lt_le_mono; [done|]];
    apply length_join_le; intros; apply Hle; set_solver.
Qed.

(** ** The listener *)

(** Whatever arrives at the listener starts a transfer: the header it tests
    is the cleared one it started with, so every datagram, of any type and
    content, makes a thread that treats its first bytes as control data, and a
    failed [recvfrom] makes another one. *)
Theorem any_datagram_starts_a_transfer be events :
  Forall (fun e => e <> SelectFailed true) events ->
  exists threads,
    FileTrans_ProcessRecvMsg be (length events) (MkNet events [] 0) = Ret threads /\
    length threads = length events /\
    Forall (fun t => stPktHdr t = zero_hdr) threads /\
    forall i a d, events !! i = Some (Datagram a d) -> d <> [] ->
      exists t, threads !! i = Some t /\ stClientAddr t = a /\
        argData t = cntrl_of be (take (Z.to_nat SIZEOF_stCntrlData) (cData (msg_of be d))).
Proof.
  intros He. unfold FileTrans_ProcessRecvMsg.
  generalize (replicate (Z.to_nat SIZEOF_stCntrlData) 0) as data. generalize 0 at 1 as from.
  induction He as [|e events Hne He IH]; intros from data.
  { exists []. split_and!; [done|done|constructor|]. intros i a d Hi. by rewrite lookup_nil in Hi. }
  assert (exists r data' from',
    FileTrans_RecvPkt be zero_hdr data SIZEOF_stCntrlData from (MkNet (e :: events) [] 0) =
      Ret (r, zero_hdr, data', from', MkNet events [] 0) /\
    forall a d, e = Datagram a d -> d <> [] ->
      from' = a /\ data' = take (Z.to_nat SIZEOF_stCntrlData) (cData (msg_of be d)))
    as (r & data' & from' & Hr & Hd).
  { unfold FileTrans_RecvPkt. cbn [inbox recv_pkt].
    destruct e as [|[]| |a d]; [..|case_bool_decide as Hd]; try done;
      rewrite outcome_bind_ret; unfold with_inbox; simpl; do 3 eexists; (split; [reflexivity|]);
      intros a' d' [= <- <-]; done. }
  destruct (IH from' data') as (ts & Hts & Hlen & Hz & Hall).
  exists (MkArg from' zero_hdr (cntrl_of be data') :: ts). split_and!.
  - cbn [length process_msgs]. rewrite Hr, !outcome_bind_ret, Hts. done.
  - simpl. by rewrite Hlen.
  - by constructor.
  - intros [|i] a d Hi Hnd; simpl in Hi.
    + injection Hi as ->. destruct (Hd a d eq_refl Hnd) as [-> ->]. eexists. by split.
    + by apply Hall.
Qed.

Lemma any_datagram_starts_a_transfer_witness :
  exists threads,
    FileTrans_ProcessRecvMsg false 2 (MkNet [RecvFailed false; Datagram 5 [1; 2; 3]] [] 0) =
      Ret threads /\
    length threads = 2%nat.
Proof.
  destruct (any_datagram_starts_a_transfer false [RecvFailed false; Datagram 5 [1; 2; 3]])
    as (ts & H1 & H2 & _); [by repeat constructor|].
  exists ts. exact (conj H1 H2).
Defined.

(** ** The message size *)
Section Overrun.
Variables (be : bool) (ok mem : nat -> bool) (mmap_ok : Z -> bool).
Hypotheses (Hok : forall k, ok k = true) (Hmem : forall k, mem k = true).
Hypothesis Hmmap : forall k, mmap_ok k = true.
Variable m : Z.
Hypothesis Hm : 0 < m <= MAX_DATA_SIZE.
#[local] Set Default Proof Using "All".

Lemma send_packets_overrun r page status seq last total off i lastno w :
  (forall j, i <= Z.of_nat j < i + Z.of_nat r -> status !! j = Some missing) -> 0 <= i ->
  0 <= off <= Z.of_nat (length page) -> Z.of_nat (length page) < off + Z.of_nat r * m ->
  lastno + Z.of_nat r < total ->
  send_packets be ok r page status seq m last total (i + 1) off lastno w = Crash.
Proof.
  revert off i lastno w. induction r as [|r IH]; intros off i lastno w Hst Hi Hoff Hpage Hl; [lia|].
  cbn [send_packets]. replace (i + 1 - 1) with i by lia.
  rewrite (Hst (Z.to_nat i)) by lia. change (missing =? missing) with true. cbv iota.
  rewrite (proj2 (Z.eqb_neq (lastno + 1) total)) by lia. cbn [andb].
  rewrite (proj2 (Z.leb_le 0 m)), (proj2 (Z.leb_le m (m + 1))) by lia. cbn [andb].
  destruct (Z.leb_spec (off + m) (Z.of_nat (length page))) as [Hfit|]; [|done].
  unfold FileTrans_SendPkt. rewrite put_data_ok;
    [|lia|rewrite length_take, length_drop; lia].
  rewrite outcome_bind_ret, sendto_all by done. simpl mret. rewrite outcome_bind_ret.
  rewrite bool_decide_eq_true_2 by done. cbn [negb].
  apply IH; [|lia..]. intros j Hj. apply Hst. lia.
Qed.

(** A message size that does not divide the page makes the sender copy past
    the end of the mapping of the first page of a longer file. *)
Theorem message_size_must_divide_page P F fuel w :
  0 < P -> Z.rem P m <> 0 -> P + m <= Z.of_nat (length F) < 2147483647 ->
  FileTransfer_SendData be ok mem true mmap_ok (S fuel) F P m
    (make_plan (Z.of_nat (length F)) P m) w = Crash.
Proof.
  intros HP Hrem HF. set (pl := make_plan _ _ _).
  assert (Hpp : planPktsPerMMap pl = quot_up P m).
  { unfold pl. simpl. by rewrite (proj2 (Z.leb_gt _ _)) by lia. }
  destruct (quot_up_spec P m) as [Hr1 Hq1]; [lia..|].
  destruct (quot_up_spec (Z.of_nat (length F)) m) as [Hr2 Hq2]; [lia..|].
  destruct (quot_up_spec (Z.of_nat (length F)) P) as [Hr3 Hq3]; [lia..|].
  set (n := quot_up P m) in *. set (T := quot_up (Z.of_nat (length F)) m) in *.
  assert (HT : iTotNoOfPkts pl = T) by done.
  assert (HK : iNoOfMappingNeeded pl = quot_up (Z.of_nat (length F)) P) by done.
  assert (HnT : n < T) by nia.
  assert (Hover : P < n * m).
  { assert (P <> n * m); [|lia]. intros He. apply Hrem. rewrite He, Z.rem_mod_nonneg by lia.
    by rewrite Z_mod_mult. }
  unfold FileTransfer_SendData. rewrite Hmmap, Hpp, (proj2 (Z.ltb_ge _ _)) by lia. cbn [negb orb].
  cbn [send_maps start_send iMmapCntr iNoOfRetries sendStatus sendSeq curPktsPerMMap iLastPktNo].
  rewrite HK, (proj2 (Z.ltb_lt _ _)) by nia. cbn [negb].
  change (MAX_NO_OF_RETRIES <? 0) with false. cbv iota.
  unfold FileTrans_SendActualData. rewrite Hmem, (proj2 (Z.ltb_ge _ _)) by lia. cbn [negb orb].
  rewrite Hpp, HT. erewrite (send_packets_overrun _ _ _ _ _ T 0 0);
    [reflexivity|..]; unfold page_of; rewrite ?length_cleared; try lia.
  intros j Hj. apply lookup_replicate_2. lia.
Qed.
End Overrun.

Lemma message_size_must_divide_page_witness :
  FileTransfer_SendData false (fun _ => true) (fun _ => true) true (fun _ => true) 9
    [1; 2; 3; 4; 5; 6; 7] 4 3 (make_plan 7 4 3) (MkNet [] [] 0) = Crash.
Proof.
  exact (message_size_must_divide_page false (fun _ => true) (fun _ => true) (fun _ => true)
    (fun _ => eq_refl) (fun _ => eq_refl) (fun _ => eq_refl) 3 ltac:(by vm_compute) 4
    [1; 2; 3; 4; 5; 6; 7] 8 (MkNet [] [] 0) ltac:(lia) ltac:(by vm_compute) ltac:(simpl; lia)).
Defined.

(** ** Packets and acknowledgements *)
Section Faults.
Variables (q m : nat) (F : list Z).
Hypotheses (Hq : (0 < q)%nat) (Hm : (0 < m)%nat) (HF : (0 < length F)%nat).
Hypothesis Hsize : Z.of_nat (length F) < 2147483647.
Hypothesis Hpage : Z.of_nat (q * m) < 2147483647.
Hypothesis Hmax : Z.of_nat m <= MAX_DATA_SIZE.
Variables (be : bool) (ok mem : nat -> bool).
Hypotheses (Hok : forall k, ok k = true) (Hmem : forall k, mem k = true).
Variable mmap_ok : Z -> bool.
Hypothesis Hmmap : forall k, mmap_ok k = true.
#[local] Set Default Proof Using "All".
Abbreviation K := (nMaps q m F).
Abbreviation cnt := (cnt q m F).
Abbreviation pl := (thePlan q m F).
Abbreviation packet := (packet q m F).
Abbreviation piece := (piece q m F).
Abbreviation all_missing := (all_missing q m F).
Abbreviation recv_in := (recv_in q m F).
Abbreviation agrees := (agrees q m F).

Lemma recv_at_in k t file pos : recv_at q m F k t file pos = recv_in k 1 t [] file pos.
Proof. unfold recv_at, FileRecvProofs.recv_in. simpl. by rewrite Z.sub_0_r. Qed.

(** A packet that arrives twice counts twice.  A round that brings as many
    datagrams as a map has packets completes the map even when one of its packets
    never came: the receiver acknowledges, reports success and leaves a file that
    is shorter than the one sent, with the bytes after the hole moved down. *)
Theorem duplicate_packets_hide_losses fuel mem_ok dir_ok old path oldb c a l i0 w :
  K = 1%nat -> agrees (host_cntrl be c) -> (forall k, mem_ok k = true) ->
  target dir_ok (host_cntrl be c) = Ret path -> old path = Some oldb ->
  Forall (fun i => (i < cnt 0)%nat) l -> length l = cnt 0 -> (i0 < cnt 0)%nat -> i0 ∉ l ->
  inbox w = Datagram a <$> (packet 0 1 <$> l) ->
  let data := mjoin ((fun i => if decide (i ∈ l) then chunk m F i else []) <$> seq 0 (cnt 0)) in
  FileTrans_HandleDataPkt be ok mem (S fuel) mem_ok dir_ok old c 0 w =
  Ret (NASC_SUCCESS, Some (data ++ drop (length data) oldb),
       sent_more (with_inbox w []) [ack_msg 0 1]) /\
  (length data < length F)%nat.
Proof.
  intros HK Hcc Hmok Hpath Hold Hl Hlen Hi0 Hni Hw data.
  assert (Hall : chunks m F 0 (cnt 0) = F).
  { destruct (cnt_last q m F Hq Hm HF Hsize Hpage) as [Hc _]. rewrite HK in Hc. simpl in Hc. rewrite Hc.
    apply (chunks_all m Hm). by apply nPkts_spec. }
  split.
  - rewrite (HandleDataPkt_start q m F Hq Hm HF Hsize Hpage Hmax be ok mem Hok Hmem
      (S fuel) mem_ok dir_ok old path oldb) by done.
    rewrite recv_at_in, (recv_finish q m F Hq Hm HF Hsize Hpage Hmax be ok mem Hok Hmem fuel a
      (host_cntrl be c) 0 1 0 [] l oldb 0 []) by
      (done || (simpl; lia) || (by rewrite app_nil_r) || (by rewrite HK; lia)).
    cbv zeta. rewrite bool_decide_eq_true_2 by lia. cbn [app]. reflexivity.
  - replace (length F) with (length (chunks m F 0 (cnt 0))) by (by rewrite Hall).
    unfold data, chunks. apply length_join_lt with i0.
    + intros i _. case_decide; simpl; lia.
    + apply elem_of_seq. lia.
    + rewrite decide_False by done. simpl. unfold FilePlan.cnt in Hi0.
      rewrite (chunk_len q m F) by (done || lia).
      destruct (last_len_Z q m F Hq Hm HF Hsize Hpage) as [_ ?]. case_bool_decide; lia.
Qed.

(** A packet of another map leaves no trace. *)
Lemma recv_data_stale k c a l loop expected n sc evs :
  (0 < K)%nat -> (1 <= k)%nat -> loop < expected -> Forall (fun i => (i < cnt 0)%nat) l ->
  recv_data be mem loop expected n (MkSeq (Z.of_nat k + 1) c) sc
    ((Datagram a <$> (packet 0 1 <$> l)) ++ evs) =
  recv_data be mem loop expected n (MkSeq (Z.of_nat k + 1) c) sc evs.
Proof.
  intros HK Hk Hlt. induction 1 as [|i l Hi Hl IH]; [done|]. cbn [fmap list_fmap app recv_data].
  rewrite (proj2 (Z.leb_gt _ _)) by lia. rewrite bool_decide_eq_false_2 by apply wire_nonempty.
  pose proof (chunk_length m Hm F (0 * q + i)) as Hcl. unfold MAX_DATA_SIZE in Hmax.
  destruct (msg_of_wire be (MkHdr DATA 0 (Z.of_nat (0 * q + i) + 1) (Z.of_nat 0 + 1) 1)
    (Z.of_nat (length (chunk m F (0 * q + i)))) (chunk m F (0 * q + i))) as (Hh & Hlen & Hdata);
    [by apply (packet_hdr_ok q m F Hq Hm HF Hsize Hpage Hmax be ok mem)|unfold is_I32; lia|].
  change (packet 0 1 i) with (wire (MkHdr DATA 0 (Z.of_nat (0 * q + i) + 1) (Z.of_nat 0 + 1) 1)
    (Z.of_nat (length (chunk m F (0 * q + i)))) (chunk m F (0 * q + i))).
  rewrite Hh. unfold take_data. rewrite Hlen, Hmem.
  rewrite (proj2 (Z.ltb_ge _ (-1))) by lia. rewrite (proj2 (Z.leb_le 0 (Z.of_nat _))) by lia.
  rewrite (proj2 (Z.leb_le _ MAX_DATA_SIZE)) by (unfold MAX_DATA_SIZE; lia).
  cbn [orb negb andb]. rewrite outcome_bind_ret.
  cbn [ePktType iMmapNo iCorrelater iPktNo seqMmapNo seqCorrelater].
  rewrite (proj2 (Z.eqb_neq (Z.of_nat 0 + 1) _)) by lia. rewrite andb_false_r. cbn [andb]. exact IH.
Qed.

Definition late_events (a : Z) (late : list (list nat)) : list net_event :=
  mjoin ((fun l => (Datagram a <$> (packet 0 1 <$> l)) ++ [TimedOut]) <$> late).
Definition nacks (k : nat) (c : Z) (n : nat) : list (list Z) :=
  (fun j => nack_msg q m F k (c + Z.of_nat j) all_missing) <$> seq 0 n.

Lemma nacks_S k c n : nacks k c (S n) = nack_msg q m F k c all_missing :: nacks k (c + 1) n.
Proof.
  unfold nacks. cbn [seq fmap list_fmap]. rewrite Z.add_0_r. f_equal.
  rewrite <- fmap_S_seq, <- list_fmap_compose. apply list_fmap_ext. intros j x _. simpl.
  f_equal. lia.
Qed.

(** The receiver alone in map [k]: it asks again and again, and gives up. *)
Lemma recv_alone cc k c t a file pos late rest fuel w :
  agrees cc -> (1 <= k < K)%nat -> (q <= 1100)%nat -> 0 <= t -> 0 <= c <= 1 + t ->
  t + Z.of_nat (length late) = 6 -> (0 < length late)%nat ->
  Forall (Forall (fun i => (i < cnt 0)%nat)) late ->
  inbox w = late_events a late ++ rest ->
  recv_maps be ok mem (length late + fuel) cc 0 (recv_in k c t [] file pos) w =
  Ret (NASC_FILE_TRANS_TIME_OUT, file,
       sent_more (with_inbox w rest) (nacks k c (length late - 1))).
Proof.
  intros Hcc Hk Hq2. revert c t w. induction late as [|l late IH]; [simpl; lia|].
  intros c t w Ht Hc Hlen _ [Hl Hlate]%Forall_cons Hw. cbn [length] in Hlen.
  set (evs := late_events a late ++ rest).
  assert (Hskip : recv_maps be ok mem (S (length late + fuel)) cc 0 (recv_in k c t [] file pos) w =
    recv_maps be ok mem (S (length late + fuel)) cc 0 (recv_in k c t [] file pos)
      (with_inbox w (TimedOut :: evs))).
  { cbn [recv_maps]. f_equal. unfold FileTrans_RecvDataPkt. rewrite Hw.
    unfold late_events. cbn [fmap list_fmap mjoin list_join]. rewrite <- !app_assoc.
    rewrite (recv_data_stale k c a l); [done|lia|lia| |done].
    pose proof (maps_pkts q m F Hq Hm HF Hsize Hpage k). cbn. unfold FilePlan.cnt. lia. }
  cbn [length Nat.add]. rewrite Hskip.
  destruct (decide (t = 5)) as [->|Ht5].
  - destruct late; [|cbn [length] in Hlen; lia]. cbn [recv_maps].
    unfold FileTrans_RecvDataPkt. cbn [with_inbox inbox recv_data].
    pose proof (maps_pkts q m F Hq Hm HF Hsize Hpage k).
    cbn [FileRecvProofs.recv_in iNoOfPktsExpected].
    rewrite (proj2 (Z.leb_gt _ _)) by (simpl; unfold FilePlan.cnt; lia).
    rewrite !outcome_bind_ret. cbn [iNoOfTimeOuts rs_file]. change (MAX_NO_OF_RETRIES <? 5 + 1) with true.
    cbv iota. unfold nacks. simpl. by rewrite sent_more_nil.
  - rewrite (recv_more q m F Hq Hm HF Hsize Hpage Hmax be ok mem Hok Hmem (length late + fuel) a cc k c t
      [] [] (seq 0 (cnt k)) file pos evs (with_inbox w (TimedOut :: evs))); try done; try lia.
    + rewrite IH by (done || lia). simpl Nat.sub. destruct (length late) as [|n] eqn:Hn; [lia|].
      rewrite Nat.sub_0_r, nacks_S. simpl Nat.sub. rewrite Nat.sub_0_r.
      by rewrite sent_more_inbox, sent_more_app, !inbox_inbox.
    + unfold is_I32. lia.
    + rewrite length_seq. pose proof (maps_pkts q m F Hq Hm HF Hsize Hpage k). unfold FilePlan.cnt. lia.
Qed.

(** The sender alone in the first map, while the receiver asks for the second. *)
Definition noise_events (b : Z) (noise : list (list Z)) : list net_event :=
  mjoin ((fun l => (Datagram b <$> ((fun c => nack_msg q m F 1 c all_missing) <$> l)) ++ [TimedOut]) <$> noise).

Lemma noise_cons b l noise rest : noise_events b (l :: noise) ++ rest =
  (Datagram b <$> ((fun c => nack_msg q m F 1 c all_missing) <$> l)) ++
  TimedOut :: noise_events b noise ++ rest.
Proof.
  unfold noise_events. cbn [fmap list_fmap mjoin list_join]. by rewrite <- !app_assoc.
Qed.

Lemma recv_ack_noise h b from (l : list Z) rest :
  (1 < K)%nat -> (q <= 1100)%nat -> Forall is_I32 l ->
  exists h' from',
  recv_ack be 1 1 h (Some all_missing) from
    ((Datagram b <$> ((fun c => nack_msg q m F 1 c all_missing) <$> l)) ++ TimedOut :: rest) =
  Ret (MkAck NASC_FILE_TRANS_TIME_OUT h' (Some all_missing) from', rest).
Proof.
  intros HK Hq2 Hl. revert h from. induction Hl as [|c l Hc Hl IH]; intros h from.
  { do 2 eexists. reflexivity. }
  cbn [fmap list_fmap app recv_ack]. rewrite bool_decide_eq_false_2 by apply wire_nonempty.
  destruct (nPlan_spec q m F Hq Hm HF Hsize Hpage Hmax be ok mem mmap_ok) as (_ & Hle & _); [done..|].
  assert (Hcnt : (cnt 1 <= 1100)%nat) by (unfold FilePlan.cnt; lia). specialize (Hle 1%nat HK).
  assert (Hhdr : hdr_ok (MkHdr DATA_NEG_ACK 0 0 (Z.of_nat 1 + 1) c)).
  { by apply (small_hdr q m F Hq Hm HF Hsize Hpage Hmax be ok mem mmap_ok). }
  assert (Hlen : length (take (cnt 1) all_missing) = cnt 1).
  { unfold FileSendProofs.all_missing. rewrite length_take, length_replicate. lia. }
  change (nack_msg q m F 1 c all_missing) with (wire (MkHdr DATA_NEG_ACK 0 0 (Z.of_nat 1 + 1) c)
    (Z.of_nat (cnt 1)) (take (cnt 1) all_missing)). rewrite copy_wire; [|done|unfold MAX_DATA_SIZE; lia| |by rewrite Hlen, Nat2Z.id].
  2:{ unfold FileSendProofs.all_missing. rewrite length_replicate. lia. }
  cbn [fmap outcome_fmap]. rewrite outcome_bind_ret.
  destruct (msg_of_wire be (MkHdr DATA_NEG_ACK 0 0 (Z.of_nat 1 + 1) c) (Z.of_nat (cnt 1))
    (take (cnt 1) all_missing)) as (Hh & _); [done|unfold is_I32; lia|].
  rewrite Hh. cbn [iMmapNo iCorrelater]. change (Z.of_nat 1 + 1 =? 1) with false. cbn [andb].
  rewrite Nat2Z.id, take_drop. apply IH.
Qed.

Lemma full_round : round_packets q m F 0 1 all_missing 0 (cnt 0) = packet 0 1 <$> seq 0 (cnt 0).
Proof.
  unfold round_packets. rewrite filter_all; [done|]. intros i Hi%elem_of_seq.
  destruct (nPlan_spec q m F Hq Hm HF Hsize Hpage Hmax be ok mem mmap_ok) as (_ & Hle & _); [done..|].
  specialize (Hle 0%nat ltac:(destruct (nMaps_spec q m F Hq Hm HF Hsize Hpage) as (_ & _ & ?); lia)).
  apply lookup_replicate_2. lia.
Qed.

Lemma send_alone noise fuel b r rest w :
  (1 < K)%nat -> (q <= 1100)%nat -> 0 <= r -> r + Z.of_nat (length noise) = 6 ->
  Forall (Forall is_I32) noise -> inbox w = noise_events b noise ++ rest ->
  send_maps be ok mem mmap_ok (length noise + S fuel) F (Z.of_nat (page_size q m)) (Z.of_nat m) pl
    (MkSend r 0 0 (Z.of_nat (cnt 0)) all_missing (MkSeq 1 1)) w =
  Ret (NASC_FAILURE, sent_more (with_inbox w rest)
         (mjoin (replicate (length noise) (packet 0 1 <$> seq 0 (cnt 0))))).
Proof.
  intros HK Hq2. destruct (nMaps_spec q m F Hq Hm HF Hsize Hpage) as (_ & HKn & _).
  destruct (nPlan_spec q m F Hq Hm HF Hsize Hpage Hmax be ok mem mmap_ok) as (_ & Hle & _); [done..|].
  specialize (Hle 0%nat ltac:(lia)).
  revert r w. induction noise as [|l noise IH]; intros r w Hr Hlen Hn Hw.
  - cbn [length] in *. cbn [Nat.add send_maps iMmapCntr iNoOfRetries].
    rewrite HKn, (proj2 (Z.ltb_lt _ _)) by lia. cbn [negb].
    replace r with 6 by lia. change (MAX_NO_OF_RETRIES <? 6) with true. cbv iota.
    change (inbox w = rest) in Hw. rewrite <- Hw. destruct w as [i s t]. unfold sent_more, with_inbox. simpl. by rewrite app_nil_r, Nat.add_0_r.
  - cbn [length] in *. apply Forall_cons in Hn as [Hl Hn].
    cbn [Nat.add send_maps iMmapCntr iNoOfRetries sendStatus sendSeq curPktsPerMMap iLastPktNo].
    rewrite HKn, (proj2 (Z.ltb_lt _ _)) by lia.
    rewrite (proj2 (Z.ltb_ge _ _)) by (unfold MAX_NO_OF_RETRIES; lia). cbn [negb].
    pose proof (SendActualData_spec q m F Hq Hm HF Hsize Hpage Hmax be ok mem mmap_ok Hok Hmem Hmmap 0 1
      all_missing w ltac:(unfold FileSendProofs.all_missing; rewrite length_replicate; lia)) as Hsend.
    change (Z.of_nat 0) with 0 in Hsend. change (Z.of_nat (0 * q)) with 0 in Hsend.
    change (0 + 1) with 1 in Hsend. rewrite Hsend.
    rewrite outcome_bind_ret, bool_decide_eq_true_2 by done. cbn [negb seqMmapNo seqCorrelater].
    rewrite full_round. unfold FileTrans_RecvAck. cbn [sent_more inbox]. rewrite Hw.
    rewrite noise_cons.
    destruct (recv_ack_noise zero_hdr b None l (noise_events b noise ++ rest) HK Hq2 Hl)
      as (h' & from' & Hr').
    rewrite Hr', !outcome_bind_ret.
    cbn [ack_data default ack_status]. unfold with_status. cbn [iMmapCntr iLastPktNo curPktsPerMMap
      iNoOfRetries sendSeq]. unfold id. rewrite IH; [|lia|lia|done|reflexivity].
    rewrite sent_more_inbox. cbn [replicate mjoin list_join]. by rewrite sent_more_inbox, sent_more_app.
Qed.

(** The loss of one acknowledgement ends a transfer of more than a page.  The
    receiver has all packets of the first map, writes them and asks for the
    second map; the sender, whose acknowledgement is lost, repeats the first.
    Neither takes notice of the other: whatever of the repeated packets and of
    the requests arrives, after six rounds the sender reports a failure and the
    receiver a time-out, and the target holds the first page of the file. *)
Theorem lost_ack_is_fatal mem_ok dir_ok old path oldb c a b late noise wr ws :
  (1 < K)%nat -> (q <= 1100)%nat ->
  agrees (host_cntrl be c) -> (forall k, mem_ok k = true) ->
  target dir_ok (host_cntrl be c) = Ret path -> old path = Some oldb ->
  length late = 6%nat -> Forall (Forall (fun i => (i < cnt 0)%nat)) late ->
  length noise = 6%nat -> Forall (Forall (fun x => 1 <= x <= 5)) noise ->
  inbox wr = (Datagram a <$> (packet 0 1 <$> seq 0 (cnt 0))) ++ late_events a late ->
  inbox ws = noise_events b noise ->
  FileTrans_HandleDataPkt be ok mem 7 mem_ok dir_ok old c 0 wr =
    Ret (NASC_FILE_TRANS_TIME_OUT, Some (take (q * m) F ++ drop (q * m) oldb),
         sent_more (with_inbox wr []) (ack_msg 0 1 :: nacks 1 1 5)) /\
  FileTransfer_SendData be ok mem true mmap_ok 7 F (Z.of_nat (page_size q m)) (Z.of_nat m) pl ws =
    Ret (NASC_FAILURE, sent_more (with_inbox ws [])
           (mjoin (replicate 6 (packet 0 1 <$> seq 0 (cnt 0))))).
Proof.
  intros HK Hq2 Hcc Hmok Hpath Hold Hlen1 Hlate Hlen2 Hnoise Hwr Hws.
  destruct (nPlan_spec q m F Hq Hm HF Hsize Hpage Hmax be ok mem mmap_ok) as (HnP & _); [done..|].
  destruct (cnt_full q m F Hq Hm HF Hsize Hpage 0) as [Hc0 _]; [lia|]. split.
  - rewrite (HandleDataPkt_start q m F Hq Hm HF Hsize Hpage Hmax be ok mem Hok Hmem
      7 mem_ok dir_ok old path oldb) by done.
    rewrite recv_at_in, (recv_last q m F Hq Hm HF Hsize Hpage Hmax be ok mem Hok Hmem 6 a
      (host_cntrl be c) 0 1 0 [] (seq 0 (cnt 0)) oldb 0 (late_events a late))
      by (done || lia || (unfold is_I32; lia)).
    cbv zeta. rewrite bool_decide_eq_false_2 by lia. rewrite recv_at_in.
    replace 6%nat with (length late + 0)%nat by lia.
    rewrite (recv_alone _ 1 1 0 a _ _ late []) by (done || lia || (simpl; by rewrite app_nil_r)).
    rewrite outcome_bind_ret, Hlen1. simpl mret. rewrite sent_more_inbox, sent_more_app, inbox_inbox.
    do 4 f_equal. rewrite Hc0. change (chunks m F (0 * q) q) with (chunks m F 0 q).
    rewrite chunks_take by done. unfold write_at.
    destruct (nMaps_spec q m F Hq Hm HF Hsize Hpage) as ([? _] & _ & _).
    assert (length (take (q * m) F) = q * m)%nat as ->; [|done].
    rewrite length_take. unfold page_size in *. nia.
  - unfold FileTransfer_SendData. rewrite Hmmap, HnP, (proj2 (Z.ltb_ge _ _)) by lia. cbn [negb orb].
    rewrite (start_state_at q m F Hq Hm HF Hsize Hpage Hmax be ok mem mmap_ok) by done.
    change (state_at q m F 0) with (MkSend 0 0 0 (Z.of_nat (cnt 0)) all_missing (MkSeq 1 1)).
    replace 7%nat with (length noise + 1)%nat by lia.
    rewrite (send_alone noise 0 b 0 [] ws); [by rewrite Hlen2|done|done|lia|lia| |].
    + eapply Forall_impl; [exact Hnoise|]. intros l Hl. eapply Forall_impl; [exact Hl|].
      intros x Hx. simpl in Hx. unfold is_I32. lia.
    + by rewrite app_nil_r.
Qed.
End Faults.

(** Five bytes in packets of two. *)
Definition five : list Z := [1; 2; 3; 4; 5].
Definition five_cntrl (q : nat) : stCntrlData :=
  let pl := thePlan q 2 five in
  MkCntrl 0 (iTotNoOfPkts pl) (iNoOfMappingNeeded pl) (planPktsPerMMap pl) (iExtraPktsPerMap pl) 2
    (iLastPktSize pl) (cleared 500 []) (cleared 500 [98]).

(** The first packet comes twice, the second not at all. *)
Lemma duplicate_packets_hide_losses_witness :
  FileTrans_HandleDataPkt true (fun _ => true) (fun _ => true) 1 (fun _ => true) true
    (fun _ => Some []) (five_cntrl 4) 0
    (MkNet (Datagram 7 <$> (packet 4 2 five 0 1 <$> [0%nat; 0%nat; 2%nat])) [] 0) =
  Ret (NASC_SUCCESS, Some [1; 2; 5], MkNet [] [ack_msg 0 1] 1).
Proof.
  exact (proj1 (duplicate_packets_hide_losses 4 2 five ltac:(lia) ltac:(lia) ltac:(simpl; lia)
    ltac:(by vm_compute) ltac:(by vm_compute) ltac:(by vm_compute) true (fun _ => true)
    (fun _ => true) (fun _ => eq_refl) (fun _ => eq_refl) (fun _ => true) (fun _ => eq_refl)
    0 (fun _ => true) true (fun _ => Some []) [46; 47; 98] [] (five_cntrl 4) 7
    [0%nat; 0%nat; 2%nat] 1%nat (MkNet (Datagram 7 <$> (packet 4 2 five 0 1 <$> [0%nat; 0%nat; 2%nat])) [] 0)
    ltac:(by vm_compute) ltac:(by vm_compute) (fun _ => eq_refl) ltac:(by vm_compute) eq_refl
    ltac:(repeat constructor; vm_compute; lia) ltac:(by vm_compute) ltac:(vm_compute; lia)
    ltac:(set_solver) eq_refl)).
Defined.

(** One lost packet is enough.  Of the three packets of the file the second is
    lost; the sender's wait of 5 s ends before the receiver's of 7 s, so that no
    request comes and it sends all three again; the first of them completes the
    map for the receiver, which acknowledges.  Both sides report success, and the
    file has lost two of its five bytes. *)
Example loss_corrupts_the_file :
  let sent := packet 4 2 five 0 1 <$> [0%nat; 1%nat; 2%nat; 0%nat; 1%nat; 2%nat] in
  FileTransfer_SendData true (fun _ => true) (fun _ => true) true (fun _ => true) 2 five 8 2
    (thePlan 4 2 five) (MkNet [TimedOut; Datagram 8 (ack_msg 0 1)] [] 0) =
    Ret (NASC_SUCCESS, MkNet [] sent 6) /\
  FileTrans_HandleDataPkt true (fun _ => true) (fun _ => true) 1 (fun _ => true) true
    (fun _ => Some []) (five_cntrl 4) 0
    (MkNet (Datagram 7 <$> (packet 4 2 five 0 1 <$> [0%nat; 2%nat; 0%nat])) [] 0) =
    Ret (NASC_SUCCESS, Some [1; 2; 5], MkNet [] [ack_msg 0 1] 1).
Proof. vm_compute. by split. Qed.

Lemma lost_ack_is_fatal_witness :
  let late := replicate 6 [1%nat] in
  let noise := [[]; [1]; [2]; [3]; [4]; [5]] in
  FileTrans_HandleDataPkt true (fun _ => true) (fun _ => true) 7 (fun _ => true) true
    (fun _ => Some []) (five_cntrl 2) 0
    (MkNet ((Datagram 7 <$> (packet 2 2 five 0 1 <$> seq 0 2)) ++ late_events 2 2 five 7 late) [] 0) =
  Ret (NASC_FILE_TRANS_TIME_OUT, Some [1; 2; 3; 4], MkNet [] (ack_msg 0 1 :: nacks 2 2 five 1 1 5) 6) /\
  FileTransfer_SendData true (fun _ => true) (fun _ => true) true (fun _ => true) 7 five 4 2
    (thePlan 2 2 five) (MkNet (noise_events 2 2 five 8 noise) [] 0) =
  Ret (NASC_FAILURE, MkNet [] (mjoin (replicate 6 (packet 2 2 five 0 1 <$> seq 0 2))) 12).
Proof.
  exact (lost_ack_is_fatal 2 2 five ltac:(lia) ltac:(lia) ltac:(simpl; lia)
    ltac:(by vm_compute) ltac:(by vm_compute) ltac:(by vm_compute) true (fun _ => true)
    (fun _ => true) (fun _ => eq_refl) (fun _ => eq_refl) (fun _ => true) (fun _ => eq_refl)
    (fun _ => true) true (fun _ => Some []) [46; 47; 98] [] (five_cntrl 2) 7 8
    (replicate 6 [1%nat]) [[]; [1]; [2]; [3]; [4]; [5]]
    (MkNet ((Datagram 7 <$> (packet 2 2 five 0 1 <$> seq 0 2)) ++ late_events 2 2 five 7 (replicate 6 [1%nat])) [] 0)
    (MkNet (noise_events 2 2 five 8 [[]; [1]; [2]; [3]; [4]; [5]]) [] 0)
    ltac:(vm_compute; lia) ltac:(lia) ltac:(by vm_compute) (fun _ => eq_refl) ltac:(by vm_compute) eq_refl
    eq_refl ltac:(repeat constructor) eq_refl ltac:(repeat constructor; lia) eq_refl eq_refl).
Defined.
