(* ===== verification/CText.v ===== *)
(** * Text in memory

    Characters are the integers 0..255.  A C object is the list of its bytes
    from its first to its last; reading or writing outside it is undefined.
    The second part has Internet addresses. *)

From Stdlib Require Import Ascii String.
From S2P Require Import Prelude CTypes.
From stdpp Require Import list.

#[local] Open Scope Z_scope.

Abbreviation text := (list Z).

(** A string literal of the source. *)
Definition text_of (s : string) : text :=
  map (fun c => Z.of_nat (nat_of_ascii c)) (list_ascii_of_string s).

(** A decidable fact about concrete values. *)
Ltac decided :=
  match goal with |- ?P => apply (bool_decide_eq_true_1 P); vm_compute; reflexivity end.

(** ** Strings in a buffer *)
Definition nonzero (s : text) : Prop := Forall (fun c => c <> 0) s.

(** The C string at an offset. *)
Definition get_str (m : list Z) (off : nat) : outcome text :=
  n ← strlen (drop off m); mret (take n (drop off m)).

(** [memcpy] into a buffer. *)
Definition poke (m : list Z) (off : nat) (s : text) : outcome (list Z) :=
  if bool_decide (off + length s <= length m)%nat
  then mret (take off m ++ s ++ drop (off + length s) m)
  else Crash.

Definition strcpy (m : list Z) (off : nat) (s : text) : outcome (list Z) := poke m off (s ++ [0]).

(** [strncmp (s, prefix, strlen (prefix)) == 0]; the end of [s] differs from
    every character of the prefix. *)
Fixpoint has_prefix (prefix s : text) : bool :=
  match prefix, s with
  | [], _ => true
  | a :: prefix, b :: s => (a =? b) && has_prefix prefix s
  | _ :: _, [] => false
  end.

(** ** Numbers *)

(** [%lu], for numbers of at most so many digits. *)
Fixpoint dec_digits (fuel : nat) (x : Z) : text :=
  match fuel with
  | O => []
  | S fuel => (if x <? 10 then [] else dec_digits fuel (x / 10)) ++ [48 + x mod 10]
  end.
Definition dec_u (x : Z) : text := dec_digits 20 x.
(** [%ld] *)
Definition dec (x : Z) : text := if x <? 0 then 45 :: dec_u (- x) else dec_u x.

Definition isdigit (c : Z) : bool := (48 <=? c) && (c <=? 57).
Definition isspace (c : Z) : bool := (c =? 32) || ((9 <=? c) && (c <=? 13)).

Fixpoint digits_value (acc : Z) (s : text) : Z :=
  match s with
  | [] => acc
  | c :: s => if isdigit c then digits_value (10 * acc + (c - 48)) s else acc
  end.

(** The integer a string starts with, after white space. *)
Fixpoint number (s : text) : Z :=
  match s with
  | [] => 0
  | c :: rest =>
      if isspace c then number rest
      else if c =? 45 then - digits_value 0 rest
      else if c =? 43 then digits_value 0 rest
      else digits_value 0 s
  end.

Section Long.
(** The width of [long]: 32 or 64. *)
Variable lw : Z.

(** What [%ld] shows of an [unsigned long]. *)
Definition as_long (x : Z) : Z := (x + 2 ^ (lw - 1)) mod 2 ^ lw - 2 ^ (lw - 1).

(** [strtol] stops at the bounds of [long]; [atoi] converts its result. *)
Definition atol (s : text) : Z := Z.max (- 2 ^ (lw - 1)) (Z.min (2 ^ (lw - 1) - 1) (number s)).
Definition atoi (s : text) : Z := I32 (atol s).
Definition strtoul (s : text) : Z :=
  let v := number s in if 2 ^ lw <=? Z.abs v then 2 ^ lw - 1 else v mod 2 ^ lw.
End Long.

(** ** Facts *)
Lemma nonzero_app s t : nonzero (s ++ t) <-> nonzero s /\ nonzero t.
Proof. apply Forall_app. Qed.

Lemma get_str_at m off s junk : nonzero s -> drop off m = s ++ 0 :: junk -> get_str m off = Ret s.
Proof.
  intros Hs Hd. unfold get_str. rewrite Hd, strlen_app by done. cbn.
  by rewrite take_app_length.
Qed.

Lemma poke_ok m off s : (off + length s <= length m)%nat ->
  poke m off s = Ret (take off m ++ s ++ drop (off + length s) m).
Proof. intros. unfold poke. by rewrite bool_decide_eq_true_2. Qed.
Lemma poke_crash m off s : (length m < off + length s)%nat -> poke m off s = Crash.
Proof. intros. unfold poke. rewrite bool_decide_eq_false_2 by lia. done. Qed.

Lemma strcpy_fits n s : (length s < n)%nat -> exists m, strcpy (replicate n 0) 0 s = Ret m.
Proof.
  intros Hs. unfold strcpy. eexists. apply poke_ok.
  rewrite length_app, length_replicate. cbn [length]. lia.
Qed.

Lemma digits_value_app s d acc :
  Forall (fun c => isdigit c = true) s -> isdigit d = true ->
  digits_value acc (s ++ [d]) = 10 * digits_value acc s + (d - 48).
Proof.
  intros Hs Hd. revert acc. induction Hs as [|c s Hc Hs IH]; intros acc; simpl.
  - by rewrite Hd.
  - rewrite Hc. apply IH.
Qed.

Lemma isdigit_digit x : isdigit (48 + x mod 10) = true.
Proof. pose proof (Z.mod_pos_bound x 10). unfold isdigit. zbool; lia. Qed.

Lemma dec_digits_isdigit fuel x : Forall (fun c => isdigit c = true) (dec_digits fuel x).
Proof.
  revert x. induction fuel as [|fuel IH]; intros x; simpl; [constructor|].
  apply Forall_app. split; [case_match; [constructor|apply IH]|].
  repeat constructor. apply isdigit_digit.
Qed.

Lemma dec_digits_value fuel x :
  0 <= x < 10 ^ Z.of_nat fuel -> digits_value 0 (dec_digits fuel x) = x.
Proof.
  revert x. induction fuel as [|fuel IH]; intros x Hx; [simpl in *; lia|].
  rewrite Nat2Z.inj_succ, Z.pow_succ_r in Hx by lia. simpl.
  destruct (Z.ltb_spec x 10) as [Hl|Hl].
  - rewrite app_nil_l. cbn [digits_value]. rewrite isdigit_digit, Z.mod_small by lia. lia.
  - rewrite digits_value_app, IH; auto using dec_digits_isdigit, isdigit_digit.
    + Z.div_mod_to_equations. lia.
    + Z.div_mod_to_equations. lia.
Qed.

Lemma dec_digits_cons fuel x : 0 <= x -> fuel <> O ->
  exists c s, dec_digits fuel x = c :: s /\ isdigit c = true.
Proof.
  intros Hx Hf. destruct (dec_digits fuel x) as [|c s] eqn:E.
  - destruct fuel; [done|]. simpl in E. by destruct (app_cons_not_nil _ _ _ (eq_sym E)).
  - exists c, s. split; [done|]. pose proof (dec_digits_isdigit fuel x) as H. rewrite E in H.
    by apply Forall_cons in H as [? _].
Qed.

(** No leading zeros. *)
Lemma dec_digits_head fuel x : 0 < x < 10 ^ Z.of_nat fuel ->
  exists c s, dec_digits fuel x = c :: s /\ 48 < c.
Proof.
  revert x. induction fuel as [|fuel IH]; intros x Hx; [simpl in *; lia|].
  rewrite Nat2Z.inj_succ, Z.pow_succ_r in Hx by lia. simpl. destruct (Z.ltb_spec x 10).
  - eexists _, _. split; [done|]. rewrite Z.mod_small; lia.
  - destruct (IH (x / 10)) as (c & s & -> & Hc); [Z.div_mod_to_equations; lia|].
    eexists _, _. by split.
Qed.

Lemma number_digit c s : isdigit c = true -> number (c :: s) = digits_value 0 (c :: s).
Proof.
  intros Hc. unfold number. fold number. unfold isdigit, isspace in *. boolify.
  replace ((c =? 32) || ((9 <=? c) && (c <=? 13))) with false by (symmetry; zbool; cbn; lia).
  rewrite !(proj2 (Z.eqb_neq _ _)) by lia. done.
Qed.

(** A printed number is read back. *)
Lemma number_dec x : - 10 ^ 20 < x < 10 ^ 20 -> number (dec x) = x.
Proof.
  intros Hx. unfold dec, dec_u. destruct (Z.ltb_spec x 0).
  - change (number (45 :: ?s)) with (- digits_value 0 s). rewrite dec_digits_value; simpl; lia.
  - destruct (dec_digits_cons 20 x) as (c & s & E & Hc); [lia|done|].
    rewrite E, number_digit, <- E by done. apply dec_digits_value. simpl. lia.
Qed.

Lemma dec_digits_length fuel x : (length (dec_digits fuel x) <= fuel)%nat.
Proof.
  revert x. induction fuel as [|fuel IH]; intros x; simpl; [lia|]. rewrite length_app.
  specialize (IH (x / 10)). destruct (x <? 10); simpl; lia.
Qed.
(** The number of digits. *)
Lemma dec_digits_short n fuel x : 0 <= x < 10 ^ Z.of_nat (S n) -> (S n <= fuel)%nat ->
  (length (dec_digits fuel x) <= S n)%nat.
Proof.
  revert fuel x. induction n as [|n IH]; intros fuel x Hx Hf; (destruct fuel as [|fuel]; [lia|]); cbn [dec_digits].
  - rewrite (proj2 (Z.ltb_lt x 10)) by (simpl in Hx; lia). simpl. lia.
  - rewrite length_app. destruct (Z.ltb_spec x 10); [simpl; lia|].
    rewrite Nat2Z.inj_succ, Z.pow_succ_r in Hx by lia.
    enough (length (dec_digits fuel (x / 10)) <= S n)%nat by (simpl; lia).
    apply IH; [Z.div_mod_to_equations; lia|lia].
Qed.

Lemma dec_digits_long n fuel x : 10 ^ Z.of_nat n <= x -> (n < fuel)%nat ->
  (n < length (dec_digits fuel x))%nat.
Proof.
  revert fuel x. induction n as [|n IH]; intros fuel x Hx Hf; (destruct fuel as [|fuel]; [lia|]); cbn [dec_digits];
    rewrite length_app.
  - simpl. lia.
  - rewrite Nat2Z.inj_succ, Z.pow_succ_r in Hx by lia.
    assert (1 <= 10 ^ Z.of_nat n) by (apply (Z.pow_le_mono_r 10 0); lia).
    rewrite (proj2 (Z.ltb_ge x 10)) by lia.
    enough (n < length (dec_digits fuel (x / 10)))%nat by (simpl; lia).
    apply IH; [Z.div_mod_to_equations; lia|lia].
Qed.

Lemma dec_length x : (length (dec x) <= 21)%nat.
Proof.
  unfold dec, dec_u. pose proof (dec_digits_length 20 x). pose proof (dec_digits_length 20 (- x)).
  destruct (x <? 0); cbn [length]; lia.
Qed.
Lemma dec_u_length x : (length (dec_u x) <= 20)%nat.
Proof. apply dec_digits_length. Qed.

Lemma isdigit_nonzero s : Forall (fun c => isdigit c = true) s -> nonzero s.
Proof. intros H. eapply Forall_impl; [exact H|]. by intros c Hc ->. Qed.
Lemma dec_u_nonzero x : nonzero (dec_u x).
Proof. apply isdigit_nonzero, dec_digits_isdigit. Qed.
Lemma dec_nonzero x : nonzero (dec x).
Proof. unfold dec. case_match; [constructor; [done|]|]; apply dec_u_nonzero. Qed.

Section LongFacts.
Variable lw : Z.
Hypothesis Hlw : lw = 32 \/ lw = 64.

Lemma pow_lw : 2 ^ 31 <= 2 ^ (lw - 1) <= 2 ^ 63.
Proof using Hlw. destruct Hlw as [->| ->]; simpl; lia. Qed.

Lemma atol_dec x : - 2 ^ 31 <= x < 2 ^ 31 -> atol lw (dec x) = x.
Proof using Hlw. intros Hx. unfold atol. rewrite number_dec by lia. pose proof pow_lw. lia. Qed.
Lemma atoi_dec x : - 2 ^ 31 <= x < 2 ^ 31 -> atoi lw (dec x) = x.
Proof using Hlw. intros Hx. unfold atoi. rewrite atol_dec by done. by apply I32_id. Qed.
Lemma strtoul_dec x : strtoul lw (dec_u (UI32 x)) = UI32 x.
Proof using Hlw.
  pose proof (UI32_range x) as Hx. unfold strtoul.
  replace (dec_u (UI32 x)) with (dec (UI32 x)) by (unfold dec; by rewrite (proj2 (Z.ltb_ge _ _)) by lia).
  rewrite number_dec by lia. rewrite Z.abs_eq by lia.
  destruct Hlw as [-> | ->]; rewrite (proj2 (Z.leb_gt _ _)), Z.mod_small by lia; done.
Qed.

End LongFacts.

(** * Internet addresses as text (inet_addr, inet_ntoa and sprintf of octets)

    An address is a number, its first octet the most significant. *)

#[local] Open Scope Z_scope.

Definition INADDR_NONE : Z := 4294967295.

Fixpoint split_dots (cur s : text) : list text :=
  match s with
  | [] => [cur]
  | c :: s => if c =? 46 then cur :: split_dots [] s else split_dots (cur ++ [c]) s
  end.

Definition octet (s : text) : option Z :=
  if bool_decide (s <> []) && forallb isdigit s && (digits_value 0 s <=? 255)
  then Some (digits_value 0 s) else None.

(** [inet_addr] of four decimal numbers; anything else is no address. *)
Definition inet_addr (s : text) : Z :=
  match map octet (split_dots [] s) with
  | [Some a; Some b; Some c; Some d] => ((a * 256 + b) * 256 + c) * 256 + d
  | _ => INADDR_NONE
  end.

Definition dotted (a b c d : Z) : text :=
  dec a ++ 46 :: dec b ++ 46 :: dec c ++ 46 :: dec d.

(** ** Round trip *)
Lemma split_dots_part s cur rest : Forall (fun c => isdigit c = true) s ->
  split_dots cur (s ++ 46 :: rest) = (cur ++ s) :: split_dots [] rest.
Proof.
  intros Hs. revert cur. induction Hs as [|c s Hc Hs IH]; intros cur; cbn [app split_dots].
  - by rewrite app_nil_r.
  - unfold isdigit in Hc. boolify. rewrite (proj2 (Z.eqb_neq c 46)) by lia.
    rewrite IH, <- app_assoc. done.
Qed.

Lemma split_dots_last s cur : Forall (fun c => isdigit c = true) s -> split_dots cur s = [cur ++ s].
Proof.
  intros Hs. revert cur. induction Hs as [|c s Hc Hs IH]; intros cur; cbn [split_dots].
  - by rewrite app_nil_r.
  - unfold isdigit in Hc. boolify. rewrite (proj2 (Z.eqb_neq c 46)) by lia.
    rewrite IH, <- app_assoc. done.
Qed.

Lemma dec_isdigit x : 0 <= x -> Forall (fun c => isdigit c = true) (dec x).
Proof.
  intros Hx. unfold dec. rewrite (proj2 (Z.ltb_ge _ _)) by lia. apply dec_digits_isdigit.
Qed.

Lemma octet_dec x : 0 <= x <= 255 -> octet (dec x) = Some x.
Proof.
  intros Hx. unfold octet. pose proof (dec_isdigit x ltac:(lia)) as Hd.
  assert (Hv : digits_value 0 (dec x) = x).
  { unfold dec, dec_u. rewrite (proj2 (Z.ltb_ge _ _)) by lia. apply dec_digits_value. simpl. lia. }
  rewrite Hv, (proj2 (Z.leb_le _ _)) by lia.
  destruct (dec_digits_cons 20 x ltac:(lia) ltac:(done)) as (c & s & E & _).
  assert (E' : dec x = c :: s) by (unfold dec; by rewrite (proj2 (Z.ltb_ge _ _)) by lia).
  rewrite bool_decide_eq_true_2 by (by rewrite E').
  rewrite (proj2 (forallb_forall _ _)); [done|].
  intros y Hy%list_elem_of_In. by apply (proj1 (Forall_forall _ _) Hd).
Qed.

Lemma inet_addr_dotted a b c d : 0 <= a <= 255 -> 0 <= b <= 255 -> 0 <= c <= 255 -> 0 <= d <= 255 ->
  inet_addr (dotted a b c d) = ((a * 256 + b) * 256 + c) * 256 + d.
Proof.
  intros Ha Hb Hc Hd. unfold inet_addr, dotted.
  rewrite !split_dots_part, split_dots_last by (apply dec_isdigit; lia). cbn [app map].
  by rewrite !octet_dec by lia.
Qed.

(** * Identifiers as text (the readoid of NASCenter_MA_Set.c and NASCenter_JS.c)

    Both collect the digits of a number, at most [max] of them, up to the next
    dot. *)

Section Oids.
Variables (lw : Z) (max : nat).

(** [name[k++] = atoi (temp)] *)
Definition put_number (temp : text) (k : nat) (name : list Z) : outcome (list Z) :=
  if bool_decide (k < length name)%nat then mret (<[k := atoi lw temp mod 2 ^ lw]> name) else Crash.

(** The number of numbers, or [None] where a number is too long, and the array. *)
Fixpoint read_numbers (s temp : text) (k : nat) (name : list Z) : outcome (option nat * list Z) :=
  match s with
  | [] => name ← put_number temp k name; mret (Some (S k), name)
  | c :: s =>
      if c =? 46 then
        if bool_decide (temp = []) then read_numbers s [] k name
        else name ← put_number temp k name; read_numbers s [] (S k) name
      else
        let temp := temp ++ [c] in
        if bool_decide (max < length temp)%nat then mret (None, name)
        else read_numbers s temp k name
  end.
End Oids.

Fixpoint number_text (l : list Z) : text :=
  match l with
  | [] => []
  | [x] => dec x
  | x :: l => dec x ++ 46 :: number_text l
  end.

Lemma number_text_cons x l : l <> [] -> number_text (x :: l) = dec x ++ 46 :: number_text l.
Proof. by destruct l. Qed.
Lemma number_text_snoc l x : l <> [] -> number_text (l ++ [x]) = number_text l ++ 46 :: dec x.
Proof.
  induction l as [|y l IH]; intros Hne; [done|]. cbn [app]. destruct l as [|z l]; [done|].
  rewrite !number_text_cons, IH by done. by rewrite <- app_assoc.
Qed.

(** Numbers of at most [max] digits. *)
Definition numbers (max : nat) (l : list Z) : Prop :=
  Forall (fun x => 0 <= x < 2 ^ 31 /\ (length (dec x) <= max)%nat) l.

Lemma dec_nonempty x : 0 <= x -> dec x <> [].
Proof.
  intros Hx. unfold dec, dec_u. rewrite (proj2 (Z.ltb_ge _ _)) by lia.
  destruct (dec_digits_cons 20 x Hx ltac:(done)) as (c & s & -> & _). done.
Qed.

Section OidFacts.
Variable lw : Z.
Hypothesis Hlw : lw = 32 \/ lw = 64.
Variable max : nat.

(** Digits are collected until there are too many. *)
Lemma read_numbers_digits ds rest temp k name : Forall (fun c => isdigit c = true) ds ->
  (length temp <= max)%nat ->
  read_numbers lw max (ds ++ rest) temp k name =
    if bool_decide (length (temp ++ ds) <= max)%nat
    then read_numbers lw max rest (temp ++ ds) k name else Ret (None, name).
Proof.
  intros Hd. revert temp. induction Hd as [|c ds Hc _ IH]; intros temp Ht; cbn [app read_numbers].
  - rewrite app_nil_r, bool_decide_eq_true_2 by done. done.
  - unfold isdigit in Hc. boolify. rewrite (proj2 (Z.eqb_neq c 46)) by lia.
    case_bool_decide as Hlen.
    + rewrite bool_decide_eq_false_2; [done|]. rewrite !length_app in *. simpl in *. lia.
    + rewrite IH by lia. by rewrite <- app_assoc.
Qed.

Lemma put_dec x k name : 0 <= x < 2 ^ 31 -> (k < length name)%nat ->
  put_number lw (dec x) k name = Ret (<[k := x]> name).
Proof using Hlw.
  intros Hx Hk. unfold put_number. rewrite bool_decide_eq_true_2 by done.
  rewrite atoi_dec by (done || lia). rewrite Z.mod_small; [done|].
  assert (2 ^ 31 <= 2 ^ lw) by (apply Z.pow_le_mono_r; lia). lia.
Qed.
Lemma put_next x pre y junk : 0 <= x < 2 ^ 31 ->
  put_number lw (dec x) (length pre) (pre ++ y :: junk) = Ret ((pre ++ [x]) ++ junk).
Proof using Hlw.
  intros Hx. rewrite put_dec by (rewrite ?length_app; simpl; lia).
  rewrite <- (Nat.add_0_r (length pre)), insert_app_r, <- app_assoc. done.
Qed.

(** A number that is short enough, up to the dot after it. *)
Lemma read_numbers_step x rest pre y junk : 0 <= x < 2 ^ 31 -> (length (dec x) <= max)%nat ->
  read_numbers lw max (dec x ++ 46 :: rest) [] (length pre) (pre ++ y :: junk) =
  read_numbers lw max rest [] (S (length pre)) ((pre ++ [x]) ++ junk).
Proof using Hlw.
  intros Hx Hl. rewrite read_numbers_digits by first [apply dec_isdigit; lia|simpl; lia].
  rewrite bool_decide_eq_true_2 by done. cbn [app read_numbers].
  rewrite Z.eqb_refl, bool_decide_eq_false_2 by (apply dec_nonempty; lia).
  by rewrite put_next, outcome_bind_ret.
Qed.

Lemma read_numbers_dotted l k pre junk : l <> [] -> numbers max l -> k = length pre ->
  (length l <= length junk)%nat ->
  read_numbers lw max (number_text l) [] k (pre ++ junk) =
    Ret (Some (k + length l)%nat, pre ++ l ++ drop (length l) junk).
Proof using Hlw.
  intros Hne Hl. revert k pre junk Hne. induction Hl as [|x l [Hx Hd] Hl IH]; intros k pre junk Hne -> Hj; [done|].
  destruct junk as [|y junk]; [simpl in Hj; lia|]. destruct l as [|x2 l].
  - cbn [number_text]. rewrite <- (app_nil_r (dec x)), read_numbers_digits by first [apply dec_isdigit; lia|simpl; lia].
    rewrite bool_decide_eq_true_2 by done. cbn [read_numbers app].
    rewrite put_next, outcome_bind_ret, <- app_assoc by lia. cbn [length drop].
    change (drop 0 junk) with junk. do 3 f_equal. simpl. lia.
  - change (number_text (x :: x2 :: l)) with (dec x ++ 46 :: number_text (x2 :: l)).
    rewrite read_numbers_step by done.
    rewrite IH; [|done|rewrite length_app; simpl; lia|simpl in *; lia].
    rewrite <- !app_assoc. cbn [length app drop]. do 3 f_equal. simpl. lia.
Qed.

(** Where a number has too many digits, reading stops. *)
Lemma read_numbers_refuses l k pre junk :
  Exists (fun x => (max < length (dec x))%nat) l ->
  Forall (fun x => 0 <= x /\ ((length (dec x) <= max)%nat -> x < 2 ^ 31)) l ->
  k = length pre -> (length l <= length junk)%nat ->
  exists name, read_numbers lw max (number_text l) [] k (pre ++ junk) = Ret (None, name).
Proof using Hlw.
  intros He Hl. revert k pre junk He.
  induction Hl as [|x l [Hx Hb] Hl IH]; intros k pre junk He -> Hj; [by apply Exists_nil in He|].
  destruct junk as [|y junk]; [simpl in Hj; lia|].
  destruct (decide (length (dec x) <= max)%nat) as [Hs|Hlong].
  - apply Exists_cons in He as [He|He]; [lia|]. destruct l as [|x2 l]; [by apply Exists_nil in He|].
    change (number_text (x :: x2 :: l)) with (dec x ++ 46 :: number_text (x2 :: l)).
    rewrite read_numbers_step by auto with lia.
    apply IH; [done|rewrite length_app; simpl; lia|simpl in *; lia].
  - assert (E : exists rest, number_text (x :: l) = dec x ++ rest).
    { destruct l; [exists []; by rewrite app_nil_r|by eexists]. }
    destruct E as (rest & ->). rewrite read_numbers_digits by first [apply dec_isdigit; lia|simpl; lia].
    rewrite bool_decide_eq_false_2 by done. by eexists.
Qed.
End OidFacts.
