(* ===== verification/JobTable.v ===== *)
(** * The table of jobs (src/Group1/G2Configure/src/jobProcessMasterTable.c)

    The rows of jobProcessMasterTable, the phases of a SET request on them, the
    file that keeps them and the trap that tells the job scheduler.  The driver
    of the phases is that of the library (process_set_requests of table_array.c,
    handle_set of snmp_agent.c).  Requests reach the table through the table
    helper, which lets through only identifiers with a column of the table and an
    index of one number.  [lw] is the width of [long]. *)

From S2P Require Import Prelude CTypes JobTime JobList CText.
From stdpp Require Import list.
#[local] Open Scope Z_scope.

Definition JM_MAX_OID_LEN : nat := 128.
Definition JM_MAX_VAR_LEN : nat := 255.
Definition JM_MAX_DT_LEN : nat := 20.
Definition JM_NO_OF_FIELDS : nat := 14.
Definition JM_ROW_CREATE : Z := 4.
Definition JM_ROW_DELETE : Z := 6.

Definition ASN_INTEGER : Z := 2.
Definition ASN_OCTET_STR : Z := 4.
Definition SNMP_ERR_NOERROR : Z := 0.
Definition SNMP_ERR_GENERR : Z := 5.
Definition SNMP_ERR_WRONGTYPE : Z := 7.
Definition SNMP_ERR_WRONGLENGTH : Z := 8.
Definition SNMP_ERR_WRONGVALUE : Z := 10.
Definition SNMP_ERR_INCONSISTENTVALUE : Z := 12.
Definition SNMP_ERR_RESOURCEUNAVAILABLE : Z := 13.
Definition SNMP_ERR_COMMITFAILED : Z := 14.
Definition RS_ACTIVE : Z := 1.
Definition RS_NOTINSERVICE : Z := 2.
Definition RS_NOTREADY : Z := 3.
Definition RS_CREATEANDGO : Z := 4.
Definition RS_CREATEANDWAIT : Z := 5.
Definition RS_DESTROY : Z := 6.

Definition jobProcessMasterTable_oid : list Z := [1; 3; 6; 1; 4; 1; 3204; 1; 3; 34; 1; 1].

(** ** Rows *)

(** A buffer of fixed size and the length that goes with it. *)
Record column := MkColumn { bytes : list Z; len : Z }.
Definition blank (n : nat) : column := MkColumn (replicate n 0) 0.

(** [jobProcessMasterTable_context]; [index] is the one number of its index. *)
Record row := MkRow {
  index : Z;
  jobProcessMasterIndex : Z;
  jobProcessMasterID : column;
  jobProcessMasterName : column;
  jobProcessMasterDescription : column;
  jobProcessMasterCreatedDate : column;
  jobProcessMasterCreatedUserID : column;
  jobProcessMasterCreatedUserName : column;
  jobProcessMasterPeriodicInterval : Z;
  jobProcessMasterStartTime : column;
  jobProcessMasterFinishTime : column;
  jobProcessMasterCPUPercentUsage : Z;
  jobProcessMasterMemoryPercentUsage : Z;
  jobProcessMasterStatus : Z;
  jobProcessMasterLastUpdatedDateAndTime : column;
  idx : Z
}.

Definition COLUMN_INDEX : Z := 1.
Definition COLUMN_ID : Z := 2.
Definition COLUMN_NAME : Z := 3.
Definition COLUMN_DESCRIPTION : Z := 4.
Definition COLUMN_CREATEDDATE : Z := 5.
Definition COLUMN_CREATEDUSERID : Z := 6.
Definition COLUMN_CREATEDUSERNAME : Z := 7.
Definition COLUMN_PERIODICINTERVAL : Z := 8.
Definition COLUMN_STARTTIME : Z := 9.
Definition COLUMN_FINISHTIME : Z := 10.
Definition COLUMN_CPUPERCENTUSAGE : Z := 11.
Definition COLUMN_MEMORYPERCENTUSAGE : Z := 12.
Definition COLUMN_STATUS : Z := 13.
Definition COLUMN_LASTUPDATED : Z := 14.

(** The string and the integer columns by their numbers. *)
Definition string_col (c : Z) (r : row) : option column :=
  if c =? COLUMN_ID then Some (jobProcessMasterID r)
  else if c =? COLUMN_NAME then Some (jobProcessMasterName r)
  else if c =? COLUMN_DESCRIPTION then Some (jobProcessMasterDescription r)
  else if c =? COLUMN_CREATEDDATE then Some (jobProcessMasterCreatedDate r)
  else if c =? COLUMN_CREATEDUSERID then Some (jobProcessMasterCreatedUserID r)
  else if c =? COLUMN_CREATEDUSERNAME then Some (jobProcessMasterCreatedUserName r)
  else if c =? COLUMN_STARTTIME then Some (jobProcessMasterStartTime r)
  else if c =? COLUMN_FINISHTIME then Some (jobProcessMasterFinishTime r)
  else if c =? COLUMN_LASTUPDATED then Some (jobProcessMasterLastUpdatedDateAndTime r)
  else None.

Definition long_col (c : Z) (r : row) : option Z :=
  if c =? COLUMN_PERIODICINTERVAL then Some (jobProcessMasterPeriodicInterval r)
  else if c =? COLUMN_CPUPERCENTUSAGE then Some (jobProcessMasterCPUPercentUsage r)
  else if c =? COLUMN_MEMORYPERCENTUSAGE then Some (jobProcessMasterMemoryPercentUsage r)
  else if c =? COLUMN_STATUS then Some (jobProcessMasterStatus r)
  else None.

(** An assignment to the column with a number. *)
Definition with_string (c : Z) (x : column) (r : row) : row :=
  let at_ n old := if c =? n then x else old in
  MkRow (index r) (jobProcessMasterIndex r)
    (at_ COLUMN_ID (jobProcessMasterID r))
    (at_ COLUMN_NAME (jobProcessMasterName r))
    (at_ COLUMN_DESCRIPTION (jobProcessMasterDescription r))
    (at_ COLUMN_CREATEDDATE (jobProcessMasterCreatedDate r))
    (at_ COLUMN_CREATEDUSERID (jobProcessMasterCreatedUserID r))
    (at_ COLUMN_CREATEDUSERNAME (jobProcessMasterCreatedUserName r))
    (jobProcessMasterPeriodicInterval r)
    (at_ COLUMN_STARTTIME (jobProcessMasterStartTime r))
    (at_ COLUMN_FINISHTIME (jobProcessMasterFinishTime r))
    (jobProcessMasterCPUPercentUsage r) (jobProcessMasterMemoryPercentUsage r)
    (jobProcessMasterStatus r)
    (at_ COLUMN_LASTUPDATED (jobProcessMasterLastUpdatedDateAndTime r)) (idx r).

Definition with_long (c : Z) (x : Z) (r : row) : row :=
  let at_ n old := if c =? n then x else old in
  MkRow (index r) (jobProcessMasterIndex r) (jobProcessMasterID r) (jobProcessMasterName r)
    (jobProcessMasterDescription r) (jobProcessMasterCreatedDate r)
    (jobProcessMasterCreatedUserID r) (jobProcessMasterCreatedUserName r)
    (at_ COLUMN_PERIODICINTERVAL (jobProcessMasterPeriodicInterval r))
    (jobProcessMasterStartTime r) (jobProcessMasterFinishTime r)
    (at_ COLUMN_CPUPERCENTUSAGE (jobProcessMasterCPUPercentUsage r))
    (at_ COLUMN_MEMORYPERCENTUSAGE (jobProcessMasterMemoryPercentUsage r))
    (at_ COLUMN_STATUS (jobProcessMasterStatus r))
    (jobProcessMasterLastUpdatedDateAndTime r) (idx r).

Definition with_idx (x : Z) (r : row) : row :=
  MkRow (index r) (jobProcessMasterIndex r) (jobProcessMasterID r) (jobProcessMasterName r)
    (jobProcessMasterDescription r) (jobProcessMasterCreatedDate r)
    (jobProcessMasterCreatedUserID r) (jobProcessMasterCreatedUserName r)
    (jobProcessMasterPeriodicInterval r) (jobProcessMasterStartTime r)
    (jobProcessMasterFinishTime r) (jobProcessMasterCPUPercentUsage r)
    (jobProcessMasterMemoryPercentUsage r) (jobProcessMasterStatus r)
    (jobProcessMasterLastUpdatedDateAndTime r) x.
Definition with_index (x : Z) (r : row) : row :=
  MkRow x (jobProcessMasterIndex r) (jobProcessMasterID r) (jobProcessMasterName r)
    (jobProcessMasterDescription r) (jobProcessMasterCreatedDate r)
    (jobProcessMasterCreatedUserID r) (jobProcessMasterCreatedUserName r)
    (jobProcessMasterPeriodicInterval r) (jobProcessMasterStartTime r)
    (jobProcessMasterFinishTime r) (jobProcessMasterCPUPercentUsage r)
    (jobProcessMasterMemoryPercentUsage r) (jobProcessMasterStatus r)
    (jobProcessMasterLastUpdatedDateAndTime r) (idx r).

(** The memory that [calloc] gives, with the index [extract_index] reads. *)
Definition jobProcessMasterTable_extract_index (i : Z) : row :=
  MkRow i i (blank 255) (blank 255) (blank 255) (blank 20) (blank 255) (blank 255) 0
    (blank 20) (blank 20) 0 0 0 (blank 20) 0.
(** [mem]: whether there is memory for the row. *)
Definition jobProcessMasterTable_create_row (mem : bool) (i : Z) : option row :=
  if mem then Some (jobProcessMasterTable_extract_index i) else None.

(** [memcpy] of the first [n] bytes of [src] to a column. *)
Definition copy_in (x : column) (src : list Z) (n : Z) : outcome column :=
  if (0 <=? n) && (n <=? Z.of_nat (length (bytes x))) && (n <=? Z.of_nat (length src))
  then mret (MkColumn (take (Z.to_nat n) src ++ drop (Z.to_nat n) (bytes x)) n)
  else Crash.
Definition copy_col (dst src : column) : outcome column := copy_in dst (bytes src) (len src).

Definition jobProcessMasterTable_row_copy (dst src : row) : outcome row :=
  i ← copy_col (jobProcessMasterID dst) (jobProcessMasterID src);
  n ← copy_col (jobProcessMasterName dst) (jobProcessMasterName src);
  d ← copy_col (jobProcessMasterDescription dst) (jobProcessMasterDescription src);
  c ← copy_col (jobProcessMasterCreatedDate dst) (jobProcessMasterCreatedDate src);
  u ← copy_col (jobProcessMasterCreatedUserID dst) (jobProcessMasterCreatedUserID src);
  m ← copy_col (jobProcessMasterCreatedUserName dst) (jobProcessMasterCreatedUserName src);
  s ← copy_col (jobProcessMasterStartTime dst) (jobProcessMasterStartTime src);
  f ← copy_col (jobProcessMasterFinishTime dst) (jobProcessMasterFinishTime src);
  l ← copy_col (jobProcessMasterLastUpdatedDateAndTime dst)
        (jobProcessMasterLastUpdatedDateAndTime src);
  mret (MkRow (index src) (jobProcessMasterIndex src) i n d c u m
          (jobProcessMasterPeriodicInterval src) s f (jobProcessMasterCPUPercentUsage src)
          (jobProcessMasterMemoryPercentUsage src) (jobProcessMasterStatus src) l (idx dst)).

Definition jobProcessMasterTable_duplicate_row (mem : bool) (r : row) : outcome (option row) :=
  if mem then
    dup ← jobProcessMasterTable_row_copy (jobProcessMasterTable_extract_index 0) r;
    mret (Some dup)
  else mret None.

(** The row pointer is read. *)
Definition jobProcessMasterTable_delete_row (r : option row) : outcome unit :=
  match r with Some _ => mret tt | None => Crash end.

Definition jobProcessMasterTable_can_activate : Z := 1.
Definition jobProcessMasterTable_can_deactivate : Z := 1.
Definition jobProcessMasterTable_can_delete : Z :=
  if negb (jobProcessMasterTable_can_deactivate =? 1) then 0 else 1.

(** What a GET gives for a column. *)
Inductive typed_value := Octets (s : list Z) | Long (x : Z) | Unsigned (x : Z).

Definition octets (x : column) : list Z := take (Z.to_nat (len x)) (bytes x).

Definition jobProcessMasterTable_get_value (c : Z) (r : row) : option typed_value :=
  if c =? COLUMN_INDEX then Some (Unsigned (jobProcessMasterIndex r))
  else match string_col c r with
       | Some x => Some (Octets (octets x))
       | None => Long <$> long_col c r
       end.

(** ** Requests *)

(** A variable of a SET request with the column and the index the table helper
    found in its name. *)
Record setvar := MkSet {
  colnum : Z; tindex : Z; vtype : Z; vb_len : Z; vb_string : list Z; vb_integer : option Z
}.
Definition vb_name (v : setvar) : list Z := jobProcessMasterTable_oid ++ [1; colnum v; tindex v].
Definition integer_of (v : setvar) : outcome Z :=
  match vb_integer v with Some x => mret x | None => Crash end.

(** The requests for one row, each with its position in the message, last one
    first; [rg_void] is the position that is blamed for a bad status. *)
Record group := MkGroup {
  g_index : Z;
  g_list : list (nat * setvar);
  existing_row : row;
  row_created : bool;
  row_deleted : bool;
  undo_info : option row;
  rg_void : nat
}.

(** A variable of a trap before it is parsed: name, type and value as text. *)
Record stVarBindArgs := MkArg { acVariable : text; cType : Z; pcValue : list Z }.

(** What others see: a trap that was sent or that the library failed to send. *)
Inductive table_event := TrapSent (sent : bool) (vars : list variable).

(** [container] is the primary container, in the order of the index, and [conf]
    the file.  The array [stTrap_Var] keeps nothing from one call to the next. *)
Record job_table := MkTable {
  container : list row;
  conf : option (list row);
  jt_log : list table_event
}.
Definition with_container (l : list row) (t : job_table) : job_table :=
  MkTable l (conf t) (jt_log t).
Definition with_conf (f : option (list row)) (t : job_table) : job_table :=
  MkTable (container t) f (jt_log t).
Definition log_event (e : table_event) (t : job_table) : job_table :=
  MkTable (container t) (conf t) (jt_log t ++ [e]).

(** [CONTAINER_FIND], [CONTAINER_INSERT] and [CONTAINER_REMOVE] of the primary
    container: an array sorted by index without duplicates. *)
Definition find_row (i : Z) (l : list row) : option row :=
  find (fun r => index r =? i) l.
Fixpoint insert_row (r : row) (l : list row) : option (list row) :=
  match l with
  | [] => Some [r]
  | x :: l' =>
      if index r <? index x then Some (r :: l)
      else if index r =? index x then None
      else cons x <$> insert_row r l'
  end.
Definition remove_row (i : Z) (l : list row) : list row :=
  filter (fun r => index r <> i) l.

(** The library as far as the table uses it: identifiers and values from text. *)
Class TableLib := {
  snmp_parse_oid : text -> nat -> option (list Z);
  snmp_add_var : list Z -> Z -> text -> option variable
}.

(** The secondary container is an array that the library searches with
    [jobProcessMasterTable_cmp], a function without a return statement: whether
    it takes a row and whether it finds one is undefined.  [second i] is what it
    answers in one request, or one load of the file, for the row with index [i];
    nothing is assumed of it.

    What a SET finds: the secondary container, memory for rows, what [date_n_time] gives in the action
    and in the commit phase (the octets of its buffer and the length), the number
    of rows the disk has room for (or the file can not be opened), whether the
    session opens and the trap goes out. *)
Record env := MkEnv {
  second : Z -> bool;
  mem : Z -> bool;
  date_action : list Z * Z;
  date_commit : list Z * Z;
  disk : option nat;
  session_opens : bool;
  send_succeeds : bool
}.

Section Table.
Context `{TableLib}.
Variable lw : Z.

(** ** The checks of the first two phases *)
Definition check_vb_type_and_size (v : setvar) (type size : Z) : Z :=
  if negb (vtype v =? type) then SNMP_ERR_WRONGTYPE
  else if negb (vb_len v =? size) then SNMP_ERR_WRONGLENGTH else SNMP_ERR_NOERROR.

(** The status of the requests, by position; an error overwrites the one
    before. *)
Definition set_error (rc : Z) (pos : nat) (st : list Z) : list Z :=
  if rc =? 0 then st else <[pos := rc]> st.

(** A string of any length passes: it is compared with its own length. *)
Definition reserve1_rc (v : setvar) : Z :=
  let c := colnum v in
  if (c =? COLUMN_ID) || (c =? COLUMN_NAME) || (c =? COLUMN_DESCRIPTION)
     || (c =? COLUMN_CREATEDDATE) || (c =? COLUMN_CREATEDUSERID)
     || (c =? COLUMN_CREATEDUSERNAME) || (c =? COLUMN_STARTTIME)
     || (c =? COLUMN_FINISHTIME) || (c =? COLUMN_LASTUPDATED)
  then check_vb_type_and_size v ASN_OCTET_STR (vb_len v)
  else if (c =? COLUMN_PERIODICINTERVAL) || (c =? COLUMN_CPUPERCENTUSAGE)
          || (c =? COLUMN_MEMORYPERCENTUSAGE) || (c =? COLUMN_STATUS)
  then check_vb_type_and_size v ASN_INTEGER (lw / 8)
  else SNMP_ERR_GENERR.

Definition jobProcessMasterTable_set_reserve1 (g : group) (st : list Z) : list Z :=
  foldl (fun st it => set_error (reserve1_rc it.2) it.1 st) st (g_list g).

Definition check_rowstatus_transition (oldValue newValue : Z) : Z :=
  if (newValue =? RS_ACTIVE) || (newValue =? RS_NOTINSERVICE) then
    if (oldValue =? RS_NOTINSERVICE) || (oldValue =? RS_ACTIVE)
    then SNMP_ERR_NOERROR else SNMP_ERR_INCONSISTENTVALUE
  else if newValue =? RS_NOTREADY then SNMP_ERR_WRONGVALUE
  else if (newValue =? RS_CREATEANDGO) || (newValue =? RS_CREATEANDWAIT) then
    if negb (oldValue =? 0) then SNMP_ERR_INCONSISTENTVALUE else SNMP_ERR_NOERROR
  else if newValue =? RS_DESTROY then SNMP_ERR_NOERROR
  else SNMP_ERR_WRONGVALUE.

Definition check_vb_rowstatus (v : setvar) (old_value : Z) : outcome Z :=
  let rc := check_vb_type_and_size v ASN_INTEGER (lw / 8) in
  if negb (rc =? 0) then mret rc else
  x ← integer_of v;
  if x =? RS_NOTREADY then mret SNMP_ERR_WRONGVALUE
  else if (x <? 0) || (6 <? x) then mret SNMP_ERR_WRONGVALUE
  else mret (check_rowstatus_transition (I32 old_value) (I32 x)).

(** The loop of the second phase. *)
Fixpoint reserve2_loop (old : Z) (l : list (nat * setvar)) (void : nat) (st : list Z)
    : outcome (nat * list Z) :=
  match l with
  | [] => mret (void, st)
  | (pos, v) :: l =>
      if colnum v =? COLUMN_STATUS then
        rc ← check_vb_rowstatus v old;
        reserve2_loop old l pos (set_error rc pos st)
      else reserve2_loop old l void st
  end.

Definition with_void (p : nat) (g : group) : group :=
  MkGroup (g_index g) (g_list g) (existing_row g) (row_created g) (row_deleted g) (undo_info g) p.

Definition jobProcessMasterTable_set_reserve2 (g : group) (st : list Z)
    : outcome (group * list Z) :=
  match g_list g with
  | [] => Crash
  | (p, _) :: _ =>
      let old := match undo_info g with Some u => jobProcessMasterStatus u | None => 0 end in
      '(p, st) ← reserve2_loop old (g_list g) p st;
      mret (with_void p g, st)
  end.

(** ** The action phase *)

(** Error, new status and whether the row is to be deleted; [rs_old] is [None]
    for a new row. *)
Definition netsnmp_table_array_check_row_status (rs_new : Z) (rs_old : option Z)
    : Z * Z * bool :=
  if (rs_new =? RS_CREATEANDGO) || (rs_new =? RS_ACTIVE) then
    if negb (jobProcessMasterTable_can_activate =? 0) then (SNMP_ERR_NOERROR, RS_ACTIVE, false)
    else (SNMP_ERR_INCONSISTENTVALUE, rs_new, false)
  else if match rs_old with Some o => o =? RS_ACTIVE | None => false end
          && (jobProcessMasterTable_can_deactivate =? 0)
  then (SNMP_ERR_INCONSISTENTVALUE, rs_new, false)
  else if negb (rs_new =? RS_DESTROY) then
    (SNMP_ERR_NOERROR,
     (if negb (jobProcessMasterTable_can_activate =? 0) then RS_NOTINSERVICE else RS_NOTREADY), false)
  else if jobProcessMasterTable_can_delete =? 0 then (SNMP_ERR_INCONSISTENTVALUE, rs_new, false)
  else (SNMP_ERR_NOERROR, rs_new, true).

(** [strcpy (column, date_n_time (...))], which sets the length too. *)
Definition copy_date (x : column) (d : list Z * Z) : outcome column :=
  s ← get_str d.1 0; b ← strcpy (bytes x) 0 s; mret (MkColumn b d.2).

(** The [switch] that copies a value. *)
Definition copy_value (v : setvar) (r : row) : outcome row :=
  match string_col (colnum v) r with
  | Some x => x ← copy_in x (vb_string v) (vb_len v); mret (with_string (colnum v) x r)
  | None =>
      match long_col (colnum v) r with
      | Some _ => x ← integer_of v; mret (with_long (colnum v) x r)
      | None => mret r
      end
  end.
Fixpoint copy_values (l : list (nat * setvar)) (r : row) : outcome row :=
  match l with
  | [] => mret r
  | (_, v) :: l => r ← copy_value v r; copy_values l r
  end.

Definition with_row (r : row) (deleted : bool) (g : group) : group :=
  MkGroup (g_index g) (g_list g) r (row_created g) deleted (undo_info g) (rg_void g).

(** The error for a change of an active row is overwritten by the next
    assignment. *)
Definition jobProcessMasterTable_set_action (e : env) (g : group) (st : list Z)
    : outcome (group * list Z) :=
  let r := existing_row g in
  d ← copy_date (MkColumn (replicate JM_MAX_DT_LEN 0) (Z.of_nat JM_MAX_DT_LEN)) (date_action e);
  r ← copy_values (g_list g) (with_string COLUMN_LASTUPDATED d r);
  let '(row_err, status, deleted) :=
    netsnmp_table_array_check_row_status (jobProcessMasterStatus r)
      (jobProcessMasterStatus <$> undo_info g) in
  let r := with_long COLUMN_STATUS status r in
  let g := with_row r (row_deleted g || deleted) g in
  if negb (row_err =? 0) then mret (g, set_error row_err (rg_void g) st) else
  if ((len (jobProcessMasterStartTime r) =? 0) || (len (jobProcessMasterFinishTime r) =? 0)
      || (len (jobProcessMasterID r) =? 0))
     && ((jobProcessMasterStatus r =? 4) || (jobProcessMasterStatus r =? 1))
  then match g_list g with
       | (p, _) :: _ => mret (g, set_error 1 p st)
       | [] => Crash
       end
  else mret (g, st).

(** ** The trap *)

(** A text in an array of [n] characters. *)
Definition fit (n : nat) (s : text) : outcome text :=
  if bool_decide (length s < n)%nat then mret s else Crash.

(** The numbers of an identifier, each with a dot before it. *)
Definition dotted_oid (oid : list Z) : text := flat_map (fun x => 46 :: dec_u x) oid.

(** The part of the loop that fills [stargs[srecCount]]; for another type, which
    the first phase refuses, the entry is left as it is on the stack. *)
Definition fill_arg (v : setvar) : outcome stVarBindArgs :=
  name ← fit JM_MAX_OID_LEN (dotted_oid (vb_name v));
  if vtype v =? ASN_INTEGER then
    x ← integer_of v;
    s ← fit JM_MAX_VAR_LEN (dec x);
    b ← strcpy (replicate JM_MAX_VAR_LEN 0) 0 s;
    mret (MkArg name 105 b)
  else if vtype v =? ASN_OCTET_STR then
    x ← copy_in (blank JM_MAX_VAR_LEN) (vb_string v) (vb_len v);
    mret (MkArg name 115 (bytes x))
  else Crash.

(** The counters of the loop over the columns. *)
Record counters := MkCounters { sSet : Z; CPUorMEMFlg : bool; sRowStatus : Z; iIndex : Z }.

(** The second [switch]; the index is that of the variable looked at last. *)
Definition count_column (v : setvar) (a : stVarBindArgs) (k : counters) : outcome counters :=
  let i := I16 (atoi lw (dec_u (tindex v))) in
  let c := colnum v in
  if (c =? COLUMN_ID) || (c =? COLUMN_PERIODICINTERVAL) || (c =? COLUMN_STARTTIME)
     || (c =? COLUMN_FINISHTIME)
  then mret (MkCounters (I16 (sSet k + 1)) (CPUorMEMFlg k) (sRowStatus k) i)
  else if (c =? COLUMN_CPUPERCENTUSAGE) || (c =? COLUMN_MEMORYPERCENTUSAGE)
  then mret (MkCounters (sSet k) true (sRowStatus k) i)
  else if c =? COLUMN_STATUS then
    s ← get_str (pcValue a) 0;
    mret (MkCounters (sSet k) (CPUorMEMFlg k) (I16 (atoi lw s)) i)
  else mret (MkCounters (sSet k) (CPUorMEMFlg k) (sRowStatus k) i).

(** [stargs] has JM_NO_OF_FIELDS entries. *)
Definition push_arg (a : stVarBindArgs) (args : list stVarBindArgs) : outcome (list stVarBindArgs) :=
  if bool_decide (length args < JM_NO_OF_FIELDS)%nat then mret (args ++ [a]) else Crash.

Fixpoint fill_args (l : list (nat * setvar)) (args : list stVarBindArgs) (k : counters)
    : outcome (list stVarBindArgs * counters) :=
  match l with
  | [] => mret (args, k)
  | (_, v) :: l =>
      a ← fill_arg v;
      args ← push_arg a args;
      k ← count_column v a k;
      fill_args l args k
  end.

(** The name of a column in the row [i], with the index as [sprintf] prints it
    to an array of five characters. *)
Definition column_name (c i : Z) : outcome text :=
  tmp ← fit 5 (dec i);
  fit JM_MAX_OID_LEN (dotted_oid jobProcessMasterTable_oid ++ dotted_oid [1; c] ++ [46] ++ tmp).

(** An entry with the octets of a column. *)
Definition string_arg (name : text) (x : column) : outcome stVarBindArgs :=
  y ← copy_in (blank JM_MAX_VAR_LEN) (bytes x) (len x); mret (MkArg name 115 (bytes y)).
Definition long_arg (name : text) (x : Z) : outcome stVarBindArgs :=
  b ← strcpy (replicate JM_MAX_VAR_LEN 0) 0 (dec x); mret (MkArg name 105 b).

(** Result, number of entries and the array; the file is read up to the first
    row with the index. *)
Definition jobProcessMasterTable_Search_Index_From_File (iCurrIndex : Z) (t : job_table)
    : outcome (option (list stVarBindArgs)) :=
  match conf t with
  | None => mret None
  | Some rows =>
      match find (fun r => jobProcessMasterIndex r =? iCurrIndex mod 2 ^ lw) rows with
      | None => mret None
      | Some r =>
          id ← column_name COLUMN_ID iCurrIndex;
          interval ← column_name COLUMN_PERIODICINTERVAL iCurrIndex;
          start ← column_name COLUMN_STARTTIME iCurrIndex;
          finish ← column_name COLUMN_FINISHTIME iCurrIndex;
          status ← column_name COLUMN_STATUS iCurrIndex;
          if len (jobProcessMasterID r) =? 0 then mret None else
          a0 ← string_arg id (jobProcessMasterID r);
          if len (jobProcessMasterStartTime r) =? 0 then mret None else
          a1 ← string_arg start (jobProcessMasterStartTime r);
          if len (jobProcessMasterFinishTime r) =? 0 then mret None else
          a2 ← string_arg finish (jobProcessMasterFinishTime r);
          a3 ← long_arg interval (jobProcessMasterPeriodicInterval r);
          if jobProcessMasterStatus r =? 2 then
            a4 ← long_arg status (jobProcessMasterStatus r);
            mret (Some [a0; a1; a2; a3; a4])
          else mret (Some [a0; a1; a2; a3])
      end
  end.

(** The entries of the file whose names are not among those of the request are
    added to it. *)
Fixpoint add_missing (named : list text) (extra args : list stVarBindArgs)
    : outcome (list stVarBindArgs) :=
  match extra with
  | [] => mret args
  | a :: extra =>
      args ← (if bool_decide (acVariable a ∈ named) then mret args else
                s ← get_str (pcValue a) 0;
                b ← poke (replicate JM_MAX_VAR_LEN 0) 0 s;
                push_arg (MkArg (acVariable a) (cType a) b) args);
      add_missing named extra args
  end.

(** The loop over the arguments of a trap; [len] is what [name_length] holds,
    which the parser takes for the size of the array and sets. *)
Fixpoint build_pdu (args : list stVarBindArgs) (name_length : nat)
    : outcome (option (list variable)) :=
  match args with
  | [] => mret (Some [])
  | a :: args =>
      match snmp_parse_oid (acVariable a) name_length with
      | None => mret None
      | Some name =>
          s ← get_str (pcValue a) 0;
          match snmp_add_var name (cType a) s with
          | None => mret None
          | Some v =>
              r ← build_pdu args (length name);
              mret (cons v <$> r)
          end
      end
  end.

(** [None] is a call of [exit]. *)
Definition jobProcessMasterTable_send_snmptrap (e : env) (args : list stVarBindArgs)
    (t : job_table) : exits job_table :=
  if negb (session_opens e) then mret None else
  r ← build_pdu args JM_MAX_OID_LEN;
  mret (vars ← r; Some (log_event (TrapSent (send_succeeds e) vars) t)).

(** ** The commit phase *)

(** The file with the rows that the disk takes; the flag tells whether all were
    written.  [idx] is set in the rows as they are written. *)
Definition write_file (room : nat) (l : list row) : bool * list row * list row :=
  let set := map (fun r => with_idx (index r) r) in
  (bool_decide (length l <= room)%nat, set (take (S room) l) ++ drop (S room) l,
   set (take room l)).

(** An existing row is the one in the container. *)
Definition sync (g : group) (t : job_table) : job_table :=
  with_container (map (fun r => if index r =? g_index g then existing_row g else r)
                      (container t)) t.

(** What is sent after the file has been written. *)
Definition commit_trap (e : env) (g : group) (t : job_table) : exits job_table :=
  '(args, k) ← fill_args (g_list g) [] (MkCounters 0 false 0 0);
  if CPUorMEMFlg k then mret (Some t) else
  if sRowStatus k =? JM_ROW_CREATE then
    if sSet k =? 4 then jobProcessMasterTable_send_snmptrap e args t else mret (Some t)
  else if sRowStatus k =? JM_ROW_DELETE then jobProcessMasterTable_send_snmptrap e args t
  else
    r ← jobProcessMasterTable_Search_Index_From_File (iIndex k) t;
    match r with
    | None => mret (Some t)
    | Some extra =>
        args ← add_missing (acVariable <$> args) extra args;
        jobProcessMasterTable_send_snmptrap e args t
    end.

Definition jobProcessMasterTable_set_commit (e : env) (g : group) (t : job_table)
    : exits job_table :=
  n ← strlen (bytes (jobProcessMasterCreatedDate (existing_row g)));
  r ← (if bool_decide (n = O) then
         d ← copy_date (jobProcessMasterCreatedDate (existing_row g)) (date_commit e);
         mret (with_string COLUMN_CREATEDDATE d (existing_row g))
       else mret (existing_row g));
  let t := sync (with_row r (row_deleted g) g) t in
  match disk e with
  | None => mret (Some t)
  | Some room =>
      let '(written, rows, file) := write_file room (container t) in
      let t := with_conf (Some file) (with_container rows t) in
      if written then commit_trap e (with_row r (row_deleted g) g) t else mret (Some t)
  end.

(** ** The phases of the library *)

(** [group_requests]: a request joins the group of its row at its head, or
    starts one. *)
Fixpoint join_group (pos : nat) (v : setvar) (gs : list group) : option (list group) :=
  match gs with
  | [] => None
  | g :: gs =>
      if g_index g =? tindex v then
        Some (MkGroup (g_index g) ((pos, v) :: g_list g) (existing_row g) (row_created g)
                (row_deleted g) (undo_info g) (rg_void g) :: gs)
      else cons g <$> join_group pos v gs
  end.
Fixpoint insert_group (g : group) (gs : list group) : list group :=
  match gs with
  | [] => [g]
  | x :: gs' => if g_index g <? g_index x then g :: gs else x :: insert_group g gs'
  end.

Fixpoint group_requests (e : env) (t : job_table) (pos : nat) (reqs : list setvar)
    (gs : list group) (st : list Z) : list group * list Z :=
  match reqs with
  | [] => (gs, st)
  | v :: reqs =>
      match join_group pos v gs with
      | Some gs => group_requests e t (S pos) reqs gs st
      | None =>
          let start r created :=
            insert_group (MkGroup (tindex v) [(pos, v)] r created false None O) gs in
          match find_row (tindex v) (container t) with
          | Some r => group_requests e t (S pos) reqs (start r false) st
          | None =>
              match jobProcessMasterTable_create_row (mem e (tindex v)) (tindex v) with
              | Some r => group_requests e t (S pos) reqs (start r true) st
              | None => group_requests e t (S pos) reqs gs (set_error SNMP_ERR_GENERR pos st)
              end
          end
      end
  end.

(** The blame for an error of the phase itself is on the last request. *)
Definition blame (rc : Z) (g : group) (st : list Z) : list Z :=
  match g_list g with (p, _) :: _ => set_error rc p st | [] => st end.

Definition with_undo (u : option row) (g : group) : group :=
  MkGroup (g_index g) (g_list g) (existing_row g) (row_created g) (row_deleted g) u (rg_void g).

Definition reserve1_group (e : env) (g : group) (st : list Z) : outcome (group * list Z) :=
  if row_created g then mret (g, jobProcessMasterTable_set_reserve1 g st) else
  u ← jobProcessMasterTable_duplicate_row (mem e (g_index g)) (existing_row g);
  match u with
  | None => mret (with_undo None g, blame SNMP_ERR_RESOURCEUNAVAILABLE g st)
  | Some _ => mret (with_undo u g, jobProcessMasterTable_set_reserve1 g st)
  end.

Definition action_group (e : env) (g : group) (x : job_table * list Z)
    : outcome (group * (job_table * list Z)) :=
  '(g, st) ← jobProcessMasterTable_set_action e g x.2;
  mret (g, ((if row_created g then x.1 else sync g x.1), st)).

(** Removing the row or inserting it, and whether the containers report no
    error: a row that the secondary container refuses is taken out again, one
    that it does not find is removed all the same. *)
Definition change_container (e : env) (g : group) (t : job_table) : bool * job_table :=
  if negb (row_created g) then
    if row_deleted g then
      (second e (g_index g),
       with_container (remove_row (g_index g) (container t)) t)
    else (true, t)
  else if row_deleted g then (true, t)
  else
    match insert_row (existing_row g) (container t) with
    | Some l =>
        if second e (g_index g) then (true, with_container l t)
        else (false, t)
    | None => (false, t)
    end.

(** The row that has been removed is freed, the copy of the row too. *)
Definition commit_group (e : env) (g : group) (x : job_table * list Z)
    : exits (job_table * list Z) :=
  let '(ok, t) := change_container e g x.1 in
  if negb ok then mret (Some (t, blame SNMP_ERR_COMMITFAILED g x.2)) else
  r ← jobProcessMasterTable_set_commit e g t;
  mret (t ← r; Some (t, x.2)).

Definition free_group (g : group) : outcome unit :=
  if row_created g then jobProcessMasterTable_delete_row (Some (existing_row g))
  else jobProcessMasterTable_delete_row (undo_info g).

Definition undo_group (g : group) (t : job_table) : outcome job_table :=
  if row_created g then mret t else
  match undo_info g with
  | None => Crash
  | Some u =>
      r ← jobProcessMasterTable_row_copy (existing_row g) u;
      mret (sync (with_row r (row_deleted g) g) t)
  end.

Fixpoint each {X} (f : group -> X -> outcome (group * X)) (gs : list group) (x : X)
    : outcome (list group * X) :=
  match gs with
  | [] => mret ([], x)
  | g :: gs => '(g, x) ← f g x; '(gs, x) ← each f gs x; mret (g :: gs, x)
  end.
Fixpoint free_groups (gs : list group) : outcome unit :=
  match gs with [] => mret tt | g :: gs => _ ← free_group g; free_groups gs end.
Fixpoint undo_groups (gs : list group) (t : job_table) : outcome job_table :=
  match gs with [] => mret t | g :: gs => t ← undo_group g t; undo_groups gs t end.
Fixpoint commit_groups (e : env) (gs : list group) (x : job_table * list Z)
    : exits (job_table * list Z) :=
  match gs with
  | [] => mret (Some x)
  | g :: gs =>
      r ← commit_group e g x;
      match r with Some x => commit_groups e gs x | None => mret None end
  end.

(** The status of the response: that of the first request with an error. *)
Definition first_error (st : list Z) : Z := default 0 (find (fun x => negb (x =? 0)) st).
Definition failed (st : list Z) : bool := negb (first_error st =? 0).

(** A SET request, from the first phase to the response. *)
Definition handle_set (e : env) (reqs : list setvar) (t : job_table) : exits (Z * job_table) :=
  let '(gs, st) := group_requests e t 0 reqs [] (replicate (length reqs) 0) in
  '(gs, st) ← each (reserve1_group e) gs st;
  if failed st then _ ← free_groups gs; mret (Some (first_error st, t)) else
  '(gs, st) ← each jobProcessMasterTable_set_reserve2 gs st;
  if failed st then _ ← free_groups gs; mret (Some (first_error st, t)) else
  '(gs, (t, st)) ← each (action_group e) gs (t, st);
  if failed st then t ← undo_groups gs t; mret (Some (first_error st, t)) else
  r ← commit_groups e gs (t, st);
  mret ('(t, st) ← r; Some (first_error st, t)).

(** A GET of one column of a row. *)
Definition get_request (c i : Z) (t : job_table) : option typed_value :=
  r ← find_row i (container t); jobProcessMasterTable_get_value c r.

(** The rows of the file at start; a row that a container refuses is left out. *)
Definition load_row (second : Z -> bool) (l : list row) (r : row) : list row :=
  let r := with_index (idx r) r in
  match insert_row r l with
  | Some l' => if second (index r) then l' else l
  | None => l
  end.
Definition jobProcessMasterTable_Load_Container_From_File (second : Z -> bool)
    (conf : option (list row)) : list row :=
  match conf with None => [] | Some rows => foldl (load_row second) [] rows end.

Definition init_jobProcessMasterTable (second : Z -> bool) (conf : option (list row)) : job_table :=
  MkTable (jobProcessMasterTable_Load_Container_From_File second conf) conf [].
End Table.
