(* ===== verification/JobTableProofs.v ===== *)
(** * Rows, copies and containers of the table of jobs

    What a row shows to a GET, the invariant of the table, and what the phases of
    a SET make of the rows. *)

From S2P Require Import Prelude CTypes JobTime JobList CText JobTable.
From stdpp Require Import list.
From Stdlib Require Import Sorted.
#[local] Open Scope Z_scope.

(** ** Columns *)
Definition col_size (c : Z) : Z :=
  if (c =? COLUMN_CREATEDDATE) || (c =? COLUMN_STARTTIME) || (c =? COLUMN_FINISHTIME)
     || (c =? COLUMN_LASTUPDATED) then 20 else 255.

Definition column_ok (c : Z) (x : column) : Prop :=
  Z.of_nat (length (bytes x)) = col_size c /\ 0 <= len x <= col_size c.
Definition row_ok (r : row) : Prop :=
  index r = jobProcessMasterIndex r /\ 0 <= index r < 2 ^ 32 /\
  forall c x, string_col c r = Some x -> column_ok c x.

(** Two rows that no GET tells apart. *)
#[export] Instance row_equiv : Equiv row := fun r r' =>
  index r = index r' /\
  forall c, jobProcessMasterTable_get_value c r = jobProcessMasterTable_get_value c r'.

#[export] Instance row_equivalence : Equivalence (≡@{row}).
Proof.
  split.
  - by intros r.
  - intros r r' [Hi Hv]. by split.
  - intros r1 r2 r3 [Hi Hv] [Hi' Hv']. split; [by rewrite Hi|]. intros c. by rewrite Hv.
Qed.
#[export] Instance index_proper : Proper ((≡) ==> (=)) index.
Proof. by intros r r' [Hi _]. Qed.
#[export] Instance get_value_proper c : Proper ((≡) ==> (=)) (jobProcessMasterTable_get_value c).
Proof. by intros r r' [_ Hv]. Qed.

(** Case analysis on the number of a column. *)
Ltac columns c :=
  unfold string_col, long_col, COLUMN_INDEX, COLUMN_ID, COLUMN_NAME, COLUMN_DESCRIPTION,
    COLUMN_CREATEDDATE, COLUMN_CREATEDUSERID, COLUMN_CREATEDUSERNAME, COLUMN_PERIODICINTERVAL,
    COLUMN_STARTTIME, COLUMN_FINISHTIME, COLUMN_CPUPERCENTUSAGE, COLUMN_MEMORYPERCENTUSAGE,
    COLUMN_STATUS, COLUMN_LASTUPDATED in *;
  repeat match goal with
    | H : context [c =? ?n] |- _ => destruct (Z.eqb_spec c n); [subst c|]; try done
    | |- context [c =? ?n] => destruct (Z.eqb_spec c n); [subst c|]; try done
    end.

Lemma string_col_with_string c c' x r :
  is_Some (string_col c r) ->
  string_col c' (with_string c x r) = if c' =? c then Some x else string_col c' r.
Proof.
  intros Hc. destruct (Z.eqb_spec c' c) as [->|Hne].
  - columns c; by destruct Hc.
  - unfold with_string. columns c; try (by destruct Hc); columns c'.
Qed.
Lemma long_col_with_string c c' x r : long_col c' (with_string c x r) = long_col c' r.
Proof. unfold with_string. by columns c'. Qed.
Lemma long_col_with_long c c' x r :
  is_Some (long_col c r) ->
  long_col c' (with_long c x r) = if c' =? c then Some x else long_col c' r.
Proof.
  intros Hc. destruct (Z.eqb_spec c' c) as [->|Hne].
  - columns c; by destruct Hc.
  - unfold with_long. columns c; try (by destruct Hc); columns c'.
Qed.
Lemma string_col_with_long c c' x r : string_col c' (with_long c x r) = string_col c' r.
Proof. unfold with_long. by columns c'. Qed.

Lemma copy_in_spec x src n x' : copy_in x src n = Ret x' ->
  length (bytes x') = length (bytes x) /\ len x' = n /\ 0 <= n <= Z.of_nat (length (bytes x)) /\
  octets x' = take (Z.to_nat n) src.
Proof.
  unfold copy_in. destruct (_ && _) eqn:Hc; [|done]. intros [= <-].
  rewrite !andb_true_iff, !Z.leb_le in Hc. unfold octets. cbn [bytes len].
  rewrite length_app, length_take, length_drop. split_and!; try lia.
  rewrite take_app_le by (rewrite length_take; lia). by rewrite take_take, Nat.min_id.
Qed.
Lemma copy_in_fits x src n :
  0 <= n <= Z.of_nat (length (bytes x)) -> n <= Z.of_nat (length src) ->
  copy_in x src n = Ret (MkColumn (take (Z.to_nat n) src ++ drop (Z.to_nat n) (bytes x)) n).
Proof.
  intros Hn Hs. unfold copy_in. by rewrite !(proj2 (Z.leb_le _ _)) by lia.
Qed.

Lemma get_value_with_string c c' x r :
  is_Some (string_col c r) ->
  jobProcessMasterTable_get_value c' (with_string c x r) =
    if c' =? c then Some (Octets (octets x)) else jobProcessMasterTable_get_value c' r.
Proof.
  intros Hc. unfold jobProcessMasterTable_get_value.
  rewrite (string_col_with_string _ _ _ _ Hc), long_col_with_string.
  destruct (Z.eqb_spec c' COLUMN_INDEX) as [->|]; [|by destruct (c' =? c)].
  destruct (Z.eqb_spec COLUMN_INDEX c) as [<-|]; [by destruct Hc|done].
Qed.
Lemma get_value_with_long c c' x r :
  is_Some (long_col c r) ->
  jobProcessMasterTable_get_value c' (with_long c x r) =
    if c' =? c then Some (Long x) else jobProcessMasterTable_get_value c' r.
Proof.
  intros Hc. unfold jobProcessMasterTable_get_value.
  rewrite (long_col_with_long _ _ _ _ Hc), string_col_with_long.
  assert (string_col c r = None) as Hs by (columns c; by destruct Hc).
  destruct (Z.eqb_spec c' c) as [->|Hne].
  - rewrite Hs. destruct (Z.eqb_spec c COLUMN_INDEX) as [->|]; [by destruct Hc|done].
  - done.
Qed.

(** ** The invariant of rows *)
Lemma row_ok_with_string c x r :
  row_ok r -> is_Some (string_col c r) -> column_ok c x -> row_ok (with_string c x r).
Proof.
  intros (Hi & Hb & Hc) Hs Hx. split; [done|]. split; [done|]. intros c' y.
  rewrite string_col_with_string by done.
  destruct (Z.eqb_spec c' c) as [->|]; [|by apply Hc]. by intros [= <-].
Qed.
Lemma row_ok_with_long c x r : row_ok r -> row_ok (with_long c x r).
Proof.
  intros (Hi & Hb & Hc). split; [done|]. split; [done|]. intros c' y.
  rewrite string_col_with_long. apply Hc.
Qed.
Lemma row_ok_with_idx x r : row_ok r -> row_ok (with_idx x r).
Proof. by intros [? ?]. Qed.
Lemma with_idx_equiv x r : with_idx x r ≡ r.
Proof. done. Qed.

Lemma row_ok_new i : 0 <= i < 2 ^ 32 -> row_ok (jobProcessMasterTable_extract_index i).
Proof.
  intros Hi. split; [done|]. split; [done|]. intros c x.
  columns c; intros [= <-]; unfold column_ok, col_size, blank; cbn [bytes len];
    rewrite length_replicate; by vm_compute.
Qed.

Lemma copy_in_ok c x src n x' : column_ok c x -> copy_in x src n = Ret x' -> column_ok c x'.
Proof.
  intros [Hl _] Hc. apply copy_in_spec in Hc as (Hl' & Hn' & Hn & _). split; lia.
Qed.

(** ** Copies of rows *)
Lemma copy_col_spec c dst src x :
  column_ok c dst -> copy_col dst src = Ret x -> column_ok c x /\ octets x = octets src /\ len x = len src.
Proof.
  intros Hd Hc. pose proof (copy_in_ok _ _ _ _ _ Hd Hc) as Hx.
  apply copy_in_spec in Hc as (_ & Hl & _ & Ho). by split_and!.
Qed.

Lemma row_copy_spec dst src r :
  row_ok dst -> row_ok src -> jobProcessMasterTable_row_copy dst src = Ret r -> row_ok r /\ r ≡ src.
Proof.
  intros (_ & _ & Hd) (Hi & Hb & _). unfold jobProcessMasterTable_row_copy.
  repeat (let E := fresh "E" in
    match goal with |- (copy_col ?a ?b ≫= _) = _ -> _ =>
      destruct (copy_col a b) as [?x| |] eqn:E; [rewrite outcome_bind_ret|done..];
      first
        [ apply (copy_col_spec COLUMN_ID) in E; [|by apply Hd]
        | apply (copy_col_spec COLUMN_NAME) in E; [|by apply Hd]
        | apply (copy_col_spec COLUMN_DESCRIPTION) in E; [|by apply Hd]
        | apply (copy_col_spec COLUMN_CREATEDDATE) in E; [|by apply Hd]
        | apply (copy_col_spec COLUMN_CREATEDUSERID) in E; [|by apply Hd]
        | apply (copy_col_spec COLUMN_CREATEDUSERNAME) in E; [|by apply Hd]
        | apply (copy_col_spec COLUMN_STARTTIME) in E; [|by apply Hd]
        | apply (copy_col_spec COLUMN_FINISHTIME) in E; [|by apply Hd]
        | apply (copy_col_spec COLUMN_LASTUPDATED) in E; [|by apply Hd] ];
      destruct E as (? & ? & ?)
    end).
  intros [= <-]. split.
  - split; [done|]. split; [done|]. intros c y. columns c; by intros [= <-].
  - split; [done|]. intros c. unfold jobProcessMasterTable_get_value. columns c; simpl; congruence.
Qed.

(** A copy between rows of the same sizes is within bounds. *)
Lemma copy_col_ok c dst src : column_ok c dst -> column_ok c src -> exists x, copy_col dst src = Ret x.
Proof. intros [Hd _] [Hs Hl]. eexists. apply copy_in_fits; lia. Qed.

Lemma row_copy_ok dst src :
  row_ok dst -> row_ok src -> exists r, jobProcessMasterTable_row_copy dst src = Ret r.
Proof.
  intros (_ & _ & Hd) (_ & _ & Hs). unfold jobProcessMasterTable_row_copy.
  assert (forall c a b, string_col c dst = Some a -> string_col c src = Some b ->
    exists x, copy_col a b = Ret x) as Hcol.
  { intros c a b Ha Hb. apply (copy_col_ok c); [by apply Hd|by apply Hs]. }
  repeat match goal with |- exists r, (copy_col ?a ?b ≫= _) = _ =>
    let x := fresh "x" in
    assert (exists x, copy_col a b = Ret x) as [x ->];
      [first [ by apply (Hcol COLUMN_ID) | by apply (Hcol COLUMN_NAME)
             | by apply (Hcol COLUMN_DESCRIPTION) | by apply (Hcol COLUMN_CREATEDDATE)
             | by apply (Hcol COLUMN_CREATEDUSERID) | by apply (Hcol COLUMN_CREATEDUSERNAME)
             | by apply (Hcol COLUMN_STARTTIME) | by apply (Hcol COLUMN_FINISHTIME)
             | by apply (Hcol COLUMN_LASTUPDATED) ]
      |rewrite outcome_bind_ret]
  end.
  by eexists.
Qed.

Lemma duplicate_row_spec mem r u :
  row_ok r -> jobProcessMasterTable_duplicate_row mem r = Ret u ->
  match u with Some r' => row_ok r' /\ r' ≡ r | None => mem = false end.
Proof.
  intros Hr. unfold jobProcessMasterTable_duplicate_row. destruct mem; [|by intros [= <-]].
  destruct (jobProcessMasterTable_row_copy _ _) as [x| |] eqn:E; [|done..].
  rewrite outcome_bind_ret. intros [= <-]. eapply row_copy_spec; [|done..].
  apply row_ok_new. lia.
Qed.

(** ** Containers *)
Definition table_ok (l : list row) : Prop :=
  StronglySorted Z.lt (index <$> l) /\ Forall row_ok l.

Lemma find_row_Some i l r : find_row i l = Some r -> r ∈ l /\ index r = i.
Proof. intros [Hi Hr]%find_some. split; [by apply list_elem_of_In|lia]. Qed.
Lemma find_row_None i l : find_row i l = None -> Forall (fun r => index r <> i) l.
Proof.
  intros Hn. apply Forall_forall. intros r Hr. apply list_elem_of_In in Hr.
  pose proof (find_none _ _ Hn r Hr). simpl in *. lia.
Qed.

Lemma sorted_NoDup (l : list Z) : StronglySorted Z.lt l -> NoDup l.
Proof.
  induction 1 as [|x l _ IH Hx]; constructor; [|done]. intros Hin.
  rewrite Forall_forall in Hx. apply Hx in Hin. lia.
Qed.
Lemma find_row_in l r : NoDup (index <$> l) -> r ∈ l -> find_row (index r) l = Some r.
Proof.
  induction l as [|x l IH]; cbn [fmap list_fmap]; intros Hnd Hin; [by apply not_elem_of_nil in Hin|].
  apply NoDup_cons in Hnd as [Hx Hnd]. cbn [find_row find].
  apply elem_of_cons in Hin as [->|Hin]; [by rewrite Z.eqb_refl|].
  rewrite (proj2 (Z.eqb_neq _ _)); [by apply IH|]. intros Heq. apply Hx. rewrite Heq.
  by apply list_elem_of_fmap_2.
Qed.

Lemma insert_row_keys r l l' : insert_row r l = Some l' -> StronglySorted Z.lt (index <$> l) ->
  StronglySorted Z.lt (index <$> l') /\ (forall x, x ∈ l' <-> x = r \/ x ∈ l).
Proof.
  revert l'. induction l as [|x l IH]; intros l' Hins Hs; cbn [insert_row] in Hins.
  { simplify_eq. split; [repeat constructor|]. intros x. by rewrite elem_of_cons. }
  destruct (Z.ltb_spec (index r) (index x)) as [Hlt|Hge].
  { simplify_eq. cbn [fmap list_fmap] in *. split.
    - constructor; [done|]. apply StronglySorted_inv in Hs as [_ Hx]. constructor; [done|].
      eapply Forall_impl; [exact Hx|]. simpl. lia.
    - intros y. by rewrite elem_of_cons. }
  destruct (Z.eqb_spec (index r) (index x)); [done|].
  destruct (insert_row r l) as [l1|] eqn:E; [|done]. simplify_eq/=.
  apply StronglySorted_inv in Hs as [Hs Hx]. destruct (IH _ eq_refl Hs) as [Hs1 Hin]. split.
  - constructor; [done|]. rewrite Forall_forall in *. intros k Hk.
    apply list_elem_of_fmap in Hk as (y & -> & Hy). apply Hin in Hy as [->|Hy]; [lia|].
    apply Hx, list_elem_of_fmap_2, Hy.
  - intros y. rewrite !elem_of_cons, Hin. tauto.
Qed.

Lemma insert_row_new r l : find_row (index r) l = None -> is_Some (insert_row r l).
Proof.
  intros Hn%find_row_None. induction Hn as [|x l Hx _ IH]; [by eexists|].
  cbn [insert_row]. destruct (_ <? _); [by eexists|].
  rewrite (proj2 (Z.eqb_neq _ _)) by done. destruct IH as [l' ->]. by eexists.
Qed.

Lemma insert_row_ok r l l' : insert_row r l = Some l' -> table_ok l -> row_ok r -> table_ok l'.
Proof.
  intros Hins [Hs Hl] Hr. destruct (insert_row_keys _ _ _ Hins Hs) as [Hs' Hin].
  split; [done|]. apply Forall_forall. intros x [->|Hx]%Hin; [done|].
  rewrite Forall_forall in Hl. by apply Hl.
Qed.
Lemma remove_row_ok i l : table_ok l -> table_ok (remove_row i l).
Proof.
  intros [Hs Hl]. split.
  2: { apply Forall_forall. intros x [_ Hx]%list_elem_of_filter. rewrite Forall_forall in Hl. by apply Hl. }
  unfold remove_row. clear Hl. induction l as [|x l IH]; [done|].
  cbn [fmap list_fmap] in Hs. apply StronglySorted_inv in Hs as [Hs Hx]. rewrite filter_cons.
  case_decide; [|by apply IH]. cbn [fmap list_fmap]. constructor; [by apply IH|].
  rewrite Forall_forall in *. intros k Hk. apply Hx.
  apply list_elem_of_fmap in Hk as (y & -> & [_ Hy]%list_elem_of_filter).
  by apply list_elem_of_fmap_2.
Qed.

(** Replacing rows by rows with the same index. *)
Lemma same_keys_ok l l' : index <$> l = index <$> l' -> Forall row_ok l' -> table_ok l -> table_ok l'.
Proof. intros Hk Hl [Hs _]. split; [by rewrite <- Hk|done]. Qed.

Lemma sync_keys g t : index (existing_row g) = g_index g ->
  index <$> container (sync g t) = index <$> container t.
Proof.
  intros Hg. unfold sync. cbn [container with_container]. induction (container t) as [|r l IH]; [done|].
  cbn [map fmap list_fmap]. f_equal; [|done]. destruct (Z.eqb_spec (index r) (g_index g)); congruence.
Qed.
Lemma sync_ok g t : index (existing_row g) = g_index g -> row_ok (existing_row g) ->
  table_ok (container t) -> table_ok (container (sync g t)).
Proof.
  intros Hi Hr Ht. apply (same_keys_ok (container t)); [by rewrite sync_keys| |done].
  destruct Ht as [_ Hl]. unfold sync. cbn [container with_container]. apply Forall_forall.
  intros x Hx. apply list_elem_of_fmap in Hx as (y & -> & Hy). case_match; [done|].
  rewrite Forall_forall in Hl. by apply Hl.
Qed.

Lemma write_file_rows room l : let '(_, rows, _) := write_file room l in
  index <$> rows = index <$> l /\ (Forall row_ok l -> Forall row_ok rows).
Proof.
  unfold write_file. split.
  - rewrite fmap_app. rewrite <- (take_drop (S room) l) at 3. rewrite fmap_app. f_equal.
    rewrite <- list_fmap_compose. by apply list_fmap_ext.
  - intros Hl. apply Forall_app. split; [|by apply Forall_drop].
    apply Forall_map. apply Forall_take, (Forall_impl _ _ _ Hl). intros r. apply row_ok_with_idx.
Qed.

(** ** The requests for a row *)

(** [l0] is the container before the request.  A row that exists has a copy that
    shows what it did. *)
Definition group_ok (l0 : list row) (g : group) : Prop :=
  g_list g <> [] /\ index (existing_row g) = g_index g /\ row_ok (existing_row g) /\
  (row_created g = false -> exists r0, find_row (g_index g) l0 = Some r0 /\
     match undo_info g with Some u => row_ok u /\ u ≡ r0 | None => True end).
(** Before the first phase. *)
Definition fresh_group (l0 : list row) (g : group) : Prop :=
  group_ok l0 g /\ undo_info g = None /\
  (row_created g = false -> find_row (g_index g) l0 = Some (existing_row g)).

(** The indices of the rows that exist already. *)
Definition keys (gs : list group) : list Z :=
  omap (fun g => if row_created g then None else Some (g_index g)) gs.

Lemma Forall2_impl_in {A B} (P Q : A -> B -> Prop) l k :
  Forall2 P l k -> (forall x y, x ∈ l -> P x y -> Q x y) -> Forall2 Q l k.
Proof.
  induction 1 as [|x y l k Hp _ IH]; intros Himp; constructor.
  - apply Himp; [by left|done].
  - apply IH. intros a b Ha. apply Himp. by right.
Qed.

Section Each.
Context {X : Type} (f : group -> X -> outcome (group * X)).

Lemma each_inv (P Q : group -> Prop) (I : X -> Prop) gs x gs' x' :
  (forall g x g' x', P g -> I x -> f g x = Ret (g', x') -> Q g' /\ I x') ->
  Forall P gs -> I x -> each f gs x = Ret (gs', x') -> Forall Q gs' /\ I x'.
Proof.
  intros Hf Hgs. revert x gs' x'. induction Hgs as [|g gs Hg _ IH]; intros x gs' x' Hx; cbn [each].
  - intros [= <- <-]. by split.
  - destruct (f g x) as [[g1 x1]| |] eqn:E; [|done..]. rewrite outcome_bind_ret.
    destruct (each f gs x1) as [[gs1 x2]| |] eqn:E2; [|done..]. rewrite outcome_bind_ret.
    intros [= <- <-]. destruct (Hf _ _ _ _ Hg Hx E) as [Hq Hx1].
    destruct (IH _ _ _ Hx1 E2) as [Hqs Hx2]. by split; [constructor|].
Qed.

(** Most steps keep the row a group is for. *)
Lemma each_keys gs x gs' x' :
  (forall g x g' x', f g x = Ret (g', x') -> g_index g' = g_index g /\ row_created g' = row_created g) ->
  each f gs x = Ret (gs', x') -> keys gs' = keys gs.
Proof.
  intros Hf. revert x gs' x'. induction gs as [|g gs IH]; intros x gs' x'; cbn [each].
  - by intros [= <- <-].
  - destruct (f g x) as [[g1 x1]| |] eqn:E; [|done..]. rewrite outcome_bind_ret.
    destruct (each f gs x1) as [[gs1 x2]| |] eqn:E2; [|done..]. rewrite outcome_bind_ret.
    intros [= <- <-]. destruct (Hf _ _ _ _ E) as [Hi Hc]. unfold keys. cbn [omap list_omap].
    rewrite Hi, Hc. pose proof (IH _ _ _ E2) as Hk. unfold keys in Hk. by rewrite Hk.
Qed.
End Each.

Section Phases.
Context `{TableLib}.
Variable lw : Z.

(** ** Grouping *)
Lemma join_group_ok pos v gs gs' l0 :
  Forall (fresh_group l0) gs -> join_group pos v gs = Some gs' -> Forall (fresh_group l0) gs'.
Proof.
  intros Hgs. revert gs'. induction Hgs as [|g gs Hg Hgs IH]; intros gs'; cbn [join_group]; [done|].
  destruct (g_index g =? tindex v).
  - intros [= <-]. constructor; [|done]. destruct Hg as ((Hl & Hg) & Hu). by split; [split|].
  - destruct (join_group pos v gs) as [gs1|]; [|done]. intros [= <-]. constructor; [done|]. by apply IH.
Qed.
Lemma insert_group_ok (P : group -> Prop) g gs : P g -> Forall P gs -> Forall P (insert_group g gs).
Proof.
  intros Hg. induction 1 as [|x gs Hx Hgs IH]; cbn [insert_group]; [by repeat constructor|].
  destruct (_ <? _); by repeat constructor.
Qed.

Lemma group_requests_ok e t pos reqs gs st gs' st' :
  table_ok (container t) -> Forall (fun v => 0 <= tindex v < 2 ^ 32) reqs ->
  Forall (fresh_group (container t)) gs ->
  group_requests e t pos reqs gs st = (gs', st') -> Forall (fresh_group (container t)) gs'.
Proof.
  intros [Hs Hl] Hreqs. revert pos gs st.
  induction Hreqs as [|v reqs Hv _ IH]; intros pos gs st Hgs; cbn [group_requests].
  { by intros [= <- <-]. }
  destruct (join_group pos v gs) as [gs1|] eqn:E.
  { apply IH. by eapply join_group_ok. }
  destruct (find_row (tindex v) (container t)) as [r|] eqn:Hf.
  - apply IH. apply insert_group_ok; [|done]. destruct (find_row_Some _ _ _ Hf) as [Hin Hi].
    rewrite Forall_forall in Hl. split; [|done]. split_and!; [done|done|by apply Hl|].
    intros _. by exists r.
  - unfold jobProcessMasterTable_create_row. destruct (mem e (tindex v)); [|by apply IH].
    apply IH. apply insert_group_ok; [|done]. split; [|done].
    split_and!; [done|done|by apply row_ok_new|done].
Qed.

(** ** The phases before the commit *)
Lemma reserve1_group_ok e g st g' st' l0 :
  fresh_group l0 g -> reserve1_group lw e g st = Ret (g', st') ->
  group_ok l0 g' /\ existing_row g' = existing_row g /\ g_index g' = g_index g /\
  row_created g' = row_created g.
Proof.
  intros ((Hl & Hi & Hr & Hf) & Hu & He). unfold reserve1_group.
  destruct (row_created g) eqn:Hc.
  { intros [= <- <-]. split; [|by rewrite Hc]. split_and!; [done..|]. by rewrite Hc. }
  destruct (jobProcessMasterTable_duplicate_row _ _) as [u| |] eqn:E; [|done..].
  rewrite outcome_bind_ret. apply (duplicate_row_spec _ _ _ Hr) in E.
  assert (forall st1, Ret (with_undo u g, st1) = Ret (g', st') ->
    group_ok l0 g' /\ existing_row g' = existing_row g /\ g_index g' = g_index g /\
    row_created g' = row_created g) as Hdone.
  { intros st1 [= <- <-]. split_and!; [|done..]. split_and!; [done..|]. intros _.
    exists (existing_row g). split; [by apply He|]. by destruct u. }
  destruct u; [|change (with_undo None g) with (with_undo None g)]; intros Hg; rewrite Hc in Hdone;
    by eapply Hdone.
Qed.

Lemma reserve2_group_ok g st g' st' :
  jobProcessMasterTable_set_reserve2 lw g st = Ret (g', st') ->
  exists p, g' = with_void p g.
Proof.
  unfold jobProcessMasterTable_set_reserve2. destruct (g_list g) as [|[p v] l]; [done|].
  destruct (reserve2_loop _ _ _ _ _) as [[q st1]| |]; [|done..].
  rewrite outcome_bind_ret. intros [= <- <-]. by eexists.
Qed.

(** ** The action phase *)
Lemma poke_length m off s m' : poke m off s = Ret m' -> length m' = length m.
Proof.
  unfold poke. case_bool_decide; [|done]. intros [= <-].
  rewrite !length_app, length_take, length_drop. lia.
Qed.

(** What [date_n_time] gives fits a date column. *)
Definition date_ok (d : list Z * Z) : Prop := 0 <= d.2 <= 20.

Lemma copy_date_ok c x d y : col_size c = 20 -> column_ok c x -> date_ok d ->
  copy_date x d = Ret y -> column_ok c y.
Proof.
  intros Hc [Hl _] Hd. unfold copy_date. destruct (get_str _ _) as [s| |]; [|done..].
  rewrite outcome_bind_ret. destruct (strcpy _ _ _) as [b| |] eqn:E; [|done..].
  rewrite outcome_bind_ret. intros [= <-]. apply poke_length in E. unfold date_ok in Hd.
  split; cbn [bytes len]; [by rewrite E|]. by rewrite Hc.
Qed.

Lemma copy_value_ok v r r' : row_ok r -> copy_value v r = Ret r' ->
  row_ok r' /\ index r' = index r.
Proof.
  intros Hr. unfold copy_value. destruct (string_col (colnum v) r) as [x|] eqn:Es.
  - destruct (copy_in _ _ _) as [y| |] eqn:E; [|done..]. rewrite outcome_bind_ret. intros [= <-].
    split; [|done]. apply row_ok_with_string; [done|by eexists|].
    destruct Hr as (_ & _ & Hr). eapply copy_in_ok; [by apply Hr|done].
  - destruct (long_col _ r); [|by intros [= <-]].
    destruct (integer_of v); [|done..]. rewrite outcome_bind_ret. intros [= <-].
    split; [by apply row_ok_with_long|done].
Qed.
Lemma copy_values_ok l r r' : row_ok r -> copy_values l r = Ret r' -> row_ok r' /\ index r' = index r.
Proof.
  revert r. induction l as [|[p v] l IH]; intros r Hr; cbn [copy_values]; [by intros [= <-]|].
  destruct (copy_value v r) as [r1| |] eqn:E; [|done..]. rewrite outcome_bind_ret. intros Hc.
  destruct (copy_value_ok _ _ _ Hr E) as [Hr1 Hi1]. destruct (IH _ Hr1 Hc) as [Hr2 Hi2].
  split; [done|congruence].
Qed.

Lemma set_action_ok e g st g' st' l0 : date_ok (date_action e) -> group_ok l0 g ->
  jobProcessMasterTable_set_action e g st = Ret (g', st') ->
  group_ok l0 g' /\ g_index g' = g_index g /\ row_created g' = row_created g /\
  undo_info g' = undo_info g.
Proof.
  intros Hd (Hl & Hi & Hr & Hf). unfold jobProcessMasterTable_set_action.
  destruct (copy_date _ _) as [d| |] eqn:Ed; [|done..]. rewrite outcome_bind_ret.
  destruct (copy_values _ _) as [r| |] eqn:Er; [|done..]. rewrite outcome_bind_ret.
  apply copy_values_ok in Er as [Hr1 Hi1].
  2: { apply row_ok_with_string; [done|by eexists|].
       eapply (copy_date_ok COLUMN_LASTUPDATED); [done| |exact Hd|exact Ed].
       by vm_compute. }
  destruct (netsnmp_table_array_check_row_status _ _) as [[err status] deleted].
  assert (forall b st1, Ret (with_row (with_long COLUMN_STATUS status r) b g, st1) = Ret (g', st') ->
    group_ok l0 g' /\ g_index g' = g_index g /\ row_created g' = row_created g /\
    undo_info g' = undo_info g) as Hdone.
  { intros b st1 [= <- <-]. split; [|done]. split; [done|]. split; [exact (eq_trans Hi1 Hi)|].
    split; [by apply row_ok_with_long|done]. }
  destruct (negb _); [by eapply Hdone|]. destruct (_ && _); [|by eapply Hdone].
  cbn [g_list with_row]. destruct (g_list g) as [|[p v] l]; [done|by eapply Hdone].
Qed.

(** Rows are changed in place, those of the request only. *)
Definition only_at (ks : list Z) (r0 r : row) : Prop :=
  index r = index r0 /\ (index r0 ∈ ks \/ r ≡ r0).

Lemma sync_only_at ks l0 g t :
  index (existing_row g) = g_index g -> g_index g ∈ ks ->
  Forall2 (only_at ks) l0 (container t) -> Forall2 (only_at ks) l0 (container (sync g t)).
Proof.
  intros Hi Hk Ht. unfold sync. cbn [container with_container]. apply Forall2_fmap_r.
  eapply Forall2_impl; [exact Ht|]. intros r0 r [Hr Hor]. simpl.
  destruct (Z.eqb_spec (index r) (g_index g)); [|by split].
  split; [congruence|]. left. congruence.
Qed.

Lemma action_group_ok e g x g' x' l0 ks : date_ok (date_action e) ->
  group_ok l0 g -> (row_created g = false -> g_index g ∈ ks) ->
  table_ok (container x.1) /\ Forall2 (only_at ks) l0 (container x.1) ->
  action_group e g x = Ret (g', x') ->
  (group_ok l0 g' /\ (undo_info g' = undo_info g)) /\
  (table_ok (container x'.1) /\ Forall2 (only_at ks) l0 (container x'.1)) /\
  conf x'.1 = conf x.1 /\ jt_log x'.1 = jt_log x.1 /\
  g_index g' = g_index g /\ row_created g' = row_created g.
Proof.
  intros Hd Hg Hk [Ht Ho]. unfold action_group.
  destruct (jobProcessMasterTable_set_action _ _ _) as [[g1 st1]| |] eqn:E; [|done..].
  rewrite outcome_bind_ret. intros [= <- <-].
  apply (set_action_ok _ _ _ _ _ l0 Hd Hg) in E as (Hg1 & Hi1 & Hc1 & Hu1).
  cbn [fst]. rewrite Hc1. destruct (row_created g) eqn:Hc; [by split_and!|].
  destruct Hg1 as (Hl & Hi & Hr & Hf). split_and!; try done.
  - by apply sync_ok.
  - apply sync_only_at; [done| |done]. rewrite Hi1. by apply Hk.
Qed.

(** ** Undoing *)
Lemma sync_restores i ks l0 r0 g t :
  NoDup (index <$> l0) -> find_row i l0 = Some r0 -> g_index g = i -> existing_row g ≡ r0 ->
  Forall2 (only_at (i :: ks)) l0 (container t) -> Forall2 (only_at ks) l0 (container (sync g t)).
Proof.
  intros Hnd Hf Hi He Ht. unfold sync. cbn [container with_container]. apply Forall2_fmap_r.
  eapply Forall2_impl_in; [exact Ht|]. intros x r Hx [Hr Hor]. simpl. rewrite Hi.
  destruct (Z.eqb_spec (index r) i) as [Hri|Hne].
  - pose proof (find_row_in _ _ Hnd Hx) as Hfx. rewrite <- Hr, Hri, Hf in Hfx.
    injection Hfx as <-.
    split; [by rewrite He|]. by right.
  - split; [done|]. destruct Hor as [[Hx'|Hx']%elem_of_cons|]; [congruence|by left|by right].
Qed.

Lemma undo_groups_ok gs t t' l0 : table_ok l0 -> Forall (group_ok l0) gs ->
  table_ok (container t) ->
  Forall2 (only_at (keys gs)) l0 (container t) -> undo_groups gs t = Ret t' ->
  table_ok (container t') /\ Forall2 (only_at []) l0 (container t') /\ conf t' = conf t /\
  jt_log t' = jt_log t.
Proof.
  intros [Hs _] Hgs. pose proof (sorted_NoDup _ Hs) as Hnd. revert t.
  induction Hgs as [|g gs Hg _ IH]; intros t Hok Ht; cbn [undo_groups]; [by intros [= <-]|].
  unfold undo_group. unfold keys in Ht. cbn [omap list_omap] in Ht.
  destruct (row_created g) eqn:Hc; [rewrite outcome_bind_ret; by apply IH|].
  destruct Hg as (_ & Hi & Hr & Hf). destruct (Hf Hc) as (r0 & Hfind & Hu).
  destruct (undo_info g) as [u|]; [|done]. destruct Hu as [Hu Hur].
  destruct (jobProcessMasterTable_row_copy _ _) as [r| |] eqn:E; [|done..].
  rewrite !outcome_bind_ret. apply (row_copy_spec _ _ _ Hr Hu) in E as [Hrr Hru]. intros Hun.
  assert (index r = g_index g) as Hri.
  { rewrite Hru, Hur. by destruct (find_row_Some _ _ _ Hfind). }
  apply IH in Hun; [done|by apply sync_ok|].
  apply (sync_restores (g_index g) (keys gs) l0 r0); [done|done|done| |exact Ht].
  cbn [existing_row with_row]. by rewrite Hru.
Qed.

(** ** The commit phase *)
Lemma send_snmptrap_frame e args t t' :
  jobProcessMasterTable_send_snmptrap e args t = Ret (Some t') ->
  container t' = container t /\ conf t' = conf t.
Proof.
  unfold jobProcessMasterTable_send_snmptrap. destruct (negb _); [done|].
  destruct (build_pdu _ _) as [[vars|]| |]; [rewrite outcome_bind_ret; by intros [= <-]|done..].
Qed.
Lemma commit_trap_frame e g t t' : commit_trap lw e g t = Ret (Some t') ->
  container t' = container t /\ conf t' = conf t.
Proof.
  unfold commit_trap. destruct (fill_args _ _ _ _) as [[args k]| |]; [|done..].
  rewrite outcome_bind_ret. destruct (CPUorMEMFlg k); [by intros [= <-]|].
  destruct (_ =? _); [destruct (_ =? _); [apply send_snmptrap_frame|by intros [= <-]]|].
  destruct (_ =? _); [apply send_snmptrap_frame|].
  destruct (jobProcessMasterTable_Search_Index_From_File _ _ _) as [[extra|]| |]; [| |done..].
  - rewrite outcome_bind_ret. destruct (add_missing _ _ _); [|done..]. rewrite outcome_bind_ret.
    apply send_snmptrap_frame.
  - rewrite outcome_bind_ret. by intros [= <-].
Qed.

(** The file holds the rows. *)
Definition saved (t : job_table) : Prop :=
  conf t = Some (container t) /\ Forall (fun r => idx r = index r) (container t).

Lemma write_file_all room l : (length l <= room)%nat ->
  write_file room l = (true, map (fun r => with_idx (index r) r) l, map (fun r => with_idx (index r) r) l).
Proof.
  intros Hl. unfold write_file. rewrite bool_decide_eq_true_2 by done.
  by rewrite !take_ge, drop_ge, app_nil_r by lia.
Qed.

Lemma set_commit_ok e g t t' : date_ok (date_commit e) ->
  index (existing_row g) = g_index g -> row_ok (existing_row g) -> table_ok (container t) ->
  jobProcessMasterTable_set_commit lw e g t = Ret (Some t') ->
  table_ok (container t') /\ index <$> container t' = index <$> container t /\
  (forall room, disk e = Some room -> (length (container t) <= room)%nat -> saved t').
Proof.
  intros Hd Hi Hr Ht. unfold jobProcessMasterTable_set_commit.
  destruct (strlen _) as [n| |]; [|done..]. rewrite outcome_bind_ret.
  set (new := if bool_decide (n = O) then _ else _).
  destruct new as [r| |] eqn:E; [|done..]. rewrite outcome_bind_ret.
  assert (row_ok r /\ index r = g_index g) as [Hr1 Hi1].
  { unfold new in E. case_bool_decide; [|by injection E as <-].
    destruct (copy_date _ _) as [d| |] eqn:Ed; [|done..]. rewrite outcome_bind_ret in E.
    injection E as <-. split; [|done]. apply row_ok_with_string; [done|by eexists|].
    destruct Hr as (_ & _ & Hr). eapply (copy_date_ok COLUMN_CREATEDDATE);
      [done|by apply Hr|exact Hd|exact Ed]. }
  pose proof (sync_ok (with_row r (row_deleted g) g) t Hi1 Hr1 Ht) as Ht1.
  pose proof (sync_keys (with_row r (row_deleted g) g) t Hi1) as Hk1.
  set (t1 := sync _ t) in *.
  destruct (disk e) as [room|]; [|by intros [= <-]].
  pose proof (write_file_rows room (container t1)) as Hw.
  destruct (write_file room (container t1)) as [[written rows] file] eqn:Ew.
  destruct Hw as [Hkeys Hrows].
  assert (table_ok rows) as Htr.
  { apply (same_keys_ok (container t1)); [done| |done]. apply Hrows, Ht1. }
  intros Hc.
  assert (container t' = rows /\ conf t' = Some file) as [Hcont Hconf].
  { destruct written; [by apply commit_trap_frame in Hc as [-> ->]|by injection Hc as <-]. }
  rewrite Hcont. split; [done|]. split; [congruence|]. intros room' [= <-] Hlen. unfold saved.
  rewrite Hcont.
  rewrite write_file_all in Ew.
  - injection Ew as _ <- <-. split; [done|]. apply Forall_map, Forall_true. by intros x.
  - rewrite <- (length_fmap index (container t1)), Hk1, length_fmap. done.
Qed.

(** ** The status of a request *)
Lemma first_error_zero st : first_error st = 0 <-> Forall (eq 0) st.
Proof.
  unfold first_error. induction st as [|x st IH]; cbn [find]; [by split; constructor|].
  rewrite Forall_cons. destruct (Z.eqb_spec x 0) as [->|]; cbn [negb]; [|simpl; intuition lia].
  rewrite IH. intuition.
Qed.
Lemma failed_false st : failed st = false <-> Forall (eq 0) st.
Proof. unfold failed. rewrite negb_false_iff, Z.eqb_eq. apply first_error_zero. Qed.

(** The positions of a group are those of requests. *)
Definition in_range (n : nat) (g : group) : Prop := Forall (fun it => (it.1 < n)%nat) (g_list g).

Lemma blame_failed n g st rc : rc <> 0 -> g_list g <> [] -> in_range n g -> length st = n ->
  first_error (blame rc g st) <> 0.
Proof.
  intros Hrc Hl Hn Hst Hz%first_error_zero. unfold blame, set_error in Hz.
  destruct (g_list g) as [|[p v] l] eqn:E; [done|]. unfold in_range in Hn. rewrite E in Hn.
  apply Forall_cons in Hn as [Hp _]. rewrite (proj2 (Z.eqb_neq _ _) Hrc) in Hz.
  rewrite Forall_lookup in Hz. apply Hrc. symmetry. apply (Hz p), list_lookup_insert_eq. simpl in Hp. lia.
Qed.
Lemma set_error_length rc p st : length (set_error rc p st) = length st.
Proof. unfold set_error. destruct (_ =? _); [done|apply length_insert]. Qed.
Lemma blame_length rc g st : length (blame rc g st) = length st.
Proof. unfold blame. destruct (g_list g) as [|[p v] l]; [done|apply set_error_length]. Qed.
Lemma set_error_keeps rc p st : first_error st <> 0 -> first_error (set_error rc p st) <> 0.
Proof.
  unfold set_error. destruct (Z.eqb_spec rc 0) as [|Hrc]; [done|]. intros Hst Hz. apply Hst.
  apply first_error_zero. apply first_error_zero in Hz.
  destruct (decide (p < length st)%nat) as [Hp|Hp]; [|by rewrite list_insert_ge in Hz by lia].
  exfalso. rewrite Forall_lookup in Hz. apply Hrc. symmetry. by apply (Hz p), list_lookup_insert_eq.
Qed.
Lemma blame_keeps rc g st : first_error st <> 0 -> first_error (blame rc g st) <> 0.
Proof. unfold blame. destruct (g_list g) as [|[p v] l]; [done|apply set_error_keeps]. Qed.
End Phases.
