(* ===== verification/JobTableProps.v ===== *)
(** * What a SET on the table of jobs does

    A SET that fails changes nothing, one that succeeds is in the file, and the
    table keeps its order; all for requests on any number of rows. *)

From S2P Require Import Prelude CTypes JobTime JobList CText JobTable JobTableProofs.
From stdpp Require Import list.
From Stdlib Require Import Sorted.
#[local] Open Scope Z_scope.

Section Requests.
Context `{TableLib}.
Variables (lw : Z) (e : env).
Abbreviation handle_set := (handle_set lw e).

(** What the phases rely on in every group, for [n] requests. *)
Definition good (l0 : list row) (n : nat) (g : group) : Prop := group_ok l0 g /\ in_range n g.

Lemma join_group_range n pos v gs gs' : (pos < n)%nat ->
  Forall (in_range n) gs -> join_group pos v gs = Some gs' -> Forall (in_range n) gs' /\ gs' <> [].
Proof.
  intros Hp Hgs. revert gs'. induction Hgs as [|g gs Hg Hgs IH]; intros gs'; cbn [join_group]; [done|].
  destruct (g_index g =? tindex v).
  - intros [= <-]. split; [|done]. constructor; [|done]. by constructor.
  - destruct (join_group pos v gs) as [gs1|]; [|done]. intros [= <-]. split; [|done].
    constructor; [done|]. by apply IH.
Qed.
Lemma insert_group_ne g gs : insert_group g gs <> [].
Proof. destruct gs as [|x gs1]; cbn [insert_group]; [done|by destruct (_ <? _)]. Qed.

Lemma group_requests_range n t pos reqs gs st gs' st' : (pos + length reqs <= n)%nat ->
  Forall (in_range n) gs -> group_requests e t pos reqs gs st = (gs', st') ->
  Forall (in_range n) gs' /\ length st' = length st.
Proof.
  revert pos gs st. induction reqs as [|v reqs IH]; intros pos gs st Hp Hgs; cbn [group_requests].
  { by intros [= <- <-]. }
  cbn [length] in Hp.
  assert (Hins : forall g, g_list g = [(pos, v)] -> Forall (in_range n) (insert_group g gs)).
  { intros g Hg. apply insert_group_ok; [|done]. unfold in_range. rewrite Hg.
    repeat constructor. simpl. lia. }
  destruct (join_group pos v gs) as [gs1|] eqn:E.
  { apply (join_group_range n) in E as [Hr Hne]; [|lia|done]. apply IH; [lia|done]. }
  destruct (find_row _ _) as [r|]; [apply IH; [lia|by apply Hins]|].
  destruct (jobProcessMasterTable_create_row _ _) as [r|]; [apply IH; [lia|by apply Hins]|].
  rewrite <- (set_error_length SNMP_ERR_GENERR pos st). apply IH; [lia|done].
Qed.
Lemma group_requests_keeps t pos reqs gs st gs' st' :
  group_requests e t pos reqs gs st = (gs', st') -> first_error st <> 0 -> first_error st' <> 0.
Proof.
  revert pos gs st. induction reqs as [|v reqs IH]; intros pos gs st; cbn [group_requests].
  { by intros [= <- <-]. }
  destruct (join_group pos v gs); [by apply IH|].
  destruct (find_row _ _); [by apply IH|].
  destruct (jobProcessMasterTable_create_row _ _); [by apply IH|].
  intros Hg Hst. eapply IH; [exact Hg|]. by apply set_error_keeps.
Qed.
(** Every request without an error is in a group. *)
Lemma group_requests_ne t pos reqs gs st gs' st' : (pos + length reqs <= length st)%nat ->
  gs <> [] \/ reqs <> [] -> group_requests e t pos reqs gs st = (gs', st') ->
  first_error st' = 0 -> gs' <> [].
Proof.
  revert pos gs st. induction reqs as [|v reqs IH]; intros pos gs st Hp Hne; cbn [group_requests].
  { intros [= <- <-] _. by destruct Hne. }
  cbn [length] in Hp.
  destruct (join_group pos v gs) as [gs1|] eqn:E.
  { apply IH; [lia|]. left. intros ->. destruct gs as [|g gs]; [done|]. cbn [join_group] in E.
    destruct (_ =? _); [done|]. by destruct (join_group pos v gs). }
  destruct (find_row _ _) as [r|]; [apply IH; [lia|left; apply insert_group_ne]|].
  destruct (jobProcessMasterTable_create_row _ _) as [r|];
    [apply IH; [lia|left; apply insert_group_ne]|].
  intros Hg Hz. exfalso. apply (group_requests_keeps _ _ _ _ _ _ _ Hg); [|done].
  intros Hz'%first_error_zero. rewrite Forall_lookup in Hz'.
  assert (0 = SNMP_ERR_GENERR); [|done]. apply (Hz' pos), list_lookup_insert_eq. lia.
Qed.

(** ** The phases *)
Lemma set_reserve1_length g st : length (jobProcessMasterTable_set_reserve1 lw g st) = length st.
Proof.
  unfold jobProcessMasterTable_set_reserve1. generalize (g_list g). intros l. revert st.
  induction l as [|[p v] l IH]; intros st; cbn [foldl]; [done|]. by rewrite IH, set_error_length.
Qed.
Lemma reserve2_loop_length old l p st p' st' :
  reserve2_loop lw old l p st = Ret (p', st') -> length st' = length st.
Proof.
  revert p st. induction l as [|[q v] l IH]; intros p st; cbn [reserve2_loop]; [by intros [= <- <-]|].
  destruct (_ =? _); [|by apply IH]. destruct (check_vb_rowstatus _ _ _) as [rc| |]; [|done..].
  rewrite outcome_bind_ret. intros Hl%IH. by rewrite Hl, set_error_length.
Qed.
Lemma set_reserve2_length g st g' st' :
  jobProcessMasterTable_set_reserve2 lw g st = Ret (g', st') -> length st' = length st.
Proof.
  unfold jobProcessMasterTable_set_reserve2. destruct (g_list g) as [|[p v] l]; [done|].
  destruct (reserve2_loop _ _ _ _ _) as [[q st1]| |] eqn:E; [|done..].
  rewrite outcome_bind_ret. intros [= _ <-]. by apply reserve2_loop_length in E.
Qed.
Lemma reserve1_group_frame g st g' st' : reserve1_group lw e g st = Ret (g', st') ->
  g_list g' = g_list g /\ length st' = length st /\ g_index g' = g_index g /\
  row_created g' = row_created g.
Proof.
  unfold reserve1_group. destruct (row_created g) eqn:Hc.
  { intros [= <- <-]. rewrite Hc. by rewrite set_reserve1_length. }
  destruct (jobProcessMasterTable_duplicate_row _ _) as [[u|]| |]; [| |done..];
    rewrite outcome_bind_ret; intros [= <- <-]; split_and!; try done;
    [apply set_reserve1_length|apply blame_length].
Qed.
Lemma set_action_frame g st g' st' : jobProcessMasterTable_set_action e g st = Ret (g', st') ->
  g_list g' = g_list g /\ length st' = length st /\ g_index g' = g_index g /\
  row_created g' = row_created g.
Proof.
  unfold jobProcessMasterTable_set_action.
  destruct (copy_date _ _) as [d| |]; [|done..]. rewrite outcome_bind_ret.
  destruct (copy_values _ _) as [r| |]; [|done..]. rewrite outcome_bind_ret.
  destruct (netsnmp_table_array_check_row_status _ _) as [[err status] deleted].
  destruct (negb _); [intros [= <- <-]; split_and!; [done|apply set_error_length|done..]|].
  destruct (_ && _); [|by intros [= <- <-]]. cbn [g_list with_row].
  destruct (g_list g) as [|[p v] l] eqn:E; [done|]. intros [= <- <-].
  split_and!; [done|apply set_error_length|done..].
Qed.
Lemma action_group_frame g x g' x' : action_group e g x = Ret (g', x') ->
  g_list g' = g_list g /\ length x'.2 = length x.2 /\ g_index g' = g_index g /\
  row_created g' = row_created g.
Proof.
  unfold action_group. destruct (jobProcessMasterTable_set_action _ _ _) as [[g1 st1]| |] eqn:E; [|done..].
  rewrite outcome_bind_ret. intros [= <- <-]. exact (set_action_frame _ _ _ _ E).
Qed.

(** ** The commit *)
Hypothesis Hcommit : date_ok (date_commit e).

(** The status is 0, or 14 for a row that could not be inserted or removed. *)
Definition commit_status (st : list Z) : Prop :=
  Forall (fun x => x = 0 \/ x = SNMP_ERR_COMMITFAILED) st.

Lemma blame_commit_status g st : commit_status st -> commit_status (blame SNMP_ERR_COMMITFAILED g st).
Proof.
  intros Hs. unfold blame, set_error. destruct (g_list g) as [|[p v] l]; [done|].
  change (SNMP_ERR_COMMITFAILED =? 0) with false. cbv iota. apply Forall_insert; [done|by right].
Qed.

Lemma change_container_ok g t ok t' : index (existing_row g) = g_index g ->
  row_ok (existing_row g) -> table_ok (container t) -> change_container e g t = (ok, t') ->
  table_ok (container t') /\ conf t' = conf t.
Proof.
  intros Hi Hr Ht. unfold change_container.
  destruct (row_created g), (row_deleted g); cbn [negb]; try (by intros [= <- <-]).
  - destruct (insert_row _ _) as [l|] eqn:E; [|by intros [= <- <-]].
    destruct (second _ _); intros [= <- <-]; [|done]. split; [|done]. by eapply insert_row_ok.
  - intros [= <- <-]. split; [|done]. by apply remove_row_ok.
Qed.

Lemma commit_groups_ok gs x x' :
  Forall (fun g => index (existing_row g) = g_index g /\ row_ok (existing_row g)) gs ->
  table_ok (container x.1) -> commit_status x.2 ->
  commit_groups lw e gs x = Ret (Some x') -> table_ok (container x'.1) /\ commit_status x'.2.
Proof using Hcommit.
  intros Hgs. revert x. induction Hgs as [|g gs [Hi Hr] _ IH]; intros x Ht Hst; cbn [commit_groups];
    [by intros [= <-]|].
  unfold commit_group. destruct (change_container e g x.1) as [ok t] eqn:E.
  apply change_container_ok in E as [Ht1 _]; [|done..]. destruct (negb ok).
  { rewrite outcome_bind_ret. apply IH; [done|]. by apply blame_commit_status. }
  destruct (jobProcessMasterTable_set_commit _ _ _ _) as [[t2|]| |] eqn:Ec; [|done..].
  rewrite !outcome_bind_ret. apply set_commit_ok in Ec as (Ht2 & _); [|done..].
  by apply IH.
Qed.

Lemma commit_groups_keeps gs x x' : commit_groups lw e gs x = Ret (Some x') ->
  first_error x.2 <> 0 -> first_error x'.2 <> 0.
Proof.
  revert x. induction gs as [|g gs IH]; intros x; cbn [commit_groups]; [by intros [= <-]|].
  unfold commit_group. destruct (change_container e g x.1) as [ok t]. destruct (negb ok).
  { rewrite outcome_bind_ret. intros Hc Hx. eapply IH; [exact Hc|]. by apply blame_keeps. }
  destruct (jobProcessMasterTable_set_commit _ _ _ _) as [[t2|]| |]; [|done..].
  rewrite !outcome_bind_ret. intros Hc Hx. exact (IH (t2, x.2) Hc Hx).
Qed.

(** ** The whole request *)
Hypothesis Haction : date_ok (date_action e).

Lemma each_length {X} (f : group -> X -> outcome (group * X)) gs x gs' x' :
  each f gs x = Ret (gs', x') -> length gs' = length gs.
Proof.
  revert x gs' x'. induction gs as [|g gs IH]; intros x gs' x'; cbn [each]; [by intros [= <- <-]|].
  destruct (f g x) as [[g1 x1]| |]; [|done..]. rewrite outcome_bind_ret.
  destruct (each f gs x1) as [[gs1 x2]| |] eqn:E; [|done..]. rewrite outcome_bind_ret.
  intros [= <- <-]. cbn [length]. f_equal. by eapply IH.
Qed.

Lemma reserve1_phase l0 n gs st gs1 st1 :
  Forall (fun g => fresh_group l0 g /\ in_range n g) gs -> length st = n ->
  each (reserve1_group lw e) gs st = Ret (gs1, st1) -> Forall (good l0 n) gs1 /\ length st1 = n.
Proof.
  intros Hgs Hst. apply (each_inv _ (fun g => fresh_group l0 g /\ in_range n g) (good l0 n)
    (fun st => length st = n)); [|done..].
  intros g x g' x' [Hg Hr] Hx Hf. destruct (reserve1_group_ok _ _ _ _ _ _ _ Hg Hf) as [Hg' _].
  destruct (reserve1_group_frame _ _ _ _ Hf) as (Hl & Hs & _).
  split; [split; [done|by unfold in_range; rewrite Hl]|congruence].
Qed.
Lemma reserve2_phase l0 n gs st gs1 st1 : Forall (good l0 n) gs -> length st = n ->
  each (jobProcessMasterTable_set_reserve2 lw) gs st = Ret (gs1, st1) ->
  Forall (good l0 n) gs1 /\ length st1 = n.
Proof.
  intros Hgs Hst. apply (each_inv _ (good l0 n) (good l0 n) (fun st => length st = n)); [|done..].
  intros g x g' x' Hg Hx Hf. pose proof (set_reserve2_length _ _ _ _ Hf) as Hs.
  apply reserve2_group_ok in Hf as [p ->]. split; [done|congruence].
Qed.
Lemma action_phase t n gs st gs1 x : Forall (good (container t) n) gs -> length st = n ->
  table_ok (container t) -> each (action_group e) gs (t, st) = Ret (gs1, x) ->
  Forall (good (container t) n) gs1 /\ length x.2 = n /\ table_ok (container x.1) /\
  Forall2 (only_at (keys gs1)) (container t) (container x.1) /\ conf x.1 = conf t /\
  jt_log x.1 = jt_log t.
Proof using Haction.
  intros Hgs Hst Ht He.
  pose proof (each_keys _ _ _ _ _ (fun g x g' x' Hf =>
    proj2 (proj2 (action_group_frame g x g' x' Hf))) He) as Hk. rewrite Hk.
  set (I := fun x : job_table * list Z => length x.2 = n /\ table_ok (container x.1) /\
    Forall2 (only_at (keys gs)) (container t) (container x.1) /\ conf x.1 = conf t /\
    jt_log x.1 = jt_log t).
  apply (each_inv _ (fun g => good (container t) n g /\
    (row_created g = false -> g_index g ∈ keys gs)) (good (container t) n) I) in He; [done| | |].
  - intros g y g' y' [[Hg Hr] Hin] (Hl & Hy & Ho & Hc & Hlog) Hf.
    destruct (action_group_ok _ _ _ _ _ _ _ Haction Hg Hin (conj Hy Ho) Hf)
      as ((Hg' & _) & (Hy' & Ho') & Hc' & Hlog' & _).
    destruct (action_group_frame _ _ _ _ Hf) as (Hl' & Hs' & _).
    split; [split; [done|by unfold in_range; rewrite Hl']|]. split_and!; congruence || done.
  - apply Forall_forall. intros g Hg. rewrite Forall_forall in Hgs. split; [by apply Hgs|].
    intros Hc. apply list_elem_of_omap. exists g. by rewrite Hc.
  - split_and!; try done. cbn [fst]. apply Forall2_same_length_lookup. split; [done|].
    intros i a b Ha Hb. assert (a = b) as -> by congruence. split; [done|by right].
Qed.

(** What holds when the rows are committed. *)
Record ready (reqs : list setvar) (t t1 : job_table) (gs : list group) (st : list Z) : Prop := {
  rd_groups : Forall (good (container t) (length reqs)) gs;
  rd_some : reqs <> [] -> gs <> [];
  rd_table : table_ok (container t1);
  rd_status : Forall (eq 0) st;
  rd_length : length st = length reqs
}.

Lemma only_at_nil l0 l : Forall2 (only_at []) l0 l -> l ≡ l0.
Proof.
  intros Hl. apply list_equiv_Forall2, Forall2_flip. eapply Forall2_impl; [exact Hl|].
  intros r0 r [_ [[]%not_elem_of_nil|Hr]]. done.
Qed.

(** A request either fails without a trace or reaches the commit. *)
Lemma handle_set_cases reqs t err t' : table_ok (container t) ->
  Forall (fun v => 0 <= tindex v < 2 ^ 32) reqs ->
  handle_set reqs t = Ret (Some (err, t')) ->
  (err <> 0 /\ table_ok (container t') /\ container t' ≡ container t /\ conf t' = conf t /\
     jt_log t' = jt_log t) \/
  (exists t1 gs st st', ready reqs t t1 gs st /\
     commit_groups lw e gs (t1, st) = Ret (Some (t', st')) /\ err = first_error st').
Proof using Haction.
  intros Ht Hreqs. unfold JobTable.handle_set.
  destruct (group_requests e t 0 reqs [] (replicate (length reqs) 0)) as [gs st] eqn:Eg.
  pose proof (group_requests_ok _ _ _ _ _ _ _ _ Ht Hreqs (Forall_nil_2 _) Eg) as Hfresh.
  destruct (group_requests_range (length reqs) _ 0 _ _ _ _ _ (Nat.le_refl _) (Forall_nil_2 _) Eg)
    as [Hrange Hlen]. rewrite length_replicate in Hlen.
  assert (Hfail : forall sts, failed sts = true -> first_error sts <> 0).
  { intros sts Hf. unfold failed in Hf. by apply negb_true_iff, Z.eqb_neq in Hf. }
  destruct (each (reserve1_group lw e) gs st) as [[gs1 st1]| |] eqn:E1; [|done..].
  rewrite outcome_bind_ret. pose proof (each_length _ _ _ _ _ E1) as Hn1.
  apply (reserve1_phase (container t) (length reqs)) in E1 as E1'; [|by apply Forall_and|done].
  destruct E1' as [Hgs1 Hl1]. destruct (failed st1) eqn:F1.
  { destruct (free_groups gs1); [|done..]. rewrite outcome_bind_ret. intros [= <- <-]. left.
    split; [by apply Hfail|done]. }
  destruct (each (jobProcessMasterTable_set_reserve2 lw) gs1 st1) as [[gs2 st2]| |] eqn:E2; [|done..].
  rewrite outcome_bind_ret. pose proof (each_length _ _ _ _ _ E2) as Hn2.
  apply (reserve2_phase (container t) (length reqs)) in E2 as [Hgs2 Hl2]; [|done..].
  destruct (failed st2) eqn:F2.
  { destruct (free_groups gs2); [|done..]. rewrite outcome_bind_ret. intros [= <- <-]. left.
    split; [by apply Hfail|done]. }
  destruct (each (action_group e) gs2 (t, st2)) as [[gs3 [t3 st3]]| |] eqn:E3; [|done..].
  rewrite outcome_bind_ret. pose proof (each_length _ _ _ _ _ E3) as Hn3.
  apply (action_phase t (length reqs)) in E3 as (Hgs3 & Hl3 & Ht3 & Ho3 & Hc3 & Hlog3); [|done..].
  cbn [fst snd] in *. destruct (failed st3) eqn:F3.
  - destruct (undo_groups gs3 t3) as [t4| |] eqn:Eu; [|done..]. rewrite outcome_bind_ret.
    intros [= <- <-]. left. split; [by apply Hfail|].
    apply (undo_groups_ok _ _ _ (container t)) in Eu as (Hok & Ho & Hc & Hlog); [|done| |done..].
    + split; [done|]. split; [by apply only_at_nil|]. split; congruence.
    + eapply Forall_impl; [exact Hgs3|]. by intros g [Hg _].
  - destruct (commit_groups _ _ _ _) as [[[t5 st5]|]| |] eqn:Ec; [|done..].
    rewrite outcome_bind_ret. intros [= <- <-]. right. exists t3, gs3, st3, st5. split; [|done].
    split; try done; [|by apply failed_false]. intros Hne ->. cbn [length] in Hn3.
    destruct gs as [|g gs]; [|simpl in *; lia]. injection E1 as _ <-.
    assert (Hz : first_error st = 0) by apply first_error_zero, failed_false, F1.
    refine (group_requests_ne _ 0 _ _ _ _ _ _ (or_intror Hne) Eg Hz eq_refl).
    by rewrite length_replicate.
Qed.

Lemma set_keeps_table_lemma reqs t err t' :
  table_ok (container t) -> Forall (fun v => 0 <= tindex v < 2 ^ 32) reqs ->
  handle_set reqs t = Ret (Some (err, t')) -> table_ok (container t').
Proof using Haction Hcommit.
  intros Ht Hreqs Hset.
  destruct (handle_set_cases _ _ _ _ Ht Hreqs Hset) as [(_ & Hok & _)|
    (t1 & gs & st & st' & [Hg _ Htt Hst _] & Hc & ->)]; [done|].
  apply commit_groups_ok in Hc as [Hc _]; [done| |done|].
  - eapply Forall_impl; [exact Hg|]. intros g [(_ & Hi & Hr & _) _]. done.
  - eapply Forall_impl; [exact Hst|]. intros x <-. by left.
Qed.

(** ** The file *)
Lemma commit_groups_saved n gs t st t' st' room :
  Forall (fun g => g_list g <> [] /\ index (existing_row g) = g_index g /\
                   row_ok (existing_row g) /\ in_range n g) gs ->
  gs <> [] -> length st = n -> table_ok (container t) -> commit_status st ->
  commit_groups lw e gs (t, st) = Ret (Some (t', st')) -> first_error st' = 0 ->
  disk e = Some room -> (length (container t') <= room)%nat -> saved t'.
Proof using Hcommit.
  intros Hgs. revert t st. induction Hgs as [|g gs (Hl & Hi & Hr & Hrg) Hgs IH];
    intros t st Hne Hst Ht Hcs; [done|]. cbn [commit_groups]. unfold commit_group. cbn [fst snd].
  destruct (change_container e g t) as [ok t1] eqn:E. intros Hc Hz Hd Hroom.
  destruct ok; cbn [negb] in Hc.
  2: { exfalso. rewrite outcome_bind_ret in Hc. apply commit_groups_keeps in Hc; [done|].
       by apply (blame_failed n). }
  apply change_container_ok in E as [Ht1 _]; [|done..].
  destruct (jobProcessMasterTable_set_commit _ _ _ _) as [[t2|]| |] eqn:Ec; [|done..].
  rewrite !outcome_bind_ret in Hc. apply set_commit_ok in Ec as (Ht2 & Hk & Hs); [|done..].
  destruct gs as [|g' gs']; [|by eapply IH].
  injection Hc as <- <-. apply (Hs room Hd).
  by rewrite <- (length_fmap index (container t1)), <- Hk, length_fmap.
Qed.

Lemma insert_row_last r l : Forall (fun x => index x < index r) l -> insert_row r l = Some (l ++ [r]).
Proof.
  induction 1 as [|x l Hx _ IH]; [done|]. cbn [insert_row].
  rewrite (proj2 (Z.ltb_ge _ _)), (proj2 (Z.eqb_neq _ _)) by lia. by rewrite IH.
Qed.
Lemma sorted_skip (l1 : list Z) x l2 :
  StronglySorted Z.lt (l1 ++ x :: l2) -> StronglySorted Z.lt (l1 ++ l2).
Proof.
  induction l1 as [|y l1 IH]; cbn [app]; intros [Hs Hy]%StronglySorted_inv; [done|].
  constructor; [by apply IH|]. rewrite Forall_app, Forall_cons in *. naive_solver.
Qed.
Lemma load_saved second l l0 :
  StronglySorted Z.lt (index <$> (l0 ++ l)) -> Forall (fun r => idx r = index r) l ->
  foldl (load_row second) l0 l = l0 ++ List.filter (fun r => second (index r)) l.
Proof.
  revert l0. induction l as [|r l IH]; intros l0 Hs Hidx; cbn [foldl].
  { by rewrite app_nil_r. }
  apply Forall_cons in Hidx as [Hr Hidx].
  assert (load_row second l0 r = if second (index r) then l0 ++ [r] else l0) as ->.
  { unfold load_row. assert (with_index (idx r) r = r) as -> by (rewrite Hr; by destruct r).
    rewrite insert_row_last; [done|]. rewrite fmap_app in Hs. clear -Hs.
    induction l0 as [|x l0 IH]; [constructor|]. cbn [fmap list_fmap app] in Hs.
    apply StronglySorted_inv in Hs as [Hs Hx]. constructor; [|by apply IH].
    rewrite Forall_forall in Hx. apply Hx, elem_of_app. right. by left. }
  cbn [List.filter]. destruct (second (index r)).
  - rewrite IH; [by rewrite <- app_assoc|by rewrite <- app_assoc|done].
  - apply IH; [|done]. rewrite fmap_app in *. by apply sorted_skip in Hs.
Qed.

(** ** Properties *)

(** C13: a SET request that fails in one of its three first phases changes
    nothing: afterwards every GET gives what it gave before, the file is the same
    and no trap is sent; whatever rows and columns the request is for.  The errors
    of those phases are all but commitFailed. *)
Theorem failed_set_changes_nothing reqs t err t' :
  table_ok (container t) -> Forall (fun v => 0 <= tindex v < 2 ^ 32) reqs ->
  handle_set reqs t = Ret (Some (err, t')) -> err <> 0 -> err <> SNMP_ERR_COMMITFAILED ->
  (forall c i, get_request c i t' = get_request c i t) /\ conf t' = conf t /\ jt_log t' = jt_log t.
Proof using Haction Hcommit.
  intros Ht Hreqs Hset He1 He2.
  destruct (handle_set_cases _ _ _ _ Ht Hreqs Hset) as [(_ & _ & Hc & Hrest)|
    (t1 & gs & st & st' & Hrd & Hc & ->)].
  - split; [|done]. intros c i. unfold get_request. clear -Hc.
    induction Hc as [|r r' l l' Hr Hl IH]; [done|]. unfold find_row in *. cbn [find].
    rewrite Hr. destruct (_ =? _); [|done]. cbn [mbind option_bind]. by rewrite Hr.
  - exfalso. destruct Hrd as [Hg _ Htt Hst _].
    apply commit_groups_ok in Hc as [_ Hcs]; [| |done|].
    + clear Hset. revert Hcs He1 He2. unfold commit_status, first_error. cbn [snd].
      induction st' as [|x st' IH]; cbn [find]; [done|]. intros [Hx Hs]%Forall_cons.
      destruct (Z.eqb_spec x 0); cbn [negb]; [by apply IH|]. simpl. by destruct Hx.
    + eapply Forall_impl; [exact Hg|]. intros g [(_ & Hi & Hr & _) _]. done.
    + eapply Forall_impl; [exact Hst|]. intros x <-. by left.
Qed.

(** C24: the table stays in order: rows have distinct indices in increasing order,
    every row is stored under the index it has, and its lengths are within its
    buffers, after every request, failed or not. *)
Theorem set_keeps_table reqs t err t' :
  table_ok (container t) -> Forall (fun v => 0 <= tindex v < 2 ^ 32) reqs ->
  handle_set reqs t = Ret (Some (err, t')) -> table_ok (container t').
Proof using Haction Hcommit. apply set_keeps_table_lemma. Qed.

(** C14: a SET request that succeeds is in the file, whatever rows it creates,
    changes and deletes: if the disk has room for the rows and the clock gives
    dates that fit their columns, a sub-agent that is started with the file has
    the table as it is, less the rows that its secondary container refuses.  Those
    are undefined, since the order of that container, jobProcessMasterTable_cmp,
    returns no value; the theorem holds whichever they are. *)
Theorem restart_restores_table reqs t t' room :
  table_ok (container t) -> Forall (fun v => 0 <= tindex v < 2 ^ 32) reqs -> reqs <> [] ->
  handle_set reqs t = Ret (Some (0, t')) ->
  disk e = Some room -> (length (container t') <= room)%nat ->
  forall accepted, container (init_jobProcessMasterTable accepted (conf t')) =
    List.filter (fun r => accepted (index r)) (container t').
Proof using Haction Hcommit.
  intros Ht Hreqs Hne Hset Hd Hroom accepted.
  pose proof (set_keeps_table_lemma _ _ _ _ Ht Hreqs Hset) as [Hs _].
  destruct (handle_set_cases _ _ _ _ Ht Hreqs Hset) as [(Hz & _)|
    (t1 & gs & st & st' & [Hg Hgs Htt Hst Hlen] & Hc & Hz)]; [done|].
  apply (commit_groups_saved (length reqs) _ _ _ _ _ room) in Hc as [Hconf Hidx]; try done.
  - unfold init_jobProcessMasterTable, jobProcessMasterTable_Load_Container_From_File.
    rewrite Hconf. cbn [container]. by apply (load_saved _ _ []).
  - eapply Forall_impl; [exact Hg|]. intros g [(Hl & Hi & Hr & _) Hrg]. by split_and!.
  - by apply Hgs.
  - eapply Forall_impl; [exact Hst|]. intros x <-. by left.
Qed.
End Requests.
