(* ===== verification/JobTableTrap.v ===== *)
(** * The trap of a SET on the table of jobs

    Requests whose values fit their columns ([fits]) are copied as they are, and
    the trap that is sent has a variable for each of them, with the text up to its
    first zero octet. *)

From S2P Require Import Prelude CTypes JobTime JobList CText TrapProps JobTable JobTableProofs.
From stdpp Require Import list.
#[local] Open Scope Z_scope.

(** The C string a text is read as. *)
Fixpoint cut (s : text) : text :=
  match s with [] => [] | c :: s => if c =? 0 then [] else c :: cut s end.

Lemma cut_nonzero s : nonzero (cut s).
Proof.
  induction s as [|c s IH]; cbn [cut]; [constructor|].
  destruct (Z.eqb_spec c 0); [constructor|]. by constructor.
Qed.
Lemma cut_length s : (length (cut s) <= length s)%nat.
Proof. induction s as [|c s IH]; cbn [cut]; [done|]. destruct (_ =? _); simpl; lia. Qed.
Lemma cut_same s : nonzero s -> cut s = s.
Proof.
  induction 1 as [|c s Hc _ IH]; [done|]. cbn [cut]. rewrite (proj2 (Z.eqb_neq _ _) Hc). by rewrite IH.
Qed.
Lemma get_str_cut m : 0 ∈ m -> get_str m 0 = Ret (cut m).
Proof.
  intros Hz. unfold get_str. rewrite drop_0.
  induction m as [|c m IH]; [by apply not_elem_of_nil in Hz|].
  cbn [strlen cut]. destruct (Z.eqb_spec c 0) as [->|Hc]; [done|].
  apply elem_of_cons in Hz as [?|Hz]; [congruence|]. specialize (IH Hz).
  destruct (strlen m) as [n| |]; [|done..].
  rewrite !outcome_bind_ret in *. cbn [take]. by injection IH as ->.
Qed.
(** A text in a buffer with zeros behind it. *)
Lemma get_str_padded s n : get_str (s ++ replicate (S n) 0) 0 = Ret (cut s).
Proof.
  rewrite get_str_cut by (apply elem_of_app; right; by left). f_equal.
  induction s as [|c s IH]; cbn [cut app]; [done|]. destruct (_ =? _); [done|]. by rewrite IH.
Qed.

(** ** Values that fit *)
Definition is_string (c : Z) : bool :=
  (c =? COLUMN_ID) || (c =? COLUMN_NAME) || (c =? COLUMN_DESCRIPTION)
  || (c =? COLUMN_CREATEDDATE) || (c =? COLUMN_CREATEDUSERID)
  || (c =? COLUMN_CREATEDUSERNAME) || (c =? COLUMN_STARTTIME)
  || (c =? COLUMN_FINISHTIME) || (c =? COLUMN_LASTUPDATED).
Definition is_long (c : Z) : bool :=
  (c =? COLUMN_PERIODICINTERVAL) || (c =? COLUMN_CPUPERCENTUSAGE)
  || (c =? COLUMN_MEMORYPERCENTUSAGE) || (c =? COLUMN_STATUS).

Lemma string_col_is c r : is_string c = true <-> is_Some (string_col c r).
Proof. unfold is_string. columns c; split; intros Hx; try done; by destruct Hx. Qed.
Lemma long_col_is c r : is_long c = true <-> is_Some (long_col c r).
Proof. unfold is_long. columns c; split; intros Hx; try done; by destruct Hx. Qed.
Lemma long_not_string c : is_long c = true -> is_string c = false.
Proof. unfold is_long, is_string. by columns c. Qed.

Definition fits_text (v : setvar) : Prop :=
  vtype v = ASN_OCTET_STR /\ vb_len v = Z.of_nat (length (vb_string v)) /\
  0 < vb_len v < col_size (colnum v) /\ hd 0 (vb_string v) <> 0.
Definition fits_long (lw : Z) (v : setvar) : Prop :=
  vtype v = ASN_INTEGER /\ vb_len v = lw / 8 /\
  exists x, vb_integer v = Some x /\ - 2 ^ 31 <= x < 2 ^ 31.
Definition fits (lw i : Z) (v : setvar) : Prop :=
  tindex v = i /\
  (is_string (colnum v) = true /\ fits_text v \/ is_long (colnum v) = true /\ fits_long lw v).

Definition value_of (v : setvar) : typed_value :=
  if is_string (colnum v) then Octets (vb_string v) else Long (default 0 (vb_integer v)).

(** Copying the values of a request with distinct columns. *)
Lemma copy_value_fits lw i v r : row_ok r -> fits lw i v ->
  exists r', copy_value v r = Ret r' /\ row_ok r' /\ index r' = index r /\
    (forall c, jobProcessMasterTable_get_value c r' =
       if c =? colnum v then Some (value_of v) else jobProcessMasterTable_get_value c r) /\
    (forall c, c <> colnum v -> string_col c r' = string_col c r) /\
    (is_string (colnum v) = true -> string_col (colnum v) r' =
       Some (MkColumn (vb_string v ++ drop (length (vb_string v))
                         (default [] (bytes <$> string_col (colnum v) r))) (vb_len v))).
Proof.
  intros Hr [_ [[Hs (_ & Hl & Hb & _)]|[Hl (_ & _ & x & Hx & _)]]]; unfold copy_value, value_of.
  - pose proof (proj1 (string_col_is _ r) Hs) as [x Hx]. rewrite Hx, Hs.
    assert (column_ok (colnum v) x) as [Hlx Hlen] by (destruct Hr as (_ & _ & Hr); by apply Hr).
    rewrite copy_in_fits by lia. rewrite outcome_bind_ret. eexists. split; [done|].
    rewrite Hl, Nat2Z.id, take_ge by lia. split_and!.
    + apply row_ok_with_string; [done|by eexists|]. split; cbn [bytes len]; [|lia].
      rewrite length_app, length_drop. lia.
    + done.
    + intros c. rewrite get_value_with_string by (by eexists). unfold octets. cbn [bytes len].
      by rewrite Nat2Z.id, take_app_length.
    + intros c Hc. rewrite string_col_with_string by (by eexists).
      by rewrite (proj2 (Z.eqb_neq _ _) Hc).
    + intros _. rewrite string_col_with_string by (by eexists). rewrite Z.eqb_refl.
      done.
  - pose proof (proj1 (long_col_is _ r) Hl) as [y Hy]. rewrite (long_not_string _ Hl).
    assert (string_col (colnum v) r = None) as Hs.
    { destruct (string_col (colnum v) r) eqn:E; [|done].
      pose proof (long_not_string _ Hl) as Hn. rewrite (proj2 (string_col_is _ r)) in Hn by (by eexists).
      done. }
    rewrite Hs, Hy. unfold integer_of. rewrite Hx, outcome_bind_ret. eexists. split; [done|].
    split_and!; [by apply row_ok_with_long|done| | |done].
    + intros c. rewrite get_value_with_long by (by eexists). done.
    + intros c _. apply string_col_with_long.
Qed.

(** The effect of values on a row: the columns that are named have them, the
    others are as before. *)
Record has_values (vs : list setvar) (r r' : row) : Prop := {
  hv_index : index r' = index r;
  hv_value v : v ∈ vs -> jobProcessMasterTable_get_value (colnum v) r' = Some (value_of v);
  hv_other c : c ∉ colnum <$> vs ->
    jobProcessMasterTable_get_value c r' = jobProcessMasterTable_get_value c r;
  hv_bytes v : v ∈ vs -> is_string (colnum v) = true -> string_col (colnum v) r' =
    Some (MkColumn (vb_string v ++ drop (length (vb_string v))
                      (default [] (bytes <$> string_col (colnum v) r))) (vb_len v));
  hv_same c : c ∉ colnum <$> vs -> string_col c r' = string_col c r
}.

Lemma copy_values_fits lw i l r : row_ok r -> Forall (fits lw i) l.*2 -> NoDup (colnum <$> l.*2) ->
  exists r', copy_values l r = Ret r' /\ row_ok r' /\ has_values l.*2 r r'.
Proof.
  revert r. induction l as [|[p v] l IH]; intros r Hr Hf Hnd; cbn [copy_values].
  { exists r. split; [done|]. split; [done|]. split; try done; by intros v []%not_elem_of_nil. }
  cbn [fmap list_fmap snd] in *. apply Forall_cons in Hf as [Hv Hf]. apply NoDup_cons in Hnd as [Hn Hnd].
  destruct (copy_value_fits _ _ _ _ Hr Hv) as (r1 & -> & Hr1 & Hi1 & Hg1 & Hs1 & Hb1).
  rewrite outcome_bind_ret. destruct (IH _ Hr1 Hf Hnd) as (r2 & -> & Hr2 & [Hi2 Hv2 Ho2 Hb2 Hs2]).
  exists r2. split; [done|]. split; [done|]. split.
  - congruence.
  - intros w [->|Hw]%elem_of_cons; [|by apply Hv2]. rewrite Ho2, Hg1 by done. by rewrite Z.eqb_refl.
  - intros c [Hne Hc]%not_elem_of_cons. rewrite Ho2, Hg1 by done. by rewrite (proj2 (Z.eqb_neq _ _)).
  - intros w [->|Hw]%elem_of_cons Hw'; [by rewrite Hs2, Hb1 by done|].
    rewrite (Hb2 _ Hw Hw'), Hs1; [done|]. intros E. apply Hn. rewrite <- E. by apply list_elem_of_fmap_2.
  - intros c [Hne Hc]%not_elem_of_cons. by rewrite Hs2, Hs1 by done.
Qed.

Lemma get_value_status r :
  jobProcessMasterTable_get_value COLUMN_STATUS r = Some (Long (jobProcessMasterStatus r)).
Proof. done. Qed.

(** ** The entries of the trap *)
Section Entries.
Variable lw : Z.
Hypothesis Hlw : lw = 32 \/ lw = 64.

(** What the text of an entry says. *)
Definition entry_of (v : setvar) (a : stVarBindArgs) : Prop :=
  acVariable a = dotted_oid (vb_name v) /\
  if is_string (colnum v) then cType a = 115 /\ get_str (pcValue a) 0 = Ret (cut (vb_string v))
  else cType a = 105 /\ get_str (pcValue a) 0 = Ret (dec (default 0 (vb_integer v))).

Lemma dotted_oid_app l k : dotted_oid (l ++ k) = dotted_oid l ++ dotted_oid k.
Proof. unfold dotted_oid. by rewrite flat_map_app. Qed.

Lemma name_fits v : fit JM_MAX_OID_LEN (dotted_oid (vb_name v)) = Ret (dotted_oid (vb_name v)).
Proof.
  unfold fit. rewrite bool_decide_eq_true_2; [done|]. unfold vb_name. rewrite dotted_oid_app, length_app.
  change (length (dotted_oid jobProcessMasterTable_oid)) with 28%nat.
  unfold dotted_oid. cbn [flat_map]. rewrite !length_app. cbn [length].
  pose proof (dec_u_length (colnum v)). pose proof (dec_u_length (tindex v)).
  change (length (dec_u 1)) with 1%nat. unfold JM_MAX_OID_LEN. lia.
Qed.

Lemma long_text x : strcpy (replicate JM_MAX_VAR_LEN 0) 0 (dec x) = Ret (dec x ++ replicate (255 - length (dec x)) 0).
Proof.
  pose proof (dec_length x). unfold strcpy. rewrite poke_ok.
  2: { rewrite length_app, length_replicate. unfold JM_MAX_VAR_LEN. cbn [length]. lia. }
  rewrite take_0, drop_replicate, <- app_assoc, length_app, app_nil_l. cbn [length app Nat.add].
  f_equal. f_equal. unfold JM_MAX_VAR_LEN.
  replace (255 - length (dec x))%nat with (S (255 - (length (dec x) + 1))) by lia. done.
Qed.
Lemma long_text_read x : get_str (dec x ++ replicate (255 - length (dec x)) 0) 0 = Ret (dec x).
Proof.
  pose proof (dec_length x). replace (255 - length (dec x))%nat with (S (254 - length (dec x))) by lia.
  rewrite get_str_padded, cut_same; [done|apply dec_nonzero].
Qed.

Lemma fill_arg_fits i v : fits lw i v -> exists a, fill_arg v = Ret a /\ entry_of v a.
Proof.
  intros [_ [[Hs (Ht & Hl & Hb & _)]|[Hn (Ht & _ & x & Hx & Hr)]]];
    unfold fill_arg; rewrite name_fits, outcome_bind_ret, Ht; unfold entry_of.
  - rewrite Hs. change (ASN_OCTET_STR =? ASN_INTEGER) with false. rewrite Z.eqb_refl. cbv iota.
    assert (col_size (colnum v) <= 255) as Hsz by (unfold col_size; by destruct (_ || _)).
    rewrite copy_in_fits; [|unfold blank, JM_MAX_VAR_LEN; cbn [bytes]; rewrite length_replicate; lia|lia].
    rewrite outcome_bind_ret. eexists. split; [done|]. split; [done|]. split; [done|].
    cbn [pcValue bytes blank]. rewrite Hl, Nat2Z.id, take_ge, drop_replicate by lia.
    unfold JM_MAX_VAR_LEN. replace (255 - length (vb_string v))%nat with
      (S (254 - length (vb_string v))) by lia. apply get_str_padded.
  - rewrite (long_not_string _ Hn), Z.eqb_refl. unfold integer_of. rewrite Hx, outcome_bind_ret.
    unfold fit. rewrite bool_decide_eq_true_2.
    2: { pose proof (dec_length x). unfold JM_MAX_VAR_LEN. lia. }
    rewrite outcome_bind_ret, long_text, outcome_bind_ret. eexists. split; [done|].
    cbn [acVariable cType pcValue default]. split_and!; [done|done|]. apply long_text_read.
Qed.

(** The counters after a variable. *)
Definition mandatory (c : Z) : bool :=
  (c =? COLUMN_ID) || (c =? COLUMN_PERIODICINTERVAL) || (c =? COLUMN_STARTTIME)
  || (c =? COLUMN_FINISHTIME).
Definition usage (c : Z) : bool :=
  (c =? COLUMN_CPUPERCENTUSAGE) || (c =? COLUMN_MEMORYPERCENTUSAGE).
Definition counted (i : Z) (k : counters) (v : setvar) : counters :=
  let c := colnum v in
  MkCounters (if mandatory c then I16 (sSet k + 1) else sSet k) (usage c || CPUorMEMFlg k)
    (if c =? COLUMN_STATUS then I16 (default 0 (vb_integer v)) else sRowStatus k) (I16 i).

Lemma count_column_fits i v a k : 0 <= i < 2 ^ 31 -> fits lw i v -> entry_of v a ->
  count_column lw v a k = Ret (counted i k v).
Proof using Hlw.
  intros Hi [Ht Hv] [_ He]. unfold count_column, counted. cbv zeta. rewrite Ht.
  assert (dec_u i = dec i) as -> by (unfold dec; by rewrite (proj2 (Z.ltb_ge _ _)) by lia).
  rewrite atoi_dec by lia. unfold mandatory, usage.
  destruct (_ || _ || _ || _) eqn:Em.
  { destruct (Z.eqb_spec (colnum v) COLUMN_STATUS) as [E|]; [rewrite E in Em; by vm_compute in Em|].
    assert (colnum v =? COLUMN_CPUPERCENTUSAGE = false) as ->.
    { apply Z.eqb_neq. intros E. rewrite E in Em. by vm_compute in Em. }
    assert (colnum v =? COLUMN_MEMORYPERCENTUSAGE = false) as ->.
    { apply Z.eqb_neq. intros E. rewrite E in Em. by vm_compute in Em. }
    done. }
  destruct ((colnum v =? COLUMN_CPUPERCENTUSAGE) || (colnum v =? COLUMN_MEMORYPERCENTUSAGE)) eqn:Eu.
  { destruct (Z.eqb_spec (colnum v) COLUMN_STATUS) as [E|]; [rewrite E in Eu; by vm_compute in Eu|done]. }
  destruct (Z.eqb_spec (colnum v) COLUMN_STATUS) as [E|]; [|done].
  destruct Hv as [[Hs _]|(_ & _ & _ & x & Hx & Hr)]; [rewrite E in Hs; by vm_compute in Hs|].
  rewrite E in He. change (is_string COLUMN_STATUS) with false in He. destruct He as [_ ->].
  rewrite outcome_bind_ret, Hx. cbn [default]. by rewrite atoi_dec.
Qed.

Lemma fill_args_fits i l args k : 0 <= i < 2 ^ 31 -> Forall (fits lw i) l.*2 ->
  (length args + length l <= JM_NO_OF_FIELDS)%nat ->
  exists new, fill_args lw l args k = Ret (args ++ new, foldl (counted i) k l.*2) /\
    Forall2 entry_of l.*2 new.
Proof using Hlw.
  intros Hi. revert args k. induction l as [|[p v] l IH]; intros args k Hf Hl; cbn [fill_args].
  { exists []. rewrite app_nil_r. by split. }
  cbn [fmap list_fmap snd length] in *. apply Forall_cons in Hf as [Hv Hf].
  destruct (fill_arg_fits _ _ Hv) as (a & -> & Ha). rewrite outcome_bind_ret.
  unfold push_arg. rewrite bool_decide_eq_true_2, outcome_bind_ret by lia.
  rewrite (count_column_fits i _ _ _ Hi Hv Ha), outcome_bind_ret.
  destruct (IH (args ++ [a]) (counted i k v) Hf) as (new & -> & Hnew).
  { rewrite length_app. cbn [length]. lia. }
  exists (a :: new). rewrite <- app_assoc. split; [done|]. by constructor.
Qed.

End Entries.

(** The counters after all variables of a request with distinct columns. *)
Lemma counted_usage i vs k :
  CPUorMEMFlg (foldl (counted i) k vs) = existsb (fun v => usage (colnum v)) vs || CPUorMEMFlg k.
Proof.
  revert k. induction vs as [|v vs IH]; intros k; [done|]. cbn [foldl existsb]. rewrite IH.
  unfold counted at 1. cbn [CPUorMEMFlg]. destruct (usage _), (existsb _ _); done.
Qed.
Lemma counted_index i vs k : vs <> [] -> iIndex (foldl (counted i) k vs) = I16 i.
Proof.
  destruct vs as [|v vs] using rev_ind; [done|]. intros _. by rewrite foldl_app.
Qed.
Lemma counted_no_status i vs k : COLUMN_STATUS ∉ colnum <$> vs ->
  sRowStatus (foldl (counted i) k vs) = sRowStatus k.
Proof.
  revert k. induction vs as [|v vs IH]; intros k; [done|]. intros [Hne Hn]%not_elem_of_cons.
  cbn [foldl]. rewrite IH by done. unfold counted. cbn [sRowStatus].
  by rewrite (proj2 (Z.eqb_neq _ _)) by done.
Qed.
Lemma counted_status i vs k v : v ∈ vs -> NoDup (colnum <$> vs) -> colnum v = COLUMN_STATUS ->
  sRowStatus (foldl (counted i) k vs) = I16 (default 0 (vb_integer v)).
Proof.
  revert k. induction vs as [|w vs IH]; intros k; [by intros []%not_elem_of_nil|].
  intros Hv [Hn Hnd]%NoDup_cons Hc. cbn [foldl]. apply elem_of_cons in Hv as [<-|Hv]; [|by apply IH].
  rewrite counted_no_status by (by rewrite <- Hc). unfold counted. cbn [sRowStatus].
  by rewrite Hc, Z.eqb_refl.
Qed.
Lemma counted_set i vs k : 0 <= sSet k -> sSet k + Z.of_nat (length vs) < 32768 ->
  sSet (foldl (counted i) k vs) =
  sSet k + Z.of_nat (length (filter (fun c => mandatory c = true) (colnum <$> vs))).
Proof.
  revert k. induction vs as [|v vs IH]; intros k Hk Hl; [simpl; lia|]. cbn [foldl fmap list_fmap length] in *.
  rewrite filter_cons. rewrite IH; unfold counted; cbn [sSet]; destruct (mandatory (colnum v)) eqn:E;
    rewrite ?I16_id by lia; try lia.
  - rewrite decide_True by done. cbn [length]. lia.
  - rewrite decide_False by done. done.
Qed.
(** The four columns without which no job is started. *)
Lemma mandatory_four (cs : list Z) : NoDup cs -> (forall c, mandatory c = true -> c ∈ cs) ->
  length (filter (fun c => mandatory c = true) cs) = 4%nat.
Proof.
  intros Hnd Hin. change 4%nat with (length [COLUMN_ID; COLUMN_PERIODICINTERVAL; COLUMN_STARTTIME; COLUMN_FINISHTIME]).
  apply Permutation_length, NoDup_Permutation; [by apply NoDup_filter| |].
  - repeat constructor; rewrite ?elem_of_cons, ?elem_of_nil; unfold COLUMN_ID, COLUMN_PERIODICINTERVAL,
      COLUMN_STARTTIME, COLUMN_FINISHTIME; lia.
  - intros c. rewrite list_elem_of_filter, !elem_of_cons, elem_of_nil. unfold mandatory.
    split.
    + intros [Hm _]. rewrite !orb_true_iff, !Z.eqb_eq in Hm. tauto.
    + intros Hc. assert (mandatory c = true) as Hm; [|split; [exact Hm|by apply Hin]].
      unfold mandatory. rewrite !orb_true_iff, !Z.eqb_eq. tauto.
Qed.

(** ** The library *)

(** What the table relies on: identifiers in dotted notation, integers and texts
    are read as what they are written from, and a null-terminated text becomes a
    string of its characters. *)
Class TrapLaws `{TableLib} := {
  parse_dotted (l : list Z) (n : nat) : Forall (fun x => 0 <= x < 2 ^ 32) l ->
    (2 <= length l <= n)%nat -> snmp_parse_oid (dotted_oid l) n = Some l;
  add_long (l : list Z) (x : Z) : - 2 ^ 31 <= x < 2 ^ 31 ->
    exists v, snmp_add_var l 105 (dec x) = Some v /\ name v = l /\ val_integer v = Some x /\
      well_formed v;
  add_string (l : list Z) (s : text) : nonzero s -> 0 < Z.of_nat (length s) < 32768 ->
    exists v, snmp_add_var l 115 s = Some v /\ name v = l /\
      string_of v = s ++ [0] /\ well_formed v
}.

(** What a variable of the trap says of a variable of the request. *)
Definition conveys (v : setvar) (x : variable) : Prop :=
  name x = vb_name v /\ well_formed x /\
  if is_string (colnum v) then string_of x = cut (vb_string v) ++ [0]
  else val_integer x = vb_integer v.

Section Send.
Context `{!TableLib} {Hlaws : TrapLaws}.
Variable lw : Z.

Lemma name_ok i v : 0 <= i < 2 ^ 32 -> fits lw i v ->
  Forall (fun x => 0 <= x < 2 ^ 32) (vb_name v) /\ length (vb_name v) = 15%nat.
Proof.
  intros Hi [Ht Hv]. split; [|done]. unfold vb_name, jobProcessMasterTable_oid. cbn [app].
  rewrite Ht. assert (0 <= colnum v < 2 ^ 32); [|repeat constructor; lia].
  assert (is_string (colnum v) || is_long (colnum v) = true) as Hc.
  { apply orb_true_iff. destruct Hv as [[? _]|[? _]]; [by left|by right]. }
  revert Hc. generalize (colnum v). intros c. unfold is_string, is_long.
  rewrite !orb_true_iff, !Z.eqb_eq. unfold COLUMN_ID, COLUMN_NAME, COLUMN_DESCRIPTION,
    COLUMN_CREATEDDATE, COLUMN_CREATEDUSERID, COLUMN_CREATEDUSERNAME, COLUMN_PERIODICINTERVAL,
    COLUMN_STARTTIME, COLUMN_FINISHTIME, COLUMN_CPUPERCENTUSAGE, COLUMN_MEMORYPERCENTUSAGE,
    COLUMN_STATUS, COLUMN_LASTUPDATED. lia.
Qed.

Lemma add_entry i v a : 0 <= i < 2 ^ 32 -> fits lw i v -> entry_of v a ->
  exists s x, get_str (pcValue a) 0 = Ret s /\ snmp_add_var (vb_name v) (cType a) s = Some x /\ conveys v x.
Proof using Hlaws.
  intros Hi [_ Hv] [_ He]. unfold conveys. destruct (is_string (colnum v)) eqn:E.
  - destruct Hv as [[_ (_ & Hl & Hb & Hh)]|[Hn _]]; [|by rewrite (long_not_string _ Hn) in E].
    destruct He as [-> Hs].
    destruct (add_string (vb_name v) (cut (vb_string v)) (cut_nonzero _)) as (x & Hx & Hn & Hso & Hwf).
    + pose proof (cut_length (vb_string v)).
      assert (col_size (colnum v) <= 255) by (unfold col_size; by destruct (_ || _)).
      destruct (vb_string v) as [|c s]; [done|]. cbn [cut hd] in *.
      rewrite (proj2 (Z.eqb_neq _ _) Hh) in *. cbn [length] in *. lia.
    + by exists (cut (vb_string v)), x.
  - destruct Hv as [[Hs _]|(_ & _ & _ & x & Hx & Hr)]; [congruence|]. destruct He as [-> Hs].
    rewrite Hx in *. cbn [default] in Hs.
    destruct (add_long (vb_name v) x Hr) as (y & Hy & Hn & Hi' & Hwf). by exists (dec x), y.
Qed.

Lemma build_pdu_fits i vs args n : 0 <= i < 2 ^ 32 -> Forall (fits lw i) vs ->
  Forall2 entry_of vs args -> (15 <= n)%nat ->
  exists xs, build_pdu args n = Ret (Some xs) /\ Forall2 conveys vs xs.
Proof using Hlaws.
  intros Hi Hf Ha. revert n. induction Ha as [|v a vs args Hva Ha IH]; intros n Hn; cbn [build_pdu].
  { by exists []. }
  apply Forall_cons in Hf as [Hv Hf]. destruct (name_ok i v Hi Hv) as [Hnum Hlen].
  destruct (Hva) as [-> _]. rewrite (parse_dotted _ _ Hnum) by (rewrite Hlen; lia).
  destruct (add_entry i v a Hi Hv Hva) as (s & x & -> & Hx & Hcv). rewrite outcome_bind_ret, Hx.
  destruct (IH Hf (length (vb_name v))) as (xs & -> & Hxs); [by rewrite Hlen|].
  rewrite outcome_bind_ret. exists (x :: xs). split; [done|]. by constructor.
Qed.

Lemma send_fits e i vs args t : session_opens e = true -> 0 <= i < 2 ^ 32 ->
  Forall (fits lw i) vs -> Forall2 entry_of vs args ->
  exists xs, jobProcessMasterTable_send_snmptrap e args t =
    Ret (Some (log_event (TrapSent (send_succeeds e) xs) t)) /\ Forall2 conveys vs xs.
Proof using Hlaws.
  intros Ho Hi Hf Ha. unfold jobProcessMasterTable_send_snmptrap. rewrite Ho. cbn [negb].
  destruct (build_pdu_fits i vs args JM_MAX_OID_LEN Hi Hf Ha) as (xs & -> & Hxs).
  - unfold JM_MAX_OID_LEN. lia.
  - rewrite outcome_bind_ret. by exists xs.
Qed.
End Send.
