(* ===== verification/JobTableJobs.v ===== *)
(** * From a SET to the job scheduler

    SET requests for one row, from the first phase to the trap: a row that is
    created active, one that is destroyed, one that is changed; and what the job
    scheduler makes of the traps. *)

From S2P Require Import Prelude CTypes JobTime JobList CText TrapProps JobTable JobTableProofs.
From S2P Require Import JobTableProps JobTableTrap.
From stdpp Require Import list.
#[local] Open Scope Z_scope.

(** ** Containers *)
Lemma find_row_map f i l : (forall r, index (f r) = index r) ->
  find_row i (map f l) = f <$> find_row i l.
Proof.
  intros Hf. unfold find_row. induction l as [|r l IH]; [done|]. cbn [map find]. rewrite Hf.
  by destruct (_ =? _).
Qed.
Lemma find_row_insert r l l' j : insert_row r l = Some l' ->
  find_row j l' = if j =? index r then Some r else find_row j l.
Proof.
  unfold find_row. revert l'. induction l as [|x l IH]; intros l' Hins; cbn [insert_row] in Hins.
  { simplify_eq. cbn [find]. rewrite Z.eqb_sym. by destruct (_ =? _). }
  destruct (Z.ltb_spec (index r) (index x)).
  { simplify_eq. cbn [find]. rewrite (Z.eqb_sym (index r) j). by destruct (_ =? _). }
  destruct (Z.eqb_spec (index r) (index x)); [done|].
  destruct (insert_row r l) as [l1|]; [|done]. simplify_eq/=. rewrite IH by done.
  destruct (Z.eqb_spec (index x) j), (Z.eqb_spec j (index r)); try done. congruence.
Qed.
Lemma find_row_remove i j l : find_row j (remove_row i l) = if j =? i then None else find_row j l.
Proof.
  unfold find_row, remove_row. induction l as [|x l IH]; [by destruct (_ =? _)|].
  rewrite filter_cons. destruct (Z.eqb_spec j i) as [->|Hne].
  - case_decide; cbn [find]; [|done]. by rewrite (proj2 (Z.eqb_neq _ _)).
  - case_decide; cbn [find]; [by destruct (_ =? _)|]. rewrite IH.
    by rewrite (proj2 (Z.eqb_neq (index x) j)) by congruence.
Qed.

Lemma insert_row_length r l l' : insert_row r l = Some l' -> length l' = S (length l).
Proof.
  revert l'. induction l as [|x l IH]; intros l' Hins; cbn [insert_row] in Hins; [by simplify_eq|].
  destruct (_ <? _); [by simplify_eq|]. destruct (_ =? _); [done|].
  destruct (insert_row r l) as [l1|]; [|done]. simplify_eq/=. by rewrite (IH l1).
Qed.

(** What a row is replaced by. *)
Lemma find_row_sync g t j : index (existing_row g) = g_index g -> j <> g_index g ->
  find_row j (container (sync g t)) = find_row j (container t).
Proof.
  intros Hg Hj. unfold sync. cbn [container with_container]. rewrite find_row_map.
  - destruct (find_row j (container t)) as [x|] eqn:E; [|done]. apply find_row_Some in E as [_ E].
    cbn [fmap option_fmap option_map]. by rewrite (proj2 (Z.eqb_neq _ _)) by congruence.
  - intros x. destruct (Z.eqb_spec (index x) (g_index g)); congruence.
Qed.
Lemma find_row_sync_same g t r : index (existing_row g) = g_index g ->
  find_row (g_index g) (container t) = Some r ->
  find_row (g_index g) (container (sync g t)) = Some (existing_row g).
Proof.
  intros Hg Hr. unfold sync. cbn [container with_container]. rewrite find_row_map, Hr.
  - apply find_row_Some in Hr as [_ E]. cbn [fmap option_fmap option_map]. by rewrite E, Z.eqb_refl.
  - intros x. destruct (Z.eqb_spec (index x) (g_index g)); congruence.
Qed.
Lemma sync_length g t : length (container (sync g t)) = length (container t).
Proof. unfold sync. cbn [container with_container]. apply length_map. Qed.
Lemma length_remove_sync i g t : (length (remove_row i (container (sync g t))) <= length (container t))%nat.
Proof.
  unfold remove_row, sync. cbn [container with_container]. etransitivity; [apply length_filter|].
  by rewrite length_map.
Qed.
Lemma check_destroy old : netsnmp_table_array_check_row_status RS_DESTROY old = (0, RS_DESTROY, true).
Proof. unfold netsnmp_table_array_check_row_status. cbn. by rewrite andb_false_r. Qed.
Lemma created_size r : row_ok r -> length (bytes (jobProcessMasterCreatedDate r)) = 20%nat.
Proof. intros (_ & _ & Hr). destruct (Hr COLUMN_CREATEDDATE _ eq_refl) as [Hl _]. vm_compute (col_size _) in Hl. lia. Qed.

Section Jobs.
Context `{!TableLib} {Hlaws : TrapLaws}.
Variables (lw : Z) (e : env).

(** ** One group *)
Definition items (reqs : list setvar) : list (nat * setvar) := reverse (zip (seq 0 (length reqs)) reqs).

Lemma items_values reqs : (items reqs).*2 = reverse reqs.
Proof.
  unfold items. rewrite fmap_reverse, snd_zip; [done|]. by rewrite length_seq.
Qed.
Lemma items_length reqs : length (items reqs) = length reqs.
Proof. unfold items. rewrite length_reverse, length_zip, length_seq. lia. Qed.

Lemma group_requests_join t i pos reqs l r c st : Forall (fun v => tindex v = i) reqs ->
  group_requests e t pos reqs [MkGroup i l r c false None O] st =
    ([MkGroup i (reverse (zip (seq pos (length reqs)) reqs) ++ l) r c false None O], st).
Proof.
  intros Hi. revert pos l. induction Hi as [|v reqs Hv _ IH]; intros pos l; cbn [group_requests]; [done|].
  cbn [join_group g_index]. rewrite Hv, Z.eqb_refl. cbn [g_list existing_row row_created row_deleted undo_info rg_void].
  rewrite IH. cbn [length seq zip zip_with]. by rewrite reverse_cons, <- app_assoc.
Qed.
(** The row is the one that exists or a new one. *)
Definition starts (t : job_table) (i : Z) (r : row) (created : bool) : Prop :=
  if created then find_row i (container t) = None /\ r = jobProcessMasterTable_extract_index i
  else find_row i (container t) = Some r.
Lemma group_requests_one t i reqs r created st : reqs <> [] -> Forall (fun v => tindex v = i) reqs ->
  mem e i = true -> starts t i r created ->
  group_requests e t 0 reqs [] st = ([MkGroup i (items reqs) r created false None O], st).
Proof.
  intros Hne Hi Hm Hs. destruct reqs as [|v reqs]; [done|]. apply Forall_cons in Hi as [Hv Hi].
  cbn [group_requests join_group]. rewrite Hv. unfold items. cbn [length seq zip zip_with].
  rewrite reverse_cons.
  unfold starts in Hs. destruct created.
  - destruct Hs as [-> ->]. unfold jobProcessMasterTable_create_row. rewrite Hm. cbn [insert_group].
    by apply group_requests_join.
  - rewrite Hs. cbn [insert_group]. by apply group_requests_join.
Qed.

(** ** The first two phases *)
Lemma reserve1_rc_fits i v : fits lw i v -> reserve1_rc lw v = 0.
Proof.
  intros [_ [[Hs (Ht & _)]|[Hl (Ht & Hn & _)]]]; unfold reserve1_rc; fold (is_string (colnum v));
    fold (is_long (colnum v)).
  - rewrite Hs. unfold check_vb_type_and_size. by rewrite Ht, !Z.eqb_refl.
  - rewrite (long_not_string _ Hl), Hl. unfold check_vb_type_and_size. by rewrite Ht, Hn, !Z.eqb_refl.
Qed.
Lemma set_reserve1_fits i g st : Forall (fits lw i) (g_list g).*2 ->
  jobProcessMasterTable_set_reserve1 lw g st = st.
Proof.
  unfold jobProcessMasterTable_set_reserve1. induction (g_list g) as [|[p v] l IH]; [done|].
  cbn [fmap list_fmap snd foldl fst]. intros [Hv Hl]%Forall_cons.
  rewrite (reserve1_rc_fits _ _ Hv). by apply IH.
Qed.

(** The status column, if it is set, may be set to what it is. *)
Definition status_ok (old : Z) (vs : list setvar) : Prop :=
  forall v, v ∈ vs -> colnum v = COLUMN_STATUS -> check_vb_rowstatus lw v old = Ret 0.
Lemma reserve2_loop_fits old l p st : status_ok old l.*2 ->
  exists q, reserve2_loop lw old l p st = Ret (q, st).
Proof.
  intros Hs. revert p. induction l as [|[q v] l IH]; intros p; cbn [reserve2_loop]; [by eexists|].
  destruct (Z.eqb_spec (colnum v) COLUMN_STATUS) as [E|]; [rewrite Hs, outcome_bind_ret by (by try left)|];
    apply IH; intros w Hw; apply Hs; by right.
Qed.
Lemma set_reserve2_fits g st : g_list g <> [] ->
  status_ok (match undo_info g with Some u => jobProcessMasterStatus u | None => 0 end) (g_list g).*2 ->
  exists q, jobProcessMasterTable_set_reserve2 lw g st = Ret (with_void q g, st).
Proof.
  intros Hne Hs. unfold jobProcessMasterTable_set_reserve2.
  destruct (g_list g) as [|[p v] l] eqn:E; [done|].
  destruct (reserve2_loop_fits _ _ p st Hs) as [q ->]. rewrite outcome_bind_ret. by exists q.
Qed.

(** ** The action phase *)

(** A reading of the clock that fits a column. *)
Definition date_good (d : list Z * Z) : Prop :=
  date_ok d /\ exists s, get_str d.1 0 = Ret s /\ (length s < 20)%nat.

Lemma copy_date_fits c x d : col_size c = 20 -> column_ok c x -> date_good d ->
  exists y, copy_date x d = Ret y /\ column_ok c y.
Proof.
  intros Hc Hx [Hd (s & Hs & Hl)].
  assert (exists y, copy_date x d = Ret y) as [y Hy].
  { unfold copy_date. rewrite Hs, outcome_bind_ret. unfold strcpy. destruct Hx as [Hb _].
    rewrite poke_ok by (rewrite length_app; cbn [length]; lia). rewrite outcome_bind_ret. by eexists. }
  exists y. split; [done|]. by eapply copy_date_ok.
Qed.

(** A row that is active has the columns that a job needs. *)
Definition complete (r : row) : Prop :=
  len (jobProcessMasterStartTime r) <> 0 /\ len (jobProcessMasterFinishTime r) <> 0 /\
  len (jobProcessMasterID r) <> 0 \/ jobProcessMasterStatus r <> 4 /\ jobProcessMasterStatus r <> 1.

Lemma set_action_fits i g st : date_good (date_action e) -> row_ok (existing_row g) ->
  Forall (fits lw i) (g_list g).*2 -> NoDup (colnum <$> (g_list g).*2) ->
  exists d r1, row_ok r1 /\ has_values (g_list g).*2 (with_string COLUMN_LASTUPDATED d (existing_row g)) r1 /\
    forall s deleted, netsnmp_table_array_check_row_status (jobProcessMasterStatus r1)
        (jobProcessMasterStatus <$> undo_info g) = (0, s, deleted) ->
      complete (with_long COLUMN_STATUS s r1) ->
      jobProcessMasterTable_set_action e g st =
        Ret (with_row (with_long COLUMN_STATUS s r1) (row_deleted g || deleted) g, st).
Proof.
  intros Hd Hr Hf Hnd.
  destruct (copy_date_fits COLUMN_LASTUPDATED (MkColumn (replicate JM_MAX_DT_LEN 0) (Z.of_nat JM_MAX_DT_LEN))
    (date_action e)) as (d & Hdate & Hdok); [done|by vm_compute|done|].
  destruct (copy_values_fits lw i (g_list g) (with_string COLUMN_LASTUPDATED d (existing_row g)))
    as (r1 & Hc & Hr1 & Hv); [|done..|].
  { apply row_ok_with_string; [done|by eexists|done]. }
  exists d, r1. split; [done|]. split; [done|]. intros s deleted Hck Hcomp.
  unfold jobProcessMasterTable_set_action. rewrite Hdate, outcome_bind_ret, Hc, outcome_bind_ret, Hck.
  change (negb (0 =? 0)) with false. cbv iota.
  destruct (_ && _) eqn:E; [|done]. exfalso. rewrite andb_true_iff, !orb_true_iff, !Z.eqb_eq in E.
  destruct Hcomp as [(H1 & H2 & H3)|[H1 H2]]; tauto.
Qed.

(** ** Up to the commit *)
Definition zeros (reqs : list setvar) : list Z := replicate (length reqs) 0.
Lemma failed_zeros reqs : failed (zeros reqs) = false.
Proof. apply failed_false. apply Forall_replicate. done. Qed.

Definition old_status (r : row) (created : bool) : Z :=
  if created then 0 else jobProcessMasterStatus r.

Lemma reserve1_fits i g st : row_ok (existing_row g) -> mem e (g_index g) = true ->
  undo_info g = None -> Forall (fits lw i) (g_list g).*2 ->
  exists u, reserve1_group lw e g st = Ret (with_undo u g, st) /\
    jobProcessMasterStatus <$> u =
      (if row_created g then None else Some (jobProcessMasterStatus (existing_row g))).
Proof.
  intros Hr Hm Hu Hf. unfold reserve1_group. destruct (row_created g) eqn:Hc.
  - exists None. rewrite set_reserve1_fits with (i := i) by done. split; [|done].
    f_equal. f_equal. destruct g. simpl in *. by subst.
  - unfold jobProcessMasterTable_duplicate_row. rewrite Hm.
    destruct (row_copy_ok (jobProcessMasterTable_extract_index 0) (existing_row g)) as [u Hcp];
      [by apply row_ok_new|done|].
    rewrite Hcp, !outcome_bind_ret, set_reserve1_fits with (i := i) by done. exists (Some u).
    split; [done|]. apply row_copy_spec in Hcp as [_ [_ Hv]]; [|by apply row_ok_new|done].
    specialize (Hv COLUMN_STATUS). rewrite !get_value_status in Hv. simpl. by injection Hv as ->.
Qed.

Lemma reach_commit t i reqs r created : date_good (date_action e) -> row_ok r -> index r = i ->
  reqs <> [] -> Forall (fits lw i) reqs -> NoDup (colnum <$> reqs) -> mem e i = true ->
  starts t i r created -> status_ok (old_status r created) reqs ->
  exists d r1, row_ok r1 /\ has_values (reverse reqs) (with_string COLUMN_LASTUPDATED d r) r1 /\
    forall s deleted, netsnmp_table_array_check_row_status (jobProcessMasterStatus r1)
        (if created then None else Some (jobProcessMasterStatus r)) = (0, s, deleted) ->
      complete (with_long COLUMN_STATUS s r1) ->
      exists u p,
        let g := MkGroup i (items reqs) (with_long COLUMN_STATUS s r1) created deleted u p in
        handle_set lw e reqs t =
          (r ← commit_groups lw e [g] ((if created then t else sync g t), zeros reqs);
           mret ('(t, st) ← r; Some (first_error st, t))).
Proof.
  intros Hd Hr Hi Hne Hf Hnd Hm Hst Hso.
  set (g0 := MkGroup i (items reqs) r created false None O).
  assert (Hf' : Forall (fits lw i) (items reqs).*2) by (rewrite items_values; by apply Forall_reverse).
  destruct (reserve1_fits i g0 (zeros reqs) Hr Hm eq_refl Hf') as (u & H1 & Hu).
  assert (Hso2 : status_ok (match u with Some u => jobProcessMasterStatus u | None => 0 end) (items reqs).*2).
  { assert (match u with Some u => jobProcessMasterStatus u | None => 0 end = old_status r created) as ->.
    { change (row_created g0) with created in Hu. change (existing_row g0) with r in Hu.
      unfold old_status. destruct created, u; simpl in Hu; congruence. }
    intros v Hv. rewrite items_values in Hv. by apply Hso, elem_of_reverse. }
  assert (Hit : items reqs <> []).
  { intros E. apply (f_equal length) in E. rewrite items_length in E. by destruct reqs. }
  destruct (set_reserve2_fits (with_undo u g0) (zeros reqs) Hit Hso2) as (p & H2).
  destruct (set_action_fits i (with_void p (with_undo u g0)) (zeros reqs) Hd Hr Hf') as (d & r1 & Hr1 & Hv & H3).
  { cbn [g_list with_void with_undo g0]. rewrite items_values, fmap_reverse. by rewrite reverse_Permutation. }
  cbn [g_list with_void with_undo g0 existing_row undo_info] in Hv, H3. rewrite items_values in Hv.
  exists d, r1. split; [done|]. split; [done|]. intros s deleted Hck Hcomp.
  exists u, p. cbv zeta. unfold handle_set, JobTable.handle_set.
  fold (zeros reqs). rewrite (group_requests_one t i reqs r created) by
    (done || (eapply Forall_impl; [exact Hf|]; by intros v [? _])).
  fold g0. cbn [each]. rewrite H1, !outcome_bind_ret, failed_zeros.
  cbn [each]. rewrite H2, !outcome_bind_ret, failed_zeros. cbn [each]. unfold action_group at 1.
  cbn [snd fst]. change (row_created g0) with created in H3. rewrite Hu in H3.
  change (row_created g0) with created in H3. rewrite (H3 s deleted), !outcome_bind_ret by done.
  cbn [fst snd row_created with_row with_void with_undo g0].
  by destruct created; rewrite failed_zeros.
Qed.

(** ** The commit *)

(** The date of creation is null-terminated in its buffer. *)
Definition date_ends (r : row) : Prop := last (bytes (jobProcessMasterCreatedDate r)) = Some 0.

(** The row with the date of creation if it had none. *)
Lemma set_commit_fits g t room : date_good (date_commit e) -> disk e = Some room ->
  (length (container t) <= room)%nat -> row_ok (existing_row g) -> index (existing_row g) = g_index g ->
  date_ends (existing_row g) ->
  exists r2 t2, row_ok r2 /\ index r2 = g_index g /\
    (forall c, c <> COLUMN_CREATEDDATE \/ hd 0 (bytes (jobProcessMasterCreatedDate (existing_row g))) <> 0 ->
       jobProcessMasterTable_get_value c r2 = jobProcessMasterTable_get_value c (existing_row g)) /\
    container t2 = map (fun x => with_idx (index x) x)
                     (map (fun x => if index x =? g_index g then r2 else x) (container t)) /\
    saved t2 /\ jt_log t2 = jt_log t /\
    jobProcessMasterTable_set_commit lw e g t =
      commit_trap lw e (with_row r2 (row_deleted g) g) t2.
Proof.
  intros Hd Hdisk Hroom Hr Hi He. unfold jobProcessMasterTable_set_commit.
  set (b := bytes (jobProcessMasterCreatedDate (existing_row g))) in *.
  assert (exists n, strlen b = Ret n /\ (hd 0 b <> 0 -> n <> O)) as (n & -> & Hn).
  { assert (0 ∈ b) as Hz by (apply list_elem_of_lookup; exists (pred (length b)); by rewrite <- last_lookup).
    pose proof (get_str_cut _ Hz) as Hcut. unfold get_str in Hcut. rewrite drop_0 in Hcut.
    destruct (strlen b) as [n| |] eqn:E; [|done..]. exists n. split; [done|]. intros Hh ->.
    destruct b as [|c b']; [done|]. cbn [strlen hd] in *. rewrite (proj2 (Z.eqb_neq _ _) Hh) in E.
    by destruct (strlen b'). }
  rewrite outcome_bind_ret.
  assert (exists r2, (if bool_decide (n = O) then
       d ← copy_date (jobProcessMasterCreatedDate (existing_row g)) (date_commit e);
       mret (with_string COLUMN_CREATEDDATE d (existing_row g)) else mret (existing_row g)) = Ret r2 /\
     row_ok r2 /\ index r2 = g_index g /\
     (forall c, c <> COLUMN_CREATEDDATE \/ hd 0 b <> 0 ->
       jobProcessMasterTable_get_value c r2 = jobProcessMasterTable_get_value c (existing_row g)))
    as (r2 & -> & Hr2 & Hi2 & Hv2).
  { case_bool_decide as Hz; [|by exists (existing_row g)].
    assert (column_ok COLUMN_CREATEDDATE (jobProcessMasterCreatedDate (existing_row g))) as Hc.
    { destruct Hr as (_ & _ & Hr). by apply Hr. }
    destruct (copy_date_fits COLUMN_CREATEDDATE _ _ eq_refl Hc Hd) as (d & -> & Hdok). rewrite outcome_bind_ret.
    eexists. split; [done|]. split; [by apply row_ok_with_string; [|by eexists|]|]. split; [done|].
    intros c Hcc. rewrite get_value_with_string by (by eexists).
    rewrite (proj2 (Z.eqb_neq _ _)); [done|]. destruct Hcc as [?|Hh]; [done|]. by apply Hn in Hh. }
  rewrite outcome_bind_ret, Hdisk. unfold sync. cbn [container with_container existing_row g_index with_row].
  rewrite write_file_all by (by rewrite length_map).
  set (l := map (fun x => with_idx (index x) x)
              (map (fun x => if index x =? g_index g then r2 else x) (container t))).
  exists r2, (MkTable l (Some l) (jt_log t)). split_and!; try done. split; [done|].
  apply Forall_map, Forall_true. by intros x.
Qed.

(** Some facts on requests with distinct columns. *)
Lemma fits_column v i : fits lw i v -> colnum v ∈ seqZ 2 13.
Proof.
  intros [_ Hv]. apply elem_of_seqZ.
  assert (is_string (colnum v) || is_long (colnum v) = true) as Hc.
  { apply orb_true_iff. destruct Hv as [[? _]|[? _]]; [by left|by right]. }
  revert Hc. generalize (colnum v). intros c. unfold is_string, is_long.
  rewrite !orb_true_iff, !Z.eqb_eq. unfold COLUMN_ID, COLUMN_NAME, COLUMN_DESCRIPTION,
    COLUMN_CREATEDDATE, COLUMN_CREATEDUSERID, COLUMN_CREATEDUSERNAME, COLUMN_PERIODICINTERVAL,
    COLUMN_STARTTIME, COLUMN_FINISHTIME, COLUMN_CPUPERCENTUSAGE, COLUMN_MEMORYPERCENTUSAGE,
    COLUMN_STATUS, COLUMN_LASTUPDATED. lia.
Qed.
Lemma few_columns i reqs : Forall (fits lw i) reqs -> NoDup (colnum <$> reqs) -> (length reqs <= 13)%nat.
Proof.
  intros Hf Hnd. rewrite <- (length_fmap colnum). change 13%nat with (length (seqZ 2 13)).
  apply submseteq_length, NoDup_submseteq; [done|]. intros c (v & -> & Hv)%list_elem_of_fmap.
  rewrite Forall_forall in Hf. eapply fits_column, Hf, Hv.
Qed.
Lemma nodup_inj {A B} (f : A -> B) l x y : NoDup (f <$> l) -> x ∈ l -> y ∈ l -> f x = f y -> x = y.
Proof.
  induction l as [|z l IH]; [by intros _ []%not_elem_of_nil|]. cbn [fmap list_fmap].
  intros [Hn Hnd]%NoDup_cons [->|Hx]%elem_of_cons [->|Hy]%elem_of_cons Hf; try done.
  - destruct Hn. rewrite Hf. by apply list_elem_of_fmap_2.
  - destruct Hn. rewrite <- Hf. by apply list_elem_of_fmap_2.
  - by apply IH.
Qed.

(** ** The trap *)
Hypothesis Hlw : lw = 32 \/ lw = 64.

(** A request that names distinct columns, none of them a usage, for one row. *)
Record plain (i : Z) (reqs : list setvar) : Prop := {
  pl_fits : Forall (fits lw i) reqs;
  pl_distinct : NoDup (colnum <$> reqs);
  pl_usage v : v ∈ reqs -> usage (colnum v) = false
}.
Definition sets_status (x : Z) (reqs : list setvar) : Prop :=
  exists v, v ∈ reqs /\ colnum v = COLUMN_STATUS /\ vb_integer v = Some x.

Lemma filled i reqs g : 0 <= i < 2 ^ 31 -> plain i reqs -> g_list g = items reqs ->
  exists args k, fill_args lw (g_list g) [] (MkCounters 0 false 0 0) = Ret (args, k) /\
    Forall2 entry_of (reverse reqs) args /\ CPUorMEMFlg k = false /\
    k = foldl (counted i) (MkCounters 0 false 0 0) (reverse reqs).
Proof using Hlw.
  intros Hi [Hf Hnd Hu] ->. pose proof (few_columns _ _ Hf Hnd) as Hfew.
  destruct (fill_args_fits lw Hlw i (items reqs) [] (MkCounters 0 false 0 0) Hi) as (args & Hargs & Ha).
  - rewrite items_values. by apply Forall_reverse.
  - rewrite items_length. cbn [length]. unfold JM_NO_OF_FIELDS. lia.
  - rewrite items_values in *. eexists args, _. split; [exact Hargs|]. split; [done|]. split; [|done].
    rewrite counted_usage. cbn [CPUorMEMFlg]. rewrite orb_false_r. apply not_true_is_false.
    intros (v & Hv & Hvu)%existsb_exists. apply list_elem_of_In, elem_of_reverse in Hv.
    rewrite reverse_involutive in Hv. by rewrite (Hu v Hv) in Hvu.
Qed.

Lemma commit_trap_sends i reqs g t : session_opens e = true -> 0 <= i < 2 ^ 31 -> plain i reqs ->
  g_list g = items reqs ->
  sets_status 6 reqs \/ sets_status 4 reqs /\ (forall c, mandatory c = true -> c ∈ colnum <$> reqs) ->
  exists xs, commit_trap lw e g t = Ret (Some (log_event (TrapSent (send_succeeds e) xs) t)) /\
    Forall2 conveys (reverse reqs) xs.
Proof using Hlw Hlaws.
  intros Ho Hi Hp Hg Hs. destruct (filled i reqs g Hi Hp Hg) as (args & k & Hfill & Ha & Hc & Hk).
  destruct Hp as [Hf Hnd _].
  destruct (send_fits lw e i (reverse reqs) args t) as (xs & Hsend & Hxs);
    [done|lia|by apply Forall_reverse|done|].
  exists xs. split; [|done]. unfold commit_trap. rewrite Hfill, outcome_bind_ret, Hc.
  assert (forall x, sets_status x reqs -> sRowStatus k = I16 x) as Hst.
  { intros x (v & Hv & Hvc & Hvx). subst k. rewrite (counted_status i _ _ v); [by rewrite Hvx| |by rewrite fmap_reverse, reverse_Permutation|done].
    by apply elem_of_reverse. }
  destruct Hs as [H6|[H4 Hm]]; [by rewrite (Hst _ H6)|]. rewrite (Hst _ H4).
  assert (sSet k = 4) as ->; [|done]. subst k. rewrite counted_set.
  - rewrite fmap_reverse, reverse_Permutation, mandatory_four; done.
  - done.
  - rewrite length_reverse. pose proof (few_columns _ _ Hf Hnd). cbn [sSet]. lia.
Qed.

(** What a SET needs of its surroundings: memory, a clock, room on the disk and a
    session. *)
Record works (i : Z) (room : nat) : Prop := {
  wk_mem : mem e i = true;
  wk_action : date_good (date_action e);
  wk_commit : date_good (date_commit e);
  wk_disk : disk e = Some room;
  wk_session : session_opens e = true
}.

Lemma status_of_request i reqs r r1 x : Forall (fits lw i) reqs -> NoDup (colnum <$> reqs) ->
  sets_status x reqs -> has_values (reverse reqs) r r1 -> jobProcessMasterStatus r1 = x.
Proof.
  intros Hf Hnd (v & Hv & Hc & Hx) [_ Hval _ _ _].
  assert (v ∈ reverse reqs) as Hv' by by apply elem_of_reverse.
  specialize (Hval _ Hv'). rewrite Hc, get_value_status in Hval. unfold value_of in Hval.
  rewrite Hc, Hx in Hval. by injection Hval.
Qed.
Lemma status_ok_request i reqs x old : Forall (fits lw i) reqs -> NoDup (colnum <$> reqs) ->
  sets_status x reqs -> 0 <= x <= 6 -> x <> RS_NOTREADY -> check_rowstatus_transition (I32 old) x = 0 ->
  status_ok old reqs.
Proof.
  intros Hf Hnd (v & Hv & Hc & Hx) Hr Hn Htr w Hw Hwc.
  assert (w = v) as -> by (eapply (nodup_inj colnum); [exact Hnd|done..|congruence]).
  rewrite Forall_forall in Hf. destruct (Hf _ Hv) as [_ [[Hs _]|(_ & Ht & Hl & _)]].
  - rewrite Hc in Hs. by vm_compute in Hs.
  - unfold check_vb_rowstatus, check_vb_type_and_size. rewrite Ht, Hl, !Z.eqb_refl. cbn [negb].
    change (negb (SNMP_ERR_NOERROR =? 0)) with false. cbv iota. unfold integer_of.
    rewrite Hx, outcome_bind_ret, (proj2 (Z.eqb_neq _ _) Hn).
    rewrite (proj2 (Z.ltb_ge x 0)), (proj2 (Z.ltb_ge 6 x)) by lia. cbn [orb].
    rewrite (I32_id x) by lia. by rewrite Htr.
Qed.

(** The date of creation of a changed row ends in its buffer if it did before, and
    starts with what a request gives it. *)
Lemma date_ends_values i reqs r r1 :
  length (bytes (jobProcessMasterCreatedDate r)) = 20%nat -> Forall (fits lw i) reqs ->
  date_ends r -> has_values (reverse reqs) r r1 ->
  date_ends r1 /\ (COLUMN_CREATEDDATE ∈ colnum <$> reqs ->
    hd 0 (bytes (jobProcessMasterCreatedDate r1)) <> 0).
Proof.
  intros Hr Hf He [_ _ _ Hb Hs]. unfold date_ends in *.
  destruct (decide (COLUMN_CREATEDDATE ∈ colnum <$> reqs)) as [Hin|Hout].
  - apply list_elem_of_fmap in Hin as (v & Hc & Hv). rewrite Forall_forall in Hf.
    destruct (Hf _ Hv) as [_ [[Hstr (_ & Hl & Hlen & Hh)]|[Hlong _]]].
    2: { rewrite <- Hc in Hlong. by vm_compute in Hlong. }
    assert (v ∈ reverse reqs) as Hv' by by apply elem_of_reverse.
    specialize (Hb _ Hv' Hstr). rewrite <- Hc in Hb, Hlen.
    change (string_col COLUMN_CREATEDDATE r1) with (Some (jobProcessMasterCreatedDate r1)) in Hb.
    change (string_col COLUMN_CREATEDDATE r) with (Some (jobProcessMasterCreatedDate r)) in Hb.
    injection Hb as ->. cbn [bytes fmap option_fmap option_map default].
    change (col_size COLUMN_CREATEDDATE) with 20 in *. split.
    + apply last_Some in He as [l He]. rewrite He, length_app in Hr. cbn [length] in Hr.
      rewrite He, drop_app_le, app_assoc, last_snoc by lia. done.
    + intros _. destruct (vb_string v); [simpl in *; lia|done].
  - split; [|done]. specialize (Hs COLUMN_CREATEDDATE).
    assert (COLUMN_CREATEDDATE ∉ colnum <$> reverse reqs) as Hout'.
    { by rewrite fmap_reverse, elem_of_reverse. }
    specialize (Hs Hout'). by injection Hs as ->.
Qed.
Lemma complete_values i reqs r r1 s : Forall (fits lw i) reqs ->
  (forall c, mandatory c = true -> c ∈ colnum <$> reqs) -> has_values (reverse reqs) r r1 ->
  complete (with_long COLUMN_STATUS s r1).
Proof.
  intros Hf Hm [_ _ _ Hb _]. left.
  assert (forall c x, mandatory c = true -> string_col c r1 = Some x -> len x <> 0) as Hlen.
  { intros c x Hc Hx. specialize (Hm _ Hc). apply list_elem_of_fmap in Hm as (v & -> & Hv).
    rewrite Forall_forall in Hf. destruct (Hf _ Hv) as [_ [[Hstr (_ & _ & Hl & _)]|[Hlong _]]].
    - rewrite (Hb v) in Hx by (done || by apply elem_of_reverse). injection Hx as <-. cbn [len]. lia.
    - apply long_not_string in Hlong. assert (is_string (colnum v) = true) as Hs; [|congruence].
      apply (string_col_is _ r1). by eexists. }
  split_and!; [apply (Hlen COLUMN_STARTTIME)|apply (Hlen COLUMN_FINISHTIME)|apply (Hlen COLUMN_ID)]; done.
Qed.

(** What the rows show after one of them has been replaced and the file written. *)
Lemma rows_after i r2 l t2 : index r2 = i ->
  container t2 = map (fun x => with_idx (index x) x) (map (fun x => if index x =? i then r2 else x) l) ->
  (forall c j, j <> i -> get_request c j t2 =
     (r ← find_row j l; jobProcessMasterTable_get_value c r)) /\
  (forall r, find_row i l = Some r -> find_row i (container t2) = Some (with_idx i r2)) /\
  (find_row i l = None -> find_row i (container t2) = None).
Proof.
  intros Hi Hc. unfold get_request. rewrite Hc.
  assert (Hf : forall j, find_row j (map (fun x => with_idx (index x) x)
      (map (fun x => if index x =? i then r2 else x) l)) =
    (fun x => with_idx (index x) x) <$> ((fun x => if index x =? i then r2 else x) <$> find_row j l)).
  { intros j. rewrite !find_row_map; [done| |by intros x].
    intros x. destruct (Z.eqb_spec (index x) i); congruence. }
  split_and!.
  - intros c j Hj. rewrite Hf. destruct (find_row j l) as [r|] eqn:E; [|done].
    apply find_row_Some in E as [_ Hr]. cbn [fmap option_fmap option_map mbind option_bind].
    by rewrite (proj2 (Z.eqb_neq _ _)) by congruence.
  - intros r E. rewrite Hf, E. apply find_row_Some in E as [_ Hr].
    cbn [fmap option_fmap option_map]. by rewrite Hr, Z.eqb_refl, Hi.
  - intros E. by rewrite Hf, E.
Qed.

(** The commit of a single group whose container has been changed. *)
Lemma commit_one g t t1 reqs room ok :
  change_container e g t = (true, t1) -> works (g_index g) room -> (length (container t1) <= room)%nat ->
  row_ok (existing_row g) -> index (existing_row g) = g_index g -> date_ends (existing_row g) ->
  (forall r2 t2, row_ok r2 ->
     (forall c, c <> COLUMN_CREATEDDATE \/ hd 0 (bytes (jobProcessMasterCreatedDate (existing_row g))) <> 0 ->
       jobProcessMasterTable_get_value c r2 = jobProcessMasterTable_get_value c (existing_row g)) ->
     index r2 = g_index g -> saved t2 ->
     container t2 = map (fun x => with_idx (index x) x)
                      (map (fun x => if index x =? g_index g then r2 else x) (container t1)) ->
     exists evs, commit_trap lw e (with_row r2 (row_deleted g) g) t2 =
       Ret (Some (foldr log_event t2 evs)) /\ ok r2 evs) ->
  exists r2 t2 evs, row_ok r2 /\ index r2 = g_index g /\
    (forall c, c <> COLUMN_CREATEDDATE \/ hd 0 (bytes (jobProcessMasterCreatedDate (existing_row g))) <> 0 ->
       jobProcessMasterTable_get_value c r2 = jobProcessMasterTable_get_value c (existing_row g)) /\
    container t2 = map (fun x => with_idx (index x) x)
                     (map (fun x => if index x =? g_index g then r2 else x) (container t1)) /\
    saved t2 /\ jt_log t2 = jt_log t1 ++ reverse evs /\ ok r2 evs /\
    (r ← commit_groups lw e [g] (t, zeros reqs); mret ('(t, st) ← r; Some (first_error st, t))) =
      Ret (Some (0, t2)).
Proof.
  intros Hch [_ _ Hcd Hdisk Ho] Hroom Hr Hi He Htrap.
  destruct (set_commit_fits g t1 room Hcd Hdisk Hroom Hr Hi He)
    as (r2 & t2 & Hr2 & Hi2 & Hv2 & Hc2 & [Hs1 Hs2] & Hlog & Hcommit).
  destruct (Htrap r2 t2 Hr2 Hv2 Hi2 (conj Hs1 Hs2) Hc2) as (evs & Hxs & Hok).
  exists r2, (foldr log_event t2 evs), evs.
  assert (container (foldr log_event t2 evs) = container t2 /\ conf (foldr log_event t2 evs) = conf t2 /\
    jt_log (foldr log_event t2 evs) = jt_log t2 ++ reverse evs) as (Ec & Ef & El).
  { clear. induction evs as [|x evs (IH1 & IH2 & IH3)]; [by rewrite app_nil_r|]. cbn [foldr].
    split_and!; [done..|]. cbn [jt_log log_event]. by rewrite IH3, reverse_cons, app_assoc. }
  split_and!; [done..|by rewrite Ec| |by rewrite El, Hlog|done|].
  - split; by rewrite ?Ec, ?Ef.
  - cbn [commit_groups]. unfold commit_group. cbn [fst snd]. rewrite Hch. cbn [negb].
    rewrite Hcommit, Hxs, !outcome_bind_ret. cbn [mbind option_bind commit_groups].
    rewrite outcome_bind_ret. cbn [mbind option_bind].
    rewrite (proj2 (first_error_zero (zeros reqs))); [done|]. by apply Forall_replicate.
Qed.

(** With one trap. *)
Lemma commit_single g t t1 reqs room xs_ok :
  change_container e g t = (true, t1) -> works (g_index g) room -> (length (container t1) <= room)%nat ->
  row_ok (existing_row g) -> index (existing_row g) = g_index g -> date_ends (existing_row g) ->
  (forall r2 t2, row_ok r2 ->
     (forall c, c <> COLUMN_CREATEDDATE \/ hd 0 (bytes (jobProcessMasterCreatedDate (existing_row g))) <> 0 ->
       jobProcessMasterTable_get_value c r2 = jobProcessMasterTable_get_value c (existing_row g)) ->
     index r2 = g_index g -> saved t2 ->
     container t2 = map (fun x => with_idx (index x) x)
                      (map (fun x => if index x =? g_index g then r2 else x) (container t1)) ->
     exists xs, commit_trap lw e (with_row r2 (row_deleted g) g) t2 =
       Ret (Some (log_event (TrapSent (send_succeeds e) xs) t2)) /\ xs_ok r2 xs) ->
  exists r2 t2 xs, row_ok r2 /\ index r2 = g_index g /\
    (forall c, c <> COLUMN_CREATEDDATE \/ hd 0 (bytes (jobProcessMasterCreatedDate (existing_row g))) <> 0 ->
       jobProcessMasterTable_get_value c r2 = jobProcessMasterTable_get_value c (existing_row g)) /\
    container t2 = map (fun x => with_idx (index x) x)
                     (map (fun x => if index x =? g_index g then r2 else x) (container t1)) /\
    saved t2 /\ jt_log t2 = jt_log t1 ++ [TrapSent (send_succeeds e) xs] /\ xs_ok r2 xs /\
    (r ← commit_groups lw e [g] (t, zeros reqs); mret ('(t, st) ← r; Some (first_error st, t))) =
      Ret (Some (0, t2)).
Proof.
  intros Hch Hw Hroom Hr Hi He Htrap.
  destruct (commit_one g t t1 reqs room
    (fun r2 evs => exists xs, evs = [TrapSent (send_succeeds e) xs] /\ xs_ok r2 xs))
    as (r2 & t2 & evs & Hr2 & Hi2 & Hv2 & Hc2 & Hsv & Hlog & (xs & -> & Hok) & Hcom); try done.
  - intros r2 t2 Hr2 Hv2 Hi2 Hs Hc. destruct (Htrap r2 t2 Hr2 Hv2 Hi2 Hs Hc) as (xs & Hxs & Hok).
    exists [TrapSent (send_succeeds e) xs]. split; [exact Hxs|by exists xs].
  - by exists r2, t2, xs.
Qed.

(** A container that refuses makes the only group fail. *)
Lemma items_range reqs p v l : items reqs = (p, v) :: l -> (p < length reqs)%nat.
Proof.
  intros E. assert (Hin : (p, v) ∈ items reqs) by (rewrite E; by left).
  unfold items in Hin. apply elem_of_reverse, elem_of_zip_l, elem_of_seq in Hin. lia.
Qed.
Lemma first_error_insert n p : (p < n)%nat ->
  first_error (<[p := SNMP_ERR_COMMITFAILED]> (replicate n 0)) = SNMP_ERR_COMMITFAILED.
Proof.
  revert p. induction n as [|n IH]; intros p Hp; [lia|].
  destruct p as [|p]; [done|]. change (first_error _) with (first_error (<[p := SNMP_ERR_COMMITFAILED]> (replicate n 0))).
  apply IH. lia.
Qed.
Lemma commit_refused g t t1 reqs : change_container e g t = (false, t1) -> reqs <> [] ->
  g_list g = items reqs ->
  (r ← commit_groups lw e [g] (t, zeros reqs); mret ('(t, st) ← r; Some (first_error st, t))) =
    Ret (Some (SNMP_ERR_COMMITFAILED, t1)).
Proof.
  intros Hch Hne Hg. cbn [commit_groups]. unfold commit_group. cbn [fst snd]. rewrite Hch. cbn [negb].
  rewrite !outcome_bind_ret. cbn [mbind option_bind commit_groups]. rewrite ?outcome_bind_ret.
  cbn [mbind option_bind]. unfold blame. rewrite Hg.
  destruct (items reqs) as [|[p v] l] eqn:E.
  { apply (f_equal length) in E. rewrite items_length in E. by destruct reqs. }
  unfold set_error. change (SNMP_ERR_COMMITFAILED =? 0) with false. cbv iota. unfold zeros. rewrite first_error_insert; [done|].
  by apply (items_range reqs p v l).
Qed.

(** ** Whole requests *)

(** A SET that creates a row with status createAndGo and the four columns a
    job needs makes an active row with the values of the request, leaves the other
    rows alone, saves the table, and sends one trap with the variables of the
    request, last first: whatever other columns the request has, in whatever
    order; but when the secondary container refuses the row, the answer is
    commitFailed and nothing has changed. *)
Lemma job_is_created i reqs t room :
  works i room -> 0 <= i < 2 ^ 31 -> table_ok (container t) -> (length (container t) < room)%nat ->
  find_row i (container t) = None -> plain i reqs -> sets_status RS_CREATEANDGO reqs ->
  (forall c, mandatory c = true -> c ∈ colnum <$> reqs) ->
  if second e i then exists t' r xs, handle_set lw e reqs t = Ret (Some (0, t')) /\
    find_row i (container t') = Some r /\ jobProcessMasterStatus r = RS_ACTIVE /\
    (forall v, v ∈ reqs -> colnum v <> COLUMN_STATUS ->
       jobProcessMasterTable_get_value (colnum v) r = Some (value_of v)) /\
    (forall c j, j <> i -> get_request c j t' = get_request c j t) /\ saved t' /\
    jt_log t' = jt_log t ++ [TrapSent (send_succeeds e) xs] /\ Forall2 conveys (reverse reqs) xs
  else handle_set lw e reqs t = Ret (Some (SNMP_ERR_COMMITFAILED, t)).
Proof using Hlw Hlaws.
  intros Hw Hi Ht Hroom Hfind Hp Hstat Hman. pose proof Hp as [Hf Hnd _]. pose proof Hw as [Hm Hda _ _ Ho].
  assert (reqs <> []) as Hne by (destruct Hstat as (v & Hv & _); by intros ->; apply not_elem_of_nil in Hv).
  destruct (reach_commit t i reqs (jobProcessMasterTable_extract_index i) true Hda) as (d & r1 & Hr1 & Hv1 & Hreach);
    [by apply row_ok_new; lia|done|done|done|done|done|done|by eapply status_ok_request|].
  pose proof (status_of_request _ _ _ _ _ Hf Hnd Hstat Hv1) as Hs1.
  destruct (Hreach RS_ACTIVE false) as (u & p & Hset); [by rewrite Hs1|by eapply complete_values|].
  set (r := with_long COLUMN_STATUS RS_ACTIVE r1) in *. clear Hreach.
  assert (Hri : index r = i) by apply (hv_index _ _ _ Hv1).
  destruct (date_ends_values i reqs (with_string COLUMN_LASTUPDATED d (jobProcessMasterTable_extract_index i)) r1 eq_refl Hf eq_refl Hv1) as [Hends Hhead].
  destruct (insert_row_new r (container t)) as [l Hl]; [by rewrite Hri|].
  assert (Hch : change_container e (MkGroup i (items reqs) r true false u p) t =
    if second e i then (true, with_container l t) else (false, t)).
  { unfold change_container. cbn [row_created negb row_deleted existing_row]. by rewrite Hl. }
  destruct (second e i); [|by rewrite Hset, (commit_refused _ _ t)].
  destruct (commit_single (MkGroup i (items reqs) r true false u p) t (with_container l t) reqs room
    (fun _ xs => Forall2 conveys (reverse reqs) xs)) as (r2 & t2 & xs & Hr2 & Hi2 & Hv2 & Hc2 & Hsv & Hlog & Hxs & Hcom).
  - done.
  - done.
  - cbn [container with_container]. rewrite (insert_row_length _ _ _ Hl). lia.
  - by apply row_ok_with_long.
  - done.
  - done.
  - intros r2 t' _ _ _ _ _. apply (commit_trap_sends i reqs); [done|lia|done|done|]. right. by split.
  - cbn [g_index container with_container existing_row] in *.
    destruct (rows_after i r2 l t2 Hi2 Hc2) as (Hoth & Hrow & _).
    assert (Hfi : forall j, find_row j l = if j =? i then Some r else find_row j (container t)).
    { intros j. by rewrite (find_row_insert _ _ _ j Hl), Hri. }
    specialize (Hrow r). rewrite Hfi, Z.eqb_refl in Hrow. specialize (Hrow eq_refl).
    exists t2, (with_idx i r2), xs. split_and!; try done.
    + by rewrite Hset.
    + pose proof (Hv2 COLUMN_STATUS ltac:(by left)) as Hst. rewrite !get_value_status in Hst. by injection Hst.
    + intros v Hv Hc. rewrite with_idx_equiv, Hv2.
      * unfold r. rewrite get_value_with_long by (by eexists). rewrite (proj2 (Z.eqb_neq _ _) Hc).
        by apply (hv_value _ _ _ Hv1), elem_of_reverse.
      * destruct (decide (colnum v = COLUMN_CREATEDDATE)) as [E|]; [right|by left].
        apply Hhead. rewrite <- E. by apply list_elem_of_fmap_2.
    + intros c j Hj. rewrite Hoth, Hfi by done. by rewrite (proj2 (Z.eqb_neq _ _) Hj).
Qed.

(** A SET that destroys a row, when memory, the disk, the clock and the session
    serve it and the secondary container finds the row, is answered with no error;
    when it does not, the answer is commitFailed, the row is gone all the same, and
    the file is not written nor a trap sent.  Otherwise the row is gone, every other row shows what it showed, the file holds the rows
    that are left, and one trap with all the values of the request is sent. *)
Lemma job_is_destroyed i reqs t r room :
  works i room -> 0 <= i < 2 ^ 31 -> row_ok r -> date_ends r -> (length (container t) <= room)%nat ->
  find_row i (container t) = Some r -> plain i reqs -> sets_status RS_DESTROY reqs ->
  exists t' xs, handle_set lw e reqs t =
      Ret (Some (if second e i then 0 else SNMP_ERR_COMMITFAILED, t')) /\
    (forall c, get_request c i t' = None) /\
    (forall c j, j <> i -> get_request c j t' = get_request c j t) /\
    if second e i
    then saved t' /\ jt_log t' = jt_log t ++ [TrapSent (send_succeeds e) xs] /\
         Forall2 conveys (reverse reqs) xs
    else conf t' = conf t /\ jt_log t' = jt_log t.
Proof using Hlw Hlaws.
  intros Hw Hi Hr He Hroom Hfind Hp Hstat. pose proof Hp as [Hf Hnd _]. pose proof Hw as [Hm Hda _ _ Ho].
  pose proof (find_row_Some _ _ _ Hfind) as [_ Hri].
  assert (reqs <> []) as Hne by (destruct Hstat as (v & Hv & _); by intros ->; apply not_elem_of_nil in Hv).
  destruct (reach_commit t i reqs r false Hda) as (d & r1 & Hr1 & Hv1 & Hreach);
    [done..|by eapply status_ok_request|].
  pose proof (status_of_request _ _ _ _ _ Hf Hnd Hstat Hv1) as Hs1.
  destruct (Hreach RS_DESTROY true) as (u & p & Hset); [|by right|]. { rewrite Hs1. by apply check_destroy. }
  set (r' := with_long COLUMN_STATUS RS_DESTROY r1) in *. clear Hreach.
  assert (Hri' : index r' = i) by (by rewrite <- Hri; apply (hv_index _ _ _ Hv1)).
  destruct (date_ends_values i reqs (with_string COLUMN_LASTUPDATED d r) r1 (created_size _ Hr) Hf He Hv1)
    as [Hends Hhead].
  set (g := MkGroup i (items reqs) r' false true u p) in *.
  set (t1 := with_container (remove_row i (container (sync g t))) (sync g t)).
  assert (Hch : change_container e g (sync g t) = (second e i, t1)) by done.
  assert (Hrest : forall c j, get_request c j t1 = if j =? i then None else get_request c j t).
  { intros c j. unfold get_request, t1. cbn [container with_container]. rewrite find_row_remove.
    destruct (Z.eqb_spec j i) as [->|Hj]; [done|]. by rewrite (find_row_sync g) by done. }
  destruct (second e i).
  2:{ exists t1, []. rewrite Hset, (commit_refused _ _ t1) by done. split_and!; try done.
      - intros c. by rewrite Hrest, Z.eqb_refl.
      - intros c j Hj. by rewrite Hrest, (proj2 (Z.eqb_neq j i)). }
  destruct (commit_single g (sync g t) t1 reqs room
    (fun _ xs => Forall2 conveys (reverse reqs) xs)) as (r2 & t2 & xs & Hr2 & Hi2 & Hv2 & Hc2 & Hsv & Hlog & Hxs & Hcom).
  - done.
  - done.
  - cbn [container with_container]. etransitivity; [|exact Hroom]. apply length_remove_sync.
  - by apply row_ok_with_long.
  - done.
  - done.
  - intros r2 t' _ _ _ _ _. apply (commit_trap_sends i reqs); [done|lia|done|done|]. by left.
  - cbn [g g_index container with_container existing_row] in *.
    destruct (rows_after i r2 _ t2 Hi2 Hc2) as (Hoth & _ & Hgone). exists t2, xs. split_and!; try done.
    + by rewrite Hset.
    + intros c. unfold get_request. rewrite Hgone; [done|]. unfold t1. cbn [container with_container].
      by rewrite find_row_remove, Z.eqb_refl.
    + intros c j Hj. rewrite Hoth by done. pose proof (Hrest c j) as E.
      by rewrite (proj2 (Z.eqb_neq j i) Hj) in E.
Qed.
End Jobs.
