(* ===== verification/JobTableFlow.v ===== *)
(** * From a SET to the job scheduler

    What the job scheduler makes of the traps that the table of jobs sends: the
    job that a SET creates is the job the scheduler is asked to add, the row that
    a SET destroys is the job it is asked to delete. *)

From S2P Require Import Prelude CTypes Heap SchedTypes SchedIface JobTime JobList JobSched JobTrap CText.
From S2P Require Import SchedDemo JobProps TrapProps JobTable JobTableProofs JobTableTrap JobTableJobs.
From stdpp Require Import list.
#[local] Open Scope Z_scope.

(** ** A request as a job *)
Definition request_for (c : Z) (reqs : list setvar) : option setvar := find (fun v => colnum v =? c) reqs.
Definition text_for (c : Z) (reqs : list setvar) : option text :=
  (fun v => cut (vb_string v) ++ [0]) <$> request_for c reqs.
Definition long_for (c : Z) (reqs : list setvar) : option Z :=
  (fun v => I16 (default 0 (vb_integer v))) <$> request_for c reqs.

(** The job of row [i] that the values of a request make: the texts up to their
    first zero octet, the numbers as 16-bit integers. *)
Definition job_requested (junk : stJobMaster) (i : Z) (reqs : list setvar) : stJobMaster :=
  MkJob (UI16 (I16 i)) (text_for COLUMN_ID reqs) (text_for COLUMN_NAME reqs)
    (default (-1) (long_for COLUMN_PERIODICINTERVAL reqs))
    (text_for COLUMN_STARTTIME reqs) (text_for COLUMN_FINISHTIME reqs)
    (uiEndTimeinNum junk) (iJobMasMemoryUsage junk) (iJobMasCPUUsage junk)
    (default 0 (long_for COLUMN_STATUS reqs)).

Lemma request_for_in v reqs : NoDup (colnum <$> reqs) -> v ∈ reqs -> request_for (colnum v) reqs = Some v.
Proof.
  unfold request_for. induction reqs as [|w reqs IH]; intros Hnd Hv; [by apply not_elem_of_nil in Hv|].
  rewrite fmap_cons in Hnd. apply NoDup_cons in Hnd as [Hw Hnd]. cbn [find].
  apply elem_of_cons in Hv as [->|Hv]; [by rewrite Z.eqb_refl|].
  rewrite (proj2 (Z.eqb_neq _ _)); [by apply IH|]. intros E. apply Hw. rewrite E. by apply list_elem_of_fmap_2.
Qed.
Lemma request_for_None c reqs : c ∉ colnum <$> reqs -> request_for c reqs = None.
Proof.
  unfold request_for. induction reqs as [|w reqs IH]; intros Hc; [done|]. cbn [find].
  rewrite fmap_cons in Hc. apply not_elem_of_cons in Hc as [Hw Hc].
  rewrite (proj2 (Z.eqb_neq _ _)) by congruence. by apply IH.
Qed.

(** ** The variable of a column *)
Lemma in_column_name c v x : name x = vb_name v -> in_column c x = (colnum v =? c).
Proof.
  intros Hn. unfold in_column. rewrite Hn. unfold vb_name, column_oid. cbn [app take jobProcessMasterTable_oid].
  destruct (Z.eqb_spec (colnum v) c) as [->|Hne]; [by apply bool_decide_eq_true_2|].
  apply bool_decide_eq_false_2. unfold jobProcessMasterTable_variables_oid. cbn [app]. congruence.
Qed.

Lemma last_in_None c vs xs : Forall2 conveys vs xs -> c ∉ colnum <$> vs -> last_in c xs = None.
Proof.
  induction 1 as [|v x vs xs [Hn _] _ IH]; intros Hc; [done|]. rewrite fmap_cons in Hc.
  apply not_elem_of_cons in Hc as [Hv Hc]. rewrite last_in_cons, IH by done.
  by rewrite (in_column_name _ v _ Hn), (proj2 (Z.eqb_neq _ _)) by congruence.
Qed.
Lemma last_in_conveys vs xs v : Forall2 conveys vs xs -> NoDup (colnum <$> vs) -> v ∈ vs ->
  exists x, last_in (colnum v) xs = Some x /\ conveys v x.
Proof.
  induction 1 as [|w x vs xs Hwx Hf IH]; intros Hnd Hv; [by apply not_elem_of_nil in Hv|].
  rewrite fmap_cons in Hnd. apply NoDup_cons in Hnd as [Hw Hnd]. rewrite last_in_cons.
  apply elem_of_cons in Hv as [->|Hv].
  - rewrite (last_in_None _ _ _ Hf Hw). destruct (Hwx) as [Hn _].
    rewrite (in_column_name _ w _ Hn), Z.eqb_refl. by exists x.
  - destruct (IH Hnd Hv) as (y & -> & Hy). by exists y.
Qed.

(** The order of a request does not matter. *)
Lemma request_for_perm c vs ws : NoDup (colnum <$> vs) -> vs ≡ₚ ws -> request_for c vs = request_for c ws.
Proof.
  intros Hnd Hp. assert (NoDup (colnum <$> ws)) as Hnd' by by rewrite <- Hp.
  destruct (decide (c ∈ colnum <$> vs)) as [Hin|Hout].
  - apply list_elem_of_fmap in Hin as (v & -> & Hv). rewrite !request_for_in; [done|done|by rewrite <- Hp|done|done].
  - rewrite !request_for_None; [done|by rewrite <- Hp|done].
Qed.
Lemma job_requested_perm junk i vs ws : NoDup (colnum <$> vs) -> vs ≡ₚ ws ->
  job_requested junk i vs = job_requested junk i ws.
Proof.
  intros Hnd Hp. unfold job_requested, text_for, long_for.
  by rewrite !(fun c => request_for_perm c vs ws Hnd Hp).
Qed.

Section Column.
Variables (vs : list setvar) (xs : list variable).
Hypothesis Hnd : NoDup (colnum <$> vs).
Hypothesis Hxs : Forall2 conveys vs xs.

Lemma last_in_request c :
  match request_for c vs with
  | Some v => colnum v = c /\ exists x, last_in c xs = Some x /\ conveys v x
  | None => last_in c xs = None
  end.
Proof using Hnd Hxs.
  destruct (decide (c ∈ colnum <$> vs)) as [Hin|Hout].
  - apply list_elem_of_fmap in Hin as (v & -> & Hv). rewrite request_for_in by done. split; [done|].
    by eapply last_in_conveys.
  - rewrite request_for_None by done. by eapply last_in_None.
Qed.
Lemma string_in_request c : is_string c = true -> string_in c xs = text_for c vs.
Proof using Hnd Hxs.
  intros Hc. unfold string_in, text_for. pose proof (last_in_request c) as H.
  destruct (request_for c vs) as [v|]; [|by rewrite H]. destruct H as (Hv & x & -> & (_ & _ & Hs)).
  rewrite Hv, Hc in Hs. cbn [fmap option_fmap option_map]. by rewrite Hs.
Qed.
Lemma long_in_request c : is_string c = false -> long_in c xs = long_for c vs.
Proof using Hnd Hxs.
  intros Hc. unfold long_in, long_for. pose proof (last_in_request c) as H.
  destruct (request_for c vs) as [v|]; [|by rewrite H]. destruct H as (Hv & x & -> & (_ & _ & Hs)).
  rewrite Hv, Hc in Hs. cbn [fmap option_fmap option_map]. by rewrite Hs.
Qed.
Lemma trap_job_requested `{TaskScheduler} `{Allocator} i junk :
  trap_job junk i xs = job_requested junk i vs.
Proof using Hnd Hxs.
  unfold trap_job, job_requested.
  rewrite !string_in_request, !long_in_request by done. done.
Qed.
End Column.

(** ** Properties *)
Section Flow.
Context `{TaskScheduler} `{Allocator} `{!TableLib} {Hlaws : TrapLaws}.
Variables (tz perform lw : Z) (e : env).
Hypothesis Hlw : lw = 32 \/ lw = 64.

(** A trap that makes the job scheduler ask for [op] on the job of a request. *)
Definition asks (i : Z) (reqs : list setvar) (op : Z) (xs : list variable) : Prop :=
  forall now memf mem task day0 junk (s : js),
    (forall k, memf k = true) -> malloc (dom (js_jobs s)) <> NULL ->
    let p := malloc (dom (js_jobs s)) in
    JS_ParseTrap tz perform now memf mem task day0 junk xs s =
      (r ← JS_UpdateJobToScheduler tz perform now mem task day0 p op
             (with_jobs s (<[p := job_requested junk i reqs]> (js_jobs s)));
       mret (match r with Some (_, s') => Some (true, s') | None => None end)).

Lemma conveyed_asks i vs ws xs : vs <> [] -> Forall (fits lw i) vs -> NoDup (colnum <$> vs) ->
  Forall2 conveys vs xs -> vs ≡ₚ ws -> asks i ws (requested (long_for COLUMN_STATUS ws)) xs.
Proof using Type.
  intros Hne Hf Hnd Hxs Hp now memf mem task day0 junk s Hmem Hnull p.
  pose proof Hxs as Hxs'. destruct vs as [|w vs]; [done|].
  apply Forall2_cons_inv_l in Hxs' as (y & ys & (Hy & _ & _) & _ & ->).
  apply Forall_cons in Hf as [[Hw _] _].
  rewrite (ParseTrap_decodes tz perform now memf mem task day0 junk y ys s
             (jobProcessMasterTable_oid ++ [1; colnum w]) i).
  - rewrite Hy, bool_decide_eq_true_2 by reflexivity.
    rewrite (trap_job_requested (w :: vs)), (long_in_request (w :: vs)) by done.
    rewrite (job_requested_perm junk i _ ws) by done. unfold long_for.
    by rewrite (request_for_perm 13 _ ws) by done.
  - done.
  - clear -Hxs. induction Hxs as [|? ? ? ? (_ & Hwf & _) _ IH]; by constructor.
  - rewrite Hy. unfold vb_name. rewrite Hw, <- !app_assoc. done.
  - by rewrite Hy.
  - done.
Qed.
Lemma request_asks i reqs xs x : plain lw i reqs -> sets_status x reqs ->
  Forall2 conveys (reverse reqs) xs -> asks i reqs (requested (Some (I16 x))) xs.
Proof using Type.
  intros [Hf Hnd _] (v & Hv & Hc & Hx) Hxs.
  assert (long_for COLUMN_STATUS reqs = Some (I16 x)) as <-.
  { unfold long_for. rewrite <- Hc, (request_for_in v) by done. cbn [fmap option_fmap option_map]. by rewrite Hx. }
  apply (conveyed_asks i (reverse reqs)); [|by apply Forall_reverse| |done|by apply reverse_Permutation].
  - intros E. apply (f_equal length) in E. rewrite length_reverse in E. destruct reqs; [|done].
    by apply not_elem_of_nil in Hv.
  - by rewrite fmap_reverse, reverse_Permutation.
Qed.

(** C11: a job that is created over SNMP reaches the scheduler.  A SET for a row
    that does not exist, with status createAndGo and the four columns a job needs,
    in whatever order and with whatever other columns but the two usages (a usage
    stops the trap, usage_set_is_silent), makes an active row with the values of
    the request, leaves the other rows alone and saves the table; the trap that is
    sent makes the job scheduler ask to add the job of the request: its texts up to
    their first zero octet, its numbers and its index as 16-bit integers.  When the
    secondary container refuses the row, as it may, its order being a function
    without a return statement, the answer is commitFailed and nothing has changed.
    Assumed: each column is named once, with a value that fits it (a text is not
    empty, does not start with a zero octet and is shorter than its buffer, an
    integer has 32 bits), memory in both processes, a clock that gives a date, room
    on the disk for one more row, a session that opens, and a library that reads
    identifiers and values as they are written. *)
Theorem created_job_reaches_scheduler i reqs t room :
  works e i room -> 0 <= i < 2 ^ 31 -> table_ok (container t) -> (length (container t) < room)%nat ->
  find_row i (container t) = None -> plain lw i reqs -> sets_status RS_CREATEANDGO reqs ->
  (forall c, mandatory c = true -> c ∈ colnum <$> reqs) ->
  if second e i then exists t' r xs, handle_set lw e reqs t = Ret (Some (0, t')) /\
    find_row i (container t') = Some r /\ jobProcessMasterStatus r = RS_ACTIVE /\
    (forall v, v ∈ reqs -> colnum v <> COLUMN_STATUS ->
       jobProcessMasterTable_get_value (colnum v) r = Some (value_of v)) /\
    (forall c j, j <> i -> get_request c j t' = get_request c j t) /\ saved t' /\
    jt_log t' = jt_log t ++ [TrapSent (send_succeeds e) xs] /\ asks i reqs JS_ADD xs
  else handle_set lw e reqs t = Ret (Some (SNMP_ERR_COMMITFAILED, t)).
Proof using Hlaws Hlw.
  intros Hw Hi Ht Hroom Hfind Hp Hs Hm.
  pose proof (job_is_created lw e Hlw i reqs t room Hw Hi Ht Hroom Hfind Hp Hs Hm) as Hc.
  destruct (second e i); [|done]. destruct Hc as (t' & r & xs & Hset & Hr & Ha & Hv & Ho & Hsv & Hlog & Hxs).
  exists t', r, xs. split_and!; try done. by apply (request_asks _ _ _ RS_CREATEANDGO).
Qed.

(** C23: a job that is destroyed over SNMP leaves the table and the scheduler.  The row
    of a SET with status destroy is gone and every other row shows what it showed.
    When the secondary container finds the row, the answer is no error, the file
    holds the rows that are left, and the trap makes the job scheduler ask to
    delete the job; when it does not, as may be, its order being a function without
    a return statement, the answer is commitFailed, the file is as it was and no
    trap is sent: the scheduler keeps the job.  Assumed: the request names no usage
    and each column once, with a value that fits it, the row has lengths within its
    buffers and a date of creation that ends with a zero, memory in both processes,
    a clock that gives a date, room on the disk, a session that opens, and a library
    that reads identifiers and values as they are written. *)
Theorem destroyed_job_reaches_scheduler i reqs t r room :
  works e i room -> 0 <= i < 2 ^ 31 -> row_ok r -> date_ends r -> (length (container t) <= room)%nat ->
  find_row i (container t) = Some r -> plain lw i reqs -> sets_status RS_DESTROY reqs ->
  exists t' xs, handle_set lw e reqs t =
      Ret (Some (if second e i then 0 else SNMP_ERR_COMMITFAILED, t')) /\
    (forall c, get_request c i t' = None) /\
    (forall c j, j <> i -> get_request c j t' = get_request c j t) /\
    if second e i
    then saved t' /\ jt_log t' = jt_log t ++ [TrapSent (send_succeeds e) xs] /\
         asks i reqs JS_DELETE xs
    else conf t' = conf t /\ jt_log t' = jt_log t.
Proof using Hlaws Hlw.
  intros Hw Hi Hr He Hroom Hfind Hp Hs.
  destruct (job_is_destroyed lw e Hlw i reqs t r room) as (t' & xs & Hset & Hg & Ho & Hrest); [done..|].
  exists t', xs. split_and!; try done. destruct (second e i); [|done].
  destruct Hrest as (Hsv & Hlog & Hxs). split_and!; try done. by apply (request_asks _ _ _ RS_DESTROY).
Qed.
End Flow.
