(* ===== verification/JobTableChange.v ===== *)
(** * A job that is changed

    A SET on an active row without a status: the trap has the variables of the
    request and, from the file, those of the columns a job needs that the request
    does not name; the job scheduler is asked to modify the job. *)

From S2P Require Import Prelude CTypes Heap SchedTypes SchedIface JobTime JobList JobSched JobTrap CText.
From S2P Require Import SchedDemo JobProps TrapProps JobTable JobTableProofs JobTableTrap JobTableJobs JobTableFlow.
From stdpp Require Import list.
#[local] Open Scope Z_scope.

(** ** A row that a job can be made of *)

(** The columns that are looked up in the file, in the order of the trap. *)
Definition job_columns : list Z := [COLUMN_ID; COLUMN_STARTTIME; COLUMN_FINISHTIME; COLUMN_PERIODICINTERVAL].

(** A value as a request would have it. *)
Definition value_ok (c : Z) (x : typed_value) : Prop :=
  match x with
  | Octets s => is_string c = true /\ 0 < Z.of_nat (length s) < col_size c /\ hd 0 s <> 0
  | Long x => is_long c = true /\ - 2 ^ 31 <= x < 2 ^ 31
  | Unsigned _ => False
  end.
Definition job_row (r : row) : Prop :=
  forall c, c ∈ job_columns -> exists x, jobProcessMasterTable_get_value c r = Some x /\ value_ok c x.

(** A column of a row as a variable of a request. *)
Definition from_row (lw i : Z) (r : row) (c : Z) : setvar :=
  match jobProcessMasterTable_get_value c r with
  | Some (Octets s) => MkSet c i ASN_OCTET_STR (Z.of_nat (length s)) s None
  | Some (Long x) => MkSet c i ASN_INTEGER (lw / 8) [] (Some x)
  | _ => MkSet c i 0 0 [] None
  end.
Lemma from_row_col lw i r c : colnum (from_row lw i r c) = c.
Proof. unfold from_row. by destruct (jobProcessMasterTable_get_value _ _) as [[]|]. Qed.
Lemma from_row_index lw i r c : tindex (from_row lw i r c) = i.
Proof. unfold from_row. by destruct (jobProcessMasterTable_get_value _ _) as [[]|]. Qed.
Lemma from_row_cols lw i r (cs : list Z) : colnum <$> (from_row lw i r <$> cs) = cs.
Proof. induction cs as [|c cs IH]; [done|]. rewrite !fmap_cons, IH. by rewrite from_row_col. Qed.

Lemma from_row_fits lw i r c : job_row r -> c ∈ job_columns -> fits lw i (from_row lw i r c).
Proof.
  intros Hr Hc. destruct (Hr c Hc) as (x & Hx & Hok). split; [apply from_row_index|].
  rewrite from_row_col. unfold from_row. rewrite Hx. destruct x as [s|x|x]; [| |done].
  - destruct Hok as (Hs & Hl & Hh). left. by split_and!.
  - destruct Hok as [Hs Hl]. right. split_and!; [done..|]. split_and!; [done..|by exists x].
Qed.

(** What a request leaves of the row is still good for a job. *)
Lemma fits_value lw i v : fits lw i v -> value_ok (colnum v) (value_of v).
Proof.
  intros [_ [[Hs (_ & Hl & Hb & Hh)]|[Hn (_ & _ & x & Hx & Hr)]]]; unfold value_of.
  - rewrite Hs. split_and!; [done|lia|lia|done].
  - rewrite (long_not_string _ Hn), Hx. by split.
Qed.
Lemma has_values_job lw i vs r r' : Forall (fits lw i) vs -> job_row r -> has_values vs r r' -> job_row r'.
Proof.
  intros Hf Hr [_ Hv Ho _ _] c Hc. destruct (decide (c ∈ colnum <$> vs)) as [Hin|Hout].
  - apply list_elem_of_fmap in Hin as (v & -> & Hin). exists (value_of v). split; [by apply Hv|].
    rewrite Forall_forall in Hf. by eapply fits_value, Hf.
  - destruct (Hr c Hc) as (x & Hx & Hok). exists x. by rewrite Ho.
Qed.
Lemma same_values_job r r' : job_row r ->
  (forall c, c ∈ job_columns -> jobProcessMasterTable_get_value c r' = jobProcessMasterTable_get_value c r) ->
  job_row r'.
Proof. intros Hr Hs c Hc. destruct (Hr c Hc) as (x & Hx & Hok). exists x. by rewrite Hs. Qed.

Lemma job_row_string r c : job_row r -> c ∈ job_columns -> is_string c = true ->
  exists x, string_col c r = Some x /\ jobProcessMasterTable_get_value c r = Some (Octets (octets x)) /\
    0 < Z.of_nat (length (octets x)) < col_size c /\ hd 0 (octets x) <> 0.
Proof.
  intros Hr Hc Hs. destruct (Hr c Hc) as (y & Hy & Hok). pose proof (proj1 (string_col_is c r) Hs) as [x Hx].
  exists x. unfold jobProcessMasterTable_get_value in *. rewrite Hx in *.
  destruct (Z.eqb_spec c COLUMN_INDEX) as [->|]; [by vm_compute in Hs|].
  injection Hy as <-. by destruct Hok as (_ & Hl & Hh).
Qed.
Lemma job_row_complete r s : job_row r -> complete (with_long COLUMN_STATUS s r).
Proof.
  intros Hr. left.
  assert (forall c x, c ∈ job_columns -> string_col c r = Some x -> len x <> 0) as Hlen.
  { intros c x Hc Hx Hz. destruct (job_row_string r c Hr Hc) as (y & Hy & _ & Hl & _);
      [by apply (string_col_is c r); eexists|]. rewrite Hx in Hy. injection Hy as <-.
    unfold octets in Hl. rewrite Hz in Hl. simpl in Hl. lia. }
  split_and!; [apply (Hlen COLUMN_STARTTIME)|apply (Hlen COLUMN_FINISHTIME)|apply (Hlen COLUMN_ID)];
    (done || unfold job_columns; set_solver).
Qed.

(** ** The columns in the file *)
Lemma dec_plain i : 0 <= i -> dec i = dec_u i.
Proof. intros Hi. unfold dec. by rewrite (proj2 (Z.ltb_ge _ _)). Qed.
Lemma dec_four i : 0 <= i < 10000 -> (length (dec i) <= 4)%nat.
Proof. intros Hi. rewrite dec_plain by lia. apply (dec_digits_short 3); simpl; lia. Qed.
Lemma dec_index_long i : 10000 <= i -> (4 < length (dec i))%nat.
Proof. intros Hi. rewrite dec_plain by lia. apply dec_digits_long; simpl; lia. Qed.
Lemma column_name_fits c i : 0 <= i < 10000 ->
  column_name c i = Ret (dotted_oid (jobProcessMasterTable_oid ++ [1; c; i])).
Proof.
  intros Hi. pose proof (dec_four i Hi). unfold column_name.
  pose proof (dec_plain i ltac:(lia)) as Hd.
  assert (fit 5 (dec i) = Ret (dec i)) as -> by (unfold fit; by rewrite bool_decide_eq_true_2 by lia).
  rewrite outcome_bind_ret.
  pose proof (name_fits (MkSet c i 0 0 [] None)) as Hn. unfold vb_name in Hn. cbn [colnum tindex] in Hn.
  assert (dotted_oid jobProcessMasterTable_oid ++ dotted_oid [1; c] ++ [46] ++ dec i =
          dotted_oid (jobProcessMasterTable_oid ++ [1; c; i])) as ->; [|done].
  rewrite dotted_oid_app. f_equal. change [1; c; i] with ([1; c] ++ [i]). rewrite dotted_oid_app. f_equal.
  rewrite Hd. unfold dotted_oid. cbn [flat_map]. by rewrite app_nil_r.
Qed.

Lemma string_arg_fits lw i r c x : string_col c r = Some x -> column_ok c x -> job_row r ->
  c ∈ job_columns -> is_string c = true ->
  exists a, string_arg (dotted_oid (jobProcessMasterTable_oid ++ [1; c; i])) x = Ret a /\
    entry_of (from_row lw i r c) a.
Proof.
  intros Hx [Hb Hl] Hr Hc Hs. destruct (job_row_string r c Hr Hc Hs) as (y & Hy & Hg & Ho & _).
  rewrite Hx in Hy. injection Hy as <-. unfold string_arg.
  assert (col_size c <= 255) as Hsz by (unfold col_size; by destruct (_ || _)).
  assert (Hlen : length (octets x) = Z.to_nat (len x)) by (unfold octets; rewrite length_take; lia).
  rewrite copy_in_fits; [|unfold blank, JM_MAX_VAR_LEN; cbn [bytes]; rewrite length_replicate; lia|lia].
  rewrite outcome_bind_ret. eexists. split; [done|]. unfold entry_of. rewrite from_row_col, Hs.
  unfold vb_name. rewrite from_row_col, from_row_index. split; [done|]. split; [done|].
  cbn [pcValue bytes blank]. fold (octets x). rewrite drop_replicate.
  unfold from_row. rewrite Hg. cbn [vb_string]. unfold JM_MAX_VAR_LEN.
  replace (255 - Z.to_nat (len x))%nat with (S (254 - Z.to_nat (len x))) by lia. apply get_str_padded.
Qed.
Lemma long_arg_fits lw i r c x : jobProcessMasterTable_get_value c r = Some (Long x) -> is_string c = false ->
  exists a, long_arg (dotted_oid (jobProcessMasterTable_oid ++ [1; c; i])) x = Ret a /\
    entry_of (from_row lw i r c) a.
Proof.
  intros Hx Hs. unfold long_arg. rewrite long_text, outcome_bind_ret. eexists. split; [done|].
  unfold entry_of. rewrite from_row_col, Hs. unfold vb_name. rewrite from_row_col, from_row_index.
  split; [done|]. split; [done|]. cbn [pcValue]. unfold from_row. rewrite Hx. cbn [vb_integer default].
  apply long_text_read.
Qed.

Lemma find_in_file lw i rows : lw = 32 \/ lw = 64 -> 0 <= i < 2 ^ 15 -> Forall row_ok rows ->
  find (fun r => jobProcessMasterIndex r =? I16 i mod 2 ^ lw) rows = find_row i rows.
Proof.
  intros Hlw Hi Hr. rewrite I16_id by lia.
  rewrite Z.mod_small by (assert (2 ^ 32 <= 2 ^ lw) by (apply Z.pow_le_mono_r; lia); lia).
  unfold find_row. induction Hr as [|r rows (Hidx & _ & _) _ IH]; [done|]. cbn [find].
  by rewrite <- Hidx, IH.
Qed.

Lemma search_fits lw i r t rows : lw = 32 \/ lw = 64 -> 0 <= i < 10000 -> conf t = Some rows ->
  Forall row_ok rows -> find_row i rows = Some r -> job_row r -> jobProcessMasterStatus r = RS_ACTIVE ->
  exists args, jobProcessMasterTable_Search_Index_From_File lw (I16 i) t = Ret (Some args) /\
    Forall2 entry_of (from_row lw i r <$> job_columns) args.
Proof.
  intros Hlw Hi Hconf Hrows Hfind Hr Hst. unfold jobProcessMasterTable_Search_Index_From_File.
  rewrite Hconf, find_in_file, Hfind by (done || lia). rewrite I16_id by lia.
  rewrite !column_name_fits, !outcome_bind_ret by done.
  assert (row_ok r) as (_ & _ & Hcols).
  { apply find_row_Some in Hfind as [Hin _]. rewrite Forall_forall in Hrows. by apply Hrows. }
  assert (Hs : forall c x, c ∈ job_columns -> string_col c r = Some x ->
    len x <> 0 /\ exists a, string_arg (dotted_oid (jobProcessMasterTable_oid ++ [1; c; i])) x = Ret a /\
      entry_of (from_row lw i r c) a).
  { intros c x Hc Hx. assert (is_string c = true) as Hstr by (apply (string_col_is c r); by eexists).
    split; [|by apply string_arg_fits; [|apply Hcols| | |]].
    destruct (job_row_string r c Hr Hc Hstr) as (y & Hy & _ & Hl & _). rewrite Hx in Hy. injection Hy as <-.
    intros Hz. unfold octets in Hl. rewrite Hz in Hl. simpl in Hl. lia. }
  destruct (Hs COLUMN_ID _ ltac:(unfold job_columns; set_solver) eq_refl) as (H0 & a0 & E0 & F0).
  destruct (Hs COLUMN_STARTTIME _ ltac:(unfold job_columns; set_solver) eq_refl) as (H1 & a1 & E1 & F1).
  destruct (Hs COLUMN_FINISHTIME _ ltac:(unfold job_columns; set_solver) eq_refl) as (H2 & a2 & E2 & F2).
  destruct (long_arg_fits lw i r COLUMN_PERIODICINTERVAL (jobProcessMasterPeriodicInterval r) eq_refl eq_refl)
    as (a3 & E3 & F3).
  rewrite (proj2 (Z.eqb_neq _ _) H0), E0, outcome_bind_ret, (proj2 (Z.eqb_neq _ _) H1), E1, outcome_bind_ret,
    (proj2 (Z.eqb_neq _ _) H2), E2, outcome_bind_ret, E3, outcome_bind_ret, Hst.
  exists [a0; a1; a2; a3]. split; [done|].
  do 4 (apply Forall2_cons_2; [done|]). apply Forall2_nil_2.
Qed.

(** The name of a column of a row from 10000 on does not fit. *)
Lemma search_overflows lw i r t rows : lw = 32 \/ lw = 64 -> 10000 <= i < 2 ^ 15 -> conf t = Some rows ->
  Forall row_ok rows -> find_row i rows = Some r ->
  jobProcessMasterTable_Search_Index_From_File lw (I16 i) t = Crash.
Proof.
  intros Hlw Hi Hconf Hrows Hfind. unfold jobProcessMasterTable_Search_Index_From_File.
  rewrite Hconf, find_in_file, Hfind by (done || lia). rewrite I16_id by lia.
  assert (forall c, column_name c i = Crash) as Hn; [|by rewrite (Hn COLUMN_ID)].
  intros c. unfold column_name. pose proof (dec_index_long i ltac:(lia)).
  assert (fit 5 (dec i) = Crash) as -> by (unfold fit; by rewrite bool_decide_eq_false_2 by lia). done.
Qed.

(** ** The columns that the request does not name *)
Definition missing (reqs : list setvar) (lw i : Z) (r : row) : list setvar :=
  from_row lw i r <$> filter (fun c => c ∉ colnum <$> reqs) job_columns.

Section Missing.
Context `{!TableLib} {Hlaws : TrapLaws}.
Variables (lw i : Z).
Hypothesis Hlw : lw = 32 \/ lw = 64.
Hypothesis Hi : 0 <= i < 10000.

(** Names are equal for equal columns only, for the parser tells them apart. *)
Lemma name_column v w : 0 <= colnum v < 2 ^ 32 -> 0 <= colnum w < 2 ^ 32 -> tindex v = i -> tindex w = i ->
  dotted_oid (vb_name v) = dotted_oid (vb_name w) -> colnum v = colnum w.
Proof using Hlaws Hi.
  intros Hv Hw Htv Htw E.
  assert (forall u, 0 <= colnum u < 2 ^ 32 -> tindex u = i ->
    snmp_parse_oid (dotted_oid (vb_name u)) 15 = Some (vb_name u)) as Hp.
  { intros u Hu Ht. apply parse_dotted; unfold vb_name, jobProcessMasterTable_oid; cbn [app length]; [|lia].
    rewrite Ht. repeat constructor; lia. }
  pose proof (Hp v Hv Htv) as Ev. rewrite E, (Hp w Hw Htw) in Ev. injection Ev as ->. done.
Qed.

Lemma job_columns_range c : c ∈ job_columns -> 0 <= c < 2 ^ 32.
Proof. unfold job_columns. rewrite !elem_of_cons, elem_of_nil. unfold COLUMN_ID, COLUMN_STARTTIME, COLUMN_FINISHTIME, COLUMN_PERIODICINTERVAL. lia. Qed.

(** The text of an entry is copied to a new one. *)
Lemma entry_again v a : entry_of v a -> fits lw i v ->
  exists s b, get_str (pcValue a) 0 = Ret s /\ poke (replicate JM_MAX_VAR_LEN 0) 0 s = Ret b /\
    entry_of v (MkArg (acVariable a) (cType a) b).
Proof.
  intros [Hn Ha] [_ Hf]. unfold entry_of. cbn [acVariable cType pcValue].
  assert (Hcopy : forall s, nonzero s -> (length s < 255)%nat -> exists b,
    poke (replicate JM_MAX_VAR_LEN 0) 0 s = Ret b /\ get_str b 0 = Ret s).
  { intros s Hs Hl. rewrite poke_ok by (rewrite length_replicate; unfold JM_MAX_VAR_LEN; lia).
    eexists. split; [done|]. rewrite take_0, drop_replicate, app_nil_l. unfold JM_MAX_VAR_LEN.
    replace (255 - (0 + length s))%nat with (S (254 - length s)) by lia.
    by rewrite get_str_padded, cut_same. }
  destruct (is_string (colnum v)) eqn:Es.
  - destruct Ha as [Ht Hg]. destruct Hf as [[_ (_ & Hl & Hb & _)]|[Hc _]]; [|by rewrite (long_not_string _ Hc) in Es].
    assert (col_size (colnum v) <= 255) by (unfold col_size; by destruct (_ || _)).
    pose proof (cut_length (vb_string v)).
    destruct (Hcopy (cut (vb_string v)) (cut_nonzero _)) as (b & Hp & Hb'); [lia|].
    by exists (cut (vb_string v)), b.
  - destruct Ha as [Ht Hg]. set (x := default 0 (vb_integer v)) in *. pose proof (dec_length x).
    destruct (Hcopy (dec x) (dec_nonzero _)) as (b & Hp & Hb); [lia|]. by exists (dec x), b.
Qed.

(** The columns of a request. *)
Variable reqs : list setvar.
Definition unnamed (w : setvar) : Prop := colnum w ∉ colnum <$> reqs.
#[local] Instance unnamed_dec w : Decision (unnamed w) := _.

Lemma add_missing_fits named ws extra args :
  (forall w, w ∈ ws -> dotted_oid (vb_name w) ∈ named <-> colnum w ∈ colnum <$> reqs) ->
  Forall (fits lw i) ws -> Forall2 entry_of ws extra ->
  (length args + length (filter unnamed ws) <= JM_NO_OF_FIELDS)%nat ->
  exists new, add_missing named extra args = Ret (args ++ new) /\ Forall2 entry_of (filter unnamed ws) new.
Proof using Type.
  intros Hn Hf Ha. revert args. induction Ha as [|w a ws extra Hwa Ha IH]; intros args Hl; cbn [add_missing].
  { exists []. rewrite app_nil_r. split; [done|]. apply Forall2_nil_2. }
  apply Forall_cons in Hf as [Hw Hf].
  assert (Hn' : forall v, v ∈ ws -> dotted_oid (vb_name v) ∈ named <-> colnum v ∈ colnum <$> reqs)
    by (intros v Hv; apply Hn; by right).
  destruct (Hwa) as [Hname _]. rewrite Hname. rewrite filter_cons in *.
  destruct (decide (unnamed w)) as [Hu|Hu].
  - rewrite bool_decide_eq_false_2 by (intros Hin; apply Hu, Hn; [by left|done]).
    destruct (entry_again w a Hwa Hw) as (s & b & -> & Hb & Hnew). rewrite outcome_bind_ret, Hb, outcome_bind_ret.
    unfold push_arg. cbn [length] in Hl. rewrite bool_decide_eq_true_2, outcome_bind_ret by lia.
    destruct (IH Hn' Hf (args ++ [MkArg (dotted_oid (vb_name w)) (cType a) b])) as (new & -> & Hall).
    { rewrite length_app. cbn [length]. lia. }
    exists (MkArg (dotted_oid (vb_name w)) (cType a) b :: new). rewrite <- app_assoc. split; [done|].
    apply Forall2_cons_2; [by rewrite Hname in Hnew|done].
  - rewrite bool_decide_eq_true_2, outcome_bind_ret.
    + by apply IH.
    + apply Hn; [by left|]. by apply dec_stable.
Qed.

Lemma missing_filter r : missing reqs lw i r = filter unnamed (from_row lw i r <$> job_columns).
Proof.
  unfold missing. induction job_columns as [|c cs IH]; [done|]. rewrite fmap_cons, !filter_cons.
  pose proof (from_row_col lw i r c) as Hc.
  do 2 case_decide; unfold unnamed in *; rewrite Hc in *; try done; by rewrite ?fmap_cons, IH.
Qed.
Lemma named_spec args vs w : Forall2 entry_of vs args -> vs ≡ₚ reqs -> Forall (fits lw i) reqs ->
  0 <= colnum w < 2 ^ 32 -> tindex w = i ->
  dotted_oid (vb_name w) ∈ (acVariable <$> args) <-> colnum w ∈ colnum <$> reqs.
Proof using Hlaws Hi.
  intros Ha Hp Hf Hw Htw. rewrite <- Hp.
  assert (acVariable <$> args = (fun v => dotted_oid (vb_name v)) <$> vs) as ->.
  { clear -Ha. induction Ha as [|v a vs args [Hn _] _ IH]; [done|]. rewrite !fmap_cons. by rewrite Hn, IH. }
  rewrite !list_elem_of_fmap. split; intros (v & E & Hv); exists v; (split; [|done]).
  - assert (fits lw i v) as [Htv Hfv] by (rewrite Hp in Hv; rewrite Forall_forall in Hf; by apply Hf).
    apply name_column; [done| |done..]. pose proof (fits_column lw v i (conj Htv Hfv)) as Hc.
    apply elem_of_seqZ in Hc. lia.
  - assert (fits lw i v) as [Htv _] by (rewrite Hp in Hv; rewrite Forall_forall in Hf; by apply Hf).
    unfold vb_name. by rewrite E, Htw, Htv.
Qed.

(** ** The request with the missing columns *)
Lemma all_columns r : Forall (fits lw i) reqs -> NoDup (colnum <$> reqs) -> job_row r ->
  Forall (fits lw i) (reverse reqs ++ missing reqs lw i r) /\
  NoDup (colnum <$> reverse reqs ++ missing reqs lw i r).
Proof using Type.
  intros Hf Hnd Hr. split.
  - apply Forall_app. split; [by apply Forall_reverse|]. unfold missing. apply Forall_fmap, Forall_forall.
    intros c [_ Hc]%list_elem_of_filter. by apply from_row_fits.
  - unfold missing. rewrite fmap_app, from_row_cols, fmap_reverse. apply NoDup_app. split_and!.
    + by rewrite reverse_Permutation.
    + intros c Hc. rewrite elem_of_reverse in Hc. by intros [? _]%list_elem_of_filter.
    + apply NoDup_filter. unfold job_columns. by apply (bool_decide_unpack _).
Qed.
End Missing.

(** The row after the action phase. *)
Lemma action_values `{!TableLib} lw i reqs r d r1 : Forall (fits lw i) reqs ->
  COLUMN_STATUS ∉ colnum <$> reqs -> row_ok r -> jobProcessMasterStatus r = RS_ACTIVE -> job_row r ->
  has_values (reverse reqs) (with_string COLUMN_LASTUPDATED d r) r1 ->
  jobProcessMasterStatus r1 = RS_ACTIVE /\ job_row r1 /\
  (forall v, v ∈ reqs -> jobProcessMasterTable_get_value (colnum v) r1 = Some (value_of v)) /\
  (forall c, c ∉ colnum <$> reqs -> c <> COLUMN_LASTUPDATED ->
     jobProcessMasterTable_get_value c r1 = jobProcessMasterTable_get_value c r).
Proof.
  intros Hf Hstat Hr Hact Hj Hv.
  assert (Hother : forall c, c ∉ colnum <$> reqs -> c <> COLUMN_LASTUPDATED ->
     jobProcessMasterTable_get_value c r1 = jobProcessMasterTable_get_value c r).
  { intros c Hc Hcl. rewrite (hv_other _ _ _ Hv) by (by rewrite fmap_reverse, elem_of_reverse).
    rewrite get_value_with_string by (by eexists). by rewrite (proj2 (Z.eqb_neq _ _)). }
  split_and!; [| |intros v Hvin; by apply (hv_value _ _ _ Hv), elem_of_reverse|done].
  - specialize (Hother COLUMN_STATUS Hstat ltac:(done)). rewrite !get_value_status in Hother. congruence.
  - eapply (has_values_job lw i); [by apply Forall_reverse| |exact Hv].
    apply (same_values_job r); [done|]. intros c Hc. rewrite get_value_with_string by (by eexists).
    rewrite (proj2 (Z.eqb_neq _ _)); [done|]. intros ->. revert Hc. by apply (bool_decide_unpack _).
Qed.

(** Up to the commit of a SET without a status on an active row. *)
Record changed (i : Z) (lw : Z) (reqs : list setvar) (r r' : row) : Prop := {
  cd_ok : row_ok r'; cd_index : index r' = i; cd_job : job_row r'; cd_active : jobProcessMasterStatus r' = RS_ACTIVE;
  cd_ends : date_ends r';
  cd_date : COLUMN_CREATEDDATE ∈ colnum <$> reqs -> hd 0 (bytes (jobProcessMasterCreatedDate r')) <> 0;
  cd_values v : v ∈ reqs -> jobProcessMasterTable_get_value (colnum v) r' = Some (value_of v);
  cd_others c : c ∉ colnum <$> reqs -> c <> COLUMN_LASTUPDATED ->
    jobProcessMasterTable_get_value c r' = jobProcessMasterTable_get_value c r
}.
Lemma reach_change `{!TableLib} lw e i reqs t r : date_good (date_action e) -> mem e i = true -> reqs <> [] ->
  Forall (fits lw i) reqs -> NoDup (colnum <$> reqs) -> COLUMN_STATUS ∉ colnum <$> reqs ->
  table_ok (container t) -> date_ends r -> find_row i (container t) = Some r ->
  jobProcessMasterStatus r = RS_ACTIVE -> job_row r ->
  exists r' u p, changed i lw reqs r r' /\
    let g := MkGroup i (items reqs) r' false false u p in
    handle_set lw e reqs t =
      (x ← commit_groups lw e [g] (sync g t, zeros reqs); mret ('(t, st) ← x; Some (first_error st, t))).
Proof.
  intros Hda Hm Hne Hf Hnd Hstat Ht He Hfind Hact Hj.
  pose proof (find_row_Some _ _ _ Hfind) as [Hin Hri].
  assert (row_ok r) as Hr by (destruct Ht as [_ Hl]; rewrite Forall_forall in Hl; by apply Hl).
  destruct (reach_commit lw e t i reqs r false Hda) as (d & r1 & Hr1 & Hv1 & Hreach); [done..| |].
  { intros v Hv Hc. exfalso. apply Hstat. rewrite <- Hc. by apply list_elem_of_fmap_2. }
  destruct (action_values lw i reqs r d r1 Hf Hstat Hr Hact Hj Hv1) as (Hact1 & Hj1 & Hreq1 & Hoth1).
  destruct (Hreach RS_ACTIVE false) as (u & p & Hset); [by rewrite Hact1|by apply job_row_complete|].
  clear Hreach. set (r' := with_long COLUMN_STATUS RS_ACTIVE r1) in *.
  assert (Hr1' : forall c, jobProcessMasterTable_get_value c r' = jobProcessMasterTable_get_value c r1).
  { intros c. unfold r'. rewrite get_value_with_long by (by eexists).
    destruct (Z.eqb_spec c COLUMN_STATUS) as [->|]; [|done]. by rewrite get_value_status, Hact1. }
  destruct (date_ends_values lw i reqs (with_string COLUMN_LASTUPDATED d r) r1 (created_size _ Hr) Hf He Hv1)
    as [Hends Hhead].
  exists r', u, p. split; [|exact Hset]. split.
  - by apply row_ok_with_long.
  - rewrite <- Hri. by apply (hv_index _ _ _ Hv1).
  - by apply (same_values_job r1).
  - done.
  - exact Hends.
  - exact Hhead.
  - intros v Hv. rewrite Hr1'. by apply Hreq1.
  - intros c Hc Hcl. rewrite Hr1'. by apply Hoth1.
Qed.

(** What the row shows after the commit. *)
Lemma changed_shows `{!TableLib} i lw reqs r r' r2 : changed i lw reqs r r' ->
  (forall c, c <> COLUMN_CREATEDDATE \/ hd 0 (bytes (jobProcessMasterCreatedDate r')) <> 0 ->
     jobProcessMasterTable_get_value c r2 = jobProcessMasterTable_get_value c r') ->
  jobProcessMasterStatus (with_idx i r2) = RS_ACTIVE /\
  (forall v, v ∈ reqs -> jobProcessMasterTable_get_value (colnum v) (with_idx i r2) = Some (value_of v)) /\
  (forall c, c ∉ colnum <$> reqs -> c <> COLUMN_LASTUPDATED -> c <> COLUMN_CREATEDDATE ->
     jobProcessMasterTable_get_value c (with_idx i r2) = jobProcessMasterTable_get_value c r).
Proof.
  intros [_ _ _ Hact _ Hhead Hval Hoth] Hv2. split_and!.
  - specialize (Hv2 COLUMN_STATUS ltac:(by left)). rewrite !get_value_status in Hv2.
    change (jobProcessMasterStatus r2 = RS_ACTIVE). congruence.
  - intros v Hv. rewrite with_idx_equiv, Hv2; [by apply Hval|].
    destruct (decide (colnum v = COLUMN_CREATEDDATE)) as [E|]; [right|by left].
    apply Hhead. rewrite <- E. by apply list_elem_of_fmap_2.
  - intros c Hc Hcl Hcc. rewrite with_idx_equiv, Hv2 by (by left). by apply Hoth.
Qed.

(** ** The whole request *)
Section Change.
Context `{TaskScheduler} `{Allocator} `{!TableLib} {Hlaws : TrapLaws}.
Variables (tz perform lw : Z) (e : env) (i : Z) (reqs : list setvar).
Hypothesis Hlw : lw = 32 \/ lw = 64.
Hypothesis Hi : 0 <= i < 10000.
Hypothesis Hplain : plain lw i reqs.
Hypothesis Hne : reqs <> [].
Hypothesis Hstat : COLUMN_STATUS ∉ colnum <$> reqs.

Lemma change_trap g t r rows : session_opens e = true -> g_list g = items reqs ->
  conf t = Some rows -> Forall row_ok rows -> find_row i rows = Some r -> job_row r ->
  jobProcessMasterStatus r = RS_ACTIVE ->
  exists xs, commit_trap lw e g t = Ret (Some (log_event (TrapSent (send_succeeds e) xs) t)) /\
    Forall2 conveys (reverse reqs ++ missing reqs lw i r) xs.
Proof using Hlaws Hlw Hi Hplain Hne Hstat.
  intros Ho Hg Hconf Hrows Hfind Hr Hact.
  destruct (filled lw Hlw i reqs g) as (args & k & Hfill & Ha & Hc & Hk); [lia|done..|].
  destruct (search_fits lw i r t rows Hlw Hi Hconf Hrows Hfind Hr Hact) as (extra & Hsearch & Hextra).
  pose proof Hplain as [Hf Hnd _]. destruct (all_columns lw i reqs r Hf Hnd Hr) as [Hallf Halln].
  pose proof (few_columns _ _ _ Hallf Halln) as Hfew. rewrite length_app, length_reverse in Hfew.
  pose proof (Forall2_length _ _ _ Ha) as Hlen. rewrite length_reverse in Hlen.
  rewrite missing_filter in *.
  destruct (add_missing_fits lw i reqs (acVariable <$> args) (from_row lw i r <$> job_columns) extra args)
    as (new & Hadd & Hnew).
  - intros w (c & -> & Hcw)%list_elem_of_fmap. apply (named_spec lw i Hi reqs args (reverse reqs)); try done.
    + apply reverse_Permutation.
    + rewrite from_row_col. by apply job_columns_range.
    + apply from_row_index.
  - apply Forall_fmap, Forall_forall. intros c Hcc. by apply from_row_fits.
  - done.
  - unfold JM_NO_OF_FIELDS. lia.
  - destruct (send_fits lw e i _ (args ++ new) t Ho ltac:(lia) Hallf) as (xs & Hsend & Hxs).
    { by apply Forall2_app. }
    exists xs. split; [|done]. unfold commit_trap. rewrite Hfill, outcome_bind_ret, Hc.
    assert (sRowStatus k = 0) as ->.
    { subst k. rewrite counted_no_status; [done|]. by rewrite fmap_reverse, elem_of_reverse. }
    change (0 =? JM_ROW_CREATE) with false. change (0 =? JM_ROW_DELETE) with false. cbv iota.
    assert (iIndex k = I16 i) as ->.
    { subst k. apply counted_index. intros E. apply (f_equal length) in E. rewrite length_reverse in E. by destruct reqs. }
    rewrite Hsearch, outcome_bind_ret, Hadd, outcome_bind_ret. done.
Qed.

Lemma change_asks r xs : job_row r -> Forall2 conveys (reverse reqs ++ missing reqs lw i r) xs ->
  asks tz perform i (reqs ++ missing reqs lw i r) JS_MODIFY xs.
Proof using Hplain Hne Hstat.
  intros Hr Hxs. pose proof Hplain as [Hf Hnd _]. destruct (all_columns lw i reqs r Hf Hnd Hr) as [Hallf Halln].
  assert (long_for COLUMN_STATUS (reqs ++ missing reqs lw i r) = None) as Hlong.
  { unfold long_for. rewrite request_for_None; [done|]. rewrite fmap_app, not_elem_of_app. split; [done|].
    unfold missing. rewrite from_row_cols, list_elem_of_filter. intros [_ Hin]. revert Hin.
    by apply (bool_decide_unpack _). }
  change JS_MODIFY with (requested None). rewrite <- Hlong.
  apply (conveyed_asks tz perform lw i (reverse reqs ++ missing reqs lw i r)); try done.
  - intros E. apply (f_equal length) in E. rewrite length_app, length_reverse in E. by destruct reqs.
  - by rewrite reverse_Permutation.
Qed.

Lemma replaced_ok r2 l : row_ok r2 -> Forall row_ok l ->
  Forall row_ok (map (fun x => with_idx (index x) x) (map (fun x => if index x =? i then r2 else x) l)).
Proof using Type.
  intros Hr Hl. apply Forall_map, Forall_map. eapply Forall_impl; [exact Hl|].
  intros x Hx. by destruct (index x =? i).
Qed.

Lemma change_commit g t x room : works e i room -> g_index g = i -> g_list g = items reqs ->
  change_container e g t = (true, t) -> row_ok (existing_row g) -> index (existing_row g) = i ->
  date_ends (existing_row g) -> job_row (existing_row g) -> jobProcessMasterStatus (existing_row g) = RS_ACTIVE ->
  (length (container t) <= room)%nat -> Forall row_ok (container t) -> find_row i (container t) = Some x ->
  exists r2 t2 xs, index r2 = i /\
    (forall c, c <> COLUMN_CREATEDDATE \/ hd 0 (bytes (jobProcessMasterCreatedDate (existing_row g))) <> 0 ->
       jobProcessMasterTable_get_value c r2 = jobProcessMasterTable_get_value c (existing_row g)) /\
    container t2 = map (fun x => with_idx (index x) x) (map (fun x => if index x =? i then r2 else x) (container t)) /\
    saved t2 /\ jt_log t2 = jt_log t ++ [TrapSent (send_succeeds e) xs] /\
    asks tz perform i (reqs ++ missing reqs lw i (with_idx i r2)) JS_MODIFY xs /\
    (r ← commit_groups lw e [g] (t, zeros reqs); mret ('(t, st) ← r; Some (first_error st, t))) =
      Ret (Some (0, t2)).
Proof using Hlaws Hlw Hi Hplain Hne Hstat.
  intros Hw Hgi Hg Hch Hr Hri He Hj Hact Hroom Hrows Hx.
  destruct (commit_single lw e g t t reqs room
    (fun r2 xs => asks tz perform i (reqs ++ missing reqs lw i (with_idx i r2)) JS_MODIFY xs))
    as (r2 & t2 & xs & _ & Hi2 & Hv2 & Hc2 & Hsv & Hlog & Hxs & Hcom); try done.
  - by rewrite Hgi.
  - by rewrite Hgi.
  - intros r2 t2 Hr2 Hv2 Hi2 [Hconf _] Hc2. rewrite Hgi in *.
    assert (Hj2 : job_row (with_idx i r2)).
    { apply (same_values_job (existing_row g)); [done|]. intros c Hc. rewrite with_idx_equiv. apply Hv2. left.
      intros ->. revert Hc. by apply (bool_decide_unpack _). }
    destruct (change_trap (with_row r2 (row_deleted g) g) t2 (with_idx i r2) (container t2)) as (xs & Hxs & Hcv).
    + apply (wk_session _ _ _ Hw).
    + done.
    + done.
    + rewrite Hc2. by apply replaced_ok.
    + destruct (rows_after i r2 (container t) t2 Hi2 Hc2) as (_ & Hrow & _). by apply (Hrow x).
    + done.
    + specialize (Hv2 COLUMN_STATUS ltac:(by left)). rewrite !get_value_status in Hv2.
      change (jobProcessMasterStatus r2 = RS_ACTIVE). congruence.
    + exists xs. split; [done|]. by apply change_asks.
  - rewrite Hgi in *. by exists r2, t2, xs.
Qed.

(** C12: a job that is changed over SNMP is changed in the scheduler.  A SET on an
    active row below 10000, without a status and without a usage of processor or
    memory (which stops the trap, usage_set_is_silent), whatever other columns it
    names, leaves an active row with the new values and the old ones elsewhere (the
    dates of change and creation apart), the other rows alone and the table saved;
    the trap makes the job scheduler ask to modify the job, with the values of the
    request and, for the columns a job needs that it does not name, those of the
    row.  Assumed: each column is named once, with a value that fits it (a text is
    not empty, does not start with a zero octet and is shorter than its buffer, an
    integer has 32 bits), and so do the columns of the row that a job needs; the
    date of creation ends with a zero; memory in both processes, a clock that gives
    a date, room on the disk, a session that opens, and a library that reads
    identifiers and values as they are written. *)
Theorem changed_job_reaches_scheduler t r room :
  works e i room -> table_ok (container t) -> date_ends r -> (length (container t) <= room)%nat ->
  find_row i (container t) = Some r -> jobProcessMasterStatus r = RS_ACTIVE -> job_row r ->
  exists t' r' xs, handle_set lw e reqs t = Ret (Some (0, t')) /\
    find_row i (container t') = Some r' /\ jobProcessMasterStatus r' = RS_ACTIVE /\
    (forall v, v ∈ reqs -> jobProcessMasterTable_get_value (colnum v) r' = Some (value_of v)) /\
    (forall c, c ∉ colnum <$> reqs -> c <> COLUMN_LASTUPDATED -> c <> COLUMN_CREATEDDATE ->
       jobProcessMasterTable_get_value c r' = jobProcessMasterTable_get_value c r) /\
    (forall c j, j <> i -> get_request c j t' = get_request c j t) /\ saved t' /\
    jt_log t' = jt_log t ++ [TrapSent (send_succeeds e) xs] /\
    asks tz perform i (reqs ++ missing reqs lw i r') JS_MODIFY xs.
Proof using Hlaws Hlw Hi Hplain Hne Hstat.
  intros Hw Ht He Hroom Hfind Hact Hj. pose proof Hplain as [Hf Hnd _]. pose proof Hw as [Hm Hda _ _ Ho].
  destruct (reach_change lw e i reqs t r) as (r' & u & p & Hch & Hset); [done..|].
  pose proof Hch as [Hok Hri' Hjob Hact' Hends _ _ _].
  set (g := MkGroup i (items reqs) r' false false u p) in *.
  destruct (sync_ok g t Hri' Hok Ht) as [_ Hrows].
  destruct (change_commit g (sync g t) r' room) as (r2 & t2 & xs & Hi2 & Hv2 & Hc2 & Hsv & Hlog & Hxs & Hcom); try done.
  - by rewrite sync_length.
  - by apply (find_row_sync_same g t r).
  - destruct (rows_after i r2 _ t2 Hi2 Hc2) as (Hoth & Hrow & _). cbn [g existing_row] in Hv2.
    specialize (Hrow r' (find_row_sync_same g t r Hri' Hfind)).
    destruct (changed_shows i lw reqs r r' r2 Hch Hv2) as (S1 & S2 & S3).
    exists t2, (with_idx i r2), xs. split_and!; try done; [by rewrite Hset|].
    intros c j Hjj. rewrite Hoth by done. unfold get_request. by rewrite (find_row_sync g).
Qed.
End Change.

(** ** Usage *)
Section Usage.
Context `{!TableLib} {Hlaws : TrapLaws}.
Variables (lw : Z) (e : env) (i : Z) (reqs : list setvar).
Hypothesis Hlw : lw = 32 \/ lw = 64.
Hypothesis Hi : 0 <= i < 2 ^ 31.
Hypothesis Hfits : Forall (fits lw i) reqs.
Hypothesis Hdistinct : NoDup (colnum <$> reqs).
Hypothesis Hstat : COLUMN_STATUS ∉ colnum <$> reqs.
Hypothesis Husage : exists v, v ∈ reqs /\ usage (colnum v) = true.

Lemma usage_sends_nothing g t : g_list g = items reqs -> commit_trap lw e g t = Ret (Some t).
Proof using Hlw Hi Hfits Hdistinct Husage.
  intros Hg. unfold commit_trap. rewrite Hg.
  destruct (fill_args_fits lw Hlw i (items reqs) [] (MkCounters 0 false 0 0)) as (args & -> & _); [done| | |].
  - rewrite items_values. by apply Forall_reverse.
  - rewrite items_length. cbn [length]. pose proof (few_columns _ _ _ Hfits Hdistinct). unfold JM_NO_OF_FIELDS. lia.
  - rewrite outcome_bind_ret, counted_usage, items_values. destruct Husage as (v & Hv & Hvu).
    replace (existsb _ _) with true; [done|]. symmetry. apply existsb_exists. exists v.
    split; [|done]. by apply list_elem_of_In, elem_of_reverse.
Qed.

(** C0: the usage of a job is recorded and nobody is told.  A SET of the usage of
    processor or memory, with whatever other columns but the status, on an active row
    leaves an active row with the new values and the old ones elsewhere (the dates of
    change and creation apart), the other rows alone and the table saved; no trap is
    sent, so that the job scheduler, which sets the usage of a job that has run, is
    not asked to modify the job. *)
Theorem usage_set_is_silent t r room :
  works e i room -> table_ok (container t) -> date_ends r -> (length (container t) <= room)%nat ->
  find_row i (container t) = Some r -> jobProcessMasterStatus r = RS_ACTIVE -> job_row r ->
  exists t' r', handle_set lw e reqs t = Ret (Some (0, t')) /\
    find_row i (container t') = Some r' /\ jobProcessMasterStatus r' = RS_ACTIVE /\
    (forall v, v ∈ reqs -> jobProcessMasterTable_get_value (colnum v) r' = Some (value_of v)) /\
    (forall c, c ∉ colnum <$> reqs -> c <> COLUMN_LASTUPDATED -> c <> COLUMN_CREATEDDATE ->
       jobProcessMasterTable_get_value c r' = jobProcessMasterTable_get_value c r) /\
    (forall c j, j <> i -> get_request c j t' = get_request c j t) /\ saved t' /\
    jt_log t' = jt_log t.
Proof using Hlaws Hlw Hi Hfits Hdistinct Hstat Husage.
  intros Hw Ht He Hroom Hfind Hact Hj. pose proof Hw as [Hm Hda _ _ _].
  assert (reqs <> []) as Hne by (destruct Husage as (v & Hv & _); intros ->; by apply elem_of_nil in Hv).
  destruct (reach_change lw e i reqs t r) as (r' & u & p & Hch & Hset); [done..|].
  pose proof Hch as [Hok Hri' _ _ Hends _ _ _].
  set (g := MkGroup i (items reqs) r' false false u p) in *.
  destruct (commit_one lw e g (sync g t) (sync g t) reqs room (fun _ evs => evs = []))
    as (r2 & t2 & evs & _ & Hi2 & Hv2 & Hc2 & Hsv & Hlog & -> & Hcom); try done.
  - by rewrite sync_length.
  - intros r2 t2 _ _ _ _ _. exists []. split; [|done]. by apply usage_sends_nothing.
  - destruct (rows_after i r2 _ t2 Hi2 Hc2) as (Hoth & Hrow & _). cbn [g existing_row] in Hv2.
    specialize (Hrow r' (find_row_sync_same g t r Hri' Hfind)).
    destruct (changed_shows i lw reqs r r' r2 Hch Hv2) as (S1 & S2 & S3).
    exists t2, (with_idx i r2). split_and!; try done; [by rewrite Hset| |by rewrite Hlog, app_nil_r].
    intros c j Hjj. rewrite Hoth by done. unfold get_request. by rewrite (find_row_sync g).
Qed.
End Usage.

(** ** Values that do not fit *)
Section Overflow.
Context `{!TableLib}.
Variables (lw : Z) (e : env).
Hypothesis Hlw : lw = 32 \/ lw = 64.

Lemma copy_in_long x src n : Z.of_nat (length (bytes x)) < n -> copy_in x src n = Crash.
Proof.
  intros Hl. unfold copy_in. destruct (Z.leb_spec 0 n); [|done].
  by rewrite (proj2 (Z.leb_gt n _)) by lia.
Qed.

Lemma set_action_overflows g p v st : date_good (date_action e) -> row_ok (existing_row g) ->
  g_list g = [(p, v)] -> is_string (colnum v) = true -> col_size (colnum v) < vb_len v ->
  jobProcessMasterTable_set_action e g st = Crash.
Proof using Type.
  intros Hd Hr Hg Hs Hlong. unfold jobProcessMasterTable_set_action.
  destruct (copy_date_fits COLUMN_LASTUPDATED (MkColumn (replicate JM_MAX_DT_LEN 0) (Z.of_nat JM_MAX_DT_LEN))
    (date_action e)) as (d & -> & Hdok); [done|by vm_compute|done|]. rewrite outcome_bind_ret, Hg.
  cbn [copy_values]. unfold copy_value. set (r := with_string COLUMN_LASTUPDATED d (existing_row g)).
  assert (row_ok r) as (_ & _ & Hcols) by by apply row_ok_with_string; [|by eexists|].
  destruct (proj1 (string_col_is _ r) Hs) as [x Hx]. rewrite Hx.
  destruct (Hcols _ _ Hx) as [Hsize _]. by rewrite copy_in_long by lia.
Qed.

(** C40: the check of the length of a text compares it with itself, so a text longer
    than its column passes the first two phases of a SET, for a row that exists or
    for a new one, and overflows the column in the third. *)
Theorem long_text_overflows v t r created :
  mem e (tindex v) = true -> date_good (date_action e) -> row_ok r -> starts t (tindex v) r created ->
  is_string (colnum v) = true -> vtype v = ASN_OCTET_STR -> col_size (colnum v) < vb_len v ->
  handle_set lw e [v] t = Crash.
Proof using Type.
  intros Hm Hd Hr Hst Hs Hty Hlong. unfold handle_set, JobTable.handle_set.
  rewrite (group_requests_one e t (tindex v) [v] r created) by (done || by repeat constructor).
  set (g := MkGroup (tindex v) (items [v]) r created false None O).
  assert (exists u, reserve1_group lw e g (replicate (length [v]) 0) = Ret (with_undo u g, [0])) as [u Hres].
  { assert (jobProcessMasterTable_set_reserve1 lw g [0] = [0]) as H1.
    { unfold jobProcessMasterTable_set_reserve1.
      change (g_list g) with [(O, v)]. cbn [foldl snd fst]. unfold reserve1_rc, check_vb_type_and_size.
      unfold is_string in Hs. rewrite Hs.
      by rewrite Hty, !Z.eqb_refl. }
    unfold reserve1_group. cbn [g row_created]. destruct created; [exists None; change (replicate _ _) with [0]; by rewrite H1|].
    unfold jobProcessMasterTable_duplicate_row. change (g_index g) with (tindex v). change (existing_row g) with r. rewrite Hm.
    destruct (row_copy_ok (jobProcessMasterTable_extract_index 0) r) as [u ->]; [by apply row_ok_new|done|].
    rewrite !outcome_bind_ret. exists (Some u). change (replicate _ _) with [0]. by rewrite H1. }
  cbn [each]. rewrite Hres, !outcome_bind_ret. cbn [failed first_error]. 
  destruct (set_reserve2_fits lw (with_undo u g) [0]) as [q H2]; [done| |].
  { intros w Hw Hc. cbn in Hw. apply list_elem_of_singleton in Hw as ->. rewrite Hc in Hs. by vm_compute in Hs. }
  change (failed [0]) with false. cbn [each]. rewrite H2, !outcome_bind_ret. change (failed [0]) with false.
  cbn [each]. unfold action_group at 1. cbn [snd fst].
  by rewrite (set_action_overflows (with_void q (with_undo u g)) O v).
Qed.

(** A change of an active row from 10000 on, which a table with so many rows has
    and whose trap needs the columns in the file, writes the file and then overflows
    the array of five characters that its index is printed to. *)
Theorem high_index_overflows i reqs t r room :
  10000 <= i < 2 ^ 15 -> plain lw i reqs -> reqs <> [] -> COLUMN_STATUS ∉ colnum <$> reqs ->
  works e i room -> table_ok (container t) -> date_ends r -> (length (container t) <= room)%nat ->
  find_row i (container t) = Some r -> jobProcessMasterStatus r = RS_ACTIVE -> job_row r ->
  handle_set lw e reqs t = Crash.
Proof using Hlw.
  intros Hi Hplain Hne Hstat Hw Ht He Hroom Hfind Hact Hj. pose proof Hplain as [Hf Hnd _].
  pose proof Hw as [Hm Hda Hcd Hdisk _].
  destruct (reach_change lw e i reqs t r) as (r' & u & p & Hch & Hset); [done..|].
  pose proof Hch as [Hok Hri' _ _ Hends _ _ _].
  set (g := MkGroup i (items reqs) r' false false u p) in *.
  destruct (sync_ok g t Hri' Hok Ht) as [_ Hrows].
  rewrite Hset. cbn [commit_groups]. unfold commit_group, change_container. cbn [g row_created row_deleted negb fst snd].
  destruct (set_commit_fits lw e g (sync g t) room Hcd Hdisk) as (r2 & t2 & Hr2 & Hi2 & _ & Hc2 & [Hconf _] & _ & ->);
    [by rewrite sync_length|done..|].
  enough (commit_trap lw e (with_row r2 (row_deleted g) g) t2 = Crash) as -> by done.
  destruct (filled lw Hlw i reqs (with_row r2 (row_deleted g) g)) as (args & k & Hfill & _ & Hc & ->); [lia|done..|].
  unfold commit_trap. rewrite Hfill, outcome_bind_ret, Hc.
  rewrite counted_no_status by by rewrite fmap_reverse, elem_of_reverse. cbn [sRowStatus].
  change (0 =? JM_ROW_CREATE) with false. change (0 =? JM_ROW_DELETE) with false. cbv iota.
  rewrite counted_index.
  - destruct (rows_after i r2 _ t2 Hi2 Hc2) as (_ & Hrow & _).
    rewrite (search_overflows lw i (with_idx i r2) t2 (container t2)); [done|done|lia|done| |].
    + rewrite Hc2. by apply replaced_ok.
    + apply (Hrow r'). by apply (find_row_sync_same g t r).
  - intros E. apply (f_equal length) in E. rewrite length_reverse in E. by destruct reqs.
Qed.
End Overflow.
