(* ===== verification/JobTableDemo.v ===== *)
(** * The table of jobs, run

    A library that keeps the laws the table relies on, and requests that create,
    change and destroy a job. *)

From S2P Require Import Prelude CTypes Heap SchedTypes SchedIface JobTime JobList JobSched JobTrap CText.
From S2P Require Import SchedDemo JobProps TrapProps JobTable JobTableProofs JobTableProps JobTableTrap.
From S2P Require Import JobTableJobs JobTableFlow JobTableChange.
From stdpp Require Import list.
#[local] Open Scope Z_scope.
#[local] Existing Instance bump_allocator.

(** ** A library *)
Definition demo_parse (s : text) (n : nat) : option (list Z) :=
  match s with
  | 46 :: rest =>
      let l := map number (split_dots [] rest) in
      if bool_decide (length l <= n)%nat then Some l else None
  | _ => None
  end.
Definition demo_add (oid : list Z) (type : Z) (s : text) : option variable :=
  Some (if type =? 105 then MkVariable oid 8 (replicate 8 0) (Some (number s))
        else MkVariable oid (Z.of_nat (length s)) s (Some 0)).
#[local] Instance demo_lib : TableLib :=
  {| snmp_parse_oid := demo_parse; snmp_add_var := demo_add |}.

Lemma dec_u_isdigit x : Forall (fun c => isdigit c = true) (dec_u x).
Proof. apply dec_digits_isdigit. Qed.
Lemma number_dec_u x : 0 <= x < 2 ^ 32 -> number (dec_u x) = x.
Proof. intros Hx. rewrite <- dec_plain by lia. apply number_dec. lia. Qed.

Lemma split_dotted x l : Forall (fun x => 0 <= x < 2 ^ 32) (x :: l) ->
  map number (split_dots [] (dec_u x ++ dotted_oid l)) = x :: l.
Proof.
  revert x. induction l as [|y l IH]; intros x [Hx Hl]%Forall_cons.
  - cbn [dotted_oid flat_map]. rewrite app_nil_r, split_dots_last by apply dec_u_isdigit. cbn [map app].
    by rewrite number_dec_u.
  - change (dotted_oid (y :: l)) with (46 :: (dec_u y ++ dotted_oid l)).
    rewrite split_dots_part by apply dec_u_isdigit. cbn [map app]. by rewrite number_dec_u, IH.
Qed.

#[local] Instance demo_laws : TrapLaws.
Proof.
  split.
  - intros l n Hl Hn. destruct l as [|x l]; [simpl in Hn; lia|]. cbn [snmp_parse_oid demo_lib].
    change (dotted_oid (x :: l)) with (46 :: (dec_u x ++ dotted_oid l)). cbn [demo_parse].
    rewrite split_dotted by done. by rewrite bool_decide_eq_true_2 by lia.
  - intros l x Hx. exists (MkVariable l 8 (replicate 8 0) (Some (number (dec x)))). split; [done|]. cbn [name val_integer]. rewrite number_dec by lia.
    split_and!; [done..|]. split_and!; cbn [val_len val_string val_integer length replicate]; [lia..|by eexists].
  - intros l s Hs Hl. exists (MkVariable l (Z.of_nat (length s)) s (Some 0)). split; [done|]. split; [done|]. split.
    + unfold string_of. cbn [val_len val_string]. by rewrite Nat2Z.id, take_ge.
    + split_and!; cbn [val_len val_string val_integer]; [lia..|by eexists].
Qed.

(** ** Requests *)
Definition clock : list Z * Z := ([7; 213; 3; 1; 9; 45; 0; 0; 43; 0; 0], 11).
Definition good_env : env := MkEnv (fun _ => true) (fun _ => true) clock clock (Some 100%nat) true true.

Definition ask_text (c i : Z) (s : list Z) : setvar := MkSet c i ASN_OCTET_STR (Z.of_nat (length s)) s None.
Definition ask_long (c i x : Z) : setvar := MkSet c i ASN_INTEGER 8 [] (Some x).

Definition create_job : list setvar :=
  [ask_long COLUMN_STATUS 4 RS_CREATEANDGO; ask_text COLUMN_ID 4 [75]; ask_text COLUMN_NAME 4 [78];
   ask_long COLUMN_PERIODICINTERVAL 4 1; ask_text COLUMN_STARTTIME 4 [7; 213; 3; 1; 9; 45; 1; 0];
   ask_text COLUMN_FINISHTIME 4 [7; 213; 3; 1; 20; 8; 1; 0]].
Definition destroy_job : list setvar := [ask_long COLUMN_STATUS 4 RS_DESTROY].
Definition change_job (i : Z) : list setvar := [ask_text COLUMN_ID i [76]; ask_text COLUMN_NAME i [77]].

(** ** Rows *)
Definition in_buffer (n : nat) (s : list Z) : column :=
  MkColumn (s ++ replicate (n - length s) 0) (Z.of_nat (length s)).
Definition job_in (i : Z) : row :=
  with_string COLUMN_ID (in_buffer 255 [75])
    (with_string COLUMN_STARTTIME (in_buffer 20 [7; 213; 3; 1; 9; 45])
      (with_string COLUMN_FINISHTIME (in_buffer 20 [7; 213; 3; 1; 20; 8])
        (with_long COLUMN_STATUS RS_ACTIVE
          (with_long COLUMN_PERIODICINTERVAL 1 (jobProcessMasterTable_extract_index i))))).
Definition empty_table : job_table := init_jobProcessMasterTable (fun _ => true) None.
Definition table_of (i : Z) : job_table := MkTable [job_in i] None [].

Lemma job_in_ok i : 0 <= i < 2 ^ 32 -> row_ok (job_in i).
Proof.
  intros Hi. unfold job_in.
  do 3 (apply row_ok_with_string; [|by eexists|by split; vm_compute]).
  do 2 apply row_ok_with_long. by apply row_ok_new.
Qed.
Lemma job_in_job i : job_row (job_in i).
Proof.
  intros c Hc. unfold job_columns in Hc. rewrite !elem_of_cons, elem_of_nil in Hc.
  destruct Hc as [->|[->|[->|[->|[]]]]]; (eexists; split; [done|]); vm_compute; split_and!; done.
Qed.
Lemma job_in_table i : 0 <= i < 2 ^ 32 -> table_ok (container (table_of i)).
Proof. intros Hi. split; [by repeat constructor|]. apply Forall_singleton. by apply job_in_ok. Qed.
Lemma find_job i : find_row i (container (table_of i)) = Some (job_in i).
Proof. change ((if i =? i then Some (job_in i) else None) = Some (job_in i)). by rewrite Z.eqb_refl. Qed.

Lemma good_works i : works good_env i 100.
Proof.
  assert (date_good clock) as Hc.
  { split; [by split; vm_compute|]. exists [7; 213; 3; 1; 9; 45]. by split; [|vm_compute; lia]. }
  by split.
Qed.
Ltac fit_requests :=
  repeat first [apply Forall_nil_2 | apply Forall_cons_2;
    [split; [reflexivity|];
     first [ left; split; [reflexivity|]; split_and!; [done|done|by vm_compute|by vm_compute|by vm_compute]
           | right; split; [reflexivity|]; split_and!; [done|done|eexists; by split_and!] ]|]].
Lemma create_plain : plain 64 4 create_job.
Proof.
  split.
  - fit_requests.
  - by apply (bool_decide_unpack _).
  - intros v Hv. unfold create_job in Hv. rewrite !elem_of_cons, elem_of_nil in Hv.
    by destruct Hv as [->|[->|[->|[->|[->|[->|[]]]]]]].
Qed.
Lemma destroy_plain : plain 64 4 destroy_job.
Proof.
  split.
  - fit_requests.
  - by apply (bool_decide_unpack _).
  - by intros v ->%list_elem_of_singleton.
Qed.
Lemma change_plain i : plain 64 i (change_job i).
Proof.
  split.
  - fit_requests.
  - by apply (bool_decide_unpack _).
  - intros v Hv. unfold change_job in Hv. rewrite !elem_of_cons, elem_of_nil in Hv.
    by destruct Hv as [->|[->|[]]].
Qed.

(** ** The properties at these requests *)
Lemma created_job_reaches_scheduler_witness : exists t' r xs,
  handle_set 64 good_env create_job empty_table = Ret (Some (0, t')) /\
  find_row 4 (container t') = Some r /\ jobProcessMasterStatus r = RS_ACTIVE /\ saved t' /\
  jt_log t' = [TrapSent true xs] /\ asks 0 504 4 create_job JS_ADD xs.
Proof.
  destruct (created_job_reaches_scheduler 0 504 64 good_env ltac:(by right) 4 create_job empty_table 100)
    as (t' & r & xs & Hset & Hr & Hact & _ & _ & Hsv & Hlog & Hasks).
  - apply good_works.
  - lia.
  - split; constructor.
  - vm_compute. lia.
  - done.
  - apply create_plain.
  - eexists. split; [by left|done].
  - intros c Hc. unfold mandatory in Hc. rewrite !orb_true_iff, !Z.eqb_eq in Hc.
    destruct Hc as [[[->| ->]| ->]| ->]; by apply (bool_decide_unpack _).
  - exists t', r, xs. split_and!; assumption.
Defined.
Lemma destroyed_job_reaches_scheduler_witness : exists t' xs,
  handle_set 64 good_env destroy_job (table_of 4) = Ret (Some (0, t')) /\
  get_request COLUMN_ID 4 (table_of 4) = Some (Octets [75]) /\ get_request COLUMN_ID 4 t' = None /\
  saved t' /\ jt_log t' = [TrapSent true xs] /\ asks 0 504 4 destroy_job JS_DELETE xs.
Proof.
  destruct (destroyed_job_reaches_scheduler 0 504 64 good_env ltac:(by right) 4 destroy_job (table_of 4)
    (job_in 4) 100) as (t' & xs & Hset & Hgone & _ & Hsv & Hlog & Hasks).
  - apply good_works.
  - lia.
  - by apply job_in_ok.
  - by vm_compute.
  - vm_compute. lia.
  - apply find_job.
  - apply destroy_plain.
  - eexists. split; [by left|done].
  - exists t', xs. split_and!; [assumption|reflexivity|apply Hgone|assumption..].
Defined.
Lemma changed_job_reaches_scheduler_witness : exists t' r xs,
  handle_set 64 good_env (change_job 4) (table_of 4) = Ret (Some (0, t')) /\
  find_row 4 (container t') = Some r /\ saved t' /\ jt_log t' = [TrapSent true xs] /\
  asks 0 504 4 (change_job 4 ++ missing (change_job 4) 64 4 r) JS_MODIFY xs.
Proof.
  destruct (changed_job_reaches_scheduler 0 504 64 good_env 4 (change_job 4) ltac:(by right) ltac:(lia)
    (change_plain 4) ltac:(done) ltac:(by apply (bool_decide_unpack _)) (table_of 4) (job_in 4) 100)
    as (t' & r & xs & Hset & Hr & _ & _ & _ & _ & Hsv & Hlog & Hasks).
  - apply good_works.
  - by apply job_in_table.
  - by vm_compute.
  - vm_compute. lia.
  - apply find_job.
  - done.
  - apply job_in_job.
  - exists t', r, xs. split_and!; assumption.
Defined.
Lemma long_text_overflows_witness :
  handle_set 64 good_env [ask_text COLUMN_STARTTIME 4 (replicate 21 48)] empty_table = Crash.
Proof.
  apply (long_text_overflows 64 good_env (ask_text COLUMN_STARTTIME 4 (replicate 21 48)) empty_table
    (jobProcessMasterTable_extract_index 4) true); try done.
  - apply (good_works 4).
  - by apply row_ok_new.
Defined.
Lemma high_index_overflows_witness :
  handle_set 64 good_env (change_job 10000) (table_of 10000) = Crash.
Proof.
  apply (high_index_overflows 64 good_env ltac:(by right) 10000 (change_job 10000) (table_of 10000) (job_in 10000) 100).
  - lia.
  - apply change_plain.
  - done.
  - by apply (bool_decide_unpack _).
  - apply good_works.
  - by apply job_in_table.
  - by vm_compute.
  - vm_compute. lia.
  - apply find_job.
  - done.
  - apply job_in_job.
Defined.

(** The table after a request that is answered. *)
Definition after (reqs : list setvar) (t : job_table) : job_table :=
  match handle_set 64 good_env reqs t with Ret (Some (_, t')) => t' | _ => t end.

(** A change of row 4 together with a row 5 that lacks what a job needs. *)
Definition half_bad : list setvar :=
  change_job 4 ++ [ask_long COLUMN_STATUS 5 RS_CREATEANDGO; ask_text COLUMN_ID 5 [80]].
Ltac indices := repeat first [apply Forall_nil_2 | apply Forall_cons_2; [by split; vm_compute|]].
Lemma half_bad_indices : Forall (fun v => 0 <= tindex v < 2 ^ 32) half_bad.
Proof. indices. Qed.
Lemma clock_ok : date_ok clock.
Proof. by split; vm_compute. Qed.

Lemma failed_set_changes_nothing_witness :
  handle_set 64 good_env half_bad (table_of 4) = Ret (Some (1, after half_bad (table_of 4))) /\
  get_request COLUMN_ID 4 (after half_bad (table_of 4)) = Some (Octets [75]) /\
  get_request COLUMN_ID 5 (after half_bad (table_of 4)) = None.
Proof.
  assert (handle_set 64 good_env half_bad (table_of 4) = Ret (Some (1, after half_bad (table_of 4)))) as E
    by (vm_compute; reflexivity).
  destruct (failed_set_changes_nothing 64 good_env clock_ok clock_ok half_bad (table_of 4) 1
    (after half_bad (table_of 4))) as [Hget _].
  - by apply job_in_table.
  - apply half_bad_indices.
  - exact E.
  - done.
  - done.
  - split; [exact E|]. rewrite !Hget. by split.
Defined.
Lemma set_keeps_table_witness :
  handle_set 64 good_env create_job empty_table = Ret (Some (0, after create_job empty_table)) /\
  table_ok (container (after create_job empty_table)).
Proof.
  assert (handle_set 64 good_env create_job empty_table = Ret (Some (0, after create_job empty_table))) as E
    by (vm_compute; reflexivity).
  split; [exact E|].
  apply (set_keeps_table 64 good_env clock_ok clock_ok create_job empty_table 0).
  - split; constructor.
  - indices.
  - exact E.
Defined.
Lemma restart_restores_table_witness :
  container (init_jobProcessMasterTable (fun i => i =? 4) (conf (after create_job empty_table))) =
    List.filter (fun r => index r =? 4) (container (after create_job empty_table)).
Proof.
  apply (restart_restores_table 64 good_env clock_ok clock_ok create_job empty_table
    (after create_job empty_table) 100).
  - split; constructor.
  - indices.
  - done.
  - vm_compute. reflexivity.
  - done.
  - vm_compute. lia.
Defined.
