(* ===== verification/Walk.v ===== *)
(** * Walks over a table

    What the readers of tables share (JS_GetJobProcessMasterTableDetails of
    src/Group2/Unix/JobSched/src/NASCenter_JS.c and UM_GetTableDetails of
    src/Group2/Unix/UC/src/NASCenter_UM_Linux_Firewall.c): the test of the answer to a
    request for the next values, and agents that serve a table row by row. *)

From S2P Require Import Prelude CTypes CText.
From stdpp Require Import list.
#[local] Open Scope Z_scope.

(** ** Requests for the next values

    The answer to a GETBULK request, of whose variables only the first one's type
    is read; [None] when there is no answer. *)
Record reply := MkReply {
  errstat : Z; errindex : Z; first_type : Z; reply_vars : list variable
}.
Definition ASN_NULL : Z := 5.
Definition SNMP_NOSUCHOBJECT : Z := 128.
Definition SNMP_NOSUCHINSTANCE : Z := 129.
Definition SNMP_ENDOFMIBVIEW : Z := 130.

Definition no_value : list Z := [ASN_NULL; SNMP_NOSUCHINSTANCE; SNMP_NOSUCHOBJECT; SNMP_ENDOFMIBVIEW].

(** [snmp_synch_response] for the names of the [n]-th request of a walk. *)
Class Session := { getbulk : nat -> list (list Z) -> option reply }.

(** The variables of an answer without an error whose first variable has a value:
    its type is none of [missing]. *)
Definition variables_of (missing : list Z) (r : option reply) : outcome (option (list variable)) :=
  match r with
  | None => mret None
  | Some r =>
      if negb (errstat r =? 0) || negb (errindex r =? 0) then mret None else
      match reply_vars r with
      | [] => Crash
      | vars =>
          mret (if existsb (Z.eqb (first_type r)) missing then None else Some vars)
      end
  end.

(** ** Variables of rows *)

(** A variable with a string, or with a number. *)
Definition is_octets (c : list Z) (i : Z) (s : list Z) (v : variable) : Prop :=
  name v = c ++ [i] /\ val_len v = Z.of_nat (length s) /\ take (length s) (val_string v) = s.
Definition is_number (c : list Z) (i x : Z) (v : variable) : Prop :=
  name v = c ++ [i] /\ val_integer v = Some x.


(** ** Walks over a table

    The agent answers with the next rows, [reps] at most, and behind the last row
    with variables that are not of the first column.  The next request has the names of the last row. *)
Section Walk.
Context `{Session}.
Variable reps : nat.
Hypothesis Hreps : (0 < reps)%nat.
Variables (first : list (list Z)) (column : list Z).

Definition outside (vs : list variable) : Prop :=
  match vs with [] => False | v :: _ => under column v = false end.

Definition names_of (pages : list (list variable)) (names : list (list Z)) : list (list Z) :=
  default names (map name <$> last pages).

(** The names with which the rows behind the first [n] are asked for. *)
Definition names_at (pages : list (list variable)) (n : nat) : list (list Z) :=
  names_of (take n pages) first.

Definition serves (pages : list (list variable)) : Prop :=
  forall k n, (n <= length pages)%nat -> exists a past, getbulk k (names_at pages n) = Some a /\
    errstat a = 0 /\ errindex a = 0 /\ first_type a ∉ no_value /\
    reply_vars a = concat (take reps (drop n pages)) ++ past /\
    ((length pages - n < reps)%nat -> outside past).

Lemma serves_variables pages k n : serves pages -> (n <= length pages)%nat ->
  Forall (fun vs => vs <> []) pages -> exists past,
    variables_of no_value (getbulk k (names_at pages n)) =
      Ret (Some (concat (take reps (drop n pages)) ++ past)) /\
    ((length pages - n < reps)%nat -> outside past).
Proof using Hreps.
  intros Hs Hn Hne. destruct (Hs k n Hn) as (a & past & -> & He & Hi & Ht & Hv & Hp). exists past.
  split; [|done]. unfold variables_of. rewrite He, Hi.
  change (negb (0 =? 0) || negb (0 =? 0)) with false. cbv iota.
  destruct (reply_vars a) as [|v vs] eqn:E.
  - exfalso. symmetry in Hv. apply app_eq_nil in Hv as [Hc ->].
    destruct (drop n pages) as [|vs rest] eqn:Ed.
    + apply (f_equal length) in Ed. rewrite length_drop in Ed. simpl in Ed. apply Hp. lia.
    + destruct reps as [|n']; [lia|]. cbn [take concat] in Hc. apply app_eq_nil in Hc as [-> _].
      assert ([] ∈ pages) as Hin by (rewrite <- (take_drop n pages), Ed; apply elem_of_app; right; by left).
      rewrite Forall_forall in Hne. by apply (Hne _ Hin).
  - replace (existsb (Z.eqb (first_type a)) no_value) with false; [by rewrite Hv|].
    symmetry. apply not_true_iff_false. intros (x & Hx & Heq%Z.eqb_eq)%existsb_exists.
    apply Ht. rewrite Heq. by apply list_elem_of_In.
Qed.

Lemma names_at_next pages n : (n + reps <= length pages)%nat ->
  names_of (take reps (drop n pages)) (names_at pages n) = names_at pages (n + reps).
Proof using Hreps.
  intros Hn. unfold names_at. rewrite <- take_take_drop. unfold names_of. rewrite last_app.
  destruct (last (take reps (drop n pages))) eqn:El; [done|].
  apply last_None, (f_equal length) in El. rewrite length_take, length_drop in El.
  cbn [length] in El. lia.
Qed.
End Walk.

(** ** An agent with a table *)

(** The rows behind the one with the names. *)
Fixpoint rows_behind (names : list (list Z)) (pages : list (list variable)) : list (list variable) :=
  match pages with
  | [] => []
  | vs :: pages => if bool_decide (map name vs = names) then pages else rows_behind names pages
  end.
Definition agent_of (reps : nat) (first : list (list Z)) (pages : list (list variable)) (past : list variable) : Session :=
  {| getbulk := fun _ names =>
       let rest := if bool_decide (names = first) then pages else rows_behind names pages in
       Some (MkReply 0 0 4 (concat (take reps rest) ++ past)) |}.

Lemma agent_serves reps first column pages past : outside column past ->
  (forall n, (n <= length pages)%nat -> names_at first pages n = first /\ n = 0%nat \/
     bool_decide (names_at first pages n = first) = false /\
     rows_behind (names_at first pages n) pages = drop n pages) ->
  @serves (agent_of reps first pages past) reps first column pages.
Proof.
  intros Hpast Hrest k n Hn.
  exists (MkReply 0 0 4 (concat (take reps (drop n pages)) ++ past)), past.
  split_and!; try done.
  - cbn [getbulk agent_of]. destruct (Hrest n Hn) as [[-> ->]|[-> ->]]; [|done].
    by rewrite bool_decide_eq_true_2.
  - by apply (bool_decide_unpack _).
Qed.
