(* ===== verification/JobStart.v ===== *)
(** * The jobs at the start (JS_GetJobProcessMasterTableDetails of
      src/Group2/Unix/JobSched/src/NASCenter_JS.c)

    The rows of the table of jobs are fetched six at a time with requests for the
    next values of eight columns, and each row that is in service becomes a job. *)

From S2P Require Import Prelude CTypes Heap SchedTypes SchedIface JobTime JobList JobSched JobTrap Walk.
From stdpp Require Import list.
#[local] Open Scope Z_scope.

Definition MAX_REPETITIONS : nat := 6.

Definition jobProcessMaster_columns : list (list Z) :=
  [jobProcessMasterID_variables_oid; jobProcessMasterName_variables_oid;
   jobProcessMasterPeriodicInterval_variables_oid; jobProcessMasterStartTime_variables_oid;
   jobProcessMasterFinishTime_variables_oid; jobProcessMasterCPUPercentUsage_variables_oid;
   jobProcessMasterMemoryPercentUsage_variables_oid; jobProcessMasterStatus_variables_oid].

Section JobStart.
Context `{TaskScheduler} `{Allocator} `{Session}.
Variables (tz perform : Z).
Abbreviation state := js.

(** What the calls for one row meet: the clock, which strings [malloc] has room
    for, the memory for JS_UpdateJobToScheduler with its uninitialised locals, and
    what is in the memory of the new job. *)
Record call := MkCall {
  c_now : tm; c_strings : nat -> bool; c_mem : nat -> bool;
  c_task : stTask; c_day0 : Z; c_junk : stJobMaster
}.

(** A job whose fields have not all been set is freed: its character pointers are
    freed with it, those that hold what was in memory as well. *)
Definition free_unfinished (unset : list (option (list Z))) (p : Z) (s : state)
    : exits (ENASCenterError * state) :=
  if forallb (fun x => bool_decide (x = None)) unset
  then s ← JS_FreeJobMaster s p; js_ret NASC_FAILURE s
  else Crash.

(** How the treatment of a row ends: the function returns, or goes on with the
    variables left and the names for the next request. *)
Inductive row_end :=
| RowReturns (r : ENASCenterError) (s : state)
| RowDone (vars : list variable) (names : list (list Z)) (s : state).

Definition returns (m : exits (ENASCenterError * state)) : exits row_end :=
  r ← m; mret (match r with Some (r, s) => Some (RowReturns r s) | None => None end).

(** The body of the loop over the rows, from the new job at [p] on. *)
Definition read_row (c : call) (p : Z) (vars : list variable) (s : state) : exits row_end :=
  let junk := c_junk c in
  let s := with_jobs s (<[p := junk]> (js_jobs s)) in
  match vars with
  | [] => Crash
  | v1 :: vars =>
  '(_, id) ← JS_FillStruct (c_strings c 0%nat) (val_len v1) (val_string v1);
  i ← JS_GetIndex v1;
  match vars with
  | [] => returns (free_unfinished
            [pcJobMasName junk; pcJobMasStartTime junk; pcJobMasFinishTime junk] p s)
  | v2 :: vars =>
  '(_, nm) ← JS_FillStruct (c_strings c 1%nat) (val_len v2) (val_string v2);
  match vars with
  | [] => returns (free_unfinished [pcJobMasStartTime junk; pcJobMasFinishTime junk] p s)
  | v3 :: vars =>
  iv ← read_long v3;
  match vars with
  | [] => returns (free_unfinished [pcJobMasStartTime junk; pcJobMasFinishTime junk] p s)
  | v4 :: vars =>
  '(r4, st) ← JS_FillStruct (c_strings c 2%nat) (val_len v4) (val_string v4);
  if bool_decide (r4 = NASC_INSUFFICIENT_MEMORY) then returns (js_ret NASC_FAILURE s) else
  let st4 := if bool_decide (r4 = NASC_SUCCESS) then None else pcJobMasStartTime junk in
  let st := if bool_decide (r4 = NASC_SUCCESS) then st else pcJobMasStartTime junk in
  match vars with
  | [] => returns (free_unfinished [st4; pcJobMasFinishTime junk] p s)
  | v5 :: vars =>
  '(r5, fi) ← JS_FillStruct (c_strings c 3%nat) (val_len v5) (val_string v5);
  if bool_decide (r5 = NASC_INSUFFICIENT_MEMORY) then returns (js_ret NASC_FAILURE s) else
  let fi5 := if bool_decide (r5 = NASC_SUCCESS) then None else pcJobMasFinishTime junk in
  let fi := if bool_decide (r5 = NASC_SUCCESS) then fi else pcJobMasFinishTime junk in
  match vars with
  | [] => returns (free_unfinished [st4; fi5] p s)
  | v6 :: vars =>
  cpu ← read_long v6;
  match vars with
  | [] => returns (free_unfinished [st4; fi5] p s)
  | v7 :: vars =>
  memory ← read_long v7;
  match vars with
  | [] => returns (free_unfinished [st4; fi5] p s)
  | v8 :: vars =>
  status ← read_long v8;
  let job := MkJob (UI16 i) id nm (I16 iv) st fi (uiEndTimeinNum junk) (I16 memory) (I16 cpu)
               (I16 status) in
  let names := map name [v1; v2; v3; v4; v5; v6; v7; v8] in
  let s := with_jobs s (<[p := job]> (js_jobs s)) in
  if I16 status =? 2 then mret (Some (RowDone vars names s)) else
  r ← JS_UpdateJobToScheduler tz perform (c_now c) (c_mem c) (c_task c) (c_day0 c) p JS_ADD s;
  mret (match r with Some (_, s) => Some (RowDone vars names s) | None => None end)
  end end end end end end end end.

(** How the rows of one answer end: as above, at a variable outside of the first
    column, or with names and the job that has been made last. *)
Inductive page_end :=
| PageReturns (r : ENASCenterError) (s : state)
| PastTable (s : state)
| PageDone (n : nat) (last : option Z) (names : list (list Z)) (s : state).

(** At most [reps] rows; [n] is the number of rows before.  Where variables are
    missing the last job is freed. *)
Fixpoint read_page (calls : nat -> call) (reps n : nat) (last : option Z) (names : list (list Z))
    (vars : list variable) (s : state) : exits page_end :=
  match reps with
  | O => mret (Some (PageDone n last names s))
  | S reps =>
      match vars with
      | [] =>
          match last with
          | None => Crash
          | Some p => s ← JS_FreeJobMaster s p; mret (Some (PageReturns NASC_FAILURE s))
          end
      | v :: _ =>
          if negb (under jobProcessMasterID_variables_oid v) then mret (Some (PastTable s)) else
          let p := malloc (dom (js_jobs s)) in
          if p =? NULL then mret (Some (PageReturns NASC_INSUFFICIENT_MEMORY s)) else
          r ← read_row (calls n) p vars s;
          match r with
          | None => mret None
          | Some (RowReturns r s) => mret (Some (PageReturns r s))
          | Some (RowDone vars names s) => read_page calls reps (S n) (Some p) names vars s
          end
      end
  end.

Fixpoint read_pages (fuel : nat) (calls : nat -> call) (k n : nat) (last : option Z)
    (names : list (list Z)) (s : state) : exits (ENASCenterError * state) :=
  match fuel with
  | O => OutOfFuel
  | S fuel =>
      vars ← variables_of no_value (getbulk k names);
      match vars with
      | None => js_ret NASC_FAILURE s
      | Some vars =>
          r ← read_page calls MAX_REPETITIONS n last names vars s;
          match r with
          | None => mret None
          | Some (PageReturns r s) => js_ret r s
          | Some (PastTable s) => js_ret NASC_SUCCESS s
          | Some (PageDone n last names s) => read_pages fuel calls (S k) n last names s
          end
      end
  end.

Definition JS_GetJobProcessMasterTableDetails (fuel : nat) (calls : nat -> call) (s : state)
    : exits (ENASCenterError * state) :=
  read_pages fuel calls 0 0 None jobProcessMaster_columns s.
End JobStart.

Lemma rows_are_asked_for : (0 < MAX_REPETITIONS)%nat.
Proof. unfold MAX_REPETITIONS. lia. Qed.
