(* ===== verification/JobStartProps.v ===== *)
(** * The jobs come back

    An agent that serves the rows of the table of jobs, six at a time, is read to
    its end, and every row that is in service is registered with the scheduler. *)

From S2P Require Import Prelude CTypes Heap SchedTypes SchedIface JobTime JobList JobSched JobTrap.
From S2P Require Import SchedApi SchedDemo JobProps TrapProps CText JobTable JobTableProofs JobTableDemo Walk JobStart.
From stdpp Require Import list.
#[local] Open Scope Z_scope.

(** ** Rows as variables *)

(** The eight variables that show a row of the table. *)
Definition shows (r : row) (vs : list variable) : Prop :=
  exists v1 v2 v3 v4 v5 v6 v7 v8, vs = [v1; v2; v3; v4; v5; v6; v7; v8] /\
    is_octets jobProcessMasterID_variables_oid (index r) (octets (jobProcessMasterID r)) v1 /\
    is_octets jobProcessMasterName_variables_oid (index r) (octets (jobProcessMasterName r)) v2 /\
    is_number jobProcessMasterPeriodicInterval_variables_oid (index r)
      (jobProcessMasterPeriodicInterval r) v3 /\
    is_octets jobProcessMasterStartTime_variables_oid (index r)
      (octets (jobProcessMasterStartTime r)) v4 /\
    is_octets jobProcessMasterFinishTime_variables_oid (index r)
      (octets (jobProcessMasterFinishTime r)) v5 /\
    is_number jobProcessMasterCPUPercentUsage_variables_oid (index r)
      (jobProcessMasterCPUPercentUsage r) v6 /\
    is_number jobProcessMasterMemoryPercentUsage_variables_oid (index r)
      (jobProcessMasterMemoryPercentUsage r) v7 /\
    is_number jobProcessMasterStatus_variables_oid (index r) (jobProcessMasterStatus r) v8.

(** A string the job scheduler keeps, and the job of a row in memory that held
    [junk]. *)
Definition kept (s : list Z) (old : option (list Z)) : option (list Z) :=
  match s with [] => old | _ => Some (s ++ [0]) end.
Definition job_of (junk : stJobMaster) (r : row) : stJobMaster :=
  MkJob (UI16 (I16 (index r))) (kept (octets (jobProcessMasterID r)) None)
    (kept (octets (jobProcessMasterName r)) None) (I16 (jobProcessMasterPeriodicInterval r))
    (kept (octets (jobProcessMasterStartTime r)) (pcJobMasStartTime junk))
    (kept (octets (jobProcessMasterFinishTime r)) (pcJobMasFinishTime junk))
    (uiEndTimeinNum junk) (I16 (jobProcessMasterMemoryPercentUsage r))
    (I16 (jobProcessMasterCPUPercentUsage r)) (I16 (jobProcessMasterStatus r)).

Definition in_service (r : row) : bool := negb (I16 (jobProcessMasterStatus r) =? 2).

Lemma fill_octets c i s v : is_octets c i s v -> Z.of_nat (length s) < 32768 ->
  JS_FillStruct true (val_len v) (val_string v) =
    Ret (match s with [] => NASC_FAILURE | _ => NASC_SUCCESS end, kept s None).
Proof.
  intros (_ & Hl & Hs) Hlen. unfold JS_FillStruct. rewrite Hl, I16_id by lia.
  destruct s as [|x s]; [done|]. rewrite (proj2 (Z.eqb_neq _ _)) by (cbn [length]; lia).
  rewrite (proj2 (Z.ltb_ge (Z.of_nat (length (x :: s))) (-1))) by (cbn [length]; lia). cbn [orb negb].
  assert (length (x :: s) <= length (val_string v))%nat by (idtac; apply (f_equal length) in Hs; rewrite length_take in Hs; lia).
  rewrite !(proj2 (Z.leb_le _ _)) by lia. cbn [andb]. by rewrite Nat2Z.id, Hs.
Qed.
Lemma column_small c x r : row_ok r -> string_col c r = Some x -> Z.of_nat (length (octets x)) < 32768.
Proof.
  intros (_ & _ & Hc) Hx. destruct (Hc _ _ Hx) as [Hb _]. unfold octets. rewrite length_take.
  assert (col_size c <= 255) by (unfold col_size; by destruct (_ || _)). lia.
Qed.

Abbreviation serves_jobs := (serves MAX_REPETITIONS jobProcessMaster_columns jobProcessMasterID_variables_oid).

Section Start.
Context `{TaskScheduler} `{Allocator} `{Session}.
Variables (tz perform : Z).
Abbreviation state := js.

(** ** Adding the rows one by one *)
Definition add_row (c : call) (r : row) (s : state) : exits state :=
  let p := malloc (dom (js_jobs s)) in
  let s := with_jobs s (<[p := job_of (c_junk c) r]> (js_jobs s)) in
  if negb (in_service r) then mret (Some s) else
  x ← JS_UpdateJobToScheduler tz perform (c_now c) (c_mem c) (c_task c) (c_day0 c) p JS_ADD s;
  mret (match x with Some (_, s) => Some s | None => None end).

Fixpoint add_rows (calls : nat -> call) (n : nat) (l : list row) (s : state) : exits state :=
  match l with
  | [] => mret (Some s)
  | r :: l =>
      x ← add_row (calls n) r s;
      match x with None => mret None | Some s => add_rows calls (S n) l s end
  end.

Lemma add_rows_app calls n l1 l2 s s' :
  add_rows calls n (l1 ++ l2) s = Ret (Some s') ->
  exists s1, add_rows calls n l1 s = Ret (Some s1) /\
    add_rows calls (n + length l1) l2 s1 = Ret (Some s').
Proof.
  revert n s. induction l1 as [|r l1 IH]; intros n s; cbn [app add_rows length].
  - rewrite Nat.add_0_r. by exists s.
  - destruct (add_row (calls n) r s) as [[s1|]| |]; [|done..]. rewrite !outcome_bind_ret.
    rewrite <- Nat.add_succ_comm. apply IH.
Qed.

Lemma read_row_shows c p r vs rest s s' : row_ok r -> shows r vs -> (forall k, c_strings c k = true) ->
  p = malloc (dom (js_jobs s)) -> add_row c r s = Ret (Some s') ->
  read_row tz perform c p (vs ++ rest) s = Ret (Some (RowDone rest (map name vs) s')).
Proof.
  intros Hr (v1 & v2 & v3 & v4 & v5 & v6 & v7 & v8 & -> & E1 & E2 & E3 & E4 & E5 & E6 & E7 & E8) Hmem -> Hadd.
  unfold read_row. cbn [app]. rewrite !Hmem.
  rewrite (fill_octets _ _ _ _ E1), outcome_bind_ret by (by eapply (column_small COLUMN_ID)).
  rewrite (GetIndex_last v1 (index r) jobProcessMasterID_variables_oid), outcome_bind_ret;
    [|apply E1|by rewrite (proj1 E1)].
  rewrite (fill_octets _ _ _ _ E2), outcome_bind_ret by (by eapply (column_small COLUMN_NAME)).
  unfold read_long. rewrite (proj2 E3), outcome_bind_ret.
  rewrite (fill_octets _ _ _ _ E4), outcome_bind_ret by (by eapply (column_small COLUMN_STARTTIME)).
  rewrite bool_decide_eq_false_2 by by destruct (octets (jobProcessMasterStartTime r)).
  rewrite (fill_octets _ _ _ _ E5), outcome_bind_ret by (by eapply (column_small COLUMN_FINISHTIME)).
  rewrite (bool_decide_eq_false_2 (_ = NASC_INSUFFICIENT_MEMORY))
    by by destruct (octets (jobProcessMasterFinishTime r)).
  rewrite (proj2 E6), outcome_bind_ret, (proj2 E7), outcome_bind_ret, (proj2 E8), outcome_bind_ret.
  unfold add_row, in_service, job_of in Hadd. rewrite negb_involutive in Hadd.
  assert (Hold : forall s old, (if bool_decide (match s with [] => NASC_FAILURE | _ :: _ => NASC_SUCCESS end = NASC_SUCCESS)
    then kept s None else old) = kept s old) by (intros [|x l] old; [by rewrite bool_decide_eq_false_2|by rewrite bool_decide_eq_true_2]).
  rewrite !Hold. cbv zeta. cbn [js_jobs with_jobs] in *.
  set (job := MkJob _ _ _ _ _ _ _ _ _ _) in *.
  change (with_jobs (with_jobs s (<[malloc (dom (js_jobs s)):=c_junk c]> (js_jobs s)))
    (<[malloc (dom (js_jobs s)):=job]> (<[malloc (dom (js_jobs s)):=c_junk c]> (js_jobs s))))
    with (with_jobs s (<[malloc (dom (js_jobs s)):=job]> (<[malloc (dom (js_jobs s)):=c_junk c]> (js_jobs s)))).
  rewrite insert_insert_eq. destruct (_ =? 2); [by injection Hadd as <-|].
  destruct (JS_UpdateJobToScheduler _ _ _ _ _ _ _ _ _) as [[[x s1]|]| |]; [|done..].
  by injection Hadd as <-.
Qed.

(** ** A page of rows *)
Lemma shows_under r vs : shows r vs -> exists v vs', vs = v :: vs' /\
  under jobProcessMasterID_variables_oid v = true.
Proof.
  intros (v1 & v2 & v3 & v4 & v5 & v6 & v7 & v8 & -> & [Hn _] & _). eexists _, _. split; [done|].
  rewrite under_take, Hn. by apply bool_decide_eq_true_2.
Qed.

Variable calls : nat -> call.
Hypothesis Hmalloc : malloc_total.
Hypothesis Hstrings : forall n k, c_strings (calls n) k = true.

Lemma read_page_shows reps n lst names rows pages past s s' :
  Forall row_ok rows -> Forall2 shows rows pages -> (length rows <= reps)%nat ->
  ((length rows < reps)%nat -> outside jobProcessMasterID_variables_oid past) -> add_rows calls n rows s = Ret (Some s') ->
  exists lst', read_page tz perform calls reps n lst names (concat pages ++ past) s =
    Ret (Some (if bool_decide (length rows < reps)%nat then PastTable s'
               else PageDone (n + reps) lst' (names_of pages names) s')).
Proof using Hmalloc Hstrings.
  intros Hr Hsh. revert reps n lst names s. induction Hsh as [|r vs rows pages Hrv Hsh IH];
    intros reps n lst names s Hreps Hpast Hadd; cbn [add_rows length concat] in *.
  { injection Hadd as <-. destruct reps as [|reps]; cbn [read_page app].
    { exists lst. rewrite bool_decide_eq_false_2, Nat.add_0_r by lia. done. }
    exists lst. rewrite bool_decide_eq_true_2 by lia. unfold outside in Hpast.
    destruct past as [|v past]; [exfalso; apply Hpast; lia|]. by rewrite Hpast by lia. }
  apply Forall_cons in Hr as [Hrow Hr]. destruct reps as [|reps]; [lia|]. cbn [read_page].
  destruct (add_row (calls n) r s) as [[s1|]| |] eqn:Hone; [|done..]. rewrite outcome_bind_ret in Hadd.
  rewrite <- app_assoc. destruct (shows_under r vs Hrv) as (v & vs' & -> & Hu). cbn [app]. rewrite Hu.
  cbn [negb]. rewrite (proj2 (Z.eqb_neq _ _)) by apply Hmalloc.
  pose proof (read_row_shows (calls n) _ r (v :: vs') (concat pages ++ past) s s1 Hrow Hrv (Hstrings n) eq_refl Hone) as Hread.
  cbn [app] in Hread. rewrite Hread, outcome_bind_ret.
  destruct (IH Hr reps (S n) (Some (malloc (dom (js_jobs s)))) (map name (v :: vs')) s1) as (lst' & Hpage);
    [lia|intros ?; apply Hpast; lia|done|].
  exists lst'. cbn [app] in Hpage. rewrite Hpage. f_equal. f_equal.
  replace (bool_decide (S (length rows) < S reps)%nat) with (bool_decide (length rows < reps)%nat)
    by (apply bool_decide_ext; lia).
  destruct (bool_decide _); [done|]. f_equal; [lia|]. unfold names_of.
  destruct pages as [|vs2 pages]; [done|]. rewrite last_cons_cons.
  destruct (last (vs2 :: pages)) eqn:El; [done|]. by apply last_None in El.
Qed.

(** ** The walk *)
Lemma read_pages_shows rows pages fuel k n lst s s' :
  Forall row_ok rows -> Forall2 shows rows pages -> serves_jobs pages -> (n <= length rows)%nat ->
  (length rows - n < fuel)%nat -> add_rows calls n (drop n rows) s = Ret (Some s') ->
  read_pages tz perform fuel calls k n lst (names_at jobProcessMaster_columns pages n) s = Ret (Some (NASC_SUCCESS, s')).
Proof using Hmalloc Hstrings.
  intros Hr Hsh Hs. pose proof (Forall2_length _ _ _ Hsh) as Hlen.
  assert (Forall (fun vs => vs <> []) pages) as Hne.
  { clear -Hsh. induction Hsh as [|r vs rows pages (? & ? & ? & ? & ? & ? & ? & ? & -> & _)]; by constructor. }
  revert k n lst s. induction fuel as [|fuel IH]; intros k n lst s Hn Hfuel Hadd; [lia|]. cbn [read_pages].
  destruct (serves_variables _ rows_are_asked_for _ _ pages k n Hs ltac:(lia) Hne) as (past & -> & Hpast). rewrite outcome_bind_ret.
  rewrite <- (take_drop MAX_REPETITIONS (drop n rows)) in Hadd.
  destruct (add_rows_app _ _ _ _ _ _ Hadd) as (s1 & A1 & A2).
  assert (Hlt : length (take MAX_REPETITIONS (drop n rows)) = Nat.min MAX_REPETITIONS (length rows - n))
    by (by rewrite length_take, length_drop).
  destruct (read_page_shows MAX_REPETITIONS n lst (names_at jobProcessMaster_columns pages n) (take MAX_REPETITIONS (drop n rows))
    (take MAX_REPETITIONS (drop n pages)) past s s1) as (lst' & Hpage).
  - by apply Forall_take, Forall_drop.
  - by apply Forall2_take, Forall2_drop.
  - lia.
  - intros ?. apply Hpast. lia.
  - done.
  - rewrite Hpage, outcome_bind_ret. rewrite Hlt in *. case_bool_decide as Hlast.
    + unfold MAX_REPETITIONS in Hlast, A2. rewrite drop_drop, drop_ge in A2 by lia. injection A2 as <-. done.
    + unfold MAX_REPETITIONS in Hlast. rewrite Nat.min_l in A2 by (unfold MAX_REPETITIONS; lia). rewrite drop_drop in A2.
      rewrite names_at_next by (unfold MAX_REPETITIONS; lia).
      apply IH; [unfold MAX_REPETITIONS; lia..|done].
Qed.

(** ** Registration *)

(** A row whose times can be read, and whether the scheduler takes its task. *)
Definition readable (c : call) (r : row) (taken : bool) : Prop :=
  octets (jobProcessMasterStartTime r) <> [] /\
  exists u ts te, JS_FillTimeStruct tz (octets (jobProcessMasterStartTime r) ++ [0]) = Ret (u, ts) /\
    u <> 0 /\ finish_ok tz (job_of (c_junk c) r) te /\ I16 (jobProcessMasterPeriodicInterval r) <> -1 /\
    forall p, ts_accepts (c_now c)
      (job_task tz perform (c_task c) p (I16 (jobProcessMasterPeriodicInterval r)) u ts te) = taken.

(** The entry of a row in the list leads through its task to its job. *)
Definition registered (s : state) (m : gmap Z stTask) (c : call) (r : row) (id : Z) : Prop :=
  exists t e, m !! id = Some t /\ fp t = perform /\
    js_jobs s !! vpArg t = Some (set_end e (job_of (c_junk c) r)).

Definition row_index (r : row) : Z := I16 (UI16 (I16 (index r))).

Lemma inv_more (s s' : state) m l : js_inv perform s m l -> js_sched s' = js_sched s ->
  js_list s' = js_list s -> stListPtr s' = stListPtr s -> js_jobs s ⊆ js_jobs s' -> js_inv perform s' m l.
Proof using Type.
  intros [Hrel Hjl Hids Hpos Htask Hargs] Hs Hl Hp Hd.
  split; try done; [by rewrite Hs|by rewrite Hl, Hp|]. intros i id Hin.
  destruct (Htask i id Hin) as (t & ? & ? & ? & Hdom & ?). exists t. split_and!; try done; [|lia..].
  by apply (subseteq_dom _ _ Hd).
Qed.

Lemma fresh_job_pointer (s : state) : malloc (dom (js_jobs s)) <> NULL /\
  js_jobs s !! malloc (dom (js_jobs s)) = None.
Proof using Hmalloc.
  pose proof (Hmalloc (dom (js_jobs s))) as Hn. split; [done|].
  destruct (malloc_spec (dom (js_jobs s))) as [|[_ Hf]]; [done|]. by apply not_elem_of_dom.
Qed.

Lemma add_row_registers c r taken s m l : js_inv perform s m l -> ts_memory ->
  (in_service r = true -> readable c r taken) ->
  exists s' m', add_row c r s = Ret (Some s') /\ m ⊆ m' /\ js_jobs s ⊆ js_jobs s' /\
    if in_service r && taken
    then exists id, js_inv perform s' m' ((row_index r, id) :: l) /\ registered s' m' c r id
    else js_inv perform s' m' l.
Proof using Hmalloc.
  intros Hinv Hmem Hread. destruct (fresh_job_pointer s) as [Hp Hfresh]. unfold add_row.
  set (p := malloc (dom (js_jobs s))) in *. set (job := job_of (c_junk c) r) in *.
  set (s1 := with_jobs s (<[p := job]> (js_jobs s))).
  assert (Hsub : js_jobs s ⊆ js_jobs s1) by by apply insert_subseteq.
  assert (Hsub2 : forall e, js_jobs s ⊆ <[p := set_end e job]> (js_jobs s1)).
  { intros e. cbn [js_jobs s1 with_jobs]. rewrite insert_insert_eq. by apply insert_subseteq. }
  assert (Hinv1 : js_inv perform s1 m l) by by apply (inv_more s).
  destruct (in_service r); cbn [negb andb]; [|by exists s1, m].
  destruct (Hread eq_refl) as (Hne & u & ts & te & Hfill & Hu & Hfin & Hint & Hacc).
  pose proof (AddJob_registers tz perform (c_now c) (c_task c) p s1 m l job
    (octets (jobProcessMasterStartTime r) ++ [0]) u ts te Hinv1) as Hadd. cbv zeta in Hadd.
  rewrite Hacc in Hadd. unfold JS_UpdateJobToScheduler. rewrite (proj2 (Z.eqb_neq _ _) Hp), Z.eqb_refl.
  assert (Hreq : request s1 m l p job).
  { split_and!; [done|apply lookup_insert_eq|]. intros id t Hid Ht E.
    apply in_snd in Hid as (i & Hid). destruct (ji_task _ _ _ _ Hinv i id Hid) as (t' & Ht' & _ & _ & Hdom & _).
    rewrite Ht in Ht'. injection Ht' as <-. rewrite E in Hdom. by apply elem_of_dom in Hdom as [x Hx]; rewrite Hfresh in Hx. }
  assert (Hstart : pcJobMasStartTime job = Some (octets (jobProcessMasterStartTime r) ++ [0])).
  { cbn [job pcJobMasStartTime job_of]. by destruct (octets (jobProcessMasterStartTime r)). }
  specialize (Hadd Hreq Hstart Hfill Hu Hfin Hint Hmem (Hmalloc _)). destruct taken.
  - destruct Hadd as (id & s' & -> & Hinv' & Hid & e & Hjobs). rewrite !outcome_bind_ret.
    eexists _, _. split; [done|]. split; [by apply insert_subseteq|]. rewrite Hjobs. split; [done|].
    exists id. split; [done|]. exists (job_task tz perform (c_task c) p (iJobMasInterval job) u ts te), e.
    split; [apply lookup_insert_eq|]. split; [done|]. rewrite Hjobs. apply lookup_insert_eq.
  - destruct Hadd as (s' & -> & Hinv' & e & Hjobs). rewrite !outcome_bind_ret.
    exists s', m. split; [done|]. split; [done|]. by rewrite Hjobs.
Qed.

Lemma registered_mono (s s' : state) m m' c r id : registered s m c r id -> m ⊆ m' ->
  js_jobs s ⊆ js_jobs s' -> registered s' m' c r id.
Proof using Type.
  intros (t & e & Ht & Hf & Hj) Hm Hs. exists t, e. split_and!; [by eapply lookup_weaken|done|by eapply lookup_weaken].
Qed.

(** The rows in service whose task the scheduler takes, each with its place among
    the rows. *)
Variable taken : nat -> row -> bool.
Fixpoint serviced (n : nat) (rows : list row) : list (nat * row) :=
  match rows with
  | [] => []
  | r :: rows => if in_service r && taken n r then (n, r) :: serviced (S n) rows else serviced (S n) rows
  end.

(** The entries for rows and task identifiers, the last row first. *)
Definition entries (rs : list (nat * row)) (ids : list Z) : list (Z * Z) :=
  reverse (zip ((fun x => row_index x.2) <$> rs) ids).

Lemma add_rows_registers rows n s m l : js_inv perform s m l -> ts_memory ->
  (forall k r, rows !! k = Some r -> in_service r = true -> readable (calls (n + k)) r (taken (n + k) r)) ->
  exists s' m' ids, add_rows calls n rows s = Ret (Some s') /\ m ⊆ m' /\ js_jobs s ⊆ js_jobs s' /\
    js_inv perform s' m' (entries (serviced n rows) ids ++ l) /\
    Forall2 (fun x id => registered s' m' (calls x.1) x.2 id) (serviced n rows) ids.
Proof using Hmalloc.
  revert n s m l. induction rows as [|r rows IH]; intros n s m l Hinv Hmem Hread; cbn [serviced add_rows] in *.
  { by exists s, m, []. }
  destruct (add_row_registers (calls n) r (taken n r) s m l Hinv Hmem) as (s1 & m1 & -> & Hm & Hj & Hone).
  { intros E. pose proof (Hread 0%nat r eq_refl E) as Hr. by rewrite Nat.add_0_r in Hr. }
  assert (Hnext : forall k r', rows !! k = Some r' -> in_service r' = true ->
    readable (calls (S n + k)) r' (taken (S n + k) r')).
  { intros k r' Hk. rewrite Nat.add_succ_comm. by apply (Hread (S k)). }
  rewrite outcome_bind_ret. destruct (in_service r && taken n r).
  - destruct Hone as (id & Hinv1 & Hreg).
    destruct (IH (S n) s1 m1 _ Hinv1 Hmem Hnext) as (s' & m' & ids & -> & Hm' & Hj' & Hinv' & Hregs).
    exists s', m', (id :: ids). split_and!; [done|by etrans|by etrans| |].
    + unfold entries. cbn [fmap list_fmap zip zip_with snd]. rewrite reverse_cons, <- app_assoc. exact Hinv'.
    + constructor; [|done]. by apply (registered_mono s1 s' m1 m').
  - destruct (IH (S n) s1 m1 l Hone Hmem Hnext) as (s' & m' & ids & -> & Hm' & Hj' & Hrest).
    exists s', m', ids. split_and!; [done|by etrans|by etrans|apply Hrest..].
Qed.

(** C15: when the job scheduler starts and the agent serves the rows of the table of
    jobs, six at a time and behind them variables of other columns, the walk ends at
    the end of the table, and every row that is in service and whose task the scheduler
    takes has been registered: the list of jobs has one more entry for each of them, in
    front and the last row first, which leads through the task of the scheduler to a
    job with the values of the row.  The jobs and tasks there were remain. *)
Theorem table_of_jobs_registered rows pages fuel s m l :
  Forall row_ok rows -> Forall2 shows rows pages -> serves_jobs pages -> (length rows < fuel)%nat ->
  js_inv perform s m l -> ts_memory ->
  (forall k r, rows !! k = Some r -> in_service r = true -> readable (calls k) r (taken k r)) ->
  exists s' m' ids,
    JS_GetJobProcessMasterTableDetails tz perform fuel calls s = Ret (Some (NASC_SUCCESS, s')) /\
    m ⊆ m' /\ js_jobs s ⊆ js_jobs s' /\
    js_inv perform s' m' (entries (serviced 0 rows) ids ++ l) /\
    Forall2 (fun x id => registered s' m' (calls x.1) x.2 id) (serviced 0 rows) ids.
Proof using Hmalloc Hstrings.
  intros Hrows Hsh Hserves Hfuel Hinv Hmem Hread.
  destruct (add_rows_registers rows 0 s m l Hinv Hmem Hread) as (s' & m' & ids & Hadd & Hrest).
  exists s', m', ids. split; [|done]. unfold JS_GetJobProcessMasterTableDetails.
  apply (read_pages_shows rows pages fuel 0 0 None s s'); [done..|lia|lia|done].
Qed.
End Start.

(** ** An agent with eight rows

    Row 5 is not in service and row 6 is to run once, on a day that is over. *)
#[local] Existing Instance bump_allocator.

Definition octets_var (c : list Z) (i : Z) (x : column) : variable :=
  MkVariable (c ++ [i]) (Z.of_nat (length (octets x))) (octets x) None.
Definition number_var (c : list Z) (i x : Z) : variable := MkVariable (c ++ [i]) 8 [] (Some x).
Definition page_of (r : row) : list variable :=
  let i := index r in
  [octets_var jobProcessMasterID_variables_oid i (jobProcessMasterID r);
   octets_var jobProcessMasterName_variables_oid i (jobProcessMasterName r);
   number_var jobProcessMasterPeriodicInterval_variables_oid i (jobProcessMasterPeriodicInterval r);
   octets_var jobProcessMasterStartTime_variables_oid i (jobProcessMasterStartTime r);
   octets_var jobProcessMasterFinishTime_variables_oid i (jobProcessMasterFinishTime r);
   number_var jobProcessMasterCPUPercentUsage_variables_oid i (jobProcessMasterCPUPercentUsage r);
   number_var jobProcessMasterMemoryPercentUsage_variables_oid i (jobProcessMasterMemoryPercentUsage r);
   number_var jobProcessMasterStatus_variables_oid i (jobProcessMasterStatus r)].

Lemma page_shows r : shows r (page_of r).
Proof.
  do 8 eexists. split; [reflexivity|].
  unfold is_octets, is_number. split_and!; try done; apply firstn_all.
Qed.

Definition eight : list row :=
  [job_in 4; with_long COLUMN_STATUS 2 (job_in 5); with_long COLUMN_PERIODICINTERVAL 0 (job_in 6);
   job_in 7; job_in 8; job_in 9; job_in 10; job_in 11].
Definition eight_pages : list (list variable) := page_of <$> eight.
Definition behind : list variable :=
  [octets_var jobProcessMasterName_variables_oid 4 (jobProcessMasterName (job_in 4))].

#[local] Instance agent_of_eight : Session := agent_of MAX_REPETITIONS jobProcessMaster_columns eight_pages behind.

Lemma eight_ok : Forall row_ok eight.
Proof.
  repeat (constructor; [try apply row_ok_with_long; by apply job_in_ok|]). constructor.
Qed.
Lemma eight_served : serves_jobs eight_pages.
Proof.
  apply agent_serves; [done|]. intros n Hn. change (length eight_pages) with 8%nat in Hn.
  do 9 (destruct n as [|n]; [(by left) || (right; by split; vm_compute)|]). lia.
Qed.

Definition first_call : call := MkCall morning rich rich once_2005 0 job3.
Definition recurs (k : nat) (r : row) : bool := negb (jobProcessMasterPeriodicInterval r =? 0).
Definition start_reading : Z * tm := reading ([7; 213; 3; 1; 9; 45] ++ [0]).
Definition finish_reading : Z * tm := reading ([7; 213; 3; 1; 20; 8] ++ [0]).

Lemma eight_readable r : r ∈ eight -> readable 0 504 first_call r (recurs 0 r).
Proof.
  intros Hr. unfold eight in Hr. rewrite !elem_of_cons, elem_of_nil in Hr.
  destruct_or? Hr; try subst r; (split; [done|]);
    exists start_reading.1, start_reading.2, finish_reading.2;
    (split_and!; [vm_compute; reflexivity|by vm_compute| |by vm_compute|intros p; vm_compute; reflexivity]);
    right; eexists _, finish_reading.1; (split_and!; [reflexivity|vm_compute; reflexivity|by vm_compute]).
Qed.

Lemma table_of_jobs_registered_witness : exists s' m' ids,
  JS_GetJobProcessMasterTableDetails 0 504 9 (fun _ => first_call) (demo_js at_2008) =
    Ret (Some (NASC_SUCCESS, s')) /\
  js_inv 504 s' m' (entries (serviced recurs 0 eight) ids ++ [(3, 2)]) /\
  map (fun x => (x.1, index x.2)) (serviced recurs 0 eight) =
    [(0%nat, 4); (3%nat, 7); (4%nat, 8); (5%nat, 9); (6%nat, 10); (7%nat, 11)] /\
  length ids = 6%nat.
Proof.
  destruct (table_of_jobs_registered 0 504 (fun _ => first_call) bump_total (fun _ _ => eq_refl) recurs eight
    eight_pages 9 (demo_js at_2008) (tasks demo2_bks) [(3, 2)]) as (s' & m' & ids & Hget & _ & _ & Hinv & Hids).
  - apply eight_ok.
  - apply Forall2_fmap_r, Forall_Forall2_diag, Forall_true. apply page_shows.
  - apply eight_served.
  - simpl. lia.
  - apply demo_js_inv.
  - apply bump_total.
  - intros k r Hk _. apply eight_readable. by eapply list_elem_of_lookup_2.
  - exists s', m', ids. split_and!; [exact Hget|exact Hinv|by vm_compute|].
    by rewrite <- (Forall2_length _ _ _ Hids).
Defined.
