(* ===== verification/JobRun.v ===== *)
(** * The action of a job (JS_SpawnJobSched and what it calls, of
      src/Group2/Unix/JobSched/src/NASCenter_JS.c)

    The thread of a job that is due walks over the table of details, runs the
    scripts of the job one after the other, adds a line to the log for each, and
    sets the usage that was measured in the table of jobs. *)

From Stdlib Require Import Ascii String.
From S2P Require Import Prelude CTypes Heap SchedTypes SchedIface JobTime JobList JobSched CText Walk JobStart.
From stdpp Require Import list.
#[local] Open Scope Z_scope.

Definition C_MAX_SIZE : Z := 1000000.
Definition MAX_OID_LEN : nat := 128.
Definition MemUsage : text := text_of "1.3.6.1.4.1.3204.1.3.34.1.1.1.12".
Definition CPUUsage : text := text_of "1.3.6.1.4.1.3204.1.3.34.1.1.1.11".

Definition JobProcessDetailTable_variables_oid : list Z := [1;3;6;1;4;1;3204;1;3;34;1;2].
Definition jobProcessDetailID_variables_oid : list Z := [1;3;6;1;4;1;3204;1;3;34;1;2;1;2].
Definition jobProcessDetailScriptFile_variables_oid : list Z := [1;3;6;1;4;1;3204;1;3;34;1;2;1;3].
Definition jobProcessDetailStatus_variables_oid : list Z := [1;3;6;1;4;1;3204;1;3;34;1;2;1;4].

(** One detail of a job. *)
Record stJobMasterSched := MkJobSched {
  pcMasterId : option (list Z);
  pcMasterScriptFile : option (list Z);
  iStatus : Z
}.

(** ** What the thread does to others, and what it meets *)

(** A script has been started, the log has been written to its file and sent, a
    variable has been set in the agent. *)
Inductive event :=
| Ran (script : text)
| Wrote (s : text)
| Transferred
| SetVar (name : list Z) (type : Z) (value : text).

(** How waitpid returns, whose second argument, where the status is to be stored, is
    not initialised. *)
Inductive waited := Exited | Interrupted | NotWaited.

(** One round of the loop that measures: room for two names, the answer to the
    request for two values, and waitpid. *)
Record round := MkRound {
  r_room : bool * bool;
  r_reply : list (list Z) -> option reply;
  r_wait : waited
}.

(** The system, as one call of JS_DoJobSched meets it: which files are there, the
    result of fork, the rounds, whether there is room for the name and for the two
    names to set, whether the log opens again, and whether the uninitialised pointer
    cMastName is not null. *)
Record host := MkHost {
  stat : text -> bool;
  fork : Z;
  rounds : list round;
  name_room : bool;
  set_room : bool * bool;
  fopen : bool;
  cMastName : bool
}.

(** The job, the end of whose memory is with the scheduler's thread, and the globals
    of the log. *)
Record action := MkAction {
  a_job : stJobMaster;
  charBuff : text;
  fpForJS : bool;
  JobSchedServerIP : Z * Z * Z * Z;
  events : list event
}.
Definition with_job (j : stJobMaster) (s : action) : action :=
  MkAction j (charBuff s) (fpForJS s) (JobSchedServerIP s) (events s).
Definition with_log (b : text) (o : bool) (s : action) : action :=
  MkAction (a_job s) b o (JobSchedServerIP s) (events s).
Definition note (e : event) (s : action) : action :=
  MkAction (a_job s) (charBuff s) (fpForJS s) (JobSchedServerIP s) (events s ++ [e]).

Definition set_usage (cpu memory : Z) (j : stJobMaster) : stJobMaster :=
  MkJob (iJobMasIndex j) (pcJobMasId j) (pcJobMasName j) (iJobMasInterval j) (pcJobMasStartTime j)
    (pcJobMasFinishTime j) (uiEndTimeinNum j) memory cpu (iJobMasStatus j).

(** ** Strings *)
Definition cstr (b : option (list Z)) : outcome text :=
  match b with None => Crash | Some b => get_str b 0 end.
Definition sprintf (n : nat) (s : text) : outcome text :=
  if bool_decide (length s < n)%nat then mret s else Crash.

Section JobRun.
(** The width of long, the offset of the zone, and what is in the arrays for names. *)
Variables (lw tz : Z) (stack : list Z).

Definition readoid (s : text) : outcome (option (list Z)) :=
  '(n, name) ← read_numbers lw MAX_OID_LEN s [] 0 stack;
  mret (match n with None => None | Some n => Some (take n name) end).

(** ** JS_CheckScriptAvail, JS_GetCPUUtilization *)
Definition JS_CheckScriptAvail (h : host) (pcScript : option (list Z)) : outcome ENASCenterError :=
  match pcScript with
  | None => mret NASC_FAILURE
  | Some b => s ← get_str b 0; mret (if stat h s then NASC_SUCCESS else NASC_FAILURE)
  end.

Definition oidCPUPercent : text := text_of ".1.3.6.1.4.1.3204.1.3.33.1.1.15".
Definition oidMemUtil : text := text_of ".1.3.6.1.4.1.3204.1.3.33.1.1.26".

Definition in_short (v : variable) (old : Z) : Z :=
  match val_integer v with Some x => I16 x | None => old end.

(** The loop, until waitpid is not interrupted. *)
Fixpoint usage_rounds (pid : Z) (rs : list round) (j : stJobMaster)
    : outcome (ENASCenterError * stJobMaster) :=
  match rs with
  | [] => OutOfFuel
  | r :: rs =>
      oidCPU ← sprintf 40 (oidCPUPercent ++ 46 :: dec pid);
      oidMem ← sprintf 40 (oidMemUtil ++ 46 :: dec pid);
      if negb (fst (r_room r) && snd (r_room r)) then mret (NASC_FAILURE, j) else
      cpu ← readoid oidCPU;
      match cpu with
      | None => mret (NASC_FAILURE, j)
      | Some cpu =>
      memory ← readoid oidMem;
      match memory with
      | None => mret (NASC_FAILURE, j)
      | Some memory =>
      vars ← variables_of [ASN_NULL; SNMP_NOSUCHINSTANCE; SNMP_NOSUCHOBJECT] (r_reply r [cpu; memory]);
      match vars with
      | None => mret (NASC_FAILURE, j)
      | Some (v1 :: v2 :: _) =>
          let j := set_usage (in_short v1 (iJobMasCPUUsage j)) (in_short v2 (iJobMasMemoryUsage j)) j in
          match r_wait r with
          | Exited => mret (NASC_SUCCESS, j)
          | Interrupted => usage_rounds pid rs j
          | NotWaited => mret (NASC_FAILURE, j)
          end
      | Some _ => Crash
      end end end
  end.

Definition JS_GetCPUUtilization (h : host) (pstjob : stJobMasterSched) (s : action)
    : outcome (ENASCenterError * action) :=
  match pcMasterScriptFile pstjob with
  | None => mret (NASC_FAILURE, s)
  | Some b =>
      if fork h =? -1 then mret (NASC_FAILURE, s) else
      script ← get_str b 0;
      '(r, j) ← usage_rounds (fork h) (rounds h) (a_job s);
      mret (r, with_job j (note (Ran script) s))
  end.

(** ** JS_DoSNMPSet; what the agent answers does not matter *)
Definition JS_DoSNMPSet (room : bool) (OID : text) (value iIndex : Z) (s : action)
    : outcome (ENASCenterError * action) :=
  cOIDForSet ← sprintf MAX_OID_LEN (OID ++ 46 :: dec iIndex);
  if negb room then mret (NASC_FAILURE, s) else
  name ← readoid cOIDForSet;
  match name with
  | None => mret (NASC_FAILURE, s)
  | Some name => cpValue ← sprintf 10 (dec value); mret (NASC_SUCCESS, note (SetVar name 105 cpValue) s)
  end.

(** ** JS_DoJobSched *)
Definition date_text (t : tm) : text :=
  text_of "Year " ++ dec (tm_year t) ++ text_of " Mon " ++ dec (tm_mon t + 1) ++ text_of " Day " ++
  dec (tm_mday t) ++ text_of " Hour" ++ dec (tm_hour t) ++ text_of " Min" ++ dec (tm_min t) ++
  text_of " Sec" ++ dec (tm_sec t).

Definition job_date (b : option (list Z)) : outcome text :=
  match b with
  | None => Crash
  | Some b => '(_, t) ← JS_FillTimeStruct tz b; sprintf 60 (date_text t)
  end.

(** The line for a script that has been run. *)
Definition run_line (h : host) (j : stJobMaster) : outcome text :=
  cStartDate ← job_date (pcJobMasStartTime j);
  cEndDate ← job_date (pcJobMasFinishTime j);
  id ← cstr (pcJobMasId j);
  if negb (name_room h) then Crash else
  name ← match pcJobMasName j with None => mret (text_of "None") | Some b => get_str b 0 end;
  sprintf 10000 (cStartDate ++ [59] ++ cEndDate ++ [59] ++ dec (iJobMasIndex j) ++ [59] ++ id ++ [59] ++
    name ++ [59] ++ dec (iJobMasCPUUsage j) ++ [59] ++ dec (iJobMasStatus j) ++ [32; 10]).

(** The line for a script that is not there. *)
Definition missing_line (j : stJobMaster) : outcome text :=
  id ← cstr (pcJobMasId j);
  sprintf 10000 (text_of "No Script file is avaliable for " ++ id ++ text_of " master ID" ++ [10]).

Definition strcat_log (line : text) (s : action) : outcome action :=
  if Z.of_nat (length (charBuff s) + length line) <? C_MAX_SIZE
  then mret (with_log (charBuff s ++ line) (fpForJS s) s) else Crash.

Definition log_full (s : action) : bool := C_MAX_SIZE - 200 <? Z.of_nat (length (charBuff s)).

(** The log goes to its file, and the file to the server. *)
Definition send_log (h : host) (s : action) : outcome action :=
  let s1 := if fpForJS s then note (Wrote (charBuff s)) s else s in
  let '(a, b, c, d) := JobSchedServerIP s in
  _ ← sprintf 15 (dotted a b c d);
  mret (with_log [] (fopen h) (note Transferred s1)).

Definition JS_DoJobSched (h : host) (pstjob : stJobMasterSched) (s : action) : outcome action :=
  iResult ← JS_CheckScriptAvail h (pcMasterScriptFile pstjob);
  let iNoScriptFlg := bool_decide (iResult = NASC_FAILURE) in
  '(line, s) ← (if iNoScriptFlg then t ← missing_line (a_job s); mret (Some t, s)
                else '(r, s) ← JS_GetCPUUtilization h pstjob s;
                     if bool_decide (r = NASC_FAILURE) then mret (None, s)
                     else t ← run_line h (a_job s); mret (Some t, s));
  match line with
  | None => mret s
  | Some line =>
      s ← strcat_log line s;
      let full := log_full s in
      s ← (if full then send_log h s else mret s);
      if iNoScriptFlg then (if cMastName h then Crash else mret s)
      else if full && negb (fopen h) then mret s else
        let j := a_job s in
        '(_, s) ← JS_DoSNMPSet (fst (set_room h)) CPUUsage (iJobMasCPUUsage j) (I16 (iJobMasIndex j)) s;
        '(_, s) ← JS_DoSNMPSet (snd (set_room h)) MemUsage (iJobMasMemoryUsage j) (I16 (iJobMasIndex j)) s;
        mret s
  end.

(** ** JS_SpawnJobSched *)
Context `{Session}.

(** What the treatment of a detail meets. *)
Record detail_call := MkDetailCall { d_room : bool; d_strings : bool * bool; d_host : host }.

(** The test of a detail: in service, and without an id or with that of the job. *)
Definition detail_due (pstjob : stJobMasterSched) (j : stJobMaster) : outcome bool :=
  if (iStatus pstjob =? 2) || (iStatus pstjob =? 0) then mret false else
  match pcMasterId pstjob with
  | None => mret true
  | Some b =>
      id ← get_str b 0; jid ← cstr (pcJobMasId j); mret (bool_decide (id = jid))
  end.

(** A detail, with the variables left and the names for the next request; [None]:
    the thread ends. *)
Definition run_detail (c : detail_call) (vars : list variable) (s : action)
    : outcome (option (list variable * list (list Z)) * action) :=
  match vars with
  | [] => Crash
  | v1 :: vars =>
      if negb (d_room c) then mret (None, s) else
      '(r1, id) ← JS_FillStruct (fst (d_strings c)) (val_len v1) (val_string v1);
      if bool_decide (r1 = NASC_INSUFFICIENT_MEMORY) then mret (None, s) else
      match vars with
      | [] => Crash
      | v2 :: vars =>
          '(r2, script) ← JS_FillStruct (snd (d_strings c)) (val_len v2) (val_string v2);
          if bool_decide (r2 = NASC_INSUFFICIENT_MEMORY) then mret (None, s) else
          match vars with
          | [] => Crash
          | v3 :: vars =>
              let pstjob := MkJobSched id script (in_short v3 0) in
              due ← detail_due pstjob (a_job s);
              s ← (if (due : bool) then JS_DoJobSched (d_host c) pstjob s else mret s);
              mret (Some (vars, map name [v1; v2; v3]), s)
          end
      end
  end.

Inductive details_end :=
| ThreadEnds (s : action)
| TableEnds (s : action)
| MoreDetails (n : nat) (names : list (list Z)) (s : action).

Fixpoint run_details (calls : nat -> detail_call) (reps n : nat) (names : list (list Z))
    (vars : list variable) (s : action) : outcome details_end :=
  match reps with
  | O => mret (MoreDetails n names s)
  | S reps =>
      match vars with
      | [] => Crash
      | v :: _ =>
          if negb (under jobProcessDetailID_variables_oid v) then mret (TableEnds s) else
          '(r, s) ← run_detail (calls n) vars s;
          match r with
          | None => mret (ThreadEnds s)
          | Some (vars, names) => run_details calls reps (S n) names vars s
          end
      end
  end.

Fixpoint walk_details (fuel : nat) (calls : nat -> detail_call) (k n : nat) (names : list (list Z))
    (s : action) : outcome action :=
  match fuel with
  | O => OutOfFuel
  | S fuel =>
      vars ← variables_of no_value (getbulk k names);
      match vars with
      | None | Some [] => mret s
      | Some ((v :: _) as vars) =>
          if negb (under JobProcessDetailTable_variables_oid v) then mret s else
          e ← run_details calls MAX_REPETITIONS n names vars s;
          match e with
          | ThreadEnds s | TableEnds s => mret s
          | MoreDetails n names s => walk_details fuel calls (S k) n names s
          end
      end
  end.

Definition jobProcessDetail_columns : list (list Z) :=
  [jobProcessDetailID_variables_oid; jobProcessDetailScriptFile_variables_oid;
   jobProcessDetailStatus_variables_oid].

(** [now] is the clock in seconds, JS_GetCurrentTime. *)
Definition JS_SpawnJobSched (fuel : nat) (calls : nat -> detail_call) (now : Z) (s : action)
    : outcome action :=
  if uiEndTimeinNum (a_job s) <? now then mret s
  else walk_details fuel calls 0 0 jobProcessDetail_columns s.
End JobRun.
