(* ===== verification/JobRunProps.v ===== *)
(** * What the action of a job does

    The scripts of a job are run one after the other, each once, and the usage that
    was measured is set in the table of jobs, which takes it without a trap. *)

From Stdlib Require Import Ascii String.
From S2P Require Import Prelude CTypes Heap SchedTypes SchedIface JobTime JobList JobSched JobTrap CText Walk JobStart.
From S2P Require Import JobTable JobTableProofs JobStartProps JobRun.
From stdpp Require Import list.
#[local] Open Scope Z_scope.

(** ** Strings and numbers *)
Lemma get_str_terminated s : nonzero s -> get_str (s ++ [0]) 0 = Ret s.
Proof. intros Hs. by apply (get_str_at (s ++ [0]) 0 s []). Qed.
Lemma sprintf_fits n s : (length s < n)%nat -> sprintf n s = Ret s.
Proof. intros Hl. unfold sprintf. by rewrite bool_decide_eq_true_2. Qed.

Lemma dec_short n x : 0 <= x < 10 ^ Z.of_nat (S n) -> (S n <= 20)%nat -> (length (dec x) <= S n)%nat.
Proof.
  intros Hx Hn. unfold dec, dec_u. rewrite (proj2 (Z.ltb_ge _ _)) by lia. by apply dec_digits_short.
Qed.
Lemma dec_I16_short x : (length (dec (I16 x)) <= 6)%nat.
Proof.
  pose proof (I16_range x) as Hx. unfold dec, dec_u. destruct (Z.ltb_spec (I16 x) 0).
  - cbn [length]. pose proof (dec_digits_short 4 20 (- I16 x)). lia.
  - pose proof (dec_digits_short 4 20 (I16 x)). lia.
Qed.
Lemma numbers_small max l : (10 <= max)%nat -> Forall (fun x => 0 <= x < 2 ^ 31) l -> numbers max l.
Proof.
  intros Hm Hl. apply (Forall_impl _ _ _ Hl). intros x Hx. split; [done|].
  pose proof (dec_short 9 x). lia.
Qed.

(** An answer that is in order. *)
Definition in_order (missing : list Z) (a : reply) : Prop :=
  errstat a = 0 /\ errindex a = 0 /\ first_type a ∉ missing /\ reply_vars a <> [].
Lemma variables_of_in_order missing a : in_order missing a ->
  variables_of missing (Some a) = Ret (Some (reply_vars a)).
Proof.
  intros (He & Hi & Ht & Hv). unfold variables_of. rewrite He, Hi.
  change (negb (0 =? 0) || negb (0 =? 0)) with false. cbv iota.
  destruct (reply_vars a) as [|v vs]; [done|].
  replace (existsb (Z.eqb (first_type a)) missing) with false; [done|].
  symmetry. apply not_true_iff_false. intros (x & Hx & Heq%Z.eqb_eq)%existsb_exists.
  apply Ht. rewrite Heq. by apply list_elem_of_In.
Qed.

Section Lines.
Variable tz : Z.

(** ** The job and its line in the log *)

(** A job with an id and a name, with times that can be printed, in a row whose index
    is not negative as a short. *)
Record ready (j : stJobMaster) (id nm : text) : Prop := {
  rd_id : pcJobMasId j = Some (id ++ [0]); rd_id_nonzero : nonzero id;
  rd_name : pcJobMasName j = Some (nm ++ [0]); rd_name_nonzero : nonzero nm;
  rd_start : exists t, job_date tz (pcJobMasStartTime j) = Ret t;
  rd_finish : exists t, job_date tz (pcJobMasFinishTime j) = Ret t;
  rd_index : 0 <= iJobMasIndex j < 2 ^ 15;
  rd_status : exists x, iJobMasStatus j = I16 x
}.
Lemma ready_usage j id nm c m : ready j id nm -> ready (set_usage c m j) id nm.
Proof. intros [? ? ? ? ? ? ? ?]. by constructor. Qed.

Definition line_max (id nm : text) : nat := 200 + length id + length nm.

Lemma job_date_length b t : job_date tz b = Ret t -> (length t < 60)%nat.
Proof.
  unfold job_date. destruct b as [b|]; [|done]. destruct (JS_FillTimeStruct tz b) as [[u x]| |]; [|done..].
  rewrite outcome_bind_ret. unfold sprintf. case_bool_decide; [|done]. by intros [= <-].
Qed.
Lemma run_line_fits h j id nm c : ready j id nm -> name_room h = true -> (line_max id nm < 10000)%nat ->
  iJobMasCPUUsage j = I16 c -> exists t, run_line tz h j = Ret t /\ (length t <= line_max id nm)%nat.
Proof.
  intros [Hid Hidn Hnm Hnmn (t1 & H1) (t2 & H2) Hi (x & Hx)] Hroom Hmax Hc. unfold run_line.
  rewrite H1, H2, Hid, Hnm, Hroom, Hc, Hx, !outcome_bind_ret. cbn [cstr negb].
  rewrite !get_str_terminated, !outcome_bind_ret by done.
  apply job_date_length in H1, H2. pose proof (dec_I16_short c). pose proof (dec_I16_short x).
  pose proof (dec_short 4 (iJobMasIndex j)). unfold line_max in *.
  rewrite sprintf_fits; [eexists; split; [done|]|]; rewrite !length_app; cbn [length]; lia.
Qed.
Lemma missing_line_fits j id nm : ready j id nm -> (line_max id nm < 10000)%nat ->
  exists t, missing_line j = Ret t /\ (length t <= line_max id nm)%nat.
Proof.
  intros [Hid Hidn _ _ _ _ _ _] Hmax. unfold missing_line. rewrite Hid. cbn [cstr].
  rewrite get_str_terminated, outcome_bind_ret by done. unfold line_max in *.
  assert (length (text_of "No Script file is avaliable for ") = 32%nat) as L1 by done.
  assert (length (text_of " master ID") = 10%nat) as L2 by done.
  rewrite sprintf_fits; [eexists; split; [done|]|]; rewrite !length_app, L1, L2; cbn [length]; lia.
Qed.

(** The log has room for [n] more characters before it is sent. *)
Definition log_room (n : nat) (s : action) : Prop :=
  Z.of_nat (length (charBuff s) + n) <= C_MAX_SIZE - 200.

Lemma strcat_log_fits line s : log_room (length line) s ->
  strcat_log line s = Ret (with_log (charBuff s ++ line) (fpForJS s) s) /\
  log_full (with_log (charBuff s ++ line) (fpForJS s) s) = false.
Proof.
  unfold log_room, strcat_log, log_full, C_MAX_SIZE. intros Hl. cbn [charBuff with_log]. rewrite length_app.
  rewrite (proj2 (Z.ltb_lt _ _)), (proj2 (Z.ltb_ge _ _)) by lia. done.
Qed.

(** ** One script *)

(** What the thread has done between two states, besides a few lines in the log. *)
Record acts (s s' : action) (es : list event) (n : nat) : Prop := {
  ac_events : events s' = events s ++ es;
  ac_job : exists c m, a_job s' = set_usage c m (a_job s);
  ac_log : (length (charBuff s') <= length (charBuff s) + n)%nat;
  ac_file : fpForJS s' = fpForJS s;
  ac_ip : JobSchedServerIP s' = JobSchedServerIP s
}.
Lemma acts_refl s : acts s s [] 0.
Proof.
  split; [by rewrite app_nil_r| |lia|done..]. exists (iJobMasCPUUsage (a_job s)), (iJobMasMemoryUsage (a_job s)).
  by destruct (a_job s).
Qed.
Lemma acts_trans s1 s2 s3 es1 es2 n1 n2 : acts s1 s2 es1 n1 -> acts s2 s3 es2 n2 ->
  acts s1 s3 (es1 ++ es2) (n1 + n2).
Proof.
  intros [E1 (c1 & m1 & J1) L1 F1 I1] [E2 (c2 & m2 & J2) L2 F2 I2].
  split; [by rewrite E2, E1, <- app_assoc| |lia|congruence..]. exists c2, m2. by rewrite J2, J1.
Qed.
Lemma acts_ready s s' es n id nm : acts s s' es n -> ready (a_job s) id nm -> ready (a_job s') id nm.
Proof. intros [_ (c & m & ->) _ _ _]. apply ready_usage. Qed.

End Lines.

Section Run.
Variables (lw tz : Z) (stack : list Z).
Hypothesis Hlw : lw = 32 \/ lw = 64.
Hypothesis Hstack : length stack = MAX_OID_LEN.

Lemma readoid_oid l : l <> [] -> Forall (fun x => 0 <= x < 2 ^ 31) l -> (length l <= MAX_OID_LEN)%nat ->
  readoid lw stack (number_text l) = Ret (Some l) /\ readoid lw stack (46 :: number_text l) = Ret (Some l).
Proof using Hlw Hstack.
  intros Hne Hl Hlen. assert (readoid lw stack (number_text l) = Ret (Some l)) as Hr; [|by split].
  unfold readoid. change stack with ([] ++ stack) at 1.
  rewrite (read_numbers_dotted lw Hlw) by (done || lia || by apply numbers_small; [unfold MAX_OID_LEN; lia|]).
  rewrite outcome_bind_ret. cbn [app]. rewrite Nat.add_0_l, take_app_length. done.
Qed.

(** ** Setting the usage *)
Definition column (c : Z) : list Z := [1;3;6;1;4;1;3204;1;3;34;1;1;1;c].

Lemma DoSNMPSet_sets c v i s : 0 <= c < 100 -> 0 <= i < 2 ^ 15 ->
  JS_DoSNMPSet lw stack true (number_text (column c)) (I16 v) i s =
    Ret (NASC_SUCCESS, note (SetVar (column c ++ [i]) 105 (dec (I16 v))) s).
Proof using Hlw Hstack.
  intros Hc Hi. unfold JS_DoSNMPSet. rewrite <- number_text_snoc by done.
  destruct (readoid_oid (column c ++ [i])) as [Hread _]; [done| |unfold MAX_OID_LEN; simpl; lia|].
  { unfold column. repeat constructor; lia. }
  pose proof (dec_I16_short v) as Hv.
  rewrite (sprintf_fits MAX_OID_LEN), outcome_bind_ret.
  - cbn [negb]. rewrite Hread, outcome_bind_ret, (sprintf_fits 10), outcome_bind_ret by lia. done.
  - rewrite number_text_snoc by done. rewrite length_app. cbn [length].
    pose proof (dec_length i). assert (length (number_text (column c)) <= 60)%nat; [|unfold MAX_OID_LEN; lia].
    change (column c) with ([1;3;6;1;4;1;3204;1;3;34;1;1;1] ++ [c]). rewrite number_text_snoc, length_app by done.
    cbn [length]. change (length (number_text [1;3;6;1;4;1;3204;1;3;34;1;1;1])) with 29%nat.
    pose proof (dec_length c). lia.
Qed.

(** ** Measuring *)

(** The rounds end with the exit of the script, and the last answer has the usage. *)
Definition answers (r : round) (cpu memory : Z) : Prop :=
  forall names, exists a v1 v2 vs, r_reply r names = Some a /\
    in_order [ASN_NULL; SNMP_NOSUCHINSTANCE; SNMP_NOSUCHOBJECT] a /\ reply_vars a = v1 :: v2 :: vs /\
    val_integer v1 = Some cpu /\ val_integer v2 = Some memory.
Fixpoint finishes (rs : list round) (cpu memory : Z) : Prop :=
  match rs with
  | [] => False
  | r :: rs => r_room r = (true, true) /\
      match r_wait r with
      | Exited => answers r cpu memory
      | Interrupted => (exists c m, answers r c m) /\ finishes rs cpu memory
      | NotWaited => False
      end
  end.

Definition pid_ok (pid : Z) : Prop := 0 <= pid < 10 ^ 7.

Lemma usage_name_read base n l pid : pid_ok pid -> base = 46 :: number_text l -> l <> [] ->
  Forall (fun x => 0 <= x < 2 ^ 31) l -> (length l < MAX_OID_LEN)%nat -> (length base <= 31)%nat -> n = 40%nat ->
  sprintf n (base ++ 46 :: dec pid) = Ret (46 :: number_text (l ++ [pid])) /\
  readoid lw stack (46 :: number_text (l ++ [pid])) = Ret (Some (l ++ [pid])).
Proof using Hlw Hstack.
  intros Hp -> Hne Hl Hlen Hbase ->. unfold pid_ok in Hp. rewrite number_text_snoc by done. split.
  - rewrite sprintf_fits; [done|]. pose proof (dec_short 6 pid). rewrite length_app. cbn [length]. simpl in Hbase. lia.
  - rewrite <- number_text_snoc by done. apply readoid_oid; [by destruct l| |rewrite length_app; simpl; lia].
    apply Forall_app_2; [done|]. repeat constructor; lia.
Qed.

Lemma usage_rounds_finish pid rs cpu memory j : pid_ok pid -> finishes rs cpu memory ->
  usage_rounds lw stack pid rs j = Ret (NASC_SUCCESS, set_usage (I16 cpu) (I16 memory) j).
Proof using Hlw Hstack.
  intros Hp. set (base c := [1;3;6;1;4;1;3204;1;3;33;1;1;c]).
  assert (Hname : forall c, (c = 15 \/ c = 26) -> forall b, b = 46 :: number_text (base c) ->
    sprintf 40 (b ++ 46 :: dec pid) = Ret (46 :: number_text (base c ++ [pid])) /\
    readoid lw stack (46 :: number_text (base c ++ [pid])) = Ret (Some (base c ++ [pid]))).
  { intros c Hc b Hb. apply usage_name_read; [done..| | | |done].
    - unfold base. repeat constructor; lia.
    - unfold MAX_OID_LEN. simpl. lia.
    - subst b. by destruct Hc as [->| ->]; vm_compute; lia. }
  destruct (Hname 15 ltac:(by left) oidCPUPercent ltac:(vm_compute; reflexivity)) as [C1 C2].
  destruct (Hname 26 ltac:(by right) oidMemUtil ltac:(vm_compute; reflexivity)) as [M1 M2].
  revert j. induction rs as [|r rs IH]; intros j Hf; [done|]. destruct Hf as [Hroom Hw]. cbn [usage_rounds].
  rewrite C1, outcome_bind_ret, M1, outcome_bind_ret, Hroom. cbn [fst snd andb negb].
  rewrite C2, outcome_bind_ret, M2, outcome_bind_ret.
  assert (forall c m, answers r c m -> exists v1 v2 vs,
    variables_of [ASN_NULL; SNMP_NOSUCHINSTANCE; SNMP_NOSUCHOBJECT]
      (r_reply r [base 15 ++ [pid]; base 26 ++ [pid]]) = Ret (Some (v1 :: v2 :: vs)) /\
    val_integer v1 = Some c /\ val_integer v2 = Some m) as Hans.
  { intros c m Ha. destruct (Ha [base 15 ++ [pid]; base 26 ++ [pid]]) as (a & v1 & v2 & vs & -> & Ho & Hv & H1 & H2).
    exists v1, v2, vs. rewrite variables_of_in_order, Hv by done. by split. }
  destruct (r_wait r); [| |done].
  - destruct (Hans _ _ Hw) as (v1 & v2 & vs & -> & H1 & H2). rewrite outcome_bind_ret.
    unfold in_short. by rewrite H1, H2.
  - destruct Hw as [(c & m & Ha) Hrest]. destruct (Hans _ _ Ha) as (v1 & v2 & vs & -> & H1 & H2).
    rewrite outcome_bind_ret, IH by done. done.
Qed.

Definition usage_events (i cpu memory : Z) : list event :=
  [SetVar (column 11 ++ [i]) 105 (dec (I16 cpu)); SetVar (column 12 ++ [i]) 105 (dec (I16 memory))].

(** A system on which scripts run to their end, and what it measures. *)
Record host_ok (h : host) (cpu memory : Z) : Prop := {
  ho_pid : pid_ok (fork h);
  ho_rounds : finishes (rounds h) cpu memory;
  ho_name : name_room h = true;
  ho_set : set_room h = (true, true)
}.

Definition available (h : host) (script : text) : bool := bool_decide (script <> []) && stat h script.

Lemma DoJobSched_acts h mid st script s id nm cpu memory : ready tz (a_job s) id nm ->
  (line_max id nm < 10000)%nat -> nonzero script -> host_ok h cpu memory -> log_room (line_max id nm) s ->
  let run := JS_DoJobSched lw tz stack h (MkJobSched mid (kept script None) st) s in
  if negb (available h script) && cMastName h then run = Crash
  else exists s', run = Ret s' /\
    acts s s' (if available h script then Ran script :: usage_events (iJobMasIndex (a_job s)) cpu memory else [])
      (line_max id nm).
Proof using Hlw Hstack.
  intros Hr Hmax Hnz [Hp Hf Hnr Hset] Hroom run. subst run. unfold JS_DoJobSched. cbn [pcMasterScriptFile].
  assert (JS_CheckScriptAvail h (kept script None) =
    Ret (if available h script then NASC_SUCCESS else NASC_FAILURE)) as ->.
  { unfold available. destruct script as [|x sc]; [done|]. unfold kept, JS_CheckScriptAvail.
    rewrite get_str_terminated by done. rewrite outcome_bind_ret, bool_decide_eq_true_2 by done. done. }
  rewrite outcome_bind_ret. cbv zeta. destruct (available h script) eqn:Hav; cbn [negb andb].
  - rewrite bool_decide_eq_false_2 by done. cbn [pcMasterScriptFile].
    assert (kept script None = Some (script ++ [0])) as -> by (unfold available in Hav; by destruct script).
    unfold JS_GetCPUUtilization. cbn [pcMasterScriptFile]. rewrite (proj2 (Z.eqb_neq _ _)) by (unfold pid_ok in Hp; lia).
    rewrite get_str_terminated, outcome_bind_ret by done. cbn [a_job note].
    rewrite (usage_rounds_finish _ _ _ _ _ Hp Hf), !outcome_bind_ret.
    rewrite (bool_decide_eq_false_2 (NASC_SUCCESS = NASC_FAILURE)) by done.
    set (j := set_usage (I16 cpu) (I16 memory) (a_job s)).
    assert (ready tz j id nm) as Hj by by apply ready_usage.
    destruct (run_line_fits tz h j id nm cpu Hj Hnr Hmax eq_refl) as (line & Hline & Hlen).
    cbn [a_job with_job]. rewrite Hline, !outcome_bind_ret.
    destruct (strcat_log_fits line (with_job j (note (Ran script) s))) as [-> Hfull];
      [unfold log_room in *; cbn [charBuff with_job note]; lia|].
    rewrite outcome_bind_ret, Hfull, outcome_bind_ret. cbn [andb a_job with_log with_job].
    pose proof (rd_index _ _ _ _ Hr) as Hidx. rewrite Hset. cbn [fst snd].
    change (iJobMasIndex j) with (iJobMasIndex (a_job s)). rewrite (I16_id (iJobMasIndex _)) by lia.
    change CPUUsage with (number_text (column 11)). change MemUsage with (number_text (column 12)).
    change (iJobMasCPUUsage j) with (I16 cpu). change (iJobMasMemoryUsage j) with (I16 memory).
    rewrite (DoSNMPSet_sets 11), outcome_bind_ret by lia. rewrite (DoSNMPSet_sets 12), outcome_bind_ret by lia.
    eexists. split; [done|]. split; cbn -[line_max]; [|by eexists _, _|rewrite length_app; lia|done..].
    by rewrite <- !app_assoc.
  - rewrite bool_decide_eq_true_2 by done.
    destruct (missing_line_fits tz (a_job s) id nm Hr Hmax) as (line & Hline & Hlen). rewrite Hline, !outcome_bind_ret.
    destruct (strcat_log_fits line s) as [-> Hfull]; [unfold log_room in *; lia|].
    rewrite outcome_bind_ret, Hfull, outcome_bind_ret. destruct (cMastName h); [done|]. eexists. split; [done|].
    destruct (acts_refl s) as [He Hj Hl Hf' Hi]. split; cbn -[line_max]; [done..|rewrite length_app; lia|done|done].
Qed.

(** ** The details of a job *)

(** A row of the table of details, and the three variables that show it. *)
Record detail := MkDetail { d_index : Z; d_id : text; d_script : text; d_status : Z }.
Definition shows_detail (d : detail) (vs : list variable) : Prop :=
  exists v1 v2 v3, vs = [v1; v2; v3] /\
    is_octets jobProcessDetailID_variables_oid (d_index d) (d_id d) v1 /\
    is_octets jobProcessDetailScriptFile_variables_oid (d_index d) (d_script d) v2 /\
    is_number jobProcessDetailStatus_variables_oid (d_index d) (d_status d) v3.
Record detail_ok (d : detail) : Prop := {
  dk_id : nonzero (d_id d); dk_script : nonzero (d_script d);
  dk_id_length : Z.of_nat (length (d_id d)) < 32768;
  dk_script_length : Z.of_nat (length (d_script d)) < 32768
}.

(** A detail is of the job if it is in service and has the id of the job or none. *)
Definition due (id : text) (d : detail) : bool :=
  negb ((I16 (d_status d) =? 2) || (I16 (d_status d) =? 0)) &&
  (bool_decide (d_id d = []) || bool_decide (d_id d = id)).

Definition detail_events (i : Z) (id : text) (h : host) (usage : Z * Z) (d : detail) : list event :=
  if due id d && available h (d_script d) then Ran (d_script d) :: usage_events i usage.1 usage.2 else [].

(** A detail whose script is missing ends with the free of an uninitialised pointer. *)
Definition frees_garbage (id : text) (h : host) (d : detail) : bool :=
  due id d && (negb (available h (d_script d)) && cMastName h).

(** What is met at the [n]-th detail: memory, and a system that is in order. *)
Definition call_ok (c : detail_call) (usage : Z * Z) : Prop :=
  d_room c = true /\ d_strings c = (true, true) /\ host_ok (d_host c) usage.1 usage.2.

Lemma detail_due_spec id nm script d j : ready tz j id nm -> detail_ok d ->
  detail_due (MkJobSched (kept (d_id d) None) script (I16 (d_status d))) j = Ret (due id d).
Proof using Type.
  intros [Hid Hidn _ _ _ _ _ _] [Hd _ _ _]. unfold detail_due, due. cbn [iStatus pcMasterId].
  destruct (_ || _); [done|]. cbn [negb andb]. destruct (d_id d) as [|x l] eqn:E; [done|].
  unfold kept. rewrite Hid. cbn [cstr]. rewrite !get_str_terminated, !outcome_bind_ret by (done || by rewrite <- E).
  by rewrite (bool_decide_eq_false_2 (x :: l = [])) by done.
Qed.

Lemma run_detail_acts c usage d vs rest s id nm : ready tz (a_job s) id nm -> (line_max id nm < 10000)%nat ->
  detail_ok d -> shows_detail d vs -> call_ok c usage -> log_room (line_max id nm) s ->
  if frees_garbage id (d_host c) d then run_detail lw tz stack c (vs ++ rest) s = Crash else
  exists s', run_detail lw tz stack c (vs ++ rest) s = Ret (Some (rest, map name vs), s') /\
    acts s s' (detail_events (iJobMasIndex (a_job s)) id (d_host c) usage d) (line_max id nm).
Proof using Hlw Hstack.
  intros Hr Hmax Hd (v1 & v2 & v3 & -> & E1 & E2 & E3) (Hm & Hs & Hh) Hroom.
  unfold run_detail. cbn [app]. rewrite Hm, Hs. cbn [negb fst snd].
  rewrite (fill_octets _ _ _ _ E1), outcome_bind_ret by apply Hd.
  rewrite bool_decide_eq_false_2 by by destruct (d_id d).
  rewrite (fill_octets _ _ _ _ E2), outcome_bind_ret by apply Hd.
  rewrite (bool_decide_eq_false_2 (_ = NASC_INSUFFICIENT_MEMORY)) by by destruct (d_script d).
  assert (in_short v3 0 = I16 (d_status d)) as -> by (unfold in_short; by rewrite (proj2 E3)).
  rewrite (detail_due_spec id nm), outcome_bind_ret by done.
  unfold detail_events, frees_garbage. destruct (due id d); cbn [andb].
  - pose proof (DoJobSched_acts (d_host c) (kept (d_id d) None) (I16 (d_status d)) (d_script d) s id nm
      usage.1 usage.2 Hr Hmax (dk_script _ Hd) Hh Hroom) as Hrun. cbv zeta in Hrun.
    destruct (_ && _); [by rewrite Hrun|]. destruct Hrun as (s' & -> & Ha). exists s'. by split.
  - exists s. split; [done|]. destruct (acts_refl s) as [He Hj Hl Hf Hi]. split; [done..|lia|done|done].
Qed.

(** ** The walk over the details *)
Context `{Session}.
Variables (calls : nat -> detail_call) (usage : nat -> Z * Z).
Hypothesis Hcalls : forall n, call_ok (calls n) (usage n).

(** What is done for details, of which the first is the [n]-th. *)
Fixpoint job_events (i : Z) (id : text) (n : nat) (ds : list detail) : list event :=
  match ds with
  | [] => []
  | d :: ds => detail_events i id (d_host (calls n)) (usage n) d ++ job_events i id (S n) ds
  end.
Lemma job_events_app i id n ds1 ds2 :
  job_events i id n (ds1 ++ ds2) = job_events i id n ds1 ++ job_events i id (n + length ds1) ds2.
Proof using Type.
  revert n. induction ds1 as [|d ds1 IH]; intros n; cbn [app job_events length]; [by rewrite Nat.add_0_r|].
  by rewrite IH, <- app_assoc, Nat.add_succ_comm.
Qed.

Fixpoint garbage (id : text) (n : nat) (ds : list detail) : bool :=
  match ds with [] => false | d :: ds => frees_garbage id (d_host (calls n)) d || garbage id (S n) ds end.
Lemma garbage_app id n ds1 ds2 :
  garbage id n (ds1 ++ ds2) = garbage id n ds1 || garbage id (n + length ds1) ds2.
Proof using Type.
  revert n. induction ds1 as [|d ds1 IH]; intros n; cbn [app garbage length]; [by rewrite Nat.add_0_r|].
  by rewrite IH, orb_assoc, Nat.add_succ_comm.
Qed.

Lemma shows_detail_under d vs : shows_detail d vs -> exists v vs', vs = v :: vs' /\
  under jobProcessDetailID_variables_oid v = true /\ under JobProcessDetailTable_variables_oid v = true.
Proof using Type.
  intros (v1 & v2 & v3 & -> & [Hn _] & _). eexists _, _. split; [done|].
  rewrite !under_take, Hn. by split; apply bool_decide_eq_true_2.
Qed.
Lemma acts_index s s' es n : acts s s' es n -> iJobMasIndex (a_job s') = iJobMasIndex (a_job s).
Proof using Type. by intros [_ (c & m & ->) _ _ _]. Qed.
Lemma acts_room s s' es n m : acts s s' es n -> log_room (n + m) s -> log_room m s'.
Proof using Type. clear Hstack Hcalls Hlw. intros [_ _ Hl _ _]. unfold log_room. lia. Qed.

Variables (id nm : text).
Hypothesis Hmax : (line_max id nm < 10000)%nat.

Lemma run_details_shows reps n names ds pages past s :
  Forall detail_ok ds -> Forall2 shows_detail ds pages -> (length ds <= reps)%nat ->
  ((length ds < reps)%nat -> outside jobProcessDetailID_variables_oid past) ->
  ready tz (a_job s) id nm -> log_room (length ds * line_max id nm) s ->
  let run := run_details lw tz stack calls reps n names (concat pages ++ past) s in
  if garbage id n ds then run = Crash else exists s', run =
      Ret (if bool_decide (length ds < reps)%nat then TableEnds s'
           else MoreDetails (n + reps) (names_of pages names) s') /\
    acts s s' (job_events (iJobMasIndex (a_job s)) id n ds) (length ds * line_max id nm).
Proof using Hlw Hstack Hcalls Hmax.
  intros Hd Hsh. revert reps n names s. induction Hsh as [|d vs ds pages Hdv Hsh IH];
    intros reps n names s Hreps Hpast Hr Hroom run; subst run; cbn [length concat job_events garbage Nat.mul] in *.
  { exists s. split; [|apply acts_refl]. destruct reps as [|reps]; cbn [run_details app].
    { by rewrite bool_decide_eq_false_2, Nat.add_0_r by lia. }
    rewrite bool_decide_eq_true_2 by lia. unfold outside in Hpast.
    destruct past as [|v past]; [exfalso; apply Hpast; lia|]. by rewrite Hpast by lia. }
  apply Forall_cons in Hd as [Hok Hd]. destruct reps as [|reps]; [lia|]. cbn [run_details].
  rewrite <- app_assoc. destruct (shows_detail_under d vs Hdv) as (v & vs' & Evs & Hu & _).
  pose proof (run_detail_acts (calls n) (usage n) d vs (concat pages ++ past) s id nm Hr Hmax Hok Hdv (Hcalls n)
    ltac:(unfold log_room in *; lia)) as Hrun.
  rewrite Evs in Hrun |- *. cbn [app] in *. rewrite Hu. cbn [negb].
  destruct (frees_garbage _ _ _); cbn [orb]; [by rewrite Hrun|].
  destruct Hrun as (s1 & Hrun & Ha). rewrite Hrun, outcome_bind_ret.
  specialize (IH Hd reps (S n) (map name (v :: vs')) s1 ltac:(lia) ltac:(intros ?; apply Hpast; lia)
    (acts_ready _ _ _ _ _ _ _ Ha Hr) (acts_room _ _ _ _ _ Ha Hroom)). cbv zeta in IH.
  destruct (garbage id (S n) ds); [done|]. destruct IH as (s' & Hpage & Ha'). exists s'. rewrite Hpage, <- (acts_index _ _ _ _ Ha). split.
  - replace (bool_decide (S (length ds) < S reps)%nat) with (bool_decide (length ds < reps)%nat)
      by (apply bool_decide_ext; lia).
    destruct (bool_decide _); [done|]. f_equal. f_equal; [lia|]. unfold names_of.
    destruct pages as [|vs2 pages]; [done|]. rewrite last_cons_cons.
    destruct (last (vs2 :: pages)) eqn:El; [done|]. by apply last_None in El.
  - eapply acts_trans; [|exact Ha']. by rewrite (acts_index _ _ _ _ Ha).
Qed.

Abbreviation serves_details := (serves MAX_REPETITIONS jobProcessDetail_columns jobProcessDetailID_variables_oid).

Lemma walk_details_shows ds pages fuel k n s : Forall detail_ok ds -> Forall2 shows_detail ds pages ->
  serves_details pages -> (n <= length ds)%nat -> (length ds - n < fuel)%nat -> ready tz (a_job s) id nm ->
  log_room (length (drop n ds) * line_max id nm) s ->
  let run := walk_details lw tz stack fuel calls k n (names_at jobProcessDetail_columns pages n) s in
  if garbage id n (drop n ds) then run = Crash else exists s' m, run = Ret s' /\
    acts s s' (job_events (iJobMasIndex (a_job s)) id n (drop n ds)) m.
Proof using Hlw Hstack Hcalls Hmax.
  intros Hd Hsh Hs. pose proof (Forall2_length _ _ _ Hsh) as Hlen.
  assert (Forall (fun vs => vs <> []) pages) as Hne.
  { clear -Hsh. induction Hsh as [|d vs ds pages (? & ? & ? & -> & _)]; by constructor. }
  revert k n s. induction fuel as [|fuel IH]; intros k n s Hn Hfuel Hr Hroom; [lia|]. cbv zeta. cbn [walk_details].
  destruct (serves_variables _ rows_are_asked_for _ _ pages k n Hs ltac:(lia) Hne) as (past & -> & Hpast). rewrite outcome_bind_ret.
  rewrite <- (take_drop MAX_REPETITIONS (drop n ds)), job_events_app, garbage_app.
  set (d1 := take MAX_REPETITIONS (drop n ds)). set (p1 := take MAX_REPETITIONS (drop n pages)).
  assert (Hlt : length d1 = Nat.min MAX_REPETITIONS (length ds - n)) by (unfold d1; by rewrite length_take, length_drop).
  assert (Hsh1 : Forall2 shows_detail d1 p1) by by apply Forall2_take, Forall2_drop.
  assert (Hroom1 : log_room (length d1 * line_max id nm + length (drop MAX_REPETITIONS (drop n ds)) * line_max id nm) s).
  { rewrite <- Nat.mul_add_distr_r. unfold d1. by rewrite <- length_app, take_drop. }
  pose proof (run_details_shows MAX_REPETITIONS n (names_at jobProcessDetail_columns pages n) d1 p1 past s
    ltac:(by apply Forall_take, Forall_drop) Hsh1 ltac:(lia) ltac:(intros ?; apply Hpast; lia) Hr
    ltac:(unfold log_room in *; lia)) as Hdet. cbv zeta in Hdet.
  destruct (concat p1 ++ past) as [|v vs] eqn:Evs.
  { exfalso. apply app_eq_nil in Evs as [Hc ->]. destruct Hsh1 as [|d x d2 p2 (? & ? & ? & -> & _) _]; [|done].
    apply Hpast. cbn [length] in Hlt. unfold MAX_REPETITIONS in *. lia. }
  destruct (under JobProcessDetailTable_variables_oid v) eqn:Ht; cbn [negb].
  2: { destruct Hsh1 as [|d x d2 p2 Hx _].
       - cbn [length] in Hlt. unfold MAX_REPETITIONS in *.
         rewrite (drop_ge (drop n ds)) by (rewrite length_drop; lia). exists s, 0%nat. split; [done|apply acts_refl].
       - exfalso. destruct (shows_detail_under d x Hx) as (w & ws & -> & _ & Hw). cbn [concat app] in Evs.
         injection Evs as <- _. congruence. }
  destruct (garbage id n d1); cbn [orb]; [by rewrite Hdet|]. destruct Hdet as (s1 & Hpage & Ha).
  rewrite Hpage, outcome_bind_ret. rewrite Hlt in *. case_bool_decide as Hlast.
  - unfold MAX_REPETITIONS in Hlast. rewrite (drop_ge (drop n ds)) by (rewrite length_drop; unfold MAX_REPETITIONS; lia).
    cbn [job_events garbage]. exists s1. eexists. split; [done|]. rewrite app_nil_r. exact Ha.
  - assert (n + MAX_REPETITIONS <= length ds)%nat as Hsix by (unfold MAX_REPETITIONS in *; lia). clear Hlast.
    rewrite Nat.min_l in Ha, Hroom1 |- * by lia.
    unfold p1. rewrite (names_at_next _ rows_are_asked_for), !drop_drop by lia. rewrite drop_drop in Hroom1.
    specialize (IH (S k) (n + MAX_REPETITIONS)%nat s1 ltac:(lia) ltac:(unfold MAX_REPETITIONS in *; lia)
      (acts_ready _ _ _ _ _ _ _ Ha Hr) (acts_room _ _ _ _ _ Ha Hroom1)). cbv zeta in IH.
    destruct (garbage _ _ _); [done|]. destruct IH as (s' & m & Hwalk & Ha').
    exists s'. eexists. rewrite Hwalk. split; [done|]. eapply acts_trans; [exact Ha|].
    by rewrite (acts_index _ _ _ _ Ha) in Ha'.
Qed.

(** C17: the action of a job runs exactly its scripts.  What the thread has done when
    it ends is, for each detail in turn that is in service and has the id of the job or
    none, and whose script is there: to start the script once, and to set in the row of
    the job the usage of processor and memory that was measured; for the other details,
    nothing.  Besides, the job keeps its values and only the log has grown.  But if one
    of the details of the job has a script that is not there, and the pointer cMastName,
    which the code frees in that case without having set it, is not null when that
    detail is met, the thread does not end but frees an address that was not allocated.
    Assumed: the end of the job has not passed, the job has an id, a name and two dates
    that can be printed, and an index below 32768; the agent serves the details, ids
    and scripts have less than 32768 characters; memory, a process number below
    10000000, scripts that run to their end while the agent answers with their usage,
    and room in the log, before it is to be sent, for a line for each detail. *)
Theorem JS_SpawnJobSched_runs ds pages fuel now s :
  Forall detail_ok ds -> Forall2 shows_detail ds pages -> serves_details pages -> (length ds < fuel)%nat ->
  ready tz (a_job s) id nm -> now <= uiEndTimeinNum (a_job s) ->
  log_room (length ds * line_max id nm) s ->
  let run := JS_SpawnJobSched lw tz stack fuel calls now s in
  if garbage id 0 ds then run = Crash else exists s', run = Ret s' /\
    events s' = events s ++ job_events (iJobMasIndex (a_job s)) id 0 ds /\
    (exists c m, a_job s' = set_usage c m (a_job s)) /\
    fpForJS s' = fpForJS s /\ JobSchedServerIP s' = JobSchedServerIP s.
Proof using Hlw Hstack Hcalls Hmax.
  intros Hd Hsh Hs Hfuel Hr Hend Hroom run. subst run. unfold JS_SpawnJobSched.
  rewrite (proj2 (Z.ltb_ge _ _)) by done.
  pose proof (walk_details_shows ds pages fuel 0 0 s Hd Hsh Hs ltac:(lia) ltac:(lia) Hr Hroom) as Hwalk.
  cbv zeta in Hwalk. change (drop 0 ds) with ds in Hwalk. destruct (garbage id 0 ds); [exact Hwalk|].
  destruct Hwalk as (s' & m & Hwalk & Ha).
  exists s'. split; [exact Hwalk|]. destruct Ha as [He Hj _ Hf Hi]. by split_and!.
Qed.
End Run.

(** ** Jobs that run once *)

(** JS_AddJobToSched writes the end of a job only if the job has an interval. *)
Lemma AddJob_one_shot `{TaskScheduler} `{Allocator} tz perform now task p s s' r job :
  js_jobs s !! p = Some job -> iJobMasInterval job = 0 ->
  JS_AddJobToSched tz perform now task p s = Ret (Some (r, s')) -> js_jobs s' = js_jobs s.
Proof.
  intros Hj Hi. unfold JS_AddJobToSched, load_job. destruct (p =? NULL); [by intros [= _ <-]|].
  rewrite Hj, outcome_bind_ret. destruct (pcJobMasStartTime job) as [b|]; [|by intros [= _ <-]].
  destruct (JS_FillTimeStruct tz b) as [[u t]| |]; [|done..]. rewrite outcome_bind_ret.
  destruct (u =? 0); [by intros [= _ <-]|]. cbv zeta. rewrite Hi.
  change (negb (0 =? 0)) with false. rewrite andb_false_r. cbv iota. rewrite outcome_bind_ret.
  change (0 =? -1) with false. cbv iota.
  destruct (ts_add now _ _) as [[id sc]| |]; [|done..]. rewrite outcome_bind_ret.
  destruct (id =? -1); [by intros [= _ <-]|].
  destruct (JS_AddNodeInJobList _ _ _ _) as [[l|]| |]; rewrite ?outcome_bind_ret; try done. by intros [= _ <-].
Qed.

(** A job that is to run once is registered without an end: the end stays what was in
    memory when the job was made ([fresh_job]), and if that is a time before now the
    job does nothing when it is due. *)
Theorem one_shot_runs_by_chance `{TaskScheduler} `{Allocator} `{Session} lw tz stack perform now mem task day0 p s s' r job :
  p <> NULL -> js_jobs s !! p = Some job -> iJobMasInterval job = 0 ->
  JS_UpdateJobToScheduler tz perform now mem task day0 p JS_ADD s = Ret (Some (r, s')) ->
  js_jobs s' !! p = Some job /\
  forall fuel calls clock a, a_job a = job -> uiEndTimeinNum job < clock ->
    JS_SpawnJobSched lw tz stack fuel calls clock a = Ret a.
Proof.
  intros Hp Hj Hi. unfold JS_UpdateJobToScheduler. rewrite (proj2 (Z.eqb_neq _ _) Hp), Z.eqb_refl.
  destruct (JS_AddJobToSched _ _ _ _ _ _) as [[[x s1]|]| |] eqn:E; rewrite ?outcome_bind_ret; try done.
  intros [= _ <-]. rewrite (AddJob_one_shot _ _ _ _ _ _ _ _ _ Hj Hi E). split; [done|].
  intros fuel calls clock a <- Hlt. unfold JS_SpawnJobSched. by rewrite (proj2 (Z.ltb_lt _ _)).
Qed.

(** ** The log *)
Lemma dec_not_empty x : (0 < length (dec x))%nat.
Proof.
  unfold dec. destruct (Z.ltb_spec x 0); [simpl; lia|]. unfold dec_u.
  destruct (dec_digits_cons 20 x) as (c & s & -> & _); [lia|done|]. simpl. lia.
Qed.
Lemma date_text_long t : (34 <= length (date_text t))%nat.
Proof.
  unfold date_text. rewrite !length_app.
  assert (length (text_of "Year ") = 5 /\ length (text_of " Mon ") = 5 /\ length (text_of " Day ") = 5 /\
    length (text_of " Hour") = 5 /\ length (text_of " Min") = 4 /\ length (text_of " Sec") = 4)%nat
    as (-> & -> & -> & -> & -> & ->) by by split_and!.
  pose proof (dec_not_empty (tm_year t)). pose proof (dec_not_empty (tm_mon t + 1)).
  pose proof (dec_not_empty (tm_mday t)). pose proof (dec_not_empty (tm_hour t)).
  pose proof (dec_not_empty (tm_min t)). pose proof (dec_not_empty (tm_sec t)). lia.
Qed.
Lemma job_date_long tz b t : job_date tz b = Ret t -> (34 <= length t)%nat.
Proof.
  unfold job_date. destruct b as [b|]; [|done]. destruct (JS_FillTimeStruct tz b) as [[u x]| |]; [|done..].
  rewrite outcome_bind_ret. unfold sprintf. case_bool_decide; [|done]. intros [= <-]. apply date_text_long.
Qed.
Lemma run_line_long tz h j id nm t : ready tz j id nm -> run_line tz h j = Ret t ->
  (79 + length id + length nm <= length t)%nat.
Proof.
  intros [Hid Hidn Hnm Hnmn (t1 & H1) (t2 & H2) _ _]. unfold run_line.
  rewrite H1, H2, Hid, Hnm, !outcome_bind_ret. cbn [cstr]. rewrite !get_str_terminated, !outcome_bind_ret by done.
  destruct (negb _); [done|]. unfold sprintf. case_bool_decide as Hn; [|done]. clear Hn. intros [= <-].
  apply job_date_long in H1, H2. pose proof (dec_not_empty (iJobMasIndex j)).
  pose proof (dec_not_empty (iJobMasCPUUsage j)). pose proof (dec_not_empty (iJobMasStatus j)).
  repeat (cbn [length]; rewrite length_app). cbn [length]. lia.
Qed.

Section Faults.
Variables (lw tz : Z) (stack : list Z).
Hypothesis Hlw : lw = 32 \/ lw = 64.
Hypothesis Hstack : length stack = MAX_OID_LEN.

(** After its script a job without a time of finish is printed, from a null pointer. *)
Theorem job_without_finish_crashes h mid st script s t cpu memory :
  job_date tz (pcJobMasStartTime (a_job s)) = Ret t ->
  pcJobMasFinishTime (a_job s) = None -> nonzero script -> available h script = true -> host_ok h cpu memory ->
  JS_DoJobSched lw tz stack h (MkJobSched mid (Some (script ++ [0])) st) s = Crash.
Proof using Hlw Hstack.
  intros Hstart Hnone Hnz Hav [Hp Hf _ _]. apply andb_true_iff in Hav as [_ Hav].
  unfold JS_DoJobSched, JS_CheckScriptAvail, JS_GetCPUUtilization. cbn [pcMasterScriptFile].
  rewrite get_str_terminated, !outcome_bind_ret, Hav by done. cbv zeta. rewrite bool_decide_eq_false_2 by done.
  rewrite (proj2 (Z.eqb_neq _ _)) by (unfold pid_ok in Hp; lia). cbn [a_job note].
  rewrite (usage_rounds_finish lw stack Hlw Hstack _ _ _ _ _ Hp Hf), !outcome_bind_ret.
  rewrite (bool_decide_eq_false_2 (NASC_SUCCESS = NASC_FAILURE)) by done.
  unfold run_line. cbn [a_job with_job pcJobMasFinishTime pcJobMasStartTime set_usage]. by rewrite Hnone, Hstart.
Qed.

(** The log is sent when fewer than 200 characters are left, but the line of a job is
    longer than that if its id and its name have 121 characters together: it is then
    written over the end of the buffer. *)
Theorem long_names_overflow_log h mid st script s id nm cpu memory : ready tz (a_job s) id nm ->
  nonzero script -> available h script = true -> host_ok h cpu memory -> (121 <= length id + length nm)%nat ->
  (line_max id nm < 10000)%nat -> Z.of_nat (length (charBuff s)) = C_MAX_SIZE - 200 ->
  JS_DoJobSched lw tz stack h (MkJobSched mid (Some (script ++ [0])) st) s = Crash.
Proof using Hlw Hstack.
  intros Hr Hnz Hav [Hp Hf Hroom _] Hlong Hmax Hlog. apply andb_true_iff in Hav as [_ Hav].
  unfold JS_DoJobSched, JS_CheckScriptAvail, JS_GetCPUUtilization. cbn [pcMasterScriptFile].
  rewrite get_str_terminated, !outcome_bind_ret, Hav by done. cbv zeta. rewrite bool_decide_eq_false_2 by done.
  rewrite (proj2 (Z.eqb_neq _ _)) by (unfold pid_ok in Hp; lia). cbn [a_job note].
  rewrite (usage_rounds_finish lw stack Hlw Hstack _ _ _ _ _ Hp Hf), !outcome_bind_ret.
  rewrite (bool_decide_eq_false_2 (NASC_SUCCESS = NASC_FAILURE)) by done. cbn [a_job with_job].
  destruct (run_line_fits tz h (set_usage (I16 cpu) (I16 memory) (a_job s)) id nm cpu) as (line & Hline & _);
    [by apply ready_usage|done..|]. rewrite Hline, !outcome_bind_ret.
  apply (run_line_long _ _ _ id nm) in Hline; [|by apply ready_usage].
  unfold strcat_log. cbn [charBuff with_job note]. rewrite (proj2 (Z.ltb_ge _ _)) by lia. done.
Qed.

(** The address of the server is written to 15 characters, which four numbers of three
    digits and their dots fill, without the end of the string. *)
Theorem long_server_address_overflows h s a b c d : JobSchedServerIP s = (a, b, c, d) ->
  (15 <= length (dotted a b c d))%nat -> send_log h s = Crash.
Proof.
  clear Hstack Hlw. intros Hip Hl. unfold send_log. rewrite Hip. unfold sprintf. by rewrite bool_decide_eq_false_2 by lia.
Qed.
End Faults.
