(* ===== verification/JobRunUsage.v ===== *)
(** * From a script to the table of jobs

    The job scheduler sets the usage of a script that has run; the table of jobs takes
    the request without a trap to the job scheduler.  The second part is a job with
    three details. *)

From Stdlib Require Import Ascii String.
From S2P Require Import Prelude CTypes Heap SchedTypes SchedIface JobTime JobList JobSched CText Walk JobStart.
From S2P Require Import JobTable JobTableProofs JobTableTrap JobTableJobs JobTableChange JobTableDemo.
From S2P Require Import JobStartProps JobRun JobRunProps.
From stdpp Require Import list.
#[local] Open Scope Z_scope.

(** ** The requests *)
Section Usage.
Context `{!TableLib} {Hlaws : TrapLaws}.
Variables (lw tz : Z) (stack : list Z).
Hypothesis Hlw : lw = 32 \/ lw = 64.
Hypothesis Hstack : length stack = MAX_OID_LEN.

(** A variable that is set arrives as the request [v]: the library makes a variable of
    the text, and the agent finds column and index in its name. *)
Definition arrives (ev : event) (v : setvar) : Prop :=
  match ev with
  | SetVar nm type s => exists x, snmp_add_var nm type s = Some x /\ name x = vb_name v /\
      vtype v = ASN_INTEGER /\ vb_len v = lw / 8 /\ vb_integer v = val_integer x
  | _ => False
  end.

(** A request that gives a column of an active row its value, and sends no trap. *)
Definition recorded (i c x : Z) (v : setvar) : Prop :=
  forall e t r room, works e i room -> table_ok (container t) -> date_ends r ->
    (length (container t) <= room)%nat -> find_row i (container t) = Some r ->
    jobProcessMasterStatus r = RS_ACTIVE -> job_row r ->
    exists t', handle_set lw e [v] t = Ret (Some (0, t')) /\ get_request c i t' = Some (Long x) /\
      (forall d, d <> c -> d <> COLUMN_LASTUPDATED -> d <> COLUMN_CREATEDDATE ->
         get_request d i t' = get_request d i t) /\
      (forall d j, j <> i -> get_request d j t' = get_request d j t) /\ saved t' /\ jt_log t' = jt_log t.

Lemma usage_arrives i c x : usage c = true -> 0 <= i < 2 ^ 15 -> - 2 ^ 15 <= x < 2 ^ 15 ->
  (exists v, arrives (SetVar (column c ++ [i]) 105 (dec x)) v) /\
  forall v, arrives (SetVar (column c ++ [i]) 105 (dec x)) v -> recorded i c x v.
Proof using Hlaws Hlw.
  clear Hstack. intros Hu Hi Hx. destruct (add_long (column c ++ [i]) x) as (y & Hy & Hny & Hvy & _); [lia|]. split.
  - exists (MkSet c i ASN_INTEGER (lw / 8) [] (Some x)), y. by split_and!.
  - intros v (z & Hz & Hnz & Ht & Hl & Hint). rewrite Hy in Hz. injection Hz as <-. rewrite Hny in Hnz.
    unfold vb_name, column, jobProcessMasterTable_oid in Hnz. injection Hnz as Hc Hti. rewrite Hvy in Hint.
    assert (is_long c = true /\ is_string c = false) as [Hlong Hstr].
    { unfold usage in Hu. apply orb_true_iff in Hu as [->%Z.eqb_eq| ->%Z.eqb_eq]; done. }
    intros e t r room Hw Hok He Hroom Hfind Hact Hj.
    destruct (usage_set_is_silent lw e i [v] Hlw ltac:(lia)) with (t := t) (r := r) (room := room)
      as (t' & r' & Hset & Hrow & _ & Hval & Hoth & Hrows & Hsv & Hlog); try done.
    + apply Forall_singleton. split; [done|]. right. rewrite <- Hc. split; [done|]. split_and!; [done..|].
      exists x. split; [done|lia].
    + apply NoDup_singleton.
    + intros Hin%list_elem_of_singleton. rewrite <- Hc in Hin. by rewrite <- Hin in Hu.
    + exists v. split; [by left|]. by rewrite <- Hc.
    + exists t'. unfold get_request at 1 2. rewrite Hrow. cbn [mbind option_bind]. split_and!; [done| | |done..].
      * rewrite Hc, (Hval v) by by left. unfold value_of. rewrite <- Hc, Hstr, Hint. done.
      * intros d Hd Hd1 Hd2. unfold get_request. rewrite Hfind. cbn [mbind option_bind]. apply Hoth; [|done..].
        intros Hin%list_elem_of_singleton. congruence.
Qed.

(** C18: what a script uses is recorded, and nobody is told.  When a script of a job has
    run, the two variables the job scheduler sets arrive at the agent as requests, each
    of which is answered without an error on every table in which the row of the job is
    active and has the columns a job needs, when the agent has memory, a clock, a
    session and room on the disk: the column has the usage that was measured, as a
    short, the other columns and rows are as before (the dates apart), the file is
    saved, and no trap is sent that would make the job scheduler modify the job.
    Assumed of the job scheduler: the job has an id, a name and two dates that can be
    printed (without a finish time it crashes, job_without_finish_crashes), and an index
    below 32768; memory, a process number below 10000000, a script that is there and
    runs to its end while the agent answers with its usage, and room in the log, before
    it is to be sent, for the line of the script (long_names_overflow_log). *)
Theorem usage_reaches_table h mid st script s id nm cpu memory : ready tz (a_job s) id nm ->
  (line_max id nm < 10000)%nat -> nonzero script -> host_ok h cpu memory -> log_room (line_max id nm) s ->
  available h script = true ->
  let i := iJobMasIndex (a_job s) in
  exists s' e1 e2, JS_DoJobSched lw tz stack h (MkJobSched mid (kept script None) st) s = Ret s' /\
    events s' = events s ++ [Ran script; e1; e2] /\
    (exists v1, arrives e1 v1) /\ (forall v1, arrives e1 v1 -> recorded i COLUMN_CPUPERCENTUSAGE (I16 cpu) v1) /\
    (exists v2, arrives e2 v2) /\ (forall v2, arrives e2 v2 -> recorded i COLUMN_MEMORYPERCENTUSAGE (I16 memory) v2).
Proof using Hlaws Hlw Hstack.
  intros Hr Hmax Hnz Hh Hroom Hav i. pose proof (rd_index _ _ _ _ Hr) as Hi.
  pose proof (DoJobSched_acts lw tz stack Hlw Hstack h mid st script s id nm cpu memory Hr Hmax Hnz Hh Hroom) as Hdo.
  cbv zeta in Hdo. rewrite Hav in Hdo. cbn [negb andb] in Hdo. destruct Hdo as (s' & Hrun & Ha). pose proof (I16_range cpu) as Hc. pose proof (I16_range memory) as Hm.
  destruct (usage_arrives i COLUMN_CPUPERCENTUSAGE (I16 cpu)) as [C1 C2]; [done|done|lia|].
  destruct (usage_arrives i COLUMN_MEMORYPERCENTUSAGE (I16 memory)) as [M1 M2]; [done|done|lia|].
  eexists s', _, _. split; [exact Hrun|]. split; [exact (ac_events _ _ _ _ Ha)|]. by split_and!.
Qed.
End Usage.

(** ** A job with four details

    The second has no script, the third belongs to another job, the fourth to every
    job.  The wait for a script is interrupted once. *)
Definition date_2005 : list Z := [7; 213; 3; 1; 9; 45] ++ [0].
Definition job4 : stJobMaster :=
  MkJob 4 (Some ([75] ++ [0])) (Some ([78] ++ [0])) 1 (Some date_2005) (Some date_2005) 1109707680 0 0 1.
Definition usage_reply (c m : Z) : list (list Z) -> option reply := fun names =>
  Some (MkReply 0 0 2 (zip_with (fun n x => MkVariable n 8 [] (Some x)) [[1; 3]; [1; 3]] [c; m])).
Definition demo_host : host :=
  MkHost (fun s => negb (bool_decide (s = text_of "/none"))) 4711
    [MkRound (true, true) (usage_reply 1 2) Interrupted; MkRound (true, true) (usage_reply 25 3) Exited]
    true (true, true) true false.
Definition demo_action : action := MkAction job4 [] true (10, 0, 0, 1) [].
Definition demo_stack : list Z := replicate 128 0.

Definition details4 : list detail :=
  [MkDetail 1 [75] (text_of "/a") 1; MkDetail 2 [75] (text_of "/none") 1;
   MkDetail 3 [76] (text_of "/b") 1; MkDetail 4 [] (text_of "/c") 1].
Definition text_var (c : list Z) (i : Z) (s : list Z) : variable :=
  MkVariable (c ++ [i]) (Z.of_nat (length s)) s None.
Definition detail_page (d : detail) : list variable :=
  [text_var jobProcessDetailID_variables_oid (d_index d) (d_id d);
   text_var jobProcessDetailScriptFile_variables_oid (d_index d) (d_script d);
   number_var jobProcessDetailStatus_variables_oid (d_index d) (d_status d)].
#[local] Instance agent_of_details : Session :=
  agent_of MAX_REPETITIONS jobProcessDetail_columns (detail_page <$> details4)
    [text_var jobProcessDetailScriptFile_variables_oid 1 (text_of "/a")].
Definition demo_detail_call : detail_call := MkDetailCall true (true, true) demo_host.

Lemma job4_ready : ready 0 job4 [75] [78].
Proof.
  split; [done|by repeat constructor|done|by repeat constructor| | |cbn; lia|by exists 1];
    (eexists; vm_compute; reflexivity).
Qed.
Lemma demo_host_ok : host_ok demo_host 25 3.
Proof.
  assert (forall c m, answers (MkRound (true, true) (usage_reply c m) Exited) c m) as Ha.
  { intros c m names. eexists _, _, _, _. split; [done|]. split; [by split_and!; [..|apply (bool_decide_unpack _)|]|].
    split; [reflexivity|done]. }
  split; [vm_compute; split; done| |done..]. split; [done|]. cbn. split; [|split; [done|]].
  - exists 1, 2. intros names. exact (Ha 1 2 names).
  - exact (Ha 25 3).
Qed.
Lemma detail_page_shows d : shows_detail d (detail_page d).
Proof.
  do 3 eexists. split; [reflexivity|]. unfold is_octets, is_number. split_and!; try done; apply firstn_all.
Qed.

Lemma JS_SpawnJobSched_runs_witness : exists s',
  JS_SpawnJobSched 64 0 demo_stack 5 (fun _ => demo_detail_call) 1109670300 demo_action = Ret s' /\
  events s' =
    [Ran (text_of "/a"); SetVar (column 11 ++ [4]) 105 (text_of "25"); SetVar (column 12 ++ [4]) 105 (text_of "3");
     Ran (text_of "/c"); SetVar (column 11 ++ [4]) 105 (text_of "25"); SetVar (column 12 ++ [4]) 105 (text_of "3")].
Proof.
  destruct (JS_SpawnJobSched_runs 64 0 demo_stack ltac:(by right) eq_refl (fun _ => demo_detail_call)
    (fun _ => (25, 3)) (fun _ => conj eq_refl (conj eq_refl demo_host_ok)) [75] [78] ltac:(vm_compute; lia)
    details4 (detail_page <$> details4) 5 1109670300 demo_action) as (s' & Hrun & He & _).
  - repeat (constructor; [split; [by repeat constructor..|done|done]|]). constructor.
  - apply Forall2_fmap_r, Forall_Forall2_diag, Forall_true. apply detail_page_shows.
  - apply agent_serves; [done|]. intros n Hn. change (length (detail_page <$> details4)) with 4%nat in Hn.
    do 5 (destruct n as [|n]; [(by left) || (right; by split; vm_compute)|]). lia.
  - simpl. lia.
  - apply job4_ready.
  - by vm_compute.
  - by vm_compute.
  - exists s'. split; [exact Hrun|]. rewrite He. vm_compute. reflexivity.
Defined.

#[local] Existing Instances demo_lib demo_laws.
Lemma recorded_in_table c x v : recorded 64 4 c x v -> exists t,
  handle_set 64 good_env [v] (table_of 4) = Ret (Some (0, t)) /\
  get_request c 4 t = Some (Long x) /\ jt_log t = [].
Proof.
  intros Hrec. destruct (Hrec good_env (table_of 4) (job_in 4) 100%nat) as (t & Hset & Hget & _ & _ & _ & Hlog).
  - apply good_works.
  - by apply job_in_table.
  - by vm_compute.
  - vm_compute. lia.
  - apply find_job.
  - done.
  - apply job_in_job.
  - exists t. by split_and!.
Qed.

Lemma usage_reaches_table_witness : exists s' e1 e2,
  JS_DoJobSched 64 0 demo_stack demo_host (MkJobSched None (kept (text_of "/a") None) 1) demo_action = Ret s' /\
  events s' = [Ran (text_of "/a"); e1; e2] /\
  (exists v1 t1, arrives 64 e1 v1 /\ handle_set 64 good_env [v1] (table_of 4) = Ret (Some (0, t1)) /\
     get_request COLUMN_CPUPERCENTUSAGE 4 t1 = Some (Long 25) /\ jt_log t1 = []) /\
  (exists v2 t2, arrives 64 e2 v2 /\ handle_set 64 good_env [v2] (table_of 4) = Ret (Some (0, t2)) /\
     get_request COLUMN_MEMORYPERCENTUSAGE 4 t2 = Some (Long 3) /\ jt_log t2 = []).
Proof.
  destruct (usage_reaches_table 64 0 demo_stack ltac:(by right) eq_refl demo_host None 1 (text_of "/a")
    demo_action [75] [78] 25 3) as (s' & e1 & e2 & Hrun & He & (v1 & A1) & R1 & (v2 & A2) & R2).
  - apply job4_ready.
  - vm_compute. lia.
  - by repeat constructor.
  - apply demo_host_ok.
  - by vm_compute.
  - by vm_compute.
  - exists s', e1, e2. split; [exact Hrun|]. split; [exact He|].
    destruct (recorded_in_table _ _ _ (R1 v1 A1)) as (t1 & T1), (recorded_in_table _ _ _ (R2 v2 A2)) as (t2 & T2).
    split; [exists v1, t1; exact (conj A1 T1)|exists v2, t2; exact (conj A2 T2)].
Defined.
