(* ===== verification/JobLog.v ===== *)
(** * The log of the job scheduler (JS_GetAgentInfoMIB, JS_ScheduleLogInfo,
      JS_CallJobLogFile, JS_SendLogFile and JS_StartJobSchedProcess of
      src/Group2/Unix/JobSched/src/NASCenter_JS.c)

    The name of the log, the server that gets it and the interval come from the
    agent; a task of the scheduler sends the log, asks for the three again and
    schedules itself anew when the interval has changed. *)

From S2P Require Import Prelude CTypes Heap SchedTypes SchedIface JobTime JobList JobSched CText Walk.
From S2P Require Import JobStart JobRun.
From stdpp Require Import list.
#[local] Open Scope Z_scope.

Definition agentInfoLogFileJobProcess_oid : list Z := [1;3;6;1;4;1;3204;1;3;36;1;20;0].
Definition agentInfoFileTransferIP_oid : list Z := [1;3;6;1;4;1;3204;1;3;36;1;13;0].
Definition agentInfoFileTransferPortNo_oid : list Z := [1;3;6;1;4;1;3204;1;3;36;1;14;0].
Definition agentInfoFileTransferInterval_oid : list Z := [1;3;6;1;4;1;3204;1;3;36;1;12;0].

(** What is done with the log: its text is written to the file, which is closed; the
    file is sent to a port of an address; a file is opened. *)
Inductive log_event :=
| LogWritten (s : text)
| LogSent (file address : text) (port : Z)
| LogOpened (file : text).

Section JobLog.
Context `{TaskScheduler} `{Allocator}.
(** The offset of the zone, the addresses of JS_PerformJobSchedAction and of
    JS_CallJobLogFile, and SCH_StartScheduler. *)
Variables (tz perform call_log : Z) (start_scheduler : ts_state -> ts_state).

(** The globals, and the two static variables of JS_ScheduleLogInfo. *)
Record logger := MkLogger {
  lg_js : js;
  JobSchedLogFileName : list Z;
  server_ip : list Z;
  JobSchedServerPort : Z;
  backupInterval : Z;
  iInterVal : Z;
  lTaskId : Z;
  log_text : text;
  log_open : bool;
  log_events : list log_event
}.

Definition with_js (j : js) (s : logger) : logger :=
  MkLogger j (JobSchedLogFileName s) (server_ip s) (JobSchedServerPort s) (backupInterval s) (iInterVal s)
    (lTaskId s) (log_text s) (log_open s) (log_events s).
Definition with_file (f : list Z) (s : logger) : logger :=
  MkLogger (lg_js s) f (server_ip s) (JobSchedServerPort s) (backupInterval s) (iInterVal s)
    (lTaskId s) (log_text s) (log_open s) (log_events s).
Definition with_ip (a : list Z) (s : logger) : logger :=
  MkLogger (lg_js s) (JobSchedLogFileName s) a (JobSchedServerPort s) (backupInterval s) (iInterVal s)
    (lTaskId s) (log_text s) (log_open s) (log_events s).
Definition with_server_port (p : Z) (s : logger) : logger :=
  MkLogger (lg_js s) (JobSchedLogFileName s) (server_ip s) p (backupInterval s) (iInterVal s)
    (lTaskId s) (log_text s) (log_open s) (log_events s).
Definition with_interval (i : Z) (s : logger) : logger :=
  MkLogger (lg_js s) (JobSchedLogFileName s) (server_ip s) (JobSchedServerPort s) i (iInterVal s)
    (lTaskId s) (log_text s) (log_open s) (log_events s).
Definition with_task (i id : Z) (s : logger) : logger :=
  MkLogger (lg_js s) (JobSchedLogFileName s) (server_ip s) (JobSchedServerPort s) (backupInterval s) i
    id (log_text s) (log_open s) (log_events s).
Definition with_text (t : text) (o : bool) (s : logger) : logger :=
  MkLogger (lg_js s) (JobSchedLogFileName s) (server_ip s) (JobSchedServerPort s) (backupInterval s)
    (iInterVal s) (lTaskId s) t o (log_events s).
Definition log_note (e : log_event) (s : logger) : logger :=
  MkLogger (lg_js s) (JobSchedLogFileName s) (server_ip s) (JobSchedServerPort s) (backupInterval s)
    (iInterVal s) (lTaskId s) (log_text s) (log_open s) (log_events s ++ [e]).

(** ** JS_GetAgentInfoMIB *)

(** A null pointer in the union. *)
Definition null_value (v : variable) : bool :=
  bool_decide (val_integer v = None) && bool_decide (val_string v = []).

(** [memcpy (buf, v->val.string, iLen)]. *)
Definition copy_octets (buf : list Z) (v : variable) : outcome (list Z) :=
  let iLen := I16 (val_len v) in
  if (0 <=? iLen) && (iLen <=? Z.of_nat (length (val_string v)))
  then poke buf 0 (take (Z.to_nat iLen) (val_string v)) else Crash.

Definition info_oids : list (list Z) :=
  [agentInfoLogFileJobProcess_oid; agentInfoFileTransferIP_oid; agentInfoFileTransferPortNo_oid;
   agentInfoFileTransferInterval_oid].

(** [get] is the answer to the request for the four values.  A variable that is not
    there is followed as a null pointer, except for the last. *)
Definition JS_GetAgentInfoMIB (get : list (list Z) -> option reply) (s : logger)
    : outcome (ENASCenterError * logger) :=
  let s := with_file (replicate 80 0) s in
  vars ← variables_of [ASN_NULL; SNMP_NOSUCHINSTANCE; SNMP_NOSUCHOBJECT] (get info_oids);
  match vars with
  | None => mret (NASC_FAILURE, s)
  | Some [] => Crash
  | Some (v1 :: vars) =>
      if null_value v1 then mret (NASC_FAILURE, s) else
      f ← copy_octets (replicate 80 0) v1;
      let s := with_file f s in
      match vars with
      | [] => Crash
      | v2 :: vars =>
          if null_value v2 then mret (NASC_FAILURE, s) else
          a ← copy_octets (server_ip s) v2;
          let s := with_ip a s in
          match vars with
          | [] => Crash
          | v3 :: vars =>
              match val_integer v3 with
              | None => mret (NASC_FAILURE, s)
              | Some p =>
                  let s := with_server_port (I16 p) s in
                  match vars with
                  | [] => mret (NASC_SUCCESS, s)
                  | v4 :: _ =>
                      match val_integer v4 with
                      | None => mret (NASC_FAILURE, s)
                      | Some i =>
                          let s := with_interval (I16 i) s in
                          mret (if I16 i =? 0 then NASC_FAILURE else NASC_SUCCESS, s)
                      end
                  end
              end
          end
      end
  end.

(** ** JS_ScheduleLogInfo

    [clock] is the time the start is computed from, [now] that of SCH_AddTask, and
    [junk] what the uninitialised local [task] holds. *)
Definition log_task (clock : tm) (interval : Z) (junk : stTask) : stTask :=
  let iHour := (tm_min clock + 2) / 60 in
  let iMinute := (tm_min clock + 2) mod 60 in
  MkTask (MkDate (UI16 (tm_mday clock)) (UI16 (tm_mon clock)) (UI16 (tm_year clock + 1900))) (EndDate junk)
    (MkTime (UI16 (tm_hour clock + I16 iHour)) (UI16 (I16 iMinute)) (UI16 (tm_sec clock))) (EndTime junk)
    SCH_PERIODIC SCH_SEC_MIN_HOUR (UI32 interval) SCH_ALL_DAYS call_log (vpArg junk).

Definition JS_ScheduleLogInfo (clock now : tm) (junk : stTask) (s : logger)
    : outcome (ENASCenterError * logger) :=
  if backupInterval s =? iInterVal s then mret (NASC_SUCCESS, s) else
  let task := log_task clock (backupInterval s) junk in
  sc ← (if lTaskId s =? -1 then mret (js_sched (lg_js s))
        else '(_, sc) ← ts_delete (lTaskId s) (js_sched (lg_js s)); mret sc);
  '(id, sc) ← ts_add now task sc;
  mret (NASC_SUCCESS, with_task (backupInterval s) id (with_js (with_sched (lg_js s) sc) s)).

(** ** JS_SendLogFile

    What the thread meets: the answer of the agent, the clock, what is on the stack, and
    whether the log opens again. *)
Record send_call := MkSend {
  s_get : list (list Z) -> option reply; s_clock : tm; s_now : tm; s_junk : stTask; s_fopen : bool
}.

Definition byte_at (a : list Z) (i : nat) : outcome Z :=
  match a !! i with Some x => mret (Z.land 255 x) | None => Crash end.

(** The text of the address of the server, into sixteen bytes. *)
Definition server_address (a : list Z) : outcome text :=
  b0 ← byte_at a 0; b1 ← byte_at a 1; b2 ← byte_at a 2; b3 ← byte_at a 3;
  sprintf 16 (dotted b0 b1 b2 b3).

Definition open_log (ok : bool) (s : logger) : outcome logger :=
  file ← get_str (JobSchedLogFileName s) 0;
  mret (if ok then with_text (log_text s) true (log_note (LogOpened file) s) else s).

Definition JS_SendLogFile (c : send_call) (s : logger) : outcome logger :=
  let s := if log_open s then with_text (log_text s) false (log_note (LogWritten (log_text s)) s) else s in
  address ← server_address (server_ip s);
  let s := with_text [] (log_open s) s in
  file ← get_str (JobSchedLogFileName s) 0;
  let s := log_note (LogSent file address (JobSchedServerPort s)) s in
  '(r, s) ← JS_GetAgentInfoMIB (s_get c) s;
  if bool_decide (r = NASC_FAILURE) then mret s else
  '(_, s) ← JS_ScheduleLogInfo (s_clock c) (s_now c) (s_junk c) s;
  open_log (s_fopen c) s.

(** The action of the task, when the thread can be created. *)
Definition JS_CallJobLogFile (created : bool) (c : send_call) (s : logger) : outcome logger :=
  if created then JS_SendLogFile c s else mret s.

(** ** JS_StartJobSchedProcess *)
Definition JS_StartJobSchedProcess `{Session} (c : send_call) (fuel : nat) (calls : nat -> call)
    (created : bool) (s : logger) : exits (ENASCenterError * logger) :=
  let s := with_js (with_sched (lg_js s) (start_scheduler (js_sched (lg_js s)))) s in
  '(r, s) ← JS_GetAgentInfoMIB (s_get c) s;
  if bool_decide (r = NASC_FAILURE) then mret (Some (NASC_FAILURE, s)) else
  s ← open_log (s_fopen c) s;
  if negb (s_fopen c) then mret (Some (NASC_FAILURE, s)) else
  '(_, s) ← JS_ScheduleLogInfo (s_clock c) (s_now c) (s_junk c) s;
  r ← JS_GetJobProcessMasterTableDetails tz perform fuel calls (lg_js s);
  mret (match r with
        | None => None
        | Some (_, j) => Some (if created then NASC_SUCCESS else NASC_FAILURE, with_js j s)
        end).
End JobLog.
