(* ===== verification/JobLogProps.v ===== *)
(** * The log is sent, again and again

    The scheduler has one task for the log, with the interval the agent last gave, and
    each run of it writes the log, sends it and opens it anew; what becomes of the log
    when the agent does not answer, and of intervals that do not fit. *)

From Stdlib Require Import Ascii String.
From S2P Require Import Prelude CTypes Heap SchedTypes SchedIface JobTime JobList JobSched JobTrap CText Walk.
From S2P Require Import SchedMaster SchedTable SchedApi SchedBuild SchedDemo JobProps TrapProps JobTable.
From S2P Require Import JobTableProofs JobTableDemo JobStart JobStartProps JobRun JobRunProps JobLog.
From stdpp Require Import list.
#[local] Open Scope Z_scope.

(** ** What the agent answers *)

Definition has_octets (s : list Z) (v : variable) : Prop :=
  val_len v = Z.of_nat (length s) /\ take (length s) (val_string v) = s.

(** The name of a file, an address, a port and an interval. *)
Definition shows_info (f a : list Z) (p i : Z) (vs : list variable) : Prop :=
  exists v1 v2 v3 v4 rest, vs = v1 :: v2 :: v3 :: v4 :: rest /\ has_octets f v1 /\ has_octets a v2 /\
    val_integer v3 = Some p /\ val_integer v4 = Some i.

Definition answers (f a : list Z) (p i : Z) (get : list (list Z) -> option reply) : Prop :=
  exists ty vs, get info_oids = Some (MkReply 0 0 ty vs) /\
    ty ∉ [ASN_NULL; SNMP_NOSUCHINSTANCE; SNMP_NOSUCHOBJECT] /\ shows_info f a p i vs.

(** Names that fit into 80 bytes with their end, addresses of four bytes. *)
Definition info_ok (f a : list Z) (i : Z) : Prop :=
  f <> [] /\ nonzero f /\ (length f < 80)%nat /\ length a = 4%nat /\ I16 i <> 0.

Lemma reply_variables missing get ty v vs : ty ∉ missing -> get = Some (MkReply 0 0 ty (v :: vs)) ->
  variables_of missing get = Ret (Some (v :: vs)).
Proof.
  intros Hty ->. unfold variables_of. cbn [errstat errindex reply_vars first_type].
  change (negb (0 =? 0) || negb (0 =? 0)) with false. cbv iota.
  replace (existsb (Z.eqb ty) missing) with false; [done|].
  symmetry. apply not_true_iff_false. intros (x & Hx & Heq%Z.eqb_eq)%existsb_exists.
  apply Hty. rewrite Heq. by apply list_elem_of_In.
Qed.

Lemma copy_octets_fits buf s v : has_octets s v -> (length s <= length buf)%nat -> (length buf <= 80)%nat ->
  copy_octets buf v = Ret (s ++ drop (length s) buf).
Proof.
  intros [Hl Hs] Hlen Hbuf. unfold copy_octets. rewrite Hl, I16_id by lia.
  assert (length s <= length (val_string v))%nat by (apply (f_equal length) in Hs; rewrite length_take in Hs; lia).
  rewrite !(proj2 (Z.leb_le _ _)) by lia. cbn [andb]. rewrite Nat2Z.id, Hs. unfold poke.
  by rewrite bool_decide_eq_true_2 by lia.
Qed.

Lemma octets_not_null s v : has_octets s v -> s <> [] -> null_value v = false.
Proof.
  intros [_ Hs] Hne. unfold null_value. rewrite (bool_decide_eq_false_2 (val_string v = [])); [apply andb_false_r|].
  intros E. rewrite E, take_nil in Hs. by rewrite <- Hs in Hne.
Qed.

Section Log.
Context `{TaskScheduler} `{Allocator}.
Variables (tz perform call_log : Z) (start_scheduler : ts_state -> ts_state).
Hypothesis Hapart : call_log <> perform.
Abbreviation state := logger.

(** The state with what the agent told. *)
Definition informed (f a : list Z) (p i : Z) (s : state) : state :=
  with_interval (I16 i) (with_server_port (I16 p) (with_ip (a ++ drop 4 (server_ip s))
    (with_file (f ++ replicate (80 - length f) 0) s))).

Lemma GetAgentInfo_reads f a p i get s : answers f a p i get -> info_ok f a i -> length (server_ip s) = 16%nat ->
  JS_GetAgentInfoMIB get s = Ret (NASC_SUCCESS, informed f a p i s).
Proof using Type.
  intros (ty & vs & Hget & Hty & v1 & v2 & v3 & v4 & rest & -> & Hf & Ha & Hp & Hi) (Hne & _ & Hfl & Hal & Hnz) Hip.
  unfold JS_GetAgentInfoMIB. rewrite (reply_variables _ _ ty v1 _ Hty Hget), outcome_bind_ret.
  rewrite (octets_not_null f) by done.
  rewrite (copy_octets_fits _ f), outcome_bind_ret by (try done; rewrite length_replicate; lia).
  rewrite (octets_not_null a) by (try done; by destruct a).
  rewrite (copy_octets_fits _ a), outcome_bind_ret by (try done; cbn [server_ip with_file]; lia).
  rewrite Hp, Hi, (proj2 (Z.eqb_neq _ _) Hnz). rewrite drop_replicate, Hal. done.
Qed.

(** An agent that does not answer costs the name of the log. *)
Lemma GetAgentInfo_silent get s : get info_oids = None ->
  JS_GetAgentInfoMIB get s = Ret (NASC_FAILURE, with_file (replicate 80 0) s).
Proof using Type. intros Hget. unfold JS_GetAgentInfoMIB. by rewrite Hget. Qed.

(** ** The task for the log *)
Record log_inv (s : state) (m : gmap Z stTask) (l : list (Z * Z)) : Prop := {
  li_js : js_inv perform (lg_js s) m l;
  li_task : lTaskId s = -1 \/ exists t, m !! lTaskId s = Some t /\ fp t = call_log /\
    eType t = SCH_PERIODIC /\ ePCity t = SCH_SEC_MIN_HOUR /\ eWeekDay t = SCH_ALL_DAYS /\
    ui32Interval t = UI32 (iInterVal s);
  li_only id t : m !! id = Some t -> fp t = call_log -> id = lTaskId s /\ id <> -1
}.

(** The task of the log is none of a job. *)
Lemma log_not_job s m l : log_inv s m l -> lTaskId s ∉ l.*2.
Proof using Hapart.
  intros [Hjs Htask _] Hin. apply in_snd in Hin as (i & Hin).
  destruct (ji_task _ _ _ _ Hjs i _ Hin) as (t & Ht & Hfp & _). pose proof (ji_pos _ _ _ _ Hjs i _ Hin) as Hpos.
  destruct Htask as [E|(t' & Ht' & Hfp' & _)]; [lia|]. rewrite Ht in Ht'. injection Ht' as <-. congruence.
Qed.

(** Tasks that are not those of jobs come and go. *)
Lemma js_inv_tasks (j : js) m m' l sc : js_inv perform j m l -> ts_rel sc m' ->
  (forall id, id ∈ l.*2 -> m' !! id = m !! id) -> js_inv perform (with_sched j sc) m' l.
Proof using Type.
  intros [Hrel Hjl Hids Hpos Htask Hargs] Hrel' Hsame. split; try done.
  - intros i id Hin. rewrite Hsame by (apply list_elem_of_fmap; by exists (i, id)). by apply (Htask i).
  - intros id1 id2 t1 t2 H1 H2. rewrite !Hsame by done. by apply Hargs.
Qed.

Definition clock_ok (c : tm) : Prop := 0 <= tm_hour c < 24 /\ 0 <= tm_min c < 60.

Lemma log_task_hour clock i junk : clock_ok clock ->
  0 <= ui16Hour (StartTime (log_task call_log clock i junk)) < 25.
Proof using Type.
  intros [Hh Hm]. cbn [log_task StartTime ui16Hour].
  assert (0 <= (tm_min clock + 2) / 60 <= 1) by (Z.to_euclidean_division_equations; lia).
  rewrite (I16_id ((tm_min clock + 2) / 60)) by lia. unfold UI16. rewrite Z.mod_small by lia. lia.
Qed.

(** The tasks without that of the log. *)
Definition others (s : state) (m : gmap Z stTask) : gmap Z stTask :=
  if lTaskId s =? -1 then m else delete (lTaskId s) m.

Lemma others_jobs s m l id : log_inv s m l -> id ∈ l.*2 -> others s m !! id = m !! id.
Proof using Hapart.
  intros Hinv Hid. unfold others. destruct (_ =? _); [done|]. apply lookup_delete_ne.
  intros E. subst. by destruct (log_not_job _ _ _ Hinv).
Qed.

Lemma others_apart s m l id t : log_inv s m l -> others s m !! id = Some t -> fp t <> call_log.
Proof using Type.
  intros Hinv Ht Hfp. unfold others in Ht. destruct (Z.eqb_spec (lTaskId s) (-1)) as [E|E].
  - destruct (li_only _ _ _ Hinv id t Ht Hfp). congruence.
  - apply lookup_delete_Some in Ht as [Hne Ht]. by destruct (li_only _ _ _ Hinv id t Ht Hfp).
Qed.

(** The old task goes and, if the scheduler takes it, the new one comes. *)
Lemma delete_log_task s m l : log_inv s m l -> exists sc,
  (if lTaskId s =? -1 then mret (js_sched (lg_js s))
   else '(_, sc) ← ts_delete (lTaskId s) (js_sched (lg_js s)); mret sc) = Ret sc /\ ts_rel sc (others s m).
Proof using Type.
  intros Hinv. pose proof (ji_rel _ _ _ _ (li_js _ _ _ Hinv)) as Hrel. unfold others.
  destruct (_ =? _); [by eexists|].
  destruct (ts_delete_spec (lTaskId s) _ m Hrel) as (sc & -> & Hsc). rewrite outcome_bind_ret. by exists sc.
Qed.

(** The log is scheduled: after a call of JS_ScheduleLogInfo there is one task that
    sends the log if the scheduler takes it, with the interval the agent gave last,
    and none if it does not; the tasks of the jobs are as before. *)
Theorem log_is_scheduled clock now junk s m l :
  log_inv s m l -> clock_ok clock -> exists s' m',
    JS_ScheduleLogInfo call_log clock now junk s = Ret (NASC_SUCCESS, s') /\ log_inv s' m' l /\
    s' = with_task (backupInterval s) (lTaskId s') (with_js (with_sched (lg_js s) (js_sched (lg_js s'))) s) /\
    let task := log_task call_log clock (backupInterval s) junk in
    if backupInterval s =? iInterVal s then s' = s /\ m' = m
    else if bool_decide (lTaskId s' = -1) then m' = others s m /\ (ts_memory -> ts_accepts now task = false)
    else m' = <[lTaskId s' := task]> (others s m) /\ ts_accepts now task = true.
Proof using Hapart.
  intros Hinv Hclock. unfold JS_ScheduleLogInfo. destruct (Z.eqb_spec (backupInterval s) (iInterVal s)) as [E|E].
  { exists s, m. split_and!; try done. rewrite E. by destruct s as [[] ?]. }
  destruct (delete_log_task s m l Hinv) as (sc & -> & Hsc). rewrite outcome_bind_ret.
  set (task := log_task _ _ _ _).
  destruct (ts_add_spec now task sc _ Hsc (log_task_hour clock _ junk Hclock)) as (r & sc' & -> & Hr).
  rewrite outcome_bind_ret. eexists _, (if bool_decide (r = -1) then others s m else <[r := task]> (others s m)).
  split; [done|]. cbn [lTaskId with_task lg_js with_js js_sched with_sched]. split; [|split; [done|]].
  2: { destruct Hr as [(-> & Hr & Hm)|(Ha & Hpos & Hn & Hr)]; case_bool_decide; try done; lia. }
  destruct Hr as [(-> & Hr & _)|(_ & Hpos & Hn & Hr)]; [rewrite bool_decide_eq_true_2 by done|rewrite bool_decide_eq_false_2 by lia].
  - split; cbn [lg_js with_task with_js lTaskId]; [|by left|].
    + eapply js_inv_tasks; [apply Hinv|done|]. intros id. by apply (others_jobs s m l).
    + intros id t Ht Hfp. by destruct (others_apart _ _ _ _ _ Hinv Ht).
  - split; cbn [lg_js with_task with_js lTaskId iInterVal].
    + eapply js_inv_tasks; [apply Hinv|done|]. intros id Hid. rewrite lookup_insert_ne; [by apply (others_jobs s m l)|].
      intros <-. apply in_snd in Hid as (i & Hid).
      destruct (ji_task _ _ _ _ (li_js _ _ _ Hinv) i _ Hid) as (t & Ht & _).
      rewrite (others_jobs _ _ _ _ Hinv), Ht in Hn; [done|]. apply list_elem_of_fmap. by exists (i, r).
    + right. exists task. by rewrite lookup_insert_eq.
    + intros id t Ht Hfp. destruct (decide (id = r)) as [->|Hne]; [split; [done|lia]|].
      rewrite lookup_insert_ne in Ht by done. by destruct (others_apart _ _ _ _ _ Hinv Ht).
Qed.

(** ** The log goes out *)
Definition address_text (ip : list Z) : text :=
  match take 4 ip with
  | [a; b; c; d] => dotted (Z.land 255 a) (Z.land 255 b) (Z.land 255 c) (Z.land 255 d)
  | _ => []
  end.

Lemma octet_short x : (length (dec (Z.land 255 x)) <= 3)%nat.
Proof using Type.
  apply dec_short; [|lia]. rewrite Z.land_comm. change 255 with (Z.ones 8). rewrite Z.land_ones by lia.
  pose proof (Z.mod_pos_bound x (2 ^ 8)). change (10 ^ Z.of_nat 3) with 1000. lia.
Qed.

Lemma server_address_text ip : length ip = 16%nat -> server_address ip = Ret (address_text ip).
Proof using Type.
  intros Hip. destruct ip as [|a [|b [|c [|d ip]]]]; try discriminate Hip.
  unfold server_address, byte_at. cbn [lookup list_lookup]. rewrite !outcome_bind_ret. unfold sprintf.
  rewrite bool_decide_eq_true_2; [done|]. unfold dotted.
  pose proof (octet_short a). pose proof (octet_short b). pose proof (octet_short c). pose proof (octet_short d).
  repeat (rewrite length_app || cbn [length]). lia.
Qed.

Lemma informed_inv f a p i s m l : log_inv s m l -> log_inv (informed f a p i s) m l.
Proof using Type. by intros [? ? ?]. Qed.

Lemma file_text f n : nonzero f -> (length f < n)%nat -> get_str (f ++ replicate (n - length f) 0) 0 = Ret f.
Proof using Type.
  intros Hf Hn. destruct (n - length f)%nat as [|k] eqn:E; [lia|].
  by apply (get_str_at _ 0 f (replicate k 0)).
Qed.

(** The file that is named in the state. *)
Definition names_file (f : text) (s : state) : Prop := get_str (JobSchedLogFileName s) 0 = Ret f.

(** The log is closed, and written before if it is open. *)
Definition closed (s : state) : state :=
  MkLogger (lg_js s) (JobSchedLogFileName s) (server_ip s) (JobSchedServerPort s) (backupInterval s)
    (iInterVal s) (lTaskId s) (log_text s) false
    (log_events s ++ (if log_open s then [LogWritten (log_text s)] else [])).
Lemma closed_log s :
  (if log_open s then with_text (log_text s) false (log_note (LogWritten (log_text s)) s) else s) = closed s.
Proof using Type. destruct s as [? ? ? ? ? ? ? ? [] ?]; unfold closed; cbn; by rewrite ?app_nil_r. Qed.

(** The thread that sends the log: the log is written if it is open, the file is sent
    to the server, the agent is asked again, the task for the log is the one with the
    interval it gives, and an empty log is opened under the name it gives; the jobs stay
    as they are. *)
Theorem log_is_sent c file f a p i s m l :
  log_inv s m l -> names_file file s -> length (server_ip s) = 16%nat ->
  answers f a p i (s_get c) -> info_ok f a i -> clock_ok (s_clock c) -> exists s' m',
    JS_SendLogFile call_log c s = Ret s' /\ log_inv s' m' l /\
    log_events s' = log_events s ++ (if log_open s then [LogWritten (log_text s)] else []) ++
      [LogSent file (address_text (server_ip s)) (JobSchedServerPort s)] ++ (if s_fopen c then [LogOpened f] else []) /\
    log_text s' = [] /\ log_open s' = s_fopen c /\ names_file f s' /\
    server_ip s' = a ++ drop 4 (server_ip s) /\ JobSchedServerPort s' = I16 p /\
    backupInterval s' = I16 i /\ js_jobs (lg_js s') = js_jobs (lg_js s).
Proof using Hapart.
  intros Hinv Hfile Hip Hans Hok Hclock. unfold JS_SendLogFile.
  rewrite closed_log. cbv zeta. cbn [server_ip closed JobSchedLogFileName with_text].
  rewrite server_address_text, outcome_bind_ret by done. cbn [log_open].
  rewrite Hfile, outcome_bind_ret. set (s2 := log_note _ _).
  rewrite (GetAgentInfo_reads f a p i), outcome_bind_ret by done. rewrite bool_decide_eq_false_2 by done.
  assert (Hinv2 : log_inv (informed f a p i s2) m l) by by destruct Hinv.
  destruct (log_is_scheduled (s_clock c) (s_now c) (s_junk c) _ m l Hinv2 Hclock) as (s' & m' & -> & Hinv' & Hs' & _).
  rewrite outcome_bind_ret. destruct Hok as (Hne & Hnz & Hfl & _).
  assert (Hf : names_file f s') by (unfold names_file; rewrite Hs'; by apply file_text).
  unfold open_log. rewrite Hf, outcome_bind_ret.
  exists (if s_fopen c then with_text (log_text s') true (log_note (LogOpened f) s') else s'), m'.
  split; [done|]. split; [by destruct (s_fopen c), Hinv'|].
  assert (Hev : log_events s' = log_events s ++ (if log_open s then [LogWritten (log_text s)] else []) ++
    [LogSent file (address_text (server_ip s)) (JobSchedServerPort s)]) by (rewrite Hs'; cbn; by rewrite <- app_assoc).
  assert (Htx : log_text s' = [] /\ log_open s' = false /\ server_ip s' = a ++ drop 4 (server_ip s) /\
    JobSchedServerPort s' = I16 p /\ backupInterval s' = I16 i /\ js_jobs (lg_js s') = js_jobs (lg_js s)) by by rewrite Hs'.
  destruct Htx as (? & ? & ? & ? & ? & ?). destruct (s_fopen c); cbn [log_events log_note with_text].
  - split_and!; try done. by rewrite Hev, <- !app_assoc.
  - by split_and!; rewrite ?app_nil_r.
Qed.

(** A run of the task in which the agent does not answer. *)
Lemma silent_run c file s : names_file file s -> length (server_ip s) = 16%nat -> s_get c info_oids = None ->
  exists s', JS_SendLogFile call_log c s = Ret s' /\ log_open s' = false /\ names_file [] s' /\
    server_ip s' = server_ip s /\ JobSchedServerPort s' = JobSchedServerPort s /\
    iInterVal s' = iInterVal s /\ lTaskId s' = lTaskId s /\ lg_js s' = lg_js s /\
    log_events s' = log_events s ++ (if log_open s then [LogWritten (log_text s)] else []) ++
      [LogSent file (address_text (server_ip s)) (JobSchedServerPort s)].
Proof using Type.
  intros Hfile Hip Hget. unfold JS_SendLogFile. rewrite closed_log. cbv zeta.
  cbn [server_ip closed JobSchedLogFileName with_text]. rewrite server_address_text, outcome_bind_ret by done.
  cbn [log_open]. rewrite Hfile, outcome_bind_ret, GetAgentInfo_silent, outcome_bind_ret by done.
  rewrite bool_decide_eq_true_2 by done. eexists. split; [done|]. split_and!; try done.
  cbn. by rewrite <- app_assoc.
Qed.

(** One missing answer costs the log of a period: the name of the file is gone and the
    log stays closed, so the lines that jobs add until the next run are not written
    then but thrown away, and a file without a name is sent, although the agent answers
    again. *)
Theorem silent_agent_loses_log c1 c2 file f a p i lines s m l :
  log_inv s m l -> names_file file s -> length (server_ip s) = 16%nat -> s_get c1 info_oids = None ->
  answers f a p i (s_get c2) -> info_ok f a i -> clock_ok (s_clock c2) -> s_fopen c2 = true -> exists s1 s2,
    JS_SendLogFile call_log c1 s = Ret s1 /\
    JS_SendLogFile call_log c2 (with_text lines (log_open s1) s1) = Ret s2 /\ log_text s2 = [] /\
    log_events s2 = log_events s1 ++ [LogSent [] (address_text (server_ip s)) (JobSchedServerPort s); LogOpened f].
Proof using Hapart.
  intros Hinv Hfile Hip Hget Hans Hok Hclock Hop.
  destruct (silent_run c1 file s Hfile Hip Hget) as (s1 & Hs1 & Hc & Hn & Hi & Hp & Hv & Ht & Hj & He).
  set (s1' := with_text lines (log_open s1) s1).
  assert (Hinv1 : log_inv s1' m l).
  { destruct Hinv as [H1 H2 H3]. split; cbn [s1' lg_js lTaskId iInterVal with_text]; [by rewrite Hj|by rewrite Ht, Hv|by rewrite Ht]. }
  destruct (log_is_sent c2 [] f a p i s1' m l Hinv1) as (s2 & m2 & Hs2 & _ & He2 & Hx2 & _); try done.
  { cbn [s1' server_ip with_text]. by rewrite Hi. }
  exists s1, s2. split_and!; [exact Hs1|exact Hs2|done|]. rewrite He2, Hop.
  cbn [s1' log_events log_open with_text server_ip JobSchedServerPort log_text]. rewrite Hc, Hi, Hp. done.
Qed.

(** ** The program starts *)

(** No task yet, and an empty list of jobs. *)
Definition fresh (s : state) : Prop :=
  ts_rel (start_scheduler (js_sched (lg_js s))) ∅ /\ jl_rep (js_list (lg_js s)) (stListPtr (lg_js s)) [] /\
  lTaskId s = -1 /\ iInterVal s = 0 /\ length (server_ip s) = 16%nat.

Lemma fresh_inv s : fresh s ->
  log_inv (with_js (with_sched (lg_js s) (start_scheduler (js_sched (lg_js s)))) s) ∅ [].
Proof using Type.
  intros (Hrel & Hjl & Ht & _). split; [|by left|by intros id t Hid; rewrite lookup_empty in Hid].
  split; [done|done|constructor|by intros i id ?%elem_of_nil..|by intros id1 id2 t1 t2 ?%elem_of_nil].
Qed.

Context `{Session}.
Variables (calls : nat -> call) (taken : nat -> row -> bool).
Hypothesis Hmalloc : malloc_total.
Hypothesis Hstrings : forall n k, c_strings (calls n) k = true.

(** C16: the job scheduler starts: when the agent tells the name of the log, the server
    and an interval, and serves the rows of the table of jobs, the log is open under its
    name, and afterwards the scheduler holds a task for every row that is in service and
    whose task it takes, which leads to a job with the values of the row.  Beside them
    it holds, if it accepts that, the task that sends the log, every so many seconds as
    the interval of the agent comes to as a signed integer of 16 bits: up to nine hours
    as the agent told, while a day becomes 20864 seconds (day_becomes_hours), and an
    interval that becomes negative is refused (long_intervals_not_scheduled).  If the
    scheduler refuses it there is no task for the log.  Assumed: a name of 1 to 79
    characters, an address of four octets, an interval that is not 0 in 16 bits, a clock
    of 24 hours, a log that opens, memory for rows, jobs and tasks, rows whose lengths
    are within their buffers, and, for the rows in service, a start time and a finish
    time that can be read and a period that is not -1. *)
Theorem job_scheduler_starts c fuel created f a p i rows pages s :
  fresh s -> answers f a p i (s_get c) -> info_ok f a i -> clock_ok (s_clock c) -> s_fopen c = true ->
  ts_memory ->
  Forall row_ok rows -> Forall2 shows rows pages -> serves_jobs pages -> (length rows < fuel)%nat ->
  (forall k r, rows !! k = Some r -> in_service r = true ->
     readable tz perform (calls k) r (taken k r)) ->
  exists s' m' ids,
    JS_StartJobSchedProcess tz perform call_log start_scheduler c fuel calls created s =
      Ret (Some (if created then NASC_SUCCESS else NASC_FAILURE, s')) /\
    js_inv perform (lg_js s') m' (entries (serviced taken 0 rows) ids) /\
    Forall2 (fun x id => registered perform (lg_js s') m' (calls x.1) x.2 id) (serviced taken 0 rows) ids /\
    (if ts_accepts (s_now c) (log_task call_log (s_clock c) (I16 i) (s_junk c))
     then lTaskId s' ∉ (entries (serviced taken 0 rows) ids).*2 /\
          exists t, m' !! lTaskId s' = Some t /\ fp t = call_log /\ eType t = SCH_PERIODIC /\
            ui32Interval t = UI32 (I16 i)
     else lTaskId s' = -1) /\
    names_file f s' /\ log_open s' = true /\ log_events s' = log_events s ++ [LogOpened f].
Proof using Hapart Hmalloc Hstrings.
  intros Hfresh Hans Hok Hclock Hop Hmem Hrows Hsh Hserves Hfuel Hread.
  pose proof (fresh_inv s Hfresh) as Hinv. destruct Hfresh as (_ & _ & Ht & Hiv & Hip).
  unfold JS_StartJobSchedProcess. set (s0 := with_js _ s) in *.
  rewrite (GetAgentInfo_reads f a p i), outcome_bind_ret by done. rewrite bool_decide_eq_false_2 by done.
  unfold open_log. destruct Hok as (Hne & Hnz & Hfl & Hal & Hi).
  assert (Hf : names_file f (informed f a p i s0)) by by apply file_text.
  rewrite Hf, outcome_bind_ret, Hop, outcome_bind_ret. cbn [negb].
  set (s1 := with_text _ _ _).
  assert (Hinv1 : log_inv s1 ∅ []) by by destruct Hinv.
  destruct (log_is_scheduled (s_clock c) (s_now c) (s_junk c) s1 ∅ [] Hinv1 Hclock) as (s2 & m2 & -> & Hinv2 & Hs2 & Hcase).
  rewrite outcome_bind_ret. change (backupInterval s1) with (I16 i) in Hcase. change (iInterVal s1) with (iInterVal s) in Hcase.
  rewrite Hiv, (proj2 (Z.eqb_neq _ _) Hi) in Hcase.
  set (t := log_task call_log (s_clock c) (I16 i) (s_junk c)) in *.
  destruct (table_of_jobs_registered tz perform calls Hmalloc Hstrings taken rows pages fuel (lg_js s2) m2 []
    Hrows Hsh Hserves Hfuel (li_js _ _ _ Hinv2) Hmem Hread) as (j' & m' & ids & -> & Hm & _ & Hinv' & Hregs).
  rewrite outcome_bind_ret, app_nil_r in *.
  exists (with_js j' s2), m', ids. split_and!; try done.
  - cbn [lTaskId with_js] in *. case_bool_decide as Hid.
    { destruct Hcase as [_ Hcase]. by rewrite Hcase. }
    destruct Hcase as [Hm2 ->].
    assert (Hlog : m' !! lTaskId s2 = Some t) by (apply (lookup_weaken m2); [rewrite Hm2; apply lookup_insert_eq|done]).
    split; [|by exists t]. intros Hin. apply in_snd in Hin as (k & Hin).
    destruct (ji_task _ _ _ _ Hinv' k _ Hin) as (t' & Ht' & Hfp & _).
    rewrite Hlog in Ht'. injection Ht' as <-. by apply Hapart.
  - unfold names_file. rewrite Hs2. exact Hf.
  - by rewrite Hs2.
  - by rewrite Hs2.
Qed.
End Log.

(** ** Intervals that do not fit

    The interval is kept in a short: from 32768 seconds on, nine hours, the scheduler
    refuses the task, and the next call, with the same interval, does not try again; a
    whole day becomes less than six hours. *)
Theorem long_intervals_not_scheduled `{Allocator} call_log clock now junk i :
  32768 <= i < 65536 -> sched_accepts now (log_task call_log clock (I16 i) junk) = false.
Proof.
  intros Hi. unfold sched_accepts, accepts. rewrite bool_decide_eq_false_2; [done|].
  rewrite bool_decide_eq_false_2; [by intros [? ?]|].
  assert (HU : UI32 (I16 i) = i - 65536 + 4294967296) by (unfold UI32, I16; Z.to_euclidean_division_equations; lia).
  unfold ValidateTask. cbn [log_task StartDate eType ePCity ui32Interval eWeekDay]. rewrite HU.
  assert (NO_SECS_IN_DAY <? i - 65536 + 4294967296 = true) as -> by (apply Z.ltb_lt; unfold NO_SECS_IN_DAY; lia).
  change (SCH_PERIODIC =? SCH_PERIODIC) with true. change (SCH_SEC_MIN_HOUR =? SCH_SEC_MIN_HOUR) with true.
  cbn [negb]. rewrite !andb_false_r, orb_true_r. change (negb (SCH_PERIODIC =? SCH_ONE_SHOT)) with true. done.
Qed.
Lemma day_becomes_hours : I16 86400 = 20864.
Proof. done. Qed.

(** ** An agent with a log

    The log is jobs.log, the server 10.0.0.9 at port 2121, the interval an hour; the
    table is that with eight rows. *)
#[local] Existing Instance bump_allocator.

Definition jobs_log : text := text_of "jobs.log".
Definition info_answer (i : Z) (names : list (list Z)) : option reply :=
  if bool_decide (names = info_oids) then
    Some (MkReply 0 0 4
      [MkVariable agentInfoLogFileJobProcess_oid (Z.of_nat (length jobs_log)) jobs_log None;
       MkVariable agentInfoFileTransferIP_oid 4 [10; 0; 0; 9] None;
       MkVariable agentInfoFileTransferPortNo_oid 4 [] (Some 2121);
       MkVariable agentInfoFileTransferInterval_oid 4 [] (Some i)])
  else None.
Definition hourly : send_call := MkSend (info_answer 3600) morning morning once_2005 true.
Definition silent : send_call := MkSend (fun _ => None) morning morning once_2005 true.

Lemma info_answers i : answers jobs_log [10; 0; 0; 9] 2121 i (info_answer i).
Proof.
  do 2 eexists. split; [reflexivity|]. split; [by apply (bool_decide_unpack _)|].
  do 5 eexists. by split.
Qed.
Lemma jobs_log_ok : info_ok jobs_log [10; 0; 0; 9] 3600.
Proof. split_and!; [done| |by apply (bool_decide_unpack _)|done|done]. by repeat constructor. Qed.
Lemma morning_clock : clock_ok morning.
Proof. split; cbn; lia. Qed.

Definition new_js : js := MkJs (H := sched_scheduler) SchedDemo.blank ∅ {[100 := Node (0, 0) NULL]} 100.
Definition new_logger : logger :=
  MkLogger new_js (replicate 80 0) (replicate 16 0) 0 0 0 (-1) [] false [].

Lemma new_logger_fresh : fresh (H := sched_scheduler) SCH_StartScheduler new_logger.
Proof.
  split_and!; try done.
  - exists (replicate 25 []), []. split; [apply demo0_rep|]. by vm_compute.
  - exists (0, 0), []. split_and!; [|by apply (bool_decide_unpack _)|done].
    cbn [lseg]. split_and!; [done..|]. by exists NULL.
Qed.

Lemma job_scheduler_starts_witness : exists s' m' ids t,
  @JS_StartJobSchedProcess sched_scheduler _ 0 504 601 SCH_StartScheduler agent_of_eight hourly 9
      (fun _ => first_call) true new_logger = Ret (Some (NASC_SUCCESS, s')) /\
  js_inv 504 (lg_js s') m' (entries (serviced recurs 0 eight) ids) /\ length ids = 6%nat /\
  m' !! lTaskId s' = Some t /\ fp t = 601 /\ ui32Interval t = 3600 /\ names_file jobs_log s'.
Proof.
  destruct (job_scheduler_starts (H := sched_scheduler) (H1 := agent_of_eight) 0 504 601 SCH_StartScheduler ltac:(lia)
    (fun _ => first_call) recurs bump_total (fun _ _ => eq_refl) hourly 9 true jobs_log [10; 0; 0; 9] 2121 3600
    eight eight_pages new_logger) as (s' & m' & ids & Hs' & Hinv & Hregs & Hacc & Hf & _).
  - apply new_logger_fresh.
  - apply info_answers.
  - apply jobs_log_ok.
  - apply morning_clock.
  - done.
  - apply bump_total.
  - apply eight_ok.
  - apply Forall2_fmap_r, Forall_Forall2_diag, Forall_true. apply page_shows.
  - apply eight_served.
  - simpl. lia.
  - intros k r Hk _. apply eight_readable. by eapply list_elem_of_lookup_2.
  - assert (Hyes : ts_accepts (s_now hourly) (log_task 601 (s_clock hourly) (I16 3600) (s_junk hourly)) = true)
      by (vm_compute; reflexivity).
    rewrite Hyes in Hacc. destruct Hacc as (_ & t & Hlog & Hfp & _ & Hiv).
    exists s', m', ids, t. split_and!; [exact Hs'|exact Hinv| |exact Hlog|exact Hfp|exact Hiv|exact Hf].
    by rewrite <- (Forall2_length _ _ _ Hregs).
Defined.

(** A scheduler with a job, whose log has a line. *)
Definition line : text := text_of "a line".
Definition busy_logger : logger :=
  MkLogger (demo_js at_2008) (jobs_log ++ replicate (80 - length jobs_log) 0) (replicate 16 0) 0 0 0 (-1) line true [].
Lemma busy_inv : log_inv 504 601 busy_logger (tasks demo2_bks) [(3, 2)].
Proof.
  assert (Hfps : map_Forall (fun _ t => fp t <> 601) (tasks demo2_bks)) by by apply (bool_decide_unpack _).
  split; [apply demo_js_inv|by left|]. intros id t Ht Hfp. by destruct (Hfps id t Ht).
Qed.

Lemma busy_file : names_file jobs_log busy_logger.
Proof. by vm_compute. Qed.

(** The interval changes to half an hour. *)
Lemma log_is_scheduled_witness : exists s' m',
  JS_ScheduleLogInfo 601 morning morning once_2005 (with_interval 1800 busy_logger) = Ret (NASC_SUCCESS, s') /\
  log_inv 504 601 s' m' [(3, 2)] /\ lTaskId s' <> -1.
Proof.
  assert (Hinv : log_inv 504 601 (with_interval 1800 busy_logger) (tasks demo2_bks) [(3, 2)]) by (by destruct busy_inv).
  destruct (log_is_scheduled 504 601 ltac:(lia) morning morning once_2005 _ _ _ Hinv morning_clock)
    as (s' & m' & Hs' & Hinv' & _ & Hcase).
  exists s', m'. split; [exact Hs'|]. split; [exact Hinv'|]. intros E. cbn [backupInterval iInterVal with_interval busy_logger] in Hcase.
  change (1800 =? 0) with false in Hcase. rewrite bool_decide_eq_true_2 in Hcase by done.
  destruct Hcase as [_ Hacc]. specialize (Hacc bump_total). vm_compute in Hacc. discriminate Hacc.
Defined.

Lemma log_is_sent_witness : exists s' m',
  JS_SendLogFile 601 hourly busy_logger = Ret s' /\ log_inv 504 601 s' m' [(3, 2)] /\
  log_events s' = [LogWritten line; LogSent jobs_log (text_of "0.0.0.0") 0; LogOpened jobs_log] /\ log_text s' = [].
Proof.
  destruct (log_is_sent 504 601 ltac:(lia) hourly jobs_log jobs_log [10; 0; 0; 9] 2121 3600 busy_logger _ _
    busy_inv busy_file eq_refl (info_answers 3600) jobs_log_ok morning_clock)
    as (s' & m' & Hs' & Hinv' & He & Ht & _).
  exists s', m'. split_and!; [exact Hs'|exact Hinv'|rewrite He; by vm_compute|exact Ht].
Defined.

Lemma silent_agent_loses_log_witness : exists s1 s2,
  JS_SendLogFile 601 silent busy_logger = Ret s1 /\
  JS_SendLogFile 601 hourly (with_text (text_of "lost") (log_open s1) s1) = Ret s2 /\
  log_events s2 = log_events s1 ++ [LogSent [] (text_of "0.0.0.0") 0; LogOpened jobs_log].
Proof.
  destruct (silent_agent_loses_log 504 601 ltac:(lia) silent hourly jobs_log jobs_log [10; 0; 0; 9] 2121 3600
    (text_of "lost") busy_logger _ _ busy_inv busy_file eq_refl eq_refl (info_answers 3600) jobs_log_ok
    morning_clock eq_refl) as (s1 & s2 & H1 & H2 & _ & He).
  exists s1, s2. split_and!; [exact H1|exact H2|rewrite He; by vm_compute].
Defined.

Lemma long_intervals_not_scheduled_witness :
  sched_accepts morning (log_task 601 morning (I16 40000) once_2005) = false.
Proof. apply (long_intervals_not_scheduled 601 morning morning once_2005 40000). lia. Defined.
