(* ===== verification/PolicyRow.v ===== *)
(** * Rows of the policy table (RBM_List, RBM_Fill_Variables_List,
      RBM_Fill_OID_List, RBM_Copy_OID_List and RBM_SNMP_Get_Row of
      src/Group1/RBM/src/rbm.c)

    A row is an array of [RBM_List]: for each column the name of its variable
    and its value as text, 128 bytes each, next to each other in one object.
    Strings are copied without regard to those 128 bytes, so an array is
    modelled as the bytes of the object. *)

From Stdlib Require Import String.
From S2P Require Import Prelude CTypes CText.
From stdpp Require Import list.
#[local] Open Scope Z_scope.

Definition monitorPolicyTable_ENTRY_OID : text := text_of ".1.3.6.1.4.1.3204.1.3.35.1.1".
Definition ALERTMGR_IP_OID : text := text_of ".1.3.6.1.4.1.3204.1.3.36.1.4.0".
Definition ALERTMGR_PORT_OID : text := text_of ".1.3.6.1.4.1.3204.1.3.36.1.5.0".
Definition RBM_INVALID_OID : text := text_of ".0".

Definition RBM_START_COLUMN : Z := 7.
Definition RBM_END_COLUMN : Z := 33.
Definition RBM_VAR_COLUMNS : nat := Z.to_nat (RBM_END_COLUMN - RBM_START_COLUMN + 1).
Definition RBM_OID_COLUMNS : nat := 5.
Definition MAX_OID_LEN : nat := 128.
(** The [str] of RBM_SNMP_Get_Row. *)
Definition STR_LEN : nat := 80.

Definition sizeof_RBM_List : nat := MAX_OID_LEN + MAX_OID_LEN.
(** The offsets of [pstList[k].szVariable] and [pstList[k].szValue]. *)
Definition szVariable (k : nat) : nat := k * sizeof_RBM_List.
Definition szValue (k : nat) : nat := k * sizeof_RBM_List + MAX_OID_LEN.

(** [calloc] of so many elements. *)
Definition RBM_calloc (n : nat) : list Z := replicate (n * sizeof_RBM_List) 0.

(** ** The SNMP library *)
(** The type and value of a variable; [val.integer] is given as the [long] the
    code reads through it. *)
Inductive asn_value :=
| ASN_INTEGER (x : Z)
| ASN_UNSIGNED (x : Z)
| ASN_IPADDRESS (x : Z)
| ASN_OBJECT_ID (ids : list Z)
| ASN_OCTET_STR (s : list Z)
| ASN_OTHER (type : Z).

Record snmp_var := MkVar { var_name : list Z; var_val : asn_value }.

(** What comes of a request: no session, no usable response, or a response. *)
Inductive snmp_reply :=
| NotOpened
| NoResponse
| Response (vars : list snmp_var).

(** ** The state of the module (the globals of rbm.c) *)
Inductive rbm_event :=
| Get (szRemAddress : text) (giSAPort : Z) (oids : list (list Z))
| Sent (s_addr sin_port : Z) (message : text)
| Child (argv : outcome (list text)).

Record rbm := MkRbm {
  szRemAddress : text;
  usRemPort : Z;
  giSAPort : Z;
  uiPolicyId : Z;
  szTrapMessage : list Z;
  num_received : Z;
  rbm_log : list rbm_event
}.

Definition emit (e : rbm_event) (s : rbm) : rbm :=
  MkRbm (szRemAddress s) (usRemPort s) (giSAPort s) (uiPolicyId s) (szTrapMessage s)
        (num_received s) (rbm_log s ++ [e]).

(** Asks for the names in the array of the model's state, knowing what happened. *)
Class SnmpLib := {
  (** The identifier [read_objid] leaves in an array of so many elements. *)
  read_objid : text -> nat -> list Z;
  (** The response to a request that follows these events. *)
  snmp_get : list rbm_event -> list (list Z) -> snmp_reply
}.

(** What its documentation says of [read_objid]: it never fills more than the
    array, and reads a numeric identifier that fits. *)
Class SnmpLaws `{SnmpLib} (lw : Z) := {
  read_objid_fits t cap : (length (read_objid t cap) <= cap)%nat;
  read_objid_reads ids cap :
    ids <> [] -> (length ids <= cap)%nat -> Forall (fun x => 0 <= x < 2 ^ 31) ids ->
    read_objid (concat (map (fun x => 46 :: dec (as_long lw x)) ids)) cap = ids
}.

Section PolicyRow.
Context `{SnmpLib}.
Variable lw : Z.

(** ** The names of the columns *)
Fixpoint fill_variables (k : nat) (sCnt : nat) (policy : Z) (m : list Z) : outcome (list Z) :=
  match k with
  | O => mret m
  | S k =>
      let szStrOid := (monitorPolicyTable_ENTRY_OID ++ [46] ++
                       dec (Z.of_nat sCnt + RBM_START_COLUMN) ++ [46] ++
                       dec (as_long lw policy))%list in
      m ← strcpy m (szVariable sCnt) szStrOid;
      fill_variables k (S sCnt) policy m
  end.

Definition RBM_Fill_Variables_List (policy : Z) (m : list Z) : outcome (list Z * nat) :=
  m ← fill_variables RBM_VAR_COLUMNS 0 policy m; mret (m, RBM_VAR_COLUMNS).

(** ** The variables of the conditions *)
Fixpoint fill_oids (k : nat) (sCnt sAdd : nat) (m o : list Z) : outcome (list Z * nat) :=
  match k with
  | O => mret (o, sCnt)
  | S k =>
      s ← get_str m (szValue sAdd);
      if has_prefix RBM_INVALID_OID s then mret (o, sCnt) else
      o ← strcpy o (szVariable sCnt) s;
      fill_oids k (S sCnt) (sAdd + 4) m o
  end.

Definition RBM_Fill_OID_List (m o : list Z) : outcome (list Z * nat) :=
  fill_oids RBM_OID_COLUMNS 0 0 m o.

Fixpoint copy_oids (k : nat) (sCnt sAdd : nat) (m o : list Z) : outcome (list Z) :=
  match k with
  | O => mret m
  | S k =>
      s ← get_str o (szValue sCnt);
      m ← strcpy m (szValue sAdd) s;
      copy_oids k (S sCnt) (sAdd + 4) m o
  end.

Definition RBM_Copy_OID_List (m o : list Z) (iLength : nat) : outcome (list Z) :=
  copy_oids iLength 0 0 m o.

(** ** RBM_SNMP_Get_Row *)
(** An identifier printed into [str] piece by piece. *)
Fixpoint oid_text (str : text) (ids : list Z) : outcome text :=
  match ids with
  | [] => mret str
  | x :: ids =>
      let str := (str ++ 46 :: dec (as_long lw x))%list in
      if bool_decide (length str < STR_LEN)%nat then oid_text str ids else Crash
  end.

(** The identifiers asked for: [anOID_len] is not set again for each name. *)
Fixpoint request (k : nat) (cnt : nat) (anOID_len : nat) (m : list Z) : outcome (list (list Z)) :=
  match k with
  | O => mret []
  | S k =>
      s ← get_str m (szVariable cnt);
      let anOID := read_objid s anOID_len in
      rest ← request k (S cnt) (length anOID) m;
      mret (anOID :: rest)
  end.

(** The body of the loop on the response's variables. *)
Definition store_var (sTmpCnt : nat) (v : snmp_var) (m : list Z) : outcome (nat * list Z) :=
  _ ← oid_text [] (var_name v);
  match var_val v with
  | ASN_INTEGER x =>
      m ← strcpy m (szValue sTmpCnt) (dec x); mret (S sTmpCnt, m)
  | ASN_UNSIGNED x | ASN_IPADDRESS x =>
      m ← strcpy m (szValue sTmpCnt) (dec_u (UI32 x)); mret (S sTmpCnt, m)
  | ASN_OBJECT_ID ids =>
      str ← oid_text [] ids;
      m ← strcpy m (szValue sTmpCnt) str; mret (S sTmpCnt, m)
  | ASN_OCTET_STR s =>
      m ← poke m (szValue sTmpCnt) (take 255 s); mret (S sTmpCnt, m)
  | ASN_OTHER _ => mret (sTmpCnt, m)
  end.

Fixpoint store_vars (sTmpCnt : nat) (vars : list snmp_var) (m : list Z) : outcome (list Z) :=
  match vars with
  | [] => mret m
  | v :: vars => '(n, m) ← store_var sTmpCnt v m; store_vars n vars m
  end.

(** The status, the array and the state. *)
Definition RBM_SNMP_Get_Row (m : list Z) (iLength : nat) (s : rbm)
    : outcome (Z * list Z * rbm) :=
  oids ← request iLength 0 MAX_OID_LEN m;
  let reply := snmp_get (rbm_log s) oids in
  match reply with
  | NotOpened => mret (2, m, s)
  | NoResponse => mret (1, m, emit (Get (szRemAddress s) (giSAPort s) oids) s)
  | Response vars =>
      m ← store_vars 0 vars m;
      mret (0, m, emit (Get (szRemAddress s) (giSAPort s) oids) s)
  end.

End PolicyRow.
