(* ===== verification/Policy.v ===== *)
(** * The policy monitor (src/Group1/RBM/src/rbm.c)

    A trap names a policy; the monitor reads the policy's row and the variables
    of its conditions from the agent that sent the trap, decides whether to
    alert, sends the alert to the alert manager and runs the policy's command
    and script. *)

From Stdlib Require Import String.
From S2P Require Import Prelude CTypes CText PolicyRow.
From stdpp Require Import list.
#[local] Open Scope Z_scope.

Definition aulNuriPolicy_variables_oid : list Z := [1; 3; 6; 1; 4; 1; 3204; 1; 3; 35].
Definition RBM_STR_LEN : nat := 255.

Definition RBM_LEVEL_COLUMN : nat := Z.to_nat (RBM_END_COLUMN - RBM_START_COLUMN - 7).
Definition RBM_SMS_COLUMN : nat := Z.to_nat (RBM_END_COLUMN - RBM_START_COLUMN - 6).
Definition RBM_CMD_COLUMN : nat := Z.to_nat (RBM_END_COLUMN - RBM_START_COLUMN - 2).
Definition RBM_SCR_COLUMN : nat := Z.to_nat (RBM_END_COLUMN - RBM_START_COLUMN - 1).
Definition RBM_MSG_COLUMN : nat := Z.to_nat (RBM_END_COLUMN - RBM_START_COLUMN).

(** ** The decision *)
Section Decision.
Variable lw : Z.

Definition atoi_at (m : list Z) (k : nat) : outcome Z :=
  s ← get_str m (szValue k); mret (atoi lw s).
Definition atol_at (m : list Z) (k : nat) : outcome Z :=
  s ← get_str m (szValue k); mret (I32 (atol lw s)).

Definition safe_expr (iExpr : Z) : Z := if (iExpr <? 0) || (5 <? iExpr) then 0 else iExpr.

(** The [switch] on the expression. *)
Definition satisfied (iExpr iValue iThreshold : Z) : bool :=
  if iExpr =? 0 then iValue <? iThreshold
  else if iExpr =? 1 then iThreshold <? iValue
  else if iExpr =? 2 then iValue <=? iThreshold
  else if iExpr =? 3 then iThreshold <=? iValue
  else if iExpr =? 4 then negb (iValue =? iThreshold)
  else if iExpr =? 5 then iValue =? iThreshold
  else false.

(** The entry of [aOpn] that is logged; the array has three. *)
Definition aOpn (iOperation : Z) : outcome text :=
  if iOperation =? 0 then mret (text_of "AND")
  else if iOperation =? 1 then mret (text_of "OR")
  else if iOperation =? 2 then mret []
  else Crash.

Definition RBM_Validate_Single_Variable (sCnt : nat) (sSavedRes : Z) (m : list Z) : outcome Z :=
  if bool_decide (sCnt = 0)%nat then
    iValue ← atoi_at m sCnt;
    iExpr ← atoi_at m (sCnt + 1);
    iThreshold ← atol_at m (sCnt + 2);
    mret (Z.b2z (satisfied (safe_expr iExpr) iValue iThreshold))
  else
    iOperation ← atol_at m sCnt;
    iValue ← atoi_at m (sCnt + 1);
    iExpr ← atoi_at m (sCnt + 2);
    iThreshold ← atol_at m (sCnt + 3);
    _ ← aOpn iOperation;
    let iResult := Z.b2z (satisfied (safe_expr iExpr) iValue iThreshold) in
    mret (if iOperation =? 0 then Z.land sSavedRes iResult else Z.lor sSavedRes iResult).

(** The loop on the other conditions. *)
Fixpoint validate (fuel : nat) (iLength sCnt : nat) (sSavedRes : Z) (m : list Z) : outcome Z :=
  match fuel with
  | O => OutOfFuel
  | S fuel =>
      if bool_decide (sCnt < iLength * 4 - 1)%nat then
        sOutput ← RBM_Validate_Single_Variable sCnt sSavedRes m;
        validate fuel iLength (sCnt + 4) sOutput m
      else mret sSavedRes
  end.

Definition RBM_Validate_Variables (m : list Z) (iLength : nat) : outcome Z :=
  sSavedRes ← RBM_Validate_Single_Variable 0 0 m;
  validate (S iLength) iLength 3 sSavedRes m.

End Decision.

(** ** Commands *)

(** The tokens [strtok_r] finds between spaces. *)
Fixpoint tokens (cur : text) (s : text) : list text :=
  match s with
  | [] => match cur with [] => [] | _ => [cur] end
  | c :: s =>
      if c =? 32 then match cur with [] => tokens [] s | _ => cur :: tokens [] s end
      else tokens (cur ++ [c])%list s
  end.

(** What the child passes to [execv].  A command of spaces gives a null
    [argv[0]]; the null after twenty arguments is written outside [argv]. *)
Definition child_argv (command : text) : outcome (list text) :=
  if bool_decide (32 ∈ command) then
    let argv := take 20 (tokens [] command) in
    if bool_decide (argv = [] \/ length argv = 20)%nat then Crash else mret argv
  else mret [command].

Definition RBM_Fork_Execute (fork_ok : bool) (szCmd : text) (s : rbm) : outcome rbm :=
  if bool_decide (length szCmd < 256)%nat then
    mret (if fork_ok then emit (Child (child_argv szCmd)) s else s)
  else Crash.

(** ** The alert *)
Record RBM_AlertMsg := MkAlert {
  modCode : text; masterIp : text; dateTime : text; sysName : text; alertMesg : text;
  level : text; sms : text; popup : text; email : text; pstn : text
}.

(** [sizeof]: the arrays of the structure, with a [MAXHOSTNAMELEN] of 64. *)
Definition sizeof_RBM_AlertMsg : nat := 5 + 16 + 50 + 65 + 256 + 10 + 10 + 10 + 10 + 10.

(** The text of the datagram. *)
Definition alert_text (a : RBM_AlertMsg) : text :=
  (modCode a ++ [124] ++ masterIp a ++ [124] ++ dateTime a ++ [124] ++ sysName a ++ [124] ++
   alertMesg a ++ [124] ++ level a ++ [124] ++ sms a ++ [124] ++ popup a ++ [124] ++
   email a ++ [124] ++ pstn a)%list.

Definition aLevel (i : Z) : text :=
  if i =? 0 then text_of "Warning" else if i =? 1 then text_of "Minor"
  else if i =? 2 then text_of "Normal" else if i =? 3 then text_of "Major"
  else text_of "Critical".
Definition aBool (i : Z) : text := if i =? 0 then text_of "False" else text_of "True".

(** What the host gives to one alert: its address, the time, its name, whether
    the log can be written, the bytes on the stack, and whether the datagram
    can be sent. *)
Record host := MkHost {
  host_ip : text; host_time : text; nodename : text; log_ok : bool; stack : list Z;
  send_ok : bool
}.

Section Monitor.
Context `{SnmpLib}.
Variable lw : Z.

Definition RBM_SendAlertMsg (h : host) (stMesg : RBM_AlertMsg) (s : rbm) : outcome (Z * rbm) :=
  m ← strcpy (stack h) (szVariable 0) ALERTMGR_IP_OID;
  m ← strcpy m (szVariable 1) ALERTMGR_PORT_OID;
  '(sErr, m, s) ← RBM_SNMP_Get_Row lw m 2 s;
  if negb (sErr =? 0) then mret (1, s) else
  gszAlertMgrIP ← get_str m (szValue 0);
  _ ← strcpy (replicate RBM_STR_LEN 0) 0 gszAlertMgrIP;
  port ← get_str m (szValue 1);
  let glRBMAlertMgrPort := atol lw port in
  let s_addr := UI32 (strtoul lw gszAlertMgrIP) in
  pcAlertMesg ← strcpy (replicate (sizeof_RBM_AlertMsg + 1) 0) 0 (alert_text stMesg);
  if send_ok h then mret (0, emit (Sent s_addr (UI16 glRBMAlertMgrPort) pcAlertMesg) s)
  else mret (1, s).

Definition flag_at (m : list Z) (i : nat) : outcome text :=
  iTmp ← atoi_at lw m (RBM_SMS_COLUMN + i);
  mret (aBool (if negb (iTmp =? 0) && negb (iTmp =? 1) then 0 else iTmp)).

Definition RBM_Form_Send_AlertMsg (h : host) (m : list Z) (s : rbm) : outcome (Z * rbm) :=
  msg ← get_str m (szValue RBM_MSG_COLUMN);
  _ ← strcpy (replicate 256 0) 0 msg;
  iTmp ← atoi_at lw m RBM_LEVEL_COLUMN;
  let level := aLevel (if (iTmp <? 0) || (4 <? iTmp) then 0 else iTmp) in
  sms ← flag_at m 0;
  popup ← flag_at m 1;
  email ← flag_at m 2;
  pstn ← flag_at m 3;
  let stMsg := MkAlert (text_of "RBMM") (host_ip h) (host_time h) (nodename h) msg level
                       sms popup email pstn in
  if negb (log_ok h) then mret (1, s) else
  '(err, s) ← RBM_SendAlertMsg h stMsg s;
  mret (if err =? 0 then 0 else 1, s).

(** ** Traps *)

Definition under_policy (v : snmp_var) : bool :=
  bool_decide (take (length aulNuriPolicy_variables_oid) (var_name v) = aulNuriPolicy_variables_oid).

(** The characters up to a null. *)
Fixpoint c_text (s : list Z) : text :=
  match s with [] => [] | c :: s => if c =? 0 then [] else c :: c_text s end.

Definition set_trap (v : asn_value) (s : rbm) : outcome rbm :=
  match v with
  | ASN_INTEGER x =>
      mret (MkRbm (szRemAddress s) (usRemPort s) (I32 x) (uiPolicyId s) (szTrapMessage s)
                  (num_received s) (rbm_log s))
  | ASN_UNSIGNED x =>
      mret (MkRbm (szRemAddress s) (usRemPort s) (giSAPort s) (UI32 x) (szTrapMessage s)
                  (num_received s) (rbm_log s))
  | ASN_OCTET_STR t =>
      (* strncpy of val_len characters fills the rest of them with nulls *)
      t ← poke (replicate RBM_STR_LEN 0) 0
               (c_text t ++ replicate (length t - length (c_text t)) 0)%list;
      mret (MkRbm (szRemAddress s) (usRemPort s) (giSAPort s) (uiPolicyId s) t
                  (num_received s) (rbm_log s))
  | _ => mret s
  end.

(** The loop on the variables of the trap; [false] is the early return. *)
Fixpoint read_trap (sArgCnt : Z) (vars : list snmp_var) (s : rbm) : outcome (bool * rbm) :=
  match vars with
  | [] => mret (true, s)
  | v :: vars =>
      let sArgCnt := I16 (sArgCnt + 1) in
      if under_policy v then
        if sArgCnt <=? 2 then mret (false, s)
        else s ← set_trap (var_val v) s; read_trap sArgCnt vars s
      else if sArgCnt <=? 2 then read_trap sArgCnt vars s
      else mret (false, s)
  end.

(** A call of the session's callback: whether a message came, whether it is an
    SNMPv2 trap, whether addresses stay numeric, the sender and the variables. *)
Record trap := MkTrap {
  received : bool; trap2 : bool; numeric_ip : bool; sender : text; sin_port : Z;
  trap_vars : list snmp_var
}.

(** The sender is kept and the trap logged, its message as a string. *)
Definition note_sender (t : trap) (s : rbm) : outcome rbm :=
  if received t && trap2 t then
    let n := (num_received s + 1) mod 2 ^ lw in
    if numeric_ip t then
      mret (MkRbm (szRemAddress s) (usRemPort s) (giSAPort s) (uiPolicyId s) (szTrapMessage s)
                  n (rbm_log s))
    else
      _ ← strlen (szTrapMessage s);
      mret (MkRbm (sender t) (sin_port t) (giSAPort s) (uiPolicyId s) (szTrapMessage s)
                  n (rbm_log s))
  else mret s.

(** A command or script column, run if it is not empty. *)
Definition run_column (fork_ok : bool) (k : nat) (m : list Z) (s : rbm) : outcome rbm :=
  cmd ← get_str m (szValue k);
  match cmd with [] => mret s | _ => RBM_Fork_Execute fork_ok cmd s end.

(** From the evaluation of the conditions on. *)
Definition act (h : host) (fork_ok : bool) (m : list Z) (iLength : nat) (s : rbm)
    : outcome (Z * rbm) :=
  iSendAlert ← RBM_Validate_Variables lw m iLength;
  s ← (if negb (iSendAlert =? 0) then '(_, s) ← RBM_Form_Send_AlertMsg h m s; mret s else mret s);
  s ← run_column fork_ok RBM_CMD_COLUMN m s;
  s ← run_column fork_ok RBM_SCR_COLUMN m s;
  mret (1, s).

Definition snmp_input (h : host) (fork_ok : bool) (t : trap) (s : rbm) : outcome (Z * rbm) :=
  '(go, s) ← read_trap 0 (trap_vars t) s;
  if negb go then mret (1, s) else
  s ← note_sender t s;
  '(m, iLength) ← RBM_Fill_Variables_List lw (uiPolicyId s) (RBM_calloc RBM_VAR_COLUMNS);
  '(sErr, m, s) ← RBM_SNMP_Get_Row lw m iLength s;
  if negb (sErr =? 0) then mret (1, s) else
  '(o, iLength) ← RBM_Fill_OID_List m (RBM_calloc RBM_OID_COLUMNS);
  if bool_decide (iLength = 0)%nat then mret (0, s) else
  '(sErr, o, s) ← RBM_SNMP_Get_Row lw o iLength s;
  if negb (sErr =? 0) then mret (1, s) else
  m ← RBM_Copy_OID_List m o iLength;
  act h fork_ok m iLength s.

End Monitor.

(** ** Options (RBM_GetOptions) *)
Record options := MkOptions { giDoDebug : bool; giDoFork : bool; giRBMPort : Z }.
Definition default_options : options := MkOptions false true 162.

(** [None] is the exit after the usage message. *)
Fixpoint get_options (lw : Z) (args : list text) (o : options) : option options :=
  match args with
  | [] => Some o
  | (45 :: c :: _) :: args =>
      if c =? 68 then get_options lw args (MkOptions true (giDoFork o) (giRBMPort o))
      else if (c =? 112) || (c =? 80) then
        match args with
        | [] => Some o
        | v :: args =>
            let o := MkOptions (giDoDebug o) (giDoFork o) (atoi lw v) in
            match args with
            | [] => Some o
            | _ :: args => get_options lw args o
            end
        end
      else if (c =? 102) || (c =? 70) then
        get_options lw args (MkOptions (giDoDebug o) false (giRBMPort o))
      else None
  | _ => None
  end.

(** [argv[0]] is the name of the program. *)
Definition RBM_GetOptions (lw : Z) (argv : list text) : option options :=
  get_options lw (tail argv) default_options.
