(* ===== verification/PolicyRead.v ===== *)
(** * The 128-byte fields of a row, and reading a row

    Field [2*k] is the name of column [k], field [2*k+1] its value; a string
    that is shorter than its field touches no other. *)

From S2P Require Import Prelude CTypes CText PolicyRow.
From stdpp Require Import list.

#[local] Open Scope nat_scope.

Lemma szVariable_field k : szVariable k = 128 * (2 * k).
Proof. unfold szVariable, sizeof_RBM_List, MAX_OID_LEN. lia. Qed.
Lemma szValue_field k : szValue k = 128 * (2 * k + 1).
Proof. unfold szValue, sizeof_RBM_List, MAX_OID_LEN. lia. Qed.

(** The bytes of a field. *)
Definition field (f : nat) (m : list Z) : list Z := take 128 (drop (128 * f) m).

(** A field holds a string. *)
Definition has (m : list Z) (f : nat) (s : text) : Prop :=
  nonzero s /\ exists junk, field f m = s ++ 0%Z :: junk.
Definition name_is (m : list Z) (k : nat) (s : text) : Prop := has m (2 * k) s.
Definition value_is (m : list Z) (k : nat) (s : text) : Prop := has m (2 * k + 1) s.
Definition blank (m : list Z) (k : nat) : Prop := field (2 * k + 1) m = replicate 128 0%Z.

Lemma has_same m m' f s : field f m' = field f m -> has m f s -> has m' f s.
Proof. unfold has. by intros ->. Qed.

Lemma has_get m f s : has m f s -> get_str m (128 * f) = Ret s.
Proof.
  intros [Hs (junk & Hf)]. apply (get_str_at _ _ _ (junk ++ drop 128 (drop (128 * f) m))); [done|].
  rewrite <- (take_drop 128 (drop (128 * f) m)) at 1.
  change (take 128 _) with (field f m). rewrite Hf, <- app_assoc. done.
Qed.
Lemma name_get m k s : name_is m k s -> get_str m (szVariable k) = Ret s.
Proof. rewrite szVariable_field. apply has_get. Qed.
Lemma value_get m k s : value_is m k s -> get_str m (szValue k) = Ret s.
Proof. rewrite szValue_field. apply has_get. Qed.

Lemma lookup_field f m i : field f m !! i = if decide (i < 128) then m !! (128 * f + i) else None.
Proof.
  unfold field. case_decide.
  - by rewrite lookup_take_lt, lookup_drop.
  - by rewrite lookup_take_ge by lia.
Qed.

Lemma field_ext f m g m' :
  (forall i, i < 128 -> m !! (128 * f + i) = m' !! (128 * g + i)) -> field f m = field g m'.
Proof.
  intros Hi. apply list_eq. intros i. rewrite !lookup_field. case_decide; auto.
Qed.

Lemma blank_calloc n k : k < n -> blank (RBM_calloc n) k.
Proof.
  intros Hk. unfold blank, field, RBM_calloc, sizeof_RBM_List, MAX_OID_LEN.
  rewrite drop_replicate, take_replicate. f_equal. lia.
Qed.

(** Writing at the start of a field. *)
Lemma poke_field m f s : length s <= 128 -> 128 * f + 128 <= length m ->
  exists m', poke m (128 * f) s = Ret m' /\ length m' = length m /\
    field f m' = s ++ drop (length s) (field f m) /\
    forall g, g <> f -> field g m' = field g m.
Proof.
  intros Hs Hm. rewrite poke_ok by lia. eexists. split; [done|].
  assert (Hl : length (take (128 * f) m) = 128 * f) by (rewrite length_take; lia).
  split_and!.
  - rewrite !length_app, Hl, length_drop. lia.
  - unfold field. rewrite drop_app_length' by done. rewrite take_app, take_ge by done. f_equal.
    rewrite <- drop_drop. by rewrite take_drop_commute, Nat.add_comm, Nat.sub_add.
  - intros g Hg. apply field_ext. intros i Hi.
    destruct (decide (g < f)).
    + rewrite lookup_app_l by lia. by rewrite lookup_take_lt by lia.
    + rewrite lookup_app_r by lia. rewrite lookup_app_r by lia.
      rewrite lookup_drop. f_equal. lia.
Qed.

(** What a write leaves of an array. *)
Definition only (f : nat) (m m' : list Z) : Prop :=
  length m' = length m /\ forall g, g <> f -> field g m' = field g m.

Lemma strcpy_field m f s : nonzero s -> length s < 128 -> 128 * f + 128 <= length m ->
  exists m', strcpy m (128 * f) s = Ret m' /\ has m' f s /\ only f m m'.
Proof.
  intros Hs Hl Hm. destruct (poke_field m f (s ++ [0%Z])) as (m' & Hp & Hm' & Hf & Ho).
  { rewrite length_app. simpl. lia. } { done. }
  exists m'. split; [done|]. split; [|done]. split; [done|]. eexists. rewrite Hf.
  rewrite <- app_assoc. done.
Qed.

Lemma octets_field m f s : nonzero s -> length s < 128 -> 128 * f + 128 <= length m ->
  field f m = replicate 128 0%Z ->
  exists m', poke m (128 * f) s = Ret m' /\ has m' f s /\ only f m m'.
Proof.
  intros Hs Hl Hm Hb. destruct (poke_field m f s) as (m' & Hp & Hm' & Hf & Ho); [lia|done|].
  exists m'. split; [done|]. split; [|done]. split; [done|].
  exists (replicate (127 - length s) 0%Z). rewrite Hf, Hb, drop_replicate.
  by replace (128 - length s) with (S (127 - length s)) by lia.
Qed.

(** The arrays are long enough for so many columns. *)
Definition columns (n : nat) (m : list Z) : Prop := n * 256 <= length m.

Lemma columns_calloc n : columns n (RBM_calloc n).
Proof. unfold columns, RBM_calloc, sizeof_RBM_List, MAX_OID_LEN. rewrite length_replicate. lia. Qed.
Lemma columns_only n f m m' : columns n m -> only f m m' -> columns n m'.
Proof. unfold columns. by intros ? [-> _]. Qed.

Lemma strcpy_name n m k s : columns n m -> k < n -> nonzero s -> length s < 128 ->
  exists m', strcpy m (szVariable k) s = Ret m' /\ name_is m' k s /\ only (2 * k) m m'.
Proof. intros Hn Hk ??. rewrite szVariable_field. apply strcpy_field; unfold columns in *; auto. lia. Qed.
Lemma strcpy_value n m k s : columns n m -> k < n -> nonzero s -> length s < 128 ->
  exists m', strcpy m (szValue k) s = Ret m' /\ value_is m' k s /\ only (2 * k + 1) m m'.
Proof. intros Hn Hk ??. rewrite szValue_field. apply strcpy_field; unfold columns in *; auto. lia. Qed.

Lemma only_name f m m' k s : only f m m' -> f <> 2 * k -> name_is m k s -> name_is m' k s.
Proof. intros [_ Ho] Hf. apply has_same, Ho. auto. Qed.
Lemma only_value f m m' k s : only f m m' -> f <> 2 * k + 1 -> value_is m k s -> value_is m' k s.
Proof. intros [_ Ho] Hf. apply has_same, Ho. auto. Qed.
Lemma only_blank f m m' k : only f m m' -> f <> 2 * k + 1 -> blank m k -> blank m' k.
Proof. intros [_ Ho] Hf. unfold blank. rewrite Ho by auto. done. Qed.

(** * Reading a row

    What each step of the monitor makes of an array: the names it prints, the
    identifiers it asks for and the texts of the values it stores. *)

#[local] Open Scope Z_scope.

Section Read.
Context `{SnmpLib}.
Variable lw : Z.

(** An identifier as [.%ld] prints it. *)
Definition oid_string (ids : list Z) : text := concat (map (fun x => 46 :: dec (as_long lw x)) ids).

Lemma oid_string_cons x ids : oid_string (x :: ids) = (46 :: dec (as_long lw x)) ++ oid_string ids.
Proof. done. Qed.

Lemma oid_string_nonzero ids : nonzero (oid_string ids).
Proof.
  induction ids as [|x ids IH]; [constructor|]. rewrite oid_string_cons.
  apply Forall_app. split; [|done]. constructor; [done|]. apply dec_nonzero.
Qed.

Lemma oid_text_spec ids str : (length (str ++ oid_string ids) < STR_LEN)%nat ->
  oid_text lw str ids = Ret (str ++ oid_string ids).
Proof.
  revert str. induction ids as [|x ids IH]; intros str Hl.
  - cbn. by rewrite app_nil_r.
  - rewrite oid_string_cons, app_assoc in *. cbn -[dec as_long].
    rewrite bool_decide_eq_true_2 by (rewrite length_app in Hl; lia). by apply IH.
Qed.

(** ** Values *)
Definition value_text (v : asn_value) : text :=
  match v with
  | ASN_INTEGER x => dec x
  | ASN_UNSIGNED x | ASN_IPADDRESS x => dec_u (UI32 x)
  | ASN_OBJECT_ID ids => oid_string ids
  | ASN_OCTET_STR s => s
  | ASN_OTHER _ => []
  end.

(** The values a field can hold. *)
Definition storable (v : asn_value) : Prop :=
  match v with
  | ASN_OBJECT_ID ids => (length (oid_string ids) < STR_LEN)%nat
  | ASN_OCTET_STR s => nonzero s /\ (length s < MAX_OID_LEN)%nat
  | ASN_OTHER _ => False
  | _ => True
  end.
Definition short_name (v : snmp_var) : Prop := (length (oid_string (var_name v)) < STR_LEN)%nat.

(** Octets are copied without a terminator: their field has to be blank. *)
Definition ready_for (m : list Z) (k : nat) (v : asn_value) : Prop :=
  match v with ASN_OCTET_STR _ => blank m k | _ => True end.

Lemma value_text_ok v : storable v -> nonzero (value_text v) /\ (length (value_text v) < 128)%nat.
Proof.
  destruct v; simpl; unfold STR_LEN, MAX_OID_LEN; intros Hv; try done.
  - split; [apply dec_nonzero|]. pose proof (dec_length x). lia.
  - split; [apply dec_u_nonzero|]. pose proof (dec_u_length (UI32 x)). lia.
  - split; [apply dec_u_nonzero|]. pose proof (dec_u_length (UI32 x)). lia.
  - split; [apply oid_string_nonzero|]. lia.
Qed.

Lemma store_var_spec n k v m :
  short_name v -> storable (var_val v) -> columns n m -> (k < n)%nat -> ready_for m k (var_val v) ->
  exists m', store_var lw k v m = Ret (S k, m') /\
    value_is m' k (value_text (var_val v)) /\ only (2 * k + 1) m m'.
Proof.
  intros Hn Hv Hc Hk Hb. unfold store_var. rewrite oid_text_spec by done. cbn [mbind outcome_bind].
  destruct (value_text_ok _ Hv) as [Hz Hl].
  destruct (strcpy_value n m k (value_text (var_val v))) as (m' & Hm & ? & ?); auto.
  destruct (var_val v) as [x|x|x|ids|s|] eqn:E; simpl in Hv, Hm.
  - rewrite Hm. by exists m'.
  - rewrite Hm. by exists m'.
  - rewrite Hm. by exists m'.
  - rewrite oid_text_spec by done. cbn [mbind outcome_bind app]. rewrite Hm. by exists m'.
  - destruct Hv as [? Hs]. unfold MAX_OID_LEN in Hs. rewrite take_ge by lia. rewrite szValue_field.
    destruct (octets_field m (2 * k + 1) s) as (m'' & -> & ? & ?); unfold columns in *; auto; [lia|].
    by exists m''.
  - done.
Qed.

(** The columns from [k] on hold these texts. *)
Definition values_from (m : list Z) (k : nat) (ts : list text) : Prop :=
  forall j t, ts !! j = Some t -> value_is m (k + j) t.
Definition names_from (m : list Z) (k : nat) (ts : list text) : Prop :=
  forall j t, ts !! j = Some t -> name_is m (k + j) t.
Definition ready (m : list Z) (k : nat) (vs : list asn_value) : Prop :=
  forall j v, vs !! j = Some v -> ready_for m (k + j) v.
Definition blank_from (m : list Z) (k n : nat) : Prop :=
  forall j, (k <= j < k + n)%nat -> blank m j.

Lemma blank_ready m k n vs : blank_from m k n -> (length vs <= n)%nat -> ready m k vs.
Proof.
  intros Hb Hn j v Hj%lookup_lt_Some. destruct v; simpl; auto. apply Hb. lia.
Qed.

(** A response writes the values of its columns and nothing else. *)
Lemma store_vars_spec n vars k m :
  Forall short_name vars -> Forall storable (map var_val vars) ->
  columns n m -> (k + length vars <= n)%nat -> ready m k (map var_val vars) ->
  exists m', store_vars lw k vars m = Ret m' /\ columns n m' /\
    values_from m' k (map value_text (map var_val vars)) /\
    (forall f, (forall j, (k <= j < k + length vars)%nat -> f <> 2 * j + 1)%nat ->
       field f m' = field f m).
Proof.
  revert k m. induction vars as [|v vars IH]; intros k m Hn Hs Hc Hk Hb.
  - exists m. by split_and!.
  - simpl in *. apply Forall_cons in Hn as [Hn1 Hn], Hs as [Hs1 Hs].
    destruct (store_var_spec n k v m) as (m1 & -> & Hv & Ho); try done; [lia| |].
    { specialize (Hb 0%nat). rewrite Nat.add_0_r in Hb. by apply Hb. }
    cbn [mbind outcome_bind]. destruct (IH (S k) m1) as (m' & -> & Hc' & Hvs & Hf); auto.
    + by eapply columns_only.
    + lia.
    + intros j w Hj. specialize (Hb (S j) w Hj). rewrite <- Nat.add_succ_comm in Hb.
      destruct w; simpl in *; auto. eapply only_blank; [exact Ho|lia|done].
    + exists m'. split_and!; try done.
      * intros [|j] t Hj; simpl in Hj.
        -- simplify_eq. rewrite Nat.add_0_r. eapply has_same; [|exact Hv]. apply Hf. lia.
        -- rewrite <- Nat.add_succ_comm. by apply Hvs.
      * intros f Hj. rewrite Hf by (intros j ?; apply Hj; lia). apply Ho. apply Hj. lia.
Qed.

(** ** Names *)

(** Identifiers the library reads from text. *)
Definition readable (ids : list Z) : Prop := ids <> [] /\ Forall (fun x => 0 <= x < 2 ^ 31) ids.

(** The identifiers are read in full: each fits where the one before it was. *)
Fixpoint fits (cap : nat) (oids : list (list Z)) : Prop :=
  match oids with
  | [] => True
  | o :: oids => readable o /\ (length o <= cap)%nat /\ fits (length o) oids
  end.

#[export] Instance fits_dec cap oids : Decision (fits cap oids).
Proof.
  revert cap. induction oids as [|o oids IH]; intros cap; simpl; [apply _|].
  unfold readable. specialize (IH (length o)). solve_decision.
Defined.

Lemma request_spec `{!SnmpLaws lw} oids cnt cap m :
  names_from m cnt (map oid_string oids) -> fits cap oids ->
  request (length oids) cnt cap m = Ret oids.
Proof.
  revert cnt cap. induction oids as [|o oids IH]; intros cnt cap Hm Hf; [done|].
  destruct Hf as ([Hne Hr] & Hc & Hf). simpl.
  rewrite (name_get _ _ (oid_string o)) by (specialize (Hm 0%nat); rewrite Nat.add_0_r in Hm; by apply Hm).
  cbn [mbind outcome_bind]. unfold oid_string. rewrite read_objid_reads by done.
  rewrite IH; [done| |done]. intros j t Hj. rewrite Nat.add_succ_comm. by apply Hm.
Qed.

Lemma names_same m m' k ts :
  (forall j, field (2 * j) m' = field (2 * j) m) -> names_from m k ts -> names_from m' k ts.
Proof. intros Hj Hm j t Ht. eapply has_same; [apply Hj|]. by apply Hm. Qed.

(** What the agent answers to a request. *)
Definition answers (log : list rbm_event) (oids : list (list Z)) (vals : list asn_value) : Prop :=
  exists vars, snmp_get log oids = Response vars /\ Forall short_name vars /\
    map var_val vars = vals.

(** A whole request: what it asks, and what it leaves of the array. *)
Lemma Get_Row_spec `{!SnmpLaws lw} n m oids vals s :
  names_from m 0 (map oid_string oids) -> fits MAX_OID_LEN oids ->
  answers (rbm_log s) oids vals -> Forall storable vals ->
  columns n m -> (length vals <= n)%nat -> ready m 0 vals ->
  exists m', RBM_SNMP_Get_Row lw m (length oids) s =
      Ret (0, m', emit (Get (szRemAddress s) (giSAPort s) oids) s) /\ columns n m' /\
    values_from m' 0 (map value_text vals).
Proof.
  intros Hm Hf (vars & Hr & Hn & <-) Hs Hc Hl Hb. rewrite length_map in Hl. unfold RBM_SNMP_Get_Row.
  rewrite request_spec by done. cbn [mbind outcome_bind]. rewrite Hr.
  destruct (store_vars_spec n vars 0 m) as (m' & -> & ? & ? & _); auto.
  cbn [mbind outcome_bind]. by exists m'.
Qed.

End Read.
