(* ===== verification/PolicySpec.v ===== *)
(** * What a policy means

    A policy as the administrator writes it, the row of the table that carries
    it, when it alerts, and what happens then. *)

From Stdlib Require Import String.
From S2P Require Import Prelude CTypes CText PolicyRow PolicyRead Policy.
From stdpp Require Import list.
#[local] Open Scope Z_scope.

(** [c_oid] compared with [c_value]. *)
Record condition := MkCond { c_oid : list Z; c_expr : Z; c_value : Z }.

(** Five conditions, the operations between them, the alert and what to run. *)
Record policy := MkPolicy {
  conditions : list condition; operations : list Z;
  p_level : Z; p_flags : list Z;
  p_command : text; p_script : text; p_message : text
}.

(** ** The row of a policy *)
Definition cells (c : condition) : list asn_value :=
  [ASN_OBJECT_ID (c_oid c); ASN_INTEGER (c_expr c); ASN_INTEGER (c_value c)].

Fixpoint cond_cells (cs : list condition) (ops : list Z) : list asn_value :=
  match cs, ops with
  | [], _ => []
  | c :: cs, [] => cells c ++ cond_cells cs []
  | c :: cs, o :: ops => cells c ++ ASN_INTEGER o :: cond_cells cs ops
  end.

Definition policy_row (P : policy) : list asn_value :=
  cond_cells (conditions P) (operations P) ++ [ASN_INTEGER (p_level P)] ++
  map ASN_INTEGER (p_flags P) ++
  [ASN_OCTET_STR (p_command P); ASN_OCTET_STR (p_script P); ASN_OCTET_STR (p_message P)].

(** The columns of a policy that are asked for. *)
Definition column_oid (policy col : Z) : list Z := [1; 3; 6; 1; 4; 1; 3204; 1; 3; 35; 1; 1; col; policy].
Definition row_oids (policy : Z) : list (list Z) :=
  map (fun k => column_oid policy (Z.of_nat k + 7)) (seq 0 27).

(** A condition whose identifier starts with 0 and those after it are unused. *)
Definition unused (c : condition) : bool :=
  match c_oid c with 0 :: _ => true | _ => false end.
Fixpoint used (cs : list condition) : list condition :=
  match cs with
  | [] => []
  | c :: cs => if unused c then [] else c :: used cs
  end.

(** ** When it alerts *)
Definition compares (e : Z) : Z -> Z -> bool :=
  match e with
  | 1 => Z.gtb | 2 => Z.leb | 3 => Z.geb
  | 4 => fun v t => negb (v =? t) | 5 => Z.eqb | _ => Z.ltb
  end.
Definition met (c : condition) (v : Z) : bool := compares (c_expr c) v (c_value c).

(** The conditions are combined from the left, without precedence. *)
Fixpoint chain (acc : bool) (ops : list Z) (bs : list bool) : bool :=
  match ops, bs with
  | o :: ops, b :: bs => chain (if o =? 0 then acc && b else acc || b) ops bs
  | _, _ => acc
  end.
Definition due (ops : list Z) (bs : list bool) : bool :=
  match bs with [] => false | b :: bs => chain b ops bs end.

Definition alert_due (P : policy) (vs : list Z) : bool :=
  due (operations P) (zip_with met (used (conditions P)) vs).

(** ** What happens then *)
Definition level_name (l : Z) : text :=
  nth (Z.to_nat l) (map text_of ["Warning"; "Minor"; "Normal"; "Major"; "Critical"]%string)
      (text_of "Warning").
Definition flag_name (x : Z) : text := if x =? 1 then text_of "True" else text_of "False".
Definition flag (P : policy) (i : nat) : text := flag_name (nth i (p_flags P) 0).

Definition policy_alert (P : policy) (h : host) : RBM_AlertMsg :=
  MkAlert (text_of "RBMM") (host_ip h) (host_time h) (nodename h) (p_message P)
          (level_name (p_level P)) (flag P 0) (flag P 1) (flag P 2) (flag P 3).

(** The datagram: the text in a buffer of fixed size. *)
Definition datagram (a : RBM_AlertMsg) : list Z :=
  alert_text a ++ replicate (443 - length (alert_text a)) 0.

Definition AlertMgr_oids : list (list Z) :=
  [[1; 3; 6; 1; 4; 1; 3204; 1; 3; 36; 1; 4; 0]; [1; 3; 6; 1; 4; 1; 3204; 1; 3; 36; 1; 5; 0]].

Definition alert_events (P : policy) (h : host) (addr : text) (agent ip port : Z) : list rbm_event :=
  if log_ok h then
    Get addr agent AlertMgr_oids ::
    (if send_ok h then [Sent (UI32 ip) (UI16 port) (datagram (policy_alert P h))] else [])
  else [].

Definition run_events (fork_ok : bool) (cmd : text) : list rbm_event :=
  match cmd with [] => [] | _ => if fork_ok then [Child (child_argv cmd)] else [] end.

(** ** Well-formed policies and hosts *)
Definition small (x : Z) : Prop := - 2 ^ 31 <= x < 2 ^ 31.
Definition short (s : text) : Prop := nonzero s /\ (length s < 128)%nat.
Definition cond_ok (lw : Z) (c : condition) : Prop :=
  readable (c_oid c) /\ (length (oid_string lw (c_oid c)) < 80)%nat /\
  small (c_expr c) /\ small (c_value c).

Definition policy_ok (lw : Z) (P : policy) : Prop :=
  length (conditions P) = 5%nat /\ Forall (cond_ok lw) (conditions P) /\
  length (operations P) = 4%nat /\ Forall (fun o => o = 0 \/ o = 1) (operations P) /\
  small (p_level P) /\ length (p_flags P) = 4%nat /\ Forall small (p_flags P) /\
  short (p_command P) /\ short (p_script P) /\ short (p_message P).

Definition host_ok (h : host) : Prop :=
  (length (host_ip h) < 16)%nat /\ (length (host_time h) < 50)%nat /\
  (length (nodename h) < 65)%nat /\ length (stack h) = 512%nat.

#[export] Instance small_dec x : Decision (small x).
Proof. unfold small. solve_decision. Defined.
#[export] Instance nonzero_dec s : Decision (nonzero s).
Proof. unfold nonzero. solve_decision. Defined.
#[export] Instance readable_dec ids : Decision (readable ids).
Proof. unfold readable. solve_decision. Defined.
#[export] Instance cond_ok_dec lw c : Decision (cond_ok lw c).
Proof. unfold cond_ok, small. solve_decision. Defined.
#[export] Instance policy_ok_dec lw P : Decision (policy_ok lw P).
Proof. unfold policy_ok, short, small. solve_decision. Defined.
#[export] Instance host_ok_dec h : Decision (host_ok h).
Proof. unfold host_ok. solve_decision. Defined.

(** ** The cells of a row *)
Lemma length_row lw P : policy_ok lw P -> length (policy_row P) = 27%nat.
Proof.
  destruct P as [cs ops l fl c s m]. intros (Hc & _ & Ho & _ & _ & Hf & _). simpl in *.
  destruct cs as [|? [|? [|? [|? [|? []]]]]]; try done.
  destruct ops as [|? [|? [|? [|? []]]]]; try done.
  by destruct fl as [|? [|? [|? [|? []]]]].
Qed.

Lemma cond_cell lw P i c :
  policy_ok lw P -> conditions P !! i = Some c ->
  policy_row P !! (4 * i)%nat = Some (ASN_OBJECT_ID (c_oid c)) /\
  policy_row P !! (4 * i + 1)%nat = Some (ASN_INTEGER (c_expr c)) /\
  policy_row P !! (4 * i + 2)%nat = Some (ASN_INTEGER (c_value c)).
Proof.
  destruct P as [cs ops l fl cm s m]. intros (Hc & _ & Ho & _). simpl in *.
  destruct cs as [|? [|? [|? [|? [|? []]]]]]; try done.
  destruct ops as [|? [|? [|? [|? []]]]]; try done.
  destruct i as [|[|[|[|[|i]]]]]; simpl; intros; simplify_eq; done.
Qed.

Lemma operation_cell lw P i o :
  policy_ok lw P -> operations P !! i = Some o ->
  policy_row P !! (4 * i + 3)%nat = Some (ASN_INTEGER o).
Proof.
  destruct P as [cs ops l fl cm s m]. intros (Hc & _ & Ho & _). simpl in *.
  destruct cs as [|? [|? [|? [|? [|? []]]]]]; try done.
  destruct ops as [|? [|? [|? [|? []]]]]; try done.
  destruct i as [|[|[|[|i]]]]; simpl; intros; simplify_eq; done.
Qed.

Lemma end_cells lw P :
  policy_ok lw P ->
  policy_row P !! 19%nat = Some (ASN_INTEGER (p_level P)) /\
  (forall i, (i < 4)%nat -> policy_row P !! (20 + i)%nat = Some (ASN_INTEGER (nth i (p_flags P) 0))) /\
  policy_row P !! 24%nat = Some (ASN_OCTET_STR (p_command P)) /\
  policy_row P !! 25%nat = Some (ASN_OCTET_STR (p_script P)) /\
  policy_row P !! 26%nat = Some (ASN_OCTET_STR (p_message P)).
Proof.
  destruct P as [cs ops l fl cm s m]. intros (Hc & _ & Ho & _ & _ & Hf & _). simpl in *.
  destruct cs as [|? [|? [|? [|? [|? []]]]]]; try done.
  destruct ops as [|? [|? [|? [|? []]]]]; try done.
  destruct fl as [|? [|? [|? [|? []]]]]; try done.
  split_and!; try done. intros [|[|[|[|i]]]] Hi; try done. lia.
Qed.

Lemma row_storable lw P : policy_ok lw P -> Forall (storable lw) (policy_row P).
Proof.
  destruct P as [cs ops l fl cm s m]. intros (Hc & Hcs & Ho & _ & _ & Hf & _ & Hcm & Hs & Hm).
  simpl in *. unfold policy_row. simpl.
  destruct cs as [|? [|? [|? [|? [|? []]]]]]; try done.
  destruct ops as [|? [|? [|? [|? []]]]]; try done.
  repeat (apply Forall_cons in Hcs as [(_ & ? & _) Hcs]).
  repeat (apply Forall_cons; split; [by simpl|]). rewrite Forall_app, Forall_map. split.
  - by apply Forall_true.
  - by repeat (apply Forall_cons; split; [by simpl|]).
Qed.

(** ** The conditions that are used *)
Lemma used_prefix cs : exists rest, cs = used cs ++ rest /\
  match rest with [] => True | c :: _ => unused c = true end /\
  Forall (fun c => unused c = false) (used cs).
Proof.
  induction cs as [|c cs (rest & Hr & Hu & Hf)]; [by exists []|]. simpl.
  destruct (unused c) eqn:E.
  - by exists (c :: cs).
  - exists rest. simpl. split; [by f_equal|]. split; [done|]. by constructor.
Qed.

Lemma used_lookup cs i c : used cs !! i = Some c -> cs !! i = Some c.
Proof.
  intros Hi. destruct (used_prefix cs) as (rest & -> & _). by apply lookup_app_l_Some.
Qed.
Lemma used_length lw P : policy_ok lw P -> (length (used (conditions P)) <= 5)%nat.
Proof.
  intros (Hl & _). destruct (used_prefix (conditions P)) as (rest & Hr & _).
  apply (f_equal length) in Hr. rewrite length_app in Hr. lia.
Qed.

(** The test for [RBM_INVALID_OID]. *)
Lemma unused_text lw c : (lw = 32 \/ lw = 64) -> readable (c_oid c) ->
  has_prefix RBM_INVALID_OID (oid_string lw (c_oid c)) = unused c.
Proof.
  intros Hlw [Hne Hr]. unfold unused. destruct (c_oid c) as [|x ids]; [done|].
  apply Forall_cons in Hr as [Hx _]. rewrite oid_string_cons.
  assert (Ha : as_long lw x = x).
  { unfold as_long. rewrite Z.mod_small; [lia|]. destruct Hlw as [-> | ->]; simpl; lia. }
  rewrite Ha. change RBM_INVALID_OID with [46; 48]. cbn [has_prefix app].
  change (46 =? 46) with true. cbn [andb].
  destruct (decide (x = 0)) as [->|Hx0]; [done|].
  replace (match x with 0 => true | _ => false end) with false by by destruct x.
  unfold dec. rewrite (proj2 (Z.ltb_ge _ _)) by lia.
  destruct (dec_digits_head 20 x) as (d & s & E & Hd); [simpl; lia|]. unfold dec_u. rewrite E.
  cbn [app has_prefix]. by rewrite (proj2 (Z.eqb_neq _ _)) by lia.
Qed.
