(* ===== verification/PolicyProofs.v ===== *)
(** * The steps of the policy monitor on a well-formed policy *)

From Stdlib Require Import String.
From S2P Require Import Prelude CTypes CText PolicyRow PolicyRead Policy PolicySpec.
From stdpp Require Import list.
#[local] Open Scope Z_scope.
#[local] Arguments Nat.mul _ _ : simpl never.

Section Steps.
Context `{SnmpLib}.
Variable lw : Z.
Hypothesis Hlw : lw = 32 \/ lw = 64.

Lemma as_long_id x : 0 <= x < 2 ^ 31 -> as_long lw x = x.
Proof using Hlw.
  intros Hx. unfold as_long. rewrite Z.mod_small; [lia|]. destruct Hlw as [-> | ->]; simpl; lia.
Qed.

(** ** Names of the columns *)
Lemma oid_string_app a b : oid_string lw (a ++ b) = oid_string lw a ++ oid_string lw b.
Proof. unfold oid_string. by rewrite map_app, concat_app. Qed.

Lemma column_string p col :
  oid_string lw (column_oid p col) =
  monitorPolicyTable_ENTRY_OID ++ 46 :: dec (as_long lw col) ++ 46 :: dec (as_long lw p).
Proof using Hlw.
  change (column_oid p col) with ([1; 3; 6; 1; 4; 1; 3204; 1; 3; 35; 1; 1] ++ [col; p]).
  rewrite oid_string_app. f_equal.
  - destruct Hlw as [-> | ->]; by vm_compute.
  - unfold oid_string. cbn [map concat]. by rewrite app_nil_r.
Qed.

Lemma column_name p col : 0 <= col < 2 ^ 31 ->
  monitorPolicyTable_ENTRY_OID ++ [46] ++ dec col ++ [46] ++ dec (as_long lw p) =
  oid_string lw (column_oid p col).
Proof using Hlw. intros Hcol. by rewrite column_string, (as_long_id col). Qed.

Lemma column_short p col : (length (oid_string lw (column_oid p col)) < 128)%nat.
Proof using Hlw.
  rewrite column_string, length_app. cbn [length]. rewrite length_app. cbn [length].
  pose proof (dec_length (as_long lw col)). pose proof (dec_length (as_long lw p)).
  change (length monitorPolicyTable_ENTRY_OID) with 28%nat. lia.
Qed.

Definition names (p : Z) (k sCnt : nat) : list text :=
  map (fun j => oid_string lw (column_oid p (Z.of_nat j + 7))) (seq sCnt k).

Lemma fill_variables_spec p k sCnt n m :
  0 <= p < 2 ^ 31 -> (sCnt + k <= 27)%nat -> (sCnt + k <= n)%nat -> columns n m ->
  exists m', fill_variables lw k sCnt p m = Ret m' /\ length m' = length m /\
    names_from m' sCnt (names p k sCnt) /\
    (forall f, (forall j, (sCnt <= j)%nat -> f <> 2 * j)%nat -> field f m' = field f m).
Proof using Hlw.
  intros Hp. revert sCnt m. induction k as [|k IH]; intros sCnt m Hk Hn Hc; [by exists m|].
  cbn [fill_variables]. unfold RBM_START_COLUMN.
  rewrite (column_name p (Z.of_nat sCnt + 7)) by lia.
  destruct (strcpy_name n m sCnt (oid_string lw (column_oid p (Z.of_nat sCnt + 7))))
    as (m1 & -> & Hm1 & Ho);
    [done|lia|apply oid_string_nonzero|apply column_short|]. cbn [mbind outcome_bind].
  destruct (IH (S sCnt) m1) as (m' & -> & Hl & Hn' & Hf); [lia|lia|by eapply columns_only|].
  exists m'. split_and!; [done|by rewrite Hl; apply Ho|..].
  - intros [|j] t Hj; simpl in Hj.
    + simplify_eq. rewrite Nat.add_0_r. eapply has_same; [|exact Hm1]. apply Hf. lia.
    + rewrite <- Nat.add_succ_comm. by apply Hn'.
  - intros f Hj. rewrite Hf by (intros j ?; apply Hj; lia). apply Ho. apply Hj. lia.
Qed.

Lemma names_row p : names p 27 0 = map (oid_string lw) (row_oids p).
Proof. unfold names, row_oids. rewrite map_map. done. Qed.

Lemma Fill_Variables_spec p : 0 <= p < 2 ^ 31 ->
  exists m, RBM_Fill_Variables_List lw p (RBM_calloc 27) = Ret (m, 27%nat) /\
    length m = (27 * 256)%nat /\
    names_from m 0 (map (oid_string lw) (row_oids p)) /\ blank_from m 0 27.
Proof using Hlw.
  intros Hp. unfold RBM_Fill_Variables_List. change RBM_VAR_COLUMNS with 27%nat.
  destruct (fill_variables_spec p 27 0 27 (RBM_calloc 27)) as (m & -> & Hl & Hn & Hf);
    [done|lia|lia|apply columns_calloc|].
  cbn [mbind outcome_bind]. exists m. rewrite <- names_row. split_and!; try done.
  intros j Hj. unfold blank. rewrite Hf by lia. apply blank_calloc. lia.
Qed.

Lemma row_fits p : 0 <= p < 2 ^ 31 -> fits MAX_OID_LEN (row_oids p).
Proof.
  intros Hp. unfold row_oids. cut (forall k sCnt cap, (14 <= cap)%nat -> (sCnt + k <= 27)%nat ->
    fits cap (map (fun k => column_oid p (Z.of_nat k + 7)) (seq sCnt k))).
  { intros Hc. apply Hc; unfold MAX_OID_LEN; lia. }
  induction k as [|k IH]; intros sCnt cap Hcap Hk; [done|]. simpl. split_and!.
  - split; [done|]. unfold column_oid. repeat (apply Forall_cons; split; [lia|]). done.
  - done.
  - apply IH; unfold column_oid; simpl; lia.
Qed.

(** ** The variables of the conditions *)

(** What a column holds of the row. *)
Definition row_is (m : list Z) (row : list asn_value) : Prop :=
  forall k v, row !! k = Some v -> value_is m k (value_text lw v).

Lemma row_from m row : values_from m 0 (map (value_text lw) row) -> row_is m row.
Proof. intros Hm k v Hk. apply Hm. rewrite list_lookup_fmap, Hk. done. Qed.

Lemma fill_oids_spec P m cs i n o :
  policy_ok lw P -> row_is m (policy_row P) ->
  drop i (conditions P) = cs -> (i + length cs = n)%nat -> columns n o ->
  exists o', fill_oids (length cs) i (4 * i) m o = Ret (o', (i + length (used cs))%nat) /\
    columns n o' /\ names_from o' i (map (oid_string lw) (map c_oid (used cs))) /\
    (forall f, (forall j, (i <= j)%nat -> f <> 2 * j)%nat -> field f o' = field f o).
Proof using Hlw.
  intros HP Hm. revert i o. induction cs as [|c cs IH]; intros i o Hd Hn Ho.
  - exists o. simpl. rewrite Nat.add_0_r. by split_and!.
  - assert (Hc : conditions P !! i = Some c).
    { rewrite <- (Nat.add_0_r i), <- lookup_drop, Hd. done. }
    destruct (cond_cell lw P i c HP Hc) as (Hcell & _).
    assert (Hok : cond_ok lw c).
    { destruct HP as (_ & Hcs & _). by eapply Forall_lookup_1. }
    destruct Hok as (Hr & Hl & _). simpl in Hn. cbn [fill_oids length used].
    rewrite (value_get _ _ _ (Hm _ _ Hcell)). cbn [mbind outcome_bind value_text].
    rewrite unused_text by done. destruct (unused c) eqn:E.
    { exists o. rewrite Nat.add_0_r. by split_and!. }
    destruct (strcpy_name n o i (oid_string lw (c_oid c))) as (o1 & -> & Ho1 & Hon);
      [done|lia|apply oid_string_nonzero|lia|]. cbn [mbind outcome_bind].
    replace (4 * i + 4)%nat with (4 * S i)%nat by lia.
    destruct (IH (S i) o1) as (o' & -> & Hc' & Hns & Hf).
    { replace (S i) with (i + 1)%nat by lia. rewrite <- drop_drop, Hd. done. }
    { lia. } { by eapply columns_only. }
    exists o'. simpl. rewrite Nat.add_succ_r. split_and!; try done.
    + intros [|j] t Hj; simpl in Hj.
      * simplify_eq. rewrite Nat.add_0_r. eapply has_same; [|exact Ho1]. apply Hf. lia.
      * rewrite <- Nat.add_succ_comm. by apply Hns.
    + intros f Hj. rewrite Hf by (intros j ?; apply Hj; lia). apply Hon. apply Hj. lia.
Qed.

Lemma Fill_OID_spec P m : policy_ok lw P -> row_is m (policy_row P) ->
  exists o, RBM_Fill_OID_List m (RBM_calloc 5) = Ret (o, length (used (conditions P))) /\
    columns 5 o /\ names_from o 0 (map (oid_string lw) (map c_oid (used (conditions P)))) /\
    blank_from o 0 5.
Proof using Hlw.
  intros HP Hm. pose proof HP as (Hl & _). unfold RBM_Fill_OID_List.
  destruct (fill_oids_spec P m (conditions P) 0 5 (RBM_calloc 5)) as (o & Hfo & Hc & Hn & Hf);
    auto using columns_calloc.
  rewrite Hl in Hfo. change RBM_OID_COLUMNS with 5%nat. exists o. split_and!; try done.
  intros j Hj. unfold blank. rewrite Hf by lia. apply blank_calloc. lia.
Qed.

(** The row with the values of the variables in place of their names. *)
Fixpoint copied (row : list asn_value) (i : nat) (vs : list Z) : list asn_value :=
  match vs with
  | [] => row
  | v :: vs => copied (<[(4 * i)%nat := ASN_INTEGER v]> row) (S i) vs
  end.

Lemma copied_other row i vs k :
  (forall j, (i <= j < i + length vs)%nat -> k <> 4 * j)%nat ->
  copied row i vs !! k = row !! k.
Proof.
  revert row i. induction vs as [|v vs IH]; intros row i Hk; [done|]. simpl.
  simpl in Hk. rewrite IH by (intros j ?; apply Hk; lia). apply list_lookup_insert_ne.
  specialize (Hk i). lia.
Qed.

Lemma copied_value row i vs j v : (4 * (i + length vs) <= length row + 3)%nat ->
  vs !! j = Some v -> copied row i vs !! (4 * (i + j))%nat = Some (ASN_INTEGER v).
Proof.
  revert row i j. induction vs as [|w vs IH]; intros row i j Hl Hj; [done|].
  destruct j as [|j]; simpl in Hj, Hl |- *.
  - simplify_eq. rewrite copied_other by lia.
    replace (4 * (i + 0))%nat with (4 * i)%nat by lia.
    apply list_lookup_insert_eq. lia.
  - replace (4 * (i + S j))%nat with (4 * (S i + j))%nat by lia. apply IH; [|done].
    rewrite length_insert. lia.
Qed.

Lemma copy_oids_spec vs m o i n row :
  row_is m row -> values_from o i (map dec vs) -> columns n m ->
  (4 * (i + length vs) <= n + 3)%nat -> (n <= length row)%nat ->
  exists m', copy_oids (length vs) i (4 * i) m o = Ret m' /\ columns n m' /\
    row_is m' (copied row i vs).
Proof.
  revert m i row. induction vs as [|v vs IH]; intros m i row Hm Ho Hc Hi Hr; [by exists m|].
  simpl in *.
  rewrite (value_get o i (dec v)) by (specialize (Ho 0%nat); rewrite Nat.add_0_r in Ho; by apply Ho).
  cbn [mbind outcome_bind]. pose proof (dec_length v).
  destruct (strcpy_value n m (4 * i) (dec v)) as (m1 & -> & Hm1 & Hon);
    [done|lia|apply dec_nonzero|lia|]. cbn [mbind outcome_bind].
  replace (4 * i + 4)%nat with (4 * S i)%nat by lia.
  apply IH; [|intros j t Hj; rewrite Nat.add_succ_comm; by apply Ho|by eapply columns_only|lia|by rewrite length_insert].
  intros k w Hk. destruct (decide (k = 4 * i)%nat) as [->|Hne].
  - rewrite list_lookup_insert_eq in Hk by lia. by simplify_eq.
  - rewrite list_lookup_insert_ne in Hk by done. eapply only_value; [exact Hon|lia|]. by apply Hm.
Qed.

End Steps.
