(* ===== verification/PolicyDecide.v ===== *)
(** * The decision, the alert and the commands of a well-formed policy *)

From Stdlib Require Import String.
From S2P Require Import Prelude CTypes CText PolicyRow PolicyRead Policy PolicySpec.
From S2P Require Import PolicyProofs.
From stdpp Require Import list.

#[local] Open Scope Z_scope.
#[local] Arguments Nat.mul _ _ : simpl never.

(** ** Relations and names *)
Lemma satisfied_compares e v t : satisfied (safe_expr e) v t = compares e v t.
Proof.
  unfold safe_expr, satisfied, compares.
  destruct (Z.ltb_spec e 0), (Z.ltb_spec 5 e); cbn [orb]; try (destruct e; done || lia).
  - destruct e as [|e|]; try done. do 3 (destruct e; try done; try lia).
  - assert (e = 0 \/ e = 1 \/ e = 2 \/ e = 3 \/ e = 4 \/ e = 5) as He by lia.
    destruct He as [->|[->|[->|[->|[->| ->]]]]]; cbn; try done;
      rewrite ?Z.gtb_ltb, ?Z.geb_leb; done.
Qed.

Lemma level_clamped l : aLevel (if (l <? 0) || (4 <? l) then 0 else l) = level_name l.
Proof.
  destruct (Z.ltb_spec l 0), (Z.ltb_spec 4 l); cbn [orb]; try lia.
  - by destruct l.
  - unfold level_name. rewrite nth_overflow; [done|].
    change (length _) with 5%nat. lia.
  - assert (l = 0 \/ l = 1 \/ l = 2 \/ l = 3 \/ l = 4) as Hl by lia.
    by destruct Hl as [->|[->|[->|[->| ->]]]].
Qed.

Lemma flag_clamped x : aBool (if negb (x =? 0) && negb (x =? 1) then 0 else x) = flag_name x.
Proof.
  unfold aBool, flag_name. destruct (Z.eqb_spec x 0) as [->|]; [done|].
  destruct (Z.eqb_spec x 1) as [->|]; [done|].
  done.
Qed.

Lemma level_length l : (length (level_name l) <= 8)%nat.
Proof.
  unfold level_name. generalize (Z.to_nat l). intros n. do 5 (destruct n as [|n]; [simpl; lia|]).
  by destruct n; simpl; lia.
Qed.
Lemma flag_length x : (length (flag_name x) <= 5)%nat.
Proof. unfold flag_name. case_match; simpl; lia. Qed.

Section Decide.
Context `{SnmpLib}.
Variable lw : Z.
Hypothesis Hlw : lw = 32 \/ lw = 64.

(** ** Reading the cells *)
Lemma atoi_cell m row k x :
  row_is lw m row -> row !! k = Some (ASN_INTEGER x) -> small x -> atoi_at lw m k = Ret x.
Proof using Hlw.
  intros Hm Hk Hx. unfold atoi_at. rewrite (value_get _ _ _ (Hm _ _ Hk)).
  cbn [mbind outcome_bind value_text]. by rewrite atoi_dec.
Qed.
Lemma atol_cell m row k x :
  row_is lw m row -> row !! k = Some (ASN_INTEGER x) -> small x -> atol_at lw m k = Ret x.
Proof using Hlw.
  intros Hm Hk Hx. unfold atol_at. rewrite (value_get _ _ _ (Hm _ _ Hk)).
  cbn [mbind outcome_bind value_text]. rewrite atol_dec by done. by rewrite I32_id.
Qed.

Section Row.
Variables (P : policy) (vs : list Z) (m : list Z).
Hypothesis HP : policy_ok lw P.
Hypothesis Hvs : length vs = length (used (conditions P)).
Hypothesis Hsmall : Forall small vs.
Hypothesis Hm : row_is lw m (copied (policy_row P) 0 vs).

Lemma cond_values i c v :
  used (conditions P) !! i = Some c -> vs !! i = Some v ->
  atoi_at lw m (4 * i) = Ret v /\ atoi_at lw m (4 * i + 1) = Ret (c_expr c) /\
  atol_at lw m (4 * i + 2) = Ret (c_value c).
Proof using All.
  intros Hc Hv. pose proof (used_length lw P HP). pose proof (length_row _ _ HP).
  pose proof (used_lookup _ _ _ Hc) as Hi.
  destruct (cond_cell lw P i c HP Hi) as (Ha & Hb & Ht).
  destruct HP as (_ & Hok & _). eapply Forall_lookup_1 in Hok as (_ & _ & ? & ?); [|exact Hi].
  pose proof (lookup_lt_Some _ _ _ Hc). split_and!.
  - eapply atoi_cell; [exact Hm| |by eapply Forall_lookup_1 in Hsmall].
    change (4 * i)%nat with (4 * (0 + i))%nat. apply copied_value; [lia|done].
  - eapply atoi_cell; [exact Hm| |done]. rewrite copied_other by lia. done.
  - eapply atol_cell; [exact Hm| |done]. rewrite copied_other by lia. done.
Qed.

Lemma operation_value i o : operations P !! i = Some o ->
  atol_at lw m (4 * i + 3) = Ret o /\ aOpn o <> Crash /\ aOpn o <> OutOfFuel.
Proof using All.
  intros Ho. destruct HP as (_ & _ & _ & Hops & _).
  eapply Forall_lookup_1 in Hops as Ho01; [|exact Ho]. split.
  - eapply atol_cell; [exact Hm| |unfold small; lia].
    rewrite copied_other by lia. by eapply operation_cell.
  - by destruct Ho01 as [-> | ->].
Qed.

(** ** The decision *)
Lemma first_condition c v :
  used (conditions P) !! 0%nat = Some c -> vs !! 0%nat = Some v ->
  RBM_Validate_Single_Variable lw 0 0 m = Ret (Z.b2z (met c v)).
Proof using All.
  intros Hc Hv. destruct (cond_values 0 c v Hc Hv) as (Ha & Hb & Ht).
  unfold RBM_Validate_Single_Variable. rewrite bool_decide_eq_true_2 by done.
  change (4 * 0)%nat with 0%nat in Ha, Hb, Ht. rewrite Ha, Hb, Ht. cbn [mbind outcome_bind]. by rewrite satisfied_compares.
Qed.

Lemma next_condition i c v o acc :
  used (conditions P) !! S i = Some c -> vs !! S i = Some v -> operations P !! i = Some o ->
  RBM_Validate_Single_Variable lw (4 * i + 3) (Z.b2z acc) m =
  Ret (Z.b2z (if o =? 0 then acc && met c v else acc || met c v)).
Proof using All.
  intros Hc Hv Ho. destruct (cond_values (S i) c v Hc Hv) as (Ha & Hb & Ht).
  destruct (operation_value i o Ho) as (Hop & Hn1 & Hn2).
  unfold RBM_Validate_Single_Variable. rewrite bool_decide_eq_false_2 by lia. rewrite Hop.
  replace (4 * i + 3 + 1)%nat with (4 * S i)%nat by lia.
  replace (4 * i + 3 + 2)%nat with (4 * S i + 1)%nat by lia.
  replace (4 * i + 3 + 3)%nat with (4 * S i + 2)%nat by lia.
  rewrite Ha, Hb, Ht. cbn [mbind outcome_bind]. destruct (aOpn o); try done.
  rewrite satisfied_compares. fold (met c v).
  destruct (o =? 0), acc, (met c v); done.
Qed.

Lemma validate_spec k i acc :
  (S i + k = length (used (conditions P)))%nat -> forall fuel, (k < fuel)%nat ->
  validate lw fuel (length (used (conditions P))) (4 * i + 3) (Z.b2z acc) m =
  Ret (Z.b2z (chain acc (drop i (operations P))
                (zip_with met (drop (S i) (used (conditions P))) (drop (S i) vs)))).
Proof using All.
  pose proof (used_length lw P HP). pose proof HP as (_ & _ & Hops & _).
  revert i acc. induction k as [|k IH]; intros i acc Hk fuel Hf; (destruct fuel as [|fuel]; [lia|]).
  - cbn [validate]. rewrite bool_decide_eq_false_2 by lia. rewrite (drop_ge (used _)) by lia. simpl. by destruct (drop i (operations P)).
  - destruct (lookup_lt_is_Some_2 (used (conditions P)) (S i)) as [c Hc]; [lia|].
    destruct (lookup_lt_is_Some_2 vs (S i)) as [v Hv]; [lia|].
    destruct (lookup_lt_is_Some_2 (operations P) i) as [o Ho]; [lia|].
    cbn [validate]. rewrite bool_decide_eq_true_2 by lia. rewrite (next_condition i c v o acc) by done. cbn [mbind outcome_bind].
    replace (4 * i + 3 + 4)%nat with (4 * S i + 3)%nat by lia. rewrite (IH (S i)) by lia.
    rewrite (drop_S (used _) c (S i)), (drop_S vs v (S i)), (drop_S (operations P) o i) by done.
    reflexivity.
Qed.

Lemma Validate_Variables_spec :
  used (conditions P) <> [] ->
  RBM_Validate_Variables lw m (length (used (conditions P))) = Ret (Z.b2z (alert_due P vs)).
Proof using All.
  intros Hne. unfold RBM_Validate_Variables.
  destruct (lookup_lt_is_Some_2 (used (conditions P)) 0) as [c Hc].
  { destruct (used (conditions P)); [done|simpl; lia]. }
  destruct (lookup_lt_is_Some_2 vs 0) as [v Hv].
  { rewrite Hvs. by eapply lookup_lt_Some. }
  rewrite (first_condition c v) by done. cbn [mbind outcome_bind].
  pose proof (lookup_lt_Some _ _ _ Hc).
  change 3%nat with (4 * 0 + 3)%nat.
  rewrite (validate_spec (length (used (conditions P)) - 1) 0) by lia. do 2 f_equal. rewrite drop_0. unfold alert_due.
  destruct (used (conditions P)), vs; try done. by simpl in Hc, Hv; simplify_eq.
Qed.

(** ** The alert *)
Lemma flag_spec i : (i < 4)%nat -> flag_at lw m i = Ret (flag P i).
Proof using All.
  intros Hi. destruct (end_cells lw P HP) as (_ & Hf & _). pose proof (used_length lw P HP).
  unfold flag_at. change (RBM_SMS_COLUMN + i)%nat with (20 + i)%nat.
  rewrite (atoi_cell m (copied (policy_row P) 0 vs) _ (nth i (p_flags P) 0)); [|done| |].
  - cbn [mbind outcome_bind]. by rewrite flag_clamped.
  - rewrite copied_other by lia. by apply Hf.
  - destruct HP as (_ & _ & _ & _ & _ & Hl & Hs & _).
    eapply Forall_lookup_1; [exact Hs|]. rewrite nth_lookup.
    destruct (lookup_lt_is_Some_2 (p_flags P) i) as [x ->]; [lia|done].
Qed.
End Row.
End Decide.

(** * Sending the alert and running the commands *)

#[local] Open Scope Z_scope.
#[local] Arguments Nat.mul _ _ : simpl never.

Section Alert.
Context `{SnmpLib}.
Variable lw : Z.
Context `{!SnmpLaws lw}.
Hypothesis Hlw : lw = 32 \/ lw = 64.

(** What the agent tells of the alert manager. *)
Definition tells_manager (log : list rbm_event) (ip port : Z) : Prop :=
  answers lw log AlertMgr_oids [ASN_IPADDRESS ip; ASN_INTEGER port].

(** An alert as long as its buffer allows. *)
Definition fits_buffer (a : RBM_AlertMsg) : Prop := (length (alert_text a) < 443)%nat.

Lemma datagram_copy a : fits_buffer a ->
  strcpy (replicate (sizeof_RBM_AlertMsg + 1) 0) 0 (alert_text a) = Ret (datagram a).
Proof.
  unfold fits_buffer, datagram. intros Hl. unfold strcpy.
  change (sizeof_RBM_AlertMsg + 1)%nat with 443%nat.
  rewrite poke_ok by (rewrite length_app, length_replicate; simpl; lia).
  rewrite drop_replicate, length_app, take_0, <- app_assoc. simpl. do 2 f_equal.
  by replace (443 - length (alert_text a))%nat
    with (S (443 - (length (alert_text a) + 1)))%nat by lia.
Qed.

Lemma SendAlertMsg_spec h a ip port s :
  length (stack h) = 512%nat -> fits_buffer a -> small port ->
  tells_manager (rbm_log s) ip port ->
  exists e, RBM_SendAlertMsg lw h a s =
    Ret (e, let s := emit (Get (szRemAddress s) (giSAPort s) AlertMgr_oids) s in
            if send_ok h then emit (Sent (UI32 ip) (UI16 port) (datagram a)) s else s).
Proof using All.
  intros Hst Ha Hport Hmgr. unfold RBM_SendAlertMsg.
  assert (Hc : columns 2 (stack h)) by (unfold columns; lia).
  assert (Hnames : ALERTMGR_IP_OID = oid_string lw (AlertMgr_oids !!! 0%nat) /\
                   ALERTMGR_PORT_OID = oid_string lw (AlertMgr_oids !!! 1%nat)).
  { destruct Hlw as [-> | ->]; by vm_compute. }
  destruct Hnames as [Hn0 Hn1].
  destruct (strcpy_name 2 (stack h) 0 ALERTMGR_IP_OID) as (m1 & -> & Hm1 & Ho1);
    [done|lia|rewrite Hn0; apply oid_string_nonzero|simpl; lia|]. cbn [mbind outcome_bind].
  destruct (strcpy_name 2 m1 1 ALERTMGR_PORT_OID) as (m2 & -> & Hm2 & Ho2);
    [by eapply columns_only|lia|rewrite Hn1; apply oid_string_nonzero|simpl; lia|].
  cbn [mbind outcome_bind].
  destruct (Get_Row_spec lw 2 m2 AlertMgr_oids
    [ASN_IPADDRESS ip; ASN_INTEGER port] s) as (m3 & Hrow & _ & Hvals); [| |exact Hmgr|..].
  - intros [|[|j]] t Ht; [| |done]; simpl in Ht; simplify_eq.
    + eapply only_name; [exact Ho2|lia|]. by rewrite Hn0 in Hm1.
    + by rewrite Hn1 in Hm2.
  - decided.
  - by repeat constructor.
  - eauto using columns_only.
  - done.
  - by intros [|[|j]] v Hj; simpl in Hj; simplify_eq.
  - change (length AlertMgr_oids) with 2%nat in Hrow. rewrite Hrow. cbn [mbind outcome_bind].
    change (negb (0 =? 0)) with false. cbn iota.
    rewrite (value_get m3 0 _ (Hvals 0%nat _ eq_refl)), (value_get m3 1 _ (Hvals 1%nat _ eq_refl)).
    cbn [mbind outcome_bind value_text]. pose proof (dec_u_length (UI32 ip)).
    destruct (strcpy_fits RBM_STR_LEN (dec_u (UI32 ip))) as (buf & ->); [unfold RBM_STR_LEN; lia|].
    cbn [mbind outcome_bind]. rewrite datagram_copy by done. cbn [mbind outcome_bind].
    rewrite (strtoul_dec lw Hlw), (atol_dec lw Hlw) by done.
    replace (UI32 (UI32 ip)) with (UI32 ip) by (unfold UI32; by rewrite Z.mod_mod by lia).
    destruct (send_ok h); eauto.
Qed.

Section Row.
Variables (P : policy) (vs : list Z) (m : list Z).
Hypothesis HP : policy_ok lw P.
Hypothesis Hvs : length vs = length (used (conditions P)).
Hypothesis Hsmall : Forall small vs.
Hypothesis Hm : row_is lw m (copied (policy_row P) 0 vs).

Lemma alert_fits h : host_ok h -> fits_buffer (policy_alert P h).
Proof using HP.
  clear Hvs. intros (H1 & H2 & H3 & _). destruct HP as (_ & _ & _ & _ & _ & _ & _ & _ & _ & _ & Hmsg).
  unfold fits_buffer, policy_alert, alert_text.
  cbn [modCode masterIp dateTime sysName alertMesg level sms popup email pstn].
  pose proof (level_length (p_level P)).
  assert (Hf : forall i, (length (flag P i) <= 5)%nat) by (intros i; apply flag_length).
  pose proof (Hf 0%nat). pose proof (Hf 1%nat). pose proof (Hf 2%nat). pose proof (Hf 3%nat).
  rewrite !length_app. cbn [length]. change (length (text_of "RBMM")) with 4%nat. lia.
Qed.

Lemma text_cell k t : (19 < k)%nat -> policy_row P !! k = Some (ASN_OCTET_STR t) ->
  get_str m (szValue k) = Ret t.
Proof using HP Hvs Hm.
  intros Hk Ht. pose proof (used_length lw P HP).
  rewrite <- (copied_other (policy_row P) 0 vs) in Ht by lia.
  apply value_get. by apply (Hm _ _ Ht).
Qed.

Lemma Form_Send_AlertMsg_spec h ip port s :
  host_ok h -> small port ->
  (log_ok h = true -> tells_manager (rbm_log s) ip port) ->
  exists e s', RBM_Form_Send_AlertMsg lw h m s = Ret (e, s') /\
    rbm_log s' = rbm_log s ++ alert_events P h (szRemAddress s) (giSAPort s) ip port.
Proof using All.
  intros Hh Hport Hmgr. destruct (end_cells lw P HP) as (Hlev & _ & _ & _ & Hmsg).
  pose proof (used_length lw P HP).
  unfold RBM_Form_Send_AlertMsg. change RBM_MSG_COLUMN with 26%nat.
  rewrite (text_cell 26 (p_message P)) by (lia || done). cbn [mbind outcome_bind].
  destruct HP as (_ & _ & _ & _ & Hl & _ & _ & _ & _ & _ & Hshort).
  destruct (strcpy_fits 256 (p_message P)) as (buf & ->); [destruct Hshort; lia|].
  cbn [mbind outcome_bind].
  rewrite (atoi_cell lw Hlw m (copied (policy_row P) 0 vs) _ (p_level P)); [|done| |done].
  2: { change RBM_LEVEL_COLUMN with 19%nat. by rewrite copied_other by lia. }
  cbn [mbind outcome_bind].
  rewrite !(flag_spec lw Hlw P vs m HP Hvs Hsmall Hm) by lia. cbn [mbind outcome_bind].
  rewrite level_clamped. unfold alert_events. destruct (log_ok h); cbn [negb].
  2: { eexists _, _. split; [done|]. by rewrite app_nil_r. }
  fold (policy_alert P h). change (MkAlert _ _ _ _ _ _ _ _ _ _) with (policy_alert P h).
  destruct Hh as (? & ? & ? & Hst).
  destruct (SendAlertMsg_spec h (policy_alert P h) ip port s) as (e & ->); auto.
  { by apply alert_fits. }
  cbn [mbind outcome_bind]. eexists _, _. split; [done|].
  destruct (send_ok h); simpl; by rewrite <- ?app_assoc.
Qed.

Lemma run_column_spec fork_ok k cmd s :
  (19 < k)%nat -> policy_row P !! k = Some (ASN_OCTET_STR cmd) -> short cmd ->
  exists s', run_column fork_ok k m s = Ret s' /\
    rbm_log s' = rbm_log s ++ run_events fork_ok cmd.
Proof using HP Hvs Hm.
  intros Hk Hc [_ Hl]. unfold run_column. rewrite (text_cell k cmd) by done.
  cbn [mbind outcome_bind]. unfold run_events, RBM_Fork_Execute.
  destruct cmd as [|c cmd]; [exists s; by rewrite app_nil_r|].
  rewrite bool_decide_eq_true_2 by lia. destruct fork_ok; eexists; (split; [done|]); simpl; auto.
  by rewrite app_nil_r.
Qed.

(** Everything after the values have been read. *)
Lemma act_spec h fork_ok ip port s :
  used (conditions P) <> [] -> host_ok h -> small port ->
  (alert_due P vs = true -> log_ok h = true -> tells_manager (rbm_log s) ip port) ->
  exists s', act lw h fork_ok m (length (used (conditions P))) s = Ret (1, s') /\
    rbm_log s' = rbm_log s ++
      (if alert_due P vs then alert_events P h (szRemAddress s) (giSAPort s) ip port else []) ++
      run_events fork_ok (p_command P) ++ run_events fork_ok (p_script P).
Proof using All.
  intros Hne Hh Hport Hmgr. unfold act.
  rewrite (Validate_Variables_spec lw Hlw P vs m HP Hvs Hsmall Hm Hne). cbn [mbind outcome_bind].
  destruct (end_cells lw P HP) as (_ & _ & Hcmd & Hscr & _).
  destruct HP as (_ & _ & _ & _ & _ & _ & _ & Hsc & Hss & _).
  assert (Halert : exists s', (if negb (Z.b2z (alert_due P vs) =? 0)
      then '(_, s) ← RBM_Form_Send_AlertMsg lw h m s; mret s else mret s) = Ret s' /\
    rbm_log s' = rbm_log s ++
      (if alert_due P vs then alert_events P h (szRemAddress s) (giSAPort s) ip port else [])).
  { destruct (alert_due P vs); cbn; [|exists s; by rewrite app_nil_r].
    destruct (Form_Send_AlertMsg_spec h ip port s) as (e & s' & -> & ?); auto.
    by exists s'. }
  destruct Halert as (s1 & -> & Hs1). cbn [mbind outcome_bind].
  destruct (run_column_spec fork_ok RBM_CMD_COLUMN (p_command P) s1) as (s2 & -> & Hs2);
    [change RBM_CMD_COLUMN with 24%nat; lia|done|done|]. cbn [mbind outcome_bind].
  destruct (run_column_spec fork_ok RBM_SCR_COLUMN (p_script P) s2) as (s3 & -> & Hs3);
    [change RBM_SCR_COLUMN with 25%nat; lia|done|done|]. cbn [mbind outcome_bind].
  exists s3. split; [done|]. by rewrite Hs3, Hs2, Hs1, <- !app_assoc.
Qed.
End Row.
End Alert.
