(* ===== verification/PolicyProps.v ===== *)
(** * A library and an agent to run the policy monitor on

    [parse_ids] reads numeric identifiers; the agent of the examples has one
    policy of two conditions. *)

From Stdlib Require Import String.
From S2P Require Import Prelude CTypes CText PolicyRow PolicyRead Policy PolicySpec.
From S2P Require Import PolicyProofs PolicyDecide.
From stdpp Require Import list.

#[local] Open Scope Z_scope.

Definition done_id (acc : option Z) : list Z := match acc with None => [] | Some x => [x] end.
Fixpoint parse_ids (acc : option Z) (s : text) : list Z :=
  match s with
  | [] => done_id acc
  | c :: s =>
      if c =? 46 then done_id acc ++ parse_ids (Some 0) s
      else parse_ids (x ← acc; Some (10 * x + (c - 48))) s
  end.

Lemma parse_digits a ds rest : Forall (fun c => isdigit c = true) ds ->
  parse_ids (Some a) (ds ++ rest) = parse_ids (Some (digits_value a ds)) rest.
Proof.
  intros Hd. revert a. induction Hd as [|c ds Hc Hd IH]; intros a; [done|]. simpl. rewrite Hc.
  replace (c =? 46) with false.
  - apply IH.
  - unfold isdigit in Hc. boolify. symmetry. apply Z.eqb_neq. lia.
Qed.

Lemma parse_ids_strings lw ids acc : (lw = 32 \/ lw = 64) -> Forall (fun x => 0 <= x < 2 ^ 31) ids ->
  parse_ids acc (concat (map (fun x => 46 :: dec (as_long lw x)) ids)) = done_id acc ++ ids.
Proof.
  intros Hlw Hids. revert acc. induction Hids as [|x ids Hx Hids IH]; intros acc.
  - simpl. by rewrite app_nil_r.
  - cbn [map concat]. rewrite as_long_id by done. unfold dec. rewrite (proj2 (Z.ltb_ge _ _)) by lia.
    cbn [app]. cbn [parse_ids]. change (46 =? 46) with true. cbn iota. f_equal.
    unfold dec_u. rewrite parse_digits by apply dec_digits_isdigit.
    rewrite dec_digits_value by (simpl; lia). apply IH.
Qed.

(** An agent that answers these requests. *)
Definition demo_lib (table : list (list (list Z) * list asn_value)) : SnmpLib := {|
  read_objid t cap := take cap (parse_ids None t);
  snmp_get _ oids :=
    match list_find (fun r => r.1 = oids) table with
    | Some (_, (_, vals)) => Response (map (MkVar [1; 3; 6; 1]) vals)
    | None => NoResponse
    end
|}.

Lemma demo_laws table lw : (lw = 32 \/ lw = 64) -> @SnmpLaws (demo_lib table) lw.
Proof.
  intros Hlw. split; simpl.
  - intros t cap. rewrite length_take. lia.
  - intros ids cap _ Hl Hids. rewrite parse_ids_strings by done. simpl. by apply take_ge.
Qed.

(** ** A policy: alert if the load is above 80 and less than 1000 is free *)
Definition load : list Z := [1; 3; 6; 1; 4; 1; 2021; 10; 1; 5; 1].
Definition free : list Z := [1; 3; 6; 1; 4; 1; 2021; 4; 6; 0].
Definition no_cond : condition := MkCond [0; 0] 0 0.

Definition demo_policy : policy :=
  MkPolicy [MkCond load 1 80; MkCond free 0 1000; no_cond; no_cond; no_cond] [0; 0; 0; 0]
    4 [1; 0; 1; 0] (text_of "/bin/report load") [] (text_of "Load is high").

Definition demo_table (vals : list asn_value) : list (list (list Z) * list asn_value) :=
  [(row_oids 7, policy_row demo_policy); ([load; free], vals);
   (AlertMgr_oids, [ASN_IPADDRESS 16777343; ASN_INTEGER 5000])].

Definition demo_host : host :=
  MkHost (text_of "10.0.0.1") (text_of "Mon Jan  1 00:00:00 2024") (text_of "master") true
    (replicate 512 170) true.

Definition up_oid : list Z := [1; 3; 6; 1; 2; 1; 1; 3; 0].
Definition trap_oid : list Z := [1; 3; 6; 1; 6; 3; 1; 1; 4; 1; 0].
Definition arg_oid (k : Z) : list Z := aulNuriPolicy_variables_oid ++ [2; k].
Definition demo_trap : trap :=
  MkTrap true true false (text_of "10.0.0.9") 40000
    [MkVar up_oid (ASN_OTHER 67); MkVar trap_oid (ASN_OBJECT_ID up_oid);
     MkVar (arg_oid 1) (ASN_INTEGER 8161); MkVar (arg_oid 2) (ASN_UNSIGNED 7);
     MkVar (arg_oid 3) (ASN_OCTET_STR (text_of "check"))].

Definition idle : rbm := MkRbm [] 0 0 0 (replicate 255 0) 0 [].

(** A request the table answers. *)
Lemma demo_answers table log oids vals :
  snd <$> list_find (fun r => r.1 = oids) table = Some (oids, vals) ->
  @answers (demo_lib table) 64 log oids vals.
Proof.
  intros Hf. exists (map (MkVar [1; 3; 6; 1]) vals). simpl.
  destruct (list_find _ table) as [[k [q vs]]|]; [|done]. simpl in Hf. injection Hf as _ ->.
  split; [done|]. split.
  - apply Forall_map, Forall_true. intros v. by apply Nat.ltb_lt.
  - rewrite map_map. apply map_id.
Qed.

(** * Properties of the policy monitor *)

#[local] Open Scope Z_scope.
#[local] Arguments Nat.mul _ _ : simpl never.

(** ** Traps *)

(** The trap by which the agent at [port] asks to evaluate policy [p]. *)
Definition policy_trap (t : trap) (port p : Z) : Prop :=
  received t = true /\ trap2 t = true /\ numeric_ip t = false /\
  exists v1 v2 n1 n2 n3 msg,
    trap_vars t = [v1; v2; MkVar n1 (ASN_INTEGER port); MkVar n2 (ASN_UNSIGNED p);
                   MkVar n3 (ASN_OCTET_STR msg)] /\
    under_policy v1 = false /\ under_policy v2 = false /\
    Forall (fun n => take 10 n = aulNuriPolicy_variables_oid) [n1; n2; n3] /\
    (length msg < 255)%nat.

Lemma demo_is_trap : policy_trap demo_trap 8161 7.
Proof.
  split_and!; try done. do 6 eexists. split; [done|]. split_and!; try done.
  - by repeat constructor.
  - simpl. lia.
Qed.

Lemma strlen_padded a n : nonzero a -> (0 < n)%nat -> strlen (a ++ replicate n 0) = Ret (length a).
Proof. intros Ha Hn. destruct n as [|n]; [lia|]. by apply strlen_app. Qed.

Lemma c_text_nonzero s : nonzero (c_text s).
Proof.
  induction s as [|c s IH]; [constructor|]. simpl. destruct (Z.eqb_spec c 0); by constructor.
Qed.
Lemma c_text_length s : (length (c_text s) <= length s)%nat.
Proof. induction s as [|c s IH]; simpl; [lia|]. destruct (c =? 0); simpl; lia. Qed.

Lemma trap_accepted lw t port p s :
  policy_trap t port p -> small port -> 0 <= p < 2 ^ 31 ->
  exists s1 s2, read_trap 0 (trap_vars t) s = Ret (true, s1) /\ note_sender lw t s1 = Ret s2 /\
    szRemAddress s2 = sender t /\ giSAPort s2 = port /\ uiPolicyId s2 = p /\ rbm_log s2 = rbm_log s.
Proof.
  intros (Hr & H2 & Hnum & v1 & v2 & n1 & n2 & n3 & msg & -> & Hv1 & Hv2 & Hns & Hmsg) Hport Hp.
  repeat (apply Forall_cons in Hns as [? Hns]).
  pose proof (c_text_nonzero msg). pose proof (c_text_length msg).
  assert (Hu : forall n v, take 10 n = aulNuriPolicy_variables_oid ->
    under_policy (MkVar n v) = true) by (intros; by apply bool_decide_eq_true_2).
  cbn [read_trap]. rewrite Hv1, Hv2, !Hu by done.
  change (I16 (0 + 1)) with 1. change (I16 (1 + 1)) with 2. change (I16 (2 + 1)) with 3.
  change (I16 (3 + 1)) with 4. change (I16 (4 + 1)) with 5.
  change (1 <=? 2) with true. change (2 <=? 2) with true. change (3 <=? 2) with false.
  change (4 <=? 2) with false. change (5 <=? 2) with false.
  cbn [set_trap var_val mbind outcome_bind mret outcome_ret].
  change RBM_STR_LEN with 255%nat. rewrite poke_ok by (rewrite length_app, !length_replicate; lia).
  cbn [mbind outcome_bind mret outcome_ret]. eexists _, _. split; [done|]. unfold note_sender. rewrite Hr, H2, Hnum.
  cbn [andb szTrapMessage].
  rewrite take_0, app_nil_l, drop_replicate, <- app_assoc, <- replicate_add, strlen_padded
    by (rewrite ?length_app, ?length_replicate; done || lia).
  cbn. split_and!; try done; [by apply I32_id|apply UI32_id; lia].
Qed.

Section Properties.
Context `{SnmpLib}.
Variable lw : Z.
Context `{!SnmpLaws lw}.
Hypothesis Hlw : lw = 32 \/ lw = 64.

(** The row and the values of its variables are read into place. *)
Lemma row_read P p s :
  0 <= p < 2 ^ 31 -> policy_ok lw P -> answers lw (rbm_log s) (row_oids p) (policy_row P) ->
  exists m0 m, RBM_Fill_Variables_List lw p (RBM_calloc RBM_VAR_COLUMNS) = Ret (m0, 27%nat) /\
    RBM_SNMP_Get_Row lw m0 27 s =
      Ret (0, m, emit (Get (szRemAddress s) (giSAPort s) (row_oids p)) s) /\
    columns 27 m /\ row_is lw m (policy_row P).
Proof using All.
  intros Hp HP Hans. destruct (Fill_Variables_spec lw Hlw p Hp) as (m0 & Hm0 & Hl & Hn & Hb).
  assert (Hc : columns 27 m0) by (unfold columns; lia).
  pose proof (length_row lw P HP).
  destruct (Get_Row_spec lw 27 m0 (row_oids p) (policy_row P) s) as (m & Hm & ? & Hv);
    [done|by apply row_fits|done|by apply row_storable|done|lia|apply (blank_ready _ _ 27); [done|lia]|].
  exists m0, m. split_and!; try done. by apply row_from.
Qed.

Lemma values_read P m vs s :
  policy_ok lw P -> row_is lw m (policy_row P) -> columns 27 m ->
  length vs = length (used (conditions P)) ->
  fits MAX_OID_LEN (map c_oid (used (conditions P))) ->
  answers lw (rbm_log s) (map c_oid (used (conditions P))) (map ASN_INTEGER vs) ->
  exists o o' m', RBM_Fill_OID_List m (RBM_calloc RBM_OID_COLUMNS) =
      Ret (o, length (used (conditions P))) /\
    RBM_SNMP_Get_Row lw o (length (used (conditions P))) s =
      Ret (0, o', emit (Get (szRemAddress s) (giSAPort s) (map c_oid (used (conditions P)))) s) /\
    RBM_Copy_OID_List m o' (length (used (conditions P))) = Ret m' /\
    row_is lw m' (copied (policy_row P) 0 vs).
Proof using All.
  intros HP Hm Hc Hvs Hfit Hans. pose proof (used_length lw P HP). pose proof (length_row lw P HP).
  destruct (Fill_OID_spec lw Hlw P m HP Hm) as (o & Ho & Hco & Hno & Hbo).
  destruct (Get_Row_spec lw 5 o (map c_oid (used (conditions P))) (map ASN_INTEGER vs) s)
    as (o' & Ho' & _ & Hv);
    [done|done|done|by apply Forall_map, Forall_true|done|rewrite length_map; lia| |].
  { apply (blank_ready _ _ 5); [done|]. rewrite length_map. lia. }
  rewrite length_map in Ho'. rewrite map_map in Hv.
  destruct (copy_oids_spec lw vs m o' 0 27 (policy_row P)) as (m' & Hm' & _ & Hrow);
    [done|done|done|lia|lia|].
  rewrite Hvs in Hm'. by exists o, o', m'.
Qed.

(** C5: A trap for a policy is evaluated as the policy says.  The agent's row
    and the values of the variables it names are read, the conditions are
    combined from left to right with AND and OR, an alert with the policy's
    level, flags and message goes to the alert manager exactly if the result is
    true, and the command and the script are run.  What it takes: an SNMPv2
    trap with its five variables in their places, the sender named in the text of
    less than 255 octets, port and policy number of 32 bits; the row has five conditions of which at least one is used, operations 0 or 1,
    32-bit integers and texts of less than 128 octets without zeros; identifiers
    are not empty, print in less than 80 characters and none is longer than the
    one before it; the agent answers every request, and the variables of the
    conditions with an INTEGER of 32 bits each (not a counter or time ticks:
    [unknown_type_shifts_values]); the host's address, time and name fit their
    buffers; and, if an alert is due and the log can be opened, the agent tells
    where the alert manager is.  [long_message_overflows] and
    [longer_identifier_not_asked] show what happens beyond. *)
Theorem policy_trap_decides h fork_ok t s P p port vs ip aport :
  policy_trap t port p -> small port -> 0 <= p < 2 ^ 31 ->
  policy_ok lw P -> used (conditions P) <> [] ->
  fits MAX_OID_LEN (map c_oid (used (conditions P))) ->
  length vs = length (used (conditions P)) -> Forall small vs ->
  host_ok h -> small aport ->
  let row := Get (sender t) port (row_oids p) in
  let values := Get (sender t) port (map c_oid (used (conditions P))) in
  answers lw (rbm_log s) (row_oids p) (policy_row P) ->
  answers lw (rbm_log s ++ [row]) (map c_oid (used (conditions P))) (map ASN_INTEGER vs) ->
  (alert_due P vs = true -> log_ok h = true ->
   tells_manager lw (rbm_log s ++ [row; values]) ip aport) ->
  exists s', snmp_input lw h fork_ok t s = Ret (1, s') /\
    rbm_log s' = rbm_log s ++ [row; values] ++
      (if alert_due P vs then alert_events P h (sender t) port ip aport else []) ++
      run_events fork_ok (p_command P) ++ run_events fork_ok (p_script P).
Proof using All.
  intros Ht Hport Hp HP Hne Hfit Hvs Hsm Hh Haport row values Hrow Hvals Hmgr.
  destruct (trap_accepted lw t port p s Ht Hport Hp) as (s1 & s2 & Hr & Hn & Ha & Hpt & Hpol & Hlog).
  unfold snmp_input. rewrite Hr. cbn [mbind outcome_bind negb]. rewrite Hn. cbn [mbind outcome_bind].
  rewrite <- Hlog in Hrow. rewrite Hpol.
  destruct (row_read P p s2 Hp HP Hrow) as (m0 & m & -> & Hm0 & Hc & Hm). cbn [mbind outcome_bind].
  rewrite Hm0, Ha, Hpt. fold row. cbn [mbind outcome_bind]. change (negb (0 =? 0)) with false. cbn iota.
  destruct (values_read P m vs (emit row s2) HP Hm Hc Hvs Hfit) as (o & o' & m' & -> & Ho & Hm' & Hcop).
  { simpl. by rewrite Hlog. }
  cbn [mbind outcome_bind]. rewrite bool_decide_eq_false_2
    by (destruct (used (conditions P)); [done|simpl; lia]).
  rewrite Ho. cbn [mbind outcome_bind]. change (negb (0 =? 0)) with false. cbn iota.
  rewrite Hm'. cbn [mbind outcome_bind emit szRemAddress giSAPort]. rewrite Ha, Hpt. fold values.
  destruct (act_spec lw Hlw P vs m' HP Hvs Hsm Hcop h fork_ok ip aport (emit values (emit row s2)))
    as (s' & Hact & Hs'); auto.
  { intros. simpl. rewrite Hlog, <- app_assoc. by apply Hmgr. }
  exists s'. split; [exact Hact|]. rewrite Hs'. simpl. by rewrite Ha, Hpt, Hlog, <- !app_assoc.
Qed.

End Properties.

Lemma policy_trap_decides_witness :
  exists s', @snmp_input (demo_lib (demo_table [ASN_INTEGER 93; ASN_INTEGER 512])) 64 demo_host true
      demo_trap idle = Ret (1, s') /\
    rbm_log s' =
      [Get (text_of "10.0.0.9") 8161 (row_oids 7); Get (text_of "10.0.0.9") 8161 [load; free];
       Get (text_of "10.0.0.9") 8161 AlertMgr_oids;
       Sent 16777343 5000 (datagram (policy_alert demo_policy demo_host));
       Child (Ret [text_of "/bin/report"; text_of "load"])].
Proof.
  apply (@policy_trap_decides (demo_lib (demo_table [ASN_INTEGER 93; ASN_INTEGER 512])) 64
           (demo_laws _ 64 (or_intror eq_refl)) (or_intror eq_refl)
           demo_host true demo_trap idle demo_policy 7 8161 [93; 512] 16777343 5000).
  - apply demo_is_trap.
  - decided.
  - lia.
  - decided.
  - done.
  - decided.
  - done.
  - by repeat constructor.
  - decided.
  - decided.
  - apply demo_answers. by vm_compute.
  - apply demo_answers. by vm_compute.
  - intros _ _. apply demo_answers. by vm_compute.
Defined.

(** * Where the policy monitor goes wrong

    Responses and rows the code does not expect, and options it skips. *)

#[local] Open Scope Z_scope.
#[local] Arguments Nat.mul _ _ : simpl never.

(** ** Traps that are not for the monitor *)

(** The first two variables are outside the policy subtree, the others in it. *)
Definition accepted (vars : list snmp_var) : bool :=
  forallb (fun v => negb (under_policy v)) (take 2 vars) && forallb under_policy (drop 2 vars).

Lemma set_trap_log v s s' : set_trap v s = Ret s' -> rbm_log s' = rbm_log s.
Proof.
  intros Hs. destruct v; unfold set_trap in Hs; try by injection Hs as <-.
  apply outcome_bind_Ret_inv in Hs as (b & _ & Hs). by injection Hs as <-.
Qed.

Lemma read_trap_log n vars s b s' : read_trap n vars s = Ret (b, s') -> rbm_log s' = rbm_log s.
Proof.
  revert n s. induction vars as [|v vars IH]; intros n s Hr; simpl in Hr;
    [by injection Hr as <- <-|].
  destruct (under_policy v), (I16 (n + 1) <=? 2); try (by injection Hr as <- <-); eauto.
  apply outcome_bind_Ret_inv in Hr as (s1 & H1%set_trap_log & H2%IH). congruence.
Qed.

Lemma read_trap_tail n vars s b s' : 2 <= n -> n + Z.of_nat (length vars) < 32768 ->
  read_trap n vars s = Ret (b, s') -> b = forallb under_policy vars.
Proof.
  revert n s. induction vars as [|v vars IH]; intros n s Hn Hl Hr; simpl in Hr, Hl;
    [by injection Hr as <- <-|].
  rewrite I16_id, (proj2 (Z.leb_gt _ _)) in Hr by lia. simpl.
  destruct (under_policy v); [|by injection Hr as <- <-].
  apply outcome_bind_Ret_inv in Hr as (s1 & _ & H2). apply (IH _ _) in H2; auto; lia.
Qed.

Lemma read_trap_accepted vars s b s' : Z.of_nat (length vars) < 32768 ->
  read_trap 0 vars s = Ret (b, s') -> b = accepted vars.
Proof.
  unfold accepted. intros Hl Hr. destruct vars as [|v1 [|v2 vars]]; cbn [length] in Hl;
    simpl in Hr |- *.
  - by injection Hr as <- <-.
  - destruct (under_policy v1); simpl in Hr |- *; by injection Hr as <- <-.
  - destruct (under_policy v1); simpl in Hr |- *; [by injection Hr as <- <-|].
    destruct (under_policy v2); simpl in Hr |- *; [by injection Hr as <- <-|].
    rewrite drop_0. eapply (read_trap_tail 2); [lia| |exact Hr]. lia.
Qed.

(** A trap with a variable out of place (the first two must lie outside the
    policy subtree and all others in it) is dropped: the agent is not asked,
    nothing is sent and nothing is run. *)
Theorem misplaced_trap_dropped `{SnmpLib} lw h fork_ok t s e s' :
  Z.of_nat (length (trap_vars t)) < 32768 -> accepted (trap_vars t) = false ->
  snmp_input lw h fork_ok t s = Ret (e, s') -> e = 1 /\ rbm_log s' = rbm_log s.
Proof.
  intros Hl Ha Hs. unfold snmp_input in Hs.
  apply outcome_bind_Ret_inv in Hs as ([b s1] & Hr & Hs).
  rewrite <- (read_trap_accepted _ _ _ _ Hl Hr) in Ha. subst b. cbn in Hs. injection Hs as <- <-.
  split; [done|]. by eapply read_trap_log.
Qed.

Lemma misplaced_trap_dropped_witness :
  exists s', @snmp_input (demo_lib []) 64 demo_host true
      (MkTrap true true false [] 0 (rev (trap_vars demo_trap))) idle = Ret (1, s') /\
    1 = 1 /\ rbm_log s' = [].
Proof.
  eexists. split; [vm_compute; reflexivity|].
  apply (@misplaced_trap_dropped (demo_lib []) 64 demo_host true
           (MkTrap true true false [] 0 (rev (trap_vars demo_trap))) idle); by vm_compute.
Defined.

(** ** Values that are not stored *)
Definition supported (v : snmp_var) : bool :=
  match var_val v with ASN_OTHER _ => false | _ => true end.

(** A value of a type the monitor does not know (a counter, time ticks, an
    end of view) does not leave a gap: all later values of the response are
    taken for those of earlier columns, as if it had not been there. *)
Theorem unknown_type_shifts_values lw k vars m :
  Forall (short_name lw) vars ->
  store_vars lw k vars m = store_vars lw k (filter (fun v => supported v = true) vars) m.
Proof.
  intros Hn. revert k m. induction Hn as [|v vars Hv Hn IH]; intros k m; [done|].
  rewrite filter_cons. change (store_vars lw k (v :: vars) m) with
    ('(n, m) ← store_var lw k v m; store_vars lw n vars m).
  destruct (supported v) eqn:E.
  - rewrite decide_True by done. simpl. destruct (store_var lw k v m) as [[n m']| |]; [|done..]. apply IH.
  - rewrite decide_False by done. unfold store_var. rewrite oid_text_spec by done.
    unfold supported in E. destruct (var_val v); try done. apply IH.
Qed.

(** The load is a counter: the free memory is compared with its threshold, the
    memory's own value is empty, and an alert is sent. *)
Lemma unknown_type_shifts_values_witness :
  store_vars 64 0 (map (MkVar [1; 3]) [ASN_OTHER 65; ASN_INTEGER 5120]) (RBM_calloc 5) =
  store_vars 64 0 (map (MkVar [1; 3]) [ASN_INTEGER 5120]) (RBM_calloc 5) /\
  exists s', @snmp_input (demo_lib (demo_table [ASN_OTHER 65; ASN_INTEGER 5120])) 64 demo_host true
      demo_trap idle = Ret (1, s') /\
    Sent 16777343 5000 (datagram (policy_alert demo_policy demo_host)) ∈ rbm_log s'.
Proof.
  split.
  - apply (unknown_type_shifts_values 64 0 (map (MkVar [1; 3]) [ASN_OTHER 65; ASN_INTEGER 5120])).
    repeat constructor; unfold short_name, STR_LEN; simpl; lia.
  - eexists. split; [vm_compute; reflexivity|]. cbn [rbm_log]. do 3 apply list_elem_of_further.
    apply list_elem_of_here.
Defined.

(** ** Long texts *)
Lemma store_vars_overflow lw v vars k n m s :
  Forall (short_name lw) vars -> Forall (storable lw) (map var_val vars) -> short_name lw v ->
  var_val v = ASN_OCTET_STR s -> (128 < length s)%nat ->
  length m = (n * 256)%nat -> (k + length vars + 1 = n)%nat -> ready m k (map var_val vars) ->
  store_vars lw k (vars ++ [v]) m = Crash.
Proof.
  intros Hn Hs Hv Hval Hlen. revert k m. induction vars as [|w vars IH]; intros k m Hm Hk Hr.
  - simpl in *. unfold store_var. rewrite oid_text_spec, Hval by done. cbn [mbind outcome_bind].
    rewrite poke_crash; [done|]. rewrite szValue_field, length_take. lia.
  - simpl in *. apply Forall_cons in Hn as [Hn1 Hn], Hs as [Hs1 Hs].
    destruct (store_var_spec lw n k w m) as (m1 & -> & _ & Ho); try done.
    { unfold columns. lia. } { lia. } { specialize (Hr 0%nat). rewrite Nat.add_0_r in Hr. by apply Hr. }
    cbn [mbind outcome_bind]. apply IH; try done; [by destruct Ho as [-> _]|lia|].
    intros j u Hj. specialize (Hr (S j) u Hj). rewrite <- Nat.add_succ_comm in Hr.
    destruct u; simpl in *; auto. eapply only_blank; [exact Ho|lia|done].
Qed.

(** An alert message of more than 128 bytes is copied past the end of the
    array: it is the last column of the row, and the code lets 255 bytes through. *)
Theorem long_message_overflows `{!SnmpLib} lw `{!SnmpLaws lw} h fork_ok t s P p port msg :
  (lw = 32 \/ lw = 64) -> policy_trap t port p -> small port -> 0 <= p < 2 ^ 31 ->
  policy_ok lw P -> (128 < length msg)%nat ->
  answers lw (rbm_log s) (row_oids p) (take 26 (policy_row P) ++ [ASN_OCTET_STR msg]) ->
  snmp_input lw h fork_ok t s = Crash.
Proof.
  intros Hlw Ht Hport Hp HP Hmsg (vars & Hget & Hn & Hv).
  destruct (trap_accepted lw t port p s Ht Hport Hp) as (s1 & s2 & Hr & Hns & _ & _ & Hpol & Hlog).
  unfold snmp_input. rewrite Hr. cbn [mbind outcome_bind negb]. rewrite Hns. cbn [mbind outcome_bind].
  rewrite Hpol. destruct (Fill_Variables_spec lw Hlw p Hp) as (m & Hm & Hl & Hnames & Hb).
  change RBM_VAR_COLUMNS with 27%nat. rewrite Hm. cbn [mbind outcome_bind].
  unfold RBM_SNMP_Get_Row. change 27%nat with (length (row_oids p)) at 1.
  rewrite (request_spec lw) by (done || by apply row_fits). cbn [mbind outcome_bind].
  rewrite Hlog, Hget. pose proof (length_row lw P HP) as Hrow.
  apply map_eq_app in Hv as (init & last & -> & Hinit & Hlast).
  destruct last as [|v [|]]; try done. injection Hlast as Hval.
  apply Forall_app in Hn as [Hn Hn1]. apply (f_equal length) in Hinit as Hlen.
  rewrite length_map, length_take in Hlen.
  rewrite (store_vars_overflow lw v init 0 27 m msg); try done.
  - rewrite Hinit. apply Forall_take. by apply row_storable.
  - by apply Forall_cons in Hn1 as [? _].
  - lia.
  - apply (blank_ready _ _ 27); [done|]. rewrite length_map. lia.
Qed.

Definition long_table : list (list (list Z) * list asn_value) :=
  [(row_oids 7, take 26 (policy_row demo_policy) ++ [ASN_OCTET_STR (replicate 200 65)])].

Lemma long_message_overflows_witness :
  @snmp_input (demo_lib long_table) 64 demo_host true demo_trap idle = Crash.
Proof.
  apply (@long_message_overflows (demo_lib long_table) 64 (demo_laws _ 64 (or_intror eq_refl))
           demo_host true demo_trap idle demo_policy 7 8161 (replicate 200 65)).
  - by right.
  - apply demo_is_trap.
  - decided.
  - lia.
  - decided.
  - rewrite length_replicate. lia.
  - apply demo_answers. by vm_compute.
Defined.

(** ** Identifiers that are not asked for *)
Section Lengths.
Context `{SnmpLib}.
Variable lw : Z.
Context `{!SnmpLaws lw}.

Lemma request_lengths k cnt cap m oids j o :
  request k cnt cap m = Ret oids -> oids !! j = Some o -> (length o <= cap)%nat.
Proof using All.
  revert cnt cap oids j. induction k as [|k IH]; intros cnt cap oids j Hr Hj; simpl in Hr.
  { injection Hr as <-. done. }
  apply outcome_bind_Ret_inv in Hr as (t & _ & (rest & Hrest & Hr)%outcome_bind_Ret_inv).
  injection Hr as <-. pose proof (read_objid_fits (lw := lw) t cap).
  destruct j as [|j]; simpl in Hj; [by simplify_eq|]. specialize (IH _ _ _ _ Hrest Hj). lia.
Qed.

Lemma longer_not_asked oids asked m cnt cap i j a b :
  names_from m cnt (map (oid_string lw) oids) -> Forall readable oids ->
  request (length oids) cnt cap m = Ret asked ->
  oids !! i = Some a -> oids !! j = Some b -> (i < j)%nat -> (length a < length b)%nat ->
  asked !! j <> Some b.
Proof using All.
  intros Hm Hrd. revert asked cnt cap i j Hm. induction Hrd as [|o oids [Hne Hro] Hrd IH];
    intros asked cnt cap i j Hm Hr Hi Hj Hij Hab Hask; [done|].
  simpl in Hr. rewrite (name_get m cnt (oid_string lw o)) in Hr
    by (specialize (Hm 0%nat); rewrite Nat.add_0_r in Hm; by apply Hm).
  cbn [mbind outcome_bind] in Hr. apply outcome_bind_Ret_inv in Hr as (rest & Hrest & Hr).
  injection Hr as <-. destruct j as [|j]; [lia|]. simpl in Hj, Hask.
  destruct i as [|i].
  - simpl in Hi. injection Hi as ->. pose proof (request_lengths _ _ _ _ _ _ _ Hrest Hask) as Hl.
    destruct (decide (length a <= cap)%nat) as [Hcap|Hcap].
    + unfold oid_string in Hl. rewrite read_objid_reads in Hl by done. lia.
    + pose proof (read_objid_fits (lw := lw) (oid_string lw a) cap). lia.
  - eapply (IH rest (S cnt) _ i j); [|exact Hrest|done..|lia|done|done].
    intros k t Hk. rewrite Nat.add_succ_comm. by apply Hm.
Qed.

(** The capacity given to [read_objid] is the length of the identifier read
    before: a variable whose identifier is longer than that of an earlier
    condition is never asked for, whatever the agent holds. *)
Theorem longer_identifier_not_asked oids m i j a b s e m' s' :
  names_from m 0 (map (oid_string lw) oids) -> Forall readable oids ->
  RBM_SNMP_Get_Row lw m (length oids) s = Ret (e, m', s') ->
  oids !! i = Some a -> oids !! j = Some b -> (i < j)%nat -> (length a < length b)%nat ->
  forall asked, rbm_log s' = rbm_log s ++ [Get (szRemAddress s) (giSAPort s) asked] ->
  asked !! j <> Some b.
Proof using All.
  intros Hm Hrd Hrow Hi Hj Hij Hab asked Hlog.
  apply outcome_bind_Ret_inv in Hrow as (asked' & Hreq & Hrow).
  assert (asked = asked') as ->; [|by apply (longer_not_asked oids asked' m 0 MAX_OID_LEN i j a b)].
  destruct (snmp_get _ _); [| |apply outcome_bind_Ret_inv in Hrow as (? & _ & Hrow)];
    injection Hrow as <- <- <-; simpl in Hlog;
    [|by apply app_inv_head in Hlog as [= ->]..].
  apply (f_equal length) in Hlog. rewrite length_app in Hlog. simpl in Hlog. lia.
Qed.
End Lengths.

(** Two names in a row of their own. *)
Definition two_names : list Z :=
  concat (map (fun o => oid_string 64 o ++ replicate (256 - length (oid_string 64 o)) 0) [free; load]).

(** The agent is asked for the identifier cut short. *)
Lemma longer_identifier_not_asked_witness :
  exists m' s', @RBM_SNMP_Get_Row
      (demo_lib [([free; take 10 load], [ASN_INTEGER 1; ASN_INTEGER 2])]) 64 two_names 2 idle =
    Ret (0, m', s') /\
    rbm_log s' = [Get [] 0 [free; take 10 load]] /\
    forall asked, rbm_log s' = [Get [] 0 asked] -> asked !! 1%nat <> Some load.
Proof.
  eexists _, _. split; [vm_compute; reflexivity|]. split; [vm_compute; reflexivity|].
  eapply (@longer_identifier_not_asked
    (demo_lib [([free; take 10 load], [ASN_INTEGER 1; ASN_INTEGER 2])]) 64
    (demo_laws _ 64 (or_intror eq_refl)) [free; load] two_names 0 1 free load idle 0).
  - intros [|[|]] t Ht; simpl in Ht; simplify_eq; (split; [decided|eexists; by vm_compute]).
  - decided.
  - vm_compute; reflexivity.
  - done.
  - done.
  - lia.
  - simpl. lia.
Defined.

(** ** Options *)

(** The argument after a port number is skipped, whatever it is. *)
Lemma port_option_skips lw prog c v x args :
  c = 112 \/ c = 80 ->
  RBM_GetOptions lw (prog :: [45; c] :: v :: x :: args) =
  get_options lw args (MkOptions false true (atoi lw v)).
Proof. by intros [-> | ->]. Qed.
