(* ===== verification/Collect.v ===== *)
(** * When variables are collected (src/Group1/RTCM/src/collectDataTable.c:
      RTC_Convert_Date_To_Long, RTC_Within_Period, RTC_Find_Current_Day,
      RTC_Get_Current_Time, RTC_Get_Time_Frequency, RTC_Calc_Num_Nodes_Interval)

    A row of collectDataTable asks for a variable to be collected between two
    dates, each weekday from a start to an end time with a period.  [clk] gives
    the readings of the clock in the order they are taken and [n] counts them;
    [lw] is the width of long. *)

From Stdlib Require Import String.
From S2P Require Import Prelude CTypes CText JobTime Heap ListSort.
From stdpp Require Import list.

#[local] Open Scope Z_scope.

Definition RTC_MAX_LIST_NODES : Z := 5000.
Definition INIT_INTERVAL : Z := 3600.
Definition RTC_IDLE_TIME : Z := 60.

(** The columns of one weekday; times are in hundredths of a second. *)
Record weekday := MkDay { d_StartTime : Z; d_EndTime : Z; d_Frequent : Z }.

Record collectDataTable_context := MkRow {
  collectDataIndex : Z;
  collectDataVariable : list Z;
  collectDataStartDate : list Z;
  collectDataEndDate : list Z;
  collectDataSun : weekday; collectDataMon : weekday; collectDataTue : weekday;
  collectDataWed : weekday; collectDataThu : weekday; collectDataFri : weekday;
  collectDataSat : weekday;
  collectDataStatus : Z
}.
Abbreviation row := collectDataTable_context.

(** Of net-snmp: the row status 1 is [active]. *)
Definition RS_IS_ACTIVE (s : Z) : bool := s =? 1.

Definition CONVERT_TO_SEC (x : Z) : Z := x / 100.

Section Plan.
Variables (lw tz : Z) (clk : nat -> Z).

(** Arithmetic in [unsigned long]. *)
Definition ul (x : Z) : Z := x mod 2 ^ lw.

(** ** Dates *)

(** A byte read through [char *]. *)
Definition signed_char (x : Z) : Z := (x + 2 ^ 7) mod 2 ^ 8 - 2 ^ 7.

Definition RTC_Convert_Date_To_Long (pcDate : list Z) : Z :=
  let iYear := Z.lor (Z.shiftl (signed_char (at_ pcDate 0)) 8) (at_ pcDate 1) in
  let stTm := Tm (at_ pcDate 6) (at_ pcDate 5) (at_ pcDate 4) (at_ pcDate 3) (at_ pcDate 2 - 1)
                 (iYear - 1900) 0 in
  fst (mktime tz stTm).

(** 0 if the date is within the period. *)
Definition RTC_Within_Period (r : row) (n : nat) : Z * nat :=
  let ulSDate := RTC_Convert_Date_To_Long (collectDataStartDate r) in
  let ulEDate := RTC_Convert_Date_To_Long (collectDataEndDate r) in
  if ulEDate <? ulSDate then (1, n) else
  let now := clk n in
  (if (ulSDate <=? now) && (now <=? ulEDate) then 0 else 1, S n).

(** ** Today *)
Definition RTC_Find_Current_Day (n : nat) : Z * nat := (tm_wday (localtime tz (clk n)), S n).

Definition RTC_Get_Current_Time (n : nat) : Z * nat :=
  let stTm := localtime tz (clk n) in
  (tm_hour stTm * 3600 + tm_min stTm * 60 + tm_sec stTm, S n).

(** The start, the end and the period; a day that does not exist changes nothing. *)
Definition RTC_Get_Time_Frequency (iToday : Z) (r : row) (old : Z * Z * Z) : Z * Z * Z :=
  let times d :=
    (CONVERT_TO_SEC (d_StartTime d), CONVERT_TO_SEC (d_EndTime d), I32 (d_Frequent d)) in
  if iToday =? 0 then times (collectDataSun r)
  else if iToday =? 1 then times (collectDataMon r)
  else if iToday =? 2 then times (collectDataTue r)
  else if iToday =? 3 then times (collectDataWed r)
  else if iToday =? 4 then times (collectDataThu r)
  else if iToday =? 5 then times (collectDataFri r)
  else if iToday =? 6 then times (collectDataSat r)
  else old.

(** [iFreq - ((ulCTime - ulSTime) % iFreq)] stored in an [int], at least 1 from
    the scheduled second on. *)
Definition init_delay (iFreq ulCTime ulSTime : Z) : Z :=
  let iInitDelay := I32 (ul (ul iFreq - ul (ulCTime - ulSTime) mod ul iFreq)) in
  if iInitDelay =? iFreq then 1 else iInitDelay.

(** ** RTC_Calc_Num_Nodes_Interval

    The loop on the rows [rest], started again on [all] with half the interval
    when too many nodes would be needed. *)
Fixpoint calc_loop (fuel : nat) (iToday : Z) (all rest : list row) (times : Z * Z * Z)
    (iCnt iInterval : Z) (n : nat) : outcome (Z * nat) :=
  match fuel with
  | O => OutOfFuel
  | S fuel =>
      match rest with
      | [] => mret (iInterval, n)
      | r :: rest =>
          if negb (RS_IS_ACTIVE (collectDataStatus r)) then
            calc_loop fuel iToday all rest times iCnt iInterval n
          else
          let '(out, n) := RTC_Within_Period r n in
          if negb (out =? 0) then calc_loop fuel iToday all rest times iCnt iInterval n else
          let '(ulSTime, ulETime, iFreq) := RTC_Get_Time_Frequency iToday r times in
          let times := (ulSTime, ulETime, iFreq) in
          if iFreq =? 0 then calc_loop fuel iToday all rest times iCnt iInterval n else
          let '(ulCTime, n) := RTC_Get_Current_Time n in
          let iInitDelay := init_delay iFreq ulCTime ulSTime in
          if (ulSTime <? ulCTime) && (ulCTime <? ulETime) then
            let ulASTime := ul (iInitDelay + ulCTime) in
            if ulETime <? ulASTime then calc_loop fuel iToday all rest times iCnt iInterval n else
            let iCnt := iCnt + 1 in
            let iCnt :=
              if ul (iInterval + ulASTime) <? ulETime then iCnt + Z.quot iInterval iFreq
              else iCnt + I32 (ul (ulETime - ulASTime) / ul iFreq) in
            if (RTC_MAX_LIST_NODES <? iCnt) && negb (iInterval =? 1) then
              calc_loop fuel iToday all all times 0 (Z.quot iInterval 2) n
            else calc_loop fuel iToday all rest times iCnt iInterval n
          else calc_loop fuel iToday all rest times iCnt iInterval n
      end
  end.

(** Eleven halvings lead from [INIT_INTERVAL] to 1; each pass is one iteration
    for a row and one for the end. *)
Definition RTC_Calc_Num_Nodes_Interval (rows : list row) (n : nat) : outcome (Z * nat) :=
  let '(iToday, n) := RTC_Find_Current_Day n in
  calc_loop (13 * S (length rows)) iToday rows rows (0, 0, 0) 0 INIT_INTERVAL n.

End Plan.

(** * The collector (src/Group1/RTCM/src/collectDataTable.c:
      RTC_Add_Intervals_To_List, Form_Linked_List, Sort_Linked_List, RTC_callback,
      RTC_Collect_Store_Variables and the end of collectDataTable_set_commit)

    The samples of the next period are a linked list, in the order in which
    they are taken, with a last node that marks the end.  One alarm is set at a
    time: for the first sample of the list or, when there is none, for the next
    attempt to make a list. *)

#[local] Open Scope Z_scope.

(** The values of a node. *)
Record RTC_List := MkList { interval : Z; index : Z }.
Abbreviation heap := (gmap Z (node RTC_List)).

#[export] Instance RTC_List_eq_dec : EqDecision RTC_List.
Proof. solve_decision. Defined.

(** ** Alarms of the SNMP library (snmp_alarm.c)

    They are single; a registration finds memory, and [regnum] does not come
    round to 0. *)
Inductive alarm_fn :=
| Call_RTC_callback
| Call_RTC_Collect (pClientArg : Z)
| Call_RTC_Thread_Transfer_File.

Record alarm := MkAlarm { clientreg : Z; due : Z; thecallback : alarm_fn }.

(** ** The log file

    [fpl] is the name of the file that is open and what has been written to it;
    a line is the second, the variable and its value.  [ghRTCPThread] is the
    thread that sends the file, if one is running, and [lines] what was ever
    written. *)
Record line := MkLine { at_time : Z; szVarStr : text; szValStr : text }.
Inductive transfer := Starting | Sending.

Record logging := MkLog {
  fpl : option (text * list line);
  giLogFlag : Z;
  szSavedLogFile : text;
  guiRTCLogFileSendReg : Z;
  giRTCFirstTime : Z;
  giFTProgress : bool;
  ghRTCPThread : option transfer;
  lines : list line
}.

(** ** The globals of the module

    [nodes] are the live nodes, [thealarms] and [regnum] the library's alarms,
    [samples] the variables read so far, by second and row index. *)
Record rtc := MkRtc {
  nodes : heap;
  gpstHeadList : Z;
  guiRTCReg1 : Z; guiRTCReg2 : Z; guiRTCReg3 : Z;
  giContextChanged : Z;
  thealarms : list alarm;
  regnum : Z;
  samples : list (Z * Z);
  thelog : logging
}.

Definition with_list (h : heap) (head : Z) (s : rtc) : rtc :=
  MkRtc h head (guiRTCReg1 s) (guiRTCReg2 s) (guiRTCReg3 s) (giContextChanged s) (thealarms s)
        (regnum s) (samples s) (thelog s).
Definition with_regs (r1 r2 r3 : Z) (s : rtc) : rtc :=
  MkRtc (nodes s) (gpstHeadList s) r1 r2 r3 (giContextChanged s) (thealarms s) (regnum s) (samples s)
        (thelog s).
Definition with_changed (c : Z) (s : rtc) : rtc :=
  MkRtc (nodes s) (gpstHeadList s) (guiRTCReg1 s) (guiRTCReg2 s) (guiRTCReg3 s) c (thealarms s)
        (regnum s) (samples s) (thelog s).
Definition with_alarms (l : list alarm) (n : Z) (s : rtc) : rtc :=
  MkRtc (nodes s) (gpstHeadList s) (guiRTCReg1 s) (guiRTCReg2 s) (guiRTCReg3 s) (giContextChanged s)
        l n (samples s) (thelog s).
Definition with_log (l : logging) (s : rtc) : rtc :=
  MkRtc (nodes s) (gpstHeadList s) (guiRTCReg1 s) (guiRTCReg2 s) (guiRTCReg3 s) (giContextChanged s)
        (thealarms s) (regnum s) (samples s) l.
Definition with_sample (x : Z * Z) (s : rtc) : rtc :=
  MkRtc (nodes s) (gpstHeadList s) (guiRTCReg1 s) (guiRTCReg2 s) (guiRTCReg3 s) (giContextChanged s)
        (thealarms s) (regnum s) (samples s ++ [x]) (thelog s).

(** The first alarm with the number [reg] is removed. *)
Fixpoint remove_alarm (reg : Z) (l : list alarm) : list alarm :=
  match l with
  | [] => []
  | a :: l => if clientreg a =? reg then l else a :: remove_alarm reg l
  end.

Definition snmp_alarm_unregister (reg : Z) (s : rtc) : rtc :=
  with_alarms (remove_alarm reg (thealarms s)) (regnum s) s.

(** [when] seconds after [t]. *)
Definition snmp_alarm_register (t when : Z) (f : alarm_fn) (s : rtc) : Z * rtc :=
  (regnum s, with_alarms (thealarms s ++ [MkAlarm (regnum s) (t + UI32 when) f]) (regnum s + 1) s).

(** The first of the alarms that are due next. *)
Fixpoint sa_find_next (l : list alarm) (lowest : option alarm) : option alarm :=
  match l with
  | [] => lowest
  | a :: l =>
      sa_find_next l
        (match lowest with
         | None => Some a
         | Some low => if due a <? due low then Some a else Some low
         end)
  end.

(** * Reading a variable and logging it (src/Group1/RTCM/src/collectDataTable.c:
      RTC_Retrieve_Log_Variable, RTC_Fetch_Var_Val, RTC_Check_LogFile_Name,
      RTC_Thread_Transfer_File, RTC_Transfer_File) *)

(** What the library and the module that owns a variable answer: no subtree, a
    handler of another kind, no [variable] behind it, no value, or a value. *)
Inductive value :=
| Signed (v : Z) (* ASN_INTEGER, ASN_TIMETICKS and the types not listed *)
| Unsigned (v : Z)
| IpAddress (a b c d : Z)
| ObjectId (ids : list Z) (* words of 32 bits *)
| Octets (l : list Z).
Inductive variable_answer := NoSubtree | OtherHandler | NoMagic | NoAccess | Access (v : value).

(** The settings of agentInfo. *)
Record settings := MkSettings {
  gcInfoLogFileSystemData : text;
  glAgentInfoLogFileLimitSize : Z;
  glAgentInfoFileTrInterval : Z
}.

(** What the module finds around it in second [t]: the variable of a row, the
    settings, whether a file can be opened and whether a thread can be made. *)
Class Agent := {
  find_var : Z -> row -> variable_answer;
  conf : Z -> settings;
  fopen_ok : Z -> text -> bool;
  pthread_ok : Z -> bool
}.

Definition RTC_DEFAULT_LOGFILE : text := text_of "/usr/local/conf/RTC_Logfile".
Definition RTC_FILEPATH_LEN : Z := 255.

(** Text built in an array of [n] bytes. *)
Definition built (n : Z) (s : text) : outcome text :=
  if Z.of_nat (length s) <? n then mret s else Crash.

Definition hex_digit (x : Z) : Z := if x <? 10 then 48 + x else 55 + x.
Definition hex_byte (x : Z) : text := [hex_digit (x / 16); hex_digit (x mod 16)].

(** The result and the value as text, in a buffer of 256 bytes that was zeroed.
    The subtree is used before it is tested. *)
Definition RTC_Fetch_Var_Val (v : variable_answer) : outcome (Z * text) :=
  match v with
  | NoSubtree => Crash
  | OtherHandler => mret (3, [])
  | NoMagic => mret (1, [])
  | NoAccess => mret (2, [])
  | Access (Signed x) | Access (Unsigned x) => mret (0, dec x)
  | Access (IpAddress a b c d) => mret (0, dotted a b c d)
  | Access (ObjectId ids) => s ← built 255 (concat (map (fun x => 46 :: dec (I32 x)) ids)); mret (0, s)
  | Access (Octets l) =>
      if forallb (fun c => (32 <=? c) && (c <=? 126)) l
      then s ← built 256 l; mret (0, s)
      else s ← built 255 (concat (map hex_byte l)); mret (0, s)
  end.

Section Logging.
Context `{Agent}.

Definition set_file (f : option (text * list line)) (flag : Z) (saved : text) (l : logging) : logging :=
  MkLog f flag saved (guiRTCLogFileSendReg l) (giRTCFirstTime l) (giFTProgress l) (ghRTCPThread l)
        (lines l).
Definition set_send (reg first : Z) (l : logging) : logging :=
  MkLog (fpl l) (giLogFlag l) (szSavedLogFile l) reg first (giFTProgress l) (ghRTCPThread l) (lines l).
Definition set_thread (progress : bool) (th : option transfer) (l : logging) : logging :=
  MkLog (fpl l) (giLogFlag l) (szSavedLogFile l) (guiRTCLogFileSendReg l) (giRTCFirstTime l) progress th
        (lines l).

(** [fopen] for writing. *)
Definition fopen (t : Z) (name : text) : option (text * list line) :=
  if fopen_ok t name then Some (name, []) else None.

(** No log file: a plan is to be made in a minute. *)
Definition no_file (t : Z) (s : rtc) : rtc :=
  let '(r, s) := snmp_alarm_register t RTC_IDLE_TIME Call_RTC_callback s in
  with_regs r (guiRTCReg2 s) (guiRTCReg3 s) s.

(** The result is ignored by its callers. *)
Definition RTC_Check_LogFile_Name (t : Z) (s : rtc) : outcome rtc :=
  let name := gcInfoLogFileSystemData (conf t) in
  let l := thelog s in
  if bool_decide (name = []) then
    if (giLogFlag l =? 0) || (giLogFlag l =? 2) then
      match fopen t RTC_DEFAULT_LOGFILE with
      | None => mret (no_file t (with_log (set_file None (giLogFlag l) (szSavedLogFile l) l) s))
      | f => mret (with_log (set_file f 1 RTC_DEFAULT_LOGFILE l) s)
      end
    else mret s
  else if bool_decide (fpl l = None) || negb (bool_decide (name = szSavedLogFile l)) then
    temp ← built 255 (name ++ text_of ".1");
    match fopen t temp with
    | None =>
        let f := fopen t RTC_DEFAULT_LOGFILE in
        let s := with_log (set_file f 2 name l) s in
        mret (if bool_decide (f = None) then no_file t s else s)
    | f => mret (with_log (set_file f 2 name l) s)
    end
  else mret s.

(** A thread that cannot be made leaves [giFTProgress] set. *)
Definition RTC_Thread_Transfer_File (t : Z) (s : rtc) : rtc :=
  if giFTProgress (thelog s) then s
  else with_log (set_thread true (if pthread_ok t then Some Starting else ghRTCPThread (thelog s))
                            (thelog s)) s.

(** An alarm to send the file. *)
Definition send_later (t first : Z) (s : rtc) : rtc :=
  let '(r, s) := snmp_alarm_register t (glAgentInfoFileTrInterval (conf t))
                   Call_RTC_Thread_Transfer_File s in
  with_log (set_send r first (thelog s)) s.

(** ** The thread

    RTC_Transfer_File up to the transmission of the renamed file, and after it. *)
Definition transfer_begin (s : rtc) : rtc :=
  let l := set_send 0 (giRTCFirstTime (thelog s)) (thelog s) in
  with_log (set_thread (giFTProgress l) (Some Sending) (set_file None (giLogFlag l) (szSavedLogFile l) l)) s.

Definition transfer_end (t : Z) (s : rtc) : outcome rtc :=
  s ← RTC_Check_LogFile_Name t (with_log (set_file (fpl (thelog s)) 0 RTC_DEFAULT_LOGFILE (thelog s)) s);
  let s := send_later t (giRTCFirstTime (thelog s)) s in
  mret (with_log (set_thread false None (thelog s)) s).

Definition RTC_Transfer_File (t : Z) (s : rtc) : outcome rtc :=
  match ghRTCPThread (thelog s) with
  | None => mret s
  | Some Starting => mret (transfer_begin s)
  | Some Sending => transfer_end t s
  end.

(** ** RTC_Retrieve_Log_Variable *)

(** CONTAINER_FIND *)
Definition find_row (rows : list row) (ulIndex : Z) : option row :=
  List.find (fun r => collectDataIndex r =? ulIndex) rows.

Definition MAX_OID_LEN : Z := 128.
Definition var_text (r : row) : text := concat (map (fun x => 46 :: dec_u x) (collectDataVariable r)).

(** "%s  %s  %s\n" with the 24 characters of a time. *)
Definition line_length (x : line) : Z :=
  29 + Z.of_nat (length (szVarStr x)) + Z.of_nat (length (szValStr x)).
Definition st_size (l : list line) : Z := foldr (fun x n => line_length x + n) 0 l.

Definition write_line (x : line) (s : rtc) : rtc :=
  let l := thelog s in
  match fpl l with
  | None => s
  | Some (name, content) =>
      with_log (MkLog (Some (name, content ++ [x])) (giLogFlag l) (szSavedLogFile l)
                      (guiRTCLogFileSendReg l) (giRTCFirstTime l) (giFTProgress l) (ghRTCPThread l)
                      (lines l ++ [x])) s
  end.

(** The file has reached its limit: it is closed and sent. *)
Definition file_full (t : Z) (s : rtc) : rtc :=
  let reg := guiRTCLogFileSendReg (thelog s) in
  let s := if reg =? 0 then s else snmp_alarm_unregister reg s in
  let s := send_later t (giRTCFirstTime (thelog s)) s in
  RTC_Thread_Transfer_File t (with_log (set_file None 0 RTC_DEFAULT_LOGFILE (thelog s)) s).

Definition RTC_Retrieve_Log_Variable (rows : list row) (t ulIndex : Z) (s : rtc) : outcome rtc :=
  match find_row rows ulIndex with
  | None => mret s
  | Some r =>
      var ← built MAX_OID_LEN (var_text r);
      '(iErr, ulVal) ← RTC_Fetch_Var_Val (find_var t r);
      if negb (iErr =? 0) then mret s else
      val ← built 80 ulVal;
      s ← RTC_Check_LogFile_Name t (with_sample (t, ulIndex) s);
      let s := write_line (MkLine t var val) s in
      let s := if giRTCFirstTime (thelog s) =? 1 then send_later t 0 s else s in
      match fpl (thelog s) with
      | None => mret s
      | Some (_, content) =>
          let limit := glAgentInfoLogFileLimitSize (conf t) in
          let limit := if limit <? 0 then 10 else limit in
          if st_size content <? limit * 1024 then mret s
          else if bool_decide (gcInfoLogFileSystemData (conf t) = []) then
            RTC_Check_LogFile_Name t (with_log (set_file (fpl (thelog s)) 0 (szSavedLogFile (thelog s)) (thelog s)) s)
          else mret (file_full t s)
      end
  end.
End Logging.

Section Collect.
Context `{Allocator} `{Agent}.
Variables lw tz : Z.

Section Making.
Variable clk : nat -> Z.

(** ** Making the list *)

(** [calloc] of one node, written to without a test. *)
Definition calloc_node (h : heap) : outcome (Z * heap) :=
  let a := malloc (dom h) in
  if a =? NULL then Crash else mret (a, <[a := Node (MkList 0 0) NULL]> h).

Definition set_node (h : heap) (a : Z) (v : RTC_List) : outcome heap :=
  nd ← load h a; mret (<[a := Node v (next nd)]> h).

(** A new node behind [p]. *)
Definition add_behind (h : heap) (p : Z) : outcome (Z * heap) :=
  '(a, h) ← calloc_node h;
  h ← set_next h p a;
  mret (a, h).

(** The [for] loop that adds the other samples of a row. *)
Fixpoint add_loop (k : nat) (h : heap) (pstList : Z) (iDelay iFreq idx : Z) (iLength : Z)
    : outcome (heap * Z * Z) :=
  match k with
  | O => mret (h, pstList, iLength)
  | S k =>
      '(a, h) ← add_behind h pstList;
      h ← set_node h a (MkList iDelay idx);
      add_loop k h a (I32 (iDelay + iFreq)) iFreq idx (iLength + 1)
  end.

Definition RTC_Add_Intervals_To_List (r : row) (pstList : Z) (piInterval piLength : Z) (h : heap)
    (n : nat) : outcome (heap * Z * nat) :=
  let '(iToday, n) := RTC_Find_Current_Day tz clk n in
  let '(ulSTime, ulETime, iFreq) := RTC_Get_Time_Frequency iToday r (0, 0, 0) in
  if iFreq =? 0 then mret (h, piLength, n) else
  let '(ulCTime, n) := RTC_Get_Current_Time tz clk n in
  let iInitDelay := init_delay lw iFreq ulCTime ulSTime in
  let ulASTime := ul lw (iInitDelay + ulCTime) in
  let iCnt :=
    if ul lw (piInterval + ulASTime) <? ulETime then Z.quot piInterval iFreq
    else I32 (ul lw (ulETime - ulCTime) / ul lw iFreq) in
  h ← set_node h pstList (MkList iInitDelay (collectDataIndex r));
  let iCnt := if 0 <? iCnt then iCnt - 1 else iCnt in
  '(h, pstList, piLength) ←
    add_loop (Z.to_nat iCnt) h pstList (I32 (iFreq + iInitDelay)) iFreq (collectDataIndex r)
             (piLength + 1);
  '(a, h) ← add_behind h pstList;
  h ← set_node h a (MkList 2147483647 65537);
  h ← set_next h a NULL;
  mret (h, piLength, n).

(** [while (pstList->next != NULL) pstList = pstList->next] *)
Fixpoint to_end (fuel : nat) (h : heap) (pstList : Z) : outcome Z :=
  match fuel with
  | O => OutOfFuel
  | S fuel =>
      nd ← load h pstList;
      if next nd =? NULL then mret pstList else to_end fuel h (next nd)
  end.

Fixpoint form_loop (rows : list row) (iToday iInterval : Z) (times : Z * Z * Z) (pstList : Z)
    (iListLen : Z) (h : heap) (n : nat) : outcome (heap * Z * nat) :=
  match rows with
  | [] => mret (h, iListLen, n)
  | r :: rows =>
      if negb (RS_IS_ACTIVE (collectDataStatus r)) then
        form_loop rows iToday iInterval times pstList iListLen h n
      else
      let '(out, n) := RTC_Within_Period tz clk r n in
      if negb (out =? 0) then form_loop rows iToday iInterval times pstList iListLen h n else
      let '(ulSTime, ulETime, iFreq) := RTC_Get_Time_Frequency iToday r times in
      let times := (ulSTime, ulETime, iFreq) in
      let '(ulCTime, n) := RTC_Get_Current_Time tz clk n in
      if (ulSTime <? ulCTime) && (ulCTime <? ulETime) then
        '(h, iListLen, n) ← RTC_Add_Intervals_To_List r pstList iInterval iListLen h n;
        pstList ← to_end (S (size h)) h pstList;
        form_loop rows iToday iInterval times pstList iListLen h n
      else form_loop rows iToday iInterval times pstList iListLen h n
  end.

Definition Form_Linked_List (rows : list row) (pstList : Z) (h : heap) (n : nat)
    : outcome (heap * Z * nat) :=
  let '(iToday, n) := RTC_Find_Current_Day tz clk n in
  '(iInterval, n) ← RTC_Calc_Num_Nodes_Interval lw tz clk rows n;
  form_loop rows iToday iInterval (0, 0, 0) pstList 0 h n.

(** The loops of ListSort on the intervals; [pstStart] is the caller's node. *)
Definition Sort_Linked_List (h : heap) (pstStart : Z) : outcome heap :=
  '(h, _) ← sort_outer interval (S (size h)) h pstStart NULL;
  mret h.

End Making.

(** ** RTC_callback

    [clock t] are the readings of the clock during a call in second [t]. *)
Variable clock : Z -> nat -> Z.

(** The list is freed node by node. *)
Fixpoint free_loop (fuel : nat) (h : heap) (head : Z) : outcome heap :=
  match fuel with
  | O => OutOfFuel
  | S fuel =>
      nd ← load h head;
      h ← dispose h head;
      if next nd =? NULL then mret h else free_loop fuel h (next nd)
  end.

Definition free_list (s : rtc) : outcome rtc :=
  if gpstHeadList s =? NULL then mret s else
  h ← free_loop (S (size (nodes s))) (nodes s) (gpstHeadList s);
  mret (with_list h NULL s).

(** The pending alarms of the module are unregistered. *)
Definition cancel_alarms (s : rtc) : rtc :=
  let s := if negb (guiRTCReg1 s =? 0)
    then with_regs 0 (guiRTCReg2 s) (guiRTCReg3 s) (snmp_alarm_unregister (guiRTCReg1 s) s) else s in
  let s := if negb (guiRTCReg2 s =? 0)
    then with_regs (guiRTCReg1 s) 0 (guiRTCReg3 s) (snmp_alarm_unregister (guiRTCReg2 s) s) else s in
  if negb (guiRTCReg3 s =? 0)
  then with_regs (guiRTCReg1 s) (guiRTCReg2 s) 0 (snmp_alarm_unregister (guiRTCReg3 s) s) else s.

Definition RTC_callback (rows : list row) (t : Z) (s : rtc) : outcome rtc :=
  s ← free_list (cancel_alarms s);
  '(stList, h) ← calloc_node (nodes s);
  '(h, iLength, _) ← Form_Linked_List (clock t) rows stList h 0;
  if iLength =? 0 then
    let '(r, s) := snmp_alarm_register t RTC_IDLE_TIME Call_RTC_callback
                     (with_list h (gpstHeadList s) s) in
    h ← dispose (nodes s) stList;
    mret (with_list h (gpstHeadList s) (with_regs r (guiRTCReg2 s) (guiRTCReg3 s) s))
  else
    '(stNewHead, h) ← calloc_node h;
    h ← set_next h stNewHead stList;
    h ← Sort_Linked_List h stNewHead;
    nd ← load h stNewHead;
    h ← dispose h stNewHead;
    let s := with_list h (next nd) s in
    first ← load h (next nd);
    let '(r, s) := snmp_alarm_register t (interval (val first)) (Call_RTC_Collect (next nd)) s in
    mret (with_regs (guiRTCReg1 s) r (guiRTCReg3 s) s).

(** ** RTC_Collect_Store_Variables *)

(** The samples of one second; the last one stays at the head. *)
Fixpoint collect_loop (fuel : nat) (rows : list row) (t pstList : Z) (s : rtc) : outcome (Z * rtc) :=
  match fuel with
  | O => OutOfFuel
  | S fuel =>
      nd ← load (nodes s) pstList;
      if next nd =? NULL then mret (pstList, s) else
      nx ← load (nodes s) (next nd);
      s ← RTC_Retrieve_Log_Variable rows t (index (val nd)) s;
      if interval (val nd) =? interval (val nx) then
        h ← dispose (nodes s) pstList;
        collect_loop fuel rows t (next nd) (with_list h (next nd) s)
      else mret (pstList, s)
  end.

(** [free]: nothing for a null pointer. *)
Definition free_node (h : heap) (a : Z) : outcome heap :=
  if a =? NULL then mret h else dispose h a.

Definition RTC_Collect_Store_Variables (rows : list row) (t uiReg pClientArg : Z) (s : rtc)
    : outcome rtc :=
  let s :=
    if uiReg =? guiRTCReg2 s then with_regs (guiRTCReg1 s) 0 (guiRTCReg3 s) s
    else if uiReg =? guiRTCReg3 s then with_regs (guiRTCReg1 s) (guiRTCReg2 s) 0 s
    else s in
  '(pstList, s) ← collect_loop (S (size (nodes s))) rows t pClientArg s;
  nd ← load (nodes s) pstList;
  more ← (if next nd =? NULL then mret None
          else nx ← load (nodes s) (next nd);
               mret (if next nx =? NULL then None else Some nx));
  match more with
  | Some nx =>
      let seconds := I32 (interval (val nx) - interval (val nd)) in
      h ← dispose (nodes s) pstList;
      let s := with_list h (next nd) s in
      if giContextChanged s =? 0 then
        let '(r, s) := snmp_alarm_register t seconds (Call_RTC_Collect (next nd)) s in
        mret (with_regs (guiRTCReg1 s) (guiRTCReg2 s) r s)
      else RTC_callback rows t (with_changed 0 s)
  | None =>
      h ← dispose (nodes s) pstList;
      h ← free_node h (next nd);
      RTC_callback rows t (with_list h NULL s)
  end.

(** ** Alarms and commits *)

(** An iteration of [run_alarms]: the next alarm is called in its second and,
    unless it has gone, removed. *)
Definition run_alarm (rows : list row) (s : rtc) : outcome rtc :=
  match sa_find_next (thealarms s) None with
  | None => mret s
  | Some a =>
      s ← match thecallback a with
          | Call_RTC_callback => RTC_callback rows (due a) s
          | Call_RTC_Collect arg => RTC_Collect_Store_Variables rows (due a) (clientreg a) arg s
          | Call_RTC_Thread_Transfer_File => mret (RTC_Thread_Transfer_File (due a) s)
          end;
      mret (snmp_alarm_unregister (clientreg a) s)
  end.

(** A row was set: an idle collector starts at once. *)
Definition set_commit (rows : list row) (t : Z) (s : rtc) : outcome rtc :=
  if negb (guiRTCReg1 s =? 0) then RTC_callback rows t (with_changed 0 s)
  else mret (with_changed 1 s).

Definition log_start : logging := MkLog None 0 [] 0 1 false None [].
Definition rtc_start : rtc := MkRtc ∅ NULL 0 0 0 0 [] 1 [] log_start.
End Collect.
