(* ===== verification/CollectSpec.v ===== *)
(** * The plan of a period

    What the arithmetic of the collector comes to, for rows whose columns are in
    range and a clock that stands still during a call. *)

From S2P Require Import Prelude CTypes JobTime Collect.
From stdpp Require Import list.
#[local] Open Scope Z_scope.

(** ** Rows in range *)
Definition day_ok (d : weekday) : Prop :=
  0 <= d_StartTime d < 2 ^ 32 /\ 0 <= d_EndTime d < 2 ^ 32 /\ 0 <= d_Frequent d < 2 ^ 31.
Definition row_ok (r : row) : Prop :=
  day_ok (collectDataSun r) /\ day_ok (collectDataMon r) /\ day_ok (collectDataTue r) /\
  day_ok (collectDataWed r) /\ day_ok (collectDataThu r) /\ day_ok (collectDataFri r) /\
  day_ok (collectDataSat r).

#[export] Instance day_ok_dec d : Decision (day_ok d).
Proof. unfold day_ok. solve_decision. Defined.
#[export] Instance row_ok_dec r : Decision (row_ok r).
Proof. unfold row_ok. solve_decision. Defined.

(** The columns of a weekday, Sunday being 0. *)
Definition day_of (r : row) (wday : Z) : weekday :=
  nth (Z.to_nat wday)
    [collectDataSun r; collectDataMon r; collectDataTue r; collectDataWed r; collectDataThu r;
     collectDataFri r; collectDataSat r] (collectDataSun r).

Section Spec.
Variables tz T : Z.

(** The seconds since midnight and the weekday of second [T]. *)
Definition sec_of_day : Z := (T + tz) mod 86400.
Definition wday : Z := ((T + tz) / 86400 + 4) mod 7.

Definition start_of (r : row) : Z := d_StartTime (day_of r wday) / 100.
Definition end_of (r : row) : Z := d_EndTime (day_of r wday) / 100.
Definition period (r : row) : Z := d_Frequent (day_of r wday).

Definition in_dates (r : row) : bool :=
  (RTC_Convert_Date_To_Long tz (collectDataStartDate r) <=? T) &&
  (T <=? RTC_Convert_Date_To_Long tz (collectDataEndDate r)).

(** The row is active, the date in its period and the time inside its hours. *)
Definition row_due (r : row) : bool :=
  (collectDataStatus r =? 1) && in_dates r &&
  (start_of r <? sec_of_day) && (sec_of_day <? end_of r).

(** Seconds from now to the first sample. *)
Definition first_delay (r : row) : Z :=
  let d := period r - (sec_of_day - start_of r) mod period r in
  if d =? period r then 1 else d.

(** The number of samples of a row in an interval of [i] seconds. *)
Definition sample_count (i : Z) (r : row) : nat :=
  Nat.max 1 (Z.to_nat
    (if i + (first_delay r + sec_of_day) <? end_of r then i / period r
     else (end_of r - sec_of_day) / period r)).

(** The delays of the samples of a row. *)
Definition row_delays (i : Z) (r : row) : list Z :=
  map (fun k => first_delay r + Z.of_nat k * period r) (seq 0 (sample_count i r)).

Definition planned (r : row) : bool := row_due r && negb (period r =? 0).

(** All samples, by delay and row index. *)
Definition plan (i : Z) (rows : list row) : list (Z * Z) :=
  concat (map (fun r => map (fun d => (d, collectDataIndex r)) (row_delays i r))
              (filter (fun r => planned r = true) rows)).

(** ** The clock *)
Lemma seconds_localtime :
  tm_hour (localtime tz T) * 3600 + tm_min (localtime tz T) * 60 + tm_sec (localtime tz T) =
  sec_of_day.
Proof.
  unfold localtime, sec_of_day. destruct (civil_from_days _) as [[y m] d].
  cbn [tm_hour tm_min tm_sec]. Z.div_mod_to_equations. lia.
Qed.

Lemma wday_localtime : tm_wday (localtime tz T) = wday.
Proof. unfold localtime, wday. by destruct (civil_from_days _) as [[y m] d]. Qed.

Lemma wday_bounds : 0 <= wday < 7.
Proof. unfold wday. apply Z.mod_pos_bound. lia. Qed.
Lemma sec_range : 0 <= sec_of_day < 86400.
Proof. unfold sec_of_day. apply Z.mod_pos_bound. lia. Qed.

Lemma day_of_ok r w : row_ok r -> day_ok (day_of r w).
Proof.
  intros (?&?&?&?&?&?&?). unfold day_of. generalize (Z.to_nat w). intros n.
  do 7 (destruct n as [|n]; [done|]). by destruct n.
Qed.

Lemma row_ranges r : row_ok r ->
  0 <= start_of r <= 42949672 /\ 0 <= end_of r <= 42949672 /\ 0 <= period r < 2 ^ 31.
Proof.
  intros Hr. destruct (day_of_ok r wday Hr) as (? & ? & ?).
  unfold start_of, end_of, period. repeat split; Z.div_mod_to_equations; lia.
Qed.

Lemma Get_Time_Frequency_spec r old : row_ok r ->
  RTC_Get_Time_Frequency wday r old = (start_of r, end_of r, period r).
Proof.
  intros Hr. pose proof wday_bounds as Hw. pose proof (day_of_ok r wday Hr) as (_ & _ & Hf).
  unfold start_of, end_of, period in *.
  assert (wday = 0 \/ wday = 1 \/ wday = 2 \/ wday = 3 \/ wday = 4 \/ wday = 5 \/ wday = 6) as Hc by lia.
  unfold RTC_Get_Time_Frequency, CONVERT_TO_SEC.
  destruct Hc as [E|[E|[E|[E|[E|[E|E]]]]]]; rewrite E in *; unfold day_of in *; simpl in *;
    by rewrite I32_id by lia.
Qed.

Lemma first_delay_range r : 0 < period r -> 1 <= first_delay r <= period r.
Proof.
  intros Hp. unfold first_delay. pose proof (Z.mod_pos_bound (sec_of_day - start_of r) (period r) Hp).
  case_match; lia.
Qed.

(** No sample but the first is taken after the end of the hours or of the
    interval. *)
Lemma delay_bound i r k : 1 <= i -> 0 < period r ->
  (k < sample_count i r)%nat -> k <> O ->
  first_delay r + Z.of_nat k * period r <= Z.max i (end_of r - sec_of_day).
Proof.
  intros Hi Hp Hk Hk0. pose proof (first_delay_range r Hp). unfold sample_count in Hk.
  assert (Hk' : (Z.of_nat k + 1) * period r <= Z.max i (end_of r - sec_of_day)); [|lia].
  destruct (Z.ltb_spec (i + (first_delay r + sec_of_day)) (end_of r)).
  - assert (Z.of_nat k + 1 <= i / period r) by lia.
    pose proof (Z.mul_div_le i (period r) Hp). nia.
  - assert (Z.of_nat k + 1 <= (end_of r - sec_of_day) / period r) by lia.
    pose proof (Z.mul_div_le (end_of r - sec_of_day) (period r) Hp). nia.
Qed.

Lemma row_delays_range i r d : row_ok r -> 1 <= i <= 3600 -> 0 < period r ->
  d ∈ row_delays i r -> 1 <= d < 2 ^ 31 - 1.
Proof.
  intros Hr Hi Hp Hd. apply list_elem_of_In, in_map_iff in Hd as (k & <- & Hk%in_seq).
  pose proof (first_delay_range r Hp) as Hf. pose proof (row_ranges r Hr) as (? & ? & Hpr).
  pose proof sec_range. destruct (decide (k = O)) as [->|Hk0].
  - assert (first_delay r < 2 ^ 31 - 1); [|lia]. unfold first_delay in *.
    pose proof (Z.mod_pos_bound (sec_of_day - start_of r) (period r) Hp).
    destruct (Z.eqb_spec (period r - (sec_of_day - start_of r) mod period r) (period r)); lia.
  - pose proof (delay_bound i r k ltac:(lia) Hp ltac:(lia) Hk0). nia.
Qed.

(** ** Arithmetic of the code *)
Section Code.
Variables (lw : Z) (clk : nat -> Z).
Hypothesis Hlw : lw = 32 \/ lw = 64.
Hypothesis Hclk : forall n, clk n = T.

Lemma ul_id x : 0 <= x < 2 ^ 32 -> ul lw x = x.
Proof using Hlw.
  intros Hx. unfold ul. apply Z.mod_small.
  destruct Hlw as [-> | ->]; change (2 ^ 64) with (2 ^ 32 * 2 ^ 32); lia.
Qed.

Lemma init_delay_spec r : row_ok r -> 0 < period r -> start_of r < sec_of_day ->
  init_delay lw (period r) sec_of_day (start_of r) = first_delay r.
Proof using Hlw.
  intros Hr Hp Hs. pose proof (row_ranges r Hr) as (? & ? & ?). pose proof sec_range.
  unfold init_delay, first_delay. rewrite (ul_id (period r)), (ul_id (sec_of_day - start_of r)) by lia.
  pose proof (Z.mod_pos_bound (sec_of_day - start_of r) (period r) Hp).
  rewrite ul_id, I32_id by lia. done.
Qed.

Lemma Within_Period_spec r n :
  exists m, RTC_Within_Period tz clk r n = (if in_dates r then 0 else 1, m).
Proof using Hclk.
  unfold RTC_Within_Period, in_dates. rewrite Hclk.
  destruct (Z.ltb_spec (RTC_Convert_Date_To_Long tz (collectDataEndDate r))
                       (RTC_Convert_Date_To_Long tz (collectDataStartDate r))); [|eauto].
  exists n. destruct (Z.leb_spec (RTC_Convert_Date_To_Long tz (collectDataStartDate r)) T),
    (Z.leb_spec T (RTC_Convert_Date_To_Long tz (collectDataEndDate r))); done || lia.
Qed.

Lemma Current_Time_spec n : RTC_Get_Current_Time tz clk n = (sec_of_day, S n).
Proof using Hclk. unfold RTC_Get_Current_Time. by rewrite Hclk, seconds_localtime. Qed.
Lemma Current_Day_spec n : RTC_Find_Current_Day tz clk n = (wday, S n).
Proof using Hclk. unfold RTC_Find_Current_Day. by rewrite Hclk, wday_localtime. Qed.
End Code.
End Spec.
