(* ===== verification/CollectCalc.v ===== *)
(** * The interval for which samples are planned

    RTC_Calc_Num_Nodes_Interval ends, with an interval for which its estimate of
    the number of nodes is within the limit, or with one second. *)

From S2P Require Import Prelude CTypes JobTime Collect CollectSpec.
From stdpp Require Import list.
#[local] Open Scope Z_scope.

Section Calc.
Variables (tz T lw : Z) (clk : nat -> Z).
Hypothesis Hlw : lw = 32 \/ lw = 64.
Hypothesis Hclk : forall n, clk n = T.
Abbreviation C := (sec_of_day tz T).

(** Rows whose first sample comes too late are not counted. *)
Definition counted (r : row) : bool := planned tz T r && (first_delay tz T r + C <=? end_of tz T r).
Definition estimate (i : Z) (r : row) : Z :=
  1 + (if i + (first_delay tz T r + C) <? end_of tz T r then i / period tz T r
       else (end_of tz T r - (first_delay tz T r + C)) / period tz T r).

Fixpoint expected (i : Z) (rows : list row) : Z :=
  match rows with
  | [] => 0
  | r :: rows => (if counted r then estimate i r else 0) + expected i rows
  end.

Lemma expected_snoc i rows r :
  expected i (rows ++ [r]) = expected i rows + (if counted r then estimate i r else 0).
Proof. induction rows as [|x rows IH]; simpl; [lia|]. rewrite IH. lia. Qed.

(** The interval is halved until the samples of all rows are within the limit. *)
Fixpoint halve (k : nat) (i : Z) (rows : list row) : Z :=
  if expected i rows <=? RTC_MAX_LIST_NODES then i else
  match k with O => i | S k => halve k (i / 2) rows end.
Definition planned_interval (rows : list row) : Z := halve 11 INIT_INTERVAL rows.

Lemma halve_spec k i rows : 2 ^ Z.of_nat k <= i -> i < 2 ^ (Z.of_nat k + 1) ->
  1 <= halve k i rows <= i /\
  (expected (halve k i rows) rows <= RTC_MAX_LIST_NODES \/ halve k i rows = 1).
Proof.
  revert i. induction k as [|k IH]; intros i Hlo Hhi; cbn [halve].
  - assert (i = 1) as -> by (simpl in *; lia). case_match; lia.
  - rewrite Nat2Z.inj_succ, Z.pow_succ_r in Hlo by lia.
    rewrite Nat2Z.inj_succ, Z.add_succ_l, Z.pow_succ_r in Hhi by lia.
    destruct (Z.leb_spec (expected i rows) RTC_MAX_LIST_NODES); [lia|].
    destruct (IH (i / 2)) as [? ?]; [Z.div_mod_to_equations; lia..|].
    split; [|done]. Z.div_mod_to_equations. lia.
Qed.

Lemma planned_interval_range rows :
  1 <= planned_interval rows <= 3600 /\
  (expected (planned_interval rows) rows <= RTC_MAX_LIST_NODES \/ planned_interval rows = 1).
Proof. apply (halve_spec 11 INIT_INTERVAL); unfold INIT_INTERVAL; simpl; lia. Qed.

Lemma estimate_pos i r : row_ok r -> counted r = true -> 1 <= i -> 1 <= estimate i r.
Proof.
  intros Hr Hc Hi. unfold counted, planned in Hc. boolify.
  pose proof (row_ranges tz T r Hr) as (? & ? & ?).
  assert (period tz T r <> 0) by (apply Z.eqb_neq; done).
  assert (first_delay tz T r + C <= end_of tz T r) by (apply Z.leb_le; done).
  unfold estimate. case_match.
  - assert (0 <= i / period tz T r) by (apply Z.div_pos; lia). lia.
  - assert (0 <= (end_of tz T r - (first_delay tz T r + C)) / period tz T r)
      by (apply Z.div_pos; lia). lia.
Qed.

Lemma expected_app i rows1 rows2 : Forall row_ok rows2 -> 1 <= i ->
  expected i rows1 <= expected i (rows1 ++ rows2).
Proof.
  intros Hok Hi. induction rows1 as [|r rows1 IH]; simpl; [|lia].
  induction Hok as [|r rows Hr _ IH]; simpl; [lia|].
  destruct (counted r) eqn:Hc; [pose proof (estimate_pos i r Hr Hc Hi)|]; lia.
Qed.

(** A part of the rows can show that the interval is too long. *)
Lemma log2_half i : 2 <= i -> Z.log2 i = Z.log2 (i / 2) + 1.
Proof.
  intros Hi. pose proof (Z.log2_shiftr i 1 ltac:(lia)) as Hs1. rewrite Z.shiftr_div_pow2 in Hs1 by lia.
  change (2 ^ 1) with 2 in Hs1. assert (1 <= Z.log2 i) by (apply (Z.log2_le_mono 2); lia). lia.
Qed.

Lemma halve_next i all pre rest : 2 <= i -> all = pre ++ rest -> Forall row_ok rest ->
  RTC_MAX_LIST_NODES < expected i pre ->
  halve (Z.to_nat (Z.log2 i)) i all = halve (Z.to_nat (Z.log2 (i / 2))) (i / 2) all.
Proof.
  intros Hi -> Hrest Hbig. rewrite (log2_half i) by done. pose proof (Z.log2_nonneg (i / 2)).
  rewrite Z2Nat.inj_add, Nat.add_1_r by lia. cbn [halve].
  pose proof (expected_app i pre rest Hrest ltac:(lia)). by rewrite (proj2 (Z.leb_gt _ _)) by lia.
Qed.

(** What an iteration adds to the count. *)
Lemma estimate_code i r :
  row_ok r -> counted r = true -> 1 <= i <= 3600 ->
  ul lw (first_delay tz T r + C) = first_delay tz T r + C /\
  (if ul lw (i + (first_delay tz T r + C)) <? end_of tz T r then Z.quot i (period tz T r)
   else I32 (ul lw (end_of tz T r - (first_delay tz T r + C)) / ul lw (period tz T r))) =
  estimate i r - 1.
Proof using Hlw.
  intros Hr Hc Hi. unfold counted, planned in Hc. boolify.
  pose proof (row_ranges tz T r Hr) as (? & ? & ?). pose proof (sec_range tz T).
  assert (period tz T r <> 0) by (apply Z.eqb_neq; done).
  pose proof (first_delay_range tz T r ltac:(lia)).
  assert (first_delay tz T r + C <= end_of tz T r) by (apply Z.leb_le; done).
  rewrite !(ul_id lw Hlw) by lia. split; [done|]. unfold estimate. case_match.
  - rewrite Z.quot_div_nonneg by lia. lia.
  - rewrite I32_id; [lia|]. Z.div_mod_to_equations. nia.
Qed.

Lemma calc_loop_spec all fuel rest pre times cnt i n :
  Forall row_ok all -> all = pre ++ rest -> 1 <= i <= 3600 ->
  cnt = expected i pre -> cnt <= RTC_MAX_LIST_NODES \/ i = 1 ->
  (length rest + 1 + Z.to_nat (Z.log2 i) * (length all + 1) <= fuel)%nat ->
  exists m, calc_loop lw tz clk fuel (wday tz T) all rest times cnt i n =
            Ret (halve (Z.to_nat (Z.log2 i)) i all, m).
Proof using Hlw Hclk.
  intros Hok. revert rest pre times cnt i n.
  induction fuel as [|fuel IH]; intros rest pre times cnt i n Hall Hi Hcnt Hmax Hf; [lia|].
  destruct rest as [|r rest].
  { rewrite app_nil_r in Hall. subst. exists n. cbn [calc_loop]. do 2 f_equal.
    destruct Hmax as [Hmax| ->]; [|simpl; by case_match].
    destruct (Z.to_nat (Z.log2 i)); cbn [halve]; by rewrite (proj2 (Z.leb_le _ _) Hmax). }
  assert (Hall' : all = (pre ++ [r]) ++ rest) by (by rewrite <- app_assoc).
  assert (Hr : row_ok r).
  { rewrite Hall in Hok. apply Forall_app in Hok as [_ Hok]. by apply Forall_cons in Hok as [? _]. }
  assert (Hskip : forall times n, counted r = false -> exists m,
    calc_loop lw tz clk fuel (wday tz T) all rest times cnt i n =
      Ret (halve (Z.to_nat (Z.log2 i)) i all, m)).
  { intros. apply (IH rest (pre ++ [r])); try done; [|simpl in Hf; lia].
    rewrite expected_snoc. destruct (counted r); [done|lia]. }
  unfold counted, planned, row_due in Hskip. cbn [calc_loop]. unfold RS_IS_ACTIVE.
  destruct (collectDataStatus r =? 1) eqn:Hst; cbn [negb andb] in *; [|auto].
  destruct (Within_Period_spec tz T clk Hclk r n) as (m & ->).
  destruct (in_dates tz T r) eqn:Hd; cbn [negb andb] in *;
    [change (0 =? 0) with true|change (1 =? 0) with false]; cbn [negb]; [|auto].
  rewrite Get_Time_Frequency_spec by done.
  destruct (period tz T r =? 0) eqn:Hp; [rewrite andb_false_r in Hskip; auto|].
  rewrite (Current_Time_spec tz T clk Hclk). cbn [negb] in Hskip. rewrite andb_true_r in Hskip.
  destruct ((start_of tz T r <? C) && (C <? end_of tz T r)) eqn:Hse; [|auto]. cbn [andb] in Hskip.
  pose proof Hse as Hse'. apply andb_true_iff in Hse' as [Hs _]. apply Z.ltb_lt in Hs.
  apply Z.eqb_neq in Hp. pose proof (row_ranges tz T r Hr) as (? & ? & ?).
  pose proof (sec_range tz T). pose proof (first_delay_range tz T r ltac:(lia)).
  rewrite (init_delay_spec tz T lw Hlw) by (done || lia).
  rewrite (ul_id lw Hlw (first_delay tz T r + C)) by lia. rewrite Z.ltb_antisym.
  destruct (first_delay tz T r + C <=? end_of tz T r) eqn:Hle; cbn [negb]; [|auto].
  assert (Hcounted : counted r = true).
  { unfold counted, planned, row_due. rewrite Hst, Hd, Hle. cbn [andb]. rewrite Hse.
    by rewrite (proj2 (Z.eqb_neq _ _) Hp). }
  destruct (estimate_code i r Hr Hcounted Hi) as [_ Hest].
  assert (Hsum : (if ul lw (i + (first_delay tz T r + C)) <? end_of tz T r
      then cnt + 1 + Z.quot i (period tz T r)
      else cnt + 1 + I32 (ul lw (end_of tz T r - (first_delay tz T r + C)) / ul lw (period tz T r))) =
    expected i (pre ++ [r])).
  { rewrite expected_snoc, Hcounted, Hcnt. revert Hest. destruct (ul lw (i + _) <? _); lia. }
  rewrite Hsum. destruct (Z.ltb_spec RTC_MAX_LIST_NODES (expected i (pre ++ [r]))) as [Hbig|Hsmall];
    [|apply (IH rest (pre ++ [r])); auto; simpl in Hf; lia].
  destruct (Z.eqb_spec i 1) as [->|Hi1]; cbn [andb negb].
  { apply (IH rest (pre ++ [r])); auto. cbn [length] in Hf. lia. }
  rewrite Z.quot_div_nonneg by lia. pose proof (log2_half i ltac:(lia)) as Hlog.
  assert (Hrest : Forall row_ok rest) by (rewrite Hall' in Hok; by apply Forall_app in Hok as [_ ?]).
  rewrite (halve_next i all (pre ++ [r]) rest) by (done || lia).
  assert (1 <= i / 2 <= 3600) by (Z.div_mod_to_equations; lia).
  apply (IH all []); [done|done|done|by left|].
  pose proof (Z.log2_nonneg (i / 2)). rewrite Hlog, Z2Nat.inj_add in Hf by lia. simpl in Hf. lia.
Qed.

Lemma Calc_spec rows n : Forall row_ok rows ->
  exists m, RTC_Calc_Num_Nodes_Interval lw tz clk rows n = Ret (planned_interval rows, m).
Proof using Hlw Hclk.
  intros Hok. unfold RTC_Calc_Num_Nodes_Interval. rewrite (Current_Day_spec tz T clk Hclk).
  apply (calc_loop_spec rows _ rows []); try done.
  - by left.
  - change (Z.log2 INIT_INTERVAL) with 11. lia.
Qed.

(** A row needs at most as many nodes as were counted, or one. *)
Lemma sample_count_bound i r : row_ok r -> planned tz T r = true -> 1 <= i <= 3600 ->
  Z.of_nat (sample_count tz T i r) <= (if counted r then estimate i r else 0) + 1 /\
  (counted r = true -> Z.of_nat (sample_count tz T i r) <= estimate i r).
Proof.
  intros Hr Hp Hi. pose proof (row_ranges tz T r Hr) as (? & ? & ?). pose proof (sec_range tz T).
  pose proof Hp as Hp'. unfold planned, row_due in Hp'. boolify.
  assert (Hp0 : period tz T r <> 0) by (apply Z.eqb_neq; done).
  pose proof (first_delay_range tz T r ltac:(lia)).
  set (F := period tz T r) in *. set (d := first_delay tz T r) in *. set (E := end_of tz T r) in *.
  assert (HCE : C < E) by (apply Z.ltb_lt; done).
  assert (Hdiv : 0 <= i / F) by (apply Z.div_pos; lia).
  assert (Hc : counted r = true -> Z.of_nat (sample_count tz T i r) <= estimate i r).
  { unfold counted. rewrite Hp. cbn [andb]. intros Hle%Z.leb_le. fold d E in Hle.
    unfold estimate, sample_count. fold F d E.
    assert (0 <= (E - (d + C)) / F) by (apply Z.div_pos; lia).
    assert ((E - C) / F <= (E - (d + C)) / F + 1).
    { replace ((E - (d + C)) / F + 1) with ((E - (d + C) + 1 * F) / F) by (by rewrite Z.div_add).
      apply Z.div_le_mono; lia. }
    case_match; lia. }
  split; [|done]. destruct (counted r) eqn:Hcr; [specialize (Hc eq_refl); lia|].
  unfold counted in Hcr. rewrite Hp in Hcr. cbn [andb] in Hcr. apply Z.leb_gt in Hcr. fold d E in Hcr.
  unfold sample_count. fold F d E. rewrite (proj2 (Z.ltb_ge _ _)) by lia.
  rewrite Z.div_small by lia. simpl. lia.
Qed.
End Calc.
