(* ===== verification/CollectForm.v ===== *)
(** * The list of samples in the heap

    The functions that make the list, as operations on the chain of all live
    nodes. *)

From S2P Require Import Prelude Heap ListSort CTypes JobTime Collect CollectSpec.
From S2P Require Import CollectCalc.
From stdpp Require Import list.
From Stdlib Require Import Sorted.

#[local] Open Scope Z_scope.

Abbreviation item := (Z * RTC_List)%type.

Lemma set_node_chain h a l1 p v w l2 : chain h a (l1 ++ (p, v) :: l2) ->
  exists h', set_node h p w = Ret h' /\ chain h' a (l1 ++ (p, w) :: l2).
Proof.
  intros Hc. unfold set_node. rewrite (chain_load _ _ _ _ _ _ Hc), outcome_bind_ret.
  eexists. split; [done|]. by apply (chain_update _ _ _ _ v).
Qed.

Section List.
Context `{Allocator}.
Hypothesis Hmalloc : malloc_total.

Lemma calloc_fresh (h : heap) : exists a, calloc_node h = Ret (a, <[a := Node (MkList 0 0) NULL]> h) /\
  0 < a /\ a ∉ dom h.
Proof using Hmalloc.
  unfold calloc_node. destruct (malloc_spec (dom h)) as [Hn|[Ha Hd]]; [by destruct (Hmalloc _ Hn)|].
  rewrite (proj2 (Z.eqb_neq _ _) (Hmalloc _)). by exists (malloc (dom h)).
Qed.

Lemma add_behind_chain h a l p v : chain h a (l ++ [(p, v)]) ->
  exists b h', add_behind h p = Ret (b, h') /\ chain h' a (l ++ [(p, v); (b, MkList 0 0)]).
Proof using Hmalloc.
  intros Hc. destruct (calloc_fresh h) as (b & Hb & Hb0 & Hfresh). unfold add_behind.
  rewrite Hb, outcome_bind_ret. destruct (chain_at _ _ _ _ _ _ Hc) as [Hp Hh].
  assert (Hpb : p <> b) by (intros ->; apply Hfresh; by apply elem_of_dom_2 in Hh).
  erewrite set_next_Some; [|done|by rewrite lookup_insert_ne].
  rewrite outcome_bind_ret. do 2 eexists. split; [done|].
  apply (chain_insert _ _ _ _ _ _ _ [] Hc); [unfold NULL; lia|done].
Qed.

(** ** The samples of a row *)
Lemma add_loop_chain k h a l p v d F idx len :
  chain h a (l ++ [(p, v)]) -> 0 <= F ->
  (forall j, (j < k)%nat -> 0 <= d + Z.of_nat j * F < 2 ^ 31) ->
  exists h' l2 q w, add_loop k h p d F idx len = Ret (h', q, len + Z.of_nat k) /\
    chain h' a (l ++ l2 ++ [(q, w)]) /\ hd_addr (l2 ++ [(q, w)]) = p /\
    (l2 ++ [(q, w)]).*2 = v :: map (fun j => MkList (d + Z.of_nat j * F) idx) (seq 0 k).
Proof using Hmalloc.
  revert h l p v d len. induction k as [|k IH]; intros h l p v d len Hc HF Hd.
  { exists h, [], p, v. simpl. rewrite Z.add_0_r. done. }
  destruct (add_behind_chain _ _ _ _ _ Hc) as (b & h1 & Hb & Hc1). cbn [add_loop].
  rewrite Hb, outcome_bind_ret.
  rewrite (cons_middle _ _ [_]), app_assoc in Hc1.
  destruct (set_node_chain _ _ _ _ _ (MkList d idx) _ Hc1) as (h2 & -> & Hc2). rewrite outcome_bind_ret.
  assert (Hd0 : 0 <= d < 2 ^ 31) by (specialize (Hd 0%nat); lia).
  assert (Hnext : k = O \/ I32 (d + F) = d + F).
  { destruct k; [by left|right]. specialize (Hd 1%nat). apply I32_id. lia. }
  destruct (IH h2 (l ++ [(p, v)]) b (MkList d idx) (I32 (d + F)) (len + 1) Hc2 HF)
    as (h' & l2 & q & w & Hq & Hc' & _ & Hv).
  { intros j Hj. destruct Hnext as [->| ->]; [lia|]. specialize (Hd (S j)). lia. }
  exists h', ((p, v) :: l2), q, w. rewrite Hq. split_and!.
  - do 2 f_equal. lia.
  - by rewrite <- app_assoc in Hc'.
  - done.
  - cbn [app]. csimpl. rewrite Hv. do 2 f_equal; [f_equal; lia|]. rewrite <- (seq_shift k 0), map_map.
    destruct Hnext as [->| ->]; [done|]. apply map_ext. intros j. f_equal. lia.
Qed.

Lemma to_end_chain l2 fuel h a l1 p v : chain h a (l1 ++ (p, v) :: l2) -> (length l2 < fuel)%nat ->
  to_end fuel h p = Ret (last_addr ((p, v) :: l2)).
Proof.
  revert fuel l1 p v. induction l2 as [|[q w] l2 IH]; intros fuel l1 p v Hc Hf;
    (destruct fuel as [|fuel]; [simpl in Hf; lia|]); cbn [to_end];
    rewrite (chain_load _ _ _ _ _ _ Hc), outcome_bind_ret; cbn [next hd_addr].
  - done.
  - rewrite (proj2 (Z.eqb_neq _ _) (chain_next _ _ _ _ _ _ _ _ Hc)).
    rewrite cons_middle, app_assoc in Hc. rewrite (IH fuel _ q w Hc) by (simpl in Hf; lia).
    reflexivity.
Qed.

End List.

(** * The list of a plan

    Form_Linked_List makes a node for every sample of the plan, in the order of
    the rows, and one that marks the end. *)

#[local] Open Scope Z_scope.

Definition last_node : RTC_List := MkList 2147483647 65537.
Definition nodes_of (l : list (Z * Z)) : list RTC_List := map (fun x => MkList x.1 x.2) l.

Lemma nodes_of_app l1 l2 : nodes_of (l1 ++ l2) = nodes_of l1 ++ nodes_of l2.
Proof. apply map_app. Qed.

Section Form.
Context `{Allocator}.
Hypothesis Hmalloc : malloc_total.
Variables (tz T lw : Z) (clk : nat -> Z).
Hypothesis Hlw : lw = 32 \/ lw = 64.
Hypothesis Hclk : forall n, clk n = T.
Abbreviation C := (sec_of_day tz T).

Definition row_plan (i : Z) (r : row) : list (Z * Z) :=
  map (fun d => (d, collectDataIndex r)) (row_delays tz T i r).

Lemma plan_cons i r rows :
  plan tz T i (r :: rows) = (if planned tz T r then row_plan i r else []) ++ plan tz T i rows.
Proof.
  unfold plan. rewrite filter_cons. destruct (planned tz T r); [|done].
  by rewrite decide_True by done.
Qed.

Lemma row_plan_nonempty i r : row_plan i r <> [].
Proof.
  unfold row_plan, row_delays, sample_count. destruct (Nat.max 1 _) eqn:E; [lia|]. done.
Qed.

(** The count of the code, less the node that is there already. *)
Lemma count_code i r : row_ok r -> 0 < period tz T r -> C < end_of tz T r -> 1 <= i <= 3600 ->
  let iCnt :=
    if ul lw (i + ul lw (first_delay tz T r + C)) <? end_of tz T r then Z.quot i (period tz T r)
    else I32 (ul lw (end_of tz T r - C) / ul lw (period tz T r)) in
  Z.to_nat (if 0 <? iCnt then iCnt - 1 else iCnt) = (sample_count tz T i r - 1)%nat.
Proof using Hlw.
  intros Hr Hp HE Hi. pose proof (row_ranges tz T r Hr) as (? & ? & ?). pose proof (sec_range tz T).
  pose proof (first_delay_range tz T r Hp).
  rewrite (ul_id lw Hlw (first_delay tz T r + C)), !(ul_id lw Hlw) by lia.
  assert (0 <= i / period tz T r) by (apply Z.div_pos; lia).
  assert (0 <= (end_of tz T r - C) / period tz T r <= end_of tz T r - C).
  { split; [apply Z.div_pos; lia|]. apply Z.div_le_upper_bound; nia. }
  rewrite Z.quot_div_nonneg, I32_id by lia. cbv zeta. unfold sample_count.
  destruct (_ <? end_of tz T r); case_match; lia.
Qed.

Lemma Add_chain i r h a l p v len n :
  chain h a (l ++ [(p, v)]) -> row_ok r -> planned tz T r = true -> 1 <= i <= 3600 ->
  exists h' v' l2 z m, RTC_Add_Intervals_To_List lw tz clk r p i len h n =
      Ret (h', len + Z.of_nat (length (row_plan i r)), m) /\
    chain h' a (l ++ ((p, v') :: l2) ++ [(z, last_node)]) /\
    ((p, v') :: l2).*2 = nodes_of (row_plan i r).
Proof using All.
  intros Hc Hr Hpl Hi. unfold planned, row_due in Hpl. boolify.
  pose proof (row_ranges tz T r Hr) as (? & ? & ?). pose proof (sec_range tz T).
  assert (Hp : period tz T r <> 0) by (apply Z.eqb_neq; done).
  assert (HCE : C < end_of tz T r) by (apply Z.ltb_lt; done).
  unfold RTC_Add_Intervals_To_List.
  rewrite (Current_Day_spec tz T clk Hclk), Get_Time_Frequency_spec by done.
  rewrite (proj2 (Z.eqb_neq _ _) Hp), (Current_Time_spec tz T clk Hclk).
  rewrite (init_delay_spec tz T lw Hlw) by (done || lia || by apply Z.ltb_lt).
  destruct (set_node_chain h a l p v (MkList (first_delay tz T r) (collectDataIndex r)) [] Hc)
    as (h1 & -> & Hc1). rewrite outcome_bind_ret.
  rewrite (count_code i r Hr ltac:(lia) HCE Hi).
  set (k := (sample_count tz T i r - 1)%nat).
  assert (Hk : sample_count tz T i r = S k) by (unfold k, sample_count; lia).
  set (d := I32 (period tz T r + first_delay tz T r)).
  assert (Hd : k <> O -> d = period tz T r + first_delay tz T r).
  { intros Hk0. apply I32_id. pose proof (first_delay_range tz T r ltac:(lia)).
    pose proof (row_delays_range tz T i r (first_delay tz T r + Z.of_nat 1 * period tz T r) Hr Hi
      ltac:(lia)) as Hx.
    assert (1 <= first_delay tz T r + Z.of_nat 1 * period tz T r < 2 ^ 31 - 1); [|lia].
    apply Hx. apply list_elem_of_In, in_map_iff. exists 1%nat. split; [done|]. apply in_seq. lia. }
  destruct (add_loop_chain Hmalloc k h1 a l p _ d (period tz T r) (collectDataIndex r) (len + 1) Hc1)
    as (h2 & l2 & q & w & -> & Hc2 & Hhd & Hv); [lia| |].
  { intros j Hj. rewrite Hd by lia.
    assert (1 <= first_delay tz T r + Z.of_nat (S j) * period tz T r < 2 ^ 31 - 1); [|lia].
    apply (row_delays_range tz T i r); [done|done|lia|].
    apply list_elem_of_In, in_map_iff. exists (S j). split; [done|]. apply in_seq. lia. }
  rewrite outcome_bind_ret. rewrite app_assoc in Hc2.
  destruct (add_behind_chain Hmalloc _ _ _ _ _ Hc2) as (z & h3 & -> & Hc3). rewrite outcome_bind_ret.
  rewrite (cons_middle _ _ [_]), app_assoc in Hc3.
  change (MkList 2147483647 65537) with last_node.
  destruct (set_node_chain _ _ _ _ _ last_node _ Hc3) as (h4 & -> & Hc4). rewrite outcome_bind_ret.
  destruct (chain_at _ _ _ _ _ _ Hc4) as [Hz Hz4].
  rewrite (set_next_Some _ _ _ _ _ Hz Hz4), insert_id by done. rewrite outcome_bind_ret.
  destruct (l2 ++ [(q, w)]) as [|[p' v'] l3] eqn:El; [by destruct l2|]. simpl in Hhd. subst p'.
  exists h4, v', l3, z, (S (S n)). split_and!.
  - do 3 f_equal. unfold row_plan, row_delays. rewrite !length_map, length_seq, Hk. lia.
  - rewrite <- (app_assoc l l2), El, <- app_assoc in Hc4. done.
  - rewrite Hv. unfold nodes_of, row_plan, row_delays. rewrite Hk, !map_map. cbn [seq map]. f_equal.
    + f_equal. simpl. lia.
    + rewrite <- (seq_shift k 0), map_map. destruct (decide (k = O)) as [->|Hk0]; [done|].
      rewrite Hd by done. apply map_ext. intros j. simpl. f_equal. lia.
Qed.

(** The rest of the rows, from the last node of the chain. *)
Lemma form_loop_chain i rows times h a l p v len n :
  chain h a (l ++ [(p, v)]) -> Forall row_ok rows -> 1 <= i <= 3600 ->
  exists h' l2 z m, form_loop lw tz clk rows (wday tz T) i times p len h n =
      Ret (h', len + Z.of_nat (length (plan tz T i rows)), m) /\
    chain h' a (l ++ l2 ++ [(z, if decide (plan tz T i rows = []) then v else last_node)]) /\
    l2.*2 = nodes_of (plan tz T i rows).
Proof using All.
  intros Hc Hok Hi. revert h l p v len n times Hc.
  induction Hok as [|r rows Hr Hok IH]; intros h l p v len n times Hc.
  { exists h, [], p, n. simpl. rewrite Z.add_0_r. by split_and!. }
  cbn [form_loop]. unfold RS_IS_ACTIVE.
  assert (Hskip : forall times n, planned tz T r = false -> exists h' l2 z m,
    form_loop lw tz clk rows (wday tz T) i times p len h n =
      Ret (h', len + Z.of_nat (length (plan tz T i (r :: rows))), m) /\
    chain h' a (l ++ l2 ++ [(z, if decide (plan tz T i (r :: rows) = []) then v else last_node)]) /\
    l2.*2 = nodes_of (plan tz T i (r :: rows))).
  { intros times' n' Hp. rewrite plan_cons, Hp. cbn [app]. by apply IH. }
  pose proof (Add_chain i r h a l p v len) as Hadd.
  unfold planned, row_due in Hskip, Hadd.
  destruct (collectDataStatus r =? 1) eqn:Hst; cbn [negb andb] in *; [|by apply Hskip].
  destruct (Within_Period_spec tz T clk Hclk r n) as (m & ->).
  destruct (in_dates tz T r) eqn:Hd; cbn [andb] in *;
    [change (0 =? 0) with true|change (1 =? 0) with false]; cbn [negb]; [|by apply Hskip].
  rewrite Get_Time_Frequency_spec by done. rewrite (Current_Time_spec tz T clk Hclk).
  destruct ((start_of tz T r <? C) && (C <? end_of tz T r)) eqn:Hse; [|by apply Hskip].
  destruct (period tz T r =? 0) eqn:Hp; cbn [negb andb] in *.
  { unfold RTC_Add_Intervals_To_List. rewrite (Current_Day_spec tz T clk Hclk), Get_Time_Frequency_spec by done.
    rewrite Hp, outcome_bind_ret, (to_end_chain [] _ _ _ _ _ _ Hc) by (simpl; lia).
    rewrite outcome_bind_ret. by apply Hskip. }
  destruct (Hadd (S m) Hc Hr eq_refl Hi) as (h1 & v1 & l2 & z & m1 & -> & Hc1 & Hv1).
  rewrite outcome_bind_ret. pose proof (chain_size _ _ _ Hc1) as Hsz.
  cbn [app] in Hc1. rewrite (to_end_chain _ _ _ _ _ _ _ Hc1).
  2: { rewrite Hsz, length_app. cbn [length]. rewrite !length_app. cbn [length]. lia. }
  rewrite outcome_bind_ret, app_comm_cons, last_addr_snoc. rewrite app_comm_cons, app_assoc in Hc1.
  destruct (IH h1 (l ++ (p, v1) :: l2) z last_node (len + Z.of_nat (length (row_plan i r))) m1
              (start_of tz T r, end_of tz T r, period tz T r) Hc1)
    as (h' & l3 & z' & m' & -> & Hc' & Hv3).
  rewrite plan_cons. unfold planned, row_due. rewrite Hst, Hd, Hp. cbn [negb andb]. rewrite Hse. cbn [andb].
  exists h', (((p, v1) :: l2) ++ l3), z', m'. split_and!.
  - do 3 f_equal. rewrite length_app. lia.
  - rewrite <- (app_assoc l) in Hc'. rewrite <- (app_assoc ((p, v1) :: l2)).
    rewrite (decide_False (P := row_plan i r ++ _ = _)); [by destruct (decide _)|].
    intros [Hn _]%app_eq_nil. by apply (row_plan_nonempty i r).
  - by rewrite fmap_app, Hv1, Hv3, nodes_of_app.
Qed.

(** Form_Linked_List on a single fresh node. *)
Abbreviation now_plan rows := (plan tz T (planned_interval tz T rows) rows).

Lemma Form_spec rows h a v n :
  chain h a [(a, v)] -> Forall row_ok rows ->
  exists h' l z m, Form_Linked_List lw tz clk rows a h n =
      Ret (h', Z.of_nat (length (now_plan rows)), m) /\
    chain h' a (l ++ [(z, if decide (now_plan rows = []) then v else last_node)]) /\
    l.*2 = nodes_of (now_plan rows).
Proof using All.
  intros Hc Hok. unfold Form_Linked_List. rewrite (Current_Day_spec tz T clk Hclk).
  destruct (Calc_spec tz T lw clk Hlw Hclk rows (S n) Hok) as (m & ->). rewrite outcome_bind_ret.
  destruct (planned_interval_range tz T rows) as [HI _].
  destruct (form_loop_chain (planned_interval tz T rows) rows (0, 0, 0) h a [] a v 0 m Hc Hok HI)
    as (h' & l & z & m' & -> & Hc' & Hv).
  by exists h', l, z, m'.
Qed.
End Form.
