(* ===== verification/CollectRefine.v ===== *)
(** * The collector without its pointers

    What the collector promises: it waits for the next attempt to make a plan,
    or works through the samples of one; after the last sample, and after a
    change of the rows, a new plan is made. *)

From S2P Require Import Prelude CTypes Collect CollectSpec CollectCalc Heap ListSort JobTime.
From S2P Require Import CollectForm.
From stdpp Require Import list sorting.
From Stdlib Require Import Sorted.

#[local] Open Scope Z_scope.

(** A sample: seconds after the second of the plan, and the index of the row. *)
Abbreviation sample := (Z * Z)%type.

Fixpoint insert_sample (x : sample) (l : list sample) : list sample :=
  match l with
  | [] => [x]
  | y :: l' => if x.1 <=? y.1 then x :: l else y :: insert_sample x l'
  end.
Definition sort_plan (l : list sample) : list sample := foldr insert_sample [] l.

(** The samples that are due together with one at [d], and the others. *)
Fixpoint split_group (d : Z) (l : list sample) : list Z * list sample :=
  match l with
  | (d', i) :: l' =>
      if d =? d' then let '(g, rest) := split_group d l' in (i :: g, rest) else ([], l)
  | [] => ([], [])
  end.

Inductive doing :=
| Idle (next_try : Z)
| Collecting (base : Z) (todo : list sample).

Record collector := MkCollector {
  activity : doing;
  rows_changed : bool;
  taken : list (Z * Z)  (* second and row index of the variables read *)
}.

Definition due_at (d : doing) : Z :=
  match d with
  | Idle t => t
  | Collecting base todo => base + match todo with [] => 0 | (d, _) :: _ => d end
  end.

(** The text of a value that was fetched fits the array of RTC_Retrieve_Log_Variable. *)
Definition value_fits (v : variable_answer) : Prop :=
  exists e val, RTC_Fetch_Var_Val v = Ret (e, val) /\ Z.of_nat (length val) < 80.
Definition fetched (v : variable_answer) : bool :=
  match RTC_Fetch_Var_Val v with Ret (e, _) => e =? 0 | _ => false end.

Section Abs.
Context `{Agent}.
Variable tz : Z.

(** The table has the row and the agent a value for its variable. *)
Definition readable (rows : list row) (x : Z * Z) : bool :=
  match find_row rows x.2 with Some r => fetched (find_var x.1 r) | None => false end.

(** A row in range, with texts that fit. *)
Definition row_fits (r : row) : Prop :=
  row_ok r /\ Z.of_nat (length (var_text r)) < MAX_OID_LEN /\ forall t, value_fits (find_var t r).

(** The settings name a file that fits, and the default one can be opened. *)
Definition files_open : Prop := forall t,
  (length (gcInfoLogFileSystemData (conf t)) <= 252)%nat /\ fopen_ok t RTC_DEFAULT_LOGFILE = true.

Definition plan_at (T : Z) (rows : list row) : list sample :=
  sort_plan (plan tz T (planned_interval tz T rows) rows).

Definition replan (rows : list row) (t : Z) : doing :=
  match plan_at t rows with
  | [] => Idle (t + RTC_IDLE_TIME)
  | todo => Collecting t todo
  end.

(** The alarm of the collector goes off. *)
Definition abs_alarm (rows : list row) (a : collector) : collector :=
  match activity a with
  | Idle t => MkCollector (replan rows t) (rows_changed a) (taken a)
  | Collecting base [] => a
  | Collecting base ((d, i) :: todo) =>
      let t := base + d in
      let '(group, rest) := split_group d todo in
      let taken' := taken a ++ List.filter (readable rows) (map (fun j => (t, j)) (i :: group)) in
      match rest with
      | [] => MkCollector (replan rows t) (rows_changed a) taken'
      | _ => if rows_changed a then MkCollector (replan rows t) false taken'
             else MkCollector (Collecting base rest) false taken'
      end
  end.

(** A row is set at second [t]. *)
Definition abs_commit (rows : list row) (t : Z) (a : collector) : collector :=
  match activity a with
  | Idle _ => MkCollector (replan rows t) false (taken a)
  | Collecting _ _ => MkCollector (activity a) true (taken a)
  end.

(** The start of the agent. *)
Definition abs_init (rows : list row) (t : Z) : collector := MkCollector (replan rows t) false [].
End Abs.

(** ** Facts *)
Definition sample_le (x y : sample) : Prop := x.1 <= y.1.

Lemma insert_sample_Permutation x l : insert_sample x l ≡ₚ x :: l.
Proof.
  induction l as [|y l IH]; simpl; [done|]. case_match; [done|]. rewrite IH. constructor.
Qed.

Lemma sort_plan_Permutation l : sort_plan l ≡ₚ l.
Proof.
  induction l as [|x l IH]; [done|]. change (sort_plan (x :: l)) with (insert_sample x (sort_plan l)).
  by rewrite insert_sample_Permutation, IH.
Qed.

Lemma sort_plan_sorted l : StronglySorted sample_le (sort_plan l).
Proof.
  induction l as [|x l IH]; [constructor|].
  change (sort_plan (x :: l)) with (insert_sample x (sort_plan l)).
  induction IH as [|y l' Hs IHs Hall]; simpl; [repeat constructor|].
  destruct (Z.leb_spec x.1 y.1).
  - constructor; [by constructor|]. constructor; [done|].
    eapply Forall_impl; [exact Hall|]. unfold sample_le. simpl. lia.
  - constructor; [done|]. rewrite insert_sample_Permutation. constructor; [unfold sample_le; lia|done].
Qed.

Lemma split_group_app d l : map (fun i => (d, i)) (split_group d l).1 ++ (split_group d l).2 = l.
Proof.
  induction l as [|[d' i] l IH]; [done|]. simpl. destruct (Z.eqb_spec d d') as [->|]; [|done].
  destruct (split_group d' l) as [g rest]. simpl in *. by rewrite IH.
Qed.

Lemma split_group_rest d l d' i rest : (split_group d l).2 = (d', i) :: rest -> d <> d'.
Proof.
  induction l as [|[d1 i1] l IH]; [done|]. simpl. destruct (Z.eqb_spec d d1) as [->|]; [|by intros [= <- <- <-]].
  destruct (split_group d1 l) as [g r]. done.
Qed.

Lemma plan_at_nil tz T rows :
  plan_at tz T rows = [] <-> plan tz T (planned_interval tz T rows) rows = [].
Proof.
  unfold plan_at. split; intros Hp.
  - apply Permutation_nil. by rewrite <- Hp, sort_plan_Permutation.
  - by rewrite Hp.
Qed.

(** * The collector implements its specification

    First the handlers on the chain of nodes, then the refinement. *)

#[local] Open Scope Z_scope.

(** ** Lists of samples *)
Abbreviation isort := (ListSort.isort interval).

Lemma isort_values (l : list item) p : l.*2 = nodes_of p -> (isort l).*2 = nodes_of (sort_plan p).
Proof.
  assert (Hins : forall x (l : list item) q p, x.2 = MkList q.1 q.2 -> l.*2 = nodes_of p ->
    (insert_item interval x l).*2 = nodes_of (insert_sample q p)).
  { intros x l' q p' Hx. revert p'. induction l' as [|y l' IH]; intros [|q' p'] Hl; try done.
    - simpl. by rewrite Hx.
    - injection Hl as Hy Hl. simpl. unfold key. rewrite Hx, Hy. simpl.
      case_match; unfold nodes_of; csimpl; repeat f_equal; try done. by apply IH. }
  revert p. induction l as [|x l IH]; intros [|q p] Hl; try done.
  injection Hl as Hx Hl. apply Hins; auto.
Qed.

Lemma isort_snoc (l : list item) x :
  Forall (fun y => key interval y <= key interval x) l -> isort (l ++ [x]) = isort l ++ [x].
Proof.
  induction 1 as [|y l Hy Hl IH]; [done|].
  change (isort (y :: l)) with (insert_item interval y (isort l)).
  change (isort ((y :: l) ++ [x])) with (insert_item interval y (isort (l ++ [x]))).
  rewrite IH. clear IH. induction (isort l) as [|z l' IH]; simpl.
  - by rewrite (proj2 (Z.leb_le _ _) Hy).
  - case_match; [done|]. by rewrite IH.
Qed.

Lemma free_loop_chain l fuel h a p v : chain h a ((p, v) :: l) -> (length l < fuel)%nat ->
  free_loop fuel h p = Ret ∅.
Proof.
  revert fuel h a p v. induction l as [|[q w] l IH]; intros fuel h a p v Hc Hf;
    (destruct fuel as [|fuel]; [simpl in Hf; lia|]); cbn [free_loop];
    rewrite (chain_load _ _ [] _ _ _ Hc), outcome_bind_ret;
    destruct (chain_dispose _ _ _ _ _ Hc) as [-> Hc']; rewrite outcome_bind_ret; cbn [next hd_addr].
  - apply chain_empty in Hc' as [-> _]. done.
  - rewrite (proj2 (Z.eqb_neq _ _) (chain_next _ _ [] _ _ _ _ _ Hc)).
    apply (IH fuel _ _ _ _ Hc'). simpl in Hf. lia.
Qed.

Lemma free_list_chain s l : chain (nodes s) (gpstHeadList s) l ->
  free_list s = Ret (with_list ∅ NULL s).
Proof.
  intros Hc. unfold free_list. destruct l as [|[p v] l].
  - apply chain_empty in Hc as [Hn Hh]. rewrite Hh. destruct s. simpl in *. by subst.
  - pose proof (chain_at _ _ [] _ _ _ Hc) as [Hp _].
    assert (gpstHeadList s = p) as -> by apply Hc.
    rewrite (proj2 (Z.eqb_neq _ _) Hp), (free_loop_chain l _ _ _ _ _ Hc); [done|].
    rewrite (chain_size _ _ _ Hc). simpl. lia.
Qed.

Section Proofs.
Context `{Allocator}.
Hypothesis Hmalloc : malloc_total.

(** A new node in front. *)
Lemma cons_chain h a l : chain h a l ->
  exists b h', calloc_node h = Ret (b, h') /\
    exists h'', set_next h' b a = Ret h'' /\ chain h'' b ((b, MkList 0 0) :: l).
Proof using Hmalloc.
  intros (Hl & Hnd & Hd). destruct (calloc_fresh Hmalloc h) as (b & -> & Hb & Hfresh).
  do 2 eexists. split; [done|]. erewrite set_next_Some; [|unfold NULL; lia|by rewrite lookup_insert_eq].
  eexists. split; [done|]. rewrite insert_insert_eq. rewrite Hd in Hfresh.
  assert (Hbl : b ∉ l.*1) by set_solver. split_and!.
  - simpl. split_and!; [done|unfold NULL; lia|]. exists a. rewrite lookup_insert_eq. split; [done|].
    by apply lseg_insert.
  - csimpl. by apply NoDup_cons.
  - rewrite dom_insert_L, Hd. csimpl. done.
Qed.

Lemma Sort_chain h a l : chain h a ((a, MkList 0 0) :: l) ->
  Forall (fun x => 0 <= key interval x) l ->
  exists h', Sort_Linked_List h a = Ret h' /\ chain h' a ((a, MkList 0 0) :: isort l).
Proof.
  intros Hc Hpos. pose proof Hc as (Hl & Hnd & Hd). unfold Sort_Linked_List.
  destruct (sort_outer_spec interval (S (size h)) h a (MkList 0 0) l [])
    as (h1 & L & Heq & Hl1 & Hd1 & HpL & HsL & HcL); rewrite ?app_nil_r; try done.
  - constructor.
  - by apply Forall_true.
  - rewrite (chain_size _ _ _ Hc). simpl. lia.
  - cbn [hd_addr] in Heq. rewrite Heq, outcome_bind_ret. exists h1. split; [done|].
    rewrite app_nil_r in HpL.
    assert (L = isort l) as ->.
    { apply (sorted_unique interval); [done|apply isort_sorted|].
      intros k. by rewrite HcL, app_nil_r, class_isort. }
    assert (Hp : (a, MkList 0 0) :: isort l ≡ₚ (a, MkList 0 0) :: l) by (by constructor).
    split_and!; [done| |].
    + eapply NoDup_Permutation_proper; [|exact Hnd]. by apply fmap_Permutation.
    + rewrite Hd1, Hd. apply set_eq. intros x. by rewrite !elem_of_list_to_set, Hp.
Qed.
End Proofs.

(** * The collector refines its specification

    [rep] relates the globals of the module, its list in the heap and its alarm
    to the collector above; the handlers preserve it and never fail. *)

#[local] Open Scope Z_scope.

(** ** The relation *)
Definition delay_ok (x : sample) : Prop := 1 <= x.1 < 2 ^ 31 - 1.

Definition shows (s : rtc) (d : doing) (r : Z) (al : alarm) : Prop :=
  match d with
  | Idle t =>
      chain (nodes s) (gpstHeadList s) [] /\ al = MkAlarm r t Call_RTC_callback /\
      guiRTCReg1 s = r /\ guiRTCReg2 s = 0 /\ guiRTCReg3 s = 0
  | Collecting base todo =>
      exists l z, chain (nodes s) (gpstHeadList s) (l ++ [(z, last_node)]) /\ l.*2 = nodes_of todo /\
        todo <> [] /\ Forall delay_ok todo /\ StronglySorted sample_le todo /\
        al = MkAlarm r (due_at d) (Call_RTC_Collect (gpstHeadList s)) /\ guiRTCReg1 s = 0 /\
        (guiRTCReg2 s = r /\ guiRTCReg3 s = 0 \/ guiRTCReg2 s = 0 /\ guiRTCReg3 s = r)
  end.

(** The alarms that send the log file are not the collector's. *)
Definition sends_file (a : alarm) : bool :=
  match thecallback a with Call_RTC_Thread_Transfer_File => true | _ => false end.
Definition mine (l : list alarm) : list alarm := List.filter (fun a => negb (sends_file a)) l.

(** Every alarm has a number of its own, below the next one [n], and the module
    does not take one of the collector's for that of the file, [send]. *)
Definition regs_ok (l : list alarm) (n send : Z) : Prop :=
  NoDup (clientreg <$> l) /\ 0 < n /\ Forall (fun a => 0 < clientreg a < n) l /\
  send < n /\ send ∉ clientreg <$> mine l.
Definition alarms_ok (s : rtc) : Prop :=
  regs_ok (thealarms s) (regnum s) (guiRTCLogFileSendReg (thelog s)).

(** The globals represent [a] while the alarms [pre] are being handled. *)
Definition holds (pre : list alarm) (s : rtc) (a : collector) : Prop :=
  giContextChanged s = (if rows_changed a then 1 else 0) /\ samples s = taken a /\ alarms_ok s /\
  exists r al, mine (thealarms s) = pre ++ [al] /\ shows s (activity a) r al.
Definition rep : rtc -> collector -> Prop := holds [].

(** ** Registers *)
Lemma remove_none r l : r ∉ clientreg <$> l -> remove_alarm r l = l.
Proof.
  induction l as [|a l IH]; [done|]. csimpl. intros [Hne Hin]%not_elem_of_cons.
  rewrite (proj2 (Z.eqb_neq _ _)) by done. by rewrite IH.
Qed.

Lemma remove_sublist r l : remove_alarm r l `sublist_of` l.
Proof. induction l as [|a l IH]; simpl; [done|]. case_match; by constructor. Qed.

Lemma mine_sublist l : mine l `sublist_of` l.
Proof. induction l as [|a l IH]; simpl; [done|]. case_match; by constructor. Qed.

Lemma mine_app l k : mine (l ++ k) = mine l ++ mine k.
Proof. apply List.filter_app. Qed.

Lemma mine_remove r l : NoDup (clientreg <$> l) ->
  mine (remove_alarm r l) = remove_alarm r (mine l).
Proof.
  induction l as [|a l IH]; [done|]. csimpl. intros [Ha Hl]%NoDup_cons. unfold mine. simpl.
  fold (mine l). destruct (Z.eqb_spec (clientreg a) r) as [<-|Hne].
  - destruct (sends_file a); simpl; [|by rewrite Z.eqb_refl].
    rewrite remove_none; [done|]. intros Hin. apply Ha.
    eapply sublist_subseteq; [|exact Hin]. apply fmap_sublist, mine_sublist.
  - simpl. fold (mine (remove_alarm r l)). rewrite IH by done.
    destruct (sends_file a); simpl; [done|]. by rewrite (proj2 (Z.eqb_neq _ _)).
Qed.

(** The alarms but those in the registers 1 to 3. *)
Definition foreign (s : rtc) : list alarm :=
  remove_alarm (guiRTCReg3 s) (remove_alarm (guiRTCReg2 s) (remove_alarm (guiRTCReg1 s) (thealarms s))).

Abbreviation registered := (Forall (fun a => 0 < clientreg a)).

Lemma remove_zero l : registered l -> remove_alarm 0 l = l.
Proof.
  intros Hl. apply remove_none. intros (a & E & Hin)%list_elem_of_fmap.
  pose proof (proj1 (Forall_forall _ _) Hl a Hin). simpl in *. lia.
Qed.

Lemma remove_registered P r l : Forall P l -> Forall P (remove_alarm r l).
Proof. induction 1 as [|a l Ha Hl IH]; simpl; [constructor|]. case_match; [done|]. by constructor. Qed.

Lemma cancel_alarms_spec s : registered (thealarms s) ->
  cancel_alarms s =
    MkRtc (nodes s) (gpstHeadList s) 0 0 0 (giContextChanged s) (foreign s) (regnum s) (samples s) (thelog s).
Proof.
  intros Hpos. destruct s as [h hd r1 r2 r3 c al rn sm lg]. unfold foreign. cbn in Hpos |- *.
  unfold cancel_alarms, with_regs, snmp_alarm_unregister, with_alarms. simpl.
  destruct (Z.eqb_spec r1 0) as [->|]; simpl; destruct (Z.eqb_spec r2 0) as [->|]; simpl;
    destruct (Z.eqb_spec r3 0) as [->|]; simpl;
    by rewrite ?remove_zero by (repeat apply remove_registered; done).
Qed.

Lemma NoDup_remove r l : NoDup (clientreg <$> l) -> NoDup (clientreg <$> remove_alarm r l).
Proof.
  induction l as [|a l IH]; [done|]. csimpl. intros [Ha Hl]%NoDup_cons. case_match; [done|].
  csimpl. apply NoDup_cons. split; [|by apply IH]. intros Hin. apply Ha.
  eapply sublist_subseteq; [|exact Hin]. apply fmap_sublist, remove_sublist.
Qed.

Lemma mine_regs r l : r ∉ clientreg <$> l -> r ∉ clientreg <$> mine l.
Proof.
  intros Hr Hin. apply Hr. eapply sublist_subseteq; [|exact Hin]. apply fmap_sublist, mine_sublist.
Qed.

Lemma regs_ok_remove l n send r : regs_ok l n send -> regs_ok (remove_alarm r l) n send.
Proof.
  intros (Hnd & Hn & Hl & Hs & Hm). split_and!; try done.
  - by apply NoDup_remove.
  - by apply remove_registered.
  - rewrite mine_remove by done. intros Hin. apply Hm.
    eapply sublist_subseteq; [|exact Hin]. apply fmap_sublist, remove_sublist.
Qed.

(** The next number. *)
Lemma regs_ok_next l n send : regs_ok l n send -> n ∉ clientreg <$> l.
Proof.
  intros (_ & _ & Hl & _) (a & E & Hin)%list_elem_of_fmap.
  pose proof (proj1 (Forall_forall _ _) Hl a Hin). simpl in *. lia.
Qed.

Lemma regs_ok_add l n send t f : regs_ok l n send ->
  regs_ok (l ++ [MkAlarm n t f]) (n + 1) send /\
  (f = Call_RTC_Thread_Transfer_File -> regs_ok (l ++ [MkAlarm n t f]) (n + 1) n).
Proof.
  intros Hok. pose proof (regs_ok_next l n send Hok) as Hnew. destruct Hok as (Hnd & Hn & Hl & Hs & Hm).
  assert (Hall : NoDup (clientreg <$> l ++ [MkAlarm n t f]) /\ 0 < n + 1 /\
    Forall (fun a => 0 < clientreg a < n + 1) (l ++ [MkAlarm n t f])).
  { split_and!; [|lia|].
    - rewrite fmap_app. apply NoDup_app. split_and!; [done| |apply NoDup_singleton].
      intros x Hx ->%list_elem_of_singleton. done.
    - apply Forall_app. split; [|repeat constructor; simpl; lia].
      eapply Forall_impl; [exact Hl|]. simpl. lia. }
  destruct Hall as (? & ? & ?). split; [|intros ->]; split_and!; try done; try lia;
    rewrite mine_app, fmap_app, not_elem_of_app; (split; [first [exact Hm|by apply mine_regs]|]).
  - intros Hin. assert (send = n); [|lia]. unfold mine in Hin. simpl in Hin. case_match; simpl in Hin; set_solver.
  - apply not_elem_of_nil.
Qed.

(** ** Logging *)
Section Log.
Context `{Agent}.
Hypothesis Hfiles : files_open.

Lemma Check_LogFile_ok t s : exists f flag saved,
  RTC_Check_LogFile_Name t s = Ret (with_log (set_file f flag saved (thelog s)) s).
Proof using Hfiles.
  assert (Hsame : mret s = Ret (with_log (set_file (fpl (thelog s)) (giLogFlag (thelog s))
    (szSavedLogFile (thelog s)) (thelog s)) s)) by (by destruct s as [????????? []]).
  destruct (Hfiles t) as [Hlen Hdef]. unfold RTC_Check_LogFile_Name, fopen. rewrite Hdef.
  case_bool_decide; [case_match; eauto|]. case_match; [|eauto].
  unfold built. rewrite (proj2 (Z.ltb_lt _ _)) by (rewrite length_app; simpl; lia).
  rewrite outcome_bind_ret. case_match; [eauto|]. rewrite bool_decide_eq_false_2 by done. eauto.
Qed.

(** A step of the log does nothing to the collector. *)
Definition logs (s s' : rtc) : Prop :=
  s' = MkRtc (nodes s) (gpstHeadList s) (guiRTCReg1 s) (guiRTCReg2 s) (guiRTCReg3 s)
         (giContextChanged s) (thealarms s') (regnum s') (samples s) (thelog s') /\
  mine (thealarms s') = mine (thealarms s) /\ (alarms_ok s -> alarms_ok s').

#[export] Instance logs_trans : Transitive logs.
Proof.
  intros s1 s2 s3 (E1 & M1 & A1) (E2 & M2 & A2). split_and!; [|congruence|auto].
  rewrite E2 at 1. rewrite E1. done.
Qed.

Lemma logs_with_log l s : guiRTCLogFileSendReg l = guiRTCLogFileSendReg (thelog s) ->
  logs s (with_log l s).
Proof. intros E. split_and!; [done..|]. unfold alarms_ok. simpl. by rewrite E. Qed.

Lemma send_later_logs t first s : logs s (send_later t first s).
Proof.
  split_and!; [done| |].
  - simpl. rewrite mine_app. apply app_nil_r.
  - intros Hok. by apply (regs_ok_add _ _ _ (t + UI32 (glAgentInfoFileTrInterval (conf t)))
      Call_RTC_Thread_Transfer_File Hok).
Qed.

Lemma Thread_Transfer_logs t s : logs s (RTC_Thread_Transfer_File t s).
Proof.
  unfold RTC_Thread_Transfer_File. case_match; [by destruct s|]. by apply logs_with_log.
Qed.

Lemma file_full_logs t s : alarms_ok s -> logs s (file_full t s).
Proof.
  intros Hok. unfold file_full.
  set (s1 := if guiRTCLogFileSendReg (thelog s) =? 0 then s else _).
  assert (H1 : logs s s1).
  { unfold s1. case_match; [by destruct s|]. split_and!; [done| |].
    - simpl. destruct Hok as (? & _ & _ & _ & Hm). rewrite mine_remove, remove_none by done. done.
    - intros ?. by apply regs_ok_remove. }
  etrans; [exact H1|]. etrans; [apply (send_later_logs t (giRTCFirstTime (thelog s1)))|].
  etrans; [|apply Thread_Transfer_logs]. by apply logs_with_log.
Qed.

Lemma transfer_logs t s : alarms_ok s ->
  exists s', RTC_Transfer_File t s = Ret s' /\ logs s s'.
Proof using Hfiles.
  intros Hok. unfold RTC_Transfer_File. destruct (ghRTCPThread (thelog s)) as [[]|].
  - eexists. split; [done|]. split_and!; [done..|]. intros (? & ? & ? & ? & Hm). split_and!; try done.
    intros (a & E & Hin)%list_elem_of_fmap. apply (sublist_subseteq _ _ (mine_sublist _)) in Hin.
    pose proof (proj1 (Forall_forall _ _) H2 a Hin). cbn in *. lia.
  - unfold transfer_end. set (s0 := with_log _ s).
    destruct (Check_LogFile_ok t s0) as (f & flag & saved & ->). rewrite outcome_bind_ret.
    eexists. split; [done|]. etrans; [by apply (logs_with_log (thelog s0))|]. fold s0.
    etrans; [by apply (logs_with_log (set_file f flag saved (thelog s0)))|].
    etrans; [apply send_later_logs|]. by apply logs_with_log.
  - exists s. split; [done|]. by destruct s.
Qed.

(** The call of RTC_Retrieve_Log_Variable. *)
Definition read (xs : list (Z * Z)) (s : rtc) : rtc := foldl (fun s x => with_sample x s) s xs.

Lemma Retrieve_spec rows t i s : Forall row_fits rows -> alarms_ok s ->
  exists s', RTC_Retrieve_Log_Variable rows t i s = Ret s' /\
    logs (read (List.filter (readable rows) [(t, i)]) s) s'.
Proof using Hfiles.
  intros Hrows Hok. unfold RTC_Retrieve_Log_Variable. cbn [List.filter]. unfold readable. cbn [fst snd].
  destruct (find_row rows i) as [r|] eqn:Hr; [|exists s; split; [done|by destruct s]].
  assert (Hfit : row_fits r).
  { apply List.find_some in Hr as [Hr _]. apply list_elem_of_In in Hr.
    by apply (proj1 (Forall_forall _ _) Hrows). }
  destruct Hfit as (_ & Hvar & Hval). unfold built.
  rewrite (proj2 (Z.ltb_lt _ _) Hvar), outcome_bind_ret. destruct (Hval t) as (e & val & Hf & Hlen). unfold fetched. rewrite Hf.
  rewrite outcome_bind_ret. destruct (Z.eqb_spec e 0) as [->|He]; [|exists s; split; [done|by destruct s]].
  cbn [negb]. rewrite (proj2 (Z.ltb_lt _ _) Hlen), outcome_bind_ret. cbn [read foldl].
  set (s0 := with_sample (t, i) s). assert (Hok0 : alarms_ok s0) by exact Hok.
  destruct (Check_LogFile_ok t s0) as (f & flag & saved & ->). rewrite outcome_bind_ret.
  set (s1 := with_log _ s0). assert (H1 : logs s0 s1) by (by apply logs_with_log).
  set (x := MkLine t (var_text r) val). assert (H2 : logs s0 (write_line x s1)).
  { etrans; [exact H1|]. unfold write_line. case_match; [case_match; by apply logs_with_log|by destruct s1]. }
  set (s2 := write_line x s1) in *. set (s3 := if giRTCFirstTime (thelog s2) =? 1 then _ else s2).
  assert (H3 : logs s0 s3).
  { unfold s3. case_match; [|done]. etrans; [exact H2|apply send_later_logs]. }
  assert (Hok3 : alarms_ok s3) by (destruct H3 as (_ & _ & H3); exact (H3 Hok0)).
  destruct (fpl (thelog s3)) as [[name content]|]; [|by exists s3].
  destruct (st_size content <? _); [by exists s3|]. case_bool_decide.
  - set (s4 := with_log (set_file _ 0 _ _) s3).
    destruct (Check_LogFile_ok t s4) as (f' & flag' & saved' & ->). eexists. split; [done|].
    etrans; [exact H3|]. transitivity s4; by apply logs_with_log.
  - eexists. split; [done|]. etrans; [exact H3|]. by apply file_full_logs.
Qed.
End Log.

Section Refine.
Context `{Allocator} `{Agent}.
Hypothesis Hmalloc : malloc_total.
Variables (lw tz : Z) (clock : Z -> nat -> Z).
Hypothesis Hlw : lw = 32 \/ lw = 64.
Hypothesis Hclock : forall t n, clock t n = t.
Hypothesis Hfiles : files_open.

(** ** Plans *)
Lemma plan_delays T i rows : Forall row_ok rows -> 1 <= i <= 3600 ->
  Forall delay_ok (plan tz T i rows).
Proof.
  intros Hok Hi. apply Forall_forall. intros [d idx] Hin. unfold plan in Hin.
  apply list_elem_of_In, in_concat in Hin as (l & Hl & Hin).
  apply in_map_iff in Hl as (r & <- & Hr). apply in_map_iff in Hin as (d' & [= <- <-] & Hd).
  apply list_elem_of_In, list_elem_of_filter in Hr as [Hp Hr].
  pose proof (proj1 (Forall_forall _ _) Hok r Hr) as Hrok. unfold planned in Hp. boolify.
  pose proof (row_ranges tz T r Hrok) as (_ & _ & Hpr).
  assert (period tz T r <> 0) by (apply Z.eqb_neq; done).
  unfold delay_ok. simpl. apply (row_delays_range tz T i r d' Hrok Hi); [lia|].
  by apply list_elem_of_In.
Qed.

Lemma nodes_of_keys (l : list item) p : l.*2 = nodes_of p -> Forall delay_ok p ->
  Forall (fun x => 1 <= key interval x < 2 ^ 31 - 1) l.
Proof.
  intros Hl Hp. revert l Hl. induction Hp as [|q p Hq Hp IH]; intros [|x l] Hl; try done.
  injection Hl as Hx Hl. constructor; [|by apply IH]. unfold key. by rewrite Hx.
Qed.

(** ** Making a plan *)
Lemma RTC_callback_spec rows t s l :
  Forall row_ok rows -> chain (nodes s) (gpstHeadList s) l ->
  registered (thealarms s) ->
  exists s' al, RTC_callback lw tz clock rows t s = Ret s' /\
    thealarms s' = foreign s ++ [al] /\ regnum s' = regnum s + 1 /\
    giContextChanged s' = giContextChanged s /\ samples s' = samples s /\ thelog s' = thelog s /\
    shows s' (replan tz rows t) (regnum s) al.
Proof using Hmalloc Hlw Hclock.
  intros Hok Hc Hpos. unfold RTC_callback. rewrite (cancel_alarms_spec s Hpos), (free_list_chain _ l) by done.
  rewrite outcome_bind_ret. cbn [nodes gpstHeadList with_list].
  destruct (calloc_fresh Hmalloc ∅) as (a & -> & Ha & _). rewrite outcome_bind_ret.
  assert (Hc0 : chain (<[a := Node (MkList 0 0) NULL]> ∅) a [(a, MkList 0 0)]).
  { apply chain_singleton. unfold NULL. lia. }
  destruct (Form_spec Hmalloc tz t lw (clock t) Hlw (Hclock t) rows _ a _ 0 Hc0 Hok)
    as (h1 & l1 & z & m & -> & Hc1 & Hv1). rewrite outcome_bind_ret.
  pose proof (plan_delays t _ rows Hok (proj1 (planned_interval_range tz t rows))) as Hd.
  unfold replan. pose proof (plan_at_nil tz t rows) as Hnil. revert Hnil Hc1 Hv1 Hd.
  unfold plan_at. generalize (plan tz t (planned_interval tz t rows) rows). intros p Hnil Hc1 Hv1 Hd.
  destruct (decide (p = [])) as [->|Hp].
  - destruct l1 as [|? l1]; [|done]. cbn [app length] in *. cbn [Z.of_nat Z.eqb snmp_alarm_register].
    cbn [nodes with_list with_alarms gpstHeadList].
    destruct (chain_dispose _ _ _ _ _ Hc1) as [Hdis Hc2]. destruct Hc1 as [[<- _] _]. 
    rewrite Hdis, outcome_bind_ret. do 2 eexists. split; [done|]. by cbn.
  - destruct (Z.eqb_spec (Z.of_nat (length p)) 0) as [E|_]; [by destruct p|].
    destruct (cons_chain Hmalloc _ _ _ Hc1) as (b & h2 & -> & h3 & Hh3 & Hc3).
    rewrite outcome_bind_ret, Hh3, outcome_bind_ret.
    pose proof (nodes_of_keys _ _ Hv1 Hd) as Hk.
    destruct (Sort_chain _ _ _ Hc3) as (h4 & -> & Hc4).
    { apply Forall_app. split; [eapply Forall_impl; [exact Hk|]; simpl; lia|]. by repeat constructor. }
    rewrite outcome_bind_ret, isort_snoc in * by (eapply Forall_impl; [exact Hk|]; unfold key; simpl; lia).
    rewrite (chain_load _ _ [] _ _ _ Hc4), outcome_bind_ret.
    destruct (chain_dispose _ _ _ _ _ Hc4) as [-> Hc5]. rewrite outcome_bind_ret. cbn [next].
    pose proof (isort_values _ _ Hv1) as Hv. destruct (sort_plan p) as [|[d i] todo] eqn:Hs; [naive_solver|].
    assert (Hd' : Forall delay_ok ((d, i) :: todo)) by (by rewrite <- Hs, sort_plan_Permutation).
    destruct (isort l1) as [|[q v] l2] eqn:Hi; [done|]. injection Hv as -> Hv.
    cbn [app hd_addr] in *. rewrite (chain_load _ _ [] _ _ _ Hc5), outcome_bind_ret.
    cbn [snmp_alarm_register val interval fst snd regnum with_list]. do 2 eexists. split; [done|].
    cbn. rewrite (UI32_id d) by (apply Forall_cons in Hd' as [[? ?] _]; simpl in *; lia).
    split_and!; try done. exists ((q, MkList d i) :: l2), z. split_and!; try done; [| |by left].
    + unfold nodes_of. csimpl. f_equal. exact Hv.
    + rewrite <- Hs. apply sort_plan_sorted.
Qed.

(** ** Collecting *)

(** From [s] to [s'] the variables [xs] were read, and the list became that at [head]. *)
Definition logged (xs : list (Z * Z)) (h : heap) (head : Z) (s s' : rtc) : Prop :=
  s' = MkRtc h head (guiRTCReg1 s) (guiRTCReg2 s) (guiRTCReg3 s) (giContextChanged s) (thealarms s')
         (regnum s') (samples s ++ xs) (thelog s') /\
  mine (thealarms s') = mine (thealarms s) /\ alarms_ok s'.

Lemma logged_trans xs ys h1 p1 h2 p2 s1 s2 s3 :
  logged xs h1 p1 s1 s2 -> logged ys h2 p2 s2 s3 -> logged (xs ++ ys) h2 p2 s1 s3.
Proof.
  intros (E1 & M1 & _) (E2 & M2 & A2). split_and!; [|congruence|done].
  rewrite E2 at 1. rewrite E1. cbn. by rewrite app_assoc.
Qed.

Lemma Retrieve_logged rows t i s : Forall row_fits rows -> alarms_ok s ->
  exists s', RTC_Retrieve_Log_Variable rows t i s = Ret s' /\
    logged (List.filter (readable rows) [(t, i)]) (nodes s) (gpstHeadList s) s s'.
Proof using Hfiles.
  intros Hrows Hok. destruct (Retrieve_spec Hfiles rows t i s Hrows Hok) as (s' & Hs & E & M & A).
  exists s'. split; [done|]. revert E M A. cbn [List.filter].
  case_match; cbn [read foldl]; intros E M A; (split; [|split; [exact M|by apply A]]).
  - exact E.
  - by rewrite app_nil_r.
Qed.

Lemma collect_loop_spec rows todo fuel t s p d i l z : Forall row_fits rows -> alarms_ok s ->
  chain (nodes s) (gpstHeadList s) ((p, MkList d i) :: l ++ [(z, last_node)]) ->
  l.*2 = nodes_of todo -> delay_ok (d, i) -> (length l < fuel)%nat ->
  exists s' h' q j l', collect_loop fuel rows t p s = Ret (q, s') /\
    logged (List.filter (readable rows) (map (fun i => (t, i)) (i :: (split_group d todo).1))) h' q s s' /\
    chain h' q ((q, MkList d j) :: l' ++ [(z, last_node)]) /\ l'.*2 = nodes_of (split_group d todo).2.
Proof using Hfiles.
  intros Hrows. revert fuel s p i l. induction todo as [|[d' i'] todo IH]; intros fuel s p i l Hok Hc Hl Hd Hf;
    (destruct fuel as [|fuel]; [lia|]); (destruct l as [|[q w] l]; try done); cbn [collect_loop];
    assert (Hhead : gpstHeadList s = p) by apply Hc; rewrite Hhead in Hc;
    rewrite (chain_load _ _ [] _ _ _ Hc), outcome_bind_ret; cbn [next hd_addr app val index interval] in *;
    rewrite (proj2 (Z.eqb_neq _ _) (chain_next _ _ [] _ _ _ _ _ Hc));
    rewrite (chain_load _ _ [(p, _)] _ _ _ Hc), outcome_bind_ret; cbn [val];
    destruct (Retrieve_logged rows t i s Hrows Hok) as (s1 & -> & Hs1); rewrite outcome_bind_ret;
    rewrite Hhead in Hs1.
  - unfold delay_ok in Hd. simpl in Hd. rewrite (proj2 (Z.eqb_neq d _)) by (simpl; lia).
    by exists s1, (nodes s), p, i, [].
  - injection Hl as -> Hl. cbn [interval fst snd split_group]. destruct (Z.eqb_spec d d') as [->|Hne].
    + pose proof Hs1 as (E1 & _ & Hok1). assert (nodes s1 = nodes s) as -> by (by rewrite E1).
      destruct (chain_dispose _ _ _ _ _ Hc) as [-> Hc']. rewrite outcome_bind_ret.
      destruct (IH fuel (with_list (delete p (nodes s)) q s1) q i' l Hok1 Hc' Hl Hd)
        as (s2 & h' & q' & j & l' & -> & Hs2 & Hc2 & Hl2); [simpl in Hf; lia|].
      exists s2, h', q', j, l'. destruct (split_group d' todo) as [g rest] eqn:Hg. cbn [fst snd] in *.
      split; [done|]. split; [|done].
      change (map _ (i :: i' :: g)) with ([(t, i)] ++ map (fun i => (t, i)) (i' :: g)).
      rewrite List.filter_app. eapply logged_trans; [exact Hs1|exact Hs2].
    + exists s1, (nodes s), p, i, ((q, MkList d' i') :: l). split_and!; try done.
      unfold nodes_of. csimpl. f_equal. exact Hl.
Qed.

Lemma shows_reg s d r al : shows s d r al -> clientreg al = r.
Proof. destruct d; [by intros (_ & -> & _)|by intros (? & ? & _ & _ & _ & _ & _ & -> & _)]. Qed.
Lemma shows_due s d r al : shows s d r al -> due al = due_at d.
Proof. destruct d; [by intros (_ & -> & _)|by intros (? & ? & _ & _ & _ & _ & _ & -> & _)]. Qed.
Lemma shows_mine s d r al : shows s d r al -> sends_file al = false.
Proof. destruct d; [by intros (_ & -> & _)|by intros (? & ? & _ & _ & _ & _ & _ & -> & _)]. Qed.

Lemma fits_ok rows : Forall row_fits rows -> Forall row_ok rows.
Proof. intros Hr. eapply Forall_impl; [exact Hr|]. by intros r [? _]. Qed.

Lemma alarms_registered s : alarms_ok s -> registered (thealarms s).
Proof. intros (_ & _ & Hl & _). eapply Forall_impl; [exact Hl|]. simpl. lia. Qed.

Lemma mine_foreign s : alarms_ok s ->
  mine (foreign s) =
    remove_alarm (guiRTCReg3 s) (remove_alarm (guiRTCReg2 s) (remove_alarm (guiRTCReg1 s) (mine (thealarms s)))).
Proof. intros (Hnd & _). unfold foreign. by rewrite !mine_remove by (repeat apply NoDup_remove; done). Qed.

(** A plan is made. *)
Lemma callback_holds rows t s l : Forall row_fits rows -> alarms_ok s ->
  chain (nodes s) (gpstHeadList s) l ->
  exists s', RTC_callback lw tz clock rows t s = Ret s' /\
    clientreg <$> mine (thealarms s') = (clientreg <$> mine (foreign s)) ++ [regnum s] /\
    forall c, giContextChanged s = (if c : bool then 1 else 0) ->
    holds (mine (foreign s)) s' (MkCollector (replan tz rows t) c (samples s)).
Proof using Hmalloc Hlw Hclock.
  intros Hrows Hok Hc. destruct (RTC_callback_spec rows t s l (fits_ok _ Hrows) Hc (alarms_registered s Hok))
    as (s' & al & -> & Hals & Hrn & Hch & Hsm & Hlog & Hsh). exists s'. split; [done|].
  assert (Hm : mine (thealarms s') = mine (foreign s) ++ [al]).
  { rewrite Hals, mine_app. unfold mine at 2. simpl. by rewrite (shows_mine _ _ _ _ Hsh). }
  split; [by rewrite Hm, fmap_app, <- (shows_reg _ _ _ _ Hsh)|]. intros c Hc'.
  split_and!; [by rewrite Hch|done| |by exists (regnum s), al].
  unfold alarms_ok. rewrite Hals, Hrn, Hlog. destruct al as [rg du f].
  pose proof (shows_reg _ _ _ _ Hsh) as E. cbn in E. subst rg.
  apply regs_ok_add. by repeat apply regs_ok_remove.
Qed.

(** The register of the alarm that went off is cleared. *)
Definition unset (r : Z) (s : rtc) : rtc :=
  if r =? guiRTCReg2 s then with_regs (guiRTCReg1 s) 0 (guiRTCReg3 s) s
  else if r =? guiRTCReg3 s then with_regs (guiRTCReg1 s) (guiRTCReg2 s) 0 s
  else s.

Lemma unset_spec r s : 0 < r -> guiRTCReg1 s = 0 ->
  guiRTCReg2 s = r /\ guiRTCReg3 s = 0 \/ guiRTCReg2 s = 0 /\ guiRTCReg3 s = r ->
  unset r s = with_regs 0 0 0 s.
Proof.
  intros Hr H1 [[H2 H3]|[H2 H3]]; unfold unset; rewrite H1, H2, H3.
  - by rewrite Z.eqb_refl.
  - by rewrite (proj2 (Z.eqb_neq _ _)), Z.eqb_refl by lia.
Qed.

(** A plan made while the alarm of the collector is being handled. *)
Lemma callback_again rows t s l c : Forall row_fits rows -> alarms_ok s ->
  chain (nodes s) (gpstHeadList s) l -> guiRTCReg1 s = 0 -> guiRTCReg2 s = 0 -> guiRTCReg3 s = 0 ->
  giContextChanged s = (if c : bool then 1 else 0) ->
  exists s', RTC_callback lw tz clock rows t s = Ret s' /\
    holds (mine (thealarms s)) s' (MkCollector (replan tz rows t) c (samples s)).
Proof using Hmalloc Hlw Hclock.
  intros Hrows Hok Hc E1 E2 E3 Hch. destruct (callback_holds rows t s l Hrows Hok Hc) as (s' & Hs & _ & Hh).
  exists s'. split; [done|]. specialize (Hh c Hch). rewrite mine_foreign in Hh by done.
  rewrite E1, E2, E3 in Hh. pose proof (alarms_registered s Hok) as Hreg.
  assert (registered (mine (thealarms s))).
  { apply Forall_forall. intros a Ha. apply (sublist_subseteq _ _ (mine_sublist _)) in Ha.
    by apply (proj1 (Forall_forall _ _) Hreg). }
  by rewrite !remove_zero in Hh by (repeat apply remove_registered; done).
Qed.

(** What is left after a group. *)
Lemma split_group_ok d i todo : Forall delay_ok todo -> StronglySorted sample_le ((d, i) :: todo) ->
  Forall delay_ok (split_group d todo).2 /\ StronglySorted sample_le (split_group d todo).2 /\
  Forall (sample_le (d, i)) (split_group d todo).2.
Proof.
  intros Hd [Hs Hle]%StronglySorted_inv. rewrite <- (split_group_app d todo) in Hd, Hs, Hle.
  apply Forall_app in Hd as [_ ?], Hle as [_ ?]. split; [done|]. split; [|done].
  by eapply StronglySorted_app_1_r.
Qed.

Lemma mine_range s r al : alarms_ok s -> mine (thealarms s) = [al] -> clientreg al = r ->
  0 < r < regnum s.
Proof.
  intros (_ & _ & Hl & _) Hm <-. apply (proj1 (Forall_forall _ _) Hl).
  apply (sublist_subseteq _ _ (mine_sublist _)). rewrite Hm. by left.
Qed.

(** The end of RTC_Collect_Store_Variables when samples are left. *)
Lemma collect_rest rows s base t d c al q d' i' l z rest :
  Forall row_fits rows -> alarms_ok s -> mine (thealarms s) = [al] ->
  guiRTCReg1 s = 0 -> guiRTCReg2 s = 0 -> guiRTCReg3 s = 0 ->
  giContextChanged s = (if c : bool then 1 else 0) ->
  chain (nodes s) (gpstHeadList s) ((q, MkList d' i') :: l ++ [(z, last_node)]) -> l.*2 = nodes_of rest ->
  Forall delay_ok ((d', i') :: rest) -> StronglySorted sample_le ((d', i') :: rest) ->
  0 <= d <= d' -> t = base + d ->
  exists s', (if giContextChanged s =? 0
      then let '(r, s) := snmp_alarm_register t (I32 (d' - d)) (Call_RTC_Collect (gpstHeadList s)) s in
           mret (with_regs (guiRTCReg1 s) (guiRTCReg2 s) r s)
      else RTC_callback lw tz clock rows t (with_changed 0 s)) = Ret s' /\
    holds [al] s' (if c then MkCollector (replan tz rows t) false (samples s)
                   else MkCollector (Collecting base ((d', i') :: rest)) false (samples s)).
Proof using Hmalloc Hlw Hclock.
  intros Hrows Hok Hal E1 E2 E3 Hch Hc Hv Hd Hso Hdd ->. rewrite Hch. destruct c; cbn [Z.eqb].
  - destruct (callback_again rows (base + d) (with_changed 0 s) _ false Hrows Hok Hc E1 E2 E3 eq_refl)
      as (s' & -> & Hh). exists s'. split; [done|]. rewrite <- Hal. exact Hh.
  - cbn [snmp_alarm_register]. eexists. split; [done|].
    pose proof (Forall_inv Hd) as [? ?]. cbn [fst] in *. rewrite I32_id by lia.
    split; [done|]. split; [done|]. split; [by apply regs_ok_add|].
    eexists _, _. split; [cbn; rewrite mine_app, Hal; done|].
    exists ((q, MkList d' i') :: l), z. split_and!; try done; [| |by right].
    + unfold nodes_of. csimpl. f_equal. exact Hv.
    + cbn. rewrite UI32_id by lia. f_equal. lia.
Qed.

(** The alarm for a sample goes off. *)
Lemma collect_spec rows s a base todo r al :
  Forall row_fits rows -> activity a = Collecting base todo -> rep s a -> 
  mine (thealarms s) = [al] -> shows s (Collecting base todo) r al ->
  exists s', RTC_Collect_Store_Variables lw tz clock rows (due al) r (gpstHeadList s) s = Ret s' /\
    holds [al] s' (abs_alarm tz rows a).
Proof using All.
  intros Hrows Ha (Hch & Hsm & Hok & _) Hal Hsh. pose proof (mine_range s r al Hok Hal (shows_reg _ _ _ _ Hsh)) as Hr.
  destruct Hsh as (l & z & Hc & Hv & Hne & Hd & Hso & Hal' & H1 & H23).
  destruct todo as [|[d i] todo]; [done|]. destruct l as [|[p w] l]; [done|]. injection Hv as -> Hv.
  cbn [fst snd app] in Hc. unfold RTC_Collect_Store_Variables.
  change (if r =? guiRTCReg2 s then _ else _) with (unset r s). rewrite (unset_spec r s) by (done || lia).
  assert (Hp : gpstHeadList s = p) by apply Hc. assert (Hdue : due al = base + d) by (by rewrite Hal').
  rewrite Hp, Hdue. set (t := base + d). pose proof Hd as [Hd0 Hd1]%Forall_cons.
  destruct (collect_loop_spec rows todo (S (size (nodes s))) t (with_regs 0 0 0 s) p d i l z Hrows Hok Hc Hv Hd0)
    as (s1 & h & q & j & l' & Hloop & (E1 & M1 & Hok1) & Hc2 & Hv2).
  { pose proof (chain_size _ _ _ Hc) as Hs. simpl in *. rewrite length_app in Hs. lia. }
  cbn [nodes with_regs] in *. rewrite Hloop, outcome_bind_ret.
  assert (nodes s1 = h) as -> by (by rewrite E1).
  rewrite (chain_load _ _ [] _ _ _ Hc2), outcome_bind_ret.
  unfold abs_alarm. rewrite Ha. fold t. pose proof (split_group_ok d i todo Hd1 Hso) as (Hrest & Hso' & Hle).
  destruct (split_group d todo) as [g rest]. cbn [fst snd] in *.
  change (List.filter (readable rows) (map (fun i => (t, i)) (i :: g)))
    with (List.filter (readable rows) (map (fun j => (t, j)) (i :: g))) in *.
  set (xs := List.filter _ _) in *. change (mine (thealarms s1) = mine (thealarms s)) in M1. rewrite Hal in M1.
  assert (Hs1 : samples s1 = samples s ++ xs) by (by rewrite E1).
  destruct (chain_dispose _ _ _ _ _ Hc2) as [Hdis Hc3].
  destruct rest as [|[d' i'] rest], l' as [|[q' w'] l']; try done; cbn [app hd_addr next] in *.
  - rewrite (proj2 (Z.eqb_neq _ _) (chain_next _ _ [] _ _ _ _ _ Hc2)).
    rewrite (chain_load _ _ [_] _ _ _ Hc2), outcome_bind_ret. cbn [next hd_addr]. rewrite Z.eqb_refl.
    rewrite outcome_bind_ret, Hdis, outcome_bind_ret. unfold free_node.
    rewrite (proj2 (Z.eqb_neq _ _) (chain_next _ _ [] _ _ _ _ _ Hc2)).
    destruct (chain_dispose _ _ _ _ _ Hc3) as [-> Hc4]. rewrite outcome_bind_ret.
    destruct (callback_again rows t (with_list (delete z (delete q h)) NULL s1) [] (rows_changed a)
      Hrows Hok1 Hc4) as (s' & -> & Hh); [by rewrite E1..|].
    exists s'. split; [done|]. rewrite <- M1, <- Hsm, <- Hs1. exact Hh.
  - injection Hv2 as -> Hv2.
    rewrite (proj2 (Z.eqb_neq _ _) (chain_next _ _ [] _ _ _ _ _ Hc2)).
    rewrite (chain_load _ _ [_] _ _ _ Hc2), outcome_bind_ret. cbn [next val interval fst snd].
    assert (Hnn : hd_addr (l' ++ [(z, last_node)]) <> NULL).
    { destruct l' as [|[x w] l']; apply (chain_next _ _ [_] _ _ _ _ _ Hc2). }
    rewrite (proj2 (Z.eqb_neq _ _) Hnn), outcome_bind_ret, Hdis, outcome_bind_ret.
    destruct (collect_rest rows (with_list (delete q h) q' s1) base t d (rows_changed a) al q' d' i' l' z rest)
      as (s' & Hs & Hh); try done; [by rewrite E1..| |].
    { apply Forall_inv in Hle. unfold sample_le, delay_ok in *. cbn [fst] in *. lia. }
    exists s'. split; [exact Hs|]. rewrite <- Hsm, <- Hs1. exact Hh.
Qed.

(** ** The handlers *)

(** A plan made by an idle collector. *)
Lemma callback_idle rows t s c t0 r al : Forall row_fits rows -> alarms_ok s ->
  mine (thealarms s) = [al] -> shows s (Idle t0) r al ->
  exists s', RTC_callback lw tz clock rows t (with_changed (if c : bool then 1 else 0) s) = Ret s' /\
    rep s' (MkCollector (replan tz rows t) c (samples s)) /\
    clientreg <$> mine (thealarms s') = [regnum s].
Proof using Hmalloc Hlw Hclock.
  intros Hrows Hok Hal Hsh. pose proof (shows_reg _ _ _ _ Hsh) as Hreg. destruct Hsh as (Hc & _ & H1 & H2 & H3).
  destruct (callback_holds rows t (with_changed (if c then 1 else 0) s) [] Hrows Hok Hc) as (s' & -> & Hm & Hh).
  assert (Hf : mine (foreign (with_changed (if c then 1 else 0) s)) = []).
  { rewrite mine_foreign by done. cbn [with_changed thealarms guiRTCReg1 guiRTCReg2 guiRTCReg3].
    rewrite Hal, H1, H2, H3, <- Hreg. simpl. by rewrite Z.eqb_refl. }
  rewrite Hf in Hm, Hh. exists s'. split; [done|]. split; [by apply Hh|done].
Qed.

Lemma holds_alarms pre s a l n : holds pre s a -> regs_ok l n (guiRTCLogFileSendReg (thelog s)) ->
  forall pre', (forall al, mine (thealarms s) = pre ++ [al] -> mine l = pre' ++ [al]) ->
  holds pre' (with_alarms l n s) a.
Proof.
  intros (Hch & Hsm & _ & r & al & Hal & Hsh) Hok pre' Hl. split_and!; try done.
  exists r, al. split; [by apply Hl|]. destruct s. by destruct (activity a).
Qed.

(** An alarm that was handled is removed. *)
Lemma unregister_rep s a al : holds [al] s a -> rep (snmp_alarm_unregister (clientreg al) s) a.
Proof.
  intros Hh. pose proof Hh as (_ & _ & Hok & _). apply (holds_alarms [al]); [done|by apply regs_ok_remove|].
  intros al' Hal. destruct Hok as (Hnd & _). rewrite mine_remove, Hal by done. simpl. by rewrite Z.eqb_refl.
Qed.
Lemma unregister_other s a reg : rep s a -> reg ∉ clientreg <$> mine (thealarms s) ->
  rep (snmp_alarm_unregister reg s) a.
Proof.
  intros Hh Hreg. pose proof Hh as (_ & _ & Hok & _). apply (holds_alarms []); [done|by apply regs_ok_remove|].
  intros al Hal. destruct Hok as (Hnd & _). by rewrite mine_remove, remove_none.
Qed.

(** What the log does. *)
Lemma logs_rep s s' a : rep s a -> logs s s' -> rep s' a.
Proof.
  intros (Hch & Hsm & Hok & r & al & Hal & Hsh) (E & M & A). rewrite E.
  split_and!; [done|done| |].
  - specialize (A Hok). by rewrite E in A.
  - exists r, al. split; [by rewrite <- E, M|]. by destruct (activity a).
Qed.

(** The alarm that is called next, of the collector or of the log. *)
Definition next_mine (s : rtc) : bool :=
  match sa_find_next (thealarms s) None with Some a => negb (sends_file a) | None => false end.

Lemma sa_find_next_elem l low a : sa_find_next l low = Some a -> a ∈ l \/ low = Some a.
Proof.
  revert low. induction l as [|b l IH]; intros low; simpl; [by right|]. intros [Hin|Hlow]%IH.
  - left. by right.
  - destruct low as [b'|]; [case_match|]; simplify_eq; [left; left|by right|left; left].
Qed.

Lemma run_alarm_rep rows s a : Forall row_fits rows -> rep s a ->
  exists s', run_alarm lw tz clock rows s = Ret s' /\
    rep s' (if next_mine s then abs_alarm tz rows a else a).
Proof using All.
  intros Hrows Hrep. pose proof Hrep as (Hch & Hsm & Hok & r & al & Hal & Hsh). unfold run_alarm, next_mine.
  destruct (sa_find_next (thealarms s) None) as [b|] eqn:Hnext; [|by exists s].
  apply sa_find_next_elem in Hnext as [Hin|]; [|done]. destruct (sends_file b) eqn:Hb; cbn [negb].
  - assert (thecallback b = Call_RTC_Thread_Transfer_File) as -> by (unfold sends_file in Hb; by case_match).
    rewrite outcome_bind_ret. eexists. split; [done|].
    pose proof (Thread_Transfer_logs (due b) s) as Hlogs. apply unregister_other; [by apply (logs_rep s)|].
    destruct Hlogs as (_ & -> & _). intros (b' & E & Hin')%list_elem_of_fmap.
    assert (b = b') as <-; [|by apply list_elem_of_In, List.filter_In in Hin' as [_ Hb']; rewrite Hb in Hb'].
    apply (sublist_subseteq _ _ (mine_sublist _)) in Hin'. destruct Hok as (Hnd & _).
    clear -Hnd Hin Hin' E. induction (thealarms s) as [|c l IH]; [by apply not_elem_of_nil in Hin|].
    csimpl in Hnd. apply NoDup_cons in Hnd as [Hc Hnd].
    apply elem_of_cons in Hin as [->|Hin], Hin' as [->|Hin']; auto; destruct Hc;
      apply list_elem_of_fmap; eauto.
  - assert (b = al) as ->.
    { assert (b ∈ mine (thealarms s)) as Hm.
      { apply list_elem_of_In, List.filter_In. rewrite Hb. split; [by apply list_elem_of_In|done]. }
      rewrite Hal in Hm. by apply list_elem_of_singleton in Hm. }
    pose proof (shows_reg _ _ _ _ Hsh) as Hreg. destruct (activity a) as [t|base todo] eqn:Ha.
    + destruct (callback_idle rows t s (rows_changed a) t r al Hrows Hok Hal Hsh) as (s' & Hs & Hr' & Hm).
      destruct Hsh as (_ & -> & _). cbn [thecallback due clientreg].
      assert (with_changed (if rows_changed a then 1 else 0) s = s) as Hs0 by (rewrite <- Hch; by destruct s).
      rewrite Hs0 in Hs. rewrite Hs, outcome_bind_ret. eexists. split; [done|].
      pose proof (mine_range s r _ Hok Hal Hreg) as Hlt. apply unregister_other; [|rewrite Hm; set_solver by lia].
      unfold abs_alarm. rewrite Ha, <- Hsm. done.
    + destruct (collect_spec rows s a base todo r al Hrows Ha Hrep Hal Hsh) as (s' & Hs & Hh).
      assert (thecallback al = Call_RTC_Collect (gpstHeadList s)) as ->
        by (by destruct Hsh as (? & ? & _ & _ & _ & _ & _ & -> & _)).
      rewrite Hreg, Hs, outcome_bind_ret. eexists. split; [done|]. rewrite <- Hreg. by apply unregister_rep.
Qed.
Lemma sa_find_next_None l low : sa_find_next l low = None -> l = [] /\ low = None.
Proof.
  revert low. induction l as [|b l IH]; intros low; simpl; [done|]. intros [_ Hlow]%IH.
  destruct low; [case_match|]; done.
Qed.

Lemma remove_length a l : a ∈ l -> (length (remove_alarm (clientreg a) l) < length l)%nat.
Proof.
  induction l as [|b l IH]; [by intros ?%not_elem_of_nil|]. intros Hin. simpl.
  destruct (Z.eqb_spec (clientreg b) (clientreg a)) as [|Hne]; [simpl; lia|].
  apply elem_of_cons in Hin as [->|Hin]; [done|]. simpl. specialize (IH Hin). lia.
Qed.

(** The alarms of the log are used up. *)
Lemma run_alarm_shorter rows s a s' : rep s a -> next_mine s = false ->
  run_alarm lw tz clock rows s = Ret s' -> (length (thealarms s') < length (thealarms s))%nat.
Proof.
  intros (_ & _ & _ & r & al & Hal & _). unfold next_mine, run_alarm.
  destruct (sa_find_next (thealarms s) None) as [b|] eqn:Hnext.
  - intros Hb%negb_false_iff. apply sa_find_next_elem in Hnext as [Hin|]; [|done].
    assert (thecallback b = Call_RTC_Thread_Transfer_File) as -> by (unfold sends_file in Hb; by case_match).
    rewrite outcome_bind_ret. intros [= <-]. cbn.
    assert (thealarms (RTC_Thread_Transfer_File (due b) s) = thealarms s) as ->.
    { unfold RTC_Thread_Transfer_File. by case_match. }
    by apply remove_length.
  - apply sa_find_next_None in Hnext as [Hnil _]. by rewrite Hnil in Hal.
Qed.

Lemma set_commit_rep rows t s a : Forall row_fits rows -> rep s a ->
  exists s', set_commit lw tz clock rows t s = Ret s' /\ rep s' (abs_commit tz rows t a).
Proof using All.
  intros Hrows (Hch & Hsm & Hok & r & al & Hal & Hsh). unfold set_commit, abs_commit.
  pose proof (mine_range s r al Hok Hal (shows_reg _ _ _ _ Hsh)) as Hr.
  destruct (activity a) as [t0|base todo] eqn:Ha.
  - assert (guiRTCReg1 s = r) as -> by apply Hsh. rewrite (proj2 (Z.eqb_neq _ _)) by lia. cbn [negb].
    destruct (callback_idle rows t s false t0 r al Hrows Hok Hal Hsh) as (s' & -> & Hrep & _).
    exists s'. split; [done|]. by rewrite <- Hsm.
  - assert (guiRTCReg1 s = 0) as -> by (destruct Hsh as (? & ? & ? & ? & ? & ? & ? & ? & ? & ?); done).
    cbn [Z.eqb negb]. eexists. split; [done|]. split_and!; [done..|]. exists r, al.
    split; [done|]. by destruct s.
Qed.

Lemma start_rep rows t : Forall row_fits rows ->
  exists s', RTC_callback lw tz clock rows t rtc_start = Ret s' /\ rep s' (abs_init tz rows t).
Proof using All.
  intros Hrows. destruct (callback_holds rows t rtc_start [] Hrows) as (s' & Hs & _ & Hh).
  - split_and!; [constructor|done|constructor|done|apply not_elem_of_nil].
  - by apply chain_nil.
  - exists s'. split; [done|]. exact (Hh false eq_refl).
Qed.
End Refine.
