(* ===== verification/CollectProps.v ===== *)
(** * Runs of the collector

    Sequences of alarms and changes of rows, on the code and on the
    specification, and what becomes of a plan whose rows stay as they are. *)

From S2P Require Import Prelude Heap ListSort CTypes JobTime Collect CollectSpec CollectCalc.
From S2P Require Import CollectRefine CollectForm.
From stdpp Require Import list.
From Stdlib Require Import Sorted.

#[local] Open Scope Z_scope.

(** ** Runs

    The alarm that is due next goes off, a row is set in second [t], or the
    thread that sends the log file comes to its next step; the rows are those of
    the table at that moment. *)
Inductive event :=
| Ev_alarm (rows : list row)
| Ev_commit (rows : list row) (t : Z)
| Ev_thread (t : Z).

Definition event_rows (e : event) : list row :=
  match e with Ev_alarm rows | Ev_commit rows _ => rows | Ev_thread _ => [] end.
Definition event_ok `{Agent} (e : event) : Prop := Forall row_fits (event_rows e).

(** Events that do not set a row. *)
Definition quiet (rows : list row) (e : event) : Prop :=
  match e with Ev_alarm rows' => rows' = rows | Ev_commit _ _ => False | Ev_thread _ => True end.

(** The alarms of the log and the steps of its thread are not the collector's. *)
Definition of_collector (s : rtc) (e : event) : bool :=
  match e with Ev_alarm _ => next_mine s | Ev_commit _ _ => true | Ev_thread _ => false end.

Section Run.
Context `{Allocator} `{Agent}.
Variables (lw tz : Z) (clock : Z -> nat -> Z).

Definition step (e : event) (s : rtc) : outcome rtc :=
  match e with
  | Ev_alarm rows => run_alarm lw tz clock rows s
  | Ev_commit rows t => set_commit lw tz clock rows t s
  | Ev_thread t => RTC_Transfer_File t s
  end.

(** The events of the collector among those that happened, and the state after them. *)
Fixpoint run (es : list event) (s : rtc) : outcome (list event * rtc) :=
  match es with
  | [] => mret ([], s)
  | e :: es =>
      s' ← step e s; '(own, s'') ← run es s';
      mret (if of_collector s e then e :: own else own, s'')
  end.
End Run.

Definition abs_step `{Agent} (tz : Z) (e : event) (a : collector) : collector :=
  match e with
  | Ev_alarm rows => abs_alarm tz rows a
  | Ev_commit rows t => abs_commit tz rows t a
  | Ev_thread _ => a
  end.
Definition abs_run `{Agent} (tz : Z) (es : list event) (a : collector) : collector :=
  foldl (fun a e => abs_step tz e a) a es.

(** ** Working through a plan *)
Definition last_delay (l : list sample) : Z := match last l with Some (d, _) => d | None => 0 end.
Definition at_second (T : Z) (x : sample) : Z * Z := (T + x.1, x.2).

Lemma abs_drain `{Agent} tz rows T todo : todo <> [] -> forall taken0, exists n,
  abs_run tz (replicate n (Ev_alarm rows)) (MkCollector (Collecting T todo) false taken0) =
  MkCollector (replan tz rows (T + last_delay todo)) false
    (taken0 ++ List.filter (readable rows) (map (at_second T) todo)).
Proof.
  induction todo as [[|[d i] todo] IH] using (induction_ltof1 _ length); [done|]. intros _ taken0.
  pose proof (split_group_app d todo) as Hsp. destruct (split_group d todo) as [g rest] eqn:Hg.
  cbn [fst snd] in Hsp.
  assert (Hmap : map (at_second T) ((d, i) :: todo) =
    map (fun j => (T + d, j)) (i :: g) ++ map (at_second T) rest).
  { rewrite <- Hsp. cbn [map]. rewrite map_app, map_map. done. }
  destruct rest as [|x rest].
  - exists 1%nat. unfold abs_run. cbn [replicate foldl abs_step]. unfold abs_alarm. cbn [activity taken rows_changed].
    rewrite Hg, Hmap, app_nil_r. do 3 f_equal.
    unfold last_delay. rewrite app_nil_r in Hsp. subst todo. clear. destruct g as [|j g] using rev_ind; [done|].
    rewrite map_app, app_comm_cons. cbn [map]. by rewrite last_snoc.
  - destruct (IH (x :: rest)) with (taken0 := taken0 ++ List.filter (readable rows) (map (fun j => (T + d, j)) (i :: g))) as [n Hn].
    + unfold ltof. rewrite <- Hsp. simpl. rewrite length_app. simpl. lia.
    + done.
    + exists (S n). cbn [replicate]. unfold abs_run. cbn [foldl abs_step]. unfold abs_alarm. cbn [activity taken rows_changed].
      rewrite Hg. unfold abs_run in Hn. rewrite Hn, Hmap, List.filter_app, <- app_assoc. do 3 f_equal.
      unfold last_delay. rewrite <- Hsp, app_comm_cons, last_app_cons. done.
Qed.

(** ** Plans *)
Lemma plan_elem tz T i rows d idx :
  (d, idx) ∈ plan tz T i rows <->
  exists r k, r ∈ rows /\ planned tz T r = true /\ (k < sample_count tz T i r)%nat /\
    idx = collectDataIndex r /\ d = first_delay tz T r + Z.of_nat k * period tz T r.
Proof.
  unfold plan, row_delays. rewrite list_elem_of_In, in_concat. split.
  - intros (l & Hl & Hin). apply in_map_iff in Hl as (r & <- & Hr). rewrite map_map in Hin.
    apply in_map_iff in Hin as (k & [= <- <-] & Hk%in_seq).
    apply list_elem_of_In, list_elem_of_filter in Hr as [Hp Hr]. exists r, k. split_and!; done || lia.
  - intros (r & k & Hr & Hp & Hk & -> & ->). eexists. split.
    + apply in_map, list_elem_of_In, list_elem_of_filter. by split.
    + rewrite map_map. apply in_map_iff. exists k. split; [done|]. apply in_seq. lia.
Qed.

Lemma plan_at_elem tz T rows x :
  x ∈ plan_at tz T rows <-> x ∈ plan tz T (planned_interval tz T rows) rows.
Proof. unfold plan_at. by rewrite sort_plan_Permutation. Qed.

(** A single second is never planned more than twice for a row. *)
Lemma sample_count_second tz T r : row_ok r -> planned tz T r = true ->
  Z.of_nat (sample_count tz T 1 r) <= 2.
Proof.
  intros Hr Hp. pose proof (row_ranges tz T r Hr) as (? & ? & ?). unfold planned, row_due in Hp. boolify.
  assert (Hp0 : period tz T r <> 0) by (apply Z.eqb_neq; done).
  pose proof (first_delay_range tz T r ltac:(lia)). unfold sample_count.
  set (F := period tz T r) in *. set (d := first_delay tz T r) in *. set (E := end_of tz T r) in *.
  set (C := sec_of_day tz T) in *.
  assert (1 / F <= 1) by (apply Z.div_le_upper_bound; lia).
  case_match eqn:Hlt; [lia|]. apply Z.ltb_ge in Hlt.
  assert ((E - C) / F <= 2) by (apply Z.div_le_upper_bound; nia). lia.
Qed.

Lemma plan_length tz T rows : Forall row_ok rows ->
  Z.of_nat (length (plan tz T (planned_interval tz T rows) rows)) <=
  Z.max (RTC_MAX_LIST_NODES + Z.of_nat (length rows)) (2 * Z.of_nat (length rows)).
Proof.
  intros Hok. destruct (planned_interval_range tz T rows) as [Hi [Hmax|H1]].
  - enough (Z.of_nat (length (plan tz T (planned_interval tz T rows) rows)) <=
      expected tz T (planned_interval tz T rows) rows + Z.of_nat (length rows)) by lia.
    clear Hmax. revert Hi. generalize (planned_interval tz T rows). intros i Hi.
    induction Hok as [|r rows Hr _ IH]; [done|]. rewrite plan_cons, length_app. cbn [expected length].
    destruct (planned tz T r) eqn:Hp; [|unfold counted; rewrite Hp; simpl; lia].
    pose proof (proj1 (sample_count_bound tz T i r Hr Hp Hi)).
    unfold row_plan, row_delays. rewrite !length_map, length_seq. lia.
  - rewrite H1. clear H1 Hi. enough (Z.of_nat (length (plan tz T 1 rows)) <= 2 * Z.of_nat (length rows)) by lia.
    induction Hok as [|r rows Hr _ IH]; [done|]. rewrite plan_cons, length_app. cbn [length].
    destruct (planned tz T r) eqn:Hp; [|simpl; lia]. pose proof (sample_count_second tz T r Hr Hp).
    unfold row_plan, row_delays. rewrite !length_map, length_seq. lia.
Qed.

(** ** The code *)
Section Guarantees.
Context `{Allocator} `{Agent}.
Hypothesis Hmalloc : malloc_total.
Hypothesis Hfiles : files_open.
Variables (lw tz : Z) (clock : Z -> nat -> Z).
Hypothesis Hlw : lw = 32 \/ lw = 64.
Hypothesis Hclock : forall t n, clock t n = t.

Lemma step_rep e s a : event_ok e -> rep s a ->
  exists s', step lw tz clock e s = Ret s' /\ rep s' (if of_collector s e then abs_step tz e a else a).
Proof using All.
  destruct e; intros Hok Hr; [by apply run_alarm_rep|by apply set_commit_rep|].
  pose proof Hr as (_ & _ & Ha & _). destruct (transfer_logs Hfiles t s Ha) as (s' & Hs & Hl).
  exists s'. split; [done|]. by apply (logs_rep s).
Qed.

Lemma run_rep es s a : Forall event_ok es -> rep s a ->
  exists own s', run lw tz clock es s = Ret (own, s') /\ rep s' (abs_run tz own a).
Proof using All.
  intros Hok. revert s a. induction Hok as [|e es He _ IH]; intros s a Hr; [by exists [], s|].
  destruct (step_rep e s a He Hr) as (s1 & Hs & Hr1). cbn [run]. rewrite Hs, outcome_bind_ret.
  destruct (IH s1 _ Hr1) as (own & s2 & -> & Hr2). rewrite outcome_bind_ret.
  do 2 eexists. split; [done|]. by destruct (of_collector s e).
Qed.

Lemma run_own rows es s own s' : Forall (quiet rows) es -> run lw tz clock es s = Ret (own, s') ->
  own = replicate (length own) (Ev_alarm rows).
Proof.
  intros Hq. revert s own. induction Hq as [|e es He _ IH]; intros s own; cbn [run].
  - by intros [= <- _].
  - intros (s1 & _ & (x & Hx & Hret)%outcome_bind_Ret_inv)%outcome_bind_Ret_inv. destruct x as [own1 s2].
    injection Hret as <- <-. apply IH in Hx. destruct e as [rows'| |]; cbn [of_collector]; try done.
    cbn in He. subst rows'. destruct (next_mine s); [|done]. cbn [length replicate]. by rewrite <- Hx.
Qed.

(** The alarms of the log that are due first are followed by the collector's. *)
Lemma own_alarm rows s a : Forall row_fits rows -> rep s a ->
  exists k s', run lw tz clock (replicate k (Ev_alarm rows)) s = Ret ([Ev_alarm rows], s') /\
    rep s' (abs_alarm tz rows a).
Proof using All.
  intros Hrows. induction s as [s IH] using (induction_ltof1 _ (fun s => length (thealarms s))). intros Hrep.
  destruct (run_alarm_rep Hmalloc lw tz clock Hlw Hclock Hfiles rows s a Hrows Hrep) as (s1 & Hs1 & Hr1).
  destruct (next_mine s) eqn:Hm.
  - exists 1%nat, s1. cbn [replicate run step]. rewrite Hs1, outcome_bind_ret. cbn. by rewrite Hm.
  - pose proof (run_alarm_shorter lw tz clock rows s a s1 Hrep Hm Hs1) as Hlt.
    destruct (IH s1 Hlt Hr1) as (k & s2 & Hrun & Hr2). exists (S k), s2.
    cbn [replicate run step]. rewrite Hs1, outcome_bind_ret, Hrun, outcome_bind_ret. cbn. by rewrite Hm.
Qed.

Lemma run_app es1 es2 s : run lw tz clock (es1 ++ es2) s =
  ('(own1, s1) ← run lw tz clock es1 s; '(own2, s2) ← run lw tz clock es2 s1; mret (own1 ++ own2, s2)).
Proof.
  revert s. induction es1 as [|e es1 IH]; intros s; cbn [run app].
  - rewrite outcome_bind_ret. by destruct (run lw tz clock es2 s) as [[]| |].
  - destruct (step lw tz clock e s) as [s1| |]; [|done..]. rewrite !outcome_bind_ret, IH.
    destruct (run lw tz clock es1 s1) as [[own1 s2]| |]; [|done..]. rewrite !outcome_bind_ret.
    destruct (run lw tz clock es2 s2) as [[own2 s3]| |]; [|done..]. rewrite !outcome_bind_ret.
    by destruct (of_collector s e).
Qed.

Lemma own_alarms rows n s a : Forall row_fits rows -> rep s a ->
  exists k s', run lw tz clock (replicate k (Ev_alarm rows)) s = Ret (replicate n (Ev_alarm rows), s').
Proof using All.
  intros Hrows. revert s a. induction n as [|n IH]; intros s a Hrep; [by exists O, s|].
  destruct (own_alarm rows s a Hrows Hrep) as (k1 & s1 & H1 & Hr1).
  destruct (IH s1 _ Hr1) as (k2 & s2 & H2). exists (k1 + k2)%nat, s2.
  by rewrite replicate_add, run_app, H1, outcome_bind_ret, H2, outcome_bind_ret.
Qed.

(** A plan made at [T], whose rows are not set again. *)
Lemma run_plan rows T s a : Forall row_fits rows -> rep s a ->
  activity a = replan tz rows T -> rows_changed a = false -> plan_at tz T rows <> [] ->
  exists n,
    (forall es own s', Forall (quiet rows) es -> run lw tz clock es s = Ret (own, s') -> length own = n ->
      samples s' = samples s ++ List.filter (readable rows) (map (at_second T) (plan_at tz T rows)) /\
      rep s' (MkCollector (replan tz rows (T + last_delay (plan_at tz T rows))) false (samples s'))) /\
    exists k s', run lw tz clock (replicate k (Ev_alarm rows)) s = Ret (replicate n (Ev_alarm rows), s').
Proof using All.
  intros Hok Hr Ha Hc Hp. pose proof Hr as (_ & Htk & _). destruct a as [act ch tk]. cbn in *. subst act ch.
  assert (Hplan : exists n, abs_run tz (replicate n (Ev_alarm rows)) (MkCollector (replan tz rows T) false tk) =
    MkCollector (replan tz rows (T + last_delay (plan_at tz T rows))) false
      (tk ++ List.filter (readable rows) (map (at_second T) (plan_at tz T rows)))).
  { unfold replan at 1. destruct (plan_at tz T rows) as [|x todo]; [done|]. by apply abs_drain. }
  destruct Hplan as [n Hn]. exists n. split; [|by eapply own_alarms].
  intros es own s' Hq Hrun Hlen. assert (Hes : Forall event_ok es).
  { eapply Forall_impl; [exact Hq|]. intros []; cbn; intros E; [by subst|done|constructor]. }
  destruct (run_rep es s _ Hes Hr) as (own' & s1 & Hrun' & Hr').
  rewrite Hrun' in Hrun. injection Hrun as -> ->. rewrite (run_own rows es s own s' Hq Hrun'), Hlen, Hn in Hr'.
  assert (Hsm : samples s' = tk ++ List.filter (readable rows) (map (at_second T) (plan_at tz T rows)))
    by apply Hr'.
  rewrite Htk. split; [done|]. by rewrite Hsm.
Qed.
End Guarantees.

(** * What the collector guarantees

    The properties of collectDataTable.c, for rows in range, memory that does
    not run out, calls that end in the second in which they begin, and a log
    file that can be opened. *)

#[local] Open Scope Z_scope.

Section Properties.
Context `{Allocator} `{Agent}.
Hypothesis Hmalloc : malloc_total.
Hypothesis Hfiles : files_open.
Variables (lw tz : Z) (clock : Z -> nat -> Z).
Hypothesis Hlw : lw = 32 \/ lw = 64.
Hypothesis Hclock : forall t n, clock t n = t.



(** The samples that are read of a plan. *)
Lemma plan_runs rows T s a :
  Forall row_fits rows -> rep s a -> activity a = replan tz rows T -> rows_changed a = false ->
  plan_at tz T rows <> [] ->
  exists k own s', run lw tz clock (replicate k (Ev_alarm rows)) s = Ret (own, s') /\
    samples s' = samples s ++ List.filter (readable rows) (map (at_second T) (plan_at tz T rows)).
Proof using All.
  intros Hok Hr Ha Hc Hp. destruct (run_plan Hmalloc Hfiles lw tz clock Hlw Hclock rows T s a)
    as (n & Hall & k & s' & Hrun); try done.
  exists k, (replicate n (Ev_alarm rows)), s'. split; [done|].
  eapply Hall; [|exact Hrun|apply length_replicate]. by apply Forall_replicate.
Qed.

(** The list that Form_Linked_List makes has a node for each sample of the
    plan and one for the end, and the search for an interval that keeps it short
    ends: there are at most 5000 samples and one for each row, or two for each
    row when there are more than 5000 rows. *)
Theorem plan_size clk T rows h a v n :
  (forall m, clk m = T) -> Forall row_ok rows -> chain h a [(a, v)] ->
  exists h' len m, Form_Linked_List lw tz clk rows a h n = Ret (h', len, m) /\
    Z.of_nat (size h') = len + 1 /\
    len <= Z.max (RTC_MAX_LIST_NODES + Z.of_nat (length rows)) (2 * Z.of_nat (length rows)).
Proof using Hmalloc Hlw.
  intros Hclk Hok Hc. destruct (Form_spec Hmalloc tz T lw clk Hlw Hclk rows h a v n Hc Hok)
    as (h' & l & z & m & -> & Hc' & Hv).
  do 3 eexists. split; [done|]. split; [|by apply plan_length].
  rewrite (chain_size _ _ _ Hc'), length_app. apply (f_equal length) in Hv.
  unfold nodes_of in Hv. rewrite length_fmap, length_map in Hv. simpl. lia.
Qed.

(** A row that is set takes effect at once when the collector is idle, and
    otherwise with its next alarm, unless that takes the last samples of its
    plan, in which case the plan made then has the new rows as well. *)
Theorem commit_takes_effect rows t s a :
  Forall row_fits rows -> rep s a ->
  exists s1, set_commit lw tz clock rows t s = Ret s1 /\
    match activity a with
    | Idle _ => rep s1 (MkCollector (replan tz rows t) false (taken a))
    | Collecting base todo => exists k s2 c new,
        run lw tz clock (replicate k (Ev_alarm rows)) s1 = Ret ([Ev_alarm rows], s2) /\
        rep s2 (MkCollector (replan tz rows (due_at (activity a))) c (taken a ++ new))
    end.
Proof using All.
  intros Hok Hr. destruct (set_commit_rep Hmalloc lw tz clock Hlw Hclock Hfiles rows t s a Hok Hr) as (s1 & Hs1 & Hr1).
  exists s1. split; [done|]. unfold abs_commit in Hr1. destruct (activity a) as [|base todo] eqn:Ha; [done|].
  destruct (own_alarm Hmalloc Hfiles lw tz clock Hlw Hclock rows s1 _ Hok Hr1) as (k & s2 & Hs2 & Hr2).
  unfold abs_alarm in Hr2. cbn [activity rows_changed taken] in Hr2.
  destruct todo as [|[d i] todo].
  { destruct Hr as (_ & _ & _ & r & al & _ & Hsh). rewrite Ha in Hsh.
    by destruct Hsh as (? & ? & _ & _ & ? & _). }
  destruct (split_group d todo) as [g [|x rest]]; exists k, s2; do 2 eexists; (split; [done|exact Hr2]).
Qed.

(** A row whose next sample comes after its hours is sampled all the same,
    once: RTC_Calc_Num_Nodes_Interval passes over such a row,
    RTC_Add_Intervals_To_List does not. *)
Theorem sampled_after_end rows r T s a :
  Forall row_fits rows -> rep s a -> activity a = replan tz rows T -> rows_changed a = false ->
  r ∈ rows -> planned tz T r = true -> end_of tz T r < sec_of_day tz T + first_delay tz T r ->
  readable rows (T + first_delay tz T r, collectDataIndex r) = true ->
  counted tz T r = false /\
  exists n own s', run lw tz clock (replicate n (Ev_alarm rows)) s = Ret (own, s') /\
    (T + first_delay tz T r, collectDataIndex r) ∈ samples s'.
Proof using All.
  intros Hok Hr Ha Hc Hin Hp Hend Hread. split.
  { unfold counted. rewrite Hp. apply Z.leb_gt. lia. }
  assert (Hmem : (first_delay tz T r, collectDataIndex r) ∈ plan_at tz T rows).
  { apply plan_at_elem, plan_elem. exists r, O. split_and!; try done; [|lia]. unfold sample_count. lia. }
  destruct (plan_runs rows T s a) as (n & own & s' & Hrun & Hsm); try done.
  { intros E. rewrite E in Hmem. by apply not_elem_of_nil in Hmem. }
  exists n, own, s'. split; [done|]. rewrite Hsm. apply elem_of_app. right.
  apply list_elem_of_In, List.filter_In. split; [|done]. apply in_map_iff.
  eexists. split; [|by apply list_elem_of_In]. done.
Qed.

(** A plan made in a second of a row's schedule, as those are that follow a
    plan which was on it, takes the next sample one second later and all its
    samples one second off the schedule. *)
Theorem schedule_slips r T s a :
  row_fits r -> rep s a -> activity a = replan tz [r] T -> rows_changed a = false ->
  planned tz T r = true -> 1 < period tz T r ->
  (sec_of_day tz T - start_of tz T r) mod period tz T r = 0 ->
  readable [r] (T + 1, collectDataIndex r) = true ->
  exists n own s' l, run lw tz clock (replicate n (Ev_alarm [r])) s = Ret (own, s') /\
    samples s' = samples s ++ l /\ (T + 1, collectDataIndex r) ∈ l /\
    Forall (fun x => (sec_of_day tz T + (x.1 - T) - start_of tz T r) mod period tz T r = 1) l.
Proof using All.
  intros Hr Hrep Ha Hc Hp Hper Hmod Hread.
  assert (Hf : first_delay tz T r = 1).
  { unfold first_delay. rewrite Hmod, Z.sub_0_r, Z.eqb_refl. done. }
  assert (Hmem : (1, collectDataIndex r) ∈ plan_at tz T [r]).
  { apply plan_at_elem, plan_elem. exists r, O. split_and!; [by left|done|unfold sample_count; lia|done|lia]. }
  destruct (plan_runs [r] T s a) as (n & own & s' & Hrun & Hsm); try done.
  { by apply Forall_singleton. }
  { intros E. rewrite E in Hmem. by apply not_elem_of_nil in Hmem. }
  exists n, own, s', (List.filter (readable [r]) (map (at_second T) (plan_at tz T [r]))).
  split_and!; [done..| |].
  - apply list_elem_of_In, List.filter_In. split; [|done]. apply in_map_iff.
    eexists. split; [|by apply list_elem_of_In]. done.
  - apply Forall_forall. intros x Hx. apply list_elem_of_In, List.filter_In in Hx as [Hx _].
    apply in_map_iff in Hx as ([d idx] & <- & Hx).
    apply list_elem_of_In, plan_at_elem, plan_elem in Hx as (r' & k & Hr' & _ & _ & _ & ->).
    apply list_elem_of_singleton in Hr' as ->. cbn [at_second fst snd]. rewrite Hf.
    replace (sec_of_day tz T + (T + (1 + Z.of_nat k * period tz T r) - T) - start_of tz T r)
      with (1 + (sec_of_day tz T - start_of tz T r) + Z.of_nat k * period tz T r) by lia.
    rewrite Z_mod_plus_full, Zplus_mod, Hmod, Z.add_0_r, Z.mod_mod, Z.mod_small by lia. done.
Qed.
End Properties.
