(* ===== verification/CollectDemo.v ===== *)
(** * A table with one row

    Concrete inputs at which the theorems of CollectProps are applied. *)

From Stdlib Require Import String.
From S2P Require Import Prelude Heap ListSort CTypes CText JobTime Collect CollectSpec CollectCalc.
From S2P Require Import CollectRefine CollectForm CollectProps.
From stdpp Require Import list.
#[local] Open Scope Z_scope.
#[local] Existing Instance bump_allocator.

(** The years 2020 to 2030, every day from nine to [end_] in seconds, every ten
    minutes. *)
Definition demo_row (end_ : Z) : row :=
  let d := MkDay (32400 * 100) (end_ * 100) 600 in
  MkRow 7 [1; 3; 6; 1; 2; 1; 1; 3; 0] [7; 228; 1; 1; 0; 0; 0; 0] [7; 238; 1; 1; 0; 0; 0; 0] d d d d d d d 1.

(** Ten o'clock on Monday, 4 March 2024. *)
Definition ten : Z := 1709546400.
Definition still (t : Z) (_ : nat) : Z := t.

(** An agent whose variables are 42, with a log file of this name and limit, sent
    every day. *)
Definition demo_agent (name : text) (limit : Z) (opens threads : bool) : Agent :=
  Build_Agent (fun _ _ => Access (Signed 42)) (fun _ => MkSettings name limit 86400)
    (fun _ _ => opens) (fun _ => threads).
Definition usual : Agent := demo_agent [] 1000 true true.
#[local] Existing Instance usual.

Lemma usual_files : files_open.
Proof. intros t. split; [simpl; lia|done]. Qed.

Lemma demo_ok e : 0 <= e <= 86400 -> row_fits (demo_row e).
Proof.
  intros He. split; [unfold row_ok, day_ok, demo_row; simpl; lia|]. split; [reflexivity|].
  intros t. exists 0, (dec 42). by split.
Qed.
Lemma demo_rows_ok e : 0 <= e <= 86400 -> Forall row_fits [demo_row e].
Proof. intros. apply Forall_singleton. by apply demo_ok. Qed.

(** The plan of the next hour, made seven seconds past ten. *)
Example demo_plan :
  plan_at 0 (ten + 7) [demo_row 61200] = [(593, 7); (1193, 7); (1793, 7); (2393, 7); (2993, 7); (3593, 7)].
Proof. vm_compute. reflexivity. Qed.

(** The code, from the start through so many alarms of a demo row. *)
Definition demo_events (n : nat) : list event := replicate n (Ev_alarm [demo_row 61200]).
Definition demo_from (a : Agent) (es : list event) : outcome (list event * rtc) :=
  s ← RTC_callback 64 0 still [demo_row 61200] (ten + 7) rtc_start; run 64 0 still es s.

(** Two samples: an alarm for the third and one to send the file in a day. *)
Example demo_run :
  match demo_from usual (demo_events 2) with
  | Ret (own, s) => length own = 2%nat /\ samples s = [(ten + 600, 7); (ten + 1200, 7)] /\
      map due (thealarms s) = [ten + 87000; ten + 1800] /\ size (nodes s) = 5%nat /\
      lines (thelog s) = [MkLine (ten + 600) (text_of ".1.3.6.1.2.1.1.3.0") (text_of "42");
                          MkLine (ten + 1200) (text_of ".1.3.6.1.2.1.1.3.0") (text_of "42")]
  | _ => False
  end.
Proof. vm_compute. done. Qed.

(** No log file can be opened: a second alarm of the collector makes a new plan in
    a minute. *)
Example no_file_makes_plan :
  match demo_from (demo_agent [] 1000 false true) (demo_events 1),
        demo_from (demo_agent [] 1000 false true) (demo_events 2) with
  | Ret (_, s1), Ret (_, s2) =>
      map due (mine (thealarms s1)) = [ten + 660; ten + 1200] /\ guiRTCReg1 s1 <> 0 /\
      map due (mine (thealarms s2)) = [ten + 1200] /\ lines (thelog s2) = []
  | _, _ => False
  end.
Proof. vm_compute. split_and!; done. Qed.

(** The thread closes the default file; the samples that come while it sends are
    read but not logged. *)
Example line_lost_while_sending :
  let a := Build_Agent (fun _ _ => Access (Signed 42)) (fun _ => MkSettings [] 1000 300)
             (fun _ _ => true) (fun _ => true) in
  match demo_from a (demo_events 2 ++ [Ev_thread (ten + 900)] ++ demo_events 1) with
  | Ret (_, s) => samples s = [(ten + 600, 7); (ten + 1200, 7)] /\ length (lines (thelog s)) = 1%nat
  | _ => False
  end.
Proof. vm_compute. done. Qed.

(** Each time the file is full the alarm to send it is set twice, and the first is
    forgotten. *)
Example full_file_doubles_alarm :
  match demo_from (demo_agent (text_of "/tmp/log") 0 true true)
          (demo_events 1 ++ [Ev_thread (ten + 600); Ev_thread (ten + 601)]) with
  | Ret (_, s) => length (List.filter sends_file (thealarms s)) = 2%nat
  | _ => False
  end.
Proof. vm_compute. done. Qed.

(** A thread that cannot be made is taken to be running ever after. *)
Example failed_thread_blocks_sending :
  match demo_from (demo_agent (text_of "/tmp/log") 0 true false) (demo_events 1) with
  | Ret (_, s) => giFTProgress (thelog s) = true /\ ghRTCPThread (thelog s) = None
  | _ => False
  end.
Proof. vm_compute. done. Qed.

Lemma demo_start e t : 0 <= e <= 86400 ->
  exists s, rep s (abs_init 0 [demo_row e] t).
Proof.
  intros He. destruct (start_rep bump_total 64 0 still (or_intror eq_refl) (fun _ _ => eq_refl) usual_files
    [demo_row e] t (demo_rows_ok e He)) as (s & _ & Hr). by exists s.
Qed.



Lemma plan_size_witness :
  let h := <[8 := Node (MkList 0 0) NULL]> ∅ in
  exists h' len m, Form_Linked_List 64 0 (still ten) [demo_row 61200] 8 h 0 = Ret (h', len, m) /\
    Z.of_nat (size h') = len + 1 /\ len <= 5001.
Proof.
  intros h. assert (Hc : chain h 8 [(8, MkList 0 0)]).
  { by apply chain_singleton. }
  destruct (plan_size bump_total 64 0 (or_intror eq_refl) (still ten) ten [demo_row 61200] h 8 _ O
    (fun _ => eq_refl) (fits_ok _ (demo_rows_ok 61200 ltac:(lia))) Hc) as (h' & len & m & Hf & Hs & Hl).
  exists h', len, m. split; [exact Hf|]. split; [exact Hs|]. unfold RTC_MAX_LIST_NODES in Hl. simpl in Hl. lia.
Defined.

Lemma commit_takes_effect_witness :
  exists s s1 k s2 c new, set_commit 64 0 still [demo_row 61200] (ten + 9) s = Ret s1 /\
    run 64 0 still (replicate k (Ev_alarm [demo_row 61200])) s1 = Ret ([Ev_alarm [demo_row 61200]], s2) /\
    rep s2 (MkCollector (replan 0 [demo_row 61200] (ten + 600)) c new).
Proof.
  destruct (demo_start 61200 (ten + 7)) as (s & Hr); [lia|].
  destruct (commit_takes_effect bump_total usual_files 64 0 still (or_intror eq_refl) (fun _ _ => eq_refl)
    [demo_row 61200] (ten + 9) s _ (demo_rows_ok 61200 ltac:(lia)) Hr) as (s1 & Hs1 & Hrest).
  assert (Ha : activity (abs_init 0 [demo_row 61200] (ten + 7)) =
    Collecting (ten + 7) (plan_at 0 (ten + 7) [demo_row 61200])) by (vm_compute; reflexivity).
  rewrite Ha in Hrest. destruct Hrest as (k & s2 & c & new & Hs2 & Hr2).
  assert (Hd : due_at (Collecting (ten + 7) (plan_at 0 (ten + 7) [demo_row 61200])) = ten + 600)
    by (vm_compute; reflexivity).
  rewrite Hd in Hr2. exists s, s1, k, s2, c. eexists. split; [exact Hs1|]. split; [exact Hs2|exact Hr2].
Defined.

(** Hours until 16:58 and a plan made at 16:55. *)
Lemma sampled_after_end_witness :
  exists n own s s', run 64 0 still (replicate n (Ev_alarm [demo_row 61080])) s = Ret (own, s') /\
    (ten + 25200, 7) ∈ samples s'.
Proof.
  destruct (demo_start 61080 (ten + 24900)) as (s & Hr); [lia|].
  destruct (sampled_after_end bump_total usual_files 64 0 still (or_intror eq_refl) (fun _ _ => eq_refl)
    [demo_row 61080] (demo_row 61080) (ten + 24900) s _ (demo_rows_ok 61080 ltac:(lia)) Hr eq_refl eq_refl)
    as (_ & n & own & s' & Hrun & Hin);
    [by left|vm_compute; reflexivity|vm_compute; reflexivity|vm_compute; reflexivity|].
  assert (E : ten + 24900 + first_delay 0 (ten + 24900) (demo_row 61080) = ten + 25200)
    by (vm_compute; reflexivity).
  rewrite E in Hin. exists n, own, s, s'. split; [exact Hrun|exact Hin].
Defined.

(** A plan made at ten o'clock. *)
Lemma schedule_slips_witness :
  exists n own s s' l, run 64 0 still (replicate n (Ev_alarm [demo_row 61200])) s = Ret (own, s') /\
    samples s' = samples s ++ l /\ (ten + 1, 7) ∈ l.
Proof.
  destruct (demo_start 61200 ten) as (s & Hr); [lia|].
  destruct (schedule_slips bump_total usual_files 64 0 still (or_intror eq_refl) (fun _ _ => eq_refl)
    (demo_row 61200) ten s _ (demo_ok 61200 ltac:(lia)) Hr eq_refl eq_refl)
    as (n & own & s' & l & Hrun & Hsm & Hin & _); [vm_compute; reflexivity..|].
  exists n, own, s, s', l. split; [exact Hrun|]. split; [exact Hsm|exact Hin].
Defined.
