(* ===== verification/Master.v ===== *)
(** * The master agent (src/Group1/MasterAgent/src: NASCenter_MA.c and
      NASCenter_MA_Fw.c)

    Requests of managers are queued by the callback of the SNMP session and
    forwarded, one after the other, by a thread of their own: to the main agent
    or to the sub-agent whose enterprise number the first variable has. *)

From S2P Require Import Prelude Heap CTypes SchedTypes SchedTable UtilList CText.
From stdpp Require Import list.
#[local] Open Scope Z_scope.

Definition SNMP_MSG_GET : Z := 160.
Definition SNMP_MSG_GETNEXT : Z := 161.
Definition SNMP_MSG_SET : Z := 163.
Definition SNMP_MSG_GETBULK : Z := 165.

Definition MAX_SUB_AGENTS : nat := 5.
Definition ENTERPRISE_OID_POS : nat := 7.
Definition MAX_REPEATORS_FOR_AGENT_CONFIG : Z := 20.
Definition NAS_SUBAGENT_ENTERPRISE_OID : Z := 3204.

Definition gOidSAPortOID : list Z := [1; 3; 6; 1; 4; 1; 3204; 1; 3; 34; 5; 5; 0].
Definition mib2OID : list Z := [1; 3; 6; 1; 2; 1].
Definition subAgentTable : list Z := [1; 3; 6; 1; 4; 1; 3204; 1; 3; 34; 5].

(** [snmp_pdu]; the address and port are those of [transport_data]. *)
Record pdu := MkPdu {
  command : Z; reqid : Z; errstat : Z; errindex : Z; variables : list variable;
  sin_port : Z; sin_addr : Z
}.

(** The agents: what [snmp_synch_response] gives, [None] when it is not
    [STAT_SUCCESS]. *)
Class Network := {
  net : Type;
  snmp_synch_response : pdu -> net -> option pdu * net
}.

(** What the manager and the client of XML requests see: a request sent on and
    its reply, a request thrown away, a reply to the manager, a message about the
    end of a SET. *)
Inductive ma_event :=
| Forwarded (p : pdu) (reply : option pdu)
| Dropped (p : pdu)
| Replied (p : pdu)
| SetFailed (reqid code : Z)
| SetDone (reqid : Z).

(** The globals, the requests in the heap, and [nassaflag] of [sendPDU], which
    lives from one request to the next. *)
Record ma `{Network} := MkMa {
  ma_heap : gmap Z (node Z); gstRequestList : slot; ma_pdus : gmap Z pdu;
  giSAPort : list Z; giSAIP : list text; giSAEnterprise : list Z;
  reloadConfig : bool; giNASSAConfigRead : bool;
  nassaflag : bool;
  ma_net : net; ma_log : list ma_event
}.

Section Master.
Context `{Network} `{Allocator}.
(** Whether the program is built with XMLSET; the width of [oid]; the port of
    the main agent and the address of the host. *)
Variables (XMLSET : bool) (lw : Z) (giNASSAPort : Z) (localIP : text).

Definition with_queue (h : gmap Z (node Z)) (L : slot) (P : gmap Z pdu) (s : ma) : ma :=
  MkMa _ h L P (giSAPort s) (giSAIP s) (giSAEnterprise s) (reloadConfig s) (giNASSAConfigRead s)
       (nassaflag s) (ma_net s) (ma_log s).
Definition with_agents (ports : list Z) (ips : list text) (ents : list Z) (s : ma) : ma :=
  MkMa _ (ma_heap s) (gstRequestList s) (ma_pdus s) ports ips ents (reloadConfig s)
       (giNASSAConfigRead s) (nassaflag s) (ma_net s) (ma_log s).
Definition with_reload (b : bool) (s : ma) : ma :=
  MkMa _ (ma_heap s) (gstRequestList s) (ma_pdus s) (giSAPort s) (giSAIP s) (giSAEnterprise s) b
       (giNASSAConfigRead s) (nassaflag s) (ma_net s) (ma_log s).
Definition with_read (s : ma) : ma :=
  MkMa _ (ma_heap s) (gstRequestList s) (ma_pdus s) (giSAPort s) (giSAIP s) (giSAEnterprise s)
       (reloadConfig s) true (nassaflag s) (ma_net s) (ma_log s).
Definition with_flag (b : bool) (s : ma) : ma :=
  MkMa _ (ma_heap s) (gstRequestList s) (ma_pdus s) (giSAPort s) (giSAIP s) (giSAEnterprise s)
       (reloadConfig s) (giNASSAConfigRead s) b (ma_net s) (ma_log s).
Definition with_net (k : net) (s : ma) : ma :=
  MkMa _ (ma_heap s) (gstRequestList s) (ma_pdus s) (giSAPort s) (giSAIP s) (giSAEnterprise s)
       (reloadConfig s) (giNASSAConfigRead s) (nassaflag s) k (ma_log s).
Definition emit (es : list ma_event) (s : ma) : ma :=
  MkMa _ (ma_heap s) (gstRequestList s) (ma_pdus s) (giSAPort s) (giSAIP s) (giSAEnterprise s)
       (reloadConfig s) (giNASSAConfigRead s) (nassaflag s) (ma_net s) (ma_log s ++ es).

(** ** The table of sub-agents *)

(** Four octets as text, in sixteen bytes. *)
Definition print_ip (v : variable) : outcome text :=
  match val_string v with
  | a :: b :: c :: d :: _ => mret (dotted (UI8 a) (UI8 b) (UI8 c) (UI8 d))
  | _ => Crash
  end.

Definition integer_of (vars : list variable) : outcome Z :=
  match vars with
  | v :: _ => match val_integer v with Some x => mret (I32 x) | None => Crash end
  | [] => Crash
  end.

(** The loop over the entries: address, port, a variable that is passed over,
    enterprise. *)
Fixpoint read_agents (n i : nat) (vars : list variable) (ports : list Z) (ips : list text)
    (ents : list Z) : outcome (list Z * list text * list Z) :=
  match n with
  | O => mret (ports, ips, ents)
  | S n =>
      ip ← match vars with v :: _ => print_ip v | [] => Crash end;
      port ← integer_of (drop 1 vars);
      ent ← integer_of (drop 3 vars);
      read_agents n (S i) (drop 4 vars) (<[i := port]> ports) (<[i := ip]> ips) (<[i := ent]> ents)
  end.

Definition config_request : pdu :=
  MkPdu SNMP_MSG_GETBULK 0 0 MAX_REPEATORS_FOR_AGENT_CONFIG [MkVariable gOidSAPortOID 0 [] None]
        (UI16 giNASSAPort) (inet_addr localIP).

(** Only the first ten numbers of the table's identifier are compared. *)
Definition MA_NASSAReadConfig (s : ma) : outcome ma :=
  let s := with_reload false s in
  let '(r, k) := snmp_synch_response config_request (ma_net s) in
  let s := with_net k s in
  s ← match r with
      | Some resp =>
          if errstat resp =? 0 then
            match variables resp with
            | [] => Crash
            | v :: _ =>
                if under (take 10 subAgentTable) v then
                  '(ports, ips, ents) ← read_agents MAX_SUB_AGENTS 0 (variables resp)
                                          (giSAPort s) (giSAIP s) (giSAEnterprise s);
                  mret (with_agents ports ips ents s)
                else mret s
            end
          else mret s
      | None => mret s
      end;
  mret (with_read s).

(** ** Receiving *)
Definition is_request (c : Z) : bool :=
  (c =? SNMP_MSG_GET) || (c =? SNMP_MSG_SET) || (c =? SNMP_MSG_GETNEXT) || (c =? SNMP_MSG_GETBULK).

(** The copy of the request is queued, or a null pointer when it can not be
    copied. *)
Definition enqueue (p : pdu) (s : ma) : outcome ma :=
  let request := malloc (dom (ma_pdus s)) in
  let P := if request =? NULL then ma_pdus s else <[request := p]> (ma_pdus s) in
  '(_, h, L) ← addToList (ma_heap s) (gstRequestList s) request;
  mret (with_queue h L P s).

(** Whether the condition is signalled, and the state. *)
Definition MA_Receiver (pdu : option pdu) (s : ma) : outcome (bool * ma) :=
  match pdu with
  | None => mret (false, s)
  | Some p =>
      if negb (is_request (command p)) then mret (false, s) else
      if XMLSET && (command p =? SNMP_MSG_SET) then mret (false, s) else
      s ← enqueue p s; mret (true, s)
  end.

(** ** Forwarding *)

(** The section that holds the lock of the list. *)
Definition take_request (s : ma) : outcome (Z * ma) :=
  pduElement ← load (ma_heap s) (pHead (gstRequestList s));
  let request := val pduElement in
  '(_, h, L) ← deleteFromList (ma_heap s) (gstRequestList s) request;
  mret (request, with_queue h L (ma_pdus s) s).

(** The loop that compares the enterprise; the index is MAX_SUB_AGENTS when no
    entry has it.  The port that the code tests as well is the array itself. *)
Fixpoint find_enterprise (ents : list Z) (e : Z) (i : nat) : nat :=
  match ents with
  | [] => i
  | x :: ents => if x mod 2 ^ lw =? e then i else find_enterprise ents e (S i)
  end.

(** [nassaflag] and the index, for a request whose first variable is [v]. *)
Definition choose_agent (v : variable) (s : ma) : outcome (nat * ma) :=
  if under mib2OID v then mret (MAX_SUB_AGENTS, with_flag true s) else
  s ← (if reloadConfig s then MA_NASSAReadConfig s else mret s);
  match name v !! (ENTERPRISE_OID_POS - 1)%nat with
  | None => mret (MAX_SUB_AGENTS, with_flag true s)
  | Some e =>
      if e =? NAS_SUBAGENT_ENTERPRISE_OID then mret (MAX_SUB_AGENTS, with_flag true s) else
      let i := find_enterprise (giSAEnterprise s) e 0 in
      mret (i, if bool_decide (i = MAX_SUB_AGENTS) then s else with_flag false s)
  end.

Definition at_ {A} (l : list A) (i : nat) : outcome A :=
  match l !! i with Some x => mret x | None => Crash end.

Definition redirect (port addr : Z) (p : pdu) : pdu :=
  MkPdu (command p) (reqid p) (errstat p) (errindex p) (variables p) port addr.

(** The messages to the client of an XML SET; only positive codes are sent. *)
Definition sendErrorMsg (reqID errCode : Z) : list ma_event :=
  if 0 <? errCode then [SetFailed reqID errCode] else [].
Definition sendSuccessMsg (reqID : Z) : list ma_event := [SetDone reqID].

(** What follows the reply of the agent. *)
Definition answer (p : pdu) (setRequest : Z) (r : option pdu) : list ma_event :=
  if XMLSET && negb (setRequest =? 0) then
    match r with
    | Some resp =>
        if negb (errstat resp =? 0) then sendErrorMsg setRequest (errstat resp)
        else sendSuccessMsg setRequest
    | None => sendErrorMsg setRequest 0
    end
  else match r with Some resp => [Replied (redirect (sin_port p) (sin_addr p) resp)] | None => [] end.

(** One round of [sendPDU] for the request at an address, whose memory is freed
    by the library when it has been sent. *)
Definition forward (request : Z) (s : ma) : outcome ma :=
  p ← match ma_pdus s !! request with Some p => mret p | None => Crash end;
  let free s := with_queue (ma_heap s) (gstRequestList s) (delete request (ma_pdus s)) s in
  match variables p with
  | [] => mret (emit [Dropped p] (free s))
  | v :: _ =>
      '(i, s) ← choose_agent v s;
      if negb (nassaflag s) && bool_decide (i = MAX_SUB_AGENTS)
      then mret (emit [Dropped p] (free s)) else
      '(port, addr) ← (if nassaflag s then mret (giNASSAPort, localIP)
                       else port ← at_ (giSAPort s) i; ip ← at_ (giSAIP s) i; mret (port, ip));
      let p' := redirect (UI16 port) (inet_addr addr) p in
      let set := command p =? SNMP_MSG_SET in
      let s := if set && under subAgentTable v then with_reload true s else s in
      let '(r, k) := snmp_synch_response p' (ma_net s) in
      mret (emit (Forwarded p' r :: answer p (if set then I32 (reqid p) else 0) r)
                 (free (with_net k s)))
  end.

(** ** The threads

    The forwarding thread tests the count of the list without the lock, and
    waits for the condition with a lock that the receiver does not hold. *)
Inductive sender := Testing | Blocking | Waiting | Taking | Serving (request : Z).

#[export] Instance sender_eq_dec : EqDecision sender.
Proof. solve_decision. Defined.

Definition signalled (c : sender) : sender := match c with Waiting => Testing | _ => c end.

(** A step of the forwarding thread; [None] while it waits. *)
Definition sender_step (x : sender * ma) : outcome (option (sender * ma)) :=
  let '(c, s) := x in
  match c with
  | Testing => mret (Some (if nSize (gstRequestList s) =? 0 then Blocking else Taking, s))
  | Blocking => mret (Some (Waiting, s))
  | Waiting => mret None
  | Taking => '(request, s) ← take_request s; mret (Some (Serving request, s))
  | Serving request => s ← forward request s; mret (Some (Testing, s))
  end.

Definition receive_step (p : option pdu) (x : sender * ma) : outcome (sender * ma) :=
  '(b, s) ← MA_Receiver p x.2;
  mret (if b : bool then signalled x.1 else x.1, s).

(** An arrival, or a step of the thread, or a return from the wait for no
    reason. *)
Inductive ma_step : sender * ma -> option pdu -> sender * ma -> Prop :=
| step_receive x p x' : receive_step p x = Ret x' -> ma_step x p x'
| step_sender x x' : sender_step x = Ret (Some x') -> ma_step x None x'
| step_spurious s : ma_step (Waiting, s) None (Testing, s).

Inductive ma_steps : sender * ma -> list pdu -> sender * ma -> Prop :=
| steps_refl x : ma_steps x [] x
| steps_more x ps y p z :
    ma_steps x ps y -> ma_step y p z -> ma_steps x (ps ++ option_list p) z.

(** The state when the threads start: the configuration is read once. *)
Definition start (ips : list text) (k : net) : outcome ma :=
  let '(h, L) := (∅, initList) in
  MA_NASSAReadConfig
    (MkMa _ h L ∅ (replicate MAX_SUB_AGENTS 0) ips (replicate MAX_SUB_AGENTS 0) false false false k []).
End Master.
