(* ===== verification/MasterProofs.v ===== *)
(** * What the master agent does for a manager

    Requests are served in order of arrival by a proxy that knows a table of
    sub-agents; no heap, no list of pointers, no threads.  The second part shows
    that the master agent does that. *)

From S2P Require Import Prelude Heap CTypes SchedTypes SchedTable UtilList CText Master.
From stdpp Require Import list.

#[local] Open Scope Z_scope.

Record agent := MkAgent { ag_port : Z; ag_ip : text; ag_enterprise : Z }.

(** The rows of a response, four variables each. *)
Definition row_of (vars : list variable) : option (agent * list variable) :=
  match vars with
  | ip :: port :: _ :: ent :: rest =>
      match val_string ip, val_integer port, val_integer ent with
      | a :: b :: c :: d :: _, Some x, Some e =>
          Some (MkAgent (I32 x) (dotted (UI8 a) (UI8 b) (UI8 c) (UI8 d)) (I32 e), rest)
      | _, _, _ => None
      end
  | _ => None
  end.

Fixpoint agents_of (n : nat) (vars : list variable) : option (list agent) :=
  match n with
  | O => Some []
  | S n => match row_of vars with
           | Some (g, rest) => cons g <$> agents_of n rest
           | None => None
           end
  end.

Record proxy `{Network} := MkProxy {
  px_table : list agent;
  px_stale : bool;        (* the table is read again before it is used *)
  px_main : bool;         (* the last request with an agent went to the main agent *)
  px_net : net
}.

Section Spec.
Context `{Network}.
Variables (XMLSET : bool) (lw : Z) (giNASSAPort : Z) (localIP : text).
Abbreviation config_request := (config_request giNASSAPort localIP).

(** ** The table is read *)
Definition table_in (resp : pdu) : option (list agent) :=
  match variables resp with
  | v :: _ => if (errstat resp =? 0) && under (take 10 subAgentTable) v
              then agents_of MAX_SUB_AGENTS (variables resp) else None
  | [] => None
  end.

Definition reread (a : proxy) : proxy :=
  let '(r, k) := snmp_synch_response config_request (px_net a) in
  MkProxy _ (default (px_table a) (r ≫= table_in)) false (px_main a) k.

(** ** Where a request goes *)
Inductive destination := Main | Sub (g : agent) | Nowhere.

Definition enterprise (v : variable) : option Z := name v !! (ENTERPRISE_OID_POS - 1)%nat.

(** Requests for the main agent: MIB-II, identifiers that are too short to have
    an enterprise, and its own enterprise. *)
Definition for_main (v : variable) : bool :=
  under mib2OID v ||
  match enterprise v with Some e => e =? NAS_SUBAGENT_ENTERPRISE_OID | None => true end.

Definition agent_for (tbl : list agent) (v : variable) : option agent :=
  find (fun g => bool_decide (Some (ag_enterprise g mod 2 ^ lw) = enterprise v)) tbl.

Definition target_of (tbl : list agent) (last_main : bool) (v : variable) : destination :=
  if for_main v then Main
  else match agent_for tbl v with
       | Some g => Sub g
       | None => if last_main then Main else Nowhere
       end.

(** ** Serving *)
Definition refresh (v : variable) (a : proxy) : proxy :=
  if negb (under mib2OID v) && px_stale a then reread a else a.

Definition send (p : pdu) (port : Z) (ip : text) (main : bool) (v : variable) (a : proxy)
    : proxy * list ma_event :=
  let p' := redirect (UI16 port) (inet_addr ip) p in
  let set := command p =? SNMP_MSG_SET in
  let stale := set && under subAgentTable v || px_stale a in
  let '(r, k) := snmp_synch_response p' (px_net a) in
  (MkProxy _ (px_table a) stale main k,
   Forwarded p' r :: answer XMLSET p (if set then I32 (reqid p) else 0) r).

Definition serve (p : pdu) (a : proxy) : proxy * list ma_event :=
  match variables p with
  | [] => (a, [Dropped p])
  | v :: _ =>
      let a := refresh v a in
      match target_of (px_table a) (px_main a) v with
      | Main => send p giNASSAPort localIP true v a
      | Sub g => send p (ag_port g) (ag_ip g) false v a
      | Nowhere => (a, [Dropped p])
      end
  end.

Fixpoint serve_all (ps : list pdu) (a : proxy) : proxy * list ma_event :=
  match ps with
  | [] => (a, [])
  | p :: ps => let '(a, es) := serve p a in
               let '(a, es') := serve_all ps a in (a, es ++ es')
  end.

Lemma serve_all_snoc ps p a :
  serve_all (ps ++ [p]) a =
    let '(a1, es) := serve_all ps a in let '(a2, es') := serve p a1 in (a2, es ++ es').
Proof.
  revert a. induction ps as [|q ps IH]; intros a; cbn [app serve_all].
  - destruct (serve p a) as [a1 es]. by rewrite app_nil_r.
  - destruct (serve q a) as [a1 es]. rewrite IH. destruct (serve_all ps a1) as [a2 es2].
    destruct (serve p a2) as [a3 es3]. by rewrite app_assoc.
Qed.

(** Which messages are requests that are queued. *)
Definition accepted (p : pdu) : Prop :=
  is_request (command p) = true /\ XMLSET && (command p =? SNMP_MSG_SET) = false.
#[export] Instance accepted_dec p : Decision (accepted p).
Proof. unfold accepted. apply _. Defined.

(** The agents answer the request for the table with a whole table, or with
    something else. *)
Definition whole_tables : Prop :=
  forall k resp k', snmp_synch_response config_request k = (Some resp, k') -> errstat resp = 0 ->
    exists v rest, variables resp = v :: rest /\
      (under (take 10 subAgentTable) v = true ->
       exists l, agents_of MAX_SUB_AGENTS (variables resp) = Some l).
End Spec.

(** * The master agent refines the proxy *)

#[local] Open Scope Z_scope.

(** The arrays are the columns of the table. *)
Record agents_rep `{Network} (s : ma) (a : proxy) : Prop := {
  ar_len : length (px_table a) = MAX_SUB_AGENTS;
  ar_port : giSAPort s = ag_port <$> px_table a;
  ar_ip : giSAIP s = ag_ip <$> px_table a;
  ar_ent : giSAEnterprise s = ag_enterprise <$> px_table a;
  ar_stale : reloadConfig s = px_stale a;
  ar_main : nassaflag s = px_main a;
  ar_net : ma_net s = px_net a
}.

(** ** Reading the table *)
Lemma agents_of_length n vars l : agents_of n vars = Some l -> length l = n.
Proof.
  revert vars l. induction n as [|n IH]; intros vars l Hl; cbn in Hl; [by injection Hl as <-|].
  destruct (row_of vars) as [[g rest]|]; [|done].
  apply fmap_Some in Hl as (l' & Hl' & ->). simpl. f_equal. by eapply IH.
Qed.

Lemma read_agents_row n i vars ports ips ents g rest : row_of vars = Some (g, rest) ->
  read_agents (S n) i vars ports ips ents =
    read_agents n (S i) rest (<[i := ag_port g]> ports) (<[i := ag_ip g]> ips)
      (<[i := ag_enterprise g]> ents).
Proof.
  unfold row_of. intros Hg. cbn [read_agents].
  destruct vars as [|ip [|port [|x [|ent vars]]]]; try done.
  unfold print_ip, integer_of. cbn [drop] in *. change (drop 0 vars) with vars.
  destruct (val_string ip) as [|a [|b [|c [|d tl]]]]; try done.
  destruct (val_integer port), (val_integer ent); try done. injection Hg as <- <-. done.
Qed.

Lemma insert_column {A} (l1 l2 : list A) (x y : A) (i : nat) : length l1 = i ->
  <[i := x]> (l1 ++ y :: l2) = (l1 ++ [x]) ++ l2.
Proof. intros <-. rewrite <- (Nat.add_0_r (length l1)), insert_app_r, <- app_assoc. done. Qed.

(** The rows read so far, and what is behind them in the arrays. *)
Lemma read_agents_spec n i vars l pre (old : list agent) :
  agents_of n vars = Some l -> length pre = i -> length old = n ->
  read_agents n i vars (ag_port <$> pre ++ old) (ag_ip <$> pre ++ old) (ag_enterprise <$> pre ++ old) =
    Ret (ag_port <$> pre ++ l, ag_ip <$> pre ++ l, ag_enterprise <$> pre ++ l).
Proof.
  revert i vars l pre old. induction n as [|n IH]; intros i vars l pre old Hl Hd Ho.
  { cbn in Hl. injection Hl as <-. by apply nil_length_inv in Ho as ->. }
  cbn in Hl. destruct (row_of vars) as [[g rest]|] eqn:Hg; [|done].
  apply fmap_Some in Hl as (l' & Hl' & ->). destruct old as [|o old]; [done|].
  rewrite (read_agents_row _ _ _ _ _ _ g rest Hg), !fmap_app. csimpl.
  rewrite !insert_column by (by rewrite length_fmap).
  pose proof (IH (S i) rest l' (pre ++ [g]) old Hl' ltac:(rewrite length_app; simpl; lia)
                ltac:(simpl in Ho; lia)) as E.
  rewrite <- !app_assoc, !fmap_app in E. csimpl in E. rewrite <- !app_assoc. exact E.
Qed.

Section Proofs.
Context `{Network} `{Allocator}.
Variables (XMLSET : bool) (lw : Z) (giNASSAPort : Z) (localIP : text).
Hypothesis Hwhole : whole_tables giNASSAPort localIP.

(** The queue of [s] is that of [s']. *)
Definition same_queue (s s' : ma) : Prop :=
  ma_heap s' = ma_heap s /\ gstRequestList s' = gstRequestList s /\ ma_pdus s' = ma_pdus s /\
  ma_log s' = ma_log s.

Lemma MA_NASSAReadConfig_spec s a : agents_rep s a ->
  exists s', MA_NASSAReadConfig giNASSAPort localIP s = Ret s' /\
    agents_rep s' (reread giNASSAPort localIP a) /\ same_queue s s'.
Proof using Hwhole.
  intros [Hlen Hp Hi He Hst Hm Hn]. unfold MA_NASSAReadConfig, reread. cbn [ma_net with_reload].
  rewrite Hn. destruct (snmp_synch_response _ (px_net a)) as [[resp|] k] eqn:Hr.
  2: { rewrite outcome_bind_ret. eexists. split; [done|]. by split. }
  destruct (Z.eqb_spec (errstat resp) 0) as [E|E].
  2: { rewrite outcome_bind_ret. eexists. split; [done|].
       assert (table_in resp = None) as Ht.
       { unfold table_in. rewrite (proj2 (Z.eqb_neq _ _) E). by destruct (variables resp). }
       cbn [mbind option_bind]. rewrite Ht. by split. }
  destruct (Hwhole _ _ _ Hr E) as (v & rest & Hv & Hl). cbn [mbind option_bind]. unfold table_in.
  rewrite E, Z.eqb_refl. rewrite Hv in *. cbn [andb].
  destruct (under (take 10 subAgentTable) v).
  - destruct (Hl eq_refl) as (l & Hl'). rewrite Hl'.
    cbn [with_net with_reload giSAPort giSAIP giSAEnterprise]. rewrite Hp, Hi, He.
    pose proof (read_agents_spec MAX_SUB_AGENTS 0 (v :: rest) l [] (px_table a) Hl' eq_refl Hlen) as Hread.
    cbn [app] in Hread. rewrite Hread, !outcome_bind_ret. eexists. split; [done|].
    split; [|done]. split; try done. by eapply agents_of_length.
  - rewrite outcome_bind_ret. eexists. split; [done|]. by split.
Qed.

(** ** Choosing an agent *)
Lemma find_enterprise_spec tbl v e i : enterprise v = Some e ->
  match agent_for lw tbl v with
  | Some g => exists n, find_enterprise lw (ag_enterprise <$> tbl) e i = (i + n)%nat /\
                (n < length tbl)%nat /\ tbl !! n = Some g
  | None => find_enterprise lw (ag_enterprise <$> tbl) e i = (i + length tbl)%nat
  end.
Proof.
  intros He. unfold agent_for. rewrite He. revert i.
  induction tbl as [|g tbl IH]; intros i; csimpl; cbn [find find_enterprise]; [lia|].
  destruct (Z.eqb_spec (ag_enterprise g mod 2 ^ lw) e) as [E|E].
  - rewrite bool_decide_eq_true_2 by (by rewrite E). exists O. split; [lia|]. split; [simpl; lia|done].
  - rewrite bool_decide_eq_false_2 by congruence. specialize (IH (S i)).
    destruct (find _ tbl) as [g'|].
    + destruct IH as (n & -> & Hn & Hg). exists (S n). split; [lia|]. split; [simpl; lia|done].
    + rewrite IH. simpl. lia.
Qed.

Lemma choose_agent_spec v s a : agents_rep s a ->
  let a1 := refresh giNASSAPort localIP v a in
  exists i s' m, choose_agent lw giNASSAPort localIP v s = Ret (i, s') /\ same_queue s s' /\
    agents_rep s' (MkProxy _ (px_table a1) (px_stale a1) m (px_net a1)) /\
    match target_of lw (px_table a1) (px_main a1) v with
    | Main => m = true
    | Sub g => m = false /\ px_table a1 !! i = Some g
    | Nowhere => m = false /\ px_main a1 = false /\ i = MAX_SUB_AGENTS
    end.
Proof using Hwhole.
  intros Ha. unfold refresh, choose_agent, target_of, for_main.
  destruct (under mib2OID v) eqn:Hm; cbn [negb andb orb].
  { exists MAX_SUB_AGENTS, (with_flag true s), true. split; [done|]. split; [done|].
    split; [|done]. by destruct Ha. }
  set (a1 := if px_stale a then _ else a).
  assert (exists s1, (if reloadConfig s then MA_NASSAReadConfig giNASSAPort localIP s else mret s) = Ret s1 /\
    agents_rep s1 a1 /\ same_queue s s1) as (s1 & -> & Ha1 & Hq).
  { unfold a1. rewrite (ar_stale _ _ Ha). destruct (px_stale a).
    - by apply MA_NASSAReadConfig_spec.
    - by exists s. }
  rewrite outcome_bind_ret. clearbody a1. fold (enterprise v).
  destruct (enterprise v) as [e|] eqn:He.
  2: { exists MAX_SUB_AGENTS, (with_flag true s1), true. split; [done|]. split; [done|].
       split; [|done]. by destruct Ha1. }
  destruct (e =? NAS_SUBAGENT_ENTERPRISE_OID).
  { exists MAX_SUB_AGENTS, (with_flag true s1), true. split; [done|]. split; [done|].
    split; [|done]. by destruct Ha1. }
  pose proof (find_enterprise_spec (px_table a1) v e 0 He) as Hf. rewrite (ar_ent _ _ Ha1).
  pose proof (ar_len _ _ Ha1) as Hlen. destruct (agent_for lw (px_table a1) v) as [g|].
  - destruct Hf as (n & -> & Hn & Hg). cbn [Nat.add]. rewrite bool_decide_eq_false_2 by lia.
    exists n, (with_flag false s1), false. split; [done|]. split; [done|]. split; [by destruct Ha1|done].
  - rewrite Hf. cbn [Nat.add]. rewrite bool_decide_eq_true_2 by lia.
    exists (length (px_table a1)), s1, (px_main a1). split; [done|]. split; [done|].
    split; [by destruct Ha1|]. rewrite Hlen. by destruct (px_main a1).
Qed.

(** ** Serving a request *)
Lemma at_fmap {A B} (f : A -> B) l i x : l !! i = Some x -> at_ (f <$> l) i = Ret (f x).
Proof. intros Hl. unfold at_. by rewrite list_lookup_fmap, Hl. Qed.

Lemma forward_spec r p s a : ma_pdus s !! r = Some p -> agents_rep s a ->
  exists s', forward XMLSET lw giNASSAPort localIP r s = Ret s' /\
    agents_rep s' (serve XMLSET lw giNASSAPort localIP p a).1 /\
    ma_log s' = ma_log s ++ (serve XMLSET lw giNASSAPort localIP p a).2 /\
    ma_heap s' = ma_heap s /\ gstRequestList s' = gstRequestList s /\
    ma_pdus s' = delete r (ma_pdus s).
Proof using Hwhole.
  intros Hp Ha. unfold forward, serve. rewrite Hp, outcome_bind_ret.
  destruct (variables p) as [|v vars].
  { eexists. split; [done|]. by destruct Ha. }
  destruct (choose_agent_spec v s a Ha) as (i & s1 & m & Hc & (Hq1 & Hq2 & Hq3 & Hq4) & Ha1 & Ht).
  rewrite Hc, outcome_bind_ret. pose proof (ar_main _ _ Ha1) as Hm. cbn [px_main] in Hm. rewrite Hm.
  set (a1 := refresh giNASSAPort localIP v a) in *. clearbody a1.
  destruct Ha1 as [Hlen Hport Hip Hent Hst _ Hnet].
  cbn [px_table px_stale px_net] in Hlen, Hport, Hip, Hent, Hst, Hnet.
  destruct (target_of lw (px_table a1) (px_main a1) v) as [|g|].
  - subst m. cbn [negb andb]. rewrite outcome_bind_ret. unfold send.
    destruct (_ && under subAgentTable v) eqn:Hset; cbn [orb ma_net with_reload];
      rewrite Hnet; destruct (snmp_synch_response _ _) as [resp k] eqn:Hk;
      (eexists; split; [done|]); cbn; rewrite Hq1, Hq2, Hq3, Hq4; by repeat split.
  - destruct Ht as [-> Hg]. cbn [negb andb].
    rewrite bool_decide_eq_false_2 by (apply lookup_lt_Some in Hg; lia).
    rewrite Hport, Hip, !(at_fmap _ _ _ _ Hg), !outcome_bind_ret. unfold send.
    destruct (_ && under subAgentTable v) eqn:Hset; cbn [orb ma_net with_reload];
      rewrite Hnet; destruct (snmp_synch_response _ _) as [resp k] eqn:Hk;
      (eexists; split; [done|]); cbn; rewrite Hq1, Hq2, Hq3, Hq4; by repeat split.
  - destruct Ht as (-> & Hmain & ->). rewrite bool_decide_eq_true_2 by done. cbn [negb andb].
    eexists. split; [done|]. cbn. rewrite Hq1, Hq2, Hq3, Hq4.
    repeat split; cbn; congruence.
Qed.
End Proofs.

(** ** The queue *)
Section Queue.
Context `{Network} `{Allocator}.
Variable XMLSET : bool.
Definition serving (c : sender) : list Z := match c with Serving r => [r] | _ => [] end.

Abbreviation stored P := (Forall2 (fun r p => P !! r = Some p)).

(** [q] are the requests that wait, the one that is being served first; their
    nodes and their memory are all there is. *)
Record ma_rep (x : sender * ma) (q : list pdu) (a : proxy) : Prop := {
  mr_agents : agents_rep x.2 a;
  mr_queue : exists l, ulist (ma_heap x.2) (gstRequestList x.2) l /\
    dom (ma_heap x.2) = list_to_set l.*1 /\
    stored (ma_pdus x.2) (serving x.1 ++ l.*2) q /\
    NoDup (serving x.1 ++ l.*2) /\ dom (ma_pdus x.2) = list_to_set (serving x.1 ++ l.*2);
  mr_taking : x.1 = Taking -> q <> []
}.

Lemma stored_insert (P : gmap Z pdu) rs q r m : stored P rs q -> r ∉ rs -> stored (<[r := m]> P) rs q.
Proof.
  induction 1 as [|x p rs q Hx _ IH]; [constructor|]. intros [Hne Hr]%not_elem_of_cons.
  constructor; [by rewrite lookup_insert_ne|by apply IH].
Qed.

Lemma stored_delete (P : gmap Z pdu) rs q r : stored P rs q -> r ∉ rs -> stored (delete r P) rs q.
Proof.
  induction 1 as [|x p rs q Hx _ IH]; [constructor|]. intros [Hne Hr]%not_elem_of_cons.
  constructor; [by rewrite lookup_delete_ne|by apply IH].
Qed.

Lemma ulist_count h L l : ulist h L l -> nSize L = Z.of_nat (length l).
Proof. by intros [(_ & _ & ?) _]. Qed.

Lemma ma_rep_count c s q a : ma_rep (c, s) q a ->
  nSize (gstRequestList s) = Z.of_nat (length q) - Z.of_nat (length (serving c)).
Proof.
  intros [_ (l & Hu & _ & Hq & _) _]. cbn [fst snd] in *. rewrite (ulist_count _ _ _ Hu).
  apply Forall2_length in Hq. rewrite length_app, length_fmap in Hq. lia.
Qed.

(** A change of phase that leaves the request in service. *)
Lemma ma_rep_phase c c' s q a : ma_rep (c, s) q a -> serving c = serving c' ->
  (c' = Taking -> q <> []) -> ma_rep (c', s) q a.
Proof. intros [Ha Hq _] Hc Ht. split; [done| |done]. cbn in *. by rewrite <- Hc. Qed.

Lemma MA_Receiver_accepted m s :
  MA_Receiver XMLSET (Some m) s =
    if decide (accepted XMLSET m) then s ← enqueue m s; mret (true, s) else mret (false, s).
Proof.
  unfold MA_Receiver. case_decide as Ha; unfold accepted in Ha.
  - destruct Ha as [-> ->]. done.
  - destruct (is_request (command m)); cbn [negb]; [|done].
    destruct (XMLSET && _); [done|]. by destruct Ha.
Qed.

Lemma receive_rep p x q a : malloc_total -> ma_rep x q a ->
  exists x', receive_step XMLSET p x = Ret x' /\
    ma_rep x' (q ++ filter (accepted XMLSET) (option_list p)) a /\ ma_log x'.2 = ma_log x.2 /\
    x'.1 = match p with
           | Some m => if decide (accepted XMLSET m) then signalled x.1 else x.1
           | None => x.1
           end.
Proof.
  intros Hmalloc Hr. destruct x as [c s]. unfold receive_step. cbn [fst snd].
  destruct p as [m|]; cbn [option_list option_rect].
  2: { unfold MA_Receiver. rewrite outcome_bind_ret, app_nil_r. by eexists. }
  rewrite MA_Receiver_accepted, filter_cons, filter_nil. destruct (decide (accepted XMLSET m)).
  2: { rewrite outcome_bind_ret, app_nil_r. by eexists. }
  unfold enqueue. rewrite (proj2 (Z.eqb_neq _ _) (Hmalloc _)).
  destruct Hr as [Ha (l & Hu & Hd & Hq & Hnd & Hdp) Ht]. cbn [fst snd] in *.
  destruct (addToList_spec _ _ _ (malloc (dom (ma_pdus s))) Hu (Hmalloc _)) as (h & L & -> & Hu' & Hd').
  rewrite !outcome_bind_ret. eexists. split; [done|]. split; [|done].
  destruct (malloc_spec (dom (ma_pdus s))) as [Hn|[_ Hfresh]]; [by destruct (Hmalloc _ Hn)|].
  set (r := malloc (dom (ma_pdus s))) in *.
  assert (Hsc : serving (signalled c) = serving c) by (by destruct c).
  split; cbn.
  - by destruct Ha.
  - exists (l ++ [(malloc (dom (ma_heap s)), r)]). rewrite Hsc, !fmap_app. csimpl. rewrite app_assoc.
    split; [done|]. split; [rewrite Hd', Hd, list_to_set_app_L; csimpl; set_solver|].
    assert (Hr : r ∉ serving c ++ l.*2) by (rewrite Hdp in Hfresh; set_solver).
    split; [|split].
    + apply Forall2_app.
      * by apply stored_insert.
      * constructor; [|constructor]. by rewrite lookup_insert_eq.
    + apply NoDup_app. split_and!; [done| |apply NoDup_singleton]. intros y Hy ->%list_elem_of_singleton. done.
    + rewrite dom_insert_L, Hdp, list_to_set_app_L. csimpl. set_solver.
  - intros _. by destruct q.
Qed.

(** ** The forwarding thread *)
Lemma take_serving s p q a : ma_rep (Taking, s) (p :: q) a ->
  exists r s', take_request s = Ret (r, s') /\ ma_rep (Serving r, s') (p :: q) a /\ ma_log s' = ma_log s.
Proof.
  intros [Ha (l & Hu & Hd & Hq & Hnd & Hdp) _]. cbn [fst snd serving app] in *.
  destruct l as [|[c r] l]; [by inversion Hq|]. csimpl. unfold take_request.
  pose proof Hu as [(Hl & _) Hn]. simpl in Hl. destruct Hl as (Hc & Hc0 & n & Hn' & _).
  rewrite Hc in *. rewrite (load_Some _ _ _ Hc0 Hn'), outcome_bind_ret. cbn [val].
  destruct (deleteFromList_head _ _ _ _ _ Hu) as (L & -> & Hu'). rewrite outcome_bind_ret.
  exists r. eexists. split; [done|]. split; [|done]. split; [by destruct Ha| |done].
  exists l. cbn. split; [done|]. split; [|done]. rewrite dom_delete_L, Hd. csimpl.
  csimpl in Hn. apply NoDup_cons in Hn as [Hn _]. set_solver.
Qed.

End Queue.

Section Thread.
Context `{Network} `{Allocator}.
Variables (XMLSET : bool) (lw : Z) (giNASSAPort : Z) (localIP : text).
Hypothesis Hwhole : whole_tables giNASSAPort localIP.

Lemma serve_rep r s p q a : ma_rep (Serving r, s) (p :: q) a ->
  exists s', forward XMLSET lw giNASSAPort localIP r s = Ret s' /\
    ma_rep (Testing, s') q (serve XMLSET lw giNASSAPort localIP p a).1 /\
    ma_log s' = ma_log s ++ (serve XMLSET lw giNASSAPort localIP p a).2.
Proof using Hwhole.
  intros [Ha (l & Hu & Hd & Hq & Hnd & Hdp) _]. cbn [fst snd serving app] in *.
  apply Forall2_cons in Hq as [Hp Hq]. apply NoDup_cons in Hnd as [Hr Hnd].
  destruct (forward_spec XMLSET lw giNASSAPort localIP Hwhole r p s a Hp Ha) as (s' & Hf & Ha' & Hl & Hh & HL & HP).
  exists s'. split; [done|]. split; [|done]. split; [done| |done]. exists l. cbn [fst snd serving app].
  rewrite Hh, HL, HP. split; [done|]. split; [done|]. split; [by apply stored_delete|].
  split; [done|]. rewrite dom_delete_L, Hdp. csimpl. set_solver.
Qed.

(** A step of the thread, except from the wait, does what its phase says. *)
Lemma sender_rep c s q a : ma_rep (c, s) q a -> c <> Waiting ->
  exists c' s', sender_step XMLSET lw giNASSAPort localIP (c, s) = Ret (Some (c', s')) /\
    match c with
    | Serving _ => exists p q', q = p :: q' /\ c' = Testing /\
        ma_rep (c', s') q' (serve XMLSET lw giNASSAPort localIP p a).1 /\
        ma_log s' = ma_log s ++ (serve XMLSET lw giNASSAPort localIP p a).2
    | _ => ma_rep (c', s') q a /\ ma_log s' = ma_log s /\
        match c with
        | Testing => s' = s /\ c' = (if decide (q = []) then Blocking else Taking)
        | Blocking => s' = s /\ c' = Waiting
        | _ => exists r, c' = Serving r
        end
    end.
Proof using Hwhole.
  intros Hr Hc. unfold sender_step. destruct c as [| | | |r]; try done.
  - pose proof (ma_rep_count _ _ _ _ Hr) as Hn. simpl in Hn. do 2 eexists. split; [done|].
    assert ((nSize (gstRequestList s) =? 0) = bool_decide (q = [])) as ->.
    { rewrite Hn. case_bool_decide as Hq; [by subst q|]. destruct q; [done|]. zbool; simpl in *; lia. }
    rewrite <- decide_bool_decide. case_decide as Hq; (split; [|done]);
      by apply (ma_rep_phase Testing).
  - do 2 eexists. split; [done|]. split; [|done]. by apply (ma_rep_phase Blocking).
  - pose proof (mr_taking _ _ _ Hr eq_refl) as Hq. destruct q as [|p q]; [done|].
    destruct (take_serving s p q a Hr) as (r & s' & -> & Hr' & Hl). rewrite outcome_bind_ret.
    do 2 eexists. split; [done|]. split; [done|]. split; [done|]. by exists r.
  - destruct q as [|p q].
    { destruct Hr as [_ (l & _ & _ & Hq & _) _]. inversion Hq. }
    destruct (serve_rep r s p q a Hr) as (s' & -> & Hr' & Hl). rewrite outcome_bind_ret.
    do 2 eexists. split; [done|]. by exists p, q.
Qed.
End Thread.
