(* ===== verification/MasterProps.v ===== *)
(** * What the master agent guarantees

    Requests are served in order of arrival as the proxy would, under every
    interleaving; when the thread is awake it serves all of them; and the cases
    in which a request is left waiting or goes to the wrong agent. *)

From S2P Require Import Prelude Heap CTypes SchedTypes SchedTable UtilList CText Master.
From S2P Require Import MasterProofs.
From stdpp Require Import list.
#[local] Open Scope Z_scope.

Section Properties.
Context `{Network} `{Allocator}.
Hypothesis Hmalloc : malloc_total.
Variables (XMLSET : bool) (lw : Z) (giNASSAPort : Z) (localIP : text).
Hypothesis Hwhole : whole_tables giNASSAPort localIP.
Abbreviation ma_steps := (ma_steps XMLSET lw giNASSAPort localIP).
Abbreviation ma_step := (ma_step XMLSET lw giNASSAPort localIP).
Abbreviation sender_step := (sender_step XMLSET lw giNASSAPort localIP).
Abbreviation serve := (serve XMLSET lw giNASSAPort localIP).
Abbreviation serve_all := (serve_all XMLSET lw giNASSAPort localIP).
Abbreviation accepted := (accepted XMLSET).

(** The proxy before it reads the table for the first time. *)
Definition fresh_proxy (ips : list text) (k : net) : proxy :=
  MkProxy _ ((fun ip => MkAgent 0 ip 0) <$> ips) false false k.

Lemma start_spec ips k : length ips = MAX_SUB_AGENTS ->
  exists s, start giNASSAPort localIP ips k = Ret s /\ ma_log s = [] /\
    ma_rep (Testing, s) [] (reread giNASSAPort localIP (fresh_proxy ips k)).
Proof using Hwhole.
  intros Hips. unfold start.
  match goal with |- context [MA_NASSAReadConfig _ _ ?x] => set (s0 := x) end.
  assert (Ha : agents_rep s0 (fresh_proxy ips k)).
  { split; cbn; try done; rewrite ?length_fmap, <- ?list_fmap_compose; try done.
    - destruct ips as [|? [|? [|? [|? [|? []]]]]]; done.
    - symmetry. apply list_fmap_id.
    - destruct ips as [|? [|? [|? [|? [|? []]]]]]; done. }
  destruct (MA_NASSAReadConfig_spec giNASSAPort localIP Hwhole s0 _ Ha) as (s & Hs & Ha' & Hh & HL & HP & Hl).
  exists s. split; [exact Hs|]. split; [exact Hl|]. split; [done| |done].
  exists []. cbn. rewrite Hh, HL, HP. cbn. rewrite !dom_empty_L.
  split_and!; [split; [apply slot_rep_empty|constructor]|done|constructor|constructor|done].
Qed.

(** One step of the system is one step of the proxy, or none. *)
Lemma proxy_step x p y q a : ma_rep x q a -> ma_step x p y ->
  exists now q', q ++ filter accepted (option_list p) = now ++ q' /\
    ma_rep y q' (serve_all now a).1 /\ ma_log y.2 = ma_log x.2 ++ (serve_all now a).2.
Proof using Hmalloc Hwhole.
  intros Hr Hstep. destruct Hstep as [x p y Hx|[c s] y Hx|s].
  - destruct (receive_rep XMLSET p x q a Hmalloc Hr) as (y' & Hy & Hr' & Hl & _).
    assert (y' = y) as -> by congruence.
    exists [], (q ++ filter accepted (option_list p)). by rewrite Hl, app_nil_r.
  - cbn [option_list option_rect]. rewrite filter_nil, app_nil_r.
    assert (Hc : c <> Waiting) by (by intros ->).
    destruct (sender_rep XMLSET lw giNASSAPort localIP Hwhole c s q a Hr Hc) as (c' & s' & Hs & Hspec).
    rewrite Hs in Hx. injection Hx as <-.
    destruct c; try (destruct Hspec as (Hr' & Hl & _); exists [], q; cbn; by rewrite Hl, app_nil_r).
    destruct Hspec as (p & q' & -> & -> & Hr' & Hl). exists [p], q'. cbn [app serve_all].
    destruct (serve p a) as [a1 es]. rewrite app_nil_r. done.
  - exists [], q. cbn. rewrite !app_nil_r. split; [done|]. split; [|done].
    by apply (ma_rep_phase Waiting).
Qed.

Lemma serve_all_app ps qs a :
  serve_all (ps ++ qs) a =
    ((serve_all qs (serve_all ps a).1).1, (serve_all ps a).2 ++ (serve_all qs (serve_all ps a).1).2).
Proof.
  revert a. induction ps as [|p ps IH]; intros a; cbn [app serve_all].
  - cbn. by destruct (serve_all qs a).
  - destruct (serve p a) as [a1 es]. rewrite IH. destruct (serve_all ps a1) as [a2 es2]. cbn.
    by rewrite app_assoc.
Qed.

Lemma steps_rep x ps y q a : ma_rep x q a -> ma_steps x ps y ->
  exists served q', q ++ filter accepted ps = served ++ q' /\
    ma_rep y q' (serve_all served a).1 /\ ma_log y.2 = ma_log x.2 ++ (serve_all served a).2.
Proof using Hmalloc Hwhole.
  intros Hr Hsteps. induction Hsteps as [x|x ps y p z _ IH Hstep].
  - exists [], q. cbn. rewrite !app_nil_r. done.
  - destruct (IH Hr) as (served & q' & Hq & Hr' & Hl).
    destruct (proxy_step y p z q' _ Hr' Hstep) as (more & q2 & Hq2 & Hr2 & Hl2).
    exists (served ++ more), q2. rewrite filter_app, app_assoc, Hq, <- app_assoc, Hq2, app_assoc.
    split; [done|]. rewrite serve_all_app. cbn [fst snd]. split; [done|].
    by rewrite Hl2, Hl, app_assoc.
Qed.

(** C8: whatever the interleaving of arrivals, the forwarding thread and
    wake-ups without a signal, the requests that were accepted are those that
    were served, in order of arrival and with the effect the proxy gives them,
    and those in the queue; no request and no node is leaked; and neither thread
    can touch freed or null memory.  Assumed: memory does not run out, and the
    agent that keeps the table of sub-agents answers the request for it without
    an error only with a variable, and, when that variable is of the table, with
    a whole row for each of its entries (whole_tables; a table that ends early
    crashes the thread, short_table_crashes).  The steps of the model are
    the parts of the code between two uses of the mutex. *)
Theorem master_refines_proxy ips k s ps x :
  length ips = MAX_SUB_AGENTS -> start giNASSAPort localIP ips k = Ret s ->
  ma_steps (Testing, s) ps x ->
  let a := reread giNASSAPort localIP (fresh_proxy ips k) in
  exists served q, filter accepted ps = served ++ q /\
    ma_rep x q (serve_all served a).1 /\ ma_log x.2 = (serve_all served a).2 /\
    (exists r, sender_step x = Ret r) /\ (forall p, exists y, receive_step XMLSET p x = Ret y).
Proof using Hmalloc Hwhole.
  intros Hips Hs Hsteps a. destruct (start_spec ips k Hips) as (s' & Hs' & Hl & Hr).
  assert (s' = s) as -> by congruence.
  destruct (steps_rep _ _ _ _ _ Hr Hsteps) as (served & q & Hq & Hr' & Hl').
  exists served, q. cbn [snd] in Hl'. rewrite Hl in Hl'. split; [exact Hq|]. split; [exact Hr'|]. split; [exact Hl'|]. split.
  - destruct x as [c s1]. destruct (decide (c = Waiting)) as [->|Hc]; [by eexists|].
    destruct (sender_rep XMLSET lw giNASSAPort localIP Hwhole c s1 _ _ Hr' Hc) as (c' & s2 & -> & _). by eexists.
  - intros p. destruct (receive_rep XMLSET p x q _ Hmalloc Hr') as (y & -> & _). by eexists.
Qed.

(** ** The thread on its own *)
Fixpoint run (n : nat) (x : sender * ma) : outcome (sender * ma) :=
  match n with
  | O => mret x
  | S n => r ← sender_step x; match r with Some y => run n y | None => mret x end
  end.

Lemma run_step n x y z : sender_step x = Ret (Some y) -> run n y = Ret z -> run (S n) x = Ret z.
Proof. intros Hx Hy. cbn [run]. by rewrite Hx, outcome_bind_ret. Qed.

(** From its test on, the thread serves the whole queue and then waits. *)
Lemma testing_drains q s a : ma_rep (Testing, s) q a ->
  exists s', run (3 * length q + 2) (Testing, s) = Ret (Waiting, s') /\
    ma_rep (Waiting, s') [] (serve_all q a).1 /\ ma_log s' = ma_log s ++ (serve_all q a).2.
Proof using Hwhole.
  pose proof (sender_rep XMLSET lw giNASSAPort localIP Hwhole) as Hstep.
  revert s a. induction q as [|p q IH]; intros s a Hr;
    destruct (Hstep _ _ _ _ Hr ltac:(done)) as (c1 & s1 & H1 & Hr1 & _ & -> & ->); cbn [decide list_eq_nil_dec] in *.
  - destruct (Hstep _ _ _ _ Hr1 ltac:(done)) as (c2 & s2 & H2 & Hr2 & _ & -> & ->).
    exists s. split; [by eapply run_step; [|eapply run_step]|]. by rewrite app_nil_r.
  - destruct (Hstep _ _ _ _ Hr1 ltac:(done)) as (c2 & s2 & H2 & Hr2 & Hl2 & r & ->).
    destruct (Hstep _ _ _ _ Hr2 ltac:(done)) as (c3 & s3 & H3 & p' & q' & [= <- <-] & -> & Hr3 & Hl3).
    destruct (IH s3 _ Hr3) as (s' & Hrun & Hr' & Hl'). exists s'.
    replace (3 * length (p :: q) + 2)%nat with (S (S (S (3 * length q + 2)))) by (simpl; lia).
    split; [by do 3 (eapply run_step; [done|])|]. cbn [serve_all].
    destruct (serve p a) as [a1 es]. cbn [fst snd] in *. destruct (serve_all q a1) as [a2 es2].
    split; [done|]. cbn [snd]. by rewrite Hl', Hl3, Hl2, app_assoc.
Qed.

(** The same from the phases after the test. *)
Lemma awake_drains c s q a : ma_rep (c, s) q a -> c <> Waiting -> c <> Blocking ->
  exists n s', run n (c, s) = Ret (Waiting, s') /\
    ma_rep (Waiting, s') [] (serve_all q a).1 /\ ma_log s' = ma_log s ++ (serve_all q a).2.
Proof using Hwhole.
  pose proof (sender_rep XMLSET lw giNASSAPort localIP Hwhole) as Hstep.
  assert (Hserve : forall r s q a, ma_rep (Serving r, s) q a -> exists n s',
    run n (Serving r, s) = Ret (Waiting, s') /\ ma_rep (Waiting, s') [] (serve_all q a).1 /\
    ma_log s' = ma_log s ++ (serve_all q a).2).
  { clear s q a. intros r s q a Hr.
    destruct (Hstep _ _ _ _ Hr ltac:(done)) as (c1 & s1 & H1 & p & q' & -> & -> & Hr1 & Hl1).
    destruct (testing_drains _ _ _ Hr1) as (s' & Hrun & Hr' & Hl').
    exists (S (3 * length q' + 2)), s'. split; [by eapply run_step|]. cbn [serve_all].
    destruct (serve p a) as [a1 es]. cbn [fst snd] in *. destruct (serve_all q' a1) as [a2 es2].
    split; [done|]. cbn [snd]. by rewrite Hl', Hl1, app_assoc. }
  intros Hr Hw Hb. destruct c as [| | | |r]; try done.
  - destruct (testing_drains _ _ _ Hr) as (s' & Hrun & Hr' & Hl'). by eexists _, s'.
  - destruct (Hstep _ _ _ _ Hr ltac:(done)) as (c1 & s1 & H1 & Hr1 & Hl1 & r & ->).
    destruct (Hserve _ _ _ _ Hr1) as (n & s' & Hrun & Hr' & Hl'). exists (S n), s'.
    split; [by eapply run_step|]. by rewrite Hl', Hl1.
  - by apply Hserve.
Qed.

(** C9: a request that arrives when the thread waits or works is served, and
    with it all that were accepted before, also those whose signal was lost: left
    alone, the thread works off the queue and goes back to waiting.  Assumed, as
    for C8: memory does not run out, and the tables of sub-agents that the
    thread reads meanwhile are whole (with a table that ends early it crashes and
    the request is not served, short_table_crashes). *)
Theorem arrival_serves_all ips k s ps x p y :
  length ips = MAX_SUB_AGENTS -> start giNASSAPort localIP ips k = Ret s ->
  ma_steps (Testing, s) ps x -> x.1 <> Blocking -> accepted p ->
  receive_step XMLSET (Some p) x = Ret y ->
  let done := serve_all (filter accepted (ps ++ [p])) (reread giNASSAPort localIP (fresh_proxy ips k)) in
  exists n s', run n y = Ret (Waiting, s') /\ ma_rep (Waiting, s') [] done.1 /\ ma_log s' = done.2.
Proof using Hmalloc Hwhole.
  intros Hips Hs Hsteps Hb Hp Hy. destruct (start_spec ips k Hips) as (s1 & Hs1 & Hl & Hr).
  assert (s1 = s) as -> by congruence.
  destruct (steps_rep _ _ _ _ _ Hr Hsteps) as (served & q & Hq & Hr' & Hl'). cbn [app snd] in Hq, Hl'.
  destruct (receive_rep XMLSET (Some p) x q _ Hmalloc Hr') as (y' & Hy' & Hr2 & Hl2 & Hc).
  assert (y' = y) as -> by congruence. rewrite decide_True in Hc by done.
  destruct y as [c s2]. cbn [fst snd] in *. subst c.
  destruct (awake_drains _ s2 _ _ Hr2) as (n & s' & Hrun & Hr3 & Hl3); [by destruct x.1..|].
  exists n, s'. split; [exact Hrun|]. cbn zeta. rewrite filter_app, Hq, <- app_assoc.
  cbn [option_list option_rect] in *. rewrite serve_all_app. cbn [fst snd]. split; [exact Hr3|].
  by rewrite Hl3, Hl2, Hl', Hl.
Qed.

(** The count is tested without the lock and the signal given without the
    lock of the condition, so a request that arrives between the test and the wait
    is left in the queue with the thread waiting: nothing wakes it but another
    request, or a return from the wait for no reason. *)
Theorem wakeup_can_be_lost ips k s p :
  length ips = MAX_SUB_AGENTS -> start giNASSAPort localIP ips k = Ret s -> accepted p ->
  exists s' a, ma_steps (Testing, s) [p] (Waiting, s') /\ ma_rep (Waiting, s') [p] a /\
    ma_log s' = [] /\ forall y, ma_step (Waiting, s') None y -> y = (Waiting, s') \/ y = (Testing, s').
Proof using Hmalloc Hwhole.
  intros Hips Hs Hp. destruct (start_spec ips k Hips) as (s1 & Hs1 & Hl & Hr).
  assert (s1 = s) as -> by congruence.
  pose proof (sender_rep XMLSET lw giNASSAPort localIP Hwhole) as Hstep.
  destruct (Hstep _ _ _ _ Hr ltac:(done)) as (c1 & s1 & H1 & Hr1 & _ & -> & ->). cbn [decide list_eq_nil_dec] in *.
  destruct (receive_rep XMLSET (Some p) _ _ _ Hmalloc Hr1) as ([c2 s2] & H2 & Hr2 & Hl2 & Hc2).
  rewrite decide_True in Hc2 by done. cbn in Hc2. subst c2.
  cbn [option_list option_rect app] in Hr2. rewrite filter_cons_True, filter_nil in Hr2 by done.
  destruct (Hstep _ _ _ _ Hr2 ltac:(done)) as (c3 & s3 & H3 & Hr3 & _ & -> & ->).
  exists s2. eexists. split; [|split; [exact Hr3|split; [cbn in Hl2; by rewrite Hl2|]]].
  - change [p] with ((([] ++ option_list None) ++ option_list (Some p)) ++ option_list (@None pdu)).
    eapply steps_more; [eapply steps_more; [eapply steps_more; [apply steps_refl|]|]|].
    + by apply step_sender.
    + by apply step_receive.
    + by apply step_sender.
  - intros y Hy. inversion Hy as [x p' y' Hrec|x y' Hsend|]; subst; [left|done|by right].
    cbn in Hrec. by injection Hrec as <-.
Qed.

(** C10: a request for the main agent or for an enterprise of the table is sent
    there, the main agent's port and the host's address or those of the entry, and
    a reply goes back to where the request came from. *)
Theorem request_is_forwarded r p v vars s a port ip :
  XMLSET = false -> ma_pdus s !! r = Some p -> variables p = v :: vars -> agents_rep s a ->
  px_stale a = false ->
  for_main v = true /\ (port, ip) = (giNASSAPort, localIP) \/
  for_main v = false /\ (exists g, agent_for lw (px_table a) v = Some g /\ (port, ip) = (ag_port g, ag_ip g)) ->
  let p' := redirect (UI16 port) (inet_addr ip) p in
  let reply := (snmp_synch_response p' (ma_net s)).1 in
  exists s', forward XMLSET lw giNASSAPort localIP r s = Ret s' /\
    ma_log s' = ma_log s ++ Forwarded p' reply ::
      match reply with Some resp => [Replied (redirect (sin_port p) (sin_addr p) resp)] | None => [] end.
Proof using Hwhole.
  intros Hx Hp Hv Ha Hst Htarget p' reply.
  destruct (forward_spec XMLSET lw giNASSAPort localIP Hwhole r p s a Hp Ha) as (s' & Hs' & _ & Hl & _).
  exists s'. split; [exact Hs'|]. rewrite Hl. f_equal. unfold MasterProofs.serve, refresh, target_of.
  rewrite Hv, Hst, andb_false_r. unfold reply. rewrite (ar_net _ _ Ha).
  destruct Htarget as [(-> & [= -> ->])|(-> & g & -> & [= -> ->])]; unfold send, answer; rewrite Hx; cbn [andb];
    fold p'; by destruct (snmp_synch_response p' (px_net a)) as [[|] k].
Qed.

(** A request for an enterprise that no entry has goes where the request
    before it went: to the main agent if that one did, else it is thrown away,
    without a reply. *)
Theorem unknown_enterprise_follows_last r p v vars s a :
  ma_pdus s !! r = Some p -> variables p = v :: vars -> agents_rep s a -> px_stale a = false ->
  for_main v = false -> agent_for lw (px_table a) v = None ->
  exists s' es, forward XMLSET lw giNASSAPort localIP r s = Ret s' /\ ma_log s' = ma_log s ++ es /\
    (nassaflag s = false -> es = [Dropped p]) /\
    (nassaflag s = true -> exists reply es',
       es = Forwarded (redirect (UI16 giNASSAPort) (inet_addr localIP) p) reply :: es').
Proof using Hwhole.
  intros Hp Hv Ha Hst Hm Hg.
  destruct (forward_spec XMLSET lw giNASSAPort localIP Hwhole r p s a Hp Ha) as (s' & Hs' & _ & Hl & _).
  eexists s', _. split; [exact Hs'|]. split; [exact Hl|]. rewrite (ar_main _ _ Ha).
  unfold MasterProofs.serve, refresh, target_of. rewrite Hv, Hst, andb_false_r, Hm, Hg.
  split; intros ->; [done|]. unfold send.
  destruct (snmp_synch_response _ (px_net a)) as [reply k]. by do 2 eexists.
Qed.
End Properties.

(** ** Tables that are not whole *)
Section Short.
Context `{Network}.
Variables (giNASSAPort : Z) (localIP : text).

Lemma read_agents_short n i vars ports ips ents :
  agents_of n vars = None -> read_agents n i vars ports ips ents = Crash.
Proof.
  revert i vars ports ips ents. induction n as [|n IH]; intros i vars ports ips ents Hn; [done|].
  cbn [agents_of] in Hn. destruct (row_of vars) as [[g rest]|] eqn:Hg.
  - rewrite (read_agents_row _ _ _ _ _ _ g rest Hg). apply IH. by destruct (agents_of n rest).
  - unfold row_of in Hg. cbn [read_agents].
    destruct vars as [|x1 [|x2 [|x3 [|x4 vars]]]]; try done; unfold print_ip, integer_of; cbn [drop];
      destruct (val_string x1) as [|? [|? [|? [|? ?]]]]; try done;
      try (by destruct (val_integer x2)); destruct (val_integer x2); try done; by destruct (val_integer x4).
Qed.

(** A response to the request for the table that begins with the table but
    has fewer than five whole rows makes the master agent read through a null
    pointer. *)
Theorem short_table_crashes s resp k v vars :
  snmp_synch_response (config_request giNASSAPort localIP) (ma_net s) = (Some resp, k) ->
  errstat resp = 0 -> variables resp = v :: vars -> under (take 10 subAgentTable) v = true ->
  agents_of MAX_SUB_AGENTS (v :: vars) = None ->
  MA_NASSAReadConfig giNASSAPort localIP s = Crash.
Proof.
  intros Hr He Hv Hu Hn. unfold MA_NASSAReadConfig. cbn [ma_net with_reload].
  rewrite Hr, He, Z.eqb_refl, Hv, Hu. by rewrite read_agents_short.
Qed.

(** A table that could not be read again is not asked for another time:
    the mark that it is out of date is gone, and the old entries stay. *)
Theorem failed_reload_forgotten s k :
  snmp_synch_response (config_request giNASSAPort localIP) (ma_net s) = (None, k) ->
  exists s', MA_NASSAReadConfig giNASSAPort localIP s = Ret s' /\ reloadConfig s' = false /\
    giSAPort s' = giSAPort s /\ giSAIP s' = giSAIP s /\ giSAEnterprise s' = giSAEnterprise s.
Proof.
  intros Hr. unfold MA_NASSAReadConfig. cbn [ma_net with_reload]. rewrite Hr, outcome_bind_ret.
  by eexists.
Qed.
End Short.
