(* ===== verification/MasterXml.v ===== *)
(** * SET requests as documents (NASCenter_MA_Set.c, built with XMLSET)

    The document is the tree the XML library gives; a pointer to a node is the
    list of the node and the siblings behind it, the null pointer the empty
    list.  The second part states what documents are read as. *)

From Stdlib Require Import String.
From S2P Require Import Prelude CTypes CText Master.
From stdpp Require Import list.

#[local] Open Scope Z_scope.

(** [xmlNode]; [properties] are the nodes of the first attribute's value. *)
Inductive xml := Xml {
  xname : text; content : option text; properties : option (list xml); childs : list xml
}.

Definition gcIdString : text := text_of "id".
Definition gcParamString : text := text_of "param".
Definition gcNumberType : text := text_of "number".
Definition gcStringType : text := text_of "string".
Definition gcOIDType : text := text_of "ObjectID".
Definition gcIPType : text := text_of "ipAddress".

Definition MAX_OID_SIZE : nat := 5.
Definition MAX_OID_LEN : nat := 128.

(** Following a pointer, and the text it points to. *)
Definition deref (p : list xml) : outcome xml :=
  match p with x :: _ => mret x | [] => Crash end.
Definition chars (t : option text) : outcome text :=
  match t with Some t => mret t | None => Crash end.
Definition next_node (p : list xml) : list xml := tail p.

(** [XMLVarBind]; its strings may be null pointers. *)
Record XMLVarBind := MkVarBind { xoid : option text; xvalue : option text; xtype : option text }.

(** The values of variables: an integer, a string, the first bytes of the memory
    of an array of [oid], an address. *)
Inductive value :=
| ASN_INTEGER (x : Z)
| ASN_OCTET_STR (s : text)
| ASN_OBJECT_ID (array : list Z) (bytes : Z)
| ASN_IPADDRESS (addr : Z).

(** The PDU of a SET request. *)
Record set_pdu := MkSet {
  set_reqid : Z; set_community : text; set_variables : list (list Z * value)
}.

Section Xml.
(** The width of [long]. *)
Variable lw : Z.

Definition getID (envNode : list xml) : outcome Z :=
  env ← deref envNode;
  idNode ← deref (childs env);
  if bool_decide (xname idNode = gcIdString) then
    c ← deref (childs idNode); t ← chars (content c); mret (atoi lw t)
  else mret (-1).

Definition getIPAddress (ipNode : list xml) : outcome (option text) :=
  n ← deref ipNode;
  if bool_decide (xname n = gcParamString) then c ← deref (childs n); mret (content c) else mret None.

Definition getCommunity (cmNode : list xml) : outcome (option text) :=
  n ← deref cmNode;
  if bool_decide (xname n = gcParamString) then c ← deref (childs n); mret (content c) else mret None.

(** The name of the first node is tested for both; [None] is -1. *)
Definition getVarBind (oidNode : list xml) : outcome (option XMLVarBind) :=
  n ← deref oidNode;
  if bool_decide (xname n = gcParamString) then
    c ← deref (childs n);
    v ← deref (next_node oidNode);
    cv ← deref (childs v);
    match properties v with
    | Some a => ca ← deref a; mret (Some (MkVarBind (content c) (content cv) (content ca)))
    | None => mret None
    end
  else mret None.

(** The number of numbers, or [None] for 0, and the array with the numbers. *)
Definition readoid (oidString : option text) (name : list Z) : outcome (option nat * list Z) :=
  s ← chars oidString; read_numbers lw MAX_OID_SIZE s [] 0 name.

Definition strstr (haystack needle : text) : bool :=
  existsb (has_prefix needle) (map (fun i => drop i haystack) (seq 0 (S (length haystack)))).

(** The variable of a binding, whose name is the first [nameLen] numbers of the
    array: with an object identifier for value, [nameLen] is the length of the
    value by then.  [None] when the type is unknown. *)
Definition set_variable (vb : XMLVarBind) (nameLen : nat) (name tempOIDValue : list Z)
    : outcome (option (list Z * value) * list Z) :=
  type ← chars (xtype vb);
  if strstr type gcNumberType then
    v ← chars (xvalue vb); mret (Some (take nameLen name, ASN_INTEGER (atol lw v)), tempOIDValue)
  else if strstr type gcStringType then
    v ← chars (xvalue vb); mret (Some (take nameLen name, ASN_OCTET_STR v), tempOIDValue)
  else if strstr type gcOIDType then
    '(r, tempOIDValue) ← readoid (xvalue vb) tempOIDValue;
    let nameLen := default nameLen r in
    mret (Some (take nameLen name, ASN_OBJECT_ID tempOIDValue (Z.of_nat nameLen)), tempOIDValue)
  else if strstr type gcIPType then
    '(r, tempOIDValue) ← readoid (xoid vb) tempOIDValue;
    let nameLen := default nameLen r in
    v ← chars (xvalue vb);
    mret (Some (take nameLen name, ASN_IPADDRESS (inet_addr v)), tempOIDValue)
  else mret (None, tempOIDValue).

(** The loop over pairs of nodes; the fuel is the number of nodes. *)
Fixpoint read_bindings (fuel : nat) (currentNode : list xml) (name tempOIDValue : list Z)
    : outcome (option (list (list Z * value))) :=
  match fuel, currentNode with
  | _, [] => mret (Some [])
  | O, _ => OutOfFuel
  | S fuel, _ =>
      vb ← getVarBind currentNode;
      match vb with
      | None => mret None
      | Some vb =>
          '(r, name) ← readoid (xoid vb) name;
          match r with
          | None => mret None
          | Some nameLen =>
              let currentNode := next_node currentNode in
              '(b, tempOIDValue) ← set_variable vb nameLen name tempOIDValue;
              match b with
              | None => mret None
              | Some b =>
                  r ← read_bindings fuel (next_node currentNode) name tempOIDValue;
                  mret (cons b <$> r)
              end
          end
      end
  end.

(** [doc]: what xmlParseMemory makes of the message, its root element.  The two
    arrays are on the stack. *)
Definition parsePDUInXML (doc : option (list xml)) (name tempOIDValue : list Z)
    : outcome (option set_pdu) :=
  match doc with
  | None => mret None
  | Some rootNode =>
      root ← deref rootNode;
      let header := childs root in
      nasId ← getID header;
      if nasId <? 0 then mret None else
      body ← deref (next_node header);
      let currentNode := childs body in
      ipAddress ← getIPAddress currentNode;
      match ipAddress with
      | None => mret None
      | Some _ =>
          let currentNode := next_node currentNode in
          community ← getCommunity currentNode;
          match community with
          | None => mret None
          | Some community =>
              let currentNode := next_node currentNode in
              vars ← read_bindings (length currentNode) currentNode name tempOIDValue;
              mret (MkSet nasId community <$> vars)
          end
      end
  end.
End Xml.

(** * What a SET document is read as *)

#[local] Open Scope Z_scope.

(** The number of digits. *)
Lemma dec_five x : 0 <= x -> (length (dec x) <= MAX_OID_SIZE)%nat <-> x < 100000.
Proof.
  intros Hx. unfold dec, dec_u. rewrite (proj2 (Z.ltb_ge _ _)) by lia. split; intros Hl.
  - destruct (Z.lt_ge_cases x 100000) as [|Hge]; [done|].
    pose proof (dec_digits_long 5 20 x Hge ltac:(lia)). unfold MAX_OID_SIZE in Hl. lia.
  - apply (dec_digits_short 4); [|lia]. simpl. lia.
Qed.

(** ** Identifiers *)

Section Props.
Variable lw : Z.
Hypothesis Hlw : lw = 32 \/ lw = 64.

Definition readable (l : list Z) : Prop := Forall (fun x => 0 <= x < 100000) l.

Lemma readable_numbers l : readable l -> numbers MAX_OID_SIZE l.
Proof.
  intros Hl. apply (Forall_impl _ _ _ Hl). intros x Hx. split; [lia|]. apply dec_five; lia.
Qed.

(** An identifier that is printed with dots is read back, if its numbers
    have at most five digits, and refused if one has more. *)
Theorem readoid_roundtrip l name :
  l <> [] -> Forall (fun x => 0 <= x) l -> (length l <= length name)%nat ->
  if decide (readable l)
  then readoid lw (Some (number_text l)) name = Ret (Some (length l), l ++ drop (length l) name)
  else exists name', readoid lw (Some (number_text l)) name = Ret (None, name').
Proof using Hlw.
  intros Hne Hl Hn. unfold readoid. cbn [chars]. rewrite outcome_bind_ret. case_decide as Hr.
  - apply readable_numbers in Hr. by apply (read_numbers_dotted lw Hlw MAX_OID_SIZE l 0 [] name).
  - apply (read_numbers_refuses lw Hlw MAX_OID_SIZE l 0 [] name); try done.
    { apply not_Forall_Exists in Hr; [|intros x; apply _]. apply Exists_exists in Hr as (x & Hx & Hnot).
      apply Exists_exists. exists x. split; [done|]. apply (proj1 (Forall_forall _ _) Hl) in Hx. cbn in Hx, Hnot.
      pose proof (dec_five x Hx). lia. }
    apply (Forall_impl _ _ _ Hl). intros x Hx. split; [done|]. rewrite dec_five by done. lia.
Qed.

(** ** Documents *)

(** What a SET request asks for: numbers, strings and addresses. *)
Inductive argument :=
| Number (x : Z)
| Octets (s : text)
| Address (a b c d : Z).

Record request := MkRequest {
  rq_id : Z; rq_ip : text; rq_community : text; rq_args : list (list Z * argument)
}.

Definition text_node (s : text) : xml := Xml (text_of "text") (Some s) None [].
(** Without text there is no node for it. *)
Definition text_nodes (s : text) : list xml := match s with [] => [] | _ => [text_node s] end.
Definition param (type : option text) (s : text) : xml :=
  Xml gcParamString None ((fun t => [text_node t]) <$> type) (text_nodes s).

Definition arg_type (v : argument) : text :=
  match v with Number _ => gcNumberType | Octets _ => gcStringType | Address _ _ _ _ => gcIPType end.
Definition arg_text (v : argument) : text :=
  match v with Number x => dec x | Octets s => s | Address a b c d => dotted a b c d end.
Definition arg_value (v : argument) : value :=
  match v with
  | Number x => ASN_INTEGER x
  | Octets s => ASN_OCTET_STR s
  | Address a b c d => ASN_IPADDRESS (((a * 256 + b) * 256 + c) * 256 + d)
  end.

Definition arg_nodes (b : list Z * argument) : list xml :=
  [param None (number_text b.1); param (Some (arg_type b.2)) (arg_text b.2)].

Definition document (rq : request) : list xml :=
  [Xml (text_of "env") None None
     [Xml (text_of "header") None None [Xml gcIdString None None [text_node (dec (rq_id rq))]];
      Xml (text_of "body") None None
        (param None (rq_ip rq) :: param None (rq_community rq) :: concat (map arg_nodes (rq_args rq)))]].

Definition arg_ok (v : argument) : Prop :=
  match v with
  | Number x => - 2 ^ 31 <= x < 2 ^ 31
  | Octets s => s <> []
  | Address a b c d => 0 <= a <= 255 /\ 0 <= b <= 255 /\ 0 <= c <= 255 /\ 0 <= d <= 255
  end.

Definition name_ok (l : list Z) : Prop := l <> [] /\ readable l /\ (length l <= MAX_OID_LEN)%nat.

Lemma readoid_name l name : name_ok l -> length name = MAX_OID_LEN ->
  exists name', readoid lw (Some (number_text l)) name = Ret (Some (length l), name') /\
    length name' = MAX_OID_LEN /\ take (length l) name' = l.
Proof using Hlw.
  intros (Hne & Hl & Hlen) Hn. unfold readoid. cbn [chars]. rewrite outcome_bind_ret.
  change name with ([] ++ name) at 1.
  rewrite (read_numbers_dotted lw Hlw) by (done || lia || by apply readable_numbers).
  eexists. split; [done|]. cbn [app]. split; [rewrite length_app, length_drop; lia|].
  by rewrite take_app_length.
Qed.

Lemma set_variable_arg l v name temp : name_ok l -> arg_ok v -> take (length l) name = l ->
  length temp = MAX_OID_LEN ->
  exists temp', length temp' = MAX_OID_LEN /\
    set_variable lw (MkVarBind (Some (number_text l)) (Some (arg_text v)) (Some (arg_type v)))
      (length l) name temp = Ret (Some (l, arg_value v), temp').
Proof using Hlw.
  intros Hl Hv Hname Ht. unfold set_variable. cbn [xtype xvalue xoid chars]. rewrite outcome_bind_ret.
  destruct v as [x|s|a b c d]; cbn [arg_type arg_text arg_value].
  - change (strstr gcNumberType gcNumberType) with true. cbv iota. rewrite outcome_bind_ret, Hname.
    exists temp. split; [done|]. by rewrite atol_dec.
  - change (strstr gcStringType gcNumberType) with false. change (strstr gcStringType gcStringType) with true.
    cbv iota. rewrite outcome_bind_ret, Hname. by exists temp.
  - change (strstr gcIPType gcNumberType) with false. change (strstr gcIPType gcStringType) with false.
    change (strstr gcIPType gcOIDType) with false. change (strstr gcIPType gcIPType) with true. cbv iota.
    destruct (readoid_name l temp Hl Ht) as (temp' & -> & Ht' & _). rewrite outcome_bind_ret.
    change (default (length l) (Some (length l))) with (length l). rewrite outcome_bind_ret, Hname. exists temp'. split; [done|].
    destruct Hv as (? & ? & ? & ?). by rewrite inet_addr_dotted.
Qed.

Lemma text_nodes_some s : s <> [] -> text_nodes s = [text_node s].
Proof using Type. by destruct s. Qed.

Lemma dec_some x : dec x <> [].
Proof using Type. unfold dec, dec_u. case_match; [done|]. cbn [dec_digits]. by destruct (if _ <? 10 then _ else _). Qed.

Lemma number_text_nonempty l : l <> [] -> number_text l <> [].
Proof using Type. destruct l as [|x [|y l]]; [done| |]; intros _; cbn; pose proof (dec_some x); by destruct (dec x). Qed.

Lemma arg_text_nonempty v : arg_ok v -> arg_text v <> [].
Proof using Type.
  destruct v as [x|s|a b c d]; cbn [arg_ok arg_text]; [intros _; apply dec_some|done|].
  intros _. unfold dotted. pose proof (dec_some a). by destruct (dec a).
Qed.

Lemma getVarBind_arg l v rest : l <> [] -> arg_ok v ->
  getVarBind (param None (number_text l) :: param (Some (arg_type v)) (arg_text v) :: rest) =
    Ret (Some (MkVarBind (Some (number_text l)) (Some (arg_text v)) (Some (arg_type v)))).
Proof using Type.
  intros Hl Hv. unfold param. by rewrite (text_nodes_some (number_text l)), (text_nodes_some (arg_text v))
    by (by apply number_text_nonempty || by apply arg_text_nonempty).
Qed.

Lemma read_bindings_args args fuel name temp :
  Forall (fun b => name_ok b.1 /\ arg_ok b.2) args ->
  (length (concat (map arg_nodes args)) <= fuel)%nat ->
  length name = MAX_OID_LEN -> length temp = MAX_OID_LEN ->
  read_bindings lw fuel (concat (map arg_nodes args)) name temp =
    Ret (Some (map (fun b => (b.1, arg_value b.2)) args)).
Proof using Hlw.
  intros Hargs. revert fuel name temp.
  induction Hargs as [|[l v] args [Hl Hv] _ IH]; intros fuel name temp Hf Hn Ht; [by destruct fuel|].
  cbn [map concat arg_nodes app fst snd length] in *. destruct fuel as [|fuel]; [lia|].
  cbn [read_bindings].
  rewrite getVarBind_arg by (apply Hl || done).
  rewrite outcome_bind_ret. cbn [xoid].
  destruct (readoid_name l name Hl Hn) as (name' & -> & Hn' & Hname). rewrite outcome_bind_ret.
  destruct (set_variable_arg l v name' temp Hl Hv Hname Ht) as (temp' & Ht' & ->). rewrite outcome_bind_ret.
  cbn [next_node tail]. rewrite IH by (done || lia). done.
Qed.

Lemma getIPAddress_param s rest : s <> [] -> getIPAddress (param None s :: rest) = Ret (Some s).
Proof using Type. intros Hs. unfold param. by rewrite text_nodes_some. Qed.
Lemma getCommunity_param s rest : s <> [] -> getCommunity (param None s :: rest) = Ret (Some s).
Proof using Type. intros Hs. unfold param. by rewrite text_nodes_some. Qed.

(** C37: the document of a SET request is read as the request: its identifier,
    its community and its variables, numbers, strings and addresses, in order, when
    the identifier of the request is at least 0 and below 2^31, the address of the
    agent, the community and the strings are not empty, the name of each variable has
    from 1 to 128 numbers, each at least 0 and below 100000, the numbers are integers of 32
    bits with sign, and the parts of the addresses are from 0 to 255. *)
Theorem set_request_read rq name temp :
  0 <= rq_id rq < 2 ^ 31 -> rq_ip rq <> [] -> rq_community rq <> [] ->
  Forall (fun b => name_ok b.1 /\ arg_ok b.2) (rq_args rq) ->
  length name = MAX_OID_LEN -> length temp = MAX_OID_LEN ->
  parsePDUInXML lw (Some (document rq)) name temp =
    Ret (Some (MkSet (rq_id rq) (rq_community rq) (map (fun b => (b.1, arg_value b.2)) (rq_args rq)))).
Proof using Hlw.
  intros Hid Hip Hcom Hargs Hn Ht. unfold parsePDUInXML, document. cbn [deref childs]. rewrite outcome_bind_ret.
  change (getID lw _) with (Ret (atoi lw (dec (rq_id rq)))).
  rewrite outcome_bind_ret, atoi_dec by (done || lia). rewrite (proj2 (Z.ltb_ge _ _)) by lia.
  cbn [next_node tail deref childs]. rewrite outcome_bind_ret. cbn [childs next_node tail].
  rewrite (getIPAddress_param (rq_ip rq)) by done. rewrite outcome_bind_ret.
  cbn [next_node tail]. rewrite (getCommunity_param (rq_community rq)) by done. rewrite outcome_bind_ret.
  rewrite read_bindings_args by (done || lia). done.
Qed.

(** An empty community has no node, and the program follows a null pointer. *)
Theorem empty_community_crashes rq name temp :
  0 <= rq_id rq < 2 ^ 31 -> rq_ip rq <> [] -> rq_community rq = [] ->
  parsePDUInXML lw (Some (document rq)) name temp = Crash.
Proof using Hlw.
  intros Hid Hip Hcom. unfold parsePDUInXML, document. cbn [deref childs]. rewrite outcome_bind_ret.
  change (getID lw _) with (Ret (atoi lw (dec (rq_id rq)))).
  rewrite outcome_bind_ret, atoi_dec by (done || lia). rewrite (proj2 (Z.ltb_ge _ _)) by lia.
  cbn [next_node tail deref childs]. rewrite outcome_bind_ret. cbn [childs next_node tail].
  rewrite (getIPAddress_param (rq_ip rq)) by done. rewrite outcome_bind_ret. cbn [next_node tail]. by rewrite Hcom.
Qed.

(** A variable whose value is an object identifier is sent under another
    name: as many numbers of the array are taken for the name as the value has,
    and as many bytes, not numbers, for the value. *)
Theorem object_identifier_renames l m name temp :
  name_ok l -> name_ok m -> length name = MAX_OID_LEN -> length temp = MAX_OID_LEN ->
  take (length l) name = l ->
  exists temp', set_variable lw (MkVarBind (Some (number_text l)) (Some (number_text m)) (Some gcOIDType))
      (length l) name temp =
    Ret (Some (take (length m) name, ASN_OBJECT_ID temp' (Z.of_nat (length m))), temp') /\
    take (length m) temp' = m /\ (take (length m) name = l <-> length m = length l).
Proof using Hlw.
  intros Hl Hm Hn Ht Hname. unfold set_variable. cbn [xtype xvalue xoid chars]. rewrite outcome_bind_ret.
  change (strstr gcOIDType gcNumberType) with false. change (strstr gcOIDType gcStringType) with false.
  change (strstr gcOIDType gcOIDType) with true. cbv iota.
  destruct (readoid_name m temp Hm Ht) as (temp' & -> & _ & Hval). rewrite outcome_bind_ret.
  change (default (length l) (Some (length m))) with (length m).
  exists temp'. split; [done|]. split; [done|]. split; [|by intros ->].
  intros E. apply (f_equal length) in E. rewrite length_take in E. destruct Hm as (_ & _ & Hm). lia.
Qed.
End Props.

(** * The configuration file of the master agent (MA_ReadConfig of
      NASCenter_MA.c)

    [fscanf] reads words and numbers from the text of the file. *)

#[local] Open Scope Z_scope.

Definition DEFAULT_MA_PORT : Z := 161.
Definition DEFAULT_SA_PORT : Z := 163.
Definition DEFAULT_MA_SET_PORT : Z := 161.

Fixpoint skip_space (s : text) : text :=
  match s with
  | c :: r => if isspace c then skip_space r else s
  | [] => []
  end.

(** The characters up to the first that fails the test, and the rest. *)
Fixpoint span (P : Z -> bool) (s : text) : text * text :=
  match s with
  | c :: r => if P c then let '(a, b) := span P r in (c :: a, b) else ([], s)
  | [] => ([], [])
  end.

(** [fscanf (fp, "%s", ...)] into [n] bytes; [None] at the end of the file. *)
Definition scan_word (n : nat) (s : text) : outcome (option (text * text)) :=
  let s := skip_space s in
  match s with
  | [] => mret None
  | _ => let '(w, rest) := span (fun c => negb (isspace c)) s in
         if bool_decide (length w < n)%nat then mret (Some (w, rest)) else Crash
  end.

(** [fscanf (fp, "%d", ...)]: [None] when there is no number, which leaves the
    variable as it was. *)
Definition scan_int (lw : Z) (s : text) : option Z * text :=
  let s := skip_space s in
  let '(sign, t) := match s with
                    | c :: r => if (c =? 45) || (c =? 43) then ([c], r) else ([], s)
                    | [] => ([], [])
                    end in
  let '(ds, rest) := span isdigit t in
  if bool_decide (ds = []) then (None, t) else (Some (atoi lw (sign ++ ds)), rest).

Record conf := MkConf {
  giNASMAPort : Z; gcNASMAPeerName : text; cf_giNASSAPort : Z; gcNASSACommunity : text;
  giNASSASetPort : Z
}.

Definition with_ma_port (p : Z) (c : conf) : conf :=
  MkConf p (text_of "0.0.0.0:" ++ dec p) (cf_giNASSAPort c) (gcNASSACommunity c) (giNASSASetPort c).
Definition with_sa_port (p : Z) (c : conf) : conf :=
  MkConf (giNASMAPort c) (gcNASMAPeerName c) p (gcNASSACommunity c) (giNASSASetPort c).
Definition with_community (t : text) (c : conf) : conf :=
  MkConf (giNASMAPort c) (gcNASMAPeerName c) (cf_giNASSAPort c) t (giNASSASetPort c).
Definition with_set_port (p : Z) (c : conf) : conf :=
  MkConf (giNASMAPort c) (gcNASMAPeerName c) (cf_giNASSAPort c) (gcNASSACommunity c) p.

Section Conf.
Variables (XMLSET : bool) (lw : Z).

(** The loop over the words; the fuel is the length of the text plus one.
    [iValue] and [cValue] keep what was read last. *)
Fixpoint conf_loop (fuel : nat) (s : text) (iValue : Z) (cValue : text) (c : conf) : outcome conf :=
  match fuel with
  | O => OutOfFuel
  | S fuel =>
      w ← scan_word 255 s;
      match w with
      | None => mret c
      | Some (parameterName, s) =>
          if bool_decide (parameterName = text_of "NASMA_PORT") then
            let '(x, s) := scan_int lw s in let iValue := default iValue x in
            conf_loop fuel s iValue cValue (with_ma_port iValue c)
          else if bool_decide (parameterName = text_of "NASSA_PORT") then
            let '(x, s) := scan_int lw s in let iValue := default iValue x in
            conf_loop fuel s iValue cValue (with_sa_port iValue c)
          else if bool_decide (parameterName = text_of "NASSA_COMMUNITY") then
            v ← scan_word 255 s;
            let '(cValue, s) := default (cValue, []) v in
            conf_loop fuel s iValue cValue (with_community cValue c)
          else if XMLSET && bool_decide (parameterName = text_of "NASSA_SET_PORT") then
            let '(x, s) := scan_int lw s in let iValue := default iValue x in
            conf_loop fuel s iValue cValue (with_set_port iValue c)
          else conf_loop fuel s iValue cValue c
      end
  end.

(** [file] is [None] when the file can not be opened. *)
Definition MA_ReadConfig (file : option text) (iValue : Z) (cValue : text) (c : conf) : outcome conf :=
  let c := with_ma_port (giNASMAPort c) c in
  match file with
  | Some s => conf_loop (S (length s)) s iValue cValue c
  | None => mret c
  end.

(** ** Files written line by line *)
Inductive setting := MaPort (p : Z) | SaPort (p : Z) | Community (t : text) | SetPort (p : Z).

Definition setting_name (x : setting) : text :=
  match x with
  | MaPort _ => text_of "NASMA_PORT" | SaPort _ => text_of "NASSA_PORT"
  | Community _ => text_of "NASSA_COMMUNITY" | SetPort _ => text_of "NASSA_SET_PORT"
  end.
Definition setting_value (x : setting) : text :=
  match x with MaPort p | SaPort p | SetPort p => dec p | Community t => t end.
Definition line (x : setting) : text := setting_name x ++ 32 :: setting_value x ++ [10].

Definition set_conf (c : conf) (x : setting) : conf :=
  match x with
  | MaPort p => with_ma_port p c
  | SaPort p => with_sa_port p c
  | Community t => with_community t c
  | SetPort p => if XMLSET then with_set_port p c else c
  end.

Definition word (t : text) : Prop :=
  t <> [] /\ Forall (fun c => isspace c = false) t /\ (length t < 255)%nat.

Definition setting_ok (x : setting) : Prop :=
  match x with
  | MaPort p | SaPort p | SetPort p => 0 <= p < 2 ^ 31
  | Community t => word t
  end.

Lemma span_app P a c b : Forall (fun x => P x = true) a -> P c = false ->
  span P (a ++ c :: b) = (a, c :: b).
Proof. intros Ha Hc. induction Ha as [|x a Hx _ IH]; simpl; [by rewrite Hc|]. by rewrite Hx, IH. Qed.

Lemma scan_word_app t c b : word t -> isspace c = true ->
  scan_word 255 (t ++ c :: b) = Ret (Some (t, c :: b)).
Proof.
  intros (Hne & Ht & Hl) Hc. unfold scan_word. destruct t as [|x t]; [done|].
  pose proof Ht as [Hx _]%Forall_cons. cbn [app skip_space]. rewrite Hx. cbn [app].
  rewrite app_comm_cons, span_app; [by rewrite bool_decide_eq_true_2| |by rewrite Hc].
  eapply Forall_impl; [exact Ht|]. by intros y ->.
Qed.

Lemma scan_word_space c s : isspace c = true -> scan_word 255 (c :: s) = scan_word 255 s.
Proof. intros Hc. unfold scan_word. cbn [skip_space]. by rewrite Hc. Qed.

Lemma digit_no_space c : isdigit c = true -> isspace c = false.
Proof. unfold isdigit, isspace. intros Hc. boolify. zbool; cbn; lia. Qed.

Lemma name_word x : word (setting_name x).
Proof. split; [by destruct x|]. split; [|destruct x; simpl; lia]. destruct x; by repeat constructor. Qed.
End Conf.

Section Props.
Variables (XMLSET : bool) (lw : Z).
Hypothesis Hlw : lw = 32 \/ lw = 64.

Lemma scan_int_dec p b : 0 <= p < 2 ^ 31 -> scan_int lw (32 :: dec p ++ 10 :: b) = (Some p, 10 :: b).
Proof using Hlw.
  intros Hp. unfold scan_int. cbn [skip_space]. change (isspace 32) with true. cbv iota.
  assert (Hd : Forall (fun c => isdigit c = true) (dec p)) by (apply dec_isdigit; lia).
  destruct (dec_digits_cons 20 p ltac:(lia) ltac:(done)) as (c & s & E & Hc).
  assert (E' : dec p = c :: s) by (unfold dec; by rewrite (proj2 (Z.ltb_ge _ _)) by lia).
  rewrite E' in *. cbn [app skip_space]. rewrite (digit_no_space _ Hc).
  assert ((c =? 45) || (c =? 43) = false) as -> by (unfold isdigit in Hc; boolify; zbool; cbn; lia).
  rewrite app_comm_cons, span_app by done. rewrite bool_decide_eq_false_2 by done. cbn [app].
  by rewrite <- E', atoi_dec by (done || lia).
Qed.

Lemma dec_word p : 0 <= p -> word (dec p).
Proof.
  intros Hp. pose proof (dec_isdigit p Hp) as Hd.
  destruct (dec_digits_cons 20 p Hp ltac:(done)) as (c & s & E & _).
  assert (E' : dec p = c :: s) by (unfold dec; by rewrite (proj2 (Z.ltb_ge _ _)) by lia).
  split; [by rewrite E'|]. split; [|pose proof (dec_length p); lia].
  eapply Forall_impl; [exact Hd|]. apply digit_no_space.
Qed.

(** A number is not the name of a setting. *)
Lemma dec_no_name p t : 0 <= p -> (match t with c :: _ => isdigit c | [] => false end) = false ->
  dec p <> t.
Proof.
  intros Hp Ht <-. destruct (dec_digits_cons 20 p Hp ltac:(done)) as (c & s & E & Hc).
  assert (E' : dec p = c :: s) by (unfold dec; by rewrite (proj2 (Z.ltb_ge _ _)) by lia).
  rewrite E' in Ht. congruence.
Qed.

(** An iteration that reads a word which is no setting. *)
Lemma conf_loop_skip fuel t ch b iv cv c : word t -> isspace ch = true ->
  t <> text_of "NASMA_PORT" -> t <> text_of "NASSA_PORT" -> t <> text_of "NASSA_COMMUNITY" ->
  XMLSET && bool_decide (t = text_of "NASSA_SET_PORT") = false ->
  conf_loop XMLSET lw (S fuel) (t ++ ch :: b) iv cv c = conf_loop XMLSET lw fuel (ch :: b) iv cv c.
Proof.
  intros Hw Hch H1 H2 H3 H4. cbn [conf_loop]. rewrite scan_word_app, outcome_bind_ret by done.
  by rewrite !bool_decide_eq_false_2, H4 by done.
Qed.

(** The iterations for a line: one, and another for a value that is read as a
    name. *)
Definition more_words (x : setting) : nat :=
  match x with SetPort _ => if XMLSET then 0 else 1 | _ => 0 end.

Lemma conf_loop_line x b fuel iv cv c : setting_ok x ->
  exists iv' cv',
    conf_loop XMLSET lw (S (more_words x + fuel)) (line x ++ b) iv cv c =
      conf_loop XMLSET lw fuel (10 :: b) iv' cv' (set_conf XMLSET c x).
Proof using Hlw.
  intros Hx. unfold line. rewrite <- app_assoc. cbn [app]. rewrite <- app_assoc. cbn [app].
  destruct x as [p|p|t|p]; cbn [setting_name setting_value setting_ok set_conf] in *.
  - do 2 eexists. cbn [more_words conf_loop Nat.add].
    rewrite (scan_word_app _ 32) by (done || apply (name_word (MaPort p))). rewrite outcome_bind_ret.
    rewrite scan_int_dec by done. done.
  - do 2 eexists. cbn [more_words conf_loop Nat.add].
    rewrite (scan_word_app _ 32) by (done || apply (name_word (SaPort p))). rewrite outcome_bind_ret.
    rewrite scan_int_dec by done. done.
  - do 2 eexists. cbn [more_words conf_loop Nat.add].
    rewrite (scan_word_app _ 32) by (done || apply (name_word (Community t))). rewrite outcome_bind_ret.
    rewrite scan_word_space, scan_word_app by done. done.
  - destruct XMLSET eqn:Hset.
    + do 2 eexists. cbn [more_words]. rewrite Hset. cbn [conf_loop Nat.add].
      rewrite (scan_word_app _ 32) by (done || apply (name_word (SetPort p))). rewrite outcome_bind_ret.
      rewrite scan_int_dec by done. done.
    + do 2 eexists. cbn [more_words]. rewrite Hset. cbn [Nat.add]. rewrite <- Hset.
      rewrite (conf_loop_skip _ _ 32) by (rewrite ?Hset; done || apply (name_word (SetPort p))).
      assert (E : forall s, conf_loop XMLSET lw (S fuel) (32 :: s) iv cv c = conf_loop XMLSET lw (S fuel) s iv cv c).
      { intros s. cbn [conf_loop]. by rewrite scan_word_space. }
      rewrite E. apply conf_loop_skip; rewrite ?Hset; try done; [apply dec_word; lia|..];
        apply dec_no_name; try done; lia.
Qed.

Lemma conf_loop_lines xs sp fuel iv cv c :
  sp = [] \/ sp = [10] -> Forall setting_ok xs -> (2 * length xs < fuel)%nat ->
  conf_loop XMLSET lw fuel (sp ++ concat (map line xs)) iv cv c = Ret (foldl (set_conf XMLSET) c xs).
Proof using Hlw.
  intros Hsp Hxs. revert sp fuel iv cv c Hsp.
  induction Hxs as [|x xs Hx _ IH]; intros sp fuel iv cv c Hsp Hf.
  { destruct fuel; [lia|]. by destruct Hsp as [-> | ->]. }
  destruct fuel as [|fuel]; [lia|]. cbn [length map concat foldl] in *.
  assert (E : conf_loop XMLSET lw (S fuel) (sp ++ line x ++ concat (map line xs)) iv cv c =
              conf_loop XMLSET lw (S fuel) (line x ++ concat (map line xs)) iv cv c).
  { destruct Hsp as [-> | ->]; [done|]. cbn [app conf_loop]. by rewrite scan_word_space. }
  rewrite E. clear E sp Hsp.
  assert (Hw : (more_words x <= 1)%nat) by (destruct x; cbn; try lia; destruct XMLSET; lia).
  destruct (conf_loop_line x (concat (map line xs)) (fuel - more_words x) iv cv c Hx) as (iv' & cv' & E).
  replace (S (more_words x + (fuel - more_words x))) with (S fuel) in E by lia. rewrite E.
  apply (IH [10]); [by right|lia].
Qed.

(** A configuration file that has a setting on each line is read as these
    settings, the last of a kind winning; words that are none are passed over. *)
Theorem config_file_read xs iv cv c : Forall setting_ok xs ->
  MA_ReadConfig XMLSET lw (Some (concat (map line xs))) iv cv c =
    Ret (foldl (set_conf XMLSET) (with_ma_port (giNASMAPort c) c) xs).
Proof using Hlw.
  intros Hxs. unfold MA_ReadConfig. apply (conf_loop_lines xs []); [by left|done|].
  enough (2 * length xs <= length (concat (map line xs)))%nat by lia. clear Hxs.
  induction xs as [|x xs IH]; [done|]. cbn [map concat length]. rewrite length_app. unfold line at 1.
  rewrite length_app. cbn [length]. rewrite length_app. simpl in *. lia.
Qed.
End Props.
