(* ===== verification/MasterDemo.v ===== *)
(** * A master agent with five sub-agents *)

From Stdlib Require Import String.
From S2P Require Import Prelude Heap CTypes SchedTypes SchedTable UtilList CText Master.
From S2P Require Import MasterProofs MasterProps MasterXml.
From stdpp Require Import list.
#[local] Open Scope Z_scope.
#[local] Existing Instance bump_allocator.

(** The table: addresses 10.0.0.i, ports 1000 + i, enterprises 9000 + i. *)
Definition cell (oid : list Z) (octets : list Z) (x : Z) : variable :=
  MkVariable (subAgentTable ++ oid) 4 octets (Some x).
Definition row (i : Z) : list variable :=
  [cell [5; i] [10; 0; 0; i] 0; cell [6; i] [] (1000 + i); cell [7; i] [] 1; cell [8; i] [] (9000 + i)].
Definition table : list variable := concat (map row [1; 2; 3; 4; 5]).

Definition reply (p : pdu) : pdu := MkPdu 162 (reqid p) 0 0 (variables p) 0 0.
Definition respond (p : pdu) (k : unit) : option pdu * unit :=
  (Some (if command p =? SNMP_MSG_GETBULK then MkPdu 162 0 0 0 table 0 0 else reply p), k).

#[local] Instance whole_network : Network := {| net := unit; snmp_synch_response := respond |}.
(** Agents whose table has one row. *)
Definition short_network : Network :=
  {| net := unit;
     snmp_synch_response := fun p k => (Some (MkPdu 162 0 0 0 (row 1) 0 0), k) |}.
(** Agents that do not answer. *)
Definition silent_network : Network :=
  {| net := unit; snmp_synch_response := fun _ k => (None, k) |}.

Definition host : text := text_of "10.0.0.100".
Definition blank_ips : list text := replicate 5 [].

Lemma tables_are_whole : whole_tables 163 host.
Proof.
  intros [] resp [] Hr _. injection Hr as <-. do 2 eexists. split; [vm_compute; reflexivity|].
  intros _. eexists. vm_compute. reflexivity.
Qed.

Definition started : ma :=
  match start 163 host blank_ips (tt : @net whole_network) with
  | Ret s => s
  | _ => MkMa _ ∅ initList ∅ [] [] [] false false false (tt : @net whole_network) []
  end.

Lemma started_start : start 163 host blank_ips (tt : @net whole_network) = Ret started.
Proof. vm_compute. reflexivity. Qed.

Definition demo_proxy : proxy :=
  reread 163 host (fresh_proxy blank_ips (tt : @net whole_network)).

(** A GET for the enterprise of the second entry, and for one of none. *)
Definition get (e : Z) : pdu :=
  MkPdu SNMP_MSG_GET 77 0 0 [MkVariable [1; 3; 6; 1; 4; 1; e; 1; 0] 0 [] None] 40000 167772161.

Lemma get_accepted e : accepted false (get e).
Proof. by split. Qed.

(** The state in which a request is being served. *)
Definition serving_state (p : pdu) : ma := with_queue ∅ initList {[1 := p]} started.

Lemma serving_agents p : agents_rep (serving_state p) demo_proxy.
Proof. by split. Qed.

Definition received : sender * ma :=
  match receive_step false (Some (get 9002)) (Testing, started) with Ret x => x | _ => (Testing, started) end.

(** ** Witnesses *)
Lemma master_refines_proxy_witness :
  exists served q, [get 9002] = served ++ q /\
    ma_log received.2 = (serve_all false 64 163 host served demo_proxy).2.
Proof.
  destruct (master_refines_proxy bump_total false 64 163 host tables_are_whole blank_ips
    (tt : @net whole_network) started [get 9002] received eq_refl started_start)
    as (served & q & Hq & _ & Hl & _).
  - change [get 9002] with ([] ++ option_list (Some (get 9002))).
    eapply steps_more; [apply steps_refl|]. apply step_receive. vm_compute. reflexivity.
  - exists served, q. split; [exact Hq|exact Hl].
Defined.

Lemma arrival_serves_all_witness :
  exists n s', run false 64 163 host n received = Ret (Waiting, s') /\
    ma_log s' = (serve_all false 64 163 host [get 9002] demo_proxy).2.
Proof.
  destruct (arrival_serves_all bump_total false 64 163 host tables_are_whole blank_ips
    (tt : @net whole_network) started [] (Testing, started) (get 9002) received eq_refl started_start)
    as (n & s' & Hr & _ & Hl).
  - apply steps_refl.
  - discriminate.
  - apply get_accepted.
  - vm_compute. reflexivity.
  - exists n, s'. split; [exact Hr|exact Hl].
Defined.

Lemma wakeup_can_be_lost_witness :
  exists s', ma_steps false 64 163 host (Testing, started) [get 9002] (Waiting, s') /\ ma_log s' = [].
Proof.
  destruct (wakeup_can_be_lost bump_total false 64 163 host tables_are_whole blank_ips
    (tt : @net whole_network) started (get 9002) eq_refl started_start (get_accepted 9002))
    as (s' & a & Hs & _ & Hl & _).
  exists s'. split; [exact Hs|exact Hl].
Defined.

Lemma request_is_forwarded_witness :
  exists s', forward false 64 163 host 1 (serving_state (get 9002)) = Ret s' /\
    ma_log s' = [Forwarded (redirect 1002 167772162 (get 9002)) (Some (reply (get 9002)));
                 Replied (redirect 40000 167772161 (reply (get 9002)))].
Proof.
  destruct (request_is_forwarded false 64 163 host tables_are_whole 1 (get 9002)
    (MkVariable [1; 3; 6; 1; 4; 1; 9002; 1; 0] 0 [] None) [] (serving_state (get 9002)) demo_proxy
    1002 (text_of "10.0.0.2")) as (s' & Hs & Hl).
  - reflexivity.
  - vm_compute. reflexivity.
  - reflexivity.
  - apply serving_agents.
  - vm_compute. reflexivity.
  - right. split; [vm_compute; reflexivity|]. eexists. split; [vm_compute; reflexivity|]. reflexivity.
  - exists s'. split; [exact Hs|]. rewrite Hl. vm_compute. reflexivity.
Defined.

Lemma unknown_enterprise_follows_last_witness :
  exists s', forward false 64 163 host 1 (serving_state (get 42)) = Ret s' /\
    ma_log s' = [Dropped (get 42)].
Proof.
  destruct (unknown_enterprise_follows_last false 64 163 host tables_are_whole 1 (get 42)
    (MkVariable [1; 3; 6; 1; 4; 1; 42; 1; 0] 0 [] None) [] (serving_state (get 42)) demo_proxy)
    as (s' & es & Hs & Hl & Hd & _); [vm_compute; reflexivity|reflexivity|apply serving_agents|
      vm_compute; reflexivity..|].
  exists s'. split; [exact Hs|]. rewrite Hl, Hd by (vm_compute; reflexivity). vm_compute. reflexivity.
Defined.

Definition unread : @ma short_network :=
  MkMa short_network ∅ initList ∅ (replicate 5 0) blank_ips (replicate 5 0) true false false
    (tt : @net short_network) [].

Lemma short_table_crashes_witness : MA_NASSAReadConfig (H := short_network) 163 host unread = Crash.
Proof.
  apply (short_table_crashes (H := short_network) 163 host unread (MkPdu 162 0 0 0 (row 1) 0 0)
    (tt : @net short_network) (cell [5; 1] [10; 0; 0; 1] 0)
    [cell [6; 1] [] 1001; cell [7; 1] [] 1; cell [8; 1] [] 9001]); vm_compute; reflexivity.
Defined.

Lemma failed_reload_forgotten_witness :
  exists s', MA_NASSAReadConfig (H := silent_network) 163 host
    (MkMa silent_network ∅ initList ∅ [] [] [] true false false (tt : @net silent_network) []) = Ret s' /\
    reloadConfig (H := silent_network) s' = false.
Proof.
  destruct (failed_reload_forgotten (H := silent_network) 163 host
    (MkMa silent_network ∅ initList ∅ [] [] [] true false false (tt : @net silent_network) [])
    (tt : @net silent_network) eq_refl) as (s' & Hs & Hr & _).
  exists s'. split; [exact Hs|exact Hr].
Defined.

Definition sysName : list Z := [1; 3; 6; 1; 2; 1; 1; 5; 0].
Definition empty_array : list Z := replicate MAX_OID_LEN 0.

Lemma readoid_roundtrip_witness :
  readoid 64 (Some (number_text sysName)) empty_array = Ret (Some 9%nat, sysName ++ drop 9 empty_array) /\
  exists name', readoid 64 (Some (number_text [1; 100000])) empty_array = Ret (None, name').
Proof.
  split.
  - pose proof (readoid_roundtrip 64 (or_intror eq_refl) sysName empty_array) as Hr.
    rewrite decide_True in Hr by (repeat constructor; done). apply Hr; [done|repeat constructor; done|].
    vm_compute. lia.
  - pose proof (readoid_roundtrip 64 (or_intror eq_refl) [1; 100000] empty_array) as Hr.
    rewrite decide_False in Hr by (intros [_ [Hx _]%Forall_cons]%Forall_cons; lia).
    apply Hr; [done|repeat constructor; done|]. vm_compute. lia.
Defined.

Definition demo_request : request :=
  MkRequest 7 host (text_of "public") [(sysName, Octets (text_of "web")); ([1; 3; 9], Number (-4))].

Lemma sysName_ok : name_ok sysName.
Proof. split; [done|]. split; [repeat constructor; done|]. vm_compute. lia. Qed.

Lemma set_request_read_witness :
  parsePDUInXML 64 (Some (document demo_request)) empty_array empty_array =
    Ret (Some (MkSet 7 (text_of "public")
      [(sysName, ASN_OCTET_STR (text_of "web")); ([1; 3; 9], ASN_INTEGER (-4))])).
Proof.
  apply (set_request_read 64 (or_intror eq_refl) demo_request).
  - cbn. lia.
  - done.
  - done.
  - repeat (apply Forall_cons; split); try done.
    + split; [apply sysName_ok|done].
    + split; [|cbn; lia]. split; [done|]. split; [repeat constructor; done|]. vm_compute. lia.
  - reflexivity.
  - reflexivity.
Defined.

Lemma empty_community_crashes_witness :
  parsePDUInXML 64 (Some (document (MkRequest 7 (text_of "10.0.0.9") [] []))) empty_array empty_array = Crash.
Proof.
  apply (empty_community_crashes 64 (or_intror eq_refl) (MkRequest 7 (text_of "10.0.0.9") [] [])); [cbn; lia|done..].
Defined.

Lemma object_identifier_renames_witness :
  exists temp', set_variable 64 (MkVarBind (Some (number_text sysName)) (Some (number_text [0; 0])) (Some gcOIDType))
      9 (sysName ++ drop 9 empty_array) empty_array =
    Ret (Some ([1; 3], ASN_OBJECT_ID temp' 2), temp').
Proof.
  destruct (object_identifier_renames 64 (or_intror eq_refl) sysName [0; 0] (sysName ++ drop 9 empty_array)
    empty_array sysName_ok) as (temp' & Hs & _).
  - split; [done|]. split; [repeat constructor; done|]. vm_compute. lia.
  - reflexivity.
  - reflexivity.
  - reflexivity.
  - exists temp'. exact Hs.
Defined.

Definition default_conf : conf := MkConf 161 [] 163 [] 161.

Lemma config_file_read_witness :
  MA_ReadConfig false 64 (Some (concat (map line [MaPort 1161; Community (text_of "private"); SetPort 99])))
    0 [] default_conf =
  Ret (MkConf 1161 (text_of "0.0.0.0:1161") 163 (text_of "private") 161).
Proof.
  apply (config_file_read false 64 (or_intror eq_refl) [MaPort 1161; Community (text_of "private"); SetPort 99]).
  repeat (apply Forall_cons; split); try done; try (cbn; lia).
  split; [done|]. split; [repeat constructor; done|]. vm_compute. lia.
Defined.
