(* ===== verification/Firewall.v ===== *)
(** * Access control by packet filter (src/Group2/Unix/UC/src:
      NASCenter_UM_Linux_List.c and the rules of NASCenter_UM_Linux_Firewall.c)

    Rows of the tables of allowed telnet, FTP, SMTP and POP3 clients become
    rules at the head of the kernel's input chain; a linked list keeps the row
    of each rule, in the order of the chain, so that the position of a row in
    the list is the number of its rule. *)

From Stdlib Require Import String.
From S2P Require Import Prelude Heap CTypes CText.
From stdpp Require Import list.
#[local] Open Scope Z_scope.

(** [ENASCenterError] of UC/inc/NASCenter_Errors.h. *)
Definition NASC_FAILURE : Z := 0.
Definition NASC_SUCCESS : Z := 1.

Definition UM_ADD : Z := 1.
Definition UM_MODIFY : Z := 2.
Definition UM_DELETE : Z := 3.
Definition UM_GENERAL : Z := 100.
Definition ALLOW_TELNET : Z := 0.
Definition ALLOW_FTP : Z := 1.
Definition ALLOW_SMTP : Z := 2.
Definition ALLOW_POP3 : Z := 3.
Definition DENY_TELNET : Z := 0.
Definition DENY_FTP : Z := 1.
Definition DENY_SMTP : Z := 2.
Definition DENY_POP3 : Z := 3.
Definition NASC_MANDATORY_MISSING : Z := 10.

(** A row of one of the tables; -1 for a number and [None] for the octets of
    the address when they are missing. *)
Record stAllowUM := MkAllow {
  iIndex : Z; pcIpAddr : option (list Z); iPortNum : Z; iFlag : Z; iStatus : Z
}.

(** ** Rules of the kernel

    Addresses are numbers, the first octet the most significant.  The code never
    sets [fw_flg]; [fw_rest] is what else the structure has. *)
Record ip_fw := MkFw {
  fw_src : Z; fw_smsk : Z; fw_dst : Z; fw_dmsk : Z;
  fw_mark : Z; fw_proto : Z; fw_flg : Z; fw_invflg : Z;
  fw_spts : Z * Z; fw_dpts : Z * Z;
  fw_redirpt : Z; fw_outputsize : Z; fw_vianame : text; fw_tosand : Z; fw_tosxor : Z;
  fw_rest : list Z
}.
Record ip_fwnew := MkNew { fwn_rulenum : Z; ipfw : ip_fw; label : text; fwn_label : text }.

Inductive fw_request :=
| IP_FW_INSERT (r : ip_fwnew)
| IP_FW_REPLACE (r : ip_fwnew)
| IP_FW_DELETE_NUM (fwd_rulenum : Z) (fwd_label : text)
| IP_FW_FLUSH (chain : text).

(** The kernel: [setsockopt] on the raw socket. *)
Class PacketFilter := {
  fw_state : Type;
  setsockopt : fw_request -> fw_state -> bool * fw_state
}.

Definition input : text := text_of "input".
Definition ACCEPT : text := text_of "ACCEPT".
Definition DENY : text := text_of "DENY".

(** ** Addresses as text *)

(** [sprintf (cBuff, "%d.%d.%d.%d", ...)] into fifteen bytes. *)
Definition print_address (pcIpAddr : option (list Z)) : outcome text :=
  match pcIpAddr with
  | None => Crash
  | Some octets =>
      let byte i := match octets !! i with Some x => mret (Z.land 255 x) | None => Crash end in
      a ← byte 0%nat; b ← byte 1%nat; c ← byte 2%nat; d ← byte 3%nat;
      let s := dotted a b c d in
      if bool_decide (length s + 1 <= 15)%nat then mret s else Crash
  end.

(** ** The list *)
Record stNode := MkNode { um_iIndex : Z; um_iRuleNum : Z; um_iFlag : Z; ipfwPtr : ip_fwnew }.
Abbreviation heap := (gmap Z (node stNode)).

(** [um_list] is [stListPtr]. *)
Record um `{PacketFilter} := MkUm { um_heap : heap; um_list : Z; um_fw : fw_state }.

Section Firewall.
Context `{PacketFilter} `{Allocator}.
(** Whether the program is compiled with UM_DEBUG; the address of the host as
    text; what the memory that a call gets and has not written holds, which is
    another for every call. *)
Variables (UM_DEBUG : bool) (cDstAddr : text) (junk : ip_fwnew).

Definition with_fw (k : fw_state) (s : um) : um := MkUm _ (um_heap s) (um_list s) k.
Definition with_heap (h : heap) (s : um) : um := MkUm _ h (um_list s) (um_fw s).

Definition cSrcMask : text := text_of "255.255.255.255".
Definition cDstMask : text := text_of "255.255.255.255".

(** [UM_MakeEmpty (NULL)]: the head of an empty list. *)
Definition UM_MakeEmpty (h : heap) : outcome (Z * heap) :=
  let a := malloc (dom h) in
  if a =? NULL then Crash else mret (a, <[a := Node (MkNode 0 0 0 junk) NULL]> h).

(** A node behind the head.  The second allocation is thrown away when it
    succeeds; when it fails the function returns without the node. *)
Definition UM_Insert (mem : bool) (Index iFlag RuleNum : Z) (stListPtr : Z) (r : ip_fwnew)
    (h : heap) : outcome heap :=
  let a := malloc (dom h) in
  if a =? NULL then Crash else
  let h := <[a := Node (MkNode 0 0 0 junk) NULL]> h in
  if negb mem then mret h else
  nd ← load h stListPtr;
  set_next (<[a := Node (MkNode Index RuleNum iFlag r) (next nd)]> h) stListPtr a.

(** The loop of UM_GetPos and UM_GetstructForMod: the node, if there is one,
    and its number. *)
Fixpoint find_row (fuel : nat) (h : heap) (p iIndex iFlag iCount : Z) : outcome (option Z * Z) :=
  match fuel with
  | O => OutOfFuel
  | S fuel =>
      if p =? NULL then mret (None, 0) else
      nd ← load h p;
      let iCount := I16 (iCount + 1) in
      if (um_iIndex (val nd) =? iIndex) && (um_iFlag (val nd) =? iFlag) then mret (Some p, iCount)
      else find_row fuel h (next nd) iIndex iFlag iCount
  end.

Definition UM_GetstructForMod (iIndex stHeadPtr iFlag : Z) (h : heap) : outcome (option Z * Z) :=
  nd ← load h stHeadPtr; find_row (S (size h)) h (next nd) iIndex iFlag 0.

Definition UM_GetPos (iIndex stListPtr iFlag : Z) (h : heap) : outcome Z :=
  nd ← load h stListPtr; '(_, n) ← find_row (S (size h)) h (next nd) iIndex iFlag 0; mret n.

Fixpoint delete_row (fuel : nat) (h : heap) (prev p iIndex iFlag : Z) : outcome (Z * heap) :=
  match fuel with
  | O => OutOfFuel
  | S fuel =>
      if p =? NULL then mret (0, h) else
      nd ← load h p;
      if (um_iIndex (val nd) =? iIndex) && (um_iFlag (val nd) =? iFlag) then
        h ← set_next h prev (next nd); h ← dispose h p; mret (1, h)
      else delete_row fuel h p (next nd) iIndex iFlag
  end.

Definition UM_DeleteFromList (stListPtr iIndex iFlag : Z) (h : heap) : outcome (Z * heap) :=
  nd ← load h stListPtr; delete_row (S (size h)) h stListPtr (next nd) iIndex iFlag.

(** ** Rules *)
Definition UM_RuleInitialize (r : ip_fw) : ip_fw :=
  MkFw (fw_src r) (fw_smsk r) (fw_dst r) (fw_dmsk r) 0 (fw_proto r) (fw_flg r) 0 (fw_spts r)
       (fw_dpts r) 0 65535 (text_of "eth0") 255 0 (fw_rest r).

(** The source, the destination and the protocol of a rule, and its ports. *)
Definition with_match (src smsk dst dmsk proto : Z) (dpts : Z * Z) (r : ip_fw) : ip_fw :=
  MkFw src smsk dst dmsk (fw_mark r) proto (fw_flg r) (fw_invflg r) (0, 65535) dpts
       (fw_redirpt r) (fw_outputsize r) (fw_vianame r) (fw_tosand r) (fw_tosxor r) (fw_rest r).

(** The protocol number of the rule of a table. *)
Definition rule_proto (iFlag : Z) (old : Z) : Z :=
  if iFlag =? ALLOW_TELNET then 6
  else if iFlag =? ALLOW_FTP then 6
  else if iFlag =? ALLOW_SMTP then 25
  else if iFlag =? ALLOW_POP3 then 110
  else old.

(** [mem] tells which of the allocations of a call succeed. *)
Definition UM_AddRule (mem : nat -> bool) (g : stAllowUM) (s : um) : outcome (Z * um) :=
  if UM_DEBUG && (bool_decide (pcIpAddr g = None) || (iPortNum g =? -1) || (iStatus g =? -1))
  then mret (NASC_MANDATORY_MISSING, s) else
  if UM_DEBUG && (iStatus g =? 2) then mret (NASC_MANDATORY_MISSING, s) else
  if negb (mem 0%nat) then mret (NASC_FAILURE, s) else
  if negb (mem 1%nat) then mret (NASC_FAILURE, s) else
  let r := UM_RuleInitialize (ipfw junk) in
  cBuff ← print_address (pcIpAddr g);
  let '(src, smsk) :=
    if bool_decide (cBuff = text_of "255.255.255.255")
    then (inet_addr (text_of "0.0.0.0"), inet_addr (text_of "0.0.0.0"))
    else (inet_addr cBuff, inet_addr cSrcMask) in
  let known := (0 <=? iFlag g) && (iFlag g <=? 3) in
  let port := UI16 (iPortNum g) in
  let r := with_match src smsk (inet_addr cDstAddr) (inet_addr cDstMask)
             (rule_proto (iFlag g) (fw_proto r)) (if known then (port, port) else fw_dpts r) r in
  let rec := MkNew 1 r ACCEPT input in
  let '(ok, k) := setsockopt (IP_FW_INSERT rec) (um_fw s) in
  if ok then
    h ← UM_Insert (mem 2%nat) (iIndex g) (iFlag g) 1 (um_list s) rec (um_heap s);
    mret (NASC_SUCCESS, with_heap h (with_fw k s))
  else mret (NASC_FAILURE, with_fw k s).

Definition set_rule (src : Z) (dpts : Z * Z) (rulenum : Z) (r : ip_fwnew) : ip_fwnew :=
  let f := ipfw r in
  MkNew rulenum
        (MkFw src (fw_smsk f) (fw_dst f) (fw_dmsk f) (fw_mark f) (fw_proto f) (fw_flg f) (fw_invflg f)
              (fw_spts f) dpts (fw_redirpt f) (fw_outputsize f) (fw_vianame f) (fw_tosand f) (fw_tosxor f) (fw_rest f))
        (label r) (fwn_label r).

Definition set_record (h : heap) (p : Z) (r : ip_fwnew) : outcome heap :=
  nd ← load h p;
  mret (<[p := Node (MkNode (um_iIndex (val nd)) (um_iRuleNum (val nd)) (um_iFlag (val nd)) r) (next nd)]> h).

(** The record of the list is changed before the kernel is asked; after a
    failure the source address and one of the two ports are put back, from
    variables that may not have been set.  [None]: [exit] when the result of the
    search can not be allocated. *)
Definition UM_ModifyRule (mem : nat -> bool) (g : stAllowUM) (s : um) : outcome (option (Z * um)) :=
  let iIPAddrFlag := bool_decide (pcIpAddr g <> None) in
  let iPortFlag := negb (iPortNum g =? 0) in
  if negb iIPAddrFlag && negb iPortFlag then mret (Some (NASC_SUCCESS, s)) else
  if negb (mem 0%nat) then mret None else
  '(found, iCount) ← UM_GetstructForMod (iIndex g) (um_list s) (iFlag g) (um_heap s);
  match found with
  | None => mret (Some (NASC_FAILURE, s))
  | Some p =>
      nd ← load (um_heap s) p;
      let old := ipfwPtr (val nd) in
      src ← (if iIPAddrFlag then cBuff ← print_address (pcIpAddr g); mret (inet_addr cBuff)
             else mret (fw_src (ipfw old)));
      let dpts := if iPortFlag then (UI16 (iPortNum g), UI16 (iPortNum g)) else fw_dpts (ipfw old) in
      let new := set_rule src dpts iCount old in
      h ← set_record (um_heap s) p new;
      let '(ok, k) := setsockopt (IP_FW_REPLACE new) (um_fw s) in
      if ok then mret (Some (NASC_SUCCESS, with_heap h (with_fw k s)))
      else
        let src := if iIPAddrFlag then fw_src (ipfw old) else fw_src (ipfw junk) in
        let port := if iPortFlag then UI16 (I16 (fw_dpts (ipfw old)).1)
                    else UI16 (fw_dpts (ipfw junk)).1 in
        h ← set_record h p (set_rule src (port, dpts.2) iCount old);
        mret (Some (NASC_FAILURE, with_heap h (with_fw k s)))
  end.

Definition UM_DelRule (g : stAllowUM) (s : um) : outcome (Z * um) :=
  delRulNum ← UM_GetPos (iIndex g) (um_list s) (iFlag g) (um_heap s);
  if delRulNum =? 0 then mret (NASC_FAILURE, s) else
  let '(ok, k) := setsockopt (IP_FW_DELETE_NUM delRulNum input) (um_fw s) in
  if ok then
    '(_, h) ← UM_DeleteFromList (um_list s) (iIndex g) (iFlag g) (um_heap s);
    mret (NASC_SUCCESS, with_heap h (with_fw k s))
  else mret (NASC_SUCCESS, with_fw k s).

(** The result is [NASC_MANDATORY_MISSING] or 1. *)
Definition UM_CreateFilter (mem : nat -> bool) (g : stAllowUM) (iDecisionFlag : Z) (s : um)
    : outcome (option (Z * um)) :=
  if iDecisionFlag =? UM_ADD then
    '(r, s) ← UM_AddRule mem g s;
    mret (Some (if r =? NASC_MANDATORY_MISSING then NASC_MANDATORY_MISSING else 1, s))
  else if iDecisionFlag =? UM_MODIFY then
    r ← UM_ModifyRule mem g s;
    mret (match r with Some (_, s) => Some (1, s) | None => None end)
  else if iDecisionFlag =? UM_DELETE then
    '(_, s) ← UM_DelRule g s; mret (Some (1, s))
  else mret (Some (1, s)).

(** ** The start *)
Definition deny_port (iFlag : Z) (old : Z) : Z :=
  if iFlag =? DENY_TELNET then 23
  else if iFlag =? DENY_FTP then 21
  else if iFlag =? DENY_SMTP then 25
  else if iFlag =? DENY_POP3 then 110
  else old.

(** Nobody may use the service, until a rule in front of this one says so.  The
    mask is the name of the variable, in quotes. *)
Definition UM_SetFireWallRule (mem : nat -> bool) (iFlag : Z) (s : um) : outcome (Z * um) :=
  if negb (mem 0%nat) then mret (NASC_FAILURE, s) else
  if negb (mem 1%nat) then mret (NASC_FAILURE, s) else
  let r := UM_RuleInitialize (ipfw junk) in
  let known := (0 <=? iFlag) && (iFlag <=? 3) in
  let dpts := (deny_port iFlag (fw_dpts r).1, deny_port iFlag (fw_dpts r).2) in
  let r := with_match (inet_addr (text_of "0.0.0.0")) (inet_addr (text_of "0.0.0.0"))
             (inet_addr cDstAddr) (inet_addr (text_of "cDstMask"))
             (if known then 6 else fw_proto r) dpts r in
  let rec := MkNew 1 r DENY input in
  let '(ok, k) := setsockopt (IP_FW_INSERT rec) (um_fw s) in
  if ok then
    h ← UM_Insert (mem 2%nat) 1 UM_GENERAL 1 (um_list s) rec (um_heap s);
    mret (NASC_SUCCESS, with_heap h (with_fw k s))
  else mret (NASC_FAILURE, with_fw k s).

Definition UM_DeleteAllRule (s : um) : Z * um :=
  let '(ok, k) := setsockopt (IP_FW_FLUSH input) (um_fw s) in
  (if ok then NASC_SUCCESS else NASC_FAILURE, with_fw k s).

End Firewall.

(** [main], to the point where the tables are read; [None] when it returns
    early.  [junk] is the memory of the list's head and, by its flag, of each of
    the four rules. *)
Definition main `{PacketFilter} `{Allocator} (cDstAddr : text) (junk : Z -> ip_fwnew)
    (mem : Z -> nat -> bool) (k : fw_state) : outcome (option um) :=
  '(head, h) ← UM_MakeEmpty (junk UM_GENERAL) ∅;
  let '(_, s) := UM_DeleteAllRule (MkUm _ h head k) in
  let close f := UM_SetFireWallRule cDstAddr (junk f) (mem f) f in
  '(r, s) ← close DENY_TELNET s;
  if r =? NASC_FAILURE then mret None else
  '(r, s) ← close DENY_FTP s;
  if r =? NASC_FAILURE then mret None else
  '(r, s) ← close DENY_SMTP s;
  if r =? NASC_FAILURE then mret None else
  '(r, s) ← close DENY_POP3 s;
  mret (if r =? NASC_FAILURE then None else Some s).
