(* ===== verification/FirewallTrap.v ===== *)
(** * Traps of the tables of allowed clients (UM_UserMeetering, UM_CheckTable,
      UM_CheckFieldTelnet, UM_CheckFieldFTP, UM_CheckFieldSMTP, UM_CheckFieldPOP3
      and UM_GetIndex of NASCenter_UM_Linux_Firewall.c)

    [lw] is the width of [oid], an unsigned long. *)

From S2P Require Import Prelude Heap CTypes CText Firewall.
From stdpp Require Import list.
#[local] Open Scope Z_scope.

Definition IP_ADDR : Z := 1.
Definition IP_PORT_NUM : Z := 2.
Definition IP_STATUS : Z := 3.

Definition allowTelnetTable_variables_oid : list Z := [1;3;6;1;4;1;3204;1;3;34;4;3].
Definition allowFTPTable_variables_oid : list Z := [1;3;6;1;4;1;3204;1;3;34;4;4].
Definition allowSMTPTable_variables_oid : list Z := [1;3;6;1;4;1;3204;1;3;34;4;5].
Definition allowPOP3Table_variables_oid : list Z := [1;3;6;1;4;1;3204;1;3;34;4;6].

(** The identifier of a column of the table [oid]. *)
Definition column (oid : list Z) (c : Z) : list Z := oid ++ [1; c].

(** netsnmp_oid_is_subtree with a length that is not that of the array. *)
Definition is_under (oid : list Z) (len : nat) (v : variable) : outcome bool :=
  if bool_decide (length (name v) < len)%nat then mret false
  else if bool_decide (length oid < len)%nat then Crash
  else mret (under (take len oid) v).

Section Trap.
Context `{PacketFilter} `{Allocator}.
Variables (UM_DEBUG : bool) (cDstAddr : text) (junk : ip_fwnew).
Variable lw : Z.

(** [sizeof (array) / sizeof (int)] for an array of [oid]. *)
Definition length_in_ints (oid : list Z) : nat := Z.to_nat (Z.of_nat (length oid) * (lw / 8) / 4).

(** The first variable is read before the caller tests for an empty trap. *)
Definition UM_CheckTable (vars : list variable) : outcome Z :=
  match vars with
  | [] => Crash
  | v :: _ =>
      let iOperFlag := -1 in
      tel ← is_under allowTelnetTable_variables_oid (length allowTelnetTable_variables_oid) v;
      let iOperFlag := if (tel : bool) then ALLOW_TELNET else iOperFlag in
      ftp ← is_under allowFTPTable_variables_oid (length_in_ints allowFTPTable_variables_oid) v;
      let iOperFlag := if (ftp : bool) then ALLOW_FTP else iOperFlag in
      smtp ← is_under allowSMTPTable_variables_oid (length_in_ints allowSMTPTable_variables_oid) v;
      let iOperFlag := if (smtp : bool) then ALLOW_SMTP else iOperFlag in
      pop3 ← is_under allowPOP3Table_variables_oid (length_in_ints allowPOP3Table_variables_oid) v;
      mret (if (pop3 : bool) then ALLOW_POP3 else iOperFlag)
  end.

Definition UM_GetIndex (v : variable) : outcome Z :=
  let iLen := I16 (Z.of_nat (length (name v)) - 1) in
  if iLen <? 0 then Crash else
  match name v !! Z.to_nat iLen with Some x => mret (I16 x) | None => Crash end.

Definition UM_CheckFieldTelnet (v : variable) : Z :=
  let iRetValue := -1 in
  let iRetValue := if under (column allowTelnetTable_variables_oid 3) v then IP_ADDR else iRetValue in
  let iRetValue := if under (column allowTelnetTable_variables_oid 4) v then IP_PORT_NUM else iRetValue in
  if under (column allowTelnetTable_variables_oid 5) v then IP_STATUS else iRetValue.

(** The other tables: another column is [NASC_FAILURE]. *)
Definition check_field (oid : list Z) (v : variable) : Z :=
  if under (column oid 3) v then IP_ADDR
  else if under (column oid 4) v then IP_PORT_NUM
  else if under (column oid 5) v then IP_STATUS
  else NASC_FAILURE.
Definition UM_CheckFieldFTP : variable -> Z := check_field allowFTPTable_variables_oid.
Definition UM_CheckFieldSMTP : variable -> Z := check_field allowSMTPTable_variables_oid.
Definition UM_CheckFieldPOP3 : variable -> Z := check_field allowPOP3Table_variables_oid.

Definition with_address (a : option (list Z)) (g : stAllowUM) : stAllowUM :=
  MkAllow (iIndex g) a (iPortNum g) (iFlag g) (iStatus g).
Definition with_port (p : Z) (g : stAllowUM) : stAllowUM :=
  MkAllow (iIndex g) (pcIpAddr g) p (iFlag g) (iStatus g).
Definition with_status (st : Z) (g : stAllowUM) : stAllowUM :=
  MkAllow (iIndex g) (pcIpAddr g) (iPortNum g) (iFlag g) st.

(** The octets of an address and a zero behind them; [None] when the memory,
    whose size is [val_len] plus one, can not be had. *)
Definition copy_address (mem : bool) (v : variable) : outcome (option (list Z)) :=
  let iIPAddrLen := I16 (val_len v) in
  if iIPAddrLen <? -1 then mret None
  else if negb mem then mret None
  else if (iIPAddrLen =? -1) || (Z.of_nat (length (val_string v)) <? iIPAddrLen) then Crash
  else mret (Some (take (Z.to_nat iIPAddrLen) (val_string v) ++ [0])).

Definition field_of (iOperFlag : Z) (v : variable) : Z :=
  if iOperFlag =? ALLOW_TELNET then UM_CheckFieldTelnet v
  else if iOperFlag =? ALLOW_FTP then UM_CheckFieldFTP v
  else if iOperFlag =? ALLOW_SMTP then UM_CheckFieldSMTP v
  else UM_CheckFieldPOP3 v.

(** The body of the [switch]; [None] when the function returns. *)
Definition read_field (mem : bool) (iOperFlag : Z) (v : variable) (g : stAllowUM)
    : outcome (option stAllowUM) :=
  let f := field_of iOperFlag v in
  if f =? IP_ADDR then
    if I16 (val_len v) =? 0 then mret (Some g) else
    a ← copy_address mem v;
    mret (match a with Some octets => Some (with_address (Some octets) g) | None => None end)
  else if f =? IP_PORT_NUM then
    mret (Some (match val_integer v with Some x => with_port (I16 x) g | None => g end))
  else if f =? IP_STATUS then
    mret (Some (match val_integer v with Some x => with_status (I16 x) g | None => g end))
  else if (f =? -1) && UM_DEBUG then mret (Some g)
  else mret None.

Fixpoint read_fields (mem : nat -> bool) (iOperFlag : Z) (vars : list variable) (g : stAllowUM)
    : outcome (option stAllowUM) :=
  match vars with
  | [] => mret (Some g)
  | v :: vars =>
      r ← read_field (mem (length vars)) iOperFlag v g;
      match r with None => mret None | Some g => read_fields mem iOperFlag vars g end
  end.

Definition decision (iStatus : Z) : Z :=
  if (iStatus =? 4) || (iStatus =? 1) then UM_ADD
  else if (iStatus =? 6) || (iStatus =? 2) then UM_DELETE
  else UM_MODIFY.

(** [None]: the program exits. *)
Definition UM_UserMeetering (memt : bool) (mema mem : nat -> bool) (vars : list variable) (s : um)
    : outcome (option um) :=
  iOperFlag ← UM_CheckTable vars;
  if iOperFlag =? -1 then mret (Some s) else
  if negb memt then mret (Some s) else
  match vars with
  | [] => mret (Some s)
  | v :: _ =>
      iIndex ← UM_GetIndex v;
      r ← read_fields mema iOperFlag vars (MkAllow iIndex None (-1) iOperFlag (-1));
      match r with
      | None => mret (Some s)
      | Some g =>
          r ← UM_CreateFilter UM_DEBUG cDstAddr junk mem g (decision (iStatus g)) s;
          mret (match r with Some (_, s) => Some s | None => None end)
      end
  end.
End Trap.
