(* ===== verification/FirewallSpec.v ===== *)
(** * What the rules are for

    The laws of the kernel's packet filter, the packets a chain lets through,
    and the table of rows with their rules that the program keeps. *)

From S2P Require Import Prelude Heap ListSort CTypes CText Firewall.
From stdpp Require Import list.
#[local] Open Scope Z_scope.

(** A rule of the input chain and what is done with the packets it matches. *)
Abbreviation rule := (ip_fw * text)%type.
Definition rule_of (r : ip_fwnew) : rule := (ipfw r, label r).

(** ** The interface of the kernel

    The requests work on the rules in order, numbered from 1; one that fails
    changes nothing. *)
Class FilterLaws `{PacketFilter} := {
  input_chain : fw_state -> list rule;
  insert_ok r k k' : fwn_label r = input -> fwn_rulenum r = 1 ->
    setsockopt (IP_FW_INSERT r) k = (true, k') -> input_chain k' = rule_of r :: input_chain k;
  replace_ok r k k' : fwn_label r = input -> 1 <= fwn_rulenum r <= Z.of_nat (length (input_chain k)) ->
    setsockopt (IP_FW_REPLACE r) k = (true, k') ->
    input_chain k' = <[Z.to_nat (fwn_rulenum r - 1) := rule_of r]> (input_chain k);
  delete_ok n k k' : 1 <= n <= Z.of_nat (length (input_chain k)) ->
    setsockopt (IP_FW_DELETE_NUM n input) k = (true, k') ->
    input_chain k' = delete (Z.to_nat (n - 1)) (input_chain k);
  flush_ok k k' : setsockopt (IP_FW_FLUSH input) k = (true, k') -> input_chain k' = [];
  request_fails q k k' : setsockopt q k = (false, k') -> input_chain k' = input_chain k
}.

(** ** Packets

    The interface a packet comes in by, what the kernel reads of its header, and
    whether it opens a connection or is a later fragment of another. *)
Record packet := MkPacket {
  p_iface : text; p_src : Z; p_dst : Z; p_proto : Z; p_sport : Z; p_dport : Z;
  p_syn : bool; p_frag : bool
}.
Definition TCP : Z := 6.

Definition in_range (x : Z) (r : Z * Z) : bool := (r.1 <=? x) && (x <=? r.2).

(** The bits of [fw_flg] that concern matching, and those of [fw_invflg], each of
    which turns a test round. *)
Definition IP_FW_F_TCPSYN : Z := 1.
Definition IP_FW_F_FRAG : Z := 2.
Definition IP_FW_F_WILDIF : Z := 4.
Definition IP_FW_INV_SRCIP : Z := 0.
Definition IP_FW_INV_DSTIP : Z := 1.
Definition IP_FW_INV_PROTO : Z := 2.
Definition IP_FW_INV_SRCPT : Z := 3.
Definition IP_FW_INV_DSTPT : Z := 4.
Definition IP_FW_INV_VIA : Z := 5.
Definition IP_FW_INV_SYN : Z := 6.
Definition IP_FW_INV_FRAG : Z := 7.

Definition flag (f : ip_fw) (b : Z) : bool := Z.testbit (fw_flg f) b.
Definition inv (f : ip_fw) (b : Z) (x : bool) : bool := xorb (Z.testbit (fw_invflg f) b) x.

Definition on_interface (f : ip_fw) (p : packet) : bool :=
  if flag f IP_FW_F_WILDIF then bool_decide (take (length (fw_vianame f)) (p_iface p) = fw_vianame f)
  else bool_decide (p_iface p = fw_vianame f).

(** A rule with protocol 0 is for every protocol. *)
Definition matches (f : ip_fw) (p : packet) : bool :=
  inv f IP_FW_INV_SRCIP (Z.land (p_src p) (fw_smsk f) =? fw_src f) &&
  inv f IP_FW_INV_DSTIP (Z.land (p_dst p) (fw_dmsk f) =? fw_dst f) &&
  inv f IP_FW_INV_VIA (on_interface f p) &&
  ((fw_proto f =? 0) || inv f IP_FW_INV_PROTO (fw_proto f =? p_proto p)) &&
  inv f IP_FW_INV_SRCPT (in_range (p_sport p) (fw_spts f)) &&
  inv f IP_FW_INV_DSTPT (in_range (p_dport p) (fw_dpts f)) &&
  (if flag f IP_FW_F_TCPSYN then inv f IP_FW_INV_SYN (p_syn p) else true) &&
  (if flag f IP_FW_F_FRAG then inv f IP_FW_INV_FRAG (p_frag p) else true).

(** The flags that lie in memory the program has not written do not concern
    matching. *)
Definition quiet (junk : ip_fwnew) : Prop :=
  flag (ipfw junk) IP_FW_F_TCPSYN = false /\ flag (ipfw junk) IP_FW_F_FRAG = false /\
  flag (ipfw junk) IP_FW_F_WILDIF = false.

(** The first rule that matches decides; [None] when there is none. *)
Definition verdict (chain : list rule) (p : packet) : option text :=
  snd <$> find (fun r => matches (fst r) p) chain.

(** ** The table

    Rows by table and index, the newest first, each with its rule in the kernel and
    with the copy of it that the program keeps. *)
Record entry := MkEntry { e_index : Z; e_flag : Z; e_rule : rule; e_copy : rule }.

(** The copy is the rule. *)
Definition in_step (e : entry) : Prop := e_copy e = e_rule e.

Definition is_row (i f : Z) (e : entry) : bool := (e_index e =? i) && (e_flag e =? f).

Fixpoint alter_first (P : entry -> bool) (F : entry -> entry) (l : list entry) : list entry :=
  match l with
  | [] => []
  | e :: l => if P e then F e :: l else e :: alter_first P F l
  end.
Fixpoint remove_first (P : entry -> bool) (l : list entry) : list entry :=
  match l with
  | [] => []
  | e :: l => if P e then l else e :: remove_first P l
  end.

Section Spec.
Variables (cDstAddr : text) (junk : ip_fwnew).

Definition four (octets : list Z) : list Z := map (Z.land 255) (take 4 octets).
Definition address (octets : list Z) : Z :=
  match four octets with
  | [a; b; c; d] => ((a * 256 + b) * 256 + c) * 256 + d
  | _ => INADDR_NONE
  end.

(** Addresses that fit into the buffer: four octets, fourteen characters. *)
Definition printable (octets : list Z) : Prop :=
  match four octets with
  | [a; b; c; d] => (length (dotted a b c d) <= 14)%nat
  | _ => False
  end.
#[export] Instance printable_dec octets : Decision (printable octets).
Proof. unfold printable. repeat case_match; solve_decision. Defined.

(** A client may use a port of the host. *)
Definition allow_rule (g : stAllowUM) (octets : list Z) : rule :=
  let r := UM_RuleInitialize (ipfw junk) in
  let port := UI16 (iPortNum g) in
  (with_match (address octets) INADDR_NONE (inet_addr cDstAddr) INADDR_NONE
     (rule_proto (iFlag g) (fw_proto r))
     (if (0 <=? iFlag g) && (iFlag g <=? 3) then (port, port) else fw_dpts r) r, ACCEPT).

(** Nobody may use a port. *)
Definition deny_rule (f : Z) : rule :=
  let r := UM_RuleInitialize (ipfw junk) in
  (with_match 0 0 (inet_addr cDstAddr) INADDR_NONE 6 (deny_port f 0, deny_port f 0) r, DENY).

Definition complete (g : stAllowUM) : bool :=
  bool_decide (is_Some (pcIpAddr g)) && negb (iPortNum g =? -1) && negb (iStatus g =? -1) &&
  negb (iStatus g =? 2).

Definition with_source (src : Z) (dpts : Z * Z) (f : ip_fw) : ip_fw :=
  MkFw src (fw_smsk f) (fw_dst f) (fw_dmsk f) (fw_mark f) (fw_proto f) (fw_flg f) (fw_invflg f)
       (fw_spts f) dpts (fw_redirpt f) (fw_outputsize f) (fw_vianame f) (fw_tosand f) (fw_tosxor f)
       (fw_rest f).

Definition changed_rule (g : stAllowUM) (r : rule) : rule :=
  let f := r.1 in
  let src := match pcIpAddr g with Some octets => address octets | None => fw_src f end in
  let dpts := if iPortNum g =? 0 then fw_dpts f else (UI16 (iPortNum g), UI16 (iPortNum g)) in
  (with_source src dpts f, r.2).

(** The copy after a change the kernel refused: the source is put back if there was a
    new one, the port if there was a new one, each else from a variable that was not
    set; and the upper end of the ports stays changed. *)
Definition spoiled_rule (g : stAllowUM) (r : rule) : rule :=
  let f := r.1 in
  let src := match pcIpAddr g with Some _ => fw_src f | None => fw_src (ipfw junk) end in
  let dpts := if iPortNum g =? 0 then (UI16 (fw_dpts (ipfw junk)).1, (fw_dpts f).2)
              else (UI16 (I16 (fw_dpts f).1), UI16 (iPortNum g)) in
  (with_source src dpts f, r.2).

(** A new row. *)
Definition new_entry (i f : Z) (r : rule) : entry := MkEntry i f r r.

Definition change_entry (g : stAllowUM) (e : entry) : entry :=
  new_entry (e_index e) (e_flag e) (changed_rule g (e_copy e)).
Definition spoil_entry (g : stAllowUM) (e : entry) : entry :=
  MkEntry (e_index e) (e_flag e) (e_rule e) (spoiled_rule g (e_copy e)).

(** What a request means for the table, if the kernel agrees. *)
Definition filter_request (g : stAllowUM) (d : Z) (l : list entry) : list entry :=
  if d =? UM_ADD then
    match pcIpAddr g with
    | Some octets => if complete g then new_entry (iIndex g) (iFlag g) (allow_rule g octets) :: l else l
    | None => l
    end
  else if d =? UM_MODIFY then
    if bool_decide (pcIpAddr g = None) && (iPortNum g =? 0) then l else
    alter_first (is_row (iIndex g) (iFlag g)) (change_entry g) l
  else if d =? UM_DELETE then remove_first (is_row (iIndex g) (iFlag g)) l
  else l.

(** What it means if the kernel refuses: a change spoils the copy of the row. *)
Definition refused_request (g : stAllowUM) (d : Z) (l : list entry) : list entry :=
  if d =? UM_MODIFY then alter_first (is_row (iIndex g) (iFlag g)) (spoil_entry g) l else l.
End Spec.

Definition start_table (cDstAddr : text) (junk : Z -> ip_fwnew) : list entry :=
  map (fun f => new_entry 1 UM_GENERAL (deny_rule cDstAddr (junk f) f))
    [DENY_POP3; DENY_SMTP; DENY_FTP; DENY_TELNET].
