(* ===== verification/FirewallProofs.v ===== *)
(** * The list and the rules of the kernel

    The invariant [um_rep] and what each operation makes of it, and what the
    traps of the tables are read as. *)

From Stdlib Require Import String.
From S2P Require Import Prelude Heap ListSort CTypes CText Firewall FirewallSpec.
From S2P Require Import FirewallTrap.
From stdpp Require Import list.

#[local] Open Scope Z_scope.

(** A node, and what of a row the list shows. *)
Definition entry_of (n : stNode) : entry :=
  new_entry (um_iIndex n) (um_iFlag n) (rule_of (ipfwPtr n)).
Definition listed (e : entry) : entry := new_entry (e_index e) (e_flag e) (e_copy e).

(** The list has the rows of [l] with their copies, in the order of the chain of
    the kernel, which has their rules; behind them come the rules [base] that were
    there before. *)
Record um_rep `{FilterLaws} (s : um) (l : list entry) (base : list rule) : Prop := {
  ur_list : exists hv rows, chain (um_heap s) (um_list s) ((um_list s, hv) :: rows) /\
    map entry_of rows.*2 = map listed l /\ Forall (fun n => fwn_label (ipfwPtr n) = input) rows.*2;
  ur_chain : input_chain (um_fw s) = map e_rule l ++ base
}.

(** ** Searching *)
Fixpoint position (P : entry -> bool) (l : list entry) : Z :=
  match l with
  | [] => 0
  | e :: l => if P e then 1 else let n := position P l in if n =? 0 then 0 else n + 1
  end.

Lemma position_range P l : 0 <= position P l <= Z.of_nat (length l).
Proof. induction l as [|e l IH]; simpl; [lia|]. case_match; [lia|]. case_match; lia. Qed.

Lemma position_split P l : position P l <> 0 -> exists l1 e l2,
  l = l1 ++ e :: l2 /\ P e = true /\ Forall (fun x => P x = false) l1 /\
  position P l = Z.of_nat (length l1) + 1.
Proof.
  induction l as [|e l IH]; simpl; [done|]. destruct (P e) eqn:He; intros Hn.
  - exists [], e, l. by split_and!.
  - destruct (Z.eqb_spec (position P l) 0) as [|Hp]; [done|].
    destruct (IH Hp) as (l1 & x & l2 & -> & Hx & Hl1 & Hpos). exists (e :: l1), x, l2.
    split_and!; [done|done|by constructor|]. rewrite Hpos. simpl. lia.
Qed.

Lemma position_none P l : position P l = 0 -> Forall (fun x => P x = false) l.
Proof.
  induction l as [|e l IH]; simpl; [done|]. pose proof (position_range P l).
  destruct (P e) eqn:He; [done|]. destruct (Z.eqb_spec (position P l) 0); [|lia].
  intros _. constructor; auto.
Qed.

Lemma alter_first_none P F l : Forall (fun x => P x = false) l -> alter_first P F l = l.
Proof. induction 1 as [|e l He _ IH]; [done|]. simpl. by rewrite He, IH. Qed.
Lemma remove_first_none P l : Forall (fun x => P x = false) l -> remove_first P l = l.
Proof. induction 1 as [|e l He _ IH]; [done|]. simpl. by rewrite He, IH. Qed.
Lemma alter_first_split P F l1 e l2 : Forall (fun x => P x = false) l1 -> P e = true ->
  alter_first P F (l1 ++ e :: l2) = l1 ++ F e :: l2.
Proof.
  intros Hl He. induction Hl as [|x l Hx _ IH]; simpl; [by rewrite He|]. by rewrite Hx, IH.
Qed.
Lemma remove_first_split P l1 e l2 : Forall (fun x => P x = false) l1 -> P e = true ->
  remove_first P (l1 ++ e :: l2) = l1 ++ l2.
Proof.
  intros Hl He. induction Hl as [|x l Hx _ IH]; simpl; [by rewrite He|]. by rewrite Hx, IH.
Qed.

Lemma alter_first_length P F l : length (alter_first P F l) = length l.
Proof. induction l as [|e l IH]; simpl; [done|]. case_match; simpl; congruence. Qed.
Lemma remove_first_length P l : (length (remove_first P l) <= length l)%nat.
Proof. induction l as [|e l IH]; simpl; [done|]. case_match; simpl; lia. Qed.
Lemma alter_first_Forall P F (Q : entry -> Prop) l :
  (forall e, Q (F e)) -> Forall Q l -> Forall Q (alter_first P F l).
Proof. intros HF. induction 1; simpl; [done|]. by case_match; constructor. Qed.
Lemma remove_first_Forall P (Q : entry -> Prop) l : Forall Q l -> Forall Q (remove_first P l).
Proof. induction 1; simpl; [done|]. by case_match; [|constructor]. Qed.

(** The position of a row does not depend on its rules. *)
Lemma position_listed i f l : position (is_row i f) (map listed l) = position (is_row i f) l.
Proof. induction l as [|e l IH]; [done|]. cbn [map position]. by rewrite IH. Qed.
Lemma remove_first_listed i f l :
  remove_first (is_row i f) (map listed l) = map listed (remove_first (is_row i f) l).
Proof.
  induction l as [|e l IH]; [done|]. cbn [map remove_first]. rewrite IH.
  change (is_row i f (listed e)) with (is_row i f e). by destruct (is_row i f e).
Qed.

(** ** The loops on the list *)
Lemma row_test n i f : (um_iIndex n =? i) && (um_iFlag n =? f) = is_row i f (entry_of n).
Proof. done. Qed.

Lemma find_row_spec rows fuel h a l1 i f c :
  chain h a (l1 ++ rows) -> l1 <> [] -> (length rows < fuel)%nat ->
  0 <= c -> c + Z.of_nat (length rows) < 32768 ->
  exists p, find_row fuel h (hd_addr rows) i f c =
    Ret (if position (is_row i f) (map entry_of rows.*2) =? 0 then (None, 0)
         else (Some p, c + position (is_row i f) (map entry_of rows.*2))) /\
    (position (is_row i f) (map entry_of rows.*2) <> 0 -> exists r1 n r2, rows = r1 ++ (p, n) :: r2 /\
       Z.of_nat (length r1) + 1 = position (is_row i f) (map entry_of rows.*2)).
Proof.
  revert fuel l1 c. induction rows as [|[q n] rows IH]; intros fuel l1 c Hc Hl1 Hf Hc0 Hlim;
    (destruct fuel as [|fuel]; [simpl in Hf; lia|]); cbn [find_row hd_addr].
  { exists NULL. split; [done|]. by intros []. }
  destruct (chain_at _ _ _ _ _ _ Hc) as [Hq _]. rewrite (proj2 (Z.eqb_neq _ _) Hq).
  rewrite (chain_load _ _ _ _ _ _ Hc), outcome_bind_ret. cbn [val next].
  cbn [length] in Hlim. rewrite I16_id by lia. csimpl. cbn [map position]. rewrite row_test.
  destruct (is_row i f (entry_of n)) eqn:He.
  { exists q. split; [done|]. intros _. by exists [], n, rows. }
  rewrite cons_middle, app_assoc in Hc.
  destruct (IH fuel (l1 ++ [(q, n)]) (c + 1) Hc) as (p & Hp & Hex); [by destruct l1|simpl in Hf; lia|lia|lia|].
  exists p. rewrite Hp.
  pose proof (position_range (is_row i f) (map entry_of rows.*2)).
  destruct (Z.eqb_spec (position (is_row i f) (map entry_of rows.*2)) 0) as [E|E]; [by split|].
  rewrite (proj2 (Z.eqb_neq (position _ _ + 1) 0)) by lia. split; [do 2 f_equal; lia|]. intros _.
  destruct (Hex E) as (r1 & m & r2 & -> & Hlen). exists ((q, n) :: r1), m, r2.
  split; [done|]. simpl. lia.
Qed.

Lemma delete_row_spec rows fuel h a l1 p v i f :
  chain h a (l1 ++ (p, v) :: rows) -> (length rows < fuel)%nat ->
  exists h' rows', delete_row fuel h p (hd_addr rows) i f =
      Ret (if position (is_row i f) (map entry_of rows.*2) =? 0 then 0 else 1, h') /\
    chain h' a (l1 ++ (p, v) :: rows') /\
    map entry_of rows'.*2 = remove_first (is_row i f) (map entry_of rows.*2) /\
    sublist rows' rows.
Proof.
  revert fuel l1 p v. induction rows as [|[q n] rows IH]; intros fuel l1 p v Hc Hf;
    (destruct fuel as [|fuel]; [simpl in Hf; lia|]); cbn [delete_row hd_addr].
  { by exists h, []. }
  pose proof Hc as Hc'. rewrite cons_middle, app_assoc in Hc'.
  destruct (chain_at _ _ _ _ _ _ Hc) as [Hp0 Hp], (chain_at _ _ _ _ _ _ Hc') as [Hq0 Hq].
  rewrite (proj2 (Z.eqb_neq _ _) Hq0), (load_Some _ _ _ Hq0 Hq), outcome_bind_ret. cbn [val next].
  csimpl. cbn [map position remove_first]. rewrite row_test.
  destruct (is_row i f (entry_of n)).
  - rewrite (set_next_Some _ _ _ _ _ Hp0 Hp), outcome_bind_ret. unfold dispose.
    assert (Hpq : p <> q).
    { destruct Hc as (_ & Hnd & _). rewrite fmap_app in Hnd. csimpl in Hnd.
      apply NoDup_app in Hnd as (_ & _ & [Hn _]%NoDup_cons). set_solver. }
    erewrite load_Some; [|done|by rewrite lookup_insert_ne]. rewrite !outcome_bind_ret.
    eexists _, rows. split; [done|]. split; [by apply (chain_unlink _ _ _ _ _ _ n)|].
    split; [done|]. by apply sublist_cons.
  - destruct (IH fuel (l1 ++ [(p, v)]) q n Hc') as (h' & rows' & Hd & Hc2 & Hm & Hs); [simpl in Hf; lia|].
    exists h', ((q, n) :: rows'). rewrite Hd, <- app_assoc in *. cbn [app] in *.
    split; [|split; [done|split; [by csimpl; f_equal|by apply sublist_skip]]].
    pose proof (position_range (is_row i f) (map entry_of rows.*2)).
    destruct (Z.eqb_spec (position (is_row i f) (map entry_of rows.*2)) 0); [done|].
    by rewrite (proj2 (Z.eqb_neq (position _ _ + 1) 0)) by lia.
Qed.

Lemma rows_length (rows : list (Z * stNode)) l :
  map entry_of rows.*2 = map listed l -> length rows = length l.
Proof. intros Hm%(f_equal length). by rewrite !length_map in Hm. Qed.

(** ** Addresses *)
Lemma land_octet x : 0 <= Z.land 255 x <= 255.
Proof.
  rewrite Z.land_comm. change 255 with (Z.ones 8) at 1 2. rewrite Z.land_ones by lia.
  pose proof (Z.mod_pos_bound x (2 ^ 8)). lia.
Qed.

Lemma print_address_spec octets : printable octets ->
  exists s, print_address (Some octets) = Ret s /\ inet_addr s = address octets /\
    s <> text_of "255.255.255.255".
Proof.
  unfold printable, address, four, print_address. intros Hp.
  destruct octets as [|a [|b [|c [|d rest]]]]; try done. cbn [take] in *. rewrite take_0 in *.
  cbn [map] in *. cbn [lookup list_lookup].
  exists (dotted (Z.land 255 a) (Z.land 255 b) (Z.land 255 c) (Z.land 255 d)).
  rewrite !outcome_bind_ret. rewrite bool_decide_eq_true_2 by lia.
  split; [done|]. split; [by apply inet_addr_dotted; apply land_octet|].
  intros E. rewrite E in Hp. vm_compute in Hp. lia.
Qed.

(** ** The requests *)
Section Requests.
Context `{FilterLaws} `{Allocator}.
Hypothesis Hmalloc : malloc_total.
Variables (UM_DEBUG : bool) (cDstAddr : text) (junk : ip_fwnew).
Abbreviation all := (fun _ : nat => true).

Lemma UM_Insert_spec i f n r h a hv rows :
  chain h a ((a, hv) :: rows) ->
  exists h' b, UM_Insert junk true i f n a r h = Ret h' /\
    chain h' a ((a, hv) :: (b, MkNode i n f r) :: rows).
Proof using Hmalloc.
  intros Hc. unfold UM_Insert. destruct (malloc_spec (dom h)) as [Hn|[Hb Hfresh]]; [by destruct (Hmalloc _ Hn)|].
  rewrite (proj2 (Z.eqb_neq _ _) (Hmalloc _)). cbn [negb]. set (b := malloc (dom h)) in *.
  destruct (chain_at _ _ [] _ _ _ Hc) as [Ha Hh].
  assert (Hab : a <> b) by (intros ->; apply Hfresh; by apply elem_of_dom_2 in Hh).
  erewrite load_Some; [|done|by rewrite lookup_insert_ne]. rewrite outcome_bind_ret. cbn [next].
  rewrite insert_insert_eq. erewrite set_next_Some; [|done|by rewrite lookup_insert_ne].
  eexists _, b. split; [done|]. apply (chain_insert h a [] a hv b _ rows Hc); [unfold NULL; lia|done].
Qed.

(** A rule in front of the others. *)
Lemma insert_rule s l base i f rec h k :
  um_rep s l base -> fwn_label rec = input -> fwn_rulenum rec = 1 ->
  setsockopt (IP_FW_INSERT rec) (um_fw s) = (true, k) ->
  UM_Insert junk true i f 1 (um_list s) rec (um_heap s) = Ret h ->
  um_rep (with_heap h (with_fw k s)) (new_entry i f (rule_of rec) :: l) base.
Proof using Hmalloc.
  intros [(hv & rows & Hc & Hm & Hlab) Hch] Hl Hn Hk Hh.
  destruct (UM_Insert_spec i f 1 rec _ _ _ _ Hc) as (h' & b & Hi & Hc').
  rewrite Hh in Hi. injection Hi as <-. split; cbn.
  - exists hv, ((b, MkNode i 1 f rec) :: rows). split_and!; [done| |by constructor].
    csimpl. by rewrite Hm.
  - by rewrite (insert_ok _ _ _ Hl Hn Hk), Hch.
Qed.

Definition address_ok (g : stAllowUM) : Prop :=
  match pcIpAddr g with Some octets => printable octets | None => True end.

(** The kernel refused a request; a change asks for a rule that is there. *)
Definition replaces (s : um) (q : fw_request) : Prop :=
  exists r, q = IP_FW_REPLACE r /\ fwn_label r = input /\
    1 <= fwn_rulenum r <= Z.of_nat (length (input_chain (um_fw s))).
Definition refused (d : Z) (s : um) : Prop :=
  exists q k, setsockopt q (um_fw s) = (false, k) /\ (d = UM_MODIFY -> replaces s q).

Lemma UM_AddRule_spec g s l base :
  um_rep s l base -> address_ok g -> UM_DEBUG = true \/ complete g = true ->
  exists r s', UM_AddRule UM_DEBUG cDstAddr junk all g s = Ret (r, s') /\
    ((r = NASC_SUCCESS \/ complete g = false) /\
       um_rep s' (filter_request cDstAddr junk g UM_ADD l) base \/
     r = NASC_FAILURE /\ refused UM_ADD s /\ um_rep s' l base).
Proof using Hmalloc.
  intros Hr Hok Hdbg. unfold UM_AddRule, filter_request, address_ok in *.
  change (UM_ADD =? UM_ADD) with true. cbv iota.
  destruct (pcIpAddr g) as [octets|] eqn:Ho.
  2: { destruct Hdbg as [->|Hc]; [|unfold complete in Hc; rewrite Ho in Hc; done].
       rewrite bool_decide_eq_true_2 by done. eexists _, s. split; [done|]. left.
       unfold complete. rewrite Ho. split; [by right|done]. }
  rewrite bool_decide_eq_false_2 by done. cbn [orb]. unfold complete in *. rewrite Ho in *.
  rewrite bool_decide_eq_true_2 in * by done. cbn [andb] in *.
  destruct (iPortNum g =? -1), (iStatus g =? -1), (iStatus g =? 2); cbn [orb andb negb] in *;
    try (destruct Hdbg as [->|]; [|done]; eexists _, s; split; [done|left; split; [by right|done]]).
  rewrite !andb_false_r. cbn [negb].
  destruct (print_address_spec octets Hok) as (cBuff & -> & Ha & Hne). rewrite outcome_bind_ret.
  rewrite bool_decide_eq_false_2 by done. cbv zeta. set (rec := MkNew 1 _ ACCEPT input).
  assert (Hrec : rule_of rec = allow_rule cDstAddr junk g octets).
  { unfold rule_of, rec, allow_rule. cbn [ipfw label]. by rewrite Ha. }
  destruct (setsockopt (IP_FW_INSERT rec) (um_fw s)) as [[] k] eqn:Hk.
  - destruct (ur_list _ _ _ Hr) as (hv & rows & Hc & _).
    destruct (UM_Insert_spec (iIndex g) (iFlag g) 1 rec _ _ _ _ Hc) as (h & b & Hi & _).
    rewrite Hi, outcome_bind_ret. do 2 eexists. split; [done|]. left. rewrite <- Hrec.
    split; [by left|]. by apply insert_rule.
  - do 2 eexists. split; [done|]. right. split; [done|]. split; [by exists (IP_FW_INSERT rec), k|].
    destruct Hr as [Hl Hch]. split; [done|]. cbn. by rewrite (request_fails _ _ _ Hk).
Qed.
Lemma UM_GetPos_spec s l base i f :
  um_rep s l base -> Z.of_nat (length l) < 32768 ->
  UM_GetPos i (um_list s) f (um_heap s) = Ret (position (is_row i f) l).
Proof.
  intros [(hv & rows & Hc & Hm & _) _] Hlen. unfold UM_GetPos.
  rewrite (chain_load _ _ [] _ _ _ Hc), outcome_bind_ret. cbn [next].
  destruct (find_row_spec rows (S (size (um_heap s))) _ _ [(um_list s, hv)] i f 0 Hc) as (p & -> & _);
    [done|rewrite (chain_size _ _ _ Hc); simpl; lia|lia|rewrite (rows_length _ _ Hm); lia|].
  rewrite outcome_bind_ret, Hm, position_listed.
  destruct (Z.eqb_spec (position (is_row i f) l) 0) as [E|E]; [by rewrite E|done].
Qed.

Lemma UM_DelRule_spec g s l base :
  um_rep s l base -> Z.of_nat (length l) < 32768 ->
  exists r s', UM_DelRule g s = Ret (r, s') /\
    (um_rep s' (filter_request cDstAddr junk g UM_DELETE l) base \/ refused UM_DELETE s /\ um_rep s' l base).
Proof.
  intros Hr Hlen. unfold UM_DelRule. rewrite (UM_GetPos_spec s l base) by done. rewrite outcome_bind_ret.
  change (filter_request cDstAddr junk g UM_DELETE l) with (remove_first (is_row (iIndex g) (iFlag g)) l).
  destruct (Z.eqb_spec (position (is_row (iIndex g) (iFlag g)) l) 0) as [E|E].
  { eexists _, s. split; [done|]. left. by rewrite remove_first_none by (by apply position_none). }
  destruct (setsockopt _ (um_fw s)) as [[] k] eqn:Hk.
  - destruct Hr as [(hv & rows & Hc & Hm & Hlab) Hch]. unfold UM_DeleteFromList.
    rewrite (chain_load _ _ [] _ _ _ Hc), outcome_bind_ret. cbn [next].
    destruct (delete_row_spec rows (S (size (um_heap s))) _ _ [] (um_list s) hv (iIndex g) (iFlag g) Hc)
      as (h' & rows' & -> & Hc' & Hm' & Hs); [rewrite (chain_size _ _ _ Hc); simpl; lia|].
    rewrite outcome_bind_ret. do 2 eexists. split; [done|]. left. split; cbn.
    + exists hv, rows'. split_and!; [done|by rewrite Hm', Hm, remove_first_listed|].
      assert (rows'.*2 ⊆ rows.*2) as Hsub by (by apply sublist_subseteq; apply fmap_sublist).
      apply Forall_forall. intros n Hn. apply (proj1 (Forall_forall _ _) Hlab). by apply Hsub.
    + pose proof (position_split _ _ E) as (l1 & e & l2 & Hl & He & Hn & Hpos).
      pose proof (position_range (is_row (iIndex g) (iFlag g)) l) as Hrange.
      rewrite (delete_ok (position (is_row (iIndex g) (iFlag g)) l) _ _ ltac:(rewrite Hch, length_app, length_map; lia) Hk), Hch.
      rewrite Hpos, Hl, remove_first_split by done.
      replace (Z.to_nat (Z.of_nat (length l1) + 1 - 1)) with (length (map e_rule l1))
        by (rewrite length_map; lia).
      rewrite !map_app, <- !app_assoc. cbn [map app].
      rewrite delete_middle. done.
  - do 2 eexists. split; [done|]. right. split; [by do 2 eexists|].
    destruct Hr as [Hl Hch]. split; [done|]. cbn. by rewrite (request_fails _ _ _ Hk).
Qed.

(** A rule that is there is replaced when the program asks for it. *)
Definition replace_works : Prop :=
  forall r k, fwn_label r = input -> 1 <= fwn_rulenum r <= Z.of_nat (length (input_chain k)) ->
    (setsockopt (IP_FW_REPLACE r) k).1 = true.

Lemma set_record_spec h a hv r1 p n r2 r :
  chain h a ((a, hv) :: r1 ++ (p, n) :: r2) ->
  exists h', set_record h p r = Ret h' /\
    chain h' a ((a, hv) :: r1 ++ (p, MkNode (um_iIndex n) (um_iRuleNum n) (um_iFlag n) r) :: r2).
Proof.
  intros Hc. rewrite app_comm_cons in Hc. unfold set_record.
  rewrite (chain_load _ _ _ _ _ _ Hc), outcome_bind_ret. eexists. split; [done|].
  rewrite app_comm_cons. by apply (chain_update _ _ _ _ n).
Qed.

(** The source of a changed rule, and the records the change makes. *)
Lemma new_source g old B (k : Z -> outcome B) : address_ok g ->
  ((if negb (bool_decide (pcIpAddr g = None))
    then cBuff ← print_address (pcIpAddr g); mret (inet_addr cBuff) else mret old) ≫= k) =
  k (match pcIpAddr g with Some octets => address octets | None => old end).
Proof using Type.
  unfold address_ok. destruct (pcIpAddr g) as [octets|]; intros Hok.
  - rewrite bool_decide_eq_false_2 by done.
    destruct (print_address_spec octets Hok) as (cBuff & E1 & E2 & _). cbn [negb].
    by rewrite E1, !outcome_bind_ret, E2.
  - by rewrite bool_decide_eq_true_2.
Qed.

Definition granted (g : stAllowUM) (num : Z) (r : ip_fwnew) : ip_fwnew :=
  set_rule (match pcIpAddr g with Some octets => address octets | None => fw_src (ipfw r) end)
    (if negb (iPortNum g =? 0) then (UI16 (iPortNum g), UI16 (iPortNum g)) else fw_dpts (ipfw r)) num r.
Definition spoiled (g : stAllowUM) (num : Z) (r : ip_fwnew) : ip_fwnew :=
  set_rule (if negb (bool_decide (pcIpAddr g = None)) then fw_src (ipfw r) else fw_src (ipfw junk))
    (if negb (iPortNum g =? 0) then UI16 (I16 (fw_dpts (ipfw r)).1) else UI16 (fw_dpts (ipfw junk)).1,
     (if negb (iPortNum g =? 0) then (UI16 (iPortNum g), UI16 (iPortNum g)) else fw_dpts (ipfw r)).2) num r.

Lemma granted_rule g num r : rule_of (granted g num r) = changed_rule g (rule_of r).
Proof using Type. unfold rule_of, granted, changed_rule, set_rule. cbn. by destruct (iPortNum g =? 0). Qed.
Lemma spoiled_rule_of g num r : rule_of (spoiled g num r) = spoiled_rule junk g (rule_of r).
Proof using Type.
  unfold rule_of, spoiled, spoiled_rule, set_rule. cbn. destruct (iPortNum g =? 0), (pcIpAddr g);
    by rewrite ?bool_decide_eq_false_2, ?bool_decide_eq_true_2 by done.
Qed.

(** The rule in the middle of the chain is replaced. *)
Lemma replaced s k l1 e l2 base new :
  input_chain (um_fw s) = map e_rule (l1 ++ e :: l2) ++ base ->
  fwn_label new = input -> fwn_rulenum new = Z.of_nat (length l1) + 1 ->
  setsockopt (IP_FW_REPLACE new) (um_fw s) = (true, k) ->
  input_chain k = map e_rule l1 ++ rule_of new :: map e_rule l2 ++ base.
Proof using Type.
  intros Hch Hin Hnum Hreq.
  assert (Hrange : 1 <= fwn_rulenum new <= Z.of_nat (length (input_chain (um_fw s)))).
  { rewrite Hnum, Hch, length_app, length_map, length_app. simpl. lia. }
  rewrite (replace_ok new _ _ Hin Hrange Hreq), Hch, Hnum, map_app.
  replace (Z.to_nat (Z.of_nat (length l1) + 1 - 1)) with (length (map e_rule l1) + 0)%nat
    by (rewrite length_map; lia).
  rewrite <- !app_assoc, insert_app_r. done.
Qed.

(** The row in the middle of the table. *)
Lemma rows_split i f (r1 : list (Z * stNode)) p n r2 l :
  map entry_of (r1 ++ (p, n) :: r2).*2 = map listed l ->
  position (is_row i f) l = Z.of_nat (length r1) + 1 ->
  exists l1 e l2, l = l1 ++ e :: l2 /\ map entry_of r1.*2 = map listed l1 /\
    entry_of n = listed e /\ map entry_of r2.*2 = map listed l2 /\
    is_row i f e = true /\ Forall (fun x => is_row i f x = false) l1.
Proof.
  intros Hm Hpos. destruct (position_split (is_row i f) l) as (l1 & e & l2 & -> & He & Hn & Hpos'); [lia|].
  exists l1, e, l2. rewrite fmap_app, !map_app in Hm. csimpl in Hm.
  apply app_inj_1 in Hm as [Hm1 Hm2]; [|rewrite !length_map; lia].
  split_and!; try done; congruence.
Qed.

(** A row of the list gets another copy, and the kernel has the rule [rk] for it. *)
Lemma change_row s h k base hv r1 p n r2 l1 e l2 new rk :
  chain h (um_list s) ((um_list s, hv) ::
    r1 ++ (p, MkNode (um_iIndex n) (um_iRuleNum n) (um_iFlag n) new) :: r2) ->
  Forall (fun n => fwn_label (ipfwPtr n) = input) (r1 ++ (p, n) :: r2).*2 -> fwn_label new = input ->
  map entry_of r1.*2 = map listed l1 -> entry_of n = listed e -> map entry_of r2.*2 = map listed l2 ->
  input_chain k = map e_rule l1 ++ rk :: map e_rule l2 ++ base ->
  um_rep (with_heap h (with_fw k s)) (l1 ++ MkEntry (e_index e) (e_flag e) rk (rule_of new) :: l2) base.
Proof.
  intros Hc Hlab Hin Hl1 Hn Hl2 Hch. split; cbn.
  - exists hv, (r1 ++ (p, MkNode (um_iIndex n) (um_iRuleNum n) (um_iFlag n) new) :: r2).
    split_and!; [done| |].
    + rewrite fmap_app, !map_app. csimpl. rewrite Hl1, Hl2.
      unfold entry_of at 1, listed at 2. cbn. injection Hn as -> -> _. done.
    + rewrite fmap_app in *. csimpl in *. apply Forall_app in Hlab as [? Hlab].
      apply Forall_app. split; [done|]. constructor; [done|]. by apply Forall_cons in Hlab as [_ ?].
  - rewrite Hch, map_app, <- app_assoc. done.
Qed.

Lemma UM_ModifyRule_spec g s l base :
  um_rep s l base -> address_ok g -> Z.of_nat (length l) < 32768 ->
  exists r s', UM_ModifyRule junk all g s = Ret (Some (r, s')) /\
    (um_rep s' (filter_request cDstAddr junk g UM_MODIFY l) base \/
     refused UM_MODIFY s /\ um_rep s' (refused_request junk g UM_MODIFY l) base).
Proof using Hmalloc.
  intros Hr Hok Hlen. unfold UM_ModifyRule, filter_request, refused_request.
  change (UM_MODIFY =? UM_ADD) with false. change (UM_MODIFY =? UM_MODIFY) with true. cbv iota.
  rewrite bool_decide_not, !negb_involutive.
  destruct (bool_decide (pcIpAddr g = None) && (iPortNum g =? 0)) eqn:Hnone; [by do 2 eexists; auto|].
  cbn [negb]. destruct Hr as [(hv & rows & Hc & Hm & Hlab) Hch]. unfold UM_GetstructForMod.
  rewrite (chain_load _ _ [] _ _ _ Hc), outcome_bind_ret. cbn [next].
  set (P := is_row (iIndex g) (iFlag g)).
  destruct (find_row_spec rows (S (size (um_heap s))) _ _ [(um_list s, hv)] (iIndex g) (iFlag g) 0 Hc)
    as (p & -> & Hfound);
    [done|rewrite (chain_size _ _ _ Hc); simpl; lia|lia|rewrite (rows_length _ _ Hm); lia|].
  rewrite Hm, position_listed in Hfound |- *. fold P in Hfound |- *. rewrite outcome_bind_ret.
  destruct (Z.eqb_spec (position P l) 0) as [E|E].
  { do 2 eexists. split; [done|]. left. rewrite alter_first_none by (by apply position_none).
    split; [by exists hv, rows|done]. }
  destruct (Hfound E) as (r1 & n & r2 & -> & Hpos). clear Hfound.
  destruct (rows_split _ _ r1 p n r2 l Hm (eq_sym Hpos)) as (l1 & e & l2 & -> & Hr1 & Hn & Hr2 & HP & Hl1).
  rewrite app_comm_cons in Hc. rewrite (chain_load _ _ _ _ _ _ Hc), outcome_bind_ret. cbn [val].
  replace (0 + position P (l1 ++ e :: l2)) with (Z.of_nat (length l1) + 1) by
    (rewrite <- Hpos; apply (f_equal length) in Hr1; rewrite !length_map in Hr1; lia).
  rewrite (new_source g _ _ _ Hok), !alter_first_split by done. set (new := set_rule _ _ _ (ipfwPtr n)).
  rewrite <- app_comm_cons in Hc.
  destruct (set_record_spec _ _ _ _ _ _ _ new Hc) as (h & -> & Hc'). rewrite outcome_bind_ret.
  assert (Hin : fwn_label (ipfwPtr n) = input).
  { apply (proj1 (Forall_forall _ _) Hlab). rewrite fmap_app. csimpl. set_solver. }
  assert (Hrule : rule_of (ipfwPtr n) = e_copy e) by by injection Hn.
  destruct (setsockopt (IP_FW_REPLACE new) (um_fw s)) as [[] k] eqn:Hreq.
  - do 2 eexists. split; [done|]. left. unfold change_entry. rewrite <- Hrule.
    rewrite <- (granted_rule g (Z.of_nat (length l1) + 1) (ipfwPtr n)).
    apply (change_row s h k base hv r1 p n r2 l1 e l2 new); try done. by apply (replaced s k l1 e l2 base new).
  - destruct (set_record_spec _ _ _ _ _ _ _ (spoiled g (Z.of_nat (length l1) + 1) (ipfwPtr n)) Hc')
      as (h' & Hset & Hc'').
    unfold spoiled in Hset at 1. rewrite Hset, outcome_bind_ret. do 2 eexists. split; [done|]. right.
    split; [exists (IP_FW_REPLACE new), k; split; [done|]; intros _; exists new; split_and!; try done|].
    + cbn. lia.
    + rewrite Hch. cbn. rewrite length_app, length_map, length_app. simpl. lia.
    + unfold spoil_entry. rewrite <- Hrule.
      rewrite <- (spoiled_rule_of g (Z.of_nat (length l1) + 1) (ipfwPtr n)).
      eapply (change_row s h' k base hv r1 p n r2 l1 e l2); try done.
      rewrite (request_fails _ _ _ Hreq), Hch, map_app. by rewrite <- app_assoc.
Qed.

Lemma UM_CreateFilter_spec g d s l base :
  um_rep s l base -> address_ok g -> Z.of_nat (length l) < 32768 ->
  (d = UM_ADD -> UM_DEBUG = true \/ complete g = true) ->
  exists r s', UM_CreateFilter UM_DEBUG cDstAddr junk all g d s = Ret (Some (r, s')) /\
    (um_rep s' (filter_request cDstAddr junk g d l) base \/
     refused d s /\ um_rep s' (refused_request junk g d l) base).
Proof using Hmalloc.
  intros Hr Hok Hlen Hdbg. unfold UM_CreateFilter.
  destruct (Z.eqb_spec d UM_ADD) as [->|Ha].
  { destruct (UM_AddRule_spec g s l base Hr Hok (Hdbg eq_refl)) as (r & s' & -> & Hs'). rewrite outcome_bind_ret.
    do 2 eexists. split; [done|]. by destruct Hs' as [[_ ?]|(_ & ? & ?)]; [left|right]. }
  destruct (Z.eqb_spec d UM_MODIFY) as [->|Hm].
  { destruct (UM_ModifyRule_spec g s l base Hr Hok Hlen) as (r & s' & -> & Hs').
    rewrite outcome_bind_ret. by do 2 eexists. }
  destruct (Z.eqb_spec d UM_DELETE) as [->|Hd].
  { destruct (UM_DelRule_spec g s l base Hr Hlen) as (r & s' & -> & Hs'). rewrite outcome_bind_ret.
    by do 2 eexists. }
  do 2 eexists. split; [done|]. left. unfold filter_request.
  by rewrite !(proj2 (Z.eqb_neq d _)) by done.
Qed.

Lemma filter_request_length g d l :
  (length (filter_request cDstAddr junk g d l) <= S (length l))%nat.
Proof using Type.
  unfold filter_request. repeat case_match; simpl; rewrite ?alter_first_length; try lia.
  pose proof (remove_first_length (is_row (iIndex g) (iFlag g)) l). lia.
Qed.
Lemma refused_request_length g d l : length (refused_request junk g d l) = length l.
Proof using Type. unfold refused_request. case_match; [apply alter_first_length|done]. Qed.

(** A request the kernel grants keeps the copies in step, and so does a refusal,
    unless it is of a change. *)
Lemma filter_request_in_step g d l :
  Forall in_step l -> Forall in_step (filter_request cDstAddr junk g d l).
Proof using Type.
  intros Hl. unfold filter_request. repeat case_match; try done; try (by constructor).
  - by apply alter_first_Forall.
  - by apply remove_first_Forall.
Qed.
Lemma refused_request_other g d l : d <> UM_MODIFY -> refused_request junk g d l = l.
Proof using Type. intros Hd. unfold refused_request. by rewrite (proj2 (Z.eqb_neq _ _) Hd). Qed.

(** ** The start *)
Lemma UM_SetFireWallRule_spec f s l base :
  um_rep s l base -> 0 <= f <= 3 ->
  exists r s', UM_SetFireWallRule cDstAddr junk all f s = Ret (r, s') /\
    (r = NASC_SUCCESS /\ um_rep s' (new_entry 1 UM_GENERAL (deny_rule cDstAddr junk f) :: l) base \/
     r = NASC_FAILURE).
Proof using Hmalloc.
  intros Hr Hf. unfold UM_SetFireWallRule. cbn [negb].
  rewrite (proj2 (Z.leb_le 0 f)), (proj2 (Z.leb_le f 3)) by lia. cbn [andb]. cbv zeta.
  set (rec := MkNew 1 _ DENY input).
  assert (Hrec : rule_of rec = deny_rule cDstAddr junk f).
  { unfold rule_of, rec, deny_rule. cbn [ipfw label].
    assert (f = 0 \/ f = 1 \/ f = 2 \/ f = 3) as [->|[->|[->| ->]]] by lia; done. }
  destruct (setsockopt (IP_FW_INSERT rec) (um_fw s)) as [[] k] eqn:Hk.
  - destruct (ur_list _ _ _ Hr) as (hv & rows & Hc & _).
    destruct (UM_Insert_spec 1 UM_GENERAL 1 rec _ _ _ _ Hc) as (h & b & Hi & _).
    rewrite Hi, outcome_bind_ret. do 2 eexists. split; [done|]. left. split; [done|]. rewrite <- Hrec.
    by apply insert_rule.
  - do 2 eexists. split; [done|]. by right.
Qed.

End Requests.

Section Main.
Context `{FilterLaws} `{Allocator}.
Hypothesis Hmalloc : malloc_total.
Variables (cDstAddr : text) (junk : Z -> ip_fwnew).
Abbreviation all := (fun _ : nat => true).

(** The next service is closed, or [main] ends. *)
Ltac deny_step f s Hr s' Hr' :=
  let r := fresh "r" in
  destruct (UM_SetFireWallRule_spec Hmalloc cDstAddr (junk f) f s _ _ Hr) as (r & s' & -> & [[-> Hr']| ->]);
  [done| |by exists None];
  rewrite outcome_bind_ret; change (NASC_SUCCESS =? NASC_FAILURE) with false; cbv iota.

Lemma main_spec k :
  exists r, main cDstAddr junk (fun _ => all) k = Ret r /\
    match r with
    | Some s => exists base, um_rep s (start_table cDstAddr junk) base /\
        ((setsockopt (IP_FW_FLUSH input) k).1 = true -> base = [])
    | None => True
    end.
Proof using Hmalloc.
  unfold main, UM_MakeEmpty. rewrite (proj2 (Z.eqb_neq _ _) (Hmalloc _)), outcome_bind_ret.
  set (a := malloc _). set (s0 := MkUm _ _ a k).
  assert (Hr : exists base, um_rep (UM_DeleteAllRule s0).2 [] base /\
    ((setsockopt (IP_FW_FLUSH input) k).1 = true -> base = [])).
  { exists (input_chain (um_fw (UM_DeleteAllRule s0).2)). unfold UM_DeleteAllRule. cbn [um_fw s0].
    destruct (setsockopt (IP_FW_FLUSH input) k) as [ok k'] eqn:Hk. cbn. split.
    - split; [|done]. exists (MkNode 0 0 0 (junk UM_GENERAL)), [].
      split_and!; [|done|constructor]. apply chain_singleton, Hmalloc.
    - intros ->. by apply flush_ok in Hk. }
  destruct (UM_DeleteAllRule s0) as [r0 s1]. cbn in Hr. destruct Hr as (base & Hr & Hbase).
  deny_step DENY_TELNET s1 Hr s2 Hr1. deny_step DENY_FTP s2 Hr1 s3 Hr2.
  deny_step DENY_SMTP s3 Hr2 s4 Hr3.
  destruct (UM_SetFireWallRule_spec Hmalloc cDstAddr (junk DENY_POP3) DENY_POP3 s4 _ _ Hr3) as (r4 & s5 & -> & [[-> Hr4]| ->]);
    [done| |by exists None].
  exists (Some s5). split; [done|]. by exists base.
Qed.
End Main.

(** * Reading the traps of the tables

    What UM_UserMeetering makes of the traps that the agent sends for a row. *)

#[local] Open Scope Z_scope.

(** The tables with their flags. *)
Definition tables : list (Z * list Z) :=
  [(ALLOW_TELNET, allowTelnetTable_variables_oid); (ALLOW_FTP, allowFTPTable_variables_oid);
   (ALLOW_SMTP, allowSMTPTable_variables_oid); (ALLOW_POP3, allowPOP3Table_variables_oid)].

(** The variables of a row: its address, its port and its status. *)
Definition address_var (oid : list Z) (idx : Z) (octets : list Z) : variable :=
  MkVariable (column oid 3 ++ [idx]) (Z.of_nat (length octets)) octets None.
Definition number_var (oid : list Z) (c idx x : Z) : variable :=
  MkVariable (column oid c ++ [idx]) 4 [] (Some x).

(** Which tables the program knows on a host whose [unsigned long] has [lw] bits. *)
Definition known_table (lw f : Z) : Prop := lw = 32 \/ lw = 64 /\ f = ALLOW_TELNET.

Ltac each_table H :=
  repeat (apply elem_of_cons in H as [H|H]; [injection H as -> ->|]); [.. |by apply elem_of_nil in H].

Lemma UM_CheckTable_known lw f oid c idx v vars :
  (f, oid) ∈ tables -> known_table lw f -> name v = column oid c ++ [idx] ->
  UM_CheckTable lw (v :: vars) = Ret f.
Proof.
  intros Hin Hlw Hv. unfold UM_CheckTable, is_under. rewrite !under_take, Hv.
  each_table Hin; (destruct Hlw as [->|[-> Hf]]; [reflexivity|]); first [discriminate Hf|reflexivity].
Qed.

(** On a 64-bit host the identifiers of the other tables count twice their
    length. *)
Lemma UM_CheckTable_64 f oid c idx v vars :
  (f, oid) ∈ tables -> f <> ALLOW_TELNET -> name v = column oid c ++ [idx] ->
  UM_CheckTable 64 (v :: vars) = Ret (-1).
Proof.
  intros Hin Hf Hv. unfold UM_CheckTable, is_under. rewrite !under_take, Hv.
  each_table Hin; first [reflexivity|by destruct Hf].
Qed.

Lemma field_of_column f oid c idx v :
  (f, oid) ∈ tables -> 3 <= c <= 5 -> name v = column oid c ++ [idx] -> field_of f v = c - 2.
Proof.
  intros Hin Hc Hv. unfold field_of, UM_CheckFieldFTP, UM_CheckFieldSMTP, UM_CheckFieldPOP3.
  unfold UM_CheckFieldTelnet, check_field. rewrite !under_take, Hv.
  assert (c = 3 \/ c = 4 \/ c = 5) as [-> | [-> | ->]] by lia; each_table Hin; reflexivity.
Qed.

Lemma UM_GetIndex_row f oid c idx v :
  (f, oid) ∈ tables -> name v = column oid c ++ [idx] -> UM_GetIndex v = Ret (I16 idx).
Proof. intros Hin Hv. unfold UM_GetIndex. rewrite Hv. each_table Hin; reflexivity. Qed.

(** ** One variable after the other *)
Section Fields.
Variables (UM_DEBUG : bool) (f : Z) (oid : list Z) (idx : Z).
Hypothesis Hin : (f, oid) ∈ tables.

Lemma read_address octets g :
  0 < Z.of_nat (length octets) < 32768 ->
  read_field UM_DEBUG true f (address_var oid idx octets) g =
    Ret (Some (with_address (Some (octets ++ [0])) g)).
Proof using Hin.
  intros Hlen. unfold read_field. rewrite (field_of_column f oid 3 idx) by done.
  change (3 - 2 =? IP_ADDR) with true. cbv iota. unfold copy_address. cbn [val_len val_string address_var].
  rewrite I16_id by lia. zbool; try lia. cbn [negb orb]. zbool; try lia.
  rewrite outcome_bind_ret, Nat2Z.id, firstn_all. done.
Qed.

Lemma read_port x g :
  read_field UM_DEBUG true f (number_var oid 4 idx x) g = Ret (Some (with_port (I16 x) g)).
Proof using Hin. unfold read_field. by rewrite (field_of_column f oid 4 idx). Qed.

Lemma read_status x g :
  read_field UM_DEBUG true f (number_var oid 5 idx x) g = Ret (Some (with_status (I16 x) g)).
Proof using Hin. unfold read_field. by rewrite (field_of_column f oid 5 idx). Qed.
End Fields.

(** ** The whole trap *)
Section Trap.
Context `{PacketFilter} `{Allocator}.
Variables (UM_DEBUG : bool) (cDstAddr : text) (junk : ip_fwnew) (lw : Z).
Abbreviation all := (fun _ : nat => true).

(** A trap is a request. *)
Definition request_of (g : stAllowUM) (s : um) : outcome (option um) :=
  r ← UM_CreateFilter UM_DEBUG cDstAddr junk all g (decision (iStatus g)) s;
  mret (match r with Some (_, s) => Some s | None => None end).

Definition row_trap (oid : list Z) (idx : Z) (octets : list Z) (port status : Z) : list variable :=
  [address_var oid idx octets; number_var oid 4 idx port; number_var oid 5 idx status].

Lemma trap_of_row f oid idx octets port status s :
  (f, oid) ∈ tables -> known_table lw f -> 0 < Z.of_nat (length octets) < 32768 ->
  UM_UserMeetering UM_DEBUG cDstAddr junk lw true all all (row_trap oid idx octets port status) s =
    request_of (MkAllow (I16 idx) (Some (octets ++ [0])) (I16 port) f (I16 status)) s.
Proof.
  intros Hin Hlw Hlen. unfold UM_UserMeetering, row_trap.
  rewrite (UM_CheckTable_known lw f oid 3 idx) by done. rewrite outcome_bind_ret.
  replace (f =? -1) with false by (each_table Hin; reflexivity).
  cbn [negb]. rewrite (UM_GetIndex_row f oid 3 idx), outcome_bind_ret by done. cbn [read_fields].
  rewrite (read_address UM_DEBUG f oid idx Hin) by done. rewrite outcome_bind_ret.
  rewrite (read_port UM_DEBUG f oid idx Hin), outcome_bind_ret.
  rewrite (read_status UM_DEBUG f oid idx Hin), !outcome_bind_ret. done.
Qed.

Lemma trap_of_status f oid idx status s :
  (f, oid) ∈ tables -> known_table lw f ->
  UM_UserMeetering UM_DEBUG cDstAddr junk lw true all all [number_var oid 5 idx status] s =
    request_of (MkAllow (I16 idx) None (-1) f (I16 status)) s.
Proof.
  intros Hin Hlw. unfold UM_UserMeetering.
  rewrite (UM_CheckTable_known lw f oid 5 idx) by done. rewrite outcome_bind_ret.
  replace (f =? -1) with false by (each_table Hin; reflexivity).
  cbn [negb]. rewrite (UM_GetIndex_row f oid 5 idx), outcome_bind_ret by done. cbn [read_fields].
  rewrite (read_status UM_DEBUG f oid idx Hin), !outcome_bind_ret. done.
Qed.
End Trap.
