(* ===== verification/FirewallProps.v ===== *)
(** * What the access control guarantees

    The list of rows follows the rules of the kernel, rows that are set up open
    a port to a client and rows that are deleted close it, and the cases in
    which they do not. *)

From Stdlib Require Import String.
From S2P Require Import Prelude Heap ListSort CTypes CText Firewall FirewallTrap.
From S2P Require Import FirewallSpec FirewallProofs.
From stdpp Require Import list.
#[local] Open Scope Z_scope.

(** ** Requests in sequence

    Each with what the memory it gets and does not write holds. *)
Record request := Req { q_junk : ip_fwnew; q_op : Z; q_row : stAllowUM }.

Section Run.
Context `{PacketFilter} `{Allocator}.
Variables (UM_DEBUG : bool) (cDstAddr : text).

Fixpoint requests (rs : list request) (s : um) : outcome (option um) :=
  match rs with
  | [] => mret (Some s)
  | q :: rs =>
      r ← UM_CreateFilter UM_DEBUG cDstAddr (q_junk q) (fun _ => true) (q_row q) (q_op q) s;
      match r with Some (_, s) => requests rs s | None => mret None end
  end.

(** Traps in sequence, with memory for all of them. *)
Fixpoint traps (lw : Z) (ts : list (ip_fwnew * list variable)) (s : um) : outcome (option um) :=
  match ts with
  | [] => mret (Some s)
  | (junk, t) :: ts =>
      r ← UM_UserMeetering UM_DEBUG cDstAddr junk lw true (fun _ => true) (fun _ => true) t s;
      match r with Some s => traps lw ts s | None => mret None end
  end.
End Run.

(** ** What the agent tells

    A row of a table is written with all its columns, or its status alone. *)
Inductive event :=
| Row (f : Z) (oid : list Z) (idx : Z) (octets : list Z) (port status : Z)
| Status (f : Z) (oid : list Z) (idx status : Z).

Definition variables_of_event (e : event) : list variable :=
  match e with
  | Row _ oid idx octets port status => row_trap oid idx octets port status
  | Status _ oid idx status => [number_var oid 5 idx status]
  end.
Definition trap_of (je : ip_fwnew * event) : ip_fwnew * list variable :=
  (je.1, variables_of_event je.2).

(** The row the program sees; the octets are copied with a zero behind them. *)
Definition row_of (e : event) : stAllowUM :=
  match e with
  | Row f _ idx octets port status =>
      MkAllow (I16 idx) (Some (octets ++ [0])) (I16 port) f (I16 status)
  | Status f _ idx status => MkAllow (I16 idx) None (-1) f (I16 status)
  end.

Definition request_for (je : ip_fwnew * event) : request :=
  Req je.1 (decision (iStatus (row_of je.2))) (row_of je.2).

Definition event_ok (lw : Z) (e : event) : Prop :=
  match e with
  | Row f oid _ octets _ _ =>
      (f, oid) ∈ tables /\ known_table lw f /\ length octets = 4%nat /\ printable octets
  | Status f oid _ _ => (f, oid) ∈ tables /\ known_table lw f
  end.

Lemma traps_are_requests `{PacketFilter} `{Allocator} UM_DEBUG cDstAddr lw es s :
  Forall (fun je => event_ok lw je.2) es ->
  traps UM_DEBUG cDstAddr lw (map trap_of es) s =
    requests UM_DEBUG cDstAddr (map request_for es) s.
Proof.
  intros Hok. revert s. induction Hok as [|[junk e] es He _ IH]; intros s; [done|].
  cbn [map traps requests trap_of fst snd] in *.
  assert (E : UM_UserMeetering UM_DEBUG cDstAddr junk lw true (fun _ => true) (fun _ => true)
      (variables_of_event e) s = request_of UM_DEBUG cDstAddr junk (row_of e) s).
  { destruct e as [f oid idx octets port status|f oid idx status]; cbn [event_ok variables_of_event row_of] in *.
    - destruct He as (? & ? & Hlen & _). apply trap_of_row; [done|done|lia].
    - destruct He. by apply trap_of_status. }
  rewrite E. unfold request_of, request_for. cbn [q_junk q_op q_row fst snd].
  destruct (UM_CreateFilter _ _ _ _ _ _ _) as [[[r s']|]| |]; try done.
  rewrite !outcome_bind_ret. cbn. apply IH.
Qed.

Lemma four_octets octets : length octets = 4%nat -> four (octets ++ [0]) = four octets.
Proof. intros Hlen. unfold four. by rewrite take_app_le by lia. Qed.

Lemma row_address octets : length octets = 4%nat -> address (octets ++ [0]) = address octets.
Proof. intros Hlen. unfold address. by rewrite four_octets. Qed.

Lemma row_printable octets :
  length octets = 4%nat -> printable octets -> printable (octets ++ [0]).
Proof. intros Hlen. unfold printable. by rewrite four_octets. Qed.

(** ** Packets and rules *)

(** The interface the rules are for. *)
Definition the_interface : text := text_of "eth0".

(** The packets of a client to a port of the host. *)
Definition of_client (host : text) (octets : list Z) (port : Z) (p : packet) : bool :=
  bool_decide (p_iface p = the_interface) && (p_src p =? address octets) && (p_dst p =? inet_addr host) && (p_proto p =? TCP) &&
  in_range (p_sport p) (0, 65535) && (p_dport p =? port).

(** Addresses are words of 32 bits. *)
Definition packet_ok (p : packet) : Prop := 0 <= p_src p < 2 ^ 32 /\ 0 <= p_dst p < 2 ^ 32.

Lemma land_none x : 0 <= x < 2 ^ 32 -> Z.land x INADDR_NONE = x.
Proof.
  intros Hx. change INADDR_NONE with (Z.ones 32). rewrite Z.land_ones by lia. by apply Z.mod_small.
Qed.

(** Whether a packet matches a rule made of memory with quiet flags. *)
Lemma matches_quiet junk src smsk dst dmsk proto dpts p : quiet junk -> proto <> 0 ->
  matches (with_match src smsk dst dmsk proto dpts (UM_RuleInitialize (ipfw junk))) p =
    bool_decide (p_iface p = the_interface) && (Z.land (p_src p) smsk =? src) &&
    (Z.land (p_dst p) dmsk =? dst) && (p_proto p =? proto) && in_range (p_sport p) (0, 65535) &&
    in_range (p_dport p) dpts.
Proof.
  intros (H1 & H2 & H3) Hproto. unfold matches, on_interface, inv, flag in *. cbn [fw_flg with_match].
  change (fw_flg (UM_RuleInitialize (ipfw junk))) with (fw_flg (ipfw junk)). rewrite H1, H2, H3.
  cbn [with_match UM_RuleInitialize fw_src fw_smsk fw_dst fw_dmsk fw_proto fw_invflg fw_spts fw_dpts
    fw_vianame]. rewrite (proj2 (Z.eqb_neq _ _) Hproto), !Z.testbit_0_l. cbn [xorb orb].
  fold the_interface. rewrite (Z.eqb_sym proto).
  destruct (bool_decide (p_iface p = the_interface)), (_ =? src), (_ =? dst); by rewrite ?andb_true_r.
Qed.

Lemma in_range_one x y : in_range x (y, y) = (x =? y).
Proof. unfold in_range. cbn. zbool; lia. Qed.

Lemma allow_matches host junk g octets p : quiet junk -> packet_ok p ->
  iFlag g = ALLOW_TELNET \/ iFlag g = ALLOW_FTP ->
  matches (allow_rule host junk g octets).1 p = of_client host octets (UI16 (iPortNum g)) p.
Proof.
  intros Hq [Hs Hd] Hf. unfold allow_rule, of_client. cbn [fst].
  assert (rule_proto (iFlag g) (fw_proto (UM_RuleInitialize (ipfw junk))) = 6 /\
    (0 <=? iFlag g) && (iFlag g <=? 3) = true) as [-> ->] by (by destruct Hf as [-> | ->]).
  by rewrite matches_quiet, !land_none, in_range_one by done.
Qed.

Lemma verdict_cons r chain p :
  verdict (r :: chain) p = if matches r.1 p then Some r.2 else verdict chain p.
Proof. unfold verdict. cbn [find]. by destruct (matches r.1 p). Qed.

Section Properties.
Context `{FilterLaws} `{Allocator}.
Hypothesis Hmalloc : malloc_total.
Variables (UM_DEBUG : bool) (cDstAddr : text).
Abbreviation all := (fun _ : nat => true).

Definition request_ok (q : request) : Prop :=
  address_ok (q_row q) /\ (q_op q = UM_ADD -> UM_DEBUG = true \/ complete (q_row q) = true).

Definition apply_request (l : list entry) (q : request) : list entry :=
  filter_request cDstAddr (q_junk q) (q_row q) (q_op q) l.

(** Every request is granted. *)
Definition granted_all : Prop := forall q k, (setsockopt q k).1 = true.

Lemma granted_all_not_refused d s : granted_all -> refused d s -> False.
Proof. intros Hall (q & k & Hq & _). specialize (Hall q (um_fw s)). by rewrite Hq in Hall. Qed.

Lemma refused_in_step q s l : Forall in_step l -> replace_works -> refused (q_op q) s ->
  Forall in_step (refused_request (q_junk q) (q_row q) (q_op q) l).
Proof using Type.
  intros Hl Hworks (x & k & Hk & Hrep). rewrite refused_request_other; [done|]. intros Hd.
  destruct (Hrep Hd) as (r & -> & Hin & Hn). specialize (Hworks r (um_fw s) Hin Hn). by rewrite Hk in Hworks.
Qed.

Lemma requests_spec rs s l base :
  Forall request_ok rs -> um_rep s l base -> Z.of_nat (length l + length rs) < 32768 ->
  exists s' l', requests UM_DEBUG cDstAddr rs s = Ret (Some s') /\ um_rep s' l' base /\
    (replace_works -> Forall in_step l -> Forall in_step l') /\
    (granted_all -> l' = foldl apply_request l rs).
Proof using Hmalloc.
  intros Hok. revert s l. induction Hok as [|[junk d g] rs [Ha Hd] _ IH]; intros s l Hr Hlen.
  { by exists s, l. }
  cbn [requests]. cbn [q_junk q_op q_row length] in *.
  destruct (UM_CreateFilter_spec Hmalloc UM_DEBUG cDstAddr junk g d s l base Hr Ha ltac:(lia) Hd)
    as (r & s1 & -> & Hs1). rewrite outcome_bind_ret.
  destruct Hs1 as [Hr1|[Href Hr1]].
  - pose proof (filter_request_length cDstAddr junk g d l).
    destruct (IH s1 _ Hr1 ltac:(lia)) as (s' & l' & -> & Hr' & Hst & Hl'). exists s', l'.
    split_and!; [done|done| |done]. intros Hworks Hl. by apply Hst, filter_request_in_step.
  - destruct (IH s1 _ Hr1 ltac:(rewrite refused_request_length; lia)) as (s' & l' & -> & Hr' & Hst & _).
    exists s', l'. split_and!; [done|done| |].
    + intros Hworks Hl. apply Hst; [done|]. by apply (refused_in_step (Req junk d g) s).
    + intros Hall. by destruct (granted_all_not_refused d s Hall Href).
Qed.

(** C20: the list of rows follows the rules of the kernel: with memory for every
    request, after the start and fewer than 32764 requests, each with an address of four
    octets and at most fourteen characters or none, and for a new row all its columns unless
    the program is built with UM_DEBUG, whichever requests the kernel grants, no freed or
    null node is touched, the live nodes are the head and the rows, and the input
    chain is the rules of the rows, one for each row in the order of the list, before
    whatever rules a failed flush left, so that the position of a row is the number of its
    rule.  The copy of a rule in the list is the rule unless the kernel refused to replace
    one that is there, which spoils the copy.  If the kernel grants every request, the rows
    are those of the specification: four closed services, an addition in front, a
    modification or deletion of the newest row of its table and index. *)
Theorem firewall_follows_rows junk k s rs :
  Forall request_ok rs -> Z.of_nat (length rs) < 32764 ->
  main cDstAddr junk (fun _ => all) k = Ret (Some s) ->
  exists s' l base, requests UM_DEBUG cDstAddr rs s = Ret (Some s') /\ um_rep s' l base /\
    (replace_works -> Forall in_step l) /\
    (granted_all -> base = [] /\ l = foldl apply_request (start_table cDstAddr junk) rs).
Proof using Hmalloc.
  intros Hok Hlen Hmain.
  destruct (main_spec Hmalloc cDstAddr junk k) as (r & Hm & Hr). rewrite Hm in Hmain.
  injection Hmain as ->. destruct Hr as (base & Hr & Hbase).
  destruct (requests_spec rs s _ base Hok Hr ltac:(simpl; lia)) as (s' & l & Hs' & Hr' & Hst & Hl).
  exists s', l, base. split_and!; [done|done| |].
  - intros Hworks. apply Hst; [done|]. by repeat constructor.
  - intros Hall. split; [apply Hbase, Hall|by apply Hl].
Qed.

(** What a list of events makes of the rows, when the kernel grants it. *)
Lemma events_spec lw es s l base :
  granted_all -> um_rep s l base ->
  Forall (fun je => event_ok lw je.2) es -> Forall request_ok (map request_for es) ->
  Z.of_nat (length l + length es) < 32768 ->
  exists s', traps UM_DEBUG cDstAddr lw (map trap_of es) s = Ret (Some s') /\
    um_rep s' (foldl apply_request l (map request_for es)) base.
Proof using Hmalloc.
  intros Hall Hr Hes Hok Hlen. rewrite traps_are_requests by done.
  destruct (requests_spec (map request_for es) s l base Hok Hr) as (s' & l' & Hs & Hr' & _ & Hl);
    [by rewrite length_map|].
  exists s'. split; [done|]. by rewrite <- (Hl Hall).
Qed.

(** A row to be set up, with a port that is not missing. *)
Definition new_row (lw : Z) (e : event) : Prop :=
  event_ok lw e /\
  match e with
  | Row _ _ _ _ port status => 0 <= port < 65535 /\ (status = 1 \/ status = 4)
  | Status _ _ _ _ => False
  end.

Lemma I16_port port : 0 <= port < 65536 -> I16 port = port \/ I16 port = port - 65536.
Proof. intros Hp. unfold I16. Z.to_euclidean_division_equations. lia. Qed.

Lemma missing_port port : 0 <= port < 65535 -> (I16 port =? -1) = false.
Proof. intros Hp. destruct (I16_port port ltac:(lia)) as [-> | ->]; zbool; lia. Qed.

Lemma UI16_I16_port port : 0 <= port < 65536 -> UI16 (I16 port) = port.
Proof.
  intros Hp. destruct (I16_port port Hp) as [-> | ->]; unfold UI16;
    Z.to_euclidean_division_equations; lia.
Qed.

Lemma new_row_request lw junk e : new_row lw e ->
  request_for (junk, e) = Req junk UM_ADD (row_of e) /\ request_ok (request_for (junk, e)) /\
    complete (row_of e) = true.
Proof.
  intros [Hok He]. destruct e as [f oid idx octets port status|]; [|done]. destruct He as [Hp Hs].
  destruct Hok as (_ & _ & Hlen & Hpr). cbn [event_ok] in *.
  assert (Hc : complete (row_of (Row f oid idx octets port status)) = true).
  { unfold complete. cbn [row_of pcIpAddr iPortNum iStatus]. rewrite missing_port by done.
    rewrite bool_decide_eq_true_2 by done. by destruct Hs as [-> | ->]. }
  split; [by unfold request_for; destruct Hs as [-> | ->]|]. split; [|done]. split; [|by right].
  by apply row_printable.
Qed.

(** Setting up a row, if the kernel agrees. *)
Lemma add_request junk g s l base :
  um_rep s l base -> address_ok g -> complete g = true ->
  exists r s', UM_CreateFilter UM_DEBUG cDstAddr junk all g UM_ADD s = Ret (Some (r, s')) /\
    (um_rep s' (filter_request cDstAddr junk g UM_ADD l) base \/ refused UM_ADD s /\ um_rep s' l base).
Proof using Hmalloc.
  intros Hr Hok Hg. unfold UM_CreateFilter. change (UM_ADD =? UM_ADD) with true. cbv iota.
  destruct (UM_AddRule_spec Hmalloc UM_DEBUG cDstAddr junk g s l base Hr Hok ltac:(by right))
    as (r & s' & -> & Hs').
  rewrite outcome_bind_ret. do 2 eexists. split; [done|].
  by destruct Hs' as [[_ ?]|(_ & ? & ?)]; [left|right].
Qed.

Lemma add_row junk g octets l :
  complete g = true -> pcIpAddr g = Some octets ->
  filter_request cDstAddr junk g UM_ADD l =
    new_entry (iIndex g) (iFlag g) (allow_rule cDstAddr junk g octets) :: l.
Proof. intros Hg Ho. unfold filter_request. by rewrite Ho, Hg. Qed.

Lemma row_matches junk f oid idx octets port status p :
  quiet junk -> packet_ok p -> f = ALLOW_TELNET \/ f = ALLOW_FTP -> length octets = 4%nat -> 0 <= port < 65535 ->
  matches (allow_rule cDstAddr junk (row_of (Row f oid idx octets port status)) (octets ++ [0])).1 p =
    of_client cDstAddr octets port p.
Proof.
  intros Hq Hp Hf Hlen Hport. rewrite allow_matches by done. cbn [row_of iPortNum]. unfold of_client.
  by rewrite row_address, UI16_I16_port by (done || lia).
Qed.

(** C21: a trap for a new row of the telnet or FTP table, on a host whose long has 32 bits
    or, on one with 64 bits, of the telnet table, opens its port to its client and changes
    nothing else.  The list follows the rules before (C20).  The row has all its columns: an address of four octets and at most
    fourteen characters, a port below 65535, and status 1 or 4; there is memory, and what
    the memory for the rule held has none of the three flags that concern matching.  If the
    kernel grants the request, the packets that come in by eth0 from that address to that
    port of the host are accepted and every other packet is treated as before, and if not,
    nothing changes. *)
Theorem trap_opens_port lw junk f oid idx octets port status s l base :
  new_row lw (Row f oid idx octets port status) -> f = ALLOW_TELNET \/ f = ALLOW_FTP ->
  quiet junk -> um_rep s l base ->
  exists granted s',
    traps UM_DEBUG cDstAddr lw [(junk, row_trap oid idx octets port status)] s = Ret (Some s') /\
    (granted_all -> granted = true) /\
    forall p, packet_ok p -> verdict (input_chain (um_fw s')) p =
      if granted && of_client cDstAddr octets port p then Some ACCEPT
      else verdict (input_chain (um_fw s)) p.
Proof using Hmalloc.
  set (e := Row f oid idx octets port status). intros Hnew Hf Hquiet Hr.
  destruct (new_row_request lw junk e Hnew) as (Hq & [Hok _] & Hc). rewrite Hq in Hok.
  destruct (add_request junk (row_of e) s l base Hr Hok Hc) as (r & s' & Hadd & Hs').
  assert (Ht : traps UM_DEBUG cDstAddr lw [trap_of (junk, e)] s = Ret (Some s')).
  { change [trap_of (junk, e)] with (map trap_of [(junk, e)]).
    rewrite traps_are_requests by (apply Forall_singleton, Hnew).
    cbn [map]. rewrite Hq. cbn [requests q_junk q_op q_row]. by rewrite Hadd. }
  destruct Hnew as [(_ & _ & Hlen & _) [Hport _]].
  destruct Hs' as [Hr'|[Href Hr']]; [exists true|exists false]; exists s';
    (split; [exact Ht|]); (split; [intros Hall|intros p Hp];
     rewrite ?(ur_chain _ _ _ Hr'), ?(ur_chain _ _ _ Hr)); [done| | |done].
  - rewrite (add_row junk _ (octets ++ [0])) by done. cbn [map app new_entry e_rule].
    rewrite verdict_cons. unfold e. by rewrite row_matches.
  - by destruct (granted_all_not_refused _ s Hall Href).
Qed.

Lemma apply_add junk g octets l : complete g = true -> pcIpAddr g = Some octets ->
  apply_request l (Req junk UM_ADD g) =
    new_entry (iIndex g) (iFlag g) (allow_rule cDstAddr junk g octets) :: l.
Proof. intros Hg Ho. by apply add_row. Qed.

(** The newest row goes. *)
Lemma apply_delete junk g i f r l : iIndex g = i -> iFlag g = f ->
  apply_request (new_entry i f r :: l) (Req junk UM_DELETE g) = l.
Proof.
  intros <- <-. unfold apply_request, filter_request. cbn [q_op q_row].
  change (UM_DELETE =? UM_ADD) with false. change (UM_DELETE =? UM_MODIFY) with false.
  change (UM_DELETE =? UM_DELETE) with true. cbn [remove_first]. unfold is_row at 1.
  cbn [e_index e_flag new_entry]. by rewrite !Z.eqb_refl.
Qed.

Lemma status_request junk f oid idx away : away = 2 \/ away = 6 ->
  request_for (junk, Status f oid idx away) =
    Req junk UM_DELETE (MkAllow (I16 idx) None (-1) f (I16 away)) /\
  request_ok (request_for (junk, Status f oid idx away)).
Proof. by intros [-> | ->]. Qed.

(** C22: setting up a row and destroying it again, the row being the only trap in
    between, restores the rows and the rules that were there before: for any table on a
    host whose long has 32 bits, for the telnet table on one with 64 bits, when the row is
    set up with an address of four octets and at most fourteen characters, a port below
    65535 and status 1 or 4, and destroyed by status 2 or 6, there are fewer than 32766 rows
    before and the list follows the rules, there is memory, and the kernel grants every request. *)
Theorem row_comes_and_goes lw junk1 junk2 f oid idx octets port status away s l base :
  granted_all -> new_row lw (Row f oid idx octets port status) -> away = 2 \/ away = 6 ->
  um_rep s l base -> Z.of_nat (length l) < 32766 ->
  exists s', traps UM_DEBUG cDstAddr lw
      [(junk1, row_trap oid idx octets port status); (junk2, [number_var oid 5 idx away])] s =
      Ret (Some s') /\
    um_rep s' l base /\ input_chain (um_fw s') = input_chain (um_fw s).
Proof using Hmalloc.
  set (e := Row f oid idx octets port status). intros Hall Hnew Haway Hr Hlen.
  destruct (new_row_request lw junk1 e Hnew) as (Hq & Hok & Hc).
  destruct (status_request junk2 f oid idx away Haway) as [Hd Hdok].
  destruct (events_spec lw [(junk1, e); (junk2, Status f oid idx away)] s l base Hall Hr) as (s' & Hs & Hr').
  - destruct Hnew as [He _]. pose proof He as (? & ? & _).
    by repeat (apply Forall_cons; split).
  - by repeat (apply Forall_cons; split).
  - simpl. lia.
  - exists s'. split; [exact Hs|]. cbn [map] in Hr'. rewrite Hq, Hd in Hr'. cbn [foldl] in Hr'.
    rewrite (apply_add junk1 (row_of e) (octets ++ [0])), apply_delete in Hr' by done.
    split; [exact Hr'|]. by rewrite (ur_chain _ _ _ Hr'), (ur_chain _ _ _ Hr).
Qed.

Lemma mail_rule_idle junk g octets p : p_proto p = TCP ->
  iFlag g = ALLOW_SMTP \/ iFlag g = ALLOW_POP3 ->
  matches (allow_rule cDstAddr junk g octets).1 p = false.
Proof using Type.
  intros Hp Hf. unfold matches, allow_rule, inv. cbn [fst fw_proto fw_invflg with_match UM_RuleInitialize].
  rewrite Hp, !Z.testbit_0_l.
  destruct Hf as [-> | ->]; cbn; by rewrite !andb_false_r.
Qed.

(** A flag that lies in the memory for a rule may shut the rule: with the flag of
    fragments it is for no other packet, so the client of a new row is not let in. *)
Theorem stray_flag_shuts_rule junk g octets p :
  flag (ipfw junk) IP_FW_F_FRAG = true -> p_frag p = false ->
  matches (allow_rule cDstAddr junk g octets).1 p = false.
Proof using Type.
  intros Hf Hp. unfold matches, allow_rule. cbn [fst].
  change (flag (with_match _ _ _ _ _ _ _) IP_FW_F_FRAG) with (flag (ipfw junk) IP_FW_F_FRAG).
  rewrite Hf, Hp. unfold inv at 7. cbn [fw_invflg with_match UM_RuleInitialize].
  rewrite Z.testbit_0_l. cbn [xorb]. by rewrite andb_false_r.
Qed.

(** A row of the SMTP or POP3 table does nothing: its rule asks for the
    protocol with the number of the port, so no TCP packet is treated otherwise
    than before. *)
Theorem mail_rows_do_nothing junk g s l base :
  um_rep s l base -> address_ok g -> complete g = true ->
  iFlag g = ALLOW_SMTP \/ iFlag g = ALLOW_POP3 ->
  exists r s', UM_AddRule UM_DEBUG cDstAddr junk all g s = Ret (r, s') /\
    forall p, p_proto p = TCP ->
      verdict (input_chain (um_fw s')) p = verdict (input_chain (um_fw s)) p.
Proof using Hmalloc.
  intros Hr Hok Hg Hf.
  destruct (UM_AddRule_spec Hmalloc UM_DEBUG cDstAddr junk g s l base Hr Hok ltac:(by right))
    as (r & s' & Hadd & Hs').
  exists r, s'. split; [done|]. intros p Hp. destruct Hs' as [[_ Hr']|(_ & _ & Hr')];
    rewrite (ur_chain _ _ _ Hr'), (ur_chain _ _ _ Hr); [|done].
  unfold filter_request. change (UM_ADD =? UM_ADD) with true. rewrite Hg.
  destruct (pcIpAddr g) as [octets|]; [|done]. cbn [map app new_entry e_rule].
  by rewrite verdict_cons, mail_rule_idle.
Qed.

(** A row that is set up twice, as when a row that was created is set
    active again, has two rules, and destroying it takes away only one: its
    client keeps the port. *)
Theorem destroyed_row_still_open lw junk1 junk2 junk3 f oid idx octets port status away s l base :
  quiet junk1 ->
  granted_all -> new_row lw (Row f oid idx octets port status) -> away = 2 \/ away = 6 ->
  f = ALLOW_TELNET \/ f = ALLOW_FTP -> um_rep s l base -> Z.of_nat (length l) < 32765 ->
  exists s', traps UM_DEBUG cDstAddr lw
      [(junk1, row_trap oid idx octets port status); (junk2, row_trap oid idx octets port status);
       (junk3, [number_var oid 5 idx away])] s = Ret (Some s') /\
    forall p, packet_ok p -> of_client cDstAddr octets port p = true ->
      verdict (input_chain (um_fw s')) p = Some ACCEPT.
Proof using Hmalloc.
  set (e := Row f oid idx octets port status). intros Hquiet Hall Hnew Haway Hf Hr Hlen.
  destruct (new_row_request lw junk1 e Hnew) as (Hq1 & Hok1 & Hc).
  destruct (new_row_request lw junk2 e Hnew) as (Hq2 & Hok2 & _).
  destruct (status_request junk3 f oid idx away Haway) as [Hd Hdok].
  destruct (events_spec lw [(junk1, e); (junk2, e); (junk3, Status f oid idx away)] s l base Hall Hr)
    as (s' & Hs & Hr').
  - destruct Hnew as [He _]. pose proof He as (? & ? & _).
    by repeat (apply Forall_cons; split).
  - by repeat (apply Forall_cons; split).
  - simpl. lia.
  - exists s'. split; [exact Hs|]. intros p Hp Hcl. rewrite (ur_chain _ _ _ Hr'). cbn [map].
    rewrite Hq1, Hq2, Hd. cbn [foldl]. rewrite !(apply_add _ (row_of e) (octets ++ [0])), apply_delete by done.
    cbn [map app new_entry e_rule]. rewrite verdict_cons. destruct Hnew as [(_ & _ & Ho & _) [Hport _]].
    unfold e. by rewrite row_matches, Hcl by done.
Qed.

(** The text of an address has room for fourteen characters: a new row
    whose four octets have three digits each, such as the address
    255.255.255.255 that stands for every client, overruns the buffer. *)
Theorem long_address_overruns lw junk f oid idx octets port status s :
  (f, oid) ∈ tables -> known_table lw f -> length octets = 4%nat ->
  0 <= port < 65535 -> status = 1 \/ status = 4 -> ~ printable octets ->
  traps UM_DEBUG cDstAddr lw [(junk, row_trap oid idx octets port status)] s = Crash.
Proof.
  intros Hin Hlw Hlen Hport Hst Hp. cbn [traps]. rewrite (trap_of_row _ _ _ _ f) by (done || lia).
  unfold request_of, UM_CreateFilter, UM_AddRule. cbn [iStatus pcIpAddr iPortNum].
  rewrite missing_port by done.
  assert (decision (I16 status) = UM_ADD /\ I16 status <> -1 /\ I16 status <> 2) as (-> & Hs1 & Hs2)
    by (by destruct Hst as [-> | ->]).
  change (UM_ADD =? UM_ADD) with true. rewrite bool_decide_eq_false_2 by done.
  rewrite (proj2 (Z.eqb_neq _ _) Hs1), (proj2 (Z.eqb_neq _ _) Hs2). cbn [orb].
  rewrite !andb_false_r. cbn [negb]. replace (print_address _) with (@Crash text); [done|]. unfold printable, four, print_address in *.
  destruct octets as [|a [|b [|c [|d [|]]]]]; try discriminate. cbn in Hp |- *.
  by rewrite bool_decide_eq_false_2 by lia.
Qed.

(** A trap of the status alone, as when a row is set active that was
    written before, finds no address: unless the program is built for debugging,
    which ignores the trap, it reads the octets through a null pointer. *)
Theorem status_alone_crashes lw junk f oid idx status s :
  (f, oid) ∈ tables -> known_table lw f -> status = 1 \/ status = 4 ->
  traps UM_DEBUG cDstAddr lw [(junk, [number_var oid 5 idx status])] s =
    if UM_DEBUG then Ret (Some s) else Crash.
Proof.
  intros Hin Hlw Hst. cbn [traps]. rewrite (trap_of_status _ _ _ _ f) by done.
  unfold request_of. cbn [iStatus].
  assert (decision (I16 status) = UM_ADD) as -> by (by destruct Hst as [-> | ->]).
  by destruct UM_DEBUG.
Qed.

(** On a host whose long has 64 bits the traps of the FTP, SMTP and POP3
    tables are ignored, the lengths of their identifiers being counted in ints. *)
Theorem tables_ignored_on_64_bits junk f oid c idx v vars memt mema mem s :
  (f, oid) ∈ tables -> f <> ALLOW_TELNET -> name v = column oid c ++ [idx] ->
  UM_UserMeetering UM_DEBUG cDstAddr junk 64 memt mema mem (v :: vars) s = Ret (Some s).
Proof.
  intros Hin Hf Hv. unfold UM_UserMeetering. by rewrite (UM_CheckTable_64 f oid c idx).
Qed.

(** A modification that gives no port, as a trap of the
    address alone does, sets the port of the rule to 65535. *)
Theorem new_address_moves_port junk g s l base :
  granted_all -> um_rep s l base -> Z.of_nat (length l) < 32768 -> address_ok g ->
  iPortNum g = -1 -> position (is_row (iIndex g) (iFlag g)) l <> 0 ->
  exists r s' l1 e l2, UM_ModifyRule junk all g s = Ret (Some (r, s')) /\
    um_rep s' (l1 ++ e :: l2) base /\
    position (is_row (iIndex g) (iFlag g)) l = Z.of_nat (length l1) + 1 /\
    fw_dpts (e_rule e).1 = (65535, 65535).
Proof using Hmalloc cDstAddr.
  intros Hall Hr Hlen Hok Hport Hpos.
  destruct (UM_ModifyRule_spec Hmalloc cDstAddr junk g s l base Hr Hok Hlen) as (r & s' & Hm & Hr').
  destruct Hr' as [Hr'|[Href _]]; [|by destruct (granted_all_not_refused _ s Hall Href)].
  destruct (position_split _ _ Hpos) as (l1 & e & l2 & -> & He & Hl1 & Hn).
  unfold filter_request in Hr'. change (UM_MODIFY =? UM_ADD) with false in Hr'.
  change (UM_MODIFY =? UM_MODIFY) with true in Hr'. cbv iota in Hr'.
  rewrite Hport, andb_false_r, alter_first_split in Hr' by done.
  eexists r, s', l1, _, l2. split_and!; [done|exact Hr'|done|].
  unfold change_entry, changed_rule. cbn. by rewrite Hport.
Qed.
End Properties.
