(* ===== verification/FirewallDemo.v ===== *)
(** * The access control on concrete traps

    A packet filter that grants every request, a host at 10.0.0.9, and clients
    that come and go. *)

From Stdlib Require Import String.
From S2P Require Import Prelude Heap ListSort CTypes CText Firewall FirewallTrap.
From S2P Require Import FirewallSpec FirewallProofs FirewallProps.
From stdpp Require Import list.
#[local] Open Scope Z_scope.
#[local] Existing Instance bump_allocator.

(** The input chain is the state of the filter. *)
Definition grant (q : fw_request) (k : list rule) : bool * list rule :=
  (true, match q with
         | IP_FW_INSERT r => rule_of r :: k
         | IP_FW_REPLACE r => <[Z.to_nat (fwn_rulenum r - 1) := rule_of r]> k
         | IP_FW_DELETE_NUM n _ => delete (Z.to_nat (n - 1)) k
         | IP_FW_FLUSH _ => []
         end).

#[local] Instance granting_filter : PacketFilter := {| fw_state := list rule; setsockopt := grant |}.

#[local] Instance granting_laws : FilterLaws.
Proof.
  refine {| input_chain := fun k : @fw_state granting_filter => (k : list rule) |};
    intros;
    match goal with H : setsockopt _ _ = _ |- _ => first [discriminate H|by injection H as <-] end.
Defined.

Lemma grants : granted_all.
Proof. done. Qed.

Definition host : text := text_of "10.0.0.9".
Definition blank : ip_fwnew := MkNew 0 (MkFw 0 0 0 0 0 0 0 0 (0, 0) (0, 0) 0 0 [] 0 0 []) [] [].
Definition blanks (_ : Z) : ip_fwnew := blank.
Definition client : list Z := [10; 0; 0; 7].

Definition no_rules : @fw_state granting_filter := [].

(** The state after the start. *)
Definition started : um :=
  match main host blanks (fun _ _ => true) no_rules with
  | Ret (Some s) => s
  | _ => MkUm _ ∅ NULL no_rules
  end.

Lemma started_main : main host blanks (fun _ _ => true) no_rules = Ret (Some started).
Proof. vm_compute. reflexivity. Qed.

Lemma started_rep : um_rep started (start_table host blanks) [].
Proof.
  destruct (main_spec bump_total host blanks no_rules) as (r & Hr & Hs).
  rewrite started_main in Hr. injection Hr as <-. destruct Hs as (base & Hr & Hb).
  by rewrite (Hb eq_refl) in Hr.
Qed.

Definition telnet_row : stAllowUM := MkAllow 1 (Some (client ++ [0])) 23 ALLOW_TELNET 4.
Definition mail_row : stAllowUM := MkAllow 1 (Some (client ++ [0])) 25 ALLOW_SMTP 4.

Lemma new_telnet_row : new_row 64 (Row ALLOW_TELNET allowTelnetTable_variables_oid 1 client 23 4).
Proof.
  split; [|split; [lia|by right]]. split; [by left|]. split; [by right|]. split; [done|].
  vm_compute. lia.
Qed.

(** From 10.0.0.7 to 10.0.0.9, by the interface [via]. *)
Definition telnet_by (via : string) : packet :=
  MkPacket (text_of via) 167772167 167772169 TCP 40000 23 true false.
Definition telnet_packet : packet := telnet_by "eth0".

Lemma demo_packet_ok : packet_ok (telnet_packet).
Proof. split; cbn; lia. Qed.

(** ** Witnesses *)
Definition telnet_trap : list variable := row_trap allowTelnetTable_variables_oid 1 client 23 4.
Definition away_trap : list variable := [number_var allowTelnetTable_variables_oid 5 1 6].
Definition demo_requests : list request :=
  [Req blank UM_ADD telnet_row; Req blank UM_MODIFY (MkAllow 1 None 24 ALLOW_TELNET 0);
   Req blank UM_DELETE telnet_row].

Lemma firewall_follows_rows_witness :
  exists s' l base, requests false host demo_requests started = Ret (Some s') /\
    um_rep s' l base /\ l = start_table host blanks.
Proof.
  destruct (firewall_follows_rows bump_total false host blanks no_rules started demo_requests)
    as (s' & l & base & Hs & Hr & _ & Hl).
  - repeat (apply Forall_cons; split); try apply Forall_nil; try (by right); try (by intros [=]); vm_compute; lia.
  - simpl. lia.
  - apply started_main.
  - exists s', l, base. split; [exact Hs|]. split; [exact Hr|]. exact (proj2 (Hl grants)).
Defined.

Lemma trap_opens_port_witness :
  exists s', traps false host 64 [(blank, telnet_trap)] started = Ret (Some s') /\
    verdict (input_chain (um_fw s')) telnet_packet = Some ACCEPT /\
    verdict (input_chain (um_fw s')) (telnet_by "eth1") = None.
Proof.
  destruct (trap_opens_port bump_total false host 64 blank ALLOW_TELNET
    allowTelnetTable_variables_oid 1 client 23 4 started _ _ new_telnet_row (or_introl eq_refl)
    ltac:(by split_and!) started_rep) as (granted & s' & Hs & Hg & Hv).
  exists s'. rewrite (Hg grants) in Hv.
  exact (conj Hs (conj (Hv telnet_packet demo_packet_ok) (Hv (telnet_by "eth1") demo_packet_ok))).
Defined.

Lemma row_comes_and_goes_witness :
  exists s', traps false host 64 [(blank, telnet_trap); (blank, away_trap)] started = Ret (Some s') /\
    input_chain (um_fw s') = input_chain (um_fw started).
Proof.
  destruct (row_comes_and_goes bump_total false host 64 blank blank ALLOW_TELNET
    allowTelnetTable_variables_oid 1 client 23 4 6 started _ _ grants new_telnet_row (or_intror eq_refl)
    started_rep ltac:(simpl; lia)) as (s' & Hs & _ & Hc).
  exists s'. split; [exact Hs|exact Hc].
Defined.

(** ** A kernel that refuses to replace *)
Definition stubborn (q : fw_request) (k : list rule) : bool * list rule :=
  match q with IP_FW_REPLACE _ => (false, k) | _ => grant q k end.
Definition stubborn_filter : PacketFilter := {| fw_state := list rule; setsockopt := stubborn |}.

(** The source address and the ports of a rule. *)
Definition clients_of (f : ip_fw) : Z * (Z * Z) := (fw_src f, fw_dpts f).

(** The start and a row for telnet; then a change of its port to 80: the result, the copy
    of the rule in the list, and the rule of the kernel. *)
Definition stubborn_started : outcome (Z * @um stubborn_filter) :=
  match @main stubborn_filter _ host blanks (fun _ _ => true) [] with
  | Ret (Some s) => @UM_AddRule stubborn_filter _ false host blank (fun _ => true) telnet_row s
  | _ => Crash
  end.
Definition first_copy (s : @um stubborn_filter) : option (Z * (Z * Z)) :=
  h ← um_heap s !! um_list s; n ← um_heap s !! next h; Some (clients_of (ipfw (ipfwPtr (val n)))).
Definition refused_change : option (Z * option (Z * (Z * Z)) * option (Z * (Z * Z))) :=
  let marked := MkNew 0 (MkFw 77 0 0 0 0 0 0 0 (0, 0) (0, 0) 0 0 [] 0 0 []) [] [] in
  match stubborn_started with
  | Ret (_, s) =>
      match @UM_ModifyRule stubborn_filter marked (fun _ => true) (MkAllow 1 None 80 ALLOW_TELNET 0) s with
      | Ret (Some (r, s)) =>
          Some (r, first_copy s, head (map (fun x : rule => clients_of (fst x)) (um_fw s : list rule)))
      | _ => None
      end
  | _ => None
  end.

(** The kernel keeps the client and the port; the copy gets the new port as the upper end of
    its ports, and its source address from a variable that was not set, here 77. *)
Example refused_change_spoils_copy :
  refused_change = Some (NASC_FAILURE, Some (77, (23, 80)), Some (167772167, (23, 23))).
Proof. by vm_compute. Qed.

Lemma mail_rows_do_nothing_witness :
  exists r s', UM_AddRule false host blank (fun _ => true) mail_row started = Ret (r, s') /\
    forall p, p_proto p = TCP ->
      verdict (input_chain (um_fw s')) p = verdict (input_chain (um_fw started)) p.
Proof.
  apply (mail_rows_do_nothing bump_total false host blank mail_row started _ _ started_rep).
  - vm_compute. lia.
  - reflexivity.
  - by left.
Defined.

Lemma destroyed_row_still_open_witness :
  exists s', traps false host 64 [(blank, telnet_trap); (blank, telnet_trap); (blank, away_trap)] started =
      Ret (Some s') /\
    verdict (input_chain (um_fw s')) telnet_packet = Some ACCEPT.
Proof.
  destruct (destroyed_row_still_open bump_total false host 64 blank blank blank ALLOW_TELNET
    allowTelnetTable_variables_oid 1 client 23 4 6 started _ _ ltac:(by split_and!) grants new_telnet_row
    (or_intror eq_refl) (or_introl eq_refl) started_rep ltac:(simpl; lia)) as (s' & Hs & Hv).
  exists s'. split; [exact Hs|]. exact (Hv telnet_packet demo_packet_ok eq_refl).
Defined.

(** The flag of fragments lies in the memory for the rule. *)
Definition flagged : ip_fwnew := MkNew 0 (MkFw 0 0 0 0 0 0 4 0 (0, 0) (0, 0) 0 0 [] 0 0 []) [] [].
Lemma stray_flag_shuts_rule_witness :
  matches (allow_rule host flagged telnet_row client).1 telnet_packet = false.
Proof. by apply (stray_flag_shuts_rule host flagged telnet_row client telnet_packet). Defined.

Lemma long_address_overruns_witness :
  traps false host 64 [(blank, row_trap allowTelnetTable_variables_oid 1 [255; 255; 255; 255] 23 4)] started =
    Crash.
Proof.
  apply (long_address_overruns false host 64 blank ALLOW_TELNET); try done; try lia.
  - by left.
  - right. by split.
  - vm_compute. lia.
Defined.

Lemma status_alone_crashes_witness :
  traps false host 64 [(blank, [number_var allowTelnetTable_variables_oid 5 1 1])] started = Crash.
Proof.
  apply (status_alone_crashes false host 64 blank ALLOW_TELNET);
    [by left|right; by split|by left].
Defined.

Lemma tables_ignored_on_64_bits_witness :
  UM_UserMeetering false host blank 64 true (fun _ => true) (fun _ => true)
    (row_trap allowFTPTable_variables_oid 1 client 21 4) started = Ret (Some started).
Proof.
  apply (tables_ignored_on_64_bits false host blank ALLOW_FTP allowFTPTable_variables_oid 3 1);
    [right; by left|done|reflexivity].
Defined.

Lemma new_address_moves_port_witness :
  exists s1 r s' l1 e l2,
    UM_CreateFilter false host blank (fun _ => true) telnet_row UM_ADD started = Ret (Some (1, s1)) /\
    UM_ModifyRule blank (fun _ => true) (MkAllow 1 (Some [10; 0; 0; 8; 0]) (-1) ALLOW_TELNET (-1)) s1 =
      Ret (Some (r, s')) /\ um_rep s' (l1 ++ e :: l2) [] /\
    fw_dpts (e_rule e).1 = (65535, 65535).
Proof.
  destruct (UM_AddRule_spec bump_total false host blank telnet_row started _ _ started_rep)
    as (r1 & s1 & Hadd & Hs1); [vm_compute; lia|by right|].
  destruct Hs1 as [[_ Hr1]|(_ & (q & k & Hq & _) & _)]; [|by injection Hq].
  destruct (new_address_moves_port bump_total host blank
    (MkAllow 1 (Some [10; 0; 0; 8; 0]) (-1) ALLOW_TELNET (-1)) s1 _ _ grants Hr1)
    as (r & s' & l1 & e & l2 & Hm & Hr & _ & Hp); [simpl; lia|vm_compute; lia|done|by vm_compute|].
  exists s1, r, s', l1, e, l2. split; [|by split_and!].
  assert (r1 = NASC_SUCCESS) as -> by (vm_compute in Hadd; by injection Hadd as <- _).
  unfold UM_CreateFilter. change (UM_ADD =? UM_ADD) with true. cbv iota.
  by rewrite Hadd, outcome_bind_ret.
Defined.
