(* ===== verification/FirewallStart.v ===== *)
(** * The access control starts (UM_StartUserMetering and UM_GetTableDetails of
      src/Group2/Unix/UC/src/NASCenter_UM_Linux_Firewall.c)

    The rows of the four tables of allowed clients are fetched six at a time, and
    every row that is in service becomes a rule: from then on the host serves the
    clients of the rows and nobody else. *)

From Stdlib Require Import String.
From S2P Require Import Prelude Heap ListSort CTypes CText Walk Firewall FirewallTrap.
From S2P Require Import FirewallSpec FirewallProofs FirewallProps FirewallDemo.
From stdpp Require Import list.
#[local] Open Scope Z_scope.

Definition MAX_REPETITIONS : nat := 6.
Definition NASC_INSUFFICIENT_MEMORY : Z := 3.

(** The table of a flag: for other flags the function works with pointers that have
    not been set. *)
Definition allowed_table (iFlag : Z) : option (list Z) :=
  if iFlag =? ALLOW_TELNET then Some allowTelnetTable_variables_oid
  else if iFlag =? ALLOW_FTP then Some allowFTPTable_variables_oid
  else if iFlag =? ALLOW_POP3 then Some allowPOP3Table_variables_oid
  else if iFlag =? ALLOW_SMTP then Some allowSMTPTable_variables_oid
  else None.
Definition columns_of (oid : list Z) : list (list Z) := [column oid 3; column oid 4; column oid 5].

(** The memory for a row: for the row, for its address, and for its rule, and what
    the memory for the rule held. *)
Record row_mem := MkRowMem { m_row : bool; m_address : bool; m_rule : nat -> bool; m_junk : ip_fwnew }.

Section Start.
Context `{PacketFilter} `{Allocator}.
Variables (UM_DEBUG : bool) (cDstAddr : text).

(** How the rows of an answer end: the function returns, at a variable outside of the
    column of the addresses, or with the names for the next request. *)
Inductive rows_end :=
| Returned (r : Z) (s : um)
| TableOver (s : um)
| RowsDone (n : nat) (names : list (list Z)) (s : um).

(** The address of a row: [None] when there is no memory for it. *)
Definition fetch_address (mem : bool) (v : variable) : outcome (option (option (list Z))) :=
  if I16 (val_len v) =? 0 then mret (Some None) else
  a ← copy_address mem v;
  mret (match a with Some octets => Some (Some octets) | None => None end).

Definition number_or_missing (v : variable) : Z :=
  match val_integer v with Some x => I16 x | None => -1 end.

(** At most [reps] rows; [n] is the number of rows before.  Where variables are missing
    a null pointer is followed. *)
Fixpoint read_rows (mems : nat -> row_mem) (iFlag : Z) (tableID : list Z) (reps n : nat)
    (names : list (list Z)) (vars : list variable) (s : um) : outcome (option rows_end) :=
  match reps with
  | O => mret (Some (RowsDone n names s))
  | S reps =>
      match vars with
      | [] => Crash
      | v1 :: vars =>
          if negb (under tableID v1) then mret (Some (TableOver s)) else
          if negb (m_row (mems n)) then mret (Some (Returned NASC_INSUFFICIENT_MEMORY s)) else
          a ← fetch_address (m_address (mems n)) v1;
          match a with
          | None => mret (Some (Returned NASC_INSUFFICIENT_MEMORY s))
          | Some pcIpAddr =>
              iIndex ← UM_GetIndex v1;
              match vars with
              | v2 :: v3 :: vars =>
                  let names := map name [v1; v2; v3] in
                  let g := MkAllow iIndex pcIpAddr (number_or_missing v2) iFlag (number_or_missing v3) in
                  if iStatus g =? 2 then read_rows mems iFlag tableID reps (S n) names vars s else
                  r ← UM_CreateFilter UM_DEBUG cDstAddr (m_junk (mems n)) (m_rule (mems n)) g UM_ADD s;
                  match r with
                  | None => mret None
                  | Some (_, s) => read_rows mems iFlag tableID reps (S n) names vars s
                  end
              | _ => Crash
              end
          end
      end
  end.

Fixpoint read_table `{Session} (fuel : nat) (mems : nat -> row_mem) (iFlag : Z) (tableID : list Z)
    (k n : nat) (names : list (list Z)) (s : um) : outcome (option (Z * um)) :=
  match fuel with
  | O => OutOfFuel
  | S fuel =>
      vars ← variables_of no_value (getbulk k names);
      match vars with
      | None => mret (Some (NASC_FAILURE, s))
      | Some vars =>
          r ← read_rows mems iFlag tableID MAX_REPETITIONS n names vars s;
          match r with
          | None => mret None
          | Some (Returned r s) => mret (Some (r, s))
          | Some (TableOver s) => mret (Some (NASC_SUCCESS, s))
          | Some (RowsDone n names s) => read_table fuel mems iFlag tableID (S k) n names s
          end
      end
  end.

Definition UM_GetTableDetails `{Session} (fuel : nat) (mems : nat -> row_mem) (iFlag : Z) (s : um)
    : outcome (option (Z * um)) :=
  match allowed_table iFlag with
  | None => Crash
  | Some oid => read_table fuel mems iFlag (column oid 3) 0 0 (columns_of oid) s
  end.

(** The order in which the tables are read. *)
Definition start_order : list Z := [ALLOW_TELNET; ALLOW_FTP; ALLOW_POP3; ALLOW_SMTP].

(** Table after table, whatever becomes of the ones before, to the point where the
    thread for the traps starts. *)
Fixpoint read_tables (agent : Z -> Session) (fuel : nat) (mems : Z -> nat -> row_mem) (flags : list Z)
    (s : um) : outcome (option um) :=
  match flags with
  | [] => mret (Some s)
  | f :: flags =>
      r ← @UM_GetTableDetails (agent f) fuel (mems f) f s;
      match r with Some (_, s) => read_tables agent fuel mems flags s | None => mret None end
  end.

Definition UM_StartUserMetering (agent : Z -> Session) (fuel : nat) (mems : Z -> nat -> row_mem)
    (s : um) : outcome (option um) :=
  read_tables agent fuel mems start_order s.

(** ** Rows in service *)

(** A row of a table, and the variables that show it. *)
Record allowed := MkAllowed { al_index : Z; al_octets : list Z; al_port : Z; al_status : Z }.

Definition shows_row (oid : list Z) (a : allowed) (vs : list variable) : Prop :=
  exists v1 v2 v3, vs = [v1; v2; v3] /\
    is_octets (column oid 3) (al_index a) (al_octets a) v1 /\
    is_number (column oid 4) (al_index a) (al_port a) v2 /\
    is_number (column oid 5) (al_index a) (al_status a) v3.

Definition in_use (a : allowed) : bool := negb (I16 (al_status a) =? 2).

Definition allow_of (f : Z) (a : allowed) : stAllowUM :=
  MkAllow (I16 (al_index a)) (Some (al_octets a ++ [0])) (I16 (al_port a)) f (I16 (al_status a)).

(** The requests for the rows of a table, the first of them being number [n]; [junk] tells
    what the memory for the rule of each row held. *)
Fixpoint start_requests (junk : nat -> ip_fwnew) (f : Z) (n : nat) (rows : list allowed) : list request :=
  match rows with
  | [] => []
  | a :: rows =>
      if in_use a then Req (junk n) UM_ADD (allow_of f a) :: start_requests junk f (S n) rows
      else start_requests junk f (S n) rows
  end.

Lemma start_requests_app junk f n rows1 rows2 :
  start_requests junk f n (rows1 ++ rows2) =
    start_requests junk f n rows1 ++ start_requests junk f (n + length rows1) rows2.
Proof using Type.
  revert n. induction rows1 as [|a rows1 IH]; intros n; cbn [start_requests app length];
    [by rewrite Nat.add_0_r|].
  rewrite !IH, <- Nat.add_succ_comm. by destruct (in_use a).
Qed.

Lemma requests_app rs1 rs2 s : requests UM_DEBUG cDstAddr (rs1 ++ rs2) s =
  (r ← requests UM_DEBUG cDstAddr rs1 s;
   match r with Some s => requests UM_DEBUG cDstAddr rs2 s | None => mret None end).
Proof.
  revert s. induction rs1 as [|q rs1 IH]; intros s; [done|]. cbn [requests app].
  destruct (UM_CreateFilter _ _ _ _ _ _ _) as [[[r s1]|]| |]; [|done..]. rewrite !outcome_bind_ret. apply IH.
Qed.

Definition plenty (junk : ip_fwnew) : row_mem := MkRowMem true true (fun _ => true) junk.

Section Table.
Variables (f : Z) (oid : list Z) (mems : nat -> row_mem) (junk : nat -> ip_fwnew).
Hypothesis Hin : (f, oid) ∈ tables.
Hypothesis Hmems : forall n, mems n = plenty (junk n).

(** A row whose octets fit into an [I16]. *)
Definition octets_ok (a : allowed) : Prop := 0 < Z.of_nat (length (al_octets a)) < 32768.

Lemma fetch_address_octets c i s v : is_octets c i s v -> 0 < Z.of_nat (length s) < 32768 ->
  fetch_address true v = Ret (Some (Some (s ++ [0]))).
Proof using Type.
  intros (_ & Hl & Hs) Hlen. unfold fetch_address, copy_address. rewrite Hl, I16_id by lia.
  assert (length s <= length (val_string v))%nat by (apply (f_equal length) in Hs; rewrite length_take in Hs; lia).
  zbool; try lia. cbn [negb orb]. zbool; try lia. rewrite outcome_bind_ret, Nat2Z.id, Hs. done.
Qed.

(** The rows of one answer are the requests for them. *)
Lemma read_rows_shows rows pages reps n names past s :
  Forall octets_ok rows -> Forall2 (shows_row oid) rows pages -> (length rows <= reps)%nat ->
  ((length rows < reps)%nat -> outside (column oid 3) past) ->
  read_rows mems f (column oid 3) reps n names (concat pages ++ past) s =
    (r ← requests UM_DEBUG cDstAddr (start_requests junk f n rows) s;
     mret (match r with
           | Some s => Some (if bool_decide (length rows < reps)%nat then TableOver s
                             else RowsDone (n + reps) (names_of pages names) s)
           | None => None
           end)).
Proof using Hin Hmems.
  intros Hok Hsh. revert reps n names s. induction Hsh as [|a vs rows pages Ha Hsh IH];
    intros reps n names s Hreps Hpast; cbn [length concat] in *.
  { cbn [start_requests requests]. rewrite outcome_bind_ret.
    destruct reps as [|reps]; cbn [read_rows app].
    { rewrite bool_decide_eq_false_2, Nat.add_0_r by lia. done. }
    rewrite bool_decide_eq_true_2 by lia. unfold outside in Hpast.
    destruct past as [|v past]; [exfalso; apply Hpast; lia|]. by rewrite Hpast by lia. }
  apply Forall_cons in Hok as [Hrow Hok]. destruct reps as [|reps]; [lia|]. cbn [read_rows].
  destruct Ha as (v1 & v2 & v3 & -> & E1 & E2 & E3). cbn [app].
  rewrite under_take, (proj1 E1), take_app_length, bool_decide_eq_true_2 by done.
  rewrite Hmems. cbn [negb m_row m_address m_rule m_junk plenty].
  rewrite (fetch_address_octets _ _ _ _ E1 Hrow), outcome_bind_ret.
  rewrite (UM_GetIndex_row f oid 3 (al_index a)), outcome_bind_ret by (done || apply E1).
  unfold number_or_missing. rewrite (proj2 E2), (proj2 E3). cbn [iStatus].
  assert (Hnext : forall s1, read_rows mems f (column oid 3) reps (S n) (map name [v1; v2; v3]) (concat pages ++ past) s1 =
    (r ← requests UM_DEBUG cDstAddr (start_requests junk f (S n) rows) s1;
     mret (match r with
           | Some s => Some (if bool_decide (S (length rows) < S reps)%nat then TableOver s
                             else RowsDone (n + S reps) (names_of ([v1; v2; v3] :: pages) names) s)
           | None => None
           end))).
  { intros s1. rewrite IH by (done || lia || (intros ?; apply Hpast; lia)).
    replace (bool_decide (S (length rows) < S reps)%nat) with (bool_decide (length rows < reps)%nat)
      by (apply bool_decide_ext; lia).
    rewrite <- Nat.add_succ_comm. unfold names_of. destruct pages as [|vs2 pages]; [done|].
    rewrite last_cons_cons. destruct (last (vs2 :: pages)) eqn:El; [done|]. by apply last_None in El. }
  cbn [start_requests]. unfold in_use at 1.
  destruct (I16 (al_status a) =? 2); cbn [negb]; [apply Hnext|].
  cbn [requests q_junk q_op q_row]. fold (allow_of f a).
  destruct (UM_CreateFilter _ _ _ _ _ _ _) as [[[r s1]|]| |]; [|done..]. rewrite !outcome_bind_ret. apply Hnext.
Qed.

(** The walk over a table the agent serves. *)
Lemma read_table_shows `{Session} rows pages fuel k n s :
  Forall octets_ok rows -> Forall2 (shows_row oid) rows pages ->
  serves MAX_REPETITIONS (columns_of oid) (column oid 3) pages -> (n <= length rows)%nat ->
  (length rows - n < fuel)%nat ->
  read_table fuel mems f (column oid 3) k n (names_at (columns_of oid) pages n) s =
    (r ← requests UM_DEBUG cDstAddr (start_requests junk f n (drop n rows)) s;
     mret (match r with Some s => Some (NASC_SUCCESS, s) | None => None end)).
Proof using Hin Hmems.
  intros Hok Hsh Hs. pose proof (Forall2_length _ _ _ Hsh) as Hlen.
  assert (Forall (fun vs => vs <> []) pages) as Hne.
  { clear -Hsh. induction Hsh as [|a vs rows pages (? & ? & ? & -> & _)]; by constructor. }
  assert (Hreps : (0 < MAX_REPETITIONS)%nat) by (unfold MAX_REPETITIONS; lia).
  revert k n s. induction fuel as [|fuel IH]; intros k n s Hn Hfuel; [lia|]. cbn [read_table].
  destruct (serves_variables MAX_REPETITIONS Hreps _ _ pages k n Hs ltac:(lia) Hne) as (past & -> & Hpast).
  rewrite outcome_bind_ret.
  assert (Hlt : length (take MAX_REPETITIONS (drop n rows)) = Nat.min MAX_REPETITIONS (length rows - n))
    by (by rewrite length_take, length_drop).
  rewrite (read_rows_shows (take MAX_REPETITIONS (drop n rows)));
    [|by apply Forall_take, Forall_drop|by apply Forall2_take, Forall2_drop|lia|intros ?; apply Hpast; lia].
  assert (E : start_requests junk f n (drop n rows) =
    start_requests junk f n (take MAX_REPETITIONS (drop n rows)) ++
    start_requests junk f (n + length (take MAX_REPETITIONS (drop n rows)))
      (drop MAX_REPETITIONS (drop n rows))) by by rewrite <- start_requests_app, take_drop.
  rewrite E, requests_app.
  destruct (requests _ _ _ s) as [[s1|]| |]; [|done..]. rewrite !outcome_bind_ret, Hlt.
  case_bool_decide as Hlast.
  - rewrite drop_drop, drop_ge by lia. done.
  - rewrite drop_drop, names_at_next, Nat.min_l by lia. apply IH; lia.
Qed.
End Table.

(** ** The four tables *)
Section Tables.
Variables (agent : Z -> Session) (fuel : nat) (mems : Z -> nat -> row_mem).
Variables (junk : Z -> nat -> ip_fwnew).
Variables (rows : Z -> list allowed) (pages : Z -> list (list variable)).

(** The agent serves the rows of a table, the last of them within the fuel. *)
Definition table_served (f : Z) : Prop :=
  exists oid, allowed_table f = Some oid /\ Forall octets_ok (rows f) /\
    Forall2 (shows_row oid) (rows f) (pages f) /\
    @serves (agent f) MAX_REPETITIONS (columns_of oid) (column oid 3) (pages f) /\
    (length (rows f) < fuel)%nat /\ forall n, mems f n = plenty (junk f n).

Definition all_requests (flags : list Z) : list request :=
  concat (map (fun f => start_requests (junk f) f 0 (rows f)) flags).

Lemma table_of_tables f oid : allowed_table f = Some oid -> (f, oid) ∈ tables.
Proof.
  unfold allowed_table, tables. rewrite !elem_of_cons.
  repeat (destruct (f =? _) eqn:E; [apply Z.eqb_eq in E as ->; intros [= <-]; tauto|clear E]). done.
Qed.

Lemma read_tables_shows flags s : Forall table_served flags ->
  read_tables agent fuel mems flags s = requests UM_DEBUG cDstAddr (all_requests flags) s.
Proof.
  intros Hall. revert s. induction Hall as [|f flags (oid & Hoid & Hok & Hsh & Hs & Hfuel & Hmems) _ IH];
    intros s; [done|]. cbn [read_tables all_requests map concat]. fold (all_requests flags).
  unfold UM_GetTableDetails. rewrite Hoid, requests_app.
  pose proof (@read_table_shows f oid (mems f) (junk f) (table_of_tables _ _ Hoid) Hmems (agent f) (rows f) (pages f)
    fuel 0 0 s Hok Hsh Hs ltac:(lia) ltac:(lia)) as Ht.
  change (names_at _ _ 0) with (columns_of oid) in Ht. rewrite Ht, drop_0.
  destruct (requests _ _ _ s) as [[s1|]| |]; [|done..]. rewrite !outcome_bind_ret. apply IH.
Qed.

(** The start of the access control is the requests for the rows in service: when
    the agent serves the rows of the four tables, six at a time and behind them
    variables of other columns, the walks end, and the program has asked for a rule for
    every row that is in service and for no other, the tables one after the other and
    the rows in their order. *)
Lemma start_is_requests s : Forall table_served start_order ->
  UM_StartUserMetering agent fuel mems s =
    requests UM_DEBUG cDstAddr (all_requests start_order) s.
Proof. apply read_tables_shows. Qed.
End Tables.
End Start.

(** ** Who is served *)

(** A row whose address can be printed, with a port and a status. *)
Definition row_fine (a : allowed) : Prop :=
  length (al_octets a) = 4%nat /\ printable (al_octets a) /\ 0 <= al_port a < 65535 /\
  0 <= al_status a < 32768.
#[export] Instance row_fine_dec a : Decision (row_fine a).
Proof. unfold row_fine. apply _. Defined.

(** The packet is one of a client of a row in service. *)
Definition served_by (host : text) (rows : list allowed) (p : packet) : bool :=
  existsb (fun a => of_client host (al_octets a) (al_port a) p) (List.filter in_use rows).

(** The packet is for one of the four services of the host. *)
Definition service_ports : list Z := [110; 25; 21; 23].
Definition to_service (host : text) (p : packet) : bool :=
  bool_decide (p_iface p = the_interface) && (p_dst p =? inet_addr host) &&
  in_range (p_sport p) (0, 65535) && existsb (Z.eqb (p_dport p)) service_ports.

Section Served.
Context `{FilterLaws} `{Allocator}.
Hypothesis Hmalloc : malloc_total.
Variables (UM_DEBUG : bool) (cDstAddr : text).
Abbreviation all := (fun _ : nat => true).
Abbreviation apply_requests := (foldl (apply_request cDstAddr)).
Abbreviation verdict_of l p := (verdict (map e_rule l) p).

Lemma fine_octets a : row_fine a -> octets_ok a.
Proof using Type. intros (Hl & _). unfold octets_ok. lia. Qed.

Lemma row_complete f a : row_fine a -> in_use a = true -> complete (allow_of f a) = true.
Proof using Type.
  intros (_ & _ & Hp & Hs) Hu. unfold complete, allow_of. cbn [pcIpAddr iPortNum iStatus].
  rewrite missing_port by done. unfold in_use in Hu. rewrite Hu, bool_decide_eq_true_2 by done.
  rewrite I16_id by lia. by rewrite (proj2 (Z.eqb_neq (al_status a) (-1))) by lia.
Qed.

Lemma row_request_ok junk f a : row_fine a -> in_use a = true ->
  request_ok UM_DEBUG (Req junk UM_ADD (allow_of f a)).
Proof using Type.
  intros Ha Hu. split; [|intros _; right; by apply row_complete].
  destruct Ha as (Hl & Hpr & _). by apply row_printable.
Qed.

Lemma start_requests_ok junk f n rows : Forall row_fine rows ->
  Forall (request_ok UM_DEBUG) (start_requests junk f n rows).
Proof using Type.
  intros Hok. revert n. induction Hok as [|a rows Ha _ IH]; intros n; cbn [start_requests]; [constructor|].
  destruct (in_use a) eqn:Hu; [|apply IH]. constructor; [by apply row_request_ok|apply IH].
Qed.

(** What the rows of a table mean for a packet of TCP: those of telnet and FTP let in
    their clients, those of SMTP and POP3 do nothing. *)
Lemma rows_verdict junk f n rows l p :
  (f = ALLOW_TELNET \/ f = ALLOW_FTP) \/ (f = ALLOW_SMTP \/ f = ALLOW_POP3) ->
  (forall n, quiet (junk n)) -> Forall row_fine rows -> packet_ok p -> p_proto p = TCP ->
  verdict_of (apply_requests l (start_requests junk f n rows)) p =
    if ((f =? ALLOW_TELNET) || (f =? ALLOW_FTP)) && served_by cDstAddr rows p then Some ACCEPT
    else verdict_of l p.
Proof using Type.
  intros Hf Hq Hok Hp Htcp. unfold served_by. revert n l. induction Hok as [|a rows Ha _ IH]; intros n l.
  { cbn [List.filter start_requests foldl existsb]. by rewrite andb_false_r. }
  cbn [List.filter start_requests]. destruct (in_use a) eqn:Hu; [|apply IH]. cbn [foldl existsb]. rewrite IH.
  rewrite (apply_add cDstAddr (junk n) (allow_of f a) (al_octets a ++ [0]) l (row_complete f a Ha Hu) eq_refl).
  cbn [map new_entry e_rule]. rewrite verdict_cons. destruct Hf as [Hf|Hf].
  - assert ((f =? ALLOW_TELNET) || (f =? ALLOW_FTP) = true) as -> by by destruct Hf as [-> | ->].
    destruct Ha as (Hl & _ & Hport & _).
    assert (matches (allow_rule cDstAddr (junk n) (allow_of f a) (al_octets a ++ [0])).1 p =
      of_client cDstAddr (al_octets a) (al_port a) p) as ->.
    { rewrite allow_matches by done. unfold of_client, allow_of. cbn [iPortNum].
      by rewrite row_address, UI16_I16_port by (done || lia). }
    cbn [andb]. by destruct (of_client _ _ _ p), (existsb _ _).
  - assert ((f =? ALLOW_TELNET) || (f =? ALLOW_FTP) = false) as -> by by destruct Hf as [-> | ->].
    cbn [andb]. by rewrite mail_rule_idle.
Qed.

Lemma deny_matches junk f p : quiet junk -> packet_ok p -> p_proto p = TCP ->
  matches (deny_rule cDstAddr junk f).1 p =
    bool_decide (p_iface p = the_interface) && (p_dst p =? inet_addr cDstAddr) &&
    in_range (p_sport p) (0, 65535) && (p_dport p =? deny_port f 0).
Proof using Type.
  intros Hq [_ Hd] Htcp. unfold deny_rule. cbn [fst].
  rewrite matches_quiet, land_none, Z.land_0_r, Htcp, in_range_one by done. cbn [Z.eqb].
  change (TCP =? 6) with true. by rewrite !andb_true_r.
Qed.

(** The four closed services. *)
Lemma start_verdict junk p : (forall f, quiet (junk f)) -> packet_ok p -> p_proto p = TCP ->
  verdict_of (start_table cDstAddr junk) p = if to_service cDstAddr p then Some DENY else None.
Proof using Type.
  intros Hq Hp Htcp. unfold start_table, to_service. cbn [map new_entry e_rule].
  rewrite !verdict_cons, !deny_matches by done. cbn [snd deny_rule].
  destruct (bool_decide (p_iface p = the_interface) && (p_dst p =? inet_addr cDstAddr) &&
    in_range (p_sport p) (0, 65535)); [|done]. cbn [andb].
  unfold service_ports. cbn [existsb]. change (deny_port DENY_POP3 0) with 110.
  change (deny_port DENY_SMTP 0) with 25. change (deny_port DENY_FTP 0) with 21.
  change (deny_port DENY_TELNET 0) with 23.
  by destruct (_ =? 110), (_ =? 25), (_ =? 21), (_ =? 23).
Qed.

Lemma foldl_requests (l : list entry) rs1 rs2 :
  apply_requests l (rs1 ++ rs2) = apply_requests (apply_requests l rs1) rs2.
Proof using Type. apply foldl_app. Qed.

Lemma start_requests_length junk f n rows : (length (start_requests junk f n rows) <= length rows)%nat.
Proof using Type.
  revert n. induction rows as [|a rows IH]; intros n; cbn [start_requests length]; [done|].
  destruct (in_use a); cbn [length]; specialize (IH (S n)); lia.
Qed.

Section Agent.
Variables (agent : Z -> Session) (fuel : nat) (mems : Z -> nat -> row_mem).
Variables (junk : Z -> nat -> ip_fwnew) (rows : Z -> list allowed) (pages : Z -> list (list variable)).

Lemma all_requests_ok : (forall f, f ∈ start_order -> Forall row_fine (rows f)) ->
  Forall (request_ok UM_DEBUG) (all_requests junk rows start_order).
Proof using Type.
  intros Hfine. unfold all_requests, start_order. cbn [map concat]. rewrite app_nil_r, !Forall_app.
  split_and!; apply start_requests_ok, Hfine; unfold start_order; rewrite !elem_of_cons; tauto.
Qed.

Lemma all_requests_length :
  (length (all_requests junk rows start_order) <= length (concat (map rows start_order)))%nat.
Proof using Type.
  unfold all_requests, start_order. cbn [map concat]. rewrite !length_app.
  repeat apply Nat.add_le_mono; try apply start_requests_length; done.
Qed.

(** What the rows of all the tables mean for a packet of TCP. *)
Lemma all_rows_verdict junk0 p :
  (forall f, quiet (junk0 f)) -> (forall f n, quiet (junk f n)) ->
  (forall f, f ∈ start_order -> Forall row_fine (rows f)) -> packet_ok p -> p_proto p = TCP ->
  verdict_of (apply_requests (start_table cDstAddr junk0) (all_requests junk rows start_order)) p =
    if served_by cDstAddr (rows ALLOW_TELNET ++ rows ALLOW_FTP) p then Some ACCEPT
    else if to_service cDstAddr p then Some DENY else None.
Proof using Hmalloc.
  intros Hq0 Hq Hf Hp Htcp. unfold all_requests, start_order in *. cbn [map concat].
  rewrite app_nil_r, !foldl_requests. setoid_rewrite elem_of_cons in Hf.
  rewrite !rows_verdict by (done || tauto || apply Hf; set_solver).
  rewrite start_verdict by done. unfold served_by. rewrite List.filter_app, existsb_app. cbn [andb orb Z.eqb].
  by destruct (existsb _ (List.filter in_use (rows ALLOW_TELNET))), (existsb _ (List.filter in_use (rows ALLOW_FTP))).
Qed.

(** C19: the host serves the clients of the rows in service and nobody else: when the
    access control starts, the kernel grants its requests, there is memory, what the memory
    for the rules held has none of the three flags that concern matching, and the agent
    serves the rows of the four tables, fewer than 32764 and each with an address of four
    octets and at most fourteen characters, a port below 65535 and a status from 0 to 32767,
    six at a time and behind them variables of other columns, then the start ends, the list
    of rows follows the rules of the kernel, and a packet of TCP is accepted if it comes in
    by eth0 from a client of a row in service of the telnet or FTP table, to the port of the
    row; otherwise it is denied if it comes in by eth0 for one of the four services of the
    host, and no rule says anything of any other packet. *)
Theorem started_host_serves_rows junk0 k s :
  granted_all -> (forall f, quiet (junk0 f)) -> (forall f n, quiet (junk f n)) ->
  main cDstAddr junk0 (fun _ => all) k = Ret (Some s) ->
  Forall (table_served agent fuel mems junk rows pages) start_order ->
  (forall f, f ∈ start_order -> Forall row_fine (rows f)) ->
  Z.of_nat (length (concat (map rows start_order))) < 32764 ->
  exists s' l, UM_StartUserMetering UM_DEBUG cDstAddr agent fuel mems s = Ret (Some s') /\
    um_rep s' l [] /\
    forall p, packet_ok p -> p_proto p = TCP -> verdict (input_chain (um_fw s')) p =
      if served_by cDstAddr (rows ALLOW_TELNET ++ rows ALLOW_FTP) p then Some ACCEPT
      else if to_service cDstAddr p then Some DENY else None.
Proof using Hmalloc.
  intros Hall Hq0 Hq Hmain Hserved Hfine Hlen.
  destruct (main_spec Hmalloc cDstAddr junk0 k) as (r & Hm & Hr). rewrite Hm in Hmain.
  injection Hmain as ->. destruct Hr as (base & Hr & Hbase). rewrite (Hbase (Hall _ _)) in Hr.
  destruct (requests_spec Hmalloc UM_DEBUG cDstAddr _ s _ [] (all_requests_ok Hfine) Hr)
    as (s' & l & Hs' & Hr' & _ & Hl).
  { pose proof all_requests_length. cbn [length start_table map] in *. lia. }
  exists s', l. split; [by rewrite start_is_requests with (junk := junk) (rows := rows) (pages := pages)|].
  split; [exact Hr'|]. intros p Hp Htcp. rewrite (ur_chain _ _ _ Hr'), app_nil_r, (Hl Hall).
  by apply all_rows_verdict.
Qed.
End Agent.
End Served.

(** ** Rows without an address

    The address of a row that has none stays a null pointer, whose octets are read for
    the rule unless the program is built for debugging: one such row that is in service
    is the end of the start. *)
Theorem row_without_address_crashes `{PacketFilter} `{Allocator} `{Session} host junk f oid fuel mems s a vs rest ty :
  allowed_table f = Some oid -> mems 0%nat = plenty junk -> al_octets a = [] -> in_use a = true ->
  shows_row oid a vs -> ty ∉ no_value ->
  getbulk 0 (columns_of oid) = Some (MkReply 0 0 ty (vs ++ rest)) ->
  UM_GetTableDetails false host (S fuel) mems f s = Crash.
Proof.
  intros Hoid Hmem Ho Hu (v1 & v2 & v3 & -> & (N1 & L1 & _) & E2 & E3) Hty Hget.
  unfold UM_GetTableDetails. rewrite Hoid. cbn [read_table]. rewrite Hget.
  unfold variables_of. cbn [errstat errindex reply_vars first_type app].
  change (negb (0 =? 0) || negb (0 =? 0)) with false. cbv iota.
  replace (existsb (Z.eqb ty) no_value) with false.
  2: { symmetry. apply not_true_iff_false. intros (x & Hx & Heq%Z.eqb_eq)%existsb_exists.
       apply Hty. rewrite Heq. by apply list_elem_of_In. }
  rewrite outcome_bind_ret. change MAX_REPETITIONS with 6%nat. cbn [read_rows].
  rewrite under_take, N1, take_app_length, bool_decide_eq_true_2, Hmem by done. cbn [negb m_row plenty].
  unfold fetch_address. rewrite L1, Ho. change (I16 (Z.of_nat (length (@nil Z))) =? 0) with true. cbv iota.
  rewrite outcome_bind_ret, (UM_GetIndex_row f oid 3 (al_index a)), outcome_bind_ret by (done || by apply table_of_tables).
  unfold number_or_missing. rewrite (proj2 E3). cbn [iStatus]. unfold in_use in Hu. apply negb_true_iff in Hu.
  by rewrite Hu.
Qed.

(** ** An agent with nine rows

    Seven clients of telnet, the fifth of which is not in service, one of FTP and one of
    SMTP; the table of POP3 is empty. *)
#[local] Existing Instances bump_allocator granting_filter granting_laws.

Definition telnet_client (i : Z) : allowed := MkAllowed i [10; 0; 0; i] 23 (if i =? 5 then 2 else 1).
Definition demo_rows (f : Z) : list allowed :=
  if f =? ALLOW_TELNET then map telnet_client [1; 2; 3; 4; 5; 6; 7]
  else if f =? ALLOW_FTP then [MkAllowed 1 client 21 1]
  else if f =? ALLOW_SMTP then [MkAllowed 1 client 25 1]
  else [].
Definition oid_of (f : Z) : list Z := default [] (allowed_table f).
Definition page_of_row (oid : list Z) (a : allowed) : list variable :=
  row_trap oid (al_index a) (al_octets a) (al_port a) (al_status a).
Definition demo_pages (f : Z) : list (list variable) := map (page_of_row (oid_of f)) (demo_rows f).
Definition demo_agent (f : Z) : Session :=
  agent_of MAX_REPETITIONS (columns_of (oid_of f)) (demo_pages f) [number_var (oid_of f) 4 1 23].

Lemma page_shows_row oid a : shows_row oid a (page_of_row oid a).
Proof.
  do 3 eexists. split; [reflexivity|]. unfold is_octets, is_number, address_var, number_var.
  cbn [name val_len val_string val_integer]. split_and!; try done. apply firstn_all.
Qed.

Lemma demo_served f : f ∈ start_order ->
  table_served demo_agent 8 (fun _ _ => plenty blank) (fun _ _ => blank) demo_rows demo_pages f.
Proof.
  intros Hf. exists (oid_of f). unfold start_order in Hf. rewrite !elem_of_cons, elem_of_nil in Hf.
  split_and!.
  - by destruct_or? Hf; subst f.
  - destruct_or? Hf; subst f; repeat constructor.
  - unfold demo_pages. clear Hf. induction (demo_rows f) as [|a rows IH]; constructor; [apply page_shows_row|done].
  - apply agent_serves; [by destruct_or? Hf; subst f; vm_compute|]. intros n Hn.
    destruct_or? Hf; subst f; vm_compute in Hn;
      do 8 (destruct n as [|n]; [(by left) || (right; by split; vm_compute) || lia|]); lia.
  - destruct_or? Hf; subst f; vm_compute; lia.
  - done.
Qed.

Lemma demo_fine f : f ∈ start_order -> Forall row_fine (demo_rows f).
Proof.
  unfold start_order. rewrite !elem_of_cons, elem_of_nil. intros Hf.
  destruct_or? Hf; subst f; apply (bool_decide_unpack _); by vm_compute.
Qed.

(** The client of the third row, also by another interface; the one whose row is not in
    service; and a client of FTP at the port of telnet. *)
Definition demo_packet (via : string) (src port : Z) : packet :=
  MkPacket (text_of via) src 167772169 TCP 40000 port true false.

Definition verdict_for (s : um) (via : string) (src port : Z) : option text :=
  verdict (input_chain (um_fw s)) (demo_packet via src port).

Lemma blank_quiet : quiet blank.
Proof. by split_and!. Defined.

Lemma started_host_serves_rows_witness : exists s',
  UM_StartUserMetering false host demo_agent 8 (fun _ _ => plenty blank) started = Ret (Some s') /\
  verdict_for s' "eth0" 167772163 23 = Some ACCEPT /\ verdict_for s' "eth1" 167772163 23 = None /\
  verdict_for s' "eth0" 167772165 23 = Some DENY /\ verdict_for s' "eth0" 167772163 21 = Some DENY /\
  verdict_for s' "eth0" 167772163 80 = None.
Proof.
  destruct (started_host_serves_rows bump_total false host demo_agent 8 (fun _ _ => plenty blank)
    (fun _ _ => blank) demo_rows demo_pages blanks no_rules started grants (fun _ => blank_quiet)
    (fun _ _ => blank_quiet)) as (s' & l & Hs' & _ & Hv).
  - apply started_main.
  - apply Forall_forall, demo_served.
  - apply demo_fine.
  - by vm_compute.
  - exists s'. split; [exact Hs'|]. unfold verdict_for.
    split_and!; (rewrite Hv; [by vm_compute|split; cbn; lia|done]).
Defined.

Lemma row_without_address_crashes_witness :
  @UM_GetTableDetails _ _ false host (agent_of MAX_REPETITIONS (columns_of allowFTPTable_variables_oid)
      [page_of_row allowFTPTable_variables_oid (MkAllowed 1 [] 21 1)] []) 1 (fun _ => plenty blank) ALLOW_FTP
      started = Crash.
Proof.
  eapply (row_without_address_crashes host blank ALLOW_FTP allowFTPTable_variables_oid 0 _ started
    (MkAllowed 1 [] 21 1) (page_of_row allowFTPTable_variables_oid (MkAllowed 1 [] 21 1)) [] 4);
    [done..|apply page_shows_row|by apply (bool_decide_unpack _)|done].
Defined.
